(* ===== verification/_CoqProject ===== *)
-Q . S2P
Prelude.v
Checksum.v
NvFs.v
NvBuf.v
NvPacket.v
NvSync.v
NvThreads.v
NvMain.v
Hdlc.v
WcndSm.v
WcndCmd.v
DmMd5.v
DmBase64.v
DmNum.v
DmCred.v
MsgRing.v
IspMsg.v
CmrMsg.v
CmrThread.v
JpegHead.v
JpegEnc.v
JpegSafe.v
JpegRt.v
JpegVld.v
EngFrame.v
EngText.v
EngSys.v
EngCmd.v
EngAdc.v
EngReply.v
EngProd.v
EngDiag.v
EngFile.v
EngLink.v
ModemBoot.v
ModemCtl.v
WcnDl.v
RfParam.v
RfCali.v
Modemd.v
ModemdDet.v
