(* ===== verification/Prelude.v ===== *)
(** * Verification of the Spreadtrum vendor services

    The tree holds the user-space services, HALs and drivers a Spreadtrum
    phone adds to Android.  This development models the services that carry
    logic of their own between the application processor and the modems:

    - the NV server ([apps/nvitem]), which keeps the modem's non-volatile
      data: it receives updates in packets over a channel, assembles them to
      transactions, keeps three copies of each partition and saves them to two
      image files per partition from a second thread;
    - the checksums and CRCs of those links ([apps/nvitem/nvitem_common.c],
      [apps/nvitem/nvitem_fs.c], [apps/modem_control/crc16.c], which
      [apps/download/crc16.c] repeats, and the table CRC that
      [apps/engmode/crc16.c] repeats);
    - the modem control service ([apps/modem_control]): the packet layer to the
      modem's boot ROM ([packet.c] and its variant [apps/download/packet.c]), the
      boot sequence that sends loader and images ([modem_boot.c]), and the service
      that follows the modem's state and tells its clients ([main.c]);
    - the modem supervisor ([apps/modemd]): it starts and stops the services of
      each modem and sets the modem up with AT commands ([modemd.c]), watches an
      internal modem and loads its images again ([modemd_sipc.c]), and reacts to what
      modem control broadcasts about an external one ([modemd_ext.c]);
    - the engineering service ([apps/engmode]), which a test tool on the PC
      talks to: the framing, AT tokens and commands, calibration, production
      data, file transfer, and the routing of frames between the application
      processor and the modem;
    - the connectivity daemon ([apps/wcnd]): the power state machine of the
      processor CP2 ([wcnd_sm.c]) and, around it, the command lines of clients
      and of the daemon itself, AT commands, start, stop and reset of CP2
      ([wcnd.c], [wcnd_cmd.c], [wcnd_worker.c], [wcnd_download.c]), and the
      download service behind it that boots the chip ([apps/download/download.c]);
    - the credential computation of the OMA device-management client
      ([libs/libdm/src/sprd_dm_md5_b64.c], and [MMIDM_B64_Md5] and
      [MMIDM_GetCreddata] of [sprd_dm_parsexml.c]);
    - the message queues and worker threads on which all modules of the camera
      HAL run ([libs/libcamera/common/src/cmr_msg.c], and the ISP's
      [isp1.0/isp_msg.c] and [isp1.0/isp_app_msg.c]);
    - the header of the camera's JPEG codec ([libs/libcamera/jpeg/jpeg_fw_8830]):
      the decoder's parser of untrusted files ([jpegdec_parse.c] with the byte
      reader and the allocator) and the encoder's writer ([jpegenc_header.c]), and the set-up of the
      hardware's Huffman decoder from the tables read ([jpegdec_vld.c]).

    ** Files

    - [Prelude.v] (this file): machine integers as [Z] with written-out wraps
      ([u8], [u16], [u32], [s32]), the operators .| .& .^ .<< .>> in
      [sprd_scope], bit-level automation ([bitwise] with the rewrite base
      [testbit]), checked memory ([mem_read], [mem_write], [None] is an access
      outside the buffer), little-endian words, list lemmas.
    - [Checksum.v]: [calc_Checksum]/[calc_checksum]/[frm_chk]/[boot_checksum]
      (one's-complement sums), [crc_16_l_calc] (bitwise CRC-CCITT) and
      [calculate_crc] (table CRC-16).
    - [NvFs.v]: [nvitem_fs.c].  The file system is a map from paths to contents
      with a log of truncations, appends and [fsync]s; opens for writing may fail
      and files may be full.  [ramDisk_Init], [ramDisk_Read], [ramDisk_Write]; after
      a power cut ([power_cut]) a file with an operation that no [fsync] followed
      holds anything.
    - [NvBuf.v]: [nvitem_buf.c].  The record [part_ctrl] has the three buffers
      (fromChannel, backup, toDisk), each with data, dirty table and checksum;
      [nvw] is the module's state with the disk.  One definition per function;
      a reset of the program or an access outside a buffer is [None].
    - [NvPacket.v]: [nvitem_packet.c] and the reads of the channel.
    - [NvSync.v]: [nvitem_sync.c], the transaction protocol: tokens, data,
      reset, the packet loop, and the serving loop of [nvitem_server.c].
    - [NvThreads.v]: the two threads of [nvitem_server.c] and the event of
      [nvitem_os.c] as an interleaving of atomic steps.
    - [NvMain.v]: the start: [main] of [nvitem_server.c] up to its loop and
      [initArgs] of [nvitem_fs.c], over the property service (a parameter).
    - [Hdlc.v]: [packet.c], both variants: escaping, packet set-up, and the
      message exchanges against scripted read and write results.
    - [WcndSm.v]: [wcnd_sm.c], the client notification and the commands that
      reach the state machine; [WcndCmd.v]: the rest of the daemon: cutting and
      splitting command lines, the executers, AT commands, the attempts to
      start CP2, the socket pair as a stream of bytes, one round of the
      listening thread.  Results of devices come from a script.
    - [DmMd5.v], [DmBase64.v], [DmNum.v]: the digest, base64 and numerals of
      [sprd_dm_md5_b64.c]; [DmCred.v]: the credential built from them.
    - [MsgRing.v]: the ring buffer the three queues share ([msg_cxt], with its
      mutex and semaphore), the abstract bounded queue ([Spec]), the interface
      between them (classes [MsgQueue], [RoomLaws], [FifoLaws]) and the
      refinement proved once against the interface.
    - [IspMsg.v]: [isp_msg.c] (module [Isp]) and [isp_app_msg.c], which has no
      count of messages (module [IspApp]), as instances.
    - [CmrMsg.v]: [cmr_msg.c]: queue with synchronous posts, timed get, worker
      thread; [CmrThread.v]: the same operations cut at the points where
      threads can interleave, as a transition system with any number of
      posting threads and the worker.
    - [JpegHead.v]: the header parser as functions of a parser monad whose
      results are success, failure, or an access C leaves undefined;
      [JpegSafe.v]: a program logic for it, with the safety and buffering
      theorems; [JpegEnc.v]: the header writer; [JpegRt.v]: the round trip;
      [JpegVld.v]: the Huffman tables for the decoder's hardware
      ([jpegdec_vld.c]), register writes being a log.
    - [EngFrame.v]: escapes, header and number formats of the diagnostic frames
      ([eng_diag.c], [adc_calibration.c]); [EngText.v]: strings in buffers and
      the AT tokenizer ([eng_attok.c]); [EngSys.v]: the state the handlers act on
      (files, properties, commands, the PC) and their monad [M]; [EngCmd.v]:
      AT commands and address files ([eng_cmd4linuxhdlr.c], [eng_btwifiaddr.c]);
      [EngAdc.v]: [adc_calibration.c]; [EngReply.v], [EngProd.v]: the handlers of
      [eng_diag.c] with one answer and those for production data
      ([eng_productdata.c]); [EngDiag.v]: parsing and dispatch; [EngFile.v]: the
      theorems on file transfer; [EngLink.v]: the receiving thread of [vdiag.c].
    - [ModemBoot.v]: [modem_boot.c] over the messages of [Hdlc.v], in the monad
      [B] on the record [boot]; [ModemCtl.v]: [main.c], client tables, broadcasts
      and the modem's states, over [ModemBoot.v], and the statements of an add and a
      close of a client as steps that the two threads interleave ([overlap]).
    - [WcnDl.v]: [apps/download/download.c]: the requests of wcnd, the download to
      the chip over the packet layer of [apps/download] and the answers, in the monad
      [P] on the record [pmanager]; the RF parameters are a parameter.
    - [RfParam.v]: [apps/download/connectivity_rf_parameters.c]: the RF parameter
      structs with their layout, the tables of names, the parser of the text files
      and the writer of the calibration file; [RfCali.v]: a calibration of [WcnDl]
      with these files.
    - [Modemd.v]: [modemd.c]: services (as requests to init in a log), AT commands,
      IMEIs, the start of a modem, in the monad [Sv] on the record [md], whose
      results are a value, the exit of the process, a call that does not return, or
      a read behind a buffer; [ModemdDet.v]: clients, image loading and one step per
      pass of the detection threads ([sipc_step], [blocked_step], [control_step]),
      with frame lemmas for the modems' states, over [Modemd.v] and [ModemCtl.v].

    Every operation is an executable function on explicit state; the C
    identifiers are kept.  [unsigned long] has 32 bits and [char] is unsigned
    (32-bit ARM).

    ** What the theorems show

    - Transactions (C1, C2, C23, C27): along every run of the server on input
      whose handling C defines, data reach the committed copy only with the tail
      token of their transaction, as whole transactions, and a broken one is rolled
      back; a complete transaction, cut into packets at token boundaries, is
      committed with the right bytes; the loop over a packet that announces no more
      bytes than it has terminates; exactly which packets are accepted, huge sizes
      that pass the signed test among them.
    - Persistence (C3, C4, C25): saving is atomic with respect to power cuts at
      every point, whatever becomes of data that were not forced to the medium, if
      damage shows in the checksum; a saving pass writes every dirty partition; written images
      read back; dirty bits are exactly the marked sectors
      ([markDirtyInfo_exact]); C15: from the properties of its modem the server
      comes up well-formed and stays so, and C24: every operation keeps it so
      ([initBuf_wf], [initArgs_safe]).
    - The two threads (C5, C6): from a start in sync and while the images can be
      written, in every interleaving committed data that are not on disk stay
      marked, and a pass of the saving thread saves them.
    - Camera queues: the operations of each queue implement the bounded queue
      (C8, [isp_queue_refines], and [app_queue_room] as long as a slot is left);
      a thread is created, handles what it is sent in order and is destroyed
      ([thread_lifecycle]); in every interleaving messages are handled in the order of
      acceptance, once each, without access outside the slots (C7); a synchronous
      post of a single poster returns only after its message was received or
      processed (C28) and does return (C29).
    - JPEG headers: the parser terminates on every input and its tables are
      accessed in bounds, with the list of accesses that are not (C10,
      [ParseHead_undefined]); its result does not depend on buffering (C11); it
      reads back what the encoder writes (C9).  The registers and the look-up
      table computed for the hardware decode every code of the tables (C12), and
      the precomputed ones are those of the standard's tables (C13).
    - Modem boot (C26): with a boot ROM and loader that answer as they
      should, the boot sequence ends and exactly the loader, the mode switch, every image of
      the mode, padded, and the execute message were sent; the framing is HDLC
      ([translate_is_hdlc]) and the receiver inverts it on packets without
      0x7D ([untranslate_translate]).
    - Modem control: each operation on the client tables, run alone, keeps the two
      tables and [select]'s set in agreement ([tables_ok] with [add_client_ok] and
      [close_client_ok]), but the watch table is not protected by the mutex: C31
      gives the interleaving of an add and a close in which a new client is lost.
      A broadcast returns, reaches every client whose write succeeds and drops
      exactly the others ([broadcast_delivers]).
    - Modem supervision: a modem that answers its AT commands is started with
      exactly its services, and a stop takes exactly them down (C39, but for three
      SIMs); an internal modem that resets, with the reset property set, is loaded,
      started and ready again, and its clients know (C21); for an external modem the loop over both processes closes: what modem
      control broadcasts about a reset makes the supervisor stop the services and
      ask for a reload, which modem control carries out (C30).
    - Engineering service: a production record that is stored over the link is
      read back (C16); frames for the modem pass unchanged however the
      reads cut them (C17); answers have the type, length and framing of their
      request (C18); files of fewer than 2^31 bytes transferred in pieces, to a PC
      that takes every frame and from a state without an unfinished transfer, are
      the files (C19, C20); the
      product area ([product_area_write]) and the calibration record (C22) keep what
      was written.
    - The connectivity daemon (C14, C33, C34): along every run the state, the
      services and the commands the daemon sends itself follow a table; the bytes
      of a client's open command lead, over the command the daemon sends itself, to
      a started CP2 exactly when one of four attempts succeeds, else to a refusal,
      and the client is told which; arguments survive quoting and splitting
      ([tokenize_roundtrip]); an AT command gets one reply and is written to CP2,
      ended by a carriage return, exactly when CP2 can take it.  C38: its request to restart the
      chip is served by the download service end to end, and the answer is the one
      with which wcnd reports success; [power_requests_answered]: start and stop
      requests are answered at once.  C32: the calibration the chip answers with can
      be read back from the write-back file, and from no other: what the service reads
      at its next start is unchanged; the text always fits its buffer
      ([cali_text_fits]).
    - Device management (C35 to C37): MD5 by chunks is RFC 1321 (with the
      constants derived from the sine), base64 round trips, the decoder is memory
      safe on every input ([decode_safe]), the credential is the documented
      formula for nonces of 16 to 45 bytes; [iu32_roundtrip]: numerals round trip.
    - Checksums: the CRC is the remainder of its polynomial
      ([crc_16_l_residue]); the three sums agree ([checksums_agree]) and detect
      every change of one byte ([checksum_detects_byte]).
    - Defects, as theorems about what the code does instead: C40 (a long
      request blocks the diagnostic link), C31 (a new client is lost), and in their
      components [left_dump_flag],
      [ramDisk_Read_wipes_image], [ramDisk_Write_silent_failure],
      [save_not_retried], [split_token_lost], [token_boundary_unanswered],
      [wakeup_lost], [pending_never_cleared], [close_while_starting_lost],
      [self_commands_joined], [sync_handshake_races], [creddata_nonce_lost],
      [untranslate_truncates], [short_write_resends], [app_overflow_loses],
      [app_peak_deadlocks], [build_hufftab_DC_overrun], [main_argv1_overrun],
      [longest_message_dropped], [second_frame_lost], [adc_failure_hidden],
      [version_request], [configured_images_skipped], [second_request_lost],
      [third_sim_left], [tl_blocked_once], [watchdog_deaf],
      [long_assert_undefined], [saved_file_not_read], [hex_word_clamped],
      [reserved_w32_unreachable], [long_list_overwrites], [long_name_undefined].

    ** Fuel and bounds

    Loops of the C code are structural recursions where the data allow it.
    These are given fuel: [mark_loop] (one unit per word of the dirty table),
    [sync_loop] ([sync_fuel] = twice the packet's bytes plus two; C23 proves
    that it never runs out for packets that announce what fits in them), and [update_loop] and [enc_loop] of the digest
    and the encoder (at least one unit per block or quad; the theorems prove
    that they return).  [count_digits] gets 32 units, one per bit.  The marker
    loops of the JPEG parser get one unit per byte that is left, its table loops
    one per byte of the segment's length; running out of it is the result
    [PUndef UFuel], which C10 excludes.  [make_codes] gets one unit per symbol and
    one per code length; C12 proves that it returns.  The
    escape loops of the diagnostic frames get one unit per byte (the encoder two),
    the loop that sends a file one per byte and one more, the scan of register
    values 4096 units (the size of its text).  In the boot sequence the loops that
    wait for the other side are bounded by the scripts of its answers, the loop
    over packets by their number, the loop that loads the loader by its size and
    one more; C26 proves that they return.  The same holds of the download service:
    its waits are bounded by the scripts of the clock, of opens and of properties,
    the calibration exchange by the 2001 reads of the code; C38 proves that it
    returns.  In the supervisor every loop that waits recurses on the script of
    what it waits for, and the copy of an image gets one unit per byte and one more;
    C39 and C21 prove that they return.

    ** Not modelled

    The opening of the channels, logging; of wcnd the threads that watch CP2 and
    check it in a loop, the waits and kills before a reset and the engineering
    libraries behind the executer "eng"; of the engineering service the forwarding
    of logs, the database, the automatic and hardware tests, audio, and the test
    modes of radio chips (parameters of the dispatcher where it calls them); of
    modem control the settings of the serial line and the functions nothing calls
    ([get_modem_images_info_bak], [modemd_listen_uart_thread],
    [hard_reset_modem], [reset_modem_if_assert]); of the download service the
    set-up of its log socket; of the supervisor the variant for a modem in a
    virtual machine ([modemd_vlx.c], which [start_modem] cannot reach), the loops
    that connect to sockets, and sleeps; the XML part of libdm; of the JPEG codec the
    entropy-coded data (decoded by hardware), the EXIF segment and the progressive
    decoder (not compiled); and the rest of the tree: camera modules above the
    queues, sensor tables, audio, GPU and sensor HALs, codecs, factory test, IPv6
    daemons (derived from KAME and radvd) and tools, which are vendored, tables of
    register values or glue around kernel devices.  A pass of a supervisor or service
    thread is one step: threads of these services are not interleaved inside it, as
    those of the NV server and of the camera queues are.  Modem control is the
    exception where it matters: the theorems on [serve_round], [main_step] and the
    broadcast are about passes during which the other thread does not touch the
    client tables, and C31 is about what happens when it does.  Sizes of transferred
    files and [s_cur_filepos] are [int]s ([s32]). *)

From stdpp Require Export prelude list_numbers gmap strings.
From Stdlib Require Export Lia ZArith.

#[global] Open Scope Z_scope.

#[global] Arguments Z.eqb : simpl never.
#[global] Arguments Z.leb : simpl never.
#[global] Arguments Z.ltb : simpl never.
#[global] Arguments Z.lor : simpl never.
#[global] Arguments Z.lxor : simpl never.
#[global] Arguments Z.land : simpl never.
#[global] Arguments Z.shiftl : simpl never.
#[global] Arguments Z.shiftr : simpl never.
#[global] Arguments Z.testbit : simpl never.

(** ** Machine integers

    A [w]-bit unsigned integer is a [Z] in [0, 2^w); every arithmetic
    operation of the C code that can leave that range is followed by the wrap
    the C type prescribes.  [unsigned long] is 32 bits wide: all the modelled
    services are built for the 32-bit ARM targets of the tree. *)

Definition u8 (z : Z) : Z := z mod 256.
Definition u16 (z : Z) : Z := z mod 65536.
Definition u32 (z : Z) : Z := z mod 4294967296.

#[global] Arguments u8 : simpl never.
#[global] Arguments u16 : simpl never.
#[global] Arguments u32 : simpl never.

(** The value of [l !!! i] outside a list of integers is 0. *)
#[global] Instance Z_inhabited_zero : Inhabited Z | 0 := populate 0.

(** Conversion of an unsigned 32-bit pattern to [int]. *)
Definition s32 (z : Z) : Z :=
  if u32 z <? 2147483648 then u32 z else u32 z - 4294967296.

(** C truth value of a comparison. *)
Definition b2z (b : bool) : Z := if b then 1 else 0.

(** A byte of memory and a buffer of bytes. *)
Abbreviation is_byte := (fun b : Z => 0 <= b < 256).
Abbreviation bytes := (Forall is_byte).

Declare Scope sprd_scope.
Delimit Scope sprd_scope with sprd.
Notation "x .| y" := (Z.lor x y) (at level 50, left associativity) : sprd_scope.
Notation "x .& y" := (Z.land x y) (at level 45, left associativity) : sprd_scope.
Notation "x .^ y" := (Z.lxor x y) (at level 48, left associativity) : sprd_scope.
Notation "x .<< y" := (Z.shiftl x y) (at level 42, left associativity) : sprd_scope.
Notation "x .>> y" := (Z.shiftr x y) (at level 42, left associativity) : sprd_scope.
#[global] Open Scope sprd_scope.

Create HintDb sprd.
Create Rewrite HintDb sprd.

(** [zlia] is [lia] with the defining equations of division and modulo. *)
Ltac zlia := Z.div_mod_to_equations; lia.

(** [mint] unfolds the wraps. *)
Ltac mint := unfold u8, u16, u32, s32, b2z in *.

Lemma u8_range z : 0 <= u8 z < 256.
Proof. mint. zlia. Qed.
Lemma u16_range z : 0 <= u16 z < 65536.
Proof. mint. zlia. Qed.
Lemma u32_range z : 0 <= u32 z < 4294967296.
Proof. mint. zlia. Qed.

Lemma u8_small z : 0 <= z < 256 -> u8 z = z.
Proof. intros. mint. zlia. Qed.
Lemma u16_small z : 0 <= z < 65536 -> u16 z = z.
Proof. intros. mint. zlia. Qed.
Lemma u32_small z : 0 <= z < 4294967296 -> u32 z = z.
Proof. intros. mint. zlia. Qed.

Lemma s32_small z : 0 <= z < 2147483648 -> s32 z = z.
Proof. intros. unfold s32. rewrite u32_small by lia. destruct (Z.ltb_spec z 2147483648); lia. Qed.

Lemma u32_add_l a b : u32 (u32 a + b) = u32 (a + b).
Proof. mint. apply Zplus_mod_idemp_l. Qed.

#[export] Hint Resolve u8_range u16_range u32_range : sprd.
#[export] Hint Rewrite u8_small u16_small u32_small using lia : sprd.

(** ** Bit-level reasoning *)

Lemma land_ones_mod z n : 0 <= n -> z .& Z.ones n = z mod 2 ^ n.
Proof. intros. by rewrite Z.land_ones. Qed.

Lemma land_ffff z : z .& 65535 = u16 z.
Proof. change 65535 with (Z.ones 16). by rewrite Z.land_ones. Qed.

Lemma land_ff z : z .& 255 = u8 z.
Proof. change 255 with (Z.ones 8). by rewrite Z.land_ones. Qed.

Lemma testbit_high z n i : 0 <= z < 2 ^ n -> 0 <= n <= i -> Z.testbit z i = false.
Proof.
  intros Hz Hn. rewrite <- (Z.mod_small z (2 ^ n)) by lia.
  rewrite Z.mod_pow2_bits_high by lia. done.
Qed.

Lemma testbit_mod_pow2 z n i :
  0 <= n -> 0 <= i -> Z.testbit (z mod 2 ^ n) i = (i <? n) && Z.testbit z i.
Proof.
  intros. destruct (Z.ltb_spec i n).
  - by rewrite Z.mod_pow2_bits_low by lia.
  - by rewrite Z.mod_pow2_bits_high by lia.
Qed.

Lemma testbit_u8 z i : 0 <= i -> Z.testbit (u8 z) i = (i <? 8) && Z.testbit z i.
Proof. intros. unfold u8. change 256 with (2 ^ 8). by apply testbit_mod_pow2. Qed.
Lemma testbit_u16 z i : 0 <= i -> Z.testbit (u16 z) i = (i <? 16) && Z.testbit z i.
Proof. intros. unfold u16. change 65536 with (2 ^ 16). by apply testbit_mod_pow2. Qed.
Lemma testbit_u32 z i : 0 <= i -> Z.testbit (u32 z) i = (i <? 32) && Z.testbit z i.
Proof. intros. unfold u32. change 4294967296 with (2 ^ 32). by apply testbit_mod_pow2. Qed.

Lemma testbit_shiftl z n i :
  0 <= i -> Z.testbit (z .<< n) i = (n <=? i) && Z.testbit z (i - n).
Proof.
  intros. rewrite Z.shiftl_spec by lia. destruct (Z.leb_spec n i); simpl; [done|].
  by rewrite Z.testbit_neg_r by lia.
Qed.

Lemma testbit_shiftr z n i : 0 <= i -> Z.testbit (z .>> n) i = Z.testbit z (i + n).
Proof. intros. by rewrite Z.shiftr_spec by lia. Qed.

Create Rewrite HintDb testbit.
#[export] Hint Rewrite Z.lxor_spec Z.land_spec Z.lor_spec : testbit.
#[export] Hint Rewrite testbit_u8 testbit_u16 testbit_u32 testbit_shiftl testbit_shiftr
  using lia : testbit.

(** Equality of integers by comparing every bit. *)
Ltac bitwise i Hi :=
  apply Z.bits_inj'; intros i Hi; autorewrite with testbit.

Lemma lxor_bound n a b :
  0 <= n -> 0 <= a < 2 ^ n -> 0 <= b < 2 ^ n -> 0 <= Z.lxor a b < 2 ^ n.
Proof.
  intros Hn Ha Hb.
  assert (Z.lxor a b mod 2 ^ n = Z.lxor a b) as <-; [|apply Z.mod_pos_bound; lia].
  bitwise i Hi. rewrite testbit_mod_pow2, Z.lxor_spec by lia.
  destruct (Z.ltb_spec i n); simpl; [done|].
  by rewrite !(testbit_high _ n) by lia.
Qed.

Lemma lor_bound n a b :
  0 <= n -> 0 <= a < 2 ^ n -> 0 <= b < 2 ^ n -> 0 <= Z.lor a b < 2 ^ n.
Proof.
  intros Hn Ha Hb.
  assert (Z.lor a b mod 2 ^ n = Z.lor a b) as <-; [|apply Z.mod_pos_bound; lia].
  bitwise i Hi. rewrite testbit_mod_pow2, Z.lor_spec by lia.
  destruct (Z.ltb_spec i n); simpl; [done|].
  by rewrite !(testbit_high _ n) by lia.
Qed.

(** A disjoint [or] is a sum. *)
Lemma lor_add a b n : 0 <= n -> 0 <= a < 2 ^ n -> a .| (b .<< n) = a + b * 2 ^ n.
Proof.
  intros Hn Ha. pose proof (Z.add_lor_land a (b .<< n)) as H.
  pose proof (Z.shiftl_mul_pow2 b n Hn) as H1.
  assert (a .& (b .<< n) = 0) as H0; [|lia].
  bitwise i Hi. rewrite Z.bits_0. destruct (Z.leb_spec n i); simpl; [|by rewrite andb_false_r].
  by rewrite (testbit_high _ n) by lia.
Qed.

(** ** Memory: byte buffers with checked accesses

    A buffer is the list of its bytes.  An access outside it is undefined in
    C; it is [None] here, so a theorem that an operation returns [Some] also
    says that it stays inside its buffers. *)

Definition mem_read (m : list Z) (off len : Z) : option (list Z) :=
  if decide (0 <= off /\ 0 <= len /\ off + len <= Z.of_nat (length m))
  then Some (take (Z.to_nat len) (drop (Z.to_nat off) m)) else None.

Definition splice (m : list Z) (off : nat) (d : list Z) : list Z :=
  take off m ++ d ++ drop (off + length d) m.

Definition mem_write (m : list Z) (off : Z) (d : list Z) : option (list Z) :=
  if decide (0 <= off /\ off + Z.of_nat (length d) <= Z.of_nat (length m))
  then Some (splice m (Z.to_nat off) d) else None.

Lemma splice_length m off d :
  (off + length d <= length m)%nat -> length (splice m off d) = length m.
Proof. intros. unfold splice. rewrite !length_app, length_take, length_drop. lia. Qed.

Lemma splice_lookup m off d i :
  (off + length d <= length m)%nat ->
  splice m off d !! i =
    if decide (off <= i < off + length d)%nat then d !! (i - off)%nat else m !! i.
Proof.
  intros Hl. unfold splice. case_decide as Hi.
  - rewrite lookup_app_r by (rewrite length_take; lia).
    rewrite length_take, Nat.min_l by lia.
    rewrite lookup_app_l by lia. done.
  - destruct (decide (i < off)%nat).
    + rewrite lookup_app_l by (rewrite length_take; lia). by rewrite lookup_take_lt by lia.
    + rewrite lookup_app_r by (rewrite length_take; lia).
      rewrite length_take, Nat.min_l by lia.
      rewrite lookup_app_r by lia. rewrite lookup_drop. f_equal. lia.
Qed.

Lemma splice_bytes m off d : bytes m -> bytes d -> bytes (splice m off d).
Proof.
  intros. unfold splice. repeat apply Forall_app_2; auto using Forall_take, Forall_drop.
Qed.

Lemma splice_splice m a d1 d2 :
  (a + length d1 <= length m)%nat ->
  splice (splice m a d1) (a + length d1) d2 = splice m a (d1 ++ d2).
Proof.
  intros H. unfold splice at 1 3. rewrite length_app.
  assert (length (take a m ++ d1) = (a + length d1)%nat) as Hl by (rewrite length_app, length_take; lia).
  unfold splice. rewrite !app_assoc. f_equal; [f_equal|].
  - rewrite <- (app_assoc _ d1). rewrite app_assoc, <- Hl, take_app_length. done.
  - rewrite <- Hl, <- drop_drop, drop_app_length, drop_drop. f_equal. lia.
Qed.

Lemma splice_nil m off : splice m off [] = m.
Proof. unfold splice. simpl. rewrite Nat.add_0_r. apply take_drop. Qed.

Lemma mem_write_Some m off d m' :
  mem_write m off d = Some m' ->
  0 <= off /\ off + Z.of_nat (length d) <= Z.of_nat (length m) /\
  m' = splice m (Z.to_nat off) d.
Proof. unfold mem_write. case_decide; intros; simplify_eq. naive_solver lia. Qed.

Lemma mem_write_ok m off d :
  0 <= off -> off + Z.of_nat (length d) <= Z.of_nat (length m) ->
  mem_write m off d = Some (splice m (Z.to_nat off) d).
Proof. intros. unfold mem_write. by rewrite decide_True by lia. Qed.

Lemma mem_write_length m off d m' : mem_write m off d = Some m' -> length m' = length m.
Proof.
  intros (Hoff & Hlen & ->)%mem_write_Some. apply splice_length. lia.
Qed.

Lemma mem_read_length m off len d :
  mem_read m off len = Some d -> Z.of_nat (length d) = len.
Proof.
  unfold mem_read. case_decide; intros; simplify_eq.
  rewrite length_take, length_drop. lia.
Qed.

Lemma mem_read_bytes m off len d : bytes m -> mem_read m off len = Some d -> bytes d.
Proof.
  unfold mem_read. intros. case_decide; simplify_eq. auto using Forall_take, Forall_drop.
Qed.

Lemma mem_read_nat m off len :
  (off + len <= length m)%nat -> mem_read m (Z.of_nat off) (Z.of_nat len) = Some (take len (drop off m)).
Proof. intros. unfold mem_read. rewrite decide_True by lia. by rewrite !Nat2Z.id. Qed.

Lemma mem_write_nat m off d :
  (off + length d <= length m)%nat -> mem_write m (Z.of_nat off) d = Some (splice m off d).
Proof. intros. unfold mem_write. rewrite decide_True by lia. by rewrite Nat2Z.id. Qed.

Lemma mem_read_prefix m len :
  0 <= len <= Z.of_nat (length m) -> mem_read m 0 len = Some (take (Z.to_nat len) m).
Proof. intros. unfold mem_read. rewrite decide_True by lia. by rewrite drop_0. Qed.

(** ** Little-endian words in memory *)

Definition st16 (z : Z) : list Z := [u8 z; u8 (z .>> 8)].
Definition st32 (z : Z) : list Z := [u8 z; u8 (z .>> 8); u8 (z .>> 16); u8 (z .>> 24)].

(** The 16-bit and 32-bit word at byte offset [off]; bytes outside read as 0
    (every use is guarded by a length check). *)
Definition ld16 (m : list Z) (off : nat) : Z :=
  (m !!! off) .| ((m !!! (off + 1)%nat) .<< 8).
Definition ld32 (m : list Z) (off : nat) : Z :=
  (m !!! off) .| ((m !!! (off + 1)%nat) .<< 8) .| ((m !!! (off + 2)%nat) .<< 16)
    .| ((m !!! (off + 3)%nat) .<< 24).

Lemma st16_bytes z : bytes (st16 z).
Proof. unfold st16. repeat constructor; apply u8_range. Qed.
Lemma st32_bytes z : bytes (st32 z).
Proof. unfold st32. repeat constructor; apply u8_range. Qed.

Lemma ld16_st16 z : ld16 (st16 z) 0 = u16 z.
Proof.
  unfold ld16, st16. simpl. bitwise i Hi.
  destruct (Z.ltb_spec i 16), (Z.ltb_spec i 8), (Z.leb_spec 8 i); simpl; try lia;
    rewrite ?orb_false_r; try done;
    try (autorewrite with testbit; destruct (Z.ltb_spec (i - 8) 8); simpl; try lia; try done; f_equal; lia).
Qed.

Lemma word16_arith a b : 0 <= a < 256 -> a .| (b .<< 8) = a + 256 * b.
Proof. intros. rewrite lor_add by (change (2 ^ 8) with 256; lia). change (2 ^ 8) with 256. lia. Qed.

Lemma word32_arith a b c d :
  0 <= a < 256 -> 0 <= b < 256 -> 0 <= c < 256 ->
  a .| (b .<< 8) .| (c .<< 16) .| (d .<< 24) = a + 256 * b + 65536 * c + 16777216 * d.
Proof.
  intros. rewrite word16_arith by lia.
  rewrite (lor_add _ c 16) by (change (2 ^ 16) with 65536; lia). change (2 ^ 16) with 65536.
  rewrite (lor_add _ d 24) by (change (2 ^ 24) with 16777216; lia). change (2 ^ 24) with 16777216. lia.
Qed.

Lemma shiftr_div z n : 0 <= n -> z .>> n = z / 2 ^ n.
Proof. apply Z.shiftr_div_pow2. Qed.

Lemma ld32_st32 z : ld32 (st32 z) 0 = u32 z.
Proof.
  unfold ld32, st32. simpl. rewrite word32_arith by apply u8_range.
  rewrite !shiftr_div by lia. change (2 ^ 8) with 256. change (2 ^ 16) with (256 * 256).
  change (2 ^ 24) with (256 * 256 * 256). mint. rewrite (Z.mod_eq z 4294967296) by lia.
  change (z / 4294967296) with (z / (256 * 256 * 256 * 256)).
  rewrite <- !Z.div_div by lia. zlia.
Qed.

Lemma lookup_total_app_l_Z (l1 l2 : list Z) i :
  (i < length l1)%nat -> (l1 ++ l2) !!! i = l1 !!! i.
Proof. intros. by rewrite lookup_total_app_l. Qed.

Lemma ld32_app_l l1 l2 off : (off + 4 <= length l1)%nat -> ld32 (l1 ++ l2) off = ld32 l1 off.
Proof. intros. unfold ld32. by rewrite !lookup_total_app_l by lia. Qed.

Lemma ld32_app_r l1 l2 off :
  (length l1 <= off)%nat -> ld32 (l1 ++ l2) off = ld32 l2 (off - length l1).
Proof.
  intros. unfold ld32. rewrite !lookup_total_app_r by lia. repeat f_equal; lia.
Qed.

Lemma ld16_app_l l1 l2 off : (off + 2 <= length l1)%nat -> ld16 (l1 ++ l2) off = ld16 l1 off.
Proof. intros. unfold ld16. by rewrite !lookup_total_app_l by lia. Qed.

Lemma ld32_range m off : bytes m -> 0 <= ld32 m off < 4294967296.
Proof.
  intros Hm. unfold ld32.
  assert (forall i, 0 <= m !!! i < 256) as Hb.
  { intros i. destruct (m !! i) as [b|] eqn:E.
    - rewrite (list_lookup_total_correct _ _ _ E). by eapply (Forall_lookup_1 is_byte).
    - rewrite list_lookup_total_alt, E. simpl. lia. }
  rewrite word32_arith by auto.
  pose proof (Hb off). pose proof (Hb (off + 1)%nat). pose proof (Hb (off + 2)%nat).
  pose proof (Hb (off + 3)%nat). lia.
Qed.

(** ** Lists *)

Lemma take_app_exact {A} (l1 l2 : list A) n : n = length l1 -> take n (l1 ++ l2) = l1.
Proof. intros ->. apply take_app_length. Qed.

Lemma drop_app_exact {A} (l1 l2 : list A) n : n = length l1 -> drop n (l1 ++ l2) = l2.
Proof. intros ->. apply drop_app_length. Qed.

(** [list_or t s] is the element-wise [or] of two equally long tables. *)
Definition list_or : list Z -> list Z -> list Z := zip_with Z.lor.

Lemma list_or_length t s : length t = length s -> length (list_or t s) = length t.
Proof. intros. unfold list_or. rewrite length_zip_with. lia. Qed.

Lemma list_or_lookup_total t s i :
  length t = length s -> list_or t s !!! i = (t !!! i) .| (s !!! i).
Proof.
  intros Hl. rewrite !list_lookup_total_alt. unfold list_or. rewrite lookup_zip_with.
  destruct (t !! i) as [a|] eqn:E1; simpl.
  - destruct (s !! i) as [b|] eqn:E2; simpl; [done|].
    apply lookup_ge_None in E2. apply lookup_lt_Some in E1. lia.
  - destruct (s !! i) as [b|] eqn:E2; simpl; [|done].
    apply lookup_ge_None in E1. apply lookup_lt_Some in E2. lia.
Qed.

(** A table is clean when all its words are zero. *)
Definition all_zero (t : list Z) : bool := forallb (Z.eqb 0) t.

Lemma all_zero_spec t : all_zero t = true <-> Forall (fun w => w = 0) t.
Proof.
  unfold all_zero. induction t as [|w t IH]; simpl; [naive_solver|].
  rewrite andb_true_iff, IH, Forall_cons, Z.eqb_eq. naive_solver.
Qed.

Lemma all_zero_replicate n : all_zero (replicate n 0) = true.
Proof. apply all_zero_spec. by apply Forall_replicate. Qed.

Lemma all_zero_list_or t s :
  length t = length s -> all_zero (list_or t s) = all_zero t && all_zero s.
Proof.
  revert s. induction t as [|a t IH]; intros [|b s] Hl; simplify_eq/=; [done|].
  unfold all_zero in *. simpl. rewrite IH by lia.
  assert ((0 =? a .| b) = (0 =? a) && (0 =? b)) as ->.
  { rewrite !(Z.eqb_sym 0). destruct (Z.eqb_spec a 0), (Z.eqb_spec b 0); subst; simpl;
      rewrite ?Z.lor_0_l, ?Z.lor_0_r; try (by apply Z.eqb_eq || by apply Z.eqb_neq).
    apply Z.eqb_neq. intros H%Z.lor_eq_0_iff. naive_solver. }
  by destruct (0 =? a), (0 =? b), (forallb _ t).
Qed.

(** A decidable property of a byte is checked on the 256 of them. *)
Lemma byte_cases (P : Z -> bool) b : forallb P (seqZ 0 256) = true -> 0 <= b < 256 -> P b = true.
Proof.
  intros H Hb. rewrite forallb_forall in H. apply H. apply list_elem_of_In, elem_of_seqZ. lia.
Qed.
