(* ===== verification/Checksum.v ===== *)
(** * Checksums and CRCs of the vendor services

    Three independent implementations of the 16-bit ones' complement sum
    ([calc_Checksum] of the NV server, [frm_chk] and [boot_checksum] of the
    modem downloaders) and two CRCs ([crc_16_l_calc], the CCITT polynomial
    computed bit by bit, and [calculate_crc] / [crc16], the table-driven
    reflected 0x8005).  A buffer argument [(ptr, len)] is the list of the [len]
    bytes it designates. *)

From S2P Require Import Prelude.

(** ** Models *)

Section Sum.

(** [while (len > 1) ... if (len) ...] of [calc_Checksum]: 16-bit
    little-endian words added into a 32-bit [unsigned long]. *)
Fixpoint sum_words (dat : list Z) (chkSum : Z) : Z :=
  match dat with
  | b0 :: b1 :: dat' => sum_words dat' (u32 (chkSum + (b0 .| (b1 .<< 8))))
  | [b] => u32 (chkSum + b)
  | [] => chkSum
  end.

(** The two carry folds shared by the three implementations. *)
Definition fold_carry (s : Z) : Z :=
  let s := u32 ((s .>> 16) + (s .& 65535)) in
  u32 (s + (s .>> 16)).

Definition calc_Checksum (dat : list Z) : Z :=
  u16 (Z.lnot (fold_carry (sum_words dat 0))).

Definition ChkNVEcc (buf : list Z) (checksum : Z) : bool :=
  calc_Checksum buf =? checksum.

(** The private copy of the same routine in nvitem_fs.c. *)
Definition calc_checksum (dat : list Z) : Z :=
  u16 (Z.lnot (fold_carry (sum_words dat 0))).

Definition _chkNVEcc (buf : list Z) (checksum : Z) : bool :=
  calc_checksum buf =? u16 checksum.

(** [frm_chk]: two words per iteration, then a switch on [len & 3]. *)
Fixpoint frm_chk_loop (src : list Z) (sum : Z) : Z :=
  match src with
  | b0 :: b1 :: b2 :: b3 :: src' =>
      frm_chk_loop src' (u32 (u32 (sum + (b0 .| (b1 .<< 8))) + (b2 .| (b3 .<< 8))))
  | [b0; b1] => u32 (sum + (b0 .| (b1 .<< 8)))
  | [b0; b1; b2] => u32 (u32 (sum + (b0 .| (b1 .<< 8))) + b2)
  | [b0] => u32 (sum + b0)
  | [] => sum
  end.

Definition frm_chk (src : list Z) : Z :=
  u16 (Z.lnot (fold_carry (frm_chk_loop src 0))).

(** [boot_checksum]: [size1] words, then the odd byte [src[len - 1]]. *)
Fixpoint boot_loop (size1 : nat) (data : list Z) (sum : Z) : Z :=
  match size1 with
  | O => sum
  | S k => boot_loop k (drop 2 data) (u32 (sum + ld16 data 0))
  end.

Definition boot_checksum (src : list Z) : Z :=
  let len := length src in
  let size1 := Nat.div2 len in
  let size2 := Nat.odd len in
  let sum :=
    if Nat.eqb len 0 then 0
    else let sum := boot_loop size1 src 0 in
         if size2 then u32 (sum + (src !!! (len - 1)%nat)) else sum in
  u16 (Z.lnot (fold_carry sum)).

End Sum.

Section Crc.

(** CRC_16_POLYNOMIAL, and the values the mask [i] takes in
    [for (i = CRC_16_L_SEED; i != 0; i = i >> 1)]. *)
Definition CRC_16_POLYNOMIAL : Z := 4129.
Definition crc_masks : list Z := [128; 64; 32; 16; 8; 4; 2; 1].

Definition crc_16_l_bit (byt : Z) (crc : Z) (i : Z) : Z :=
  let crc := if negb ((crc .& 32768) =? 0)
             then u16 (crc .<< 1) .^ CRC_16_POLYNOMIAL
             else u16 (crc .<< 1) in
  if negb ((byt .& i) =? 0) then crc .^ CRC_16_POLYNOMIAL else crc.

Definition crc_16_l_byte (crc : Z) (byt : Z) : Z :=
  foldl (crc_16_l_bit byt) crc crc_masks.

Definition crc_16_l_calc (buf : list Z) : Z := foldl crc_16_l_byte 0 buf.

(** [crc16_table]. *)
Definition crc16_table : list Z := [
  0x0000; 0xC0C1; 0xC181; 0x0140; 0xC301; 0x03C0; 0x0280; 0xC241;
  0xC601; 0x06C0; 0x0780; 0xC741; 0x0500; 0xC5C1; 0xC481; 0x0440;
  0xCC01; 0x0CC0; 0x0D80; 0xCD41; 0x0F00; 0xCFC1; 0xCE81; 0x0E40;
  0x0A00; 0xCAC1; 0xCB81; 0x0B40; 0xC901; 0x09C0; 0x0880; 0xC841;
  0xD801; 0x18C0; 0x1980; 0xD941; 0x1B00; 0xDBC1; 0xDA81; 0x1A40;
  0x1E00; 0xDEC1; 0xDF81; 0x1F40; 0xDD01; 0x1DC0; 0x1C80; 0xDC41;
  0x1400; 0xD4C1; 0xD581; 0x1540; 0xD701; 0x17C0; 0x1680; 0xD641;
  0xD201; 0x12C0; 0x1380; 0xD341; 0x1100; 0xD1C1; 0xD081; 0x1040;
  0xF001; 0x30C0; 0x3180; 0xF141; 0x3300; 0xF3C1; 0xF281; 0x3240;
  0x3600; 0xF6C1; 0xF781; 0x3740; 0xF501; 0x35C0; 0x3480; 0xF441;
  0x3C00; 0xFCC1; 0xFD81; 0x3D40; 0xFF01; 0x3FC0; 0x3E80; 0xFE41;
  0xFA01; 0x3AC0; 0x3B80; 0xFB41; 0x3900; 0xF9C1; 0xF881; 0x3840;
  0x2800; 0xE8C1; 0xE981; 0x2940; 0xEB01; 0x2BC0; 0x2A80; 0xEA41;
  0xEE01; 0x2EC0; 0x2F80; 0xEF41; 0x2D00; 0xEDC1; 0xEC81; 0x2C40;
  0xE401; 0x24C0; 0x2580; 0xE541; 0x2700; 0xE7C1; 0xE681; 0x2640;
  0x2200; 0xE2C1; 0xE381; 0x2340; 0xE101; 0x21C0; 0x2080; 0xE041;
  0xA001; 0x60C0; 0x6180; 0xA141; 0x6300; 0xA3C1; 0xA281; 0x6240;
  0x6600; 0xA6C1; 0xA781; 0x6740; 0xA501; 0x65C0; 0x6480; 0xA441;
  0x6C00; 0xACC1; 0xAD81; 0x6D40; 0xAF01; 0x6FC0; 0x6E80; 0xAE41;
  0xAA01; 0x6AC0; 0x6B80; 0xAB41; 0x6900; 0xA9C1; 0xA881; 0x6840;
  0x7800; 0xB8C1; 0xB981; 0x7940; 0xBB01; 0x7BC0; 0x7A80; 0xBA41;
  0xBE01; 0x7EC0; 0x7F80; 0xBF41; 0x7D00; 0xBDC1; 0xBC81; 0x7C40;
  0xB401; 0x74C0; 0x7580; 0xB541; 0x7700; 0xB7C1; 0xB681; 0x7640;
  0x7200; 0xB2C1; 0xB381; 0x7340; 0xB101; 0x71C0; 0x7080; 0xB041;
  0x5000; 0x90C1; 0x9181; 0x5140; 0x9301; 0x53C0; 0x5280; 0x9241;
  0x9601; 0x56C0; 0x5780; 0x9741; 0x5500; 0x95C1; 0x9481; 0x5440;
  0x9C01; 0x5CC0; 0x5D80; 0x9D41; 0x5F00; 0x9FC1; 0x9E81; 0x5E40;
  0x5A00; 0x9AC1; 0x9B81; 0x5B40; 0x9901; 0x59C0; 0x5880; 0x9841;
  0x8801; 0x48C0; 0x4980; 0x8941; 0x4B00; 0x8BC1; 0x8A81; 0x4A40;
  0x4E00; 0x8EC1; 0x8F81; 0x4F40; 0x8D01; 0x4DC0; 0x4C80; 0x8C41;
  0x4400; 0x84C1; 0x8581; 0x4540; 0x8701; 0x47C0; 0x4680; 0x8641;
  0x8201; 0x42C0; 0x4380; 0x8341; 0x4100; 0x81C1; 0x8081; 0x4040].

Definition calculate_crc (crc : Z) (buffer : list Z) : Z :=
  foldl (fun crc b => (crc .>> 8) .^ (crc16_table !!! Z.to_nat ((crc .^ b) .& 255))) crc buffer.

End Crc.

#[global] Arguments calc_Checksum : simpl never.
#[global] Arguments calc_checksum : simpl never.
#[global] Arguments ChkNVEcc : simpl never.
#[global] Arguments _chkNVEcc : simpl never.
#[global] Arguments frm_chk : simpl never.
#[global] Arguments boot_checksum : simpl never.
#[global] Arguments crc_16_l_calc : simpl never.

(** ** Specifications *)

(** The exact sum of the little-endian 16-bit words of a buffer. *)
Fixpoint wsum (dat : list Z) : Z :=
  match dat with
  | b0 :: b1 :: dat' => b0 + 256 * b1 + wsum dat'
  | [b] => b
  | [] => 0
  end.

(** Ones' complement value of a sum: the representative of [s] modulo 65535
    that is 0 only for 0. *)
Definition ones_residue (s : Z) : Z := if s =? 0 then 0 else (s - 1) mod 65535 + 1.

(** One step of the CCITT shift register on its own, and of the reflected
    0x8005 register. *)
Definition ccitt_shift (c : Z) : Z :=
  u16 (c .<< 1) .^ (if Z.testbit c 15 then CRC_16_POLYNOMIAL else 0).
Definition reflected_shift (c : Z) : Z :=
  (c .>> 1) .^ (if Z.testbit c 0 then 0xA001 else 0).

Definition crc_ccitt_ref (buf : list Z) : Z :=
  foldl (fun crc b => Nat.iter 8 ccitt_shift (crc .^ (b .<< 8))) 0 buf.
Definition crc_reflected_ref (crc : Z) (buf : list Z) : Z :=
  foldl (fun crc b => Nat.iter 8 reflected_shift (crc .^ b)) crc buf.

(** ** Lemmas on the sums *)

Lemma list_pair_ind {A} (P : list A -> Prop) :
  P [] -> (forall x, P [x]) -> (forall x y l, P l -> P (x :: y :: l)) -> forall l, P l.
Proof.
  intros H0 H1 H2 l. cut (P l /\ forall x, P (x :: l)); [tauto|].
  induction l as [|a l [IH1 IH2]]; naive_solver.
Qed.

Lemma sum_words_wsum dat s : bytes dat -> u32 s = s -> sum_words dat s = u32 (s + wsum dat).
Proof.
  revert s. induction dat as [|x|x y l IH] using list_pair_ind; intros s Hb Hs; simpl.
  - by rewrite Z.add_0_r.
  - done.
  - apply Forall_cons in Hb as [Hx Hb]. apply Forall_cons in Hb as [Hy Hb]. simpl in *.
    rewrite IH by (done || apply u32_small, u32_range).
    rewrite u32_add_l, word16_arith by lia. f_equal. lia.
Qed.

Lemma frm_chk_loop_wsum dat s :
  bytes dat -> u32 s = s -> frm_chk_loop dat s = u32 (s + wsum dat).
Proof.
  revert s. induction dat as [dat IH] using (induction_ltof1 _ (@length Z)).
  intros s Hb Hs. unfold ltof in IH.
  destruct dat as [|b0 [|b1 [|b2 [|b3 dat]]]]; simpl; decompose_Forall_hyps;
    rewrite ?word16_arith by lia; rewrite ?u32_add_l; try (f_equal; lia).
  - by rewrite Z.add_0_r.
  - rewrite IH; simpl; try (done || lia).
    + rewrite u32_add_l. f_equal. lia.
    + apply u32_small, u32_range.
Qed.

Lemma wsum_app_even l1 l2 : Nat.Even (length l1) -> wsum (l1 ++ l2) = wsum l1 + wsum l2.
Proof.
  induction l1 as [|x|x y l IH] using list_pair_ind; simpl; intros He.
  - done.
  - exfalso. destruct He. lia.
  - rewrite IH; [lia|]. destruct He as [k Hk]. exists (k - 1)%nat. lia.
Qed.

Lemma boot_loop_wsum k dat s :
  bytes dat -> u32 s = s -> (2 * k <= length dat)%nat ->
  boot_loop k dat s = u32 (s + wsum (take (2 * k) dat)).
Proof.
  revert dat s. induction k as [|k IH]; intros dat s Hb Hs Hk; simpl.
  - by rewrite Z.add_0_r.
  - destruct dat as [|x [|y dat]]; simpl in Hk; try lia. decompose_Forall_hyps.
    rewrite drop_0, IH by (done || lia || apply u32_small, u32_range).
    replace (k + S (k + 0))%nat with (S (k + (k + 0)))%nat by lia. simpl.
    unfold ld16. simpl. rewrite word16_arith by lia. rewrite u32_add_l. f_equal. lia.
Qed.

Lemma boot_sum_wsum (dat : list Z) (len := length dat) :
  bytes dat ->
  (if Nat.eqb len 0 then 0
   else let sum := boot_loop (Nat.div2 len) dat 0 in
        if Nat.odd len then u32 (sum + (dat !!! (len - 1)%nat)) else sum) = u32 (wsum dat).
Proof.
  intros Hb. subst len. pose proof (Nat.div2_odd (length dat)) as Hd.
  destruct (Nat.eqb_spec (length dat) 0) as [H0|H0].
  { apply nil_length_inv in H0 as ->. done. }
  cbv zeta. rewrite boot_loop_wsum by (done || lia). rewrite Z.add_0_l.
  destruct (Nat.odd (length dat)) eqn:Ho; simpl Nat.b2n in Hd.
  - set (n := (2 * Nat.div2 (length dat))%nat) in *.
    rewrite u32_add_l.
    assert (exists b, dat = take n dat ++ [b]) as [b Hdat].
    { destruct (drop n dat) as [|b [|c r]] eqn:E.
      - apply (f_equal length) in E. rewrite length_drop in E. simpl in E. lia.
      - exists b. by rewrite <- E, take_drop.
      - apply (f_equal length) in E. rewrite length_drop in E. simpl in E. lia. }
    assert (length (take n dat) = n) as Hn by (rewrite length_take; lia).
    assert (dat !!! (length dat - 1)%nat = b) as ->.
    { replace (length dat - 1)%nat with n by lia. clearbody n. rewrite Hdat.
      rewrite lookup_total_app_r by lia. by rewrite Hn, Nat.sub_diag. }
    assert (wsum dat = wsum (take n dat) + b) as ->; [|done].
    rewrite Hdat at 1. rewrite wsum_app_even; [done|].
    rewrite Hn. by exists (Nat.div2 (length dat)).
  - rewrite take_ge by lia. done.
Qed.

Lemma fold_carry_residue s :
  0 <= s < 4294967296 -> u16 (Z.lnot (fold_carry s)) = 65535 - ones_residue s.
Proof.
  intros Hs. unfold fold_carry, ones_residue. rewrite land_ffff.
  rewrite !shiftr_div by lia. change (2 ^ 16) with 65536. unfold Z.lnot. mint.
  destruct (Z.eqb_spec s 0) as [->|]; [done|].
  rewrite (Z.mod_small (s / 65536 + s mod 65536)) by zlia.
  set (t := s / 65536 + s mod 65536).
  assert (0 < t <= 131070) by (subst t; zlia).
  assert (t mod 65535 = s mod 65535) by (subst t; zlia).
  rewrite (Z.mod_small (t + t / 65536)) by zlia.
  clearbody t. zlia.
Qed.

Lemma calc_Checksum_residue dat :
  bytes dat -> calc_Checksum dat = 65535 - ones_residue (u32 (wsum dat)).
Proof.
  intros Hb. unfold calc_Checksum. rewrite sum_words_wsum by done.
  rewrite Z.add_0_l. apply fold_carry_residue, u32_range.
Qed.

Lemma boot_checksum_residue dat :
  bytes dat -> boot_checksum dat = 65535 - ones_residue (u32 (wsum dat)).
Proof.
  intros Hb. unfold boot_checksum. rewrite boot_sum_wsum by done. apply fold_carry_residue, u32_range.
Qed.

(** A short block followed by its checksum sums to zero. *)
Lemma boot_checksum_verifies dat :
  bytes dat -> Nat.Even (length dat) -> Z.of_nat (length dat) <= 65536 ->
  boot_checksum (dat ++ st16 (boot_checksum dat)) = 0.
Proof.
  intros Hb He Hl. rewrite (boot_checksum_residue (_ ++ _)) by (apply Forall_app_2; [done|apply st16_bytes]).
  rewrite wsum_app_even by done. rewrite boot_checksum_residue by done.
  assert (0 <= 2 * wsum dat <= 65535 * (Z.of_nat (length dat) + 1)) as Hw.
  { clear -Hb. induction dat as [|x|x y l IH] using list_pair_ind; simpl; [lia| |];
      decompose_Forall_hyps; [lia|]. specialize (IH ltac:(done)). lia. }
  rewrite (u32_small (wsum dat)) by lia.
  assert (0 <= ones_residue (wsum dat) <= 65535) as Hr by (unfold ones_residue; case_match; zlia).
  assert (wsum (st16 (65535 - ones_residue (wsum dat))) = 65535 - ones_residue (wsum dat)) as ->.
  { unfold st16. simpl. rewrite shiftr_div by lia. change (2 ^ 8) with 256. mint. zlia. }
  assert (ones_residue (wsum dat) <= wsum dat) as Hle by (unfold ones_residue; case_match; zlia).
  rewrite u32_small by lia. unfold ones_residue at 1.
  destruct (Z.eqb_spec (wsum dat + (65535 - ones_residue (wsum dat))) 0) as [H|H]; [lia|].
  revert H. unfold ones_residue. destruct (Z.eqb_spec (wsum dat) 0) as [E|E]; [rewrite E; done|intros _].
  replace (wsum dat + (65535 - ((wsum dat - 1) mod 65535 + 1)) - 1)
    with (65534 + (wsum dat - 1) / 65535 * 65535) by (rewrite Z.mod_eq by lia; lia).
  rewrite Z.mod_add by lia. done.
Qed.

Lemma calc_checksum_same dat : calc_checksum dat = calc_Checksum dat.
Proof. done. Qed.

Lemma calc_Checksum_range dat : 0 <= calc_Checksum dat < 65536.
Proof. apply u16_range. Qed.

Lemma wsum_bounds dat :
  bytes dat -> 0 <= 2 * wsum dat <= 65535 * (Z.of_nat (length dat) + 1).
Proof.
  induction dat as [|x|x y l IH] using list_pair_ind; intros Hb; simpl; [lia| |];
    decompose_Forall_hyps; [lia|]. specialize (IH ltac:(done)). lia.
Qed.

Lemma wsum_insert dat i b old :
  dat !! i = Some old ->
  wsum (<[i := b]> dat) = wsum dat + (b - old) * (if Nat.odd i then 256 else 1).
Proof.
  revert i. induction dat as [|x|x y l IH] using list_pair_ind; intros [|[|i]] Hi; simplify_eq/=;
    try lia.
  rewrite (IH i Hi). change (Nat.odd (S (S i))) with (Nat.odd i). lia.
Qed.

Lemma ones_residue_inj_near s d :
  0 <= s -> d <> 0 -> -65280 <= d <= 65280 -> 0 <= s + d ->
  ones_residue (u32 (s + d)) <> ones_residue (u32 s).
Proof.
  intros Hs Hd Hr Hsd. unfold ones_residue. mint.
  set (a := s mod 4294967296). set (b := (s + d) mod 4294967296).
  assert (b - a = d \/ b - a = d - 4294967296 \/ b - a = d + 4294967296) by (subst a b; zlia).
  assert (0 <= a < 4294967296) by (subst a; zlia).
  assert (0 <= b < 4294967296) by (subst b; zlia). clearbody a b.
  destruct (Z.eqb_spec a 0), (Z.eqb_spec b 0); zlia.
Qed.

(** ** Lemmas on the CRCs *)

Lemma land_pow2_testbit x n : 0 <= n -> negb ((x .& 2 ^ n) =? 0) = Z.testbit x n.
Proof.
  intros Hn. destruct (Z.testbit x n) eqn:E.
  - apply negb_true_iff, Z.eqb_neq. intros H.
    apply (f_equal (fun z => Z.testbit z n)) in H. revert H.
    rewrite Z.land_spec, E, Z.pow2_bits_true, Z.bits_0 by lia. done.
  - apply negb_false_iff, Z.eqb_eq. bitwise i Hi. rewrite Z.bits_0.
    destruct (decide (i = n)) as [->|]; [by rewrite E|].
    rewrite Z.pow2_bits_false by lia. apply andb_false_r.
Qed.

Lemma lxor_if (a b : bool) p :
  (if xorb a b then p else 0) = (if a then p else 0) .^ (if b then p else 0).
Proof. destruct a, b; simpl; by rewrite ?Z.lxor_0_l, ?Z.lxor_0_r, ?Z.lxor_nilpotent. Qed.

Lemma lxor_shuffle a b c d : (a .^ b) .^ (c .^ d) = (a .^ c) .^ (b .^ d).
Proof. bitwise i Hi. by destruct (Z.testbit a i), (Z.testbit b i), (Z.testbit c i), (Z.testbit d i). Qed.

Lemma ccitt_shift_lxor x y : ccitt_shift (x .^ y) = ccitt_shift x .^ ccitt_shift y.
Proof.
  unfold ccitt_shift. rewrite Z.lxor_spec, lxor_if, lxor_shuffle. f_equal.
  bitwise i Hi. by destruct (i <? 16), (1 <=? i).
Qed.

Lemma reflected_shift_lxor x y :
  reflected_shift (x .^ y) = reflected_shift x .^ reflected_shift y.
Proof.
  unfold reflected_shift. rewrite Z.lxor_spec, lxor_if, lxor_shuffle. f_equal.
  by bitwise i Hi.
Qed.

Lemma iter_lxor (f : Z -> Z) n x y :
  (forall a b, f (a .^ b) = f a .^ f b) ->
  Nat.iter n f (x .^ y) = Nat.iter n f x .^ Nat.iter n f y.
Proof. intros Hf. induction n as [|n IH]; simpl; [done|]. by rewrite IH, Hf. Qed.

Lemma crc_16_l_bit_shift byt c n :
  0 <= n ->
  crc_16_l_bit byt c (2 ^ n) = ccitt_shift c .^ (if Z.testbit byt n then CRC_16_POLYNOMIAL else 0).
Proof.
  intros Hn. unfold crc_16_l_bit, ccitt_shift. change 32768 with (2 ^ 15).
  rewrite !land_pow2_testbit by lia.
  by destruct (Z.testbit c 15), (Z.testbit byt n); rewrite ?Z.lxor_0_r.
Qed.

(** The register fed bit by bit and the register fed a whole byte differ by the
    bits of the byte not consumed yet. *)
Lemma crc_16_l_bit_step byt c k :
  0 <= k < 8 ->
  ccitt_shift (c .^ u16 (byt .<< (8 + k))) =
  crc_16_l_bit byt c (2 ^ (7 - k)) .^ u16 (byt .<< (8 + (k + 1))).
Proof.
  intros Hk. rewrite ccitt_shift_lxor, crc_16_l_bit_shift by lia.
  rewrite Z.lxor_assoc. f_equal. unfold ccitt_shift at 1.
  rewrite testbit_u16, testbit_shiftl by lia.
  replace (8 + k <=? 15) with true by lia. simpl.
  replace (15 - (8 + k)) with (7 - k) by lia. rewrite Z.lxor_comm. f_equal.
  bitwise i Hi.
  destruct (Z.ltb_spec i 16); simpl; [|done].
  destruct (Z.leb_spec 1 i); simpl.
  - rewrite testbit_u16, testbit_shiftl by lia. replace (i - 1 <? 16) with true by lia. simpl.
    replace (8 + k <=? i - 1) with (8 + (k + 1) <=? i) by lia. f_equal. f_equal. lia.
  - by replace (8 + (k + 1) <=? i) with false by lia.
Qed.

Lemma crc_16_l_byte_ref c byt :
  0 <= byt < 256 -> crc_16_l_byte c byt = Nat.iter 8 ccitt_shift (c .^ (byt .<< 8)).
Proof.
  intros Hb.
  assert (byt .<< 8 = u16 (byt .<< (8 + 0))) as ->.
  { change (8 + 0) with 8. rewrite Z.shiftl_mul_pow2 by lia. change (2 ^ 8) with 256.
    symmetry. apply u16_small. lia. }
  cbn [Nat.iter nat_rect]. rewrite !crc_16_l_bit_step by lia.
  assert (u16 (byt .<< (8 + (0 + 1 + 1 + 1 + 1 + 1 + 1 + 1 + 1))) = 0) as ->; [|by rewrite Z.lxor_0_r].
  simpl. rewrite Z.shiftl_mul_pow2 by lia. mint. change (2 ^ 16) with 65536. apply Z_mod_mult.
Qed.

Lemma crc_16_l_calc_ref buf : bytes buf -> crc_16_l_calc buf = crc_ccitt_ref buf.
Proof.
  intros Hbuf. unfold crc_16_l_calc, crc_ccitt_ref. generalize 0 as c. revert Hbuf.
  induction buf as [|b buf IH]; intros Hb c; simpl; [done|].
  apply Forall_cons in Hb as [Hb Hbuf]. simpl in Hb. rewrite IH by done.
  by rewrite crc_16_l_byte_ref.
Qed.

Lemma ccitt_shift8_byte b : 0 <= b < 256 -> Nat.iter 8 ccitt_shift b = b .<< 8.
Proof.
  intros Hb. apply Z.eqb_eq.
  apply (byte_cases (fun b => Nat.iter 8 ccitt_shift b =? b .<< 8)); [vm_compute|]; done.
Qed.

Lemma ccitt_shift_range c : 0 <= ccitt_shift c < 65536.
Proof.
  unfold ccitt_shift. change 65536 with (2 ^ 16). apply lxor_bound; [lia|apply u16_range|].
  destruct (Z.testbit c 15); unfold CRC_16_POLYNOMIAL; lia.
Qed.

Lemma crc_ccitt_ref_range buf : 0 <= crc_ccitt_ref buf < 65536.
Proof.
  unfold crc_ccitt_ref. destruct buf as [|b buf _] using rev_ind; simpl; [lia|].
  rewrite foldl_app. cbn [foldl Nat.iter nat_rect]. apply ccitt_shift_range.
Qed.

Lemma crc_16_l_calc_range buf : bytes buf -> 0 <= crc_16_l_calc buf < 65536.
Proof. intros. rewrite crc_16_l_calc_ref by done. apply crc_ccitt_ref_range. Qed.

(** Feeding the register its own value, high byte first, empties it. *)
Lemma crc_ccitt_ref_residue buf (c := crc_ccitt_ref buf) :
  crc_ccitt_ref (buf ++ [c .>> 8; c .& 255]) = 0.
Proof.
  assert (0 <= c < 65536) as Hc by apply crc_ccitt_ref_range.
  unfold crc_ccitt_ref. rewrite foldl_app. fold (crc_ccitt_ref buf). fold c.
  cbn [foldl]. clearbody c. rewrite land_ff.
  assert (c .^ ((c .>> 8) .<< 8) = u8 c) as ->.
  { bitwise i Hi. destruct (Z.leb_spec 8 i).
    - replace (i <? 8) with false by lia. simpl. rewrite testbit_shiftr by lia.
      replace (i - 8 + 8) with i by lia. apply xorb_nilpotent.
    - replace (i <? 8) with true by lia. simpl. apply xorb_false_r. }
  rewrite (ccitt_shift8_byte (u8 c)) by apply u8_range. by rewrite Z.lxor_nilpotent.
Qed.

Lemma reflected_shift_double y : reflected_shift (y .<< 1) = y.
Proof.
  unfold reflected_shift. rewrite testbit_shiftl by lia. simpl. rewrite Z.lxor_0_r.
  rewrite Z.shiftr_shiftl_l by lia. apply Z.shiftl_0_r.
Qed.

Lemma reflected_shift8_high h : Nat.iter 8 reflected_shift (h .<< 8) = h.
Proof.
  change (h .<< 8) with (h .<< (1 + 1 + 1 + 1 + 1 + 1 + 1 + 1)). rewrite <- !Z.shiftl_shiftl by lia.
  cbn [Nat.iter nat_rect]. by rewrite !reflected_shift_double.
Qed.

Lemma crc16_table_entry i :
  0 <= i < 256 -> crc16_table !!! Z.to_nat i = Nat.iter 8 reflected_shift i.
Proof.
  intros Hi. apply Z.eqb_eq.
  apply (byte_cases (fun i => crc16_table !!! Z.to_nat i =? Nat.iter 8 reflected_shift i));
    [vm_compute|]; done.
Qed.

Lemma crc16_step crc b :
  0 <= b < 256 ->
  (crc .>> 8) .^ (crc16_table !!! Z.to_nat ((crc .^ b) .& 255)) =
  Nat.iter 8 reflected_shift (crc .^ b).
Proof.
  intros Hb. rewrite land_ff, crc16_table_entry by apply u8_range.
  set (x := crc .^ b).
  assert (x = u8 x .^ ((x .>> 8) .<< 8)) as Hx.
  { bitwise i Hi. destruct (Z.leb_spec 8 i).
    - replace (i <? 8) with false by lia. simpl. rewrite testbit_shiftr by lia.
      replace (i - 8 + 8) with i by lia. by destruct (Z.testbit x i).
    - replace (i <? 8) with true by lia. simpl. by rewrite xorb_false_r. }
  rewrite Hx at 2. rewrite iter_lxor by apply reflected_shift_lxor.
  rewrite reflected_shift8_high. rewrite Z.lxor_comm. f_equal.
  subst x. bitwise i Hi. rewrite (testbit_high b 8) by (simpl; lia). by rewrite xorb_false_r.
Qed.

(** ** Properties *)

(** the three sums used on the two ends of the modem links (the NV server's
    [calc_Checksum], the downloaders' [frm_chk] and [boot_checksum]) compute
    the same value on every buffer, and that value is the ones' complement
    checksum of its little-endian 16-bit words: 0xFFFF minus the sum (kept in
    32 bits) reduced modulo 65535. *)
Theorem checksums_agree dat :
  bytes dat ->
  calc_Checksum dat = 65535 - ones_residue (u32 (wsum dat)) /\
  frm_chk dat = calc_Checksum dat /\ boot_checksum dat = calc_Checksum dat.
Proof.
  intros Hb. split; [by apply calc_Checksum_residue|].
  rewrite calc_Checksum_residue by done. unfold frm_chk, boot_checksum.
  rewrite frm_chk_loop_wsum, boot_sum_wsum by done.
  split; apply fold_carry_residue, u32_range.
Qed.

Lemma checksums_agree_witness :
  bytes [18; 52; 86; 120; 154] /\ frm_chk [18; 52; 86; 120; 154] = 21245.
Proof.
  assert (bytes [18; 52; 86; 120; 154]) as H by (repeat constructor; lia).
  split; [exact H|]. rewrite (proj1 (proj2 (checksums_agree _ H))). reflexivity.
Defined.

(** the ECC of an NV image detects the corruption of any one byte, whatever
    the length of the image (also when the 32-bit sum wraps): with one byte
    changed the checksum is different, so [ChkNVEcc] against the stored
    checksum answers false. *)
Theorem checksum_detects_byte dat i old b :
  bytes dat -> dat !! i = Some old -> 0 <= b < 256 -> b <> old ->
  ChkNVEcc (<[i := b]> dat) (calc_Checksum dat) = false.
Proof.
  intros Hb Hi Hr Hne.
  assert (0 <= old < 256) as Hold by (by eapply (Forall_lookup_1 is_byte)).
  assert (bytes (<[i := b]> dat)) as Hb' by (by apply Forall_insert).
  unfold ChkNVEcc. apply Z.eqb_neq. rewrite !calc_Checksum_residue by done.
  rewrite (wsum_insert _ _ _ _ Hi).
  pose proof (wsum_bounds _ Hb). pose proof (wsum_bounds _ Hb') as H'.
  rewrite (wsum_insert _ _ _ _ Hi) in H'. intros Heq.
  assert (ones_residue (u32 (wsum dat + (b - old) * (if Nat.odd i then 256 else 1)))
          = ones_residue (u32 (wsum dat))) as Heq' by lia. revert Heq'.
  apply ones_residue_inj_near; destruct (Nat.odd i); lia.
Qed.

Lemma checksum_detects_byte_witness :
  ChkNVEcc [1; 9; 3] (calc_Checksum [1; 2; 3]) = false.
Proof.
  apply (checksum_detects_byte [1; 2; 3] 1 2 9); [repeat constructor; lia|reflexivity|lia|lia].
Defined.

(** [crc_16_l_calc] is the CRC-CCITT of the buffer (polynomial 0x1021, zero
    seed, most significant bit first), and a message followed by its CRC, high
    byte first as [setup_packet] stores it, has residue 0 (CRC_16_L_OK). *)
Theorem crc_16_l_residue buf (crc := crc_16_l_calc buf) :
  bytes buf ->
  crc = crc_ccitt_ref buf /\ crc_16_l_calc (buf ++ [crc .>> 8; crc .& 255]) = 0.
Proof.
  intros Hb. subst crc. pose proof (crc_16_l_calc_range buf Hb) as Hr. split.
  { by apply crc_16_l_calc_ref. }
  rewrite crc_16_l_calc_ref.
  - rewrite crc_16_l_calc_ref by done. apply crc_ccitt_ref_residue.
  - rewrite land_ff, shiftr_div by lia. change (2 ^ 8) with 256.
    apply Forall_app_2; [done|]. repeat constructor; first [apply u8_range | zlia].
Qed.

Lemma crc_16_l_residue_witness :
  crc_16_l_calc ([0; 1; 0; 8] ++ [crc_16_l_calc [0; 1; 0; 8] .>> 8; crc_16_l_calc [0; 1; 0; 8] .& 255]) = 0.
Proof. apply (crc_16_l_residue [0; 1; 0; 8]). repeat constructor; lia. Defined.

(** the 256-entry table of [calculate_crc] implements the reflected 0x8005
    register: the table-driven CRC of every message equals the bit-by-bit one,
    from every seed. *)
Theorem calculate_crc_ref crc buf :
  bytes buf -> calculate_crc crc buf = crc_reflected_ref crc buf.
Proof.
  unfold calculate_crc, crc_reflected_ref. revert crc.
  induction buf as [|b buf IH]; intros crc Hb; simpl foldl; [done|].
  apply Forall_cons in Hb as [Hb Hbuf]. simpl in Hb.
  by rewrite IH, crc16_step by done.
Qed.

Lemma calculate_crc_ref_witness :
  calculate_crc 0 [49; 50; 51; 52; 53; 54; 55; 56; 57] = 47933.
Proof. rewrite calculate_crc_ref; [reflexivity|]. repeat constructor; lia. Defined.
