(* ===== verification/NvFs.v ===== *)
(** * NV server, file layer: redundant NV images on disk (apps/nvitem/nvitem_fs.c)

    Every NV partition is stored twice, as an "origin" and a "backup" image
    file; an image is a 512-byte header (magic, length, checksum, version) and
    the partition data.  [ramDisk_Write] writes both, backup first;
    [ramDisk_Read] reads them in a random order and repairs the first one from
    the second.  The file system is a finite map from paths to contents with
    the two failures the code meets: a file that cannot be opened for writing,
    and a file system without room (short [write]).  Each effective operation
    is logged, [fsync] included: after a power cut a file with an operation that
    was not followed by an [fsync] holds anything. *)

From S2P Require Import Prelude Checksum.

(** ** The file system the code runs on *)

Inductive fsop :=
| OTrunc (p : string)
| OAppend (p : string) (d : list Z)
| OSync (p : string).

Record fs := Fs {
  files : gmap string (list Z);
  wopen_ok : string -> bool;          (* open(O_RDWR|O_CREAT|O_TRUNC) succeeds *)
  cap : string -> option nat;         (* most bytes the file can hold *)
  fslog : list fsop;
}.

Definition apply_op (m : gmap string (list Z)) (o : fsop) : gmap string (list Z) :=
  match o with
  | OTrunc p => <[p := []]> m
  | OAppend p d => <[p := default [] (m !! p) ++ d]> m
  | OSync _ => m
  end.

Definition apply_ops : gmap string (list Z) -> list fsop -> gmap string (list Z) :=
  foldl apply_op.

Definition fs_do (f : fs) (o : fsop) : fs :=
  Fs (apply_op (files f) o) (wopen_ok f) (cap f) (fslog f ++ [o]).

(** [open(p, O_RDWR | O_CREAT | O_TRUNC, ...)]. *)
Definition fs_creat (f : fs) (p : string) : option fs :=
  if wopen_ok f p then Some (fs_do f (OTrunc p)) else None.

(** [write(fd, d, length d)] at the end of the file; returns the count. *)
Definition fs_write (f : fs) (p : string) (d : list Z) : fs * Z :=
  let cur := default [] (files f !! p) in
  let n := match cap f p with
           | None => length d
           | Some c => Nat.min (length d) (c - length cur)
           end in
  (fs_do f (OAppend p (take n d)), Z.of_nat n).

(** [fsync(fd)]. *)
Definition fs_sync (f : fs) (p : string) : fs := fs_do f (OSync p).

(** ** Configuration table *)

Definition RAMNV_NUM : nat := 15.
Definition RAMNV_SECT_SIZE : nat := 512.
Definition NV_PATH_MAX_LEN : nat := 100.
Definition NV_HEAD_MAGIC : Z := 0x4e56.
Definition NV_VERSION : Z := 101.

Record RAM_NV_CONFIG := Cfg {
  cfg_partId : Z;
  image_path : string;
  imageBak_path : string;
  image_size : Z;
}.

Definition cfg_zero : RAM_NV_CONFIG := Cfg 0 "" "" 0.

(** The static initial value of [_ramdiskCfg]. *)
Definition _ramdiskCfg : list RAM_NV_CONFIG :=
  [Cfg 1 "/fixnv/fixnv.bin" "" 0x20000; Cfg 2 "/runtimenv/runtimenv.bin" "" 0x40000]
  ++ replicate 14 cfg_zero.

(** What [initArgs] leaves in the module's variables. *)
Record nv_args := NvArgs {
  channel_path : string;
  fixnv_size : Z;
  runnv_size : Z;
  fixnv_ori_path : string;
  fixnv_bak_path : string;
  runnv_ori_path : string;
  runnv_bak_path : string;
}.

Definition ramDisk_Init (a : nv_args) : list RAM_NV_CONFIG :=
  if Nat.ltb NV_PATH_MAX_LEN (String.length (fixnv_ori_path a))
     || Nat.ltb NV_PATH_MAX_LEN (String.length (fixnv_bak_path a))
     || Nat.ltb NV_PATH_MAX_LEN (String.length (runnv_ori_path a))
     || Nat.ltb NV_PATH_MAX_LEN (String.length (runnv_bak_path a))
  then _ramdiskCfg
  else [Cfg 1 (fixnv_ori_path a) (fixnv_bak_path a) (fixnv_size a);
        Cfg 2 (runnv_ori_path a) (runnv_bak_path a) (runnv_size a)]
       ++ replicate 14 cfg_zero.

Definition ramDisk_Open (partId : Z) : Z := partId.

(** [_getIdx]: the scan stops at the first zero entry; [None] is -1. *)
Fixpoint _getIdx_from (cfg : list RAM_NV_CONFIG) (i : nat) (handle : Z) : option nat :=
  match cfg with
  | [] => None
  | c :: cfg' =>
      if 0 =? cfg_partId c then None
      else if handle =? cfg_partId c then Some i
      else _getIdx_from cfg' (S i) handle
  end.
Definition _getIdx (cfg : list RAM_NV_CONFIG) (handle : Z) : option nat :=
  _getIdx_from cfg 0 handle.

(** ** Images *)

(** [nv_header_t] in a zeroed sector. *)
Definition mk_header (buf : list Z) : list Z :=
  splice (replicate RAMNV_SECT_SIZE 0) 0
    (st32 NV_HEAD_MAGIC ++ st32 (Z.of_nat (length buf)) ++ st32 (calc_Checksum buf)
     ++ st32 NV_VERSION).

Definition header_checksum (header : list Z) : Z := ld32 header 8.

(** The two [read]s of one image: header and data, on top of a header buffer
    filled with 0x00 and a data buffer filled with 0xFF. *)
Definition read_header (c : list Z) : list Z * Z :=
  let h := take RAMNV_SECT_SIZE c in
  (h ++ replicate (RAMNV_SECT_SIZE - length h) 0, Z.of_nat (length h)).
Definition read_data (c : list Z) (size : nat) : list Z * Z :=
  let d := take size (drop RAMNV_SECT_SIZE c) in
  (d ++ replicate (size - length d) 255, Z.of_nat (length d)).

(** Part 1 of [ramDisk_Read], the [do ... while (0)] block on the first image:
    the data when it is accepted, and the value [ret2] is left with. *)
Definition read_first (f : fs) (name : string) (size : nat) : option (list Z) * Z :=
  match files f !! name with
  | None => (None, 0)
  | Some c =>
      let '(header, ret1) := read_header c in
      let '(buf, ret2) := read_data c size in
      if negb (ret1 =? 512) then (None, ret2)
      else if (ret2 =? Z.of_nat size) && _chkNVEcc buf (header_checksum header)
      then (Some buf, ret2)
      else (None, ret2)
  end.

(** Writing one image: [None] when [open] fails. *)
Definition write_image (f : fs) (name : string) (header buf : list Z) : option (fs * bool) :=
  match fs_creat f name with
  | None => None
  | Some f1 =>
      let '(f2, n1) := fs_write f1 name header in
      let '(f3, n2) := fs_write f2 name buf in
      Some (fs_sync f3 name, (n1 =? 512) && (n2 =? Z.of_nat (length buf)))
  end.

(** [ramDisk_Read]: [rnd] is [rand() % 2], [buf] the caller's buffer of [size]
    bytes. *)
Definition ramDisk_Read (cfg : list RAM_NV_CONFIG) (f : fs) (rnd : bool) (handle : Z)
    (buf : list Z) : fs * list Z * bool :=
  let size := length buf in
  match _getIdx cfg handle ≫= (fun idx => cfg !! idx) with
  | None => (f, buf, false)
  | Some c =>
      let '(firstName, secondName) :=
        if rnd then (image_path c, imageBak_path c) else (imageBak_path c, image_path c) in
      match read_first f firstName size with
      | (Some buf, _) => (f, buf, true)
      | (None, ret2) =>
          (* 2 read second image; when it does not open, the two buffers keep
             their fill, the test of [ret1] is skipped and [ret2] is stale *)
          let '((header, ret1), (buf, ret2)) :=
            match files f !! secondName with
            | None => ((replicate RAMNV_SECT_SIZE 0, 512), (replicate size 255, ret2))
            | Some c => (read_header c, read_data c size)
            end in
          if negb (ret1 =? 512) then (f, buf, true)
          else if negb (ret2 =? Z.of_nat size) then (f, buf, true)
          else if negb (_chkNVEcc buf (header_checksum header)) then (f, buf, true)
          else match write_image f firstName header buf with
               | Some (f', _) => (f', buf, true)
               | None => (f, buf, true)
               end
      end
  end.

Definition ramDisk_Write (cfg : list RAM_NV_CONFIG) (f : fs) (handle : Z) (buf : list Z)
    : fs * bool :=
  match _getIdx cfg handle ≫= (fun idx => cfg !! idx) with
  | None => (f, false)
  | Some c =>
      let header := mk_header buf in
      (* 2 write bakup image *)
      let '(f1, ret1) := default (f, true) (write_image f (imageBak_path c) header buf) in
      (* 3 write origin image *)
      let '(f2, ret2) := default (f1, true) (write_image f1 (image_path c) header buf) in
      (f2, ret1 && ret2)
  end.

(** ** Power cuts

    Operations reach the medium in no order that the program could rely on,
    before an [fsync] of their file.  [dirty_file ops p] holds when [p] has an
    operation after its last [fsync].  [power_cut m ops m']: the power fails
    after some of the operations [ops]; every file without a pending operation
    holds what was written to it, the others hold anything, or are gone. *)
Definition op_file (o : fsop) : string := match o with OTrunc p | OAppend p _ | OSync p => p end.

Definition dirty_file (ops : list fsop) (p : string) : bool :=
  foldl (fun b o => if decide (op_file o = p) then match o with OSync _ => false | _ => true end else b) false ops.

Definition power_cut (m : gmap string (list Z)) (ops : list fsop) (m' : gmap string (list Z)) : Prop :=
  exists n, forall p, dirty_file (take n ops) p = false -> m' !! p = apply_ops m (take n ops) !! p.

(** The file of a completely written image. *)
Definition image (d : list Z) : list Z := mk_header d ++ d.

(** An image file the reader accepts, and the data it yields. *)
Definition img_data (c : list Z) (size : nat) : list Z := take size (drop RAMNV_SECT_SIZE c).
Definition img_ok (c : list Z) (size : nat) : bool :=
  Nat.leb (RAMNV_SECT_SIZE + size) (length c)
  && _chkNVEcc (img_data c size) (header_checksum (take RAMNV_SECT_SIZE c)).

#[global] Arguments read_header : simpl never.
#[global] Arguments read_data : simpl never.
#[global] Arguments header_checksum : simpl never.
#[global] Arguments img_data : simpl never.
#[global] Arguments img_ok : simpl never.
#[global] Arguments mk_header : simpl never.

(** ** Lemmas *)

Lemma sect_512 : Z.of_nat RAMNV_SECT_SIZE = 512.
Proof. reflexivity. Qed.

Lemma sect_ge_16 : (16 <= RAMNV_SECT_SIZE)%nat.
Proof. pose proof sect_512. lia. Qed.

#[global] Opaque RAMNV_SECT_SIZE.

Lemma mk_header_length d : length (mk_header d) = RAMNV_SECT_SIZE.
Proof.
  unfold mk_header. rewrite splice_length; rewrite length_replicate; [done|].
  rewrite !length_app. simpl. apply sect_ge_16.
Qed.

Lemma mk_header_checksum d : header_checksum (mk_header d) = calc_Checksum d.
Proof.
  unfold header_checksum, mk_header, splice. rewrite take_0, app_nil_l.
  rewrite <- !app_assoc.
  rewrite ld32_app_r by (simpl; lia). rewrite ld32_app_r by (simpl; lia).
  rewrite ld32_app_l by (simpl; lia). simpl. rewrite ld32_st32.
  apply u32_small. pose proof (calc_Checksum_range d). lia.
Qed.

Lemma image_length d : length (image d) = (RAMNV_SECT_SIZE + length d)%nat.
Proof. unfold image. by rewrite length_app, mk_header_length. Qed.

Lemma img_ok_prefix d k :
  img_ok (take k (image d)) (length d) = Nat.leb (RAMNV_SECT_SIZE + length d) k.
Proof.
  unfold img_ok. rewrite length_take, image_length.
  destruct (Nat.leb_spec (RAMNV_SECT_SIZE + length d) k).
  - rewrite Nat.min_r by lia. rewrite Nat.leb_refl. simpl.
    rewrite (take_ge _ k) by (rewrite image_length; lia).
    unfold img_data, image. rewrite drop_app_exact by (symmetry; apply mk_header_length).
    rewrite take_app_exact by (symmetry; apply mk_header_length).
    rewrite take_ge by lia. rewrite mk_header_checksum. unfold _chkNVEcc.
    rewrite calc_checksum_same, u16_small by apply calc_Checksum_range. by apply Z.eqb_refl.
  - rewrite Nat.min_l by lia. apply andb_false_iff. left. apply Nat.leb_gt. lia.
Qed.

Lemma img_ok_image d : img_ok (image d) (length d) = true.
Proof.
  pose proof (img_ok_prefix d (length (image d))) as H.
  rewrite firstn_all, image_length, Nat.leb_refl in H. done.
Qed.

Lemma img_data_image d : img_data (image d) (length d) = d.
Proof.
  unfold img_data, image. rewrite drop_app_exact by (symmetry; apply mk_header_length).
  by apply take_ge.
Qed.

Lemma read_header_full c :
  (RAMNV_SECT_SIZE <= length c)%nat -> read_header c = (take RAMNV_SECT_SIZE c, 512).
Proof.
  intros H. unfold read_header. rewrite length_take, Nat.min_l by done.
  rewrite Nat.sub_diag, sect_512. simpl. by rewrite app_nil_r.
Qed.

Lemma read_data_full c size :
  (RAMNV_SECT_SIZE + size <= length c)%nat -> read_data c size = (img_data c size, Z.of_nat size).
Proof.
  intros H. unfold read_data, img_data. rewrite length_take, length_drop, Nat.min_l by lia.
  rewrite Nat.sub_diag. simpl. by rewrite app_nil_r.
Qed.

(** The first image is accepted exactly when it is complete and its checksum
    matches. *)
Lemma read_first_spec f name size c :
  files f !! name = Some c ->
  (read_first f name size).1 = if img_ok c size then Some (img_data c size) else None.
Proof.
  intros Hc. unfold read_first, img_ok. rewrite Hc.
  destruct (Nat.leb_spec (RAMNV_SECT_SIZE + size) (length c)).
  - rewrite read_header_full, read_data_full by lia. rewrite !Z.eqb_refl. cbn [negb andb].
    by destruct (_chkNVEcc _ _).
  - unfold read_header, read_data. rewrite !length_take, length_drop. cbn [andb].
    destruct (Z.eqb_spec (Z.of_nat (RAMNV_SECT_SIZE `min` length c)) 512); cbn [negb fst]; [|done].
    destruct (Z.eqb_spec (Z.of_nat (size `min` (length c - RAMNV_SECT_SIZE))) (Z.of_nat size));
      cbn [andb fst]; [|done]. pose proof sect_512. lia.
Qed.

Lemma read_first_missing f name size :
  files f !! name = None -> read_first f name size = (None, 0).
Proof. intros H. unfold read_first. by rewrite H. Qed.

Section Entry.
(** The configuration entry of the partition in use. *)
Context (cfg : list RAM_NV_CONFIG) (handle : Z) (c : RAM_NV_CONFIG).
Context (Hidx : _getIdx cfg handle ≫= (fun idx => cfg !! idx) = Some c).

Definition first_name (rnd : bool) : string := if rnd then image_path c else imageBak_path c.
Definition second_name (rnd : bool) : string := if rnd then imageBak_path c else image_path c.

(** Reading when the first image in the chosen order is good. *)
Lemma ramDisk_Read_first f rnd buf c1 :
  files f !! first_name rnd = Some c1 -> img_ok c1 (length buf) = true ->
  ramDisk_Read cfg f rnd handle buf = (f, img_data c1 (length buf), true).
Proof using Hidx.
  intros H1 Hok. unfold ramDisk_Read. rewrite Hidx.
  assert ((if rnd then (image_path c, imageBak_path c) else (imageBak_path c, image_path c))
          = (first_name rnd, second_name rnd)) as -> by (by destruct rnd).
  pose proof (read_first_spec f _ (length buf) c1 H1) as Hr. rewrite Hok in Hr.
  destruct (read_first f _ _) as [o r]. cbn [fst] in Hr. by subst.
Qed.

(** Reading when only the second image is good: its data is returned and the
    first image is rewritten with it. *)
Lemma ramDisk_Read_second f rnd buf c2 :
  (forall c1, files f !! first_name rnd = Some c1 -> img_ok c1 (length buf) = false) ->
  files f !! second_name rnd = Some c2 -> img_ok c2 (length buf) = true ->
  ramDisk_Read cfg f rnd handle buf =
    (match write_image f (first_name rnd) (take RAMNV_SECT_SIZE c2) (img_data c2 (length buf)) with
     | Some (f', _) => f' | None => f end, img_data c2 (length buf), true).
Proof using Hidx.
  intros H1 H2 Hok. unfold ramDisk_Read. rewrite Hidx.
  assert ((if rnd then (image_path c, imageBak_path c) else (imageBak_path c, image_path c))
          = (first_name rnd, second_name rnd)) as -> by (by destruct rnd).
  assert ((read_first f (first_name rnd) (length buf)).1 = None) as Hr.
  { destruct (files f !! first_name rnd) as [c1|] eqn:E.
    - rewrite (read_first_spec _ _ _ _ E). by rewrite (H1 c1).
    - by rewrite read_first_missing. }
  destruct (read_first f _ _) as [o r]. cbn [fst] in Hr. subst o.
  unfold img_ok in Hok. apply andb_true_iff in Hok as [Hl Hc]. apply Nat.leb_le in Hl.
  rewrite H2, read_header_full, read_data_full by lia. rewrite !Z.eqb_refl, Hc. cbn [negb].
  by destruct (write_image _ _ _ _) as [[f' b]|].
Qed.

End Entry.

(** ** Writing *)

(** Both image files can be opened and hold [n] bytes of data. *)
Definition fits (f : fs) (p : string) (n : nat) : Prop :=
  wopen_ok f p = true /\
  match cap f p with None => True | Some k => (RAMNV_SECT_SIZE + n <= k)%nat end.

Lemma fs_write_fits f p d :
  match cap f p with None => True | Some k => (length (default [] (files f !! p)) + length d <= k)%nat end ->
  fs_write f p d = (fs_do f (OAppend p d), Z.of_nat (length d)).
Proof.
  intros H. unfold fs_write. destruct (cap f p) as [k|].
  - rewrite Nat.min_l by lia. by rewrite take_ge.
  - by rewrite take_ge.
Qed.

Lemma write_image_fits f p header d :
  length header = RAMNV_SECT_SIZE -> fits f p (length d) ->
  write_image f p header d =
    Some (Fs (<[p := header ++ d]> (files f)) (wopen_ok f) (cap f)
            (fslog f ++ [OTrunc p; OAppend p header; OAppend p d; OSync p]), true).
Proof.
  intros Hh [Ho Hc]. unfold write_image, fs_creat. rewrite Ho.
  rewrite fs_write_fits.
  - rewrite fs_write_fits.
    + rewrite Hh, sect_512, !Z.eqb_refl. cbn [andb]. unfold fs_sync, fs_do. cbn.
      rewrite lookup_insert_eq. cbn. rewrite lookup_insert_eq. cbn.
      by rewrite !insert_insert_eq, <- !app_assoc.
    + cbn. rewrite lookup_insert_eq. cbn. rewrite lookup_insert_eq. cbn.
      destruct (cap f p); [lia|done].
  - cbn. rewrite lookup_insert_eq. cbn. destruct (cap f p); [lia|done].
Qed.

Section WriteEntry.
Context (cfg : list RAM_NV_CONFIG) (handle : Z) (c : RAM_NV_CONFIG).
Context (Hidx : _getIdx cfg handle ≫= (fun idx => cfg !! idx) = Some c).
Context (Hpq : image_path c <> imageBak_path c).

Definition write_log (d : list Z) : list fsop :=
  [OTrunc (imageBak_path c); OAppend (imageBak_path c) (mk_header d); OAppend (imageBak_path c) d; OSync (imageBak_path c);
   OTrunc (image_path c); OAppend (image_path c) (mk_header d); OAppend (image_path c) d; OSync (image_path c)].

Lemma ramDisk_Write_fits f d :
  fits f (image_path c) (length d) -> fits f (imageBak_path c) (length d) ->
  ramDisk_Write cfg f handle d =
    (Fs (<[image_path c := image d]> (<[imageBak_path c := image d]> (files f)))
        (wopen_ok f) (cap f) (fslog f ++ write_log d), true).
Proof using Hidx.
  intros Hp Hq. unfold ramDisk_Write. rewrite Hidx.
  rewrite write_image_fits by (done || apply mk_header_length). cbn [default from_option id].
  rewrite write_image_fits by (done || apply mk_header_length). cbn [default from_option id].
  unfold write_log. cbn. by rewrite <- app_assoc.
Qed.

Lemma other_ops_after a b (m : gmap string (list Z)) p :
  Forall (fun o => op_file o <> p) b ->
  dirty_file (a ++ b) p = dirty_file a p /\ apply_ops m (a ++ b) !! p = apply_ops m a !! p.
Proof using.
  intros H. unfold dirty_file, apply_ops. rewrite !foldl_app.
  generalize (foldl apply_op m a) as m1, (foldl (fun b o => if decide (op_file o = p) then match o with OSync _ => false | _ => true end else b) false a) as d.
  induction H as [|o b Ho _ IH]; intros m1 d; [done|]. cbn [foldl]. rewrite decide_False by done.
  destruct (IH (apply_op m1 o) d) as [-> ->]. split; [done|]. destruct o; cbn in *; by rewrite ?lookup_insert_ne by done.
Qed.

Lemma other_ops b (m : gmap string (list Z)) p :
  Forall (fun o => op_file o <> p) b -> dirty_file b p = false /\ apply_ops m b !! p = m !! p.
Proof using. apply (other_ops_after []). Qed.

(** After a power cut during a write of [new] over two images of [old], one of
    the two files is whole: the first is only written when the second is on the
    medium. *)
Lemma cut_states (m m' : gmap string (list Z)) old new :
  m !! image_path c = Some (image old) -> m !! imageBak_path c = Some (image old) ->
  power_cut m (write_log new) m' ->
  m' !! image_path c = Some (image old) \/ m' !! imageBak_path c = Some (image new).
Proof using Hpq.
  intros Hp Hq [n Hn]. set (first := take 4 (write_log new)). set (rest := drop 4 (write_log new)).
  assert (write_log new = first ++ rest) as Hlog by done.
  assert (Forall (fun o => op_file o <> image_path c) first) as Hf by (repeat constructor; cbn; congruence).
  assert (Forall (fun o => op_file o <> imageBak_path c) rest) as Hr by (repeat constructor; cbn; congruence).
  destruct (decide (n <= 4)%nat) as [Hle|Hgt].
  - left. rewrite Hlog, take_app_le in Hn by done. destruct (other_ops (take n first) m (image_path c)) as [Hd Ha]; [by apply Forall_take|].
    by rewrite Hn, Ha.
  - right. assert (take n (write_log new) = first ++ take (n - 4) rest) as Ht by (rewrite Hlog, take_app_ge by (cbn; lia); done).
    destruct (other_ops_after first (take (n - 4) rest) m (imageBak_path c)) as [Hd Ha]; [by apply Forall_take|].
    rewrite Ht in Hn. rewrite Hn, Ha; unfold first, write_log, apply_ops, dirty_file in *; cbn -[mk_header] in *.
    + repeat (rewrite lookup_insert_eq; cbn -[mk_header]). done.
    + rewrite Hd. by repeat (rewrite decide_True by done).
Qed.

(** Reading when one image of [d] is good and the other file, whatever it holds,
    is not accepted or yields the data of [good]. *)
Lemma ramDisk_Read_either f rnd buf d x y (good : list Z -> Prop) :
  (x = image_path c /\ y = imageBak_path c \/ x = imageBak_path c /\ y = image_path c) ->
  length d = length buf -> files f !! x = Some (image d) -> good d ->
  (forall g, files f !! y = Some g -> img_ok g (length buf) = true -> good (img_data g (length buf))) ->
  good (ramDisk_Read cfg f rnd handle buf).1.2 /\ (ramDisk_Read cfg f rnd handle buf).2 = true.
Proof using Hidx.
  intros Hxy Hd Hx Hgood Hy.
  assert (img_ok (image d) (length buf) = true) as Hok by (rewrite <- Hd; apply img_ok_image).
  assert (img_data (image d) (length buf) = d) as Hdat by (rewrite <- Hd; apply img_data_image).
  destruct (decide (first_name c rnd = x)) as [Hf|Hf].
  - rewrite (ramDisk_Read_first cfg handle c Hidx f rnd buf (image d)) by (by rewrite ?Hf). by rewrite Hdat.
  - assert (first_name c rnd = y /\ second_name c rnd = x) as [Hfy Hsx].
    { unfold first_name, second_name in *. destruct rnd; naive_solver. }
    destruct (files f !! y) as [g|] eqn:Eg; [destruct (img_ok g (length buf)) eqn:Hg|].
    + rewrite (ramDisk_Read_first cfg handle c Hidx f rnd buf g) by (by rewrite ?Hfy). cbn. auto.
    + rewrite (ramDisk_Read_second cfg handle c Hidx f rnd buf (image d)); [by rewrite Hdat| |by rewrite Hsx|done].
      intros c1. rewrite Hfy, Eg. congruence.
    + rewrite (ramDisk_Read_second cfg handle c Hidx f rnd buf (image d)); [by rewrite Hdat| |by rewrite Hsx|done].
      intros c1. by rewrite Hfy, Eg.
Qed.
End WriteEntry.

Lemma wsum_ff k : wsum (replicate (2 * k) 255) = 65535 * Z.of_nat k.
Proof.
  induction k as [|k IH]; [done|].
  replace (2 * S k)%nat with (S (S (2 * k))) by lia.
  change (replicate (S (S (2 * k))) 255) with (255 :: 255 :: replicate (2 * k) 255).
  cbn [wsum]. rewrite IH. lia.
Qed.

(** The checksum of an all-0xFF buffer is 0, the checksum of a zeroed header. *)
Lemma checksum_ff k :
  0 < Z.of_nat k <= 65537 -> _chkNVEcc (replicate (2 * k) 255) 0 = true.
Proof.
  intros Hk. unfold _chkNVEcc. apply Z.eqb_eq. rewrite calc_checksum_same.
  rewrite calc_Checksum_residue by (apply Forall_replicate; lia).
  rewrite wsum_ff, u32_small by lia. unfold ones_residue.
  destruct (Z.eqb_spec (65535 * Z.of_nat k) 0); [lia|]. rewrite u16_small by lia.
  replace (65535 * Z.of_nat k - 1) with (65534 + (Z.of_nat k - 1) * 65535) by lia.
  rewrite Z_mod_plus_full. reflexivity.
Qed.

Lemma header_checksum_zero : header_checksum (replicate RAMNV_SECT_SIZE 0) = 0.
Proof. vm_compute. reflexivity. Qed.

(** ** Properties *)

(** C25: after a completed [ramDisk_Write] whose two images could be opened and
    had room, [ramDisk_Read] returns the data written, whichever image it tries
    first and whatever its buffer held, and leaves the files as they are. *)
Theorem ramDisk_write_read cfg handle c f d buf rnd (f' := (ramDisk_Write cfg f handle d).1) :
  _getIdx cfg handle ≫= (fun idx => cfg !! idx) = Some c ->
  image_path c <> imageBak_path c ->
  fits f (image_path c) (length d) -> fits f (imageBak_path c) (length d) ->
  length buf = length d ->
  (ramDisk_Write cfg f handle d).2 = true /\
  ramDisk_Read cfg f' rnd handle buf = (f', d, true).
Proof.
  intros Hidx Hpq Hp Hq Hl. subst f'.
  rewrite (ramDisk_Write_fits _ _ _ Hidx) by done. cbn [fst snd]. split; [done|].
  rewrite (ramDisk_Read_first _ _ _ Hidx _ _ _ (image d)).
  - by rewrite Hl, img_data_image.
  - unfold first_name. destruct rnd; cbn [files]; [by rewrite lookup_insert_eq|].
    rewrite lookup_insert_ne by done. by rewrite lookup_insert_eq.
  - rewrite Hl. apply img_ok_image.
Qed.

Definition demo_cfg : list RAM_NV_CONFIG := [Cfg 1 "fixnv1" "fixnv2" 4; cfg_zero].
Definition demo_fs (m : gmap string (list Z)) : fs := Fs m (fun _ => true) (fun _ => None) [].

Lemma ramDisk_write_read_witness :
  ramDisk_Read demo_cfg (ramDisk_Write demo_cfg (demo_fs ∅) 1 [1; 2; 3; 4]).1 false 1 [0; 0; 0; 0]
  = ((ramDisk_Write demo_cfg (demo_fs ∅) 1 [1; 2; 3; 4]).1, [1; 2; 3; 4], true).
Proof.
  apply (ramDisk_write_read demo_cfg 1 (Cfg 1 "fixnv1" "fixnv2" 4) (demo_fs ∅) [1; 2; 3; 4] [0; 0; 0; 0] false);
    solve [reflexivity | discriminate | split; reflexivity || exact I].
Defined.

(** The reader takes the file for an image of [size] bytes only when its data are
    [old] or [new]: damage of any other kind shows in the checksum. *)
Definition shows (old new g : list Z) : Prop :=
  img_ok g (length new) = true -> img_data g (length new) = old \/ img_data g (length new) = new.

(** Damage that always shows: the file holds a beginning of the new image. *)
Lemma beginning_shows old new k : shows old new (take k (image new)).
Proof.
  unfold shows. rewrite img_ok_prefix. intros Hk%Nat.leb_le. right.
  rewrite take_ge by (rewrite image_length; lia). apply img_data_image.
Qed.

(** C3: saving an NV partition is atomic with respect to power cuts.  Two files
    hold good images of [old], they can be opened and have room, and the power
    fails anywhere during [ramDisk_Write new]; whatever had not been forced to
    the medium with [fsync] may be lost, partly written or garbled in any way.
    If damage shows in the 16-bit checksum (a damaged file is not accepted with
    data other than [old] or [new]; for a file that holds a beginning of the new
    image this is proved, [beginning_shows]), then at the next boot
    [ramDisk_Read] succeeds and returns exactly [old] or exactly [new],
    whichever image it tries first. *)
Theorem ramDisk_Write_crash_atomic cfg handle c f old new buf rnd f' :
  _getIdx cfg handle ≫= (fun idx => cfg !! idx) = Some c ->
  image_path c <> imageBak_path c ->
  files f !! image_path c = Some (image old) -> files f !! imageBak_path c = Some (image old) ->
  fits f (image_path c) (length new) -> fits f (imageBak_path c) (length new) ->
  length old = length new -> length buf = length new ->
  fslog f = [] ->
  power_cut (files f) (fslog (ramDisk_Write cfg f handle new).1) (files f') ->
  (forall p g, p = image_path c \/ p = imageBak_path c -> files f' !! p = Some g -> shows old new g) ->
  ((ramDisk_Read cfg f' rnd handle buf).1.2 = old \/ (ramDisk_Read cfg f' rnd handle buf).1.2 = new) /\
  (ramDisk_Read cfg f' rnd handle buf).2 = true.
Proof.
  intros Hidx Hpq Hp Hq Hfp Hfq Hl Hb Hlog Hcut Hshow.
  rewrite (ramDisk_Write_fits _ _ _ Hidx) in Hcut by done. cbn [fst fslog] in Hcut. rewrite Hlog, app_nil_l in Hcut.
  destruct (cut_states c Hpq (files f) (files f') old new Hp Hq Hcut) as [Hx|Hy].
  - apply (ramDisk_Read_either cfg handle c Hidx f' rnd buf old (image_path c) (imageBak_path c) (fun d => d = old \/ d = new)); [auto|congruence|done|auto|].
    intros g Hg. rewrite Hb. exact (Hshow _ g (or_intror eq_refl) Hg).
  - apply (ramDisk_Read_either cfg handle c Hidx f' rnd buf new (imageBak_path c) (image_path c) (fun d => d = old \/ d = new)); [auto|congruence|done|auto|].
    intros g Hg. rewrite Hb. exact (Hshow _ g (or_introl eq_refl) Hg).
Qed.

Definition demo_fs2 : fs :=
  demo_fs (<["fixnv1" := image [9; 8; 7; 6]]> (<["fixnv2" := image [9; 8; 7; 6]]> ∅)).
(** The power failed in the write of the first file: it has 514 bytes. *)
Definition demo_torn : fs :=
  demo_fs (<["fixnv2" := take 514 (image [1; 2; 3; 4])]> (files demo_fs2)).

Lemma ramDisk_Write_crash_atomic_witness :
  ((ramDisk_Read demo_cfg demo_torn false 1 [0; 0; 0; 0]).1.2 = [9; 8; 7; 6] \/
   (ramDisk_Read demo_cfg demo_torn false 1 [0; 0; 0; 0]).1.2 = [1; 2; 3; 4]) /\
  (ramDisk_Read demo_cfg demo_torn false 1 [0; 0; 0; 0]).2 = true.
Proof.
  apply (ramDisk_Write_crash_atomic demo_cfg 1 (Cfg 1 "fixnv1" "fixnv2" 4) demo_fs2 [9; 8; 7; 6] [1; 2; 3; 4] [0; 0; 0; 0] false demo_torn);
    try solve [reflexivity | discriminate | split; reflexivity || exact I].
  - exists 3%nat. intros p Hp. destruct (decide ("fixnv2" = p)) as [<-|Hne]; [vm_compute in Hp; discriminate Hp|].
    destruct (other_ops (take 3 (fslog (ramDisk_Write demo_cfg demo_fs2 1 [1; 2; 3; 4]).1)) (files demo_fs2) p) as [_ ->].
    + repeat constructor; done.
    + unfold demo_torn, demo_fs. cbn [files]. by rewrite lookup_insert_ne by done.
  - intros p g [->| ->] Hg.
    + assert (g = image [9; 8; 7; 6]) as -> by (unfold demo_torn in Hg; cbn -[image] in Hg; rewrite lookup_insert_ne, lookup_insert_eq in Hg by done; congruence).
      intros _. left. apply (img_data_image [9; 8; 7; 6]).
    + assert (g = take 514 (image [1; 2; 3; 4])) as -> by (unfold demo_torn in Hg; cbn -[image] in Hg; rewrite lookup_insert_eq in Hg; congruence).
      apply beginning_shows.
Defined.

(** the repair path can destroy data.  When the first image tried is complete
    but fails its checksum and the second one cannot be opened, the stale byte
    count of the first read and the zero checksum of the untouched header make
    the all-0xFF buffer look valid: [ramDisk_Read] answers success, hands out
    0xFF bytes and overwrites the image with a zero header and 0xFF data (for
    every even partition size up to 131074 bytes, in particular the 0x20000 of
    the fixed-NV partition). *)
Theorem ramDisk_Read_wipes_image cfg handle c f rnd buf c1 k :
  _getIdx cfg handle ≫= (fun idx => cfg !! idx) = Some c ->
  files f !! first_name c rnd = Some c1 ->
  (RAMNV_SECT_SIZE + length buf <= length c1)%nat -> img_ok c1 (length buf) = false ->
  files f !! second_name c rnd = None ->
  length buf = (2 * k)%nat -> 0 < Z.of_nat k <= 65537 ->
  fits f (first_name c rnd) (length buf) ->
  exists f', ramDisk_Read cfg f rnd handle buf = (f', replicate (length buf) 255, true) /\
    files f' !! first_name c rnd = Some (replicate RAMNV_SECT_SIZE 0 ++ replicate (length buf) 255).
Proof.
  intros Hidx H1 Hlen Hbad H2 Hk Hkr Hfit. unfold ramDisk_Read. rewrite Hidx.
  assert ((if rnd then (image_path c, imageBak_path c) else (imageBak_path c, image_path c))
          = (first_name c rnd, second_name c rnd)) as -> by (by destruct rnd).
  unfold read_first. rewrite H1, H2, read_header_full, read_data_full by lia.
  unfold img_ok in Hbad. rewrite (proj2 (Nat.leb_le _ _) Hlen) in Hbad. cbn [andb] in Hbad.
  rewrite Hbad, !Z.eqb_refl. cbn [negb andb].
  rewrite ?Z.eqb_refl, header_checksum_zero.
  assert (_chkNVEcc (replicate (length buf) 255) 0 = true) as -> by (rewrite Hk; by apply checksum_ff).
  cbn [negb]. rewrite write_image_fits.
  - eexists. split; [done|]. cbn [files]. by rewrite lookup_insert_eq.
  - apply length_replicate.
  - by rewrite length_replicate.
Qed.

Lemma ramDisk_Read_wipes_image_witness :
  exists f', ramDisk_Read demo_cfg
      (demo_fs {["fixnv1" := replicate 512 0 ++ [5; 5; 5; 5]]}) true 1 [0; 0; 0; 0]
    = (f', [255; 255; 255; 255], true) /\
    files f' !! "fixnv1"%string = Some (replicate 512 0 ++ [255; 255; 255; 255]).
Proof.
  apply (ramDisk_Read_wipes_image demo_cfg 1 (Cfg 1 "fixnv1" "fixnv2" 4)
           (demo_fs {["fixnv1" := replicate 512 0 ++ [5; 5; 5; 5]]}) true [0; 0; 0; 0]
           (replicate 512 0 ++ [5; 5; 5; 5]) 2);
    solve [reflexivity | vm_compute; reflexivity | apply Nat.leb_le; vm_compute; reflexivity | lia
          | split; reflexivity || exact I].
Defined.

(** when neither image file can be opened for writing [ramDisk_Write] changes
    nothing and still reports success, so its caller drops the dirty marks. *)
Theorem ramDisk_Write_silent_failure cfg handle c f d :
  _getIdx cfg handle ≫= (fun idx => cfg !! idx) = Some c ->
  wopen_ok f (image_path c) = false -> wopen_ok f (imageBak_path c) = false ->
  ramDisk_Write cfg f handle d = (f, true).
Proof.
  intros Hidx Hp Hq. unfold ramDisk_Write, write_image, fs_creat. rewrite Hidx, Hq.
  cbn [default from_option]. by rewrite Hp.
Qed.

Lemma ramDisk_Write_silent_failure_witness :
  ramDisk_Write demo_cfg (Fs ∅ (fun _ => false) (fun _ => None) []) 1 [1; 2]
  = (Fs ∅ (fun _ => false) (fun _ => None) [], true).
Proof.
  apply (ramDisk_Write_silent_failure demo_cfg 1 (Cfg 1 "fixnv1" "fixnv2" 4)); reflexivity.
Defined.
