(* ===== verification/NvBuf.v ===== *)
(** * NV server, buffer layer (apps/nvitem/nvitem_buf.c)

    Each NV partition has three RAM copies: [fromChannel] receives the sectors
    the modem sends, [backup] holds the last committed transaction and
    [toDisk] is what the saving thread writes out.  Every copy carries a dirty
    bitmap (one bit per 512-byte sector) and a checksum that is verified before
    the copy is used; a failed check triggers a kernel panic through sysrq.

    Operations return [None] when the C code would access memory outside a
    buffer (or shift by 32): undefined behaviour. *)

From S2P Require Import Prelude Checksum NvFs.

Definition RAMNV_DIRTYTABLE_MAXSIZE : nat := 48.

(** [_RAMNV_BUF_CTRL], [_RAMNV_PART_CTRL] and [_RAMNV_CTL].  [parts] lists the
    first [partNum] entries of the array [part]; the entries above [partNum]
    are never read. *)
Record buf_ctrl := BufCtrl {
  diskbuf : list Z;
  dirty : list Z;
  checksum : Z;
}.

Record part_ctrl := PartCtrl {
  partId : Z;
  sctNum : Z;
  fromChannel : buf_ctrl;
  backup : buf_ctrl;
  toDisk : buf_ctrl;
  fdhandle : Z;
}.

(** The server's data: [ramNvCtl], the configuration table, the files, the
    calibration flag, and the two outputs of this layer: the number of
    [giveEvent] signals and of sysrq panics. *)
Record nvw := Nvw {
  parts : list part_ctrl;
  nvcfg : list RAM_NV_CONFIG;
  disk : fs;
  is_cali_mode : bool;
  events : nat;
  sysrq : nat;
}.

Definition set_fromChannel (b : buf_ctrl) (p : part_ctrl) : part_ctrl :=
  PartCtrl (partId p) (sctNum p) b (backup p) (toDisk p) (fdhandle p).
Definition set_backup (b : buf_ctrl) (p : part_ctrl) : part_ctrl :=
  PartCtrl (partId p) (sctNum p) (fromChannel p) b (toDisk p) (fdhandle p).
Definition set_toDisk (b : buf_ctrl) (p : part_ctrl) : part_ctrl :=
  PartCtrl (partId p) (sctNum p) (fromChannel p) (backup p) b (fdhandle p).
Definition set_dirty (t : list Z) (b : buf_ctrl) : buf_ctrl := BufCtrl (diskbuf b) t (checksum b).

Definition set_parts (w : nvw) (ps : list part_ctrl) : nvw :=
  Nvw ps (nvcfg w) (disk w) (is_cali_mode w) (events w) (sysrq w).
Definition set_disk (w : nvw) (f : fs) : nvw :=
  Nvw (parts w) (nvcfg w) f (is_cali_mode w) (events w) (sysrq w).
Definition put_part (w : nvw) (id : nat) (p : part_ctrl) : nvw :=
  set_parts w (<[id := p]> (parts w)).

(** [RAMNV_SECT_SIZE*sctNum], in [uint32]. *)
Definition psize (p : part_ctrl) : nat := Z.to_nat (u32 (512 * sctNum p)).

(** The bytes of a copy the server uses (the allocation has four more). *)
Definition nvdata (p : part_ctrl) (b : buf_ctrl) : list Z := take (psize p) (diskbuf b).

(** ** Initialisation *)

(** The empty dirty table. *)
Definition clean_table : list Z := replicate RAMNV_DIRTYTABLE_MAXSIZE 0.

(** One iteration of the [while (config->partId)] loop of [initBuf]: [None]
    for [continue] (nothing added).  [slack] is the uninitialised tail of the
    [image_size + 4] bytes allocation. *)
Definition init_part (cfg : list RAM_NV_CONFIG) (f : fs) (rnd : bool) (slack : list Z)
    (c : RAM_NV_CONFIG) : fs * option part_ctrl :=
  let handle := ramDisk_Open (cfg_partId c) in
  if 0 =? handle then (f, None)
  else
    let '(f, buf, ok) := ramDisk_Read cfg f rnd handle (replicate (Z.to_nat (image_size c)) 0) in
    if ok then
      let b := BufCtrl (buf ++ slack) clean_table (calc_Checksum buf) in
      (f, Some (PartCtrl (cfg_partId c) (image_size c / 512) b b b handle))
    else (f, None).

(** The loop stops at the first entry with partition id 0. *)
Fixpoint init_parts (cfg : list RAM_NV_CONFIG) (config : list RAM_NV_CONFIG) (f : fs)
    (rnds : nat -> bool) (slack : list Z) : fs * list part_ctrl :=
  match config with
  | [] => (f, [])
  | c :: config' =>
      if cfg_partId c =? 0 then (f, [])
      else
        let '(f1, op) := init_part cfg f (rnds (length config')) slack c in
        let '(f2, ps) := init_parts cfg config' f1 rnds slack in
        (f2, match op with Some p => p :: ps | None => ps end)
  end.

Definition initBuf (a : nv_args) (f : fs) (cali : bool) (rnds : nat -> bool) (slack : list Z) : nvw :=
  let cfg := ramDisk_Init a in
  let '(f', ps) := init_parts cfg cfg f rnds slack in
  Nvw ps cfg f' cali 0 0.

(** [getCtlId]: index of a partition, [None] for (uint32)-1. *)
Fixpoint getCtlId_from (ps : list part_ctrl) (i : nat) (pid : Z) : option nat :=
  match ps with
  | [] => None
  | p :: ps' => if pid =? partId p then Some i else getCtlId_from ps' (S i) pid
  end.
Definition getCtlId (w : nvw) (pid : Z) : option nat := getCtlId_from (parts w) 0 pid.

(** ** Dirty bitmap *)

Definition U32MASK : Z := 0xFFFFFFFF.

(** The [while ((32-_bits) < scts)] loop and the final word of
    [_markDirtyInfo].  [fuel] bounds the iterations; each one moves to the next
    word, so with one more than the number of words it never runs out before
    an access outside the table. *)
Fixpoint mark_loop (fuel : nat) (t : list Z) (_bytes _bits scts : Z) : option (list Z) :=
  match fuel with
  | O => None
  | S fuel =>
      if 32 - _bits <? scts then
        w ← t !! Z.to_nat _bytes;
        mark_loop fuel (<[Z.to_nat _bytes := w .| u32 (U32MASK .<< _bits)]> t)
          (_bytes + 1) 0 (scts - (32 - _bits))
      else if scts =? 0 then None
      else
        w ← t !! Z.to_nat _bytes;
        Some (<[Z.to_nat _bytes := w .| u32 ((U32MASK .>> (32 - scts)) .<< _bits)]> t)
  end.

Definition mark_table (t : list Z) (start scts : Z) : option (list Z) :=
  let _bytes := start .>> 5 in
  let _bits := start - (_bytes .<< 5) in
  mark_loop (S (length t)) t _bytes _bits scts.

Definition _markDirtyInfo (w : nvw) (id : nat) (start scts : Z) : option nvw :=
  p ← parts w !! id;
  t ← mark_table (dirty (fromChannel p)) start scts;
  Some (put_part w id (set_fromChannel (set_dirty t (fromChannel p)) p)).

Definition __ifHasDirty (p : part_ctrl) : bool := negb (all_zero (dirty (backup p))).

(** ** Copies *)

(** [ChkNVBufEcc]: a mismatch writes "c" to /proc/sysrq-trigger. *)
Definition ChkNVBufEcc (w : nvw) (buf : list Z) (cs : Z) : nvw * bool :=
  if ChkNVEcc buf cs then (w, true)
  else (Nvw (parts w) (nvcfg w) (disk w) (is_cali_mode w) (events w) (S (sysrq w)), false).

Definition writeData (w : nvw) (id : nat) (start bytesLen : Z) (buf : list Z) : option nvw :=
  if bytesLen =? 0 then Some w
  else
    p ← parts w !! id;
    let b := fromChannel p in
    let '(w, ok) := ChkNVBufEcc w (nvdata p b) (checksum b) in
    if ok then
      src ← mem_read buf 0 bytesLen;
      d ← mem_write (diskbuf b) start src;
      Some (put_part w id
              (set_fromChannel (BufCtrl d (dirty b) (calc_Checksum (take (psize p) d))) p))
    else Some w.

(** [memcpy(dst.diskbuf, src.diskbuf, RAMNV_SECT_SIZE*sctNum)] and the new
    checksum of the destination. *)
Definition copy_buf (p : part_ctrl) (dst src : buf_ctrl) (t : list Z) : option buf_ctrl :=
  s ← mem_read (diskbuf src) 0 (Z.of_nat (psize p));
  d ← mem_write (diskbuf dst) 0 s;
  Some (BufCtrl d t (calc_Checksum (take (psize p) d))).

(** The critical section of [backupData]. *)
Definition backup_locked (w : nvw) (id : nat) : option nvw :=
  p ← parts w !! id;
  let '(w, ok) := ChkNVBufEcc w (nvdata p (fromChannel p)) (checksum (fromChannel p)) in
  if ok then
    b ← copy_buf p (backup p) (fromChannel p) (list_or (dirty (backup p)) (dirty (fromChannel p)));
    Some (put_part w id (set_backup b p))
  else Some w.

Definition restoreData (w : nvw) (id : nat) : option nvw :=
  p ← parts w !! id;
  let '(w, ok) := ChkNVBufEcc w (nvdata p (backup p)) (checksum (backup p)) in
  if ok then
    b ← copy_buf p (fromChannel p) (backup p) (dirty (backup p));
    Some (put_part w id (set_fromChannel b p))
  else Some w.

Definition __getData (w : nvw) (id : nat) : option nvw :=
  p ← parts w !! id;
  let '(w, ok) := ChkNVBufEcc w (nvdata p (backup p)) (checksum (backup p)) in
  if ok then
    b ← copy_buf p (toDisk p) (backup p) (list_or (dirty (toDisk p)) (dirty (backup p)));
    Some (put_part w id
            (set_backup (set_dirty (replicate (length (dirty (backup p))) 0) (backup p))
               (set_toDisk b p)))
  else Some w.

(** The part of [saveToDisk] after [__getData]: write the toDisk copy. *)
Definition write_out (w : nvw) (id : nat) : option nvw :=
  p ← parts w !! id;
  let '(w, ok) := ChkNVBufEcc w (nvdata p (toDisk p)) (checksum (toDisk p)) in
  if ok then
    let '(f, ret) := ramDisk_Write (nvcfg w) (disk w) (fdhandle p) (nvdata p (toDisk p)) in
    let w := set_disk w f in
    if ret then
      Some (put_part w id
              (set_toDisk (set_dirty (replicate (length (dirty (toDisk p))) 0) (toDisk p)) p))
    else Some w
  else Some w.

(** One iteration of the loop of [saveToDisk]. *)
Definition save_part (w : nvw) (id : nat) : option nvw :=
  p ← parts w !! id;
  if __ifHasDirty p then w ← __getData w id; write_out w id else Some w.

Fixpoint save_loop (w : nvw) (ids : list nat) : option nvw :=
  match ids with
  | [] => Some w
  | id :: ids => w ← save_part w id; save_loop w ids
  end.

Definition saveToDisk (w : nvw) : option nvw := save_loop w (seq 0 (length (parts w))).

Definition giveEvent (w : nvw) : nvw :=
  Nvw (parts w) (nvcfg w) (disk w) (is_cali_mode w) (S (events w)) (sysrq w).

(** [backupData] always returns 1. *)
Definition backupData (w : nvw) (id : nat) : option (nvw * Z) :=
  w ← backup_locked w id;
  w ← (if is_cali_mode w then saveToDisk w else Some (giveEvent w));
  Some (w, 1).

(** [uninitBuf]: the buffers are freed and the table emptied. *)
Definition uninitBuf (w : nvw) : nvw := set_parts w [].

(** ** Well-formedness *)

Record wf_buf (p : part_ctrl) (b : buf_ctrl) : Prop := WfBuf {
  wb_len : (psize p <= length (diskbuf b))%nat;
  wb_bytes : bytes (diskbuf b);
  wb_dirty : length (dirty b) = RAMNV_DIRTYTABLE_MAXSIZE;
  wb_cs : checksum b = calc_Checksum (nvdata p b);
}.

Record wf_part (p : part_ctrl) : Prop := WfPart {
  wp_from : wf_buf p (fromChannel p);
  wp_backup : wf_buf p (backup p);
  wp_toDisk : wf_buf p (toDisk p);
}.

Definition wf_nv (w : nvw) : Prop := Forall wf_part (parts w).

#[export] Hint Resolve wp_from wp_backup wp_toDisk wb_len wb_bytes wb_dirty : sprd.

(** [wf_buf] and [nvdata] only depend on the size of the partition. *)
Lemma psize_set_from b p : psize (set_fromChannel b p) = psize p.
Proof. done. Qed.

Lemma nvdata_size p q b : sctNum p = sctNum q -> nvdata p b = nvdata q b.
Proof. intros H. unfold nvdata, psize. by rewrite H. Qed.

Lemma wf_buf_size p q b : sctNum p = sctNum q -> wf_buf p b -> wf_buf q b.
Proof.
  intros H [H1 H2 H3 H4]. split; auto.
  - unfold psize in *. by rewrite <- H.
  - rewrite H4. f_equal. by apply nvdata_size.
Qed.

Lemma wf_set_from p b : wf_part p -> wf_buf p b -> wf_part (set_fromChannel b p).
Proof. intros [H1 H2 H3] Hb. split; by apply (wf_buf_size p). Qed.
Lemma wf_set_backup p b : wf_part p -> wf_buf p b -> wf_part (set_backup b p).
Proof. intros [H1 H2 H3] Hb. split; by apply (wf_buf_size p). Qed.
Lemma wf_set_toDisk p b : wf_part p -> wf_buf p b -> wf_part (set_toDisk b p).
Proof. intros [H1 H2 H3] Hb. split; by apply (wf_buf_size p). Qed.

Lemma wf_set_dirty p b t :
  wf_buf p b -> length t = RAMNV_DIRTYTABLE_MAXSIZE -> wf_buf p (set_dirty t b).
Proof. intros [H1 H2 H3 H4] Ht. split; auto. Qed.

Lemma wf_put_part w id p : wf_nv w -> wf_part p -> wf_nv (put_part w id p).
Proof. intros H Hp. by apply Forall_insert. Qed.

Lemma wf_lookup w id p : wf_nv w -> parts w !! id = Some p -> wf_part p.
Proof. intros H Hp. by eapply Forall_lookup_1. Qed.

#[export] Hint Resolve wf_set_from wf_set_backup wf_set_toDisk wf_set_dirty wf_put_part wf_lookup : sprd.

Lemma nvdata_length p b : wf_buf p b -> length (nvdata p b) = psize p.
Proof. intros [H _ _ _]. unfold nvdata. rewrite length_take. lia. Qed.

Lemma nvdata_bytes p b : wf_buf p b -> bytes (nvdata p b).
Proof. intros [_ H _ _]. by apply Forall_take. Qed.

(** A well-formed copy passes its check: no panic. *)
Lemma ChkNVBufEcc_wf w p b : wf_buf p b -> ChkNVBufEcc w (nvdata p b) (checksum b) = (w, true).
Proof.
  intros [_ _ _ Hc]. unfold ChkNVBufEcc, ChkNVEcc. by rewrite Hc, Z.eqb_refl.
Qed.

(** The result of [copy_buf] on well-formed copies. *)
Definition copied (p : part_ctrl) (dst src : buf_ctrl) (t : list Z) : buf_ctrl :=
  BufCtrl (splice (diskbuf dst) 0 (nvdata p src)) t (checksum src).

Lemma nvdata_copied p dst src t : wf_buf p src -> nvdata p (copied p dst src t) = nvdata p src.
Proof.
  intros Hs. unfold copied. unfold nvdata at 1. cbn [diskbuf]. unfold splice.
  rewrite take_0, app_nil_l. apply take_app_exact. by rewrite nvdata_length.
Qed.

Lemma copy_buf_wf p dst src t :
  wf_buf p dst -> wf_buf p src -> copy_buf p dst src t = Some (copied p dst src t).
Proof.
  intros Hd Hs. unfold copy_buf. rewrite mem_read_prefix by (destruct Hs; lia).
  cbn [mbind option_bind]. rewrite Nat2Z.id. fold (nvdata p src).
  rewrite mem_write_ok; [|lia|rewrite nvdata_length by done; destruct Hd; lia].
  cbn [mbind option_bind]. unfold copied. change (Z.to_nat 0) with 0%nat. do 2 f_equal.
  rewrite (wb_cs _ _ Hs). f_equal. exact (nvdata_copied p dst src t Hs).
Qed.

Lemma wf_copied p dst src t :
  wf_buf p dst -> wf_buf p src -> length t = RAMNV_DIRTYTABLE_MAXSIZE ->
  wf_buf p (copied p dst src t).
Proof.
  intros Hd Hs Ht. split; cbn [copied diskbuf dirty checksum].
  - rewrite splice_length; rewrite ?nvdata_length by done; destruct Hd; simpl; lia.
  - apply splice_bytes; [by destruct Hd|by apply nvdata_bytes].
  - done.
  - rewrite nvdata_copied by done. by destruct Hs.
Qed.

#[export] Hint Resolve wf_copied : sprd.

Lemma list_or_dirty p b1 b2 :
  wf_buf p b1 -> wf_buf p b2 ->
  length (list_or (dirty b1) (dirty b2)) = RAMNV_DIRTYTABLE_MAXSIZE.
Proof. intros [_ _ H1 _] [_ _ H2 _]. by rewrite list_or_length by congruence. Qed.
#[export] Hint Resolve list_or_dirty : sprd.

(** ** Effect of each operation on a well-formed state *)

Section Effects.
Context (w : nvw) (id : nat) (p : part_ctrl).
Context (Hp : parts w !! id = Some p) (Hwf : wf_part p).

Definition backup_part : part_ctrl :=
  set_backup (copied p (backup p) (fromChannel p)
                (list_or (dirty (backup p)) (dirty (fromChannel p)))) p.
Definition restore_part : part_ctrl :=
  set_fromChannel (copied p (fromChannel p) (backup p) (dirty (backup p))) p.
Definition getData_part : part_ctrl :=
  set_backup (set_dirty clean_table (backup p))
    (set_toDisk (copied p (toDisk p) (backup p) (list_or (dirty (toDisk p)) (dirty (backup p)))) p).

Lemma backup_locked_eq : backup_locked w id = Some (put_part w id backup_part).
Proof using Hp Hwf.
  unfold backup_locked. rewrite Hp. cbn [mbind option_bind].
  rewrite ChkNVBufEcc_wf by (by destruct Hwf). by rewrite copy_buf_wf by (by destruct Hwf).
Qed.

Lemma restoreData_eq : restoreData w id = Some (put_part w id restore_part).
Proof using Hp Hwf.
  unfold restoreData. rewrite Hp. cbn [mbind option_bind].
  rewrite ChkNVBufEcc_wf by (by destruct Hwf). by rewrite copy_buf_wf by (by destruct Hwf).
Qed.

Lemma __getData_eq : __getData w id = Some (put_part w id getData_part).
Proof using Hp Hwf.
  unfold __getData. rewrite Hp. cbn [mbind option_bind].
  rewrite ChkNVBufEcc_wf by (by destruct Hwf). rewrite copy_buf_wf by (by destruct Hwf).
  cbn [mbind option_bind]. rewrite (wb_dirty _ _ (wp_backup _ Hwf)). done.
Qed.

Lemma backup_part_wf : wf_part backup_part.
Proof using Hwf.
  destruct Hwf. apply wf_set_backup; [done|]. apply wf_copied; eauto using list_or_dirty.
Qed.
Lemma restore_part_wf : wf_part restore_part.
Proof using Hwf.
  destruct Hwf. apply wf_set_from; [done|]. apply wf_copied; eauto using wb_dirty.
Qed.
Lemma getData_part_wf : wf_part getData_part.
Proof using Hwf.
  apply wf_set_backup.
  { destruct Hwf. apply wf_set_toDisk; [done|]. apply wf_copied; eauto using list_or_dirty. }
  eapply wf_buf_size; [|apply wf_set_dirty; [apply wp_backup, Hwf|reflexivity]]. done.
Qed.

(** What the saving thread leaves of the partition. *)
Definition written_part : part_ctrl := set_toDisk (set_dirty clean_table (toDisk p)) p.

Lemma write_out_eq :
  write_out w id =
    let '(f, ret) := ramDisk_Write (nvcfg w) (disk w) (fdhandle p) (nvdata p (toDisk p)) in
    Some (if ret then put_part (set_disk w f) id written_part else set_disk w f).
Proof using Hp Hwf.
  unfold write_out. rewrite Hp. cbn [mbind option_bind].
  rewrite ChkNVBufEcc_wf by (by destruct Hwf).
  destruct (ramDisk_Write _ _ _ _) as [f ret]. rewrite (wb_dirty _ _ (wp_toDisk _ Hwf)).
  by destruct ret.
Qed.

Lemma writeData_eq start len buf :
  0 < len <= Z.of_nat (length buf) -> 0 <= start ->
  start + len <= Z.of_nat (length (diskbuf (fromChannel p))) ->
  writeData w id start len buf =
    Some (put_part w id (set_fromChannel
      (let d := splice (diskbuf (fromChannel p)) (Z.to_nat start) (take (Z.to_nat len) buf) in
       BufCtrl d (dirty (fromChannel p)) (calc_Checksum (take (psize p) d))) p)).
Proof using Hp Hwf.
  intros Hl Hs Hr. unfold writeData. destruct (Z.eqb_spec len 0); [lia|].
  rewrite Hp. cbn [mbind option_bind]. rewrite ChkNVBufEcc_wf by (by destruct Hwf).
  rewrite mem_read_prefix by lia. cbn [mbind option_bind].
  rewrite mem_write_ok by (rewrite ?length_take; lia). done.
Qed.
End Effects.

(** ** The dirty bitmap *)

(** Sector [k] is marked in table [t]. *)
Definition dirty_bit (t : list Z) (k : Z) : bool :=
  Z.testbit (t !!! Z.to_nat (k / 32)) (k mod 32).

Lemma dirty_bit_insert t i v k :
  (i < length t)%nat -> 0 <= k ->
  dirty_bit (<[i := v]> t) k =
    if k / 32 =? Z.of_nat i then Z.testbit v (k mod 32) else dirty_bit t k.
Proof.
  intros Hi Hk. unfold dirty_bit. destruct (Z.eqb_spec (k / 32) (Z.of_nat i)) as [H|H].
  - rewrite H, Nat2Z.id. by rewrite list_lookup_total_insert_eq.
  - rewrite list_lookup_total_insert_ne; [done|]. zlia.
Qed.

Lemma mask_high_bit bits j :
  0 <= bits < 32 -> 0 <= j < 32 -> Z.testbit (u32 (U32MASK .<< bits)) j = (bits <=? j).
Proof.
  intros Hb Hj. rewrite testbit_u32, testbit_shiftl by lia. replace (j <? 32) with true by lia.
  destruct (Z.leb_spec bits j); simpl; [|done].
  change U32MASK with (Z.ones 32). rewrite Z.ones_spec_low by lia. done.
Qed.

Lemma mask_range_bit bits scts j :
  0 <= bits < 32 -> 0 < scts <= 32 - bits -> 0 <= j < 32 ->
  Z.testbit (u32 ((U32MASK .>> (32 - scts)) .<< bits)) j = (bits <=? j) && (j <? bits + scts).
Proof.
  intros Hb Hs Hj. rewrite testbit_u32, testbit_shiftl by lia. replace (j <? 32) with true by lia.
  destruct (Z.leb_spec bits j); simpl; [|done].
  rewrite testbit_shiftr by lia. change U32MASK with (Z.ones 32).
  destruct (Z.ltb_spec j (bits + scts)).
  - apply Z.ones_spec_low. lia.
  - apply Z.ones_spec_high. lia.
Qed.

Lemma mark_loop_spec fuel t b bits scts :
  0 <= b -> 0 <= bits < 32 -> 0 < scts -> 32 * b + bits + scts <= 32 * Z.of_nat (length t) ->
  (length t < fuel + Z.to_nat b)%nat ->
  exists t', mark_loop fuel t b bits scts = Some t' /\ length t' = length t /\
    forall k, 0 <= k -> dirty_bit t' k =
      dirty_bit t k || ((32 * b + bits <=? k) && (k <? 32 * b + bits + scts)).
Proof.
  revert t b bits scts. induction fuel as [|fuel IH]; intros t b bits scts Hb Hbits Hs Hr Hf.
  { zlia. }
  cbn [mark_loop].
  destruct (lookup_lt_is_Some_2 t (Z.to_nat b) ltac:(lia)) as [v Hv]. rewrite Hv.
  cbn [mbind option_bind].
  assert (forall k, 0 <= k -> k / 32 =? Z.of_nat (Z.to_nat b) = true ->
            dirty_bit t k = Z.testbit v (k mod 32)) as Hold.
  { intros k Hk He. unfold dirty_bit. apply Z.eqb_eq in He. rewrite He, Nat2Z.id.
    by rewrite (list_lookup_total_correct _ _ _ Hv). }
  destruct (Z.ltb_spec (32 - bits) scts) as [Hlt|Hge].
  - edestruct (IH (<[Z.to_nat b := v .| u32 (U32MASK .<< bits)]> t) (b + 1) 0 (scts - (32 - bits)))
      as (t' & Hm & Hl & Hk); rewrite ?length_insert; try lia.
    rewrite length_insert in Hl.
    exists t'. split; [done|]. split; [done|]. intros k Hk0. rewrite Hk by done.
    rewrite dirty_bit_insert by lia.
    destruct (k / 32 =? Z.of_nat (Z.to_nat b)) eqn:He.
    + rewrite Hold by done. rewrite Z.lor_spec, mask_high_bit by zlia.
      apply Z.eqb_eq in He. rewrite <- orb_assoc. f_equal. zlia.
    + f_equal. apply Z.eqb_neq in He. zlia.
  - destruct (Z.eqb_spec scts 0); [lia|].
    eexists. split; [done|]. split; [apply length_insert|]. intros k Hk0.
    rewrite dirty_bit_insert by lia.
    destruct (k / 32 =? Z.of_nat (Z.to_nat b)) eqn:He.
    + rewrite Hold by done. rewrite Z.lor_spec, mask_range_bit by zlia.
      apply Z.eqb_eq in He. f_equal. zlia.
    + apply Z.eqb_neq in He. rewrite (proj2 (andb_false_iff _ _)), orb_false_r; [done|]. zlia.
Qed.

Lemma mark_table_spec t start scts :
  0 <= start -> 0 < scts -> start + scts <= 32 * Z.of_nat (length t) ->
  exists t', mark_table t start scts = Some t' /\ length t' = length t /\
    forall k, 0 <= k -> dirty_bit t' k = dirty_bit t k || ((start <=? k) && (k <? start + scts)).
Proof.
  intros H0 Hs Hr. unfold mark_table. rewrite shiftr_div, Z.shiftl_mul_pow2 by lia.
  change (2 ^ 5) with 32.
  destruct (mark_loop_spec (S (length t)) t (start / 32) (start - start / 32 * 32) scts)
    as (t' & Hm & Hl & Hk); try zlia.
  exists t'. split; [done|]. split; [done|]. intros k Hk0. rewrite Hk by done.
  replace (32 * (start / 32) + (start - start / 32 * 32)) with start by lia. done.
Qed.

(** A table with a marked sector is not clean. *)
Lemma dirty_bit_not_clean t k : dirty_bit t k = true -> all_zero t = false.
Proof.
  intros Hk. apply not_true_is_false. intros Hz%all_zero_spec. unfold dirty_bit in Hk.
  destruct (t !! Z.to_nat (k / 32)) as [v|] eqn:E.
  - rewrite (list_lookup_total_correct _ _ _ E) in Hk.
    rewrite Forall_lookup in Hz. rewrite (Hz _ _ E), Z.bits_0 in Hk. done.
  - rewrite list_lookup_total_alt, E in Hk. simpl in Hk. by rewrite Z.bits_0 in Hk.
Qed.

(** ** Frames *)

(** [same_env w w'] holds when a step kept everything but the partitions and
    the contents of the files. *)
Record same_env (w w' : nvw) : Prop := SameEnv {
  se_cfg : nvcfg w' = nvcfg w;
  se_cali : is_cali_mode w' = is_cali_mode w;
  se_events : events w' = events w;
  se_sysrq : sysrq w' = sysrq w;
  se_parts : length (parts w') = length (parts w);
  se_wopen : wopen_ok (disk w') = wopen_ok (disk w);
  se_cap : cap (disk w') = cap (disk w);
}.

#[export] Instance same_env_preorder : PreOrder same_env.
Proof.
  split.
  - by intros w.
  - intros w1 w2 w3 [] []. split; congruence.
Qed.

Lemma same_env_put_part w id p : same_env w (put_part w id p).
Proof. split; cbn; try done. apply length_insert. Qed.
#[export] Hint Resolve same_env_put_part : sprd.

Lemma write_image_env f p h d f' b :
  write_image f p h d = Some (f', b) -> wopen_ok f' = wopen_ok f /\ cap f' = cap f.
Proof.
  unfold write_image, fs_creat, fs_write. destruct (wopen_ok f p); [|done].
  intros H. by simplify_eq/=.
Qed.

Lemma ramDisk_Write_env cfg f h d f' b :
  ramDisk_Write cfg f h d = (f', b) -> wopen_ok f' = wopen_ok f /\ cap f' = cap f.
Proof.
  unfold ramDisk_Write. destruct (_ ≫= _) as [c|]; [|by intros; simplify_eq].
  destruct (write_image f _ _ _) as [[f1 b1]|] eqn:E1; cbn [default from_option id];
    [apply write_image_env in E1 as [H1 H2]|];
    destruct (write_image _ (image_path c) _ _) as [[f2 b2]|] eqn:E2; cbn [default from_option id];
    try apply write_image_env in E2 as [H3 H4]; intros; simplify_eq; split; congruence.
Qed.

(** Parts of a partition no step of the saving thread changes. *)
Record same_part (p p' : part_ctrl) : Prop := SamePart {
  sp_id : partId p' = partId p;
  sp_sct : sctNum p' = sctNum p;
  sp_handle : fdhandle p' = fdhandle p;
  sp_from : fromChannel p' = fromChannel p;
  sp_backup : diskbuf (backup p') = diskbuf (backup p);
}.

#[export] Instance same_part_preorder : PreOrder same_part.
Proof.
  split.
  - by intros w.
  - intros p1 p2 p3 [] []. split; congruence.
Qed.

Lemma same_part_data p p' : same_part p p' -> nvdata p' (backup p') = nvdata p (backup p).
Proof. intros [_ H _ _ H']. unfold nvdata, psize. by rewrite H, H'. Qed.

Lemma getData_part_same p : same_part p (getData_part p).
Proof. done. Qed.

(** The configuration entry of a partition. *)
Definition entry (w : nvw) (p : part_ctrl) (c : RAM_NV_CONFIG) : Prop :=
  _getIdx (nvcfg w) (fdhandle p) ≫= (fun idx => nvcfg w !! idx) = Some c.

(** Both images of a partition hold its committed copy. *)
Definition on_disk (w : nvw) (p : part_ctrl) : Prop :=
  forall c, entry w p c ->
    files (disk w) !! image_path c = Some (image (nvdata p (backup p))) /\
    files (disk w) !! imageBak_path c = Some (image (nvdata p (backup p))).

(** The image files of the partitions can be written and are distinct. *)
Record disk_ok (w : nvw) : Prop := DiskOk {
  do_fits : forall i p, parts w !! i = Some p -> exists c, entry w p c /\
    image_path c <> imageBak_path c /\
    fits (disk w) (image_path c) (psize p) /\ fits (disk w) (imageBak_path c) (psize p);
  do_sep : forall i j p q c d, i <> j -> parts w !! i = Some p -> parts w !! j = Some q ->
    entry w p c -> entry w q d ->
    image_path c <> image_path d /\ image_path c <> imageBak_path d /\
    imageBak_path c <> image_path d /\ imageBak_path c <> imageBak_path d;
}.

(** ** One partition saved *)

Section Save.
Context (w : nvw) (id : nat) (p : part_ctrl).
Context (Hw : wf_nv w) (Hp : parts w !! id = Some p).

(** The partition after [__getData]. *)
Let p1 : part_ctrl := getData_part p.
Let w1 : nvw := put_part w id p1.

Lemma save_lookup1 : parts w1 !! id = Some p1.
Proof using Hp.
  unfold w1. cbn. rewrite list_lookup_insert_eq; [done|]. by eapply lookup_lt_Some.
Qed.

(** [save_part] on a dirty partition: one [ramDisk_Write] of the committed
    data. *)
Lemma save_part_dirty :
  __ifHasDirty p = true ->
  save_part w id =
    let '(f, ret) := ramDisk_Write (nvcfg w) (disk w) (fdhandle p) (nvdata p (backup p)) in
    Some (put_part (set_disk w f) id (if ret then written_part p1 else p1)).
Proof using Hw Hp.
  intros Hd. unfold save_part. rewrite Hp. cbn [mbind option_bind]. rewrite Hd.
  rewrite (__getData_eq w id p Hp) by eauto with sprd. cbn [mbind option_bind]. fold p1 w1.
  rewrite (write_out_eq w1 id p1 save_lookup1)
    by (apply getData_part_wf; eauto with sprd).
  assert (nvdata p1 (toDisk p1) = nvdata p (backup p)) as ->.
  { unfold p1, getData_part. cbn [toDisk set_backup set_toDisk].
    apply (nvdata_copied p). eauto with sprd. }
  change (nvcfg w1) with (nvcfg w). change (disk w1) with (disk w). change (fdhandle p1) with (fdhandle p).
  destruct (ramDisk_Write _ _ _ _) as [f ret]. unfold w1, put_part, set_disk, set_parts. cbn.
  destruct ret; cbn; [|done]. by rewrite list_insert_insert_eq.
Qed.

Lemma save_part_spec :
  exists w' p', save_part w id = Some w' /\ wf_nv w' /\ same_env w w' /\
    parts w' = <[id := p']> (parts w) /\ same_part p p' /\ all_zero (dirty (backup p')) = true.
Proof using Hw Hp.
  assert (wf_part p) as Hwp by eauto with sprd.
  destruct (__ifHasDirty p) eqn:Hd.
  - rewrite save_part_dirty by done. destruct (ramDisk_Write _ _ _ _) as [f ret] eqn:Er.
    apply ramDisk_Write_env in Er as [Ho Hc].
    exists (put_part (set_disk w f) id (if ret then written_part p1 else p1)),
           (if ret then written_part p1 else p1).
    assert (wf_part p1) as Hp1 by (by apply getData_part_wf).
    split; [done|]. split; [|split; [|split; [done|split]]].
    + apply Forall_insert; [done|]. destruct ret; [|done].
      apply wf_set_toDisk; [done|]. apply wf_set_dirty; [by destruct Hp1|done].
    + split; cbn; try done. apply length_insert.
    + by destruct ret.
    + destruct ret; apply all_zero_replicate.
  - exists w, p. unfold save_part. rewrite Hp. cbn [mbind option_bind]. rewrite Hd.
    split; [done|]. split; [done|]. split; [done|].
    split; [by rewrite list_insert_id|]. split; [done|].
    unfold __ifHasDirty in Hd. by destruct (all_zero _).
Qed.
End Save.

(** Saving a dirty partition when its images can be written puts its committed
    data on disk and cleans both tables. *)
Lemma save_part_on_disk w id p c :
  wf_nv w -> parts w !! id = Some p -> __ifHasDirty p = true ->
  entry w p c ->
  fits (disk w) (image_path c) (psize p) -> fits (disk w) (imageBak_path c) (psize p) ->
  save_part w id =
    Some (put_part (set_disk w
            (Fs (<[image_path c := image (nvdata p (backup p))]>
                   (<[imageBak_path c := image (nvdata p (backup p))]> (files (disk w))))
                (wopen_ok (disk w)) (cap (disk w))
                (fslog (disk w) ++ write_log c (nvdata p (backup p))))) id
            (written_part (getData_part p))).
Proof.
  intros Hw Hp Hd Hc Hf1 Hf2. rewrite (save_part_dirty _ _ _ Hw Hp Hd).
  rewrite <- (nvdata_length p (backup p)) in Hf1, Hf2 by eauto with sprd.
  by rewrite (ramDisk_Write_fits _ _ _ Hc) by done.
Qed.

(** ** The whole saving pass *)

Lemma entry_same w w' p p' c :
  same_env w w' -> same_part p p' -> entry w' p' c <-> entry w p c.
Proof. intros [Hc _ _ _ _ _ _] [_ _ Hh _ _]. unfold entry. by rewrite Hc, Hh. Qed.

Lemma insert_part_cases w w' id p p' i q :
  parts w !! id = Some p -> parts w' = <[id := p']> (parts w) -> parts w' !! i = Some q ->
  (i = id /\ q = p') \/ (i <> id /\ parts w !! i = Some q).
Proof.
  intros Hp Hw' Hq. rewrite Hw' in Hq.
  destruct (decide (i = id)) as [->|Hne].
  - rewrite list_lookup_insert_eq in Hq by (by eapply lookup_lt_Some). left. naive_solver.
  - rewrite list_lookup_insert_ne in Hq by done. auto.
Qed.

Lemma disk_ok_step w w' id p p' :
  same_env w w' -> parts w !! id = Some p -> parts w' = <[id := p']> (parts w) ->
  same_part p p' -> disk_ok w -> disk_ok w'.
Proof.
  intros He Hp Hw' Hs [H1 H2].
  assert (forall i q, parts w' !! i = Some q -> exists q0, parts w !! i = Some q0 /\ same_part q0 q)
    as Hback.
  { intros i q Hq. destruct (insert_part_cases w w' id p p' i q Hp Hw' Hq) as [[-> ->]|[_ H]];
      [by exists p|by exists q]. }
  split.
  - intros i q Hq. destruct (Hback i q Hq) as (q0 & Hq0 & Hsq).
    destruct (H1 i q0 Hq0) as (c & Hc & Hpq & [Hf1 Hf2] & [Hg1 Hg2]). exists c.
    rewrite (entry_same w w' q0 q) by done. unfold fits, psize in *.
    rewrite (se_wopen _ _ He), (se_cap _ _ He), (sp_sct _ _ Hsq). auto 6.
  - intros i j q r c d Hij Hq Hr Hc Hd.
    destruct (Hback i q Hq) as (q0 & Hq0 & Hsq). destruct (Hback j r Hr) as (r0 & Hr0 & Hsr).
    rewrite (entry_same w w' q0 q) in Hc by done. rewrite (entry_same w w' r0 r) in Hd by done.
    eauto.
Qed.

(** Every partition is either marked for saving or safe on disk. *)
Definition covered (w : nvw) : Prop :=
  forall i p, parts w !! i = Some p -> __ifHasDirty p = true \/ on_disk w p.

Lemma save_part_durable w id p :
  wf_nv w -> disk_ok w -> covered w -> parts w !! id = Some p ->
  exists w' p', save_part w id = Some w' /\ wf_nv w' /\ disk_ok w' /\ covered w' /\ same_env w w' /\
    parts w' = <[id := p']> (parts w) /\ same_part p p' /\ all_zero (dirty (backup p')) = true.
Proof.
  intros Hw Hd Hc Hp.
  destruct (save_part_spec w id p Hw Hp) as (w' & p' & Hs & Hw' & He & Hparts & Hsp & Hz).
  exists w', p'. split; [done|]. split; [done|]. split; [by eapply disk_ok_step|].
  split; [|done].
  destruct (do_fits _ Hd id p Hp) as (c & Hec & Hpq & Hf1 & Hf2).
  intros i q Hq. destruct (__ifHasDirty p) eqn:Hdirty.
  - rewrite (save_part_on_disk w id p c) in Hs by done. simplify_eq.
    destruct (insert_part_cases w _ id p p' i q Hp Hparts Hq) as [[-> ->]|[Hne Hq']].
    + right. intros c' Hc'. rewrite (entry_same w _ p p') in Hc' by done.
      assert (c' = c) as -> by (unfold entry in *; congruence).
      rewrite (same_part_data p p') by done. cbn [disk put_part set_parts set_disk files].
      rewrite lookup_insert_eq. rewrite lookup_insert_ne by done. by rewrite lookup_insert_eq.
    + destruct (Hc i q Hq') as [|Hon]; [by left|]. right. intros d Hd'.
      destruct (Hon d Hd') as [H1 H2].
      destruct (do_sep _ Hd id i p q c d) as (? & ? & ? & ?); try done.
      cbn [disk put_part set_parts set_disk files].
      by rewrite !lookup_insert_ne by done.
  - unfold save_part in Hs. rewrite Hp in Hs. cbn [mbind option_bind] in Hs. rewrite Hdirty in Hs.
    simplify_eq. eauto.
Qed.

Lemma save_loop_durable ids w :
  wf_nv w -> disk_ok w -> covered w -> (forall i, i ∈ ids -> (i < length (parts w))%nat) -> NoDup ids ->
  exists w', save_loop w ids = Some w' /\ wf_nv w' /\ disk_ok w' /\ covered w' /\ same_env w w' /\
    (forall i, i ∉ ids -> parts w' !! i = parts w !! i) /\
    (forall i p, parts w !! i = Some p -> exists p', parts w' !! i = Some p' /\ same_part p p') /\
    (forall i p', i ∈ ids -> parts w' !! i = Some p' -> all_zero (dirty (backup p')) = true).
Proof.
  revert w. induction ids as [|id ids IH]; intros w Hw Hd Hc Hin Hnd; cbn [save_loop].
  { exists w. repeat (split; [done|]). split; [intros i p; by exists p|].
    intros i p Hi. by apply not_elem_of_nil in Hi. }
  apply NoDup_cons in Hnd as [Hid Hnd].
  destruct (lookup_lt_is_Some_2 (parts w) id) as [p Hp]; [apply Hin; set_solver|].
  destruct (save_part_durable w id p Hw Hd Hc Hp)
    as (w1 & p1 & -> & Hw1 & Hd1 & Hc1 & He1 & Hparts & Hsp & Hz). cbn [mbind option_bind].
  destruct (IH w1 Hw1 Hd1 Hc1) as (w' & Hs & Hw' & Hd' & Hc' & He' & Hout & Hkeep & Hclean); [|done|].
  { intros i Hi. rewrite (se_parts _ _ He1). apply Hin. set_solver. }
  exists w'. repeat (split; [done|]). split; [by etransitivity|]. split; [|split].
  - intros i Hi. rewrite Hout by set_solver. rewrite Hparts.
    apply list_lookup_insert_ne. set_solver.
  - intros i q Hq. destruct (decide (i = id)) as [->|Hne].
    + destruct (Hkeep id p1) as (p' & Hp' & Hs').
      { rewrite Hparts. apply list_lookup_insert_eq. by eapply lookup_lt_Some. }
      exists p'. split; [done|]. simplify_eq. by etransitivity.
    + apply Hkeep. rewrite Hparts. by rewrite list_lookup_insert_ne.
  - intros i p' Hi Hp'. destruct (decide (i ∈ ids)); [eauto|].
    assert (i = id) as -> by set_solver. rewrite Hout, Hparts in Hp' by done.
    rewrite list_lookup_insert_eq in Hp' by (by eapply lookup_lt_Some). naive_solver.
Qed.

Lemma saveToDisk_spec w :
  wf_nv w -> disk_ok w -> covered w ->
  exists w', saveToDisk w = Some w' /\ wf_nv w' /\ disk_ok w' /\ same_env w w' /\
    forall i p, parts w !! i = Some p -> exists p', parts w' !! i = Some p' /\ same_part p p' /\
      all_zero (dirty (backup p')) = true /\ on_disk w' p'.
Proof.
  intros Hw Hd Hc.
  destruct (save_loop_durable (seq 0 (length (parts w))) w Hw Hd Hc)
    as (w' & Hs & Hw' & Hd' & Hc' & He & _ & Hkeep & Hclean).
  { intros i Hi%elem_of_seq. lia. }
  { apply NoDup_seq. }
  exists w'. repeat (split; [done|]). intros i p Hp.
  destruct (Hkeep i p Hp) as (p' & Hp' & Hsp). exists p'. split; [done|]. split; [done|].
  assert (all_zero (dirty (backup p')) = true) as Hz.
  { apply (Hclean i); [|done]. apply elem_of_seq. apply lookup_lt_Some in Hp. lia. }
  split; [done|]. destruct (Hc' i p' Hp') as [Hdirty|]; [|done].
  unfold __ifHasDirty in Hdirty. by rewrite Hz in Hdirty.
Qed.

(** The same pass without any assumption on the files. *)
Lemma save_loop_wf ids w :
  wf_nv w -> (forall i, i ∈ ids -> (i < length (parts w))%nat) ->
  exists w', save_loop w ids = Some w' /\ wf_nv w' /\ same_env w w' /\
    (forall i p, parts w !! i = Some p -> exists p', parts w' !! i = Some p' /\ same_part p p').
Proof.
  revert w. induction ids as [|id ids IH]; intros w Hw Hin; cbn [save_loop].
  { exists w. repeat (split; [done|]). intros i p. by exists p. }
  destruct (lookup_lt_is_Some_2 (parts w) id) as [p Hp]; [apply Hin; set_solver|].
  destruct (save_part_spec w id p Hw Hp) as (w1 & p1 & -> & Hw1 & He1 & Hparts & Hsp & _).
  cbn [mbind option_bind].
  destruct (IH w1 Hw1) as (w' & Hs & Hw' & He' & Hkeep).
  { intros i Hi. rewrite (se_parts _ _ He1). apply Hin. set_solver. }
  exists w'. split; [done|]. split; [done|]. split; [by etransitivity|].
  intros i q Hq. destruct (decide (i = id)) as [->|Hne].
  - destruct (Hkeep id p1) as (p' & Hp' & Hs').
    { rewrite Hparts. apply list_lookup_insert_eq. by eapply lookup_lt_Some. }
    exists p'. split; [done|]. simplify_eq. by etransitivity.
  - apply Hkeep. rewrite Hparts. by rewrite list_lookup_insert_ne.
Qed.

Lemma saveToDisk_wf w :
  wf_nv w ->
  exists w', saveToDisk w = Some w' /\ wf_nv w' /\ same_env w w' /\
    (forall i p, parts w !! i = Some p -> exists p', parts w' !! i = Some p' /\ same_part p p').
Proof.
  intros Hw. apply save_loop_wf; [done|]. intros i Hi%elem_of_seq. lia.
Qed.

(** ** Operations as steps *)

(** The operations the protocol layer and the saving thread perform. *)
Inductive nvop :=
| OpMark (id : nat) (start scts : Z)
| OpWrite (id : nat) (start len : Z) (buf : list Z)
| OpBackup (id : nat)
| OpRestore (id : nat)
| OpSave.

Definition nv_exec (w : nvw) (o : nvop) : option nvw :=
  match o with
  | OpMark id start scts => _markDirtyInfo w id start scts
  | OpWrite id start len buf => writeData w id start len buf
  | OpBackup id => fst <$> backupData w id
  | OpRestore id => restoreData w id
  | OpSave => saveToDisk w
  end.

(** Arguments inside the buffers. *)
Definition op_ok (w : nvw) (o : nvop) : Prop :=
  match o with
  | OpMark id start scts =>
      (id < length (parts w))%nat /\ 0 <= start /\ 0 < scts /\ start + scts <= 1536
  | OpWrite id start len buf =>
      exists p, parts w !! id = Some p /\ bytes buf /\ 0 <= start /\ 0 <= len <= Z.of_nat (length buf) /\
        start + len <= Z.of_nat (length (diskbuf (fromChannel p)))
  | OpBackup id | OpRestore id => (id < length (parts w))%nat
  | OpSave => True
  end.

Lemma writeData_wf w id p start len buf :
  wf_nv w -> parts w !! id = Some p -> bytes buf -> 0 <= start -> 0 <= len <= Z.of_nat (length buf) ->
  start + len <= Z.of_nat (length (diskbuf (fromChannel p))) ->
  exists w', writeData w id start len buf = Some w' /\ wf_nv w' /\ same_env w w'.
Proof.
  intros Hw Hp Hb Hs Hl Hr. assert (wf_part p) as Hwp by eauto with sprd.
  destruct (decide (len = 0)) as [->|Hne]; [by exists w|].
  rewrite (writeData_eq w id p Hp Hwp) by lia.
  eexists. split; [done|]. split; [|apply same_env_put_part].
  apply wf_put_part; [done|]. apply wf_set_from; [done|].
  pose proof (wp_from _ Hwp) as [Hlen Hbytes Hdirty _].
  split; cbn [diskbuf dirty checksum]; try done.
  - rewrite splice_length by (rewrite length_take; lia). done.
  - apply splice_bytes; [done|by apply Forall_take].
Qed.

Lemma markDirty_eq w id p start scts :
  parts w !! id = Some p -> wf_part p -> 0 <= start -> 0 < scts -> start + scts <= 1536 ->
  exists t', _markDirtyInfo w id start scts =
      Some (put_part w id (set_fromChannel (set_dirty t' (fromChannel p)) p)) /\
    length t' = RAMNV_DIRTYTABLE_MAXSIZE /\
    forall k, 0 <= k -> dirty_bit t' k =
      dirty_bit (dirty (fromChannel p)) k || ((start <=? k) && (k <? start + scts)).
Proof.
  intros Hp Hwp H0 Hs Hr. unfold _markDirtyInfo. rewrite Hp. cbn [mbind option_bind].
  pose proof (wb_dirty _ _ (wp_from _ Hwp)) as Hd.
  destruct (mark_table_spec (dirty (fromChannel p)) start scts) as (t' & Hm & Hl & Hk).
  { lia. } { lia. } { rewrite Hd. unfold RAMNV_DIRTYTABLE_MAXSIZE. lia. }
  exists t'. rewrite Hm, <- Hd. auto.
Qed.

Lemma nv_exec_wf w o :
  wf_nv w -> op_ok w o -> exists w', nv_exec w o = Some w' /\ wf_nv w' /\ sysrq w' = sysrq w.
Proof.
  intros Hw Ho. destruct o as [id start scts|id start len buf|id|id|]; cbn [nv_exec op_ok] in *.
  - destruct Ho as (Hid & H0 & Hs & Hr). apply lookup_lt_is_Some_2 in Hid as [p Hp].
    assert (wf_part p) as Hwp by eauto with sprd.
    destruct (markDirty_eq w id p start scts) as (t' & -> & Hl & _); try done.
    eexists. split; [done|]. split; [|done]. apply wf_put_part; [done|].
    apply wf_set_from; [done|]. apply wf_set_dirty; [by destruct Hwp|done].
  - destruct Ho as (p & Hp & Hb & H0 & Hl & Hr).
    destruct (writeData_wf w id p start len buf) as (w' & -> & Hw' & []); eauto.
  - apply lookup_lt_is_Some_2 in Ho as [p Hp]. assert (wf_part p) as Hwp by eauto with sprd.
    unfold backupData. rewrite (backup_locked_eq w id p Hp Hwp). cbn [mbind option_bind].
    assert (wf_nv (put_part w id (backup_part p))) as Hw'
      by (apply wf_put_part; [done|by apply backup_part_wf]).
    destruct (is_cali_mode _).
    + destruct (saveToDisk_wf _ Hw') as (w' & -> & Hw'' & [] & _). cbn. eauto.
    + cbn. eexists. split; [done|]. split; done.
  - apply lookup_lt_is_Some_2 in Ho as [p Hp]. assert (wf_part p) as Hwp by eauto with sprd.
    rewrite (restoreData_eq w id p Hp Hwp). eexists. split; [done|]. split; [|done].
    apply wf_put_part; [done|by apply restore_part_wf].
  - destruct (saveToDisk_wf _ Hw) as (w' & -> & Hw' & [] & _). eauto.
Qed.

(** ** Initial state *)

Lemma read_header_length c : length (read_header c).1 = RAMNV_SECT_SIZE.
Proof.
  unfold read_header. cbn [fst]. rewrite length_app, length_replicate, length_take. lia.
Qed.
Lemma read_data_length c size : length (read_data c size).1 = size.
Proof.
  unfold read_data. cbn [fst]. rewrite length_app, length_replicate, length_take. lia.
Qed.
Lemma read_data_bytes c size : bytes c -> bytes (read_data c size).1.
Proof.
  intros Hc. unfold read_data. cbn [fst]. apply Forall_app_2.
  - by apply Forall_take, Forall_drop.
  - apply Forall_replicate. lia.
Qed.

Lemma write_image_bytes f p h d f' b :
  map_Forall (fun _ c => bytes c) (files f) -> bytes h -> bytes d ->
  write_image f p h d = Some (f', b) -> map_Forall (fun _ c => bytes c) (files f').
Proof.
  intros Hf Hh Hd. unfold write_image, fs_creat, fs_write.
  destruct (wopen_ok f p); [|done]. intros H. simplify_eq/=.
  rewrite !lookup_insert_eq. cbn. rewrite !insert_insert_eq. apply map_Forall_insert_2; [|done].
  apply Forall_app_2; by apply Forall_take.
Qed.

(** Whatever the images contain, [ramDisk_Read] fills the buffer with bytes. *)
Lemma ramDisk_Read_bytes cfg f rnd h buf f' buf' ok :
  map_Forall (fun _ c => bytes c) (files f) -> bytes buf ->
  ramDisk_Read cfg f rnd h buf = (f', buf', ok) ->
  length buf' = length buf /\ bytes buf' /\ map_Forall (fun _ c => bytes c) (files f').
Proof.
  intros Hf Hb. unfold ramDisk_Read. destruct (_ ≫= _) as [c|]; [|intros; by simplify_eq].
  set (x := if rnd then image_path c else imageBak_path c).
  set (y := if rnd then imageBak_path c else image_path c).
  replace (if rnd then (image_path c, imageBak_path c) else (imageBak_path c, image_path c))
    with (x, y) by (subst x y; by destruct rnd).
  assert (forall d r, read_first f x (length buf) = (Some d, r) -> length d = length buf /\ bytes d) as H1.
  { intros d r. unfold read_first. destruct (files f !! x) as [cx|] eqn:Ex; [|done].
    pose proof (read_data_length cx (length buf)) as Hl.
    pose proof (read_data_bytes cx (length buf) (Hf _ _ Ex)) as Hb'.
    destruct (read_header cx), (read_data cx _). cbn [fst] in *.
    destruct (negb _); [done|]. destruct (_ && _); [|done]. intros; by simplify_eq. }
  destruct (read_first f x _) as [[d|] r] eqn:E1.
  { intros Hr. simplify_eq. destruct (H1 _ _ eq_refl). auto. }
  set (s := match files f !! y with Some c => (read_header c, read_data c (length buf)) | None => _ end).
  assert (length s.2.1 = length buf /\ bytes s.2.1 /\ bytes s.1.1) as (H2 & H3 & H4).
  { subst s. destruct (files f !! y) as [cy|] eqn:Ey; cbn [fst snd].
    - split; [apply read_data_length|]. split; [apply read_data_bytes; eauto|].
      unfold read_header. cbn [fst]. apply Forall_app_2; [apply Forall_take; eauto|].
      apply Forall_replicate. lia.
    - rewrite length_replicate. split; [done|]. split; apply Forall_replicate; lia. }
  clearbody s. destruct s as [[hd r1] [bd r2]]. cbn [fst snd] in *.
  do 3 (case_match; [intros; by simplify_eq|]).
  destruct (write_image f x hd bd) as [[f1 b1]|] eqn:Ew; intros; simplify_eq; [|done].
  split; [done|]. split; [done|]. eapply (write_image_bytes f x hd buf'); eauto.
Qed.

Lemma ramDisk_Read_ok cfg f rnd h buf c :
  _getIdx cfg h ≫= (fun idx => cfg !! idx) = Some c -> (ramDisk_Read cfg f rnd h buf).2 = true.
Proof.
  intros Hc. unfold ramDisk_Read. rewrite Hc.
  destruct (if rnd then _ else _) as [x y]. destruct (read_first f x _) as [[d|] r]; [done|].
  destruct (match files f !! y with Some _ => _ | None => _ end) as [[hd r1] [bd r2]].
  do 3 (case_match; [done|]). by destruct (write_image f x hd bd) as [[f1 b1]|].
Qed.

Lemma init_part_wf cfg f rnd slack c c' :
  map_Forall (fun _ c => bytes c) (files f) -> bytes slack -> cfg_partId c <> 0 ->
  _getIdx cfg (cfg_partId c) ≫= (fun idx => cfg !! idx) = Some c' ->
  0 <= image_size c < 4294967296 -> image_size c mod 512 = 0 ->
  exists f' p, init_part cfg f rnd slack c = (f', Some p) /\ wf_part p /\
    map_Forall (fun _ c => bytes c) (files f') /\
    partId p = cfg_partId c /\ sctNum p = image_size c / 512 /\ backup p = fromChannel p /\ toDisk p = fromChannel p.
Proof.
  intros Hf Hs Hid Hc Hsz Hmod. unfold init_part, ramDisk_Open.
  destruct (Z.eqb_spec 0 (cfg_partId c)); [congruence|].
  pose proof (ramDisk_Read_ok cfg f rnd _ (replicate (Z.to_nat (image_size c)) 0) c' Hc) as Hok.
  destruct (ramDisk_Read _ _ _ _ _) as [[f' buf] ok] eqn:Er. cbn [snd] in Hok. subst ok.
  apply ramDisk_Read_bytes in Er as (Hl & Hb & Hf'); [|done|apply Forall_replicate; lia].
  rewrite length_replicate in Hl.
  exists f'. eexists. split; [done|].
  assert (Z.to_nat (u32 (512 * (image_size c / 512))) = length buf) as Hps.
  { rewrite u32_small by zlia. zlia. }
  match goal with |- wf_part (PartCtrl ?i ?n ?b _ _ ?h) /\ _ => assert (wf_buf (PartCtrl i n b b b h) b) as Hwb end.
  { split; unfold nvdata, psize; cbn [diskbuf dirty checksum sctNum]; rewrite ?Hps.
    - rewrite length_app. lia.
    - by apply Forall_app_2.
    - done.
    - by rewrite take_app_exact. }
  split; [by split|]. auto.
Qed.

(** ** Properties *)

(** [_markDirtyInfo] marks exactly the sectors [start .. start+scts-1] and
    keeps the other marks, across word boundaries, for every non-empty range
    inside the 1536 sectors of the table. *)
Theorem markDirtyInfo_exact w id p start scts :
  parts w !! id = Some p -> wf_part p -> 0 <= start -> 0 < scts -> start + scts <= 1536 ->
  exists w' p', _markDirtyInfo w id start scts = Some w' /\ parts w' !! id = Some p' /\
    (forall k, 0 <= k -> dirty_bit (dirty (fromChannel p')) k =
       dirty_bit (dirty (fromChannel p)) k || ((start <=? k) && (k <? start + scts))) /\
    diskbuf (fromChannel p') = diskbuf (fromChannel p) /\ backup p' = backup p /\ toDisk p' = toDisk p.
Proof.
  intros Hp Hwp H0 Hs Hr.
  destruct (markDirty_eq w id p start scts Hp Hwp H0 Hs Hr) as (t' & -> & Hl & Hk).
  eexists _, (set_fromChannel (set_dirty t' (fromChannel p)) p). split; [done|]. split; [|done].
  apply list_lookup_insert_eq. by eapply lookup_lt_Some.
Qed.

(** A small well-formed state: one partition of two sectors. *)
Definition demo_buf (b : Z) : buf_ctrl :=
  BufCtrl (replicate 1024 b ++ [0; 0; 0; 0]) clean_table (calc_Checksum (replicate 1024 b)).
Definition demo_part : part_ctrl := PartCtrl 1 2 (demo_buf 0) (demo_buf 0) (demo_buf 0) 1.
Definition demo_nv : nvw := Nvw [demo_part] demo_cfg (demo_fs ∅) true 0 0.

Lemma demo_part_wf : wf_part demo_part.
Proof.
  assert (wf_buf demo_part (demo_buf 0)) as H; [|by split].
  split.
  - apply Nat.leb_le. vm_compute. reflexivity.
  - apply Forall_app_2; [apply Forall_replicate; lia|repeat constructor; lia].
  - reflexivity.
  - vm_compute. reflexivity.
Qed.

Lemma demo_nv_wf : wf_nv demo_nv.
Proof. constructor; [apply demo_part_wf|constructor]. Qed.

Lemma markDirtyInfo_exact_witness :
  exists w' p', _markDirtyInfo demo_nv 0 30 5 = Some w' /\ parts w' !! 0%nat = Some p' /\
    (forall k, 0 <= k -> dirty_bit (dirty (fromChannel p')) k =
       dirty_bit (dirty (fromChannel demo_part)) k || ((30 <=? k) && (k <? 30 + 5))) /\
    diskbuf (fromChannel p') = diskbuf (fromChannel demo_part) /\
    backup p' = backup demo_part /\ toDisk p' = toDisk demo_part.
Proof.
  apply (markDirtyInfo_exact demo_nv 0 demo_part 30 5); [reflexivity|apply demo_part_wf|lia|lia|lia].
Defined.

(** Arguments inside the buffers all along a run. *)
Fixpoint run_ok (w : nvw) (os : list nvop) : Prop :=
  match os with
  | [] => True
  | o :: os => op_ok w o /\ forall w', nv_exec w o = Some w' -> run_ok w' os
  end.

Definition nv_run (w : nvw) (os : list nvop) : option nvw :=
  foldl (fun ow o => w ← ow; nv_exec w o) (Some w) os.

(** C24: the three copies stay consistent.  From a well-formed state every
    sequence of operations of the layer, with arguments inside the buffers,
    completes without an out-of-range access, keeps every copy's size, byte
    range, table size and checksum, and never triggers the sysrq panic. *)
Theorem nv_ops_preserve_wf w os :
  wf_nv w -> run_ok w os ->
  exists w', nv_run w os = Some w' /\ wf_nv w' /\ sysrq w' = sysrq w.
Proof.
  revert w. induction os as [|o os IH]; intros w Hw Hok; unfold nv_run; cbn [foldl]; [eauto|].
  cbn [mbind option_bind]. destruct Hok as [Ho Hok].
  destruct (nv_exec_wf w o Hw Ho) as (w1 & E & Hw1 & Hq1). rewrite E.
  destruct (IH w1 Hw1 (Hok w1 E)) as (w' & Hr & Hw' & Hq'). exists w'. rewrite <- Hq1. auto.
Qed.

Lemma nv_ops_preserve_wf_witness :
  exists w', nv_run demo_nv [OpMark 0 0 2; OpWrite 0 510 4 [1; 2; 3; 4]; OpBackup 0; OpRestore 0] = Some w' /\
    wf_nv w' /\ sysrq w' = 0%nat.
Proof.
  apply (nv_ops_preserve_wf demo_nv [OpMark 0 0 2; OpWrite 0 510 4 [1; 2; 3; 4]; OpBackup 0; OpRestore 0]);
    [apply demo_nv_wf|].
  split; [cbn; lia|]. intros w1 H1. vm_compute in H1. simplify_eq.
  split.
  { eexists. split; [reflexivity|]. split; [repeat constructor; lia|]. cbn. lia. }
  intros w2 H2. vm_compute in H2. simplify_eq.
  split; [cbn; lia|]. intros w3 H3. vm_compute in H3. simplify_eq. split; [cbn; lia|]. done.
Defined.

(** C4: a saving pass is complete.  If every partition is marked dirty or already
    safe on disk, and the image files can be written, then after [saveToDisk]
    both images of every partition hold exactly its committed (backup) data,
    all backup dirty tables are clean, and the received and committed copies
    are unchanged. *)
Theorem saveToDisk_durable w :
  wf_nv w -> disk_ok w -> covered w ->
  exists w', saveToDisk w = Some w' /\ wf_nv w' /\ same_env w w' /\
    forall i p, parts w !! i = Some p -> exists p', parts w' !! i = Some p' /\ same_part p p' /\
      all_zero (dirty (backup p')) = true /\
      forall c, entry w' p' c ->
        files (disk w') !! image_path c = Some (image (nvdata p (backup p))) /\
        files (disk w') !! imageBak_path c = Some (image (nvdata p (backup p))).
Proof.
  intros Hw Hd Hc. destruct (saveToDisk_spec w Hw Hd Hc) as (w' & Hs & Hw' & _ & He & Hp).
  exists w'. repeat (split; [done|]). intros i p Hi. destruct (Hp i p Hi) as (p' & ? & Hsp & ? & Hon).
  exists p'. repeat (split; [done|]). intros c Hc'. rewrite <- (same_part_data p p' Hsp). by apply Hon.
Qed.

Definition demo_dirty_part : part_ctrl :=
  set_backup (set_dirty (<[0%nat := 1]> clean_table) (demo_buf 7)) demo_part.
Definition demo_dirty_nv : nvw := Nvw [demo_dirty_part] demo_cfg (demo_fs ∅) true 0 0.

Lemma demo_dirty_wf : wf_nv demo_dirty_nv.
Proof.
  constructor; [|constructor]. apply wf_set_backup; [apply demo_part_wf|].
  apply wf_set_dirty; [|reflexivity]. split.
  - apply Nat.leb_le. vm_compute. reflexivity.
  - apply Forall_app_2; [apply Forall_replicate; lia|repeat constructor; lia].
  - reflexivity.
  - vm_compute. reflexivity.
Qed.

Lemma demo_disk_ok w p : parts w = [p] -> nvcfg w = demo_cfg -> fdhandle p = 1 ->
  wopen_ok (disk w) = (fun _ => true) -> cap (disk w) = (fun _ => None) -> disk_ok w.
Proof.
  intros Hps Hc Hh Ho Hcap. split.
  - intros [|i] q Hq; rewrite Hps in Hq; simplify_eq/=. exists (Cfg 1 "fixnv1" "fixnv2" 4).
    unfold entry, fits. rewrite Hc, Hh, Ho, Hcap. split_and!; done.
  - intros [|i] [|j] q r c d Hij Hq Hr; rewrite Hps in Hq, Hr; simplify_eq/=.
Qed.

Lemma saveToDisk_durable_witness :
  exists w', saveToDisk demo_dirty_nv = Some w' /\ wf_nv w' /\ same_env demo_dirty_nv w' /\
    forall i p, parts demo_dirty_nv !! i = Some p -> exists p', parts w' !! i = Some p' /\ same_part p p' /\
      all_zero (dirty (backup p')) = true /\
      forall c, entry w' p' c ->
        files (disk w') !! image_path c = Some (image (nvdata p (backup p))) /\
        files (disk w') !! imageBak_path c = Some (image (nvdata p (backup p))).
Proof.
  apply (saveToDisk_durable demo_dirty_nv).
  - apply demo_dirty_wf.
  - apply (demo_disk_ok _ demo_dirty_part); reflexivity.
  - intros [|i] p Hp; simplify_eq/=. left. vm_compute. reflexivity.
Defined.

(** a failed save is not retried.  Whether or not the images could be
    written, one pass over a dirty partition clears its backup table, so the
    next pass does nothing; when [ramDisk_Write] failed the disk still lacks
    the data (only the unused toDisk table remembers it). *)
Theorem save_not_retried w id p w1 :
  wf_nv w -> parts w !! id = Some p -> __ifHasDirty p = true -> save_part w id = Some w1 ->
  save_part w1 id = Some w1 /\
  ((ramDisk_Write (nvcfg w) (disk w) (fdhandle p) (nvdata p (backup p))).2 = false ->
   exists p1, parts w1 !! id = Some p1 /\ all_zero (dirty (toDisk p1)) = false).
Proof.
  intros Hw Hp Hd Hs. assert (wf_part p) as Hwp by eauto with sprd.
  destruct (save_part_spec w id p Hw Hp) as (w' & p' & Hs' & _ & _ & Hparts & _ & Hz).
  rewrite Hs in Hs'. simplify_eq.
  assert (parts w' !! id = Some p') as Hp'.
  { rewrite Hparts. apply list_lookup_insert_eq. by eapply lookup_lt_Some. }
  split.
  - unfold save_part, __ifHasDirty. rewrite Hp'. cbn [mbind option_bind]. by rewrite Hz.
  - intros Hret. rewrite (save_part_dirty _ _ _ Hw Hp Hd) in Hs.
    destruct (ramDisk_Write _ _ _ _) as [f ret]. cbn [snd] in Hret. subst ret. simplify_eq.
    exists (getData_part p). split.
    + apply list_lookup_insert_eq. by eapply lookup_lt_Some.
    + cbn. rewrite all_zero_list_or by (by rewrite !(wb_dirty p) by eauto with sprd).
      unfold __ifHasDirty in Hd. apply negb_true_iff in Hd. rewrite Hd. apply andb_false_r.
Qed.

Lemma save_not_retried_witness :
  exists w1, save_part demo_dirty_nv 0 = Some w1 /\ save_part w1 0 = Some w1.
Proof.
  destruct (save_part_spec demo_dirty_nv 0 demo_dirty_part demo_dirty_wf eq_refl) as (w1 & p1 & H & _).
  exists w1. split; [exact H|].
  apply (save_not_retried demo_dirty_nv 0 demo_dirty_part w1);
    [apply demo_dirty_wf|reflexivity|vm_compute; reflexivity|exact H].
Defined.

(** [initBuf] starts the server well: with both configured sizes a multiple
    of the sector size, and whatever the image files contain, the two
    partitions are loaded with identical, checksummed copies. *)
Theorem initBuf_wf a f cali rnds slack (w := initBuf a f cali rnds slack) :
  map_Forall (fun _ c => bytes c) (files f) -> bytes slack ->
  (String.length (fixnv_ori_path a) <= 100)%nat -> (String.length (fixnv_bak_path a) <= 100)%nat ->
  (String.length (runnv_ori_path a) <= 100)%nat -> (String.length (runnv_bak_path a) <= 100)%nat ->
  0 <= fixnv_size a < 4294967296 -> fixnv_size a mod 512 = 0 ->
  0 <= runnv_size a < 4294967296 -> runnv_size a mod 512 = 0 ->
  wf_nv w /\ map partId (parts w) = [1; 2] /\ map sctNum (parts w) = [fixnv_size a / 512; runnv_size a / 512] /\
  sysrq w = 0%nat /\
  Forall (fun p => backup p = fromChannel p /\ toDisk p = fromChannel p) (parts w).
Proof.
  intros Hf Hs H1 H2 H3 H4 Hz1 Hm1 Hz2 Hm2. subst w. unfold initBuf.
  assert (ramDisk_Init a = [Cfg 1 (fixnv_ori_path a) (fixnv_bak_path a) (fixnv_size a);
        Cfg 2 (runnv_ori_path a) (runnv_bak_path a) (runnv_size a)] ++ replicate 14 cfg_zero) as ->.
  { unfold ramDisk_Init, NV_PATH_MAX_LEN.
    by rewrite !(proj2 (Nat.ltb_ge _ _)) by done. }
  set (c1 := Cfg 1 (fixnv_ori_path a) (fixnv_bak_path a) (fixnv_size a)).
  set (c2 := Cfg 2 (runnv_ori_path a) (runnv_bak_path a) (runnv_size a)).
  set (cfg := [c1; c2] ++ replicate 14 cfg_zero).
  destruct (init_part_wf cfg f (rnds 15%nat) slack c1 c1) as (f1 & p1 & E1 & Hw1 & Hf1 & Hi1 & Hn1 & Hb1 & Ht1);
    try done.
  destruct (init_part_wf cfg f1 (rnds 14%nat) slack c2 c2) as (f2 & p2 & E2 & Hw2 & Hf2 & Hi2 & Hn2 & Hb2 & Ht2);
    try done.
  assert (init_parts cfg cfg f rnds slack = (f2, [p1; p2])) as ->.
  { change cfg with (c1 :: c2 :: replicate 14 cfg_zero) at 2. cbn [init_parts].
    change (cfg_partId c1 =? 0) with false. change (cfg_partId c2 =? 0) with false.
    change (length (c2 :: replicate 14 cfg_zero)) with 15%nat.
    change (length (replicate 14 cfg_zero)) with 14%nat.
    cbn iota. rewrite E1. cbn iota. rewrite E2. reflexivity. }
  unfold wf_nv. cbn [parts map sysrq]. rewrite Hi1, Hi2, Hn1, Hn2. rewrite !Forall_cons. auto 12.
Qed.

Lemma initBuf_wf_witness :
  let a := NvArgs "/dev/spipe_td1" 1024 512 "fixnv1" "fixnv2" "runtimenv1" "runtimenv2" in
  wf_nv (initBuf a (demo_fs ∅) true (fun _ => true) [0; 0; 0; 0]) /\
  map partId (parts (initBuf a (demo_fs ∅) true (fun _ => true) [0; 0; 0; 0])) = [1; 2] /\
  map sctNum (parts (initBuf a (demo_fs ∅) true (fun _ => true) [0; 0; 0; 0])) = [2; 1] /\
  sysrq (initBuf a (demo_fs ∅) true (fun _ => true) [0; 0; 0; 0]) = 0%nat /\
  Forall (fun p => backup p = fromChannel p /\ toDisk p = fromChannel p)
    (parts (initBuf a (demo_fs ∅) true (fun _ => true) [0; 0; 0; 0])).
Proof.
  apply (initBuf_wf (NvArgs "/dev/spipe_td1" 1024 512 "fixnv1" "fixnv2" "runtimenv1" "runtimenv2")
           (demo_fs ∅) true (fun _ => true) [0; 0; 0; 0]);
    solve [apply map_Forall_empty | repeat constructor; lia | cbn; lia | reflexivity].
Defined.
