(* ===== verification/NvPacket.v ===== *)
(** * NV server, packet layer (apps/nvitem/nvitem_packet.c, nvitem_channe_spipe.c)

    The modem talks to the server through a character device.  A packet is a
    20-byte header (magic, ecc, group and sub index, size) and a 1024-byte
    body; the server answers with a 36-byte response that repeats the header.
    Multi-byte fields are little-endian. *)

From S2P Require Import Prelude.

Definition PACKET_MAGIC : Z := 0x524d4e56.
Definition PACKET_HEAD_SIZE : Z := 20.
Definition PACKETSIZE : Z := 1024.

(** What one [read] of the channel returns: an error, or at most as many bytes
    as were asked for. *)
Inductive chan_in :=
| ReadErr
| ReadData (d : list Z).

(** [packeBuf], [_idxGrp] and [_idxSub]; [rsps] are the responses written to
    the channel, oldest first. *)
Record packet := Packet {
  packeBuf : list Z;
  _idxGrp : Z;
  _idxSub : Z;
  rsps : list (list Z);
}.

(** Fields of [PACKET_HEAD]. *)
Definition ph_magic (h : list Z) : Z := ld32 h 0.
Definition ph_idxGrp (h : list Z) : Z := ld32 h 8.
Definition ph_idxSub (h : list Z) : Z := ld32 h 12.
Definition ph_size (h : list Z) : Z := ld32 h 16.

Definition __makeEcc (buf : list Z) : Z := 0.
Definition __chkEcc (buf : list Z) (ecc : Z) : bool := true.

Definition _initPacket (p : packet) : packet :=
  Packet (packeBuf p) 0xFFFFFFFF 0 (rsps p).

(** [channel_read] of [size] bytes into [buf]: the new buffer, [*hasRead] and
    the result (false unless all [size] bytes arrived). *)
Definition channel_read (i : chan_in) (buf : list Z) (size : Z) : list Z * Z * bool :=
  let '(buf, hasRead) :=
    match i with
    | ReadErr => (buf, -1)
    | ReadData d =>
        let d := take (Z.to_nat size) d in (splice buf 0 d, Z.of_nat (length d))
    end in
  (buf, hasRead, negb (hasRead <? size)).

Inductive packet_state := PACKET_START | PACKET_CONTINUE | PACKET_SKIP | PACKET_FAIL.

(** [_getPacket]: the packet state, and the body with its announced size (only
    meaningful for START and CONTINUE). *)
Definition _getPacket (i : chan_in) (p : packet) : packet_state * packet * list Z * Z :=
  let '(buf, hasRead, ok) := channel_read i (packeBuf p) (PACKET_HEAD_SIZE + PACKETSIZE) in
  let p := Packet buf (_idxGrp p) (_idxSub p) (rsps p) in
  let body := drop (Z.to_nat PACKET_HEAD_SIZE) buf in
  let size := ph_size buf in
  if negb ok then (PACKET_FAIL, p, [], 0)
  else if hasRead <? PACKET_HEAD_SIZE then (PACKET_SKIP, p, [], 0)
  else if negb (PACKET_MAGIC =? ph_magic buf) then (PACKET_SKIP, p, [], 0)
  else if negb (__chkEcc [] 0) then (PACKET_SKIP, p, [], 0)
  else if hasRead <? s32 (PACKET_HEAD_SIZE + size) then (PACKET_SKIP, p, [], 0)
  else if _idxGrp p =? ph_idxGrp buf then
    if u32 (_idxSub p + 1) =? ph_idxSub buf then
      (PACKET_CONTINUE, Packet buf (_idxGrp p) (u32 (_idxSub p + 1)) (rsps p), body, size)
    else (PACKET_SKIP, p, [], 0)
  else
    if 0 =? ph_idxSub buf then
      (PACKET_START, Packet buf (ph_idxGrp buf) 0 (rsps p), body, size)
    else (PACKET_SKIP, p, [], 0).

(** [__sendPacketRsp]: the header of the packet with [ecc] and [sizeOfPacket]
    overwritten, and the answer in the first of 16 body bytes. *)
Definition __sendPacketRsp (header : list Z) (rsp : Z) : list Z :=
  take 4 header ++ st32 (__makeEcc []) ++ take 8 (drop 8 header) ++ st32 1
  ++ u8 rsp :: replicate 15 0.

Definition _sendPacktRsp (p : packet) (rsp : Z) : packet :=
  Packet (packeBuf p) (_idxGrp p) (_idxSub p)
    (rsps p ++ [__sendPacketRsp (take 20 (packeBuf p)) rsp]).

(** The answer byte of a response. *)
Definition rsp_value (r : list Z) : Z := r !!! 20%nat.

(** A packet as the modem builds it: header and body padded to 1024 bytes. *)
Definition mk_packet (grp sub : Z) (body : list Z) : list Z :=
  st32 PACKET_MAGIC ++ st32 0 ++ st32 grp ++ st32 sub ++ st32 (Z.of_nat (length body))
  ++ body ++ replicate (1024 - length body) 0.

(** ** Lemmas *)

Lemma rsp_value_send h r : (20 <= length h)%nat -> rsp_value (__sendPacketRsp h r) = u8 r.
Proof.
  intros Hh. unfold rsp_value, __sendPacketRsp. rewrite !app_assoc, lookup_total_app_r;
    rewrite !length_app, !length_take, length_drop; cbn [length st32]; [|lia].
  by replace (20 - _)%nat with 0%nat by lia.
Qed.

Lemma channel_read_full d buf :
  length d = 1044%nat -> length buf = 1044%nat ->
  channel_read (ReadData d) buf 1044 = (d, 1044, true).
Proof.
  intros Hd Hb. unfold channel_read. change (Z.to_nat 1044) with 1044%nat.
  rewrite take_ge by (rewrite Hd; apply Nat.le_refl). rewrite Hd.
  unfold splice. rewrite drop_ge by (rewrite Hb, Hd; apply Nat.le_refl).
  rewrite take_0, app_nil_l, app_nil_r. reflexivity.
Qed.

Lemma channel_read_ok i buf b h :
  (forall d, i = ReadData d -> bytes d) -> length buf = 1044%nat -> bytes buf ->
  channel_read i buf 1044 = (b, h, true) -> h = 1044 /\ length b = 1044%nat /\ bytes b.
Proof.
  intros Hi Hl Hb. unfold channel_read. destruct i as [|d]; [done|].
  change (Z.to_nat 1044) with 1044%nat.
  assert (length (take 1044 d) <= 1044)%nat by (rewrite length_take; apply Nat.le_min_l).
  destruct (Z.ltb_spec (Z.of_nat (length (take 1044 d))) 1044); intros; simplify_eq/=.
  split; [lia|]. split.
  - rewrite splice_length by lia. done.
  - apply splice_bytes; [done|]. apply Forall_take. eauto.
Qed.

Lemma ld32_skip m off k : ld32 (drop k m) off = ld32 m (k + off).
Proof.
  unfold ld32. rewrite !list_lookup_total_alt, !lookup_drop, !Nat.add_assoc. done.
Qed.

Section MkPacket.
Context (grp sub : Z) (body : list Z).
Context (Hgrp : 0 <= grp < 4294967296) (Hsub : 0 <= sub < 4294967296).
Context (Hbody : (length body <= 1024)%nat).

Let pk := mk_packet grp sub body.

Lemma mk_packet_length : length pk = 1044%nat.
Proof using Hbody.
  unfold pk, mk_packet. rewrite !length_app, length_replicate. simpl length. lia.
Qed.

Lemma mk_packet_magic : ph_magic pk = PACKET_MAGIC.
Proof using.
  unfold pk, mk_packet, ph_magic. rewrite ld32_app_l by (simpl; clear; lia). by rewrite ld32_st32.
Qed.
Lemma mk_packet_grp : ph_idxGrp pk = grp.
Proof using Hgrp.
  unfold pk, mk_packet, ph_idxGrp. rewrite !ld32_app_r by (simpl; clear; lia).
  rewrite ld32_app_l by (simpl; clear; lia). rewrite ld32_st32. by apply u32_small.
Qed.
Lemma mk_packet_sub : ph_idxSub pk = sub.
Proof using Hsub.
  unfold pk, mk_packet, ph_idxSub. do 3 rewrite ld32_app_r by (simpl; clear; lia).
  rewrite ld32_app_l by (simpl; clear; lia). rewrite ld32_st32. by apply u32_small.
Qed.
Lemma mk_packet_size : ph_size pk = Z.of_nat (length body).
Proof using Hbody.
  unfold pk, mk_packet, ph_size. do 4 rewrite ld32_app_r by (simpl; clear; lia).
  rewrite ld32_app_l by (simpl; clear; lia). rewrite ld32_st32. apply u32_small. lia.
Qed.
Lemma mk_packet_body : drop 20 pk = body ++ replicate (1024 - length body) 0.
Proof using.
  unfold pk, mk_packet. rewrite !app_assoc. rewrite <- app_assoc.
  apply drop_app_exact. reflexivity.
Qed.

(** A well-built packet passes all the checks but the one of the indices. *)
Lemma getPacket_mk p :
  length (packeBuf p) = 1044%nat ->
  _getPacket (ReadData pk) p =
    let body' := body ++ replicate (1024 - length body) 0 in
    let size := Z.of_nat (length body) in
    if _idxGrp p =? grp then
      if u32 (_idxSub p + 1) =? sub then
        (PACKET_CONTINUE, Packet pk (_idxGrp p) (u32 (_idxSub p + 1)) (rsps p), body', size)
      else (PACKET_SKIP, Packet pk (_idxGrp p) (_idxSub p) (rsps p), [], 0)
    else if 0 =? sub then (PACKET_START, Packet pk grp 0 (rsps p), body', size)
    else (PACKET_SKIP, Packet pk (_idxGrp p) (_idxSub p) (rsps p), [], 0).
Proof using Hgrp Hsub Hbody.
  intros Hl. unfold _getPacket. change (PACKET_HEAD_SIZE + PACKETSIZE) with 1044.
  rewrite channel_read_full by (done || apply mk_packet_length).
  rewrite mk_packet_magic, mk_packet_grp, mk_packet_sub, mk_packet_size.
  change (Z.to_nat PACKET_HEAD_SIZE) with 20%nat. rewrite mk_packet_body.
  cbn [negb _idxGrp _idxSub rsps]. change (1044 <? PACKET_HEAD_SIZE) with false.
  rewrite Z.eqb_refl. cbn [negb __chkEcc].
  assert (s32 (PACKET_HEAD_SIZE + Z.of_nat (length body)) = 20 + Z.of_nat (length body)) as ->.
  { unfold PACKET_HEAD_SIZE, s32. rewrite u32_small by lia.
    destruct (Z.ltb_spec (20 + Z.of_nat (length body)) 2147483648); lia. }
  replace (1044 <? 20 + Z.of_nat (length body)) with false by lia. done.
Qed.

Lemma getPacket_start p :
  length (packeBuf p) = 1044%nat -> _idxGrp p <> grp -> sub = 0 ->
  _getPacket (ReadData pk) p =
    (PACKET_START, Packet pk grp 0 (rsps p), body ++ replicate (1024 - length body) 0,
     Z.of_nat (length body)).
Proof using Hgrp Hsub Hbody.
  intros Hl Hg Hs. rewrite getPacket_mk by done.
  destruct (Z.eqb_spec (_idxGrp p) grp); [done|]. by rewrite Hs, Z.eqb_refl.
Qed.

Lemma getPacket_continue p :
  length (packeBuf p) = 1044%nat -> _idxGrp p = grp -> u32 (_idxSub p + 1) = sub ->
  _getPacket (ReadData pk) p =
    (PACKET_CONTINUE, Packet pk grp sub (rsps p), body ++ replicate (1024 - length body) 0,
     Z.of_nat (length body)).
Proof using Hgrp Hsub Hbody.
  intros Hl Hg Hs. rewrite getPacket_mk by done. by rewrite Hg, Hs, !Z.eqb_refl.
Qed.
End MkPacket.

(** ** Properties *)

(** A full read [b] passes the tests of the header: the magic number, and the
    size test, which is done on a signed 32-bit sum so that a huge announced size
    passes it too. *)
Definition head_ok (b : list Z) : Prop :=
  ph_magic b = PACKET_MAGIC /\ (ph_size b <= 1024 \/ 2147483628 <= ph_size b).

(** The packet opens a group, or it is the next one of the running group. *)
Definition opens_group (p : packet) (b : list Z) : Prop := _idxGrp p <> ph_idxGrp b /\ ph_idxSub b = 0.
Definition next_in_group (p : packet) (b : list Z) : Prop :=
  _idxGrp p = ph_idxGrp b /\ ph_idxSub b = u32 (_idxSub p + 1).

Lemma size_test b :
  bytes b -> (1044 <? s32 (PACKET_HEAD_SIZE + ph_size b)) = false <-> ph_size b <= 1024 \/ 2147483628 <= ph_size b.
Proof.
  intros Hb. pose proof (ld32_range b 16 Hb) as Hr. fold (ph_size b) in Hr. rewrite Z.ltb_ge.
  unfold s32, PACKET_HEAD_SIZE. mint. destruct (Z.ltb_spec ((20 + ph_size b) mod 4294967296) 2147483648); zlia.
Qed.

(** The result of [_getPacket] on a full read. *)
Lemma getPacket_full d p (b := take 1044 d) :
  bytes d -> length (packeBuf p) = 1044%nat -> (1044 <= length d)%nat ->
  _getPacket (ReadData d) p =
    (let q := Packet b (_idxGrp p) (_idxSub p) (rsps p) in
     if negb (PACKET_MAGIC =? ph_magic b) then (PACKET_SKIP, q, [], 0)
     else if 1044 <? s32 (PACKET_HEAD_SIZE + ph_size b) then (PACKET_SKIP, q, [], 0)
     else if _idxGrp p =? ph_idxGrp b then
       if u32 (_idxSub p + 1) =? ph_idxSub b then
         (PACKET_CONTINUE, Packet b (_idxGrp p) (u32 (_idxSub p + 1)) (rsps p), drop 20 b, ph_size b)
       else (PACKET_SKIP, q, [], 0)
     else if 0 =? ph_idxSub b then (PACKET_START, Packet b (ph_idxGrp b) 0 (rsps p), drop 20 b, ph_size b)
     else (PACKET_SKIP, q, [], 0)).
Proof.
  intros Hd Hl Hlen. unfold _getPacket. change (PACKET_HEAD_SIZE + PACKETSIZE) with 1044.
  assert (channel_read (ReadData d) (packeBuf p) 1044 = (b, 1044, true)) as ->.
  { rewrite <- (channel_read_full b (packeBuf p)); [|subst b; rewrite length_take; lia|done].
    unfold channel_read. change (Z.to_nat 1044) with 1044%nat. subst b. by rewrite take_take, Nat.min_id. }
  reflexivity.
Qed.

(** C27: exactly what [_getPacket] accepts.  A packet is handed to the protocol as
    the first of a group, or as the next of the running group, if and only if the
    read gave at least 1044 bytes whose header has the magic number, an announced
    size of at most 1024 or at least 2^31-20 (the test is done on a signed sum, so
    that huge sizes pass it), and a new group number with sub-index 0, or the group
    number of the group and the sub-index after the last one.  Then the indices
    are those of the header, and the protocol gets the 1024 bytes of the body with
    the announced size.  The read counts as failed if and only if it gave an error
    or fewer bytes; every other packet is skipped, with the indices and the
    answers as they were. *)
Theorem getPacket_accepts i p (r := _getPacket i p) :
  (forall d, i = ReadData d -> bytes d) -> length (packeBuf p) = 1044%nat ->
  (r.1.1.1 = PACKET_START <-> exists d, i = ReadData d /\ (1044 <= length d)%nat /\ head_ok (take 1044 d) /\ opens_group p (take 1044 d)) /\
  (r.1.1.1 = PACKET_CONTINUE <-> exists d, i = ReadData d /\ (1044 <= length d)%nat /\ head_ok (take 1044 d) /\ next_in_group p (take 1044 d)) /\
  (r.1.1.1 = PACKET_FAIL <-> forall d, i = ReadData d -> (length d < 1044)%nat) /\
  (r.1.1.1 = PACKET_START \/ r.1.1.1 = PACKET_CONTINUE -> exists d, i = ReadData d /\
     let b := take 1044 d in r = (r.1.1.1, Packet b (ph_idxGrp b) (ph_idxSub b) (rsps p), drop 20 b, ph_size b)) /\
  (r.1.1.1 = PACKET_SKIP \/ r.1.1.1 = PACKET_FAIL ->
     _idxGrp r.1.1.2 = _idxGrp p /\ _idxSub r.1.1.2 = _idxSub p /\ rsps r.1.1.2 = rsps p).
Proof.
  intros Hi Hl. destruct i as [|d]; [subst r; cbn; naive_solver|]. specialize (Hi d eq_refl).
  destruct (decide (1044 <= length d)%nat) as [Hfull|Hshort].
  - pose proof (getPacket_full d p Hi Hl Hfull) as E. fold r in E. cbn zeta in E. set (b := take 1044 d) in *.
    assert (bytes b) as Hb by (by apply Forall_take). pose proof (size_test b Hb) as Hsz.
    assert (forall Q : list Z -> Prop, (exists d0, ReadData d = ReadData d0 /\ (1044 <= length d0)%nat /\ head_ok (take 1044 d0) /\ Q (take 1044 d0))
              <-> head_ok b /\ Q b) as Hex by (intros Q; subst b; naive_solver).
    rewrite (Hex (opens_group p)), (Hex (next_in_group p)).
    assert ((forall d0, ReadData d = ReadData d0 -> (length d0 < 1044)%nat) <-> False) as -> by (split; [intros H; specialize (H d eq_refl); lia|done]).
    unfold head_ok, opens_group, next_in_group. rewrite E. clear E.
    destruct (1044 <? s32 (PACKET_HEAD_SIZE + ph_size b)) eqn:Es.
    + assert (~ (ph_size b <= 1024 \/ 2147483628 <= ph_size b)) as Hbig by (intros H; apply Hsz in H; discriminate H).
      destruct (PACKET_MAGIC =? ph_magic b); cbn [negb fst snd _idxGrp _idxSub rsps]; clear -Hbig; intuition congruence.
    + assert (ph_size b <= 1024 \/ 2147483628 <= ph_size b) as Hsmall by (by apply Hsz). clear Hsz. destruct (Z.eqb_spec PACKET_MAGIC (ph_magic b)) as [Em|Em]; cbn [negb].
      * symmetry in Em. destruct (Z.eqb_spec (_idxGrp p) (ph_idxGrp b)) as [Eg|Eg].
        -- destruct (Z.eqb_spec (u32 (_idxSub p + 1)) (ph_idxSub b)) as [Eu|Eu]; cbn [fst snd _idxGrp _idxSub rsps].
           ++ split_and!; try (clear -Em Hsmall Eg Eu; intuition congruence). intros _. exists d. split; [done|]. fold b. by rewrite Eg, Eu.
           ++ clear -Em Hsmall Eg Eu. intuition congruence.
        -- destruct (Z.eqb_spec 0 (ph_idxSub b)) as [Eu|Eu]; cbn [fst snd _idxGrp _idxSub rsps].
           ++ split_and!; try (clear -Em Hsmall Eg Eu; intuition congruence). intros _. exists d. split; [done|]. fold b. by rewrite <- Eu.
           ++ clear -Em Hsmall Eg Eu. intuition congruence.
      * cbn [fst snd _idxGrp _idxSub rsps]. clear -Em. intuition congruence.
  - assert (exists buf h, channel_read (ReadData d) (packeBuf p) (PACKET_HEAD_SIZE + PACKETSIZE) = (buf, h, false)) as (buf & h & E).
    { change (PACKET_HEAD_SIZE + PACKETSIZE) with 1044. unfold channel_read. change (Z.to_nat 1044) with 1044%nat. do 2 eexists. f_equal.
      rewrite length_take. destruct (Z.ltb_spec (Z.of_nat (1044 `min` length d)) 1044); [done|lia]. }
    subst r. unfold _getPacket. rewrite E. cbn [negb fst snd _idxGrp _idxSub rsps].
    split_and!; try done; try naive_solver lia.
Qed.

Definition demo_packet : packet := Packet (replicate 1044 0) 0xFFFFFFFF 0 [].
Definition oversize_packet : list Z :=
  st32 PACKET_MAGIC ++ st32 0 ++ st32 5 ++ st32 0 ++ st32 0xFFFFFFF0 ++ replicate 1024 0.

Lemma oversize_bytes : bytes oversize_packet.
Proof. unfold oversize_packet. repeat apply Forall_app_2; try apply st32_bytes. apply Forall_replicate. lia. Qed.

Lemma getPacket_accepts_witness :
  (_getPacket (ReadData oversize_packet) demo_packet).1.1.1 = PACKET_START /\
  (_getPacket (ReadData (mk_packet 5 1 [1; 2])) (Packet (replicate 1044 0) 5 1 [])).1.1.1 <> PACKET_CONTINUE.
Proof.
  split.
  - apply (getPacket_accepts (ReadData oversize_packet) demo_packet); [intros d [= <-]; apply oversize_bytes|reflexivity|].
    exists oversize_packet. split; [done|]. split; [apply Nat.leb_le; vm_compute; reflexivity|].
    split; [split; [vm_compute; reflexivity|right; apply Z.leb_le; vm_compute; reflexivity]|split; [vm_compute; discriminate|vm_compute; reflexivity]].
  - intros H. apply (getPacket_accepts (ReadData (mk_packet 5 1 [1; 2])) (Packet (replicate 1044 0) 5 1 [])) in H as (d & [= <-] & _ & _ & _ & H).
    + vm_compute in H. discriminate H.
    + intros d [= <-]. unfold mk_packet. repeat apply Forall_app_2; try apply st32_bytes; [repeat constructor; lia|apply Forall_replicate; lia].
    + reflexivity.
Defined.
