(* ===== verification/NvSync.v ===== *)
(** * NV server, synchronisation protocol (apps/nvitem/nvitem_sync.c) and its
    main loop (nvitem_server.c)

    A transaction of the modem is a head token, any number of body tokens each
    followed by the sectors it announces, and a tail token.  The sectors go to
    the fromChannel copy of the partition; the tail commits them to the backup
    copy, any error restores fromChannel from backup.  Tokens are 20 bytes
    ([sizeof(SYNC_REQ)]), little-endian. *)

From S2P Require Import Prelude Checksum NvFs NvBuf NvPacket.

Definition SYNC_REQ_HEAD : Z := 0.
Definition SYNC_REQ_BODY : Z := 1.
Definition SYNC_REQ_TAIL : Z := 2.
Definition SYNC_REQ_SIZE : Z := 20.

(** The static variables of nvitem_sync.c.  [syncReqBuf] is declared as an
    array of 20 pointers, hence 80 bytes, and [syncReqBuf+_ofst] is the byte
    offset [4*_ofst].  [_id] is [None] for (uint32)-1. *)
Record sync := Sync {
  _syncState : Z;
  _syncBusy : bool;
  syncReqFrame : Z;
  syncReqBuf : list Z;
  _ofst : Z;
  _id : option nat;
  _start : Z;
  _len : Z;
}.

Definition _syncInit (s : sync) : sync := Sync 0 false 0 (syncReqBuf s) 0 None 0 0.

Definition set_syncState (z : Z) (s : sync) : sync :=
  Sync z (_syncBusy s) (syncReqFrame s) (syncReqBuf s) (_ofst s) (_id s) (_start s) (_len s).
Definition set_busy (s : sync) : sync :=
  Sync (_syncState s) true (syncReqFrame s) (syncReqBuf s) (_ofst s) (_id s) (_start s) (_len s).
Definition set_reqBuf (b : list Z) (o : Z) (s : sync) : sync :=
  Sync (_syncState s) (_syncBusy s) (syncReqFrame s) b o (_id s) (_start s) (_len s).
Definition set_frame (z : Z) (s : sync) : sync :=
  Sync (_syncState s) (_syncBusy s) z (syncReqBuf s) (_ofst s) (_id s) (_start s) (_len s).
Definition set_id (i : option nat) (s : sync) : sync :=
  Sync (_syncState s) (_syncBusy s) (syncReqFrame s) (syncReqBuf s) (_ofst s) i (_start s) (_len s).
Definition set_range (st ln : Z) (s : sync) : sync :=
  Sync (_syncState s) (_syncBusy s) (syncReqFrame s) (syncReqBuf s) (_ofst s) (_id s) st ln.

(** Fields of the token in [syncReqBuf]. *)
Definition tk_type (s : sync) : Z := ld32 (syncReqBuf s) 0.
Definition tk_reqIdx (s : sync) : Z := ld32 (syncReqBuf s) 4.
Definition tk_partId (s : sync) : Z := ld32 (syncReqBuf s) 8.
Definition tk_start (s : sync) : Z := ld32 (syncReqBuf s) 12.
Definition tk_num (s : sync) : Z := ld32 (syncReqBuf s) 16.

(** The whole server: protocol state, packet layer, partitions. *)
Record srv := Srv { sy : sync; pkt : packet; nv : nvw }.

(** The unread part of the packet: [*buf] (all readable bytes from the pointer
    on) and [*size]. *)
Definition cursor : Type := list Z * Z.

(** [_syncReset]; the id is used as an array index, so (uint32)-1 would be an
    access outside [ramNvCtl.part]. *)
Definition _syncReset (ifSuc : bool) (s : sync) (w : nvw) : option (sync * nvw * Z) :=
  '(w, ret) ←
    (if ifSuc then id ← _id s; backupData w id
     else if _syncState s =? 0 then Some (w, 1)
     else id ← _id s; w ← restoreData w id; Some (w, 1));
  Some (_syncInit s, w, ret).

(** [__getToken]: true when a whole token is in [syncReqBuf]. *)
Definition __getToken (s : sync) (c : cursor) : option (bool * sync * cursor) :=
  let '(buf, size) := c in
  let need := u32 (SYNC_REQ_SIZE - _ofst s) in
  if size <? need then
    if negb (size =? 0) then Some (false, s, c)
    else
      d ← mem_read buf 0 size;
      b ← mem_write (syncReqBuf s) (4 * _ofst s) d;
      Some (false, set_reqBuf b (u32 (_ofst s + size)) s, (drop (Z.to_nat size) buf, 0))
  else if 0 =? need then Some (true, set_reqBuf (syncReqBuf s) 0 s, c)
  else
    d ← mem_read buf 0 need;
    b ← mem_write (syncReqBuf s) (4 * _ofst s) d;
    Some (true, set_reqBuf b 0 s, (drop (Z.to_nat need) buf, u32 (size - need))).

Inductive sync_ret := SYNC_CONTINUE | SYNC_NEXT | SYNC_DONE | SYNC_FAIL.

Definition _syncGetHead (s : sync) (w : nvw) (c : cursor) : option (sync_ret * sync * cursor) :=
  '(got, s, c) ← __getToken s c;
  if negb got then Some (SYNC_CONTINUE, s, c)
  else if negb (SYNC_REQ_HEAD =? tk_type s) then Some (SYNC_FAIL, s, c)
  else
    let s := set_frame (tk_reqIdx s) s in
    let s := set_id (getCtlId w (tk_partId s)) s in
    match _id s with
    | None => Some (SYNC_FAIL, s, c)
    | Some _ => Some (SYNC_NEXT, s, c)
    end.

Definition _syncGetBody (s : sync) (w : nvw) (c : cursor) : option (sync_ret * sync * nvw * cursor) :=
  '(got, s, c) ← __getToken s c;
  if negb got then Some (SYNC_CONTINUE, s, w, c)
  else if SYNC_REQ_BODY =? tk_type s then
    if negb (u32 (syncReqFrame s + 1) =? tk_reqIdx s) then Some (SYNC_FAIL, s, w, c)
    else
      let s := set_frame (u32 (syncReqFrame s + 1)) s in
      id ← _id s;
      w ← _markDirtyInfo w id (tk_start s) (tk_num s);
      Some (SYNC_NEXT, set_range (u32 (tk_start s * 512)) (u32 (tk_num s * 512)) s, w, c)
  else if SYNC_REQ_TAIL =? tk_type s then
    if negb (u32 (syncReqFrame s + 1) =? tk_reqIdx s) then Some (SYNC_FAIL, s, w, c)
    else Some (SYNC_DONE, set_frame (u32 (syncReqFrame s + 1)) s, w, c)
  else Some (SYNC_FAIL, s, w, c).

Definition _syncGetData (s : sync) (w : nvw) (c : cursor) : option (sync_ret * sync * nvw * cursor) :=
  let '(buf, size) := c in
  id ← _id s;
  if _len s <=? size then
    w ← writeData w id (_start s) (_len s) buf;
    Some (SYNC_NEXT, set_range (u32 (_start s + _len s)) 0 s, w,
          (drop (Z.to_nat (_len s)) buf, u32 (size - _len s)))
  else
    w ← writeData w id (_start s) size buf;
    Some (SYNC_CONTINUE, set_range (u32 (_start s + size)) (u32 (_len s - size)) s, w,
          (drop (Z.to_nat size) buf, 0)).

(** What one turn of the [while(0 != size)] loop does: go on with a new cursor
    or leave the loop. *)
Inductive turn := Go (x : srv) (c : cursor) | Leave (x : srv).

(** A failed token: [_syncReset(SYNC_FAIL_RESET); _sendPacktRsp(0); break]. *)
Definition sync_fail (s : sync) (p : packet) (w : nvw) : option turn :=
  '(s, w, _) ← _syncReset false s w; Some (Leave (Srv s (_sendPacktRsp p 0) w)).

Definition sync_turn (x : srv) (c : cursor) : option turn :=
  let p := pkt x in
  if _syncState (sy x) =? 0 then
    '(r, s, c) ← _syncGetHead (sy x) (nv x) c;
    match r with
    | SYNC_FAIL => sync_fail s p (nv x)
    | SYNC_NEXT => Some (Go (Srv (set_syncState 1 s) p (nv x)) c)
    | SYNC_CONTINUE => Some (Leave (Srv s (_sendPacktRsp p 1) (nv x)))
    | SYNC_DONE => Some (Go (Srv s p (nv x)) c)
    end
  else if _syncState (sy x) =? 1 then
    '(r, s, w, c) ← _syncGetBody (sy x) (nv x) c;
    match r with
    | SYNC_FAIL => sync_fail s p w
    | SYNC_NEXT => Some (Go (Srv (set_syncState 2 s) p w) c)
    | SYNC_CONTINUE => Some (Leave (Srv s (_sendPacktRsp p 1) w))
    | SYNC_DONE => '(s, w, ret) ← _syncReset true s w; Some (Leave (Srv s (_sendPacktRsp p ret) w))
    end
  else
    '(r, s, w, c) ← _syncGetData (sy x) (nv x) c;
    match r with
    | SYNC_CONTINUE => Some (Leave (Srv s (_sendPacktRsp p 1) w))
    | SYNC_NEXT => Some (Go (Srv (set_syncState 1 s) p w) c)
    | _ => Some (Go (Srv s p w) c)
    end.

(** The loop.  The outer option is the fuel, the inner one undefined
    behaviour. *)
Fixpoint sync_loop (fuel : nat) (x : srv) (c : cursor) : option (option srv) :=
  if c.2 =? 0 then Some (Some x)
  else
    match fuel with
    | O => None
    | S fuel =>
        match sync_turn x c with
        | None => Some None
        | Some (Leave x) => Some (Some x)
        | Some (Go x c) => sync_loop fuel x c
        end
    end.

(** A turn consumes bytes of the packet or moves from data to body, so two
    turns per byte are enough ([sync_loop_total] below). *)
Definition sync_fuel (c : cursor) : nat := 2 * length c.1 + 2.

Definition sync_body (x : srv) (c : cursor) : option srv :=
  match sync_loop (sync_fuel c) x c with Some r => r | None => None end.

(** One iteration of the [do ... while(1)] of [syncAnalyzer]; true: return. *)
Definition analyze (i : chan_in) (x : srv) : option (srv * bool) :=
  let '(st, p, buf, size) := _getPacket i (pkt x) in
  match st with
  | PACKET_FAIL => '(s, w, _) ← _syncReset false (sy x) (nv x); Some (Srv s p w, true)
  | PACKET_SKIP => Some (Srv (sy x) p (nv x), false)
  | PACKET_START =>
      '(s, w) ← (if _syncBusy (sy x)
                 then '(s, w, _) ← _syncReset false (sy x) (nv x); Some (s, w)
                 else Some (sy x, nv x));
      x ← sync_body (Srv (set_busy s) p w) (buf, size);
      Some (x, false)
  | PACKET_CONTINUE =>
      if negb (_syncBusy (sy x)) then Some (Srv (sy x) (_sendPacktRsp p 0) (nv x), false)
      else
        x ← sync_body (Srv (set_busy (sy x)) p (nv x)) (buf, size);
        Some (x, false)
  end.

(** [syncAnalyzer] on the successive reads of one connection; the list ends
    when no further read has completed. *)
Fixpoint syncAnalyzer (ins : list chan_in) (x : srv) : option srv :=
  match ins with
  | [] => Some x
  | i :: ins => '(x, stop) ← analyze i x; if stop : bool then Some x else syncAnalyzer ins x
  end.

(** The main loop: one [syncAnalyzer] per opened channel. *)
Fixpoint serve (sessions : list (list chan_in)) (x : srv) : option srv :=
  match sessions with
  | [] => Some x
  | ins :: sessions =>
      x ← syncAnalyzer ins (Srv (_syncInit (sy x)) (_initPacket (pkt x)) (nv x));
      serve sessions x
  end.

(** ** Termination *)

(** What a turn leaves to read, doubled, plus one in the data state. *)
Definition sync_measure (x : srv) (c : cursor) : nat :=
  2 * Z.to_nat c.2 + (if decide (_syncState (sy x) = 0 \/ _syncState (sy x) = 1) then 0 else 1).

Lemma mem_read_in m len d :
  mem_read m 0 len = Some d -> 0 <= len /\ len <= Z.of_nat (length m).
Proof. unfold mem_read. case_decide; [|done]. lia. Qed.

(** A token is 20 bytes of the packet, as long as [_ofst] stays 0. *)
Lemma getToken_Some s c b s' c' :
  __getToken s c = Some (b, s', c') -> _ofst s = 0 -> 0 < c.2 ->
  (b = false /\ s' = s /\ c' = c /\ c.2 < 20) \/
  (b = true /\ 20 <= c.2 /\ (20 <= length c.1)%nat /\
   s' = set_reqBuf (splice (syncReqBuf s) 0 (take 20 c.1)) 0 s /\ c' = (drop 20 c.1, u32 (c.2 - 20))).
Proof.
  destruct c as [buf size]. unfold __getToken. cbn [fst snd]. intros H Ho Hsz. rewrite Ho in H.
  change (u32 (SYNC_REQ_SIZE - 0)) with 20 in H. change (0 =? 20) with false in H.
  change (4 * 0) with 0 in H. destruct (Z.ltb_spec size 20).
  - destruct (Z.eqb_spec size 0); [lia|]. cbn in H. simplify_eq. auto.
  - right. destruct (mem_read buf 0 20) as [d|] eqn:Er; [|done]. cbn [mbind option_bind] in H.
    destruct (mem_write _ 0 d) as [b'|] eqn:Ew; [|done]. cbn [mbind option_bind] in H. simplify_eq.
    pose proof (mem_read_in _ _ _ Er). rewrite mem_read_prefix in Er by lia. simplify_eq.
    apply mem_write_Some in Ew as (_ & _ & ->). split_and!; auto; lia.
Qed.

Lemma getHead_cases s w c r s' c' :
  _syncGetHead s w c = Some (r, s', c') -> _ofst s = 0 -> 0 < c.2 ->
  (r = SYNC_CONTINUE /\ s' = s) \/
  (r <> SYNC_CONTINUE /\ r <> SYNC_DONE /\ 20 <= c.2 /\ (20 <= length c.1)%nat /\
   c' = (drop 20 c.1, u32 (c.2 - 20)) /\
   _ofst s' = 0 /\ _syncState s' = _syncState s /\ _syncBusy s' = _syncBusy s /\
   syncReqBuf s' = splice (syncReqBuf s) 0 (take 20 c.1) /\ _start s' = _start s /\ _len s' = _len s /\
   (r = SYNC_NEXT -> exists id, _id s' = Some id /\ getCtlId w (tk_partId s') = Some id)).
Proof.
  unfold _syncGetHead. intros H Ho Hs.
  destruct (__getToken s c) as [[[b s1] c1]|] eqn:Et; [|done]. cbn [mbind option_bind] in H.
  apply getToken_Some in Et as [(-> & -> & -> & _)|(-> & H1 & H2 & -> & ->)]; try done;
    cbn [negb] in H.
  - simplify_eq. auto.
  - right. case_match; [by simplify_eq; split_and!; auto|].
    destruct (_id _) as [n|] eqn:Hid in H; simplify_eq; split_and!; auto; [|done].
    intros _. exists n. split; exact Hid.
Qed.

Lemma getBody_cases s w c r s' w' c' :
  _syncGetBody s w c = Some (r, s', w', c') -> _ofst s = 0 -> 0 < c.2 ->
  (r = SYNC_CONTINUE /\ s' = s /\ w' = w) \/
  (r <> SYNC_CONTINUE /\ 20 <= c.2 /\ (20 <= length c.1)%nat /\ c' = (drop 20 c.1, u32 (c.2 - 20)) /\
   _ofst s' = 0 /\ _syncState s' = _syncState s /\ _syncBusy s' = _syncBusy s /\
   syncReqBuf s' = splice (syncReqBuf s) 0 (take 20 c.1) /\ _id s' = _id s /\
   (r = SYNC_NEXT -> exists id, _id s = Some id /\
      _markDirtyInfo w id (tk_start s') (tk_num s') = Some w' /\
      _start s' = u32 (tk_start s' * 512) /\ _len s' = u32 (tk_num s' * 512)) /\
   (r <> SYNC_NEXT -> w' = w /\ _start s' = _start s /\ _len s' = _len s) /\
   (r = SYNC_DONE -> tk_type s' = SYNC_REQ_TAIL /\ tk_reqIdx s' = u32 (syncReqFrame s + 1))).
Proof.
  unfold _syncGetBody. intros H Ho Hs.
  destruct (__getToken s c) as [[[b s1] c1]|] eqn:Et; [|done]. cbn [mbind option_bind] in H.
  apply getToken_Some in Et as [(-> & -> & -> & _)|(-> & H1 & H2 & -> & ->)]; try done;
    cbn [negb] in H.
  - simplify_eq. auto.
  - right. case_match.
    + case_match; [by simplify_eq; split_and!; auto|].
      cbn [_id set_frame set_reqBuf] in H. destruct (_id s) as [id|] eqn:Hid; [|done].
      cbn [mbind option_bind] in H. destruct (_markDirtyInfo _ _ _ _) as [w1|] eqn:Em; [|done].
      cbn [mbind option_bind] in H. simplify_eq. split_and!; auto; [eauto|by intros []|done].
    + destruct (SYNC_REQ_TAIL =? tk_type _) eqn:Ht in H; [destruct (negb _) eqn:Hx in H|]; simplify_eq; split_and!; auto; try done.
      intros _. apply Z.eqb_eq in Ht. apply negb_false_iff, Z.eqb_eq in Hx. split; [exact (eq_sym Ht)|exact (eq_sym Hx)].
Qed.

Lemma getData_cases s w c r s' w' c' :
  _syncGetData s w c = Some (r, s', w', c') ->
  exists id n, _id s = Some id /\ n = Z.min (_len s) c.2 /\
    writeData w id (_start s) n c.1 = Some w' /\
    r = (if _len s <=? c.2 then SYNC_NEXT else SYNC_CONTINUE) /\
    s' = set_range (u32 (_start s + n)) (if _len s <=? c.2 then 0 else u32 (_len s - n)) s /\
    c' = (drop (Z.to_nat n) c.1, if _len s <=? c.2 then u32 (c.2 - n) else 0).
Proof.
  destruct c as [buf size]. unfold _syncGetData. cbn [fst snd]. intros H.
  destruct (_id s) as [id|]; [|done]. cbn [mbind option_bind] in H.
  destruct (Z.leb_spec (_len s) size).
  - destruct (writeData _ _ _ _ _) as [w1|] eqn:Ew; [|done]. cbn [mbind option_bind] in H.
    simplify_eq. exists id, (_len s). rewrite Z.min_l by lia. split_and!; auto.
  - destruct (writeData _ _ _ _ _) as [w1|] eqn:Ew; [|done]. cbn [mbind option_bind] in H.
    simplify_eq. exists id, size. rewrite Z.min_r by lia. split_and!; auto.
Qed.

(** The part of the protocol state every turn relies on. *)
Record sync_ok (s : sync) : Prop := SyncOk {
  so_ofst : _ofst s = 0;
  so_buf : length (syncReqBuf s) = 80%nat;
  so_state : _syncState s = 0 \/ _syncState s = 1 \/ _syncState s = 2;
}.

Lemma reqBuf_length b d : length b = 80%nat -> (20 <= length d)%nat ->
  length (splice b 0 (take 20 d)) = 80%nat.
Proof. intros Hb Hd. rewrite splice_length; [done|]. rewrite length_take. lia. Qed.

Lemma syncInit_ok s : length (syncReqBuf s) = 80%nat -> sync_ok (_syncInit s).
Proof. intros. split; cbn; auto. Qed.

Lemma syncReset_sync f s w s' w' r :
  _syncReset f s w = Some (s', w', r) -> s' = _syncInit s.
Proof.
  unfold _syncReset. intros H.
  destruct (if f then _ else _) as [[w1 r1]|]; [|done]. cbn [mbind option_bind] in H. by simplify_eq.
Qed.

Lemma sync_fail_Some s p w t :
  sync_fail s p w = Some t ->
  exists w' r, _syncReset false s w = Some (_syncInit s, w', r) /\
    t = Leave (Srv (_syncInit s) (_sendPacktRsp p 0) w').
Proof.
  unfold sync_fail. destruct (_syncReset _ _ _) as [[[s1 w1] r1]|] eqn:E; [|done].
  pose proof (syncReset_sync _ _ _ _ _ _ E) as ->. intros. simplify_eq/=. eauto.
Qed.

(** Every turn that goes on decreases the measure; the bytes announced stay
    within the bytes of the packet. *)
Lemma sync_turn_step x c t :
  sync_turn x c = Some t -> sync_ok (sy x) -> 0 < c.2 < 4294967296 -> 0 <= _len (sy x) ->
  match t with
  | Go x' c' => c'.2 - Z.of_nat (length c'.1) <= c.2 - Z.of_nat (length c.1) /\
                (sync_measure x' c' < sync_measure x c)%nat
  | Leave x' => True
  end.
Proof.
  intros Ht Hok Hc Hl. pose proof Hok as [Ho Hb Hst].
  destruct t as [x' c'|]; [|done].
  unfold sync_turn in Ht. unfold sync_measure. destruct Hst as [Hst|[Hst|Hst]]; rewrite Hst in *; cbn in Ht.
  - destruct (_syncGetHead _ _ _) as [[[r s'] c1]|] eqn:E; [|done]. cbn [mbind option_bind] in Ht.
    apply getHead_cases in E as [(-> & ->)|(Hr1 & Hr2 & H1 & H2 & -> & _)]; try (done || lia).
    destruct r; try done; simplify_eq/=.
    + rewrite length_drop, u32_small by lia. split; [lia|]. repeat case_decide; lia.
    + by apply sync_fail_Some in Ht as (w' & r & _ & ?).
  - destruct (_syncGetBody _ _ _) as [[[[r s'] w'] c1]|] eqn:E; [|done]. cbn [mbind option_bind] in Ht.
    apply getBody_cases in E as [(-> & -> & ->)|(Hr1 & H1 & H2 & -> & _)]; try (done || lia).
    destruct r; try done; simplify_eq/=.
    + rewrite length_drop, u32_small by lia. split; [lia|]. repeat case_decide; lia.
    + fold (_syncReset true s' w') in Ht. by destruct (_syncReset true s' w') as [[[s1 w1] r1]|].
    + by apply sync_fail_Some in Ht as (w'' & r & _ & ?).
  - destruct (_syncGetData _ _ _) as [[[[r s'] w'] c1]|] eqn:E; [|done]. cbn [mbind option_bind] in Ht.
    apply getData_cases in E as (id & n & H1 & H2 & H3 & H4 & -> & ->).
    destruct (Z.leb_spec (_len (sy x)) c.2); subst r; simplify_eq/=.
    rewrite length_drop, u32_small by lia. split; [lia|]. repeat case_decide; lia.
Qed.

(** ** The transaction invariant

    Outside the partition of the running transaction the received and the
    committed copies hold the same data. *)

Definition in_sync (p : part_ctrl) : Prop := nvdata p (fromChannel p) = nvdata p (backup p).

Record nv_inv (active : option nat) (w : nvw) : Prop := NvInv {
  ni_wf : wf_nv w;
  ni_sync : forall i p, parts w !! i = Some p -> Some i <> active -> in_sync p;
}.

(** The committed data of all partitions. *)
Definition committed (w : nvw) : list (list Z) := (fun p => nvdata p (backup p)) <$> parts w.

Lemma committed_lookup w i p : parts w !! i = Some p -> committed w !! i = Some (nvdata p (backup p)).
Proof. intros H. unfold committed. by rewrite list_lookup_fmap, H. Qed.

Lemma put_part_inv a w id p p' :
  nv_inv a w -> parts w !! id = Some p -> wf_part p' -> (Some id <> a -> in_sync p') ->
  nv_inv a (put_part w id p').
Proof.
  intros [Hw Hs] Hp Hp' Hi. split; [by apply wf_put_part|]. intros i q Hq Hne.
  destruct (insert_part_cases w (put_part w id p') id p p' i q Hp eq_refl Hq) as [[-> ->]|[_ H]]; eauto.
Qed.

Lemma put_part_committed w id p p' :
  parts w !! id = Some p -> nvdata p' (backup p') = nvdata p (backup p) ->
  committed (put_part w id p') = committed w.
Proof.
  intros Hp Hd. unfold committed. cbn. rewrite list_fmap_insert, Hd. apply list_insert_id.
  by rewrite list_lookup_fmap, Hp.
Qed.

Lemma in_sync_same p p' : same_part p p' -> in_sync p -> in_sync p'.
Proof.
  intros Hs H. unfold in_sync in *. rewrite (same_part_data _ _ Hs).
  destruct Hs as [_ H2 _ H4 _]. rewrite H4, <- H. by apply nvdata_size.
Qed.

Lemma saveToDisk_parts w w' :
  saveToDisk w = Some w' -> wf_nv w ->
  wf_nv w' /\ committed w' = committed w /\
  forall i p', parts w' !! i = Some p' -> exists p, parts w !! i = Some p /\ same_part p p'.
Proof.
  intros Hs Hw. destruct (saveToDisk_wf w Hw) as (w1 & E & Hw1 & He & Hp). simplify_eq.
  assert (forall i p', parts w' !! i = Some p' -> exists p, parts w !! i = Some p /\ same_part p p') as Hback.
  { intros i p' Hp'. destruct (parts w !! i) as [p|] eqn:E'.
    - destruct (Hp i p E') as (q & Hq & ?). simplify_eq. eauto.
    - apply lookup_ge_None in E'. apply lookup_lt_Some in Hp'. rewrite (se_parts _ _ He) in Hp'. lia. }
  split_and!; [done| |done].
  apply list_eq. intros i. unfold committed. rewrite !list_lookup_fmap.
  destruct (parts w' !! i) as [p'|] eqn:E'.
  - destruct (Hback i p' E') as (p & -> & Hsp). cbn. f_equal. by apply same_part_data.
  - apply lookup_ge_None in E'. rewrite (se_parts _ _ He) in E'. by rewrite (lookup_ge_None_2 (parts w)).
Qed.

Lemma saveToDisk_inv a w w' :
  saveToDisk w = Some w' -> nv_inv a w -> nv_inv a w' /\ committed w' = committed w.
Proof.
  intros Hs [Hw Hi]. destruct (saveToDisk_parts w w' Hs Hw) as (Hw' & Hc & Hback).
  split; [|done]. split; [done|]. intros i p' Hp' Hne. destruct (Hback i p' Hp') as (p & ? & ?).
  by eapply in_sync_same, Hi.
Qed.

(** Lengths along [mark_loop], whatever its arguments. *)
Lemma mark_loop_length fuel t b bits scts t' :
  mark_loop fuel t b bits scts = Some t' -> length t' = length t.
Proof.
  revert t b bits scts. induction fuel as [|fuel IH]; intros t b bits scts H; [done|]. cbn in H.
  case_match; [|case_match; [done|]]; destruct (t !! _); try done; cbn in H.
  - apply IH in H. by rewrite length_insert in H.
  - simplify_eq. apply length_insert.
Qed.

Lemma markDirty_inv w id start scts w' :
  _markDirtyInfo w id start scts = Some w' -> nv_inv (Some id) w ->
  nv_inv (Some id) w' /\ committed w' = committed w /\ length (parts w') = length (parts w).
Proof.
  unfold _markDirtyInfo. intros H Hi.
  destruct (parts w !! id) as [p|] eqn:Hp; [|done]. cbn [mbind option_bind] in H.
  destruct (mark_table _ _ _) as [t|] eqn:Et; [|done]. cbn [mbind option_bind] in H. simplify_eq.
  assert (wf_part p) as Hwp by (destruct Hi; eauto with sprd).
  apply mark_loop_length in Et. split_and!.
  - eapply put_part_inv; eauto; [|done]. apply wf_set_from; [done|].
    apply wf_set_dirty; [by destruct Hwp|]. rewrite Et. by destruct Hwp as [[] _ _].
  - by eapply put_part_committed.
  - apply length_insert.
Qed.

Lemma writeData_inv w id start len buf w' :
  writeData w id start len buf = Some w' -> bytes buf -> nv_inv (Some id) w ->
  nv_inv (Some id) w' /\ committed w' = committed w /\ length (parts w') = length (parts w).
Proof.
  unfold writeData. intros H Hb Hi. destruct (len =? 0); [by simplify_eq|].
  destruct (parts w !! id) as [p|] eqn:Hp; [|done]. cbn [mbind option_bind] in H.
  assert (wf_part p) as Hwp by (destruct Hi; eauto with sprd).
  rewrite ChkNVBufEcc_wf in H by (by destruct Hwp).
  destruct (mem_read buf 0 len) as [d|] eqn:Er; [|done]. cbn [mbind option_bind] in H.
  destruct (mem_write _ _ d) as [m|] eqn:Ew; [|done]. cbn [mbind option_bind] in H. simplify_eq.
  pose proof (mem_write_length _ _ _ _ Ew) as Hl. apply mem_write_Some in Ew as (_ & _ & Hm).
  split_and!; [|by eapply put_part_committed|apply length_insert].
  eapply put_part_inv; eauto; [|done]. apply wf_set_from; [done|].
  destruct Hwp as [[H1 H2 H3 H4] _ _]. split; cbn; [by rewrite Hl| |done|done].
  rewrite Hm. apply splice_bytes; [done|]. by apply (mem_read_bytes buf 0 len).
Qed.

Lemma restoreData_inv w id w' :
  restoreData w id = Some w' -> nv_inv (Some id) w ->
  nv_inv None w' /\ committed w' = committed w.
Proof.
  intros H Hi. destruct (parts w !! id) as [p|] eqn:Hp; [|by unfold restoreData in H; rewrite Hp in H].
  assert (wf_part p) as Hwp by (destruct Hi; eauto with sprd).
  rewrite (restoreData_eq w id p Hp Hwp) in H. simplify_eq.
  split; [|by eapply put_part_committed]. split.
  - apply wf_put_part; [by destruct Hi|]. by apply restore_part_wf.
  - intros i q Hq _.
    destruct (insert_part_cases w (put_part w id (restore_part p)) id p (restore_part p) i q Hp eq_refl Hq) as [[-> ->]|[Hne H]].
    + refine (nvdata_copied p _ _ _ _). by destruct Hwp.
    + destruct Hi as [_ Hi]. apply (Hi i q H). congruence.
Qed.

Lemma backup_locked_inv w id w' :
  backup_locked w id = Some w' -> nv_inv (Some id) w -> nv_inv None w'.
Proof.
  intros H Hi. destruct (parts w !! id) as [p|] eqn:Hp; [|by unfold backup_locked in H; rewrite Hp in H].
  assert (wf_part p) as Hwp by (destruct Hi; eauto with sprd).
  rewrite (backup_locked_eq w id p Hp Hwp) in H. simplify_eq. split.
  - apply wf_put_part; [by destruct Hi|]. by apply backup_part_wf.
  - intros i q Hq _.
    destruct (insert_part_cases w (put_part w id (backup_part p)) id p (backup_part p) i q Hp eq_refl Hq) as [[-> ->]|[Hne H]].
    + symmetry. refine (nvdata_copied p _ _ _ _). by destruct Hwp.
    + destruct Hi as [_ Hi]. apply (Hi i q H). congruence.
Qed.

Lemma backupData_inv w id w' r :
  backupData w id = Some (w', r) -> nv_inv (Some id) w -> nv_inv None w' /\ r = 1.
Proof.
  unfold backupData. intros H Hi. destruct (backup_locked w id) as [w1|] eqn:E; [|done].
  cbn [mbind option_bind] in H. pose proof (backup_locked_inv _ _ _ E Hi) as H1.
  destruct (is_cali_mode w1).
  - destruct (saveToDisk w1) as [w2|] eqn:Es; [|done]. cbn [mbind option_bind] in H. simplify_eq.
    by destruct (saveToDisk_inv _ _ _ Es H1).
  - cbn [mbind option_bind] in H. simplify_eq. split; [|done]. destruct H1. by split.
Qed.

(** What a commit does to the committed data. *)
Lemma backupData_committed w id p w' r :
  backupData w id = Some (w', r) -> nv_inv (Some id) w -> parts w !! id = Some p ->
  committed w' = <[id := nvdata p (fromChannel p)]> (committed w).
Proof.
  unfold backupData. intros H Hi Hp. assert (wf_part p) as Hwp by (destruct Hi; eauto with sprd).
  rewrite (backup_locked_eq w id p Hp Hwp) in H. cbn [mbind option_bind] in H.
  assert (committed (put_part w id (backup_part p)) = <[id := nvdata p (fromChannel p)]> (committed w)) as Hc.
  { unfold committed. cbn [parts put_part set_parts]. rewrite list_fmap_insert. f_equal. refine (nvdata_copied p _ _ _ _). by destruct Hwp. }
  destruct (is_cali_mode _).
  - destruct (saveToDisk _) as [w2|] eqn:Es; [|done]. cbn [mbind option_bind] in H. simplify_eq. rewrite <- Hc.
    eapply saveToDisk_parts; [exact Es|]. apply wf_put_part; [by destruct Hi|by apply backup_part_wf].
  - cbn [mbind option_bind] in H. by simplify_eq.
Qed.

(** The partition a running transaction may have changed. *)
Definition active (s : sync) : option nat := if _syncState s =? 0 then None else _id s.

Record sync_inv (x : srv) : Prop := SyncInv {
  si_ok : sync_ok (sy x);
  si_len : 0 <= _len (sy x);
  si_idle : _syncBusy (sy x) = false -> _syncState (sy x) = 0;
  si_id : _syncState (sy x) <> 0 -> exists id, _id (sy x) = Some id /\ (id < length (parts (nv x)))%nat;
  si_nv : nv_inv (active (sy x)) (nv x);
  si_pkt : length (packeBuf (pkt x)) = 1044%nat /\ bytes (packeBuf (pkt x));
}.

Lemma getCtlId_from_lt ps i pid id :
  getCtlId_from ps i pid = Some id -> (i <= id < i + length ps)%nat.
Proof.
  revert i. induction ps as [|p ps IH]; intros i H; [done|]. cbn in H.
  case_match; simplify_eq/=; [lia|]. apply IH in H. lia.
Qed.

Lemma restoreData_total w id :
  wf_nv w -> (id < length (parts w))%nat ->
  exists w', restoreData w id = Some w' /\ length (parts w') = length (parts w).
Proof.
  intros Hw Hid. apply lookup_lt_is_Some_2 in Hid as [p Hp].
  rewrite (restoreData_eq w id p Hp) by eauto with sprd. eexists. split; [done|]. apply length_insert.
Qed.

(** Resetting after a failure is always defined, restores the received copy and
    keeps the committed data. *)
Lemma syncReset_fail_inv x p :
  sync_inv x -> length (packeBuf p) = 1044%nat -> bytes (packeBuf p) ->
  exists w', _syncReset false (sy x) (nv x) = Some (_syncInit (sy x), w', 1) /\
    sync_inv (Srv (_syncInit (sy x)) p w') /\ committed w' = committed (nv x).
Proof.
  intros [Hok Hl Hidle Hid Hn _] Hp1 Hp2. unfold _syncReset. unfold active in Hn.
  destruct (Z.eqb_spec (_syncState (sy x)) 0) as [H0|H0].
  - eexists. cbn [mbind option_bind]. split; [done|]. split; [|done].
    split; cbn; auto; [apply syncInit_ok; by destruct Hok|done|done].
  - destruct (Hid H0) as (id & Hi & Hlt). rewrite Hi in *. cbn [mbind option_bind].
    destruct (restoreData_total (nv x) id) as (w' & Hr & Hlen); [by destruct Hn|done|].
    rewrite Hr. cbn [mbind option_bind]. exists w'. split; [done|].
    destruct (restoreData_inv _ _ _ Hr Hn) as [H1 H2]. split; [|done].
    split; cbn; auto; [apply syncInit_ok; by destruct Hok|done|done].
Qed.

Lemma sendRsp_pkt p r :
  packeBuf (_sendPacktRsp p r) = packeBuf p.
Proof. done. Qed.

(** A turn reads a tail token in its place, commits the received copy of the
    partition of the transaction, and answers 1. *)
Definition tail_commit (x : srv) (c : cursor) (x' : srv) : Prop :=
  _syncState (sy x) = 1 /\ 20 <= c.2 /\
  ld32 c.1 0 = SYNC_REQ_TAIL /\ ld32 c.1 4 = u32 (syncReqFrame (sy x) + 1) /\
  pkt x' = _sendPacktRsp (pkt x) 1 /\ _syncBusy (sy x') = false /\
  exists id p, _id (sy x) = Some id /\ parts (nv x) !! id = Some p /\
    committed (nv x') = <[id := nvdata p (fromChannel p)]> (committed (nv x)).

Lemma token_field b d off : (20 <= length d)%nat -> (off + 4 <= 20)%nat -> ld32 (splice b 0 (take 20 d)) off = ld32 d off.
Proof.
  intros Hd Ho. unfold splice. rewrite take_0, app_nil_l, ld32_app_l by (rewrite length_take; lia).
  rewrite <- (take_drop 20 d) at 2. by rewrite ld32_app_l by (rewrite length_take; lia).
Qed.

(** A turn keeps the invariant; the committed data only change by a tail token. *)
Definition turn_ok (x : srv) (c : cursor) (t : turn) : Prop :=
  match t with
  | Go x' c' => sync_inv x' /\ bytes c'.1 /\ 0 <= c'.2 < 4294967296 /\
                _syncBusy (sy x') = true /\ committed (nv x') = committed (nv x)
  | Leave x' => sync_inv x' /\ (committed (nv x') = committed (nv x) \/ tail_commit x c x')
  end.

Lemma sync_fail_inv s p w t x0 c :
  sync_fail s p w = Some t -> sync_inv (Srv s p w) -> committed w = committed (nv x0) -> turn_ok x0 c t.
Proof.
  intros Ht Hi Hc. pose proof (si_pkt _ Hi) as [Hp1 Hp2].
  destruct (syncReset_fail_inv (Srv s p w) (_sendPacktRsp p 0) Hi) as (w' & Hr & Hi' & Hc'); auto.
  cbn [sy nv] in *. unfold sync_fail in Ht. rewrite Hr in Ht. cbn [mbind option_bind] in Ht.
  simplify_eq. split; [done|]. left. cbn. congruence.
Qed.

Lemma head_turn_inv x c t :
  _syncState (sy x) = 0 -> sync_turn x c = Some t -> sync_inv x -> _syncBusy (sy x) = true ->
  bytes c.1 -> 0 < c.2 < 4294967296 -> turn_ok x c t.
Proof.
  intros Hst Ht Hi Hbusy Hb Hc. pose proof Hi as [Hok Hl Hidle Hid Hn Hp]. destruct Hok as [Ho Hlb _].
  unfold active in Hn. rewrite Hst in Hn. cbn in Hn. unfold sync_turn in Ht. rewrite Hst in Ht. cbn [Z.eqb] in Ht.
  destruct (_syncGetHead _ _ _) as [[[r s'] c']|] eqn:E; [|done]. cbn [mbind option_bind] in Ht.
  apply getHead_cases in E as [(-> & ->)|(Hr1 & Hr2 & H1 & H2 & -> & H3 & H4 & H5 & H6 & H7 & H8 & H9)];
    try (done || lia).
  - simplify_eq/=. split; [|auto]. split; auto; [by split; auto|]. unfold active. cbn. by rewrite Hst.
  - pose proof (reqBuf_length _ _ Hlb H2) as Hb'. rewrite <- H6 in Hb'.
    assert (_syncState s' = 0) as Hs' by congruence. rewrite <- H8 in Hl.
    destruct r; try done; simplify_eq/=.
    + destruct (H9 eq_refl) as (id & Hid' & Hg).
      split_and!; try apply u32_range; [|by apply Forall_drop|congruence|done]. split; cbn; auto.
      * by split; auto.
      * congruence.
      * intros _. exists id. split; [done|]. apply getCtlId_from_lt in Hg. lia.
      * destruct Hn as [Hw Hs]. split; auto. intros i q Hq _. by apply (Hs i q Hq).
    + eapply sync_fail_inv; [exact Ht| |done]. split; cbn; auto.
      * by split; auto.
      * congruence.
      * unfold active. by rewrite Hs'.
Qed.

Lemma commit_turn_inv x c s t :
  ('(s, w, ret) ← _syncReset true s (nv x); Some (Leave (Srv s (_sendPacktRsp (pkt x) ret) w))) = Some t ->
  sync_inv x -> _syncState (sy x) = 1 -> _id s = _id (sy x) ->
  syncReqBuf s = splice (syncReqBuf (sy x)) 0 (take 20 c.1) -> 20 <= c.2 -> (20 <= length c.1)%nat ->
  tk_type s = SYNC_REQ_TAIL -> tk_reqIdx s = u32 (syncReqFrame (sy x) + 1) -> turn_ok x c t.
Proof.
  intros Ht Hi Hst Hid Hbuf Hc Hlen Hty Hidx. pose proof Hi as [[Ho Hlb _] Hl _ Hids Hn [Hp1 Hp2]].
  destruct Hids as (id & Hid0 & Hlt); [lia|]. unfold active in Hn. rewrite Hst, Hid0 in Hn. cbn in Hn.
  unfold _syncReset in Ht. rewrite Hid, Hid0 in Ht. cbn [mbind option_bind] in Ht.
  destruct (backupData (nv x) id) as [[w' r]|] eqn:E; [|done]. cbn [mbind option_bind] in Ht. simplify_eq.
  destruct (backupData_inv _ _ _ _ E Hn) as [Hn' ->]. apply lookup_lt_is_Some_2 in Hlt as [q Hq].
  unfold tk_type, tk_reqIdx in *. rewrite Hbuf, token_field in Hty, Hidx by lia.
  split.
  - split; cbn; auto; try done. apply syncInit_ok. rewrite Hbuf. by apply reqBuf_length.
  - right. split_and!; try done. exists id, q. split_and!; try done. by eapply backupData_committed.
Qed.

Lemma body_turn_inv x c t :
  _syncState (sy x) = 1 -> sync_turn x c = Some t -> sync_inv x -> _syncBusy (sy x) = true ->
  bytes c.1 -> 0 < c.2 < 4294967296 -> turn_ok x c t.
Proof.
  intros Hst Ht Hi Hbusy Hb Hc. pose proof Hi as [Hok Hl Hidle Hid Hn Hp]. destruct Hok as [Ho Hlb _].
  destruct Hid as (id & Hid & Hlt); [lia|].
  unfold active in Hn. rewrite Hst, Hid in Hn. cbn in Hn. unfold sync_turn in Ht. rewrite Hst in Ht. cbn [Z.eqb] in Ht.
  change (1 =? 0) with false in Ht. change (1 =? 1) with true in Ht.
  destruct (_syncGetBody _ _ _) as [[[[r s'] w'] c']|] eqn:E; [|done]. cbn [mbind option_bind] in Ht.
  apply getBody_cases in E as [(-> & -> & ->)|(Hr1 & H1 & H2 & -> & H3 & H4 & H5 & H6 & H7 & H8 & H9 & H10)];
    try (done || lia).
  - simplify_eq/=. split; [|auto]. split; cbn; eauto; [by split; auto|].
    unfold active. cbn. by rewrite Hst, Hid.
  - pose proof (reqBuf_length _ _ Hlb H2) as Hb'. rewrite <- H6 in Hb'. rewrite Hid in H7.
    assert (_syncState s' = 1) as Hs' by congruence.
    destruct r; try done.
    + destruct (H8 eq_refl) as (id' & Hid' & Hm & _ & Hlen). simplify_eq/=.
      destruct (markDirty_inv _ _ _ _ _ Hm Hn) as (Hn' & Hc' & Hlp).
      split_and!; try apply u32_range; [|by apply Forall_drop|congruence|done]. split; cbn; auto.
      * by split; auto.
      * rewrite Hlen. apply u32_range.
      * congruence.
      * intros _. exists id. split; [done|]. by rewrite Hlp.
      * unfold active. cbn. by rewrite H7.
    + destruct (H9 ltac:(done)) as (-> & _). destruct (H10 eq_refl) as [Hty Hidx].
      eapply commit_turn_inv; [exact Ht|done|done|congruence|done|done|done|done|done].
    + destruct (H9 ltac:(done)) as (-> & _ & Hlen).
      eapply sync_fail_inv; [exact Ht| |done]. split; cbn; auto.
      * by split; auto.
      * lia.
      * congruence.
      * intros _. eauto.
      * unfold active. by rewrite Hs', H7.
Qed.

Lemma data_turn_inv x c t :
  _syncState (sy x) = 2 -> sync_turn x c = Some t -> sync_inv x -> _syncBusy (sy x) = true ->
  bytes c.1 -> 0 < c.2 < 4294967296 -> turn_ok x c t.
Proof.
  intros Hst Ht Hi Hbusy Hb Hc. pose proof Hi as [Hok Hl Hidle Hid Hn Hp]. destruct Hok as [Ho Hlb _].
  destruct Hid as (id & Hid & Hlt); [lia|].
  unfold active in Hn. rewrite Hst, Hid in Hn. cbn in Hn. unfold sync_turn in Ht. rewrite Hst in Ht.
  change (2 =? 0) with false in Ht. change (2 =? 1) with false in Ht.
  destruct (_syncGetData _ _ _) as [[[[r s'] w'] c']|] eqn:E; [|done]. cbn [mbind option_bind] in Ht.
  apply getData_cases in E as (id' & n & H1 & H2 & H3 & -> & -> & ->). simplify_eq.
  destruct (writeData_inv _ _ _ _ _ _ H3 Hb Hn) as (Hn' & Hc' & Hlp).
  destruct (Z.leb_spec (_len (sy x)) c.2); simplify_eq/=.
  - split_and!; try apply u32_range; [|by apply Forall_drop|congruence|done]. split; cbn; auto.
    + by split; auto.
    + done.
    + congruence.
    + intros _. rewrite Hlp. eauto.
    + unfold active. cbn. by rewrite H1.
  - split; [|auto]. split; cbn; auto.
    + by split; auto.
    + apply u32_range.
    + intros _. rewrite Hlp. eauto.
    + unfold active. cbn. by rewrite Hst, H1.
Qed.

Lemma sync_turn_inv x c t :
  sync_turn x c = Some t -> sync_inv x -> _syncBusy (sy x) = true ->
  bytes c.1 -> 0 < c.2 < 4294967296 -> turn_ok x c t.
Proof.
  intros Ht Hi. pose proof (si_ok _ Hi) as [_ _ [Hst|[Hst|Hst]]];
    eauto using head_turn_inv, body_turn_inv, data_turn_inv.
Qed.

(** Turns that go on. *)
Inductive goes : srv -> cursor -> srv -> cursor -> Prop :=
| goes_refl x c : goes x c x c
| goes_step x c x1 c1 x2 c2 : c.2 <> 0 -> sync_turn x c = Some (Go x1 c1) -> goes x1 c1 x2 c2 -> goes x c x2 c2.

(** Some turn of the loop over the packet [c] committed; none before it changed
    the committed data. *)
Definition commits (x : srv) (c : cursor) (x' : srv) : Prop :=
  exists x1 c1, goes x c x1 c1 /\ committed (nv x1) = committed (nv x) /\ tail_commit x1 c1 x'.

Lemma sync_loop_inv fuel x c x' :
  sync_loop fuel x c = Some (Some x') -> sync_inv x -> _syncBusy (sy x) = true ->
  bytes c.1 -> 0 <= c.2 < 4294967296 ->
  sync_inv x' /\ (committed (nv x') = committed (nv x) \/ commits x c x').
Proof.
  revert x c. induction fuel as [|fuel IH]; intros x c H Hi Hbusy Hb Hc; cbn [sync_loop] in H;
    (destruct (Z.eqb_spec c.2 0); [by simplify_eq; auto|]); [done|].
  destruct (sync_turn x c) as [t|] eqn:Et; [|done]. pose proof Et as Et0.
  apply sync_turn_inv in Et; auto; [|lia]. destruct t as [x1 c1|x1]; simplify_eq/=.
  - destruct Et as (H1 & H2 & H3 & H4 & H5). destruct (IH x1 c1) as [Hi' [Hc'|(x2 & c2 & Hg & Hc2 & Ht)]]; auto.
    + split; [done|]. left. congruence.
    + split; [done|]. right. exists x2, c2. split; [by econstructor|]. split; [congruence|done].
  - destruct Et as [Hi' [Hc'|Ht]]; split; auto. right. exists x, c. split; [constructor|done].
Qed.

Lemma sync_body_inv x c x' :
  sync_body x c = Some x' -> sync_inv x -> _syncBusy (sy x) = true -> bytes c.1 -> 0 <= c.2 < 4294967296 ->
  sync_inv x' /\ (committed (nv x') = committed (nv x) \/ commits x c x').
Proof.
  unfold sync_body. destruct (sync_loop _ _ _) as [r|] eqn:E; [|done]. intros ->. by eapply sync_loop_inv.
Qed.

(** A body token that announces no sector or sectors outside the dirty table, and
    data that run past the buffer of their partition: the requests on which the
    code leaves its tables. *)
Definition out_of_partition (x : srv) (c : cursor) : Prop :=
  (_syncState (sy x) = 1 /\ 20 <= c.2 /\ ld32 c.1 0 = SYNC_REQ_BODY /\
   ~ (0 < ld32 c.1 16 /\ ld32 c.1 12 + ld32 c.1 16 <= 1536)) \/
  (_syncState (sy x) = 2 /\ exists id p, _id (sy x) = Some id /\ parts (nv x) !! id = Some p /\
   ~ (0 <= _start (sy x) /\
      _start (sy x) + Z.min (_len (sy x)) c.2 <= Z.of_nat (length (diskbuf (fromChannel p))))).

Lemma getToken_total s c :
  sync_ok s -> 0 < c.2 <= Z.of_nat (length c.1) ->
  __getToken s c = if c.2 <? 20 then Some (false, s, c)
    else Some (true, set_reqBuf (splice (syncReqBuf s) 0 (take 20 c.1)) 0 s, (drop 20 c.1, u32 (c.2 - 20))).
Proof.
  intros [Ho Hb _] Hc. destruct c as [buf size]. cbn [fst snd] in *. unfold __getToken. rewrite Ho.
  change (u32 (SYNC_REQ_SIZE - 0)) with 20. change (0 =? 20) with false. change (4 * 0) with 0.
  destruct (Z.ltb_spec size 20); [by destruct (Z.eqb_spec size 0); [lia|]|].
  rewrite mem_read_prefix by lia. cbn [mbind option_bind]. change (Z.to_nat 20) with 20%nat.
  rewrite mem_write_ok by (rewrite ?length_take; lia). done.
Qed.

Lemma syncReset_defined f x s :
  sync_inv x -> _syncState (sy x) <> 0 -> _id s = _id (sy x) -> _syncState s = _syncState (sy x) ->
  exists w r, _syncReset f s (nv x) = Some (_syncInit s, w, r).
Proof.
  intros Hi Hne Hid Hst. destruct (si_id _ Hi Hne) as (id & Hid0 & Hlt). pose proof (si_nv _ Hi) as [Hw _].
  unfold _syncReset. rewrite Hid, Hid0, Hst. destruct f; cbn [mbind option_bind].
  - unfold backupData. apply lookup_lt_is_Some_2 in Hlt as [p Hp].
    assert (wf_part p) as Hwp by eauto with sprd. rewrite (backup_locked_eq _ _ _ Hp Hwp). cbn [mbind option_bind].
    destruct (is_cali_mode _); [|cbn; eauto].
    edestruct saveToDisk_wf as (w' & -> & _); [|cbn [mbind option_bind]; eauto].
    apply wf_put_part; [done|by apply backup_part_wf].
  - destruct (Z.eqb_spec (_syncState (sy x)) 0); [done|].
    destruct (restoreData_total (nv x) id Hw Hlt) as (w' & -> & _). cbn [mbind option_bind]. eauto.
Qed.

Lemma sync_fail_defined x s p :
  sync_inv x -> _syncState s = _syncState (sy x) -> (_syncState (sy x) <> 0 -> _id s = _id (sy x)) ->
  is_Some (sync_fail s p (nv x)).
Proof.
  intros Hi Hst Hid. unfold sync_fail. destruct (Z.eq_dec (_syncState (sy x)) 0) as [H0|H0].
  - unfold _syncReset. rewrite Hst, H0. cbn. eauto.
  - destruct (syncReset_defined false x s Hi H0 (Hid H0) Hst) as (w & r & ->). cbn. eauto.
Qed.

(** A turn inside the bytes of the packet is undefined only on such a request. *)
Lemma sync_turn_defined x c :
  sync_inv x -> bytes c.1 -> 0 < c.2 <= Z.of_nat (length c.1) ->
  is_Some (sync_turn x c) \/ out_of_partition x c.
Proof.
  intros Hi Hb Hc. pose proof Hi as [Hok _ _ Hid [Hw _] _]. pose proof (so_buf _ Hok) as Hlb.
  destruct (so_state _ Hok) as [Hst|[Hst|Hst]].
  - left. unfold sync_turn, _syncGetHead. rewrite Hst, getToken_total by done. change (0 =? 0) with true. cbn iota.
    destruct (Z.ltb_spec c.2 20); cbn [mbind option_bind negb]; [eauto|].
    case_match; cbn [mbind option_bind]; [by apply (sync_fail_defined x); cbn|].
    destruct (_id _) as [n|] in |- *; cbn [mbind option_bind]; [eauto|by apply (sync_fail_defined x); cbn].
  - unfold sync_turn, _syncGetBody. rewrite Hst, getToken_total by done.
    change (1 =? 0) with false. change (1 =? 1) with true. cbn iota.
    destruct (Z.ltb_spec c.2 20); cbn [mbind option_bind negb]; [eauto|].
    destruct Hid as (id & Hid & Hlt); [lia|]. set (s1 := set_reqBuf _ 0 (sy x)).
    assert (forall s, _syncState s = 1 -> _id s = Some id -> is_Some (sync_fail s (pkt x) (nv x))) as Hfail.
    { intros s Hs1 Hs2. apply (sync_fail_defined x); congruence. }
    destruct (Z.eqb_spec SYNC_REQ_BODY (tk_type s1)) as [Hty|_].
    + case_match; cbn [mbind option_bind]; [left; by apply Hfail|].
      cbn [_id set_frame set_reqBuf s1]. rewrite Hid. cbn [mbind option_bind].
      unfold tk_type in Hty. cbn [s1 syncReqBuf set_reqBuf] in Hty. rewrite token_field in Hty by lia.
      unfold tk_start, tk_num. cbn [s1 syncReqBuf set_reqBuf set_frame]. rewrite !token_field by lia.
      destruct (decide (0 < ld32 c.1 16 /\ ld32 c.1 12 + ld32 c.1 16 <= 1536)) as [[H1 H2]|Hout];
        [left|right; left; split_and!; auto].
      pose proof (ld32_range c.1 12 Hb). apply lookup_lt_is_Some_2 in Hlt as [p Hp].
      assert (wf_part p) as Hwp by eauto with sprd.
      destruct (markDirty_eq (nv x) id p (ld32 c.1 12) (ld32 c.1 16) Hp Hwp) as (t' & -> & _); [lia..|]. cbn. eauto.
    + left. case_match; [case_match|]; cbn [mbind option_bind]; try by apply Hfail.
      match goal with |- context [_syncReset true ?s _] =>
        destruct (syncReset_defined true x s Hi) as (w' & r & ->); [lia|done|done|] end. cbn. eauto.
  - destruct Hid as (id & Hid & Hlt); [lia|]. pose proof Hlt as [p Hp]%lookup_lt_is_Some_2.
    destruct (decide (0 <= _start (sy x) /\ _start (sy x) + Z.min (_len (sy x)) c.2 <= Z.of_nat (length (diskbuf (fromChannel p)))))
      as [[H1 H2]|Hout]; [left|right; right; split; [done|]; eauto 8].
    assert (wf_part p) as Hwp by eauto with sprd. pose proof (si_len _ Hi) as Hl0.
    assert (forall n, 0 <= n <= Z.of_nat (length c.1) -> n = Z.min (_len (sy x)) c.2 ->
              is_Some (writeData (nv x) id (_start (sy x)) n c.1)) as Hwd.
    { intros n Hn ->. destruct (decide (Z.min (_len (sy x)) c.2 = 0)) as [->|]; [by eexists|].
      rewrite (writeData_eq (nv x) id p Hp Hwp) by lia. eauto. }
    unfold sync_turn, _syncGetData. rewrite Hst, Hid. destruct c as [buf size]. cbn [fst snd mbind option_bind] in *.
    change (2 =? 0) with false. change (2 =? 1) with false. cbn iota.
    destruct (Z.leb_spec (_len (sy x)) size).
    + destruct (Hwd (_len (sy x))) as [w' ->]; [lia|lia|]. cbn. eauto.
    + destruct (Hwd size) as [w' ->]; [lia|lia|]. cbn. eauto.
Qed.

(** Two turns per byte are enough. *)
Lemma sync_loop_ends fuel x c :
  (sync_measure x c < fuel)%nat -> sync_inv x -> _syncBusy (sy x) = true -> bytes c.1 ->
  0 <= c.2 <= Z.of_nat (length c.1) -> c.2 < 4294967296 ->
  (exists x', sync_loop fuel x c = Some (Some x')) \/
  (sync_loop fuel x c = Some None /\ exists x1 c1, goes x c x1 c1 /\ out_of_partition x1 c1).
Proof.
  revert x c. induction fuel as [|fuel IH]; intros x c Hf Hi Hbusy Hb Hc Hmax; [lia|]. cbn [sync_loop].
  destruct (Z.eqb_spec c.2 0); [by eauto|].
  destruct (sync_turn x c) as [[x' c'|x']|] eqn:Et; [|by eauto|].
  - pose proof Et as Et0. apply sync_turn_step in Et0 as [H1 H2];
      [|by apply (si_ok _ Hi)|lia|by apply (si_len _ Hi)].
    pose proof Et as Et0. apply sync_turn_inv in Et0; auto; [|lia]. destruct Et0 as (H3 & H4 & H5 & H6 & _).
    destruct (IH x' c') as [?|(H7 & x1 & c1 & H8 & H9)]; auto; [lia..|].
    right. split; [done|]. exists x1, c1. split; [|done]. by econstructor.
  - right. split; [done|]. exists x, c. split; [constructor|].
    destruct (sync_turn_defined x c Hi Hb) as [[t Ht]|?]; [lia|congruence|done].
Qed.

(** Inputs of the channel are bytes. *)
Definition in_bytes (i : chan_in) : Prop := forall d, i = ReadData d -> bytes d.

Lemma getPacket_buf i p st p' body size :
  in_bytes i -> length (packeBuf p) = 1044%nat -> bytes (packeBuf p) ->
  _getPacket i p = (st, p', body, size) ->
  length (packeBuf p') = 1044%nat /\ bytes (packeBuf p') /\ bytes body /\ 0 <= size < 4294967296.
Proof.
  intros Hi Hl Hb. unfold _getPacket.
  destruct (channel_read i (packeBuf p) _) as [[buf h] ok] eqn:Er.
  assert (length buf = 1044%nat /\ bytes buf) as [Hl' Hb'].
  { change (PACKET_HEAD_SIZE + PACKETSIZE) with 1044 in Er. unfold channel_read in Er.
    destruct i as [|d]; simplify_eq; [done|].
    change (Z.to_nat 1044) with 1044%nat. split.
    - rewrite splice_length; [done|]. rewrite Hl, length_take. apply Nat.le_min_l.
    - apply splice_bytes; [done|]. apply Forall_take. by apply Hi. }
  pose proof (ld32_range buf 16 Hb') as Hr. fold (ph_size buf) in Hr.
  intros H. repeat case_match; simplify_eq; cbn [packeBuf];
    (split; [done|]; split; [done|]; split; [try constructor; try by apply Forall_drop|]; try lia).
Qed.

Lemma set_busy_inv s p w : sync_inv (Srv s p w) -> sync_inv (Srv (set_busy s) p w).
Proof. intros [[] H2 H3 H4 H5 H6]. split; cbn in *; auto. by split. done. Qed.

Lemma pkt_inv s p w p' :
  sync_inv (Srv s p w) -> length (packeBuf p') = 1044%nat -> bytes (packeBuf p') -> sync_inv (Srv s p' w).
Proof. intros [H1 H2 H3 H4 H5 _] Hl Hb. by split. Qed.

(** The server and the packet when the loop over the tokens starts: a packet that
    opens a group ends the running transaction, one that continues a group is only
    looked at inside a transaction. *)
Definition packet_start (i : chan_in) (x : srv) : option (srv * cursor) :=
  let '(st, p, buf, size) := _getPacket i (pkt x) in
  match st with
  | PACKET_START =>
      if _syncBusy (sy x) then
        '(s, w, _) ← _syncReset false (sy x) (nv x); Some (Srv (set_busy s) p w, (buf, size))
      else Some (Srv (set_busy (sy x)) p (nv x), (buf, size))
  | PACKET_CONTINUE => if _syncBusy (sy x) then Some (Srv (set_busy (sy x)) p (nv x), (buf, size)) else None
  | _ => None
  end.

Lemma packet_start_inv i x y c :
  packet_start i x = Some (y, c) -> in_bytes i -> sync_inv x ->
  sync_inv y /\ _syncBusy (sy y) = true /\ committed (nv y) = committed (nv x) /\ bytes c.1 /\ 0 <= c.2 < 4294967296 /\
  forall x' stop, analyze i x = Some (x', stop) -> stop = false /\ sync_body y c = Some x'.
Proof.
  intros H Hin Hi. destruct x as [s p0 w]. unfold packet_start in H. unfold analyze. cbn [sy nv pkt] in *.
  destruct (_getPacket i p0) as [[[st p] buf] size] eqn:Eg. pose proof (si_pkt _ Hi) as [Hl Hb].
  destruct (getPacket_buf _ _ _ _ _ _ Hin Hl Hb Eg) as (Hl' & Hb' & Hbody & Hsz). pose proof (pkt_inv _ _ _ p Hi Hl' Hb') as Hip.
  destruct (syncReset_fail_inv (Srv s p0 w) p Hi Hl' Hb') as (wr & Hr & Hir & Hcr). cbn [sy nv] in *.
  destruct st; try done; destruct (_syncBusy s); try done; try rewrite Hr in *; cbn [mbind option_bind negb] in *; simplify_eq;
    (split; [by apply set_busy_inv|]); (split; [done|]); (split; [done|]); (split; [done|]); (split; [done|]);
    intros x' stop HA; destruct (sync_body _ _) as [z|]; cbn [mbind option_bind] in HA; by simplify_eq.
Qed.

Lemma packet_start_length i x y buf size :
  packet_start i x = Some (y, (buf, size)) -> in_bytes i -> sync_inv x -> length buf = 1024%nat.
Proof.
  intros H Hin Hi. pose proof (si_pkt _ Hi) as [Hl Hb]. unfold packet_start in H.
  destruct (_getPacket i (pkt x)) as [[[st p] b] sz] eqn:Eg.
  assert (st = PACKET_START \/ st = PACKET_CONTINUE -> b = drop 20 (packeBuf p)) as Hbody.
  { unfold _getPacket in Eg. destruct (channel_read _ _ _) as [[? ?] ?]. repeat case_match; simplify_eq; by intros [?|?]. }
  destruct (getPacket_buf _ _ _ _ _ _ Hin Hl Hb Eg) as (Hl' & _).
  assert (length b = 1024%nat -> length buf = 1024%nat) as Hbuf.
  { intros <-. destruct st; try done; destruct (_syncBusy _); try done;
      try destruct (_syncReset _ _ _) as [[[? ?] ?]|]; cbn [mbind option_bind] in H; by simplify_eq. }
  apply Hbuf. destruct st; try done; rewrite Hbody by auto; by rewrite length_drop, Hl'.
Qed.

(** One packet: the invariant is kept, and the committed data change only by the
    tail token of a transaction. *)
Lemma analyze_inv i x x' stop :
  analyze i x = Some (x', stop) -> in_bytes i -> sync_inv x ->
  sync_inv x' /\
  (committed (nv x') = committed (nv x) \/ exists y c, packet_start i x = Some (y, c) /\ committed (nv y) = committed (nv x) /\ commits y c x') /\
  (stop = true -> _syncBusy (sy x') = false /\ committed (nv x') = committed (nv x)).
Proof.
  intros H Hin Hi. destruct (packet_start i x) as [[y c]|] eqn:Es.
  - destruct (packet_start_inv _ _ _ _ Es Hin Hi) as (Hy & Hbusy & Hc & Hb & Hsz & Ha). destruct (Ha _ _ H) as [-> Hbody].
    destruct (sync_body_inv _ _ _ Hbody Hy Hbusy Hb Hsz) as [Hi' [Hc'|Hc']]; (split; [done|]); (split; [|done]).
    + left. congruence.
    + right. eauto 6.
  - destruct x as [s p0 w]. unfold analyze in H. unfold packet_start in Es. cbn [sy nv pkt] in *.
    destruct (_getPacket i p0) as [[[st p] buf] size] eqn:Eg. pose proof (si_pkt _ Hi) as [Hl Hb].
    destruct (getPacket_buf _ _ _ _ _ _ Hin Hl Hb Eg) as (Hl' & Hb' & Hbody & Hsz). pose proof (pkt_inv _ _ _ p Hi Hl' Hb') as Hip.
    destruct (syncReset_fail_inv (Srv s p0 w) p Hi Hl' Hb') as (wr & Hr & Hir & Hcr). cbn [sy nv] in *.
    destruct st.
    + rewrite Hr in Es. by destruct (_syncBusy s).
    + destruct (_syncBusy s); [done|]. cbn [negb] in H. simplify_eq. cbn [nv]. split; [|split; [by left|done]]. by eapply pkt_inv.
    + simplify_eq. split; [done|]. split; [by left|done].
    + rewrite Hr in H. cbn [mbind option_bind] in H. simplify_eq. by auto.
Qed.

(** ** The modem's side: encoding of a transaction *)

Definition tok (ty idx pid a b : Z) : list Z := st32 ty ++ st32 idx ++ st32 pid ++ st32 a ++ st32 b.

(** An update: the first sector and the new contents of whole sectors. *)
Record upd := Upd { u_start : Z; u_data : list Z }.
Definition u_num (u : upd) : Z := Z.of_nat (length (u_data u)) / 512.

Fixpoint enc_rest (idx pid : Z) (us : list upd) : list Z :=
  let idx := u32 (idx + 1) in
  match us with
  | [] => tok SYNC_REQ_TAIL idx pid 0 0
  | u :: us => tok SYNC_REQ_BODY idx pid (u_start u) (u_num u) ++ u_data u ++ enc_rest idx pid us
  end.
Definition enc_txn (idx pid : Z) (us : list upd) : list Z :=
  tok SYNC_REQ_HEAD idx pid 512 0 ++ enc_rest idx pid us.

(** The bytes of the encoding at which a packet must not end: the inside of a
    token. *)
Definition tok_mask : list bool := false :: replicate 19 true.
Fixpoint mask_rest (us : list upd) : list bool :=
  match us with
  | [] => tok_mask
  | u :: us => tok_mask ++ replicate (length (u_data u)) false ++ mask_rest us
  end.
Definition txn_mask (us : list upd) : list bool := tok_mask ++ mask_rest us.

(** What the updates do to the data of the partition. *)
Definition apply_upd (d : list Z) (u : upd) : list Z := splice d (Z.to_nat (512 * u_start u)) (u_data u).

Record upd_ok (p : part_ctrl) (u : upd) : Prop := UpdOk {
  uo_start : 0 <= u_start u;
  uo_num : Z.of_nat (length (u_data u)) = 512 * u_num u;
  uo_pos : 0 < u_num u;
  uo_end : u_start u + u_num u <= sctNum p;
  uo_bytes : bytes (u_data u);
}.

(** A partition the server can handle: its size fits the dirty table. *)
Definition part_fits (p : part_ctrl) : Prop := sctNum p <= 1536.

Lemma tok_length ty idx pid a b : length (tok ty idx pid a b) = 20%nat.
Proof. done. Qed.

Lemma tok_type ty idx pid a b m : 0 <= ty < 4294967296 -> ld32 (tok ty idx pid a b ++ m) 0 = ty.
Proof.
  intros. unfold tok. rewrite <- !app_assoc, ld32_app_l by (cbn; lia). rewrite ld32_st32.
  by apply u32_small.
Qed.
Lemma tok_field ty idx pid a b m k z :
  [ty; idx; pid; a; b] !! k = Some z -> 0 <= z < 4294967296 ->
  ld32 (tok ty idx pid a b ++ m) (4 * k) = z.
Proof.
  intros Hk Hz. unfold tok. rewrite <- !app_assoc.
  do 5 (destruct k as [|k];
        [cbn in Hk; simplify_eq;
         repeat (rewrite ld32_app_r by (cbn; lia)); rewrite ld32_app_l by (cbn; lia);
         cbn [length st32 Nat.mul Nat.sub Nat.add]; rewrite ld32_st32; by apply u32_small|]).
  done.
Qed.

Lemma reqBuf_ok (s : sync) t z :
  length t = 20%nat -> length (syncReqBuf s) = 80%nat -> (z = 0 \/ z = 1 \/ z = 2) ->
  forall s', syncReqBuf s' = t ++ drop 20 (syncReqBuf s) -> _ofst s' = 0 -> _syncState s' = z -> sync_ok s'.
Proof.
  intros Ht Hs Hz s' Hb Ho Hst. split; [done| |by rewrite Hst].
  rewrite Hb, length_app, length_drop, Ht, Hs. done.
Qed.

(** [__getToken] takes a whole token off the front of the packet. *)
Lemma getToken_tok s t rest size :
  sync_ok s -> length t = 20%nat -> 20 <= size < 4294967296 ->
  __getToken s (t ++ rest, size) =
    Some (true, set_reqBuf (t ++ drop 20 (syncReqBuf s)) 0 s, (rest, size - 20)).
Proof.
  intros [Ho Hb _] Ht Hs. unfold __getToken. rewrite Ho. change (u32 (SYNC_REQ_SIZE - 0)) with 20.
  destruct (Z.ltb_spec size 20); [lia|]. change (0 =? 20) with false. cbn iota.
  rewrite mem_read_prefix by (rewrite length_app; lia). cbn [mbind option_bind].
  change (Z.to_nat 20) with 20%nat. rewrite take_app_exact, drop_app_exact by done.
  rewrite mem_write_ok by lia. cbn [mbind option_bind]. rewrite u32_small by lia.
  unfold splice. rewrite Ht. cbn [Nat.add Z.to_nat Z.mul]. rewrite take_0. done.
Qed.

Lemma app_split {A} (c r t s : list A) :
  c ++ r = t ++ s -> (length t <= length c)%nat -> exists c', c = t ++ c' /\ c' ++ r = s.
Proof.
  intros H Hl. exists (drop (length t) c).
  assert (take (length t) c = t) as Ht.
  { rewrite <- (take_app_le c r), H, take_app_exact by done. done. }
  split; [by rewrite <- Ht at 1; rewrite take_drop|].
  apply (app_inv_head t). rewrite <- H, app_assoc. f_equal. rewrite <- Ht at 1. apply take_drop.
Qed.

(** Replacing a partition by one with the same identity keeps [disk_ok]. *)
Lemma disk_ok_commit w w' id p p' :
  parts w !! id = Some p -> parts w' = <[id := p']> (parts w) -> nvcfg w' = nvcfg w -> disk w' = disk w ->
  fdhandle p' = fdhandle p -> sctNum p' = sctNum p -> disk_ok w -> disk_ok w'.
Proof.
  intros Hp Hw' Hc Hd Hh Hn [H1 H2].
  assert (forall i q, parts w' !! i = Some q -> exists q0, parts w !! i = Some q0 /\
            fdhandle q = fdhandle q0 /\ sctNum q = sctNum q0) as Hback.
  { intros i q Hq. destruct (insert_part_cases w w' id p p' i q Hp Hw' Hq) as [[-> ->]|[_ H]]; eauto. }
  split.
  - intros i q Hq. destruct (Hback i q Hq) as (q0 & Hq0 & Eh & En). destruct (H1 i q0 Hq0) as (c & Hc0 & Hf).
    exists c. unfold entry, psize. rewrite Hc, Hd, Eh, En. done.
  - intros i j q r c d Hij Hq Hr Hec Hed.
    destruct (Hback i q Hq) as (q0 & Hq0 & Eh & En). destruct (Hback j r Hr) as (r0 & Hr0 & Eh' & En').
    unfold entry in Hec, Hed. rewrite Hc, Eh in Hec. rewrite Hc, Eh' in Hed. by apply (H2 i j q0 r0 c d).
Qed.

Lemma set_from_self p : set_fromChannel (fromChannel p) p = p.
Proof. by destruct p. Qed.
Lemma set_parts_self w : set_parts w (parts w) = w.
Proof. by destruct w. Qed.

(** ** Following a transaction through the server *)

Section Transaction.
Context (w0 : nvw) (id : nat) (p : part_ctrl) (pid : Z).
Context (Hw0 : wf_nv w0) (Hp : parts w0 !! id = Some p) (Hfit : part_fits p).

(** The partitions while the transaction runs: only the received copy of
    partition [id] differs from the start. *)
Definition mid (b : buf_ctrl) : nvw := put_part w0 id (set_fromChannel b p).

Record buf_ok (b : buf_ctrl) (D : list Z) : Prop := BufOk {
  bo_wf : wf_buf p b;
  bo_data : nvdata p b = D;
  bo_dirty : D = nvdata p (backup p) \/ all_zero (dirty b) = false;
}.

(** Server states that wait for the byte stream [st] (with mask [M]), after
    which the data of the partition will be [F]. *)
Record running (x : srv) (b : buf_ctrl) (D : list Z) (us : list upd) : Prop := Running {
  ru_ok : sync_ok (sy x);
  ru_busy : _syncBusy (sy x) = true;
  ru_id : _id (sy x) = Some id;
  ru_frame : 0 <= syncReqFrame (sy x) < 4294967296;
  ru_nv : nv x = mid b;
  ru_buf : buf_ok b D;
  ru_us : Forall (upd_ok p) us;
}.

Inductive at_pos (x : srv) : list Z -> list bool -> list Z -> Prop :=
| at_tok us b D :
    running x b D us -> _syncState (sy x) = 1 ->
    at_pos x (enc_rest (syncReqFrame (sy x)) pid us) (mask_rest us) (foldl apply_upd D us)
| at_data d us b D :
    running x b D us -> _syncState (sy x) = 2 -> d <> [] -> bytes d ->
    _len (sy x) = Z.of_nat (length d) -> 0 <= _start (sy x) ->
    _start (sy x) + Z.of_nat (length d) <= Z.of_nat (psize p) ->
    all_zero (dirty b) = false ->
    at_pos x (d ++ enc_rest (syncReqFrame (sy x)) pid us)
      (replicate (length d) false ++ mask_rest us)
      (foldl apply_upd (splice D (Z.to_nat (_start (sy x))) d) us).

Lemma mid_lookup b : parts (mid b) !! id = Some (set_fromChannel b p).
Proof using Hp. apply list_lookup_insert_eq. by eapply lookup_lt_Some. Qed.

Lemma mid_wf b : wf_buf p b -> wf_part (set_fromChannel b p).
Proof using Hw0 Hp. intros. apply wf_set_from; [|done]. by eapply wf_lookup. Qed.

Lemma mid_put b b' : put_part (mid b) id (set_fromChannel b' (set_fromChannel b p)) = mid b'.
Proof using. unfold mid, put_part, set_parts. cbn. by rewrite list_insert_insert_eq. Qed.

Lemma psize_fits u : upd_ok p u -> Z.of_nat (psize p) = 512 * sctNum p.
Proof using Hfit.
  intros [H1 H2 H3 H4 _]. unfold psize, part_fits in *. rewrite u32_small by lia. lia.
Qed.

(** A body token: marks the sectors and waits for their data. *)
Lemma body_turn_tok x b D u us rest size :
  running x b D (u :: us) -> _syncState (sy x) = 1 -> 20 <= size < 4294967296 ->
  0 <= pid < 4294967296 ->
  exists x' b', sync_turn x (tok SYNC_REQ_BODY (u32 (syncReqFrame (sy x) + 1)) pid (u_start u) (u_num u) ++ rest, size)
      = Some (Go x' (rest, size - 20)) /\ pkt x' = pkt x /\
    running x' b' D us /\ _syncState (sy x') = 2 /\ all_zero (dirty b') = false /\
    syncReqFrame (sy x') = u32 (syncReqFrame (sy x) + 1) /\
    _start (sy x') = 512 * u_start u /\ _len (sy x') = Z.of_nat (length (u_data u)).
Proof using Hw0 Hp Hfit.
  intros [Hok Hbusy Hid Hfr Hnv [Hwb HD Hd] Hus] Hst Hs Hpid. rewrite Forall_cons in Hus.
  destruct Hus as [Hu Hus]. pose proof (psize_fits u Hu) as Hps. destruct Hu as [U1 U2 U3 U4 U5].
  pose proof (u32_range (syncReqFrame (sy x) + 1)) as Hfr'. unfold part_fits in Hfit.
  unfold sync_turn. rewrite Hst. change (1 =? 0) with false. change (1 =? 1) with true. cbn iota.
  unfold _syncGetBody. rewrite getToken_tok by done. cbn [mbind option_bind negb].
  set (T := tok _ _ _ _ _). set (s1 := set_reqBuf _ 0 (sy x)).
  assert (tk_type s1 = SYNC_REQ_BODY) as -> by (apply (tok_field _ _ _ _ _ _ 0); [done|done]).
  assert (tk_reqIdx s1 = u32 (syncReqFrame (sy x) + 1)) as -> by (by apply (tok_field _ _ _ _ _ _ 1)).
  change (SYNC_REQ_BODY =? SYNC_REQ_BODY) with true. cbn iota.
  change (syncReqFrame s1) with (syncReqFrame (sy x)). rewrite Z.eqb_refl. cbn [negb].
  set (s2 := set_frame _ s1).
  assert (tk_start s2 = u_start u) as -> by (apply (tok_field _ _ _ _ _ _ 3); [done|lia]).
  assert (tk_num s2 = u_num u) as -> by (apply (tok_field _ _ _ _ _ _ 4); [done|lia]).
  change (_id s2) with (_id (sy x)). rewrite Hid, Hnv. cbn [mbind option_bind].
  destruct (markDirty_eq (mid b) id (set_fromChannel b p) (u_start u) (u_num u) (mid_lookup b) (mid_wf b Hwb))
    as (t' & -> & Hlt & Hbits); [lia..|]. cbn [mbind option_bind]. rewrite mid_put.
  eexists _, (set_dirty t' b). split; [done|]. cbn [sy pkt set_syncState set_range _syncState _start _len syncReqFrame].
  split; [done|]. assert (all_zero t' = false) as Hnz.
  { apply (dirty_bit_not_clean t' (u_start u)). rewrite Hbits by lia. apply orb_true_iff. right.
    apply andb_true_iff. lia. }
  split_and!; try done; try (rewrite u32_small by lia; lia).
  split; try done.
  - apply (reqBuf_ok (sy x) T 2); auto. by destruct Hok.
  - split; [by apply wf_set_dirty|done|by right].
Qed.

(** Writing a piece of the announced data. *)
Lemma write_piece b D start d rest :
  buf_ok b D -> d <> [] -> bytes d -> 0 <= start ->
  start + Z.of_nat (length d) <= Z.of_nat (psize p) -> all_zero (dirty b) = false ->
  exists b', writeData (mid b) id start (Z.of_nat (length d)) (d ++ rest) = Some (mid b') /\
    buf_ok b' (splice D (Z.to_nat start) d) /\ all_zero (dirty b') = false.
Proof using Hw0 Hp.
  intros [Hwb HD Hd] Hne Hb H0 Hend Hz. assert (0 < length d)%nat by (destruct d; cbn; [done|lia]).
  pose proof (wb_len _ _ Hwb) as Hlen.
  rewrite (writeData_eq (mid b) id (set_fromChannel b p) (mid_lookup b) (mid_wf b Hwb));
    [|rewrite length_app; lia|done|cbn; lia].
  rewrite mid_put. rewrite Nat2Z.id, take_app_exact by done. eexists. split; [done|].
  assert (take (psize p) (splice (diskbuf b) (Z.to_nat start) d) = splice D (Z.to_nat start) d) as Hdata.
  { rewrite <- HD. unfold nvdata. apply list_eq. intros i.
    rewrite splice_lookup by (rewrite length_take; lia).
    destruct (decide (i < psize p)%nat).
    - rewrite lookup_take_lt, splice_lookup by lia. case_decide; [done|]. by rewrite lookup_take_lt by lia.
    - rewrite lookup_take_ge by lia. rewrite decide_False by lia. by rewrite lookup_take_ge by lia. }
  split; [|done]. split; [|exact Hdata|by right].
  destruct Hwb as [W1 W2 W3 W4]. split; cbn [diskbuf dirty checksum fromChannel set_fromChannel].
  - rewrite splice_length; lia.
  - by apply splice_bytes.
  - done.
  - done.
Qed.

(** The data of a body token, complete in the packet ... *)
Lemma data_turn_all x b D d us rest size :
  running x b D us -> _syncState (sy x) = 2 -> d <> [] -> bytes d ->
  _len (sy x) = Z.of_nat (length d) -> 0 <= _start (sy x) ->
  _start (sy x) + Z.of_nat (length d) <= Z.of_nat (psize p) -> all_zero (dirty b) = false ->
  Z.of_nat (length d) <= size < 4294967296 ->
  exists x' b', sync_turn x (d ++ rest, size) = Some (Go x' (rest, size - Z.of_nat (length d))) /\
    pkt x' = pkt x /\ syncReqFrame (sy x') = syncReqFrame (sy x) /\ _syncState (sy x') = 1 /\
    running x' b' (splice D (Z.to_nat (_start (sy x))) d) us.
Proof using Hw0 Hp.
  intros [Hok Hbusy Hid Hfr Hnv Hbuf Hus] Hst Hne Hb Hlen H0 Hend Hz Hs.
  destruct (write_piece b D (_start (sy x)) d rest) as (b' & Hwr & Hbuf' & Hz'); try done.
  unfold sync_turn. rewrite Hst. change (2 =? 0) with false. change (2 =? 1) with false. cbn iota.
  unfold _syncGetData. rewrite Hid, Hnv, Hlen. cbn [mbind option_bind].
  destruct (Z.leb_spec (Z.of_nat (length d)) size); [|lia]. rewrite Hwr. cbn [mbind option_bind].
  rewrite Nat2Z.id, drop_app_exact by done. rewrite (u32_small (size - _)) by lia.
  eexists _, b'. split; [done|]. cbn [sy pkt]. split_and!; try done.
  split; try done. destruct Hok. split; cbn; auto.
Qed.

(** ... or cut by the end of the packet. *)
Lemma data_turn_cut x b D d1 d2 us rest :
  running x b D us -> _syncState (sy x) = 2 -> d1 <> [] -> d2 <> [] -> bytes (d1 ++ d2) ->
  _len (sy x) = Z.of_nat (length (d1 ++ d2)) -> 0 <= _start (sy x) ->
  _start (sy x) + Z.of_nat (length (d1 ++ d2)) <= Z.of_nat (psize p) -> all_zero (dirty b) = false ->
  exists x' b', sync_turn x (d1 ++ rest, Z.of_nat (length d1)) = Some (Leave x') /\
    pkt x' = _sendPacktRsp (pkt x) 1 /\ syncReqFrame (sy x') = syncReqFrame (sy x) /\ _syncState (sy x') = 2 /\
    running x' b' (splice D (Z.to_nat (_start (sy x))) d1) us /\ all_zero (dirty b') = false /\
    _len (sy x') = Z.of_nat (length d2) /\ _start (sy x') = _start (sy x) + Z.of_nat (length d1).
Proof using Hw0 Hp.
  intros [Hok Hbusy Hid Hfr Hnv Hbuf Hus] Hst Hne1 Hne2 Hb Hlen H0 Hend Hz.
  assert (0 < length d2)%nat by (destruct d2; cbn; [done|lia]).
  apply Forall_app in Hb as [Hb1 Hb2]. rewrite length_app in Hlen, Hend.
  destruct (write_piece b D (_start (sy x)) d1 rest) as (b' & Hwr & Hbuf' & Hz'); try done; try lia.
  assert (Z.of_nat (psize p) < 4294967296) by (unfold psize; pose proof (u32_range (512 * sctNum p)); lia).
  unfold sync_turn. rewrite Hst. change (2 =? 0) with false. change (2 =? 1) with false. cbn iota.
  unfold _syncGetData. rewrite Hid, Hnv, Hlen. cbn [mbind option_bind].
  destruct (Z.leb_spec (Z.of_nat (length d1 + length d2)) (Z.of_nat (length d1))); [lia|].
  rewrite Hwr. cbn [mbind option_bind].
  eexists _, b'. split; [done|]. cbn [sy pkt]. split_and!; try done.
  - split; try done. destruct Hok. split; cbn; auto.
  - cbn. rewrite u32_small; lia.
  - cbn. rewrite u32_small; lia.
Qed.

(** The tail token commits. *)
Lemma tail_turn_tok x b D rest size :
  running x b D [] -> _syncState (sy x) = 1 -> 20 <= size < 4294967296 -> 0 <= pid < 4294967296 ->
  exists w' s', backupData (mid b) id = Some (w', 1) /\ length (syncReqBuf s') = 80%nat /\
    sync_turn x (tok SYNC_REQ_TAIL (u32 (syncReqFrame (sy x) + 1)) pid 0 0 ++ rest, size) =
      Some (Leave (Srv (_syncInit s') (_sendPacktRsp (pkt x) 1) w')).
Proof using Hw0 Hp.
  intros [Hok Hbusy Hid Hfr Hnv [Hwb HD Hd] Hus] Hst Hs Hpid.
  pose proof (u32_range (syncReqFrame (sy x) + 1)) as Hfr'.
  unfold sync_turn. rewrite Hst. change (1 =? 0) with false. change (1 =? 1) with true. cbn iota.
  unfold _syncGetBody. rewrite getToken_tok by done. cbn [mbind option_bind negb].
  set (T := tok _ _ _ _ _). set (s1 := set_reqBuf _ 0 (sy x)).
  assert (tk_type s1 = SYNC_REQ_TAIL) as -> by (apply (tok_field _ _ _ _ _ _ 0); [done|done]).
  assert (tk_reqIdx s1 = u32 (syncReqFrame (sy x) + 1)) as -> by (by apply (tok_field _ _ _ _ _ _ 1)).
  change (SYNC_REQ_BODY =? SYNC_REQ_TAIL) with false. change (SYNC_REQ_TAIL =? SYNC_REQ_TAIL) with true.
  cbn iota. change (syncReqFrame s1) with (syncReqFrame (sy x)). rewrite Z.eqb_refl. cbn [negb mbind option_bind].
  set (s2 := set_frame _ s1). unfold _syncReset. change (_id s2) with (_id (sy x)). rewrite Hid, Hnv.
  cbn [mbind option_bind].
  assert (exists w', backupData (mid b) id = Some (w', 1)) as (w' & Hbk).
  { unfold backupData. rewrite (backup_locked_eq _ _ _ (mid_lookup b) (mid_wf b Hwb)). cbn [mbind option_bind].
    destruct (is_cali_mode _).
    - edestruct saveToDisk_wf as (w' & -> & _); [|cbn [mbind option_bind]; eauto].
      apply wf_put_part; [by apply wf_put_part, mid_wf|]. by apply backup_part_wf, mid_wf.
    - cbn [mbind option_bind]. eauto. }
  exists w', s2. split; [done|]. split; [|by rewrite Hbk].
  change (length (T ++ drop 20 (syncReqBuf (sy x))) = 80%nat). rewrite length_app, length_drop, (so_buf _ Hok). done.
Qed.

Definition same_hdr (q q' : packet) : Prop :=
  packeBuf q' = packeBuf q /\ _idxGrp q' = _idxGrp q /\ _idxSub q' = _idxSub q.

Definition committed_to (q : packet) (x : srv) (F : list Z) : Prop :=
  exists b w' s' q', buf_ok b F /\ backupData (mid b) id = Some (w', 1) /\
    length (syncReqBuf s') = 80%nat /\ same_hdr q q' /\
    x = Srv (_syncInit s') (_sendPacktRsp q' 1) w'.

(** The loop over one packet that holds [c], when [r] is still to come. *)
Definition outcome (x : srv) (c junk : list Z) (fuel : nat) (r : list Z) (M : list bool) (F : list Z) : Prop :=
  exists x', sync_loop fuel x (c ++ junk, Z.of_nat (length c)) = Some (Some x') /\
    ((r <> [] /\ same_hdr (pkt x) (pkt x') /\ at_pos x' r (drop (length c) M) F) \/
     (r = [] /\ committed_to (pkt x) x' F)).

Lemma loop_go fuel x x' c c' size : 
  size <> 0 -> sync_turn x (c, size) = Some (Go x' c') ->
  sync_loop (S fuel) x (c, size) = sync_loop fuel x' c'.
Proof using. intros Hs Ht. cbn [sync_loop snd]. destruct (Z.eqb_spec size 0); [done|]. by rewrite Ht. Qed.

Lemma loop_leave fuel x x' c size : 
  size <> 0 -> sync_turn x (c, size) = Some (Leave x') -> sync_loop (S fuel) x (c, size) = Some (Some x').
Proof using. intros Hs Ht. cbn [sync_loop snd]. destruct (Z.eqb_spec size 0); [done|]. by rewrite Ht. Qed.

Lemma loop_nil fuel x junk : sync_loop fuel x ([] ++ junk, Z.of_nat (length (@nil Z))) = Some (Some x).
Proof using. by destruct fuel. Qed.

Lemma enc_rest_nonnil idx us : enc_rest idx pid us <> [].
Proof using. by destruct us. Qed.

Lemma mask_cut k us : (0 < k)%nat -> mask_rest us !! k <> Some true -> (20 <= k)%nat.
Proof using.
  intros Hk Hm. destruct (decide (20 <= k)%nat); [done|]. exfalso. apply Hm.
  assert (tok_mask !! k = Some true) as Ht.
  { destruct k; [lia|]. cbn [lookup list_lookup tok_mask]. apply lookup_replicate_2. lia. }
  destruct us; cbn [mask_rest]; [done|]. rewrite lookup_app_l; [done|]. cbn. lia.
Qed.

Definition tok_outcome (us : list upd) : Prop :=
  forall x b D c r junk fuel,
    running x b D us -> _syncState (sy x) = 1 -> c ++ r = enc_rest (syncReqFrame (sy x)) pid us ->
    mask_rest us !! length c <> Some true -> (2 * length c + 2 <= fuel)%nat ->
    Z.of_nat (length c) <= 1024 ->
    outcome x c junk fuel r (mask_rest us) (foldl apply_upd D us).

Lemma data_outcome us x b D d c r junk fuel :
  tok_outcome us -> running x b D us -> _syncState (sy x) = 2 -> d <> [] -> bytes d ->
  _len (sy x) = Z.of_nat (length d) -> 0 <= _start (sy x) ->
  _start (sy x) + Z.of_nat (length d) <= Z.of_nat (psize p) -> all_zero (dirty b) = false ->
  c ++ r = d ++ enc_rest (syncReqFrame (sy x)) pid us ->
  (replicate (length d) false ++ mask_rest us) !! length c <> Some true ->
  (2 * length c + 2 <= fuel)%nat -> Z.of_nat (length c) <= 1024 ->
  outcome x c junk fuel r (replicate (length d) false ++ mask_rest us)
    (foldl apply_upd (splice D (Z.to_nat (_start (sy x))) d) us).
Proof using Hw0 Hp.
  intros IH Hr Hst Hne Hb Hlen H0 Hend Hz Hc Hm Hf Hmax.
  assert (0 < length d)%nat by (destruct d; [done|cbn; lia]).
  destruct (decide (c = [])) as [->|Hcne].
  { exists x. rewrite loop_nil. split; [done|]. left. cbn in Hc. subst r. cbn [length]. rewrite drop_0.
    split; [by destruct d|]. split; [done|]. by eapply at_data. }
  assert (0 < length c)%nat by (destruct c; [done|cbn; lia]).
  destruct fuel as [|fuel]; [lia|].
  destruct (decide (length d <= length c)%nat) as [Hdc|Hdc].
  - destruct (app_split _ _ _ _ Hc Hdc) as (c' & -> & Hc'). rewrite length_app in *.
    destruct (data_turn_all x b D d us (c' ++ junk) (Z.of_nat (length d + length c')))
      as (x' & b' & Ht & Hpk & Hfr & Hst' & Hr'); try done; try lia.
    destruct (IH x' b' _ c' r junk fuel Hr' Hst') as (x2 & Hl & Ho); try lia.
    { by rewrite Hfr. } { rewrite lookup_app_r in Hm by (rewrite length_replicate; lia).
      rewrite length_replicate in Hm. by replace (length d + length c' - length d)%nat with (length c') in Hm by lia. }
    exists x2. split.
    + rewrite length_app, <- app_assoc. erewrite loop_go; [|lia|exact Ht].
      rewrite <- Hl. do 2 f_equal. lia.
    + rewrite Hpk in Ho. rewrite length_app.
      rewrite <- drop_drop, drop_app_exact by (by rewrite length_replicate). exact Ho.
  - symmetry in Hc. destruct (app_split _ _ _ _ Hc) as (d2 & -> & Hd2); [lia|]. rewrite length_app in Hdc.
    destruct (data_turn_cut x b D c d2 us junk) as (x' & b' & Ht & Hpk & Hfr & Hst' & Hr' & Hz' & Hl' & Hs');
      try done. { by intros ->; cbn in Hdc; lia. }
    exists x'. split; [apply loop_leave; [lia|exact Ht]|]. left.
    assert (d2 <> []) as Hd2ne by (intros ->; cbn in Hdc; lia).
    split; [subst r; by destruct d2|]. split; [by rewrite Hpk|].
    apply Forall_app in Hb as [Hb1 Hb2]. rewrite length_app in *.
    rewrite replicate_add, <- app_assoc, drop_app_exact by (by rewrite length_replicate).
    rewrite <- Hd2, <- Hfr.
    replace (splice D (Z.to_nat (_start (sy x))) (c ++ d2))
      with (splice (splice D (Z.to_nat (_start (sy x))) c) (Z.to_nat (_start (sy x'))) d2).
    + eapply at_data; eauto. { rewrite Hs'. lia. } rewrite Hs'. lia.
    + rewrite Hs', Z2Nat.inj_add, Nat2Z.id by lia. apply splice_splice.
      destruct Hr as [_ _ _ _ _ [Hwb HD _] _]. rewrite <- HD, nvdata_length by done. lia.
Qed.

Lemma tok_outcome_all us : 0 <= pid < 4294967296 -> tok_outcome us.
Proof using Hw0 Hp Hfit.
  intros Hpid. induction us as [|u us IH]; intros x b D c r junk fuel Hr Hst Hc Hm Hf Hmax.
  all: destruct (decide (c = [])) as [->|Hcne];
    [exists x; rewrite loop_nil; split; [done|]; left; cbn [app] in Hc; subst r; cbn [length]; rewrite drop_0;
     split; [apply enc_rest_nonnil|]; split; [done|]; by eapply at_tok|].
  all: assert (0 < length c)%nat by (destruct c; [done|cbn; lia]).
  all: pose proof (mask_cut _ _ H Hm) as H20; destruct fuel as [|fuel]; [lia|].
  - cbn [enc_rest] in Hc. rewrite <- (app_nil_r (tok _ _ _ _ _)) in Hc.
    destruct (app_split _ _ _ _ Hc H20) as (c' & -> & [-> ->]%app_eq_nil).
    rewrite app_nil_r in *.
    destruct (tail_turn_tok x b D junk 20 Hr Hst) as (w' & s' & Hbk & Hs' & Ht); [lia|done|].
    eexists. split; [apply loop_leave; [done|exact Ht]|]. right. split; [done|].
    destruct Hr. exists b, w', s', (pkt x). done.
  - cbn [enc_rest] in Hc. destruct (app_split _ _ _ _ Hc H20) as (c' & -> & Hc').
    rewrite length_app, tok_length in *.
    destruct (body_turn_tok x b D u us (c' ++ junk) (Z.of_nat (20 + length c')) Hr Hst)
      as (x' & b' & Ht & Hpk & Hr' & Hst' & Hz' & Hfr' & Hs' & Hl'); [lia|done|].
    pose proof (ru_us _ _ _ _ Hr) as Hus. apply Forall_cons in Hus as [Hu Hus].
    pose proof (psize_fits u Hu) as Hps. destruct Hu as [U1 U2 U3 U4 U5].
    destruct (data_outcome us x' b' D (u_data u) c' r junk fuel IH Hr' Hst') as (x2 & Hl & Ho); try done; try lia.
    { intros Hd. rewrite Hd in U2. cbn in U2. lia. }
    { by rewrite Hfr'. }
    exists x2. split.
    + rewrite length_app, tok_length, <- app_assoc. erewrite loop_go; [|lia|exact Ht]. rewrite <- Hl. do 2 f_equal. lia.
    + rewrite Hpk in Ho. rewrite length_app, tok_length. cbn [mask_rest foldl].
      rewrite <- drop_drop, drop_app_exact by done. rewrite Hs' in Ho. exact Ho.
Qed.

Lemma at_pos_outcome x st M F c r junk :
  0 <= pid < 4294967296 -> at_pos x st M F -> c ++ r = st -> M !! length c <> Some true ->
  Z.of_nat (length c) <= 1024 -> outcome x c junk (sync_fuel (c ++ junk, Z.of_nat (length c))) r M F.
Proof using Hw0 Hp Hfit.
  intros Hpid Hat Hc Hm Hmax.
  assert (2 * length c + 2 <= sync_fuel (c ++ junk, Z.of_nat (length c)))%nat as Hf.
  { unfold sync_fuel. cbn [fst]. rewrite length_app. lia. }
  destruct Hat as [us b D Hr Hst|d us b D Hr Hst Hne Hb Hlen H0 Hend Hz].
  - by eapply tok_outcome_all.
  - eapply data_outcome; eauto. by apply tok_outcome_all.
Qed.

Lemma at_pos_busy x st M F : at_pos x st M F -> _syncBusy (sy x) = true /\ st <> [].
Proof using.
  intros [us b D Hr Hst|d us b D Hr Hst Hne _ _ _ _ _]; destruct Hr; split; auto using enc_rest_nonnil.
  by destruct d.
Qed.

Lemma at_pos_ext x s q st M F :
  at_pos x st M F -> s = sy x -> at_pos (Srv s q (nv x)) st M F.
Proof using.
  intros [us b D Hr Hst|d us b D Hr Hst Hne ? ? ? ? ?] ->; destruct Hr.
  - eapply (at_tok (Srv (sy x) q (nv x))); [|done]. by split.
  - eapply (at_data (Srv (sy x) q (nv x))); eauto. by split.
Qed.

(** The state after the critical section of the commit. *)
Definition locked (b : buf_ctrl) : nvw := put_part (mid b) id (backup_part (set_fromChannel b p)).

Lemma locked_facts b F (p1 := backup_part (set_fromChannel b p)) :
  buf_ok b F ->
  wf_nv (locked b) /\ parts (locked b) = <[id := p1]> (parts w0) /\ nvdata p1 (backup p1) = F /\
  committed (locked b) = <[id := F]> (committed w0).
Proof using Hw0 Hp.
  intros [Hwb HD Hd].
  assert (parts (locked b) = <[id := p1]> (parts w0)) as Hparts
    by (unfold locked, mid; cbn; by rewrite list_insert_insert_eq).
  assert (nvdata p1 (backup p1) = F) as HF by (rewrite <- HD; exact (nvdata_copied p _ _ _ Hwb)).
  split_and!; [|done|done|].
  - apply wf_put_part; [by apply wf_put_part, mid_wf|]. by apply backup_part_wf, mid_wf.
  - unfold committed. by rewrite Hparts, list_fmap_insert, HF.
Qed.

(** If the disk was up to date or marked dirty before, it is after the commit. *)
Lemma locked_covered b F : buf_ok b F -> covered w0 -> covered (locked b).
Proof using Hw0 Hp.
  intros Hb Hcov. destruct (locked_facts b F Hb) as (_ & Hparts & HF & _). destruct Hb as [Hwb HD Hd].
  assert (wf_part p) as Hwp by (by eapply wf_lookup).
  intros i q Hq. destruct (insert_part_cases w0 (locked b) id p _ i q Hp Hparts Hq) as [[-> ->]|[_ Hq0]];
    [|destruct (Hcov i q Hq0) as [?|Hon]; [by left|right; exact Hon]].
  assert (all_zero (dirty (backup (backup_part (set_fromChannel b p)))) =
          all_zero (dirty (backup p)) && all_zero (dirty b)) as Hz.
  { apply all_zero_list_or. by rewrite (wb_dirty _ _ (wp_backup _ Hwp)), (wb_dirty _ _ Hwb). }
  unfold __ifHasDirty. rewrite Hz. destruct Hd as [Hd|Hd]; [|left; rewrite Hd; by rewrite andb_false_r].
  destruct (Hcov id p Hp) as [Hdirty|Hon]; [left|right].
  - unfold __ifHasDirty in Hdirty. apply negb_true_iff in Hdirty. by rewrite Hdirty.
  - intros c Hc. rewrite HF, Hd. by apply Hon.
Qed.

(** The data of the partitions and the disk after the commit. *)
Lemma commit_result b F w' :
  buf_ok b F -> backupData (mid b) id = Some (w', 1) ->
  wf_nv w' /\ committed w' = <[id := F]> (committed w0) /\
  (is_cali_mode w0 = false -> events w' = S (events w0)) /\
  (is_cali_mode w0 = true -> disk_ok w0 -> covered w0 ->
   forall i q, parts w' !! i = Some q -> on_disk w' q).
Proof using Hw0 Hp.
  intros Hb Hbk. unfold backupData in Hbk. destruct (locked_facts b F Hb) as (Hw1 & Hparts & HF & Hcm).
  rewrite (backup_locked_eq _ _ _ (mid_lookup b) (mid_wf b (bo_wf _ _ Hb))) in Hbk.
  cbn [mbind option_bind] in Hbk. fold (locked b) in Hbk.
  change (is_cali_mode (locked b)) with (is_cali_mode w0) in Hbk. destruct (is_cali_mode w0).
  - destruct (saveToDisk (locked b)) as [w2|] eqn:Es; [|done]. cbn [mbind option_bind] in Hbk. simplify_eq.
    destruct (saveToDisk_parts _ _ Es Hw1) as (Hw' & Hc & Hback).
    split_and!; [done|congruence|done|]. intros _ Hdo Hcov.
    destruct (saveToDisk_spec (locked b) Hw1) as (w2 & Hs3 & _ & _ & _ & Hall).
    + by eapply (disk_ok_commit w0 (locked b)).
    + by eapply locked_covered.
    + simplify_eq. intros i q Hq. destruct (Hback i q Hq) as (q0 & Hq0 & _).
      destruct (Hall i q0 Hq0) as (q' & Hq' & _ & _ & Hon). by simplify_eq.
  - cbn [mbind option_bind] in Hbk. simplify_eq. split_and!; auto; done.
Qed.

Lemma mid_start : mid (fromChannel p) = w0.
Proof using Hp.
  unfold mid, put_part. rewrite set_from_self, list_insert_id by done. apply set_parts_self.
Qed.

(** The head token of an idle server opens the transaction. *)
Lemma head_turn_tok x idx us rest size :
  sync_ok (sy x) -> _syncBusy (sy x) = true -> _syncState (sy x) = 0 -> nv x = w0 ->
  in_sync p -> getCtlId w0 pid = Some id -> 0 <= idx < 4294967296 -> 0 <= pid < 4294967296 ->
  Forall (upd_ok p) us -> 20 <= size < 4294967296 ->
  exists x', sync_turn x (tok SYNC_REQ_HEAD idx pid 512 0 ++ rest, size) = Some (Go x' (rest, size - 20)) /\
    pkt x' = pkt x /\ syncReqFrame (sy x') = idx /\ _syncState (sy x') = 1 /\
    running x' (fromChannel p) (nvdata p (backup p)) us.
Proof using Hw0 Hp.
  intros Hok Hbusy Hst Hnv Hsync Hctl Hidx Hpid Hus Hs.
  unfold sync_turn. rewrite Hst. change (0 =? 0) with true. cbn iota.
  unfold _syncGetHead. rewrite getToken_tok by done. cbn [mbind option_bind negb].
  set (T := tok _ _ _ _ _). set (s1 := set_reqBuf _ 0 (sy x)).
  assert (tk_type s1 = SYNC_REQ_HEAD) as -> by (by apply (tok_field _ _ _ _ _ _ 0)).
  assert (tk_reqIdx s1 = idx) as -> by (by apply (tok_field _ _ _ _ _ _ 1)).
  change (SYNC_REQ_HEAD =? SYNC_REQ_HEAD) with true. cbn [negb].
  set (s2 := set_frame idx s1).
  assert (tk_partId s2 = pid) as -> by (by apply (tok_field _ _ _ _ _ _ 2)).
  rewrite Hnv, Hctl. cbn [_id set_id mbind option_bind].
  eexists. split; [done|]. split_and!; try done. split; try done.
  - apply (reqBuf_ok (sy x) T 1); auto. by destruct Hok.
  - cbn [nv]. by rewrite mid_start.
  - assert (wf_part p) as [] by (by eapply wf_lookup). split; [done|exact Hsync|by left].
Qed.

(** The packets of a transaction: consecutive sub-indices of one group. *)
Fixpoint txn_packets (grp sub : Z) (chunks : list (list Z)) : list chan_in :=
  match chunks with
  | [] => []
  | c :: chunks => ReadData (mk_packet grp sub c) :: txn_packets grp (sub + 1) chunks
  end.

Definition hdr_is (grp sub : Z) (q : packet) : Prop :=
  length (packeBuf q) = 1044%nat /\ _idxGrp q = grp /\ _idxSub q = sub.

Lemma committed_to_hdr q q' x F : committed_to q x F -> same_hdr q' q -> committed_to q' x F.
Proof using.
  intros (b & w' & s' & q1 & H1 & H2 & H3 & (H4 & H5 & H6) & H7) (H8 & H9 & H10).
  exists b, w', s', q1. split_and!; auto. unfold same_hdr. split_and!; congruence.
Qed.

(** The packets after the first, when the server waits for [st]. *)
Lemma continue_packets cs x st M F grp sub :
  0 <= pid < 4294967296 -> 0 <= grp < 4294967296 -> 0 <= sub ->
  sub + Z.of_nat (length cs) < 4294967296 ->
  at_pos x st M F -> hdr_is grp sub (pkt x) -> concat cs = st ->
  Forall (fun c => (0 < length c)%nat /\ Z.of_nat (length c) <= 1024) cs ->
  (forall n, M !! length (concat (take n cs)) <> Some true) ->
  exists x' q, syncAnalyzer (txn_packets grp (sub + 1) cs) x = Some x' /\
    length (packeBuf q) = 1044%nat /\ committed_to q x' F.
Proof using Hw0 Hp Hfit.
  intros Hpid Hgrp. revert x st M sub. induction cs as [|c cs IH]; intros x st M sub Hsub Hn Hat Hhdr Hcat Hcs Hm.
  { apply at_pos_busy in Hat as [_ Hne]. by subst st. }
  cbn [concat length] in *. rewrite Forall_cons in Hcs. destruct Hcs as [[Hc0 Hc1] Hcs].
  destruct Hhdr as (Hl & Hg & Hs). destruct (at_pos_busy _ _ _ _ Hat) as [Hbusy _].
  cbn [txn_packets syncAnalyzer]. unfold analyze.
  rewrite (getPacket_continue grp (sub + 1) c); try lia; [|by rewrite Hs, u32_small by lia].
  rewrite Hbusy. cbn [negb]. set (pk := mk_packet grp (sub + 1) c). set (q := Packet pk grp (sub + 1) _).
  assert (set_busy (sy x) = sy x) as -> by (unfold set_busy; rewrite <- Hbusy; by destruct (sy x)).
  pose proof (at_pos_ext x (sy x) q st M F Hat eq_refl) as Hat'.
  destruct (at_pos_outcome (Srv (sy x) q (nv x)) st M F c (concat cs) (replicate (1024 - length c) 0))
    as (x1 & Hl1 & Ho); try done.
  { pose proof (Hm 1%nat) as H1. cbn [take concat] in H1. by rewrite app_nil_r in H1. }
  unfold sync_body. rewrite Hl1. cbn [mbind option_bind].
  assert (hdr_is grp (sub + 1) q) as Hq by (split_and!; [by apply mk_packet_length; lia|done|done]).
  destruct Ho as [(Hne & Hsame & Hat1)|(Hnil & Hcom)].
  - destruct (IH x1 (concat cs) (drop (length c) M) (sub + 1)) as (x' & q' & Hx' & Hq' & Hc'); try done; try lia.
    + destruct Hsame as (S1 & S2 & S3), Hq as (Q1 & Q2 & Q3). unfold hdr_is. cbn [pkt] in *.
      rewrite S1, S2, S3. auto.
    + intros n. rewrite lookup_drop. pose proof (Hm (S n)) as H1. cbn [take concat] in H1.
      by rewrite length_app in H1.
    + eauto.
  - destruct cs as [|c2 cs]; [|by cbn in Hnil; apply Forall_cons in Hcs as [[? _] _]; destruct c2; cbn in *; [lia|]].
    cbn [txn_packets syncAnalyzer]. exists x1, q. split; [done|]. destruct Hq. split; [done|]. exact Hcom.
Qed.

Lemma first_mask us k : (0 < k)%nat -> txn_mask us !! k <> Some true -> (20 <= k)%nat.
Proof using.
  intros Hk Hm. destruct (decide (20 <= k)%nat); [done|]. exfalso. apply Hm. unfold txn_mask.
  rewrite lookup_app_l by (cbn; lia). destruct k; [lia|]. cbn [lookup list_lookup tok_mask].
  apply lookup_replicate_2. lia.
Qed.

(** All the packets of a transaction, from an idle server. *)
Lemma txn_committed x idx us grp c cs :
  sync_inv x -> _syncBusy (sy x) = false -> nv x = w0 -> getCtlId w0 pid = Some id ->
  0 <= idx < 4294967296 -> 0 <= pid < 4294967296 -> 0 <= grp < 4294967296 -> _idxGrp (pkt x) <> grp ->
  Forall (upd_ok p) us -> concat (c :: cs) = enc_txn idx pid us ->
  Forall (fun c => (0 < length c)%nat /\ Z.of_nat (length c) <= 1024) (c :: cs) ->
  Z.of_nat (length cs) < 4294967295 ->
  (forall n, txn_mask us !! length (concat (take n (c :: cs))) <> Some true) ->
  exists x' q, syncAnalyzer (txn_packets grp 0 (c :: cs)) x = Some x' /\
    length (packeBuf q) = 1044%nat /\ committed_to q x' (foldl apply_upd (nvdata p (backup p)) us).
Proof using Hw0 Hp Hfit.
  intros Hi Hidle Hnv Hctl Hidx Hpid Hgrp Hg Hus Hcat Hcs Hn Hm.
  rewrite Forall_cons in Hcs. destruct Hcs as [[Hc0 Hc1] Hcs]. pose proof (si_pkt _ Hi) as [Hl _].
  assert (txn_mask us !! length c <> Some true) as Hm1.
  { pose proof (Hm 1%nat) as H1. cbn [take concat] in H1. by rewrite app_nil_r in H1. }
  pose proof (first_mask us _ Hc0 Hm1) as H20. cbn [concat] in Hcat.
  destruct (app_split _ _ _ _ Hcat H20) as (c' & -> & Hc'). rewrite length_app, tok_length in *.
  cbn [txn_packets syncAnalyzer]. unfold analyze.
  rewrite (getPacket_start grp 0); try (done || rewrite ?length_app, ?tok_length; lia).
  rewrite Hidle. cbn [mbind option_bind]. set (q := Packet _ grp 0 _).
  pose proof (si_idle _ Hi Hidle) as Hst. pose proof (si_nv _ Hi) as [_ Hsy].
  assert (in_sync p) as Hsync.
  { apply (Hsy id p); [by rewrite Hnv|]. unfold active. by rewrite Hst. }
  set (junk := replicate _ 0). rewrite length_app, tok_length.
  destruct (head_turn_tok (Srv (set_busy (sy x)) q (nv x)) idx us (c' ++ junk) (Z.of_nat (20 + length c')))
    as (x1 & Ht & Hpk & Hfr & Hst1 & Hr1); try done; try lia.
  { by destruct (si_ok _ Hi). }
  assert (length (packeBuf q) = 1044%nat) as Hq
    by (apply mk_packet_length; rewrite length_app, tok_length; lia).
  destruct (tok_outcome_all us Hpid x1 _ _ c' (concat cs) junk
              (2 * length (tok SYNC_REQ_HEAD idx pid 512 0 ++ c' ++ junk) + 1)%nat Hr1 Hst1)
    as (x2 & Hl2 & Ho).
  { by rewrite Hfr. } { unfold txn_mask in Hm1. rewrite lookup_app_r in Hm1 by (cbn; lia).
    change (length tok_mask) with 20%nat in Hm1. by replace (20 + length c' - 20)%nat with (length c') in Hm1 by lia. }
  { rewrite !length_app, tok_length. lia. } { lia. }
  assert (sync_body (Srv (set_busy (sy x)) q (nv x)) ((tok SYNC_REQ_HEAD idx pid 512 0 ++ c') ++ junk, Z.of_nat (20 + length c'))
          = Some x2) as ->.
  { unfold sync_body, sync_fuel. rewrite <- app_assoc. cbn [fst]. rewrite Nat.add_succ_r.
    erewrite loop_go; [|lia|exact Ht].
    replace (Z.of_nat (20 + length c') - 20) with (Z.of_nat (length c')) by lia. by rewrite Hl2. }
  cbn [mbind option_bind]. rewrite Hpk in Ho. cbn [pkt] in Ho.
  destruct Ho as [(Hne & (S1 & S2 & S3) & Hat1)|(Hnil & Hcom)].
  - destruct (continue_packets cs x2 (concat cs) (drop (length c') (mask_rest us))
                (foldl apply_upd (nvdata p (backup p)) us) grp 0) as (x' & q' & ?); try done; try lia.
    + unfold hdr_is. rewrite S1, S2, S3. done.
    + intros n. rewrite lookup_drop. pose proof (Hm (S n)) as H1. cbn [take concat] in H1.
      unfold txn_mask in H1. rewrite !length_app, tok_length in H1.
      rewrite lookup_app_r in H1 by (cbn; lia). change (length tok_mask) with 20%nat in H1.
      by replace (20 + length c' + length (concat (take n cs)) - 20)%nat
        with (length c' + length (concat (take n cs)))%nat in H1 by lia.
    + eauto.
  - destruct cs as [|c2 cs]; [|by cbn in Hnil; apply Forall_cons in Hcs as [[? _] _]; destruct c2; cbn in *; [lia|]].
    cbn [txn_packets syncAnalyzer]. exists x2, q. done.
Qed.
End Transaction.

(** ** Properties *)

(** The server between two packets: a read that is processed, or a failed read
    after which the channel is opened again. *)
Inductive srv_step (x : srv) : srv -> Prop :=
| step_read i x' : in_bytes i -> analyze i x = Some (x', false) -> srv_step x x'
| step_reopen i x' : in_bytes i -> analyze i x = Some (x', true) ->
    srv_step x (Srv (_syncInit (sy x')) (_initPacket (pkt x')) (nv x')).

(** The server as [main] starts it: idle, partitions well-formed and in sync. *)
Record srv_start (x : srv) : Prop := SrvStart {
  ss_sync : exists b, length b = 80%nat /\ sy x = Sync 0 false 0 b 0 None 0 0;
  ss_pkt : length (packeBuf (pkt x)) = 1044%nat /\ bytes (packeBuf (pkt x));
  ss_wf : wf_nv (nv x);
  ss_parts : Forall in_sync (parts (nv x));
}.

Lemma srv_start_inv x : srv_start x -> sync_inv x.
Proof.
  intros [(b & Hb & Hs) Hp Hw Hi]. split; rewrite ?Hs; cbn; auto; try done.
  - split; cbn; auto.
  - split; [done|]. intros i p Hip _. by eapply (Forall_lookup_1 in_sync).
Qed.

(** A packet of the step from [x] to [x'] has committed a transaction. *)
Definition step_commits (x x' : srv) : Prop :=
  exists i y c, in_bytes i /\ analyze i x = Some (x', false) /\ packet_start i x = Some (y, c) /\
    committed (nv y) = committed (nv x) /\ commits y c x'.

Lemma srv_step_inv x x' :
  srv_step x x' -> sync_inv x ->
  sync_inv x' /\ (committed (nv x') = committed (nv x) \/ step_commits x x').
Proof.
  intros Hs Hi. destruct Hs as [i x' Hin Ha|i x' Hin Ha].
  - destruct (analyze_inv _ _ _ _ Ha Hin Hi) as (? & [?|(y & c & ? & ? & ?)] & _); split; auto. right. exists i, y, c. auto.
  - destruct (analyze_inv _ _ _ _ Ha Hin Hi) as (Hi' & _ & Hstop). destruct (Hstop eq_refl) as [Hb Hc].
    split; [|by left]. destruct Hi' as [H1 H2 H3 H4 H5 H6]. split; cbn; auto; try done.
    + apply syncInit_ok. by destruct H1.
    + unfold active in *. rewrite (H3 Hb) in H5. exact H5.
Qed.

Lemma srv_run_inv x x' : rtc srv_step x x' -> sync_inv x -> sync_inv x'.
Proof.
  intros Hrun. induction Hrun as [|x y z Hs _ IH]; [done|]. intros Hi. apply IH. by apply (srv_step_inv x).
Qed.

(** C1: transactions are atomic.  Along every run of the server, for every read of
    the channel whose handling is defined in C (not a huge announced size or
    sectors outside the partition, where the code leaves its buffers): every copy
    stays well-formed; outside the partition of the running transaction, and
    everywhere while none is open, the received copy equals the committed one; and
    a step changes the committed data only if one of the turns of its packet reads,
    inside a transaction, a tail token with the next sequence number: then the
    committed data of exactly the partition of that transaction become what was
    received for it, the packet is answered with 1 and the transaction is over.  A
    failed token, a lost connection or a new transaction commits nothing and leaves
    the received copy equal to the committed one. *)
Theorem sync_transactions_atomic x0 x x' :
  srv_start x0 -> rtc srv_step x0 x -> srv_step x x' ->
  wf_nv (nv x) /\
  (forall i p, parts (nv x) !! i = Some p -> Some i <> active (sy x) -> in_sync p) /\
  (_syncBusy (sy x) = false -> active (sy x) = None) /\
  (committed (nv x') = committed (nv x) \/ step_commits x x') /\
  (_syncBusy (sy x') = false -> Forall in_sync (parts (nv x'))).
Proof.
  intros H0 Hrun Hstep. assert (sync_inv x) as Hi by (by eapply srv_run_inv, srv_start_inv).
  destruct (srv_step_inv _ _ Hstep Hi) as [Hi' Hc]. pose proof (si_nv _ Hi) as [Hw Hs].
  split_and!; auto.
  - intros Hb. unfold active. by rewrite (si_idle _ Hi Hb).
  - intros Hb. apply Forall_lookup. intros i p Hp.
    pose proof (si_nv _ Hi') as [_ Hs']. apply (Hs' i p Hp). unfold active. by rewrite (si_idle _ Hi' Hb).
Qed.

Definition demo_srv : srv := Srv (Sync 0 false 0 (replicate 80 0) 0 None 0 0) demo_packet demo_nv.

Lemma demo_srv_start : srv_start demo_srv.
Proof.
  split.
  - exists (replicate 80 0). done.
  - split; [reflexivity|]. apply Forall_replicate. lia.
  - apply demo_nv_wf.
  - repeat constructor.
Qed.

(** A transaction of one update (sector 1 of partition 1), cut in the middle of
    its data. *)
Definition demo_upd : upd := Upd 1 (replicate 512 9).
Definition demo_txn : list Z := enc_txn 7 1 [demo_upd].

Definition demo_done : srv :=
  match analyze (ReadData (mk_packet 5 0 demo_txn)) demo_srv with Some (x, _) => x | None => demo_srv end.

Lemma demo_packet_bytes grp sub k : bytes (mk_packet grp sub (take k demo_txn)).
Proof.
  unfold mk_packet, demo_txn, enc_txn, enc_rest, tok. repeat apply Forall_app_2; try apply st32_bytes;
    try apply Forall_take; repeat apply Forall_app_2; try apply st32_bytes; apply Forall_replicate; lia.
Qed.

(** One packet with the whole transaction: the step of the witness commits. *)
Lemma sync_transactions_atomic_witness :
  committed (nv demo_done) <> committed (nv demo_srv) /\ step_commits demo_srv demo_done /\
  Forall in_sync (parts (nv demo_done)).
Proof.
  destruct (sync_transactions_atomic demo_srv demo_srv demo_done) as (_ & _ & _ & Hc & Hs).
  - apply demo_srv_start.
  - apply rtc_refl.
  - apply (step_read demo_srv (ReadData (mk_packet 5 0 demo_txn))).
    + intros d [= <-]. rewrite <- (firstn_all demo_txn). apply demo_packet_bytes.
    + vm_compute. reflexivity.
  - assert (committed (nv demo_done) <> committed (nv demo_srv)) as Hne by (vm_compute; discriminate).
    split; [exact Hne|]. split; [destruct Hc; [contradiction|assumption]|]. apply Hs. vm_compute. reflexivity.
Defined.

(** C2: a complete transaction is committed. Let an idle server receive a
    transaction for one of its partitions, a partition of at most 1536 sectors (so
    that its dirty table covers it), with updates inside the partition, cut into
    packets of 1 to 1024 bytes none of which ends inside a token, under a group
    number that differs from that of the last group. Then it processes all of them,
    answers the last with 1, is idle again, and the committed data of the partition
    are exactly the old data with the sectors replaced, all other partitions being
    unchanged. Outside calibration mode the saving thread is signalled once. In
    calibration mode, if the image files of all partitions can be written and are
    distinct, and if every partition was marked dirty or already safe on disk, both
    image files of every partition hold the committed data before that answer is
    sent (without this a failed write is not reported). *)
Theorem sync_commit x id p pid idx us grp c cs :
  sync_inv x -> _syncBusy (sy x) = false -> getCtlId (nv x) pid = Some id ->
  parts (nv x) !! id = Some p -> part_fits p ->
  0 <= idx < 4294967296 -> 0 <= pid < 4294967296 -> 0 <= grp < 4294967296 -> _idxGrp (pkt x) <> grp ->
  Forall (upd_ok p) us -> concat (c :: cs) = enc_txn idx pid us ->
  Forall (fun c => (0 < length c)%nat /\ Z.of_nat (length c) <= 1024) (c :: cs) ->
  Z.of_nat (length cs) < 4294967295 ->
  (forall n, txn_mask us !! length (concat (take n (c :: cs))) <> Some true) ->
  exists x' rs r, syncAnalyzer (txn_packets grp 0 (c :: cs)) x = Some x' /\
    _syncBusy (sy x') = false /\ wf_nv (nv x') /\
    rsps (pkt x') = rs ++ [r] /\ rsp_value r = 1 /\
    committed (nv x') = <[id := foldl apply_upd (nvdata p (backup p)) us]> (committed (nv x)) /\
    (is_cali_mode (nv x) = false -> events (nv x') = S (events (nv x))) /\
    (is_cali_mode (nv x) = true -> disk_ok (nv x) -> covered (nv x) ->
     forall i q, parts (nv x') !! i = Some q -> on_disk (nv x') q).
Proof.
  intros Hi Hidle Hctl Hp Hfit Hidx Hpid Hgrp Hg Hus Hcat Hcs Hn Hm.
  pose proof (si_nv _ Hi) as [Hw _].
  destruct (txn_committed (nv x) id p pid Hw Hp Hfit x idx us grp c cs) as (x' & q & Hx' & Hq & Hcom); try done.
  destruct Hcom as (b & w' & s' & q' & Hb & Hbk & Hs' & (S1 & S2 & S3) & ->).
  destruct (commit_result (nv x) id p Hw Hp b _ w' Hb Hbk) as (R1 & R2 & R3 & R4).
  eexists _, (rsps q'), _. split; [exact Hx'|]. split_and!; try done.
  rewrite rsp_value_send; [done|]. rewrite S1, length_take, Hq. lia.
Qed.

Lemma demo_cuts n :
  txn_mask [demo_upd] !! length (concat (take n [take 300 demo_txn; drop 300 demo_txn])) <> Some true.
Proof. destruct n as [|[|n]]; vm_compute; [discriminate|discriminate|]. destruct n; discriminate. Qed.

Lemma sync_commit_witness :
  exists x' rs r, syncAnalyzer (txn_packets 5 0 [take 300 demo_txn; drop 300 demo_txn]) demo_srv = Some x' /\
    _syncBusy (sy x') = false /\ wf_nv (nv x') /\
    rsps (pkt x') = rs ++ [r] /\ rsp_value r = 1 /\
    committed (nv x') = <[0%nat := foldl apply_upd (nvdata demo_part (backup demo_part)) [demo_upd]]> (committed (nv demo_srv)) /\
    (is_cali_mode (nv demo_srv) = false -> events (nv x') = S (events (nv demo_srv))) /\
    (is_cali_mode (nv demo_srv) = true -> disk_ok (nv demo_srv) -> covered (nv demo_srv) ->
     forall i q, parts (nv x') !! i = Some q -> on_disk (nv x') q).
Proof.
  apply (sync_commit demo_srv 0 demo_part 1 7 [demo_upd] 5 (take 300 demo_txn) [drop 300 demo_txn]).
  - apply srv_start_inv, demo_srv_start.
  - reflexivity.
  - reflexivity.
  - reflexivity.
  - unfold part_fits. cbn. lia.
  - lia.
  - lia.
  - lia.
  - discriminate.
  - constructor; [|constructor]. split; try (vm_compute; congruence); try reflexivity.
    apply Forall_replicate. lia.
  - cbn [concat]. rewrite app_nil_r. apply take_drop.
  - repeat constructor; try (vm_compute; congruence); apply Nat.leb_le; vm_compute; reflexivity.
  - cbn. lia.
  - apply demo_cuts.
Defined.

(** C23: the packet loop terminates.  In every reachable state, for every packet
    that is looked at and announces no more bytes than fit in a packet (1024; a
    packet that announces 2^31-20 or more passes the signed test of the size and
    makes the code run past its buffer, the last clause of [getPacket_accepts]), the loop over its
    tokens leaves after at most two turns per announced byte, or its turns reach a
    request that makes the code leave its tables: a body token that announces no
    sector or sectors past the dirty table, or data past the buffer of their
    partition.  It never goes on for ever and is undefined in no other way. *)
Theorem sync_loop_terminates x0 x i y buf size fuel :
  srv_start x0 -> rtc srv_step x0 x -> in_bytes i -> packet_start i x = Some (y, (buf, size)) ->
  size <= 1024 -> (2 * Z.to_nat size + 2 <= fuel)%nat ->
  (exists x', sync_loop fuel y (buf, size) = Some (Some x')) \/
  (sync_loop fuel y (buf, size) = Some None /\ exists x1 c1, goes y (buf, size) x1 c1 /\ out_of_partition x1 c1).
Proof.
  intros H0 Hrun Hin Hs Hsz Hf. assert (sync_inv x) as Hi by (by eapply srv_run_inv, srv_start_inv).
  destruct (packet_start_inv _ _ _ _ Hs Hin Hi) as (Hy & Hbusy & _ & Hb & Hsz' & _). cbn [fst snd] in *.
  pose proof (packet_start_length _ _ _ _ _ Hs Hin Hi) as Hlen.
  apply sync_loop_ends; cbn [fst snd]; auto; try lia.
  unfold sync_measure. cbn [snd]. case_decide; lia.
Qed.

Lemma sync_loop_terminates_witness :
  exists y buf, packet_start (ReadData (mk_packet 5 0 (take 300 demo_txn))) demo_srv = Some (y, (buf, 300)) /\
    ((exists x', sync_loop 602 y (buf, 300) = Some (Some x')) \/
     (sync_loop 602 y (buf, 300) = Some None /\ exists x1 c1, goes y (buf, 300) x1 c1 /\ out_of_partition x1 c1)).
Proof.
  eexists _, _. split; [vm_compute; reflexivity|].
  eapply (sync_loop_terminates demo_srv demo_srv (ReadData (mk_packet 5 0 (take 300 demo_txn)))).
  - apply demo_srv_start.
  - apply rtc_refl.
  - intros d [= <-]. exact (demo_packet_bytes 5 0 300).
  - vm_compute. reflexivity.
  - lia.
  - vm_compute. lia.
Defined.

(** a token cut by the end of a packet is lost.  When a server waiting for a
    token has fewer than 20 bytes left, it answers 1 and keeps none of them:
    its state only differs by the answer, so the rest of the token in the next
    packet is taken for a token of its own. *)
Theorem split_token_lost x buf size :
  sync_ok (sy x) -> _syncState (sy x) <> 2 -> 0 < size < 20 ->
  sync_body x (buf, size) = Some (Srv (sy x) (_sendPacktRsp (pkt x) 1) (nv x)).
Proof.
  intros [Ho Hb Hst] H2 Hs. unfold sync_body, sync_fuel. cbn [fst]. rewrite Nat.add_succ_r.
  assert (__getToken (sy x) (buf, size) = Some (false, sy x, (buf, size))) as Ht.
  { unfold __getToken. rewrite Ho. change (u32 (SYNC_REQ_SIZE - 0)) with 20.
    destruct (Z.ltb_spec size 20); [|lia]. by destruct (Z.eqb_spec size 0); [lia|]. }
  erewrite loop_leave; [done|lia|]. unfold sync_turn.
  destruct Hst as [Hst|[Hst|Hst]]; [| |done]; rewrite Hst.
  - change (0 =? 0) with true. cbn iota. unfold _syncGetHead. by rewrite Ht.
  - change (1 =? 0) with false. change (1 =? 1) with true. cbn iota. unfold _syncGetBody. by rewrite Ht.
Qed.

Lemma split_token_lost_witness :
  sync_body demo_srv (take 19 demo_txn, 19) = Some (Srv (sy demo_srv) (_sendPacktRsp demo_packet 1) demo_nv).
Proof.
  apply (split_token_lost demo_srv (take 19 demo_txn) 19).
  - apply (si_ok demo_srv), srv_start_inv, demo_srv_start.
  - discriminate.
  - lia.
Defined.

(** The body tokens and data of some updates, without a tail. *)
Fixpoint enc_upds (idx pid : Z) (us : list upd) : list Z :=
  match us with
  | [] => []
  | u :: us => let idx := u32 (idx + 1) in
      tok SYNC_REQ_BODY idx pid (u_start u) (u_num u) ++ u_data u ++ enc_upds idx pid us
  end.

Lemma whole_upds_silent w0 id p pid us fuel x b D junk :
  wf_nv w0 -> parts w0 !! id = Some p -> part_fits p -> 0 <= pid < 4294967296 ->
  running w0 id p x b D us -> _syncState (sy x) = 1 ->
  let c := enc_upds (syncReqFrame (sy x)) pid us in
  (2 * length c + 1 <= fuel)%nat -> Z.of_nat (length c) <= 1024 ->
  exists x', sync_loop fuel x (c ++ junk, Z.of_nat (length c)) = Some (Some x') /\ pkt x' = pkt x /\
    _syncBusy (sy x') = true.
Proof.
  intros Hw Hp Hfit Hpid. revert fuel x b D. induction us as [|u us IH]; intros fuel x b D Hr Hst c Hf Hc.
  { exists x. subst c. rewrite loop_nil. by destruct Hr. }
  subst c. cbn [enc_upds] in *. rewrite !length_app, tok_length in *.
  pose proof (ru_us _ _ _ _ _ _ _ Hr) as Hus. apply Forall_cons in Hus as [Hu _].
  pose proof (psize_fits p Hfit u Hu) as Hps. destruct Hu as [U1 U2 U3 U4 U5].
  assert (u_data u <> []) as Hne by (intros E; rewrite E in U2; cbn in U2; lia).
  set (rest := enc_upds _ pid us) in *. destruct fuel as [|[|fuel]]; [lia|lia|].
  destruct (body_turn_tok w0 id p pid Hw Hp Hfit x b D u us (u_data u ++ rest ++ junk)
              (Z.of_nat (20 + (length (u_data u) + length rest))) Hr Hst)
    as (x1 & b1 & Ht1 & Hpk1 & Hr1 & Hst1 & Hz1 & Hfr1 & Hs1 & Hl1); [lia|done|].
  destruct (data_turn_all w0 id p Hw Hp x1 b1 D (u_data u) us (rest ++ junk)
              (Z.of_nat (20 + (length (u_data u) + length rest)) - 20) Hr1 Hst1)
    as (x2 & b2 & Ht2 & Hpk2 & Hfr2 & Hst2 & Hr2); try done; try lia.
  destruct (IH fuel x2 b2 _ Hr2 Hst2) as (x' & Hx' & Hpk & Hbusy);
    [rewrite Hfr2, Hfr1; fold rest; lia|rewrite Hfr2, Hfr1; fold rest; lia|].
  rewrite Hfr2, Hfr1 in Hx'. fold rest in Hx'.
  exists x'. split; [|by rewrite Hpk, Hpk2, Hpk1].
  rewrite <- !app_assoc. erewrite loop_go; [|lia|exact Ht1]. erewrite loop_go; [|lia|exact Ht2].
  rewrite <- Hx'. do 2 f_equal. lia.
Qed.

(** a packet that ends exactly after a token or after the announced data is
    not answered.  An idle server that receives in one packet the head and any
    number of complete updates, but not the tail, stays inside the transaction
    and sends no response at all. *)
Theorem token_boundary_unanswered x id p pid idx us grp :
  sync_inv x -> _syncBusy (sy x) = false -> getCtlId (nv x) pid = Some id ->
  parts (nv x) !! id = Some p -> part_fits p ->
  0 <= idx < 4294967296 -> 0 <= pid < 4294967296 -> 0 <= grp < 4294967296 -> _idxGrp (pkt x) <> grp ->
  Forall (upd_ok p) us ->
  let c := tok SYNC_REQ_HEAD idx pid 512 0 ++ enc_upds idx pid us in
  Z.of_nat (length c) <= 1024 ->
  exists x', analyze (ReadData (mk_packet grp 0 c)) x = Some (x', false) /\
    _syncBusy (sy x') = true /\ rsps (pkt x') = rsps (pkt x).
Proof.
  intros Hi Hidle Hctl Hp Hfit Hidx Hpid Hgrp Hg Hus c Hc. pose proof (si_nv _ Hi) as [Hw Hsy].
  pose proof (si_pkt _ Hi) as [Hl _]. pose proof (si_idle _ Hi Hidle) as Hst.
  assert (in_sync p) as Hsync by (apply (Hsy id p Hp); unfold active; by rewrite Hst).
  unfold analyze. rewrite (getPacket_start grp 0 c) by (done || lia). rewrite Hidle. cbn [mbind option_bind].
  set (q := Packet _ grp 0 _). subst c. rewrite length_app, tok_length in *. set (junk := replicate _ 0).
  destruct (head_turn_tok (nv x) id p pid Hw Hp (Srv (set_busy (sy x)) q (nv x)) idx us (enc_upds idx pid us ++ junk)
              (Z.of_nat (20 + length (enc_upds idx pid us))))
    as (x1 & Ht & Hpk & Hfr & Hst1 & Hr1); try done; try lia.
  { by destruct (si_ok _ Hi). }
  destruct (whole_upds_silent (nv x) id p pid us
              (2 * length (tok SYNC_REQ_HEAD idx pid 512 0 ++ enc_upds idx pid us ++ junk) + 1)%nat x1 _ _ junk Hw Hp Hfit Hpid Hr1 Hst1)
    as (x' & Hx' & Hpk' & Hbusy').
  { rewrite !length_app, tok_length, Hfr. lia. } { rewrite Hfr. lia. } rewrite Hfr in Hx'.
  exists x'. split; [|split; [done|]]; [|by rewrite Hpk', Hpk].
  unfold sync_body, sync_fuel. rewrite <- app_assoc. cbn [fst]. rewrite Nat.add_succ_r.
  erewrite loop_go; [|lia|exact Ht].
  replace (Z.of_nat (20 + length (enc_upds idx pid us)) - 20) with (Z.of_nat (length (enc_upds idx pid us))) by lia.
  by rewrite Hx'.
Qed.

Lemma token_boundary_unanswered_witness :
  exists x', analyze (ReadData (mk_packet 5 0 (tok SYNC_REQ_HEAD 7 1 512 0 ++ enc_upds 7 1 [demo_upd]))) demo_srv
      = Some (x', false) /\
    _syncBusy (sy x') = true /\ rsps (pkt x') = [].
Proof.
  apply (token_boundary_unanswered demo_srv 0 demo_part 1 7 [demo_upd] 5); try reflexivity; try lia; try discriminate.
  - apply srv_start_inv, demo_srv_start.
  - constructor; [|constructor]. split; try (vm_compute; congruence); try reflexivity.
    apply Forall_replicate. lia.
Defined.
