(* ===== verification/NvThreads.v ===== *)
(** * NV server, the two threads (apps/nvitem/nvitem_server.c, nvitem_os.c)

    Outside calibration mode the commit of a transaction only signals the saving
    thread, which copies the committed data under the mutex and writes them out.
    The threads interleave at the granularity of the mutex: the server thread
    alone touches the received copies, the saving thread alone the toDisk copies
    and the disk, and both touch the backup copies, always inside
    [getMutex]/[putMutex] except for the read of [__ifHasDirty].

    [pthread_cond_signal] wakes the saving thread only if it is waiting: the
    condition variable has no predicate. *)

From S2P Require Import Prelude Checksum NvFs NvBuf NvPacket NvSync.

(** Where the saving thread is: in [waiteEvent]; before the test of the next
    partition of the pass; before [__getData]; before the write of toDisk. *)
Inductive saver :=
| SWait
| SCheck (ids : list nat)
| SCopy (id : nat) (ids : list nat)
| SWrite (id : nat) (ids : list nat).

(** [sig] is true between the [putMutex] of [backupData] and its [giveEvent]. *)
Record conc := Conc { cw : nvw; spc : saver; sig : bool }.

Inductive clabel :=
| LMark (id : nat) (start scts : Z)
| LWrite (id : nat) (start len : Z) (buf : list Z)
| LRestore (id : nat)
| LBackup (id : nat)
| LSignal
| LSave.

(** One step of the saving thread ([pSaveTask] and [saveToDisk]); it cannot
    move while it waits. *)
Definition saver_step (c : conc) : option conc :=
  match spc c with
  | SWait => None
  | SCheck [] => Some (Conc (cw c) SWait (sig c))
  | SCheck (id :: ids) =>
      p ← parts (cw c) !! id;
      Some (Conc (cw c) (if __ifHasDirty p then SCopy id ids else SCheck ids) (sig c))
  | SCopy id ids => w ← __getData (cw c) id; Some (Conc w (SWrite id ids) (sig c))
  | SWrite id ids => w ← write_out (cw c) id; Some (Conc w (SCheck ids) (sig c))
  end.

(** [giveEvent]: the saver starts a pass if it waits, else the signal is lost. *)
Definition signal_step (c : conc) : conc :=
  Conc (giveEvent (cw c))
    (match spc c with SWait => SCheck (seq 0 (length (parts (cw c)))) | s => s end) false.

Definition conc_exec (c : conc) (l : clabel) : option conc :=
  match l with
  | LMark id start scts => w ← _markDirtyInfo (cw c) id start scts; Some (Conc w (spc c) (sig c))
  | LWrite id start len buf => w ← writeData (cw c) id start len buf; Some (Conc w (spc c) (sig c))
  | LRestore id => w ← restoreData (cw c) id; Some (Conc w (spc c) (sig c))
  | LBackup id => w ← backup_locked (cw c) id; Some (Conc w (spc c) true)
  | LSignal => Some (signal_step c)
  | LSave => saver_step c
  end.

(** What the server thread may do next: it signals right after a backup, its
    arguments are inside the buffers, and the protocol marks sectors before it
    writes them. *)
Definition label_ok (c : conc) (l : clabel) : Prop :=
  match l with
  | LMark id start scts => sig c = false /\ op_ok (cw c) (OpMark id start scts)
  | LWrite id start len buf =>
      sig c = false /\ op_ok (cw c) (OpWrite id start len buf) /\
      exists p, parts (cw c) !! id = Some p /\ all_zero (dirty (fromChannel p)) = false
  | LRestore id | LBackup id => sig c = false /\ (id < length (parts (cw c)))%nat
  | LSignal => sig c = true
  | LSave => True
  end.

Definition conc_step (c c' : conc) : Prop := exists l, label_ok c l /\ conc_exec c l = Some c'.

(** ** The invariant *)

Definition pass_ids (s : saver) : list nat :=
  match s with SWait => [] | SCheck ids => ids | SCopy id ids | SWrite id ids => id :: ids end.

(** Unsaved received data is marked. *)
Definition from_ok (p : part_ctrl) : Prop := in_sync p \/ all_zero (dirty (fromChannel p)) = false.

(** The clean partitions are on disk, except the one the saver is about to
    write: its toDisk copy holds the committed data. *)
Definition safe (c : conc) (i : nat) (p : part_ctrl) : Prop :=
  match spc c with
  | SWrite j _ => if decide (j = i) then nvdata p (toDisk p) = nvdata p (backup p) else on_disk (cw c) p
  | _ => on_disk (cw c) p
  end.

(** No committed data is forgotten. *)
Definition remembered (c : conc) (i : nat) (p : part_ctrl) : Prop :=
  __ifHasDirty p = true \/ safe c i p.

Record conc_inv (c : conc) : Prop := ConcInv {
  ci_wf : wf_nv (cw c);
  ci_disk : disk_ok (cw c);
  ci_from : forall i p, parts (cw c) !! i = Some p -> from_ok p;
  ci_rem : forall i p, parts (cw c) !! i = Some p -> remembered c i p;
  ci_ids : forall i, i ∈ pass_ids (spc c) -> (i < length (parts (cw c)))%nat;
}.

(** Replacing partition [id] keeps the invariant when the disk is unchanged. *)
Lemma put_part_conc c id p p' s b :
  conc_inv c -> parts (cw c) !! id = Some p -> wf_part p' -> from_ok p' ->
  fdhandle p' = fdhandle p -> sctNum p' = sctNum p ->
  (forall i, i ∈ pass_ids s -> (i < length (parts (cw c)))%nat) ->
  remembered (Conc (put_part (cw c) id p') s b) id p' ->
  (forall i q, i <> id -> safe c i q -> safe (Conc (put_part (cw c) id p') s b) i q) ->
  conc_inv (Conc (put_part (cw c) id p') s b).
Proof.
  intros [H1 H2 H3 H4 H5] Hp Hwp Hf Hh Hn Hs Hr Hfl.
  assert (forall i q, parts (put_part (cw c) id p') !! i = Some q ->
            (i = id /\ q = p') \/ (i <> id /\ parts (cw c) !! i = Some q)) as Hcases.
  { intros i q. by apply (insert_part_cases (cw c) _ id p p'). }
  split; cbn [cw spc].
  - by apply wf_put_part.
  - by eapply (disk_ok_commit (cw c)).
  - intros i q Hq. destruct (Hcases i q Hq) as [[-> ->]|[_ Hq']]; eauto.
  - intros i q Hq. destruct (Hcases i q Hq) as [[-> ->]|[Hne Hq']]; [done|].
    destruct (H4 i q Hq') as [Hd|Hsafe]; [by left|right; auto].
  - intros i Hi. cbn. rewrite length_insert. auto.
Qed.

Lemma conc_eta c : Conc (cw c) (spc c) (sig c) = c.
Proof. by destruct c. Qed.

(** [safe] only depends on the committed data, on toDisk and on the disk. *)
Lemma safe_ext c w b i p p' :
  nvcfg w = nvcfg (cw c) -> disk w = disk (cw c) -> fdhandle p' = fdhandle p -> sctNum p' = sctNum p ->
  toDisk p' = toDisk p -> nvdata p (backup p') = nvdata p (backup p) ->
  safe c i p -> safe (Conc w (spc c) b) i p'.
Proof.
  intros Hc Hd Hh Hn Ht Hb. unfold safe, on_disk, entry. cbn [spc cw].
  rewrite Hc, Hd, Hh, Ht, !(nvdata_size p' p) by done. rewrite Hb. done.
Qed.

Lemma safe_put c id p' b i q : safe c i q -> safe (Conc (put_part (cw c) id p') (spc c) b) i q.
Proof. by apply safe_ext. Qed.

Section Steps.
Context (c : conc) (Hc : conc_inv c).

Lemma mark_conc id start scts w :
  op_ok (cw c) (OpMark id start scts) -> _markDirtyInfo (cw c) id start scts = Some w ->
  conc_inv (Conc w (spc c) (sig c)).
Proof using Hc.
  intros (Hid & H0 & Hs & Hr) Hw. apply lookup_lt_is_Some_2 in Hid as [p Hp].
  pose proof (ci_wf _ Hc) as Hwf. assert (wf_part p) as Hwp by eauto with sprd.
  destruct (markDirty_eq (cw c) id p start scts Hp Hwp H0 Hs Hr) as (t' & E & Hl & Hbits). simplify_eq.
  apply (put_part_conc c id p); auto.
  - apply wf_set_from; [done|]. apply wf_set_dirty; [by destruct Hwp|done].
  - right. apply (dirty_bit_not_clean t' start). rewrite Hbits by lia. apply orb_true_iff. right.
    apply andb_true_iff. lia.
  - by destruct Hc.
  - destruct (ci_rem _ Hc id p Hp) as [Hd|Hs']; [left; exact Hd|right]. by apply (safe_ext c _ _ id p).
Qed.

Lemma write_conc id start len buf w :
  op_ok (cw c) (OpWrite id start len buf) ->
  (exists p, parts (cw c) !! id = Some p /\ all_zero (dirty (fromChannel p)) = false) ->
  writeData (cw c) id start len buf = Some w -> conc_inv (Conc w (spc c) (sig c)).
Proof using Hc.
  intros (p & Hp & Hb & H0 & Hl & Hr) (p' & Hp' & Hz) Hw. simplify_eq.
  pose proof (ci_wf _ Hc) as Hwf. assert (wf_part p) as Hwp by eauto with sprd.
  destruct (decide (len = 0)) as [->|Hne].
  { change (writeData (cw c) id start 0 buf) with (Some (cw c)) in Hw. simplify_eq. by rewrite conc_eta. }
  rewrite (writeData_eq (cw c) id p Hp Hwp) in Hw by lia. simplify_eq.
  apply (put_part_conc c id p); auto.
  - apply wf_set_from; [done|]. destruct Hwp as [[W1 W2 W3 W4] _ _]. split; cbn; auto.
    + rewrite splice_length; rewrite ?length_take; lia.
    + by apply splice_bytes, Forall_take.
  - by right.
  - by destruct Hc.
  - destruct (ci_rem _ Hc id p Hp) as [Hd|Hs']; [left; exact Hd|right]. by apply (safe_ext c _ _ id p).
Qed.

Lemma restore_conc id w :
  restoreData (cw c) id = Some w -> (id < length (parts (cw c)))%nat -> conc_inv (Conc w (spc c) (sig c)).
Proof using Hc.
  intros Hw Hid. apply lookup_lt_is_Some_2 in Hid as [p Hp].
  pose proof (ci_wf _ Hc) as Hwf. assert (wf_part p) as Hwp by eauto with sprd.
  rewrite (restoreData_eq (cw c) id p Hp Hwp) in Hw. simplify_eq.
  apply (put_part_conc c id p); auto.
  - by apply restore_part_wf.
  - left. refine (nvdata_copied p _ _ _ _). by destruct Hwp.
  - by destruct Hc.
  - destruct (ci_rem _ Hc id p Hp) as [Hd|Hs']; [left; exact Hd|right]. by apply (safe_ext c _ _ id p).
Qed.

(** A commit: new data is marked dirty, unchanged data stays remembered. *)
Lemma backup_conc id w :
  backup_locked (cw c) id = Some w -> (id < length (parts (cw c)))%nat -> conc_inv (Conc w (spc c) true).
Proof using Hc.
  intros Hw Hid. apply lookup_lt_is_Some_2 in Hid as [p Hp].
  pose proof (ci_wf _ Hc) as Hwf. assert (wf_part p) as Hwp by eauto with sprd.
  rewrite (backup_locked_eq (cw c) id p Hp Hwp) in Hw. simplify_eq.
  assert (nvdata p (backup (backup_part p)) = nvdata p (fromChannel p)) as Hdata
    by (apply (nvdata_copied p); by destruct Hwp).
  assert (__ifHasDirty (backup_part p) = __ifHasDirty p || negb (all_zero (dirty (fromChannel p)))) as Hdirty.
  { unfold __ifHasDirty, backup_part. cbn. rewrite all_zero_list_or, negb_andb; [done|].
    by rewrite (wb_dirty _ _ (wp_backup _ Hwp)), (wb_dirty _ _ (wp_from _ Hwp)). }
  apply (put_part_conc c id p); auto.
  - by apply backup_part_wf.
  - left. symmetry. exact Hdata.
  - by destruct Hc.
  - unfold remembered. rewrite Hdirty.
    destruct (ci_from _ Hc id p Hp) as [Hs|Hz]; [|left; rewrite Hz; apply orb_true_r].
    destruct (ci_rem _ Hc id p Hp) as [Hd|Hsafe]; [left; by rewrite Hd|right].
    apply (safe_ext c _ _ id p); try done. by rewrite Hdata, Hs.
Qed.

Lemma getData_conc id ids w :
  spc c = SCopy id ids -> __getData (cw c) id = Some w -> conc_inv (Conc w (SWrite id ids) (sig c)).
Proof using Hc.
  intros Hpc Hw. destruct (lookup_lt_is_Some_2 (parts (cw c)) id) as [p Hp].
  { apply (ci_ids _ Hc). rewrite Hpc. cbn. set_solver. }
  pose proof (ci_wf _ Hc) as Hwf. assert (wf_part p) as Hwp by eauto with sprd.
  rewrite (__getData_eq (cw c) id p Hp Hwp) in Hw. simplify_eq.
  apply (put_part_conc c id p); auto.
  - by apply getData_part_wf.
  - exact (ci_from _ Hc id p Hp).
  - intros i Hi. apply (ci_ids _ Hc). by rewrite Hpc.
  - right. unfold safe. cbn [spc]. rewrite decide_True by done.
    apply (nvdata_copied p). by destruct Hwp.
  - intros i q Hne. unfold safe. cbn [spc]. rewrite Hpc, decide_False by done. done.
Qed.

(** Writing toDisk out: the partition is on disk unless it was committed again
    in the meantime, and then it is dirty. *)
Lemma write_out_conc id ids w :
  spc c = SWrite id ids -> write_out (cw c) id = Some w -> conc_inv (Conc w (SCheck ids) (sig c)).
Proof using Hc.
  intros Hpc Hw. destruct (lookup_lt_is_Some_2 (parts (cw c)) id) as [p Hp].
  { apply (ci_ids _ Hc). rewrite Hpc. cbn. set_solver. }
  pose proof (ci_wf _ Hc) as Hwf. assert (wf_part p) as Hwp by eauto with sprd.
  pose proof (ci_disk _ Hc) as Hdo. destruct (do_fits _ Hdo id p Hp) as (e & He & Hpq & Hf1 & Hf2).
  rewrite (write_out_eq (cw c) id p Hp Hwp) in Hw.
  rewrite <- (nvdata_length p (toDisk p)) in Hf1, Hf2 by (by destruct Hwp).
  rewrite (ramDisk_Write_fits _ _ _ He) in Hw by done. simplify_eq.
  set (f' := Fs _ _ _ _). set (w' := put_part _ id _).
  assert (parts w' = <[id := written_part p]> (parts (cw c))) as Hparts by done.
  assert (forall i q, parts w' !! i = Some q ->
            (i = id /\ q = written_part p) \/ (i <> id /\ parts (cw c) !! i = Some q)) as Hcases
    by (intros i q; by apply (insert_part_cases (cw c) w' id p)).
  assert (same_part p (written_part p)) as Hsp by done.
  assert (same_env (cw c) w') as Henv by (split; cbn; try done; apply length_insert).
  split; cbn [cw spc].
  - apply wf_put_part; [done|]. apply wf_set_toDisk; [done|]. apply wf_set_dirty; [by destruct Hwp|done].
  - by apply (disk_ok_step (cw c) w' id p (written_part p)).
  - intros i q Hq. destruct (Hcases i q Hq) as [[-> ->]|[_ Hq']]; [exact (ci_from _ Hc id p Hp)|by apply (ci_from _ Hc i)].
  - intros i q Hq. destruct (Hcases i q Hq) as [[-> ->]|[Hne Hq']].
    + destruct (ci_rem _ Hc id p Hp) as [Hd|Hs]; [left; exact Hd|right]. unfold safe in *. rewrite Hpc in Hs.
      cbn [spc cw]. rewrite decide_True in Hs by done. intros e' He'.
      change (entry (cw c) p e') in He'. assert (e' = e) as -> by (unfold entry in *; congruence).
      change (nvdata (written_part p) (backup (written_part p))) with (nvdata p (backup p)). rewrite <- Hs.
      cbn [disk w' put_part set_parts set_disk f' files].
      rewrite lookup_insert_eq, lookup_insert_ne by done. by rewrite lookup_insert_eq.
    + destruct (ci_rem _ Hc i q Hq') as [Hd|Hs]; [left; exact Hd|right]. unfold safe in *. rewrite Hpc in Hs.
      cbn [spc cw]. rewrite decide_False in Hs by done. intros d Hd'. destruct (Hs d Hd') as [S1 S2].
      destruct (do_sep _ Hdo id i p q e d) as (? & ? & ? & ?); try done.
      cbn [disk w' put_part set_parts set_disk f' files]. by rewrite !lookup_insert_ne by done.
  - intros i Hi. cbn. rewrite length_insert. apply (ci_ids _ Hc). rewrite Hpc. cbn. set_solver.
Qed.

Lemma saver_conc c' : saver_step c = Some c' -> conc_inv c'.
Proof using Hc.
  unfold saver_step. intros H. destruct (spc c) as [|[|id ids]|id ids|id ids] eqn:Hpc; [done|..].
  - simplify_eq. destruct Hc as [H1 H2 H3 H4 H5]. split; auto; [|by intros i Hi%elem_of_nil].
    intros i p Hp. destruct (H4 i p Hp) as [?|Hs]; [by left|right]. unfold safe in *. by rewrite Hpc in Hs.
  - destruct (parts (cw c) !! id) as [p|] eqn:Hp; [|done]. cbn [mbind option_bind] in H. simplify_eq.
    destruct Hc as [H1 H2 H3 H4 H5]. rewrite Hpc in H5. split; auto.
    + intros i q Hq. destruct (H4 i q Hq) as [?|Hs]; [by left|right]. unfold safe in *. rewrite Hpc in Hs.
      by destruct (__ifHasDirty p).
    + intros i Hi. apply H5. cbn [spc] in Hi. destruct (__ifHasDirty p); cbn in *; set_solver.
  - destruct (__getData _ _) as [w|] eqn:E; [|done]. cbn [mbind option_bind] in H. simplify_eq.
    by eapply getData_conc.
  - destruct (write_out _ _) as [w|] eqn:E; [|done]. cbn [mbind option_bind] in H. simplify_eq.
    by eapply write_out_conc.
Qed.

Lemma signal_conc : conc_inv (signal_step c).
Proof using Hc.
  destruct Hc as [H1 [D1 D2] H3 H4 H5]. split; [exact H1|by split|exact H3|..].
  - intros i p Hp. destruct (H4 i p Hp) as [?|Hs]; [by left|right]. unfold safe in *. cbn [spc signal_step cw].
    by destruct (spc c).
  - intros i Hi. cbn. unfold signal_step in Hi. cbn [spc] in Hi.
    destruct (spc c); cbn [pass_ids] in *; auto. apply elem_of_seq in Hi. lia.
Qed.
End Steps.

Lemma conc_step_inv c c' : conc_step c c' -> conc_inv c -> conc_inv c'.
Proof.
  intros (l & Hok & Hx) Hc. destruct l as [id start scts|id start len buf|id|id| |]; cbn [conc_exec label_ok] in *.
  - destruct Hok as [_ Hok]. destruct (_markDirtyInfo _ _ _ _) as [w|] eqn:E; [|done].
    cbn [mbind option_bind] in Hx. simplify_eq. by eapply mark_conc.
  - destruct Hok as (_ & Hok & Hz). destruct (writeData _ _ _ _ _) as [w|] eqn:E; [|done].
    cbn [mbind option_bind] in Hx. simplify_eq. by eapply write_conc.
  - destruct Hok as [_ Hok]. destruct (restoreData _ _) as [w|] eqn:E; [|done].
    cbn [mbind option_bind] in Hx. simplify_eq. by eapply restore_conc.
  - destruct Hok as [_ Hok]. destruct (backup_locked _ _) as [w|] eqn:E; [|done].
    cbn [mbind option_bind] in Hx. simplify_eq. by eapply backup_conc.
  - simplify_eq. by apply signal_conc.
  - by eapply saver_conc.
Qed.

Lemma conc_run_inv c c' : rtc conc_step c c' -> conc_inv c -> conc_inv c'.
Proof. intros Hrun. induction Hrun as [|x y z Hs _ IH]; [done|]. eauto using conc_step_inv. Qed.

(** ** An undisturbed pass *)

(** The partitions the running pass has still to copy. *)
Definition pending (s : saver) : list nat :=
  match s with SWait => [] | SCheck ids => ids | SCopy id ids => id :: ids | SWrite id ids => ids end.
Definition clean_outside (c : conc) : Prop :=
  forall i p, parts (cw c) !! i = Some p -> i ∉ pending (spc c) -> __ifHasDirty p = false.

Definition saver_left (s : saver) : nat :=
  match s with
  | SWait => 0
  | SCheck ids => 3 * length ids + 1
  | SCopy id ids => 3 * length ids + 3
  | SWrite id ids => 3 * length ids + 2
  end.

Fixpoint saver_run (n : nat) (c : conc) : option conc :=
  match n with O => Some c | S n => c ← saver_step c; saver_run n c end.

Lemma write_out_parts w id w' p :
  wf_nv w -> parts w !! id = Some p -> write_out w id = Some w' ->
  parts w' = <[id := p]> (parts w) \/ parts w' = <[id := written_part p]> (parts w).
Proof.
  intros Hw Hp H. rewrite (write_out_eq w id p Hp) in H by eauto with sprd.
  destruct (ramDisk_Write _ _ _ _) as [f ret]. simplify_eq.
  destruct ret; [by right|left]. cbn. by rewrite list_insert_id.
Qed.

Lemma write_out_total w id p : wf_nv w -> parts w !! id = Some p -> exists w', write_out w id = Some w'.
Proof.
  intros Hw Hp. rewrite (write_out_eq w id p Hp) by eauto with sprd.
  destruct (ramDisk_Write _ _ _ _) as [f ret]. eauto.
Qed.

Lemma insert_same_committed w w' id p q :
  parts w !! id = Some p -> parts w' = <[id := q]> (parts w) -> nvdata q (backup q) = nvdata p (backup p) ->
  committed w' = committed w.
Proof.
  intros Hp Hw' Hd. unfold committed. rewrite Hw', list_fmap_insert, Hd. apply list_insert_id.
  by rewrite list_lookup_fmap, Hp.
Qed.

(** Each step of the saver brings the pass forward. *)
Lemma saver_forward c :
  conc_inv c -> clean_outside c -> spc c <> SWait ->
  exists c', saver_step c = Some c' /\ clean_outside c' /\ committed (cw c') = committed (cw c) /\
    (saver_left (spc c') < saver_left (spc c))%nat.
Proof.
  intros Hc Hcl Hne. pose proof (ci_wf _ Hc) as Hwf. pose proof (ci_ids _ Hc) as Hids.
  unfold saver_step, clean_outside in *. destruct (spc c) as [|[|id ids]|id ids|id ids] eqn:Hpc; [done|..];
    cbn [pass_ids pending] in *.
  - eexists. split; [done|]. cbn. split_and!; auto.
  - destruct (lookup_lt_is_Some_2 (parts (cw c)) id) as [p Hp]; [apply Hids; set_solver|].
    rewrite Hp. cbn [mbind option_bind]. eexists. split; [done|]. cbn [cw spc].
    split_and!; [|done|destruct (__ifHasDirty p); cbn; lia].
    intros i q Hq Hi. destruct (decide (i = id)) as [->|].
    + assert (q = p) as -> by congruence. destruct (__ifHasDirty p); [|done]. cbn in Hi. set_solver.
    + apply (Hcl i q Hq). destruct (__ifHasDirty p); cbn in Hi; set_solver.
  - destruct (lookup_lt_is_Some_2 (parts (cw c)) id) as [p Hp]; [apply Hids; set_solver|].
    rewrite (__getData_eq (cw c) id p Hp) by eauto with sprd. cbn [mbind option_bind].
    eexists. split; [done|]. cbn [cw spc pending]. split_and!; [|by apply (put_part_committed _ _ p)|cbn; lia].
    intros i q Hq Hi.
    destruct (insert_part_cases (cw c) (put_part (cw c) id (getData_part p)) id p (getData_part p) i q Hp eq_refl Hq)
      as [[-> ->]|[Hni Hq']].
    + unfold __ifHasDirty. apply negb_false_iff, (all_zero_replicate RAMNV_DIRTYTABLE_MAXSIZE).
    + apply (Hcl i q Hq'). set_solver.
  - destruct (lookup_lt_is_Some_2 (parts (cw c)) id) as [p Hp]; [apply Hids; set_solver|].
    destruct (write_out_total (cw c) id p Hwf Hp) as [w' E]. rewrite E. cbn [mbind option_bind].
    eexists. split; [done|]. cbn [cw spc pending].
    destruct (write_out_parts _ _ _ _ Hwf Hp E) as [Hps|Hps].
    all: split_and!; [|by eapply insert_same_committed|cbn; lia].
    all: intros i q Hq Hi; destruct (insert_part_cases (cw c) w' id p _ i q Hp Hps Hq) as [[-> ->]|[Hni Hq']]; eauto.
    exact (Hcl id p Hp Hi).
Qed.

Lemma saver_finishes n c :
  (saver_left (spc c) <= n)%nat -> conc_inv c -> clean_outside c ->
  exists k c', (k <= n)%nat /\ saver_run k c = Some c' /\ spc c' = SWait /\
    conc_inv c' /\ clean_outside c' /\ committed (cw c') = committed (cw c).
Proof.
  revert c. induction n as [|n IH]; intros c Hn Hc Hcl.
  - exists 0%nat, c. split_and!; auto. destruct (spc c); cbn in Hn; [done|lia..].
  - destruct (decide (saver_left (spc c) = 0%nat)) as [H0|H0].
    { exists 0%nat, c. split_and!; auto; [lia|]. destruct (spc c); cbn in H0; [done|lia..]. }
    destruct (saver_forward c Hc Hcl) as (c1 & Hs & Hcl1 & Hcm & Hlt); [by intros E; rewrite E in H0|].
    destruct (IH c1) as (k & c' & Hk & Hr & Hw & Hc' & Hcl' & Hcm'); [lia|by eapply saver_conc|done|].
    exists (S k), c'. split_and!; auto; [lia| |congruence]. cbn. by rewrite Hs.
Qed.

(** ** Properties *)

(** The server before the first commit: everything in sync and on disk (or
    marked), the saver waiting. *)
Record conc_start (c : conc) : Prop := ConcStart {
  cs_wf : wf_nv (cw c);
  cs_disk : disk_ok (cw c);
  cs_sync : Forall in_sync (parts (cw c));
  cs_cov : covered (cw c);
  cs_pc : spc c = SWait;
}.

Lemma conc_start_inv c : conc_start c -> conc_inv c.
Proof.
  intros [H1 H2 H3 H4 H5]. split; auto.
  - intros i p Hp. left. by eapply (Forall_lookup_1 in_sync).
  - intros i p Hp. destruct (H4 i p Hp) as [?|?]; [by left|right]. unfold safe. by rewrite H5.
  - rewrite H5. intros i Hi. cbn in Hi. by apply elem_of_nil in Hi.
Qed.

(** C5: no committed data is forgotten. Let the two threads start with the received
    copies equal to the committed ones, every partition marked dirty or safe in both
    its images, and image files that are distinct and can be opened and written in
    full throughout (a failed write is not tried again, [save_not_retried]). Then in
    every interleaving of the two threads outside calibration mode, with requests
    inside the buffers and sectors marked before they are written (what the protocol
    does), each partition is marked dirty, or both its images hold the committed
    data, or the saving thread holds exactly the committed data and is about to
    write it. *)
Theorem committed_data_remembered c0 c i p :
  conc_start c0 -> rtc conc_step c0 c -> parts (cw c) !! i = Some p ->
  __ifHasDirty p = true \/ on_disk (cw c) p \/
  (exists ids, spc c = SWrite i ids) /\ nvdata p (toDisk p) = nvdata p (backup p).
Proof.
  intros H0 Hrun Hp. pose proof (conc_run_inv _ _ Hrun (conc_start_inv _ H0)) as Hc.
  destruct (ci_rem _ Hc i p Hp) as [?|Hs]; [by left|right]. unfold safe in Hs.
  destruct (spc c) as [| |id ids|id ids]; auto. case_decide; subst; eauto.
Qed.

(** C6: an undisturbed pass of the saving thread saves everything. Under the same
    starting conditions (copies in sync, every partition marked dirty or safe, image
    files distinct and writable in full throughout) and requests (inside the
    buffers, marked before written), from every reachable state in which a pass has
    just been started, if the server thread pauses, the saving thread never gets
    stuck, is waiting again after at most three steps per partition and one, and
    then both images of every partition hold its committed data. *)
Theorem saver_pass_durable c0 c :
  conc_start c0 -> rtc conc_step c0 c -> spc c = SCheck (seq 0 (length (parts (cw c)))) ->
  exists k c', (k <= 3 * length (parts (cw c)) + 1)%nat /\ saver_run k c = Some c' /\ spc c' = SWait /\
    committed (cw c') = committed (cw c) /\
    forall i p, parts (cw c') !! i = Some p -> on_disk (cw c') p.
Proof.
  intros H0 Hrun Hpc. pose proof (conc_run_inv _ _ Hrun (conc_start_inv _ H0)) as Hc.
  destruct (saver_finishes (3 * length (parts (cw c)) + 1) c) as (k & c' & Hk & Hr & Hw & Hc' & Hcl & Hcm); auto.
  - rewrite Hpc. cbn. rewrite length_seq. lia.
  - intros i p Hp Hi. exfalso. apply Hi. rewrite Hpc. cbn. apply elem_of_seq. apply lookup_lt_Some in Hp. lia.
  - exists k, c'. split_and!; auto. intros i p Hp.
    destruct (ci_rem _ Hc' i p Hp) as [Hd|Hs].
    + rewrite (Hcl i p Hp) in Hd; [done|]. rewrite Hw. cbn. apply not_elem_of_nil.
    + unfold safe in Hs. by rewrite Hw in Hs.
Qed.

(** a wake-up can be lost.  If a transaction is committed and signalled while
    the saving thread is about to write the last partition of its pass, the
    thread ends the pass and waits for the next signal although the partition is
    dirty: that commit reaches the disk only after a later transaction. *)
Theorem wakeup_lost c0 c id p :
  conc_start c0 -> rtc conc_step c0 c -> spc c = SWrite id [] ->
  parts (cw c) !! id = Some p -> all_zero (dirty (fromChannel p)) = false ->
  exists c1 c2 c3 p3, conc_exec c (LBackup id) = Some c1 /\ conc_exec c1 LSignal = Some c2 /\
    saver_run 2 c2 = Some c3 /\ spc c3 = SWait /\ sig c3 = false /\
    parts (cw c3) !! id = Some p3 /\ __ifHasDirty p3 = true /\
    nvdata p3 (backup p3) = nvdata p (fromChannel p).
Proof.
  intros H0 Hrun Hpc Hp Hz. pose proof (conc_run_inv _ _ Hrun (conc_start_inv _ H0)) as Hc.
  pose proof (ci_wf _ Hc) as Hwf. assert (wf_part p) as Hwp by eauto with sprd.
  set (p1 := backup_part p). set (w2 := giveEvent (put_part (cw c) id p1)).
  assert (wf_part p1) as Hwp1 by (by apply backup_part_wf).
  assert (parts w2 !! id = Some p1) as Hp2 by (apply list_lookup_insert_eq; by eapply lookup_lt_Some).
  assert (wf_nv w2) as Hw2 by (by apply wf_put_part).
  destruct (write_out_total w2 id p1 Hw2 Hp2) as [w3 E3].
  assert (exists p3, parts w3 !! id = Some p3 /\ backup p3 = backup p1 /\ sctNum p3 = sctNum p1) as (p3 & Hp3 & Hb3 & Hn3).
  { destruct (write_out_parts w2 id w3 p1 Hw2 Hp2 E3) as [-> | ->];
      (eexists; split; [apply list_lookup_insert_eq; by eapply lookup_lt_Some|done]). }
  eexists (Conc (put_part (cw c) id p1) (SWrite id []) true), (Conc w2 (SWrite id []) false),
    (Conc w3 SWait false), p3.
  split_and!; try done.
  - cbn [conc_exec]. rewrite (backup_locked_eq (cw c) id p Hp Hwp). cbn. by rewrite Hpc.
  - cbn [saver_run saver_step spc cw]. rewrite E3. done.
  - unfold __ifHasDirty. rewrite Hb3. cbn. rewrite all_zero_list_or, Hz, andb_false_r; [done|].
    by rewrite (wb_dirty _ _ (wp_backup _ Hwp)), (wb_dirty _ _ (wp_from _ Hwp)).
  - rewrite (nvdata_size p3 p1), Hb3 by done. apply (nvdata_copied p). by destruct Hwp.
Qed.

(** A server with one partition of two sectors, saved on disk. *)
Definition demo_conc : conc :=
  Conc (Nvw [demo_part] demo_cfg
          (demo_fs {["fixnv1" := image (replicate 1024 0); "fixnv2" := image (replicate 1024 0)]}) false 0 0)
    SWait false.

Lemma demo_conc_start : conc_start demo_conc.
Proof.
  split.
  - apply demo_nv_wf.
  - apply (demo_disk_ok _ demo_part); reflexivity.
  - repeat constructor.
  - intros [|i] p Hp; [|done]. right. injection Hp as <-. intros c Hc.
    assert (c = Cfg 1 "fixnv1" "fixnv2" 4) as -> by (unfold entry in Hc; vm_compute in Hc; congruence).
    vm_compute. split; reflexivity.
  - reflexivity.
Qed.

(** One commit and its signal, up to the write of the partition. *)
Definition demo_labels : list clabel :=
  [LMark 0 0 1; LWrite 0 0 2 [1; 2]; LBackup 0; LSignal; LSave; LSave].
Definition conc_run (c : conc) (ls : list clabel) : option conc :=
  foldl (fun oc l => c ← oc; conc_exec c l) (Some c) ls.

Lemma step_label c c' l : label_ok c l -> conc_exec c l = Some c' -> conc_step c c'.
Proof. intros. by exists l. Qed.

Definition demo_at (n : nat) : conc := default demo_conc (conc_run demo_conc (take n demo_labels)).

Lemma demo_run k : (k <= 6)%nat -> rtc conc_step demo_conc (demo_at k).
Proof.
  assert (forall n l, demo_labels !! n = Some l -> label_ok (demo_at n) l ->
            conc_exec (demo_at n) l = Some (demo_at (S n)) -> conc_step (demo_at n) (demo_at (S n))) as Hst.
  { intros. by eapply step_label. }
  assert (conc_step (demo_at 0) (demo_at 1)) as S1.
  { apply (Hst 0%nat (LMark 0 0 1)); [done| |vm_compute; reflexivity]. split; [done|]. cbn. lia. }
  assert (conc_step (demo_at 1) (demo_at 2)) as S2.
  { apply (Hst 1%nat (LWrite 0 0 2 [1; 2])); [done| |vm_compute; reflexivity]. split; [done|]. split.
    - eexists. split; [reflexivity|]. split; [repeat constructor; lia|]. vm_compute. repeat split; congruence.
    - eexists. split; [reflexivity|]. vm_compute. reflexivity. }
  assert (conc_step (demo_at 2) (demo_at 3)) as S3.
  { apply (Hst 2%nat (LBackup 0)); [done| |vm_compute; reflexivity]. split; [done|]. apply Nat.ltb_lt. reflexivity. }
  assert (conc_step (demo_at 3) (demo_at 4)) as S4.
  { apply (Hst 3%nat LSignal); [done|reflexivity|vm_compute; reflexivity]. }
  assert (conc_step (demo_at 4) (demo_at 5)) as S5.
  { apply (Hst 4%nat LSave); [done|exact I|vm_compute; reflexivity]. }
  assert (conc_step (demo_at 5) (demo_at 6)) as S6.
  { apply (Hst 5%nat LSave); [done|exact I|vm_compute; reflexivity]. }
  assert (rtc conc_step demo_conc (demo_at 0)) as R0 by apply rtc_refl.
  pose proof (rtc_r _ _ _ R0 S1) as R1. pose proof (rtc_r _ _ _ R1 S2) as R2.
  pose proof (rtc_r _ _ _ R2 S3) as R3. pose proof (rtc_r _ _ _ R3 S4) as R4.
  pose proof (rtc_r _ _ _ R4 S5) as R5. pose proof (rtc_r _ _ _ R5 S6) as R6.
  intros Hk. destruct k as [|[|[|[|[|[|[|k]]]]]]];
    [exact R0|exact R1|exact R2|exact R3|exact R4|exact R5|exact R6|lia].
Qed.

Definition demo_p6 : part_ctrl := default demo_part (parts (cw (demo_at 6)) !! 0%nat).
Lemma demo_p6_lookup : parts (cw (demo_at 6)) !! 0%nat = Some demo_p6.
Proof. vm_compute. reflexivity. Qed.

Lemma committed_data_remembered_witness :
  __ifHasDirty demo_p6 = true \/ on_disk (cw (demo_at 6)) demo_p6 \/
  (exists ids, spc (demo_at 6) = SWrite 0 ids) /\
  nvdata demo_p6 (toDisk demo_p6) = nvdata demo_p6 (backup demo_p6).
Proof.
  apply (committed_data_remembered demo_conc (demo_at 6) 0 demo_p6);
    [apply demo_conc_start|apply demo_run; lia|apply demo_p6_lookup].
Defined.

Lemma saver_pass_durable_witness :
  exists k c', (k <= 3 * length (parts (cw (demo_at 4))) + 1)%nat /\ saver_run k (demo_at 4) = Some c' /\
    spc c' = SWait /\ committed (cw c') = committed (cw (demo_at 4)) /\
    forall i p, parts (cw c') !! i = Some p -> on_disk (cw c') p.
Proof.
  apply (saver_pass_durable demo_conc (demo_at 4)); [apply demo_conc_start|apply demo_run; lia|vm_compute; reflexivity].
Defined.

Lemma wakeup_lost_witness :
  exists c1 c2 c3 p3, conc_exec (demo_at 6) (LBackup 0) = Some c1 /\ conc_exec c1 LSignal = Some c2 /\
    saver_run 2 c2 = Some c3 /\ spc c3 = SWait /\ sig c3 = false /\
    parts (cw c3) !! 0%nat = Some p3 /\ __ifHasDirty p3 = true /\
    nvdata p3 (backup p3) = nvdata demo_p6 (fromChannel demo_p6).
Proof.
  apply (wakeup_lost demo_conc (demo_at 6) 0 demo_p6);
    [apply demo_conc_start|apply demo_run; lia|vm_compute; reflexivity|apply demo_p6_lookup|vm_compute; reflexivity].
Defined.
