(* ===== verification/NvMain.v ===== *)
(** * NV server, start-up ([main] of apps/nvitem/nvitem_server.c and [initArgs] of
    nvitem_fs.c)

    The server takes the modem's name and the calibration flag from its command line,
    builds the names of the system properties it needs, and from their values the
    sizes and paths of the images.  C strings are strings without the terminator; a
    buffer of [n] bytes holds a string of less than [n] characters, a longer one is an
    overrun, and a buffer that was not written is [None]. *)

From Stdlib Require Import Ascii.
From S2P Require Import Prelude Checksum NvFs NvBuf NvPacket NvSync.

(** ** Results *)

(** [Bad]: an overrun or the use of an uninitialised buffer; [Ret0]: the function gives
    up. *)
Inductive res (A : Type) := Bad | Ret0 | Ok (a : A).
Arguments Bad {A}.
Arguments Ret0 {A}.
Arguments Ok {A} a.

#[global] Instance res_ret : MRet res := fun A a => Ok a.
#[global] Instance res_bind : MBind res := fun A B f m =>
  match m with Bad => Bad | Ret0 => Ret0 | Ok a => f a end.

(** ** Strings *)

Definition strlen (s : string) : Z := Z.of_nat (String.length s).

(** [strcpy] and [strcat] into a buffer of [n] bytes. *)
Definition strcpy (n : Z) (s : string) : res string := if strlen s <? n then Ok s else Bad.
Definition strcat (n : Z) (d s : string) : res string := strcpy n (d +:+ s).

(** A buffer that may not have been written. *)
Definition use (b : option string) : res string := match b with Some s => Ok s | None => Bad end.

Definition isspace (c : ascii) : bool :=
  let n := Z.of_N (Ascii.N_of_ascii c) in (n =? 32) || ((9 <=? n) && (n <=? 13)).

Fixpoint skip_space (s : string) : string :=
  match s with String c s' => if isspace c then skip_space s' else s | EmptyString => s end.

(** The value of a digit, 36 for other characters. *)
Definition digit (c : ascii) : Z :=
  let n := Z.of_N (Ascii.N_of_ascii c) in
  if (48 <=? n) && (n <=? 57) then n - 48
  else if (65 <=? n) && (n <=? 90) then n - 55
  else if (97 <=? n) && (n <=? 122) then n - 87 else 36.

Fixpoint digits (base : Z) (s : string) (acc : Z) : Z :=
  match s with
  | String c s => if digit c <? base then digits base s (acc * base + digit c) else acc
  | EmptyString => acc
  end.

(** [strtol] with [long] of 32 bits: blanks, a sign, 0x in base 16, digits; the value is
    clamped. *)
Definition strtol (base : Z) (s : string) : Z :=
  let s := skip_space s in
  let '(sign, s) :=
    match s with
    | String "-" s' => (-1, s')
    | String "+" s' => (1, s')
    | _ => (1, s)
    end in
  let s :=
    match s with
    | String "0" (String c s') =>
        if (base =? 16) && (Ascii.eqb c "x" || Ascii.eqb c "X") then s' else s
    | _ => s
    end in
  Z.max (-2147483648) (Z.min 2147483647 (sign * digits base s 0)).

(** ** initArgs *)

Definition PRODUCT_PARTITION_PATH : string := "ro.product.partitionpath".
Definition PERSIST_MODEM_CHAR : string := "persist.modem.".
Definition RO_MODEM_CHAR : string := "ro.modem.".
Definition RO_MODEM_FIXNVSIZE : string := ".fixnv_size".
Definition RO_MODEM_RUNNVSIZE : string := ".runnv_size".
Definition NV_PATH : string := ".nvp".
Definition NV_TAIL : string := ".nv".

(** Two limits of the property service: bytes of a key and of a value. *)
Definition PROPERTY_KEY_MAX : Z := 32.
Definition PROPERTY_VALUE_MAX : Z := 92.

Section start.
(** The property service: the value of a key, "" if it has none. *)
Context (property_get : string -> string).

(** [property_get(key, value, "")] into a buffer of PROPERTY_VALUE_MAX bytes. *)
Definition get_prop (key : string) : res string := strcpy PROPERTY_VALUE_MAX (property_get key).

(** If the two parts fit [n] bytes, they are joined in the buffer. *)
Definition join (n : Z) (a b : string) : res (option string) :=
  if strlen a + strlen b <? n then s ← strcpy n a; s ← strcat n s b; Ok (Some s) else Ok None.

(** A size property; [old] is the variable's value if the name does not fit. *)
Definition size_prop (ro_prop tail : string) (old : Z) : res Z :=
  property ← join 50 ro_prop tail;
  match property with
  | None => Ok old
  | Some property =>
      v ← get_prop property;
      if strlen v =? 0 then Ret0 else Ok (u32 (strtol 16 v))
  end.

(** A pair of image paths; they are too long, or copied into NV_PATH_MAX_LEN bytes. *)
Definition image_paths (partition_path path_char name1 name2 : string) : res (string * string) :=
  let n := Z.of_nat NV_PATH_MAX_LEN in
  if strlen partition_path + strlen path_char + strlen name1 <? n then
    a ← strcpy n partition_path; a ← strcat n a path_char; a ← strcat n a name1;
    b ← strcpy n partition_path; b ← strcat n b path_char; b ← strcat n b name2;
    Ok (a, b)
  else Ret0.

Definition initArgs (argv1 : string) : res nv_args :=
  if strlen argv1 =? 0 then Ret0
  else
    ro_prop ← join 20 RO_MODEM_CHAR argv1;
    persist_prop ← join 32 PERSIST_MODEM_CHAR argv1;
    ro_prop ← use ro_prop;
    channel_char ← join 50 ro_prop NV_TAIL;
    channel_char ← use channel_char;
    channel_path ← get_prop channel_char;
    if strlen channel_path =? 0 then Ret0
    else
      fixnv_size ← size_prop ro_prop RO_MODEM_FIXNVSIZE 0;
      runnv_size ← size_prop ro_prop RO_MODEM_RUNNVSIZE 0;
      partition_path ← get_prop PRODUCT_PARTITION_PATH;
      persist_prop ← use persist_prop;
      nvp ← join 50 persist_prop NV_PATH;
      path_char ←
        match nvp with
        | None => Ok ""%string
        | Some nvp => v ← get_prop nvp; if strlen v =? 0 then Ret0 else Ok v
        end;
      '(fixnv_ori_path, fixnv_bak_path) ← image_paths partition_path path_char "fixnv1" "fixnv2";
      '(runnv_ori_path, runnv_bak_path) ← image_paths partition_path path_char "runtimenv1" "runtimenv2";
      Ok (NvArgs channel_path fixnv_size runnv_size fixnv_ori_path fixnv_bak_path runnv_ori_path runnv_bak_path).

(** ** main *)

(** The static buffers of the transaction and packet modules. *)
Definition sync_static : sync := Sync 0 false 0 (replicate 80 0) 0 None 0 0.
Definition packet_static : packet := Packet (replicate 1044 0) 0 0 [].

(** [main] up to the first round of its loop: the path of the channel and the state in
    which the loop ([serve]) starts.  [rnds] are the values of [rand] and [slack] the
    uninitialised bytes of the buffers ([initBuf]). *)
Definition nv_main (argv : list string) (f : fs) (rnds : nat -> bool) (slack : list Z) : res (string * srv) :=
  match argv with
  | [_; a1; a2] =>
      if 10 <? strlen a1 then Ret0
      else
        argv1 ← strcpy 10 a1;
        let is_cali_mode := negb (u8 (strtol 10 a2) =? 0) in
        a ← initArgs argv1;
        let w := initBuf a f is_cali_mode rnds slack in
        Ok (channel_path a, Srv (_syncInit sync_static) (_initPacket packet_static) w)
  | _ => Ret0
  end.
End start.

(** ** Lemmas *)

Lemma strlen_nonneg s : 0 <= strlen s.
Proof. unfold strlen. lia. Qed.

Lemma strlen_cat a b : strlen (a +:+ b) = strlen a + strlen b.
Proof.
  unfold strlen. induction a as [|c a IH]; [done|].
  change (String.length (String c a +:+ b)) with (S (String.length (a +:+ b))).
  change (String.length (String c a)) with (S (String.length a)). lia.
Qed.

Lemma strlen_zero s : strlen s = 0 <-> s = ""%string.
Proof. destruct s as [|c s]; [done|]. unfold strlen. cbn. split; [lia|discriminate]. Qed.

Lemma strlen_le s n : strlen s <= Z.of_nat n -> (String.length s <= n)%nat.
Proof. unfold strlen. lia. Qed.

Lemma strcpy_ok n s : strlen s < n -> strcpy n s = Ok s.
Proof. intros H. unfold strcpy. by rewrite (proj2 (Z.ltb_lt _ _) H). Qed.

Lemma join_ok n a b : strlen a + strlen b < n -> join n a b = Ok (Some (a +:+ b)).
Proof.
  intros H. pose proof (strlen_nonneg b). unfold join, strcat. rewrite (proj2 (Z.ltb_lt _ _) H).
  rewrite strcpy_ok by lia. cbn [mbind res_bind]. by rewrite strcpy_ok by (rewrite strlen_cat; lia).
Qed.

Lemma get_prop_ok P k : strlen (P k) < PROPERTY_VALUE_MAX -> get_prop P k = Ok (P k).
Proof. apply strcpy_ok. Qed.

Lemma size_prop_ok P ro tail old : strlen ro + strlen tail < 50 -> strlen (P (ro +:+ tail)) < PROPERTY_VALUE_MAX ->
  size_prop P ro tail old = if strlen (P (ro +:+ tail)) =? 0 then Ret0 else Ok (u32 (strtol 16 (P (ro +:+ tail)))).
Proof.
  intros H Hv. unfold size_prop. rewrite join_ok by done. cbn [mbind res_bind]. by rewrite get_prop_ok.
Qed.

Lemma image_paths_ok part path n1 n2 : strlen n1 = strlen n2 -> strlen part + strlen path + strlen n1 < 100 ->
  image_paths part path n1 n2 = Ok ((part +:+ path) +:+ n1, (part +:+ path) +:+ n2).
Proof.
  intros He H. unfold image_paths. change (Z.of_nat NV_PATH_MAX_LEN) with 100. rewrite (proj2 (Z.ltb_lt _ _) H).
  pose proof (strlen_nonneg path). pose proof (strlen_nonneg n1). unfold strcat.
  rewrite !(strcpy_ok 100 part) by lia. cbn [mbind res_bind].
  rewrite !(strcpy_ok 100 (part +:+ path)) by (rewrite strlen_cat; lia). cbn [mbind res_bind].
  rewrite (strcpy_ok 100 (_ +:+ n1)), (strcpy_ok 100 (_ +:+ n2)) by (rewrite !strlen_cat; lia). done.
Qed.

Lemma image_paths_long part path n1 n2 : 100 <= strlen part + strlen path + strlen n1 -> image_paths part path n1 n2 = Ret0.
Proof. intros H. unfold image_paths. by rewrite (proj2 (Z.ltb_ge _ _)) by (change (Z.of_nat NV_PATH_MAX_LEN) with 100; lia). Qed.

(** ** What initArgs computes *)

(** The arguments of a modem: its five properties, none but the partition path empty, and
    paths that fit. *)
Definition args_of (P : string -> string) (modem : string) : option nv_args :=
  let ro := RO_MODEM_CHAR +:+ modem in
  let channel := P (ro +:+ NV_TAIL) in
  let fix_size := P (ro +:+ RO_MODEM_FIXNVSIZE) in
  let run_size := P (ro +:+ RO_MODEM_RUNNVSIZE) in
  let nvp := P ((PERSIST_MODEM_CHAR +:+ modem) +:+ NV_PATH) in
  let path := P PRODUCT_PARTITION_PATH +:+ nvp in
  if decide (modem = "" \/ channel = "" \/ fix_size = "" \/ run_size = "" \/ nvp = "")%string then None
  else if 100 <=? strlen path + 10 then None
  else Some (NvArgs channel (u32 (strtol 16 fix_size)) (u32 (strtol 16 run_size))
    (path +:+ "fixnv1") (path +:+ "fixnv2") (path +:+ "runtimenv1") (path +:+ "runtimenv2")).

Definition to_res {A} (o : option A) : res A := match o with Some a => Ok a | None => Ret0 end.

Ltac strlens :=
  change (strlen RO_MODEM_CHAR) with 9; change (strlen PERSIST_MODEM_CHAR) with 14; change (strlen NV_TAIL) with 3;
  change (strlen RO_MODEM_FIXNVSIZE) with 11; change (strlen RO_MODEM_RUNNVSIZE) with 11; change (strlen NV_PATH) with 4;
  change (strlen "fixnv1") with 6; change (strlen "runtimenv1") with 10; lia.

Lemma initArgs_eq P m : strlen m < 10 -> (forall k, strlen (P k) < PROPERTY_VALUE_MAX) ->
  initArgs P m = to_res (args_of P m).
Proof.
  intros Hm HP. pose proof (strlen_nonneg m). unfold initArgs, args_of.
  set (ro := RO_MODEM_CHAR +:+ m). set (per := PERSIST_MODEM_CHAR +:+ m).
  assert (Hro : strlen ro = 9 + strlen m) by (apply (strlen_cat RO_MODEM_CHAR)).
  assert (Hper : strlen per = 14 + strlen m) by (apply (strlen_cat PERSIST_MODEM_CHAR)).
  destruct (Z.eqb_spec (strlen m) 0) as [E0|E0].
  { apply strlen_zero in E0. rewrite decide_True by auto. done. }
  rewrite !(join_ok _ _ m) by strlens. fold ro per. cbn [mbind res_bind use].
  rewrite (join_ok 50 ro NV_TAIL) by strlens. cbn [mbind res_bind use]. rewrite (get_prop_ok P (ro +:+ NV_TAIL)) by done. cbn [mbind res_bind].
  destruct (Z.eqb_spec (strlen (P (ro +:+ NV_TAIL))) 0) as [E1|E1].
  { apply strlen_zero in E1. rewrite decide_True by auto. done. }
  rewrite (size_prop_ok P ro RO_MODEM_FIXNVSIZE) by (done || strlens).
  destruct (Z.eqb_spec (strlen (P (ro +:+ RO_MODEM_FIXNVSIZE))) 0) as [E2|E2].
  { apply strlen_zero in E2. rewrite decide_True by auto. done. }
  cbn [mbind res_bind]. rewrite (size_prop_ok P ro RO_MODEM_RUNNVSIZE) by (done || strlens).
  destruct (Z.eqb_spec (strlen (P (ro +:+ RO_MODEM_RUNNVSIZE))) 0) as [E3|E3].
  { apply strlen_zero in E3. rewrite decide_True by auto. done. }
  cbn [mbind res_bind]. rewrite get_prop_ok by done. cbn [mbind res_bind].
  rewrite (join_ok 50 per NV_PATH) by strlens. cbn [mbind res_bind]. rewrite get_prop_ok by done. cbn [mbind res_bind].
  destruct (Z.eqb_spec (strlen (P (per +:+ NV_PATH))) 0) as [E4|E4].
  { apply strlen_zero in E4. rewrite decide_True by auto. done. }
  cbn [mbind res_bind]. rewrite decide_False by (rewrite <- !strlen_zero; tauto).
  rewrite strlen_cat. destruct (Z.leb_spec 100 (strlen (P PRODUCT_PARTITION_PATH) + strlen (P (per +:+ NV_PATH)) + 10)) as [Hl|Hl].
  - rewrite (image_paths_long _ _ "runtimenv1") by strlens.
    destruct (decide (100 <= strlen (P PRODUCT_PARTITION_PATH) + strlen (P (per +:+ NV_PATH)) + 6)).
    + by rewrite image_paths_long by strlens.
    + by rewrite image_paths_ok by (done || strlens).
  - by rewrite !image_paths_ok by (done || strlens).
Qed.

(** ** Sizes as text *)

Definition hexchar (d : Z) : ascii := Ascii.ascii_of_N (Z.to_N (if d <? 10 then d + 48 else d + 87)).

(** The last [n] hexadecimal digits of [z]. *)
Fixpoint hex (n : nat) (z : Z) : string :=
  match n with O => "" | S n => hex n (z / 16) +:+ String (hexchar (z mod 16)) "" end.

Lemma digit_hexchar d : 0 <= d < 16 -> digit (hexchar d) = d.
Proof.
  intros H. assert (Hall : forallb (fun d => digit (hexchar d) =? d) (seqZ 0 16) = true) by (vm_compute; reflexivity).
  rewrite forallb_forall in Hall. apply Z.eqb_eq, Hall, list_elem_of_In, elem_of_seqZ. lia.
Qed.

Lemma digits_app base a b acc : (forall c, c ∈ String.list_ascii_of_string a -> digit c < base) ->
  digits base (a +:+ b) acc = digits base b (digits base a acc).
Proof.
  revert acc. induction a as [|c a IH]; intros acc H; [done|].
  change (String c a +:+ b) with (String c (a +:+ b)). cbn [digits].
  rewrite (proj2 (Z.ltb_lt _ _)) by (apply H; cbn; left). apply IH. intros x Hx. apply H. cbn. by right.
Qed.

Lemma hex_digits n z c : c ∈ String.list_ascii_of_string (hex n z) -> digit c < 16.
Proof.
  revert z. induction n as [|n IH]; intros z; cbn [hex].
  - intros H. by apply elem_of_nil in H.
  - intros H. assert (Hm : digit (hexchar (z mod 16)) < 16) by (rewrite digit_hexchar; zlia).
    assert (forall a b, c ∈ String.list_ascii_of_string (a +:+ b) ->
      c ∈ String.list_ascii_of_string a \/ c ∈ String.list_ascii_of_string b) as Happ.
    { intros a b. induction a as [|x a IHa]; [by right|].
      change (String x a +:+ b) with (String x (a +:+ b)). cbn. rewrite !elem_of_cons. tauto. }
    apply Happ in H as [H|H]; [by eapply IH|]. cbn in H. apply elem_of_cons in H as [->|H]; [done|by apply elem_of_nil in H].
Qed.

Lemma digits_hex n z acc : 0 <= z < 16 ^ Z.of_nat n -> digits 16 (hex n z) acc = acc * 16 ^ Z.of_nat n + z.
Proof.
  revert z acc. induction n as [|n IH]; intros z acc Hz.
  - change (16 ^ Z.of_nat 0) with 1 in *. cbn. lia.
  - cbn [hex]. rewrite Nat2Z.inj_succ, Z.pow_succ_r in * by lia.
    rewrite digits_app by (intros c; apply hex_digits). rewrite IH by (split; [zlia|apply Z.div_lt_upper_bound; lia]).
    cbn [digits]. rewrite digit_hexchar by zlia. rewrite (proj2 (Z.ltb_lt _ _)) by zlia. zlia.
Qed.

(** A size written as 0x and hexadecimal digits is read as it is meant, up to the largest
    [long]; a larger one is cut to it. *)
Lemma strtol_hex n z : 0 <= z < 16 ^ Z.of_nat n -> strtol 16 ("0x" +:+ hex n z) = Z.min 2147483647 z.
Proof.
  intros Hz. unfold strtol. change (skip_space ("0x" +:+ hex n z)) with ("0x" +:+ hex n z)%string.
  change ("0x" +:+ hex n z)%string with (String "0" (String "x" (hex n z))). cbn iota beta zeta.
  change ((16 =? 16) && (Ascii.eqb "x" "x" || Ascii.eqb "x" "X")) with true. cbn iota.
  rewrite digits_hex by done. lia.
Qed.

(** ** Properties *)

(** [initArgs] is safe and does what its properties say.  For every modem name that
    fits its buffer and every content of the property service within its limits, no
    local buffer is overrun or read before it is written; the result is the channel,
    the two sizes and the four paths of that modem, or a refusal exactly if one of
    the needed properties is empty or a path would be too long; and only keys
    within the length limit of the service are asked for. *)
Theorem initArgs_safe P m :
  strlen m < 10 -> (forall k, strlen (P k) < PROPERTY_VALUE_MAX) ->
  initArgs P m = to_res (args_of P m) /\
  forall P', (forall k, strlen k < PROPERTY_KEY_MAX -> P' k = P k) -> args_of P' m = args_of P m.
Proof.
  intros Hm HP. split; [by apply initArgs_eq|]. intros P' HP'. unfold args_of.
  rewrite !HP'; [done|..]; unfold PROPERTY_KEY_MAX; rewrite ?strlen_cat; try strlens. by vm_compute.
Qed.

(** A small property service. *)
Definition demo_props (k : string) : string :=
  if String.eqb k "ro.modem.t.nv" then "/dev/spipe_td1"
  else if String.eqb k "ro.modem.t.fixnv_size" then "0x400"
  else if String.eqb k "ro.modem.t.runnv_size" then "0x200"
  else if String.eqb k "persist.modem.t.nvp" then "/t" else "".

Lemma demo_props_short k : strlen (demo_props k) < PROPERTY_VALUE_MAX.
Proof. unfold demo_props. repeat destruct (String.eqb k _); done. Qed.

Lemma initArgs_safe_witness :
  initArgs demo_props "t" =
    Ok (NvArgs "/dev/spipe_td1" 1024 512 "/tfixnv1" "/tfixnv2" "/truntimenv1" "/truntimenv2").
Proof.
  destruct (initArgs_safe demo_props "t") as [-> _]; [vm_compute; reflexivity|exact demo_props_short|].
  vm_compute. reflexivity.
Defined.

(** The property service of a modem with usable values: the sizes are whole sectors in
    hexadecimal. *)
Record props_ok (P : string -> string) (m : string) (zf zr : Z) : Prop := PropsOk {
  po_modem : 0 < strlen m < 10;
  po_values : forall k, strlen (P k) < PROPERTY_VALUE_MAX;
  po_channel : P ((RO_MODEM_CHAR +:+ m) +:+ NV_TAIL) <> ""%string;
  po_fix : exists n, 0 <= zf < 16 ^ Z.of_nat n /\ P ((RO_MODEM_CHAR +:+ m) +:+ RO_MODEM_FIXNVSIZE) = "0x" +:+ hex n zf;
  po_run : exists n, 0 <= zr < 16 ^ Z.of_nat n /\ P ((RO_MODEM_CHAR +:+ m) +:+ RO_MODEM_RUNNVSIZE) = "0x" +:+ hex n zr;
  po_nvp : P ((PERSIST_MODEM_CHAR +:+ m) +:+ NV_PATH) <> ""%string;
  po_path : strlen (P PRODUCT_PARTITION_PATH) + strlen (P ((PERSIST_MODEM_CHAR +:+ m) +:+ NV_PATH)) < 90;
  po_sizes : zf < 2147483648 /\ zf mod 512 = 0 /\ zr < 2147483648 /\ zr mod 512 = 0;
}.

Lemma args_of_ok P m zf zr (path := P PRODUCT_PARTITION_PATH +:+ P ((PERSIST_MODEM_CHAR +:+ m) +:+ NV_PATH)) :
  props_ok P m zf zr ->
  args_of P m = Some (NvArgs (P ((RO_MODEM_CHAR +:+ m) +:+ NV_TAIL)) zf zr
    (path +:+ "fixnv1") (path +:+ "fixnv2") (path +:+ "runtimenv1") (path +:+ "runtimenv2")).
Proof.
  intros [Hm HP Hc (nf & Hf & Ef) (nr & Hr & Er) Hn Hp (H1 & _ & H2 & _)]. unfold args_of.
  rewrite decide_False; [|rewrite Ef, Er; intros [Em|[?|[?|[?|?]]]]; [apply strlen_zero in Em; lia|done..]].
  rewrite strlen_cat, (proj2 (Z.leb_gt _ _)) by lia. rewrite Ef, Er, !strtol_hex by done.
  rewrite !Z.min_r, !u32_small by lia. done.
Qed.

(** C15: The server comes up.  Started with a modem name and usable properties, and
    whatever the image files hold, [main] reaches its loop with the channel of that
    modem, idle, with the two partitions of the configured sizes well-formed and in
    sync, and every packet it then processes keeps them well-formed. *)
Theorem startup_serves P prog m cali f rnds slack zf zr :
  props_ok P m zf zr -> map_Forall (fun _ c => bytes c) (files f) -> bytes slack ->
  exists x, nv_main P [prog; m; cali] f rnds slack = Ok (P ((RO_MODEM_CHAR +:+ m) +:+ NV_TAIL), x) /\
    srv_start x /\ map partId (parts (nv x)) = [1; 2] /\ map sctNum (parts (nv x)) = [zf / 512; zr / 512] /\
    forall x', rtc srv_step x x' -> sync_inv x'.
Proof.
  intros Hok Hf Hs. pose proof (args_of_ok P m zf zr Hok) as Ha. cbv zeta in Ha.
  destruct Hok as [Hm HP Hc (nf & Hzf & Ef) (nr & Hzr & Er) Hn Hp (H1 & Hd1 & H2 & Hd2)].
  unfold nv_main. rewrite (proj2 (Z.ltb_ge _ _)) by lia. rewrite strcpy_ok by lia. cbn [mbind res_bind].
  rewrite initArgs_eq by (done || lia). rewrite Ha. cbn [to_res mbind res_bind channel_path].
  eexists. split; [done|]. cbn [nv].
  match goal with |- context [initBuf ?a f ?c rnds slack] => destruct (initBuf_wf a f c rnds slack) as (Hw & Hi & Hn' & _ & Hb) end;
    try done; cbn [fixnv_size runnv_size fixnv_ori_path fixnv_bak_path runnv_ori_path runnv_bak_path]; try lia.
  1-4: apply strlen_le; rewrite !strlen_cat; change (strlen "fixnv1") with 6; change (strlen "fixnv2") with 6; change (strlen "runtimenv1") with 10; change (strlen "runtimenv2") with 10; lia.
  match goal with |- srv_start ?x /\ _ => assert (Hx : srv_start x) end.
  { split; cbn [sy pkt nv].
    - by exists (replicate 80 0).
    - split; [done|]. apply Forall_replicate. lia.
    - done.
    - eapply Forall_impl; [exact Hb|]. intros p [E _]. unfold in_sync. by rewrite E. }
  split_and!; [done..|]. intros x' Hrun. by eapply srv_run_inv, srv_start_inv.
Qed.

Lemma startup_serves_witness :
  exists x, nv_main demo_props ["cp_diskserver"; "t"; "0"] (demo_fs ∅) (fun _ => true) [0; 0; 0; 0] = Ok ("/dev/spipe_td1"%string, x) /\
    srv_start x /\ map sctNum (parts (nv x)) = [2; 1].
Proof.
  destruct (startup_serves demo_props "cp_diskserver" "t" "0" (demo_fs ∅) (fun _ => true) [0; 0; 0; 0] 1024 512)
    as (x & Hx & Hs & _ & Hn & _).
  - split; try done.
    + apply demo_props_short.
    + exists 3%nat. split; [lia|]. vm_compute. reflexivity.
    + exists 3%nat. split; [lia|]. vm_compute. reflexivity.
  - apply map_Forall_empty.
  - repeat constructor; lia.
  - exists x. split; [exact Hx|split; [exact Hs|exact Hn]].
Defined.

(** A modem name of ten characters passes the test of [main] and is copied with its
    terminator behind the ten bytes of [argv1]. *)
Theorem main_argv1_overrun P prog m cali f rnds slack : strlen m = 10 -> nv_main P [prog; m; cali] f rnds slack = Bad.
Proof. intros H. unfold nv_main, strcpy. by rewrite H. Qed.
