(* ===== verification/Hdlc.v ===== *)
(** * Boot-loader download protocol (apps/modem_control/packet.c and
    apps/download/packet.c)

    Messages to the modem's boot ROM: a header (type, length), the data and a
    16-bit check, sent over a UART inside an HDLC-like frame or over SPI with a
    different header.  The two services have their own copy of the file; they
    only differ in the command [BSL_CMD_DUMP_MEM] and in the size of one buffer.

    The operating system is explicit: [io] lists the results the next [write]
    and [read] calls will return.  An empty list means that the call has not
    returned ([None]).  [char] is unsigned, as on the ARM targets. *)

From S2P Require Import Prelude Checksum.

(** ** Framing *)

Definition esc (b : Z) : list Z :=
  if b =? 0x7E then [0x7D; 0x5E] else if b =? 0x7D then [0x7D; 0x5D] else [b].

Definition translate_packet (src : list Z) : list Z :=
  0x7E :: concat (map esc src) ++ [0x7E].

(** [untranslate_packet]: [out] is [dest] up to [translated_size], last byte
    first.  The CRC the C code computes on the closing flag is not used. *)
Fixpoint untranslate_loop (src : list Z) (status : Z) (out : list Z) : list Z :=
  match src with
  | [] => rev out
  | b :: src =>
      if status =? 0 then untranslate_loop src (if b =? 0x7E then 1 else 0) out
      else if status =? 1 then
        if negb (b =? 0x7E) then untranslate_loop src 2 (b :: out) else untranslate_loop src 1 out
      else if b =? 0x7E then rev out
      else
        match out with
        | last :: out' =>
            if last =? 0x7D then
              untranslate_loop src 2
                ((if b =? 0x5E then 0x7E else if b =? 0x5D then 0x7D else last) :: out')
            else untranslate_loop src 2 (b :: out)
        | [] => rev out
        end
  end.
Definition untranslate_packet (src : list Z) : list Z := untranslate_loop src 0 [].

(** ** Building packets *)

Definition cpu2be16 (w : Z) : Z := ((w .& 0xFF) .<< 8) .| ((w .>> 8) .& 0xFF).
Definition cpu2be32 (d : Z) : Z :=
  ((d .& 0xFF) .<< 24) .| (((d .>> 8) .& 0xFF) .<< 16) .| (((d .>> 16) .& 0xFF) .<< 8) .| (d .>> 24).

Definition BSL_CMD_CONNECT : Z := 0x0.
Definition BSL_CMD_START_DATA : Z := 0x1.
Definition BSL_CMD_MIDST_DATA : Z := 0x2.
Definition BSL_CMD_END_DATA : Z := 0x3.
Definition BSL_CMD_EXEC_DATA : Z := 0x4.
Definition BSL_CMD_SWITCH_MODE : Z := 0xD.
Definition BSL_CMD_DUMP_MEM : Z := 0xE.
Definition BSL_REP_ACK : Z := 0x80.
Definition BSL_UART_PACKET : Z := 0.

(** A 16-bit store through a cast pointer at [&buffer[off]], and the 32-bit one. *)
Definition store16 (buffer : list Z) (off v : Z) : option (list Z) := mem_write buffer off (st16 v).
Definition store32 (buffer : list Z) (off v : Z) : option (list Z) := mem_write buffer off (st32 v).

(** [head->type] and [head->length], at [&buffer[4]]. *)
Definition put_head (msg data_size : Z) (buffer : list Z) : option (list Z) :=
  buffer ← store16 buffer 4 (cpu2be16 (u16 msg));
  store16 buffer 6 (cpu2be16 (u16 data_size)).

(** The UART branch of the commands with a CRC. *)
Definition uart_crc (msg data_size : Z) (buffer : list Z) : option (list Z * Z) :=
  let length := 4 + data_size in
  buffer ← put_head msg data_size buffer;
  head ← mem_read buffer 4 length;
  buffer ← store16 buffer (length + 4) (cpu2be16 (u16 (crc_16_l_calc head)));
  Some (buffer, length + 2).

(** The two checksums of the SPI header: of the data and of the header. *)
Definition spi_sums (buffer : list Z) (offset data_size : Z) : option (list Z) :=
  d ← mem_read buffer offset data_size;
  buffer ← store16 buffer 4 (boot_checksum d);
  h ← mem_read buffer 0 6;
  store16 buffer 6 (boot_checksum h).

(** The SPI branch of [START_DATA] and [EXEC_DATA] (and [DUMP_MEM]). *)
Definition spi_plain (msg : Z) (buffer : list Z) (offset data_size : Z) : option (list Z * Z) :=
  buffer ← store16 buffer 0 data_size;
  buffer ← store16 buffer 2 (u16 msg);
  buffer ← spi_sums buffer offset data_size;
  Some (buffer, data_size + 8).

(** The SPI branch of [END_DATA] and [SWITCH_MODE]. *)
Definition spi_short (msg : Z) (buffer : list Z) (offset data_size : Z) : option (list Z * Z) :=
  buffer ← store16 buffer 0 4;
  buffer ← store16 buffer 2 (u16 msg);
  buffer ← spi_sums buffer offset data_size;
  buffer ← store32 buffer 8 0;
  Some (buffer, 12).

Definition setup_packet (msg : Z) (buffer : list Z) (offset data_size flag image_size : Z)
    : option (list Z * Z) :=
  let length := 4 + data_size in
  let uart := flag =? BSL_UART_PACKET in
  if msg =? BSL_CMD_CONNECT then
    if uart then
      buffer ← put_head msg data_size buffer;
      buffer ← store16 buffer (length + 4) 0;
      Some (buffer, length + 2)
    else
      buffer ← store16 buffer 0 data_size;
      buffer ← store16 buffer 2 (u16 msg);
      buffer ← store16 buffer 8 0;
      buffer ← spi_sums buffer offset data_size;
      Some (buffer, 12)
  else if msg =? BSL_CMD_START_DATA then
    if uart then uart_crc msg data_size buffer else spi_plain msg buffer offset data_size
  else if msg =? BSL_CMD_MIDST_DATA then
    if uart then uart_crc msg data_size buffer
    else
      buffer ← store16 buffer 0 (if data_size =? 0 then 4 else image_size .& 0xffff);
      buffer ← store16 buffer 2 (u16 msg .| ((image_size .& 0xff0000) .>> 8));
      buffer ← store16 buffer 4 0;
      h ← mem_read buffer 0 6;
      buffer ← store16 buffer 6 (boot_checksum h);
      Some (buffer, data_size + 8)
  else if msg =? BSL_CMD_END_DATA then
    if uart then uart_crc msg data_size buffer else spi_short msg buffer offset data_size
  else if msg =? BSL_CMD_EXEC_DATA then
    if uart then uart_crc msg data_size buffer else spi_plain msg buffer offset data_size
  else if msg =? BSL_CMD_SWITCH_MODE then
    if uart then
      buffer ← put_head msg data_size buffer;
      head ← mem_read buffer 4 length;
      buffer ← store16 buffer (length + 4) (frm_chk head);
      Some (buffer, length + 2)
    else spi_short msg buffer offset data_size
  else Some (buffer, 0).

(** The copy of apps/download, with one more command. *)
Definition dl_setup_packet (msg : Z) (buffer : list Z) (offset data_size flag image_size : Z)
    : option (list Z * Z) :=
  if msg =? BSL_CMD_DUMP_MEM then
    if flag =? BSL_UART_PACKET then uart_crc msg data_size buffer
    else spi_plain msg buffer offset data_size
  else setup_packet msg buffer offset data_size flag image_size.

(** ** Sending and waiting for the answer *)

(** [wr]: results of the next writes; [rd] and [img]: of the next reads of the
    channel and of the image file ([None] an error); [sent]: the bytes accepted
    so far; [send_buffer]: the static buffer of 4000 bytes. *)
Record io := Io {
  wr : list Z;
  rd : list (option (list Z));
  img : list (option (list Z));
  sent : list Z;
  send_buffer : list Z;
}.

(** [write(fd, buf, n)]: at most [n] bytes are accepted. *)
Definition os_write (buf : list Z) (n : Z) (s : io) : option (Z * io) :=
  match wr s with
  | [] => None
  | r :: wr' =>
      let r := Z.min r n in
      d ← (if 0 <? r then mem_read buf 0 r else Some []);
      Some (r, Io wr' (rd s) (img s) (sent s ++ d) (send_buffer s))
  end.

(** [do { retval = write(fd,send_buffer,translated_size); ... } while
    (translated_size > 0)]: the buffer argument is not advanced. *)
Fixpoint write_loop (ws : list Z) (n : Z) (s : io) : option (Z * io) :=
  match ws with
  | [] => None
  | _ :: ws =>
      '(retval, s) ← os_write (send_buffer s) n s;
      let n := if 0 <? retval then n - retval else n in
      if 0 <? n then write_loop ws n s else Some (retval, s)
  end.

(** [translate_packet(send_buffer, src, size)]. *)
Definition fill_send_buffer (d : list Z) (s : io) : option io :=
  b ← mem_write (send_buffer s) 0 d;
  Some (Io (wr s) (rd s) (img s) (sent s) b).

Definition uart_send (pkt : list Z) (s : io) : option (Z * io) :=
  let f := translate_packet pkt in
  s ← fill_send_buffer f s;
  write_loop (wr s) (Z.of_nat (length f)) s.

(** The loop that reads the answer into [raw_buffer]: its contents, [offset] and
    the last [retval]. *)
Fixpoint read_loop (rs : list (option (list Z))) (raw : list Z) (offset size : Z)
    : option (Z * list Z * Z * list (option (list Z))) :=
  match rs with
  | [] => None
  | r :: rs =>
      match r with
      | None => if size =? 0 then Some (-1, raw, offset, rs) else read_loop rs raw offset size
      | Some d =>
          let d := take (Z.to_nat size) d in
          let retval := Z.of_nat (length d) in
          raw ← mem_write raw offset d;
          let '(offset, size) := if 0 <? retval then (offset + retval, size - retval) else (offset, size) in
          if size =? 0 then Some (retval, raw, offset, rs) else read_loop rs raw offset size
      end
  end.

Definition answer_size (flag : Z) : Z := if flag =? 0 then 8 else 6.

(** From [if(retval > 0)] after the write to the end of a [send_*] function:
    0 when the answer's type satisfies [ack], else -1. *)
Definition await (ack : Z -> bool) (flag : Z) (raw : list Z) (retval : Z) (s : io) : option (Z * io) :=
  if retval <=? 0 then Some (-1, s)
  else
    '(retval, raw, offset, rd') ← read_loop (rd s) raw 0 (answer_size flag);
    let s := Io (wr s) rd' (img s) (sent s) (send_buffer s) in
    if retval <=? 0 then Some (-1, s)
    else
      '(data, s) ←
        (if flag =? 0 then
           src ← mem_read raw 0 offset;
           s ← fill_send_buffer (untranslate_packet src) s;
           Some (send_buffer s, s)
         else Some (raw, s));
      let type := u16 (((data !!! 0%nat) .<< 8) .| (data !!! 1%nat)) in
      Some (if ack type then 0 else -1, s).

Definition ack_only (type : Z) : bool := type =? BSL_REP_ACK.
Definition ack_or_zero (type : Z) : bool := (type =? BSL_REP_ACK) || (type =? 0).

(** The common shape of the messages without image data: build in [raw], send,
    wait. *)
Definition send_raw (ack : Z -> bool) (flag : Z) (raw : list Z) (size : Z) (s : io) : option (Z * io) :=
  '(retval, s) ←
    (if flag =? 0 then pkt ← mem_read raw 4 size; uart_send pkt s
     else os_write raw size s);
  await ack flag raw retval s.

Definition raw32 : list Z := replicate 32 0.

Definition send_connect_message (flag : Z) (s : io) : option (Z * io) :=
  '(raw, size) ← setup_packet BSL_CMD_CONNECT raw32 8 0 flag 0;
  send_raw ack_only flag raw size s.

Definition send_start_message (size addr flag : Z) (s : io) : option (Z * io) :=
  raw ← store32 raw32 8 (cpu2be32 addr);
  raw ← store32 raw 12 (cpu2be32 size);
  '(raw, size) ← setup_packet BSL_CMD_START_DATA raw 8 8 flag 0;
  send_raw ack_or_zero flag raw size s.

Definition send_end_message (flag : Z) (s : io) : option (Z * io) :=
  '(raw, size) ← setup_packet BSL_CMD_END_DATA raw32 8 0 flag 0;
  send_raw ack_or_zero flag raw size s.

(** [for(i=1;i<count;i++) { read(image_fd,...); write(fd,...); }] *)
Fixpoint stream_image (count : nat) (buffer : list Z) (data_size retval : Z) (s : io) : option (Z * io) :=
  match count with
  | O => Some (retval, s)
  | S count =>
      match img s with
      | [] => None
      | r :: img' =>
          buffer ← (match r with
                    | None => Some buffer
                    | Some d => mem_write buffer 0 (take (Z.to_nat data_size) d)
                    end);
          let s := Io (wr s) (rd s) img' (sent s) (send_buffer s) in
          '(retval, s) ← os_write buffer data_size s;
          stream_image count buffer data_size retval s
      end
  end.

(** [uart_max] is the size of [uart_buffer]: 300 in modem_control, 1500 in
    download.  A division by a zero [data_size] is undefined. *)
Definition send_data (uart_max : nat) (buffer : list Z) (data_size flag image_size : Z) (s : io)
    : option (Z * io) :=
  '(retval, s) ←
    (if flag =? 0 then
       d ← mem_read buffer 0 data_size;
       uart_buffer ← mem_write (replicate uart_max 0) 8 d;
       '(uart_buffer, size) ← setup_packet BSL_CMD_MIDST_DATA uart_buffer 8 data_size flag 0;
       pkt ← mem_read uart_buffer 4 size;
       uart_send pkt s
     else
       '(buffer, size) ← setup_packet BSL_CMD_MIDST_DATA buffer 8 data_size flag image_size;
       '(retval, s) ← os_write buffer size s;
       if data_size =? 0 then None
       else stream_image (Z.to_nat (Z.quot image_size data_size - 1)) buffer data_size retval s);
  await ack_or_zero flag raw32 retval s.

Definition send_data_message := send_data 300.

Definition send_exec_message (addr flag : Z) (s : io) : option (Z * io) :=
  raw ← store32 raw32 8 (cpu2be32 addr);
  '(raw, size) ← setup_packet BSL_CMD_EXEC_DATA raw 8 4 flag 0;
  send_raw ack_or_zero flag raw size s.

(** The new transfer size is stored in the packet but not sent: the data size
    given to [setup_packet] is 0. *)
Definition uart_send_change_spi_mode_message (max_tran_sz : Z) (s : io) : option (Z * io) :=
  raw ← store32 raw32 8 (cpu2be32 max_tran_sz);
  '(raw, size) ← setup_packet BSL_CMD_SWITCH_MODE raw 8 0 BSL_UART_PACKET 0;
  send_raw ack_only 0 raw size s.

(** The copies of apps/download. *)
Definition dl_translate_packet := translate_packet.
Definition dl_untranslate_packet := untranslate_packet.
Definition dl_send_connect_message := send_connect_message.
Definition dl_send_start_message := send_start_message.
Definition dl_send_end_message := send_end_message.
Definition dl_send_data_message := send_data 1500.
Definition dl_send_exec_message := send_exec_message.

Definition send_dump_mem_message (size addr flag : Z) (s : io) : option (Z * io) :=
  raw ← store32 raw32 8 (cpu2be32 addr);
  raw ← store32 raw 12 (cpu2be32 size);
  '(raw, size) ← dl_setup_packet BSL_CMD_DUMP_MEM raw 8 8 flag 0;
  '(retval, s) ← os_write raw size s;
  Some (-1, s).

(** ** Framing lemmas *)

Definition FLAG : Z := 0x7E.
Definition ESC : Z := 0x7D.

Lemma esc_no_flag b : Forall (fun x => x <> 0x7E) (esc b).
Proof.
  unfold esc. destruct (Z.eqb_spec b 0x7E); [repeat constructor; lia|].
  destruct (Z.eqb_spec b 0x7D); repeat constructor; lia.
Qed.

Lemma escs_no_flag p : Forall (fun x => x <> 0x7E) (concat (map esc p)).
Proof. induction p as [|b p IH]; cbn; [constructor|]. apply Forall_app_2; [apply esc_no_flag|done]. Qed.

Lemma esc_bytes b : 0 <= b < 256 -> bytes (esc b).
Proof. intros. unfold esc. repeat case_match; repeat constructor; lia. Qed.

Lemma escs_length p : (length p <= length (concat (map esc p)) <= 2 * length p)%nat.
Proof.
  induction p as [|b p IH]; cbn; [lia|]. rewrite length_app.
  assert (1 <= length (esc b) <= 2)%nat by (unfold esc; repeat case_match; cbn; lia). lia.
Qed.

(** The standard HDLC rule: an escape is followed by the byte xor 0x20. *)
Fixpoint unescape (l : list Z) : option (list Z) :=
  match l with
  | [] => Some []
  | b :: l =>
      if b =? ESC then match l with [] => None | c :: l => cons (c .^ 0x20) <$> unescape l end
      else cons b <$> unescape l
  end.

Lemma unescape_escs p rest :
  unescape (concat (map esc p) ++ rest) = app p <$> unescape rest.
Proof.
  induction p as [|b p IH]; cbn [map concat app].
  - by destruct (unescape rest).
  - rewrite <- app_assoc. unfold esc at 1. unfold ESC in *.
    destruct (Z.eqb_spec b 0x7E) as [->|]; [cbn; rewrite IH; by destruct (unescape rest)|].
    destruct (Z.eqb_spec b 0x7D) as [->|]; [cbn; rewrite IH; by destruct (unescape rest)|].
    cbn. unfold ESC. destruct (Z.eqb_spec b 0x7D); [done|]. rewrite IH. by destruct (unescape rest).
Qed.

(** What [untranslate_packet] does with an encoded byte. *)
Lemma untr_first b rest :
  untranslate_loop (esc b ++ rest) 1 [] = untranslate_loop rest 2 [b].
Proof.
  unfold esc. destruct (Z.eqb_spec b 0x7E) as [->|]; [done|].
  destruct (Z.eqb_spec b 0x7D) as [->|]; [done|]. cbn.
  destruct (Z.eqb_spec b 0x7E); [done|]. done.
Qed.

Lemma untr_next b l out rest :
  l <> 0x7D -> untranslate_loop (esc b ++ rest) 2 (l :: out) = untranslate_loop rest 2 (b :: l :: out).
Proof.
  intros Hl. assert ((l =? 0x7D) = false) as El by lia. unfold esc.
  destruct (Z.eqb_spec b 0x7E) as [->|]; [cbn; by rewrite El|].
  destruct (Z.eqb_spec b 0x7D) as [->|]; [cbn; by rewrite El|]. cbn.
  destruct (Z.eqb_spec b 0x7E); [done|]. by rewrite El.
Qed.

(** After a decoded 0x7D everything but 0x5E is swallowed. *)
Lemma untr_stuck p out rest :
  Forall (fun x => x <> 0x7E /\ x <> 0x5E) p ->
  untranslate_loop (concat (map esc p) ++ rest) 2 (0x7D :: out) = untranslate_loop rest 2 (0x7D :: out).
Proof.
  intros H. induction H as [|b p [Hb1 Hb2] _ IH]; [done|]. cbn [map concat]. rewrite <- app_assoc.
  rewrite <- IH. unfold esc at 1. destruct (Z.eqb_spec b 0x7E); [done|].
  destruct (Z.eqb_spec b 0x7D) as [->|]; [done|]. cbn.
  destruct (Z.eqb_spec b 0x7E); [done|]. destruct (Z.eqb_spec b 0x5E); [done|].
  by destruct (Z.eqb_spec b 0x5D).
Qed.

Lemma untr_escs p l out rest :
  l <> 0x7D -> Forall (fun x => x <> 0x7D) p ->
  untranslate_loop (concat (map esc p) ++ rest) 2 (l :: out) = untranslate_loop rest 2 (rev p ++ l :: out).
Proof.
  intros Hl H. revert l out Hl. induction H as [|b p Hb _ IH]; intros l out Hl; [done|].
  cbn [map concat]. rewrite <- app_assoc, untr_next, IH by done. cbn. by rewrite <- app_assoc.
Qed.

Lemma untr_skip pre rest :
  Forall (fun x => x <> 0x7E) pre ->
  untranslate_loop (pre ++ 0x7E :: rest) 0 [] = untranslate_loop rest 1 [].
Proof.
  induction 1 as [|b pre Hb _ IH]; [done|]. cbn. destruct (Z.eqb_spec b 0x7E); [done|]. exact IH.
Qed.

Lemma untr_close out rest : untranslate_loop (0x7E :: rest) 2 out = rev out.
Proof. done. Qed.

Lemma exists_last_or {A} (p : list A) : p = [] \/ exists q c, p = q ++ [c].
Proof. destruct p as [|c q _] using rev_ind; eauto. Qed.

(** The bytes of a frame whose payload has no 0x7D before its last byte. *)
Lemma untr_frame pre p post :
  Forall (fun x => x <> 0x7E) pre -> p <> [] -> Forall (fun x => x <> 0x7D) (removelast p) ->
  untranslate_packet (pre ++ translate_packet p ++ post) = p.
Proof.
  intros Hpre Hne Hp. unfold untranslate_packet, translate_packet. cbn [app].
  rewrite untr_skip by done. rewrite <- app_assoc.
  destruct p as [|b p]; [done|]. cbn [map concat]. rewrite <- app_assoc, untr_first.
  destruct (exists_last_or p) as [->|(q & c & ->)].
  { done. }
  rewrite map_app, concat_app, <- app_assoc. cbn [map concat]. rewrite app_nil_r.
  change (b :: q ++ [c]) with ((b :: q) ++ [c]) in Hp. rewrite removelast_last in Hp.
  apply Forall_cons in Hp as [Hb Hq]. rewrite untr_escs by done.
  destruct (rev q ++ [b]) as [|l out] eqn:E; [by destruct (rev q)|].
  assert (l <> 0x7D) as Hl.
  { assert (Forall (fun x => x <> 0x7D) (l :: out)) as H; [|by inversion H].
    rewrite <- E. apply Forall_app_2; [by apply Forall_rev|by repeat constructor]. }
  rewrite untr_next by done. cbn [app]. rewrite untr_close. rewrite <- E. cbn.
  rewrite rev_app_distr, rev_involutive. done.
Qed.

(** ** Packets *)

(** Big-endian fields. *)
Definition be16 (z : Z) : list Z := [u8 (z .>> 8); u8 z].
Definition be32 (z : Z) : list Z := [u8 (z .>> 24); u8 (z .>> 16); u8 (z .>> 8); u8 z].

Lemma st16_cpu2be16 w : st16 (cpu2be16 w) = be16 w.
Proof.
  unfold st16, be16, cpu2be16. f_equal; [|f_equal]; bitwise i Hi.
  - destruct (Z.ltb_spec i 8); cbn [andb]; [|done].
    replace (8 <=? i) with false by lia. cbn.
    change 0xFF with (Z.ones 8). rewrite Z.ones_spec_low by lia. apply andb_true_r.
  - destruct (Z.ltb_spec i 8); cbn [andb]; [|done].
    replace (8 <=? i + 8) with true by lia. cbn. replace (i + 8 - 8) with i by lia.
    change 0xFF with (Z.ones 8). rewrite Z.ones_spec_low by lia. rewrite andb_true_r.
    rewrite (Z.ones_spec_high 8 (i + 8)) by lia. by rewrite andb_false_r, orb_false_r.
Qed.

Lemma be16_bytes z : bytes (be16 z).
Proof. unfold be16. repeat constructor; apply u8_range. Qed.

(** A store at a known place. *)
Lemma store16_ok b off v :
  0 <= off -> off + 2 <= Z.of_nat (length b) -> store16 b off v = Some (splice b (Z.to_nat off) (st16 v)).
Proof. intros. unfold store16. apply mem_write_ok; cbn; lia. Qed.

Lemma splice_at (a x y z : list Z) off :
  off = length a -> length x = length y -> splice (a ++ x ++ z) off y = a ++ y ++ z.
Proof.
  intros -> Hx. unfold splice. rewrite take_app_length. f_equal. f_equal.
  rewrite <- Hx, <- drop_drop, drop_app_length. by apply drop_app_exact.
Qed.

Lemma crc_of_crc l :
  bytes l -> crc_16_l_calc (l ++ be16 (crc_16_l_calc l)) = 0.
Proof.
  intros Hl. pose proof (crc_16_l_calc_range l Hl) as Hr.
  assert (be16 (crc_16_l_calc l) = [crc_16_l_calc l .>> 8; crc_16_l_calc l .& 255]) as ->.
  { unfold be16. rewrite land_ff. f_equal. apply u8_small. rewrite shiftr_div by lia.
    change (2 ^ 8) with 256. zlia. }
  rewrite !(crc_16_l_calc_ref l) by done. rewrite crc_16_l_calc_ref; [apply crc_ccitt_ref_residue|].
  rewrite <- crc_16_l_calc_ref by done. apply Forall_app_2; [done|].
  rewrite land_ff, shiftr_div by lia. change (2 ^ 8) with 256.
  repeat constructor; first [apply u8_range | zlia].
Qed.

(** The head of a packet, in place. *)
Lemma put_head_ok msg ds h4 t4 rest :
  length h4 = 4%nat -> length t4 = 4%nat ->
  put_head msg ds (h4 ++ t4 ++ rest) = Some (h4 ++ (be16 (u16 msg) ++ be16 (u16 ds)) ++ rest).
Proof.
  intros H4 Ht. destruct t4 as [|a [|b [|c [|d [|]]]]]; try discriminate Ht.
  unfold put_head. rewrite store16_ok by (rewrite ?length_app, ?H4; cbn; lia). cbn [mbind option_bind].
  rewrite st16_cpu2be16. change ([a; b; c; d] ++ rest) with ([a; b] ++ [c; d] ++ rest).
  rewrite splice_at by (rewrite ?H4; done).
  rewrite store16_ok by (rewrite ?length_app, ?H4; cbn; lia). rewrite st16_cpu2be16.
  rewrite (app_assoc h4). rewrite splice_at by (rewrite ?length_app, ?H4; done). by rewrite <- !app_assoc.
Qed.

(** The UART packet of a command with a CRC. *)
Lemma uart_crc_ok msg ds h4 t4 d c2 rest :
  length h4 = 4%nat -> length t4 = 4%nat -> Z.of_nat (length d) = ds -> length c2 = 2%nat -> bytes d ->
  let body := be16 (u16 msg) ++ be16 (u16 ds) ++ d in
  uart_crc msg ds (h4 ++ t4 ++ d ++ c2 ++ rest) =
    Some (h4 ++ (body ++ be16 (crc_16_l_calc body)) ++ rest, ds + 6).
Proof.
  intros H4 Ht Hd Hc Hb body. unfold uart_crc. rewrite put_head_ok by done. cbn [mbind option_bind].
  assert (h4 ++ (be16 (u16 msg) ++ be16 (u16 ds)) ++ d ++ c2 ++ rest = h4 ++ body ++ c2 ++ rest) as ->
    by (unfold body; by rewrite <- !app_assoc).
  assert (length body = (4 + length d)%nat) as Hlb by (unfold body; rewrite !length_app; done).
  assert (bytes body) as Hbb by (unfold body; repeat apply Forall_app_2; auto using be16_bytes).
  assert (mem_read (h4 ++ body ++ c2 ++ rest) 4 (4 + ds) = Some body) as ->.
  { unfold mem_read. rewrite decide_True by (rewrite !length_app; lia).
    change (Z.to_nat 4) with 4%nat. rewrite drop_app_exact by done. f_equal. apply take_app_exact. lia. }
  cbn [mbind option_bind]. rewrite store16_ok by (rewrite ?length_app; lia). cbn [mbind option_bind].
  rewrite st16_cpu2be16, u16_small by (by apply crc_16_l_calc_range).
  rewrite (app_assoc h4 body). rewrite splice_at by (rewrite ?length_app, ?Hc; cbn; lia).
  rewrite <- !app_assoc. do 2 f_equal. lia.
Qed.

Definition has_crc (msg : Z) : bool :=
  (msg =? BSL_CMD_START_DATA) || (msg =? BSL_CMD_MIDST_DATA) || (msg =? BSL_CMD_END_DATA)
  || (msg =? BSL_CMD_EXEC_DATA).

Lemma setup_uart_crc msg b off ds im :
  has_crc msg = true -> setup_packet msg b off ds 0 im = uart_crc msg ds b.
Proof.
  unfold has_crc. intros H. unfold setup_packet. change (0 =? BSL_UART_PACKET) with true. cbn iota.
  destruct (Z.eqb_spec msg BSL_CMD_CONNECT) as [->|]; [done|].
  repeat (match goal with |- context [msg =? ?x] => destruct (msg =? x) eqn:? end; [done|]). done.
Qed.

(** ** Properties *)

(** the sender's framing is HDLC.  Between its two flags an encoded packet has
    no flag, has at most twice the length of the packet, and the standard rule
    (0x7D c stands for c xor 0x20) gives the packet back. *)
Theorem translate_is_hdlc p :
  exists body, translate_packet p = FLAG :: body ++ [FLAG] /\ Forall (fun x => x <> FLAG) body /\
    (length p <= length body <= 2 * length p)%nat /\ unescape body = Some p.
Proof.
  exists (concat (map esc p)). split_and!; [done|apply escs_no_flag|apply escs_length..|].
  pose proof (unescape_escs p []) as H. rewrite app_nil_r in H. rewrite H. cbn. by rewrite app_nil_r.
Qed.

(** [untranslate_packet] inverts [translate_packet] on packets without a 0x7D
    before their last byte, whatever non-flag bytes precede the frame and
    whatever follows it. *)
Theorem untranslate_translate pre p post :
  Forall (fun x => x <> FLAG) pre -> p <> [] -> Forall (fun x => x <> ESC) (removelast p) ->
  untranslate_packet (pre ++ translate_packet p ++ post) = p.
Proof. apply untr_frame. Qed.

Lemma untranslate_translate_witness :
  untranslate_packet ([1; 2] ++ translate_packet [0; 126; 94; 125] ++ [9]) = [0; 126; 94; 125].
Proof.
  apply (untranslate_translate [1; 2] [0; 126; 94; 125] [9]);
    [repeat constructor; discriminate|discriminate|repeat constructor; discriminate].
Defined.

(** a 0x7D inside a packet destroys the rest.  The receiver takes a decoded
    0x7D for a pending escape, so every following byte (other than 0x5E and
    escaped flags) is swallowed: the answer is cut after the 0x7D. *)
Theorem untranslate_truncates p1 p2 post :
  Forall (fun x => x <> ESC) p1 -> Forall (fun x => x <> FLAG /\ x <> 0x5E) p2 ->
  untranslate_packet (translate_packet (p1 ++ ESC :: p2) ++ post) = p1 ++ [ESC].
Proof.
  intros H1 H2. unfold untranslate_packet, translate_packet, ESC, FLAG in *. cbn [app].
  change (untranslate_loop (?x :: ?l) 0 []) with (untranslate_loop l 1 []).
  rewrite map_app, concat_app, <- !app_assoc. cbn [map concat]. rewrite <- !app_assoc.
  destruct p1 as [|b p1].
  - cbn [map concat app]. rewrite untr_first, untr_stuck by done. done.
  - apply Forall_cons in H1 as [Hb H1]. cbn [map concat]. rewrite <- app_assoc, untr_first, untr_escs by done.
    destruct (rev p1 ++ [b]) as [|l out] eqn:E; [by destruct (rev p1)|].
    assert (l <> 0x7D) as Hl.
    { assert (Forall (fun x => x <> 0x7D) (l :: out)) as H; [|by inversion H].
      rewrite <- E. apply Forall_app_2; [by apply Forall_rev|by repeat constructor]. }
    rewrite untr_next, untr_stuck by done. cbn [app]. rewrite untr_close, <- E. cbn.
    by rewrite rev_app_distr, rev_involutive.
Qed.

Lemma untranslate_truncates_witness :
  untranslate_packet (translate_packet ([0; 128] ++ ESC :: [0; 7; 99]) ++ []) = [0; 128] ++ [ESC].
Proof.
  apply (untranslate_truncates [0; 128] [0; 7; 99] []);
    [repeat constructor; discriminate|repeat constructor; discriminate].
Defined.

(** the UART packets are well-formed.  For every data command, [setup_packet]
    on a buffer with the data at offset 8 and room for the CRC produces, from
    offset 4 on, the type and length in big-endian, the data and a CRC that makes
    the whole check to 0, leaves the other bytes alone, and returns its size. *)
Theorem setup_packet_uart msg b ds im :
  has_crc msg = true -> bytes b -> 0 <= ds -> ds + 10 <= Z.of_nat (length b) ->
  exists b' pkt, setup_packet msg b 8 ds 0 im = Some (b', ds + 6) /\
    pkt = be16 (u16 msg) ++ be16 (u16 ds) ++ take (Z.to_nat ds) (drop 8 b) ++
          be16 (crc_16_l_calc (take (Z.to_nat (ds + 4)) pkt)) /\
    crc_16_l_calc pkt = 0 /\
    b' = take 4 b ++ pkt ++ drop (Z.to_nat (ds + 10)) b.
Proof.
  intros Hm Hb H0 Hl. rewrite setup_uart_crc by done.
  set (d := take (Z.to_nat ds) (drop 8 b)).
  assert (Z.of_nat (length d) = ds) as Hd by (unfold d; rewrite length_take, length_drop; lia).
  assert (b = take 4 b ++ take 4 (drop 4 b) ++ d ++ take 2 (drop (Z.to_nat (ds + 8)) b)
              ++ drop (Z.to_nat (ds + 10)) b) as Eb.
  { rewrite <- (take_drop 4 b) at 1. f_equal. rewrite <- (take_drop 4 (drop 4 b)) at 1. f_equal.
    rewrite drop_drop. change (4 + 4)%nat with 8%nat. unfold d.
    rewrite <- (take_drop (Z.to_nat ds) (drop 8 b)) at 1. f_equal. rewrite drop_drop.
    replace (8 + Z.to_nat ds)%nat with (Z.to_nat (ds + 8)) by lia.
    rewrite <- (take_drop 2 (drop (Z.to_nat (ds + 8)) b)) at 1. f_equal. rewrite drop_drop. f_equal. lia. }
  assert (bytes d) as Hbd by (by apply Forall_take, Forall_drop).
  pose proof (uart_crc_ok msg ds (take 4 b) (take 4 (drop 4 b)) d (take 2 (drop (Z.to_nat (ds + 8)) b))
                (drop (Z.to_nat (ds + 10)) b)) as E.
  rewrite <- Eb in E. rewrite E by (rewrite ?length_take, ?length_drop; first [done|lia]). clear E.
  set (body := be16 (u16 msg) ++ be16 (u16 ds) ++ d).
  eexists _, (body ++ be16 (crc_16_l_calc body)). split; [done|]. split_and!.
  - unfold body. rewrite <- !app_assoc. do 4 f_equal. f_equal.
    rewrite !app_assoc. rewrite <- (app_assoc (be16 _)). fold body. rewrite take_app_exact; [done|].
    unfold body. rewrite !length_app. cbn. lia.
  - apply crc_of_crc. unfold body. repeat apply Forall_app_2; auto using be16_bytes.
  - done.
Qed.

Lemma setup_packet_uart_witness :
  exists b' pkt, setup_packet BSL_CMD_EXEC_DATA (replicate 8 0 ++ [1; 2; 3; 4] ++ replicate 8 0) 8 4 0 0
      = Some (b', 4 + 6) /\
    pkt = be16 (u16 BSL_CMD_EXEC_DATA) ++ be16 (u16 4) ++ [1; 2; 3; 4] ++
          be16 (crc_16_l_calc (take 8 pkt)) /\
    crc_16_l_calc pkt = 0 /\ b' = replicate 4 0 ++ pkt ++ replicate 6 0.
Proof.
  apply (setup_packet_uart BSL_CMD_EXEC_DATA (replicate 8 0 ++ [1; 2; 3; 4] ++ replicate 8 0) 4 0);
    [reflexivity|repeat constructor; lia|lia|cbn; lia].
Defined.

(** A store into a buffer given by its 16-bit pieces. *)
Lemma store16_at a x z off v :
  off = Z.of_nat (length a) -> length x = 2%nat ->
  store16 (a ++ x ++ z) off v = Some (a ++ st16 v ++ z).
Proof.
  intros -> Hx. rewrite store16_ok by (rewrite ?length_app; lia).
  rewrite splice_at; [done|lia|by rewrite Hx].
Qed.

Lemma mem_read_at a x z off len :
  off = Z.of_nat (length a) -> len = Z.of_nat (length x) -> mem_read (a ++ x ++ z) off len = Some x.
Proof.
  intros -> ->. unfold mem_read. rewrite decide_True by (rewrite !length_app; lia).
  rewrite !Nat2Z.id, drop_app_exact, take_app_exact by done. done.
Qed.

(** The SPI header, in place. *)
Lemma spi_plain_ok msg ds h0 h2 h4 h6 d rest :
  length h0 = 2%nat -> length h2 = 2%nat -> length h4 = 2%nat -> length h6 = 2%nat ->
  Z.of_nat (length d) = ds ->
  let hd := st16 ds ++ st16 (u16 msg) ++ st16 (boot_checksum d) in
  spi_plain msg (h0 ++ h2 ++ h4 ++ h6 ++ d ++ rest) 8 ds =
    Some (hd ++ st16 (boot_checksum hd) ++ d ++ rest, ds + 8).
Proof.
  intros H0 H2 H4 H6 Hd hd. unfold spi_plain, spi_sums.
  pose proof (store16_at [] h0 (h2 ++ h4 ++ h6 ++ d ++ rest) 0 ds eq_refl H0) as E0. cbn [app] in E0.
  rewrite E0. cbn [mbind option_bind].
  rewrite (store16_at (st16 ds) h2) by done. cbn [mbind option_bind].
  assert (mem_read (st16 ds ++ st16 (u16 msg) ++ h4 ++ h6 ++ d ++ rest) 8 ds = Some d) as ->.
  { rewrite !app_assoc. rewrite <- (app_assoc _ d). apply mem_read_at; [|done].
    rewrite !length_app, H4, H6. done. }
  cbn [mbind option_bind]. rewrite (app_assoc (st16 ds)).
  rewrite (store16_at (st16 ds ++ st16 (u16 msg)) h4) by done. cbn [mbind option_bind].
  rewrite app_assoc. rewrite <- (app_assoc (st16 ds)). fold hd.
  assert (mem_read (hd ++ h6 ++ d ++ rest) 0 6 = Some hd) as ->.
  { apply (mem_read_at [] hd (h6 ++ d ++ rest)); done. }
  cbn [mbind option_bind]. rewrite (store16_at hd h6) by done. done.
Qed.

(** the SPI header checks.  For START_DATA, EXEC_DATA and DUMP_MEM the first
    six bytes are the length, the command and the checksum of the data, the next
    two make the whole header sum to 0, and the rest of the buffer is kept. *)
Theorem setup_packet_spi msg b ds im :
  (msg = BSL_CMD_START_DATA \/ msg = BSL_CMD_EXEC_DATA \/ msg = BSL_CMD_DUMP_MEM) ->
  0 <= ds -> ds + 8 <= Z.of_nat (length b) ->
  exists hdr, dl_setup_packet msg b 8 ds 1 im = Some (hdr ++ drop 8 b, ds + 8) /\
    length hdr = 8%nat /\
    take 6 hdr = st16 ds ++ st16 msg ++ st16 (boot_checksum (take (Z.to_nat ds) (drop 8 b))) /\
    boot_checksum hdr = 0.
Proof.
  intros Hm H0 Hl.
  assert (dl_setup_packet msg b 8 ds 1 im = spi_plain msg b 8 ds) as -> by (by destruct Hm as [->|[->| ->]]).
  set (d := take (Z.to_nat ds) (drop 8 b)).
  assert (exists h0 h2 h4 h6, b = h0 ++ h2 ++ h4 ++ h6 ++ drop 8 b /\ length h0 = 2%nat /\ length h2 = 2%nat /\
            length h4 = 2%nat /\ length h6 = 2%nat) as (h0 & h2 & h4 & h6 & Eb & L0 & L2 & L4 & L6).
  { do 8 (destruct b as [|? b]; [cbn in Hl; lia|]).
    exists [z; z0], [z1; z2], [z3; z4], [z5; z6]. done. }
  assert (Z.of_nat (length d) = ds) as Hd by (unfold d; rewrite length_take, length_drop; lia).
  assert (drop 8 b = d ++ drop (Z.to_nat ds) (drop 8 b)) as Ed by (unfold d; by rewrite take_drop).
  pose proof (spi_plain_ok msg ds h0 h2 h4 h6 d (drop (Z.to_nat ds) (drop 8 b)) L0 L2 L4 L6 Hd) as E.
  cbv zeta in E. rewrite <- Ed, <- Eb in E. rewrite E.
  assert (u16 msg = msg) as -> by (by destruct Hm as [->|[->| ->]]).
  set (hd := st16 ds ++ st16 msg ++ st16 (boot_checksum d)).
  exists (hd ++ st16 (boot_checksum hd)). split_and!; [by rewrite <- app_assoc|done|done|].
  apply boot_checksum_verifies; [|by exists 3%nat|done].
  unfold hd. repeat apply Forall_app_2; apply st16_bytes.
Qed.

Lemma setup_packet_spi_witness :
  exists hdr, dl_setup_packet BSL_CMD_START_DATA raw32 8 8 1 0 = Some (hdr ++ drop 8 raw32, 8 + 8) /\
    length hdr = 8%nat /\
    take 6 hdr = st16 8 ++ st16 BSL_CMD_START_DATA ++ st16 (boot_checksum (take 8 (drop 8 raw32))) /\
    boot_checksum hdr = 0.
Proof. apply (setup_packet_spi BSL_CMD_START_DATA raw32 8 0); [by left|lia|cbn; lia]. Defined.

(** ** The exchange over the UART *)

Lemma os_write_all buf n s w ws :
  wr s = w :: ws -> 0 < n <= w -> n <= Z.of_nat (length buf) ->
  os_write buf n s = Some (n, Io ws (rd s) (img s) (sent s ++ take (Z.to_nat n) buf) (send_buffer s)).
Proof.
  intros Hw Hn Hl. unfold os_write. rewrite Hw, Z.min_r by lia.
  destruct (Z.ltb_spec 0 n); [|lia]. rewrite mem_read_prefix by lia. done.
Qed.

Lemma os_write_part buf n s r ws :
  wr s = r :: ws -> 0 < r <= n -> r <= Z.of_nat (length buf) ->
  os_write buf n s = Some (r, Io ws (rd s) (img s) (sent s ++ take (Z.to_nat r) buf) (send_buffer s)).
Proof.
  intros Hw Hn Hl. unfold os_write. rewrite Hw, Z.min_l by lia.
  destruct (Z.ltb_spec 0 r); [|lia]. rewrite mem_read_prefix by lia. done.
Qed.

(** Only the first and the last byte of a frame are flags. *)
Lemma frame_inside p k :
  (0 < k < length (translate_packet p) - 1)%nat -> translate_packet p !! k <> Some 0x7E.
Proof.
  unfold translate_packet. destruct k as [|k]; [lia|]. cbn [length]. rewrite length_app. cbn [length].
  intros Hk Hl. change ((?x :: ?l) !! S k) with (l !! k) in Hl. rewrite lookup_app_l in Hl by lia.
  by apply (Forall_lookup_1 _ _ _ _ (escs_no_flag p) Hl).
Qed.

(** A frame accepted by one write. *)
Lemma uart_send_all pkt s w ws (f := translate_packet pkt) :
  wr s = w :: ws -> Z.of_nat (length f) <= w -> (length f <= length (send_buffer s))%nat ->
  uart_send pkt s =
    Some (Z.of_nat (length f), Io ws (rd s) (img s) (sent s ++ f) (splice (send_buffer s) 0 f)).
Proof.
  intros Hw Hf Hl. unfold uart_send. fold f. unfold fill_send_buffer. rewrite mem_write_ok by lia.
  cbn [mbind option_bind wr]. rewrite Hw. cbn [write_loop].
  assert (0 < length f)%nat by (unfold f; cbn; lia).
  rewrite (os_write_all _ _ (Io (w :: ws) _ _ _ _) w ws);
    [|done|lia|cbn [send_buffer]; rewrite splice_length; lia].
  cbn [mbind option_bind rd img sent send_buffer]. destruct (Z.ltb_spec 0 (Z.of_nat (length f))); [|lia].
  rewrite Z.sub_diag. change (0 <? 0) with false. cbn iota.
  assert (take (Z.to_nat (Z.of_nat (length f))) (splice (send_buffer s) (Z.to_nat 0) f) = f) as ->; [|done].
  rewrite Nat2Z.id. unfold splice. rewrite take_0, app_nil_l. apply take_app_length.
Qed.

(** An answer of [size] bytes that arrives in any number of pieces. *)
Lemma read_loop_pieces cs rs raw off size d :
  Forall (fun c => c <> []) cs -> concat cs = d -> d <> [] -> Z.of_nat (length d) = size ->
  0 <= off -> off + size <= Z.of_nat (length raw) ->
  exists r, 0 < r /\ read_loop (map Some cs ++ rs) raw off size = Some (r, splice raw (Z.to_nat off) d, off + size, rs).
Proof.
  intros Hcs. revert raw off size d. induction Hcs as [|c cs Hc Hcs IH]; intros raw off size d Hd Hne Hl H0 Hend.
  { by subst d. }
  cbn [concat map app] in *. cbn [read_loop].
  assert (0 < length c)%nat by (destruct c; [done|cbn; lia]).
  assert (length d = length c + length (concat cs))%nat as Hld by (rewrite <- Hd; apply length_app).
  rewrite take_ge by lia. rewrite mem_write_ok by lia. cbn [mbind option_bind].
  destruct (Z.ltb_spec 0 (Z.of_nat (length c))); [|lia].
  destruct (Z.eqb_spec (size - Z.of_nat (length c)) 0) as [Hz|Hz].
  - exists (Z.of_nat (length c)). split; [lia|].
    assert (concat cs = []) as Hn by (apply nil_length_inv; lia). rewrite Hn, app_nil_r in Hd. subst d.
    destruct cs as [|c2 cs]; [cbn; do 3 f_equal; lia|].
    apply Forall_cons in Hcs as [? _]. by destruct c2.
  - destruct (IH (splice raw (Z.to_nat off) c) (off + Z.of_nat (length c)) (size - Z.of_nat (length c)) (concat cs))
      as (r & Hr & E); try done; try lia.
    + intros Hn. rewrite Hn in Hld. cbn in Hld. lia.
    + rewrite splice_length; lia.
    + exists r. split; [done|]. rewrite E. rewrite Z2Nat.inj_add, Nat2Z.id by lia.
      rewrite splice_splice, Hd by lia.
      by replace (off + Z.of_nat (length c) + (size - Z.of_nat (length c))) with (off + size) by lia.
Qed.

(** One request and its framed answer [q], in any number of pieces. *)
Lemma uart_talk ack raw pkt q s w ws cs rs :
  (8 <= length raw)%nat ->
  wr s = w :: ws -> Z.of_nat (length (translate_packet pkt)) <= w ->
  (length (translate_packet pkt) <= length (send_buffer s))%nat -> (8 <= length (send_buffer s))%nat ->
  rd s = map Some cs ++ rs -> Forall (fun c => c <> []) cs -> concat cs = translate_packet q ->
  length (translate_packet q) = 8%nat -> (2 <= length q)%nat -> Forall (fun x => x <> ESC) (removelast q) ->
  exists s', ('(retval, s) ← uart_send pkt s; await ack 0 raw retval s) =
      Some (if ack (u16 (((q !!! 0%nat) .<< 8) .| (q !!! 1%nat))) then 0 else -1, s') /\
    sent s' = sent s ++ translate_packet pkt /\ rd s' = rs /\ wr s' = ws /\
    length (send_buffer s') = length (send_buffer s).
Proof.
  intros Hraw Hw Hn Hsb Hsb8 Hrd Hcs Hcat Hq8 Hq2 Hq.
  rewrite (uart_send_all pkt s w ws) by done. cbn [mbind option_bind].
  unfold await, answer_size. change (0 =? 0) with true. cbn iota.
  destruct (Z.leb_spec (Z.of_nat (length (translate_packet pkt))) 0); [cbn in *; lia|].
  cbn [rd wr img sent send_buffer]. rewrite Hrd.
  destruct (read_loop_pieces cs rs raw 0 8 (translate_packet q)) as (r & Hr0 & E); try done; try lia.
  rewrite E. cbn [mbind option_bind]. destruct (Z.leb_spec r 0); [lia|].
  assert (mem_read (splice raw (Z.to_nat 0) (translate_packet q)) 0 (0 + 8) = Some (translate_packet q)) as ->.
  { unfold splice. change (Z.to_nat 0) with 0%nat. rewrite take_0, app_nil_l.
    apply (mem_read_at [] (translate_packet q)); [done|]. by rewrite Hq8. }
  cbn [mbind option_bind]. unfold fill_send_buffer. cbn [send_buffer].
  assert (untranslate_packet (translate_packet q) = q) as ->.
  { pose proof (untr_frame [] q []) as H'. rewrite app_nil_r in H'. apply H'; [constructor| |done].
    intros ->. cbn in Hq2. lia. }
  pose proof (escs_length q) as Hlq. unfold translate_packet in Hq8. cbn in Hq8. rewrite length_app in Hq8. cbn in Hq8.
  rewrite mem_write_ok by (rewrite ?splice_length; cbn [length]; lia). cbn [mbind option_bind send_buffer].
  match goal with |- context [splice ?m (Z.to_nat 0) q !!! 0%nat] => set (sb := splice m (Z.to_nat 0) q) end.
  assert (forall k, (k < 2)%nat -> sb !!! k = q !!! k) as Hsbk.
  { intros k Hk. unfold sb, splice at 1. rewrite take_0, app_nil_l. apply lookup_total_app_l. lia. }
  rewrite !Hsbk by lia. eexists. split; [done|]. split_and!; try done. cbn [send_buffer]. unfold sb.
  assert (length (splice (send_buffer s) 0 (translate_packet pkt)) = length (send_buffer s)) as Ls by (apply splice_length; lia).
  rewrite splice_length; rewrite ?Ls; [done|]. change (Z.to_nat 0) with 0%nat. lia.
Qed.

(** The same for a packet that lies in [raw]. *)
Lemma uart_exchange ack raw size pkt q s w ws cs rs :
  mem_read raw 4 size = Some pkt -> (8 <= length raw)%nat ->
  wr s = w :: ws -> Z.of_nat (length (translate_packet pkt)) <= w ->
  (length (translate_packet pkt) <= length (send_buffer s))%nat -> (8 <= length (send_buffer s))%nat ->
  rd s = map Some cs ++ rs -> Forall (fun c => c <> []) cs -> concat cs = translate_packet q ->
  length (translate_packet q) = 8%nat -> (2 <= length q)%nat -> Forall (fun x => x <> ESC) (removelast q) ->
  exists s', send_raw ack 0 raw size s =
      Some (if ack (u16 (((q !!! 0%nat) .<< 8) .| (q !!! 1%nat))) then 0 else -1, s') /\
    sent s' = sent s ++ translate_packet pkt /\ rd s' = rs /\ wr s' = ws /\
    length (send_buffer s') = length (send_buffer s).
Proof.
  intros Hr Hraw Hw Hn Hsb Hsb8 Hrd Hcs Hcat Hq8 Hq2 Hq. unfold send_raw. change (0 =? 0) with true. cbn iota.
  rewrite Hr. cbn [mbind option_bind]. by eapply uart_talk.
Qed.

(** The acknowledgement of the boot ROM: type 0x80, no data, CRC, framed. *)
Definition ack_packet : list Z := be16 BSL_REP_ACK ++ be16 0 ++ be16 (crc_16_l_calc (be16 BSL_REP_ACK ++ be16 0)).

Lemma st32_cpu2be32 z : 0 <= z < 4294967296 -> st32 (cpu2be32 z) = be32 z.
Proof.
  intros Hz. unfold cpu2be32.
  assert (z .& 0xFF = u8 z) as -> by apply land_ff.
  assert ((z .>> 8) .& 0xFF = u8 (z .>> 8)) as -> by apply land_ff.
  assert ((z .>> 16) .& 0xFF = u8 (z .>> 16)) as -> by apply land_ff.
  assert (u8 (z .>> 24) = z .>> 24) as E24.
  { apply u8_small. rewrite shiftr_div by lia. change (2 ^ 24) with 16777216. zlia. }
  pose proof (u8_range z) as R0. pose proof (u8_range (z .>> 8)) as R1. pose proof (u8_range (z .>> 16)) as R2.
  pose proof (u8_range (z .>> 24)) as R3. rewrite E24 in R3.
  set (a := u8 z) in *. set (b := u8 (z .>> 8)) in *. set (c := u8 (z .>> 16)) in *. set (d := z .>> 24) in *.
  assert ((a .<< 24) .| (b .<< 16) .| (c .<< 8) .| d = d + 256 * c + 65536 * b + 16777216 * a) as ->.
  { rewrite <- (word32_arith d c b a) by lia. apply Z.bits_inj'. intros i _. rewrite !Z.lor_spec.
    repeat case_match; by destruct (Z.testbit (a .<< 24) i), (Z.testbit (b .<< 16) i),
      (Z.testbit (c .<< 8) i), (Z.testbit d i). }
  unfold st32, be32. fold a b c d. rewrite E24. rewrite !shiftr_div by lia.
  change (2 ^ 8) with 256. change (2 ^ 16) with (256 * 256). change (2 ^ 24) with (256 * 256 * 256).
  rewrite <- !Z.div_div by lia. clearbody a b c d. f_equal; [|f_equal; [|f_equal; [|f_equal]]]; mint; zlia.
Qed.

Lemma store32_at a x z off v :
  off = Z.of_nat (length a) -> length x = 4%nat -> store32 (a ++ x ++ z) off v = Some (a ++ st32 v ++ z).
Proof.
  intros -> Hx. unfold store32. rewrite mem_write_ok by (rewrite ?length_app; cbn; lia).
  rewrite splice_at; [done|lia|by rewrite Hx].
Qed.

(** The packet of [send_start_message]. *)
Definition start_packet (size addr : Z) : list Z :=
  let body := be16 BSL_CMD_START_DATA ++ be16 8 ++ be32 addr ++ be32 size in
  body ++ be16 (crc_16_l_calc body).

Lemma start_raw size addr :
  0 <= addr < 4294967296 -> 0 <= size < 4294967296 ->
  exists raw, (raw ← store32 raw32 8 (cpu2be32 addr);
               raw ← store32 raw 12 (cpu2be32 size);
               setup_packet BSL_CMD_START_DATA raw 8 8 0 0) = Some (raw, 14) /\
    mem_read raw 4 14 = Some (start_packet size addr) /\ length raw = 32%nat.
Proof.
  intros Ha Hs.
  change raw32 with (replicate 8 0 ++ replicate 4 0 ++ replicate 20 0).
  rewrite (store32_at (replicate 8 0) (replicate 4 0)) by done. cbn [mbind option_bind].
  rewrite st32_cpu2be32 by done.
  change (replicate 8 0 ++ be32 addr ++ replicate 20 0)
    with ((replicate 8 0 ++ be32 addr) ++ replicate 4 0 ++ replicate 16 0).
  rewrite (store32_at (replicate 8 0 ++ be32 addr) (replicate 4 0)) by done. cbn [mbind option_bind].
  rewrite st32_cpu2be32 by done. rewrite setup_uart_crc by done.
  change ((replicate 8 0 ++ be32 addr) ++ be32 size ++ replicate 16 0)
    with (replicate 4 0 ++ replicate 4 0 ++ (be32 addr ++ be32 size) ++ replicate 2 0 ++ replicate 14 0).
  rewrite uart_crc_ok; try done.
  - eexists. split; [done|]. split; [|done].
    change (be16 (u16 BSL_CMD_START_DATA) ++ be16 (u16 8) ++ be32 addr ++ be32 size)
      with (be16 BSL_CMD_START_DATA ++ be16 8 ++ be32 addr ++ be32 size).
    apply (mem_read_at (replicate 4 0) (start_packet size addr)); done.
  - unfold be32. repeat constructor; apply u8_range.
Qed.

(** a start message reaches the boot ROM and its acknowledgement is
    recognised.  When the first write accepts the whole frame and the framed
    acknowledgement then arrives, in any number of pieces, [send_start_message]
    returns 0 after having sent exactly one frame, the HDLC encoding of the
    START_DATA packet with the address and size in big-endian and a valid CRC. *)
Theorem send_start_message_ok size addr s w ws cs rs :
  0 <= addr < 4294967296 -> 0 <= size < 4294967296 -> (30 <= length (send_buffer s))%nat ->
  wr s = w :: ws -> 30 <= w -> rd s = map Some cs ++ rs ->
  Forall (fun c => c <> []) cs -> concat cs = translate_packet ack_packet ->
  exists s', send_start_message size addr 0 s = Some (0, s') /\
    sent s' = sent s ++ translate_packet (start_packet size addr) /\
    crc_16_l_calc (start_packet size addr) = 0 /\ rd s' = rs /\ wr s' = ws.
Proof.
  intros Ha Hs Hsb Hw Hw30 Hrd Hcs Hcat.
  destruct (start_raw size addr Ha Hs) as (raw & E & Hr & Hlraw).
  assert (length (translate_packet (start_packet size addr)) <= 30)%nat as Hlen.
  { unfold translate_packet. cbn [length]. rewrite length_app. cbn [length].
    pose proof (escs_length (start_packet size addr)) as H.
    change (length (start_packet size addr)) with 14%nat in H. lia. }
  destruct (uart_exchange ack_or_zero raw 14 (start_packet size addr) ack_packet s w ws cs rs)
    as (s' & E' & Hsent & Hrd' & Hwr' & _); try done; try lia.
  - vm_compute. lia.
  - vm_compute. repeat constructor; discriminate.
  - exists s'. split_and!; try done.
    + unfold send_start_message.
      destruct (store32 raw32 8 _) as [r1|]; [|done]. cbn [mbind option_bind] in *.
      destruct (store32 r1 12 _) as [r2|]; [|done]. cbn [mbind option_bind] in *. rewrite E.
      cbn [mbind option_bind]. rewrite E'. done.
    + apply crc_of_crc. repeat apply Forall_app_2; try apply be16_bytes;
        unfold be32; repeat constructor; apply u8_range.
Qed.

Definition demo_io (ws : list Z) (cs : list (list Z)) : io := Io ws (map Some cs) [] [] (replicate 64 0).

Lemma send_start_message_ok_witness :
  exists s', send_start_message 1024 0x50000000 0
      (demo_io [100] [take 3 (translate_packet ack_packet); drop 3 (translate_packet ack_packet)]) = Some (0, s') /\
    sent s' = [] ++ translate_packet (start_packet 1024 0x50000000) /\
    crc_16_l_calc (start_packet 1024 0x50000000) = 0 /\ rd s' = [] /\ wr s' = [].
Proof.
  apply (send_start_message_ok 1024 0x50000000
           (demo_io [100] [take 3 (translate_packet ack_packet); drop 3 (translate_packet ack_packet)])
           100 [] [take 3 (translate_packet ack_packet); drop 3 (translate_packet ack_packet)] []);
    try reflexivity; try lia.
  - cbn. lia.
  - repeat constructor; discriminate.
Defined.

(** a short write corrupts the frame.  The send loop does not advance its
    buffer: when the first write accepts only [k] bytes, the second sends the
    first bytes of the frame again, so the wire carries a frame cut after [k]
    bytes followed by another beginning; unless one byte was missing, this is
    not the frame. *)
Theorem short_write_resends pkt s k ws (f := translate_packet pkt) :
  (length f <= length (send_buffer s))%nat -> (0 < k < length f - 1)%nat ->
  wr s = Z.of_nat k :: Z.of_nat (length f - k) :: ws ->
  exists r s', uart_send pkt s = Some (r, s') /\
    sent s' = sent s ++ take k f ++ take (length f - k) f /\
    take k f ++ take (length f - k) f <> f.
Proof.
  intros Hl Hk Hw. unfold uart_send. fold f. unfold fill_send_buffer. rewrite mem_write_ok by lia.
  set (sb := splice (send_buffer s) (Z.to_nat 0) f).
  assert (length sb = length (send_buffer s)) as Hlsb by (apply splice_length; change (Z.to_nat 0) with 0%nat; lia).
  assert (forall n, (n <= length f)%nat -> take n sb = take n f) as Htk.
  { intros n Hn. unfold sb, splice. rewrite take_0, app_nil_l. apply take_app_le. lia. }
  cbn [mbind option_bind wr]. rewrite Hw. cbn [write_loop send_buffer].
  rewrite (os_write_part sb _ (Io _ _ _ _ sb) (Z.of_nat k) (Z.of_nat (length f - k) :: ws)) by (done || lia).
  cbn [mbind option_bind rd img sent send_buffer].
  destruct (Z.ltb_spec 0 (Z.of_nat k)); [|lia].
  destruct (Z.ltb_spec 0 (Z.of_nat (length f) - Z.of_nat k)); [|lia].
  rewrite (os_write_part sb _ (Io _ _ _ _ sb) (Z.of_nat (length f - k)) ws) by (done || lia).
  cbn [mbind option_bind rd img sent send_buffer].
  destruct (Z.ltb_spec 0 (Z.of_nat (length f - k))); [|lia].
  destruct (Z.ltb_spec 0 (Z.of_nat (length f) - Z.of_nat k - Z.of_nat (length f - k))) as [Hbad|_]; [exfalso; clear -Hbad Hk; subst f; lia|].
  eexists _, _. split; [done|]. cbn [sent]. rewrite !Nat2Z.id, !Htk, <- app_assoc by lia. split; [done|].
  intros Heq. assert ((take k f ++ take (length f - k) f) !! k = f !! k) as Hk2 by (by rewrite Heq).
  rewrite lookup_app_r, length_take in Hk2 by (rewrite length_take; lia).
  replace (k - k `min` length f)%nat with 0%nat in Hk2 by lia. rewrite lookup_take_lt in Hk2 by lia.
  by apply (frame_inside pkt k Hk).
Qed.

Lemma short_write_resends_witness :
  exists r s', uart_send [1; 2; 3] (demo_io [2; 3] []) = Some (r, s') /\
    sent s' = [] ++ take 2 (translate_packet [1; 2; 3]) ++ take 3 (translate_packet [1; 2; 3]) /\
    take 2 (translate_packet [1; 2; 3]) ++ take 3 (translate_packet [1; 2; 3]) <> translate_packet [1; 2; 3].
Proof.
  apply (short_write_resends [1; 2; 3] (demo_io [2; 3] []) 2 []); [apply Nat.leb_le; reflexivity|split; apply Nat.ltb_lt; reflexivity|reflexivity].
Defined.
