(* ===== verification/WcndSm.v ===== *)
(** * Connectivity daemon, CP2 state machine (apps/wcnd/wcnd_sm.c, parts of
    wcnd.c and wcnd_cmd.c)

    The daemon powers the WiFi/BT coprocessor (CP2) up when the first of BT and
    WiFi is opened and down when the last is closed.  Commands arrive from client
    sockets; the handlers of the five states update the manager, answer clients
    and send commands to the daemon itself through a socket pair. *)

From S2P Require Import Prelude.
Local Open Scope string_scope.
Local Open Scope Z_scope.

(** ** Constants of wcnd_sm.h *)

Definition WCND_STATE_CP2_STARTED : Z := 0.
Definition WCND_STATE_CP2_STARTING : Z := 1.
Definition WCND_STATE_CP2_STOPPED : Z := 2.
Definition WCND_STATE_CP2_STOPPING : Z := 3.
Definition WCND_STATE_CP2_ASSERT : Z := 4.

Definition WCND_EVENT_BT_OPEN : Z := 0x0001.
Definition WCND_EVENT_WIFI_OPEN : Z := 0x0002.
Definition WCND_EVENT_BT_CLOSE : Z := 0x0004.
Definition WCND_EVENT_WIFI_CLOSE : Z := 0x0008.
Definition WCND_EVENT_CP2_OK : Z := 0x0010.
Definition WCND_EVENT_CP2_ASSERT : Z := 0x0020.
Definition WCND_EVENT_CP2_DOWN : Z := 0x0040.
Definition WCND_EVENT_PENGING_EVENT : Z := 0x0080.
Definition WCND_EVENT_CP2POWERON_REQ : Z := 0x0100.
Definition WCND_EVENT_CP2POWEROFF_REQ : Z := 0x0200.

Definition WCND_BTWIFI_STATE_BT_ON : Z := 0x01.
Definition WCND_BTWIFI_STATE_WIFI_ON : Z := 0x02.

Definition WCND_CLIENT_TYPE_SLEEP : Z := 0x30.
Definition WCND_CLIENT_TYPE_NOTIFY : Z := 0x00.
Definition WCND_CLIENT_TYPE_CMD : Z := 0x10.
Definition WCND_CLIENT_TYPE_CMD_PENDING : Z := 0x20.
Definition WCND_CLIENT_TYPE_CMD_SUBTYPE_CLOSE : Z := 0x11.
Definition WCND_CLIENT_TYPE_CMD_SUBTYPE_OPEN : Z := 0x12.
Definition WCND_CLIENT_TYPE_CMD_MASK : Z := 0xF0.

Definition OK_RSP : string := "WCNBTWIFI-CMD OK".
Definition FAIL_RSP : string := "WCNBTWIFI-CMD FAIL".
Definition START_CP2 : string := "wcn startcp2".
Definition STOP_CP2 : string := "wcn stopcp2".
Definition PENDINGEVENT : string := "wcn pendingevent".

(** ** The manager *)

(** [WcndClient], [WcndMessage], and the fields of [WcndManager] the state
    machine uses.  [out] are the messages written to clients and [selfcmds] the
    commands written to the socket pair, oldest first; [gone] tells the sockets
    on which a write fails. *)
Record client := Client { sockfd : Z; ctype : Z }.
Record message := Message { event : Z; replyto_fd : Z }.

Record wcn := Wcn {
  clients : list client;
  notify_count : Z;
  state : Z;
  btwifi_state : Z;
  saved_btwifi_state : Z;
  pending_events : Z;
  notify_enabled : bool;
  is_wcn_modem_enabled : bool;
  out : list (Z * string);
  selfcmds : list string;
  gone : Z -> bool;
}.

Definition set_clients (c : list client) (w : wcn) : wcn :=
  Wcn c (notify_count w) (state w) (btwifi_state w) (saved_btwifi_state w) (pending_events w)
    (notify_enabled w) (is_wcn_modem_enabled w) (out w) (selfcmds w) (gone w).
Definition set_state (s : Z) (w : wcn) : wcn :=
  Wcn (clients w) (notify_count w) s (btwifi_state w) (saved_btwifi_state w) (pending_events w)
    (notify_enabled w) (is_wcn_modem_enabled w) (out w) (selfcmds w) (gone w).
Definition set_btwifi (b : Z) (w : wcn) : wcn :=
  Wcn (clients w) (notify_count w) (state w) b (saved_btwifi_state w) (pending_events w)
    (notify_enabled w) (is_wcn_modem_enabled w) (out w) (selfcmds w) (gone w).
Definition set_saved (b : Z) (w : wcn) : wcn :=
  Wcn (clients w) (notify_count w) (state w) (btwifi_state w) b (pending_events w)
    (notify_enabled w) (is_wcn_modem_enabled w) (out w) (selfcmds w) (gone w).
Definition set_pending (b : Z) (w : wcn) : wcn :=
  Wcn (clients w) (notify_count w) (state w) (btwifi_state w) (saved_btwifi_state w) b
    (notify_enabled w) (is_wcn_modem_enabled w) (out w) (selfcmds w) (gone w).
Definition set_notify (b : bool) (w : wcn) : wcn :=
  Wcn (clients w) (notify_count w) (state w) (btwifi_state w) (saved_btwifi_state w) (pending_events w)
    b (is_wcn_modem_enabled w) (out w) (selfcmds w) (gone w).

Definition wcnd_send_selfcmd (cmd : string) (w : wcn) : wcn :=
  Wcn (clients w) (notify_count w) (state w) (btwifi_state w) (saved_btwifi_state w) (pending_events w)
    (notify_enabled w) (is_wcn_modem_enabled w) (out w) (selfcmds w ++ [cmd]) (gone w).

(** [send_msg]: the message with its final null character; false: the write
    failed. *)
Definition send_msg (fd : Z) (msg : string) (w : wcn) : wcn * bool :=
  (Wcn (clients w) (notify_count w + 1) (state w) (btwifi_state w) (saved_btwifi_state w)
     (pending_events w) (notify_enabled w) (is_wcn_modem_enabled w)
     (if gone w fd then out w else out w ++ [(fd, msg)]) (selfcmds w) (gone w),
   negb (gone w fd)).

(** The condition under which [wcnd_send_notify_to_client] picks a client. *)
Definition picked (notify_type : Z) (c : client) : bool :=
  (0 <=? sockfd c) &&
  ((ctype c =? notify_type)
   || ((notify_type =? WCND_CLIENT_TYPE_CMD) && ((ctype c .& WCND_CLIENT_TYPE_CMD_MASK) =? notify_type))).

Definition after_send (notify_type : Z) (ok : bool) (c : client) : client :=
  if negb ok then Client (-1) WCND_CLIENT_TYPE_NOTIFY
  else if (notify_type =? WCND_CLIENT_TYPE_CMD) || (notify_type =? WCND_CLIENT_TYPE_CMD_PENDING)
          || ((notify_type .& WCND_CLIENT_TYPE_CMD_MASK) =? WCND_CLIENT_TYPE_CMD)
  then Client (sockfd c) WCND_CLIENT_TYPE_SLEEP
  else c.

(** The loop over the clients: the updated prefix is [done]. *)
Fixpoint notify_loop (notify_type : Z) (info : string) (done todo : list client) (w : wcn) : wcn :=
  match todo with
  | [] => set_clients done w
  | c :: todo =>
      if picked notify_type c then
        let '(w, ok) := send_msg (sockfd c) info w in
        notify_loop notify_type info (done ++ [after_send notify_type ok c]) todo w
      else notify_loop notify_type info (done ++ [c]) todo w
  end.

Definition wcnd_send_notify_to_client (info : string) (notify_type : Z) (w : wcn) : wcn :=
  if (notify_type =? WCND_CLIENT_TYPE_NOTIFY) && negb (notify_enabled w) then w
  else notify_loop notify_type info [] (clients w) w.

(** [for (...) if(clients[i].sockfd == fd) { clients[i].type = t; break; }] *)
Fixpoint mark_client (fd t : Z) (cs : list client) : list client :=
  match cs with
  | [] => []
  | c :: cs => if sockfd c =? fd then Client (sockfd c) t :: cs else c :: mark_client fd t cs
  end.
Definition set_client_type (fd t : Z) (w : wcn) : wcn := set_clients (mark_client fd t (clients w)) w.

(** ** The five states *)

(** BT_OPEN / WIFI_OPEN: set the bit; BT_CLOSE / WIFI_CLOSE: clear it. *)
Definition open_bit (ev b : Z) : Z :=
  if ev =? WCND_EVENT_BT_OPEN then b .| WCND_BTWIFI_STATE_BT_ON
  else if ev =? WCND_EVENT_WIFI_OPEN then b .| WCND_BTWIFI_STATE_WIFI_ON else b.
Definition close_bit (ev b : Z) : Z :=
  if ev =? WCND_EVENT_BT_CLOSE then b .& Z.lnot WCND_BTWIFI_STATE_BT_ON
  else if ev =? WCND_EVENT_WIFI_CLOSE then b .& Z.lnot WCND_BTWIFI_STATE_WIFI_ON else b.

Definition is_open (ev : Z) : bool := (ev =? WCND_EVENT_BT_OPEN) || (ev =? WCND_EVENT_WIFI_OPEN).
Definition is_close (ev : Z) : bool := (ev =? WCND_EVENT_BT_CLOSE) || (ev =? WCND_EVENT_WIFI_CLOSE).

Definition answer (rsp : string) (t : Z) (w : wcn) : wcn := wcnd_send_notify_to_client rsp t w.

Definition wcn_state_cp2_stopped (m : message) (w : wcn) : wcn :=
  let ev := event m in
  let w := set_notify false w in
  if is_open ev then
    let w := set_btwifi (open_bit ev (btwifi_state w)) w in
    wcnd_send_selfcmd START_CP2 (set_state WCND_STATE_CP2_STARTING w)
  else if is_close ev || (ev =? WCND_EVENT_CP2POWEROFF_REQ) then answer OK_RSP WCND_CLIENT_TYPE_CMD w
  else if ev =? WCND_EVENT_PENGING_EVENT then
    let w := if negb ((pending_events w .& WCND_EVENT_BT_OPEN) =? 0)
             then set_btwifi (btwifi_state w .| WCND_BTWIFI_STATE_BT_ON) w else w in
    let w := if negb ((pending_events w .& WCND_EVENT_WIFI_OPEN) =? 0)
             then set_btwifi (btwifi_state w .| WCND_BTWIFI_STATE_WIFI_ON) w else w in
    if negb (btwifi_state w =? 0) || negb ((pending_events w .& WCND_EVENT_CP2POWERON_REQ) =? 0)
    then wcnd_send_selfcmd START_CP2 (set_state WCND_STATE_CP2_STARTING w)
    else w
  else if ev =? WCND_EVENT_CP2POWERON_REQ then
    wcnd_send_selfcmd START_CP2 (set_state WCND_STATE_CP2_STARTING w)
  else if ev =? WCND_EVENT_CP2_OK then set_notify true (set_state WCND_STATE_CP2_STARTED w)
  else w.

Definition wcn_state_cp2_starting (m : message) (w : wcn) : wcn :=
  let ev := event m in
  let w := set_notify false w in
  if is_close ev then answer OK_RSP WCND_CLIENT_TYPE_CMD w
  else if is_open ev then set_btwifi (open_bit ev (btwifi_state w)) w
  else if ev =? WCND_EVENT_CP2_OK then
    let w := set_state WCND_STATE_CP2_STARTED w in
    let w := answer OK_RSP WCND_CLIENT_TYPE_CMD w in
    let w := answer OK_RSP WCND_CLIENT_TYPE_CMD_PENDING w in
    set_notify true w
  else if ev =? WCND_EVENT_CP2_DOWN then
    let w := set_state WCND_STATE_CP2_STOPPED w in
    let w := answer FAIL_RSP WCND_CLIENT_TYPE_CMD w in
    answer FAIL_RSP WCND_CLIENT_TYPE_CMD_PENDING w
  else if ev =? WCND_EVENT_CP2POWEROFF_REQ then answer OK_RSP WCND_CLIENT_TYPE_CMD w
  else w.

Definition wcn_state_cp2_started (m : message) (w : wcn) : wcn :=
  let ev := event m in
  let w := set_notify true w in
  if is_close ev || (ev =? WCND_EVENT_CP2POWEROFF_REQ) then
    if negb (saved_btwifi_state w =? 0) then
      let w := set_saved (close_bit ev (saved_btwifi_state w)) w in
      answer OK_RSP WCND_CLIENT_TYPE_CMD w
    else
      let w := set_btwifi (close_bit ev (btwifi_state w)) w in
      if btwifi_state w =? 0 then wcnd_send_selfcmd STOP_CP2 (set_state WCND_STATE_CP2_STOPPING w)
      else answer OK_RSP WCND_CLIENT_TYPE_CMD w
  else if is_open ev || (ev =? WCND_EVENT_CP2POWERON_REQ) then
    answer OK_RSP WCND_CLIENT_TYPE_CMD (set_btwifi (open_bit ev (btwifi_state w)) w)
  else if ev =? WCND_EVENT_CP2_ASSERT then
    set_state WCND_STATE_CP2_ASSERT (set_saved (btwifi_state w) w)
  else if ev =? WCND_EVENT_CP2_DOWN then set_state WCND_STATE_CP2_STOPPED w
  else w.

Definition wcn_state_cp2_assert (m : message) (w : wcn) : wcn :=
  let ev := event m in
  let w := set_notify true w in
  if is_close ev then
    let w := if negb (saved_btwifi_state w =? 0)
             then set_saved (close_bit ev (saved_btwifi_state w)) w else w in
    let w := set_client_type (replyto_fd m) WCND_CLIENT_TYPE_CMD_SUBTYPE_CLOSE w in
    answer OK_RSP WCND_CLIENT_TYPE_CMD_SUBTYPE_CLOSE w
  else if is_open ev then
    let w := set_btwifi (open_bit ev (btwifi_state w)) w in
    set_client_type (replyto_fd m) WCND_CLIENT_TYPE_CMD_SUBTYPE_OPEN w
  else if ev =? WCND_EVENT_CP2_OK then
    answer OK_RSP WCND_CLIENT_TYPE_CMD (set_state WCND_STATE_CP2_STARTED w)
  else if ev =? WCND_EVENT_CP2_DOWN then
    answer FAIL_RSP WCND_CLIENT_TYPE_CMD (set_state WCND_STATE_CP2_STOPPED w)
  else w.

Definition wcn_state_cp2_stopping (m : message) (w : wcn) : wcn :=
  let ev := event m in
  let w := set_notify false w in
  if is_close ev || (ev =? WCND_EVENT_CP2POWEROFF_REQ) then w
  else if is_open ev || (ev =? WCND_EVENT_CP2POWERON_REQ) then
    let w := set_client_type (replyto_fd m) WCND_CLIENT_TYPE_CMD_PENDING w in
    set_pending (pending_events w .| ev) w
  else if ev =? WCND_EVENT_CP2_DOWN then
    let w := set_state WCND_STATE_CP2_STOPPED w in
    let w := answer OK_RSP WCND_CLIENT_TYPE_CMD w in
    if negb (pending_events w =? 0) then wcnd_send_selfcmd PENDINGEVENT w else w
  else w.

Definition wcnd_sm_step (m : message) (w : wcn) : wcn :=
  if negb (is_wcn_modem_enabled w) then w
  else if state w =? WCND_STATE_CP2_STOPPED then wcn_state_cp2_stopped m w
  else if state w =? WCND_STATE_CP2_STARTING then wcn_state_cp2_starting m w
  else if state w =? WCND_STATE_CP2_STARTED then wcn_state_cp2_started m w
  else if state w =? WCND_STATE_CP2_ASSERT then wcn_state_cp2_assert m w
  else if state w =? WCND_STATE_CP2_STOPPING then wcn_state_cp2_stopping m w
  else w.

Definition wcnd_sm_init (w : wcn) : wcn :=
  if negb (is_wcn_modem_enabled w) then
    let w := set_notify true (set_state WCND_STATE_CP2_STARTED w) in
    set_btwifi (btwifi_state w .| (WCND_BTWIFI_STATE_BT_ON .| WCND_BTWIFI_STATE_WIFI_ON)) w
  else set_notify false (set_state WCND_STATE_CP2_STOPPED w).

(** ** The commands that reach the state machine (wcnd_cmd.c) *)

Definition btwifi_event (cmd : string) : Z :=
  if bool_decide (cmd = "BT-CLOSE") then WCND_EVENT_BT_CLOSE
  else if bool_decide (cmd = "BT-OPEN") then WCND_EVENT_BT_OPEN
  else if bool_decide (cmd = "WIFI-CLOSE") then WCND_EVENT_WIFI_CLOSE
  else if bool_decide (cmd = "WIFI-OPEN") then WCND_EVENT_WIFI_OPEN
  else 0.

Definition wcn_process_btwificmd (fd : Z) (cmd : string) (w : wcn) : wcn :=
  if negb (is_wcn_modem_enabled w) then answer OK_RSP WCND_CLIENT_TYPE_CMD w
  else wcnd_sm_step (Message (btwifi_event cmd) fd) w.

(** The [poweron] and [poweroff] commands; [self] is the daemon's end of the
    socket pair. *)
Definition power_cmd (ev fd self : Z) (w : wcn) : wcn :=
  let w := set_client_type fd WCND_CLIENT_TYPE_CMD w in
  if negb (is_wcn_modem_enabled w) then answer OK_RSP WCND_CLIENT_TYPE_CMD w
  else wcnd_sm_step (Message ev (if fd =? self then -1 else fd)) w.

Definition btwifi_cmd (fd : Z) (cmd : string) (w : wcn) : wcn :=
  wcn_process_btwificmd fd cmd (set_client_type fd WCND_CLIENT_TYPE_CMD w).

(** ** Frame lemmas *)

#[global] Arguments answer : simpl never.

(** What sending answers cannot change. *)
Record same_ctl (w w' : wcn) : Prop := SameCtl {
  sc_state : state w' = state w;
  sc_btwifi : btwifi_state w' = btwifi_state w;
  sc_saved : saved_btwifi_state w' = saved_btwifi_state w;
  sc_pending : pending_events w' = pending_events w;
  sc_notify : notify_enabled w' = notify_enabled w;
  sc_enabled : is_wcn_modem_enabled w' = is_wcn_modem_enabled w;
  sc_self : selfcmds w' = selfcmds w;
  sc_gone : gone w' = gone w;
  sc_clients : length (clients w') = length (clients w);
}.

#[export] Instance same_ctl_preorder : PreOrder same_ctl.
Proof.
  split; [by split|]. intros x y z [] []. split; congruence.
Qed.

Lemma notify_loop_ctl t info done todo w :
  length (clients w) = (length done + length todo)%nat ->
  same_ctl w (notify_loop t info done todo w).
Proof.
  revert done w. induction todo as [|c todo IH]; intros done w Hl; cbn [notify_loop].
  - split; try done. cbn in *. lia.
  - destruct (picked t c).
    + cbn [send_msg]. etrans; [|apply IH; cbn; rewrite length_app; cbn in *; lia]. by split.
    + apply IH. rewrite length_app. cbn in *. lia.
Qed.

Lemma answer_ctl rsp t w : same_ctl w (answer rsp t w).
Proof.
  unfold answer, wcnd_send_notify_to_client. destruct (_ && _); [done|]. by apply notify_loop_ctl.
Qed.

Lemma mark_client_length fd t cs : length (mark_client fd t cs) = length cs.
Proof. induction cs as [|c cs IH]; [done|]. cbn. case_match; cbn; auto. Qed.

Lemma client_type_ctl fd t w : same_ctl w (set_client_type fd t w).
Proof. split; try done. apply mark_client_length. Qed.

(** Rewriting with the frames. *)
Section AnswerFields.
Context (rsp : string) (t : Z) (w : wcn).
Lemma answer_state : state (answer rsp t w) = state w.
Proof. apply answer_ctl. Qed.
Lemma answer_btwifi : btwifi_state (answer rsp t w) = btwifi_state w.
Proof. apply answer_ctl. Qed.
Lemma answer_saved : saved_btwifi_state (answer rsp t w) = saved_btwifi_state w.
Proof. apply answer_ctl. Qed.
Lemma answer_pending : pending_events (answer rsp t w) = pending_events w.
Proof. apply answer_ctl. Qed.
Lemma answer_self : selfcmds (answer rsp t w) = selfcmds w.
Proof. apply answer_ctl. Qed.
Lemma answer_enabled : is_wcn_modem_enabled (answer rsp t w) = is_wcn_modem_enabled w.
Proof. apply answer_ctl. Qed.
Lemma answer_clients : length (clients (answer rsp t w)) = length (clients w).
Proof. apply answer_ctl. Qed.
End AnswerFields.
Create Rewrite HintDb wcn.
#[export] Hint Rewrite answer_state answer_btwifi answer_saved answer_pending answer_self answer_enabled
  answer_clients mark_client_length : wcn.

(** ** The transitions *)

Definition states_ok (w : wcn) : Prop := 0 <= state w <= 4.

(** The commands a step sends to the daemon itself, from the states before and
    after it. *)
Definition self_of (w w' : wcn) : list string :=
  if (state w =? WCND_STATE_CP2_STOPPED) && (state w' =? WCND_STATE_CP2_STARTING) then [START_CP2]
  else if (state w =? WCND_STATE_CP2_STARTED) && (state w' =? WCND_STATE_CP2_STOPPING) then [STOP_CP2]
  else if (state w =? WCND_STATE_CP2_STOPPING) && (state w' =? WCND_STATE_CP2_STOPPED)
          && negb (pending_events w =? 0) then [PENDINGEVENT]
  else [].

(** A step of the machine in each state. *)
Lemma step_cases m w :
  states_ok w -> is_wcn_modem_enabled w = true ->
  (state w = WCND_STATE_CP2_STOPPED /\ wcnd_sm_step m w = wcn_state_cp2_stopped m w) \/
  (state w = WCND_STATE_CP2_STARTING /\ wcnd_sm_step m w = wcn_state_cp2_starting m w) \/
  (state w = WCND_STATE_CP2_STARTED /\ wcnd_sm_step m w = wcn_state_cp2_started m w) \/
  (state w = WCND_STATE_CP2_ASSERT /\ wcnd_sm_step m w = wcn_state_cp2_assert m w) \/
  (state w = WCND_STATE_CP2_STOPPING /\ wcnd_sm_step m w = wcn_state_cp2_stopping m w).
Proof.
  intros Hs He. unfold wcnd_sm_step, states_ok in *. rewrite He. cbn [negb].
  assert (state w = 2 \/ state w = 1 \/ state w = 0 \/ state w = 4 \/ state w = 3) as [H|[H|[H|[H|H]]]] by lia;
    rewrite H; auto 10.
Qed.

(** Case analysis on the conditions of a handler. *)
Ltac handler :=
  repeat match goal with
  | |- context [if ?b then _ else _] =>
      match b with
      | context [answer] => fail 1
      | _ => destruct b eqn:?
      end
  end.

Lemma self_of_eq w w' s : state w = s -> self_of w w' =
  if (s =? WCND_STATE_CP2_STOPPED) && (state w' =? WCND_STATE_CP2_STARTING) then [START_CP2]
  else if (s =? WCND_STATE_CP2_STARTED) && (state w' =? WCND_STATE_CP2_STOPPING) then [STOP_CP2]
  else if (s =? WCND_STATE_CP2_STOPPING) && (state w' =? WCND_STATE_CP2_STOPPED)
          && negb (pending_events w =? 0) then [PENDINGEVENT]
  else [].
Proof. by intros <-. Qed.

Record step_ok (w w' : wcn) : Prop := StepOk {
  sk_self : selfcmds w' = (selfcmds w ++ self_of w w')%list;
  sk_states : states_ok w';
  sk_stop : state w' = WCND_STATE_CP2_STOPPING -> state w <> WCND_STATE_CP2_STOPPING -> btwifi_state w' = 0;
  sk_stopping : state w = WCND_STATE_CP2_STOPPING -> btwifi_state w' = btwifi_state w;
}.

(** Closes the leaves: the states before and after are constants. *)
Ltac leaf H :=
  split; unfold self_of, states_ok; cbn in *; autorewrite with wcn in *; cbn in *;
  rewrite ?H; cbn; rewrite ?app_nil_r; repeat match goal with E : _ = true |- _ => rewrite E | E : _ = false |- _ => rewrite E end;
  try done; try lia; try (symmetry; apply app_nil_r).

Lemma stopped_ok m w : state w = WCND_STATE_CP2_STOPPED -> step_ok w (wcn_state_cp2_stopped m w).
Proof. intros H. unfold wcn_state_cp2_stopped. cbn zeta. autorewrite with wcn. handler; leaf H. Qed.
Lemma starting_ok m w : state w = WCND_STATE_CP2_STARTING -> step_ok w (wcn_state_cp2_starting m w).
Proof. intros H. unfold wcn_state_cp2_starting. cbn zeta. autorewrite with wcn. handler; leaf H. Qed.
Lemma started_ok m w : state w = WCND_STATE_CP2_STARTED -> step_ok w (wcn_state_cp2_started m w).
Proof. intros H. unfold wcn_state_cp2_started. cbn zeta. autorewrite with wcn. handler; leaf H. Qed.
Lemma assert_ok m w : state w = WCND_STATE_CP2_ASSERT -> step_ok w (wcn_state_cp2_assert m w).
Proof. intros H. unfold wcn_state_cp2_assert. cbn zeta. autorewrite with wcn. handler; leaf H. Qed.
Lemma stopping_ok m w : state w = WCND_STATE_CP2_STOPPING -> step_ok w (wcn_state_cp2_stopping m w).
Proof. intros H. unfold wcn_state_cp2_stopping. cbn zeta. autorewrite with wcn. handler; leaf H. Qed.

Lemma sm_step_ok m w : states_ok w -> is_wcn_modem_enabled w = true -> step_ok w (wcnd_sm_step m w).
Proof.
  intros Hs He. destruct (step_cases m w Hs He) as [[H ->]|[[H ->]|[[H ->]|[[H ->]|[H ->]]]]];
    auto using stopped_ok, starting_ok, started_ok, assert_ok, stopping_ok.
Qed.

(** ** Ranges *)

Lemma open_bit_range ev b : 0 <= b < 4 -> 0 <= open_bit ev b < 4.
Proof.
  intros Hb. assert (b = 0 \/ b = 1 \/ b = 2 \/ b = 3) as [->|[->|[->| ->]]] by lia;
    unfold open_bit; repeat case_match; vm_compute; split; congruence.
Qed.
Lemma close_bit_range ev b : 0 <= b < 4 -> 0 <= close_bit ev b < 4.
Proof.
  intros Hb. assert (b = 0 \/ b = 1 \/ b = 2 \/ b = 3) as [->|[->|[->| ->]]] by lia;
    unfold close_bit; repeat case_match; vm_compute; split; congruence.
Qed.
Lemma set_bit_range k b : k = 1 \/ k = 2 -> 0 <= b < 4 -> 0 <= b .| k < 4.
Proof.
  intros Hk Hb. change 4 with (2 ^ 2). apply lor_bound; [lia|done|]. change (2 ^ 2) with 4. lia.
Qed.

(** The events that can be pending. *)
Definition PENDABLE : Z := 0x103.
Definition pend_ok (p : Z) : Prop := 0 <= p /\ p .& PENDABLE = p.

Lemma pend_add p ev :
  pend_ok p -> is_open ev || (ev =? WCND_EVENT_CP2POWERON_REQ) = true -> pend_ok (p .| ev) /\ p .| ev <> 0.
Proof.
  intros [H1 H2] He. assert (ev = 1 \/ ev = 2 \/ ev = 256) as Hev.
  { unfold is_open, WCND_EVENT_BT_OPEN, WCND_EVENT_WIFI_OPEN, WCND_EVENT_CP2POWERON_REQ in He. lia. }
  split; [split|].
  - apply Z.lor_nonneg. lia.
  - rewrite Z.land_lor_distr_l, H2. by destruct Hev as [->|[->| ->]].
  - intros [_ ->]%Z.lor_eq_0_iff. lia.
Qed.

Record wcn_inv (w : wcn) : Prop := WcnInv {
  wi_states : states_ok w;
  wi_enabled : is_wcn_modem_enabled w = true;
  wi_btwifi : 0 <= btwifi_state w < 4;
  wi_saved : 0 <= saved_btwifi_state w < 4;
  wi_pending : pend_ok (pending_events w);
  wi_clients : length (clients w) = 10%nat;
  wi_stopping : state w = WCND_STATE_CP2_STOPPING -> btwifi_state w = 0;
}.

(** The ranges along a step of each state. *)
Record ranges (w : wcn) : Prop := Ranges {
  rg_enabled : is_wcn_modem_enabled w = true;
  rg_btwifi : 0 <= btwifi_state w < 4;
  rg_saved : 0 <= saved_btwifi_state w < 4;
  rg_pending : pend_ok (pending_events w);
  rg_clients : length (clients w) = 10%nat;
}.

Ltac ranges_leaf :=
  split; cbn; autorewrite with wcn; cbn; autorewrite with wcn; cbn;
  auto using open_bit_range, close_bit_range, set_bit_range.

Lemma sm_step_ranges m w : states_ok w -> ranges w -> ranges (wcnd_sm_step m w).
Proof.
  intros Hs [R1 R2 R3 R4 R5]. destruct (step_cases m w Hs R1) as [[H ->]|[[H ->]|[[H ->]|[[H ->]|[H ->]]]]].
  - unfold wcn_state_cp2_stopped. cbn zeta. autorewrite with wcn. handler; ranges_leaf.
  - unfold wcn_state_cp2_starting. cbn zeta. autorewrite with wcn. handler; ranges_leaf.
  - unfold wcn_state_cp2_started. cbn zeta. autorewrite with wcn. handler; ranges_leaf.
  - unfold wcn_state_cp2_assert. cbn zeta. autorewrite with wcn. handler; ranges_leaf.
  - unfold wcn_state_cp2_stopping. cbn zeta. autorewrite with wcn. handler; ranges_leaf.
    by apply pend_add.
Qed.

Lemma sm_step_inv m w : wcn_inv w -> wcn_inv (wcnd_sm_step m w).
Proof.
  intros [H1 H2 H3 H4 H5 H6 H7]. destruct (sm_step_ok m w H1 H2) as [S1 S2 S3 S4].
  destruct (sm_step_ranges m w H1) as [R1 R2 R3 R4 R5]; [by split|]. split; auto.
  intros Hst. destruct (decide (state w = WCND_STATE_CP2_STOPPING)) as [E|E]; [|by apply S3].
  rewrite (S4 E). auto.
Qed.

(** ** Runs of the daemon *)

(** What the client thread does between two messages: accept and close client
    sockets; run a command of a client; deliver an event of CP2. *)
Inductive wcn_step (w : wcn) : wcn -> Prop :=
| ws_sockets cs : length cs = 10%nat -> wcn_step w (set_clients cs w)
| ws_btwifi fd cmd : wcn_step w (btwifi_cmd fd cmd w)
| ws_power ev fd self : ev = WCND_EVENT_CP2POWERON_REQ \/ ev = WCND_EVENT_CP2POWEROFF_REQ ->
    wcn_step w (power_cmd ev fd self w)
| ws_event m : wcn_step w (wcnd_sm_step m w).

(** The manager after [wcnd_sm_init]. *)
Definition wcn_start (w : wcn) : Prop :=
  exists w0, w = wcnd_sm_init w0 /\ is_wcn_modem_enabled w0 = true /\ length (clients w0) = 10%nat /\
    btwifi_state w0 = 0 /\ saved_btwifi_state w0 = 0 /\ pending_events w0 = 0.

Lemma wcn_start_inv w : wcn_start w -> wcn_inv w.
Proof.
  intros (w0 & -> & He & Hc & Hb & Hs & Hp). unfold wcnd_sm_init. rewrite He. cbn [negb].
  split; cbn; auto; try (rewrite ?Hb, ?Hs, ?Hp; split; done); try done.
Qed.

Lemma client_type_inv fd t w : wcn_inv w -> wcn_inv (set_client_type fd t w).
Proof. intros [H1 H2 H3 H4 H5 H6 H7]. split; auto. cbn. by rewrite mark_client_length. Qed.

Lemma btwifi_cmd_eq fd cmd w :
  is_wcn_modem_enabled w = true ->
  btwifi_cmd fd cmd w =
    wcnd_sm_step (Message (btwifi_event cmd) fd) (set_client_type fd WCND_CLIENT_TYPE_CMD w).
Proof. intros He. unfold btwifi_cmd, wcn_process_btwificmd. cbn. by rewrite He. Qed.

Lemma power_cmd_eq ev fd self w :
  is_wcn_modem_enabled w = true ->
  power_cmd ev fd self w =
    wcnd_sm_step (Message ev (if fd =? self then -1 else fd)) (set_client_type fd WCND_CLIENT_TYPE_CMD w).
Proof. intros He. unfold power_cmd. cbn. by rewrite He. Qed.

Lemma wcn_step_inv w w' : wcn_step w w' -> wcn_inv w -> wcn_inv w'.
Proof.
  intros Hst Hi. destruct Hst as [cs Hcs|fd cmd|ev fd self _|m].
  - destruct Hi. by split.
  - rewrite btwifi_cmd_eq by apply Hi. apply sm_step_inv. by apply client_type_inv.
  - rewrite power_cmd_eq by apply Hi. apply sm_step_inv. by apply client_type_inv.
  - by apply sm_step_inv.
Qed.

Lemma wcn_run_inv w w' : rtc wcn_step w w' -> wcn_inv w -> wcn_inv w'.
Proof. induction 1; eauto using wcn_step_inv. Qed.

(** ** Answers *)

Lemma notify_loop_spec t info done todo w :
  clients (notify_loop t info done todo w) =
    (done ++ map (fun c => if picked t c then after_send t (negb (gone w (sockfd c))) c else c) todo)%list /\
  out (notify_loop t info done todo w) =
    (out w ++ map (fun c => (sockfd c, info)) (filter (fun c => picked t c = true /\ gone w (sockfd c) = false) todo))%list.
Proof.
  revert done w. induction todo as [|c todo IH]; intros done w; cbn [notify_loop map].
  - by rewrite !app_nil_r.
  - rewrite filter_cons. destruct (picked t c) eqn:Ep.
    + cbn [send_msg]. destruct (IH (done ++ [after_send t (negb (gone w (sockfd c))) c])%list
        (send_msg (sockfd c) info w).1) as [H1 H2]. cbn [send_msg fst] in H1, H2. rewrite H1, H2.
      cbn [gone out]. rewrite <- app_assoc. split; [done|].
      destruct (gone w (sockfd c)) eqn:Eg.
      * rewrite decide_False by naive_solver. done.
      * rewrite decide_True by done. by rewrite <- app_assoc.
    + destruct (IH (done ++ [c])%list w) as [H1 H2]. rewrite H1, H2, <- app_assoc.
      rewrite decide_False by naive_solver. done.
Qed.

Lemma answer_spec rsp t w :
  t <> WCND_CLIENT_TYPE_NOTIFY ->
  clients (answer rsp t w) =
    map (fun c => if picked t c then after_send t (negb (gone w (sockfd c))) c else c) (clients w) /\
  out (answer rsp t w) =
    (out w ++ map (fun c => (sockfd c, rsp)) (filter (fun c => picked t c = true /\ gone w (sockfd c) = false) (clients w)))%list /\
  gone (answer rsp t w) = gone w.
Proof.
  intros Ht. unfold answer, wcnd_send_notify_to_client.
  destruct (Z.eqb_spec t WCND_CLIENT_TYPE_NOTIFY); [done|]. cbn [andb].
  destruct (notify_loop_spec t rsp [] (clients w) w) as [-> ->].
  split; [done|]. split; [done|]. by apply notify_loop_ctl.
Qed.

(** A client that waits for the outcome of a command. *)
Definition waiting (c : client) : bool :=
  picked WCND_CLIENT_TYPE_CMD c || picked WCND_CLIENT_TYPE_CMD_PENDING c.

Lemma after_send_idle t ok c :
  t = WCND_CLIENT_TYPE_CMD \/ t = WCND_CLIENT_TYPE_CMD_PENDING -> waiting (after_send t ok c) = false.
Proof.
  intros Ht. assert ((t =? WCND_CLIENT_TYPE_CMD) || (t =? WCND_CLIENT_TYPE_CMD_PENDING) = true) as E
    by (destruct Ht as [->| ->]; done).
  unfold after_send. destruct ok; cbn [negb]; [|done]. rewrite E. cbn [orb].
  unfold waiting, picked. cbn [sockfd ctype].
  by destruct (0 <=? sockfd c).
Qed.

(** Both rounds of answers of a start that succeeded or failed. *)
Lemma answer_both rsp w c (w' := answer rsp WCND_CLIENT_TYPE_CMD_PENDING (answer rsp WCND_CLIENT_TYPE_CMD w)) :
  (c ∈ clients w -> waiting c = true -> gone w (sockfd c) = false -> (sockfd c, rsp) ∈ out w') /\
  (c ∈ clients w' -> waiting c = false).
Proof.
  subst w'. set (w1 := answer rsp WCND_CLIENT_TYPE_CMD w).
  destruct (answer_spec rsp WCND_CLIENT_TYPE_CMD w ltac:(done)) as (C1 & O1 & G1). fold w1 in C1, O1, G1.
  destruct (answer_spec rsp WCND_CLIENT_TYPE_CMD_PENDING w1 ltac:(done)) as (C2 & O2 & G2). split.
  - intros Hc Hw Hg. rewrite O2. apply elem_of_app.
    destruct (picked WCND_CLIENT_TYPE_CMD c) eqn:Ep.
    + left. rewrite O1. apply elem_of_app. right. apply list_elem_of_fmap. exists c. split; [done|].
      by apply list_elem_of_filter.
    + right. unfold waiting in Hw. rewrite Ep in Hw. cbn in Hw.
      apply list_elem_of_fmap. exists c. split; [done|]. apply list_elem_of_filter. rewrite G1. split; [done|].
      rewrite C1. apply list_elem_of_fmap. exists c. by rewrite Ep.
  - rewrite C2. intros (c1 & -> & Hc1)%list_elem_of_fmap.
    destruct (picked WCND_CLIENT_TYPE_CMD_PENDING c1) eqn:Ep2; [apply after_send_idle; auto|].
    rewrite C1 in Hc1. apply list_elem_of_fmap in Hc1 as (c0 & -> & _).
    destruct (picked WCND_CLIENT_TYPE_CMD c0) eqn:Ep0; [apply after_send_idle; auto|].
    unfold waiting. by rewrite Ep0, Ep2.
Qed.

(** The pending events after a step. *)
Lemma step_pending m w :
  states_ok w -> is_wcn_modem_enabled w = true ->
  pending_events (wcnd_sm_step m w) =
    if (state w =? WCND_STATE_CP2_STOPPING) && (is_open (event m) || (event m =? WCND_EVENT_CP2POWERON_REQ))
    then pending_events w .| event m else pending_events w.
Proof.
  intros Hs He. destruct (step_cases m w Hs He) as [[H ->]|[[H ->]|[[H ->]|[[H ->]|[H ->]]]]]; rewrite H; cbn [andb].
  - unfold wcn_state_cp2_stopped. cbn zeta. autorewrite with wcn. handler; cbn; by autorewrite with wcn.
  - unfold wcn_state_cp2_starting. cbn zeta. autorewrite with wcn. handler; cbn; by autorewrite with wcn.
  - unfold wcn_state_cp2_started. cbn zeta. autorewrite with wcn. handler; cbn; by autorewrite with wcn.
  - unfold wcn_state_cp2_assert. cbn zeta. autorewrite with wcn. handler; cbn; by autorewrite with wcn.
  - unfold wcn_state_cp2_stopping. cbn zeta. autorewrite with wcn.
    change (WCND_STATE_CP2_STOPPING =? WCND_STATE_CP2_STOPPING) with true. cbn [andb].
    destruct (is_close (event m) || (event m =? WCND_EVENT_CP2POWEROFF_REQ)) eqn:E1.
    + assert (is_open (event m) || (event m =? WCND_EVENT_CP2POWERON_REQ) = false) as ->; [|done].
      unfold is_open, is_close, WCND_EVENT_BT_OPEN, WCND_EVENT_WIFI_OPEN, WCND_EVENT_BT_CLOSE,
        WCND_EVENT_WIFI_CLOSE, WCND_EVENT_CP2POWERON_REQ, WCND_EVENT_CP2POWEROFF_REQ in *. lia.
    + handler; cbn; by autorewrite with wcn.
Qed.

(** With events pending, the pending event restarts CP2. *)
Lemma pending_restarts w fd :
  is_wcn_modem_enabled w = true -> state w = WCND_STATE_CP2_STOPPED -> pend_ok (pending_events w) ->
  0 <= btwifi_state w -> pending_events w <> 0 ->
  state (wcnd_sm_step (Message WCND_EVENT_PENGING_EVENT fd) w) = WCND_STATE_CP2_STARTING.
Proof.
  intros He Hs [Hp1 Hp2] Hb Hne. unfold wcnd_sm_step. rewrite He, Hs. cbn [negb].
  change (WCND_STATE_CP2_STOPPED =? WCND_STATE_CP2_STOPPED) with true. cbn iota.
  change (wcn_state_cp2_stopped (Message WCND_EVENT_PENGING_EVENT fd) w) with
    (let w := set_notify false w in
     let w := if negb ((pending_events w .& WCND_EVENT_BT_OPEN) =? 0)
              then set_btwifi (btwifi_state w .| WCND_BTWIFI_STATE_BT_ON) w else w in
     let w := if negb ((pending_events w .& WCND_EVENT_WIFI_OPEN) =? 0)
              then set_btwifi (btwifi_state w .| WCND_BTWIFI_STATE_WIFI_ON) w else w in
     if negb (btwifi_state w =? 0) || negb ((pending_events w .& WCND_EVENT_CP2POWERON_REQ) =? 0)
     then wcnd_send_selfcmd START_CP2 (set_state WCND_STATE_CP2_STARTING w) else w).
  cbn zeta. assert (forall z k, z .| k = 0 -> k = 0) as Hor by (intros z k [_ H]%Z.lor_eq_0_iff; done).
  cbn. destruct ((pending_events w .& WCND_EVENT_BT_OPEN) =? 0) eqn:E1; cbn;
    destruct ((pending_events w .& WCND_EVENT_WIFI_OPEN) =? 0) eqn:E2; cbn.
  - assert (((pending_events w .& WCND_EVENT_CP2POWERON_REQ) =? 0) = false) as ->.
    { apply Z.eqb_neq. intros E3. apply Hne. rewrite <- Hp2.
      change PENDABLE with (WCND_EVENT_BT_OPEN .| WCND_EVENT_WIFI_OPEN .| WCND_EVENT_CP2POWERON_REQ).
      rewrite !Z.land_lor_distr_r. apply Z.eqb_eq in E1, E2. rewrite E1, E2, E3. done. }
    cbn [negb]. by rewrite orb_true_r.
  - destruct (Z.eqb_spec (btwifi_state w .| WCND_BTWIFI_STATE_WIFI_ON) 0) as [E|E]; [by apply Hor in E|done].
  - destruct (Z.eqb_spec (btwifi_state w .| WCND_BTWIFI_STATE_BT_ON) 0) as [E|E]; [by apply Hor in E|done].
  - destruct (Z.eqb_spec (btwifi_state w .| WCND_BTWIFI_STATE_BT_ON .| WCND_BTWIFI_STATE_WIFI_ON) 0) as [E|E];
      [by apply Hor in E|done].
Qed.

(** ** Properties *)

(** The transitions of CP2 as a table: a pair of state and event in the list of a
    row leads to its state; all other pairs leave the state as it is. *)
Definition row (s ev : Z) (l : list (Z * Z)) : bool := existsb (fun p => (s =? p.1) && (ev =? p.2)) l.
Definition cp2_next (s ev : Z) (all_off restart : bool) : Z :=
  if row s ev [(WCND_STATE_CP2_STOPPED, WCND_EVENT_BT_OPEN); (WCND_STATE_CP2_STOPPED, WCND_EVENT_WIFI_OPEN);
               (WCND_STATE_CP2_STOPPED, WCND_EVENT_CP2POWERON_REQ)] then WCND_STATE_CP2_STARTING
  else if row s ev [(WCND_STATE_CP2_STOPPED, WCND_EVENT_PENGING_EVENT)]
  then if restart then WCND_STATE_CP2_STARTING else s
  else if row s ev [(WCND_STATE_CP2_STARTING, WCND_EVENT_CP2_OK); (WCND_STATE_CP2_ASSERT, WCND_EVENT_CP2_OK);
                    (WCND_STATE_CP2_STOPPED, WCND_EVENT_CP2_OK)] then WCND_STATE_CP2_STARTED
  else if row s ev [(WCND_STATE_CP2_STARTING, WCND_EVENT_CP2_DOWN); (WCND_STATE_CP2_STARTED, WCND_EVENT_CP2_DOWN);
                    (WCND_STATE_CP2_ASSERT, WCND_EVENT_CP2_DOWN); (WCND_STATE_CP2_STOPPING, WCND_EVENT_CP2_DOWN)]
  then WCND_STATE_CP2_STOPPED
  else if row s ev [(WCND_STATE_CP2_STARTED, WCND_EVENT_BT_CLOSE); (WCND_STATE_CP2_STARTED, WCND_EVENT_WIFI_CLOSE);
                    (WCND_STATE_CP2_STARTED, WCND_EVENT_CP2POWEROFF_REQ)]
  then if all_off then WCND_STATE_CP2_STOPPING else s
  else if row s ev [(WCND_STATE_CP2_STARTED, WCND_EVENT_CP2_ASSERT)] then WCND_STATE_CP2_ASSERT
  else s.

(** Bit [k] (0 is BT, 1 is WiFi) of the services that are on, and of those that were
    on when CP2 failed: the event 2^k opens the service, 2^(k+2) closes it, and bit
    [k] of the pending events is an open that waits. *)
Definition service_next (s ev saved : Z) (on waits : bool) (k : Z) : bool :=
  if (ev =? 2 ^ k) && negb (s =? WCND_STATE_CP2_STOPPING) then true
  else if (ev =? 2 ^ (k + 2)) && (s =? WCND_STATE_CP2_STARTED) && (saved =? 0) then false
  else if (ev =? WCND_EVENT_PENGING_EVENT) && (s =? WCND_STATE_CP2_STOPPED) then on || waits
  else on.
Definition saved_next (s ev : Z) (on saved : bool) (k : Z) : bool :=
  if (ev =? WCND_EVENT_CP2_ASSERT) && (s =? WCND_STATE_CP2_STARTED) then on
  else if (ev =? 2 ^ (k + 2)) && ((s =? WCND_STATE_CP2_STARTED) || (s =? WCND_STATE_CP2_ASSERT)) then false
  else saved.

Record follows (ev : Z) (w w' : wcn) : Prop := Follows {
  fo_state : state w' = cp2_next (state w) ev ((saved_btwifi_state w =? 0) && (btwifi_state w' =? 0))
               (negb (btwifi_state w' =? 0) || Z.testbit (pending_events w) 8);
  fo_on : forall k, k = 0 \/ k = 1 -> Z.testbit (btwifi_state w') k =
    service_next (state w) ev (saved_btwifi_state w) (Z.testbit (btwifi_state w) k) (Z.testbit (pending_events w) k) k;
  fo_saved : forall k, k = 0 \/ k = 1 -> Z.testbit (saved_btwifi_state w') k =
    saved_next (state w) ev (Z.testbit (btwifi_state w) k) (Z.testbit (saved_btwifi_state w) k) k;
}.

Definition EVENTS : list Z := [1; 2; 4; 8; 16; 32; 64; 128; 256; 512].

Lemma event_cases ev : ev ∈ EVENTS \/ Forall (fun e => (ev =? e) = false) EVENTS.
Proof.
  destruct (decide (ev ∈ EVENTS)) as [H|H]; [by left|right]. apply Forall_forall. intros e He. apply Z.eqb_neq. by intros ->.
Qed.

Lemma land_bit p k : 0 <= k -> negb (p .& 2 ^ k =? 0) = Z.testbit p k.
Proof.
  intros Hk. destruct (Z.testbit p k) eqn:E.
  - apply negb_true_iff, Z.eqb_neq. intros H. apply (f_equal (fun z => Z.testbit z k)) in H.
    rewrite Z.land_spec, E, Z.pow2_bits_true, Z.bits_0 in H by done. done.
  - apply negb_false_iff, Z.eqb_eq. apply Z.bits_inj'. intros i Hi. rewrite Z.land_spec, Z.bits_0.
    destruct (Z.eq_dec i k) as [->|Hne]; [by rewrite E|]. rewrite (Z.pow2_bits_false k i) by lia. apply andb_false_r.
Qed.

Lemma small_cases b : 0 <= b < 4 -> b = 0 \/ b = 1 \/ b = 2 \/ b = 3.
Proof. lia. Qed.
(** The control part of the handlers: the state, the services that are on and those
    that were on, from the three pending bits. *)
Definition ctl_next (s ev b v : Z) (p0 p1 p8 : bool) : Z * Z * Z :=
  if s =? WCND_STATE_CP2_STOPPED then
    if is_open ev then (WCND_STATE_CP2_STARTING, open_bit ev b, v)
    else if is_close ev || (ev =? WCND_EVENT_CP2POWEROFF_REQ) then (s, b, v)
    else if ev =? WCND_EVENT_PENGING_EVENT then
      let b := if p0 then b .| WCND_BTWIFI_STATE_BT_ON else b in
      let b := if p1 then b .| WCND_BTWIFI_STATE_WIFI_ON else b in
      (if negb (b =? 0) || p8 then WCND_STATE_CP2_STARTING else s, b, v)
    else if ev =? WCND_EVENT_CP2POWERON_REQ then (WCND_STATE_CP2_STARTING, b, v)
    else if ev =? WCND_EVENT_CP2_OK then (WCND_STATE_CP2_STARTED, b, v) else (s, b, v)
  else if s =? WCND_STATE_CP2_STARTING then
    if is_close ev then (s, b, v) else if is_open ev then (s, open_bit ev b, v)
    else if ev =? WCND_EVENT_CP2_OK then (WCND_STATE_CP2_STARTED, b, v)
    else if ev =? WCND_EVENT_CP2_DOWN then (WCND_STATE_CP2_STOPPED, b, v) else (s, b, v)
  else if s =? WCND_STATE_CP2_STARTED then
    if is_close ev || (ev =? WCND_EVENT_CP2POWEROFF_REQ) then
      if negb (v =? 0) then (s, b, close_bit ev v)
      else (if close_bit ev b =? 0 then WCND_STATE_CP2_STOPPING else s, close_bit ev b, v)
    else if is_open ev || (ev =? WCND_EVENT_CP2POWERON_REQ) then (s, open_bit ev b, v)
    else if ev =? WCND_EVENT_CP2_ASSERT then (WCND_STATE_CP2_ASSERT, b, b)
    else if ev =? WCND_EVENT_CP2_DOWN then (WCND_STATE_CP2_STOPPED, b, v) else (s, b, v)
  else if s =? WCND_STATE_CP2_ASSERT then
    if is_close ev then (s, b, if negb (v =? 0) then close_bit ev v else v)
    else if is_open ev then (s, open_bit ev b, v)
    else if ev =? WCND_EVENT_CP2_OK then (WCND_STATE_CP2_STARTED, b, v)
    else if ev =? WCND_EVENT_CP2_DOWN then (WCND_STATE_CP2_STOPPED, b, v) else (s, b, v)
  else
    if is_close ev || (ev =? WCND_EVENT_CP2POWEROFF_REQ) then (s, b, v)
    else if is_open ev || (ev =? WCND_EVENT_CP2POWERON_REQ) then (s, b, v)
    else if ev =? WCND_EVENT_CP2_DOWN then (WCND_STATE_CP2_STOPPED, b, v) else (s, b, v).

Definition control (w : wcn) : Z * Z * Z := (state w, btwifi_state w, saved_btwifi_state w).

Lemma step_control m w (p := pending_events w) :
  states_ok w -> is_wcn_modem_enabled w = true ->
  control (wcnd_sm_step m w) =
    ctl_next (state w) (event m) (btwifi_state w) (saved_btwifi_state w) (negb (p .& WCND_EVENT_BT_OPEN =? 0))
      (negb (p .& WCND_EVENT_WIFI_OPEN =? 0)) (negb (p .& WCND_EVENT_CP2POWERON_REQ =? 0)).
Proof.
  intros Hs He. subst p. unfold control.
  destruct (step_cases m w Hs He) as [[H ->]|[[H ->]|[[H ->]|[[H ->]|[H ->]]]]]; rewrite H; unfold ctl_next.
  - unfold wcn_state_cp2_stopped. change (WCND_STATE_CP2_STOPPED =? WCND_STATE_CP2_STOPPED) with true. cbn zeta iota.
    handler; cbn in *; autorewrite with wcn; cbn; congruence.
  - unfold wcn_state_cp2_starting. change (WCND_STATE_CP2_STARTING =? WCND_STATE_CP2_STOPPED) with false.
    change (WCND_STATE_CP2_STARTING =? WCND_STATE_CP2_STARTING) with true. cbn zeta iota.
    handler; cbn in *; autorewrite with wcn; cbn; congruence.
  - unfold wcn_state_cp2_started. change (WCND_STATE_CP2_STARTED =? WCND_STATE_CP2_STOPPED) with false.
    change (WCND_STATE_CP2_STARTED =? WCND_STATE_CP2_STARTING) with false.
    change (WCND_STATE_CP2_STARTED =? WCND_STATE_CP2_STARTED) with true. cbn zeta iota.
    handler; cbn in *; autorewrite with wcn; cbn; congruence.
  - unfold wcn_state_cp2_assert. change (WCND_STATE_CP2_ASSERT =? WCND_STATE_CP2_STOPPED) with false.
    change (WCND_STATE_CP2_ASSERT =? WCND_STATE_CP2_STARTING) with false. change (WCND_STATE_CP2_ASSERT =? WCND_STATE_CP2_STARTED) with false.
    change (WCND_STATE_CP2_ASSERT =? WCND_STATE_CP2_ASSERT) with true. cbn zeta iota.
    handler; cbn in *; autorewrite with wcn; cbn; congruence.
  - unfold wcn_state_cp2_stopping. change (WCND_STATE_CP2_STOPPING =? WCND_STATE_CP2_STOPPED) with false.
    change (WCND_STATE_CP2_STOPPING =? WCND_STATE_CP2_STARTING) with false. change (WCND_STATE_CP2_STOPPING =? WCND_STATE_CP2_STARTED) with false.
    change (WCND_STATE_CP2_STOPPING =? WCND_STATE_CP2_ASSERT) with false. cbn zeta iota.
    autorewrite with wcn. handler; cbn in *; autorewrite with wcn; cbn; congruence.
Qed.

(** The table holds for one event and one value of each field. *)
Definition agrees (s ev b v : Z) (p0 p1 p8 : bool) : bool :=
  let '(s', b', v') := ctl_next s ev b v p0 p1 p8 in
  (s' =? cp2_next s ev ((v =? 0) && (b' =? 0)) (negb (b' =? 0) || p8)) &&
  forallb (fun kp => Bool.eqb (Z.testbit b' kp.1) (service_next s ev v (Z.testbit b kp.1) kp.2 kp.1) &&
                     Bool.eqb (Z.testbit v' kp.1) (saved_next s ev (Z.testbit b kp.1) (Z.testbit v kp.1) kp.1)) [(0, p0); (1, p1)].

Lemma forallb_elem {A} (f : A -> bool) l x : forallb f l = true -> x ∈ l -> f x = true.
Proof. intros H Hx. apply forallb_forall with (x := x) in H; [done|]. by apply list_elem_of_In. Qed.

Definition bools : list bool := [true; false].
Lemma agrees_events :
  forallb (fun s => forallb (fun ev => forallb (fun b => forallb (fun v => forallb (fun p0 => forallb (fun p1 => forallb (fun p8 =>
    agrees s ev b v p0 p1 p8) bools) bools) bools) [0; 1; 2; 3]) [0; 1; 2; 3]) EVENTS) [0; 1; 2; 3; 4] = true.
Proof. vm_compute. reflexivity. Qed.

Lemma agrees_all s ev b v p0 p1 p8 : 0 <= s <= 4 -> 0 <= b < 4 -> 0 <= v < 4 -> agrees s ev b v p0 p1 p8 = true.
Proof.
  intros Hs Hb Hv. assert (s ∈ [0; 1; 2; 3; 4]) as Hs' by (rewrite !elem_of_cons; lia). destruct (event_cases ev) as [He|He].
  - assert (forall p : bool, p ∈ bools) as Hp by (intros []; unfold bools; set_solver).
    pose proof agrees_events as H. apply (forallb_elem _ _ s) in H; [|done]. apply (forallb_elem _ _ ev) in H; [|done].
    apply (forallb_elem _ _ b) in H; [|rewrite !elem_of_cons; lia]. apply (forallb_elem _ _ v) in H; [|rewrite !elem_of_cons; lia].
    by apply (forallb_elem _ _ p0), (forallb_elem _ _ p1), (forallb_elem _ _ p8) in H.
  - unfold EVENTS in He. repeat (apply Forall_cons in He as [? He]).
    assert (ctl_next s ev b v p0 p1 p8 = (s, b, v)) as E.
    { rewrite !elem_of_cons in Hs'. unfold ctl_next, is_open, is_close.
      cbv [WCND_EVENT_BT_OPEN WCND_EVENT_WIFI_OPEN WCND_EVENT_BT_CLOSE WCND_EVENT_WIFI_CLOSE WCND_EVENT_CP2_OK WCND_EVENT_CP2_ASSERT
           WCND_EVENT_CP2_DOWN WCND_EVENT_PENGING_EVENT WCND_EVENT_CP2POWERON_REQ WCND_EVENT_CP2POWEROFF_REQ].
      repeat match goal with E : (ev =? _) = false |- _ => rewrite E end. cbn [orb]. by repeat case_match. }
    unfold agrees. rewrite E. unfold cp2_next, service_next, saved_next, row.
    cbv [WCND_EVENT_BT_OPEN WCND_EVENT_WIFI_OPEN WCND_EVENT_BT_CLOSE WCND_EVENT_WIFI_CLOSE WCND_EVENT_CP2_OK WCND_EVENT_CP2_ASSERT
         WCND_EVENT_CP2_DOWN WCND_EVENT_PENGING_EVENT WCND_EVENT_CP2POWERON_REQ WCND_EVENT_CP2POWEROFF_REQ].
    cbn [existsb fst snd forallb]. change (2 ^ 0) with 1. change (2 ^ 1) with 2. change (2 ^ (0 + 2)) with 4. change (2 ^ (1 + 2)) with 8.
    repeat match goal with E : (ev =? _) = false |- _ => rewrite E end. rewrite !andb_false_r. cbn [andb orb].
    by rewrite Z.eqb_refl, !Bool.eqb_reflx.
Qed.

Lemma step_follows m w : wcn_inv w -> follows (event m) w (wcnd_sm_step m w).
Proof.
  intros Hi. pose proof (step_control m w (wi_states _ Hi) (wi_enabled _ Hi)) as E.
  change WCND_EVENT_BT_OPEN with (2 ^ 0) in E. change WCND_EVENT_WIFI_OPEN with (2 ^ 1) in E. change WCND_EVENT_CP2POWERON_REQ with (2 ^ 8) in E.
  rewrite !land_bit in E by done. set (p := pending_events w) in *.
  pose proof (agrees_all (state w) (event m) _ _ (Z.testbit p 0) (Z.testbit p 1) (Z.testbit p 8) (wi_states _ Hi) (wi_btwifi _ Hi) (wi_saved _ Hi)) as H.
  unfold agrees in H. rewrite <- E in H. unfold control in H. cbn [forallb fst snd] in H.
  repeat match goal with E : _ && _ = true |- _ => apply andb_true_iff in E as [? ?] end.
  repeat match goal with E : Bool.eqb _ _ = true |- _ => apply Bool.eqb_prop in E end.
  split; [by apply Z.eqb_eq|intros k [->| ->]; done..].
Qed.

(** C33: The state machine of CP2 follows its table.  Along every run of the daemon
    with an enabled CP2, for every message: the next state is the one of the table
    [cp2_next], where a close or power-off in STARTED leads to STOPPING exactly when
    no service was saved by a failure and none is on after it, and a pending event
    in STOPPED starts CP2 exactly when a service is on after it or a power-on is
    pending; BT and WiFi are counted as on or off as [service_next] and [saved_next]
    say; an open or power-on that comes while CP2 is stopping is remembered as
    pending, and nothing else changes the pending events.  The step sends "startcp2"
    to the daemon itself exactly when it leaves STOPPED for STARTING, "stopcp2"
    exactly when it leaves STARTED for STOPPING, and "pendingevent" exactly when it
    leaves STOPPING for STOPPED with events pending; STOPPING is entered only with
    BT and WiFi off, and the manager stays in range. *)
Theorem wcn_transitions w0 w m (w' := wcnd_sm_step m w) :
  wcn_start w0 -> rtc wcn_step w0 w ->
  wcn_inv w /\ follows (event m) w w' /\
  pending_events w' = (if (state w =? WCND_STATE_CP2_STOPPING) && (is_open (event m) || (event m =? WCND_EVENT_CP2POWERON_REQ))
                       then pending_events w .| event m else pending_events w) /\
  selfcmds w' = (selfcmds w ++ self_of w w')%list /\
  (state w' = WCND_STATE_CP2_STOPPING -> btwifi_state w' = 0).
Proof.
  intros H0 Hrun. pose proof (wcn_run_inv _ _ Hrun (wcn_start_inv _ H0)) as Hi. split; [done|].
  split; [by apply step_follows|]. split; [apply step_pending; apply Hi|].
  destruct (sm_step_ok m w) as [S1 S2 S3 S4]; [apply Hi|apply Hi|]. split; [done|].
  apply (sm_step_inv m w Hi).
Qed.

Definition demo_wcn0 : wcn :=
  Wcn (Client 7 WCND_CLIENT_TYPE_NOTIFY :: replicate 9 (Client (-1) 0)) 0 0 0 0 0 false true [] [] (fun _ => false).
Definition demo_wcn : wcn := wcnd_sm_init demo_wcn0.

Lemma demo_wcn_start : wcn_start demo_wcn.
Proof. exists demo_wcn0. done. Qed.

Lemma wcn_transitions_witness :
  state (wcnd_sm_step (Message WCND_EVENT_WIFI_OPEN 7) demo_wcn) = WCND_STATE_CP2_STARTING /\
  selfcmds (wcnd_sm_step (Message WCND_EVENT_WIFI_OPEN 7) demo_wcn) = [START_CP2] /\
  Z.testbit (btwifi_state (wcnd_sm_step (Message WCND_EVENT_WIFI_OPEN 7) demo_wcn)) 1 = true.
Proof.
  destruct (wcn_transitions demo_wcn demo_wcn (Message WCND_EVENT_WIFI_OPEN 7)) as (_ & [H1 H2 _] & _ & H3 & _);
    [apply demo_wcn_start|apply rtc_refl|].
  assert (state (wcnd_sm_step (Message WCND_EVENT_WIFI_OPEN 7) demo_wcn) = WCND_STATE_CP2_STARTING) as E
    by (rewrite H1; reflexivity).
  split; [exact E|]. split; [rewrite H3; unfold self_of; rewrite E; reflexivity|].
  rewrite (H2 1) by (by right). reflexivity.
Defined.

(** no client is left waiting for a start.  When CP2 reports that it is up or
    that it could not be started, every client waiting for a command or with a
    pending open whose socket still works receives the outcome, and afterwards
    no client is waiting. *)
Theorem start_answers_everyone w ev fd c (rsp := if ev =? WCND_EVENT_CP2_OK then OK_RSP else FAIL_RSP)
    (w' := wcnd_sm_step (Message ev fd) w) :
  is_wcn_modem_enabled w = true -> state w = WCND_STATE_CP2_STARTING ->
  ev = WCND_EVENT_CP2_OK \/ ev = WCND_EVENT_CP2_DOWN ->
  state w' = (if ev =? WCND_EVENT_CP2_OK then WCND_STATE_CP2_STARTED else WCND_STATE_CP2_STOPPED) /\
  (c ∈ clients w -> waiting c = true -> gone w (sockfd c) = false -> (sockfd c, rsp) ∈ out w') /\
  (c ∈ clients w' -> waiting c = false).
Proof.
  intros He Hs Hev. assert (w' = wcn_state_cp2_starting (Message ev fd) w) as Hw'.
  { subst w'. unfold wcnd_sm_step. by rewrite He, Hs. }
  rewrite Hw'. subst rsp. clear w' Hw'. destruct Hev as [->| ->].
  - change (wcn_state_cp2_starting (Message WCND_EVENT_CP2_OK fd) w)
      with (set_notify true (answer OK_RSP WCND_CLIENT_TYPE_CMD_PENDING (answer OK_RSP WCND_CLIENT_TYPE_CMD
              (set_state WCND_STATE_CP2_STARTED (set_notify false w))))).
    split; [cbn; by autorewrite with wcn|].
    exact (answer_both OK_RSP (set_state WCND_STATE_CP2_STARTED (set_notify false w)) c).
  - change (wcn_state_cp2_starting (Message WCND_EVENT_CP2_DOWN fd) w)
      with (answer FAIL_RSP WCND_CLIENT_TYPE_CMD_PENDING (answer FAIL_RSP WCND_CLIENT_TYPE_CMD
              (set_state WCND_STATE_CP2_STOPPED (set_notify false w)))).
    split; [by autorewrite with wcn|].
    exact (answer_both FAIL_RSP (set_state WCND_STATE_CP2_STOPPED (set_notify false w)) c).
Qed.

Definition demo_starting : wcn := btwifi_cmd 7 "BT-OPEN" demo_wcn.

Lemma start_answers_everyone_witness :
  state (wcnd_sm_step (Message WCND_EVENT_CP2_OK (-1)) demo_starting) = WCND_STATE_CP2_STARTED /\
  (Client 7 16 ∈ clients demo_starting -> waiting (Client 7 16) = true -> gone demo_starting 7 = false ->
   (7, OK_RSP) ∈ out (wcnd_sm_step (Message WCND_EVENT_CP2_OK (-1)) demo_starting)) /\
  (Client 7 16 ∈ clients (wcnd_sm_step (Message WCND_EVENT_CP2_OK (-1)) demo_starting) ->
   waiting (Client 7 16) = false).
Proof.
  apply (start_answers_everyone demo_starting WCND_EVENT_CP2_OK (-1) (Client 7 16)); [reflexivity|reflexivity|by left].
Defined.

(** pending events are never cleared.  An open request that arrives while CP2
    is stopping is remembered for ever: no step removes it, and from then on
    every time CP2 has gone down the daemon sends itself the pending event, which
    starts CP2 again although nobody asked for it. *)
Theorem pending_never_cleared w0 w m (w' := wcnd_sm_step m w) :
  wcn_start w0 -> rtc wcn_step w0 w -> pending_events w <> 0 ->
  pending_events w' .& pending_events w = pending_events w /\ pending_events w' <> 0 /\
  (state w = WCND_STATE_CP2_STOPPING -> event m = WCND_EVENT_CP2_DOWN ->
   selfcmds w' = (selfcmds w ++ [PENDINGEVENT])%list /\
   state (wcnd_sm_step (Message WCND_EVENT_PENGING_EVENT (-1)) w') = WCND_STATE_CP2_STARTING).
Proof.
  intros H0 Hrun Hne. pose proof (wcn_run_inv _ _ Hrun (wcn_start_inv _ H0)) as Hi.
  pose proof (sm_step_inv m w Hi) as Hi'. fold w' in Hi'.
  assert (pending_events w' .& pending_events w = pending_events w) as Hsub.
  { subst w'. rewrite step_pending by apply Hi. case_match; [|apply Z.land_diag].
    rewrite Z.land_lor_distr_l, Z.land_diag. apply Z.bits_inj'. intros i _.
    rewrite Z.lor_spec, Z.land_spec. destruct (Z.testbit (event m) i), (Z.testbit (pending_events w) i); done. }
  assert (pending_events w' <> 0) as Hne'.
  { intros E. rewrite E, Z.land_0_l in Hsub. by symmetry in Hsub. }
  split; [done|]. split; [done|]. intros Hst Hev.
  destruct (sm_step_ok m w) as [S1 S2 S3 S4]; [apply Hi|apply Hi|].
  assert (state w' = WCND_STATE_CP2_STOPPED) as Hst'.
  { subst w'. unfold wcnd_sm_step. rewrite (wi_enabled _ Hi), Hst. cbn [negb].
    change (WCND_STATE_CP2_STOPPING =? WCND_STATE_CP2_STOPPED) with false.
    change (WCND_STATE_CP2_STOPPING =? WCND_STATE_CP2_STARTING) with false.
    change (WCND_STATE_CP2_STOPPING =? WCND_STATE_CP2_STARTED) with false.
    change (WCND_STATE_CP2_STOPPING =? WCND_STATE_CP2_ASSERT) with false.
    change (WCND_STATE_CP2_STOPPING =? WCND_STATE_CP2_STOPPING) with true. cbn iota.
    unfold wcn_state_cp2_stopping. rewrite Hev. cbn zeta. autorewrite with wcn.
    change (is_close WCND_EVENT_CP2_DOWN || (WCND_EVENT_CP2_DOWN =? WCND_EVENT_CP2POWEROFF_REQ)) with false.
    change (is_open WCND_EVENT_CP2_DOWN || (WCND_EVENT_CP2_DOWN =? WCND_EVENT_CP2POWERON_REQ)) with false.
    change (WCND_EVENT_CP2_DOWN =? WCND_EVENT_CP2_DOWN) with true. cbn iota.
    handler; cbn; by autorewrite with wcn. }
  fold w' in S1. split.
  - rewrite S1. unfold self_of. rewrite Hst, Hst'.
    destruct (Z.eqb_spec (pending_events w) 0) as [E|E]; [done|]. done.
  - apply pending_restarts; try apply Hi'; done.
Qed.

(** BT opened and closed again; while CP2 is stopping, WiFi is opened. *)
Definition demo_pending : wcn :=
  btwifi_cmd 7 "WIFI-OPEN" (btwifi_cmd 7 "BT-CLOSE"
    (wcnd_sm_step (Message WCND_EVENT_CP2_OK (-1)) (btwifi_cmd 7 "BT-OPEN" demo_wcn))).

Lemma demo_pending_run : rtc wcn_step demo_wcn demo_pending.
Proof.
  unfold demo_pending. eapply rtc_r; [|apply ws_btwifi]. eapply rtc_r; [|apply ws_btwifi].
  eapply rtc_r; [|apply ws_event]. eapply rtc_r; [|apply ws_btwifi]. apply rtc_refl.
Qed.

Lemma pending_never_cleared_witness :
  pending_events demo_pending = 2 /\
  state (wcnd_sm_step (Message WCND_EVENT_PENGING_EVENT (-1))
           (wcnd_sm_step (Message WCND_EVENT_CP2_DOWN (-1)) demo_pending)) = WCND_STATE_CP2_STARTING.
Proof.
  split; [vm_compute; reflexivity|].
  apply (pending_never_cleared demo_wcn demo_pending (Message WCND_EVENT_CP2_DOWN (-1)));
    [apply demo_wcn_start|apply demo_pending_run|vm_compute; discriminate|vm_compute; reflexivity|reflexivity].
Defined.

(** a close during the start is lost.  While CP2 is starting, closing BT or
    WiFi is answered OK but recorded nowhere: once CP2 is up the daemon still
    counts the service as open and keeps CP2 powered; and when the start fails
    the bits stay set in STOPPED as well. *)
Theorem close_while_starting_lost w fd cmd fd' ev :
  is_wcn_modem_enabled w = true -> state w = WCND_STATE_CP2_STARTING ->
  cmd = "BT-CLOSE" \/ cmd = "WIFI-CLOSE" -> ev = WCND_EVENT_CP2_OK \/ ev = WCND_EVENT_CP2_DOWN ->
  let w1 := btwifi_cmd fd cmd w in
  let w2 := wcnd_sm_step (Message ev fd') w1 in
  state w1 = WCND_STATE_CP2_STARTING /\ btwifi_state w1 = btwifi_state w /\
  state w2 = (if ev =? WCND_EVENT_CP2_OK then WCND_STATE_CP2_STARTED else WCND_STATE_CP2_STOPPED) /\
  btwifi_state w2 = btwifi_state w /\ saved_btwifi_state w2 = saved_btwifi_state w /\
  pending_events w2 = pending_events w.
Proof.
  intros He Hs Hcmd Hev w1 w2.
  assert (w1 = answer OK_RSP WCND_CLIENT_TYPE_CMD (set_notify false (set_client_type fd WCND_CLIENT_TYPE_CMD w))) as E1.
  { subst w1. rewrite btwifi_cmd_eq by done. unfold wcnd_sm_step. cbn. rewrite He, Hs. by destruct Hcmd as [->| ->]. }
  assert (state w1 = WCND_STATE_CP2_STARTING) as Hs1 by (rewrite E1; by autorewrite with wcn).
  assert (is_wcn_modem_enabled w1 = true) as He1 by (rewrite E1; by autorewrite with wcn).
  assert (w2 = wcn_state_cp2_starting (Message ev fd') w1) as E2.
  { subst w2. unfold wcnd_sm_step. by rewrite He1, Hs1. }
  split; [done|]. split; [rewrite E1; by autorewrite with wcn|].
  destruct Hev as [-> | ->].
  - change (wcn_state_cp2_starting (Message WCND_EVENT_CP2_OK fd') w1)
      with (set_notify true (answer OK_RSP WCND_CLIENT_TYPE_CMD_PENDING (answer OK_RSP WCND_CLIENT_TYPE_CMD
              (set_state WCND_STATE_CP2_STARTED (set_notify false w1))))) in E2.
    rewrite E2. cbn. autorewrite with wcn. cbn. rewrite E1. by autorewrite with wcn.
  - change (wcn_state_cp2_starting (Message WCND_EVENT_CP2_DOWN fd') w1)
      with (answer FAIL_RSP WCND_CLIENT_TYPE_CMD_PENDING (answer FAIL_RSP WCND_CLIENT_TYPE_CMD
              (set_state WCND_STATE_CP2_STOPPED (set_notify false w1)))) in E2.
    rewrite E2. autorewrite with wcn. cbn. rewrite E1. by autorewrite with wcn.
Qed.

Lemma close_while_starting_lost_witness :
  state (wcnd_sm_step (Message WCND_EVENT_CP2_OK (-1)) (btwifi_cmd 7 "BT-CLOSE" demo_starting)) = WCND_STATE_CP2_STARTED /\
  btwifi_state (wcnd_sm_step (Message WCND_EVENT_CP2_OK (-1)) (btwifi_cmd 7 "BT-CLOSE" demo_starting)) = 1.
Proof.
  destruct (close_while_starting_lost demo_starting 7 "BT-CLOSE" (-1) WCND_EVENT_CP2_OK)
    as (_ & _ & H3 & H4 & _); [reflexivity|reflexivity|by left|by left|].
  split; [exact H3|]. rewrite H4. vm_compute. reflexivity.
Defined.
