(* ===== verification/WcndCmd.v ===== *)
(** * Connectivity daemon, commands (apps/wcnd/wcnd.c, wcnd_cmd.c, wcnd_worker.c,
    wcnd_eng_cmd_executer.c, and the download commands of wcnd_download.c)

    Clients and the daemon itself send command lines over sockets.  They are cut at null
    characters, split into arguments, and run by the executer their first word names:
    commands for the state machine of [WcndSm.v], AT commands for CP2, start, stop and
    reset of CP2.  The state [daemon] adds to the manager of the state machine the
    fields these functions use, the bytes of the socket pair that were read, what was
    written to clients, to CP2 and to the property service, and [io], the results of the
    operations on devices, in the order in which they are used.  The model is the
    variant with USE_MARLIN, which the build file always defines. *)

From Stdlib Require Import Ascii.
From S2P Require Import Prelude WcndSm.
Local Open Scope string_scope.
Local Open Scope list_scope.
Local Open Scope Z_scope.

(** ** Strings *)

Definition txt (s : string) : list ascii := String.list_ascii_of_string s.
Definition str (l : list ascii) : string := String.string_of_list_ascii l.

Definition strstr (s needle : string) : bool :=
  match String.index 0 needle s with Some _ => true | None => false end.

Definition tolower (c : ascii) : ascii :=
  let n := Ascii.N_of_ascii c in
  if (65 <=? n)%N && (n <=? 90)%N then Ascii.ascii_of_N (n + 32) else c.
Definition strcasestr (s needle : string) : bool :=
  strstr (str (tolower <$> txt s)) (str (tolower <$> txt needle)).

(** [snprintf(buffer, n, "%s", s)]. *)
Definition cut (n : nat) (s : string) : string := str (take (n - 1) (txt s)).

Definition nul : ascii := Ascii.zero.
Definition ceq (c d : ascii) : bool := bool_decide (c = d).
Definition strcmp (a b : string) : bool := bool_decide (a = b).
Definition cr : ascii := Ascii.ascii_of_N 13.

(** ** The daemon *)

(** What an AT command meets: the interface cannot be opened, the write fails, or the
    results of the reads that follow (None: an error or no data). *)
Inductive at_io := AtNoOpen | AtNoWrite | AtReads (rs : list (option string)).

Record script := Script {
  downloads : list (option string);
  loops : list (option string);
  ats : list at_io;
  reset_enabled : bool;
}.

Inductive executer := wcn_cmdexecuter | wcn_eng_cmdexecuter.

Record daemon := Daemon {
  sm : wcn;
  is_cp2_error : bool;
  doing_reset : bool;
  is_cp2log_opened : bool;
  is_eng_mode_only : bool;
  is_in_userdebug : bool;
  cp2_version_info : string;
  store_cp2_versin_done : bool;
  cmdexecuter_list : list (option executer);
  self_fd : Z;
  self_read : nat;
  eng_cmd_queue : list (Z * string);
  eng_calls : list (Z * list string);
  replies : list (Z * string);
  at_log : list string;
  dl_log : list string;
  prop_log : list (string * string);
  io : script;
}.

Definition on_sm (f : wcn -> wcn) (d : daemon) : daemon :=
  Daemon (f (sm d)) (is_cp2_error d) (doing_reset d) (is_cp2log_opened d) (is_eng_mode_only d) (is_in_userdebug d)
    (cp2_version_info d) (store_cp2_versin_done d) (cmdexecuter_list d) (self_fd d) (self_read d)
    (eng_cmd_queue d) (eng_calls d) (replies d) (at_log d) (dl_log d) (prop_log d) (io d).
Definition set_error (b : bool) (d : daemon) : daemon :=
  Daemon (sm d) b (doing_reset d) (is_cp2log_opened d) (is_eng_mode_only d) (is_in_userdebug d)
    (cp2_version_info d) (store_cp2_versin_done d) (cmdexecuter_list d) (self_fd d) (self_read d)
    (eng_cmd_queue d) (eng_calls d) (replies d) (at_log d) (dl_log d) (prop_log d) (io d).
Definition set_reset (b : bool) (d : daemon) : daemon :=
  Daemon (sm d) (is_cp2_error d) b (is_cp2log_opened d) (is_eng_mode_only d) (is_in_userdebug d)
    (cp2_version_info d) (store_cp2_versin_done d) (cmdexecuter_list d) (self_fd d) (self_read d)
    (eng_cmd_queue d) (eng_calls d) (replies d) (at_log d) (dl_log d) (prop_log d) (io d).
Definition set_log (b : bool) (d : daemon) : daemon :=
  Daemon (sm d) (is_cp2_error d) (doing_reset d) b (is_eng_mode_only d) (is_in_userdebug d)
    (cp2_version_info d) (store_cp2_versin_done d) (cmdexecuter_list d) (self_fd d) (self_read d)
    (eng_cmd_queue d) (eng_calls d) (replies d) (at_log d) (dl_log d) (prop_log d) (io d).
Definition set_version (v : string) (d : daemon) : daemon :=
  Daemon (sm d) (is_cp2_error d) (doing_reset d) (is_cp2log_opened d) (is_eng_mode_only d) (is_in_userdebug d)
    v (store_cp2_versin_done d) (cmdexecuter_list d) (self_fd d) (self_read d)
    (eng_cmd_queue d) (eng_calls d) (replies d) (at_log d) (dl_log d) (prop_log d) (io d).
Definition set_version_done (d : daemon) : daemon :=
  Daemon (sm d) (is_cp2_error d) (doing_reset d) (is_cp2log_opened d) (is_eng_mode_only d) (is_in_userdebug d)
    (cp2_version_info d) true (cmdexecuter_list d) (self_fd d) (self_read d)
    (eng_cmd_queue d) (eng_calls d) (replies d) (at_log d) (dl_log d) (prop_log d) (io d).
Definition set_executers (l : list (option executer)) (d : daemon) : daemon :=
  Daemon (sm d) (is_cp2_error d) (doing_reset d) (is_cp2log_opened d) (is_eng_mode_only d) (is_in_userdebug d)
    (cp2_version_info d) (store_cp2_versin_done d) l (self_fd d) (self_read d)
    (eng_cmd_queue d) (eng_calls d) (replies d) (at_log d) (dl_log d) (prop_log d) (io d).
Definition set_self_read (n : nat) (d : daemon) : daemon :=
  Daemon (sm d) (is_cp2_error d) (doing_reset d) (is_cp2log_opened d) (is_eng_mode_only d) (is_in_userdebug d)
    (cp2_version_info d) (store_cp2_versin_done d) (cmdexecuter_list d) (self_fd d) n
    (eng_cmd_queue d) (eng_calls d) (replies d) (at_log d) (dl_log d) (prop_log d) (io d).
Definition set_queue (q : list (Z * string)) (d : daemon) : daemon :=
  Daemon (sm d) (is_cp2_error d) (doing_reset d) (is_cp2log_opened d) (is_eng_mode_only d) (is_in_userdebug d)
    (cp2_version_info d) (store_cp2_versin_done d) (cmdexecuter_list d) (self_fd d) (self_read d)
    q (eng_calls d) (replies d) (at_log d) (dl_log d) (prop_log d) (io d).
Definition add_call (fd : Z) (args : list string) (d : daemon) : daemon :=
  Daemon (sm d) (is_cp2_error d) (doing_reset d) (is_cp2log_opened d) (is_eng_mode_only d) (is_in_userdebug d)
    (cp2_version_info d) (store_cp2_versin_done d) (cmdexecuter_list d) (self_fd d) (self_read d)
    (eng_cmd_queue d) (eng_calls d ++ [(fd, args)]) (replies d) (at_log d) (dl_log d) (prop_log d) (io d).
Definition add_reply (fd : Z) (s : string) (d : daemon) : daemon :=
  Daemon (sm d) (is_cp2_error d) (doing_reset d) (is_cp2log_opened d) (is_eng_mode_only d) (is_in_userdebug d)
    (cp2_version_info d) (store_cp2_versin_done d) (cmdexecuter_list d) (self_fd d) (self_read d)
    (eng_cmd_queue d) (eng_calls d) (if gone (sm d) fd then replies d else replies d ++ [(fd, s)])
    (at_log d) (dl_log d) (prop_log d) (io d).
Definition add_at (s : string) (d : daemon) : daemon :=
  Daemon (sm d) (is_cp2_error d) (doing_reset d) (is_cp2log_opened d) (is_eng_mode_only d) (is_in_userdebug d)
    (cp2_version_info d) (store_cp2_versin_done d) (cmdexecuter_list d) (self_fd d) (self_read d)
    (eng_cmd_queue d) (eng_calls d) (replies d) (at_log d ++ [s]) (dl_log d) (prop_log d) (io d).
Definition add_dl (s : string) (d : daemon) : daemon :=
  Daemon (sm d) (is_cp2_error d) (doing_reset d) (is_cp2log_opened d) (is_eng_mode_only d) (is_in_userdebug d)
    (cp2_version_info d) (store_cp2_versin_done d) (cmdexecuter_list d) (self_fd d) (self_read d)
    (eng_cmd_queue d) (eng_calls d) (replies d) (at_log d) (dl_log d ++ [s]) (prop_log d) (io d).
Definition property_set (k v : string) (d : daemon) : daemon :=
  Daemon (sm d) (is_cp2_error d) (doing_reset d) (is_cp2log_opened d) (is_eng_mode_only d) (is_in_userdebug d)
    (cp2_version_info d) (store_cp2_versin_done d) (cmdexecuter_list d) (self_fd d) (self_read d)
    (eng_cmd_queue d) (eng_calls d) (replies d) (at_log d) (dl_log d) (prop_log d ++ [(k, v)]) (io d).
Definition set_io (i : script) (d : daemon) : daemon :=
  Daemon (sm d) (is_cp2_error d) (doing_reset d) (is_cp2log_opened d) (is_eng_mode_only d) (is_in_userdebug d)
    (cp2_version_info d) (store_cp2_versin_done d) (cmdexecuter_list d) (self_fd d) (self_read d)
    (eng_cmd_queue d) (eng_calls d) (replies d) (at_log d) (dl_log d) (prop_log d) i.

(** The next result of each kind of device operation; after the last one they fail. *)
Definition next_download (d : daemon) : option string * daemon :=
  match downloads (io d) with
  | [] => (None, d)
  | r :: rs => (r, set_io (Script rs (loops (io d)) (ats (io d)) (reset_enabled (io d))) d)
  end.
Definition next_loop (d : daemon) : option string * daemon :=
  match loops (io d) with
  | [] => (None, d)
  | r :: rs => (r, set_io (Script (downloads (io d)) rs (ats (io d)) (reset_enabled (io d))) d)
  end.
Definition next_at (d : daemon) : at_io * daemon :=
  match ats (io d) with
  | [] => (AtNoOpen, d)
  | r :: rs => (r, set_io (Script (downloads (io d)) (loops (io d)) rs (reset_enabled (io d))) d)
  end.

(** ** Answers *)

Definition OK_STR : string := "OK".
Definition FAIL_STR : string := "FAIL".

Definition send_back_cmd_result (client_fd : Z) (s : option string) (isOK : bool) (d : daemon) : daemon :=
  if client_fd <? 0 then d
  else
    let tag := if isOK then OK_STR else FAIL_STR in
    add_reply client_fd (cut 255 (match s with None => tag | Some s => tag +:+ " " +:+ s end)) d.

(** ** Download commands (wcnd_download.c) *)

(** [do_download_cmd]: None is a failed connection or write; else the answer that was
    read is searched for the expected one. *)
Definition do_download_cmd (cmd resp : string) (d : daemon) : bool * daemon :=
  let '(r, d) := next_download d in
  match r with
  | None => (false, d)
  | Some answer => (strstr answer resp, add_dl cmd d)
  end.

Definition wcnd_reboot_cp2 : daemon -> bool * daemon := do_download_cmd "rebootwcn" "rebootwcn-ok".
Definition wcnd_stop_cp2 : daemon -> bool * daemon := do_download_cmd "stopwcn" "stopwcn-ok".
Definition wcnd_start_cp2 : daemon -> bool * daemon := do_download_cmd "startwcn" "startwcn-ok".

Definition wcnd_before_reset (d : daemon) : bool * daemon :=
  let d := if is_in_userdebug d || negb (reset_enabled (io d))
           then snd (do_download_cmd "dumpwcn" "dumpwcn-ok" d) else d in
  if negb (reset_enabled (io d)) then (false, d) else (true, set_reset true d).

(** ** Liveness of CP2 (wcnd.c) *)

Definition LOOP_TEST_ACK_STR : string := "loopcheck_ack".

(** None: the interface cannot be opened, written or read. *)
Definition is_cp2_alive_ok (d : daemon) : bool * daemon :=
  let '(r, d) := next_loop d in
  (match r with None => false | Some s => strstr s LOOP_TEST_ACK_STR end, d).

(** [MAX_LOOP_TEST_COUNT] is 50: 51 tests. *)
Fixpoint polling_loop (n : nat) (d : daemon) : bool * daemon :=
  match n with
  | O => (false, d)
  | S n => let '(ok, d) := is_cp2_alive_ok d in if ok then (true, d) else polling_loop n d
  end.
Definition polling_test_after_reset : daemon -> bool * daemon := polling_loop 51.

(** ** AT commands (wcnd_cmd.c) *)

Definition WCND_ATCMD_CP2_SLEEP : string := "at+cp2sleep" +:+ str [cr].
Definition WCND_ATCMD_CP2_DISABLE_LOG : string := "AT+ARMLOG=0" +:+ str [cr].
Definition WCND_ATCMD_CP2_ENABLE_LOG : string := "AT+ARMLOG=1" +:+ str [cr].
Definition WCND_ATCMD_CP2_GET_VERSION : string := "at+spatgetcp2info" +:+ str [cr].
Definition WCND_CP2_CLOSED_STRING : string := "WCN-CP2-CLOSED".
Definition WCND_CP2_EXCEPTION_STRING : string := "WCN-CP2-EXCEPTION".

(** [before_send_atcmd]: whether the command is to be sent, and whether it asks for the
    version. *)
Definition before_send_atcmd (client_fd : Z) (atcmd : string) (d : daemon) : bool * bool * daemon :=
  let to_get_cp2_version := strcasestr atcmd "spatgetcp2info" in
  let to_tell_cp2_sleep := negb to_get_cp2_version && strcmp atcmd WCND_ATCMD_CP2_SLEEP in
  let d := if strcasestr atcmd "at+armlog=0" then set_log false d
           else if strcasestr atcmd "at+armlog=1" then set_log true d else d in
  if negb (state (sm d) =? WCND_STATE_CP2_STARTED) then
    if to_get_cp2_version then
      (false, true, if 0 <? client_fd then add_reply client_fd (cut 254 (cp2_version_info d)) d else d)
    else if negb to_tell_cp2_sleep then
      (false, false, send_back_cmd_result client_fd (Some WCND_CP2_CLOSED_STRING) false d)
    else (true, false, d)
  else if is_cp2_error d then
    (false, to_get_cp2_version, send_back_cmd_result client_fd (Some WCND_CP2_EXCEPTION_STRING) false d)
  else (true, to_get_cp2_version, d).

(** The bytes written: the buffer takes 254 characters of the command and a
    terminator, a carriage return is added only while the command is shorter than
    254, and as many bytes are written as the command is long then.  (A command of
    more than 255 characters would be written from behind the buffer; the arguments
    that reach this function have at most 254, [tokenize_short].) *)
Definition at_line (atcmd : string) : string :=
  let buffer := txt (cut 255 atcmd) in
  let atcmd_len := String.length atcmd in
  if (atcmd_len <? 254)%nat && negb (bool_decide (last buffer = Some cr)) then str (buffer ++ [cr])
  else str (take atcmd_len (buffer ++ [nul])).

(** At most six reads ([try_counts]); the first with data counts. *)
Fixpoint at_read (n : nat) (rs : list (option string)) : option string :=
  match n with
  | O => None
  | S n =>
      match rs with
      | Some s :: rs => if String.length s =? 0 then at_read n rs else Some s
      | None :: rs => at_read n rs
      | [] => None
      end%nat
  end.

(** The answer, the return value and the daemon after the reads. *)
Definition at_answer (get_version : bool) (rs : list (option string)) (d : daemon) : string * bool * daemon :=
  match at_read 6 rs with
  | None =>
      if get_version then (cut 254 (cp2_version_info d), true, d) else ("Fail: No data available", false, d)
  | Some s =>
      if strstr s "fail" || strstr s "FAIL" then (s, false, d)
      else (s, true, if get_version then set_version s d else d)
  end.

Definition wcnd_process_atcmd (client_fd : Z) (atcmd : string) (d : daemon) : bool * daemon :=
  if negb (is_wcn_modem_enabled (sm d)) then (false, send_back_cmd_result client_fd (Some "WCN Disabled") false d)
  else
    let '(go, get_version, d) := before_send_atcmd client_fd atcmd d in
    if negb go then (false, d)
    else
      let '(a, d) := next_at d in
      match a with
      | AtNoOpen | AtNoWrite => (false, send_back_cmd_result client_fd (Some "Send atcmd fail") false d)
      | AtReads rs =>
          let '(answer, ret, d) := at_answer get_version rs (add_at (at_line atcmd) d) in
          if client_fd <=? 0 then (ret, d)
          else (if gone (sm d) client_fd then false else ret, add_reply client_fd answer d)
      end.

(** ** Starting, stopping and resetting CP2 (wcnd.c) *)

Definition config_cp2_bootup (d : daemon) : daemon :=
  if is_eng_mode_only d then d
  else if negb (is_wcn_modem_enabled (sm d)) then d
  else snd (wcnd_process_atcmd (-1) (if is_cp2log_opened d then WCND_ATCMD_CP2_ENABLE_LOG else WCND_ATCMD_CP2_DISABLE_LOG) d).

(** The attempts of [do_cp2reset], [n] of them, each with [before] and [after] around
    the start command: whether CP2 came up. *)
Fixpoint reset_loop (before : daemon -> daemon) (start : daemon -> bool * daemon) (n : nat) (d : daemon) : bool * daemon :=
  match n with
  | O => (false, set_reset false d)
  | S n =>
      let '(ok, d) := start (before d) in
      let '(ok, d) := if ok : bool then polling_test_after_reset d else (false, d) in
      if ok : bool then (true, set_reset false d) else reset_loop before start n d
  end.

(** [RESET_FAIL_RETRY_COUNT] is 3: four attempts. *)
Definition RESET_ATTEMPTS : nat := 4.

(** The message at [out], and the configuration of a CP2 that runs. *)
Definition after_start (ok : bool) (d : daemon) : daemon :=
  let d := if ok then set_error false d else d in
  let d := on_sm (wcnd_sm_step (Message (if ok then WCND_EVENT_CP2_OK else WCND_EVENT_CP2_DOWN) (-1))) d in
  if ok then config_cp2_bootup d else d.

Definition wcnd_open_cp2 (d : daemon) : daemon :=
  let '(ok, d) := reset_loop id wcnd_start_cp2 RESET_ATTEMPTS (set_reset true d) in after_start ok d.

Definition wcnd_close_cp2 (d : daemon) : daemon :=
  let '(_, d) := wcnd_stop_cp2 d in
  on_sm (wcnd_sm_step (Message WCND_EVENT_CP2_DOWN (-1))) d.

Definition notify (s : string) : daemon -> daemon := on_sm (wcnd_send_notify_to_client s WCND_CLIENT_TYPE_NOTIFY).

Definition reboot_notified (d : daemon) : bool * daemon :=
  let '(ok, d) := wcnd_reboot_cp2 d in (ok, notify "WCN-CP2-RESET-END" d).

(** The kills and waits of [prepare_cp2_recovery] change nothing of the daemon. *)
Definition wcnd_do_wcn_reset_process (d : daemon) : daemon :=
  let '(go, d) := wcnd_before_reset d in
  if negb go then d
  else
    let '(ok, d) := reset_loop (notify "WCN-CP2-RESET-START") reboot_notified RESET_ATTEMPTS d in
    let d := if ok then notify "WCN-CP2-ALIVE" d else d in
    after_start ok d.

(** [notify_cp2_exception], without the message to the WiFi driver and the kill of the
    Bluetooth process, and the handlers of an assertion, a watchdog interrupt (with the
    text that was read) and a failed loop check. *)
Definition notify_cp2_exception (info : string) (d : daemon) : daemon :=
  let d := property_set "persist.sys.sprd.wcnlog.result" "0" d in
  let d := on_sm (wcnd_send_selfcmd "wcn cp2assert") d in
  notify (cut 255 (WCND_CP2_EXCEPTION_STRING +:+ " " +:+ info)) d.

Definition handle_cp2_assert (info : string) (d : daemon) : daemon :=
  let d := set_error true d in
  if doing_reset d then d else notify_cp2_exception info d.

Definition handle_cp2_watchdog_exception (info : string) (d : daemon) : daemon :=
  let d := set_error true d in
  if doing_reset d then d else notify_cp2_exception info d.

Definition handle_cp2_loop_check_fail : daemon -> daemon := handle_cp2_assert "CP2 LOOP CHECK FAIL".

(** ** Commands of the executers *)

Definition set_engpc_service (start : bool) (d : daemon) : daemon :=
  let ctl := if start then "ctl.start" else "ctl.stop" in
  property_set ctl "engpcclientwcn" (property_set ctl "engmodemclientwcn" (property_set ctl "engservicewcn" d)).

(** [wcnd_runcommand] (wcnd_cmd.c). *)
Definition wcnd_runcommand (client_fd : Z) (argv : list string) (d : daemon) : daemon :=
  match argv with
  | [] => send_back_cmd_result client_fd (Some "Missing argument") false d
  | a0 :: _ =>
      if strcmp a0 "reset" then
        let d := if negb (client_fd =? self_fd d) then send_back_cmd_result client_fd None true d else d in
        if is_cp2_error d then wcnd_do_wcn_reset_process d else d
      else if strcmp a0 "test" then send_back_cmd_result client_fd None true d
      else if strstr a0 "at+" then snd (wcnd_process_atcmd client_fd a0 d)
      else if strstr a0 "BT" || strstr a0 "WIFI" then on_sm (btwifi_cmd client_fd a0) d
      else if strcmp a0 "startcp2" then wcnd_open_cp2 d
      else if strcmp a0 "stopcp2" then wcnd_close_cp2 d
      else if strcmp a0 "pendingevent" then on_sm (wcnd_sm_step (Message WCND_EVENT_PENGING_EVENT (-1))) d
      else if strcmp a0 "cp2assert" then on_sm (wcnd_sm_step (Message WCND_EVENT_CP2_ASSERT (-1))) d
      else if strcmp a0 "poweron" then on_sm (power_cmd WCND_EVENT_CP2POWERON_REQ client_fd (self_fd d)) d
      else if strcmp a0 "poweroff" then on_sm (power_cmd WCND_EVENT_CP2POWEROFF_REQ client_fd (self_fd d)) d
      else if strcmp a0 "configcp2" then config_cp2_bootup d
      else if strcmp a0 "getcp2version" then
        set_version_done (snd (wcnd_process_atcmd (-1) WCND_ATCMD_CP2_GET_VERSION d))
      else if strcmp a0 "startengpc" then set_engpc_service true (send_back_cmd_result client_fd None true d)
      else if strcmp a0 "stopengpc" then set_engpc_service false (send_back_cmd_result client_fd None true d)
      else send_back_cmd_result client_fd (Some "Not support cmd") false d
  end.

(** [eng_runcommand] (wcnd_eng_cmd_executer.c): the call of a submodule is logged with its
    arguments. *)
Definition eng_runcommand (client_fd : Z) (argv : list string) (d : daemon) : daemon :=
  match argv with
  | [] => send_back_cmd_result client_fd (Some "Missing argument") false d
  | a0 :: args =>
      if strcmp a0 "iwnpi" || strcmp a0 "bt" || strcmp a0 "wifi" then
        if bool_decide (args = []) then send_back_cmd_result client_fd (Some "Missing argument") false d
        else add_call client_fd argv d
      else send_back_cmd_result client_fd (Some "Not support cmd") false d
  end.

(** ** Dispatch (wcnd.c) *)

Definition executer_name (e : executer) : string :=
  match e with wcn_cmdexecuter => "wcn" | wcn_eng_cmdexecuter => "eng" end.

Definition runcommand (e : executer) : Z -> list string -> daemon -> daemon :=
  match e with wcn_cmdexecuter => wcnd_runcommand | wcn_eng_cmdexecuter => eng_runcommand end.

#[global] Instance executer_eq_dec : EqDecision executer.
Proof. solve_decision. Defined.

Definition WCND_MAX_CMD_EXECUTER_NUM : nat := 10.
Definition WCND_MAX_CLIENT_NUM : nat := 10.

(** The first empty slot takes the executer unless an earlier one holds it; None: full. *)
Fixpoint register_loop (e : executer) (l : list (option executer)) : option (list (option executer)) :=
  match l with
  | [] => None
  | None :: l => Some (Some e :: l)
  | Some e' :: l =>
      if bool_decide (e' = e) then Some (Some e' :: l)
      else l ← register_loop e l; Some (Some e' :: l)
  end.
Definition wcnd_register_cmdexecuter (e : executer) (d : daemon) : daemon :=
  match register_loop e (cmdexecuter_list d) with Some l => set_executers l d | None => d end.

Definition WCND_CMD_ARGS_MAX : nat := 16.
Definition TOO_LONG : string := "Command too long".
Definition BAD_ESCAPE : string := "Unsupported escape sequence".
Definition UNCLOSED : string := "Unclosed quotes error".

(** [q >= qlimit]: [tmp] has 255 bytes, the last for the terminator. *)
Definition full (tmp : list ascii) : bool := (254 <=? length tmp)%nat.

Definition bslash : ascii := Ascii.ascii_of_N 92.
Definition dquote : ascii := Ascii.ascii_of_N 34.
Definition space : ascii := Ascii.ascii_of_N 32.

(** The loop over the characters of a command: the error message or the arguments. *)
Fixpoint tok_loop (p : list ascii) (tmp : list ascii) (argv : list string) (esc quote : bool) : string + list string :=
  match p with
  | [] =>
      if (WCND_CMD_ARGS_MAX <=? length argv)%nat then inl TOO_LONG
      else if quote then inl UNCLOSED else inr (argv ++ [str tmp])
  | c :: p =>
      if ceq c bslash then
        if esc then if full tmp then inl TOO_LONG else tok_loop p (tmp ++ [c]) argv false quote
        else tok_loop p tmp argv true quote
      else if esc then
        if ceq c dquote then if full tmp then inl TOO_LONG else tok_loop p (tmp ++ [c]) argv false quote
        else inl BAD_ESCAPE
      else if ceq c dquote then tok_loop p tmp argv false (negb quote)
      else if full tmp then inl TOO_LONG
      else if negb quote && ceq c space then
        if (WCND_CMD_ARGS_MAX <=? length argv)%nat then inl TOO_LONG
        else tok_loop p [] (argv ++ [str tmp]) false quote
      else tok_loop p (tmp ++ [c]) argv false quote
  end.

Definition tokenize (data : string) : string + list string := tok_loop (txt data) [] [] false false.

Definition find_executer (name : string) (l : list (option executer)) : option executer :=
  head (omap (fun o => e ← o; if strcmp name (executer_name e) then Some e else None) l).

Definition dispatch_command2 (client_fd : Z) (data : string) (d : daemon) : daemon :=
  match tokenize data with
  | inl err => send_back_cmd_result client_fd (Some err) false d
  | inr argv =>
      match e ← (a0 ← head argv; find_executer a0 (cmdexecuter_list d)); Some (runcommand e) with
      | None => send_back_cmd_result client_fd (Some "Command not recognized") false d
      | Some handler => handler client_fd (tail argv) d
      end
  end.

(** Commands with "eng" anywhere are queued for the worker thread. *)
Definition wcnd_worker_dispatch (client_fd : Z) (data : string) (d : daemon) : daemon :=
  set_queue (eng_cmd_queue d ++ [(client_fd, data)]) d.

Definition worker_dispatch (client_fd : Z) (data : string) (d : daemon) : daemon :=
  if strstr data "eng" then wcnd_worker_dispatch client_fd data d else dispatch_command2 client_fd data d.

(** One round of [eng_worker_thread]. *)
Definition eng_worker_round (d : daemon) : daemon :=
  match eng_cmd_queue d with
  | [] => d
  | (fd, data) :: q => dispatch_command2 fd data (set_queue q d)
  end.

(** The loop over the buffer: [cur] is the text since the last null character. *)
Fixpoint command_loop (client_fd : Z) (rest cur : list ascii) (d : daemon) : daemon :=
  match rest with
  | [] => if bool_decide (cur = []) then d else worker_dispatch client_fd (str cur) d
  | c :: rest =>
      if ceq c nul then
        command_loop client_fd rest [] (if bool_decide (cur = []) then d else worker_dispatch client_fd (str cur) d)
      else command_loop client_fd rest (cur ++ [c]) d
  end.

Fixpoint skip_blanks (l : list ascii) : list ascii :=
  match l with c :: l' => if ceq c space then skip_blanks l' else l | [] => [] end.

Definition dispatch_command (client_fd : Z) (data : list ascii) (d : daemon) : daemon :=
  if (255 <=? length data)%nat then d else command_loop client_fd (skip_blanks data) [] d.

(** ** Sockets (wcnd.c) *)

(** [process_active_client_fd] on what was read, at most 254 bytes; None: an error or the
    end of the connection ([RDWR_FD_FAIL]). *)
Definition process_active_client_fd (fd : Z) (read : option (list ascii)) (d : daemon) : option daemon :=
  match read with
  | None | Some [] => None
  | Some data => Some (dispatch_command fd (data ++ [nul]) d)
  end.

(** The removal of a client whose connection failed. *)
Fixpoint zap (fd : Z) (cs : list client) : list client :=
  match cs with
  | [] => []
  | c :: cs => if sockfd c =? fd then Client (-1) WCND_CLIENT_TYPE_NOTIFY :: cs else c :: zap fd cs
  end.

(** A new connection takes the first free slot; with none it is closed. *)
Fixpoint accept_client (c : Z) (cs : list client) : list client :=
  match cs with
  | [] => []
  | x :: cs =>
      if sockfd x =? -1 then Client c WCND_CLIENT_TYPE_NOTIFY :: cs
      else if sockfd x =? c then x :: cs else x :: accept_client c cs
  end.

(** [store_client_fd]: ten slots; when they are full the last is replaced. *)
Fixpoint store_client_fd (fd : Z) (fds : list Z) : list Z :=
  match fds with
  | [] => []
  | [x] => if x =? fd then [x] else [fd]
  | x :: fds => if x =? -1 then fd :: fds else if x =? fd then x :: fds else x :: store_client_fd fd fds
  end.

(** Reading a ready descriptor.  The unread bytes of the socket pair are what was written
    to it and not read yet; [input] gives what a client has sent. *)
Definition self_pending (d : daemon) : list ascii := drop (self_read d) (txt (String.concat "" (selfcmds (sm d)))).

Definition read_fd (input : Z -> option (list ascii)) (fd : Z) (d : daemon) : option (list ascii) * daemon :=
  if fd =? self_fd d then
    let data := take 254 (self_pending d) in (Some data, set_self_read (self_read d + length data) d)
  else (take 254 <$> input fd, d).

Definition serve_fd (input : Z -> option (list ascii)) (d : daemon) (fd : Z) : daemon :=
  if fd =? -1 then d
  else
    let '(data, d) := read_fd input fd d in
    match process_active_client_fd fd data d with
    | Some d => d
    | None => on_sm (fun w => set_clients (zap fd (clients w)) w) d
    end.

(** One round of [client_listen_thread] after a successful [select]: a new connection
    (if any) is stored, the ready descriptors are collected and served. *)
Definition listen_round (accepted : option Z) (ready : Z -> bool) (input : Z -> option (list ascii)) (d : daemon) : daemon :=
  let d := match accepted with Some c => on_sm (fun w => set_clients (accept_client c (clients w)) w) d | None => d end in
  let fds := filter (fun fd => fd <> -1 /\ ready fd = true) (sockfd <$> clients (sm d)) in
  let fds := if ready (self_fd d) then fds ++ [self_fd d] else fds in
  let pending := foldl (fun l fd => store_client_fd fd l) (replicate WCND_MAX_CLIENT_NUM (-1)) fds in
  foldl (serve_fd input) d pending.

(** ** The tokenizer *)

Lemma txt_str l : txt (str l) = l.
Proof. apply String.list_ascii_of_string_of_list_ascii. Qed.
Lemma str_txt s : str (txt s) = s.
Proof. apply String.string_of_list_ascii_of_string. Qed.

Lemma ceq_true c d : ceq c d = true <-> c = d.
Proof. apply bool_decide_eq_true. Qed.
Lemma ceq_false c d : ceq c d = false <-> c <> d.
Proof. apply bool_decide_eq_false. Qed.

(** An argument as a client has to write it: in quotes, with quotes and backslashes
    escaped. *)
Definition escape (l : list ascii) : list ascii :=
  l ≫= (fun c => if ceq c bslash || ceq c dquote then [bslash; c] else [c]).
Definition quote_arg (s : string) : list ascii := dquote :: escape (txt s) ++ [dquote].

Fixpoint print_args (args : list string) : list ascii :=
  match args with
  | [] => []
  | [s] => quote_arg s
  | s :: args => quote_arg s ++ space :: print_args args
  end.

Lemma full_false tmp : (length tmp < 254)%nat -> full tmp = false.
Proof. intros H. apply Nat.leb_gt. lia. Qed.

Lemma escape_cons c l : escape (c :: l) = (if ceq c bslash || ceq c dquote then [bslash; c] else [c]) ++ escape l.
Proof. done. Qed.

(** Inside quotes the characters of an escaped text are taken as they are. *)
Lemma tok_escaped l rest tmp argv : (length tmp + length l <= 254)%nat ->
  tok_loop (escape l ++ rest) tmp argv false true = tok_loop rest (tmp ++ l) argv false true.
Proof.
  revert tmp. induction l as [|c l IH]; intros tmp Hl; [by rewrite app_nil_r|]. cbn [length] in Hl.
  rewrite escape_cons, <- app_assoc. replace (tmp ++ c :: l) with ((tmp ++ [c]) ++ l) by (by rewrite <- app_assoc).
  assert (Hf : full tmp = false) by (apply full_false; lia).
  destruct (ceq c bslash) eqn:E1; cbn [orb].
  { apply ceq_true in E1 as ->. cbn [app tok_loop]. change (ceq bslash bslash) with true. cbn iota. rewrite Hf.
    apply IH. rewrite length_app. cbn [length]. lia. }
  destruct (ceq c dquote) eqn:E2; cbn [app tok_loop].
  - change (ceq bslash bslash) with true. cbn iota. rewrite E1, E2, Hf. apply IH. rewrite length_app. cbn [length]. lia.
  - rewrite E1, E2, Hf. cbn [negb andb]. apply IH. rewrite length_app. cbn [length]. lia.
Qed.

Lemma tok_quoted s rest argv : (length (txt s) <= 254)%nat ->
  tok_loop (quote_arg s ++ rest) [] argv false false = tok_loop rest (txt s) argv false false.
Proof.
  intros Hl. unfold quote_arg. rewrite <- app_comm_cons, <- app_assoc. cbn [tok_loop].
  change (ceq dquote bslash) with false. change (ceq dquote dquote) with true. cbn iota. cbn [negb].
  rewrite tok_escaped by done. cbn [app tok_loop]. change (ceq dquote bslash) with false.
  change (ceq dquote dquote) with true. done.
Qed.

Lemma tok_print args argv : args <> [] -> Forall (fun s => (length (txt s) < 254)%nat) args ->
  (length argv + length args <= WCND_CMD_ARGS_MAX)%nat ->
  tok_loop (print_args args) [] argv false false = inr (argv ++ args).
Proof.
  revert argv. induction args as [|s args IH]; intros argv Hne Hall Hn; [done|].
  apply Forall_cons in Hall as [Hs Hall]. cbn [length] in Hn. destruct args as [|s' args].
  - cbn [print_args]. rewrite <- (app_nil_r (quote_arg s)), tok_quoted by lia. cbn [tok_loop].
    rewrite (proj2 (Nat.leb_gt _ _)) by lia. by rewrite str_txt.
  - change (print_args (s :: s' :: args)) with (quote_arg s ++ space :: print_args (s' :: args)).
    rewrite tok_quoted by lia. cbn [tok_loop]. change (ceq space bslash) with false. change (ceq space dquote) with false.
    cbn iota. rewrite full_false by done. change (negb false && ceq space space) with true. cbn iota.
    rewrite (proj2 (Nat.leb_gt _ _)) by lia. rewrite str_txt, IH by (done || rewrite length_app; cbn [length] in *; lia).
    by rewrite <- app_assoc.
Qed.

(** ** Cutting the input into commands *)

Lemma command_loop_line fd l rest cur d : nul ∉ l ->
  command_loop fd (l ++ nul :: rest) cur d =
  command_loop fd rest [] (if bool_decide (cur ++ l = []) then d else worker_dispatch fd (str (cur ++ l)) d).
Proof.
  revert cur. induction l as [|c l IH]; intros cur Hn.
  - cbn [app command_loop]. rewrite app_nil_r. done.
  - apply not_elem_of_cons in Hn as [Hc Hn]. cbn [app command_loop]. rewrite (proj2 (ceq_false _ _)) by done.
    rewrite IH by done. by rewrite <- app_assoc.
Qed.

(** Null-terminated lines. *)
Definition lines (ls : list (list ascii)) : list ascii := ls ≫= (fun l => l ++ [nul]).

Definition line_ok (l : list ascii) : Prop := l <> [] /\ nul ∉ l.

Lemma command_loop_lines fd ls d : Forall line_ok ls ->
  command_loop fd (lines ls) [] d = foldl (fun d l => worker_dispatch fd (str l) d) d ls.
Proof.
  revert d. induction ls as [|l ls IH]; intros d Hall; [done|]. apply Forall_cons in Hall as [[Hne Hn] Hall].
  change (lines (l :: ls)) with ((l ++ [nul]) ++ lines ls). rewrite <- app_assoc. change ([nul] ++ lines ls) with (nul :: lines ls).
  rewrite command_loop_line by done. cbn [app foldl]. rewrite bool_decide_false by done. by apply IH.
Qed.

Lemma dispatch_line fd l d : line_ok l -> head l <> Some space -> (length l < 254)%nat ->
  dispatch_command fd (l ++ [nul]) d = worker_dispatch fd (str l) d.
Proof.
  intros Hl Hh Hlen. unfold dispatch_command. rewrite (proj2 (Nat.leb_gt _ _)) by (rewrite length_app; cbn; lia).
  assert (skip_blanks (l ++ [nul]) = l ++ [nul]) as ->.
  { destruct l as [|c l]; [by destruct Hl|]. cbn in *. rewrite (proj2 (ceq_false _ _)); [done|congruence]. }
  replace (l ++ [nul]) with (lines [l]) by (cbn; by rewrite app_nil_r). by rewrite command_loop_lines by (by constructor).
Qed.

(** A line for the executer "wcn". *)
Lemma worker_wcn fd l a d : strstr (str l) "eng" = false -> tokenize (str l) = inr ("wcn" :: a) ->
  find_executer "wcn" (cmdexecuter_list d) = Some wcn_cmdexecuter ->
  worker_dispatch fd (str l) d = wcnd_runcommand fd a d.
Proof.
  intros He Ht Hf. unfold worker_dispatch. rewrite He. unfold dispatch_command2. rewrite Ht.
  cbn [head tail mbind option_bind]. by rewrite Hf.
Qed.

(** The socket pair is a stream. *)
Lemma txt_app a b : txt (a +:+ b) = txt a ++ txt b.
Proof.
  induction a as [|c a IH]; [done|]. change (String c a +:+ b) with (String c (a +:+ b)).
  change (txt (String c (a +:+ b))) with (c :: txt (a +:+ b)). by rewrite IH.
Qed.

Lemma sapp_assoc a b c : a +:+ (b +:+ c) = (a +:+ b) +:+ c.
Proof. rewrite <- (str_txt (a +:+ (b +:+ c))), <- (str_txt ((a +:+ b) +:+ c)), !txt_app. by rewrite app_assoc. Qed.

Lemma concat_snoc l x : String.concat "" (l ++ [x]) = String.concat "" l +:+ x.
Proof.
  induction l as [|y l IH]; [done|]. destruct l as [|z l].
  - done.
  - change (String.concat "" ((y :: z :: l) ++ [x])) with (y +:+ ("" +:+ String.concat "" ((z :: l) ++ [x]))).
    change (String.concat "" (y :: z :: l)) with (y +:+ ("" +:+ String.concat "" (z :: l))). rewrite IH.
    change ("" +:+ ?s) with s. apply sapp_assoc.
Qed.

(** ** What device operations leave alone *)

Record same_core (d d' : daemon) : Prop := SameCore {
  co_sm : sm d' = sm d;
  co_fd : self_fd d' = self_fd d;
  co_read : self_read d' = self_read d;
  co_exec : cmdexecuter_list d' = cmdexecuter_list d;
}.

#[export] Instance same_core_preorder : PreOrder same_core.
Proof. split; [by split|]. intros x y z [] []. split; congruence. Qed.

Lemma download_core cmd resp d : same_core d (snd (do_download_cmd cmd resp d)).
Proof. unfold do_download_cmd, next_download. destruct (downloads (io d)) as [|[r|] rs]; by split. Qed.

Lemma alive_core d : same_core d (snd (is_cp2_alive_ok d)).
Proof. unfold is_cp2_alive_ok, next_loop. destruct (loops (io d)); by split. Qed.

Lemma polling_core n d : same_core d (snd (polling_loop n d)).
Proof.
  revert d. induction n as [|n IH]; intros d; [done|]. cbn [polling_loop].
  pose proof (alive_core d) as Ha. destruct (is_cp2_alive_ok d) as [[|] d1]; [done|]. etrans; [exact Ha|apply IH].
Qed.

Lemma reset_loop_core start n d : (forall d, same_core d (snd (start d))) -> same_core d (snd (reset_loop id start n d)).
Proof.
  intros Hs. revert d. induction n as [|n IH]; intros d; [by split|]. cbn [reset_loop]. unfold id at 1.
  pose proof (Hs d) as H1. destruct (start d) as [[|] d1]; cbn [snd] in H1; [|etrans; [exact H1|apply IH]].
  pose proof (polling_core 51 d1) as H2. unfold polling_test_after_reset.
  destruct (polling_loop 51 d1) as [[|] d2]; cbn [snd] in H2.
  - etrans; [exact H1|]. etrans; [exact H2|]. by split.
  - etrans; [exact H1|]. etrans; [exact H2|apply IH].
Qed.

(** AT commands and answers also leave the start commands and the reset flag alone. *)
Record same_at (d d' : daemon) : Prop := SameAt {
  sa_core : same_core d d';
  sa_dl : dl_log d' = dl_log d;
  sa_reset : doing_reset d' = doing_reset d;
}.

#[export] Instance same_at_preorder : PreOrder same_at.
Proof. split; [by split|]. intros x y z [] []. split; [by etrans|congruence..]. Qed.

Lemma send_back_core fd s ok d : same_at d (send_back_cmd_result fd s ok d).
Proof. unfold send_back_cmd_result. case_match; by repeat split. Qed.

Lemma before_send_core fd a d : same_at d (snd (before_send_atcmd fd a d)).
Proof. unfold before_send_atcmd, send_back_cmd_result. repeat case_match; by repeat split. Qed.

Lemma at_answer_core v rs d : same_at d (snd (at_answer v rs d)).
Proof. unfold at_answer. repeat case_match; by repeat split. Qed.

Lemma process_atcmd_core fd a d : same_at d (snd (wcnd_process_atcmd fd a d)).
Proof.
  unfold wcnd_process_atcmd. destruct (negb _); [apply send_back_core|].
  pose proof (before_send_core fd a d) as H1. destruct (before_send_atcmd fd a d) as [[go v] d1]. cbn [snd] in H1.
  destruct (negb go); [done|]. assert (H2 : same_at d1 (snd (next_at d1))).
  { unfold next_at. destruct (ats (io d1)); by repeat split. }
  destruct (next_at d1) as [[| |rs] d2]; cbn [snd] in H2; (etrans; [exact H1|etrans; [exact H2|]]);
    [apply send_back_core..|].
  pose proof (at_answer_core v rs (add_at (at_line a) d2)) as H3.
  destruct (at_answer v rs (add_at (at_line a) d2)) as [[ans ret] d3]. cbn [snd] in H3.
  etrans; [|case_match; [exact H3|etrans; [exact H3|by repeat split]]]. by repeat split.
Qed.

Lemma config_core d : same_at d (config_cp2_bootup d).
Proof. unfold config_cp2_bootup. case_match; [done|]. case_match; [done|]. apply process_atcmd_core. Qed.

(** The outcome of the attempts depends on the results of the devices only. *)
Lemma polling_io n d d' : io d' = io d ->
  fst (polling_loop n d') = fst (polling_loop n d) /\ io (snd (polling_loop n d')) = io (snd (polling_loop n d)).
Proof.
  revert d d'. induction n as [|n IH]; intros d d' H; [done|]. cbn [polling_loop]. unfold is_cp2_alive_ok, next_loop.
  rewrite H. destruct (loops (io d)) as [|r rs]; [by apply IH|].
  destruct (match r with Some s => strstr s LOOP_TEST_ACK_STR | None => false end); [done|]. by apply IH.
Qed.

Lemma start_io d d' : io d' = io d ->
  fst (wcnd_start_cp2 d') = fst (wcnd_start_cp2 d) /\ io (snd (wcnd_start_cp2 d')) = io (snd (wcnd_start_cp2 d)).
Proof.
  intros H. unfold wcnd_start_cp2, do_download_cmd, next_download. rewrite H.
  destruct (downloads (io d)) as [|[r|] rs]; done.
Qed.

Lemma reset_loop_io n d d' : io d' = io d ->
  fst (reset_loop id wcnd_start_cp2 n d') = fst (reset_loop id wcnd_start_cp2 n d).
Proof.
  revert d d'. induction n as [|n IH]; intros d d' H; [done|]. cbn [reset_loop]. unfold id.
  destruct (start_io d d' H) as [E1 E2]. destruct (wcnd_start_cp2 d') as [ok' d1'], (wcnd_start_cp2 d) as [ok d1].
  cbn [fst snd] in *. subst ok'. destruct ok; [|by apply IH].
  destruct (polling_io 51 d1 d1' E2) as [E3 E4]. unfold polling_test_after_reset.
  destruct (polling_loop 51 d1') as [ok' d2'], (polling_loop 51 d1) as [ok d2]. cbn [fst snd] in *. subst ok'.
  destruct ok; [done|]. by apply IH.
Qed.

(** The attempts end with the reset flag cleared, and send at most one start command
    each. *)
Lemma polling_dl n d : dl_log (snd (polling_loop n d)) = dl_log d /\ doing_reset (snd (polling_loop n d)) = doing_reset d.
Proof.
  revert d. induction n as [|n IH]; intros d; [done|]. cbn [polling_loop]. unfold is_cp2_alive_ok, next_loop.
  destruct (loops (io d)) as [|r rs]; [apply IH|].
  destruct (match r with Some s => strstr s LOOP_TEST_ACK_STR | None => false end); [done|].
  destruct (IH (set_io (Script (downloads (io d)) rs (ats (io d)) (reset_enabled (io d))) d)) as [-> ->]. done.
Qed.

Lemma reset_loop_dl n d : doing_reset (snd (reset_loop id wcnd_start_cp2 n d)) = false /\
  exists k, (k <= n)%nat /\ dl_log (snd (reset_loop id wcnd_start_cp2 n d)) = dl_log d ++ replicate k "startwcn".
Proof.
  revert d. induction n as [|n IH]; intros d.
  - split; [done|]. exists 0%nat. cbn. by rewrite app_nil_r.
  - cbn [reset_loop]. change (id d) with d. assert (Hs : exists j, (j <= 1)%nat /\ dl_log (snd (wcnd_start_cp2 d)) = dl_log d ++ replicate j "startwcn").
    { unfold wcnd_start_cp2, do_download_cmd, next_download.
      destruct (downloads (io d)) as [|[r|] rs]; [exists 0%nat|exists 1%nat|exists 0%nat]; cbn; rewrite ?app_nil_r; auto with lia. }
    destruct Hs as (j & Hj & Hdl). destruct (wcnd_start_cp2 d) as [ok d1]. cbn [snd] in Hdl.
    assert (Hrec : forall d2, dl_log d2 = dl_log d1 ->
      doing_reset (snd (reset_loop id wcnd_start_cp2 n d2)) = false /\
      exists k, (k <= S n)%nat /\ dl_log (snd (reset_loop id wcnd_start_cp2 n d2)) = dl_log d ++ replicate k "startwcn").
    { intros d2 E. destruct (IH d2) as [H1 (k & Hk & H2)]. split; [done|]. exists (j + k)%nat. split; [lia|].
      by rewrite H2, E, Hdl, <- app_assoc, <- replicate_add. }
    destruct ok; [|by apply Hrec]. unfold polling_test_after_reset. destruct (polling_dl 51 d1) as [E _].
    destruct (polling_loop 51 d1) as [[|] d2]; cbn [snd] in E; [|by apply Hrec].
    split; [done|]. exists j. split; [lia|]. cbn. by rewrite E, Hdl.
Qed.

(** ** When a start succeeds

    From the answers of the download service and of the loop tests alone. *)

Definition said (text : string) (r : option string) : bool := match r with Some s => strstr s text | None => false end.

(** With [n] attempts left: an attempt whose start command is acknowledged and one of
    whose first 51 loop tests is answered brings CP2 up; one that fails in either way
    leaves the results behind it to the next. *)
Inductive comes_up : nat -> list (option string) -> list (option string) -> Prop :=
| up_now n r rs pre ack post :
    said "startwcn-ok" r = true -> Forall (fun x => said LOOP_TEST_ACK_STR x = false) pre -> (length pre < 51)%nat ->
    said LOOP_TEST_ACK_STR ack = true -> comes_up (S n) (r :: rs) (pre ++ ack :: post)
| up_not_started n r rs ls : said "startwcn-ok" r = false -> comes_up n rs ls -> comes_up (S n) (r :: rs) ls
| up_not_alive n r rs ls :
    said "startwcn-ok" r = true -> Forall (fun x => said LOOP_TEST_ACK_STR x = false) (take 51 ls) ->
    comes_up n rs (drop 51 ls) -> comes_up (S n) (r :: rs) ls.

Lemma polling_up n d :
  if fst (polling_loop n d)
  then exists pre ack post, loops (io d) = pre ++ ack :: post /\ Forall (fun x => said LOOP_TEST_ACK_STR x = false) pre /\
         (length pre < n)%nat /\ said LOOP_TEST_ACK_STR ack = true
  else Forall (fun x => said LOOP_TEST_ACK_STR x = false) (take n (loops (io d))) /\
       loops (io (snd (polling_loop n d))) = drop n (loops (io d)) /\ downloads (io (snd (polling_loop n d))) = downloads (io d).
Proof.
  revert d. induction n as [|n IH]; intros d; [done|]. cbn [polling_loop]. unfold is_cp2_alive_ok, next_loop.
  destruct (loops (io d)) as [|r rs] eqn:El.
  - specialize (IH d). rewrite El in IH. destruct (polling_loop n d) as [[|] d2]; cbn [fst snd] in *.
    + destruct IH as (pre & ack & post & E & _). by destruct pre.
    + destruct IH as (_ & -> & ->). by rewrite drop_nil.
  - fold (said LOOP_TEST_ACK_STR r). destruct (said LOOP_TEST_ACK_STR r) eqn:Er.
    + exists [], r, rs. split_and!; try done. cbn. lia.
    + specialize (IH (set_io (Script (downloads (io d)) rs (ats (io d)) (reset_enabled (io d))) d)).
      destruct (polling_loop n _) as [[|] d2]; cbn [fst snd] in *.
      * destruct IH as (pre & ack & post & E & Hp & Hn & Ha). exists (r :: pre), ack, post. cbn in E. rewrite E.
        split_and!; try done; [by constructor|cbn; lia].
      * destruct IH as (Hp & El2 & Ed2). split; [by constructor|done].
Qed.

Lemma ack_unique pre ack post ls : ls = pre ++ ack :: post -> (length pre < 51)%nat -> said LOOP_TEST_ACK_STR ack = true ->
  Forall (fun x => said LOOP_TEST_ACK_STR x = false) (take 51 ls) -> False.
Proof.
  intros -> Hn Ha H. rewrite take_app_ge in H by lia. apply Forall_app in H as [_ H].
  destruct (51 - length pre)%nat eqn:E; [lia|]. cbn [take] in H. apply Forall_cons in H as [H _]. congruence.
Qed.

(** The attempts of the code succeed exactly then. *)
Lemma reset_loop_up n d :
  fst (reset_loop id wcnd_start_cp2 n d) = true <-> comes_up n (downloads (io d)) (loops (io d)).
Proof.
  revert d. induction n as [|n IH]; intros d; [by split; [|inversion 1]|].
  cbn [reset_loop]. change (id d) with d. unfold wcnd_start_cp2 at 1, do_download_cmd, next_download.
  destruct (downloads (io d)) as [|r rs] eqn:Ed.
  { rewrite IH, Ed. split; [intros H; inversion H|intros H; inversion H]. }
  set (d1 := set_io _ d). assert (downloads (io d1) = rs /\ loops (io d1) = loops (io d)) as [D1 D2] by done.
  assert ((match r with Some a => (strstr a "startwcn-ok", add_dl "startwcn" d1) | None => (false, d1) end) =
          (said "startwcn-ok" r, match r with Some _ => add_dl "startwcn" d1 | None => d1 end)) as -> by (by destruct r).
  set (d2 := match r with Some _ => _ | None => d1 end). assert (io d2 = io d1) as E2 by (unfold d2; by case r).
  clearbody d2. clearbody d1.
  destruct (said "startwcn-ok" r) eqn:Er.
  - unfold polling_test_after_reset. pose proof (polling_up 51 d2) as Hp. destruct (polling_loop 51 d2) as [[|] d3]; cbn [fst snd] in *.
    + split; [intros _|done]. destruct Hp as (pre & ack & post & E & Hp & Hn & Ha). rewrite E2, D2 in E. rewrite E. by apply up_now.
    + destruct Hp as (Hp & Hl & Hd). rewrite E2, D2 in Hp, Hl. rewrite E2, D1 in Hd. rewrite IH, Hl, Hd. split; [by apply up_not_alive|].
      intros H. inversion H as [n' r' rs' pre ack post H1 H2 H3 H4 E5 E6 E7|n' r' rs' ls' H1 H2|n' r' rs' ls' H1 H2 H3]; subst; try congruence.
      exfalso. by eapply (ack_unique pre ack post).
  - rewrite IH, E2, D1, D2. split; [by apply up_not_started|]. intros H. inversion H; subst; congruence.
Qed.

(** ** Starting CP2 *)

Definition self_stream (d : daemon) : list ascii := txt (String.concat "" (selfcmds (sm d))).

(** The daemon between two commands: everything it has sent itself is read. *)
Record daemon_ready (d : daemon) : Prop := Ready {
  dr_exec : find_executer "wcn" (cmdexecuter_list d) = Some wcn_cmdexecuter;
  dr_enabled : is_wcn_modem_enabled (sm d) = true;
  dr_self : 0 <= self_fd d;
  dr_read : self_read d = length (self_stream d);
}.

Lemma open_cp2_spec d (up := fst (reset_loop id wcnd_start_cp2 RESET_ATTEMPTS (set_reset true d))) (d' := wcnd_open_cp2 d) :
  sm d' = wcnd_sm_step (Message (if up then WCND_EVENT_CP2_OK else WCND_EVENT_CP2_DOWN) (-1)) (sm d) /\
  self_fd d' = self_fd d /\ self_read d' = self_read d /\ cmdexecuter_list d' = cmdexecuter_list d /\ doing_reset d' = false /\
  exists k, (k <= 4)%nat /\ dl_log d' = dl_log d ++ replicate k "startwcn".
Proof.
  subst up d'. unfold wcnd_open_cp2. pose proof (reset_loop_core wcnd_start_cp2 RESET_ATTEMPTS (set_reset true d)
    (download_core _ _)) as [C1 C2 C3 C4].
  destruct (reset_loop_dl RESET_ATTEMPTS (set_reset true d)) as [R (k & Hk & D)].
  destruct (reset_loop id wcnd_start_cp2 RESET_ATTEMPTS (set_reset true d)) as [ok d1]. cbn [fst snd] in *.
  unfold after_start. destruct ok.
  - match goal with |- context [config_cp2_bootup ?x] => destruct (config_core x) as [[K1 K2 K3 K4] K5 K6] end.
    rewrite K1, K2, K3, K4, K5, K6. cbn. rewrite C1, C2, C3, C4, R, D. split_and!; try done. by exists k.
  - cbn. rewrite C1, C2, C3, C4, R, D. split_and!; try done. by exists k.
Qed.

(** Reading back a single command the daemon has sent itself. *)
Lemma serve_self input d cmd : self_read d = (length (self_stream d) - length (txt cmd))%nat ->
  self_pending d = txt cmd -> self_fd d <> -1 -> line_ok (txt cmd) -> head (txt cmd) <> Some space ->
  (length (txt cmd) < 254)%nat ->
  serve_fd input d (self_fd d) = worker_dispatch (self_fd d) cmd (set_self_read (length (self_stream d)) d).
Proof.
  intros Hr Hp Hf Hl Hh Hlen. unfold serve_fd. rewrite (proj2 (Z.eqb_neq _ _) Hf). unfold read_fd. rewrite Z.eqb_refl.
  rewrite Hp, take_ge by lia. assert (Hle : (length (txt cmd) <= length (self_stream d))%nat).
  { unfold self_pending in Hp. fold (self_stream d) in Hp. rewrite <- Hp, length_drop. lia. }
  unfold process_active_client_fd. destruct (txt cmd) as [|c l] eqn:E; [by destruct Hl|]. rewrite <- E in *.
  rewrite dispatch_line by done. rewrite str_txt. f_equal. f_equal. lia.
Qed.

Lemma no_nul l : forallb (fun c => negb (ceq c nul)) l = true -> nul ∉ l.
Proof.
  intros H Hin. rewrite forallb_forall in H. specialize (H nul (proj1 (list_elem_of_In _ _) Hin)). done.
Qed.

Definition open_cmd (cmd : string) : Prop := cmd = "BT-OPEN" \/ cmd = "WIFI-OPEN".

Lemma btwifi_open_stopped fd cmd w : open_cmd cmd -> is_wcn_modem_enabled w = true -> state w = WCND_STATE_CP2_STOPPED ->
  exists b, btwifi_cmd fd cmd w =
    wcnd_send_selfcmd START_CP2 (set_state WCND_STATE_CP2_STARTING (set_btwifi b
      (set_notify false (set_client_type fd WCND_CLIENT_TYPE_CMD w)))).
Proof.
  intros Hc He Hs. rewrite btwifi_cmd_eq by done. unfold wcnd_sm_step. cbn. rewrite He, Hs. cbn iota. cbn [negb].
  destruct Hc as [->| ->]; eexists; reflexivity.
Qed.

(** The line of a client that opens BT or WiFi. *)
Lemma client_open fd cmd d : open_cmd cmd -> find_executer "wcn" (cmdexecuter_list d) = Some wcn_cmdexecuter ->
  process_active_client_fd fd (Some (txt ("wcn " +:+ cmd))) d = Some (on_sm (btwifi_cmd fd cmd) d).
Proof.
  intros Hc He. unfold process_active_client_fd.
  assert (Hl : line_ok (txt ("wcn " +:+ cmd)) /\ head (txt ("wcn " +:+ cmd)) <> Some space /\ (length (txt ("wcn " +:+ cmd)) < 254)%nat).
  { destruct Hc as [->| ->]; repeat split; try done; (by apply Nat.ltb_lt) || by apply no_nul. }
  destruct Hl as (H1 & H2 & H3). destruct (txt ("wcn " +:+ cmd)) as [|c l] eqn:E; [by destruct H1|]. rewrite <- E in *.
  rewrite dispatch_line by done. rewrite (worker_wcn _ _ [cmd]); [|destruct Hc as [->| ->]; vm_compute; reflexivity..|done].
  destruct Hc as [->| ->]; reflexivity.
Qed.

Lemma mark_client_in fd t cs : fd ∈ (sockfd <$> cs) -> Client fd t ∈ mark_client fd t cs.
Proof.
  induction cs as [|c cs IH]; intros H; cbn in *; [by apply elem_of_nil in H|].
  destruct (Z.eqb_spec (sockfd c) fd) as [<-|Hne]; [by left|]. apply elem_of_cons in H as [->|H]; [done|].
  right. by apply IH.
Qed.

(** A start command alone in the socket pair. *)
Lemma self_start input d : find_executer "wcn" (cmdexecuter_list d) = Some wcn_cmdexecuter -> self_fd d <> -1 ->
  self_read d = (length (self_stream d) - 12)%nat -> self_pending d = txt START_CP2 ->
  serve_fd input d (self_fd d) = wcnd_open_cp2 (set_self_read (length (self_stream d)) d).
Proof.
  intros He Hf Hr Hp. rewrite (serve_self input d START_CP2); try done.
  - rewrite <- (str_txt START_CP2), (worker_wcn _ _ ["startcp2"]); [reflexivity|vm_compute; reflexivity..|done].
  - split; [done|by apply no_nul].
  - by apply Nat.ltb_lt.
Qed.

Lemma selfcmd_stream f cmd d : selfcmds (f (sm d)) = selfcmds (sm d) ++ [cmd] ->
  self_stream (on_sm f d) = self_stream d ++ txt cmd.
Proof. intros H. unfold self_stream. cbn. by rewrite H, concat_snoc, txt_app. Qed.

Lemma pending_after f cmd d : daemon_ready d -> selfcmds (f (sm d)) = selfcmds (sm d) ++ [cmd] ->
  self_pending (on_sm f d) = txt cmd.
Proof.
  intros Hd H. unfold self_pending. fold (self_stream (on_sm f d)). rewrite (selfcmd_stream f cmd d H). cbn [on_sm self_read].
  rewrite (dr_read _ Hd). apply drop_app_length.
Qed.

(** A step in STARTING sends no command to the daemon itself. *)
Lemma starting_self m w : state w = WCND_STATE_CP2_STARTING -> is_wcn_modem_enabled w = true ->
  selfcmds (wcnd_sm_step m w) = selfcmds w.
Proof.
  intros Hs He. destruct (sm_step_ok m w) as [S1 _ _ _]; [unfold states_ok; rewrite Hs; by vm_compute|done|].
  rewrite S1. unfold self_of. rewrite Hs. cbn [andb]. change (WCND_STATE_CP2_STARTING =? WCND_STATE_CP2_STOPPED) with false.
  change (WCND_STATE_CP2_STARTING =? WCND_STATE_CP2_STARTED) with false.
  change (WCND_STATE_CP2_STARTING =? WCND_STATE_CP2_STOPPING) with false. cbn. apply app_nil_r.
Qed.

(** ** Properties *)

(** C14: An open command of a client is carried through to its answer. Conditions:
    CP2 is stopped and the modem enabled, the executer of the commands is
    registered, everything the daemon has sent itself is read, and the client is in
    the table and its socket works. Then the bytes of the command put the daemon
    into STARTING; when it has read back the command it sent itself, it has tried to
    start CP2 at most four times. CP2 counts as up exactly when one of these
    attempts succeeds ([comes_up]: its start command is acknowledged and one of the
    51 loop tests after it is answered, the results being used in order); then the
    daemon is in STARTED, else in STOPPED again, the client has received the
    matching answer, no client is left waiting, everything the daemon has sent
    itself is read again and the executer is still registered. *)
Theorem open_command_answered input d fd cmd :
  daemon_ready d -> state (sm d) = WCND_STATE_CP2_STOPPED -> open_cmd cmd ->
  fd ∈ (sockfd <$> clients (sm d)) -> 0 <= fd -> gone (sm d) fd = false ->
  exists d1 (up : bool), process_active_client_fd fd (Some (txt ("wcn " +:+ cmd))) d = Some d1 /\
    state (sm d1) = WCND_STATE_CP2_STARTING /\
    (up = true <-> comes_up 4 (downloads (io d)) (loops (io d))) /\
    let d2 := serve_fd input d1 (self_fd d) in
    state (sm d2) = (if up then WCND_STATE_CP2_STARTED else WCND_STATE_CP2_STOPPED) /\
    (fd, if up then OK_RSP else FAIL_RSP) ∈ out (sm d2) /\
    (forall c, c ∈ clients (sm d2) -> waiting c = false) /\
    doing_reset d2 = false /\ (exists k, (k <= 4)%nat /\ dl_log d2 = dl_log d ++ replicate k "startwcn") /\
    find_executer "wcn" (cmdexecuter_list d2) = Some wcn_cmdexecuter /\ self_read d2 = length (self_stream d2).
Proof.
  intros Hd Hs Hcmd Hin Hfd Hg. destruct (btwifi_open_stopped fd cmd (sm d) Hcmd (dr_enabled _ Hd) Hs) as [b Hb].
  set (up := fst (reset_loop id wcnd_start_cp2 RESET_ATTEMPTS (set_reset true d))).
  exists (on_sm (btwifi_cmd fd cmd) d), up. split; [apply client_open; [done|apply Hd]|].
  set (d1 := on_sm (btwifi_cmd fd cmd) d). assert (Hst : state (sm d1) = WCND_STATE_CP2_STARTING) by (cbn; by rewrite Hb).
  assert (Hen : is_wcn_modem_enabled (sm d1) = true) by (cbn; rewrite Hb; apply Hd).
  assert (Hsc : selfcmds (sm d1) = selfcmds (sm d) ++ [START_CP2]) by (cbn; by rewrite Hb).
  split; [done|]. split; [apply (reset_loop_up 4 (set_reset true d))|]. cbv zeta. change (self_fd d) with (self_fd d1).
  pose proof (selfcmd_stream _ START_CP2 d Hsc) as Hstream. fold d1 in Hstream.
  rewrite self_start; [|apply Hd|pose proof (dr_self _ Hd); cbn; lia| |by apply (pending_after _ START_CP2)].
  2:{ rewrite Hstream, length_app. cbn [d1 on_sm self_read]. rewrite (dr_read _ Hd). change (length (txt START_CP2)) with 12%nat. lia. }
  set (d1' := set_self_read (length (self_stream d1)) d1).
  destruct (open_cp2_spec d1') as (O1 & O2 & O3 & O4 & O5 & k & Hk & O6).
  rewrite (reset_loop_io RESET_ATTEMPTS (set_reset true d) (set_reset true d1') eq_refl) in O1. fold up in O1.
  change (sm d1') with (sm d1) in O1.
  pose proof (fun c => start_answers_everyone (sm d1) (if up then WCND_EVENT_CP2_OK else WCND_EVENT_CP2_DOWN) (-1) c Hen Hst
    ltac:(destruct up; auto)) as Hans. cbv zeta in Hans. rewrite <- O1 in Hans.
  assert ((if up then WCND_EVENT_CP2_OK else WCND_EVENT_CP2_DOWN) =? WCND_EVENT_CP2_OK = up) as Eup by (by destruct up).
  rewrite Eup in Hans. destruct (Hans (Client fd WCND_CLIENT_TYPE_CMD)) as (H1 & H2 & _).
  split_and!; [done| |intros c Hc; by apply (Hans c)|done|by exists k|rewrite O4; apply Hd|].
  - apply H2.
    + cbn. rewrite Hb. by apply mark_client_in.
    + unfold waiting, picked. cbn [sockfd ctype]. by rewrite (proj2 (Z.leb_le 0 fd) Hfd).
    + cbn. by rewrite Hb.
  - rewrite O3. unfold self_stream. rewrite O1, starting_self by done. done.
Qed.

(** A daemon with one client, CP2 stopped; CP2 comes up at the second attempt. *)
Definition demo_io : script :=
  Script [Some "busy"; Some "startwcn-ok"] [None; Some "loopcheck_ack"] [AtReads [None; Some "OK"]] true.
Definition demo_daemon : daemon :=
  wcnd_register_cmdexecuter wcn_eng_cmdexecuter (wcnd_register_cmdexecuter wcn_cmdexecuter
    (Daemon demo_wcn false false false false true "Fail: UNKNOW VERSION" false (replicate WCND_MAX_CMD_EXECUTER_NUM None)
       5 0 [] [] [] [] [] [] demo_io)).

Lemma demo_ready : daemon_ready demo_daemon.
Proof. by split. Qed.

Lemma open_command_answered_witness :
  exists d1, process_active_client_fd 7 (Some (txt "wcn BT-OPEN")) demo_daemon = Some d1 /\
    let d2 := serve_fd (fun _ => None) d1 5 in
    state (sm d2) = WCND_STATE_CP2_STARTED /\ (7, OK_RSP) ∈ out (sm d2).
Proof.
  destruct (open_command_answered (fun _ => None) demo_daemon 7 "BT-OPEN") as (d1 & up & H1 & _ & Hup & H2 & H3 & _).
  - exact demo_ready.
  - reflexivity.
  - by left.
  - by left.
  - lia.
  - reflexivity.
  - assert (up = true) as ->.
    { apply Hup. apply up_not_started; [reflexivity|]. apply (up_now _ _ _ [None] (Some "loopcheck_ack") []); [reflexivity|..].
      - repeat constructor.
      - cbn. lia.
      - reflexivity. }
    exists d1. split; [exact H1|split; [exact H2|exact H3]].
Defined.

(** A client can pass any arguments.  Written in quotes with quotes and backslashes
    escaped and separated by blanks, up to sixteen arguments of up to 253 characters are
    split into exactly these arguments. *)
Theorem tokenize_roundtrip args :
  args <> [] -> (length args <= 16)%nat -> Forall (fun s => (length (txt s) < 254)%nat) args ->
  tokenize (str (print_args args)) = inr args.
Proof. intros Hne Hn Hall. unfold tokenize. rewrite txt_str. by apply (tok_print args []). Qed.

Lemma tokenize_roundtrip_witness :
  let arg := "say " +:+ str [dquote; bslash] +:+ " now" in
  tokenize (str (print_args ["wcn"; arg; ""])) = inr ["wcn"; arg; ""].
Proof.
  apply (tokenize_roundtrip ["wcn"; "say " +:+ str [dquote; bslash] +:+ " now"; ""]); [discriminate|cbn; lia|].
  repeat constructor; cbn; lia.
Defined.

(** Several commands in one message, each ended by a null character, run in order. *)
Theorem dispatch_lines fd ls d :
  Forall line_ok ls -> head (lines ls) <> Some space -> (length (lines ls) < 255)%nat ->
  dispatch_command fd (lines ls) d = foldl (fun d l => worker_dispatch fd (str l) d) d ls.
Proof.
  intros Hall Hh Hlen. unfold dispatch_command. rewrite (proj2 (Nat.leb_gt _ _)) by lia.
  assert (skip_blanks (lines ls) = lines ls) as ->; [|by apply command_loop_lines].
  destruct (lines ls) as [|c l]; [done|]. cbn in *. rewrite (proj2 (ceq_false _ _)); [done|congruence].
Qed.

(** A message of 254 bytes, all that one read takes, is dropped without an answer. *)
Theorem longest_message_dropped fd data d : length data = 254%nat -> process_active_client_fd fd (Some data) d = Some d.
Proof.
  intros H. unfold process_active_client_fd. destruct data as [|c l]; [done|].
  unfold dispatch_command. by rewrite (proj2 (Nat.leb_le _ _)) by (rewrite length_app; cbn in *; lia).
Qed.

(** The arguments of a command fit the buffer of 255 bytes. *)
Lemma tok_loop_short p : forall tmp argv esc quote l,
  tok_loop p tmp argv esc quote = inr l -> (length tmp <= 254)%nat -> Forall (fun s => (length (txt s) <= 254)%nat) argv ->
  Forall (fun s => (length (txt s) <= 254)%nat) l.
Proof.
  induction p as [|c p IH]; intros tmp argv esc quote l H Ht Ha; cbn [tok_loop] in H.
  - repeat case_match; simplify_eq. apply Forall_app. split; [done|]. constructor; [|done]. by rewrite txt_str.
  - assert (full tmp = false -> (length (tmp ++ [c]) <= 254)%nat) as Hf.
    { intros E. apply Nat.leb_gt in E. rewrite length_app. cbn [length]. lia. }
    assert (Forall (fun s => (length (txt s) <= 254)%nat) (argv ++ [str tmp])) as Ha'.
    { apply Forall_app. split; [done|]. constructor; [|done]. by rewrite txt_str. }
    repeat (case_match; try done); eapply IH; eauto; cbn; lia.
Qed.

Lemma tokenize_short data l : tokenize data = inr l -> Forall (fun s => (length (txt s) <= 254)%nat) l.
Proof. intros H. eapply tok_loop_short; [exact H|cbn; lia|done]. Qed.

(** One reply and nothing written to CP2. *)
Definition replied (fd : Z) (d d' : daemon) : Prop := (exists r, replies d' = replies d ++ [(fd, r)]) /\ at_log d' = at_log d.

Lemma send_back_replied fd s ok d : 0 < fd -> gone (sm d) fd = false -> replied fd d (send_back_cmd_result fd s ok d).
Proof.
  intros Hf Hg. unfold send_back_cmd_result. rewrite (proj2 (Z.ltb_ge fd 0)) by lia. split; [|done].
  cbn. rewrite Hg. eauto.
Qed.

(** When an AT command may be sent: CP2 runs without error, or it is told to sleep. *)
Definition at_allowed (a : string) (d : daemon) : Prop :=
  is_wcn_modem_enabled (sm d) = true /\
  (state (sm d) = WCND_STATE_CP2_STARTED /\ is_cp2_error d = false \/
   state (sm d) <> WCND_STATE_CP2_STARTED /\ a = WCND_ATCMD_CP2_SLEEP).

(** What CP2 is sent for a command: the command with a carriage return at its end,
    except that one of 254 characters gets none. *)
Definition sent_as (a line : string) : Prop :=
  (last (txt a) = Some cr \/ String.length a = 254%nat -> line = a) /\
  (last (txt a) <> Some cr -> (String.length a < 254)%nat -> txt line = txt a ++ [cr]).

Lemma txt_length a : length (txt a) = String.length a.
Proof. unfold txt. induction a as [|c a IH]; [done|]. cbn. by f_equal. Qed.

Lemma at_line_sent a : (String.length a <= 254)%nat -> sent_as a (at_line a).
Proof.
  intros Hl. assert (txt (cut 255 a) = txt a) as E by (unfold cut; rewrite txt_str; apply take_ge; rewrite txt_length; lia).
  unfold sent_as, at_line. rewrite E. assert (str (take (String.length a) (txt a ++ [nul])) = a) as Ea.
  { rewrite <- txt_length, take_app_length. apply str_txt. }
  split.
  - intros H. destruct (Nat.ltb_spec (String.length a) 254); cbn [andb]; [|exact Ea].
    destruct H as [H|H]; [|lia]. rewrite bool_decide_true by done. exact Ea.
  - intros H1 H2. rewrite (proj2 (Nat.ltb_lt _ _)), bool_decide_false by done. cbn [negb andb]. apply txt_str.
Qed.

(** What the first check leaves alone or decides. *)
Lemma before_send_spec fd a d go v d1 : 0 < fd -> gone (sm d) fd = false -> is_wcn_modem_enabled (sm d) = true ->
  before_send_atcmd fd a d = (go, v, d1) ->
  if go : bool then replies d1 = replies d /\ at_log d1 = at_log d /\ at_allowed a d /\
    io d1 = io d /\ cp2_version_info d1 = cp2_version_info d /\ v = strcasestr a "spatgetcp2info"
  else replied fd d d1 /\ ~ at_allowed a d.
Proof.
  intros Hf Hg En H. unfold before_send_atcmd in H. cbv zeta in H.
  set (d0 := if strcasestr a "at+armlog=0" then set_log false d else if strcasestr a "at+armlog=1" then set_log true d else d) in H.
  assert (E : sm d0 = sm d /\ is_cp2_error d0 = is_cp2_error d /\ replies d0 = replies d /\ at_log d0 = at_log d /\
    io d0 = io d /\ cp2_version_info d0 = cp2_version_info d)
    by (subst d0; repeat case_match; done).
  destruct E as (E1 & E2 & E3 & E4 & E5 & E6). clearbody d0.
  assert (Hrep : forall s ok, replied fd d (send_back_cmd_result fd s ok d0)).
  { intros s ok. unfold replied. rewrite <- E3, <- E4. apply send_back_replied; [done|by rewrite E1]. }
  unfold at_allowed. rewrite <- E1, <- E2. destruct (Z.eqb_spec (state (sm d0)) WCND_STATE_CP2_STARTED) as [Es|Es]; cbn [negb] in H.
  - destruct (is_cp2_error d0) eqn:Ee; injection H as <- <- <-; [split; [apply Hrep|naive_solver]|]. rewrite E1 in *. split_and!; auto.
  - destruct (strcasestr a "spatgetcp2info") eqn:Ev; cbn [negb andb] in H.
    + injection H as <- <- <-. rewrite (proj2 (Z.ltb_lt 0 fd) Hf). split; [split; [|done]; cbn; rewrite E1, Hg, E3; eauto|].
      intros [_ [[? _]|[_ ->]]]; [done|]. by vm_compute in Ev.
    + unfold strcmp in H. case_bool_decide as Ea; injection H as <- <- <-; [|split; [apply Hrep|naive_solver]].
      rewrite E1 in *. split_and!; auto.
Qed.

(** The reads of an answer: errors and reads without data in front of the first data. *)
Definition no_data (r : option string) : Prop := r = None \/ r = Some "".

Lemma at_read_first n pre s post : Forall no_data pre -> (length pre < n)%nat -> s <> "" -> at_read n (pre ++ Some s :: post) = Some s.
Proof.
  revert n. induction pre as [|r pre IH]; intros n Hp Hn Hs; destruct n as [|n]; try (cbn in Hn; lia); cbn [app at_read].
  - by destruct s.
  - apply Forall_cons in Hp as [[->| ->] Hp]; cbn in Hn |- *; apply IH; auto; lia.
Qed.

Lemma at_read_none n rs : Forall no_data (take n rs) -> at_read n rs = None.
Proof.
  revert rs. induction n as [|n IH]; intros rs H; [done|]. destruct rs as [|r rs]; [done|]. cbn [take] in H.
  apply Forall_cons in H as [[->| ->] H]; cbn; auto.
Qed.

(** A command that was written, with the reads that followed and the reply [r]. *)
Definition at_served (a : string) (d d' : daemon) (r : string) (rs : list (option string)) : Prop :=
  (exists line, at_log d' = at_log d ++ [line] /\ sent_as a line) /\
  (forall pre s post, rs = pre ++ Some s :: post -> Forall no_data pre -> (length pre < 6)%nat -> s <> "" -> r = s) /\
  (Forall no_data (take 6 rs) ->
   r = if strcasestr a "spatgetcp2info" then cut 254 (cp2_version_info d) else "Fail: No data available").

(** C34: Every AT command of a client is answered exactly once, and CP2 sees it exactly
    when it can.  For a command of at most 254 characters from a client whose socket
    works: the client receives one reply, whatever the devices do.  The command is
    written to CP2 if and only if the modem is enabled, CP2 is started without error
    (or is not started and the command tells it to sleep), and its interface can be
    opened and written; then exactly one line is written, the command with a carriage
    return at its end (one of 254 characters is written without), and the reply is the
    first data among at most six reads or, when there is none, the saved version for a
    request of the version and "Fail: No data available" for every other command. *)
Theorem atcmd_one_reply fd a d (d' := snd (wcnd_process_atcmd fd a d)) :
  0 < fd -> gone (sm d) fd = false -> (String.length a <= 254)%nat ->
  exists r, replies d' = replies d ++ [(fd, r)] /\
    (at_allowed a d /\ (exists rs l, ats (io d) = AtReads rs :: l) <-> at_log d' <> at_log d) /\
    (forall rs l, at_allowed a d -> ats (io d) = AtReads rs :: l -> at_served a d d' r rs).
Proof.
  intros Hf Hg Ha. subst d'. unfold wcnd_process_atcmd.
  assert (forall d', replied fd d d' -> ~ (at_allowed a d /\ (exists rs l, ats (io d) = AtReads rs :: l)) ->
    exists r, replies d' = replies d ++ [(fd, r)] /\
      (at_allowed a d /\ (exists rs l, ats (io d) = AtReads rs :: l) <-> at_log d' <> at_log d) /\
      forall rs l, at_allowed a d -> ats (io d) = AtReads rs :: l -> at_served a d d' r rs) as Hno.
  { intros d' [[r Hr] Hl] Hn. exists r. split; [done|]. split; [naive_solver|]. intros rs l H1 H2. exfalso. eauto. }
  destruct (is_wcn_modem_enabled (sm d)) eqn:En; cbn [negb].
  2: { apply Hno; [by apply send_back_replied|]. intros [[? _] _]. congruence. }
  pose proof (before_send_core fd a d) as [[C1 _ _ _] _ _]. destruct (before_send_atcmd fd a d) as [[go v] d1] eqn:Eb. cbn [snd] in C1.
  pose proof (before_send_spec fd a d go v d1 Hf Hg En Eb) as Hb. destruct go; cbn [negb snd]; [|apply Hno; tauto].
  destruct Hb as (B1 & B2 & B3 & B4 & B5 & B6). unfold next_at. rewrite B4.
  assert (Hfail : forall s d2, sm d2 = sm d -> replies d2 = replies d -> at_log d2 = at_log d -> replied fd d (send_back_cmd_result fd s false d2)).
  { intros s d2 N1 N2 N3. unfold replied. rewrite <- N2, <- N3. apply send_back_replied; [done|by rewrite N1]. }
  destruct (ats (io d)) as [|[| |rs] l] eqn:El; [apply Hno; [by apply Hfail|naive_solver]..|].
  set (d2 := set_io _ d1). destruct (at_answer v rs (add_at (at_line a) d2)) as [[ans ret] d3] eqn:Ea.
  assert (A : sm d3 = sm d /\ replies d3 = replies d /\ at_log d3 = at_log d ++ [at_line a]).
  { unfold at_answer in Ea. repeat case_match; simplify_eq/=; by rewrite ?C1, ?B1, ?B2. }
  destruct A as (A1 & A2 & A3). rewrite (proj2 (Z.leb_gt fd 0) Hf). cbn [snd]. exists ans. split; [cbn; by rewrite A1, Hg, A2|].
  split.
  { split; [|intros _; split; [done|eauto]]. intros _ H. cbn in H. rewrite A3 in H. apply (f_equal length) in H. rewrite length_app in H. cbn in H. lia. }
  intros rs' l' _ H. injection H as <- <-. split; [exists (at_line a); split; [done|by apply at_line_sent]|]. unfold at_answer in Ea. split.
  - intros pre x post -> Hp Hn Hx. rewrite at_read_first in Ea by done. repeat case_match; by simplify_eq.
  - intros Hn. rewrite (at_read_none 6 rs Hn) in Ea. rewrite <- B6. destruct v; simplify_eq/=; [by rewrite <- B5|done].
Qed.

(** A started CP2 that answers at the second read. *)
Definition demo_up : daemon := on_sm (set_state WCND_STATE_CP2_STARTED) demo_daemon.

Lemma atcmd_one_reply_witness :
  replies (snd (wcnd_process_atcmd 7 "at+test" demo_up)) = [(7, "OK")] /\
  at_log (snd (wcnd_process_atcmd 7 "at+test" demo_up)) = ["at+test" +:+ str [cr]].
Proof.
  destruct (atcmd_one_reply 7 "at+test" demo_up) as (r & H1 & _ & H2); [lia|reflexivity|cbn; lia|].
  destruct (H2 [None; Some "OK"] []) as ((line & H3 & [_ H4]) & H5 & _); [split; [reflexivity|left; split; reflexivity]|reflexivity|].
  assert (r = "OK") as -> by (apply (H5 [None] "OK" []); [reflexivity|repeat constructor|cbn; lia|discriminate]).
  split; [exact H1|]. rewrite H3. f_equal. rewrite <- (str_txt line), H4; [reflexivity|vm_compute; discriminate|cbn; lia].
Defined.

(** ** Commands the daemon sends itself *)

(** The socket pair read when it holds any one line. *)
Lemma serve_self_pending input d l : self_pending d = l -> self_fd d <> -1 -> line_ok l -> head l <> Some space ->
  (length l < 254)%nat ->
  serve_fd input d (self_fd d) = worker_dispatch (self_fd d) (str l) (set_self_read (self_read d + length l) d).
Proof.
  intros Hp Hf Hl Hh Hlen. unfold serve_fd. rewrite (proj2 (Z.eqb_neq _ _) Hf). unfold read_fd. rewrite Z.eqb_refl.
  rewrite Hp, take_ge by lia. unfold process_active_client_fd. destruct l as [|c l']; [by destruct Hl|].
  by rewrite dispatch_line.
Qed.

(** Two commands the daemon sends itself before it reads are lost.  They have no
    terminator, so that one read joins them.  When at start-up the request to power CP2 on
    waits in the socket pair and a client's open command is served in the same round,
    clients first, the joined text is no command: the daemon stays in STARTING, with its
    own commands read, no start command given and the client not answered. *)
Theorem self_commands_joined input ready d fd t cmd (d' := listen_round None ready input d) :
  find_executer "wcn" (cmdexecuter_list d) = Some wcn_cmdexecuter -> is_wcn_modem_enabled (sm d) = true ->
  state (sm d) = WCND_STATE_CP2_STOPPED -> open_cmd cmd -> 0 <= fd -> 0 <= self_fd d -> fd <> self_fd d ->
  clients (sm d) = Client fd t :: replicate 9 (Client (-1) WCND_CLIENT_TYPE_NOTIFY) ->
  self_pending d = txt "wcn poweron" -> ready fd = true -> ready (self_fd d) = true ->
  input fd = Some (txt ("wcn " +:+ cmd)) ->
  state (sm d') = WCND_STATE_CP2_STARTING /\ self_pending d' = [] /\ dl_log d' = dl_log d /\ out (sm d') = out (sm d).
Proof.
  intros He En Hs Hcmd Hfd Hsf Hne Hcl Hp Rf Rs Hin. subst d'. unfold listen_round. rewrite Hcl.
  assert (Hfds : filter (fun fd => fd <> -1 /\ ready fd = true) (sockfd <$> (Client fd t :: replicate 9 (Client (-1) WCND_CLIENT_TYPE_NOTIFY))) = [fd]).
  { rewrite fmap_cons, filter_cons_True by (split; [cbn; lia|done]). cbn [sockfd]. by f_equal. }
  rewrite Hfds, Rs. cbn [app foldl]. assert (Hst : store_client_fd (self_fd d) (store_client_fd fd (replicate WCND_MAX_CLIENT_NUM (-1)))
    = [fd; self_fd d] ++ replicate 8 (-1)).
  { cbn [WCND_MAX_CLIENT_NUM replicate store_client_fd]. rewrite Z.eqb_refl. cbn [store_client_fd].
    rewrite (proj2 (Z.eqb_neq fd (-1))), (proj2 (Z.eqb_neq fd (self_fd d))) by lia. by rewrite Z.eqb_refl. }
  rewrite Hst, foldl_app. clear Hfds Hst. cbn [foldl].
  assert (H1 : serve_fd input d fd = on_sm (btwifi_cmd fd cmd) d).
  { unfold serve_fd. rewrite (proj2 (Z.eqb_neq fd (-1))) by lia. unfold read_fd. rewrite (proj2 (Z.eqb_neq _ _) Hne), Hin.
    assert (take 254 <$> Some (txt ("wcn " +:+ cmd)) = Some (txt ("wcn " +:+ cmd))) as -> by (by destruct Hcmd as [->| ->]).
    by rewrite client_open. }
  rewrite H1. destruct (btwifi_open_stopped fd cmd (sm d) Hcmd En Hs) as [b Hb].
  set (d1 := on_sm (btwifi_cmd fd cmd) d). assert (Hsc : selfcmds (sm d1) = selfcmds (sm d) ++ [START_CP2]) by (cbn; by rewrite Hb).
  assert (Hp1 : self_pending d1 = txt "wcn poweronwcn startcp2").
  { unfold self_pending in *. fold (self_stream d) in Hp. fold (self_stream d1).
    assert (self_stream d1 = self_stream d ++ txt START_CP2) as -> by (by apply selfcmd_stream).
    change (self_read d1) with (self_read d). rewrite drop_app_le, Hp; [done|].
    apply (f_equal length) in Hp. rewrite length_drop in Hp. change (length (txt "wcn poweron")) with 11%nat in Hp. lia. }
  change (self_fd d) with (self_fd d1). rewrite (serve_self_pending input d1 _ Hp1); [|cbn; lia|split; [done|by apply no_nul]|done|by apply Nat.ltb_lt].
  rewrite (worker_wcn _ _ ["poweronwcn"; "startcp2"]); [|vm_compute; reflexivity..|done].
  set (d2 := set_self_read (self_read d1 + length (txt "wcn poweronwcn startcp2")) d1).
  assert (Hrun : wcnd_runcommand (self_fd d1) ["poweronwcn"; "startcp2"] d2 = send_back_cmd_result (self_fd d1) (Some "Not support cmd") false d2)
    by reflexivity.
  rewrite Hrun. assert (Hidle : forall n x, foldl (serve_fd input) x (replicate n (-1)) = x) by (induction n; [done|]; intros; cbn; auto).
  rewrite Hidle. destruct (send_back_core (self_fd d1) (Some "Not support cmd") false d2) as [[C1 _ C3 _] C4 _].
  unfold self_pending. rewrite C1, C3, C4. cbn [d2 set_self_read sm self_read dl_log].
  unfold self_pending in Hp1. split_and!.
  - cbn. by rewrite Hb.
  - rewrite <- drop_drop, Hp1. done.
  - done.
  - cbn. by rewrite Hb.
Qed.

(** The request to power CP2 on waits to be read. *)
Definition demo_poweron : daemon := on_sm (wcnd_send_selfcmd "wcn poweron") demo_daemon.

Lemma self_commands_joined_witness :
  let input := fun fd => if fd =? 7 then Some (txt "wcn BT-OPEN") else None in
  state (sm (listen_round None (fun _ => true) input demo_poweron)) = WCND_STATE_CP2_STARTING /\
  self_pending (listen_round None (fun _ => true) input demo_poweron) = [] /\
  dl_log (listen_round None (fun _ => true) input demo_poweron) = [] /\
  out (sm (listen_round None (fun _ => true) input demo_poweron)) = [].
Proof.
  apply (self_commands_joined (fun fd => if fd =? 7 then Some (txt "wcn BT-OPEN") else None) (fun _ => true)
    demo_poweron 7 WCND_CLIENT_TYPE_NOTIFY "BT-OPEN"); try reflexivity.
  - by left.
  - lia.
  - vm_compute. discriminate.
  - vm_compute. discriminate.
Defined.
