(* ===== verification/DmMd5.v ===== *)
(** * MD5 of the device-management client

    Model of the digest part of [libs/libdm/src/sprd_dm_md5_b64.c]:
    [DM_MD5Transform] as the sequence of its 64 macro calls,
    [DMMD5Init]/[DMMD5Update]/[DMMD5Final] on the context record, and
    [mmidm_calc_md5_cred], which replaces a C string by its digest.  The
    reference is RFC 1321 on the whole message; the theorem says that any
    sequence of [DMMD5Update] calls followed by [DMMD5Final] computes it. *)

From S2P Require Import Prelude.

(** ** The compression function *)

(** The state words of the context, and the local variables [a], [b], [c],
    [d] of [DM_MD5Transform]. *)
Record regs := Regs { ra : Z; rb : Z; rc : Z; rd : Z }.

Definition F (x y z : Z) : Z := z .^ (x .& (y .^ z)).
Definition G (x y z : Z) : Z := y .^ (z .& (y .^ x)).
Definition H (x y z : Z) : Z := x .^ y .^ z.
Definition I (x y z : Z) : Z := y .^ (x .| u32 (Z.lnot z)).
Definition ROTATE_LEFT (x n : Z) : Z := u32 (x .<< n) .| (x .>> (32 - n)).

Definition S11 : Z := 7.
Definition S12 : Z := 12.
Definition S13 : Z := 17.
Definition S14 : Z := 22.
Definition S21 : Z := 5.
Definition S22 : Z := 9.
Definition S23 : Z := 14.
Definition S24 : Z := 20.
Definition S31 : Z := 4.
Definition S32 : Z := 11.
Definition S33 : Z := 16.
Definition S34 : Z := 23.
Definition S41 : Z := 6.
Definition S42 : Z := 10.
Definition S43 : Z := 15.
Definition S44 : Z := 21.

(** A macro call [FF (a, b, c, d, x[k], s, ac)]: which macro, the order of the
    four variables, the message word, the rotation and the constant.  Only
    the first variable is assigned. *)
Inductive macro := MF | MG | MH | MI.
Inductive order := abcd | dabc | cdab | bcda.
Record call := Call { mac : macro; ord : order; kx : nat; sh : Z; ac : Z }.

#[export] Instance macro_eq_dec : EqDecision macro.
Proof. solve_decision. Defined.
#[export] Instance order_eq_dec : EqDecision order.
Proof. solve_decision. Defined.
#[export] Instance call_eq_dec : EqDecision call.
Proof. solve_decision. Defined.

Definition FF : order -> nat -> Z -> Z -> call := Call MF.
Definition GG : order -> nat -> Z -> Z -> call := Call MG.
Definition HH : order -> nat -> Z -> Z -> call := Call MH.
Definition II : order -> nat -> Z -> Z -> call := Call MI.

Definition macro_fun (m : macro) : Z -> Z -> Z -> Z :=
  match m with MF => F | MG => G | MH => H | MI => I end.

(** The body of the macros: add, rotate, add. *)
Definition macro_body (f : Z -> Z -> Z -> Z) (a b c d x s k : Z) : Z :=
  let a := u32 (a + (f b c d + x + k)) in
  let a := ROTATE_LEFT a s in
  u32 (a + b).

Definition do_call (x : list Z) (r : regs) (i : call) : regs :=
  let body a b c d := macro_body (macro_fun (mac i)) a b c d (x !!! kx i) (sh i) (ac i) in
  match ord i with
  | abcd => Regs (body (ra r) (rb r) (rc r) (rd r)) (rb r) (rc r) (rd r)
  | dabc => Regs (ra r) (rb r) (rc r) (body (rd r) (ra r) (rb r) (rc r))
  | cdab => Regs (ra r) (rb r) (body (rc r) (rd r) (ra r) (rb r)) (rd r)
  | bcda => Regs (ra r) (body (rb r) (rc r) (rd r) (ra r)) (rc r) (rd r)
  end.

Definition rounds : list call := [
   FF abcd 0 S11 0xd76aa478;
   FF dabc 1 S12 0xe8c7b756;
   FF cdab 2 S13 0x242070db;
   FF bcda 3 S14 0xc1bdceee;
   FF abcd 4 S11 0xf57c0faf;
   FF dabc 5 S12 0x4787c62a;
   FF cdab 6 S13 0xa8304613;
   FF bcda 7 S14 0xfd469501;
   FF abcd 8 S11 0x698098d8;
   FF dabc 9 S12 0x8b44f7af;
   FF cdab 10 S13 0xffff5bb1;
   FF bcda 11 S14 0x895cd7be;
   FF abcd 12 S11 0x6b901122;
   FF dabc 13 S12 0xfd987193;
   FF cdab 14 S13 0xa679438e;
   FF bcda 15 S14 0x49b40821;
   GG abcd 1 S21 0xf61e2562;
   GG dabc 6 S22 0xc040b340;
   GG cdab 11 S23 0x265e5a51;
   GG bcda 0 S24 0xe9b6c7aa;
   GG abcd 5 S21 0xd62f105d;
   GG dabc 10 S22 0x2441453;
   GG cdab 15 S23 0xd8a1e681;
   GG bcda 4 S24 0xe7d3fbc8;
   GG abcd 9 S21 0x21e1cde6;
   GG dabc 14 S22 0xc33707d6;
   GG cdab 3 S23 0xf4d50d87;
   GG bcda 8 S24 0x455a14ed;
   GG abcd 13 S21 0xa9e3e905;
   GG dabc 2 S22 0xfcefa3f8;
   GG cdab 7 S23 0x676f02d9;
   GG bcda 12 S24 0x8d2a4c8a;
   HH abcd 5 S31 0xfffa3942;
   HH dabc 8 S32 0x8771f681;
   HH cdab 11 S33 0x6d9d6122;
   HH bcda 14 S34 0xfde5380c;
   HH abcd 1 S31 0xa4beea44;
   HH dabc 4 S32 0x4bdecfa9;
   HH cdab 7 S33 0xf6bb4b60;
   HH bcda 10 S34 0xbebfbc70;
   HH abcd 13 S31 0x289b7ec6;
   HH dabc 0 S32 0xeaa127fa;
   HH cdab 3 S33 0xd4ef3085;
   HH bcda 6 S34 0x4881d05;
   HH abcd 9 S31 0xd9d4d039;
   HH dabc 12 S32 0xe6db99e5;
   HH cdab 15 S33 0x1fa27cf8;
   HH bcda 2 S34 0xc4ac5665;
   II abcd 0 S41 0xf4292244;
   II dabc 7 S42 0x432aff97;
   II cdab 14 S43 0xab9423a7;
   II bcda 5 S44 0xfc93a039;
   II abcd 12 S41 0x655b59c3;
   II dabc 3 S42 0x8f0ccc92;
   II cdab 10 S43 0xffeff47d;
   II bcda 1 S44 0x85845dd1;
   II abcd 8 S41 0x6fa87e4f;
   II dabc 15 S42 0xfe2ce6e0;
   II cdab 6 S43 0xa3014314;
   II bcda 13 S44 0x4e0811a1;
   II abcd 4 S41 0xf7537e82;
   II dabc 11 S42 0xbd3af235;
   II cdab 2 S43 0x2ad7d2bb;
   II bcda 9 S44 0xeb86d391].

(** [DM_Decode] of the first [len] bytes, [DM_Encode] of whole words. *)
Fixpoint DM_Decode (input : list Z) : list Z :=
  match input with
  | b0 :: b1 :: b2 :: b3 :: r => (b0 .| (b1 .<< 8) .| (b2 .<< 16) .| (b3 .<< 24)) :: DM_Decode r
  | _ => []
  end.

Definition DM_Encode (input : list Z) : list Z :=
  flat_map (fun w => [w .& 0xff; (w .>> 8) .& 0xff; (w .>> 16) .& 0xff; (w .>> 24) .& 0xff]) input.

Definition DM_MD5Transform (state : regs) (block : list Z) : regs :=
  let x := DM_Decode (take 64 block) in
  let r := foldl (do_call x) state rounds in
  Regs (u32 (ra state + ra r)) (u32 (rb state + rb r)) (u32 (rc state + rc r)) (u32 (rd state + rd r)).

(** ** The context *)

Record MD5_CTX := Ctx { state : regs; count0 : Z; count1 : Z; buffer : list Z }.

Definition PADDING : list Z := 0x80 :: replicate 63 0.

Definition DMMD5Init (context : MD5_CTX) : MD5_CTX :=
  Ctx (Regs 0x67452301 0xefcdab89 0x98badcfe 0x10325476) 0 0 (buffer context).

(** [for (i = partLen; i + 63 < inputLen; i += 64)]: the state and the final
    [i]; [None] when the loop needs more than [fuel] rounds. *)
Fixpoint update_loop (fuel : nat) (s : regs) (input : list Z) (i : Z) : option (regs * Z) :=
  match fuel with
  | O => None
  | S fuel =>
      if u32 (i + 63) <? Z.of_nat (length input)
      then block ← mem_read input i 64;
           update_loop fuel (DM_MD5Transform s block) input (u32 (i + 64))
      else Some (s, i)
  end.

(** [DMMD5Update]: [inputLen] is the length of [input].  A copy outside the
    64-byte buffer or a read outside the input is [None]. *)
Definition DMMD5Update (context : MD5_CTX) (input : list Z) : option MD5_CTX :=
  let inputLen := Z.of_nat (length input) in
  let index := (count0 context .>> 3) .& 0x3F in
  let c0 := u32 (count0 context + u32 (inputLen .<< 3)) in
  let c1 := if c0 <? u32 (inputLen .<< 3) then u32 (count1 context + 1) else count1 context in
  let c1 := u32 (c1 + (inputLen .>> 29)) in
  let partLen := u32 (64 - index) in
  '(s, b, index, i) ←
    (if partLen <=? inputLen
     then part ← mem_read input 0 partLen;
          b ← mem_write (buffer context) index part;
          '(s, i) ← update_loop (S (length input)) (DM_MD5Transform (state context) b) input partLen;
          Some (s, b, 0, i)
     else Some (state context, buffer context, index, 0));
  rest ← mem_read input i (u32 (inputLen - i));
  b ← mem_write b index rest;
  Some (Ctx s c0 c1 b).

(** [DMMD5Final]: the digest; the context is cleared afterwards. *)
Definition DMMD5Final (context : MD5_CTX) : option (list Z * MD5_CTX) :=
  let bits := DM_Encode [count0 context; count1 context] in
  let index := (count0 context .>> 3) .& 0x3f in
  let padLen := if index <? 56 then 56 - index else 120 - index in
  pad ← mem_read PADDING 0 padLen;
  context ← DMMD5Update context pad;
  context ← DMMD5Update context bits;
  Some (DM_Encode [ra (state context); rb (state context); rc (state context); rd (state context)],
        Ctx (Regs 0 0 0 0) 0 0 (replicate 64 0)).

(** The C string at the start of a buffer: [strlen] reads outside the buffer
    when it holds no NUL byte. *)
Fixpoint strlen (m : list Z) : option nat :=
  match m with
  | [] => None
  | c :: m => if c =? 0 then Some O else S <$> strlen m
  end.

(** [mmidm_calc_md5_cred]; [stack] is what the context's buffer holds before
    it is initialised. *)
Definition mmidm_calc_md5_cred (stack creddata : list Z) : option (list Z) :=
  let ctx := DMMD5Init (Ctx (Regs 0 0 0 0) 0 0 stack) in
  n ← strlen creddata;
  ctx ← DMMD5Update ctx (take n creddata);
  '(HA1, _) ← DMMD5Final ctx;
  creddata ← mem_write creddata 0 HA1;
  mem_write creddata 16 [0].

(** ** Reference: RFC 1321 *)

(** The constants are [floor (2^32 * |sin i|)], [i] in radians from 1 to 64:
    the sine in fixed point with 512 fractional bits, by 160 terms of its
    power series. *)
Fixpoint sin_series (terms : nat) (x2 t k acc : Z) : Z :=
  match terms with
  | O => acc
  | S terms => sin_series terms x2 (- (t * x2) / (k * (k + 1))) (k + 2) (acc + t)
  end.
Definition sin_fix (x : Z) : Z := sin_series 160 (x * x) (x * 2 ^ 512) 2 0.
Definition rfc_T : list Z := map (fun i => Z.abs (sin_fix (Z.of_nat i)) / 2 ^ 480) (seq 1 64).
Definition rfc_S : list Z := [7; 12; 17; 22; 5; 9; 14; 20; 4; 11; 16; 23; 6; 10; 15; 21].

(** The auxiliary function, message word and rotation of operation [i]. *)
Definition rfc_fun (i : nat) (x y z : Z) : Z :=
  match (i / 16)%nat with
  | 0%nat => (x .& y) .| (Z.lnot x .& z)
  | 1%nat => (x .& z) .| (y .& Z.lnot z)
  | 2%nat => x .^ y .^ z
  | _ => y .^ (x .| u32 (Z.lnot z))
  end.
Definition rfc_k (i : nat) : nat :=
  match (i / 16)%nat with
  | 0%nat => i
  | 1%nat => (5 * i + 1) `mod` 16
  | 2%nat => (3 * i + 5) `mod` 16
  | _ => (7 * i) `mod` 16
  end.
Definition rfc_rot (x s : Z) : Z := u32 (x * 2 ^ s) + x / 2 ^ (32 - s).

(** One operation; the roles of the four registers rotate. *)
Definition rfc_step (x : list Z) (r : regs) (i : nat) : regs :=
  let f := rfc_fun i (rb r) (rc r) (rd r) in
  let t := u32 (ra r + f + (x !!! rfc_k i) + (rfc_T !!! i)) in
  let s := rfc_S !!! (4 * (i / 16) + i `mod` 4)%nat in
  Regs (rd r) (u32 (rb r + rfc_rot t s)) (rb r) (rc r).

Definition rfc_block (h : regs) (block : list Z) : regs :=
  let x := map (fun j => ld32 block (4 * j)) (seq 0 16) in
  let r := foldl (rfc_step x) h (seq 0 64) in
  Regs (u32 (ra h + ra r)) (u32 (rb h + rb r)) (u32 (rc h + rc r)) (u32 (rd h + rd r)).

(** The first [n] blocks of a message. *)
Fixpoint absorb (n : nat) (h : regs) (m : list Z) : regs :=
  match n with
  | O => h
  | S n => absorb n (rfc_block h (take 64 m)) (drop 64 m)
  end.

Definition rfc_iv : regs := Regs 0x67452301 0xefcdab89 0x98badcfe 0x10325476.

(** Padding to 56 modulo 64 and the 64-bit length. *)
Definition rfc_pad (n : nat) : list Z :=
  0x80 :: replicate ((119 - n `mod` 64) `mod` 64) 0
    ++ st32 (8 * Z.of_nat n) ++ st32 ((8 * Z.of_nat n) .>> 32).

Definition rfc1321 (m : list Z) : list Z :=
  let p := m ++ rfc_pad (length m) in
  let h := absorb (length p / 64) rfc_iv p in
  st32 (ra h) ++ st32 (rb h) ++ st32 (rc h) ++ st32 (rd h).

Example rfc1321_abc :
  rfc1321 [97; 98; 99] =
  [0x90; 0x01; 0x50; 0x98; 0x3c; 0xd2; 0x4f; 0xb0; 0xd6; 0x96; 0x3f; 0x7d; 0x28; 0xe1; 0x7f; 0x72].
Proof. vm_compute. reflexivity. Qed.

Example calc_md5_abc :
  mmidm_calc_md5_cred (replicate 64 7) ([97; 98; 99] ++ replicate 29 0) =
    Some (rfc1321 [97; 98; 99] ++ replicate 16 0).
Proof. vm_compute. reflexivity. Qed.

(** ** The macro calls are the RFC's operations *)

Definition ref_call (i : nat) : call :=
  Call (match (i / 16)%nat with 0%nat => MF | 1%nat => MG | 2%nat => MH | _ => MI end)
    (match (i `mod` 4)%nat with 0%nat => abcd | 1%nat => dabc | 2%nat => cdab | _ => bcda end)
    (rfc_k i) (rfc_S !!! (4 * (i / 16) + i `mod` 4)%nat) (rfc_T !!! i).

Lemma rounds_ref : rounds = map ref_call (seq 0 64).
Proof. vm_compute. reflexivity. Qed.

Lemma F_rfc x y z : F x y z = (x .& y) .| (Z.lnot x .& z).
Proof.
  unfold F. bitwise i Hi. rewrite Z.lnot_spec by lia.
  by destruct (Z.testbit x i), (Z.testbit y i), (Z.testbit z i).
Qed.

Lemma G_rfc x y z : G x y z = (x .& z) .| (y .& Z.lnot z).
Proof.
  unfold G. bitwise i Hi. rewrite Z.lnot_spec by lia.
  by destruct (Z.testbit x i), (Z.testbit y i), (Z.testbit z i).
Qed.

Lemma ROTATE_LEFT_rfc x s : 0 <= x < 4294967296 -> 0 <= s <= 32 -> ROTATE_LEFT x s = rfc_rot x s.
Proof.
  intros Hx Hs. unfold ROTATE_LEFT, rfc_rot.
  assert (u32 (x .<< s) = (x mod 2 ^ (32 - s)) .<< s) as ->.
  { bitwise i Hi. destruct (Z.ltb_spec i 32), (Z.leb_spec s i); simpl; try done;
      rewrite testbit_mod_pow2 by lia; destruct (Z.ltb_spec (i - s) (32 - s)); simpl; try done; lia. }
  assert (u32 (x * 2 ^ s) = (x mod 2 ^ (32 - s)) * 2 ^ s) as ->.
  { unfold u32. replace 4294967296 with (2 ^ (32 - s) * 2 ^ s).
    - by rewrite Z.mul_mod_distr_r by (apply Z.pow_nonzero; lia).
    - rewrite <- Z.pow_add_r by lia. by replace (32 - s + s) with 32 by lia. }
  rewrite Z.lor_comm, lor_add; [rewrite shiftr_div by lia; lia|lia|].
  rewrite shiftr_div by lia. split; [apply Z.div_pos; lia|].
  apply Z.div_lt_upper_bound; [lia|]. rewrite <- Z.pow_add_r by lia.
  replace (32 - s + s) with 32 by lia. change (2 ^ 32) with 4294967296. lia.
Qed.

Lemma macro_fun_rfc i x y z : macro_fun (mac (ref_call i)) x y z = rfc_fun i x y z.
Proof.
  unfold ref_call, rfc_fun. cbn [mac].
  destruct (i / 16)%nat as [|[|[|n]]]; cbn [macro_fun]; auto using F_rfc, G_rfc.
Qed.

Lemma rfc_S_bound i : (i < 64)%nat -> 0 <= rfc_S !!! (4 * (i / 16) + i `mod` 4)%nat <= 32.
Proof.
  intros Hi. assert (Forall (fun s => 0 <= s <= 32) rfc_S) as HS by (repeat constructor; lia).
  destruct (lookup_lt_is_Some_2 rfc_S (4 * (i / 16) + i `mod` 4)) as [s Hs].
  { change (length rfc_S) with 16%nat.
    pose proof (Nat.mod_upper_bound i 4). pose proof (Nat.Div0.div_lt_upper_bound i 16 4). lia. }
  rewrite (list_lookup_total_correct _ _ _ Hs). by apply (Forall_lookup_1 _ _ _ _ HS Hs).
Qed.

(** The registers of the RFC before operation [i], seen in the C variables. *)
Definition view (i : nat) (r : regs) : regs :=
  match (i `mod` 4)%nat with
  | 0%nat => r
  | 1%nat => Regs (rd r) (ra r) (rb r) (rc r)
  | 2%nat => Regs (rc r) (rd r) (ra r) (rb r)
  | _ => Regs (rb r) (rc r) (rd r) (ra r)
  end.

Lemma mod4_S i : (S i `mod` 4 = match i `mod` 4 with 0 => 1 | 1 => 2 | 2 => 3 | _ => 0 end)%nat.
Proof.
  pose proof (Nat.mod_upper_bound i 4). pose proof (Nat.div_mod_eq i 4).
  rewrite (Nat.div_mod_eq i 4) at 1. rewrite <- Nat.add_succ_r, Nat.add_comm, Nat.mul_comm.
  rewrite Nat.Div0.mod_add. destruct (i `mod` 4)%nat as [|[|[|[|n]]]]; try reflexivity. lia.
Qed.

Lemma body_rfc i x a b c d :
  (i < 64)%nat ->
  macro_body (macro_fun (mac (ref_call i))) a b c d (x !!! kx (ref_call i)) (sh (ref_call i)) (ac (ref_call i))
  = rb (rfc_step x (Regs a b c d) i).
Proof.
  intros Hi. unfold macro_body. rewrite macro_fun_rfc. cbn [ref_call kx sh ac].
  rewrite ROTATE_LEFT_rfc by auto using u32_range, rfc_S_bound.
  unfold rfc_step. cbn [ra rb rc rd]. rewrite !Z.add_assoc. f_equal. lia.
Qed.

Lemma step_view i x r :
  (i < 64)%nat -> rfc_step x (view i r) i = view (S i) (do_call x r (ref_call i)).
Proof.
  intros Hi. unfold view, do_call. rewrite mod4_S, !body_rfc by done. cbn [ref_call ord].
  destruct (i `mod` 4)%nat as [|[|[|n]]]; destruct r; reflexivity.
Qed.

Lemma calls_view n i x r :
  (i + n <= 64)%nat ->
  foldl (rfc_step x) (view i r) (seq i n) = view (i + n) (foldl (do_call x) r (map ref_call (seq i n))).
Proof.
  revert i r. induction n as [|n IH]; intros i r Hi; cbn [seq map foldl].
  - by rewrite Nat.add_0_r.
  - rewrite step_view by lia. rewrite IH by lia. f_equal. lia.
Qed.

Lemma DM_Decode_words block :
  length block = 64%nat -> DM_Decode block = map (fun j => ld32 block (4 * j)) (seq 0 16).
Proof. intros Hl. do 64 (destruct block as [|? block]; [done|]). destruct block; [reflexivity|done]. Qed.

Lemma transform_rfc s block :
  length block = 64%nat -> DM_MD5Transform s block = rfc_block s block.
Proof.
  intros Hl. unfold DM_MD5Transform, rfc_block. rewrite take_ge by lia.
  rewrite DM_Decode_words by done. generalize (map (fun j => ld32 block (4 * j)) (seq 0 16)). intros x.
  rewrite rounds_ref. pose proof (calls_view 64 0 x s ltac:(lia)) as E.
  change (view 0 s) with s in E. rewrite E. generalize (foldl (do_call x) s (map ref_call (seq 0 64))).
  intros r. change (view (0 + 64) r) with r. done.
Qed.

(** ** Streaming *)

Lemma absorb_app n k h m1 m2 :
  length m1 = (64 * n)%nat -> absorb (n + k) h (m1 ++ m2) = absorb k (absorb n h m1) m2.
Proof.
  revert h m1. induction n as [|n IH]; intros h m1 Hl.
  - destruct m1; [done|simpl in Hl; lia].
  - cbn [absorb Nat.add]. rewrite take_app_le, drop_app_le by lia.
    apply IH. rewrite length_drop. lia.
Qed.

(** The block loop consumes every full block and stops inside its bounds. *)
Lemma update_loop_spec fuel s input i :
  Z.of_nat (length input) < 4294967232 -> (i <= length input)%nat ->
  (length input - i < 64 * fuel)%nat ->
  exists k, update_loop fuel s input (Z.of_nat i) = Some (absorb k s (drop i input), Z.of_nat (i + 64 * k)) /\
    (i + 64 * k <= length input < i + 64 * k + 64)%nat.
Proof.
  intros Hmax. revert s i. induction fuel as [|fuel IH]; intros s i Hi Hf; [lia|].
  cbn [update_loop]. rewrite u32_small by lia. destruct (Z.ltb_spec (Z.of_nat i + 63) (Z.of_nat (length input))).
  - unfold mem_read. rewrite decide_True by lia. cbn [mbind option_bind].
    rewrite u32_small by lia. change 64 with (Z.of_nat 64) at 2. rewrite <- Nat2Z.inj_add, !Nat2Z.id.
    change (Z.to_nat 64) with 64%nat.
    destruct (IH (DM_MD5Transform s (take 64 (drop i input))) (i + 64)%nat) as (k & E & Hk); [lia|lia|].
    exists (S k). rewrite E. split; [|lia]. cbn [absorb]. rewrite drop_drop.
    rewrite transform_rfc by (rewrite length_take, length_drop; lia).
    do 3 f_equal. lia.
  - exists 0%nat. rewrite Nat.mul_0_r, Nat.add_0_r. split; [done|]. lia.
Qed.

(** [ctx_repr c m]: the context [c] has received the message [m]. *)
Record ctx_repr (c : MD5_CTX) (m : list Z) : Prop := CtxRepr {
  cr_count0 : count0 c = u32 (8 * Z.of_nat (length m));
  cr_count1 : count1 c = u32 ((8 * Z.of_nat (length m)) .>> 32);
  cr_buffer : length (buffer c) = 64%nat;
  cr_data : exists m1 m2 n, m = m1 ++ m2 /\ length m1 = (64 * n)%nat /\ (length m2 < 64)%nat /\
    state c = absorb n rfc_iv m1 /\ take (length m2) (buffer c) = m2 }.

Lemma count_add (n l : Z) :
  0 <= n -> 0 <= l < 4294967296 ->
  let b := u32 (l .<< 3) in
  let c0 := u32 (u32 (8 * n) + b) in
  c0 = u32 (8 * (n + l)) /\
  u32 ((if c0 <? b then u32 (u32 ((8 * n) .>> 32) + 1) else u32 ((8 * n) .>> 32)) + (l .>> 29))
    = u32 ((8 * (n + l)) .>> 32).
Proof.
  intros Hn Hl. cbn zeta. rewrite Z.shiftl_mul_pow2, !shiftr_div by lia.
  change (2 ^ 3) with 8. change (2 ^ 29) with 536870912. change (2 ^ 32) with 4294967296.
  assert (l / 536870912 = (l * 8) / 4294967296) as ->.
  { change 4294967296 with (536870912 * 8). by rewrite Z.div_mul_cancel_r by lia. }
  replace (8 * (n + l)) with (8 * n + l * 8) by lia.
  generalize (8 * n) as N, (l * 8) as L. intros N L. split.
  - unfold u32. by rewrite <- Z.add_mod by lia.
  - unfold u32.
    pose proof (Z.div_mod N 4294967296 ltac:(lia)) as EN.
    pose proof (Z.div_mod L 4294967296 ltac:(lia)) as EL.
    pose proof (Z.mod_pos_bound N 4294967296 ltac:(lia)) as RN.
    pose proof (Z.mod_pos_bound L 4294967296 ltac:(lia)) as RL.
    revert EN EL RN RL.
    generalize (N / 4294967296) as q, (N mod 4294967296) as r, (L / 4294967296) as p, (L mod 4294967296) as t.
    intros q r p t EN EL RN RL.
    assert ((N + L) / 4294967296 = q + p + (r + t) / 4294967296) as ->.
    { rewrite <- (Z.div_add_l _ 4294967296) by lia. f_equal. lia. }
    destruct (Z.ltb_spec ((r + t) mod 4294967296) t) as [Hc|Hc].
    + replace ((r + t) / 4294967296) with 1 by zlia.
      rewrite Z.add_mod_idemp_l, <- Z.add_assoc, (Z.add_comm 1 p), Z.add_assoc by lia. 
      rewrite <- (Z.add_assoc (q mod _)), Z.add_mod_idemp_l by lia. f_equal. lia.
    + replace ((r + t) / 4294967296) with 0 by zlia.
      rewrite Z.add_mod_idemp_l by lia. f_equal. lia.
Qed.

Lemma index_mod n : (u32 (8 * n) .>> 3) .& 0x3F = n mod 64.
Proof.
  change 0x3F with (Z.ones 6). rewrite land_ones_mod, shiftr_div by lia.
  change (2 ^ 3) with 8. change (2 ^ 6) with 64. unfold u32. zlia.
Qed.

Lemma repr_index c m1 m2 n :
  ctx_repr c (m1 ++ m2) -> length m1 = (64 * n)%nat -> (length m2 < 64)%nat ->
  (count0 c .>> 3) .& 0x3F = Z.of_nat (length m2).
Proof.
  intros [-> _ _ _] H1 H2. rewrite index_mod, length_app, H1.
  replace (Z.of_nat (64 * n + length m2)) with (Z.of_nat (length m2) + Z.of_nat n * 64) by lia.
  rewrite Z.mod_add by lia. apply Z.mod_small. lia.
Qed.

(** [DMMD5Update] receives the bytes it is given. *)
Lemma DMMD5Update_repr c m d :
  ctx_repr c m -> Z.of_nat (length d) < 4294967232 ->
  exists c', DMMD5Update c d = Some c' /\ ctx_repr c' (m ++ d).
Proof.
  intros Hc Hd. destruct (cr_data _ _ Hc) as (m1 & m2 & n & -> & H1 & H2 & Hst & Hbuf).
  pose proof (repr_index _ _ _ _ Hc H1 H2) as Hidx. destruct Hc as [Hc0 Hc1 Hb _].
  unfold DMMD5Update. rewrite Hidx, Hc0, Hc1.
  pose proof (count_add (Z.of_nat (length (m1 ++ m2))) (Z.of_nat (length d)) ltac:(lia) ltac:(lia)) as [E0 E1].
  cbn zeta in E0, E1. rewrite E1, E0, <- Nat2Z.inj_add, <- length_app.
  rewrite (u32_small (64 - _)) by lia. destruct (Z.leb_spec (64 - Z.of_nat (length m2)) (Z.of_nat (length d))).
  - set (p := (64 - length m2)%nat). assert (64 - Z.of_nat (length m2) = Z.of_nat p) as Ep by lia.
    rewrite Ep, mem_read_prefix, Nat2Z.id by lia. cbn [mbind option_bind].
    assert (length (take p d) = p) as Hp by (rewrite length_take; lia).
    rewrite mem_write_nat by lia. cbn [mbind option_bind].
    assert (splice (buffer c) (length m2) (take p d) = m2 ++ take p d) as Eb.
    { unfold splice. rewrite Hbuf, Hp, drop_ge by lia. by rewrite app_nil_r. }
    rewrite Eb.
    destruct (update_loop_spec (S (length d)) (DM_MD5Transform (state c) (m2 ++ take p d)) d p)
      as (k & E & Hk); [lia..|].
    rewrite E. cbn [mbind option_bind]. rewrite (u32_small (Z.of_nat (length d) - _)) by lia.
    rewrite <- Nat2Z.inj_sub, mem_read_nat, (take_ge (drop _ _)) by (rewrite ?length_drop; lia).
    cbn [mbind option_bind]. rewrite (mem_write_ok _ 0) by (rewrite ?length_drop, ?length_app; lia).
    eexists. split; [reflexivity|]. split; cbn [count0 count1 buffer state]; [done|done| |].
    { rewrite splice_length; rewrite ?length_app, ?length_drop; lia. }
    exists (m1 ++ (m2 ++ take p d) ++ take (64 * k) (drop p d)), (drop (p + 64 * k) d), (n + (1 + k))%nat.
    split_and!.
    + rewrite <- !app_assoc. do 2 f_equal. rewrite <- drop_drop. by rewrite !take_drop.
    + rewrite !length_app, Hp, length_take, length_drop. lia.
    + rewrite length_drop. lia.
    + rewrite (absorb_app n) by done. rewrite (absorb_app 1 k _ (m2 ++ _)) by (rewrite length_app; lia). rewrite <- Hst.
      cbn [absorb]. rewrite (take_ge (m2 ++ _)) by (rewrite length_app; lia).
      rewrite transform_rfc by (rewrite length_app; lia).
      rewrite <- (take_drop (64 * k) (drop p d)) at 1. rewrite <- (Nat.add_0_r k) at 1.
      rewrite (absorb_app k 0) by (rewrite length_take, length_drop; lia). done.
    + change (Z.to_nat 0) with 0%nat. unfold splice. rewrite take_0. cbn [app]. apply take_app_length.
  - cbn [mbind option_bind]. rewrite (u32_small (Z.of_nat (length d) - _)) by lia.
    rewrite Z.sub_0_r, mem_read_prefix, Nat2Z.id, take_ge by lia. cbn [mbind option_bind].
    rewrite mem_write_nat by lia.
    eexists. split; [reflexivity|]. split; cbn [count0 count1 buffer state]; [done|done| |].
    { rewrite splice_length; lia. }
    exists m1, (m2 ++ d), n. rewrite <- app_assoc. split_and!; [done|done|rewrite length_app; lia|done|].
    unfold splice. rewrite Hbuf, app_assoc. apply take_app_length.
Qed.

Lemma u8_u32_shiftr z n : 0 <= n <= 24 -> u8 (u32 z .>> n) = u8 (z .>> n).
Proof.
  intros. bitwise i Hi. destruct (Z.ltb_spec i 8), (Z.ltb_spec (i + n) 32); simpl; try done. lia.
Qed.

Lemma st32_u32 z : st32 (u32 z) = st32 z.
Proof.
  unfold st32. rewrite !u8_u32_shiftr by lia.
  pose proof (u8_u32_shiftr z 0 ltac:(lia)) as E. rewrite !Z.shiftr_0_r in E. by rewrite E.
Qed.

Lemma DM_Encode_st32 l : DM_Encode l = flat_map st32 l.
Proof. unfold DM_Encode, st32. apply flat_map_ext. intros. by rewrite !land_ff. Qed.

(** The bytes [DMMD5Final] appends are the RFC's padding. *)
Lemma final_pad c m1 m2 n :
  ctx_repr c (m1 ++ m2) -> length m1 = (64 * n)%nat -> (length m2 < 64)%nat ->
  let index := (count0 c .>> 3) .& 0x3f in
  exists pad, mem_read PADDING 0 (if index <? 56 then 56 - index else 120 - index) = Some pad /\
    (length pad <= 64)%nat /\
    pad ++ DM_Encode [count0 c; count1 c] = rfc_pad (length (m1 ++ m2)).
Proof.
  intros Hc H1 H2. cbn zeta. rewrite (repr_index _ _ _ _ Hc H1 H2). destruct Hc as [Hc0 Hc1 _ _].
  rewrite DM_Encode_st32, Hc0, Hc1. cbn [flat_map]. rewrite !st32_u32, app_nil_r.
  set (q := ((119 - length (m1 ++ m2) `mod` 64) `mod` 64)%nat).
  assert (Z.of_nat q + 1 = if Z.of_nat (length m2) <? 56 then 56 - Z.of_nat (length m2)
                           else 120 - Z.of_nat (length m2)) as Hq.
  { unfold q. rewrite length_app, H1, Nat.add_comm, (Nat.mul_comm 64), Nat.Div0.mod_add.
    rewrite (Nat.mod_small (length m2)) by lia.
    destruct (Z.ltb_spec (Z.of_nat (length m2)) 56).
    - replace (119 - length m2)%nat with (55 - length m2 + 1 * 64)%nat by lia.
      rewrite Nat.Div0.mod_add, Nat.mod_small by lia. lia.
    - rewrite Nat.mod_small by lia. lia. }
  assert (q < 64)%nat as Hq64 by (apply Nat.mod_upper_bound; lia).
  exists (0x80 :: replicate q 0). rewrite <- Hq. split_and!.
  - change (Z.of_nat q + 1) with (Z.of_nat q + Z.of_nat 1). rewrite <- Nat2Z.inj_add, Nat.add_1_r.
    rewrite mem_read_prefix, Nat2Z.id by (change (length PADDING) with 64%nat; lia).
    unfold PADDING. cbn [take]. f_equal. f_equal. rewrite take_replicate, Nat.min_l by lia. done.
  - cbn [length]. rewrite length_replicate. lia.
  - unfold rfc_pad. fold q. reflexivity.
Qed.

Lemma rfc_pad_length n : exists k, (n + length (rfc_pad n) = 64 * k)%nat.
Proof.
  unfold rfc_pad. cbn [length]. rewrite !length_app, length_replicate. cbn [length st32].
  pose proof (Nat.div_mod_eq n 64). pose proof (Nat.mod_upper_bound n 64 ltac:(lia)).
  destruct (decide (n `mod` 64 < 56)%nat).
  - exists (n / 64 + 1)%nat. replace (119 - n `mod` 64)%nat with (55 - n `mod` 64 + 1 * 64)%nat by lia.
    rewrite Nat.Div0.mod_add, (Nat.mod_small (55 - _)) by lia. lia.
  - exists (n / 64 + 2)%nat. rewrite (Nat.mod_small (119 - _)) by lia. lia.
Qed.

(** A context whose message is a whole number of blocks holds their digest. *)
Lemma repr_blocks c m k :
  ctx_repr c m -> length m = (64 * k)%nat -> state c = absorb (length m / 64) rfc_iv m.
Proof.
  intros [_ _ _ (m1 & m2 & n & -> & H1 & H2 & -> & _)] Hl.
  rewrite length_app in Hl. assert (length m2 = 0)%nat by lia. destruct m2; [|done].
  rewrite app_nil_r, H1, Nat.mul_comm, Nat.div_mul by lia. done.
Qed.

Lemma DMMD5Final_repr c m : ctx_repr c m -> exists c', DMMD5Final c = Some (rfc1321 m, c').
Proof.
  intros Hc. pose proof (cr_data _ _ Hc) as (m1 & m2 & n & -> & H1 & H2 & _).
  destruct (final_pad _ _ _ _ Hc H1 H2) as (pad & Epad & Hpad & Erfc).
  unfold DMMD5Final. rewrite Epad. cbn [mbind option_bind].
  destruct (DMMD5Update_repr _ _ pad Hc) as (c1 & -> & Hc1); [lia|]. cbn [mbind option_bind].
  destruct (DMMD5Update_repr _ _ (DM_Encode [count0 c; count1 c]) Hc1) as (c2 & -> & Hc2); [cbn; lia|].
  cbn [mbind option_bind]. rewrite <- app_assoc, Erfc in Hc2.
  destruct (rfc_pad_length (length (m1 ++ m2))) as [k Hk]. rewrite <- length_app in Hk.
  eexists. rewrite (repr_blocks _ _ _ Hc2 Hk), DM_Encode_st32. cbn [flat_map]. rewrite app_nil_r.
  reflexivity.
Qed.

(** A sequence of [DMMD5Update] calls. *)
Fixpoint updates (c : MD5_CTX) (chunks : list (list Z)) : option MD5_CTX :=
  match chunks with
  | [] => Some c
  | d :: chunks => c ← DMMD5Update c d; updates c chunks
  end.

Lemma init_repr c : length (buffer c) = 64%nat -> ctx_repr (DMMD5Init c) [].
Proof. intros. split; [done|done|done|]. exists [], [], 0%nat. split_and!; simpl; done || lia. Qed.

Lemma updates_repr c m chunks :
  ctx_repr c m -> Forall (fun d => Z.of_nat (length d) < 4294967232) chunks ->
  exists c', updates c chunks = Some c' /\ ctx_repr c' (m ++ mjoin chunks).
Proof.
  intros Hc Hf. revert c m Hc. induction Hf as [|d chunks Hd _ IH]; intros c m Hc; simpl.
  - exists c. by rewrite app_nil_r.
  - destruct (DMMD5Update_repr _ _ _ Hc Hd) as (c1 & -> & Hc1). simpl.
    rewrite app_assoc. by apply IH.
Qed.

(** C35: the context API computes MD5 as RFC 1321 defines it, however the
    message is cut into [DMMD5Update] calls: for every sequence of chunks
    (each shorter than 2^32 - 64 bytes) initialising the context, feeding the
    chunks and finishing returns, without touching memory outside the context
    and the chunks, the RFC digest of their concatenation; the 64 unrolled
    macro calls, the constants (from the sine), the carry between the two
    count words, the partial-block buffer and the padding are all covered. *)
Theorem md5_stream_rfc (ctx : MD5_CTX) (chunks : list (list Z)) :
  length (buffer ctx) = 64%nat ->
  Forall (fun d => Z.of_nat (length d) < 4294967232) chunks ->
  exists ctx', updates (DMMD5Init ctx) chunks ≫= DMMD5Final = Some (rfc1321 (mjoin chunks), ctx').
Proof.
  intros Hb Hf. destruct (updates_repr _ _ _ (init_repr _ Hb) Hf) as (c & -> & Hc).
  by apply DMMD5Final_repr.
Qed.

Lemma md5_stream_rfc_witness :
  exists ctx', updates (DMMD5Init (Ctx (Regs 0 0 0 0) 9 9 (replicate 64 5))) [replicate 70 97; [1; 2]; replicate 60 3]
    ≫= DMMD5Final = Some (rfc1321 (mjoin [replicate 70 97; [1; 2]; replicate 60 3]), ctx').
Proof.
  apply md5_stream_rfc; [reflexivity|]. repeat constructor; vm_compute; reflexivity.
Defined.

Lemma strlen_app (s m : list Z) : Forall (fun c => c <> 0) s -> strlen (s ++ 0 :: m) = Some (length s).
Proof.
  induction 1 as [|c s Hc _ IH]; cbn [strlen app length]; [done|].
  by rewrite (proj2 (Z.eqb_neq c 0)), IH by done.
Qed.

(** What [mmidm_calc_md5_cred] leaves in its buffer: the digest of the string
    up to its first NUL, then a NUL. *)
Lemma calc_md5_cred_spec (stack s rest : list Z) :
  length stack = 64%nat -> Z.of_nat (length s) < 4294967232 -> Forall (fun c => c <> 0) s ->
  (17 <= length (s ++ 0%Z :: rest))%nat ->
  mmidm_calc_md5_cred stack (s ++ 0 :: rest) = Some (rfc1321 s ++ 0 :: drop 17 (s ++ 0 :: rest)).
Proof.
  intros Hs Hl Hnz Hlen. unfold mmidm_calc_md5_cred.
  rewrite strlen_app by done. cbn [mbind option_bind]. rewrite take_app_exact by done.
  destruct (DMMD5Update_repr _ _ s (init_repr (Ctx (Regs 0 0 0 0) 0 0 stack) Hs) Hl) as (c1 & -> & Hc1).
  cbn [mbind option_bind]. destruct (DMMD5Final_repr _ _ Hc1) as (c2 & ->). cbn [mbind option_bind app].
  assert (length (rfc1321 s) = 16%nat) as Hd by reflexivity.
  rewrite mem_write_ok by lia. cbn [mbind option_bind]. change (Z.to_nat 0) with 0%nat.
  rewrite mem_write_ok by (rewrite ?splice_length; cbn [length]; lia). f_equal.
  change (Z.to_nat 16) with (0 + 16)%nat. rewrite <- Hd at 2. rewrite splice_splice by lia.
  unfold splice. rewrite take_0, length_app, Hd, <- app_assoc. done.
Qed.
