(* ===== verification/DmBase64.v ===== *)
(** * Base64 of the device-management client

    Model of the base64 part of [libs/libdm/src/sprd_dm_md5_b64.c]: the
    streaming encoder [mmidm_base64Encode] with its saved bytes and line
    breaks, [mmidm_calc_b64_cred], and the decoder [DM_Base64_decode] with its
    128-byte staging buffer.  [char] is unsigned (the ARM ABI), so a character
    is a byte. *)

From S2P Require Import Prelude.

(** ** The encoder *)

Definition MAX_COLUMNS : Z := 45.

(** The alphabet, with the padding character at index 64. *)
Definition t : list Z := [
   65; 66; 67; 68; 69; 70; 71; 72; 73; 74; 75; 76; 77; 78; 79; 80;
   81; 82; 83; 84; 85; 86; 87; 88; 89; 90; 97; 98; 99; 100; 101; 102;
   103; 104; 105; 106; 107; 108; 109; 110; 111; 112; 113; 114; 115; 116; 117; 118;
   119; 120; 121; 122; 48; 49; 50; 51; 52; 53; 54; 55; 56; 57; 43; 47;
   61].

(** The locals of [mmidm_base64Encode] that change in its loop: the
    characters stored through [pbTarget], [cbTargetSize], [pbSourceData] (the
    memory from there on), [cbDataProcessed], [pbSaveBytes] ([None] for NULL),
    [iSave] and [*pcbOffset]. *)
Record enc := Enc {
  out : list Z; tsize : Z; source : list Z; left : Z;
  save : option (list Z); iSave : nat; off : Z }.

Definition saved (e : enc) : bool :=
  match save e with Some sv => negb (sv !!! 0%nat =? 0) | None => false end.

(** [byt = pbSaveBytes[iSave]; iSave++; pbSaveBytes[0]--]. *)
Definition pop_saved (e : enc) : option (Z * enc) :=
  sv ← save e;
  b ← sv !! iSave e;
  Some (b, Enc (out e) (tsize e) (source e) (left e)
             (Some (<[0%nat := u8 (sv !!! 0%nat - 1)]> sv)) (S (iSave e)) (off e)).

(** The next byte: a saved one if there is one, else the next of the data. *)
Definition next_byte (e : enc) : option (Z * enc) :=
  if saved e then pop_saved e
  else match source e with
       | b :: r => Some (b, Enc (out e) (tsize e) r (u32 (left e - 1)) (save e) (iSave e) (off e))
       | [] => None
       end.

Definition bump_off (e : enc) : enc :=
  Enc (out e) (tsize e) (source e) (left e) (save e) (iSave e) (u32 (off e + 1)).

Definition emit (cs : list Z) (e : enc) : enc :=
  Enc (out e ++ cs) (u32 (tsize e - Z.of_nat (length cs))) (source e) (left e) (save e) (iSave e) (off e).

Definition at_line_end (e : enc) : bool := (0 <? off e) && (off e mod MAX_COLUMNS =? 0).

Definition chars (i0 i1 i2 i3 : Z) : list Z :=
  [t !!! Z.to_nat i0; t !!! Z.to_nat i1; t !!! Z.to_nat i2; t !!! Z.to_nat i3].

(** One turn of the loop after the line break: one, two or three bytes. *)
Definition enc_quad (e : enc) : option enc :=
  '(byt, e) ← next_byte e;
  let i0 := byt .>> 2 in
  let i1 := (byt .& 0x0003) .<< 4 in
  let e := bump_off e in
  if 0 <? left e
  then '(byt, e) ← next_byte e;
       let i1 := i1 + (byt .>> 4) in
       let i2 := (byt .& 0x000F) .<< 2 in
       let e := bump_off e in
       if 0 <? left e
       then '(byt, e) ← next_byte e;
            let i2 := i2 + ((byt .& 0x00C0) .>> 6) in
            let i3 := byt .& 0x003F in
            Some (emit (chars i0 i1 i2 i3) (bump_off e))
       else Some (emit (chars i0 i1 i2 64) e)
  else Some (emit (chars i0 i1 64 64) e).

(** The loop; [None] also when [fuel] turns do not suffice. *)
Fixpoint enc_loop (fuel : nat) (bLast : Z) (e : enc) : option enc :=
  match fuel with
  | O => None
  | S fuel =>
      if (4 <=? tsize e) && (((3 <=? left e) && (bLast =? 0)) || ((0 <? left e) && (bLast =? 1)))
      then if at_line_end e && (tsize e <? 6) then Some e
           else e ← enc_quad (if at_line_end e then emit [13; 10] e else e);
                enc_loop fuel bLast e
      else Some e
  end.

(** The branch for a NULL data buffer: flush the saved bytes. *)
Definition enc_flush (bLast : Z) (e : enc) : option enc :=
  if negb (bLast =? 0) && saved e
  then let e := if at_line_end e then emit [13; 10] e else e in
       '(byt, e) ← pop_saved e;
       let i0 := byt .>> 2 in
       let i1 := (byt .& 0x0003) .<< 4 in
       let e := bump_off e in
       '(byt, e) ← pop_saved e;
       let i1 := i1 + (byt .>> 4) in
       let i2 := (byt .& 0x000F) .<< 2 in
       Some (emit (chars i0 i1 i2 0) e)
  else Some e.

(** [mmidm_base64Encode]: the characters stored in the target (their number
    is the result), the data buffer, [*pcbDataLength], [*pcbOffset] and the
    saved bytes afterwards.  [None] is an access outside the data or the
    saved bytes. *)
Definition mmidm_base64Encode (cbTargetSize : Z) (pbData : option (list Z)) (pcbDataLength pcbOffset bLast : Z)
    (pbSaveBytes : option (list Z)) : option (list Z * option (list Z) * Z * Z * option (list Z)) :=
  let e := Enc [] cbTargetSize (default [] pbData) pcbDataLength pbSaveBytes 1 pcbOffset in
  e ← match pbData with
      | None => enc_flush bLast e
      | Some _ => enc_loop (S (Z.to_nat cbTargetSize)) bLast e
      end;
  '(sv, src, n) ←
    match save e with
    | Some sv =>
        if (bLast =? 0) && (left e <=? 2)
        then rest ← mem_read (source e) 0 (left e);
             sv ← mem_write sv 0 (left e :: rest);
             Some (Some sv, drop (length rest) (source e), 0)
        else Some (Some sv, source e, left e)
    | None => Some (None, source e, left e)
    end;
  data ← match pbData with
         | Some d => if 0 <? n then rest ← mem_read src 0 n; d ← mem_write d 0 rest; Some (Some d)
                     else Some (Some d)
         | None => Some None
         end;
  Some (out e, data, n, off e, sv).

(** [mmidm_calc_b64_cred] on the buffer [creddata], of which the first
    [cbLength] bytes are encoded in place; [malloc] tells whether the
    allocation succeeds.  [outputdata] has [cbLength * 2 + 4] bytes. *)
Definition mmidm_calc_b64_cred (malloc : bool) (creddata : list Z) (cbLength : Z) : option (list Z) :=
  let cbDigestSize := 80 in
  if cbLength =? 0 then mem_write creddata 0 [0]
  else if negb malloc then Some creddata
  else '(o, data, _, _, _) ←
         mmidm_base64Encode cbDigestSize (Some creddata) cbLength 0 1 (Some [0; 0; 0; 0]);
       outputdata ← mem_write (replicate (Z.to_nat (u32 (cbLength * 2 + 4))) 0) 0 (o ++ [0]);
       creddata ← data;
       mem_write creddata 0 (o ++ [0]).

(** ** The decoder *)

Definition BASE64_BUF_LEN : nat := 128.
Definition BJNK : Z := 127.
Definition BPAD : Z := 64.

Definition decode_table : list Z := [
   BJNK; BJNK; BJNK; BJNK; BJNK; BJNK; BJNK; BJNK; BJNK; BJNK; BJNK; BJNK; BJNK; BJNK; BJNK; BJNK;
   BJNK; BJNK; BJNK; BJNK; BJNK; BJNK; BJNK; BJNK; BJNK; BJNK; BJNK; BJNK; BJNK; BJNK; BJNK; BJNK;
   BJNK; BJNK; BJNK; BJNK; BJNK; BJNK; BJNK; BJNK; BJNK; BJNK; BJNK; 62; BJNK; BJNK; BJNK; 63;
   52; 53; 54; 55; 56; 57; 58; 59; 60; 61; BJNK; BJNK; BJNK; BPAD; BJNK; BJNK;
   BJNK; 0; 1; 2; 3; 4; 5; 6; 7; 8; 9; 10; 11; 12; 13; 14;
   15; 16; 17; 18; 19; 20; 21; 22; 23; 24; 25; BJNK; BJNK; BJNK; BJNK; BJNK;
   BJNK; 26; 27; 28; 29; 30; 31; 32; 33; 34; 35; 36; 37; 38; 39; 40;
   41; 42; 43; 44; 45; 46; 47; 48; 49; 50; 51; BJNK; BJNK; BJNK; BJNK; BJNK;
   BJNK; BJNK; BJNK; BJNK; BJNK; BJNK; BJNK; BJNK; BJNK; BJNK; BJNK; BJNK; BJNK; BJNK; BJNK; BJNK;
   BJNK; BJNK; BJNK; BJNK; BJNK; BJNK; BJNK; BJNK; BJNK; BJNK; BJNK; BJNK; BJNK; BJNK; BJNK; BJNK;
   BJNK; BJNK; BJNK; BJNK; BJNK; BJNK; BJNK; BJNK; BJNK; BJNK; BJNK; BJNK; BJNK; BJNK; BJNK; BJNK;
   BJNK; BJNK; BJNK; BJNK; BJNK; BJNK; BJNK; BJNK; BJNK; BJNK; BJNK; BJNK; BJNK; BJNK; BJNK; BJNK;
   BJNK; BJNK; BJNK; BJNK; BJNK; BJNK; BJNK; BJNK; BJNK; BJNK; BJNK; BJNK; BJNK; BJNK; BJNK; BJNK;
   BJNK; BJNK; BJNK; BJNK; BJNK; BJNK; BJNK; BJNK; BJNK; BJNK; BJNK; BJNK; BJNK; BJNK; BJNK; BJNK;
   BJNK; BJNK; BJNK; BJNK; BJNK; BJNK; BJNK; BJNK; BJNK; BJNK; BJNK; BJNK; BJNK; BJNK; BJNK; BJNK;
   BJNK; BJNK; BJNK; BJNK; BJNK; BJNK; BJNK; BJNK; BJNK; BJNK; BJNK; BJNK; BJNK; BJNK; BJNK; BJNK].

(** The locals of [DM_Base64_decode]: the staging buffer [dst] and
    [temp_dst - dst], the quantum position [e], [cntr], [rt], the target and
    [destl]. *)
Record dec := Dec {
  dst : list Z; tmp : Z; e : Z; cntr : Z; rt : Z; dest : list Z; destl : Z }.

Definition num : Z := Z.of_nat BASE64_BUF_LEN / 3 * 4 - 4.

(** A run ends in an access outside a buffer ([None]), in [return -1]
    ([Bad]) or with a value. *)
Inductive res (A : Type) := Bad (d : dec) | Good (a : A).
Arguments Bad {A}.
Arguments Good {A}.

Definition set_e (z : Z) (d : dec) : dec :=
  Dec (dst d) (tmp d) z (cntr d) (rt d) (dest d) (destl d).
Definition set_cntr (z : Z) (d : dec) : dec :=
  Dec (dst d) (tmp d) (e d) z (rt d) (dest d) (destl d).
Definition set_dst (m : list Z) (p : Z) (d : dec) : dec :=
  Dec m p (e d) (cntr d) (rt d) (dest d) (destl d).

(** Copying the staged bytes to the target. *)
Definition flush (d : dec) : option (res dec) :=
  if destl d <? tmp d then Some (Bad d)
  else staged ← mem_read (dst d) 0 (tmp d);
       m ← mem_write (dest d) (rt d) staged;
       Some (Good (Dec (replicate BASE64_BUF_LEN 0) 0 (e d) (cntr d) (rt d + tmp d) m (destl d - tmp d))).

Definition flush_if (d : dec) : option (res dec) :=
  if tmp d =? 0 then Some (Good d) else flush d.

(** [*temp_dst |= v] and [*temp_dst = v]. *)
Definition or_dst (v : Z) (d : dec) : option dec :=
  o ← dst d !! Z.to_nat (tmp d); Some (set_dst (<[Z.to_nat (tmp d) := u8 (o .| v)]> (dst d)) (tmp d) d).
Definition put_dst (v : Z) (d : dec) : option dec :=
  m ← mem_write (dst d) (tmp d) [u8 v]; Some (set_dst m (tmp d) d).
Definition incr (d : dec) : dec := set_dst (dst d) (tmp d + 1) d.

(** A data character with the value [c]. *)
Definition put_char (c : Z) (d : dec) : option (res dec) :=
  let q := e d in
  let d := set_e (u16 (q + 1)) d in
  if q =? 0 then d ← put_dst (c .<< 2) d; Some (Good d)
  else if q =? 1 then d ← or_dst (c .>> 4) d; d ← put_dst (c .<< 4) (incr d); Some (Good d)
  else if q =? 2 then d ← or_dst (c .>> 2) d; d ← put_dst (c .<< 6) (incr d); Some (Good d)
  else if q =? 3
  then d ← or_dst c d;
       let d := set_cntr (u32 (cntr d + 4)) (set_e 0 (incr d)) in
       if cntr d =? num then flush (set_cntr 0 d) else Some (Good d)
  else Some (Good d).

(** The loop after the final padding: junk and padding are skipped; the first
    data character ends it too.  The result is the input left ([srcl]). *)
Fixpoint pad_skip (src : list Z) : list Z :=
  match src with
  | [] => []
  | ch :: src =>
      let c := decode_table !!! Z.to_nat ch in
      if (c =? BJNK) || (c =? BPAD) then pad_skip src else []
  end.

(** The main loop. *)
Fixpoint dec_loop (src : list Z) (d : dec) : option (res dec) :=
  match src with
  | [] => Some (Good d)
  | ch :: src =>
      let c := decode_table !!! Z.to_nat ch in
      if c =? BJNK then dec_loop src d
      else if c =? BPAD then
        let q := e d in
        let d := set_e (u16 (q + 1)) d in
        if q =? 3 then
          match pad_skip src with
          | [] => flush_if d
          | _ :: _ => Some (Good d) (* not reached: [pad_skip] consumes all *)
          end
        else if q =? 2 then
          match src with
          | [] => r ← flush_if d; Some (match r with Good d => Bad d | Bad d => Bad d end)
          | ch' :: _ => if ch' =? 61 then dec_loop src d else Some (Bad d)
          end
        else Some (Bad d)
      else r ← put_char c d;
           match r with Good d => dec_loop src d | Bad d => Some (Bad d) end
  end.

(** [DM_Base64_decode]: the return value and the target buffer. *)
Definition DM_Base64_decode (src : list Z) (target : list Z) (size : Z) : option (Z * list Z) :=
  r ← dec_loop src (Dec (replicate BASE64_BUF_LEN 0) 0 0 0 0 target size);
  match r with
  | Bad d => Some (-1, dest d)
  | Good d =>
      r ← flush_if d;
      match r with
      | Bad d => Some (-1, dest d)
      | Good d =>
          if destl d <? 1 then Some (-1, dest d)
          else m ← mem_write (dest d) (rt d) [0]; Some (rt d, m)
      end
  end.

(** "JE48dmgiOyogPzxXPkdUJQ==", the nonce used before the server sends one. *)
Example decode_default_nonce :
  DM_Base64_decode
    [74; 69; 52; 56; 100; 109; 103; 105; 79; 121; 111; 103; 80; 122; 120; 88; 80; 107; 100; 85; 74; 81; 61; 61]
    (replicate 20 9) 20
  = Some (16, [36; 78; 60; 118; 104; 34; 59; 42; 32; 63; 60; 87; 62; 71; 84; 37; 0; 9; 9; 9]).
Proof. vm_compute. reflexivity. Qed.

(** ** Reference: RFC 4648 quanta with a line break every 45 bytes *)

(** The six-bit digits of a 24-bit group, most significant first. *)
Definition digit (v : Z) (i : Z) : Z := v / 2 ^ (18 - 6 * i) mod 64.
Definition sym (v i : Z) : Z := t !!! Z.to_nat (digit v i).

Definition quad1 (a : Z) : list Z := let v := a * 65536 in [sym v 0; sym v 1; 61; 61].
Definition quad2 (a b : Z) : list Z := let v := a * 65536 + b * 256 in [sym v 0; sym v 1; sym v 2; 61].
Definition quad3 (a b c : Z) : list Z :=
  let v := a * 65536 + b * 256 + c in [sym v 0; sym v 1; sym v 2; sym v 3].

Definition brk (o : Z) : list Z := if (0 <? o) && (o mod 45 =? 0) then [13; 10] else [].

(** The text of [d] when [o] bytes have been encoded before it. *)
Fixpoint b64 (o : Z) (d : list Z) : list Z :=
  match d with
  | [] => []
  | [a] => brk o ++ quad1 a
  | [a; b] => brk o ++ quad2 a b
  | a :: b :: c :: d => brk o ++ quad3 a b c ++ b64 (o + 3) d
  end.

(** Induction three bytes at a time. *)
Lemma triples_ind (P : list Z -> Prop) :
  P [] -> (forall a, P [a]) -> (forall a b, P [a; b]) ->
  (forall a b c d, P d -> P (a :: b :: c :: d)) -> forall d, P d.
Proof.
  intros H0 H1 H2 H3. fix IH 1. intros [|a [|b [|c d]]]; [done|done|done|]. apply H3, IH.
Qed.

Lemma land_3 z : z .& 3 = z mod 4.
Proof. apply (land_ones_mod z 2). lia. Qed.
Lemma land_15 z : z .& 15 = z mod 16.
Proof. apply (land_ones_mod z 4). lia. Qed.
Lemma land_63 z : z .& 63 = z mod 64.
Proof. apply (land_ones_mod z 6). lia. Qed.
Lemma land_c0 z : (z .& 192) .>> 6 = (z / 64) mod 4.
Proof.
  rewrite Z.shiftr_land. change (192 .>> 6) with 3. rewrite land_3, shiftr_div by lia. done.
Qed.

(** The four indices the encoder computes are the digits of the group. *)
Lemma digits_enc a b c :
  is_byte a -> is_byte b -> is_byte c ->
  let v := a * 65536 + b * 256 + c in
  digit v 0 = a .>> 2 /\ digit v 1 = ((a .& 3) .<< 4) + (b .>> 4) /\
  digit v 2 = ((b .& 15) .<< 2) + ((c .& 192) .>> 6) /\ digit v 3 = c .& 63.
Proof.
  intros Ha Hb Hc. cbn beta zeta in *. unfold digit. rewrite land_3, land_15, land_63, land_c0.
  rewrite !Z.shiftl_mul_pow2, !shiftr_div by lia.
  change (2 ^ (18 - 6 * 0)) with 262144. change (2 ^ (18 - 6 * 1)) with 4096.
  change (2 ^ (18 - 6 * 2)) with 64. change (2 ^ (18 - 6 * 3)) with 1.
  change (2 ^ 2) with 4. change (2 ^ 4) with 16.
  split_and!; zlia.
Qed.

(** ** The encoder produces the reference text *)

Definition no_saved (sv : option (list Z)) : Prop :=
  match sv with Some sv => sv !!! 0%nat = 0 | None => True end.

Section Encode.
Context (sv : option (list Z)) (Hsv : no_saved sv).

Lemma saved_false o ts src n i f : saved (Enc o ts src n sv i f) = false.
Proof.
  unfold saved. cbn [save]. destruct sv as [s|]; [|done]. simpl in Hsv. by rewrite Hsv.
Qed.

Lemma next_byte_data o ts a src n i f :
  0 < n < 4294967296 ->
  next_byte (Enc o ts (a :: src) n sv i f) = Some (a, Enc o ts src (n - 1) sv i f).
Proof.
  intros. unfold next_byte. rewrite saved_false. cbn [source left out tsize save iSave off].
  by rewrite u32_small by lia.
Qed.

Lemma bump_off_eq o ts src n i f :
  0 <= f < 4294967295 -> bump_off (Enc o ts src n sv i f) = Enc o ts src n sv i (f + 1).
Proof. intros. unfold bump_off. cbn [out tsize source left save iSave off]. by rewrite u32_small by lia. Qed.

Ltac enc_step :=
  rewrite next_byte_data by lia; cbn [mbind option_bind]; rewrite bump_off_eq by lia; cbn [left].

Lemma enc_quad_3 o ts a b c src n i f :
  is_byte a -> is_byte b -> is_byte c -> 3 <= n < 4294967296 -> 0 <= f < 4294967293 ->
  enc_quad (Enc o ts (a :: b :: c :: src) n sv i f) =
    Some (Enc (o ++ quad3 a b c) (u32 (ts - 4)) src (n - 3) sv i (f + 3)).
Proof.
  intros Ha Hb Hc Hn Hf. unfold enc_quad. enc_step. rewrite (proj2 (Z.ltb_lt 0 (n - 1))) by lia.
  enc_step. rewrite (proj2 (Z.ltb_lt 0 (n - 1 - 1))) by lia. enc_step.
  destruct (digits_enc a b c Ha Hb Hc) as (E0 & E1 & E2 & E3).
  unfold emit, chars, quad3, sym. cbn [left out tsize source save iSave off].
  rewrite <- E0, <- E1, <- E2, <- E3. f_equal. f_equal; [lia|lia].
Qed.

Lemma is_byte_0 : is_byte 0.
Proof. simpl. lia. Qed.

Lemma enc_quad_2 o ts a b src i f :
  is_byte a -> is_byte b -> 0 <= f < 4294967293 ->
  enc_quad (Enc o ts (a :: b :: src) 2 sv i f) =
    Some (Enc (o ++ quad2 a b) (u32 (ts - 4)) src 0 sv i (f + 2)).
Proof.
  intros Ha Hb Hf. unfold enc_quad. enc_step. change (0 <? 2 - 1) with true. cbn iota.
  enc_step. change (0 <? 2 - 1 - 1) with false. cbn iota.
  destruct (digits_enc a b 0 Ha Hb is_byte_0) as (E0 & E1 & E2 & E3).
  change ((0 .& 192) .>> 6) with 0 in E2. rewrite !Z.add_0_r in *.
  unfold emit, chars, quad2, sym. cbn [left out tsize source save iSave off].
  rewrite <- E0, <- E1, <- E2. f_equal. f_equal; lia.
Qed.

Lemma enc_quad_1 o ts a src i f :
  is_byte a -> 0 <= f < 4294967293 ->
  enc_quad (Enc o ts (a :: src) 1 sv i f) =
    Some (Enc (o ++ quad1 a) (u32 (ts - 4)) src 0 sv i (f + 1)).
Proof.
  intros Ha Hf. unfold enc_quad. enc_step. change (0 <? 1 - 1) with false. cbn iota.
  destruct (digits_enc a 0 0 Ha is_byte_0 is_byte_0) as (E0 & E1 & _ & _).
  change (0 .>> 4) with 0 in E1. rewrite !Z.add_0_r in *.
  unfold emit, chars, quad1, sym. cbn [left out tsize source save iSave off].
  rewrite <- E0, <- E1. done.
Qed.

(** One turn with a whole group or the last one: the line break and the quad. *)
Lemma enc_turn fuel o ts src n i f e' :
  0 < n -> Z.of_nat (length (brk f)) + 4 <= ts < 4294967296 ->
  enc_quad (Enc (o ++ brk f) (ts - Z.of_nat (length (brk f))) src n sv i f) = Some e' ->
  enc_loop (S fuel) 1 (Enc o ts src n sv i f) = enc_loop fuel 1 e'.
Proof.
  intros Hn Hts Hq. cbn [enc_loop tsize left]. rewrite (proj2 (Z.leb_le 4 ts)) by lia.
  rewrite (proj2 (Z.ltb_lt 0 n)) by lia. change (1 =? 0) with false. change (1 =? 1) with true.
  rewrite andb_false_r. cbn [andb orb].
  assert (at_line_end (Enc o ts src n sv i f) = ((0 <? f) && (f mod 45 =? 0))) as -> by done.
  unfold brk in *. destruct ((0 <? f) && (f mod 45 =? 0)).
  - cbn [length] in *. rewrite (proj2 (Z.ltb_ge ts 6)) by lia. cbn [andb].
    unfold emit. cbn [length out tsize source left save iSave off].
    rewrite u32_small by lia. rewrite Hq. reflexivity.
  - cbn [andb]. rewrite app_nil_r, Z.sub_0_r in Hq. rewrite Hq. reflexivity.
Qed.

Lemma b64_app o d1 d2 :
  (length d1 `mod` 3 = 0)%nat -> b64 o (d1 ++ d2) = b64 o d1 ++ b64 (o + Z.of_nat (length d1)) d2.
Proof.
  revert o. induction d1 as [|a|a b|a b c d1 IH] using triples_ind; intros o Hm; try done.
  - cbn [app b64 length]. by rewrite Z.add_0_r.
  - cbn [app b64 length] in *. rewrite IH.
    + rewrite <- !app_assoc. do 4 f_equal. lia.
    + replace (S (S (S (length d1)))) with (length d1 + 1 * 3)%nat in Hm by lia.
      by rewrite Nat.Div0.mod_add in Hm.
Qed.

(** The loop over whole groups. *)
Lemma enc_loop_groups k fuel o ts d r m i f :
  length d = (3 * k)%nat -> bytes d -> 0 <= m -> Z.of_nat (length d) + m < 4294967296 ->
  0 <= f -> f + Z.of_nat (length d) < 4294967296 -> Z.of_nat (length (b64 f d)) <= ts < 4294967296 ->
  enc_loop (k + fuel) 1 (Enc o ts (d ++ r) (Z.of_nat (length d) + m) sv i f) =
  enc_loop fuel 1 (Enc (o ++ b64 f d) (ts - Z.of_nat (length (b64 f d))) r m sv i (f + Z.of_nat (length d))).
Proof.
  revert o ts d f. induction k as [|k IH]; intros o ts d f Hd Hb Hm Hdm Hf Hfd Hts.
  - destruct d; [|simpl in Hd; lia]. cbn [b64 length app]. rewrite app_nil_r, Z.sub_0_r, Z.add_0_r. done.
  - destruct d as [|a [|b [|c d]]]; cbn [length] in Hd; try lia. cbn [b64] in *.
    rewrite !length_app in Hts. cbn [quad3 length] in Hts. cbn [app Nat.add].
    apply Forall_cons in Hb as [Ha Hb']. apply Forall_cons in Hb' as [Hb Hb']. apply Forall_cons in Hb' as [Hc Hb'].
    cbn [length] in *.
    erewrite enc_turn; [|lia|lia|apply enc_quad_3; [done..|lia|lia]].
    rewrite u32_small by lia. replace (Z.of_nat (S (S (S (length d)))) + m - 3) with (Z.of_nat (length d) + m) by lia.
    rewrite IH by (first [assumption|lia]). rewrite !length_app. cbn [quad3 length].
    rewrite <- !app_assoc. do 2 f_equal; lia.
Qed.

(** The last group, of one or two bytes. *)
Lemma enc_loop_last fuel o ts d r i f :
  (length d <= 2)%nat -> bytes d -> 0 <= f < 4294967293 -> Z.of_nat (length (b64 f d)) <= ts < 4294967296 ->
  enc_loop (S (S fuel)) 1 (Enc o ts (d ++ r) (Z.of_nat (length d)) sv i f) =
  Some (Enc (o ++ b64 f d) (ts - Z.of_nat (length (b64 f d))) r 0 sv i (f + Z.of_nat (length d))).
Proof.
  intros Hd Hb Hf Hts.
  assert (forall fuel o ts i f, enc_loop (S fuel) 1 (Enc o ts r 0 sv i f) = Some (Enc o ts r 0 sv i f)) as Hdone.
  { intros. cbn [enc_loop tsize left]. change (3 <=? 0) with false. change (0 <? 0) with false.
    cbn [andb orb]. by rewrite andb_false_r. }
  destruct d as [|a [|b [|c d]]]; cbn [length] in Hd; try lia; cbn [b64 app length] in *.
  - rewrite app_nil_r, Z.sub_0_r, Z.add_0_r. apply Hdone.
  - apply Forall_cons in Hb as [Ha _]. rewrite length_app in *. cbn [quad1 length] in *.
    erewrite enc_turn; [|lia|lia|apply (enc_quad_1 _ _ _ _ _ _ Ha); lia].
    rewrite Hdone, u32_small, <- app_assoc by lia. do 2 f_equal. lia.
  - apply Forall_cons in Hb as [Ha Hb]. apply Forall_cons in Hb as [Hb _]. rewrite length_app in *.
    cbn [quad2 length] in *.
    erewrite enc_turn; [|lia|lia|apply (enc_quad_2 _ _ _ _ _ _ _ Ha Hb); lia].
    rewrite Hdone, u32_small, <- app_assoc by lia. do 2 f_equal. lia.
Qed.

Lemma b64_long f d k : length d = (3 * k)%nat -> (4 * k <= length (b64 f d))%nat.
Proof.
  revert f d. induction k as [|k IH]; intros f d Hd; [lia|].
  destruct d as [|a [|b [|c d]]]; cbn [length] in Hd; try lia.
  cbn [b64]. rewrite !length_app. cbn [quad3 length]. pose proof (IH (f + 3) d ltac:(lia)). lia.
Qed.

(** With room in the target the whole input is encoded. *)
Lemma enc_loop_full fuel o ts d r i f :
  bytes d -> 0 <= f -> f + Z.of_nat (length d) < 4294967290 ->
  Z.of_nat (length (b64 f d)) <= ts < 4294967296 -> (Z.to_nat ts < fuel)%nat ->
  enc_loop fuel 1 (Enc o ts (d ++ r) (Z.of_nat (length d)) sv i f) =
  Some (Enc (o ++ b64 f d) (ts - Z.of_nat (length (b64 f d))) r 0 sv i (f + Z.of_nat (length d))).
Proof.
  intros Hb Hf Hd Hts Hfuel. set (k := (length d / 3)%nat).
  pose proof (Nat.div_mod_eq (length d) 3) as Hk. fold k in Hk.
  pose proof (Nat.mod_upper_bound (length d) 3 ltac:(lia)).
  set (d1 := take (3 * k) d). set (d2 := drop (3 * k) d).
  assert (d = d1 ++ d2) as Ed by (symmetry; apply take_drop).
  assert (length d1 = (3 * k)%nat) as H1 by (unfold d1; rewrite length_take; lia).
  assert (length d2 <= 2)%nat as H2 by (unfold d2; rewrite length_drop; lia).
  rewrite Ed in Hb, Hd, Hts |- *. apply Forall_app in Hb as [Hb1 Hb2].
  rewrite b64_app in * by (rewrite H1, Nat.mul_comm; apply Nat.Div0.mod_mul).
  rewrite !length_app in *. pose proof (b64_long f d1 k H1).
  rewrite <- app_assoc. replace (Z.of_nat (length d1 + length d2)) with (Z.of_nat (length d1) + Z.of_nat (length d2)) by lia.
  destruct (decide (d2 = [])) as [E|E].
  - rewrite E in *. replace fuel with (k + (fuel - k))%nat by lia.
    rewrite enc_loop_groups by (first [assumption|lia]). 
    destruct (fuel - k)%nat as [|fuel'] eqn:Ef; [lia|]. cbn [enc_loop tsize left length].
    change (Z.of_nat 0) with 0. change (3 <=? 0) with false. change (0 <? 0) with false.
    cbn [andb orb]. rewrite andb_false_r. cbn [b64 app length]. rewrite app_nil_r. do 2 f_equal; lia.
  - replace fuel with (k + S (S (fuel - k - 2)))%nat.
    + rewrite enc_loop_groups by (first [assumption|lia]).
      rewrite enc_loop_last by (first [assumption|lia]). rewrite <- app_assoc. do 2 f_equal; lia.
    + assert (4 <= length (b64 (f + Z.of_nat (length d1)) d2))%nat; [|lia].
      destruct d2 as [|a [|b [|c d2]]]; [done| | |simpl in H2; lia];
        cbn [b64]; rewrite length_app; cbn [quad1 quad2 length]; lia.
Qed.
End Encode.

(** ** The decoder stays inside its buffers *)

(** [bounds size target d]: the target buffer with [size] writable bytes is
    only changed below [size], the staging buffer is whole and at most 124
    bytes of it are used. *)
Record bounds (size : Z) (target : list Z) (d : dec) : Prop := Bounds {
  b_dst : length (dst d) = BASE64_BUF_LEN;
  b_tmp : 0 <= tmp d <= 124;
  b_rt : 0 <= rt d;
  b_destl : 0 <= destl d;
  b_size : rt d + destl d = size;
  b_len : length (dest d) = length target;
  b_fits : size <= Z.of_nat (length target);
  b_keep : drop (Z.to_nat size) (dest d) = drop (Z.to_nat size) target }.

(** Bytes staged beyond the whole groups when [q] characters are pending. *)
Definition extra (q : Z) : Z := if q <=? 1 then 0 else q - 1.

(** Between characters the staging pointer follows [cntr] and [e]. *)
Record staged (d : dec) : Prop := Staged {
  s_cntr : 0 <= cntr d < 164;
  s_quad : cntr d mod 4 = 0;
  s_e : 0 <= e d <= 3;
  s_tmp : tmp d = 3 * (cntr d / 4) + extra (e d) }.

(** The bytes decoded so far. *)
Definition got (d : dec) : list Z :=
  take (Z.to_nat (rt d)) (dest d) ++ take (Z.to_nat (tmp d)) (dst d).

Definition flushed (d : dec) : dec :=
  Dec (replicate BASE64_BUF_LEN 0) 0 (e d) (cntr d) (rt d + tmp d)
    (splice (dest d) (Z.to_nat (rt d)) (take (Z.to_nat (tmp d)) (dst d))) (destl d - tmp d).

Lemma drop_splice_after m a x (b : nat) :
  (a + length x <= b)%nat -> (a + length x <= length m)%nat -> drop b (splice m a x) = drop b m.
Proof.
  intros. unfold splice. rewrite !drop_app. rewrite length_take.
  rewrite (drop_ge (take a m)), (drop_ge x), drop_drop by (rewrite ?length_take; lia).
  cbn [app]. f_equal. lia.
Qed.

Section Flush.
Context (size : Z) (target : list Z) (d : dec) (Hd : bounds size target d).

Lemma staged_length : length (take (Z.to_nat (tmp d)) (dst d)) = Z.to_nat (tmp d).
Proof. destruct Hd. rewrite length_take. unfold BASE64_BUF_LEN in *. lia. Qed.

Lemma flush_eq : flush d = Some (if destl d <? tmp d then Bad d else Good (flushed d)).
Proof.
  pose proof staged_length as Hl. destruct Hd. unfold flush.
  destruct (Z.ltb_spec (destl d) (tmp d)); [done|]. unfold BASE64_BUF_LEN in *.
  rewrite mem_read_prefix by lia. cbn [mbind option_bind].
  rewrite mem_write_ok by lia. reflexivity.
Qed.

Lemma flushed_bounds : tmp d <= destl d -> bounds size target (flushed d).
Proof.
  pose proof staged_length as Hl. destruct Hd. intros.
  split; cbn [flushed dst tmp rt destl dest]; try done; try lia.
  - rewrite splice_length by lia. done.
  - rewrite drop_splice_after by lia. done.
Qed.

Lemma flushed_got : tmp d <= destl d -> got (flushed d) = got d.
Proof.
  pose proof staged_length as Hl. destruct Hd. intros. unfold got. cbn [flushed dst tmp rt dest].
  change (Z.to_nat 0) with 0%nat. rewrite take_0, app_nil_r. unfold splice. rewrite app_assoc.
  apply take_app_exact. rewrite length_app, length_take, Hl. lia.
Qed.
End Flush.

(** Stores at the staging pointer. *)
Lemma put_dst_eq P s S v d :
  dst d = P ++ s :: S -> tmp d = Z.of_nat (length P) ->
  put_dst v d = Some (set_dst (P ++ u8 v :: S) (tmp d) d).
Proof.
  intros E Ht. unfold put_dst. rewrite E, Ht.
  rewrite mem_write_nat by (rewrite length_app; cbn [length]; lia). cbn [mbind option_bind].
  unfold splice. rewrite take_app_length. cbn [length]. rewrite Nat.add_1_r, drop_app_ge by lia.
  replace (Datatypes.S (length P) - length P)%nat with 1%nat by lia. reflexivity.
Qed.

Lemma or_dst_eq P o S v d :
  dst d = P ++ o :: S -> tmp d = Z.of_nat (length P) ->
  or_dst v d = Some (set_dst (P ++ u8 (o .| v) :: S) (tmp d) d).
Proof.
  intros E Ht. unfold or_dst. rewrite E, Ht, Nat2Z.id.
  rewrite list_lookup_middle by done. cbn [mbind option_bind].
  replace (<[length P := u8 (o .| v)]> (P ++ o :: S)) with (P ++ u8 (o .| v) :: S); [done|].
  rewrite <- (Nat.add_0_r (length P)). by rewrite insert_app_r.
Qed.

(** [put_char] by quantum position, on a staging buffer split at the pointer. *)
Section PutChar.
Context (d : dec) (P : list Z) (c : Z) (Ht : tmp d = Z.of_nat (length P)).

Lemma put_char_0 s S :
  e d = 0 -> dst d = P ++ s :: S ->
  put_char c d = Some (Good (Dec (P ++ u8 (c .<< 2) :: S) (tmp d) 1 (cntr d) (rt d) (dest d) (destl d))).
Proof.
  intros He E. unfold put_char. rewrite He. cbn zeta. change (0 =? 0) with true. cbn iota.
  by rewrite (put_dst_eq P s S).
Qed.

Lemma put_char_mid q k x s S :
  e d = q -> q = 1 /\ k = 4 \/ q = 2 /\ k = 2 -> dst d = P ++ x :: s :: S ->
  put_char c d =
    Some (Good (Dec ((P ++ [u8 (x .| (c .>> k))]) ++ u8 (c .<< (8 - k)) :: S) (tmp d + 1) (q + 1)
                  (cntr d) (rt d) (dest d) (destl d))).
Proof.
  intros He Hq E.
  assert (forall d', d' = set_e (q + 1) d ->
    (d ← or_dst (c .>> k) d'; d ← put_dst (c .<< (8 - k)) (incr d); Some (Good d)) =
    Some (Good (Dec ((P ++ [u8 (x .| (c .>> k))]) ++ u8 (c .<< (8 - k)) :: S) (tmp d + 1) (q + 1)
                  (cntr d) (rt d) (dest d) (destl d)))) as Hgen.
  { intros d' ->. rewrite (or_dst_eq P x (s :: S)) by done. cbn [mbind option_bind].
    rewrite (put_dst_eq (P ++ [u8 (x .| (c .>> k))]) s S); [done| |].
    - by rewrite <- app_assoc.
    - rewrite length_app. cbn [incr set_dst tmp set_e length]. lia. }
  unfold put_char. rewrite He. destruct Hq as [[-> ->]|[-> ->]]; apply Hgen; reflexivity.
Qed.

Lemma put_char_3 x S :
  e d = 3 -> dst d = P ++ x :: S -> 0 <= cntr d < 164 ->
  put_char c d =
    let d' k := Dec ((P ++ [u8 (x .| c)]) ++ S) (tmp d + 1) 0 k (rt d) (dest d) (destl d) in
    if cntr d =? 160 then flush (d' 0) else Some (Good (d' (cntr d + 4))).
Proof.
  intros He E Hc. unfold put_char. rewrite He. change (3 =? 0) with false. change (3 =? 1) with false.
  change (3 =? 2) with false. change (3 =? 3) with true. cbn zeta iota.
  rewrite (or_dst_eq P x S) by done. cbn [mbind option_bind set_cntr set_e incr set_dst cntr dst tmp rt dest destl e].
  rewrite u32_small by lia. rewrite <- app_assoc. change num with 164.
  by destruct (Z.eqb_spec (cntr d + 4) 164), (Z.eqb_spec (cntr d) 160); try lia.
Qed.
End PutChar.

(** The staging buffer split at the pointer. *)
Lemma split_dst d n :
  length (dst d) = BASE64_BUF_LEN -> 0 <= tmp d -> tmp d + Z.of_nat n <= 128 ->
  exists P W S, dst d = P ++ W ++ S /\ tmp d = Z.of_nat (length P) /\ length W = n.
Proof.
  intros Hl H1 H2. unfold BASE64_BUF_LEN in *.
  exists (take (Z.to_nat (tmp d)) (dst d)), (take n (drop (Z.to_nat (tmp d)) (dst d))),
    (drop n (drop (Z.to_nat (tmp d)) (dst d))).
  split_and!; [by rewrite !take_drop|rewrite length_take; lia|rewrite length_take, length_drop; lia].
Qed.

Lemma extra_eq q : 0 <= q <= 3 -> extra q = Z.max 0 (q - 1).
Proof. intros. unfold extra. destruct (Z.leb_spec q 1); lia. Qed.

Lemma extra_cases q : 0 <= q <= 3 -> q = 0 \/ q = 1 \/ q = 2 \/ q = 3.
Proof. lia. Qed.

(** Every data character keeps the invariant or is rejected for want of room. *)
Lemma put_char_safe size target d c :
  bounds size target d -> staged d ->
  exists r, put_char c d = Some r /\
    match r with Good d' => bounds size target d' /\ staged d' | Bad d' => bounds size target d' end.
Proof.
  intros Hb [Hc Hq He Ht].
  assert (0 <= cntr d / 4 <= 40) as Hk by zlia.
  assert (tmp d + 2 <= 128) as Hroom.
  { rewrite Ht. unfold extra. destruct (Z.leb_spec (e d) 1); lia. }
  destruct (split_dst d 2) as (P & W & S & E & Hp & HW); [apply Hb|apply Hb|lia|].
  destruct W as [|x [|s [|]]]; try done. cbn [app] in E.
  assert (forall w k q, length w = BASE64_BUF_LEN -> 0 <= k <= 124 -> bounds size target (Dec w k q (cntr d) (rt d) (dest d) (destl d)))
    as Hgen by (intros; destruct Hb; by split).
  assert (forall y z, length ((P ++ [y]) ++ z :: S) = BASE64_BUF_LEN) as Hlen.
  { intros. rewrite <- (b_dst _ _ _ Hb), E, !length_app. cbn [length]. lia. }
  destruct (extra_cases _ He) as [E0|[E0|[E0|E0]]]; rewrite E0 in Ht;
    rewrite extra_eq in Ht by lia.
  - rewrite (put_char_0 d P c Hp x (s :: S)) by done. eexists. split; [reflexivity|]. split.
    + apply Hgen; [|lia]. rewrite <- (b_dst _ _ _ Hb), E, !length_app. done.
    + split; cbn [cntr e tmp]; try lia. rewrite extra_eq; lia.
  - rewrite (put_char_mid d P c Hp 1 4 x s S) by (done || lia). eexists. split; [reflexivity|]. split.
    + apply Hgen; [apply Hlen|lia].
    + split; cbn [cntr e tmp]; try lia. rewrite extra_eq; lia.
  - rewrite (put_char_mid d P c Hp 2 2 x s S) by (done || lia). eexists. split; [reflexivity|]. split.
    + apply Hgen; [apply Hlen|lia].
    + split; cbn [cntr e tmp]; try lia. rewrite extra_eq; lia.
  - rewrite (put_char_3 d P c Hp x (s :: S)) by done. cbn zeta.
    destruct (Z.eqb_spec (cntr d) 160).
    + assert (bounds size target (Dec ((P ++ [u8 (x .| c)]) ++ s :: S) (tmp d + 1) 0 0 (rt d) (dest d) (destl d))) as Hb'.
      { destruct Hb. split; cbn [dst tmp rt destl dest]; try done; lia. }
      rewrite (flush_eq _ _ _ Hb'). eexists. split; [reflexivity|]. cbn [destl tmp].
      destruct (Z.ltb_spec (destl d) (tmp d + 1)); [done|]. split; [by apply flushed_bounds|].
      split; cbn [flushed cntr e tmp]; try done; lia.
    + eexists. split; [reflexivity|]. split.
      * destruct Hb. split; cbn [dst tmp rt destl dest]; try done; lia.
      * split; cbn [cntr e tmp]; try lia; [zlia|zlia|]. rewrite extra_eq by lia. zlia.
Qed.

Lemma pad_skip_nil src : pad_skip src = [].
Proof. induction src as [|ch src IH]; cbn [pad_skip]; [done|]. by destruct (_ || _). Qed.

Lemma set_e_bounds size target d q : bounds size target d -> bounds size target (set_e q d).
Proof. intros []. by split. Qed.

Lemma flush_if_safe size target d :
  bounds size target d ->
  exists r, flush_if d = Some r /\
    match r with Good d' => bounds size target d' /\ tmp d' = 0 | Bad d' => bounds size target d' end.
Proof.
  intros Hb. unfold flush_if. destruct (Z.eqb_spec (tmp d) 0); [by eexists|].
  rewrite (flush_eq _ _ _ Hb). eexists. split; [reflexivity|].
  destruct (Z.ltb_spec (destl d) (tmp d)); [done|]. split; [by apply flushed_bounds|done].
Qed.

Lemma dec_loop_safe size target src d :
  bounds size target d -> staged d \/ (e d = 3 /\ exists src', src = 61 :: src') ->
  exists r, dec_loop src d = Some r /\
    match r with Good d' => bounds size target d' | Bad d' => bounds size target d' end.
Proof.
  revert d. induction src as [|ch src IH]; intros d Hb Hs; cbn [dec_loop].
  - by eexists.
  - assert (forall q, exists r, flush_if (set_e q d) = Some r /\
      match r with Good d' => bounds size target d' | Bad d' => bounds size target d' end) as Hfl.
    { intros q. destruct (flush_if_safe _ _ _ (set_e_bounds _ _ _ q Hb)) as ([d'|d'] & E & Hr);
        eexists; (split; [exact E|]); naive_solver. }
    rewrite pad_skip_nil.
    destruct Hs as [Hs|(He & src' & E)].
    + destruct (_ =? BJNK); [by apply IH; auto|]. destruct (_ =? BPAD).
      * destruct (e d =? 3); [apply Hfl|]. destruct (Z.eqb_spec (e d) 2) as [E2|E2];
          [|eexists; split; [reflexivity|]; by apply set_e_bounds].
        destruct src as [|ch' src'].
        -- destruct (Hfl (u16 (e d + 1))) as ([d'|d'] & -> & Hr); by eexists.
        -- destruct (Z.eqb_spec ch' 61) as [->|]; [|eexists; split; [reflexivity|]; by apply set_e_bounds].
           apply IH; [by apply set_e_bounds|]. right. rewrite E2. cbn [set_e e]. by eauto.
      * destruct (put_char_safe _ _ _ (decode_table !!! Z.to_nat ch) Hb Hs) as ([d'|d'] & -> & Hr);
          cbn [mbind option_bind]; [by eexists|]. apply IH; naive_solver.
    + simplify_eq. change (decode_table !!! Z.to_nat 61) with 64. rewrite He.
      change (64 =? BJNK) with false. change (64 =? BPAD) with true. change (3 =? 3) with true.
      apply Hfl.
Qed.

Lemma start_bounds target size :
  0 <= size <= Z.of_nat (length target) ->
  bounds size target (Dec (replicate BASE64_BUF_LEN 0) 0 0 0 0 target size).
Proof. intros. split; cbn [dst tmp rt destl dest]; try done; lia. Qed.

Lemma start_staged target size : staged (Dec (replicate BASE64_BUF_LEN 0) 0 0 0 0 target size).
Proof. split; cbn [cntr e tmp]; try done; lia. Qed.

(** [DM_Base64_decode] is memory safe on every input: whatever the
    (possibly malformed) text, it neither overruns its 128-byte staging
    buffer nor writes at or beyond [destl] in the target; it returns -1, or
    the length of a result that fits with its terminating NUL. *)
Theorem decode_safe (src target : list Z) (size : Z) :
  0 <= size <= Z.of_nat (length target) ->
  exists rv m, DM_Base64_decode src target size = Some (rv, m) /\ length m = length target /\
    drop (Z.to_nat size) m = drop (Z.to_nat size) target /\
    (rv = -1 \/ (0 <= rv < size /\ m !! Z.to_nat rv = Some 0)).
Proof.
  intros Hs. unfold DM_Base64_decode.
  destruct (dec_loop_safe _ _ src _ (start_bounds target size Hs) (or_introl (start_staged _ _)))
    as ([d|d] & -> & Hd); cbn [mbind option_bind].
  { exists (-1), (dest d). destruct Hd. split_and!; auto. }
  destruct (flush_if_safe _ _ _ Hd) as ([d'|d'] & -> & Hd'); cbn [mbind option_bind].
  { exists (-1), (dest d'). destruct Hd'. split_and!; auto. }
  destruct Hd' as [[] Ht]. destruct (Z.ltb_spec (destl d') 1).
  { exists (-1), (dest d'). split_and!; auto. }
  rewrite mem_write_ok by (cbn [length]; lia). cbn [mbind option_bind].
  exists (rt d'), (splice (dest d') (Z.to_nat (rt d')) [0]). split_and!; [done| | |right; split; [lia|]].
  - rewrite splice_length; cbn [length]; lia.
  - rewrite drop_splice_after by (cbn [length]; lia). done.
  - rewrite splice_lookup by (cbn [length]; lia). rewrite decide_True by (cbn [length]; lia).
    by rewrite Nat.sub_diag.
Qed.

Lemma decode_safe_witness :
  exists rv m, DM_Base64_decode (replicate 300 65 ++ [61; 7]) (replicate 40 1) 33 = Some (rv, m) /\ length m = 40%nat /\
    drop 33 m = drop 33 (replicate 40 1) /\ (rv = -1 \/ (0 <= rv < 33 /\ m !! Z.to_nat rv = Some 0)).
Proof. apply (decode_safe (replicate 300 65 ++ [61; 7]) (replicate 40 1) 33). simpl. lia. Defined.

(** ** Decoding an encoded text *)

Lemma t_decode_all :
  forallb (fun n => decode_table !!! Z.to_nat (t !!! n) =? Z.of_nat n) (seq 0 64) = true.
Proof. vm_compute. reflexivity. Qed.

Lemma digit_range v i : 0 <= digit v i < 64.
Proof. unfold digit. apply Z.mod_pos_bound. lia. Qed.

Lemma sym_decode v i : decode_table !!! Z.to_nat (sym v i) = digit v i.
Proof.
  pose proof (digit_range v i). unfold sym.
  pose proof (proj1 (forallb_forall _ _) t_decode_all (Z.to_nat (digit v i))) as H1.
  rewrite (proj1 (Z.eqb_eq _ _) (H1 ltac:(apply in_seq; lia))). lia.
Qed.

Lemma dec_sym v i src d d' :
  put_char (digit v i) d = Some (Good d') -> dec_loop (sym v i :: src) d = dec_loop src d'.
Proof.
  intros E. pose proof (digit_range v i). cbn [dec_loop]. rewrite sym_decode, E.
  rewrite (proj2 (Z.eqb_neq _ BJNK)), (proj2 (Z.eqb_neq _ BPAD)) by (unfold BJNK, BPAD; lia). done.
Qed.

Lemma dec_brk o src d : dec_loop (brk o ++ src) d = dec_loop src d.
Proof. unfold brk. by destruct (_ && _). Qed.

(** Joining the upper bits of one digit with the lower bits of the next. *)
Lemma join_digits x y k :
  0 <= k <= 8 -> 0 <= y < 2 ^ k -> u8 (u8 (x .<< k) .| y) = u8 (x * 2 ^ k + y).
Proof.
  intros Hk Hy. rewrite <- (Z.add_comm y), <- lor_add by lia. bitwise i Hi.
  destruct (Z.ltb_spec i 8); simpl; [|done]. apply orb_comm.
Qed.

Lemma undigit a b c :
  is_byte a -> is_byte b -> is_byte c ->
  let v := a * 65536 + b * 256 + c in
  u8 (u8 (digit v 0 .<< 2) .| (digit v 1 .>> 4)) = a /\
  u8 (u8 (digit v 1 .<< 4) .| (digit v 2 .>> 2)) = b /\
  u8 (u8 (digit v 2 .<< 6) .| digit v 3) = c.
Proof.
  intros Ha Hb Hc. cbn beta zeta in *. set (v := a * 65536 + b * 256 + c).
  pose proof (digit_range v 1). pose proof (digit_range v 2). pose proof (digit_range v 3).
  rewrite !shiftr_div by lia.
  rewrite (join_digits _ _ 2), (join_digits _ _ 4), (join_digits _ _ 6)
    by first [lia|change (2 ^ 2) with 4; change (2 ^ 4) with 16; change (2 ^ 6) with 64; zlia].
  unfold digit, v. change (2 ^ (18 - 6 * 0)) with 262144. change (2 ^ (18 - 6 * 1)) with 4096.
  change (2 ^ (18 - 6 * 2)) with 64. change (2 ^ (18 - 6 * 3)) with 1.
  change (2 ^ 2) with 4. change (2 ^ 4) with 16. change (2 ^ 6) with 64. unfold u8.
  split_and!; zlia.
Qed.

(** The staging buffer after the characters of one group: the first one, two
    or three bytes are in place. *)
Section Group.
Context (size : Z) (target : list Z) (d : dec) (Hb : bounds size target d) (Hs : staged d) (He : e d = 0).
Context (a b c : Z) (Ha : is_byte a) (Hbb : is_byte b) (Hc : is_byte c).
Let v : Z := a * 65536 + b * 256 + c.

Lemma group_chars :
  exists P S x y, tmp d = Z.of_nat (length P) /\ take (Z.to_nat (tmp d)) (dst d) = P /\
    length (P ++ [a; b; c] ++ S) = BASE64_BUF_LEN /\
    forall src,
      dec_loop (sym v 0 :: sym v 1 :: src) d =
        dec_loop src (Dec (P ++ [a; x; y] ++ S) (tmp d + 1) 2 (cntr d) (rt d) (dest d) (destl d)) /\
      exists z,
      dec_loop (sym v 0 :: sym v 1 :: sym v 2 :: src) d =
        dec_loop src (Dec (P ++ [a; b; z] ++ S) (tmp d + 2) 3 (cntr d) (rt d) (dest d) (destl d)) /\
      let d' k := Dec (P ++ [a; b; c] ++ S) (tmp d + 3) 0 k (rt d) (dest d) (destl d) in
      dec_loop (sym v 0 :: sym v 1 :: sym v 2 :: sym v 3 :: src) d =
        if cntr d =? 160
        then r ← flush (d' 0); match r with Good d => dec_loop src d | Bad d => Some (Bad d) end
        else dec_loop src (d' (cntr d + 4)).
Proof.
  destruct (undigit a b c Ha Hbb Hc) as (Ea & Eb & Ec). fold v in Ea, Eb, Ec.
  assert (tmp d + Z.of_nat 3 <= 128) as H3.
  { destruct Hs as [H1 H2 _ ->]. rewrite He, extra_eq by lia. zlia. }
  destruct (split_dst d 3) as (P & W & S & E & Hp & HW); [apply Hb|apply Hb|done|].
  destruct W as [|w0 [|w1 [|w2 [|]]]]; try done. cbn [app] in E.
  exists P, S, (u8 (digit v 1 .<< 4)), w2. split_and!; [done| | |].
  { rewrite E, Hp, Nat2Z.id. apply take_app_length. }
  { rewrite <- (b_dst _ _ _ Hb), E, !length_app. done. }
  assert (forall src, dec_loop (sym v 0 :: sym v 1 :: src) d =
    dec_loop src (Dec (P ++ [a; u8 (digit v 1 .<< 4); w2] ++ S) (tmp d + 1) 2 (cntr d) (rt d) (dest d) (destl d))) as H01.
  { intros src. erewrite dec_sym by (apply (put_char_0 d P _ Hp w0 (w1 :: w2 :: S) He E)).
    erewrite dec_sym; [|apply (put_char_mid _ P _) with (q := 1) (k := 4) (x := u8 (digit v 0 .<< 2)) (s := w1) (S := w2 :: S);
      [exact Hp|done|lia|done]].
    rewrite Ea, <- app_assoc. done. }
  intros src. split; [apply H01|].
  exists (u8 (digit v 2 .<< 6)).
  assert (forall src, dec_loop (sym v 0 :: sym v 1 :: sym v 2 :: src) d =
    dec_loop src (Dec (P ++ [a; b; u8 (digit v 2 .<< 6)] ++ S) (tmp d + 2) 3 (cntr d) (rt d) (dest d) (destl d))) as H012.
  { intros src'. rewrite H01.
    erewrite dec_sym; [|apply (put_char_mid _ (P ++ [a]) _) with (q := 2) (k := 2) (x := u8 (digit v 1 .<< 4)) (s := w2) (S := S);
      [rewrite length_app; cbn [tmp length]; lia|done|lia|by rewrite <- app_assoc]].
    cbn [tmp cntr rt dest destl]. change (8 - 2) with 6. rewrite Eb, <- !app_assoc.
    replace (tmp d + 1 + 1) with (tmp d + 2) by lia. done. }
  split; [apply H012|]. cbn zeta. rewrite H012.
  pose proof (digit_range v 3). cbn [dec_loop]. rewrite sym_decode.
  rewrite (proj2 (Z.eqb_neq _ BJNK)), (proj2 (Z.eqb_neq _ BPAD)) by (unfold BJNK, BPAD; lia).
  rewrite (put_char_3 _ (P ++ [a; b]) _) with (x := u8 (digit v 2 .<< 6)) (S := S).
  - cbn [tmp cntr rt dest destl]. rewrite Ec, <- !app_assoc. cbn [app].
    replace (tmp d + 2 + 1) with (tmp d + 3) by lia. by destruct (cntr d =? 160).
  - rewrite length_app. cbn [tmp length]. lia.
  - done.
  - by rewrite <- app_assoc.
  - apply Hs.
Qed.
End Group.

(** [grown d' d x]: [d'] has decoded [x] more than [d]. *)
Definition grown (d' d : dec) (x : list Z) : Prop :=
  got d' = got d ++ x /\ rt d' + tmp d' = rt d + tmp d + Z.of_nat (length x).

Lemma got_staged P Q k q n r m l :
  k = Z.of_nat (length P) -> got (Dec (P ++ Q) k q n r m l) = take (Z.to_nat r) m ++ P.
Proof. intros ->. unfold got. cbn [rt dest tmp dst]. by rewrite Nat2Z.id, take_app_length. Qed.

Section Quads.
Context (size : Z) (target : list Z) (d : dec) (Hb : bounds size target d) (Hs : staged d) (He : e d = 0).

Lemma staged_room : tmp d <= 120.
Proof. destruct Hs as [H1 H2 _ ->]. rewrite He, extra_eq by lia. zlia. Qed.

Lemma dec_quad3 a b c src :
  is_byte a -> is_byte b -> is_byte c -> rt d + tmp d + 3 <= size ->
  exists d', dec_loop (quad3 a b c ++ src) d = dec_loop src d' /\
    bounds size target d' /\ staged d' /\ e d' = 0 /\ grown d' d [a; b; c].
Proof.
  intros Ha Hbb Hc Hroom. pose proof staged_room.
  destruct (group_chars _ _ _ Hb Hs He a b c Ha Hbb Hc) as (P & S & x & y & Hp & HP & Hl & H4).
  destruct (H4 src) as (_ & _ & _ & E). unfold quad3. cbn [app]. cbn zeta in E |- *. rewrite E. clear E H4.
  set (d' := fun k => Dec (P ++ [a; b; c] ++ S) (tmp d + 3) 0 k (rt d) (dest d) (destl d)).
  assert (forall k, bounds size target (d' k)) as Hb'.
  { intros k. destruct Hb. split; cbn [d' dst tmp rt destl dest]; try done. lia. }
  assert (forall k, grown (d' k) d [a; b; c]) as Hg.
  { intros k. split; [|cbn; lia]. unfold d'. rewrite app_assoc, got_staged.
    - unfold got. by rewrite HP, app_assoc.
    - rewrite length_app. cbn [length]. lia. }
  destruct Hs as [H1 H2 _ Ht]. rewrite He, extra_eq in Ht by lia.
  destruct (Z.eqb_spec (cntr d) 160).
  - change (Dec _ _ 0 0 _ _ _) with (d' 0). rewrite (flush_eq _ _ _ (Hb' 0)). cbn [mbind option_bind].
    destruct Hb. change (destl (d' 0)) with (destl d). change (tmp (d' 0)) with (tmp d + 3).
    rewrite (proj2 (Z.ltb_ge _ _)) by lia.
    exists (flushed (d' 0)). split_and!; [done|apply flushed_bounds; [done|cbn; lia]| |done|].
    + split; cbn [flushed cntr e tmp d']; try done; lia.
    + destruct (Hg 0) as [Hg1 Hg2]. split; [rewrite (flushed_got size target), Hg1; [done|done|cbn; lia]|].
      rewrite <- Hg2. cbn [flushed rt tmp]. lia.
  - exists (d' (cntr d + 4)). split_and!; [done|apply Hb'| |done|apply Hg].
    split; cbn [d' cntr e tmp]; [zlia|zlia|lia|]. rewrite extra_eq by lia. zlia.
Qed.

(** The padded groups end the text and flush. *)
Lemma dec_pad_end P Q x k :
  take (Z.to_nat (tmp d)) (dst d) = P -> tmp d = Z.of_nat (length P) ->
  length (P ++ x ++ Q) = BASE64_BUF_LEN -> (0 < length x < 4)%nat -> k = tmp d + Z.of_nat (length x) ->
  rt d + tmp d + Z.of_nat (length x) <= size ->
  exists d', dec_loop [61] (Dec (P ++ x ++ Q) k 3 (cntr d) (rt d) (dest d) (destl d)) = Some (Good d') /\
    bounds size target d' /\ grown d' d x.
Proof.
  intros HP Hp Hl Hx -> Hroom. pose proof staged_room.
  set (d1 := Dec (P ++ x ++ Q) (tmp d + Z.of_nat (length x)) 4 (cntr d) (rt d) (dest d) (destl d)).
  assert (bounds size target d1) as Hb1 by (destruct Hb; split; cbn [d1 dst tmp rt destl dest]; try done; lia).
  assert (tmp d1 <= destl d1) as Hle by (destruct Hb; cbn [d1 tmp destl]; lia).
  exists (flushed d1). split_and!.
  - change (dec_loop [61] _) with (flush_if d1). unfold flush_if. rewrite (proj2 (Z.eqb_neq _ 0)).
    + rewrite (flush_eq _ _ _ Hb1), (proj2 (Z.ltb_ge _ _)) by lia. done.
    + destruct Hb. cbn [d1 tmp]. lia.
  - by apply flushed_bounds.
  - split; [|cbn [flushed d1 rt tmp]; lia]. rewrite (flushed_got size target) by done.
    unfold d1. rewrite app_assoc, got_staged; [unfold got; by rewrite HP, app_assoc|].
    rewrite length_app. lia.
Qed.

Lemma dec_quad2 a b :
  is_byte a -> is_byte b -> rt d + tmp d + 2 <= size ->
  exists d', dec_loop (quad2 a b) d = Some (Good d') /\ bounds size target d' /\ grown d' d [a; b].
Proof.
  intros Ha Hbb Hroom.
  destruct (group_chars _ _ _ Hb Hs He a b 0 Ha Hbb is_byte_0) as (P & S & x & y & Hp & HP & Hl & H4).
  destruct (H4 [61]) as (_ & z & E & _). rewrite Z.add_0_r in E. unfold quad2. cbn zeta. rewrite E.
  destruct (dec_pad_end P (z :: S) [a; b] (tmp d + 2)) as (d' & E' & H');
    [done|done|by rewrite !length_app in *|cbn [length]; lia|done|done|].
  cbn [app] in *. rewrite E'. by exists d'.
Qed.

Lemma dec_quad1 a :
  is_byte a -> rt d + tmp d + 1 <= size ->
  exists d', dec_loop (quad1 a) d = Some (Good d') /\ bounds size target d' /\ grown d' d [a].
Proof.
  intros Ha Hroom.
  destruct (group_chars _ _ _ Hb Hs He a 0 0 Ha is_byte_0 is_byte_0) as (P & S & x & y & Hp & HP & Hl & H4).
  destruct (H4 [61; 61]) as (E & _). rewrite !Z.add_0_r in E. unfold quad1. cbn zeta. rewrite E.
  destruct (dec_pad_end P (x :: y :: S) [a] (tmp d + 1)) as (d' & E' & H');
    [done|done|by rewrite !length_app in *|cbn [length]; lia|done|done|].
  change (dec_loop [61; 61] (Dec ?D ?T 2 ?K ?R ?M ?L)) with (dec_loop [61] (Dec D T 3 K R M L)).
  cbn [app] in *.
  rewrite E'. by exists d'.
Qed.
End Quads.

Lemma grown_trans d3 d2 d1 x y : grown d2 d1 x -> grown d3 d2 y -> grown d3 d1 (x ++ y).
Proof.
  intros [E1 L1] [E2 L2]. split; [by rewrite E2, E1, app_assoc|]. rewrite length_app. lia.
Qed.

(** The whole text. *)
Lemma dec_loop_b64 size target x o d :
  bounds size target d -> staged d -> e d = 0 -> bytes x -> rt d + tmp d + Z.of_nat (length x) <= size ->
  exists d', dec_loop (b64 o x) d = Some (Good d') /\ bounds size target d' /\ grown d' d x.
Proof.
  revert o d. induction x as [|a|a b|a b c x IH] using triples_ind; intros o d Hb Hs He Hx Hroom; cbn [b64].
  - exists d. split_and!; [done|done|]. split; [by rewrite app_nil_r|cbn; lia].
  - rewrite dec_brk. apply Forall_cons in Hx as [Ha _]. by apply dec_quad1.
  - rewrite dec_brk. apply Forall_cons in Hx as [Ha Hx]. apply Forall_cons in Hx as [Hb' _]. by apply dec_quad2.
  - rewrite dec_brk. apply Forall_cons in Hx as [Ha Hx]. apply Forall_cons in Hx as [Hb' Hx].
    apply Forall_cons in Hx as [Hc Hx]. cbn [length] in Hroom.
    destruct (dec_quad3 _ _ _ Hb Hs He a b c (b64 (o + 3) x) Ha Hb' Hc ltac:(lia)) as (d1 & -> & Hb1 & Hs1 & He1 & Hg1).
    assert (rt d1 + tmp d1 + Z.of_nat (length x) <= size) as Hr1 by (destruct Hg1 as [_ Hg1]; cbn [length] in Hg1; lia).
    destruct (IH (o + 3) d1 Hb1 Hs1 He1 Hx Hr1) as (d2 & E2 & Hb2 & Hg2). exists d2. split_and!; [done|done|].
    apply (grown_trans _ _ _ [a; b; c] x Hg1 Hg2).
Qed.

(** Decoding a text of the encoder, with room for the data and a NUL. *)
Lemma decode_b64 o x target size :
  bytes x -> Z.of_nat (length x) < size <= Z.of_nat (length target) ->
  exists m, DM_Base64_decode (b64 o x) target size = Some (Z.of_nat (length x), m) /\
    take (length x) m = x /\ m !! length x = Some 0 /\ length m = length target.
Proof.
  intros Hx Hsize. unfold DM_Base64_decode.
  destruct (dec_loop_b64 size target x o _ (start_bounds target size ltac:(lia)) (start_staged _ _) eq_refl Hx)
    as (d & -> & Hb & Hg & Hr); [cbn; lia|]. cbn in Hg, Hr. cbn [mbind option_bind].
  assert (flush_if d = Some (Good (if tmp d =? 0 then d else flushed d))) as ->.
  { unfold flush_if. destruct (Z.eqb_spec (tmp d) 0); [done|].
    rewrite (flush_eq _ _ _ Hb), (proj2 (Z.ltb_ge _ _)) by (destruct Hb; lia). done. }
  cbn [mbind option_bind]. set (d' := if tmp d =? 0 then d else flushed d).
  assert (bounds size target d' /\ tmp d' = 0 /\ got d' = x /\ rt d' = Z.of_nat (length x)) as (Hb' & Ht & Hg' & Hr').
  { unfold d'. destruct (Z.eqb_spec (tmp d) 0); [split_and!; first [done|lia]|]. destruct Hb.
    split_and!; [apply flushed_bounds; [done|lia]|done|rewrite (flushed_got size target); [done|done|lia]|].
    cbn [flushed rt]. lia. }
  clearbody d'. unfold got in Hg'. rewrite Ht in Hg'. change (Z.to_nat 0) with 0%nat in Hg'.
  rewrite take_0, app_nil_r, Hr', Nat2Z.id in Hg'. destruct Hb'.
  rewrite (proj2 (Z.ltb_ge _ _)) by lia. rewrite Hr', mem_write_nat by (cbn [length]; lia).
  cbn [mbind option_bind]. eexists. split_and!; [reflexivity| | |].
  - unfold splice. rewrite take_app_exact by (rewrite length_take; lia). done.
  - rewrite splice_lookup by (cbn [length]; lia). rewrite decide_True by (cbn [length]; lia).
    by rewrite Nat.sub_diag.
  - rewrite splice_length; cbn [length]; lia.
Qed.

(** One-shot encoding with room in the target. *)
Lemma base64Encode_full ts x r sv :
  bytes x -> no_saved sv -> Z.of_nat (length x) < 4294967290 ->
  Z.of_nat (length (b64 0 x)) <= ts < 4294967296 ->
  mmidm_base64Encode ts (Some (x ++ r)) (Z.of_nat (length x)) 0 1 sv =
    Some (b64 0 x, Some (x ++ r), 0, Z.of_nat (length x), sv).
Proof.
  intros Hx Hsv Hl Hts. unfold mmidm_base64Encode. change (default [] (Some (x ++ r))) with (x ++ r).
  rewrite enc_loop_full by (first [assumption|lia]). cbn [mbind option_bind save out left source off app].
  by destruct sv.
Qed.

(** C37: base64 round trip: encoding any bytes in one call with a large
    enough target and decoding the text (line breaks included) into a buffer
    with room for the bytes and a NUL returns their number and the bytes,
    NUL-terminated. *)
Theorem base64_roundtrip (x r target : list Z) (ts size : Z) (sv : option (list Z)) :
  bytes x -> no_saved sv -> Z.of_nat (length x) < 4294967290 ->
  Z.of_nat (length (b64 0 x)) <= ts < 4294967296 ->
  Z.of_nat (length x) < size <= Z.of_nat (length target) ->
  exists text data n o sv' m,
    mmidm_base64Encode ts (Some (x ++ r)) (Z.of_nat (length x)) 0 1 sv = Some (text, data, n, o, sv') /\
    n = 0 /\ DM_Base64_decode text target size = Some (Z.of_nat (length x), m) /\
    take (length x) m = x /\ m !! length x = Some 0.
Proof.
  intros Hx Hsv Hl Hts Hsize. destruct (decode_b64 0 x target size Hx Hsize) as (m & E & Hm & H0 & _).
  do 5 eexists. exists m. rewrite base64Encode_full by done. done.
Qed.

Lemma base64_roundtrip_witness :
  exists text data n o sv' m,
    mmidm_base64Encode 200 (Some (replicate 100 77 ++ [1; 2])) (Z.of_nat (length (replicate 100 77))) 0 1 (Some [0; 9; 9; 9])
      = Some (text, data, n, o, sv') /\
    n = 0 /\ DM_Base64_decode text (replicate 110 5) 101 = Some (Z.of_nat (length (replicate 100 77)), m) /\
    take (length (replicate 100 77)) m = replicate 100 77 /\ m !! length (replicate 100 77) = Some 0.
Proof.
  apply base64_roundtrip.
  - apply Forall_replicate. lia.
  - reflexivity.
  - vm_compute. reflexivity.
  - vm_compute. split; [discriminate|reflexivity].
  - vm_compute. split; [reflexivity|discriminate].
Defined.

(** ** The credential text *)

Lemma b64_length f x y : length x = length y -> length (b64 f x) = length (b64 f y).
Proof.
  revert f y. induction x as [|a|a b|a b c x IH] using triples_ind;
    intros f [|a' [|b' [|c' y]]] Hl; cbn [length] in Hl; try lia; cbn [b64]; rewrite ?length_app; try done.
  cbn [quad3 length]. by rewrite (IH (f + 3) y) by lia.
Qed.

(** The text of at most 57 bytes fits the 80-character limit and the
    temporary buffer. *)
Lemma short_text_fits x :
  (length x <= 57)%nat -> (length (b64 0 x) <= 78)%nat /\ (length (b64 0 x) + 1 <= 2 * length x + 4)%nat.
Proof.
  intros Hl. rewrite (b64_length 0 x (replicate (length x) 0)) by (by rewrite length_replicate).
  assert (forallb (fun n => let l := length (b64 0 (replicate n 0)) in
      (l <=? 78)%nat && (l + 1 <=? 2 * n + 4)%nat) (seq 0 58) = true) as H by (vm_compute; reflexivity).
  pose proof (proj1 (forallb_forall _ _) H (length x) ltac:(apply in_seq; lia)) as H'. cbn beta zeta in H'.
  apply andb_true_iff in H' as [H1%Nat.leb_le H2%Nat.leb_le]. lia.
Qed.

(** The encoder on a longer input stops after 57 bytes of an 80-character
    target and moves the rest of the data to the front. *)
Lemma base64Encode_cut x r sv :
  bytes x -> no_saved sv -> (57 < length x)%nat -> Z.of_nat (length x) < 4294967290 ->
  mmidm_base64Encode 80 (Some (x ++ r)) (Z.of_nat (length x)) 0 1 sv =
    Some (b64 0 (take 57 x), Some (splice (x ++ r) 0 (drop 57 x)), Z.of_nat (length x) - 57, 57, sv).
Proof.
  intros Hx Hsv H57 Hl. set (x1 := take 57 x). set (x2 := drop 57 x).
  assert (length x1 = 57%nat) as H1 by (unfold x1; rewrite length_take; lia).
  assert (length x2 = (length x - 57)%nat) as H2 by (unfold x2; apply length_drop).
  assert (x = x1 ++ x2) as Ex by (symmetry; apply take_drop).
  assert (length (b64 0 x1) = 78%nat) as H78.
  { rewrite (b64_length 0 x1 (replicate 57 0)); [vm_compute; reflexivity|]. by rewrite length_replicate. }
  unfold mmidm_base64Encode. change (default [] (Some (x ++ r))) with (x ++ r).
  replace (enc_loop (S (Z.to_nat 80)) 1 (Enc [] 80 (x ++ r) (Z.of_nat (length x)) sv 1 0))
    with (Some (Enc (b64 0 x1) 2 (x2 ++ r) (Z.of_nat (length x2)) sv 1 57)).
  - cbn [mbind option_bind save left source out off].
    assert (mem_read (x2 ++ r) 0 (Z.of_nat (length x2)) = Some x2) as Hr.
    { rewrite mem_read_prefix, Nat2Z.id, take_app_length by (rewrite length_app; lia). done. }
    change (1 =? 0) with false. cbn [andb].
    pose proof (proj2 (Z.ltb_lt 0 (Z.of_nat (length x2))) ltac:(lia)) as Hpos.
    replace (Z.of_nat (length x) - 57) with (Z.of_nat (length x2)) by lia.
    destruct sv; cbn [mbind option_bind]; rewrite Hpos, Hr; cbn [mbind option_bind];
      rewrite (mem_write_ok _ 0) by (rewrite ?length_app; lia); done.
  - symmetry. change (S (Z.to_nat 80)) with (19 + 62)%nat. rewrite Ex at 1 2. rewrite <- app_assoc, length_app, Nat2Z.inj_add.
    apply Forall_take with (n := 57%nat) in Hx. fold x1 in Hx.
    rewrite (enc_loop_groups sv Hsv 19) by (first [assumption|lia]). rewrite H78, H1. done.
Qed.

Lemma calc_b64_cred_eq (x r : list Z) :
  bytes x -> (0 < length x)%nat -> Z.of_nat (length x) < 2147483640 ->
  (length (b64 0 (take 57 x)) < length (x ++ r))%nat ->
  exists rest, mmidm_calc_b64_cred true (x ++ r) (Z.of_nat (length x)) = Some (b64 0 (take 57 x) ++ 0 :: rest) /\
    length (b64 0 (take 57 x) ++ 0 :: rest) = length (x ++ r).
Proof.
  intros Hx H0 Hl Hroom. unfold mmidm_calc_b64_cred. rewrite (proj2 (Z.eqb_neq _ 0)) by lia. cbn [negb].
  destruct (short_text_fits (take 57 x)) as [F1 F2]; [rewrite length_take; lia|].
  assert (exists data n o, mmidm_base64Encode 80 (Some (x ++ r)) (Z.of_nat (length x)) 0 1 (Some [0; 0; 0; 0])
      = Some (b64 0 (take 57 x), Some data, n, o, Some [0; 0; 0; 0]) /\ length data = length (x ++ r))
    as (data & n & o & -> & Hdata).
  { destruct (decide (length x <= 57)%nat).
    - rewrite take_ge by lia. rewrite take_ge in F1 by lia. do 3 eexists.
      split; [apply base64Encode_full; first [assumption|done|lia]|done].
    - do 3 eexists. split; [apply base64Encode_cut; first [assumption|done|lia]|].
      apply splice_length. rewrite length_drop, length_app. lia. }
  cbn [mbind option_bind]. rewrite length_take in F2.
  assert (length (b64 0 (take 57 x) ++ [0]) = S (length (b64 0 (take 57 x)))) as Hlen by (rewrite length_app; cbn; lia).
  rewrite u32_small by lia. rewrite (mem_write_ok (replicate _ _)) by (rewrite ?length_replicate; lia).
  cbn [mbind option_bind]. rewrite mem_write_ok by lia.
  exists (drop (S (length (b64 0 (take 57 x)))) data). change (Z.to_nat 0) with 0%nat. unfold splice.
  rewrite take_0, Hlen, <- app_assoc. split; [done|].
  rewrite length_app. cbn [length]. rewrite length_drop. lia.
Qed.

(** [mmidm_calc_b64_cred] replaces the first [cbLength] bytes of the
    buffer by the NUL-terminated base64 text of at most the first 57 of them:
    up to 57 bytes (a digest has 16) the text is complete, and longer
    credentials are silently cut at 57 bytes, because the encoder is given 80
    characters of room whatever was allocated.  The buffer must have room for
    the text and its NUL. *)
Theorem calc_b64_cred_text (x r : list Z) :
  bytes x -> (0 < length x)%nat -> Z.of_nat (length x) < 2147483640 ->
  (length (b64 0 (take 57 x)) < length (x ++ r))%nat ->
  exists rest, mmidm_calc_b64_cred true (x ++ r) (Z.of_nat (length x)) = Some (b64 0 (take 57 x) ++ 0 :: rest) /\
    length (b64 0 (take 57 x) ++ 0 :: rest) = length (x ++ r).
Proof. apply calc_b64_cred_eq. Qed.

Lemma calc_b64_cred_text_witness :
  exists rest, mmidm_calc_b64_cred true (replicate 60 7 ++ replicate 40 0) (Z.of_nat (length (replicate 60 7)))
      = Some (b64 0 (take 57 (replicate 60 7)) ++ 0 :: rest) /\
    length (b64 0 (take 57 (replicate 60 7)) ++ 0 :: rest) = length (replicate 60 7 ++ replicate 40 0).
Proof.
  apply calc_b64_cred_text.
  - apply Forall_replicate. lia.
  - simpl. lia.
  - vm_compute. reflexivity.
  - apply Nat.ltb_lt. vm_compute. reflexivity.
Defined.

(** The flush branch for a NULL data buffer pads with the letter A instead of
    the padding character: two saved bytes decode to three. *)
Lemma null_flush_pads_wrongly :
  mmidm_base64Encode 8 None 0 2 1 (Some [2; 104; 105; 0]) = Some ([97; 71; 107; 65], None, 0, 3, Some [0; 104; 105; 0]) /\
  DM_Base64_decode [97; 71; 107; 65] (replicate 8 9) 8 = Some (3, [104; 105; 0; 0; 9; 9; 9; 9]).
Proof. vm_compute. done. Qed.
