(* ===== verification/DmNum.v ===== *)
(** * Numerals of the device-management client

    Model of [MMIDM_atoIU32] and [MMIDM_IU32toa] of
    [libs/libdm/src/sprd_dm_md5_b64.c]: parsing and printing of 32-bit
    numbers in decimal and hexadecimal.  A string is a buffer with a NUL; an
    access outside the buffer is [None]. *)

From S2P Require Import Prelude.

Definition MAX_IU32_DIV_TEN : Z := 0xffffffff / 10.
Definition MAX_IU32_MOD_TEN : Z := 0xffffffff mod 10.

(** Conversion to [int16]. *)
Definition s16 (z : Z) : Z := if u16 z <? 32768 then u16 z else u16 z - 65536.

(** The decimal loop: [myVal], [nextChr] and [digitsParsed] at its end. *)
Fixpoint ato10 (string : list Z) (myVal digitsParsed : Z) : option (Z * Z * Z) :=
  match string with
  | [] => None
  | nextChr :: string =>
      if (48 <=? nextChr) && (nextChr <=? 57)
      then if (MAX_IU32_DIV_TEN <? myVal)
              || ((myVal =? MAX_IU32_DIV_TEN) && (48 + MAX_IU32_MOD_TEN <? nextChr))
           then Some (myVal, nextChr, digitsParsed)
           else ato10 string (u32 (u32 (myVal * 10) + (nextChr - 48))) (s16 (digitsParsed + 1))
      else Some (myVal, nextChr, digitsParsed)
  end.

Definition hex_digit (cVal : Z) : option Z :=
  if (48 <=? cVal) && (cVal <=? 57) then Some (cVal - 48)
  else if (65 <=? cVal) && (cVal <=? 70) then Some (cVal - 65 + 10)
  else if (97 <=? cVal) && (cVal <=? 102) then Some (cVal - 97 + 10)
  else None.

(** The hexadecimal loop. *)
Fixpoint ato16 (string : list Z) (myVal digitsParsed : Z) : option (Z * Z * Z) :=
  match string with
  | [] => None
  | cVal :: string =>
      if cVal =? 0 then Some (myVal, cVal, digitsParsed)
      else match hex_digit cVal with
           | None => Some (myVal, cVal, digitsParsed)
           | Some h =>
               let myVal := u32 (myVal .<< 4) .| h in
               if 8 <? digitsParsed then Some (myVal, cVal, s16 (digitsParsed + 1))
               else ato16 string myVal (s16 (digitsParsed + 1))
           end
  end.

(** The optional "0x" or "0X". *)
Definition skip_0x (string : list Z) : option (list Z) :=
  match string with
  | c0 :: r =>
      if c0 =? 48
      then match r with
           | c1 :: r => if (c1 =? 120) || (c1 =? 88) then Some r else Some string
           | [] => None
           end
      else Some string
  | [] => None
  end.

(** [MMIDM_atoIU32]: the value and [*success]; NULL leaves [*success]. *)
Definition MMIDM_atoIU32 (string : option (list Z)) (radix : Z) : option (Z * option bool) :=
  match string with
  | None => Some (0, None)
  | Some s =>
      if 10 =? radix
      then '(myVal, nextChr, digitsParsed) ← ato10 s 0 0;
           Some (myVal, Some ((nextChr =? 0) && (0 <? digitsParsed)))
      else s ← skip_0x s;
           '(myVal, cVal, digitsParsed) ← ato16 s 0 0;
           Some (myVal, Some ((0 <? digitsParsed) && (digitsParsed <? 9) && (cVal =? 0)))
  end.

(** [do { v = v / radix; ++i; } while (v != 0)]: the final [i]. *)
Fixpoint count_digits (fuel : nat) (radix v : Z) (i : nat) : option nat :=
  match fuel with
  | O => None
  | S fuel => if v / radix =? 0 then Some (S i) else count_digits fuel radix (v / radix) (S i)
  end.

(** The character of a digit; in decimal it is never above '9'. *)
Definition digit_char (d : Z) : Z :=
  let ch := 48 + d in if 57 <? ch then ch + 65 - (57 + 1) else ch.

(** The digits, written from the last to the first. *)
Fixpoint put_digits (i : nat) (radix value : Z) (string : list Z) : option (list Z) :=
  match i with
  | O => Some string
  | S i => string ← mem_write string (Z.of_nat i) [digit_char (value mod radix)];
           put_digits i radix (value / radix) string
  end.

(** [MMIDM_IU32toa] ([value >> 4] and [value & 0xF] are the quotient and the
    remainder by 16): the buffer afterwards. *)
Definition MMIDM_IU32toa (value : Z) (string : option (list Z)) (radix : Z) : option (option (list Z)) :=
  match string with
  | None => Some None
  | Some s =>
      let base := if 16 =? radix then 16 else 10 in
      i ← count_digits 32 base value 0;
      s ← mem_write s (Z.of_nat i) [0];
      s ← put_digits i base value s;
      Some (Some s)
  end.

Example toa_4095 : MMIDM_IU32toa 4095 (Some (replicate 6 9)) 16 = Some (Some [70; 70; 70; 0; 9; 9]).
Proof. vm_compute. reflexivity. Qed.
Example ato_overflow : MMIDM_atoIU32 (Some [52; 50; 57; 52; 57; 54; 55; 50; 57; 54; 0]) 10 = Some (429496729, Some false).
Proof. vm_compute. reflexivity. Qed.

(** ** Reference: the digits of a number *)

Fixpoint digs (radix : Z) (n : nat) (v : Z) : list Z :=
  match n with
  | O => []
  | S n => digs radix n (v / radix) ++ [digit_char (v mod radix)]
  end.

Lemma digs_length radix n v : length (digs radix n v) = n.
Proof. revert v. induction n as [|n IH]; intros v; cbn [digs]; [done|]. rewrite length_app, IH. cbn. lia. Qed.

(** The number of digits: enough for the value, and the last division is the
    first to give zero. *)
Lemma count_digits_spec fuel radix v i :
  2 <= radix -> 0 <= v < radix ^ Z.of_nat fuel -> fuel <> O ->
  exists n, count_digits fuel radix v i = Some (n + i)%nat /\ (1 <= n)%nat /\ v < radix ^ Z.of_nat n /\
    (n <> 1%nat -> radix ^ Z.of_nat (n - 1) <= v).
Proof.
  intros Hr. revert v i. induction fuel as [|fuel IH]; intros v i Hv Hf; [done|]. cbn [count_digits].
  destruct (Z.eqb_spec (v / radix) 0) as [E|E].
  - exists 1%nat. split_and!; [done|lia| |done]. change (Z.of_nat 1) with 1. rewrite Z.pow_1_r.
    apply Z.div_small_iff in E; lia.
  - rewrite Nat2Z.inj_succ, Z.pow_succ_r in Hv by lia.
    assert (0 <= v / radix < radix ^ Z.of_nat fuel) as Hq.
    { split; [apply Z.div_pos; lia|]. apply Z.div_lt_upper_bound; lia. }
    destruct fuel as [|fuel]; [change (radix ^ Z.of_nat 0) with 1 in Hq; lia|].
    destruct (IH (v / radix) (S i) Hq ltac:(lia)) as (n & -> & Hn & Hlt & Hge).
    exists (S n). split_and!; [f_equal; lia|lia| |].
    + rewrite Nat2Z.inj_succ, Z.pow_succ_r by lia.
      pose proof (Z.mul_succ_div_gt v radix ltac:(lia)). nia.
    + intros _. replace (S n - 1)%nat with (S (n - 1)) by lia. rewrite Nat2Z.inj_succ, Z.pow_succ_r by lia.
      pose proof (Z.mul_div_le v radix ltac:(lia)).
      destruct (decide (n = 1%nat)) as [->|Hn1].
      * change (radix ^ Z.of_nat (1 - 1)) with 1. assert (0 < v / radix) by lia. nia.
      * specialize (Hge Hn1). nia.
Qed.

Lemma put_digits_spec i radix v s :
  (i <= length s)%nat -> put_digits i radix v s = Some (digs radix i v ++ drop i s).
Proof.
  revert v s. induction i as [|i IH]; intros v s Hi; cbn [put_digits digs]; [done|].
  rewrite mem_write_nat by (cbn [length]; lia). cbn [mbind option_bind].
  rewrite IH by (rewrite splice_length; cbn [length]; lia). rewrite <- app_assoc. do 2 f_equal.
  unfold splice. rewrite drop_app_exact by (rewrite length_take; lia). cbn [length].
  by rewrite Nat.add_1_r.
Qed.

Lemma digit_char_dec d : 0 <= d < 10 -> digit_char d = 48 + d.
Proof. intros. unfold digit_char. cbn zeta. by rewrite (proj2 (Z.ltb_ge 57 (48 + d))) by lia. Qed.

Lemma digit_char_hex d :
  0 <= d < 16 -> digit_char d = if d <? 10 then 48 + d else 55 + d.
Proof.
  intros. unfold digit_char. cbn zeta.
  destruct (Z.ltb_spec 57 (48 + d)), (Z.ltb_spec d 10); lia.
Qed.

Lemma s16_small z : 0 <= z < 32768 -> s16 z = z.
Proof. intros. unfold s16. rewrite u16_small by lia. by rewrite (proj2 (Z.ltb_lt z 32768)) by lia. Qed.

(** Reading decimal digits. *)
Lemma ato10_digs n v r acc k :
  0 <= v < 10 ^ Z.of_nat n -> 0 <= acc -> acc * 10 ^ Z.of_nat n + v < 4294967296 ->
  0 <= k -> k + Z.of_nat n < 32768 ->
  ato10 (digs 10 n v ++ r) acc k = ato10 r (acc * 10 ^ Z.of_nat n + v) (k + Z.of_nat n).
Proof.
  revert v r. induction n as [|n IH]; intros v r Hv Ha Hav Hk Hkn; cbn [digs app].
  - change (10 ^ Z.of_nat 0) with 1 in *. f_equal; lia.
  - rewrite Nat2Z.inj_succ, Z.pow_succ_r in * by lia. set (p := 10 ^ Z.of_nat n) in *.
    assert (0 < p) by (apply Z.pow_pos_nonneg; lia).
    rewrite <- app_assoc, IH by zlia. cbn [app ato10].
    rewrite digit_char_dec by (apply Z.mod_pos_bound; lia).
    pose proof (Z.mod_pos_bound v 10 ltac:(lia)). pose proof (Z.div_mod v 10 ltac:(lia)).
    rewrite (proj2 (Z.leb_le 48 _)), (proj2 (Z.leb_le _ 57)) by lia. cbn [andb].
    set (a := acc * p + v / 10) in *. assert (a * 10 + v mod 10 < 4294967296) by (unfold a; lia).
    assert (0 <= a) by (unfold a; nia).
    change MAX_IU32_DIV_TEN with 429496729. change MAX_IU32_MOD_TEN with 5.
    rewrite (proj2 (Z.ltb_ge 429496729 a)) by lia. cbn [orb].
    assert ((a =? 429496729) && (48 + 5 <? 48 + v mod 10) = false) as ->.
    { apply andb_false_iff. destruct (Z.eqb_spec a 429496729); [right; apply Z.ltb_ge; lia|by left]. }
    rewrite s16_small, !u32_small by (rewrite ?u32_small; lia). f_equal; unfold a; lia.
Qed.

(** Reading hexadecimal digits. *)
Lemma hex_digit_char d : 0 <= d < 16 -> hex_digit (digit_char d) = Some d /\ digit_char d <> 0.
Proof.
  intros Hd. rewrite digit_char_hex by done. unfold hex_digit. destruct (Z.ltb_spec d 10).
  - rewrite (proj2 (Z.leb_le 48 _)), (proj2 (Z.leb_le _ 57)) by lia. cbn [andb]. split; [f_equal; lia|lia].
  - rewrite (proj2 (Z.leb_le 48 _)), (proj2 (Z.leb_gt _ 57)) by lia. cbn [andb].
    rewrite (proj2 (Z.leb_le 65 _)), (proj2 (Z.leb_le _ 70)) by lia. cbn [andb]. split; [f_equal; lia|lia].
Qed.

Lemma ato16_digs n v r acc k :
  0 <= v < 16 ^ Z.of_nat n -> 0 <= acc -> acc * 16 ^ Z.of_nat n + v < 4294967296 ->
  0 <= k -> k + Z.of_nat n < 9 ->
  ato16 (digs 16 n v ++ r) acc k = ato16 r (acc * 16 ^ Z.of_nat n + v) (k + Z.of_nat n).
Proof.
  revert v r. induction n as [|n IH]; intros v r Hv Ha Hav Hk Hkn; cbn [digs app].
  - change (16 ^ Z.of_nat 0) with 1 in *. f_equal; lia.
  - rewrite Nat2Z.inj_succ, Z.pow_succ_r in * by lia. set (p := 16 ^ Z.of_nat n) in *.
    assert (0 < p) by (apply Z.pow_pos_nonneg; lia).
    rewrite <- app_assoc, IH by zlia. cbn [app ato16].
    pose proof (Z.mod_pos_bound v 16 ltac:(lia)) as Hm. pose proof (Z.div_mod v 16 ltac:(lia)).
    destruct (hex_digit_char _ Hm) as [-> Hnz]. rewrite (proj2 (Z.eqb_neq _ 0)) by done.
    rewrite (proj2 (Z.ltb_ge 8 _)) by lia.
    set (a := acc * p + v / 16) in *. assert (a * 16 + v mod 16 < 4294967296) by (unfold a; lia).
    assert (0 <= a) by (unfold a; nia).
    rewrite s16_small by lia. rewrite (u32_small (a .<< 4)) by (rewrite Z.shiftl_mul_pow2 by lia; change (2 ^ 4) with 16; lia).
    rewrite Z.lor_comm, lor_add by (change (2 ^ 4) with 16; lia). change (2 ^ 4) with 16.
    f_equal; unfold a; lia.
Qed.

Lemma digs_nonempty radix n v : (1 <= n)%nat -> exists c l, digs radix n v = c :: l.
Proof.
  intros Hn. pose proof (digs_length radix n v) as Hl. destruct (digs radix n v) as [|c l]; [simpl in Hl; lia|]. by eauto.
Qed.

Lemma digs_chars radix n v :
  2 <= radix <= 16 -> Forall (fun c => c <> 120 /\ c <> 88) (digs radix n v).
Proof.
  intros Hr. revert v. induction n as [|n IH]; intros v; cbn [digs]; [constructor|].
  apply Forall_app_2; [apply IH|]. constructor; [|constructor].
  pose proof (Z.mod_pos_bound v radix ltac:(lia)). rewrite digit_char_hex by lia.
  destruct (_ <? 10); lia.
Qed.

Lemma skip_0x_digs n v r :
  (1 <= n)%nat -> skip_0x (digs 16 n v ++ 0 :: r) = Some (digs 16 n v ++ 0 :: r).
Proof.
  intros Hn. pose proof (digs_chars 16 n v ltac:(lia)) as Hc.
  destruct (digs_nonempty 16 n v Hn) as (c & l & E). rewrite E in *. cbn [app skip_0x].
  destruct (c =? 48); [|done]. apply Forall_cons in Hc as [_ Hc]. destruct l as [|c1 l]; cbn [app]; [done|].
  apply Forall_cons in Hc as [[H1 H2] _].
  by rewrite (proj2 (Z.eqb_neq c1 120)), (proj2 (Z.eqb_neq c1 88)) by done.
Qed.

(** The text [MMIDM_IU32toa] prints: the digits without leading zeros and a
    NUL; at most [most] digits when the value is below [base ^ most]. *)
Lemma IU32toa_text v s radix most :
  let base := if 16 =? radix then 16 else 10 in
  0 <= v < 4294967296 -> v < base ^ Z.of_nat most -> (1 <= most)%nat -> (S most <= length s)%nat ->
  exists n, (1 <= n <= most)%nat /\ v < base ^ Z.of_nat n /\
    MMIDM_IU32toa v (Some s) radix = Some (Some (digs base n v ++ 0 :: drop (S n) s)).
Proof.
  intros base Hv Hm H1 Hl. assert (base = 16 \/ base = 10) as Hb by (unfold base; destruct (16 =? radix); auto).
  destruct (count_digits_spec 32 base v 0) as (n & E & Hn & Hlt & Hge); [lia| |done|].
  { split; [lia|]. assert (2 ^ 32 <= base ^ Z.of_nat 32); [|change (2 ^ 32) with 4294967296 in *; lia].
    apply (Z.pow_le_mono_l 2 base 32). lia. }
  assert (n <= most)%nat as Hnm.
  { destruct (decide (n <= most)%nat); [done|].
    assert (base ^ Z.of_nat most <= base ^ Z.of_nat (n - 1)) by (apply Z.pow_le_mono_r; lia).
    specialize (Hge ltac:(lia)). lia. }
  exists n. split_and!; [lia|lia|done|]. unfold MMIDM_IU32toa. fold base. cbn zeta. rewrite E.
  cbn [mbind option_bind]. rewrite Nat.add_0_r, mem_write_nat by (cbn [length]; lia). cbn [mbind option_bind].
  rewrite put_digits_spec by (rewrite splice_length; cbn [length]; lia). cbn [mbind option_bind].
  do 3 f_equal. unfold splice. rewrite drop_app_exact by (rewrite length_take; lia).
  cbn [length]. by rewrite Nat.add_1_r.
Qed.

Lemma IU32_roundtrip_text v n r :
  0 <= v < 4294967296 -> (1 <= n)%nat ->
  (v < 10 ^ Z.of_nat n -> (n <= 10)%nat ->
    MMIDM_atoIU32 (Some (digs 10 n v ++ 0 :: r)) 10 = Some (v, Some true)) /\
  (v < 16 ^ Z.of_nat n -> (n <= 8)%nat -> forall radix, radix <> 10 ->
    MMIDM_atoIU32 (Some (digs 16 n v ++ 0 :: r)) radix = Some (v, Some true)).
Proof.
  intros Hv Hn. split.
  - intros Hlt Hn10. unfold MMIDM_atoIU32. change (10 =? 10) with true. cbn iota.
    rewrite ato10_digs by lia. cbn [ato10]. change (48 <=? 0) with false. cbn [andb mbind option_bind].
    change (0 =? 0) with true. rewrite (proj2 (Z.ltb_lt 0 _)) by lia. do 2 f_equal.
  - intros Hlt Hn8 radix Hr. unfold MMIDM_atoIU32. rewrite (proj2 (Z.eqb_neq 10 radix)) by lia.
    rewrite skip_0x_digs by done. cbn [mbind option_bind].
    rewrite ato16_digs by lia. cbn [ato16]. change (0 =? 0) with true. cbn [mbind option_bind].
    rewrite (proj2 (Z.ltb_lt 0 _)), (proj2 (Z.ltb_lt _ 9)) by lia. do 2 f_equal.
Qed.

(** numerals round trip: every 32-bit value printed by [MMIDM_IU32toa]
    in a buffer of eleven bytes (nine in hexadecimal) is read back by
    [MMIDM_atoIU32] in the same base with success: decimal when the printing
    radix is not 16 and the parsing radix is 10, hexadecimal when the printing
    radix is 16 and the parsing radix is not 10. *)
Theorem iu32_roundtrip (v radix : Z) (s : list Z) :
  0 <= v < 4294967296 -> ((if (16 =? radix)%Z then 9 else 11) <= length s)%nat ->
  exists s', MMIDM_IU32toa v (Some s) radix = Some (Some s') /\ length s' = length s /\
    MMIDM_atoIU32 (Some s') (if 16 =? radix then 16 else 10) = Some (v, Some true).
Proof.
  intros Hv Hl.
  destruct (IU32toa_text v s radix (if 16 =? radix then 8 else 10)) as (n & Hn & Hlt & E); [done| | | |].
  - destruct (16 =? radix); [change (16 ^ Z.of_nat 8) with 4294967296|change (10 ^ Z.of_nat 10) with 10000000000]; lia.
  - destruct (16 =? radix); lia.
  - destruct (16 =? radix); lia.
  - eexists. split; [exact E|]. destruct (IU32_roundtrip_text v n (drop (S n) s) Hv) as [H10 H16]; [lia|].
    split.
    + rewrite length_app, digs_length. cbn [length]. rewrite length_drop. destruct (16 =? radix); lia.
    + destruct (16 =? radix); [apply H16|apply H10]; lia || done.
Qed.

Lemma iu32_roundtrip_witness :
  exists s', MMIDM_IU32toa 4294967295 (Some (replicate 11 7)) 32 = Some (Some s') /\ length s' = 11%nat /\
    MMIDM_atoIU32 (Some s') 10 = Some (4294967295, Some true).
Proof. apply (iu32_roundtrip 4294967295 32 (replicate 11 7)); [lia|apply Nat.leb_le; reflexivity]. Defined.

(** A message number printed with radix 32 is decimal, and read back with
    radix 32 it is taken for hexadecimal: 10 comes back as 16. *)
Lemma msgid_radix_mismatch :
  MMIDM_IU32toa 10 (Some (replicate 10 0)) 32 = Some (Some ([49; 48] ++ replicate 8 0)) /\
  MMIDM_atoIU32 (Some ([49; 48] ++ replicate 8 0)) 32 = Some (16, Some true).
Proof. vm_compute. done. Qed.

(** A ten-byte buffer is too small for the largest values. *)
Lemma ten_bytes_overflow : MMIDM_IU32toa 1000000000 (Some (replicate 10 0)) 32 = None.
Proof. vm_compute. reflexivity. Qed.
