(* ===== verification/DmCred.v ===== *)
(** * The device-management credential

    Model of [MMIDM_B64_Md5] and [MMIDM_GetCreddata] of
    [libs/libdm/src/sprd_dm_parsexml.c], which compose the digest of
    [DmMd5.v] and the base64 routines of [DmBase64.v] to the credential
    b64 (md5 (b64 (md5 "mvpdm:mvpdm") ":" nonce)) of the comment above them.
    C strings are byte buffers with a NUL. *)

From S2P Require Import Prelude DmMd5 DmBase64.

Definition MAX_NONCE_LEN : nat := 64.

Definition strcpy (dst src : list Z) : option (list Z) :=
  n ← strlen src; mem_write dst 0 (take n src ++ [0]).

(** [MMIDM_B64_Md5]; [stack] is the uninitialised buffer of the MD5 context,
    the allocation of the encoder succeeds when [malloc]. *)
Definition MMIDM_B64_Md5 (stack : list Z) (malloc : bool) (outbuf : list Z) (buf_size len : Z)
    : option (list Z) :=
  src ← mem_read outbuf 0 len;
  buf ← mem_write (replicate 128 0) 0 src;
  outbuf ← mem_write outbuf 0 (replicate (Z.to_nat buf_size) 0);
  buf ← mmidm_calc_md5_cred stack buf;
  buf ← mmidm_calc_b64_cred malloc buf 16;
  strcpy outbuf buf.

(** "mvpdm:mvpdm" and the nonce used before the server has sent one. *)
Definition USER : list Z := [109; 118; 112; 100; 109; 58; 109; 118; 112; 100; 109].
Definition DEFAULT_NONCE : list Z :=
  [74; 69; 52; 56; 100; 109; 103; 105; 79; 121; 111; 103; 80; 122; 120; 88; 80; 107; 100; 85; 74; 81; 61; 61].

(** [MMIDM_GetCreddata]: the nonce buffer and the output buffer afterwards. *)
Definition MMIDM_GetCreddata (stack : list Z) (malloc : bool) (s_g_nonce outbuf : list Z) (buf_size : Z)
    : option (list Z * list Z) :=
  outbuf ← mem_write outbuf 0 (replicate (Z.to_nat buf_size) 0);
  buf ← mem_write (replicate 128 0) 0 (USER ++ [0]);
  n ← strlen buf;
  buf ← MMIDM_B64_Md5 stack malloc buf 128 (Z.of_nat n);
  n ← strlen s_g_nonce;
  s_g_nonce ← (if (n =? 0)%nat then strcpy s_g_nonce (DEFAULT_NONCE ++ [0]) else Some s_g_nonce);
  len ← strlen s_g_nonce;
  '(len1, nonce_buf) ← DM_Base64_decode (take len s_g_nonce) (replicate MAX_NONCE_LEN 0) (Z.of_nat MAX_NONCE_LEN);
  if len1 =? -1 then Some (s_g_nonce, outbuf)
  else n ← strlen buf;
       outbuf ← mem_write outbuf 0 (take n buf ++ [58; 0]);
       n ← strlen outbuf;
       nonce ← mem_read nonce_buf 0 len1;
       outbuf ← mem_write outbuf (Z.of_nat n) nonce;
       let len2 := Z.of_nat len + 1 + len1 in
       outbuf ← MMIDM_B64_Md5 stack malloc outbuf buf_size len2;
       Some (s_g_nonce, outbuf).

(** ** C strings *)

(** The string at the start of a buffer. *)
Fixpoint cstr (m : list Z) : list Z :=
  match m with
  | [] => []
  | c :: m => if c =? 0 then [] else c :: cstr m
  end.

Abbreviation nonzero := (Forall (fun c : Z => c <> 0)).

Lemma cstr_nonzero m : nonzero (cstr m).
Proof.
  induction m as [|c m IH]; cbn [cstr]; [constructor|].
  destruct (Z.eqb_spec c 0); [constructor|]. by constructor.
Qed.

Lemma cstr_app s m : nonzero s -> cstr (s ++ m) = s ++ cstr m.
Proof.
  induction 1 as [|c s Hc _ IH]; cbn [cstr app]; [done|].
  by rewrite (proj2 (Z.eqb_neq c 0)), IH by done.
Qed.

Lemma cstr_id s : nonzero s -> cstr s = s.
Proof. intros. rewrite <- (app_nil_r s) at 1. rewrite cstr_app by done. apply app_nil_r. Qed.

Lemma strlen_cstr s m :
  exists rest, s ++ 0 :: m = cstr s ++ 0 :: rest.
Proof.
  induction s as [|c s [rest IH]]; cbn [cstr app]; [by exists m|].
  destruct (Z.eqb_spec c 0) as [->|]; [by eexists|]. exists rest. by rewrite IH.
Qed.

Lemma cstr_length s : (length (cstr s) <= length s)%nat.
Proof. induction s as [|c s IH]; cbn [cstr]; [done|]. destruct (c =? 0); cbn [length]; lia. Qed.

Lemma strcpy_string dst s m :
  nonzero s -> (length s < length dst)%nat ->
  strcpy dst (s ++ 0 :: m) = Some (s ++ 0 :: drop (S (length s)) dst).
Proof.
  intros Hs Hl. unfold strcpy. rewrite strlen_app by done. cbn [mbind option_bind].
  rewrite take_app_length, mem_write_ok by (rewrite ?length_app; cbn [length]; lia).
  change (Z.to_nat 0) with 0%nat. unfold splice. rewrite take_0, length_app, <- app_assoc. cbn [length app].
  by rewrite Nat.add_1_r.
Qed.

(** The alphabet has no NUL. *)
Lemma t_nonzero v i : sym v i <> 0.
Proof.
  pose proof (digit_range v i). unfold sym.
  assert (forallb (fun n => negb (t !!! n =? 0)) (seq 0 64) = true) as H1 by (vm_compute; reflexivity).
  pose proof (proj1 (forallb_forall _ _) H1 (Z.to_nat (digit v i)) ltac:(apply in_seq; lia)) as H2.
  cbn beta in H2. by apply negb_true_iff, Z.eqb_neq in H2.
Qed.

Lemma b64_nonzero o x : nonzero (b64 o x).
Proof.
  assert (forall o, nonzero (brk o)) as Hbrk by (intros; unfold brk; destruct (_ && _); repeat constructor; lia).
  revert o. induction x as [|a|a b|a b c x IH] using triples_ind; intros o; cbn [b64];
    repeat apply Forall_app_2; try apply Hbrk; try apply IH; repeat constructor; auto using t_nonzero; lia.
Qed.

Lemma rfc1321_bytes m : bytes (rfc1321 m).
Proof. unfold rfc1321. repeat apply Forall_app_2; apply st32_bytes. Qed.

Lemma digest_text_length m : length (b64 0 (rfc1321 m)) = 24%nat.
Proof. by rewrite (b64_length 0 _ (replicate 16 0)). Qed.

(** Overwriting the front of a buffer. *)
Lemma front_write m x :
  (length x <= length m)%nat -> mem_write m 0 x = Some (x ++ drop (length x) m).
Proof. intros. rewrite mem_write_ok by lia. by unfold splice. Qed.

(** [MMIDM_B64_Md5] leaves the base64 text of the digest of the string in the
    first [len] bytes; the rest of the [buf_size] bytes is zero. *)
Lemma B64_Md5_spec stack outbuf bs len :
  length stack = 64%nat -> (len <= 127)%nat -> (len <= length outbuf)%nat -> (25 <= bs <= length outbuf)%nat ->
  MMIDM_B64_Md5 stack true outbuf (Z.of_nat bs) (Z.of_nat len) =
    Some (b64 0 (rfc1321 (cstr (take len outbuf))) ++ replicate (bs - 24) 0 ++ drop bs outbuf).
Proof.
  intros Hst Hlen Hlo Hbs. unfold MMIDM_B64_Md5. set (s := take len outbuf).
  assert (length s = len) as Hs by (unfold s; rewrite length_take; lia).
  rewrite mem_read_prefix, !Nat2Z.id by lia. fold s. cbn [mbind option_bind].
  rewrite (front_write _ s) by (rewrite length_replicate; lia). cbn [mbind option_bind].
  rewrite (front_write outbuf) by (rewrite length_replicate; lia). cbn [mbind option_bind].
  rewrite drop_replicate, length_replicate, Hs.
  destruct (128 - len)%nat as [|k] eqn:Hk; [lia|]. cbn [replicate].
  destruct (strlen_cstr s (replicate k 0)) as [rest Erest].
  pose proof (f_equal length Erest) as Hrest. rewrite !length_app in Hrest. cbn [length] in Hrest.
  rewrite length_replicate, Hs in Hrest. pose proof (cstr_length s). rewrite Erest.
  rewrite calc_md5_cred_spec; [|done|lia|apply cstr_nonzero|rewrite length_app; cbn [length]; lia].
  cbn [mbind option_bind]. set (D := rfc1321 (cstr s)).
  assert (length D = 16%nat) as HD by reflexivity.
  set (buf := 0 :: drop 17 (cstr s ++ 0 :: rest)).
  destruct (calc_b64_cred_eq D buf) as (rest' & E & _); [apply rfc1321_bytes|lia|lia| |].
  { rewrite (take_ge D) by lia. unfold D. rewrite digest_text_length, length_app.
    cbn [buf length]. rewrite length_drop, length_app. cbn [length].
    change (length (rfc1321 (cstr s))) with 16%nat. lia. }
  change (Z.of_nat (length D)) with 16 in E. rewrite E, (take_ge D) by lia. cbn [mbind option_bind].
  rewrite strcpy_string; [|apply b64_nonzero|unfold D; rewrite digest_text_length, length_app, length_replicate; lia].
  unfold D. rewrite digest_text_length. do 2 f_equal.
  rewrite drop_app_le by (rewrite length_replicate; lia). rewrite drop_replicate.
  replace (bs - 24)%nat with (S (bs - 25)) by lia. done.
Qed.

Lemma b64_ge o x : (4 * length x <= 3 * length (b64 o x))%nat.
Proof.
  revert o. induction x as [|a|a b|a b c x IH] using triples_ind; intros o; cbn [b64];
    rewrite ?length_app; cbn [length quad1 quad2 quad3]; try lia.
  pose proof (IH (o + 3)). lia.
Qed.

(** The first part of every credential: b64 (md5 "mvpdm:mvpdm"). *)
Definition user_text : list Z := b64 0 (rfc1321 USER).

Lemma user_text_length : length user_text = 24%nat.
Proof. apply digest_text_length. Qed.
Lemma user_text_nonzero : nonzero user_text.
Proof. apply b64_nonzero. Qed.

Lemma user_part stack :
  length stack = 64%nat ->
  MMIDM_B64_Md5 stack true (USER ++ 0 :: replicate 116 0) 128 (Z.of_nat (length USER)) =
    Some (user_text ++ 0 :: replicate 103 0).
Proof.
  intros Hstack. change 128 with (Z.of_nat 128).
  rewrite (B64_Md5_spec stack (USER ++ 0 :: replicate 116 0) 128 (length USER) Hstack)
    by (first [split|idtac]; apply Nat.leb_le; reflexivity).
  rewrite take_app_length, cstr_id by (unfold USER; repeat constructor; lia).
  rewrite drop_ge by (apply Nat.leb_le; reflexivity). by rewrite app_nil_r.
Qed.

(** What is hashed with the nonce [n]: the user part [u], a colon and the
    nonce, zero-padded, cut at [len2]. *)
Definition hashed (u n : list Z) : list Z :=
  take (length (b64 0 n) + 1 + length n) (u ++ 58 :: n ++ replicate 64 0).

Section Credential.
Context (stack u n tail outbuf : list Z) (bs : nat).
Context (Hstack : length stack = 64%nat) (Hn : bytes n) (Hne : n <> []).
Context (Hroom : (length (b64 0 n) <= 63)%nat) (Hbs : (128 <= bs <= length outbuf)%nat).
Context (Hu : length u = 24%nat) (Hunz : nonzero u).
Context (Hpart : MMIDM_B64_Md5 stack true (USER ++ 0 :: replicate 116 0) 128 (Z.of_nat (length USER)) =
  Some (u ++ 0 :: replicate 103 0)).

Lemma nonce_length : (0 < length n <= 47)%nat.
Proof using Hne Hroom.
  clear -Hne Hroom. pose proof (b64_ge 0 n). destruct n; [done|]. cbn [length] in *. lia.
Qed.

Lemma take_zeros (k a : nat) : (k <= a)%nat -> take k (replicate a 0) = replicate k 0.
Proof. intros. by rewrite take_replicate, Nat.min_l. Qed.

Lemma take_hashed :
  take (length (b64 0 n) + 1 + length n) (u ++ 58 :: n ++ replicate (bs - 25 - length n) 0) = hashed u n.
Proof.
  pose proof nonce_length. unfold hashed.
  assert (forall a, u ++ 58 :: n ++ replicate a 0 = (u ++ 58 :: n) ++ replicate a 0) as E
    by (intros; by rewrite <- app_assoc).
  rewrite !E, !take_app, !take_zeros; [done|..]; rewrite length_app; cbn [length]; lia.
Qed.

(** The buffer after the user text, the colon and the nonce are in place. *)
Lemma copy_nonce :
  exists o, mem_write (replicate bs 0 ++ drop bs outbuf) 0 (u ++ [58; 0]) = Some o /\
    strlen o = Some 25%nat /\
    mem_write o 25 n = Some ((u ++ 58 :: n ++ replicate (bs - 25 - length n) 0) ++ drop bs outbuf).
Proof.
  pose proof nonce_length. assert (length (u ++ [58; 0]) = 26%nat) as H26 by (by rewrite length_app, Hu).
  exists ((u ++ [58]) ++ 0 :: replicate (bs - 26) 0 ++ drop bs outbuf). split_and!.
  - rewrite front_write, H26 by (rewrite H26, length_app, length_replicate; lia).
    rewrite drop_app_le, drop_replicate by (rewrite length_replicate; lia). by rewrite <- !app_assoc.
  - rewrite strlen_app; [by rewrite length_app, Hu|]. apply Forall_app_2; [done|]. repeat constructor. lia.
  - assert (length (u ++ [58]) = 25%nat) as H25 by (by rewrite length_app, Hu).
    change 25 with (Z.of_nat 25). rewrite mem_write_nat.
    + unfold splice. rewrite take_app_exact by done. rewrite <- drop_drop, drop_app_exact by done.
      change (0 :: replicate (bs - 26) 0 ++ drop bs outbuf) with (replicate (S (bs - 26)) 0 ++ drop bs outbuf).
      rewrite drop_app_le, drop_replicate by (rewrite length_replicate; lia).
      rewrite <- !app_assoc. cbn [app]. rewrite <- app_assoc. do 6 f_equal. lia.
    + rewrite length_app, H25. cbn [length]. rewrite length_app, length_replicate. lia.
Qed.

Lemma creddata_with :
  MMIDM_GetCreddata stack true (b64 0 n ++ 0 :: tail) outbuf (Z.of_nat bs) =
    Some (b64 0 n ++ 0 :: tail,
          b64 0 (rfc1321 (cstr (hashed u n))) ++ replicate (bs - 24) 0 ++ drop bs outbuf).
Proof.
  pose proof nonce_length as Hnl.
  unfold MMIDM_GetCreddata. rewrite Nat2Z.id, (front_write outbuf) by (rewrite length_replicate; lia).
  cbn [mbind option_bind]. rewrite length_replicate, (front_write (replicate 128 0)) by (apply Nat.leb_le; reflexivity).
  cbn [mbind option_bind].
  change ((USER ++ [0]) ++ drop (length (USER ++ [0])) (replicate 128 0)) with (USER ++ 0 :: replicate 116 0).
  rewrite (strlen_app USER) by (unfold USER; repeat constructor; lia). cbn [mbind option_bind].
  rewrite Hpart. cbn [mbind option_bind].
  rewrite !(strlen_app (b64 0 n)) by apply b64_nonzero. cbn [mbind option_bind].
  assert (0 < length (b64 0 n))%nat by (pose proof (b64_ge 0 n); lia).
  rewrite (proj2 (Nat.eqb_neq (length (b64 0 n)) 0)) by lia. cbn [mbind option_bind].
  rewrite !(strlen_app (b64 0 n)) by apply b64_nonzero. cbn [mbind option_bind].
  rewrite take_app_length.
  destruct (decode_b64 0 n (replicate MAX_NONCE_LEN 0) (Z.of_nat MAX_NONCE_LEN)) as (m & -> & Hm & _ & Hml);
    [done|rewrite length_replicate; unfold MAX_NONCE_LEN; lia|].
  cbn [mbind option_bind]. rewrite (proj2 (Z.eqb_neq _ (-1))) by lia.
  rewrite (strlen_app u) by done. cbn [mbind option_bind]. rewrite take_app_length.
  destruct copy_nonce as (o & -> & Ho & Hc). cbn [mbind option_bind]. rewrite Ho. cbn [mbind option_bind].
  rewrite mem_read_prefix, Nat2Z.id, Hm by (rewrite Hml, length_replicate; unfold MAX_NONCE_LEN; lia).
  cbn [mbind option_bind]. change (Z.of_nat 25) with 25. rewrite Hc. cbn [mbind option_bind].
  replace (Z.of_nat (length (b64 0 n)) + 1 + Z.of_nat (length n)) with (Z.of_nat (length (b64 0 n) + 1 + length n)) by lia.
  set (B := u ++ 58 :: n ++ replicate (bs - 25 - length n) 0).
  assert (length B = bs) as HB.
  { unfold B. rewrite length_app. cbn [length]. rewrite length_app, length_replicate, Hu. lia. }
  rewrite B64_Md5_spec by first [done|lia|rewrite length_app, length_drop; lia].
  cbn [mbind option_bind]. rewrite (drop_app_exact B) by done. rewrite take_app_le by lia.
  unfold B. by rewrite take_hashed.
Qed.

(** From 16 bytes on the cut is behind the nonce. *)
Lemma cstr_hashed : (16 <= length n)%nat -> cstr (hashed u n) = u ++ 58 :: cstr n.
Proof using Hu Hunz Hne Hroom.
  clear Hstack Hn Hbs Hpart. intros H16. pose proof nonce_length.
  assert (24 <= length (b64 0 n))%nat as H24.
  { rewrite (b64_length 0 n (replicate (length n) 0)) by (by rewrite length_replicate).
    assert (forallb (fun k => (24 <=? length (b64 0 (replicate k 0%Z)))%nat) (seq 16 32) = true) as Hall by (vm_compute; reflexivity).
    apply Nat.leb_le. exact (proj1 (forallb_forall _ _) Hall (length n) ltac:(apply in_seq; lia)). }
  unfold hashed. replace (u ++ 58 :: n ++ replicate 64 0) with ((u ++ 58 :: n) ++ replicate 64 0) by (by rewrite <- app_assoc).
  assert (length (u ++ 58%Z :: n) = 25 + length n)%nat as Hl by (rewrite length_app, Hu; done).
  rewrite take_app_ge by lia. rewrite <- app_assoc, cstr_app by done. f_equal.
  cbn [app cstr]. change (58 =? 0) with false. cbn iota. f_equal.
  clear. generalize (length (b64 0 n) + 1 + length n - length (u ++ 58%Z :: n))%nat. intros k.
  induction n as [|c m IH]; [by destruct k|]. cbn [app cstr]. by rewrite IH.
Qed.

(** Up to 9 bytes the cut is before the colon. *)
Lemma hashed_short : (length n <= 9)%nat -> hashed u n = take (4 * ((length n + 2) / 3) + 1 + length n) u.
Proof using Hu.
  clear -Hu. intros H9. unfold hashed.
  assert (length (b64 0 n) = 4 * ((length n + 2) / 3))%nat as ->.
  { rewrite (b64_length 0 n (replicate (length n) 0)) by (by rewrite length_replicate).
    assert (forallb (fun k => (length (b64 0 (replicate k 0%Z)) =? 4 * ((k + 2) / 3))%nat) (seq 0 10) = true) as Hall
      by (vm_compute; reflexivity).
    apply Nat.eqb_eq. exact (proj1 (forallb_forall _ _) Hall (length n) ltac:(apply in_seq; lia)). }
  assert ((length n + 2) / 3 < 4)%nat by (apply Nat.Div0.div_lt_upper_bound; lia).
  apply take_app_le. lia.
Qed.
End Credential.

Lemma creddata_eq stack n tail outbuf bs :
  length stack = 64%nat -> bytes n -> n <> [] -> (length (b64 0 n) <= 63)%nat -> (128 <= bs <= length outbuf)%nat ->
  MMIDM_GetCreddata stack true (b64 0 n ++ 0 :: tail) outbuf (Z.of_nat bs) =
    Some (b64 0 n ++ 0 :: tail,
          b64 0 (rfc1321 (cstr (hashed user_text n))) ++ replicate (bs - 24) 0 ++ drop bs outbuf).
Proof.
  intros. apply creddata_with; auto using user_text_length, user_text_nonzero, user_part.
Qed.

(** C36: the credential is the one of the comment above [MMIDM_GetCreddata], under
    these conditions: the nonce has 16 to 45 bytes (its base64 text, which the
    server sends, has at most 63 characters) and no NUL byte, the allocation of the
    working buffer succeeds (argument [true]), and the caller's output size is at
    least 128 and within its buffer. Then the output is b64 (md5 (b64 (md5
    "mvpdm:mvpdm") ":" nonce)), followed by zeros up to the output size; what lies
    behind it is unchanged, and no buffer is overrun. *)
Theorem creddata_rfc (stack n tail outbuf : list Z) (bs : nat) :
  length stack = 64%nat -> bytes n -> nonzero n -> (16 <= length n)%nat ->
  (length (b64 0 n) <= 63)%nat -> (128 <= bs <= length outbuf)%nat ->
  MMIDM_GetCreddata stack true (b64 0 n ++ 0 :: tail) outbuf (Z.of_nat bs) =
    Some (b64 0 n ++ 0 :: tail,
          b64 0 (rfc1321 (b64 0 (rfc1321 USER) ++ 58 :: n)) ++ replicate (bs - 24) 0 ++ drop bs outbuf).
Proof.
  intros Hst Hn Hnz H16 Ht Hbs. assert (n <> []) by (by intros ->; simpl in H16; lia).
  rewrite creddata_eq by done.
  rewrite cstr_hashed by auto using user_text_length, user_text_nonzero. by rewrite (cstr_id n).
Qed.

Lemma creddata_rfc_witness :
  MMIDM_GetCreddata (replicate 64 1) true (b64 0 (replicate 16 200) ++ 0 :: replicate 39 0) (replicate 128 9) (Z.of_nat 128) =
    Some (b64 0 (replicate 16 200) ++ 0 :: replicate 39 0,
          b64 0 (rfc1321 (b64 0 (rfc1321 USER) ++ 58 :: replicate 16 200)) ++ replicate (128 - 24) 0 ++ drop 128 (replicate 128 9)).
Proof.
  apply creddata_rfc; try reflexivity.
  - apply Forall_replicate. lia.
  - apply Forall_replicate. lia.
  - apply Nat.leb_le. vm_compute. reflexivity.
  - split; apply Nat.leb_le; reflexivity.
Defined.

(** two weaknesses of the credential, exactly: nonce bytes from the first
    NUL byte on do not enter it (the digest routine hashes a C string), and
    for nonces of at most 9 bytes nothing of the nonce enters it, because
    [len2] is computed from the length of the nonce's text instead of the
    length of the user part: the credential is then a constant for each
    length. *)
Theorem creddata_nonce_lost (stack n n' tail tail' outbuf : list Z) (bs : nat) :
  length stack = 64%nat -> bytes n -> bytes n' -> n <> [] ->
  length n = length n' -> (length (b64 0 n) <= 63)%nat -> (128 <= bs <= length outbuf)%nat ->
  (length n <= 9)%nat \/ ((16 <= length n)%nat /\ cstr n = cstr n') ->
  snd <$> MMIDM_GetCreddata stack true (b64 0 n ++ 0 :: tail) outbuf (Z.of_nat bs) =
  snd <$> MMIDM_GetCreddata stack true (b64 0 n' ++ 0 :: tail') outbuf (Z.of_nat bs).
Proof.
  intros Hst Hn Hn' Hne Hl Ht Hbs Hcase.
  assert (n' <> []) by (intros ->; by destruct n).
  assert (length (b64 0 n') <= 63)%nat by (by rewrite <- (b64_length 0 n n')).
  rewrite !creddata_eq by done. cbn [fmap option_fmap option_map snd].
  assert (cstr (hashed user_text n) = cstr (hashed user_text n')) as ->; [|done].
  destruct Hcase as [H9|[H16 Hc]].
  - rewrite !hashed_short by first [lia|apply user_text_length]. by rewrite Hl.
  - rewrite !cstr_hashed by first [assumption|lia|apply user_text_length|apply user_text_nonzero]. by rewrite Hc.
Qed.

Lemma creddata_nonce_lost_witness :
  snd <$> MMIDM_GetCreddata (replicate 64 1) true (b64 0 (replicate 8 200) ++ 0 :: replicate 50 0) (replicate 128 9) (Z.of_nat 128) =
  snd <$> MMIDM_GetCreddata (replicate 64 1) true (b64 0 (replicate 8 17) ++ 0 :: replicate 50 0) (replicate 128 9) (Z.of_nat 128) /\
  snd <$> MMIDM_GetCreddata (replicate 64 1) true (b64 0 ([5; 0] ++ replicate 14 200) ++ 0 :: replicate 39 0) (replicate 128 9) (Z.of_nat 128) =
  snd <$> MMIDM_GetCreddata (replicate 64 1) true (b64 0 ([5; 0] ++ replicate 14 17) ++ 0 :: replicate 39 0) (replicate 128 9) (Z.of_nat 128).
Proof.
  split; apply creddata_nonce_lost; try reflexivity; try discriminate;
    try (by repeat constructor); try (apply Nat.leb_le; vm_compute; reflexivity);
    try (split; apply Nat.leb_le; reflexivity).
Defined.
