(* ===== verification/MsgRing.v ===== *)
(** * Message queues of the camera stack: the ring and the promise

    The camera library has several message queues written after one pattern: an
    array of slots with a read and a write pointer, a counting semaphore for the
    readers and a mutex around the pointers.  This file holds what they share: the
    result of an operation that may block, the window of a circular array and its
    lemmas, the abstract bounded queue, the interface [MsgQueue] with its laws
    [FifoLaws], and the refinement theorem proved from the laws alone.  [IspMsg.v]
    and [CmrMsg.v] model the queues and discharge the laws. *)

From S2P Require Import Prelude.

(** ** Results of operations that may block *)

(** [Blocks]: the caller waits on a semaphore at 0 or on a held mutex.  [Undef]:
    an access outside the slots. *)
Inductive res (A : Type) : Type :=
| Done (a : A)
| Blocks
| Undef.
Arguments Done {A} _.
Arguments Blocks {A}.
Arguments Undef {A}.

#[export] Instance res_ret : MRet res := fun A a => Done a.
#[export] Instance res_bind : MBind res := fun A B f r =>
  match r with Done a => f a | Blocks => Blocks | Undef => Undef end.

Definition of_opt {A} (o : option A) : res A :=
  match o with Some a => Done a | None => Undef end.

(** ** The pointer idiom

    [p++; if (p > head + count - 1) p = head], with pointers as slot numbers. *)
Definition ring_next (count : Z) (p : nat) : nat :=
  if count - 1 <? Z.of_nat (S p) then O else S p.

Lemma ring_next_mod (c p : nat) :
  (p < c)%nat -> ring_next (Z.of_nat c) p = ((p + 1) mod c)%nat.
Proof.
  intros H. unfold ring_next. destruct (Z.ltb_spec (Z.of_nat c - 1) (Z.of_nat (S p))).
  - replace (p + 1)%nat with c by lia. by rewrite Nat.Div0.mod_same.
  - rewrite Nat.mod_small by lia. lia.
Qed.

(** ** Windows of a circular array *)

(** The [n] slots from [r] on, going round. *)
Definition window {A} (l : list A) (r n : nat) : list A := take n (drop r (l ++ l)).

Section window.
Context {A : Type}.
Implicit Types (l : list A) (r n i : nat).
Local Open Scope nat_scope.

Lemma window_length l r n : r < length l -> n <= length l -> length (window l r n) = n.
Proof. intros. unfold window. rewrite length_take, length_drop, length_app. lia. Qed.

Lemma ring_mod r i c : r < c -> i <= c -> (r + i) mod c = if decide (r + i < c) then r + i else r + i - c.
Proof.
  intros. case_decide; [by apply Nat.mod_small|].
  destruct (decide (r + i - c < c)); [|lia].
  replace (r + i) with (r + i - c + 1 * c) at 1 by lia.
  rewrite Nat.Div0.mod_add. by apply Nat.mod_small.
Qed.

Lemma window_lookup l r n i :
  r < length l -> n <= length l -> i < n ->
  window l r n !! i = l !! ((r + i) mod length l).
Proof.
  intros. unfold window. rewrite lookup_take_lt, lookup_drop, ring_mod by lia.
  case_decide; [by rewrite lookup_app_l|]. rewrite lookup_app_r by lia. done.
Qed.

Lemma window_0 l r : window l r 0 = [].
Proof. done. Qed.

(** Writing a slot beyond the window leaves the window. *)
Lemma window_insert_out l r n k x :
  r < length l -> n <= k < length l ->
  window (<[(r + k) mod length l := x]> l) r n = window l r n.
Proof.
  intros Hr Hk. apply list_eq_same_length with n;
    rewrite ?window_length by (rewrite ?length_insert; lia); try done.
  intros i y z Hi. rewrite !window_lookup by (rewrite ?length_insert; lia).
  rewrite length_insert, list_lookup_insert_ne; [congruence|].
  rewrite !ring_mod by lia. repeat case_decide; lia.
Qed.

Lemma window_push l r n x :
  r < length l -> n < length l ->
  window (<[(r + n) mod length l := x]> l) r (S n) = window l r n ++ [x].
Proof.
  intros Hr Hn. rewrite <- (window_insert_out l r n n x) by lia.
  unfold window at 1. erewrite take_S_r; [done|].
  rewrite lookup_drop. pose proof (ring_mod r n (length l) ltac:(lia) ltac:(lia)) as E.
  rewrite E. case_decide.
  - rewrite lookup_app_l by (rewrite length_insert; lia). by rewrite list_lookup_insert_eq by lia.
  - rewrite lookup_app_r, length_insert by (rewrite length_insert; lia).
    by rewrite list_lookup_insert_eq by lia.
Qed.

Lemma window_pop l r n x :
  l !! r = Some x -> S n <= length l ->
  window l r (S n) = x :: window l ((r + 1) mod length l) n.
Proof.
  intros Hx Hn. pose proof (lookup_lt_Some _ _ _ Hx).
  assert ((r + 1) mod length l < length l) by (apply Nat.mod_upper_bound; lia).
  apply list_eq_same_length with (S n); simpl; rewrite ?window_length by lia; try done.
  intros i y z Hi. rewrite window_lookup by lia. destruct i as [|i]; simpl.
  - rewrite Nat.add_0_r, Nat.mod_small by lia. congruence.
  - rewrite window_lookup by lia. rewrite Nat.Div0.add_mod_idemp_l.
    replace (r + 1 + i) with (r + S i) by lia. congruence.
Qed.

(** Rewriting the slot just before the window leaves it: the slot is the last one
    going round. *)
Lemma window_insert_before l r n x :
  r < length l -> n < length l ->
  window (<[r := x]> l) ((r + 1) mod length l) n = window l ((r + 1) mod length l) n.
Proof.
  intros Hr Hn. assert (0 < length l) by lia.
  assert ((r + 1) mod length l < length l) by (apply Nat.mod_upper_bound; lia).
  rewrite <- (window_insert_out l _ n (length l - 1) x) by lia. do 2 f_equal.
  rewrite Nat.Div0.add_mod_idemp_l. replace (r + 1 + (length l - 1)) with (r + 1 * length l) by lia.
  by rewrite Nat.Div0.mod_add, Nat.mod_small.
Qed.

Lemma window_fmap {B} (f : A -> B) l r n : f <$> window l r n = window (f <$> l) r n.
Proof. unfold window. by rewrite fmap_take, fmap_drop, fmap_app. Qed.

End window.

(** The write position of a ring, one step on. *)
Lemma ring_next_add (c r n : nat) :
  (0 < c)%nat -> ring_next (Z.of_nat c) ((r + n) mod c) = ((r + S n) mod c)%nat.
Proof.
  intros. rewrite ring_next_mod by (apply Nat.mod_upper_bound; lia).
  rewrite Nat.Div0.add_mod_idemp_l. f_equal. lia.
Qed.

Lemma ring_read_add (c r n : nat) :
  ((((r + 1) mod c) + n) mod c = (r + S n) mod c)%nat.
Proof. rewrite Nat.Div0.add_mod_idemp_l. f_equal. lia. Qed.

(** ** The queue context

    [struct cmr_msg_cxt] and [struct isp_msg_cxt] have the same fields over their
    own slots.  Pointers into the array are slot numbers; [mutex] is true while the
    mutex is held; a semaphore is its value. *)
Record msg_cxt (S : Type) := MsgCxt {
  mutex : bool;
  msg_sem : nat;
  msg_count : Z;
  msg_number : Z;
  msg_magic : Z;
  msg_head : list S;
  msg_write : nat;
  msg_read : nat
}.
Arguments MsgCxt {S} _ _ _ _ _ _ _ _.
Arguments mutex {S} _.
Arguments msg_sem {S} _.
Arguments msg_count {S} _.
Arguments msg_number {S} _.
Arguments msg_magic {S} _.
Arguments msg_head {S} _.
Arguments msg_write {S} _.
Arguments msg_read {S} _.

Section cxt.
Context {S : Type}.
Implicit Types (q : msg_cxt S) (x y : S).

Definition set_mutex b q : msg_cxt S :=
  MsgCxt b (msg_sem q) (msg_count q) (msg_number q) (msg_magic q) (msg_head q) (msg_write q) (msg_read q).
Definition set_sem n q : msg_cxt S :=
  MsgCxt (mutex q) n (msg_count q) (msg_number q) (msg_magic q) (msg_head q) (msg_write q) (msg_read q).
Definition set_number n q : msg_cxt S :=
  MsgCxt (mutex q) (msg_sem q) (msg_count q) n (msg_magic q) (msg_head q) (msg_write q) (msg_read q).
Definition set_head h q : msg_cxt S :=
  MsgCxt (mutex q) (msg_sem q) (msg_count q) (msg_number q) (msg_magic q) h (msg_write q) (msg_read q).
Definition set_write w q : msg_cxt S :=
  MsgCxt (mutex q) (msg_sem q) (msg_count q) (msg_number q) (msg_magic q) (msg_head q) w (msg_read q).
Definition set_read r q : msg_cxt S :=
  MsgCxt (mutex q) (msg_sem q) (msg_count q) (msg_number q) (msg_magic q) (msg_head q) (msg_write q) r.

(** POSIX primitives. *)
Definition pthread_mutex_lock q : res (msg_cxt S) :=
  if mutex q then Blocks else Done (set_mutex true q).
Definition pthread_mutex_unlock q : msg_cxt S := set_mutex false q.
Definition sem_wait q : res (msg_cxt S) :=
  match msg_sem q with O => Blocks | Datatypes.S n => Done (set_sem n q) end.
Definition sem_post q : msg_cxt S := set_sem (Datatypes.S (msg_sem q)) q.

(** Reads and writes through a slot pointer. *)
Definition slot_get q (p : nat) : res S := of_opt (msg_head q !! p).
Definition slot_put q (p : nat) x : res (msg_cxt S) :=
  if decide (p < length (msg_head q))%nat then Done (set_head (<[p := x]> (msg_head q)) q) else Undef.

(** ** The invariant of the ring *)

Record ring_wf q : Prop := {
  wf_count : 0 < msg_count q < 4294967296;
  wf_length : Z.of_nat (length (msg_head q)) = msg_count q;
  wf_read : (msg_read q < length (msg_head q))%nat;
  wf_number : 0 <= msg_number q < msg_count q;
  wf_write : msg_write q = ((msg_read q + Z.to_nat (msg_number q)) mod length (msg_head q))%nat
}.

(** The messages in the ring, oldest first. *)
Definition ring_list q : list S := window (msg_head q) (msg_read q) (Z.to_nat (msg_number q)).

Lemma ring_list_length q : ring_wf q -> Z.of_nat (length (ring_list q)) = msg_number q.
Proof. intros []. unfold ring_list. rewrite window_length; lia. Qed.

(** The state after a message is written at the write pointer. *)
Definition put_state x q : msg_cxt S :=
  set_number (msg_number q + 1) (set_write (ring_next (msg_count q) (msg_write q))
    (set_head (<[msg_write q := x]> (msg_head q)) q)).

(** The state after the slot at the read pointer is taken and set to [y]. *)
Definition take_state y q : msg_cxt S :=
  set_number (msg_number q - 1) (set_read (ring_next (msg_count q) (msg_read q))
    (set_head (<[msg_read q := y]> (msg_head q)) q)).

Lemma ring_write_bound q : ring_wf q -> (msg_write q < length (msg_head q))%nat.
Proof. intros []. rewrite wf_write0. apply Nat.mod_upper_bound. lia. Qed.

Lemma ring_put x q :
  ring_wf q -> msg_number q + 1 < msg_count q ->
  ring_wf (put_state x q) /\ ring_list (put_state x q) = ring_list q ++ [x] /\
  ring_next (msg_count q) (msg_write q) <> msg_read q.
Proof.
  intros [Hc Hl Hr Hn Hw] Hroom. unfold ring_list, put_state. simpl.
  assert (ring_next (msg_count q) (msg_write q) =
    ((msg_read q + Datatypes.S (Z.to_nat (msg_number q))) mod length (msg_head q))%nat) as Hnext
    by (rewrite <- Hl, Hw; apply ring_next_add; lia).
  assert (Z.to_nat (msg_number q + 1) = Datatypes.S (Z.to_nat (msg_number q))) as E by lia.
  split_and!.
  - constructor; simpl; rewrite ?length_insert; try lia. by rewrite Hnext, E.
  - rewrite E, Hw. apply window_push; lia.
  - rewrite Hnext, ring_mod by lia. case_decide; lia.
Qed.

Lemma ring_take y q :
  ring_wf q -> msg_number q <> 0 ->
  exists x, msg_head q !! msg_read q = Some x /\
    ring_wf (take_state y q) /\ ring_list q = x :: ring_list (take_state y q) /\
    msg_read q <> msg_write q.
Proof.
  intros [Hc Hl Hr Hn Hw] Hne. unfold ring_list, take_state.
  destruct (lookup_lt_is_Some_2 _ _ Hr) as [x Hx]. exists x. simpl.
  assert (ring_next (msg_count q) (msg_read q) = ((msg_read q + 1) mod length (msg_head q))%nat) as Hnext
    by (rewrite <- Hl; apply ring_next_mod; lia).
  assert (Z.to_nat (msg_number q) = Datatypes.S (Z.to_nat (msg_number q - 1))) as E by lia.
  split_and!; [done| | |].
  - constructor; simpl; rewrite ?length_insert; try lia.
    + rewrite Hnext. apply Nat.mod_upper_bound. lia.
    + by rewrite Hnext, ring_read_add, Hw, E.
  - rewrite E, (window_pop _ _ _ _ Hx), Hnext, window_insert_before by lia. done.
  - rewrite Hw, ring_mod by lia. case_decide; lia.
Qed.

End cxt.

(** ** The promise: a bounded first-in first-out queue *)

Module Spec.

Record queue (V : Type) := Queue { cap : nat; items : list V }.
Arguments Queue {V} _ _.
Arguments cap {V} _.
Arguments items {V} _.

(** A post is refused when the queue is full. *)
Definition post {V} (v : V) (q : queue V) : bool * queue V :=
  if decide (length (items q) < cap q)%nat then (true, Queue (cap q) (items q ++ [v])) else (false, q).

(** A get takes the oldest item; it waits when there is none. *)
Definition get {V} (q : queue V) : option V * queue V :=
  match items q with
  | [] => (None, q)
  | v :: l => (Some v, Queue (cap q) l)
  end.

End Spec.

(** ** The interface

    [q_view] is the part of a message its users see; [q_postable] excludes the
    messages whose post waits for the receiver. *)
Class MsgQueue (Q M V : Type) := {
  q_post : M -> Q -> res (Z * Q);
  q_get : M -> Q -> res (Z * M * Q);
  q_view : M -> V;
  q_postable : M -> Prop;
  q_inv : Q -> Prop;
  q_list : Q -> list V;
  q_cap : Q -> nat
}.

(** The laws of a queue that keeps the order and the messages as long as it is not
    overfilled. *)
Class RoomLaws (Q M V : Type) `{MsgQueue Q M V} : Prop := {
  post_room m q :
    q_inv q -> q_postable m -> (length (q_list q) < q_cap q)%nat ->
    exists q', q_post m q = Done (0, q') /\ q_inv q' /\
      q_list q' = q_list q ++ [q_view m] /\ q_cap q' = q_cap q;
  get_empty m q : q_inv q -> q_list q = [] -> q_get m q = Blocks;
  get_head m v l q :
    q_inv q -> q_list q = v :: l ->
    exists m' q', q_get m q = Done (0, m', q') /\ q_view m' = v /\ q_inv q' /\
      q_list q' = l /\ q_cap q' = q_cap q
}.

(** A queue that also refuses what does not fit. *)
Class FifoLaws (Q M V : Type) `{MsgQueue Q M V} : Prop := {
  fifo_room :: RoomLaws Q M V;
  post_full m q :
    q_inv q -> q_postable m -> ~ (length (q_list q) < q_cap q)%nat ->
    exists e, e <> 0 /\ q_post m q = Done (e, q)
}.

(** ** Clients: programs of posts and gets *)

Inductive cmd (M : Type) := CPost (m : M) | CGet.
Arguments CPost {M} _.
Arguments CGet {M}.

Inductive answer (V : Type) := Accepted | Refused | Got (v : V) | Waits | Broken.
Arguments Accepted {V}.
Arguments Refused {V}.
Arguments Got {V} _.
Arguments Waits {V}.
Arguments Broken {V}.

Section client.
Context {Q M V : Type} `{HQ : MsgQueue Q M V}.
Implicit Types (q : Q) (m buf : M).

(** A call of the implementation, and what its caller sees; [buf] is the message
    buffer handed to a get. *)
Definition impl_step (buf : M) (c : cmd M) (q : Q) : answer V * Q :=
  match c with
  | CPost m =>
      match q_post m q with
      | Done (rtn, q') => (if decide (rtn = 0) then Accepted else Refused, q')
      | Blocks => (Waits, q)
      | Undef => (Broken, q)
      end
  | CGet =>
      match q_get buf q with
      | Done (rtn, m, q') => (if decide (rtn = 0) then Got (q_view m) else Refused, q')
      | Blocks => (Waits, q)
      | Undef => (Broken, q)
      end
  end.

Definition spec_step (c : cmd M) (s : Spec.queue V) : answer V * Spec.queue V :=
  match c with
  | CPost m => let '(ok, s') := Spec.post (q_view m) s in (if ok : bool then Accepted else Refused, s')
  | CGet => let '(r, s') := Spec.get s in (match r with Some v => Got v | None => Waits end, s')
  end.

Fixpoint impl_run (buf : M) (cs : list (cmd M)) (q : Q) : list (answer V) * Q :=
  match cs with
  | [] => ([], q)
  | c :: cs => let '(a, q1) := impl_step buf c q in let '(l, q2) := impl_run buf cs q1 in (a :: l, q2)
  end.

Fixpoint spec_run (cs : list (cmd M)) (s : Spec.queue V) : list (answer V) * Spec.queue V :=
  match cs with
  | [] => ([], s)
  | c :: cs => let '(a, s1) := spec_step c s in let '(l, s2) := spec_run cs s1 in (a :: l, s2)
  end.

(** The abstraction of an implementation state. *)
Definition abs (q : Q) : Spec.queue V := Spec.Queue (q_cap q) (q_list q).

Definition cmd_ok (c : cmd M) : Prop := match c with CPost m => q_postable m | CGet => True end.

Lemma impl_step_room `{!RoomLaws Q M V} buf c q :
  q_inv q -> cmd_ok c -> fst (spec_step c (abs q)) <> Refused ->
  exists q', impl_step buf c q = (fst (spec_step c (abs q)), q') /\
    q_inv q' /\ abs q' = snd (spec_step c (abs q)).
Proof.
  intros Hq Hc. destruct c as [m|]; simpl.
  - unfold Spec.post. simpl. case_decide as Hl; simpl; [|done]. intros _.
    destruct (post_room m q Hq Hc Hl) as (q' & -> & ? & El & Ec). exists q'.
    unfold abs. by rewrite El, Ec.
  - intros _. unfold Spec.get. simpl. destruct (q_list q) as [|v l] eqn:E.
    + rewrite (get_empty buf q Hq E). eauto.
    + destruct (get_head buf v l q Hq E) as (m' & q' & -> & Ev & ? & El & Ec). exists q'.
      unfold abs. simpl. by rewrite Ev, El, Ec.
Qed.

Lemma impl_step_sim `{!FifoLaws Q M V} buf c q :
  q_inv q -> cmd_ok c ->
  exists q', impl_step buf c q = (fst (spec_step c (abs q)), q') /\
    q_inv q' /\ abs q' = snd (spec_step c (abs q)).
Proof.
  intros Hq Hc. destruct c as [m|].
  2: { apply impl_step_room; [done|done|]. simpl. unfold Spec.get. by destruct (Spec.items _). }
  simpl. unfold Spec.post. simpl. case_decide as Hl; simpl.
  - destruct (post_room m q Hq Hc Hl) as (q' & -> & ? & El & Ec). exists q'.
    unfold abs. by rewrite El, Ec.
  - destruct (post_full m q Hq Hc Hl) as (e & ? & ->). rewrite decide_False by done. eauto.
Qed.

(** A queue with the laws answers every program as the abstract queue does. *)
Lemma impl_run_sim `{!FifoLaws Q M V} buf cs q :
  q_inv q -> Forall cmd_ok cs ->
  exists q', impl_run buf cs q = (fst (spec_run cs (abs q)), q') /\
    q_inv q' /\ abs q' = snd (spec_run cs (abs q)).
Proof.
  intros Hq Hcs. revert q Hq. induction Hcs as [|c cs Hc _ IH]; intros q Hq; simpl; [eauto|].
  destruct (impl_step_sim buf c q Hq Hc) as (q1 & -> & H1 & E1).
  destruct (IH q1 H1) as (q2 & -> & H2 & E2). rewrite E1 in E2 |- *.
  destruct (spec_step c (abs q)) as [a s1]; simpl in *. destruct (spec_run cs s1); simpl in *. eauto.
Qed.

(** Without the last law it does so on the programs that never overfill it. *)
Lemma impl_run_room `{!RoomLaws Q M V} buf cs q :
  q_inv q -> Forall cmd_ok cs -> Refused ∉ fst (spec_run cs (abs q)) ->
  exists q', impl_run buf cs q = (fst (spec_run cs (abs q)), q') /\
    q_inv q' /\ abs q' = snd (spec_run cs (abs q)).
Proof.
  intros Hq Hcs. revert q Hq. induction Hcs as [|c cs Hc _ IH]; intros q Hq Hno; simpl; [eauto|].
  simpl in Hno. destruct (spec_step c (abs q)) as [a s1] eqn:Es.
  destruct (spec_run cs s1) as [l s2] eqn:Er. simpl in Hno. apply not_elem_of_cons in Hno as [Ha Hl].
  destruct (impl_step_room buf c q Hq Hc) as (q1 & -> & H1 & E1); [rewrite Es; simpl; congruence|].
  rewrite Es in E1 |- *. simpl in *. subst s1.
  destruct (IH q1 H1) as (q2 & -> & H2 & E2); [by rewrite Er|]. rewrite Er in E2 |- *. eauto.
Qed.

End client.
