(* ===== verification/IspMsg.v ===== *)
(** * Message queues of the ISP component (libs/libcamera/isp1.0)

    [Isp]: the queue of [isp_msg.c] that the control, process and monitor threads
    of [isp_ctrl.c] use; it counts its messages and refuses one that does not fit.
    [IspApp]: the queue of [isp_app_msg.c], which has no counter.  [Stub]: the queue
    of [isp_stub_msg.c], the same with a semaphore for synchronous posts.

    A handle or a message pointer is an [option], [None] for NULL.  The functions
    return the status, the message buffer and the context. *)

From S2P Require Import Prelude MsgRing.

(** Slots [malloc((unsigned int)(count * size))] has room for. *)
Definition malloc_slots (count size : Z) : nat := Z.to_nat (u32 (count * size) / size).

Lemma malloc_slots_exact count size :
  0 < size -> 0 <= count -> count * size < 4294967296 -> malloc_slots count size = Z.to_nat count.
Proof.
  intros. unfold malloc_slots. rewrite u32_small by nia. by rewrite Z.div_mul by lia.
Qed.

Module Isp.

Definition ISP_MSG_MAGIC_CODE : Z := 0xEFFEA55A.
Definition ISP_MSG_SUCCESS : Z := 0.
Definition ISP_MSG_PARAM_ERR : Z := 1.
Definition ISP_MSG_INVALID_HANDLE : Z := 2.
Definition ISP_MSG_NO_OTHER_MSG : Z := 3.
Definition ISP_MSG_OVERFLOW : Z := 4.
Definition ISP_MSG_UNDERFLOW : Z := 5.
Definition ISP_MSG_NO_MEM : Z := 6.

Record isp_msg := IspMsg {
  handler_id : Z;
  msg_type : Z;
  sub_msg_type : Z;
  data : Z;
  alloc_flag : Z;
  respond : Z
}.

Definition isp_msg_zero : isp_msg := IspMsg 0 0 0 0 0 0.
Definition sizeof_isp_msg : Z := 24.

Definition isp_msg_cxt : Type := msg_cxt isp_msg.
Definition handle : Type := option isp_msg_cxt.

(** [mem1] and [mem2]: the two allocations succeed; [fresh] is what the memory of
    the slots holds, which is not cleared. *)
Definition isp_msg_queue_create (count : Z) (mem1 mem2 : bool) (fresh : nat -> isp_msg) : Z * handle :=
  if count =? 0 then (- ISP_MSG_PARAM_ERR, None)
  else if negb mem1 then (- ISP_MSG_NO_MEM, None)
  else if negb mem2 then (- ISP_MSG_NO_MEM, None)
  else (ISP_MSG_SUCCESS,
        Some (MsgCxt false 0 count 0 ISP_MSG_MAGIC_CODE
                (fresh <$> seq 0 (malloc_slots count sizeof_isp_msg)) 0 0)).

(** The functions after their NULL checks. *)
Definition isp_get_body (message : isp_msg) (q : isp_msg_cxt) : res (Z * isp_msg * isp_msg_cxt) :=
  if negb (msg_magic q =? ISP_MSG_MAGIC_CODE) then Done (ISP_MSG_INVALID_HANDLE, message, q)
  else
    q ← sem_wait q;
    q ← pthread_mutex_lock q;
    if msg_number q =? 0 then Done (- ISP_MSG_UNDERFLOW, message, pthread_mutex_unlock q)
    else
      '(message, q) ←
        (if negb (msg_read q =? msg_write q)%nat then
           m ← slot_get q (msg_read q);
           q ← slot_put q (msg_read q) isp_msg_zero;
           Done (m, set_read (ring_next (msg_count q) (msg_read q)) q)
         else Done (message, q));
      Done (ISP_MSG_SUCCESS, message, pthread_mutex_unlock (set_number (u32 (msg_number q - 1)) q)).

Definition isp_post_body (message : isp_msg) (q : isp_msg_cxt) : res (Z * isp_msg_cxt) :=
  let ori_node := msg_write q in
  if negb (msg_magic q =? ISP_MSG_MAGIC_CODE) then Done (ISP_MSG_INVALID_HANDLE, q)
  else
    q ← pthread_mutex_lock q;
    if msg_count q <=? u32 (msg_number q + 1) then Done (- ISP_MSG_OVERFLOW, pthread_mutex_unlock q)
    else
      q ← slot_put q (msg_write q) message;
      let q := set_write (ring_next (msg_count q) (msg_write q)) q in
      let q := if (msg_write q =? msg_read q)%nat then set_write ori_node q else q in
      let q := set_number (u32 (msg_number q + 1)) q in
      Done (ISP_MSG_SUCCESS, sem_post (pthread_mutex_unlock q)).

(** [sem_trywait] fails instead of waiting; the branch without a message returns
    with the mutex held. *)
Definition isp_peak_body (message : isp_msg) (q : isp_msg_cxt) : res (Z * isp_msg * isp_msg_cxt) :=
  if negb (msg_magic q =? ISP_MSG_MAGIC_CODE) then Done (ISP_MSG_INVALID_HANDLE, message, q)
  else
    match sem_wait q with
    | Done q =>
        q ← pthread_mutex_lock q;
        if negb (msg_read q =? msg_write q)%nat then
          m ← slot_get q (msg_read q);
          let q := set_read (ring_next (msg_count q) (msg_read q)) q in
          let q := set_number (u32 (msg_number q - 1)) q in
          Done (ISP_MSG_SUCCESS, m, pthread_mutex_unlock q)
        else Done (- ISP_MSG_NO_OTHER_MSG, message, q)
    | _ => Done (- ISP_MSG_NO_OTHER_MSG, message, q)
    end.

Definition isp_msg_get (h : handle) (message : option isp_msg) : res (Z * option isp_msg * handle) :=
  match h, message with
  | Some q, Some m => '(rtn, m, q) ← isp_get_body m q; Done (rtn, Some m, Some q)
  | _, _ => Done (- ISP_MSG_PARAM_ERR, message, h)
  end.

Definition isp_msg_post (h : handle) (message : option isp_msg) : res (Z * handle) :=
  match h, message with
  | Some q, Some m => '(rtn, q) ← isp_post_body m q; Done (rtn, Some q)
  | _, _ => Done (- ISP_MSG_PARAM_ERR, h)
  end.

Definition isp_msg_peak (h : handle) (message : option isp_msg) : res (Z * option isp_msg * handle) :=
  match h, message with
  | Some q, Some m => '(rtn, m, q) ← isp_peak_body m q; Done (rtn, Some m, Some q)
  | _, _ => Done (- ISP_MSG_PARAM_ERR, message, h)
  end.

(** The context is freed. *)
Definition isp_msg_queue_destroy (h : handle) : Z * handle :=
  match h with
  | None => (- ISP_MSG_PARAM_ERR, None)
  | Some q =>
      if negb (msg_magic q =? ISP_MSG_MAGIC_CODE) then (ISP_MSG_INVALID_HANDLE, h)
      else (ISP_MSG_SUCCESS, None)
  end.

(** ** The queue keeps the promise *)

(** Between calls: a well-formed ring, the mutex free, one semaphore unit per
    message. *)
Record isp_inv (q : isp_msg_cxt) : Prop := {
  inv_wf : ring_wf q;
  inv_magic : msg_magic q = ISP_MSG_MAGIC_CODE;
  inv_mutex : mutex q = false;
  inv_sem : Z.of_nat (msg_sem q) = msg_number q
}.

#[export] Instance isp_queue : MsgQueue isp_msg_cxt isp_msg isp_msg := {
  q_post := isp_post_body;
  q_get := isp_get_body;
  q_view := id;
  q_postable := fun _ => True;
  q_inv := isp_inv;
  q_list := ring_list;
  q_cap := fun q => Z.to_nat (msg_count q - 1)
}.

Lemma post_body_room m q :
  isp_inv q -> msg_number q + 1 < msg_count q ->
  isp_post_body m q = Done (ISP_MSG_SUCCESS, sem_post (put_state m q)) /\ isp_inv (sem_post (put_state m q)).
Proof.
  intros [Hwf Hm Hmu Hs] Hroom. pose proof (ring_put m q Hwf Hroom) as (Hput & _ & Hne).
  pose proof (ring_write_bound q Hwf). destruct Hwf as [? ? ? ? ?].
  split; [|destruct Hput; constructor; simpl in *; try constructor; auto; lia].
  unfold isp_post_body. rewrite Hm, Z.eqb_refl. simpl. unfold pthread_mutex_lock. rewrite Hmu. simpl.
  rewrite u32_small, (proj2 (Z.leb_gt _ _)) by lia.
  unfold slot_put. simpl. rewrite decide_True by done. simpl.
  rewrite (proj2 (Nat.eqb_neq _ _)) by done. unfold put_state, sem_post, pthread_mutex_unlock. simpl.
  rewrite u32_small, <- Hmu by lia. by destruct q.
Qed.

Lemma post_body_full m q :
  isp_inv q -> ~ msg_number q + 1 < msg_count q -> isp_post_body m q = Done (- ISP_MSG_OVERFLOW, q).
Proof.
  intros [[] Hm Hmu Hs] Hroom. unfold isp_post_body. rewrite Hm, Z.eqb_refl. simpl.
  unfold pthread_mutex_lock. rewrite Hmu. simpl.
  destruct (decide (msg_number q + 1 = 4294967296)) as [E|]; [exfalso; lia|].
  rewrite u32_small, (proj2 (Z.leb_le _ _)) by lia. unfold pthread_mutex_unlock, set_mutex.
  simpl. rewrite <- Hmu. by destruct q.
Qed.

Lemma get_body_empty m q : isp_inv q -> msg_number q = 0 -> isp_get_body m q = Blocks.
Proof.
  intros [[] Hm Hmu Hs] Hn. unfold isp_get_body. rewrite Hm, Z.eqb_refl. simpl.
  unfold sem_wait. by replace (msg_sem q) with O by lia.
Qed.

(** The context after the oldest message is taken. *)
Definition taken (q : isp_msg_cxt) : isp_msg_cxt :=
  set_sem (msg_sem q - 1) (take_state isp_msg_zero q).

Lemma isp_get_body_head m q :
  isp_inv q -> msg_number q <> 0 ->
  exists x, isp_get_body m q = Done (ISP_MSG_SUCCESS, x, taken q) /\ isp_inv (taken q) /\
    ring_list q = x :: ring_list (taken q).
Proof.
  intros [Hwf Hm Hmu Hs] Hn. destruct (ring_take isp_msg_zero q Hwf Hn) as (x & Hx & Ht & Hl & Hne).
  exists x. pose proof (lookup_lt_Some _ _ _ Hx) as Hlt. destruct Hwf as [? ? ? ? ?].
  split_and!; [|destruct Ht; constructor; simpl in *; try constructor; auto; lia|done].
  unfold isp_get_body. rewrite Hm, Z.eqb_refl. simpl. unfold sem_wait.
  destruct (msg_sem q) as [|n] eqn:Es; [lia|]. simpl. unfold pthread_mutex_lock. simpl. rewrite Hmu. simpl.
  rewrite (proj2 (Z.eqb_neq _ _)) by done. rewrite (proj2 (Nat.eqb_neq _ _)) by done.
  unfold slot_get, slot_put. simpl. rewrite Hx. simpl. rewrite decide_True by done. simpl.
  unfold taken, take_state, pthread_mutex_unlock. simpl. rewrite u32_small, Es, <- Hmu by lia.
  simpl. by rewrite Nat.sub_0_r.
Qed.

Lemma isp_room_laws : RoomLaws isp_msg_cxt isp_msg isp_msg.
Proof.
  constructor; simpl.
  - intros m q Hq _ Hl. pose proof (ring_list_length q (inv_wf q Hq)).
    destruct (post_body_room m q Hq ltac:(lia)) as [-> Hi].
    eexists; split_and!; [done|done| |done].
    apply (ring_put m q (inv_wf q Hq)). lia.
  - intros m q Hq Hl. apply get_body_empty; [done|].
    pose proof (ring_list_length q (inv_wf q Hq)) as H. rewrite Hl in H. simpl in H. lia.
  - intros m v l q Hq Hl. pose proof (ring_list_length q (inv_wf q Hq)) as H. rewrite Hl in H.
    simpl in H. destruct (isp_get_body_head m q Hq ltac:(lia)) as (x & Hg & Hi & Hc).
    exists x, (taken q). rewrite Hl in Hc. simplify_eq. done.
Qed.

#[export] Instance isp_laws : FifoLaws isp_msg_cxt isp_msg isp_msg.
Proof.
  constructor; [apply isp_room_laws|]. simpl. intros m q Hq _ Hl.
  pose proof (ring_list_length q (inv_wf q Hq)).
  rewrite post_body_full by (auto; lia). by exists (- ISP_MSG_OVERFLOW).
Qed.

(** A new queue is empty and satisfies the invariant. *)
Lemma create_inv count fresh :
  0 < count -> count * sizeof_isp_msg < 4294967296 ->
  exists q, isp_msg_queue_create count true true fresh = (ISP_MSG_SUCCESS, Some q) /\
    isp_inv q /\ abs q = Spec.Queue (Z.to_nat (count - 1)) [].
Proof.
  intros Hc Hs. unfold isp_msg_queue_create. rewrite (proj2 (Z.eqb_neq _ _)) by lia. simpl.
  unfold sizeof_isp_msg in *.
  eexists; split_and!; [done| |done].
  constructor; simpl; try done. constructor; simpl;
    rewrite ?length_fmap, ?length_seq, ?malloc_slots_exact by lia; try lia.
  symmetry. apply Nat.mod_small. lia.
Qed.

(** [isp_msg_peak] is the get that does not wait, and it releases the mutex on
    every path that the invariant allows. *)
Lemma peak_body_spec m q :
  isp_inv q ->
  match ring_list q with
  | [] => isp_peak_body m q = Done (- ISP_MSG_NO_OTHER_MSG, m, q)
  | x :: l => exists q', isp_peak_body m q = Done (ISP_MSG_SUCCESS, x, q') /\ isp_inv q' /\ ring_list q' = l
  end.
Proof.
  intros [Hwf Hm Hmu Hs]. pose proof (ring_list_length q Hwf) as Hlen.
  unfold isp_peak_body. rewrite Hm, Z.eqb_refl. simpl. unfold sem_wait.
  destruct (msg_sem q) as [|n] eqn:Es.
  { destruct (ring_list q); [done|simpl in Hlen; lia]. }
  assert (msg_number q <> 0) as Hn by lia.
  destruct (lookup_lt_is_Some_2 _ _ (wf_read q Hwf)) as [y Hy].
  destruct (ring_take y q Hwf Hn) as (x & Hx & Ht & -> & Hne). simplify_eq.
  unfold pthread_mutex_lock. simpl. rewrite Hmu. simpl.
  rewrite (proj2 (Nat.eqb_neq _ _)) by done. unfold slot_get. simpl. rewrite Hy. simpl.
  pose proof (wf_count q Hwf). pose proof (wf_number q Hwf).
  rewrite u32_small by lia. eexists; split_and!; [done| |].
  - unfold take_state in Ht. rewrite list_insert_id in Ht by done.
    constructor; simpl; [by destruct Ht; constructor|done|done|lia].
  - unfold ring_list, take_state. simpl. by rewrite list_insert_id by done.
Qed.

(** The queue of [isp_msg.c] implements the bounded queue: after
    [isp_msg_queue_create], every sequence of posts and gets is answered as the
    abstract queue of capacity [count - 1] answers it: messages come out in order and
    unchanged, a post is refused exactly when the queue is full, a get waits exactly
    when it is empty, and no call blocks otherwise or touches memory outside the
    slots. *)
Theorem isp_queue_refines count fresh buf cs :
  0 < count -> count * sizeof_isp_msg < 4294967296 ->
  exists q, isp_msg_queue_create count true true fresh = (ISP_MSG_SUCCESS, Some q) /\
    fst (impl_run buf cs q) = fst (spec_run cs (Spec.Queue (Z.to_nat (count - 1)) [])).
Proof.
  intros Hc Hs. destruct (create_inv count fresh Hc Hs) as (q & Hcr & Hi & Ha). exists q.
  split; [done|]. destruct (impl_run_sim (HQ := isp_queue) buf cs q Hi) as (q' & -> & _).
  { by apply Forall_true; intros []. }
  by rewrite Ha.
Qed.

Definition msg_no (n : Z) : isp_msg := IspMsg n 0 0 0 0 0.

Lemma isp_queue_refines_witness :
  exists q, isp_msg_queue_create 3 true true (fun _ => isp_msg_zero) = (ISP_MSG_SUCCESS, Some q) /\
    fst (impl_run isp_msg_zero
           [CPost (msg_no 1); CPost (msg_no 2); CPost (msg_no 3); CGet; CPost (msg_no 4); CGet; CGet; CGet] q)
    = [Accepted; Accepted; Refused; Got (msg_no 1); Accepted; Got (msg_no 2); Got (msg_no 4); Waits].
Proof.
  apply (isp_queue_refines 3 (fun _ => isp_msg_zero) isp_msg_zero
    [CPost (msg_no 1); CPost (msg_no 2); CPost (msg_no 3); CGet; CPost (msg_no 4); CGet; CGet; CGet]);
    reflexivity.
Defined.

End Isp.

(** ** Queues without a counter

    [struct isp_app_msg_cxt], and [struct stub_msg_cxt] up to its [sync_sem]. *)
Record plain_cxt (S : Type) := Plain {
  p_mutex : bool;
  p_sem : nat;
  p_count : Z;
  p_magic : Z;
  p_head : list S;
  p_write : nat;
  p_read : nat
}.
Arguments Plain {S} _ _ _ _ _ _ _.
Arguments p_mutex {S} _.
Arguments p_sem {S} _.
Arguments p_count {S} _.
Arguments p_magic {S} _.
Arguments p_head {S} _.
Arguments p_write {S} _.
Arguments p_read {S} _.

(** The number of messages, from the pointers, and the ring of [MsgRing.v]. *)
Definition p_number {S} (q : plain_cxt S) : nat :=
  ((p_write q + length (p_head q) - p_read q) mod length (p_head q))%nat.
Definition as_ring {S} (q : plain_cxt S) : msg_cxt S :=
  MsgCxt (p_mutex q) (p_sem q) (p_count q) (Z.of_nat (p_number q)) (p_magic q) (p_head q)
    (p_write q) (p_read q).

Lemma ring_distance (r n c : nat) :
  (r < c)%nat -> (n < c)%nat -> (((r + n) mod c + c - r) mod c)%nat = n.
Proof.
  intros. rewrite ring_mod by lia. case_decide.
  - replace (r + n + c - r)%nat with (n + 1 * c)%nat by lia.
    rewrite Nat.Div0.mod_add. by apply Nat.mod_small.
  - replace (r + n - c + c - r)%nat with n by lia. by apply Nat.mod_small.
Qed.

Module IspApp.

Definition ISP_APP_MSG_MAGIC_CODE : Z := 0xEFFEA55A.
Definition ISP_APP_MSG_SUCCESS : Z := 0.
Definition ISP_APP_MSG_PARAM_ERR : Z := 1.
Definition ISP_APP_MSG_INVALID_HANDLE : Z := 2.
Definition ISP_APP_MSG_NO_OTHER_MSG : Z := 3.
Definition ISP_APP_MSG_NO_MEM : Z := 4.

Record isp_app_msg := IspAppMsg {
  handler_id : Z;
  msg_type : Z;
  sub_msg_type : Z;
  data : Z;
  data_len : Z;
  alloc_flag : Z;
  respond : Z
}.

Definition sizeof_isp_app_msg : Z := 28.

Definition isp_app_msg_cxt : Type := plain_cxt isp_app_msg.
Definition app_handle : Type := option isp_app_msg_cxt.

Definition isp_app_msg_queue_create (count : Z) (mem1 mem2 : bool) (fresh : nat -> isp_app_msg) :
    Z * app_handle :=
  if count =? 0 then (- ISP_APP_MSG_PARAM_ERR, None)
  else if negb mem1 then (- ISP_APP_MSG_NO_MEM, None)
  else if negb mem2 then (- ISP_APP_MSG_NO_MEM, None)
  else (ISP_APP_MSG_SUCCESS,
        Some (Plain false 0 count ISP_APP_MSG_MAGIC_CODE
                (fresh <$> seq 0 (malloc_slots count sizeof_isp_app_msg)) 0 0)).

(** The read at the read pointer and the advance, under the mutex. *)
Definition app_read (q : isp_app_msg_cxt) : res (isp_app_msg * isp_app_msg_cxt) :=
  m ← of_opt (p_head q !! p_read q);
  Done (m, Plain (p_mutex q) (p_sem q) (p_count q) (p_magic q) (p_head q) (p_write q)
             (ring_next (p_count q) (p_read q))).

(** [sem_wait]; 0 blocks. *)
Definition app_sem_wait (q : isp_app_msg_cxt) : res isp_app_msg_cxt :=
  match p_sem q with
  | O => Blocks
  | S n => Done (Plain (p_mutex q) n (p_count q) (p_magic q) (p_head q) (p_write q) (p_read q))
  end.

Definition app_set_mutex (b : bool) (q : isp_app_msg_cxt) : isp_app_msg_cxt :=
  Plain b (p_sem q) (p_count q) (p_magic q) (p_head q) (p_write q) (p_read q).

Definition app_lock (q : isp_app_msg_cxt) : res isp_app_msg_cxt :=
  if p_mutex q then Blocks else Done (app_set_mutex true q).

(** Nothing is copied to [message] when the pointers are equal, and the status is
    success all the same. *)
Definition app_get_body (message : isp_app_msg) (q : isp_app_msg_cxt) :
    res (Z * isp_app_msg * isp_app_msg_cxt) :=
  if negb (p_magic q =? ISP_APP_MSG_MAGIC_CODE) then Done (ISP_APP_MSG_INVALID_HANDLE, message, q)
  else
    q ← app_sem_wait q;
    q ← app_lock q;
    '(message, q) ←
      (if negb (p_read q =? p_write q)%nat then app_read q else Done (message, q));
    Done (ISP_APP_MSG_SUCCESS, message, app_set_mutex false q).

Definition app_post_body (message : isp_app_msg) (q : isp_app_msg_cxt) : res (Z * isp_app_msg_cxt) :=
  let ori_node := p_write q in
  if negb (p_magic q =? ISP_APP_MSG_MAGIC_CODE) then Done (ISP_APP_MSG_INVALID_HANDLE, q)
  else
    q ← app_lock q;
    if decide (p_write q < length (p_head q))%nat then
      let head := <[p_write q := message]> (p_head q) in
      let w := ring_next (p_count q) (p_write q) in
      let w := if (w =? p_read q)%nat then ori_node else w in
      Done (ISP_APP_MSG_SUCCESS, Plain false (S (p_sem q)) (p_count q) (p_magic q) head w (p_read q))
    else Undef.

Definition app_peak_body (message : isp_app_msg) (q : isp_app_msg_cxt) :
    res (Z * isp_app_msg * isp_app_msg_cxt) :=
  if negb (p_magic q =? ISP_APP_MSG_MAGIC_CODE) then Done (ISP_APP_MSG_INVALID_HANDLE, message, q)
  else
    match app_sem_wait q with
    | Done q =>
        q ← app_lock q;
        if negb (p_read q =? p_write q)%nat then
          '(m, q) ← app_read q; Done (ISP_APP_MSG_SUCCESS, m, app_set_mutex false q)
        else Done (- ISP_APP_MSG_NO_OTHER_MSG, message, q)
    | _ => Done (- ISP_APP_MSG_NO_OTHER_MSG, message, q)
    end.

Definition isp_app_msg_get (h : app_handle) (message : option isp_app_msg) :
    res (Z * option isp_app_msg * app_handle) :=
  match h, message with
  | Some q, Some m => '(rtn, m, q) ← app_get_body m q; Done (rtn, Some m, Some q)
  | _, _ => Done (- ISP_APP_MSG_PARAM_ERR, message, h)
  end.

Definition isp_app_msg_post (h : app_handle) (message : option isp_app_msg) : res (Z * app_handle) :=
  match h, message with
  | Some q, Some m => '(rtn, q) ← app_post_body m q; Done (rtn, Some q)
  | _, _ => Done (- ISP_APP_MSG_PARAM_ERR, h)
  end.

Definition isp_app_msg_peak (h : app_handle) (message : option isp_app_msg) :
    res (Z * option isp_app_msg * app_handle) :=
  match h, message with
  | Some q, Some m => '(rtn, m, q) ← app_peak_body m q; Done (rtn, Some m, Some q)
  | _, _ => Done (- ISP_APP_MSG_PARAM_ERR, message, h)
  end.

Definition isp_app_msg_queue_destroy (h : app_handle) : Z * app_handle :=
  match h with
  | None => (- ISP_APP_MSG_PARAM_ERR, None)
  | Some q =>
      if negb (p_magic q =? ISP_APP_MSG_MAGIC_CODE) then (ISP_APP_MSG_INVALID_HANDLE, h)
      else (ISP_APP_MSG_SUCCESS, None)
  end.

(** ** Invariant

    [extra] semaphore units have no message behind them. *)
Record app_inv (extra : nat) (q : isp_app_msg_cxt) : Prop := {
  app_wf : ring_wf (as_ring q);
  app_magic : p_magic q = ISP_APP_MSG_MAGIC_CODE;
  app_mutex : p_mutex q = false;
  app_sem : p_sem q = (p_number q + extra)%nat
}.

Definition app_list (q : isp_app_msg_cxt) : list isp_app_msg := ring_list (as_ring q).

Lemma app_list_length extra q : app_inv extra q -> length (app_list q) = p_number q.
Proof. intros [Hwf ? ? ?]. pose proof (ring_list_length _ Hwf). simpl in *. unfold app_list. lia. Qed.

(** The context after a message is written. *)
Definition app_put (m : isp_app_msg) (q : isp_app_msg_cxt) : isp_app_msg_cxt :=
  Plain false (S (p_sem q)) (p_count q) (p_magic q) (<[p_write q := m]> (p_head q))
    (ring_next (p_count q) (p_write q)) (p_read q).

(** A context is determined as a ring by its number. *)
Lemma as_ring_number (q' : isp_app_msg_cxt) (n : nat) :
  (p_read q' < length (p_head q'))%nat -> (n < length (p_head q'))%nat ->
  p_write q' = ((p_read q' + n) mod length (p_head q'))%nat -> p_number q' = n.
Proof. intros ? ? E. unfold p_number. rewrite E. by apply ring_distance. Qed.

Lemma app_put_ok extra m q :
  app_inv extra q -> Z.of_nat (p_number q) + 1 < p_count q ->
  app_post_body m q = Done (ISP_APP_MSG_SUCCESS, app_put m q) /\ app_inv extra (app_put m q) /\
  app_list (app_put m q) = app_list q ++ [m].
Proof.
  intros [Hwf Hm Hmu Hs] Hroom. pose proof (ring_put m (as_ring q) Hwf Hroom) as (Hput & Hl & Hne).
  pose proof (ring_write_bound _ Hwf) as Hb. simpl in *.
  assert (p_number (app_put m q) = S (p_number q)) as En.
  { destruct Hput as [H1 H2 H3 H4 H5]. simpl in *. rewrite ?length_insert in *.
    apply as_ring_number; simpl; rewrite ?length_insert; try lia.
    rewrite H5. do 2 f_equal. lia. }
  assert (ring_wf (as_ring (app_put m q)) /\ app_list (app_put m q) = app_list q ++ [m]) as [Hwf' ?].
  { unfold app_list, ring_list, as_ring in *. simpl in *. rewrite En.
    replace (Z.of_nat (S (p_number q))) with (Z.of_nat (p_number q) + 1) by lia.
    split; [|done]. by destruct Hput; constructor. }
  split_and!; [|constructor; [done|done|done|simpl; lia]|done].
  unfold app_post_body. rewrite Hm, Z.eqb_refl. simpl. unfold app_lock. rewrite Hmu. simpl.
  rewrite decide_True by done. rewrite (proj2 (Nat.eqb_neq _ _)) by done. done.
Qed.

(** The context after the oldest message is taken. *)
Definition app_taken (q : isp_app_msg_cxt) : isp_app_msg_cxt :=
  Plain false (p_sem q - 1) (p_count q) (p_magic q) (p_head q) (p_write q) (ring_next (p_count q) (p_read q)).

Lemma app_taken_ok extra m q :
  app_inv extra q -> p_number q <> O ->
  exists x, app_get_body m q = Done (ISP_APP_MSG_SUCCESS, x, app_taken q) /\
    app_inv extra (app_taken q) /\ app_list q = x :: app_list (app_taken q).
Proof.
  intros [Hwf Hm Hmu Hs] Hn. destruct (lookup_lt_is_Some_2 _ _ (wf_read _ Hwf)) as [y Hy].
  destruct (ring_take y (as_ring q) Hwf ltac:(simpl; lia)) as (x & Hx & Ht & Hl & Hne).
  simpl in *. assert (x = y) as -> by congruence. exists y.
  unfold take_state in Ht, Hl. simpl in *. rewrite list_insert_id in Ht, Hl by done.
  assert (p_number (app_taken q) = (p_number q - 1)%nat) as En.
  { destruct Ht as [H1 H2 H3 H4 H5]. simpl in *. apply as_ring_number; simpl; try lia.
    rewrite H5. do 2 f_equal. lia. }
  split_and!.
  - unfold app_get_body. rewrite Hm, Z.eqb_refl. simpl. unfold app_sem_wait.
    destruct (p_sem q) as [|n] eqn:Es; [lia|]. simpl. unfold app_lock. simpl. rewrite Hmu. simpl.
    rewrite (proj2 (Nat.eqb_neq _ _)) by done. unfold app_read. simpl. rewrite Hy. simpl.
    unfold app_taken. rewrite Es. simpl. by rewrite Nat.sub_0_r.
  - constructor; [|done|done|simpl; lia].
    destruct Ht; constructor; simpl in *; rewrite ?En; try done; try lia.
    replace (Z.of_nat (p_number q - 1)) with (Z.of_nat (p_number q) - 1) by lia. done.
  - unfold app_list, ring_list, as_ring in *. simpl in *. rewrite Hl, En. simpl. f_equal. f_equal. lia.
Qed.

Lemma app_get_blocks m q : app_inv 0 q -> p_number q = O -> app_get_body m q = Blocks.
Proof.
  intros [? Hm ? Hs] Hn. unfold app_get_body. rewrite Hm, Z.eqb_refl. simpl. unfold app_sem_wait.
  by replace (p_sem q) with O by lia.
Qed.

#[export] Instance app_queue : MsgQueue isp_app_msg_cxt isp_app_msg isp_app_msg := {
  q_post := app_post_body;
  q_get := app_get_body;
  q_view := id;
  q_postable := fun _ => True;
  q_inv := app_inv 0;
  q_list := app_list;
  q_cap := fun q => Z.to_nat (p_count q - 1)
}.

#[export] Instance app_laws : RoomLaws isp_app_msg_cxt isp_app_msg isp_app_msg.
Proof.
  constructor; simpl.
  - intros m q Hq _ Hl. rewrite (app_list_length 0) in Hl by done.
    destruct (app_put_ok 0 m q Hq) as (-> & ? & ?); [lia|]. eauto.
  - intros m q Hq Hl. apply app_get_blocks; [done|]. by rewrite <- (app_list_length 0), Hl.
  - intros m v l q Hq Hl. destruct (app_taken_ok 0 m q Hq) as (x & Hg & Hi & Hc).
    { by rewrite <- (app_list_length 0), Hl. }
    exists x, (app_taken q). rewrite Hl in Hc. simplify_eq. done.
Qed.

(** A post to a full queue: the slot under the write pointer is overwritten, the
    pointer stays, and the semaphore is raised. *)
Lemma app_post_overfull extra m q :
  app_inv extra q -> Z.of_nat (p_number q) + 1 = p_count q ->
  exists q', app_post_body m q = Done (ISP_APP_MSG_SUCCESS, q') /\ app_inv (S extra) q' /\
    app_list q' = app_list q /\ p_number q' = p_number q.
Proof.
  intros [Hwf Hm Hmu Hs] Hfull. pose proof (ring_write_bound _ Hwf) as Hb.
  destruct Hwf as [H1 H2 H3 H4 H5]. simpl in *. rewrite Nat2Z.id in H5.
  assert (ring_next (p_count q) (p_write q) = p_read q) as Hnext.
  { rewrite <- H2, H5, ring_next_add by lia.
    replace (p_read q + S (p_number q))%nat with (p_read q + 1 * length (p_head q))%nat by lia.
    by rewrite Nat.Div0.mod_add, Nat.mod_small. }
  exists (Plain false (S (p_sem q)) (p_count q) (p_magic q) (<[p_write q := m]> (p_head q))
            (p_write q) (p_read q)).
  set (q' := Plain _ _ _ _ _ _ _).
  assert (p_number q' = p_number q) as En by (unfold p_number; simpl; by rewrite length_insert).
  split_and!; [| | |done].
  - unfold app_post_body. rewrite Hm, Z.eqb_refl. simpl. unfold app_lock. rewrite Hmu. simpl.
    rewrite decide_True by done. by rewrite Hnext, Nat.eqb_refl.
  - constructor; [|done|done|simpl; lia].
    constructor; simpl; rewrite ?length_insert, ?En, ?Nat2Z.id; done.
  - unfold app_list, ring_list, as_ring. simpl. rewrite En, !Nat2Z.id, H5.
    apply window_insert_out; lia.
Qed.

(** A get with a semaphore unit and no message: success, the buffer untouched. *)
Lemma app_get_stale extra m q :
  app_inv (S extra) q -> p_number q = O ->
  exists q', app_get_body m q = Done (ISP_APP_MSG_SUCCESS, m, q') /\ app_inv extra q'.
Proof.
  intros [Hwf Hm Hmu Hs] Hn. exists (app_set_mutex false (Plain false extra (p_count q) (p_magic q)
    (p_head q) (p_write q) (p_read q))). split.
  - unfold app_get_body. rewrite Hm, Z.eqb_refl. simpl. unfold app_sem_wait.
    rewrite Hs, Hn. simpl. unfold app_lock. simpl. rewrite Hmu. simpl.
    destruct Hwf as [? ? ? ? Hw]. simpl in *. rewrite Hn in Hw. simpl in Hw.
    rewrite Nat.add_0_r, Nat.mod_small in Hw by lia. by rewrite Hw, Nat.eqb_refl, Hm.
  - constructor; [by destruct Hwf; constructor|done|done|].
    change (extra = (p_number q + extra)%nat). lia.
Qed.

(** Reading everything there is. *)
Lemma app_drain extra buf q :
  app_inv extra q ->
  exists q', impl_run buf (replicate (p_number q) CGet) q = (Got <$> app_list q, q') /\
    app_inv extra q' /\ p_number q' = O.
Proof.
  remember (p_number q) as n eqn:En. revert q En. induction n as [|n IH]; intros q En Hq.
  - assert (app_list q = []) as -> by (apply nil_length_inv; by rewrite (app_list_length extra)).
    by exists q.
  - destruct (app_taken_ok extra buf q Hq) as (x & Hg & Hi & Hl); [lia|].
    assert (n = p_number (app_taken q)) as En'.
    { rewrite <- (app_list_length extra (app_taken q)) by done.
      pose proof (app_list_length extra q Hq) as E. rewrite Hl in E. simpl in E. lia. }
    destruct (IH (app_taken q) En' Hi) as (q' & Hr & ? & ?).
    exists q'. split; [|done]. cbn [replicate impl_run impl_step q_get app_queue].
    rewrite Hg. cbn beta iota. rewrite decide_True by done. by rewrite Hr, Hl.
Qed.

Lemma impl_run_app buf cs1 cs2 (q : isp_app_msg_cxt) :
  impl_run buf (cs1 ++ cs2) q =
    let '(l1, q1) := impl_run buf cs1 q in let '(l2, q2) := impl_run buf cs2 q1 in (l1 ++ l2, q2).
Proof.
  revert q. induction cs1 as [|c cs1 IH]; intros q; simpl; [by destruct (impl_run _ _ _)|].
  destruct (impl_step buf c q) as [a q1]. rewrite IH. destruct (impl_run buf cs1 q1) as [l1 q2].
  by destruct (impl_run buf cs2 q2).
Qed.

(** A queue with a spare semaphore unit and no message: [isp_app_msg_peak] returns
    with the mutex held, and every later post blocks. *)
Lemma app_peak_deadlocks extra m q :
  app_inv (S extra) q -> p_number q = O ->
  exists q', app_peak_body m q = Done (- ISP_APP_MSG_NO_OTHER_MSG, m, q') /\
    forall m', app_post_body m' q' = Blocks.
Proof.
  intros [Hwf Hm Hmu Hs] Hn.
  exists (app_set_mutex true (Plain false extra (p_count q) (p_magic q) (p_head q) (p_write q) (p_read q))).
  destruct Hwf as [? ? ? ? Hw]. simpl in *. rewrite Hn in Hw. simpl in Hw.
  rewrite Nat.add_0_r, Nat.mod_small in Hw by lia. split.
  - unfold app_peak_body. rewrite Hm, Z.eqb_refl. simpl. unfold app_sem_wait.
    rewrite Hs, Hn. simpl. unfold app_lock. simpl. rewrite Hmu. simpl. by rewrite Hw, Nat.eqb_refl, Hm.
  - intros m'. unfold app_post_body. simpl. rewrite Hm, Z.eqb_refl. done.
Qed.

Lemma app_create_inv count fresh :
  0 < count -> count * sizeof_isp_app_msg < 4294967296 ->
  exists q, isp_app_msg_queue_create count true true fresh = (ISP_APP_MSG_SUCCESS, Some q) /\
    app_inv 0 q /\ abs q = Spec.Queue (Z.to_nat (count - 1)) [].
Proof.
  intros Hc Hs. unfold isp_app_msg_queue_create. rewrite (proj2 (Z.eqb_neq _ _)) by lia. simpl.
  unfold sizeof_isp_app_msg in *. eexists; split; [done|].
  set (q := Plain _ _ _ _ _ _ _).
  assert (length (p_head q) = Z.to_nat count) as El
    by (simpl; rewrite length_fmap, length_seq, malloc_slots_exact; lia).
  assert (p_number q = O) as En.
  { apply as_ring_number; simpl in *; try lia. symmetry. apply Nat.mod_small. lia. }
  assert (app_inv 0 q) as Hi.
  { constructor; [|done|done|simpl; lia]. constructor; simpl in *; try lia.
    rewrite En. symmetry. apply Nat.mod_small. simpl. lia. }
  split; [done|]. unfold abs. simpl. f_equal. apply nil_length_inv.
  by rewrite (app_list_length 0).
Qed.

(** The queue of [isp_app_msg.c] keeps messages and order only while it is not
    overfilled: on every program of posts and gets on which the bounded queue of
    capacity [count - 1] refuses nothing, it answers as that queue does. *)
Theorem app_queue_room count fresh buf cs :
  0 < count -> count * sizeof_isp_app_msg < 4294967296 ->
  Refused ∉ fst (spec_run cs (Spec.Queue (Z.to_nat (count - 1)) [])) ->
  exists q, isp_app_msg_queue_create count true true fresh = (ISP_APP_MSG_SUCCESS, Some q) /\
    fst (impl_run buf cs q) = fst (spec_run cs (Spec.Queue (Z.to_nat (count - 1)) [])).
Proof.
  intros Hc Hs Hno. destruct (app_create_inv count fresh Hc Hs) as (q & Hcr & Hi & Ha). exists q.
  split; [done|]. destruct (impl_run_room (HQ := app_queue) buf cs q Hi) as (q' & -> & _).
  { by apply Forall_true; intros []. }
  { by rewrite Ha. }
  by rewrite Ha.
Qed.

Definition app_msg_no (n : Z) : isp_app_msg := IspAppMsg n 0 0 0 0 0 0.

Lemma app_queue_room_witness :
  exists q, isp_app_msg_queue_create 3 true true (fun _ => app_msg_no 0) = (ISP_APP_MSG_SUCCESS, Some q) /\
    fst (impl_run (app_msg_no 0)
           [CPost (app_msg_no 1); CPost (app_msg_no 2); CGet; CPost (app_msg_no 3); CGet; CGet; CGet] q)
    = [Accepted; Accepted; Got (app_msg_no 1); Accepted; Got (app_msg_no 2); Got (app_msg_no 3); Waits].
Proof.
  apply (app_queue_room 3 (fun _ => app_msg_no 0) (app_msg_no 0)
    [CPost (app_msg_no 1); CPost (app_msg_no 2); CGet; CPost (app_msg_no 3); CGet; CGet; CGet]);
    [reflexivity|reflexivity|].
  change (Refused ∉ [Accepted; Accepted; Got (app_msg_no 1); Accepted; Got (app_msg_no 2);
                     Got (app_msg_no 3); @Waits isp_app_msg]).
  repeat (apply not_elem_of_cons; split; [discriminate|]). apply not_elem_of_nil.
Defined.

(** Overfilling loses a message and repeats another: a post to a full queue
    reports success; the messages that were in the queue come out, the new one does
    not, and the next get reports success without writing the caller's buffer, so
    that the reader handles its previous message again. *)
Theorem app_overflow_loses m buf q :
  app_inv 0 q -> Z.of_nat (p_number q) + 1 = p_count q ->
  exists q', impl_run buf (CPost m :: replicate (p_number q) CGet ++ [CGet]) q =
    (Accepted :: (Got <$> app_list q) ++ [Got buf], q').
Proof.
  intros Hq Hfull. destruct (app_post_overfull 0 m q Hq Hfull) as (q1 & Hp & H1 & Hl & Hn).
  destruct (app_drain 1 buf q1 H1) as (q2 & Hr & H2 & Hn2). rewrite Hl, Hn in Hr.
  destruct (app_get_stale 0 buf q2 H2 Hn2) as (q3 & Hg & _). exists q3.
  cbn [impl_run impl_step q_post app_queue]. rewrite Hp. cbn beta iota. rewrite decide_True by done.
  rewrite impl_run_app, Hr. cbn [impl_run impl_step q_get app_queue]. rewrite Hg. cbn beta iota.
  by rewrite decide_True.
Qed.

Definition full2 : isp_app_msg_cxt :=
  Plain false 1 2 ISP_APP_MSG_MAGIC_CODE [app_msg_no 1; app_msg_no 0] 1 0.

Lemma app_overflow_loses_witness :
  exists q', impl_run (app_msg_no 7) [CPost (app_msg_no 2); CGet; CGet] full2 =
    ([Accepted; Got (app_msg_no 1); Got (app_msg_no 7)], q').
Proof.
  apply (app_overflow_loses (app_msg_no 2) (app_msg_no 7) full2); [|reflexivity].
  constructor; [|reflexivity|reflexivity|reflexivity].
  constructor; [vm_compute; split; reflexivity|reflexivity|apply Nat.ltb_lt; reflexivity|
    vm_compute; split; [discriminate|reflexivity]|reflexivity].
Defined.

End IspApp.
