(* ===== verification/CmrMsg.v ===== *)
(** * Message queues and worker threads of the camera library
    (libs/libcamera/common/src/cmr_msg.c)

    Every module of the camera library runs a worker thread on one of these queues.
    The operations are cut where another thread can come in between: before and
    after the critical section and at each semaphore; the functions of the source
    are the compositions of the pieces, and [CmrThread.v] interleaves the pieces.

    A post whose message asks for synchronisation waits on the semaphore of its slot;
    [cmr_msg_post] returns the slot in that case. *)

From S2P Require Import Prelude MsgRing IspMsg.

Definition CMR_MSG_MAGIC_CODE : Z := 0xEFFEA55A.
Definition CMR_THREAD_MAGIC_CODE : Z := 0x5AA5FEEF.
Definition CMR_MSG_POLLING_PERIOD : Z := 200000000.
Definition CMR_THREAD_INIT_EVT : Z := 0x00FFFFFF.
Definition CMR_THREAD_EXIT_EVT : Z := 0x01FFFFFF.
Definition CMR_THREAD_EXIT : Z := 0x1000.

Definition CMR_MSG_SUCCESS : Z := 0.
Definition CMR_MSG_PARAM_ERR : Z := 1.
Definition CMR_MSG_INVALID_HANDLE : Z := 2.
Definition CMR_MSG_NO_OTHER_MSG : Z := 3.
Definition CMR_MSG_NO_MEM : Z := 4.
Definition CMR_MSG_OVERFLOW : Z := 5.
Definition CMR_MSG_UNDERFLOW : Z := 6.

Definition CMR_MSG_SYNC_NONE : Z := 0.
Definition CMR_MSG_SYNC_RECEIVED : Z := 1.
Definition CMR_MSG_SYNC_PROCESSED : Z := 2.

(** [cmr_priv] points to a slot. *)
Record cmr_msg := CmrMsg {
  msg_type : Z;
  sub_msg_type : Z;
  data : Z;
  alloc_flag : Z;
  sync_flag : Z;
  cmr_priv : option nat
}.

Record cmr_msg_in := CmrMsgIn { msg : cmr_msg; sem : nat; sync_f : Z }.

Definition cmr_msg_zero : cmr_msg := CmrMsg 0 0 0 0 0 None.
Definition cmr_msg_in_zero : cmr_msg_in := CmrMsgIn cmr_msg_zero 0 0.
Definition sizeof_cmr_msg_in : Z := 32.

Definition set_priv (p : option nat) (m : cmr_msg) : cmr_msg :=
  CmrMsg (msg_type m) (sub_msg_type m) (data m) (alloc_flag m) (sync_flag m) p.

Definition cmr_msg_cxt : Type := msg_cxt cmr_msg_in.
Definition cmr_handle : Type := option cmr_msg_cxt.

(** ** Creation and destruction *)

(** The slots are cleared; the loop of [sem_init] runs over [count] slots. *)
Definition cmr_msg_queue_create (count : Z) (mem1 mem2 : bool) : res (Z * cmr_handle) :=
  if count =? 0 then Done (- CMR_MSG_PARAM_ERR, None)
  else if negb mem1 then Done (- CMR_MSG_NO_MEM, None)
  else if negb mem2 then Done (- CMR_MSG_NO_MEM, None)
  else
    let slots := malloc_slots count sizeof_cmr_msg_in in
    if decide (Z.to_nat count <= slots)%nat then
      Done (CMR_MSG_SUCCESS,
            Some (MsgCxt false 0 count 0 CMR_MSG_MAGIC_CODE (replicate slots cmr_msg_in_zero) 0 0))
    else Undef.

Definition cmr_msg_queue_destroy (h : cmr_handle) : Z * cmr_handle :=
  match h with
  | None => (- CMR_MSG_PARAM_ERR, None)
  | Some q =>
      if negb (msg_magic q =? CMR_MSG_MAGIC_CODE) then (CMR_MSG_INVALID_HANDLE, h)
      else (CMR_MSG_SUCCESS, None)
  end.

(** ** Semaphores of the slots *)

Definition slot_sem_post (p : nat) (q : cmr_msg_cxt) : res cmr_msg_cxt :=
  s ← slot_get q p; slot_put q p (CmrMsgIn (msg s) (S (sem s)) (sync_f s)).

Definition slot_sem_wait (p : nat) (q : cmr_msg_cxt) : res cmr_msg_cxt :=
  s ← slot_get q p;
  match sem s with
  | O => Blocks
  | S n => slot_put q p (CmrMsgIn (msg s) n (sync_f s))
  end.

(** ** [cmr_msg_post] *)

(** From the lock to the unlock; the slot written, if any. *)
Definition post_locked (ori_node : nat) (message : cmr_msg) (q : cmr_msg_cxt) :
    res (Z * option nat * cmr_msg_cxt) :=
  q ← pthread_mutex_lock q;
  if msg_count q <=? u32 (msg_number q + 1) then
    Done (CMR_MSG_OVERFLOW, None, pthread_mutex_unlock q)
  else
    let msg_cur := msg_write q in
    s ← slot_get q msg_cur;
    q ← slot_put q msg_cur (CmrMsgIn message (sem s) (sync_flag message));
    let q := set_write (ring_next (msg_count q) (msg_write q)) q in
    let q := if (msg_write q =? msg_read q)%nat then set_write ori_node q else q in
    let q := set_number (u32 (msg_number q + 1)) q in
    Done (CMR_MSG_SUCCESS, Some msg_cur, pthread_mutex_unlock q).

(** The test of [msg_cur->sync_f] after the unlock: does the caller wait? *)
Definition post_waits (msg_cur : nat) (q : cmr_msg_cxt) : res bool :=
  s ← slot_get q msg_cur; Done (negb (sync_f s =? CMR_MSG_SYNC_NONE)).

(** The status, the slot on whose semaphore the caller waits, the context. *)
Definition post_body (message : cmr_msg) (q : cmr_msg_cxt) : res (Z * option nat * cmr_msg_cxt) :=
  let ori_node := msg_write q in
  if negb (msg_magic q =? CMR_MSG_MAGIC_CODE) then Done (CMR_MSG_INVALID_HANDLE, None, q)
  else
    '(rtn, cur, q) ← post_locked ori_node message q;
    match cur with
    | None => Done (rtn, None, q)
    | Some msg_cur =>
        let q := sem_post q in
        wait ← post_waits msg_cur q;
        if wait : bool then
          match slot_sem_wait msg_cur q with
          | Blocks => Done (CMR_MSG_SUCCESS, Some msg_cur, q)
          | Done q => Done (CMR_MSG_SUCCESS, None, q)
          | Undef => Undef
          end
        else Done (rtn, None, q)
    end.

Definition cmr_msg_post (h : cmr_handle) (message : option cmr_msg) : res (Z * option nat * cmr_handle) :=
  match h, message with
  | Some q, Some m => '(rtn, w, q) ← post_body m q; Done (rtn, w, Some q)
  | _, _ => Done (- CMR_MSG_PARAM_ERR, None, h)
  end.

(** ** [cmr_msg_get] and [cmr_msg_timedget] *)

Definition get_locked (message : cmr_msg) (q : cmr_msg_cxt) :
    res (Z * cmr_msg * option nat * cmr_msg_cxt) :=
  q ← pthread_mutex_lock q;
  if msg_number q =? 0 then Done (CMR_MSG_UNDERFLOW, message, None, pthread_mutex_unlock q)
  else if negb (msg_read q =? msg_write q)%nat then
    let msg_cur := msg_read q in
    s ← slot_get q msg_cur;
    q ← slot_put q msg_cur (CmrMsgIn cmr_msg_zero (sem s) (sync_f s));
    let q := set_read (ring_next (msg_count q) (msg_read q)) q in
    let q := set_number (u32 (msg_number q - 1)) q in
    Done (CMR_MSG_SUCCESS, set_priv (Some msg_cur) (msg s), Some msg_cur, pthread_mutex_unlock q)
  else Done (CMR_MSG_SUCCESS, message, None, pthread_mutex_unlock q).

(** After the unlock: a poster that waits for reception is released. *)
Definition get_received (cur : option nat) (q : cmr_msg_cxt) : res cmr_msg_cxt :=
  match cur with
  | None => Done q
  | Some p =>
      s ← slot_get q p;
      if sync_f s =? CMR_MSG_SYNC_RECEIVED then slot_sem_post p q else Done q
  end.

Definition get_body (message : cmr_msg) (q : cmr_msg_cxt) : res (Z * cmr_msg * cmr_msg_cxt) :=
  if negb (msg_magic q =? CMR_MSG_MAGIC_CODE) then Done (CMR_MSG_INVALID_HANDLE, message, q)
  else
    q ← sem_wait q;
    '(rtn, m, cur, q) ← get_locked message q;
    q ← get_received cur q;
    Done (rtn, m, q).

Definition cmr_msg_get (h : cmr_handle) (message : option cmr_msg) :
    res (Z * option cmr_msg * cmr_handle) :=
  match h, message with
  | Some q, Some m => '(rtn, m, q) ← get_body m q; Done (rtn, Some m, Some q)
  | _, _ => Done (- CMR_MSG_PARAM_ERR, message, h)
  end.

Record timespec := TimeSpec { tv_sec : Z; tv_nsec : Z }.

(** The deadline, 200 ms from now. *)
Definition poll_deadline (now : timespec) : timespec :=
  let nsec := tv_nsec now + CMR_MSG_POLLING_PERIOD in
  if 1000000000 <? nsec then TimeSpec (tv_sec now + 1) (nsec - 1000000000)
  else TimeSpec (tv_sec now) nsec.

(** The critical section of the timed get: it counts down in every case and does not
    set [cmr_priv]. *)
Definition timedget_locked (message : cmr_msg) (q : cmr_msg_cxt) :
    res (Z * cmr_msg * option nat * cmr_msg_cxt) :=
  q ← pthread_mutex_lock q;
  if msg_number q =? 0 then Done (CMR_MSG_UNDERFLOW, message, None, pthread_mutex_unlock q)
  else
    '(m, cur, q) ←
      (if negb (msg_read q =? msg_write q)%nat then
         let msg_cur := msg_read q in
         s ← slot_get q msg_cur;
         q ← slot_put q msg_cur (CmrMsgIn cmr_msg_zero (sem s) (sync_f s));
         Done (msg s, Some msg_cur, set_read (ring_next (msg_count q) (msg_read q)) q)
       else Done (message, None, q));
    Done (CMR_MSG_SUCCESS, m, cur, pthread_mutex_unlock (set_number (u32 (msg_number q - 1)) q)).

(** [now] is what [clock_gettime] gives.  A wait on a semaphore at 0 runs into its
    deadline. *)
Definition timedget_body (now : timespec) (message : cmr_msg) (q : cmr_msg_cxt) :
    res (Z * cmr_msg * cmr_msg_cxt) :=
  if negb (msg_magic q =? CMR_MSG_MAGIC_CODE) then Done (CMR_MSG_INVALID_HANDLE, message, q)
  else if (tv_sec now <? 0) || (tv_nsec now <? 0) || (1000000000 <=? tv_nsec now) then
    Done (- CMR_MSG_PARAM_ERR, message, q)
  else
    match sem_wait q with
    | Done q =>
        '(rtn, m, cur, q) ← timedget_locked message q;
        q ← get_received cur q;
        Done (rtn, m, q)
    | _ => Done (CMR_MSG_NO_OTHER_MSG, message, q)
    end.

Definition cmr_msg_timedget (now : timespec) (h : cmr_handle) (message : option cmr_msg) :
    res (Z * option cmr_msg * cmr_handle) :=
  match h, message with
  | Some q, Some m => '(rtn, m, q) ← timedget_body now m q; Done (rtn, Some m, Some q)
  | _, _ => Done (- CMR_MSG_PARAM_ERR, message, h)
  end.

(** ** The critical sections on a well-formed ring *)

(** The slot a message is put in keeps its semaphore. *)
Definition put_slot (m : cmr_msg) (s : cmr_msg_in) : cmr_msg_in := CmrMsgIn m (sem s) (sync_flag m).
Definition clear_slot (s : cmr_msg_in) : cmr_msg_in := CmrMsgIn cmr_msg_zero (sem s) (sync_f s).

(** The saved write pointer is never used. *)
Lemma post_locked_room ori m q :
  ring_wf q -> mutex q = false -> msg_number q + 1 < msg_count q ->
  exists s, msg_head q !! msg_write q = Some s /\
    post_locked ori m q = Done (CMR_MSG_SUCCESS, Some (msg_write q), put_state (put_slot m s) q).
Proof.
  intros Hwf Hmu Hroom. destruct (lookup_lt_is_Some_2 _ _ (ring_write_bound q Hwf)) as [s Hs].
  exists s. split; [done|]. pose proof (ring_put (put_slot m s) q Hwf Hroom) as (_ & _ & Hne).
  pose proof (ring_write_bound q Hwf). destruct Hwf as [? ? ? ? ?].
  unfold post_locked, pthread_mutex_lock. rewrite Hmu. simpl.
  rewrite u32_small, (proj2 (Z.leb_gt _ _)) by lia.
  unfold slot_get, slot_put. simpl. rewrite Hs. simpl. rewrite decide_True by done. simpl.
  rewrite (proj2 (Nat.eqb_neq _ _)) by done. unfold put_state, pthread_mutex_unlock. simpl.
  rewrite u32_small, <- Hmu by lia. by destruct q.
Qed.

Lemma post_locked_full ori m q :
  ring_wf q -> mutex q = false -> ~ msg_number q + 1 < msg_count q ->
  post_locked ori m q = Done (CMR_MSG_OVERFLOW, None, q).
Proof.
  intros [] Hmu Hroom. unfold post_locked, pthread_mutex_lock. rewrite Hmu. simpl.
  rewrite u32_small, (proj2 (Z.leb_le _ _)) by lia. unfold pthread_mutex_unlock, set_mutex.
  simpl. rewrite <- Hmu. by destruct q.
Qed.

Lemma get_locked_head m q :
  ring_wf q -> mutex q = false -> msg_number q <> 0 ->
  exists s, msg_head q !! msg_read q = Some s /\
    get_locked m q = Done (CMR_MSG_SUCCESS, set_priv (Some (msg_read q)) (msg s), Some (msg_read q),
                           take_state (clear_slot s) q).
Proof.
  intros Hwf Hmu Hn. destruct (lookup_lt_is_Some_2 _ _ (wf_read q Hwf)) as [s Hs].
  exists s. split; [done|]. destruct (ring_take (clear_slot s) q Hwf Hn) as (x & _ & _ & _ & Hne).
  pose proof (wf_read q Hwf). destruct Hwf as [? ? ? ? ?].
  unfold get_locked, pthread_mutex_lock. rewrite Hmu. simpl.
  rewrite (proj2 (Z.eqb_neq _ _)), (proj2 (Nat.eqb_neq _ _)) by done. simpl.
  unfold slot_get, slot_put. simpl. rewrite Hs. simpl. rewrite decide_True by done. simpl.
  rewrite u32_small by lia. unfold take_state, pthread_mutex_unlock. simpl.
  rewrite <- Hmu. by destruct q.
Qed.

(** The timed get takes the same message and leaves the same context. *)
Lemma timedget_locked_head m q :
  ring_wf q -> mutex q = false -> msg_number q <> 0 ->
  exists s, msg_head q !! msg_read q = Some s /\
    timedget_locked m q = Done (CMR_MSG_SUCCESS, msg s, Some (msg_read q), take_state (clear_slot s) q).
Proof.
  intros Hwf Hmu Hn. destruct (lookup_lt_is_Some_2 _ _ (wf_read q Hwf)) as [s Hs].
  exists s. split; [done|]. destruct (ring_take (clear_slot s) q Hwf Hn) as (x & _ & _ & _ & Hne).
  pose proof (wf_read q Hwf). destruct Hwf as [? ? ? ? ?].
  unfold timedget_locked, pthread_mutex_lock. rewrite Hmu. simpl.
  rewrite (proj2 (Z.eqb_neq _ _)), (proj2 (Nat.eqb_neq _ _)) by done. simpl.
  unfold slot_get, slot_put. simpl. rewrite Hs. simpl. rewrite decide_True by done. simpl.
  rewrite u32_small by lia. unfold take_state, pthread_mutex_unlock. simpl.
  rewrite <- Hmu. by destruct q.
Qed.

(** Raising the semaphore of the slot just taken, which is outside the ring. *)
Definition ack_slot (f : Z) (s : cmr_msg_in) : cmr_msg_in :=
  if sync_f s =? f then CmrMsgIn (msg s) (S (sem s)) (sync_f s) else s.

Lemma get_received_taken q s :
  ring_wf q -> msg_head q !! msg_read q = Some s ->
  get_received (Some (msg_read q)) (take_state (clear_slot s) q) =
    Done (take_state (ack_slot CMR_MSG_SYNC_RECEIVED (clear_slot s)) q).
Proof.
  intros Hwf Hs. pose proof (wf_read q Hwf).
  assert (<[msg_read q:=clear_slot s]> (msg_head q) !! msg_read q = Some (clear_slot s)) as E
    by (by apply list_lookup_insert_eq).
  unfold get_received, slot_sem_post, slot_get. simpl. rewrite E. simpl. unfold ack_slot.
  destruct (sync_f s =? CMR_MSG_SYNC_RECEIVED) eqn:Ef; simpl; rewrite Ef; [|done].
  unfold slot_put. simpl. rewrite decide_True by (by rewrite length_insert).
  unfold take_state. simpl. by rewrite list_insert_insert_eq.
Qed.

(** ** The queue keeps the promise *)

Record inv (q : cmr_msg_cxt) : Prop := {
  inv_wf : ring_wf q;
  inv_magic : msg_magic q = CMR_MSG_MAGIC_CODE;
  inv_mutex : mutex q = false;
  inv_sem : Z.of_nat (msg_sem q) = msg_number q
}.

(** What the users of a message see: everything but the private pointer. *)
Definition public (m : cmr_msg) : cmr_msg := set_priv None m.

Definition cmr_list (q : cmr_msg_cxt) : list cmr_msg := (fun s => public (msg s)) <$> ring_list q.

Lemma cmr_list_length q : inv q -> Z.of_nat (length (cmr_list q)) = msg_number q.
Proof. intros Hq. unfold cmr_list. rewrite length_fmap. apply ring_list_length, Hq. Qed.

#[export] Instance cmr_queue : MsgQueue cmr_msg_cxt cmr_msg cmr_msg := {
  q_post := fun m q =>
    '(rtn, w, q) ← post_body m q; match w with None => Done (rtn, q) | Some _ => Blocks end;
  q_get := get_body;
  q_view := public;
  q_postable := fun m => sync_flag m = CMR_MSG_SYNC_NONE;
  q_inv := inv;
  q_list := cmr_list;
  q_cap := fun q => Z.to_nat (msg_count q - 1)
}.

(** A post to a queue with room: the message is put, the semaphore raised, and the
    caller waits if the message asks for it and the slot is at rest. *)
Lemma post_body_put m q :
  inv q -> msg_number q + 1 < msg_count q ->
  exists s, msg_head q !! msg_write q = Some s /\
    let q' := sem_post (put_state (put_slot m s) q) in
    inv q' /\ ring_list q' = ring_list q ++ [put_slot m s] /\
    (sync_flag m = CMR_MSG_SYNC_NONE -> post_body m q = Done (CMR_MSG_SUCCESS, None, q')) /\
    (sync_flag m <> CMR_MSG_SYNC_NONE -> sem s = O ->
     post_body m q = Done (CMR_MSG_SUCCESS, Some (msg_write q), q')).
Proof.
  intros [Hwf Hm Hmu Hs] Hroom.
  destruct (post_locked_room (msg_write q) m q Hwf Hmu Hroom) as (s & Hw & Hp). exists s.
  pose proof (ring_put (put_slot m s) q Hwf Hroom) as (Hput & Hl & _).
  pose proof (ring_write_bound q Hwf). split; [done|]. intros q'. split_and!; [|done| |].
  - destruct Hput; constructor; simpl in *; [by constructor|done|done|lia].
  - intros Hsync. unfold post_body. rewrite Hm, Z.eqb_refl. simpl. rewrite Hp. simpl.
    unfold post_waits, slot_get. simpl. rewrite list_lookup_insert_eq by done. simpl. by rewrite Hsync.
  - intros Hsync Hsem. unfold post_body. rewrite Hm, Z.eqb_refl. simpl. rewrite Hp. simpl.
    unfold post_waits, slot_sem_wait, slot_get. simpl. rewrite list_lookup_insert_eq by done. simpl.
    rewrite (proj2 (Z.eqb_neq _ _)) by done. simpl. by rewrite Hsem.
Qed.

Lemma get_body_head m q :
  inv q -> msg_number q <> 0 ->
  exists m' q', get_body m q = Done (CMR_MSG_SUCCESS, m', q') /\ inv q' /\
    cmr_list q = public m' :: cmr_list q' /\ msg_count q' = msg_count q.
Proof.
  intros [Hwf Hm Hmu Hs] Hn. destruct (msg_sem q) as [|n] eqn:Es; [lia|].
  destruct (get_locked_head m (set_sem n q)) as (s & Hr & Hg); [by destruct Hwf; constructor|done|done|].
  simpl in *. eexists _, (take_state _ (set_sem n q)). split_and!.
  - unfold get_body. rewrite Hm, Z.eqb_refl. simpl. unfold sem_wait. rewrite Es. simpl. rewrite Hg. simpl.
    pose proof (get_received_taken (set_sem n q) s) as E. cbn [get_received msg_read set_sem] in E.
    rewrite E by (by destruct Hwf; try constructor). done.
  - destruct (ring_take (ack_slot CMR_MSG_SYNC_RECEIVED (clear_slot s)) q Hwf Hn) as (x & Hx & Ht & _ & _).
    constructor; simpl; [by destruct Ht; constructor|done|done|lia].
  - destruct (ring_take (ack_slot CMR_MSG_SYNC_RECEIVED (clear_slot s)) q Hwf Hn) as (x & Hx & Ht & Hl & _).
    rewrite Hr in Hx. simplify_eq. unfold cmr_list. rewrite Hl. done.
  - done.
Qed.

Lemma cmr_room_laws : RoomLaws cmr_msg_cxt cmr_msg cmr_msg.
Proof.
  constructor; simpl.
  - intros m q Hq Hsync Hl. pose proof (cmr_list_length q Hq).
    destruct (post_body_put m q Hq ltac:(lia)) as (s & _ & Hi & Hl' & Hp & _).
    exists (sem_post (put_state (put_slot m s) q)). rewrite (Hp Hsync). simpl.
    split; [done|]. split; [done|]. split; [|done]. unfold cmr_list. by rewrite Hl', fmap_app.
  - intros m q Hq Hl. pose proof (cmr_list_length q Hq) as H. rewrite Hl in H. destruct Hq as [_ Hm _ Hs].
    unfold get_body. rewrite Hm, Z.eqb_refl. simpl. unfold sem_wait.
    by replace (msg_sem q) with O by (simpl in H; lia).
  - intros m v l q Hq Hl. pose proof (cmr_list_length q Hq) as H. rewrite Hl in H. simpl in H.
    destruct (get_body_head m q Hq ltac:(lia)) as (m' & q' & -> & Hi & Hl' & Hc).
    exists m', q'. rewrite Hl in Hl'. rewrite Hc. simplify_eq. done.
Qed.

#[export] Instance cmr_laws : FifoLaws cmr_msg_cxt cmr_msg cmr_msg.
Proof.
  constructor; [apply cmr_room_laws|]. simpl. intros m q Hq Hsync Hl.
  pose proof (cmr_list_length q Hq). destruct Hq as [Hwf Hm Hmu Hs].
  exists CMR_MSG_OVERFLOW. split; [done|]. unfold post_body. rewrite Hm, Z.eqb_refl. simpl.
  by rewrite post_locked_full by (auto; lia).
Qed.

Lemma cmr_create_inv count :
  0 < count -> count * sizeof_cmr_msg_in < 4294967296 ->
  exists q, cmr_msg_queue_create count true true = Done (CMR_MSG_SUCCESS, Some q) /\
    inv q /\ abs q = Spec.Queue (Z.to_nat (count - 1)) [] /\ Forall (fun s => sem s = O) (msg_head q).
Proof.
  intros Hc Hs. unfold cmr_msg_queue_create. rewrite (proj2 (Z.eqb_neq _ _)) by lia. simpl.
  unfold sizeof_cmr_msg_in in *. rewrite malloc_slots_exact by lia. rewrite decide_True by lia.
  eexists; split_and!; [done| |done|simpl; by apply Forall_replicate].
  constructor; simpl; try done. constructor; simpl; rewrite ?length_replicate; try lia.
  symmetry. apply Nat.mod_small. lia.
Qed.

(** C8: The queue of [cmr_msg.c] implements the bounded queue: after
    [cmr_msg_queue_create], every sequence of gets and of posts without
    synchronisation is answered as the abstract queue of capacity [count - 1] answers
    it (first in first out, nothing lost or changed but the private pointer, refused
    exactly when full, waiting exactly when empty). *)
Theorem cmr_queue_refines count buf cs :
  0 < count -> count * sizeof_cmr_msg_in < 4294967296 ->
  (forall m, CPost m ∈ cs -> sync_flag m = CMR_MSG_SYNC_NONE) ->
  exists q, cmr_msg_queue_create count true true = Done (CMR_MSG_SUCCESS, Some q) /\
    fst (impl_run buf cs q) = fst (spec_run cs (Spec.Queue (Z.to_nat (count - 1)) [])).
Proof.
  intros Hc Hs Hcs. destruct (cmr_create_inv count Hc Hs) as (q & Hcr & Hi & Ha & _). exists q.
  split; [done|]. destruct (impl_run_sim (HQ := cmr_queue) buf cs q Hi) as (q' & -> & _).
  { apply Forall_forall. intros [m|] Hm; [|done]. by apply Hcs. }
  by rewrite Ha.
Qed.

Definition cmr_no (n : Z) : cmr_msg := CmrMsg n 0 0 0 0 None.

Lemma cmr_queue_refines_witness :
  exists q, cmr_msg_queue_create 3 true true = Done (CMR_MSG_SUCCESS, Some q) /\
    fst (impl_run cmr_msg_zero
           [CPost (cmr_no 1); CPost (cmr_no 2); CPost (cmr_no 3); CGet; CPost (cmr_no 4); CGet; CGet; CGet] q)
    = [Accepted; Accepted; Refused; Got (cmr_no 1); Accepted; Got (cmr_no 2); Got (cmr_no 4); Waits].
Proof.
  apply (cmr_queue_refines 3 cmr_msg_zero
    [CPost (cmr_no 1); CPost (cmr_no 2); CPost (cmr_no 3); CGet; CPost (cmr_no 4); CGet; CGet; CGet]);
    [reflexivity|reflexivity|].
  intros m Hm. repeat (apply elem_of_cons in Hm as [Hm|Hm]; [by simplify_eq|]).
  by apply not_elem_of_nil in Hm.
Defined.

(** The deadline of a timed get is 200 ms away; it is a valid [timespec] except when
    the clock stands at 800 ms exactly. *)
Lemma poll_deadline_spec now :
  0 <= tv_nsec now < 1000000000 ->
  let d := poll_deadline now in
  1000000000 * tv_sec d + tv_nsec d = 1000000000 * tv_sec now + tv_nsec now + CMR_MSG_POLLING_PERIOD /\
  0 <= tv_nsec d /\ (tv_nsec d < 1000000000 <-> tv_nsec now <> 800000000).
Proof.
  intros Hn d. subst d. unfold poll_deadline, CMR_MSG_POLLING_PERIOD.
  destruct (Z.ltb_spec 1000000000 (tv_nsec now + 200000000)); simpl; lia.
Qed.

(** ** The worker thread *)

(** The switch of [cmr_common_routine] after a successful get; [cb] is the status of
    the module's callback. *)
Definition routine_dispatch (cb : cmr_msg -> Z) (message : cmr_msg) : Z :=
  if msg_type message =? CMR_THREAD_INIT_EVT then CMR_MSG_SUCCESS
  else if msg_type message =? CMR_THREAD_EXIT_EVT then CMR_THREAD_EXIT
  else cb message.

(** A poster that waits for processing is released. *)
Definition routine_ack (message : cmr_msg) (q : cmr_msg_cxt) : res cmr_msg_cxt :=
  match cmr_priv message with
  | None => Done q
  | Some p =>
      s ← slot_get q p;
      if sync_f s =? CMR_MSG_SYNC_PROCESSED then slot_sem_post p q else Done q
  end.

(** [free(message.data)], if the sender allocated it. *)
Definition routine_free (message : cmr_msg) : list Z :=
  if negb (alloc_flag message =? 0) && negb (data message =? 0) then [data message] else [].

(** The worker's buffer after it. *)
Definition routine_clear (message : cmr_msg) : cmr_msg :=
  match routine_free message with
  | [] => message
  | _ => CmrMsg (msg_type message) (sub_msg_type message) 0 (alloc_flag message) (sync_flag message) (cmr_priv message)
  end.

(** One round of the loop: the freed data, and whether the loop ends. *)
Definition routine_round (cb : cmr_msg -> Z) (message : cmr_msg) (q : cmr_msg_cxt) :
    res (bool * list Z * cmr_msg * cmr_msg_cxt) :=
  '(ret, message, q) ← get_body message q;
  if negb (ret =? 0) then Done (true, [], message, q)
  else
    let ret := routine_dispatch cb message in
    q ← routine_ack message q;
    Done (ret =? CMR_THREAD_EXIT, routine_free message, routine_clear message, q).

Record cmr_thread := CmrThread { queue_handle : cmr_handle; p_data : Z; magic : Z }.

(** [mem0]: the thread's own allocation; [pthread_rtn]: the status of
    [pthread_create]; [cb_null]: no callback is given.  The INIT message is posted
    with synchronisation: the caller goes on when the new thread has done its first
    round.  The result is the status and the handle; a thread that could not be set
    up is freed. *)
Definition cmr_thread_create (queue_length : Z) (cb_null mem0 mem1 mem2 : bool) (pthread_rtn : Z)
    (cb : cmr_msg -> Z) (data : Z) : res (Z * option cmr_thread) :=
  if (queue_length =? 0) || cb_null then Done (CMR_MSG_PARAM_ERR, None)
  else if negb mem0 then Done (CMR_MSG_NO_MEM, None)
  else
    '(rtn, h) ← cmr_msg_queue_create queue_length mem1 mem2;
    if negb (rtn =? 0) then Done (rtn, None)
    else if negb (pthread_rtn =? 0) then Done (pthread_rtn, None)
    else
      '(rtn, waits, h) ← cmr_msg_post h
          (Some (CmrMsg CMR_THREAD_INIT_EVT 0 0 0 CMR_MSG_SYNC_PROCESSED None));
      if negb (rtn =? 0) then Done (rtn, None)
      else
        match waits, h with
        | Some p, Some q =>
            '(_, _, _, q) ← routine_round cb cmr_msg_zero q;
            q ← slot_sem_wait p q;
            Done (rtn, Some (CmrThread (Some q) data CMR_THREAD_MAGIC_CODE))
        | _, _ => Done (rtn, Some (CmrThread h data CMR_THREAD_MAGIC_CODE))
        end.

Definition cmr_thread_msg_send (t : option cmr_thread) (message : option cmr_msg) :
    res (Z * option nat * option cmr_thread) :=
  match t, message with
  | Some t, Some _ =>
      '(ret, waits, h) ← cmr_msg_post (queue_handle t) message;
      Done (ret, waits, Some (CmrThread h (p_data t) (magic t)))
  | _, _ => Done (CMR_MSG_PARAM_ERR, None, t)
  end.

(** The rounds of the worker until its loop ends or waits, at most [n]; what it frees. *)
Fixpoint routine (n : nat) (cb : cmr_msg -> Z) (message : cmr_msg) (q : cmr_msg_cxt) :
    res (bool * list Z * cmr_msg * cmr_msg_cxt) :=
  match n with
  | O => Done (false, [], message, q)
  | S n =>
      '(ends, freed, message, q) ← routine_round cb message q;
      if ends : bool then Done (true, freed, message, q)
      else
        '(ends, freed', message, q) ← routine n cb message q;
        Done (ends, freed ++ freed', message, q)
  end.

(** The EXIT message is posted with synchronisation; the caller goes on when the
    worker has handled everything before it; then queue and thread are freed. *)
Definition cmr_thread_destroy (t : option cmr_thread) (cb : cmr_msg -> Z) :
    res (Z * list Z * option cmr_thread) :=
  '(ret, waits, t') ← cmr_thread_msg_send t
      (Some (CmrMsg CMR_THREAD_EXIT_EVT 0 0 0 CMR_MSG_SYNC_PROCESSED None));
  match t' with
  | None => Done (ret, [], None)
  | Some th =>
      match waits, queue_handle th with
      | Some p, Some q =>
          '(_, freed, _, q) ← routine (Z.to_nat (msg_number q)) cb cmr_msg_zero q;
          q ← slot_sem_wait p q;
          let '(_, h) := cmr_msg_queue_destroy (Some q) in
          Done (ret, freed, None)
      | _, h => let '(_, h) := cmr_msg_queue_destroy h in Done (ret, [], None)
      end
  end.

(** *** Rounds of the worker *)

(** What a round leaves: the oldest message taken, its slot released as its
    synchronisation asks. *)
Definition served (s : cmr_msg_in) (q : cmr_msg_cxt) : cmr_msg_cxt :=
  set_sem (msg_sem q - 1)
    (take_state (ack_slot CMR_MSG_SYNC_PROCESSED (ack_slot CMR_MSG_SYNC_RECEIVED (clear_slot s))) q).

Lemma routine_ack_taken p q s m :
  (p < length (msg_head q))%nat -> cmr_priv m = Some p -> p = msg_read q ->
  routine_ack m (take_state s q) = Done (take_state (ack_slot CMR_MSG_SYNC_PROCESSED s) q).
Proof.
  intros Hp Hm ->. unfold routine_ack, slot_sem_post, slot_get. rewrite Hm. simpl.
  rewrite list_lookup_insert_eq by done. simpl. unfold ack_slot.
  destruct (sync_f s =? CMR_MSG_SYNC_PROCESSED); [|done].
  unfold slot_put. simpl. rewrite decide_True by (by rewrite length_insert).
  unfold take_state. simpl. by rewrite list_insert_insert_eq.
Qed.

Lemma routine_round_head cb m0 q s l :
  inv q -> ring_list q = s :: l ->
  msg_head q !! msg_read q = Some s /\ inv (served s q) /\ ring_list (served s q) = l /\
  let m := set_priv (Some (msg_read q)) (msg s) in
  routine_round cb m0 q = Done (routine_dispatch cb m =? CMR_THREAD_EXIT, routine_free m, routine_clear m, served s q).
Proof.
  intros [Hwf Hm Hmu Hs] Hl. pose proof (ring_list_length q Hwf) as Hlen. rewrite Hl in Hlen. simpl in Hlen.
  destruct (msg_sem q) as [|n] eqn:Es; [lia|].
  destruct (get_locked_head m0 (set_sem n q)) as (s' & Hr & Hg);
    [by destruct Hwf; constructor|done|simpl; lia|]. simpl in Hr, Hg.
  destruct (ring_take (ack_slot CMR_MSG_SYNC_PROCESSED (ack_slot CMR_MSG_SYNC_RECEIVED (clear_slot s'))) q Hwf)
    as (x & Hx & Ht & Hl' & _); [lia|].
  assert (s' = s) as -> by congruence. assert (x = s) as -> by congruence.
  unfold served. rewrite Es. simpl. rewrite Nat.sub_0_r. split_and!; [done| | |].
  - constructor; simpl; [by destruct Ht; constructor|done|done|lia].
  - rewrite Hl in Hl'. by simplify_eq.
  - unfold routine_round, get_body. rewrite Hm, Z.eqb_refl. simpl. unfold sem_wait. rewrite Es. simpl.
    rewrite Hg. simpl.
    pose proof (get_received_taken (set_sem n q) s) as E. cbn [get_received msg_read set_sem] in E.
    rewrite E by (by destruct Hwf; try constructor). simpl.
    rewrite (routine_ack_taken (msg_read q) (set_sem n q)) by (done || exact (wf_read q Hwf)).
    done.
Qed.

(** A message the worker handles without synchronisation and without ending. *)
Definition plain_msg (cb : cmr_msg -> Z) (s : cmr_msg_in) : Prop :=
  forall p, routine_dispatch cb (set_priv p (msg s)) <> CMR_THREAD_EXIT.

Lemma routine_S n cb m q :
  routine (S n) cb m q =
    ('(ends, freed, message, q) ← routine_round cb m q;
     if ends : bool then Done (true, freed, message, q)
     else '(ends, freed', message, q) ← routine n cb message q; Done (ends, freed ++ freed', message, q)).
Proof. done. Qed.

Lemma routine_drain cb l : forall m0 q e p,
  inv q -> ring_list q = l ++ [e] -> Forall (plain_msg cb) l ->
  msg_type (msg e) = CMR_THREAD_EXIT_EVT -> sync_f e = CMR_MSG_SYNC_PROCESSED ->
  p = ((msg_read q + length l) mod length (msg_head q))%nat ->
  exists m' q' e',
    routine (S (length l)) cb m0 q =
      Done (true, (l ≫= fun s => routine_free (msg s)) ++ routine_free (msg e), m', q') /\
    inv q' /\ msg_head q' !! p = Some e' /\ sem e' = S (sem e) /\ ring_list q' = [].
Proof.
  induction l as [|s l IH]; intros m0 q e p Hq Hl Hplain Hty Hf Hp.
  - destruct (routine_round_head cb m0 q e [] Hq Hl) as (Hr & Hi & Hl' & Hrd).
    simpl in Hp. rewrite Nat.add_0_r, Nat.mod_small in Hp by (apply wf_read, Hq). subst p.
    eexists _, (served e q), _. simpl. rewrite Hrd. simpl. unfold routine_dispatch. simpl. rewrite Hty.
    split_and!; [done|done| | |done].
    + simpl. apply list_lookup_insert_eq, wf_read, Hq.
    + unfold ack_slot. simpl. rewrite Hf.
      change (CMR_MSG_SYNC_PROCESSED =? CMR_MSG_SYNC_RECEIVED) with false. simpl. by rewrite Hf.
  - simpl in Hl. inversion_clear Hplain as [|? ? Hs Hplain'].
    destruct (routine_round_head cb m0 q s (l ++ [e]) Hq Hl) as (Hr & Hi & Hl' & Hrd).
    destruct (IH (routine_clear (set_priv (Some (msg_read q)) (msg s))) (served s q) e p Hi Hl' Hplain' Hty Hf)
      as (m' & q' & e' & Hrun & ? & ? & ? & ?).
    { simpl. rewrite length_insert, <- (wf_length q (inv_wf q Hq)), ring_next_mod by (apply wf_read, Hq).
      rewrite ring_read_add. done. }
    exists m', q', e'. split; [|done]. simpl length.
    rewrite routine_S, Hrd. cbn [mbind res_bind].
    rewrite (proj2 (Z.eqb_neq _ _)) by apply Hs. rewrite Hrun. cbn [mbind res_bind].
    rewrite bind_cons, <- app_assoc. done.
Qed.

(** A live worker thread: the queue is between calls and nobody waits on a slot. *)
Record thread_ok (len : Z) (t : cmr_thread) (q : cmr_msg_cxt) : Prop := {
  ok_queue : queue_handle t = Some q;
  ok_inv : inv q;
  ok_len : msg_count q = len;
  ok_rest : Forall (fun s => sem s = O) (msg_head q)
}.

(** The wait for a slot that was released. *)
Lemma slot_sem_wait_ready p q e :
  msg_head q !! p = Some e -> sem e <> O ->
  slot_sem_wait p q = Done (set_head (<[p := CmrMsgIn (msg e) (sem e - 1) (sync_f e)]> (msg_head q)) q).
Proof.
  intros He Hs. unfold slot_sem_wait, slot_get. rewrite He. simpl.
  destruct (sem e) as [|n] eqn:E; [done|]. unfold slot_put.
  rewrite decide_True by (by eapply lookup_lt_Some). simpl. by rewrite Nat.sub_0_r.
Qed.

(** A message with synchronisation on its processing, served and waited for. *)
Lemma release_served s l q :
  inv q -> ring_list q = s :: l -> sync_f s = CMR_MSG_SYNC_PROCESSED -> sem s = O ->
  let q2 := set_sem (msg_sem q - 1) (take_state (clear_slot s) q) in
  slot_sem_wait (msg_read q) (served s q) = Done q2 /\ inv q2 /\ ring_list q2 = l.
Proof.
  intros Hi Hl Hf Hs q2. pose proof (wf_read q (inv_wf q Hi)) as Hb.
  pose proof (ring_list_length q (inv_wf q Hi)) as Hn. rewrite Hl in Hn. simpl in Hn.
  assert (ack_slot CMR_MSG_SYNC_PROCESSED (ack_slot CMR_MSG_SYNC_RECEIVED (clear_slot s)) =
          CmrMsgIn cmr_msg_zero 1 CMR_MSG_SYNC_PROCESSED) as E
    by (destruct s; simpl in *; subst; reflexivity).
  assert (clear_slot s = CmrMsgIn cmr_msg_zero 0 CMR_MSG_SYNC_PROCESSED) as Ec
    by (destruct s; simpl in *; by subst).
  split.
  - unfold served. rewrite E. erewrite slot_sem_wait_ready; [|simpl; by apply list_lookup_insert_eq|done].
    unfold q2. rewrite Ec. unfold take_state, set_head, set_sem. simpl. by rewrite list_insert_insert_eq.
  - destruct (ring_take (clear_slot s) q (inv_wf q Hi)) as (x & _ & Ht & Hl' & _); [lia|].
    destruct Hi as [? ? ? Hsem]. split; [|rewrite Hl in Hl'; by simplify_eq].
    constructor; simpl; [by destruct Ht; constructor|done|done|lia].
Qed.

(** A post to a live thread with room leaves it live. *)
Lemma thread_ok_put len t q m :
  thread_ok len t q -> msg_number q + 1 < len ->
  exists q', thread_ok len (CmrThread (Some q') (p_data t) (magic t)) q' /\
    ring_list q' = ring_list q ++ [CmrMsgIn m 0 (sync_flag m)] /\ msg_number q' = msg_number q + 1 /\
    msg_read q' = msg_read q /\ length (msg_head q') = length (msg_head q) /\
    (sync_flag m = CMR_MSG_SYNC_NONE -> post_body m q = Done (CMR_MSG_SUCCESS, None, q')) /\
    (sync_flag m <> CMR_MSG_SYNC_NONE -> post_body m q = Done (CMR_MSG_SUCCESS, Some (msg_write q), q')).
Proof.
  intros [Hq Hi <- Hz] Hroom. destruct (post_body_put m q Hi Hroom) as (s & Hw & Hi' & Hl & Ha & Hs).
  assert (sem s = O) as Hsem by (by apply (Forall_lookup_1 _ _ _ _ Hz Hw)).
  eexists. split_and!; [|rewrite Hl; unfold put_slot; by rewrite Hsem|done|done| |exact Ha|auto].
  - constructor; simpl; [done|done|done|by apply Forall_insert].
  - simpl. by rewrite length_insert.
Qed.

Lemma thread_create_ok len cb d :
  2 <= len -> len * sizeof_cmr_msg_in < 4294967296 ->
  exists t q, cmr_thread_create len false true true true 0 cb d = Done (CMR_MSG_SUCCESS, Some t) /\
    thread_ok len t q /\ ring_list q = [] /\ p_data t = d.
Proof.
  intros Hlen Hs. destruct (cmr_create_inv len ltac:(lia) Hs) as (q0 & Hc & Hi & Ha & Hz).
  assert (Hcap : Z.to_nat (msg_count q0 - 1) = Z.to_nat (len - 1) /\ cmr_list q0 = []) by (by injection Ha).
  destruct Hcap as [Hcap Hnil]. pose proof (wf_count q0 (inv_wf q0 Hi)).
  pose proof (cmr_list_length q0 Hi) as Hn. rewrite Hnil in Hn. simpl in Hn.
  destruct (thread_ok_put len (CmrThread (Some q0) d 0) q0
    (CmrMsg CMR_THREAD_INIT_EVT 0 0 0 CMR_MSG_SYNC_PROCESSED None))
    as (q1 & [_ Hi1 Hc1 Hz1] & Hl1 & Hn1 & Hr1 & Hlen1 & _ & Hp); [constructor; try done; lia|lia|].
  assert (ring_list q0 = []) as E0 by (by apply fmap_nil_inv in Hnil). rewrite E0 in Hl1. simpl in Hl1, Hp.
  destruct (routine_round_head cb cmr_msg_zero q1 _ [] Hi1 Hl1) as (_ & _ & _ & Hrd).
  destruct (release_served _ [] q1 Hi1 Hl1) as (Hw & Hi2 & Hl2); [done|done|].
  assert (msg_write q0 = msg_read q1) as Ew.
  { rewrite (wf_write q0 (inv_wf q0 Hi)), Hr1, <- Hn. simpl. rewrite Nat.add_0_r.
    apply Nat.mod_small, wf_read, Hi. }
  eexists _, _. split_and!; [| |exact Hl2|].
  - unfold cmr_thread_create. rewrite (proj2 (Z.eqb_neq _ _)) by lia. simpl. rewrite Hc. simpl.
    rewrite Hp by done. simpl. rewrite Hrd. simpl. rewrite Ew, Hw. done.
  - constructor; simpl; [done|done|lia|by apply Forall_insert].
  - done.
Qed.

(** The messages sent one after the other. *)
Fixpoint send_all (ms : list cmr_msg) (t : option cmr_thread) : res (list Z * option cmr_thread) :=
  match ms with
  | [] => Done ([], t)
  | m :: ms =>
      '(ret, _, t) ← cmr_thread_msg_send t (Some m);
      '(rets, t) ← send_all ms t;
      Done (ret :: rets, t)
  end.

Lemma send_all_ok len ms : forall t q,
  thread_ok len t q -> Forall (fun m => sync_flag m = CMR_MSG_SYNC_NONE) ms ->
  msg_number q + Z.of_nat (length ms) < len ->
  exists t' q', send_all ms (Some t) = Done (replicate (length ms) CMR_MSG_SUCCESS, Some t') /\
    thread_ok len t' q' /\ msg_number q' = msg_number q + Z.of_nat (length ms) /\
    ring_list q' = ring_list q ++ ((fun m => CmrMsgIn m 0 (sync_flag m)) <$> ms).
Proof.
  induction ms as [|m ms IH]; intros t q Ht Hms Hroom.
  - exists t, q. rewrite app_nil_r. split_and!; [done|done|simpl; lia|done].
  - inversion_clear Hms as [|? ? Hm Hms']. simpl in Hroom.
    destruct (thread_ok_put len t q m Ht ltac:(lia)) as (q1 & Ht1 & Hl1 & Hn1 & _ & _ & Hp & _).
    destruct (IH _ q1 Ht1 Hms' ltac:(lia)) as (t' & q' & Hs & Ht' & Hn' & Hl').
    exists t', q'. split_and!; [|done|simpl; lia|].
    + simpl. rewrite (ok_queue _ _ _ Ht). simpl. rewrite (Hp Hm). simpl. by rewrite Hs.
    + by rewrite Hl', Hl1, <- app_assoc.
Qed.

Lemma thread_destroy_ok len t q cb :
  thread_ok len t q -> msg_number q + 1 < len -> Forall (plain_msg cb) (ring_list q) ->
  cmr_thread_destroy (Some t) cb =
    Done (CMR_MSG_SUCCESS, ring_list q ≫= fun s => routine_free (msg s), None).
Proof.
  intros Ht Hroom Hplain.
  destruct (thread_ok_put len t q (CmrMsg CMR_THREAD_EXIT_EVT 0 0 0 CMR_MSG_SYNC_PROCESSED None) Ht Hroom)
    as (q1 & Ht1 & Hl1 & Hn1 & Hr1 & Hlen1 & _ & Hp). simpl in Hp.
  pose proof (ring_list_length q (inv_wf q (ok_inv _ _ _ Ht))) as Hlen.
  destruct (routine_drain cb (ring_list q) cmr_msg_zero q1 _ (msg_write q) (ok_inv _ _ _ Ht1) Hl1)
    as (m' & q' & e' & Hrun & Hi' & Hw & Hs & Hl'); [done|done|done| |].
  { rewrite Hr1, Hlen1, (wf_write q (inv_wf q (ok_inv _ _ _ Ht))). do 2 f_equal. lia. }
  unfold cmr_thread_destroy, cmr_thread_msg_send. rewrite (ok_queue _ _ _ Ht). simpl.
  rewrite Hp by done. simpl. replace (Z.to_nat (msg_number q1)) with (S (length (ring_list q))) by lia.
  rewrite Hrun. simpl. erewrite slot_sem_wait_ready; [|exact Hw|by rewrite Hs]. simpl.
  rewrite (inv_magic q' Hi'). simpl. by rewrite app_nil_r.
Qed.

(** The life of a worker thread: [cmr_thread_create] with room for two messages
    returns a live thread after the worker has answered INIT; every message sent is
    accepted while there is room; [cmr_thread_destroy] returns after the worker has
    handled all of them in order, and exactly the data the senders allocated are
    freed, once each. *)
Theorem thread_lifecycle len cb d ms :
  2 <= len -> len * sizeof_cmr_msg_in < 4294967296 ->
  Forall (fun m => sync_flag m = CMR_MSG_SYNC_NONE /\
                   forall p, routine_dispatch cb (set_priv p m) <> CMR_THREAD_EXIT) ms ->
  Z.of_nat (length ms) + 1 < len ->
  exists t t', cmr_thread_create len false true true true 0 cb d = Done (CMR_MSG_SUCCESS, Some t) /\
    send_all ms (Some t) = Done (replicate (length ms) CMR_MSG_SUCCESS, Some t') /\
    cmr_thread_destroy (Some t') cb = Done (CMR_MSG_SUCCESS, ms ≫= routine_free, None).
Proof.
  intros Hlen Hs Hms Hroom. destruct (thread_create_ok len cb d Hlen Hs) as (t & q & Hc & Ht & Hl & _).
  pose proof (ring_list_length q (inv_wf q (ok_inv _ _ _ Ht))) as Hn. rewrite Hl in Hn. simpl in Hn.
  apply Forall_and in Hms as [Hsync Hplain].
  destruct (send_all_ok len ms t q Ht Hsync ltac:(lia)) as (t' & q' & Hsend & Ht' & Hn' & Hl').
  exists t, t'. split_and!; [done|done|]. rewrite Hl in Hl'. simpl in Hl'.
  rewrite (thread_destroy_ok len t' q' cb Ht'); [| lia|].
  - rewrite Hl'. do 2 f_equal. clear. f_equal. induction ms as [|m ms IH]; [done|].
    rewrite fmap_cons, !bind_cons, IH. done.
  - rewrite Hl'. apply Forall_fmap. eapply Forall_impl; [exact Hplain|]. intros m Hm p. apply Hm.
Qed.

Definition alloc_no (n : Z) : cmr_msg := CmrMsg n 0 n 1 0 None.

Lemma thread_lifecycle_witness :
  exists t t', cmr_thread_create 5 false true true true 0 (fun _ => 0) 7 = Done (CMR_MSG_SUCCESS, Some t) /\
    send_all [alloc_no 1; cmr_no 2; alloc_no 3] (Some t) = Done ([0; 0; 0], Some t') /\
    cmr_thread_destroy (Some t') (fun _ => 0) = Done (CMR_MSG_SUCCESS, [1; 3], None).
Proof.
  apply (thread_lifecycle 5 (fun _ => 0) 7 [alloc_no 1; cmr_no 2; alloc_no 3]);
    [lia|reflexivity| |reflexivity].
  repeat constructor; intros p; vm_compute; discriminate.
Defined.
