(* ===== verification/CmrThread.v ===== *)
(** * Camera message queues: posters and the worker interleaved
    (libs/libcamera/common/src/cmr_msg.c)

    Any number of threads post to a queue while the worker thread of
    [cmr_common_routine] reads it.  A step is one piece of an operation between two
    points at which another thread can come in (the pieces of [CmrMsg.v]).  The
    history of the run is kept in ghost fields: the messages accepted, the messages
    the worker took, how many of them it has acknowledged as received and as
    processed, and the data it freed. *)

From S2P Require Import Prelude MsgRing IspMsg CmrMsg.

(** A thread in [cmr_msg_post]: the write pointer is saved ([POri]), the message is
    in slot [p] as the [k]-th accepted one ([PPut]), the queue's semaphore is raised
    ([PSem]), the thread waits for its slot ([PWait]). *)
Inductive poster :=
| PIdle
| POri (m : cmr_msg) (ori : nat)
| PPut (m : cmr_msg) (k p : nat)
| PSem (m : cmr_msg) (k p : nat)
| PWait (m : cmr_msg) (k p : nat).

(** The worker: before [sem_wait]; past it; with a message taken; before and after
    the dispatch; at the end. *)
Inductive worker :=
| WGet (buf : cmr_msg)
| WSem (buf : cmr_msg)
| WGot (m : cmr_msg) (cur : option nat)
| WRun (m : cmr_msg)
| WDone (m : cmr_msg) (ret : Z)
| WExit.

Record world := World {
  wq : cmr_msg_cxt;
  posters : list poster;
  wk : worker;
  sent : list cmr_msg;
  taken : list cmr_msg;
  nrecv : nat;
  nproc : nat;
  freed : list Z
}.

Inductive label :=
| LBegin (i : nat) (m : cmr_msg)
| LPut (i : nat)
| LSignal (i : nat)
| LCheck (i : nat)
| LWake (i : nat)
| LSemWait
| LTake
| LRecv
| LRun (cb : Z)
| LAck.

Definition set_poster (w : world) (i : nat) (p : poster) (q : cmr_msg_cxt) : world :=
  World q (<[i := p]> (posters w)) (wk w) (sent w) (taken w) (nrecv w) (nproc w) (freed w).
Definition set_worker (w : world) (k : worker) (q : cmr_msg_cxt) : world :=
  World q (posters w) k (sent w) (taken w) (nrecv w) (nproc w) (freed w).

(** A step of a thread that is not at the step's point, or that waits, is [Blocks]. *)
Definition exec (l : label) (w : world) : res world :=
  match l with
  | LBegin i m =>
      match posters w !! i with
      | Some PIdle =>
          if negb (msg_magic (wq w) =? CMR_MSG_MAGIC_CODE) then Done w
          else Done (set_poster w i (POri m (msg_write (wq w))) (wq w))
      | _ => Blocks
      end
  | LPut i =>
      match posters w !! i with
      | Some (POri m ori) =>
          '(_, cur, q) ← post_locked ori m (wq w);
          match cur with
          | None => Done (set_poster w i PIdle q)
          | Some p =>
              Done (World q (<[i := PPut m (length (sent w)) p]> (posters w)) (wk w)
                      (sent w ++ [public m]) (taken w) (nrecv w) (nproc w) (freed w))
          end
      | _ => Blocks
      end
  | LSignal i =>
      match posters w !! i with
      | Some (PPut m k p) => Done (set_poster w i (PSem m k p) (sem_post (wq w)))
      | _ => Blocks
      end
  | LCheck i =>
      match posters w !! i with
      | Some (PSem m k p) =>
          wait ← post_waits p (wq w);
          Done (set_poster w i (if wait : bool then PWait m k p else PIdle) (wq w))
      | _ => Blocks
      end
  | LWake i =>
      match posters w !! i with
      | Some (PWait m k p) => q ← slot_sem_wait p (wq w); Done (set_poster w i PIdle q)
      | _ => Blocks
      end
  | LSemWait =>
      match wk w with
      | WGet buf => q ← sem_wait (wq w); Done (set_worker w (WSem buf) q)
      | _ => Blocks
      end
  | LTake =>
      match wk w with
      | WSem buf =>
          '(rtn, m, cur, q) ← get_locked buf (wq w);
          if negb (rtn =? 0) then Done (set_worker w WExit q)
          else Done (World q (posters w) (WGot m cur) (sent w) (taken w ++ [public m])
                       (nrecv w) (nproc w) (freed w))
      | _ => Blocks
      end
  | LRecv =>
      match wk w with
      | WGot m cur =>
          q ← get_received cur (wq w);
          Done (World q (posters w) (WRun m) (sent w) (taken w) (S (nrecv w)) (nproc w) (freed w))
      | _ => Blocks
      end
  | LRun cb =>
      match wk w with
      | WRun m => Done (set_worker w (WDone m (routine_dispatch (fun _ => cb) m)) (wq w))
      | _ => Blocks
      end
  | LAck =>
      match wk w with
      | WDone m ret =>
          q ← routine_ack m (wq w);
          Done (World q (posters w) (if ret =? CMR_THREAD_EXIT then WExit else WGet (routine_clear m))
                  (sent w) (taken w) (nrecv w) (S (nproc w)) (freed w ++ routine_free m))
      | _ => Blocks
      end
  end.

(** Messages carry one of the three synchronisation flags, and callbacks do not
    return the exit status. *)
Definition label_ok (l : label) : Prop :=
  match l with
  | LBegin _ m => sync_flag m = CMR_MSG_SYNC_NONE \/ sync_flag m = CMR_MSG_SYNC_RECEIVED \/
                  sync_flag m = CMR_MSG_SYNC_PROCESSED
  | LRun cb => cb <> CMR_THREAD_EXIT
  | _ => True
  end.

Definition step (w w' : world) : Prop := exists l, label_ok l /\ exec l w = Done w'.

(** A new queue with [n] threads that may post. *)
Definition start (q : cmr_msg_cxt) (n : nat) : world :=
  World q (replicate n PIdle) (WGet cmr_msg_zero) [] [] 0 0 [].

Definition reachable (count : Z) (n : nat) (w : world) : Prop :=
  exists q, cmr_msg_queue_create count true true = Done (CMR_MSG_SUCCESS, Some q) /\
    rtc step (start q n) w.

(** ** Views of the state *)

(** A slot without its semaphore. *)
Definition erase (s : cmr_msg_in) : cmr_msg * Z := (msg s, sync_f s).
Definition eslots (q : cmr_msg_cxt) : list (cmr_msg * Z) := erase <$> msg_head q.
Definition ering (q : cmr_msg_cxt) : list (cmr_msg * Z) :=
  window (eslots q) (msg_read q) (Z.to_nat (msg_number q)).

Definition is_put (p : poster) : nat := match p with PPut _ _ _ => 1%nat | _ => 0%nat end.
Definition nput (l : list poster) : nat := foldr (fun p n => (is_put p + n)%nat) 0%nat l.

Definition pend (p : poster) : option (cmr_msg * nat * nat) :=
  match p with
  | PPut m k p | PSem m k p | PWait m k p => Some (m, k, p)
  | _ => None
  end.

Definition held (k : worker) : option cmr_msg :=
  match k with WGot m _ | WRun m | WDone m _ => Some m | _ => None end.
Definition nheld (k : worker) : nat := match held k with Some _ => 1%nat | None => 0%nat end.
Definition past_recv (k : worker) : nat :=
  match k with WRun _ | WDone _ _ => 1%nat | _ => 0%nat end.
Definition past_sem (k : worker) : nat := match k with WSem _ => 1%nat | _ => 0%nat end.

(** ** The invariant *)

Section invariant.
Variable cnt : Z.

Record cinv (w : world) : Prop := {
  c_wf : ring_wf (wq w);
  c_count : msg_count (wq w) = cnt;
  c_magic : msg_magic (wq w) = CMR_MSG_MAGIC_CODE;
  c_mutex : mutex (wq w) = false;
  c_number : msg_number (wq w) = Z.of_nat (msg_sem (wq w) + nput (posters w) + past_sem (wk w));
  c_fifo : sent w = taken w ++ ((fun e => public (fst e)) <$> ering (wq w));
  c_sync : Forall (fun e => snd e = sync_flag (fst e)) (ering (wq w));
  c_held m : held (wk w) = Some m ->
    exists p m0, cmr_priv m = Some p /\ (p < length (msg_head (wq w)))%nat /\
      msg_read (wq w) = ring_next (msg_count (wq w)) p /\
      eslots (wq w) !! p = Some (m0, sync_flag m) /\ taken w !! nproc w = Some (public m);
  c_got m cur : wk w = WGot m cur -> cur = cmr_priv m;
  c_slots i x m k p : posters w !! i = Some x -> pend x = Some (m, k, p) ->
    (p < length (msg_head (wq w)))%nat;
  c_taken : length (taken w) = (nproc w + nheld (wk w))%nat;
  c_recv : nrecv w = (nproc w + past_recv (wk w))%nat;
  c_freed : freed w = take (nproc w) (taken w) ≫= routine_free
}.

(** ** Lemmas on the pieces *)

Lemma nput_insert l i a b :
  l !! i = Some a -> (nput (<[i := b]> l) + is_put a = nput l + is_put b)%nat.
Proof.
  revert i. induction l as [|x l IH]; intros [|i] Hi; simplify_eq/=; [lia|].
  specialize (IH i Hi). lia.
Qed.

Lemma nput_replicate n : nput (replicate n PIdle) = O.
Proof. by induction n. Qed.

(** A change of semaphores only. *)
Definition same_msgs (q q' : cmr_msg_cxt) : Prop :=
  exists h n, q' = set_sem n (set_head h q) /\ erase <$> h = eslots q.

Lemma same_msgs_refl q : same_msgs q q.
Proof. exists (msg_head q), (msg_sem q). by destruct q. Qed.

Lemma same_msgs_sem q n : same_msgs q (set_sem n q).
Proof. exists (msg_head q), n. by destruct q. Qed.

Lemma same_msgs_insert q p s n :
  msg_head q !! p = Some s ->
  same_msgs q (set_head (<[p := CmrMsgIn (msg s) n (sync_f s)]> (msg_head q)) q).
Proof.
  intros Hp. exists (<[p := CmrMsgIn (msg s) n (sync_f s)]> (msg_head q)), (msg_sem q). split; [done|]. rewrite list_fmap_insert. apply list_insert_id.
  unfold eslots. by rewrite list_lookup_fmap, Hp.
Qed.

Lemma slot_sem_post_ok p q s :
  msg_head q !! p = Some s ->
  slot_sem_post p q =
    Done (set_head (<[p := CmrMsgIn (msg s) (S (sem s)) (sync_f s)]> (msg_head q)) q).
Proof.
  intros Hp. unfold slot_sem_post, slot_get. rewrite Hp. simpl. unfold slot_put.
  by rewrite decide_True by (by eapply lookup_lt_Some).
Qed.

(** The acknowledgement of slot [p] for the flag [f]: both tests of the worker. *)
Definition ack (f : Z) (p : nat) (q : cmr_msg_cxt) : res cmr_msg_cxt :=
  s ← slot_get q p; if sync_f s =? f then slot_sem_post p q else Done q.

Lemma ack_ok f p q s :
  msg_head q !! p = Some s ->
  ack f p q = Done (set_head (<[p := ack_slot f s]> (msg_head q)) q).
Proof.
  intros Hp. unfold ack, slot_get. rewrite Hp. simpl. unfold ack_slot.
  destruct (sync_f s =? f); [by apply slot_sem_post_ok|].
  rewrite list_insert_id by done. by destruct q.
Qed.

Lemma ack_same f p q s :
  msg_head q !! p = Some s -> same_msgs q (set_head (<[p := ack_slot f s]> (msg_head q)) q).
Proof.
  intros Hp. pose proof (same_msgs_insert q p s) as H.
  unfold ack_slot. destruct (sync_f s =? f); [by apply H|].
  specialize (H (sem s) Hp). by destruct s.
Qed.

Lemma same_msgs_length q q' : same_msgs q q' -> length (msg_head q') = length (msg_head q).
Proof.
  intros (h & n & -> & E). simpl. apply (f_equal length) in E. unfold eslots in E. by rewrite !length_fmap in E.
Qed.

Lemma same_msgs_wf q q' : same_msgs q q' -> ring_wf q -> ring_wf q'.
Proof.
  intros H [H1 H2 H3 H4 H5]. pose proof (same_msgs_length q q' H) as E.
  destruct H as (h & n & -> & _). constructor; simpl in *; rewrite ?E; done.
Qed.

Lemma same_msgs_eslots q q' : same_msgs q q' -> eslots q' = eslots q.
Proof. by intros (h & n & -> & E). Qed.

Lemma same_msgs_ering q q' : same_msgs q q' -> ering q' = ering q.
Proof. intros H. unfold ering. rewrite (same_msgs_eslots q q' H). by destruct H as (h & n & -> & _). Qed.

Lemma same_msgs_fields q q' : same_msgs q q' ->
  msg_read q' = msg_read q /\ msg_number q' = msg_number q /\ msg_count q' = msg_count q /\
  msg_magic q' = msg_magic q /\ mutex q' = mutex q /\ msg_write q' = msg_write q.
Proof. by intros (h & n & -> & _). Qed.

(** ** The invariant is kept *)

(** Steps that move posters and semaphores. *)
Lemma cinv_posters w q' ps :
  cinv w -> same_msgs (wq w) q' ->
  (msg_sem q' + nput ps = msg_sem (wq w) + nput (posters w))%nat ->
  (forall i x m k p, ps !! i = Some x -> pend x = Some (m, k, p) -> (p < length (msg_head (wq w)))%nat) ->
  cinv (World q' ps (wk w) (sent w) (taken w) (nrecv w) (nproc w) (freed w)).
Proof.
  intros Hw Hq Hsum Hps. pose proof (same_msgs_length _ _ Hq) as El.
  pose proof (same_msgs_wf _ _ Hq (c_wf w Hw)). pose proof (same_msgs_ering _ _ Hq) as Er.
  pose proof (same_msgs_eslots _ _ Hq) as Es.
  destruct (same_msgs_fields _ _ Hq) as (E1 & E2 & E3 & E4 & E5 & _).
  destruct Hw. constructor; simpl; rewrite ?Er, ?Es, ?El, ?E1, ?E2, ?E3, ?E4, ?E5; try done. lia.
Qed.

(** Steps of the worker outside the critical section. *)
Lemma cinv_worker w q' k ta nr np fr :
  cinv w -> same_msgs (wq w) q' ->
  (msg_sem q' + past_sem k = msg_sem (wq w) + past_sem (wk w))%nat ->
  (forall m, held k = Some m -> held (wk w) = Some m /\ np = nproc w) ->
  (forall m cur, k = WGot m cur -> cur = cmr_priv m) ->
  ta = taken w -> length (taken w) = (np + nheld k)%nat -> nr = (np + past_recv k)%nat ->
  fr = take np (taken w) ≫= routine_free ->
  cinv (World q' (posters w) k (sent w) ta nr np fr).
Proof.
  intros Hw Hq Hsum Hk Hgot -> Hta Hnr Hfr. pose proof (same_msgs_length _ _ Hq) as El.
  pose proof (same_msgs_wf _ _ Hq (c_wf w Hw)). pose proof (same_msgs_ering _ _ Hq) as Er.
  pose proof (same_msgs_eslots _ _ Hq) as Es.
  destruct (same_msgs_fields _ _ Hq) as (E1 & E2 & E3 & E4 & E5 & _).
  destruct Hw. constructor; simpl; rewrite ?Er, ?Es, ?El, ?E1, ?E2, ?E3, ?E4, ?E5; try done; [lia|].
  intros m Hm. destruct (Hk m Hm) as [Hm' ->]. by apply c_held0.
Qed.

Lemma ering_ring q : ering q = erase <$> ring_list q.
Proof. unfold ering, ring_list, eslots. by rewrite window_fmap. Qed.

(** A message is put. *)
Lemma cinv_put w i m ori :
  cinv w -> posters w !! i = Some (POri m ori) -> msg_number (wq w) + 1 < msg_count (wq w) ->
  exists s, msg_head (wq w) !! msg_write (wq w) = Some s /\
    let w' := World (put_state (put_slot m s) (wq w))
                (<[i := PPut m (length (sent w)) (msg_write (wq w))]> (posters w)) (wk w)
                (sent w ++ [public m]) (taken w) (nrecv w) (nproc w) (freed w) in
    exec (LPut i) w = Done w' /\ cinv w'.
Proof.
  intros Hw Hi Hroom.
  destruct (post_locked_room ori m (wq w) (c_wf w Hw) (c_mutex w Hw) Hroom) as (s & Hs & Hp).
  exists s. split; [done|]. split; [simpl; rewrite Hi, Hp; done|].
  pose proof (ring_put (put_slot m s) (wq w) (c_wf w Hw) Hroom) as (Hwf & Hl & Hne).
  pose proof (ring_write_bound (wq w) (c_wf w Hw)) as Hb.
  assert (ering (put_state (put_slot m s) (wq w)) = ering (wq w) ++ [(m, sync_flag m)]) as Er
    by (by rewrite !ering_ring, Hl, fmap_app).
  pose proof (nput_insert (posters w) i _ (PPut m (length (sent w)) (msg_write (wq w))) Hi) as Hn.
  simpl in Hn. destruct Hw. constructor; cbn [wq posters wk sent taken nrecv nproc freed]; try done.
  - change (msg_number (put_state (put_slot m s) (wq w))) with (msg_number (wq w) + 1).
    change (msg_sem (put_state (put_slot m s) (wq w))) with (msg_sem (wq w)). lia.
  - by rewrite Er, fmap_app, app_assoc, <- c_fifo0.
  - rewrite Er. apply Forall_app. by repeat constructor.
  - intros m' Hm'. destruct (c_held0 m' Hm') as (p & m0 & Hpr & Hp' & Hr & He & Ht).
    exists p, m0. split_and!; try done; [simpl; by rewrite length_insert|].
    unfold eslots. simpl. rewrite list_fmap_insert, list_lookup_insert_ne; [done|].
    intros E. apply Hne. by rewrite E, Hr.
  - intros j x m' k p Hj Hx. simpl. rewrite length_insert.
    destruct (decide (i = j)) as [->|].
    + rewrite list_lookup_insert_eq in Hj by (by eapply lookup_lt_Some). by simplify_eq/=.
    + rewrite list_lookup_insert_ne in Hj by done. by eapply c_slots0.
Qed.

(** A message is taken: the worker past the semaphore always finds one. *)
Lemma cinv_take w buf :
  cinv w -> wk w = WSem buf ->
  exists s, msg_head (wq w) !! msg_read (wq w) = Some s /\
    let m := set_priv (Some (msg_read (wq w))) (msg s) in
    let w' := World (take_state (clear_slot s) (wq w)) (posters w) (WGot m (cmr_priv m)) (sent w)
                (taken w ++ [public m]) (nrecv w) (nproc w) (freed w) in
    exec LTake w = Done w' /\ cinv w'.
Proof.
  intros Hw Hk. pose proof (c_number w Hw) as Hn. rewrite Hk in Hn. simpl in Hn.
  destruct (get_locked_head buf (wq w) (c_wf w Hw) (c_mutex w Hw)) as (s & Hs & Hg); [lia|].
  exists s. split; [done|]. split; [simpl; rewrite Hk, Hg; done|].
  destruct (ring_take (clear_slot s) (wq w) (c_wf w Hw)) as (x & Hx & Hwf & Hl & _); [lia|].
  assert (x = s) as -> by congruence.
  assert (ering (wq w) = erase s :: ering (take_state (clear_slot s) (wq w))) as Er
    by (by rewrite !ering_ring, Hl).
  destruct Hw. constructor; cbn [wq posters wk sent taken nrecv nproc freed held]; try done.
  - change (msg_number (take_state (clear_slot s) (wq w))) with (msg_number (wq w) - 1).
    change (msg_sem (take_state (clear_slot s) (wq w))) with (msg_sem (wq w)). simpl. lia.
  - by rewrite c_fifo0, Er, <- app_assoc.
  - rewrite Er in c_sync0. by inversion c_sync0.
  - intros m' [= <-]. rewrite Er in c_sync0. inversion c_sync0 as [|? ? Hsy]. simpl in Hsy.
    pose proof (wf_read _ c_wf0) as Hb.
    exists (msg_read (wq w)), cmr_msg_zero. split_and!; [done|simpl; by rewrite length_insert|done| |].
    + unfold eslots. simpl. rewrite list_lookup_fmap, list_lookup_insert_eq by done. simpl.
      unfold erase, clear_slot. simpl. by rewrite Hsy.
    + rewrite Hk in c_taken0. rewrite lookup_app_r by (unfold nheld in *; simpl in *; lia).
      unfold nheld in *. simpl in *. by replace (nproc w - length (taken w))%nat with O by lia.
  - by intros m' cur [= <- <-].
  - intros j y m' k p. simpl. rewrite length_insert. by apply c_slots0.
  - rewrite length_app, c_taken0, Hk. unfold nheld. simpl. lia.
  - by rewrite c_recv0, Hk.
  - rewrite c_freed0, take_app_le; [done|]. lia.
Qed.

(** The slot of the message in the worker's hands still belongs to it. *)
Lemma held_slot w m :
  cinv w -> held (wk w) = Some m ->
  exists p s, cmr_priv m = Some p /\ msg_head (wq w) !! p = Some s /\ sync_f s = sync_flag m /\
    msg_read (wq w) = ring_next (msg_count (wq w)) p /\ taken w !! nproc w = Some (public m).
Proof.
  intros Hw Hm. destruct (c_held w Hw m Hm) as (p & m0 & Hp & _ & Hr & He & Ht).
  unfold eslots in He. rewrite list_lookup_fmap in He.
  destruct (msg_head (wq w) !! p) as [s|] eqn:E; simplify_eq/=. unfold erase in He. simplify_eq.
  exists p, s. done.
Qed.

(** The two acknowledgements of the worker. *)
Lemma cinv_recv w m cur :
  cinv w -> wk w = WGot m cur ->
  exists p s, cur = Some p /\ msg_head (wq w) !! p = Some s /\ sync_f s = sync_flag m /\
    let w' := World (set_head (<[p := ack_slot CMR_MSG_SYNC_RECEIVED s]> (msg_head (wq w))) (wq w))
                (posters w) (WRun m) (sent w) (taken w) (S (nrecv w)) (nproc w) (freed w) in
    exec LRecv w = Done w' /\ cinv w'.
Proof.
  intros Hw Hk. destruct (held_slot w m Hw) as (p & s & Hp & Hs & Hf & _); [by rewrite Hk|].
  pose proof (c_got w Hw m cur Hk) as ->. exists p, s. split_and!; [done|done|done|].
  split.
  - simpl. rewrite Hk, Hp. pose proof (ack_ok CMR_MSG_SYNC_RECEIVED p (wq w) s Hs) as E.
    unfold ack in E. cbn [get_received]. rewrite E. done.
  - pose proof (c_taken w Hw). pose proof (c_recv w Hw). rewrite Hk in *.
    apply cinv_worker; try done; [by apply ack_same|by rewrite Hk| |simpl in *; lia|apply (c_freed w Hw)].
    by rewrite Hk.
Qed.

Lemma cinv_ack w m ret :
  cinv w -> wk w = WDone m ret ->
  exists p s, cmr_priv m = Some p /\ msg_head (wq w) !! p = Some s /\ sync_f s = sync_flag m /\
    let w' := World (set_head (<[p := ack_slot CMR_MSG_SYNC_PROCESSED s]> (msg_head (wq w))) (wq w))
                (posters w) (if ret =? CMR_THREAD_EXIT then WExit else WGet (routine_clear m))
                (sent w) (taken w) (nrecv w) (S (nproc w)) (freed w ++ routine_free m) in
    exec LAck w = Done w' /\ cinv w'.
Proof.
  intros Hw Hk. destruct (held_slot w m Hw) as (p & s & Hp & Hs & Hf & _ & Ht); [by rewrite Hk|].
  exists p, s. split_and!; [done|done|done|]. split.
  - simpl. rewrite Hk. unfold routine_ack. rewrite Hp.
    pose proof (ack_ok CMR_MSG_SYNC_PROCESSED p (wq w) s Hs) as E. unfold ack in E. rewrite E. done.
  - pose proof (c_taken w Hw) as Hta. pose proof (c_recv w Hw) as Hre. rewrite Hk in *.
    unfold nheld in Hta. simpl in Hta, Hre.
    apply cinv_worker; try done; [by apply ack_same|rewrite Hk| | | | |];
      destruct (ret =? CMR_THREAD_EXIT); try done; unfold nheld; simpl; try lia.
    all: rewrite (take_S_r _ _ _ Ht), bind_app, <- (c_freed w Hw); by rewrite bind_cons, app_nil_r.
Qed.

(** A poster moves on. *)
Lemma cinv_move w i x y q' :
  cinv w -> posters w !! i = Some x -> same_msgs (wq w) q' ->
  (msg_sem q' + is_put y = msg_sem (wq w) + is_put x)%nat ->
  (forall m k p, pend y = Some (m, k, p) -> (p < length (msg_head (wq w)))%nat) ->
  cinv (set_poster w i y q').
Proof.
  intros Hw Hi Hq Hsum Hy. pose proof (nput_insert _ i _ y Hi).
  apply cinv_posters; [done|done|lia|].
  intros j z m k p [(<- & <- & ?)|[? Hj]]%list_lookup_insert_Some Hz; [by eapply Hy|by eapply (c_slots w Hw)].
Qed.

(** Every step keeps the invariant, and no step leaves the slots. *)
Definition kept (r : res world) : Prop := r <> Undef /\ forall w', r = Done w' -> cinv w'.

Lemma kept_done w : cinv w -> kept (Done w).
Proof. intros H. split; [done|]. by intros w' [= <-]. Qed.
Lemma kept_blocks : kept Blocks.
Proof. by split. Qed.
#[local] Hint Resolve kept_done kept_blocks : core.

Lemma kept_poster l i w :
  cinv w -> l = LPut i \/ l = LSignal i \/ l = LCheck i \/ l = LWake i \/ (exists m, l = LBegin i m) ->
  kept (exec l w).
Proof.
  intros Hw Hl. destruct (posters w !! i) as [x|] eqn:Hi;
    [|destruct Hl as [->|[->|[->|[->|[m ->]]]]]; simpl; rewrite Hi; auto].
  assert (Hslot : forall m k p, pend x = Some (m, k, p) -> exists s, msg_head (wq w) !! p = Some s).
  { intros m k p Hx. exact (lookup_lt_is_Some_2 _ _ (c_slots w Hw _ _ _ _ _ Hi Hx)). }
  destruct Hl as [->|[->|[->|[->|[m ->]]]]]; simpl; rewrite Hi; destruct x as [|m' ori|m' k p|m' k p|m' k p];
    auto.
  - destruct (decide (msg_number (wq w) + 1 < msg_count (wq w))) as [Hroom|Hfull].
    + destruct (cinv_put w i m' ori Hw Hi Hroom) as (s & _ & He & Hc). simpl in He. rewrite Hi in He.
      rewrite He. auto.
    + rewrite post_locked_full by (try done; apply Hw). simpl. apply kept_done.
      eapply cinv_move; [done|exact Hi|apply same_msgs_refl|done|done].
  - apply kept_done. eapply cinv_move; [done|exact Hi|apply same_msgs_sem|simpl; lia|].
    intros ? ? ? [= <- <- <-]. destruct (Hslot _ _ _ eq_refl) as [s Hs]. by eapply lookup_lt_Some.
  - destruct (Hslot _ _ _ eq_refl) as [s Hs]. unfold post_waits, slot_get. rewrite Hs. simpl.
    apply kept_done. eapply cinv_move; [done|exact Hi|apply same_msgs_refl|by destruct (negb _)|]. destruct (negb _); [|done].
    intros ? ? ? [= <- <- <-]. by eapply lookup_lt_Some.
  - destruct (Hslot _ _ _ eq_refl) as [s Hs]. destruct (decide (sem s = O)) as [E|E].
    + unfold slot_sem_wait, slot_get. rewrite Hs. simpl. rewrite E. auto.
    + rewrite (slot_sem_wait_ready p _ s Hs E). simpl. apply kept_done.
      eapply cinv_move; [done|exact Hi|by apply same_msgs_insert|done|done].
  - rewrite (c_magic w Hw). simpl. apply kept_done. eapply cinv_move; [done|exact Hi|apply same_msgs_refl|done|done].
Qed.

Lemma kept_worker l w :
  cinv w -> l = LSemWait \/ l = LTake \/ l = LRecv \/ l = LAck \/ (exists cb, l = LRun cb) ->
  kept (exec l w).
Proof.
  intros Hw Hl. pose proof (c_taken w Hw) as Ht. pose proof (c_recv w Hw) as Hr.
  destruct Hl as [->|[->|[->|[->|[cb ->]]]]]; simpl; destruct (wk w) as [b|b|m cur|m|m ret|] eqn:Hk; auto;
    rewrite ?Hk in Ht, Hr.
  - unfold sem_wait. destruct (msg_sem (wq w)) as [|n] eqn:Es; [simpl; auto|]. apply kept_done.
    apply cinv_worker; try done; [apply same_msgs_sem|rewrite Hk; simpl; lia|apply (c_freed w Hw)].
  - destruct (cinv_take w b Hw Hk) as (s & _ & He & Hc). simpl in He. rewrite Hk in He. rewrite He. auto.
  - destruct (cinv_recv w m cur Hw Hk) as (p & s & _ & _ & _ & He & Hc). simpl in He. rewrite Hk in He.
    rewrite He. auto.
  - destruct (cinv_ack w m ret Hw Hk) as (p & s & _ & _ & _ & He & Hc). simpl in He. rewrite Hk in He.
    rewrite He. auto.
  - apply kept_done.
    apply cinv_worker; try done; [apply same_msgs_refl|by rewrite Hk|by rewrite Hk|apply (c_freed w Hw)].
Qed.

Lemma cinv_exec l w : cinv w -> kept (exec l w).
Proof.
  intros Hw. destruct l;
    first [by apply kept_worker; eauto 8|by eapply kept_poster; [done|]; eauto 8].
Qed.

End invariant.

Lemma cinv_start count n :
  0 < count -> count * sizeof_cmr_msg_in < 4294967296 ->
  exists q, cmr_msg_queue_create count true true = Done (CMR_MSG_SUCCESS, Some q) /\
    cinv count (start q n) /\ Forall (fun s => sem s = O) (msg_head q).
Proof.
  intros Hc Hs. destruct (cmr_create_inv count Hc Hs) as (q & Hcr & [Hwf Hm Hmu Hsem] & Ha & Hz).
  exists q. split; [done|]. injection Ha as Hcap Hl. pose proof (wf_count q Hwf).
  assert (ering q = []) as Er by (rewrite ering_ring; by apply fmap_nil_inv in Hl as ->).
  assert (msg_number q = 0) as Hn
    by (pose proof (ring_list_length q Hwf) as E; apply fmap_nil_inv in Hl; rewrite Hl in E; simpl in E; lia).
  split; [|done]. constructor; simpl; rewrite ?Er; try done.
  - lia.
  - rewrite nput_replicate. lia.
  - intros i x m k p Hi Hx. apply lookup_replicate in Hi as [-> _]. done.
Qed.

Lemma steps_cinv count w w' : cinv count w -> rtc step w w' -> cinv count w'.
Proof.
  intros Hi Hr. revert Hi. induction Hr as [|w1 w2 w3 (l & _ & He) _ IH]; [done|].
  intros Hi. apply IH. by eapply (cinv_exec count l w1 Hi).
Qed.

Lemma reachable_cinv count n w :
  0 < count -> count * sizeof_cmr_msg_in < 4294967296 -> reachable count n w -> cinv count w.
Proof.
  intros Hc Hs (q & Hq & Hr). destruct (cinv_start count n Hc Hs) as (q' & Hq' & Hi & _).
  assert (q' = q) as -> by congruence. by eapply steps_cinv.
Qed.

Lemma ering_length q : ring_wf q -> Z.of_nat (length (ering q)) = msg_number q.
Proof. intros. rewrite ering_ring, length_fmap. by apply ring_list_length. Qed.

(** C7: In every interleaving of any number of posting threads with the worker, the
    worker takes the accepted messages in the order in which they were accepted and
    the queue never holds more than [count - 1]; no step touches memory outside the
    slots; a worker past the semaphore always finds a message, so it never reports
    an underflow and does not end on it; and the data it frees are exactly those the
    senders of the processed messages allocated, once each. *)
Theorem worker_fifo count n w :
  0 < count -> count * sizeof_cmr_msg_in < 4294967296 -> reachable count n w ->
  (exists rest, sent w = taken w ++ rest /\ Z.of_nat (length rest) <= count - 1) /\
  (forall l, exec l w <> Undef) /\
  (forall buf, wk w = WSem buf -> exists w' m cur, exec LTake w = Done w' /\ wk w' = WGot m cur) /\
  freed w = take (nproc w) (taken w) ≫= routine_free.
Proof.
  intros Hc Hs Hr. pose proof (reachable_cinv count n w Hc Hs Hr) as Hi. split_and!.
  - eexists. split; [apply (c_fifo count w Hi)|]. rewrite length_fmap, ering_length by apply Hi.
    pose proof (wf_number _ (c_wf count w Hi)). pose proof (c_count count w Hi). lia.
  - intros l. apply (cinv_exec count l w Hi).
  - intros buf Hk. destruct (cinv_take count w buf Hi Hk) as (s & _ & He & _). rewrite He. by eexists _, _, _.
  - apply (c_freed count w Hi).
Qed.

(** *** Runs *)

Fixpoint run (ls : list label) (w : world) : res world :=
  match ls with
  | [] => Done w
  | l :: ls => w ← exec l w; run ls w
  end.

Lemma run_steps ls w w' : Forall label_ok ls -> run ls w = Done w' -> rtc step w w'.
Proof.
  intros Hls. revert w. induction Hls as [|l ls Hl _ IH]; simpl; intros w Hr; [by simplify_eq|].
  destruct (exec l w) as [w1| |] eqn:E; try done. eapply rtc_l; [|by apply IH]. by exists l.
Qed.

Lemma run_reachable count n ls q w :
  cmr_msg_queue_create count true true = Done (CMR_MSG_SUCCESS, Some q) ->
  Forall label_ok ls -> run ls (start q n) = Done w -> reachable count n w.
Proof. intros Hq Hls Hr. exists q. eauto using run_steps. Qed.

Definition queue_of (count : nat) : cmr_msg_cxt :=
  MsgCxt false 0 (Z.of_nat count) 0 CMR_MSG_MAGIC_CODE (replicate count cmr_msg_in_zero) 0 0.

Definition sync_no (n f : Z) : cmr_msg := CmrMsg n 0 0 0 f None.

(** Two threads post to a queue of two messages and the worker takes the first. *)
Definition demo_run : list label :=
  [LBegin 0 (alloc_no 1); LBegin 1 (sync_no 2 2); LPut 1; LPut 0; LSignal 1; LSemWait; LTake; LCheck 1; LSignal 0].
Definition demo : world :=
  Eval vm_compute in match run demo_run (start (queue_of 3) 2) with Done w => w | _ => start (queue_of 3) 2 end.

Lemma worker_fifo_witness :
  (exists rest, sent demo = taken demo ++ rest /\ Z.of_nat (length rest) <= 3 - 1) /\
  (forall l, exec l demo <> Undef) /\
  (forall buf, wk demo = WSem buf -> exists w' m cur, exec LTake demo = Done w' /\ wk w' = WGot m cur) /\
  freed demo = take (nproc demo) (taken demo) ≫= routine_free.
Proof.
  apply (worker_fifo 3 2 demo); [reflexivity|reflexivity|].
  apply (run_reachable 3 2 demo_run (queue_of 3)); [reflexivity| |reflexivity].
  unfold demo_run. repeat (apply Forall_cons_2; [vm_compute; auto|]). apply Forall_nil_2.
Defined.

(** ** Synchronous posts

    [ackd w f j]: the worker has acknowledged the [j]-th message, sent with flag
    [f]. *)
Definition ackd (w : world) (f : Z) (j : nat) : bool :=
  ((f =? CMR_MSG_SYNC_RECEIVED) && (j <? nrecv w)%nat) ||
  ((f =? CMR_MSG_SYNC_PROCESSED) && (j <? nproc w)%nat).

(** What the semaphore of slot [i] is, with one posting thread [x]. *)
Definition semval (w : world) (x : poster) (i : nat) : nat :=
  match pend x with
  | Some (m, k, p) => if decide (i = p) then (if ackd w (sync_flag m) k then 1%nat else 0%nat) else 0%nat
  | None => 0%nat
  end.

(** One posting thread [x] and the worker. *)
Record hinv (w : world) (x : poster) : Prop := {
  h_one : posters w = [x];
  h_pend m k p : pend x = Some (m, k, p) ->
    sent w !! k = Some (public m) /\ S k = length (sent w) /\
    ring_next (msg_count (wq w)) p = msg_write (wq w) /\
    exists m0, eslots (wq w) !! p = Some (m0, sync_flag m);
  h_wait m k p : x = PWait m k p -> sync_flag m <> CMR_MSG_SYNC_NONE;
  h_flag m ori : x = POri m ori ->
    sync_flag m = CMR_MSG_SYNC_NONE \/ sync_flag m = CMR_MSG_SYNC_RECEIVED \/ sync_flag m = CMR_MSG_SYNC_PROCESSED;
  h_flags : Forall (fun m => sync_flag m = CMR_MSG_SYNC_NONE \/ sync_flag m = CMR_MSG_SYNC_RECEIVED \/
                             sync_flag m = CMR_MSG_SYNC_PROCESSED) (sent w);
  h_acked j m : sent w !! j = Some m -> sync_flag m <> CMR_MSG_SYNC_NONE ->
    (forall m' k p, pend x = Some (m', k, p) -> j <> k) -> ackd w (sync_flag m) j = true;
  h_sems i s : msg_head (wq w) !! i = Some s -> sem s = semval w x i
}.

Lemma ring_next_inj (c p p' : nat) :
  (p < c)%nat -> (p' < c)%nat -> ring_next (Z.of_nat c) p = ring_next (Z.of_nat c) p' -> p = p'.
Proof.
  intros H H' E. rewrite !ring_next_mod, !ring_mod in E by lia. repeat case_decide; lia.
Qed.

(** The poster that waits for the message in the worker's hands waits on its slot. *)
Lemma pend_held cnt w x m m' p p' :
  cinv cnt w -> hinv w x -> held (wk w) = Some m -> cmr_priv m = Some p ->
  pend x = Some (m', nproc w, p') -> p' = p /\ sync_flag m' = sync_flag m.
Proof.
  intros Hc Hh Hm Hp Hx. destruct (held_slot cnt w m Hc Hm) as (p0 & s & Hp0 & Hs & _ & Hr & Ht).
  assert (p0 = p) as -> by congruence. destruct (h_pend w x Hh _ _ _ Hx) as (Hk & Hlast & Hw & m0 & He).
  assert (m' = m' /\ public m' = public m) as [_ Epub].
  { split; [done|]. rewrite (c_fifo cnt w Hc), lookup_app_l in Hk by (by eapply lookup_lt_Some). congruence. }
  split; [|by injection Epub].
  assert (msg_number (wq w) = 0) as Hn.
  { rewrite <- ering_length by apply Hc. pose proof (c_taken cnt w Hc) as Hta.
    unfold nheld in Hta. rewrite Hm in Hta. rewrite (c_fifo cnt w Hc), length_app, length_fmap in Hlast. lia. }
  assert (msg_write (wq w) = msg_read (wq w)) as Ew.
  { rewrite (wf_write _ (c_wf cnt w Hc)), Hn. simpl. rewrite Nat.add_0_r. apply Nat.mod_small, wf_read, Hc. }
  rewrite Ew, Hr, <- (wf_length _ (c_wf cnt w Hc)) in Hw. eapply ring_next_inj; [| |exact Hw].
  - apply lookup_lt_Some in He. unfold eslots in He. by rewrite length_fmap in He.
  - by eapply lookup_lt_Some.
Qed.

(** An acknowledgement by the worker: [f] is the flag it tests for. *)
Section ack.
Context (cnt : Z) (w w' : world) (x : poster) (m : cmr_msg) (p : nat) (s : cmr_msg_in) (f : Z).
Hypothesis Hc : cinv cnt w.
Hypothesis Hh : hinv w x.
Hypothesis Hm : held (wk w) = Some m.
Hypothesis Hp : cmr_priv m = Some p.
Hypothesis Hs : msg_head (wq w) !! p = Some s.
Hypothesis Hf : sync_f s = sync_flag m.
Hypothesis Hne : f <> CMR_MSG_SYNC_NONE.
Hypothesis Hno : ackd w f (nproc w) = false.
Hypothesis Hq : wq w' = set_head (<[p := ack_slot f s]> (msg_head (wq w))) (wq w).
Hypothesis Hps : posters w' = posters w.
Hypothesis Hsent : sent w' = sent w.
Hypothesis Hack : forall f' j, ackd w' f' j = ackd w f' j || ((f' =? f) && (j =? nproc w)%nat).

(** If the worker releases the slot, the poster is the one that waits for it. *)
Lemma ack_waiter : sync_flag m = f -> exists m', pend x = Some (m', nproc w, p) /\ sync_flag m' = f.
Proof.
  intros Ef. destruct (held_slot cnt w m Hc Hm) as (_ & _ & _ & _ & _ & _ & Ht).
  assert (sent w !! nproc w = Some (public m)) as Hsn.
  { rewrite (c_fifo cnt w Hc), lookup_app_l; [done|by eapply lookup_lt_Some]. }
  destruct (pend x) as [[[m' k] p']|] eqn:Hx.
  - destruct (decide (k = nproc w)) as [->|Hk].
    + destruct (pend_held cnt w x m m' p p' Hc Hh Hm Hp Hx) as [-> E]. exists m'. by rewrite E.
    + assert (ackd w (sync_flag (public m)) (nproc w) = true) as Ha; [|simpl in Ha; congruence].
      apply (h_acked w x Hh _ _ Hsn); [simpl; congruence|]. rewrite Hx. by intros ? ? ? [= <- <- <-].
  - assert (ackd w (sync_flag (public m)) (nproc w) = true) as Ha; [|simpl in Ha; congruence].
    apply (h_acked w x Hh _ _ Hsn); [simpl; congruence|]. by rewrite Hx.
Qed.

Lemma semval_other : sync_flag m <> f -> forall i, semval w' x i = semval w x i.
Proof.
  intros Ef i. unfold semval. destruct (pend x) as [[[m' k] p']|] eqn:Hx; [|done].
  case_decide; [|done]. rewrite Hack.
  destruct ((sync_flag m' =? f) && (k =? nproc w)%nat) eqn:Ek; [|by rewrite orb_false_r].
  apply andb_true_iff in Ek as [E%Z.eqb_eq ->%Nat.eqb_eq].
  destruct (pend_held cnt w x m m' p p' Hc Hh Hm Hp Hx) as [_ E']. congruence.
Qed.

Lemma ack_sems i s' : msg_head (wq w') !! i = Some s' -> sem s' = semval w' x i.
Proof.
  rewrite Hq. simpl. unfold ack_slot. rewrite Hf. destruct (Z.eqb_spec (sync_flag m) f) as [Ef|Ef].
  - destruct (ack_waiter Ef) as (m' & Hx & Em'). intros [(<- & <- & _)|[Hip Hi]]%list_lookup_insert_Some.
    + simpl. rewrite (h_sems w x Hh _ _ Hs). unfold semval. rewrite Hx, !decide_True by done.
      by rewrite Hack, Em', Hno, Z.eqb_refl, Nat.eqb_refl.
    + rewrite (h_sems w x Hh _ _ Hi). unfold semval. rewrite Hx. by rewrite !decide_False by done.
  - rewrite list_insert_id by done. intros Hi. rewrite semval_other by done. by apply (h_sems w x Hh).
Qed.

Lemma hinv_ack : hinv w' x.
Proof.
  pose proof (ack_same f p (wq w) s Hs) as Hsame. rewrite <- Hq in Hsame.
  destruct (same_msgs_fields _ _ Hsame) as (E1 & E2 & E3 & E4 & E5 & E6).
  pose proof Hh as [H1 H2 H3 H4 H5 H6 H7]. constructor.
  - by rewrite Hps.
  - intros m' k p' Hx. rewrite Hsent, E3, E6, (same_msgs_eslots _ _ Hsame). by apply H2.
  - done.
  - done.
  - by rewrite Hsent.
  - intros j m' Hj Hsy Hx. rewrite Hsent in Hj. rewrite Hack, (H6 j m' Hj Hsy Hx). done.
  - apply ack_sems.
Qed.

End ack.

(** Steps that leave the slots and the history. *)
Lemma hinv_frame w w' x x' :
  hinv w x -> posters w' = [x'] -> pend x' = pend x ->
  msg_head (wq w') = msg_head (wq w) -> msg_write (wq w') = msg_write (wq w) ->
  msg_count (wq w') = msg_count (wq w) -> sent w' = sent w -> nrecv w' = nrecv w -> nproc w' = nproc w ->
  (forall m k p, x' = PWait m k p -> sync_flag m <> CMR_MSG_SYNC_NONE) ->
  (forall m ori, x' = POri m ori -> sync_flag m = CMR_MSG_SYNC_NONE \/
     sync_flag m = CMR_MSG_SYNC_RECEIVED \/ sync_flag m = CMR_MSG_SYNC_PROCESSED) ->
  hinv w' x'.
Proof.
  intros [H1 H2 H3 H4 H5 H6 H7] Ep Ex Eh Ew Ec Es Er En Hwait Hori.
  assert (forall f j, ackd w' f j = ackd w f j) as Ea by (intros; unfold ackd; by rewrite Er, En).
  constructor; try done; rewrite ?Es, ?Ex; unfold eslots in *; rewrite ?Eh, ?Ew, ?Ec; try done.
  - intros j m. rewrite Ea. apply H6.
  - intros i s Hi. unfold semval. rewrite Ex. rewrite (H7 i s Hi). unfold semval.
    destruct (pend x) as [[[m k] p]|]; [|done]. by rewrite Ea.
Qed.

(** The poster leaves: all messages are acknowledged or need not be. *)
Lemma hinv_idle w w' x m k p q :
  hinv w x -> pend x = Some (m, k, p) -> posters w' = [PIdle] -> wq w' = q ->
  sent w' = sent w -> nrecv w' = nrecv w -> nproc w' = nproc w ->
  (sync_flag m <> CMR_MSG_SYNC_NONE -> ackd w (sync_flag m) k = true) ->
  (forall i s, msg_head q !! i = Some s -> sem s = O) -> hinv w' PIdle.
Proof.
  intros [H1 H2 H3 H4 H5 H6 H7] Hx Ep Eq Es Er En Hm Hz.
  assert (forall f j, ackd w' f j = ackd w f j) as Ea by (intros; unfold ackd; by rewrite Er, En).
  constructor; try done; rewrite ?Es; try done.
  - intros j m' Hj Hs _. rewrite Ea. destruct (decide (j = k)) as [->|Hk].
    + destruct (H2 m k p Hx) as (Hsent & _). rewrite Hsent in Hj. injection Hj as <-. by apply Hm.
    + apply (H6 _ _ Hj Hs). rewrite Hx. by intros ? ? ? [= <- <- <-].
  - intros i s Hi. rewrite Eq in Hi. by apply (Hz i).
Qed.

Lemma hinv_put cnt w m ori s :
  cinv cnt w -> hinv w (POri m ori) -> msg_head (wq w) !! msg_write (wq w) = Some s ->
  let x' := PPut m (length (sent w)) (msg_write (wq w)) in
  hinv (World (put_state (put_slot m s) (wq w)) [x'] (wk w) (sent w ++ [public m]) (taken w)
          (nrecv w) (nproc w) (freed w)) x'.
Proof.
  intros Hc [H1 H2 H3 H4 H5 H6 H7] Hs x'. pose proof (lookup_lt_Some _ _ _ Hs) as Hb. constructor; try done.
  - intros m' k p [= <- <- <-]. cbn [sent wq]. split_and!.
    + by rewrite lookup_app_r, Nat.sub_diag by lia.
    + rewrite length_app. simpl. lia.
    + done.
    + exists m. unfold eslots. simpl. by rewrite list_lookup_fmap, list_lookup_insert_eq.
  - apply Forall_app. split; [done|]. apply Forall_singleton. by apply (H4 m ori).
  - intros j m' Hj Hsy Hk. cbn [sent] in Hj. apply lookup_app_Some in Hj as [Hj|[Hge Hj]].
    + change (ackd w (sync_flag m') j = true). by apply H6.
    + exfalso. apply list_lookup_singleton_Some in Hj as [Hj _]. apply (Hk m (length (sent w)) (msg_write (wq w))); [done|lia].
  - intros i s' Hi. cbn [wq] in Hi. unfold put_state in Hi. simpl in Hi.
    assert (sem s' = O) as ->.
    { apply list_lookup_insert_Some in Hi as [(<- & <- & _)|[_ Hi]]; [exact (H7 _ _ Hs)|exact (H7 _ _ Hi)]. }
    unfold semval. simpl. case_decide; [|done].
    assert (ackd w (sync_flag m) (length (sent w)) = false) as Ha.
    { pose proof (c_taken cnt w Hc) as Ht. pose proof (c_recv cnt w Hc) as Hr.
      assert (length (taken w) <= length (sent w))%nat
        by (rewrite (c_fifo cnt w Hc), length_app; lia).
      assert (past_recv (wk w) <= nheld (wk w))%nat by (by destruct (wk w); simpl; unfold nheld; simpl; lia).
      unfold ackd. rewrite !(proj2 (Nat.ltb_ge _ _)) by lia. by rewrite !andb_false_r. }
    unfold ackd in *. simpl. by rewrite Ha.
Qed.

Lemma hinv_take w x s m q :
  hinv w x -> msg_head (wq w) !! msg_read (wq w) = Some s -> q = take_state (clear_slot s) (wq w) ->
  hinv (World q (posters w) (WGot m (cmr_priv m)) (sent w) (taken w ++ [public m]) (nrecv w) (nproc w) (freed w)) x.
Proof.
  intros [H1 H2 H3 H4 H5 H6 H7] Hs ->. constructor; try done.
  - intros m' k p Hx. destruct (H2 m' k p Hx) as (? & ? & ? & m0 & He). split_and!; try done.
    unfold eslots in *. simpl. rewrite list_fmap_insert. destruct (decide (msg_read (wq w) = p)) as [<-|Hne].
    + rewrite list_lookup_fmap, Hs in He. simpl in He. injection He as _ <-. exists cmr_msg_zero.
      rewrite list_lookup_insert_eq; [done|]. rewrite length_fmap. by eapply lookup_lt_Some.
    + exists m0. by rewrite list_lookup_insert_ne.
  - intros i s' Hi. unfold take_state in Hi. simpl in Hi.
    apply list_lookup_insert_Some in Hi as [(<- & <- & _)|[_ Hi]]; [exact (H7 _ _ Hs)|exact (H7 _ _ Hi)].
Qed.

Lemma hinv_worker cnt l w w' x :
  cinv cnt w -> hinv w x ->
  l = LSemWait \/ l = LTake \/ l = LRecv \/ l = LAck \/ (exists cb, l = LRun cb) ->
  exec l w = Done w' -> hinv w' x.
Proof.
  intros Hc Hh Hl He. pose proof (c_recv cnt w Hc) as Hr.
  destruct Hl as [->|[->|[->|[->|[cb ->]]]]]; simpl in He;
    destruct (wk w) as [b|b|m cur|m|m ret|] eqn:Hk; try done; simpl in Hr.
  - unfold sem_wait in He. destruct (msg_sem (wq w)) as [|n]; [done|]. injection He as <-.
    eapply hinv_frame; try done; try apply Hh.
  - destruct (cinv_take cnt w b Hc Hk) as (s & Hs & E & _). simpl in E. rewrite Hk, He in E.
    injection E as ->. by eapply hinv_take.
  - destruct (cinv_recv cnt w m cur Hc Hk) as (p & s & -> & Hs & Hf & E & _). simpl in E. rewrite Hk, He in E.
    injection E as ->. pose proof (c_got cnt w Hc m _ Hk) as Hp.
    eapply (hinv_ack cnt w _ x m p s CMR_MSG_SYNC_RECEIVED); try done; [by rewrite Hk| |].
    + unfold ackd. rewrite (proj2 (Nat.ltb_ge (nproc w) (nrecv w))) by lia. done.
    + intros f j. unfold ackd. simpl.
      destruct (f =? CMR_MSG_SYNC_RECEIVED), (f =? CMR_MSG_SYNC_PROCESSED); simpl;
        destruct (Nat.ltb_spec j (nrecv w)), (Nat.ltb_spec j (nproc w)), (Nat.eqb_spec j (nproc w)),
          (Nat.ltb_spec j (S (nrecv w))); simpl; done || lia.
  - destruct (cinv_ack cnt w m ret Hc Hk) as (p & s & Hp & Hs & Hf & E & _). simpl in E. rewrite Hk, He in E.
    injection E as ->.
    eapply (hinv_ack cnt w _ x m p s CMR_MSG_SYNC_PROCESSED); try done; [by rewrite Hk| |].
    + unfold ackd. rewrite (proj2 (Nat.ltb_ge (nproc w) (nproc w))) by lia. done.
    + intros f j. unfold ackd. simpl.
      destruct (f =? CMR_MSG_SYNC_RECEIVED), (f =? CMR_MSG_SYNC_PROCESSED); simpl;
        destruct (Nat.ltb_spec j (nrecv w)), (Nat.ltb_spec j (nproc w)), (Nat.eqb_spec j (nproc w)),
          (Nat.ltb_spec j (S (nproc w))); simpl; done || lia.
  - injection He as <-. eapply hinv_frame; try done; try apply Hh.
Qed.

Lemma hinv_check w m k p s :
  hinv w (PSem m k p) -> msg_head (wq w) !! p = Some s ->
  exists x', post_waits p (wq w) = Done (negb (sync_flag m =? CMR_MSG_SYNC_NONE)) /\
    x' = (if negb (sync_flag m =? CMR_MSG_SYNC_NONE) then PWait m k p else PIdle) /\
    hinv (set_poster w 0 x' (wq w)) x'.
Proof.
  intros Hh Hs. destruct (h_pend w _ Hh m k p eq_refl) as (_ & _ & _ & m0 & He).
  unfold eslots in He. rewrite list_lookup_fmap, Hs in He. injection He as _ Hf.
  eexists. split_and!; [by unfold post_waits, slot_get; rewrite Hs; simpl; rewrite Hf|done|].
  pose proof (h_one w _ Hh) as Hone.
  destruct (Z.eqb_spec (sync_flag m) CMR_MSG_SYNC_NONE) as [E|E]; simpl.
  - eapply hinv_idle; try done; [simpl; by rewrite Hone|].
    intros i s' Hi. rewrite (h_sems w _ Hh i s' Hi). unfold semval. simpl. case_decide; [|done].
    unfold ackd. by rewrite E.
  - eapply hinv_frame; try done; [simpl; by rewrite Hone|]. by intros ? ? ? [= <- <- <-].
Qed.

Lemma hinv_wake w m k p q :
  hinv w (PWait m k p) -> slot_sem_wait p (wq w) = Done q ->
  ackd w (sync_flag m) k = true /\ hinv (set_poster w 0 PIdle q) PIdle.
Proof.
  intros Hh Hq. unfold slot_sem_wait, slot_get in Hq.
  destruct (msg_head (wq w) !! p) as [s|] eqn:Hs; [|done]. simpl in Hq.
  pose proof (h_sems w _ Hh p s Hs) as Hsem. unfold semval in Hsem. simpl in Hsem.
  rewrite decide_True in Hsem by done.
  destruct (ackd w (sync_flag m) k) eqn:Ha; [|by rewrite Hsem in Hq]. split; [done|].
  rewrite Hsem in Hq. unfold slot_put in Hq. rewrite decide_True in Hq by (by eapply lookup_lt_Some).
  injection Hq as <-. eapply (hinv_idle w _ _ m k p); try done; [simpl; by rewrite (h_one w _ Hh)|].
  intros i s' [(<- & <- & _)|[Hip Hi]]%list_lookup_insert_Some; [done|].
  rewrite (h_sems w _ Hh i s' Hi). unfold semval. simpl. by rewrite decide_False.
Qed.

Lemma hinv_poster cnt l i w w' x :
  cinv cnt w -> hinv w x -> label_ok l ->
  l = LPut i \/ l = LSignal i \/ l = LCheck i \/ l = LWake i \/ (exists m, l = LBegin i m) ->
  exec l w = Done w' -> exists x', hinv w' x'.
Proof.
  intros Hc Hh Hok Hl He. pose proof (h_one w x Hh) as Hone.
  destruct (posters w !! i) as [y|] eqn:Hi;
    [|exfalso; destruct Hl as [->|[->|[->|[->|[m ->]]]]]; simpl in He; by rewrite Hi in He].
  assert (i = O /\ y = x) as [-> ->] by (rewrite Hone in Hi; destruct i as [|[]]; simpl in Hi; by simplify_eq).
  assert (Hslot : forall m k p, pend x = Some (m, k, p) -> exists s, msg_head (wq w) !! p = Some s).
  { intros m k p Hx. exact (lookup_lt_is_Some_2 _ _ (c_slots cnt w Hc _ _ _ _ _ Hi Hx)). }
  destruct Hl as [->|[->|[->|[->|[m ->]]]]]; simpl in He; rewrite Hi in He;
    destruct x as [|m' ori|m' k p|m' k p|m' k p]; try done.
  - destruct (decide (msg_number (wq w) + 1 < msg_count (wq w))) as [Hroom|Hfull].
    + destruct (cinv_put cnt w O m' ori Hc Hi Hroom) as (s & Hs & E & _). simpl in E. rewrite Hi, He in E.
      injection E as ->. eexists. rewrite Hone. by eapply hinv_put.
    + rewrite post_locked_full in He by (try done; apply Hc). simpl in He. injection He as <-.
      exists PIdle. eapply hinv_frame; try done. simpl. by rewrite Hone.
  - injection He as <-. exists (PSem m' k p). eapply hinv_frame; try done. simpl. by rewrite Hone.
  - destruct (Hslot _ _ _ eq_refl) as [s Hs]. destruct (hinv_check w m' k p s Hh Hs) as (x' & E & -> & Hx').
    rewrite E in He. injection He as <-. eauto.
  - destruct (slot_sem_wait p (wq w)) as [q| |] eqn:Hq; try done. injection He as <-.
    exists PIdle. by apply (hinv_wake w m' k p q Hh).
  - rewrite (c_magic cnt w Hc) in He. simpl in He. injection He as <-.
    exists (POri m (msg_write (wq w))).
    eapply hinv_frame; try done; [simpl; by rewrite Hone|]. by intros ? ? [= <- <-].
Qed.

Lemma hinv_exec cnt l w w' x :
  cinv cnt w -> hinv w x -> label_ok l -> exec l w = Done w' -> exists x', hinv w' x'.
Proof.
  intros Hc Hh Hok He. destruct l;
    first [by eapply hinv_poster; [done|done|exact Hok| |exact He]; eauto 8
          |by exists x; eapply hinv_worker; [done|done| |exact He]; eauto 8].
Qed.

Lemma reachable_hinv count w :
  0 < count -> count * sizeof_cmr_msg_in < 4294967296 -> reachable count 1 w ->
  cinv count w /\ exists x, hinv w x.
Proof.
  intros Hc Hs (q & Hq & Hr). destruct (cinv_start count 1 Hc Hs) as (q' & Hq' & Hi & Hz).
  assert (q' = q) as -> by congruence.
  assert (hinv (start q 1) PIdle) as Hh.
  { constructor; try done. intros i s Hx. by apply (Forall_lookup_1 _ _ _ _ Hz Hx). }
  assert (exists x, hinv (start q 1) x) as Hx by eauto. clear Hh Hz Hq Hq'. revert Hi Hx.
  induction Hr as [w|w1 w2 w3 (l & Hok & He) _ IH]; [done|]. intros Hi [x Hx].
  apply IH; [by eapply (cinv_exec count l w1 Hi)|by eapply hinv_exec].
Qed.

Lemma hinv_waits w m k p : (exists x, hinv w x) -> posters w = [PWait m k p] -> hinv w (PWait m k p).
Proof. intros [x Hx] Hp. pose proof (h_one w x Hx). by assert (x = PWait m k p) as <- by congruence. Qed.

(** C28: With one posting thread, a synchronous post returns only when it should: the
    wait of a message sent with [CMR_MSG_SYNC_RECEIVED] ends only after the worker
    has taken that message, the wait of one sent with [CMR_MSG_SYNC_PROCESSED] only
    after the worker has processed it. *)
Theorem sync_post_waits count w w' m k p :
  0 < count -> count * sizeof_cmr_msg_in < 4294967296 -> reachable count 1 w ->
  posters w = [PWait m k p] -> exec (LWake 0) w = Done w' ->
  sent w !! k = Some (public m) /\
  (sync_flag m = CMR_MSG_SYNC_RECEIVED -> (k < nrecv w)%nat) /\
  (sync_flag m = CMR_MSG_SYNC_PROCESSED -> (k < nproc w)%nat) /\
  (sync_flag m = CMR_MSG_SYNC_RECEIVED \/ sync_flag m = CMR_MSG_SYNC_PROCESSED).
Proof.
  intros Hc Hs Hr Hp He. destruct (reachable_hinv count w Hc Hs Hr) as [Hi Hx].
  pose proof (hinv_waits w m k p Hx Hp) as Hh. destruct (h_pend w _ Hh m k p eq_refl) as (Hsent & _).
  simpl in He. rewrite Hp in He. simpl in He.
  destruct (slot_sem_wait p (wq w)) as [q| |] eqn:Hq; try done.
  destruct (hinv_wake w m k p q Hh Hq) as [Ha _].
  pose proof (h_wait w _ Hh m k p eq_refl) as Hne. unfold ackd in Ha.
  pose proof (Forall_lookup_1 _ _ _ _ (h_flags w _ Hh) Hsent) as Hf. simpl in Hf.
  destruct Hf as [Hf|[Hf|Hf]]; rewrite Hf in Ha |- *; [done| |]; simpl in Ha;
    rewrite ?orb_false_r in Ha; apply Nat.ltb_lt in Ha; split_and!; auto; discriminate.
Qed.

Definition sync_run : list label :=
  [LBegin 0 (sync_no 5 2); LPut 0; LSignal 0; LCheck 0; LSemWait; LTake; LRecv; LRun 0; LAck].
Definition sync_world : world :=
  Eval vm_compute in match run sync_run (start (queue_of 2) 1) with Done w => w | _ => start (queue_of 2) 1 end.
Definition sync_after : world :=
  Eval vm_compute in match exec (LWake 0) sync_world with Done w => w | _ => sync_world end.

Lemma sync_post_waits_witness :
  sent sync_world !! 0%nat = Some (public (sync_no 5 2)) /\
  (sync_flag (sync_no 5 2) = CMR_MSG_SYNC_RECEIVED -> (0 < nrecv sync_world)%nat) /\
  (sync_flag (sync_no 5 2) = CMR_MSG_SYNC_PROCESSED -> (0 < nproc sync_world)%nat) /\
  (sync_flag (sync_no 5 2) = CMR_MSG_SYNC_RECEIVED \/ sync_flag (sync_no 5 2) = CMR_MSG_SYNC_PROCESSED).
Proof.
  apply (sync_post_waits 2 sync_world sync_after (sync_no 5 2) 0 0);
    [reflexivity|reflexivity| |reflexivity|reflexivity].
  apply (run_reachable 2 1 sync_run (queue_of 2)); [reflexivity| |reflexivity].
  unfold sync_run. repeat (apply Forall_cons_2; [vm_compute; auto; discriminate|]). apply Forall_nil_2.
Defined.

(** *** The wait ends *)

Definition worker_label (l : label) : Prop :=
  match l with LSemWait | LTake | LRecv | LRun _ | LAck => True | _ => False end.

(** The worker ends only on an EXIT message. *)
Definition dinv (w : world) : Prop :=
  forall m, wk w = WDone m CMR_THREAD_EXIT -> msg_type m = CMR_THREAD_EXIT_EVT.

(** Steps of the worker to an empty queue. *)
Definition rank (w : world) : Z :=
  5 * msg_number (wq w) +
  match wk w with WGet _ => 0 | WSem _ => -1 | WGot _ _ => 3 | WRun _ => 2 | WDone _ _ => 1 | WExit => 0 end.

Lemma ackd_drained w f k :
  f = CMR_MSG_SYNC_RECEIVED \/ f = CMR_MSG_SYNC_PROCESSED -> (k < nrecv w)%nat -> (k < nproc w)%nat ->
  ackd w f k = true.
Proof. intros [->| ->] Hr Hp; unfold ackd; apply Nat.ltb_lt in Hr, Hp; by rewrite Hr, ?Hp. Qed.

(** The waiting thread's message is acknowledged, or the worker can move on. *)
Lemma worker_moves cnt w m k p :
  cinv cnt w -> hinv w (PWait m k p) -> dinv w ->
  (forall j m', sent w !! j = Some m' -> j <> k -> msg_type m' <> CMR_THREAD_EXIT_EVT) ->
  (wk w = WExit -> ackd w (sync_flag m) k = true) -> ackd w (sync_flag m) k = false ->
  exists l w', worker_label l /\ label_ok l /\ exec l w = Done w' /\ dinv w' /\ sent w' = sent w /\
    rank w' = rank w - 1 /\ (wk w' = WExit -> ackd w' (sync_flag m) k = true).
Proof.
  intros Hc Hh Hd Hex Hend Hno. pose proof (h_pend w _ Hh m k p eq_refl) as (Hsent & Hlast & _).
  pose proof (Forall_lookup_1 _ _ _ _ (h_flags w _ Hh) Hsent) as Hf. simpl in Hf.
  pose proof (h_wait w _ Hh m k p eq_refl) as Hne.
  assert (sync_flag m = CMR_MSG_SYNC_RECEIVED \/ sync_flag m = CMR_MSG_SYNC_PROCESSED) as Hf' by naive_solver.
  pose proof (c_taken cnt w Hc) as Ht. pose proof (c_recv cnt w Hc) as Hr.
  pose proof (c_number cnt w Hc) as Hn. rewrite (h_one w _ Hh) in Hn. simpl in Hn.
  unfold nheld in Ht. destruct (wk w) as [b|b|m' cur|m'|m' ret|] eqn:Hk; simpl in Ht, Hr, Hn.
  - exists LSemWait. simpl. rewrite Hk. unfold sem_wait. destruct (msg_sem (wq w)) as [|n] eqn:Es.
    + exfalso. pose proof (ering_length _ (c_wf cnt w Hc)) as El.
      rewrite (c_fifo cnt w Hc), length_app, length_fmap in Hlast.
      rewrite ackd_drained in Hno by (done || lia). done.
    + eexists. split_and!; [done|done|done|done|done| |done]. unfold rank. rewrite Hk. simpl. lia.
  - destruct (cinv_take cnt w b Hc Hk) as (s & _ & He & _). exists LTake. eexists.
    split_and!; [done|done|exact He|done|done| |done]. unfold rank. rewrite Hk. simpl. lia.
  - destruct (cinv_recv cnt w m' cur Hc Hk) as (p' & s & _ & _ & _ & He & _). exists LRecv. eexists.
    split_and!; [done|done|exact He|done|done| |done]. unfold rank. rewrite Hk. simpl. lia.
  - exists (LRun 0). simpl. rewrite Hk. eexists. split_and!; [done|done|done| |done| |done].
    + intros m2 [= <- E]. unfold routine_dispatch in E.
      destruct (Z.eqb_spec (msg_type m') CMR_THREAD_INIT_EVT); [done|].
      by destruct (Z.eqb_spec (msg_type m') CMR_THREAD_EXIT_EVT).
    + unfold rank. rewrite Hk. simpl. lia.
  - destruct (cinv_ack cnt w m' ret Hc Hk) as (p' & s & _ & _ & _ & He & _). exists LAck. eexists.
    split_and!; [done|done|exact He| |done| |].
    + intros m2. simpl. by destruct (ret =? CMR_THREAD_EXIT).
    + unfold rank. rewrite Hk. simpl. destruct (ret =? CMR_THREAD_EXIT); lia.
    + simpl. destruct (Z.eqb_spec ret CMR_THREAD_EXIT) as [->|]; [|done]. intros _.
      specialize (Hd m' Hk). destruct (held_slot cnt w m' Hc) as (_ & _ & _ & _ & _ & _ & Hta); [by rewrite Hk|].
      assert (sent w !! nproc w = Some (public m')) as Hs'.
      { rewrite (c_fifo cnt w Hc), lookup_app_l; [done|by eapply lookup_lt_Some]. }
      destruct (decide (nproc w = k)) as [<-|Hk']; [|by destruct (Hex _ _ Hs' Hk')].
      apply ackd_drained; simpl; [done|lia|lia].
  - rewrite Hend in Hno by done. done.
Qed.

Lemma rank_nonneg cnt w : cinv cnt w -> 0 <= rank w.
Proof.
  intros Hc. pose proof (c_number cnt w Hc). pose proof (wf_number _ (c_wf cnt w Hc)).
  unfold rank. destruct (wk w); simpl in *; lia.
Qed.

Lemma wake_ready cnt w m k p :
  cinv cnt w -> hinv w (PWait m k p) -> ackd w (sync_flag m) k = true ->
  exists w', exec (LWake 0) w = Done w'.
Proof.
  intros Hc Hh Ha. pose proof (h_one w _ Hh) as Hone.
  destruct (lookup_lt_is_Some_2 (msg_head (wq w)) p) as [s Hs].
  { apply (c_slots cnt w Hc 0 (PWait m k p) m k p); [by rewrite Hone|done]. }
  simpl. rewrite Hone. simpl. rewrite (slot_sem_wait_ready p _ s Hs); [eexists; reflexivity|].
  rewrite (h_sems w _ Hh p s Hs). unfold semval. simpl. by rewrite decide_True, Ha.
Qed.

Lemma wait_ends cnt n : forall w m k p,
  rank w <= Z.of_nat n ->
  cinv cnt w -> hinv w (PWait m k p) -> dinv w ->
  (forall j m', sent w !! j = Some m' -> j <> k -> msg_type m' <> CMR_THREAD_EXIT_EVT) ->
  (wk w = WExit -> ackd w (sync_flag m) k = true) ->
  exists ls w1 w2, Forall worker_label ls /\ Forall label_ok ls /\ Z.of_nat (length ls) <= Z.of_nat n /\
    run ls w = Done w1 /\ exec (LWake 0) w1 = Done w2.
Proof.
  induction n as [|n IH]; intros w m k p Hrank Hc Hh Hd Hex Hend.
  all: destruct (decide (ackd w (sync_flag m) k = true)) as [Ha|Ha%not_true_is_false];
    [destruct (wake_ready cnt w m k p Hc Hh Ha) as [w' Hw'];
     exists [], w, w'; split_and!; [constructor|constructor|simpl; lia|done|done]|].
  all: destruct (worker_moves cnt w m k p Hc Hh Hd Hex Hend Ha) as (l & w' & Hl & Hok & He & Hd' & Hs' & Hr' & Hend').
  all: assert (cinv cnt w') as Hc' by (by eapply (cinv_exec cnt l w Hc)).
  - pose proof (rank_nonneg cnt w' Hc'). lia.
  - destruct (IH w' m k p) as (ls & w1 & w2 & ? & ? & ? & Hrun & Hw).
    + lia.
    + done.
    + destruct l; try done; (eapply hinv_worker; [exact Hc|exact Hh| |exact He]); eauto 8.
    + done.
    + by rewrite Hs'.
    + done.
    + exists (l :: ls), w1, w2. split_and!; [by constructor|by constructor|simpl; lia| |done].
      simpl. by rewrite He.
Qed.

Lemma reachable_dinv count n w : reachable count n w -> dinv w.
Proof.
  intros (q & _ & Hr). assert (dinv (start q n)) as Hd by done. revert Hd.
  induction Hr as [w|w1 w2 w3 (l & Hok & He) _ IH]; [done|]. intros Hd. apply IH. clear IH.
  destruct l as [i m|i|i|i|i| | | |cb|]; simpl in He.
  1-5: destruct (posters w1 !! i) as [[]|]; try done.
  - destruct (negb _); by injection He as <-.
  - destruct (post_locked _ _ _) as [[[? []] ?]| |]; try done; by injection He as <-.
  - by injection He as <-.
  - destruct (post_waits _ _); try done. by injection He as <-.
  - destruct (slot_sem_wait _ _); try done. by injection He as <-.
  - destruct (wk w1), (sem_wait (wq w1)); try done. by injection He as <-.
  - destruct (wk w1) as [|b| | | |]; try done. destruct (get_locked b (wq w1)) as [[[[rtn m] cur] q']| |]; try done.
    simpl in He. destruct (negb (rtn =? 0)); by injection He as <-.
  - destruct (wk w1) as [| |m cur| | |]; try done. destruct (get_received cur (wq w1)); try done.
    by injection He as <-.
  - destruct (wk w1) as [| | |m| |]; try done. injection He as <-. intros m2 [= <- E].
    unfold routine_dispatch in E. destruct (Z.eqb_spec (msg_type m) CMR_THREAD_INIT_EVT); [done|].
    by destruct (Z.eqb_spec (msg_type m) CMR_THREAD_EXIT_EVT).
  - destruct (wk w1) as [| | | |m ret|]; try done. destruct (routine_ack m (wq w1)); try done.
    injection He as <-. intros m2. simpl. by destruct (ret =? CMR_THREAD_EXIT).
Qed.

(** C29: With one posting thread, a synchronous post returns: from every reachable
    state in which the thread waits, if no EXIT message was sent before its own and
    the worker is not at its end, the worker alone brings the wait to its end, within
    five steps for each message of the queue and three for the one in its hands. *)
Theorem sync_post_returns count w m k p :
  0 < count -> count * sizeof_cmr_msg_in < 4294967296 -> reachable count 1 w ->
  posters w = [PWait m k p] -> wk w <> WExit ->
  (forall j m', sent w !! j = Some m' -> j <> k -> msg_type m' <> CMR_THREAD_EXIT_EVT) ->
  exists ls w1 w2, Forall worker_label ls /\ Z.of_nat (length ls) <= 5 * msg_number (wq w) + 3 /\
    run ls w = Done w1 /\ exec (LWake 0) w1 = Done w2.
Proof.
  intros Hc Hs Hr Hp Hk Hex. destruct (reachable_hinv count w Hc Hs Hr) as [Hi Hx].
  pose proof (hinv_waits w m k p Hx Hp) as Hh. pose proof (rank_nonneg count w Hi) as Hn.
  destruct (wait_ends count (Z.to_nat (rank w)) w m k p) as (ls & w1 & w2 & Hl & _ & Hlen & Hrun & Hw);
    [lia|done|done|by eapply reachable_dinv|done|done|].
  exists ls, w1, w2. split_and!; try done. unfold rank in *. destruct (wk w); lia.
Qed.

Definition wait_run : list label :=
  [LBegin 0 (sync_no 4 0); LPut 0; LSignal 0; LCheck 0; LBegin 0 (sync_no 5 2); LPut 0; LSignal 0; LCheck 0; LSemWait].
Definition wait_world : world :=
  Eval vm_compute in match run wait_run (start (queue_of 4) 1) with Done w => w | _ => start (queue_of 4) 1 end.

Lemma sync_post_returns_witness :
  exists ls w1 w2, Forall worker_label ls /\ Z.of_nat (length ls) <= 5 * msg_number (wq wait_world) + 3 /\
    run ls wait_world = Done w1 /\ exec (LWake 0) w1 = Done w2.
Proof.
  apply (sync_post_returns 4 wait_world (sync_no 5 2) 1 1);
    [reflexivity|reflexivity| |reflexivity|discriminate|].
  - apply (run_reachable 4 1 wait_run (queue_of 4)); [reflexivity| |reflexivity].
    unfold wait_run. repeat (apply Forall_cons_2; [vm_compute; auto; discriminate|]). apply Forall_nil_2.
  - intros j m' Hj Hne. destruct j as [|[|j]]; [|congruence|discriminate Hj].
    injection Hj as <-. discriminate.
Defined.

(** With two posting threads the handshake breaks, because the thread waits on a
    slot that may be used again and looks at the slot's flag after the message has
    left it: a post with [CMR_MSG_SYNC_PROCESSED] can return before its message is
    processed, taking the release meant for a slower thread; and a post without
    synchronisation can wait on an empty queue whose slots hold no release. *)
Theorem sync_handshake_races :
  (exists w w' m k p, reachable 2 2 w /\ posters w !! 1%nat = Some (PWait m k p) /\
     sync_flag m = CMR_MSG_SYNC_PROCESSED /\ (nproc w <= k)%nat /\ exec (LWake 1) w = Done w') /\
  (exists w m k p, reachable 2 2 w /\ posters w !! 0%nat = Some (PWait m k p) /\
     sync_flag m = CMR_MSG_SYNC_NONE /\ posters w !! 1%nat = Some PIdle /\
     msg_number (wq w) = 0 /\ msg_sem (wq w) = O /\ held (wk w) = None /\
     Forall (fun s => sem s = O) (msg_head (wq w))).
Proof.
  pose (round := [LSemWait; LTake; LRecv; LRun 0; LAck]).
  pose (second := [LBegin 1 (sync_no 2 0); LPut 1; LSignal 1; LCheck 1] ++ round ++
                  [LBegin 1 (sync_no 3 2); LPut 1; LSignal 1; LCheck 1]).
  assert (forall f, f = 0 \/ f = 2 ->
    Forall label_ok ([LBegin 0 (sync_no 1 f); LPut 0; LSignal 0] ++ round ++ second)) as Hok.
  { intros f Hf. repeat (apply Forall_cons_2; [vm_compute; auto; destruct Hf as [->| ->]; auto; discriminate|]).
    apply Forall_nil_2. }
  split.
  - eexists _, _, _, _, _. split_and!.
    + eapply (run_reachable 2 2 ([LBegin 0 (sync_no 1 2); LPut 0; LSignal 0] ++ round ++ second) (queue_of 2));
        [reflexivity|by apply Hok; right|vm_compute; reflexivity].
    + reflexivity.
    + reflexivity.
    + apply Nat.leb_le. reflexivity.
    + vm_compute. reflexivity.
  - eexists _, _, _, _. split_and!.
    + eapply (run_reachable 2 2 (([LBegin 0 (sync_no 1 0); LPut 0; LSignal 0] ++ round ++ second) ++
                                 (LCheck 0 :: round ++ [LWake 1])) (queue_of 2));
        [reflexivity| |vm_compute; reflexivity].
      apply Forall_app. split; [apply Hok; by left|].
      repeat (apply Forall_cons_2; [vm_compute; auto; discriminate|]). apply Forall_nil_2.
    + reflexivity.
    + reflexivity.
    + reflexivity.
    + reflexivity.
    + reflexivity.
    + reflexivity.
    + repeat constructor.
Qed.
