(* ===== verification/JpegHead.v ===== *)
(** * JPEG decoder, header parser (libs/libcamera/jpeg/jpeg_fw_8830:
    jpegdec_parse.c, jpegdec_bitstream.c, jpegdec_malloc.c, JPEG_FWParseHead of
    jpegdec_interface.c)

    The parser reads an untrusted byte stream, from memory or through a callback that
    fills a buffer, and fills the decoder's tables.  A parser is a function of the
    state (the stream and the codec) that succeeds, fails ([JPEG_FAILED], [FALSE],
    [M_ERROR]), or does what C leaves undefined; the reason is recorded.  Loops have
    fuel; running out of it is one of the undefined results, so that its absence is
    proved with the others. *)

From S2P Require Import Prelude.

(** ** Results *)

(** What can go wrong outside the language: an allocation beyond the decoder's
    buffer ([SCI_ASSERT] is empty on the device), a component that was not read,
    an index outside [tbl_map] or [comp_id_map], a read past the default Huffman
    values, a quantisation table that does not exist, an index outside a Huffman or
    quantisation table, and fuel. *)
Inductive ub := UMem | UComp | UTblMap | UDefault | UQuantNull | UTable | UFuel.

Inductive jres (A : Type) : Type :=
| POk (a : A)
| PFail
| PUndef (u : ub).
Arguments POk {A} _.
Arguments PFail {A}.
Arguments PUndef {A} _.

(** ** Data *)

Record component := Component {
  component_id : Z;
  component_index : Z;
  h_samp_factor : Z;
  v_samp_factor : Z;
  MCU_width : Z;
  MCU_height : Z
}.

Record tbl_map_t := TblMap { dc_huff_tbl_id : Z; ac_huff_tbl_id : Z; quant_tbl_id : Z }.

Record huff_tbl_t := HuffTbl { bits : list Z; huffval : list Z }.

(** The fields of [JPEG_CODEC_T] and [JPEG_DEC_INPUT_PARA_T] the parser writes, the
    flag [g_huff_tbl_malloced] and the extra memory. *)
Record codec := Codec {
  input_height : Z;
  input_width : Z;
  input_mcu_info : Z;
  progressive_mode : bool;
  num_components : Z;
  comp_info : list component;
  tbl_map : list tbl_map_t;
  comp_id_map : list Z;
  comps_in_scan : Z;
  spectral : Z * Z * Z * Z;
  input_scan_number : Z;
  restart : Z * Z * Z;
  dc_huff_tbl : list huff_tbl_t;
  ac_huff_tbl : list huff_tbl_t;
  huff_tbl_malloced : bool;
  using_default_huff_tab : bool;
  quant_tbl : list (option (list Z));
  using_default_quant_tab : bool;
  used_extra_mem : Z;
  extra_mem_size : Z
}.

(** The unread bytes of the buffer ([s_inter_buf_ptr], [s_jremain_byte_num]), what the
    next calls of the read callback deliver, and [s_header_len]. *)
Record st := St { strm : list Z; more : list (list Z); header_len : Z; cdc : codec }.

Definition M (A : Type) : Type := st -> jres (A * st).

#[export] Instance M_ret : MRet M := fun A a s => POk (a, s).
#[export] Instance M_bind : MBind M := fun A B f m s =>
  match m s with POk (a, s) => f a s | PFail => PFail | PUndef u => PUndef u end.

Definition fail {A} : M A := fun _ => PFail.
Definition undef {A} (u : ub) : M A := fun _ => PUndef u.
Definition codec_get : M codec := fun s => POk (cdc s, s).
Definition codec_set (f : codec -> codec) : M unit := fun s =>
  POk (tt, St (strm s) (more s) (header_len s) (f (cdc s))).
Definition guard_m (b : bool) : M unit := if b then mret tt else fail.

(** ** The bit stream *)

(** When the buffer is used up, the callback fills it again; at the end of the data it
    delivers nothing. *)
Definition get_char : M Z := fun s =>
  let refill :=
    match strm s, more s with
    | [], chunk :: rest => (chunk, rest)
    | b, m => (b, m)
    end in
  match fst refill with
  | [] => PFail
  | c :: b => POk (c, St b (snd refill) (u32 (header_len s + 1)) (cdc s))
  end.

Definition get_short_word : M Z :=
  value0 ← get_char; value1 ← get_char; mret ((value0 .<< 8) .| value1).

Definition get_word : M Z :=
  value0 ← get_short_word; value1 ← get_short_word; mret ((value0 .<< 16) .| value1).

(** It neither refills the buffer nor counts. *)
Definition skip_n_byte (n : nat) : M unit := fun s =>
  if decide (n <= length (strm s))%nat
  then POk (tt, St (drop n (strm s)) (more s) (header_len s) (cdc s)) else PFail.

Definition avail (s : st) : nat := (length (strm s) + sum_list_with length (more s))%nat.

(** [n] bytes are read and dropped. *)
Fixpoint skip_chars (n : nat) : M unit :=
  match n with
  | O => mret tt
  | S n => _ ← get_char; skip_chars n
  end.

(** ** Memory *)

Definition set_used (n : Z) (c : codec) : codec :=
  Codec (input_height c) (input_width c) (input_mcu_info c) (progressive_mode c) (num_components c)
    (comp_info c) (tbl_map c) (comp_id_map c) (comps_in_scan c) (spectral c) (input_scan_number c)
    (restart c) (dc_huff_tbl c) (ac_huff_tbl c) (huff_tbl_malloced c) (using_default_huff_tab c)
    (quant_tbl c) (using_default_quant_tab c) n (extra_mem_size c).

(** A block of no bytes is taken at the current end, like any other. *)
Definition JpegDec_ExtraMemAlloc (mem_size : Z) : M unit :=
  c ← codec_get;
  let mem_size := (mem_size + 3) .& Z.lnot 3 in
  if extra_mem_size c - used_extra_mem c <? mem_size then undef UMem
  else codec_set (set_used (used_extra_mem c + mem_size)).

(** A write through a table pointer. *)
Definition store (l : list Z) (i : nat) (v : Z) : M (list Z) :=
  if decide (i < length l)%nat then mret (<[i := v]> l) else undef UTable.

(** ** Markers *)

Definition M_SOF0 : Z := 0xc0.
Definition M_SOF1 : Z := 0xc1.
Definition M_SOF2 : Z := 0xc2.
Definition M_DHT : Z := 0xc4.
Definition M_SOI : Z := 0xd8.
Definition M_EOI : Z := 0xd9.
Definition M_SOS : Z := 0xda.
Definition M_DQT : Z := 0xdb.
Definition M_DRI : Z := 0xdd.
Definition M_APP0 : Z := 0xe0.
Definition M_ERROR : Z := 0x100.

(** SOF3, SOF5 to SOF7, JPG, SOF9 to SOF11, DAC, SOF13 to SOF15, RST0 to RST7, TEM. *)
Definition unexpected : list Z :=
  [0xc3; 0xc5; 0xc6; 0xc7; 0xc8; 0xc9; 0xca; 0xcb; 0xcd; 0xce; 0xcf; 0xcc;
   0xd0; 0xd1; 0xd2; 0xd3; 0xd4; 0xd5; 0xd6; 0xd7; 0x01].

(** Skip any non-FF bytes. *)
Fixpoint skip_nonff (fuel : nat) : M unit :=
  match fuel with
  | O => undef UFuel
  | S fuel => c ← get_char; if c =? 0xFF then mret tt else skip_nonff fuel
  end.

(** Skip any duplicate FFs. *)
Fixpoint skip_ff (fuel : nat) : M Z :=
  match fuel with
  | O => undef UFuel
  | S fuel => c ← get_char; if c =? 0xFF then skip_ff fuel else mret c
  end.

Definition with_avail {A} (f : nat -> M A) : M A := fun s => f (S (avail s)) s.

(** Repeat if it was a stuffed FF/00. *)
Fixpoint next_marker (fuel : nat) : M Z :=
  match fuel with
  | O => undef UFuel
  | S fuel =>
      _ ← with_avail skip_nonff;
      c ← with_avail skip_ff;
      if c =? 0 then next_marker fuel else mret c
  end.

Definition GetNextMarker : M Z := with_avail next_marker.

(** ** Frame header *)

Definition JPEG_FW_YUV420 : Z := 0.
Definition JPEG_FW_YUV411 : Z := 1.
Definition JPEG_FW_YUV444 : Z := 2.
Definition JPEG_FW_YUV422 : Z := 3.
Definition JPEG_FW_YUV400 : Z := 4.
Definition JPEG_FW_YUV422_R : Z := 5.
Definition JPEG_FW_YUV411_R : Z := 6.

Definition s8 (z : Z) : Z := if u8 z <? 128 then u8 z else u8 z - 256.

Definition set_mode (p : bool) (c : codec) : codec :=
  Codec (input_height c) (input_width c) (input_mcu_info c) p (num_components c)
    (comp_info c) (tbl_map c) (comp_id_map c) (comps_in_scan c) (spectral c) (input_scan_number c)
    (restart c) (dc_huff_tbl c) (ac_huff_tbl c) (huff_tbl_malloced c) (using_default_huff_tab c)
    (quant_tbl c) (using_default_quant_tab c) (used_extra_mem c) (extra_mem_size c).
Definition set_size (h w : Z) (c : codec) : codec :=
  Codec h w (input_mcu_info c) (progressive_mode c) (num_components c)
    (comp_info c) (tbl_map c) (comp_id_map c) (comps_in_scan c) (spectral c) (input_scan_number c)
    (restart c) (dc_huff_tbl c) (ac_huff_tbl c) (huff_tbl_malloced c) (using_default_huff_tab c)
    (quant_tbl c) (using_default_quant_tab c) (used_extra_mem c) (extra_mem_size c).
Definition set_mcu (m : Z) (c : codec) : codec :=
  Codec (input_height c) (input_width c) m (progressive_mode c) (num_components c)
    (comp_info c) (tbl_map c) (comp_id_map c) (comps_in_scan c) (spectral c) (input_scan_number c)
    (restart c) (dc_huff_tbl c) (ac_huff_tbl c) (huff_tbl_malloced c) (using_default_huff_tab c)
    (quant_tbl c) (using_default_quant_tab c) (used_extra_mem c) (extra_mem_size c).
Definition set_comps (n : Z) (l : list component) (c : codec) : codec :=
  Codec (input_height c) (input_width c) (input_mcu_info c) (progressive_mode c) n
    l (tbl_map c) (comp_id_map c) (comps_in_scan c) (spectral c) (input_scan_number c)
    (restart c) (dc_huff_tbl c) (ac_huff_tbl c) (huff_tbl_malloced c) (using_default_huff_tab c)
    (quant_tbl c) (using_default_quant_tab c) (used_extra_mem c) (extra_mem_size c).
Definition set_tbl_map (l : list tbl_map_t) (c : codec) : codec :=
  Codec (input_height c) (input_width c) (input_mcu_info c) (progressive_mode c) (num_components c)
    (comp_info c) l (comp_id_map c) (comps_in_scan c) (spectral c) (input_scan_number c)
    (restart c) (dc_huff_tbl c) (ac_huff_tbl c) (huff_tbl_malloced c) (using_default_huff_tab c)
    (quant_tbl c) (using_default_quant_tab c) (used_extra_mem c) (extra_mem_size c).

(** An assignment to a field of [tbl_map[i]]. *)
Definition tbl_map_update (i : nat) (f : tbl_map_t -> tbl_map_t) : M unit :=
  c ← codec_get;
  match tbl_map c !! i with
  | None => undef UTblMap
  | Some t => codec_set (set_tbl_map (<[i := f t]> (tbl_map c)))
  end.

(** The loop over the components, [n] of them from number [ci] on. *)
Fixpoint sof_components (n : nat) (ci : Z) : M (list component) :=
  match n with
  | O => mret []
  | S n =>
      id ← get_char;
      let yuv_id := s8 (s8 id - 1) in
      if (yuv_id <? 0) || (2 <? yuv_id) then fail
      else
        c ← get_char;
        let h := (c .>> 4) .& 0x0F in
        let v := c .& 0x0F in
        let mcu := if ci =? 0 then (h, v) else (1, 1) in
        q ← get_char;
        if 2 <? q then fail
        else
          _ ← tbl_map_update (Z.to_nat yuv_id)
                (fun t => TblMap (dc_huff_tbl_id t) (ac_huff_tbl_id t) q);
          rest ← sof_components n (u8 (ci + 1));
          mret (Component (u8 id) ci h v (fst mcu) (snd mcu) :: rest)
  end.

(** The sampling ratio of component [i], as one byte. *)
Definition samp_ratio (l : list component) (i : nat) : M Z :=
  match l !! i with
  | None => undef UComp
  | Some p => mret (u8 ((h_samp_factor p .<< 4) .| v_samp_factor p))
  end.

Definition mcu_format (c : Z) : option Z :=
  if c =? 0x11 then Some JPEG_FW_YUV444
  else if c =? 0x21 then Some JPEG_FW_YUV422
  else if c =? 0x41 then Some JPEG_FW_YUV411
  else if c =? 0x14 then Some JPEG_FW_YUV411_R
  else if c =? 0x22 then Some JPEG_FW_YUV420
  else if c =? 0x12 then Some JPEG_FW_YUV422_R
  else None.

Definition sizeof_component_info : Z := 16.

Definition GetSOF (isProgressive : bool) : M unit :=
  _ ← codec_set (set_mode isProgressive);
  length ← get_short_word;
  _ ← guard_m (8 <=? length);
  c ← get_char;
  _ ← guard_m (c =? 8);
  height ← get_short_word;
  width ← get_short_word;
  _ ← codec_set (set_size height width);
  component_num ← get_char;
  _ ← guard_m (length =? component_num * 3 + 8);
  _ ← JpegDec_ExtraMemAlloc (component_num * sizeof_component_info);
  l ← sof_components (Z.to_nat component_num) 0;
  _ ← codec_set (set_comps component_num l);
  c ← samp_ratio l 0;
  if component_num =? 1 then codec_set (set_mcu JPEG_FW_YUV400)
  else
    match mcu_format c with
    | None => fail
    | Some f =>
        _ ← codec_set (set_mcu f);
        c ← samp_ratio l 1;
        _ ← guard_m (c =? 0x11);
        if 2 <? component_num then c ← samp_ratio l 2; guard_m (c =? 0x11)
        else mret tt
    end.

(** ** Scan header *)

Definition set_scan (n : Z) (c : codec) : codec :=
  Codec (input_height c) (input_width c) (input_mcu_info c) (progressive_mode c) (num_components c)
    (comp_info c) (tbl_map c) (comp_id_map c) n (spectral c) (input_scan_number c)
    (restart c) (dc_huff_tbl c) (ac_huff_tbl c) (huff_tbl_malloced c) (using_default_huff_tab c)
    (quant_tbl c) (using_default_quant_tab c) (used_extra_mem c) (extra_mem_size c).
Definition set_comp_id_map (l : list Z) (c : codec) : codec :=
  Codec (input_height c) (input_width c) (input_mcu_info c) (progressive_mode c) (num_components c)
    (comp_info c) (tbl_map c) l (comps_in_scan c) (spectral c) (input_scan_number c)
    (restart c) (dc_huff_tbl c) (ac_huff_tbl c) (huff_tbl_malloced c) (using_default_huff_tab c)
    (quant_tbl c) (using_default_quant_tab c) (used_extra_mem c) (extra_mem_size c).
(** Ss, Se, Ah, Al; the restart number is reset and the scan counted. *)
Definition set_spectral (s : Z * Z * Z * Z) (c : codec) : codec :=
  Codec (input_height c) (input_width c) (input_mcu_info c) (progressive_mode c) (num_components c)
    (comp_info c) (tbl_map c) (comp_id_map c) (comps_in_scan c) s (u8 (input_scan_number c + 1))
    (fst (fst (restart c)), snd (fst (restart c)), 0)
    (dc_huff_tbl c) (ac_huff_tbl c) (huff_tbl_malloced c) (using_default_huff_tab c)
    (quant_tbl c) (using_default_quant_tab c) (used_extra_mem c) (extra_mem_size c).

Definition comp_id_store (i : nat) (id : Z) : M unit :=
  c ← codec_get;
  if decide (i < length (comp_id_map c))%nat
  then codec_set (set_comp_id_map (<[i := id]> (comp_id_map c))) else undef UTblMap.

(** The loop over the components of the scan, [n] of them from number [i] on. *)
Fixpoint sos_components (n : nat) (i : nat) : M unit :=
  match n with
  | O => mret tt
  | S n =>
      cc ← get_char;
      c ← get_char;
      if negb (cc =? u8 (Z.of_nat i + 1)) then fail
      else
        _ ← tbl_map_update i (fun t => TblMap ((c .>> 4) .& 0x0F) (c .& 0x0F) (quant_tbl_id t));
        d ← codec_get;
        _ ← (if existsb (fun p => cc =? component_id p) (comp_info d) then comp_id_store i cc else mret tt);
        sos_components n (S i)
  end.

Definition GetSOS : M unit :=
  length ← get_short_word;
  _ ← guard_m (3 <=? length);
  n ← get_char;
  _ ← guard_m (length - 3 =? n * 2 + 3);
  _ ← codec_set (set_scan n);
  _ ← sos_components (Z.to_nat n) 0;
  c ← get_char;
  cc ← get_char;
  d ← get_char;
  codec_set (set_spectral (c, cc, (d .>> 4) .& 15, d .& 15)).

(** ** The other segments *)

(** Skip over an unknown or uninteresting segment. *)
Definition SkipVariable : M unit :=
  length ← get_short_word;
  _ ← guard_m (2 <=? length);
  skip_chars (Z.to_nat (length - 2)).

Definition set_restart (r : Z) (c : codec) : codec :=
  Codec (input_height c) (input_width c) (input_mcu_info c) (progressive_mode c) (num_components c)
    (comp_info c) (tbl_map c) (comp_id_map c) (comps_in_scan c) (spectral c) (input_scan_number c)
    (r, r, 0) (dc_huff_tbl c) (ac_huff_tbl c) (huff_tbl_malloced c) (using_default_huff_tab c)
    (quant_tbl c) (using_default_quant_tab c) (used_extra_mem c) (extra_mem_size c).

Definition GetDRI : M unit :=
  length ← get_short_word;
  _ ← guard_m (4 =? length);
  restart_interval ← get_short_word;
  codec_set (set_restart restart_interval).

Definition JFIF_LEN : Z := 14.

(** A segment shorter than a JFIF header is not skipped. *)
Definition GetAPP0 : M unit :=
  length ← get_short_word;
  _ ← guard_m (2 <=? length);
  let length := length - 2 in
  if JFIF_LEN <=? length then
    _ ← skip_chars (Z.to_nat JFIF_LEN);
    skip_chars (Z.to_nat (length - JFIF_LEN))
  else mret tt.

(** ** Huffman tables *)

(** Default tables of jpegcodec_table.c; a table of 256 values is padded with 0. *)
Definition jpeg_fw_lum_dc_bits_default : list Z :=
  [0; 0; 1; 5; 1; 1; 1; 1; 1; 1; 0; 0; 0; 0; 0; 0; 0].
Definition jpeg_fw_lum_dc_huffvalue_default : list Z :=
  [0; 1; 2; 3; 4; 5; 6; 7; 8; 9; 10; 11].
Definition jpeg_fw_lum_ac_bits_default : list Z :=
  [0; 0; 2; 1; 3; 3; 2; 4; 3; 5; 5; 4; 4; 0; 0; 1; 125].
Definition jpeg_fw_lum_ac_huffvalue_default : list Z :=
  [1; 2; 3; 0; 4; 17; 5; 18; 33; 49; 65; 6; 19; 81; 97; 7; 34; 113; 20; 50; 129; 145; 161; 8; 35;
   66; 177; 193; 21; 82; 209; 240; 36; 51; 98; 114; 130; 9; 10; 22; 23; 24; 25; 26; 37; 38; 39; 40;
   41; 42; 52; 53; 54; 55; 56; 57; 58; 67; 68; 69; 70; 71; 72; 73; 74; 83; 84; 85; 86; 87; 88; 89;
   90; 99; 100; 101; 102; 103; 104; 105; 106; 115; 116; 117; 118; 119; 120; 121; 122; 131; 132; 133;
   134; 135; 136; 137; 138; 146; 147; 148; 149; 150; 151; 152; 153; 154; 162; 163; 164; 165; 166;
   167; 168; 169; 170; 178; 179; 180; 181; 182; 183; 184; 185; 186; 194; 195; 196; 197; 198; 199;
   200; 201; 202; 210; 211; 212; 213; 214; 215; 216; 217; 218; 225; 226; 227; 228; 229; 230; 231;
   232; 233; 234; 241; 242; 243; 244; 245; 246; 247; 248; 249; 250] ++ replicate 94 0.
Definition jpeg_fw_chr_dc_bits_default : list Z :=
  [0; 0; 3; 1; 1; 1; 1; 1; 1; 1; 1; 1; 0; 0; 0; 0; 0].
Definition jpeg_fw_chr_dc_huffvalue_default : list Z :=
  [0; 1; 2; 3; 4; 5; 6; 7; 8; 9; 10; 11].
Definition jpeg_fw_chr_ac_bits_default : list Z :=
  [0; 0; 2; 1; 2; 4; 4; 3; 4; 7; 5; 4; 4; 0; 1; 2; 119].
Definition jpeg_fw_chr_ac_huffvalue_default : list Z :=
  [0; 1; 2; 3; 17; 4; 5; 33; 49; 6; 18; 65; 81; 7; 97; 113; 19; 34; 50; 129; 8; 20; 66; 145; 161;
   177; 193; 9; 35; 51; 82; 240; 21; 98; 114; 209; 10; 22; 36; 52; 225; 37; 241; 23; 24; 25; 26; 38;
   39; 40; 41; 42; 53; 54; 55; 56; 57; 58; 67; 68; 69; 70; 71; 72; 73; 74; 83; 84; 85; 86; 87; 88;
   89; 90; 99; 100; 101; 102; 103; 104; 105; 106; 115; 116; 117; 118; 119; 120; 121; 122; 130; 131;
   132; 133; 134; 135; 136; 137; 138; 146; 147; 148; 149; 150; 151; 152; 153; 154; 162; 163; 164;
   165; 166; 167; 168; 169; 170; 178; 179; 180; 181; 182; 183; 184; 185; 186; 194; 195; 196; 197;
   198; 199; 200; 201; 202; 210; 211; 212; 213; 214; 215; 216; 217; 218; 226; 227; 228; 229; 230;
   231; 232; 233; 234; 242; 243; 244; 245; 246; 247; 248; 249; 250] ++ replicate 94 0.

Definition set_huff (dc ac : list huff_tbl_t) (m d : bool) (c : codec) : codec :=
  Codec (input_height c) (input_width c) (input_mcu_info c) (progressive_mode c) (num_components c)
    (comp_info c) (tbl_map c) (comp_id_map c) (comps_in_scan c) (spectral c) (input_scan_number c)
    (restart c) dc ac m d
    (quant_tbl c) (using_default_quant_tab c) (used_extra_mem c) (extra_mem_size c).

(** The tables are taken from the extra memory, which was cleared, at the first DHT. *)
Definition new_huff_tbl : huff_tbl_t := HuffTbl (replicate 17 0) (replicate 257 0).

Fixpoint alloc_huff_tbls (n : nat) : M unit :=
  match n with
  | O => mret tt
  | S n =>
      _ ← JpegDec_ExtraMemAlloc 17;
      _ ← JpegDec_ExtraMemAlloc 257;
      _ ← JpegDec_ExtraMemAlloc 17;
      _ ← JpegDec_ExtraMemAlloc 257;
      alloc_huff_tbls n
  end.

(** [bits[i..16]]: the table, the sum, and whether all are the default values. *)
Fixpoint read_bits (n : nat) (i : nat) (def bits : list Z) (count : Z) (same : bool) :
    M (list Z * Z * bool) :=
  match n with
  | O => mret (bits, count, same)
  | S n =>
      c ← get_char;
      bits ← store bits i c;
      match def !! i with
      | None => undef UDefault
      | Some d => read_bits n (S i) def bits (u16 (count + c)) (same && (c =? d))
      end
  end.

(** [huffval[i..]], [n] values. *)
Fixpoint read_huffval (n : nat) (i : nat) (def vals : list Z) (same : bool) : M (list Z * bool) :=
  match n with
  | O => mret (vals, same)
  | S n =>
      c ← get_char;
      vals ← store vals i c;
      match def !! i with
      | None => undef UDefault
      | Some d => read_huffval n (S i) def vals (same && (c =? d))
      end
  end.

Definition default_tbl (ac : bool) (index : Z) : huff_tbl_t :=
  if ac then
    if index =? 0 then HuffTbl jpeg_fw_lum_ac_bits_default jpeg_fw_lum_ac_huffvalue_default
    else HuffTbl jpeg_fw_chr_ac_bits_default jpeg_fw_chr_ac_huffvalue_default
  else
    if index =? 0 then HuffTbl jpeg_fw_lum_dc_bits_default jpeg_fw_lum_dc_huffvalue_default
    else HuffTbl jpeg_fw_chr_dc_bits_default jpeg_fw_chr_dc_huffvalue_default.

(** One table: the number of its values. *)
Definition huff_one : M Z :=
  c ← get_char;
  let index := c .& 0x13 in
  let ac := negb (index .& 0x10 =? 0) in
  let index := if ac then index - 0x10 else index in
  d ← codec_get;
  let tbls := if ac then ac_huff_tbl d else dc_huff_tbl d in
  match tbls !! Z.to_nat index with
  | None => undef UTable
  | Some t =>
      let def := default_tbl ac index in
      b ← store (bits t) 0 0;
      '(b, count, same) ← read_bits 16 1 (bits def) b 0 (using_default_huff_tab d);
      if 256 <? count then fail
      else
        '(v, same) ← read_huffval (Z.to_nat count) 0 (huffval def) (huffval t) same;
        let tbls := <[Z.to_nat index := HuffTbl b v]> tbls in
        _ ← codec_set (fun c => set_huff (if ac then dc_huff_tbl c else tbls)
                                  (if ac then tbls else ac_huff_tbl c) (huff_tbl_malloced c) same c);
        mret count
  end.

Fixpoint huff_loop (fuel : nat) (length : Z) : M unit :=
  if 0 <? length then
    match fuel with
    | O => undef UFuel
    | S fuel =>
        count ← huff_one;
        if length <? 1 + 16 + count then fail else huff_loop fuel (length - (1 + 16 + count))
    end
  else mret tt.

Definition NUM_HUFF_TBLS : nat := 4.

Definition GetHuffTbl : M unit :=
  d ← codec_get;
  _ ← (if huff_tbl_malloced d then mret tt
       else
         _ ← alloc_huff_tbls NUM_HUFF_TBLS;
         codec_set (fun c => set_huff (replicate NUM_HUFF_TBLS new_huff_tbl)
                               (replicate NUM_HUFF_TBLS new_huff_tbl) true (using_default_huff_tab c) c));
  length ← get_short_word;
  _ ← guard_m (2 <=? length);
  huff_loop (Z.to_nat length) (length - 2).

(** ** Quantisation tables *)

Definition jpeg_fw_zigzag_order : list nat :=
  [0; 1; 8; 16; 9; 2; 3; 10; 17; 24; 32; 25; 18; 11; 4; 5; 12; 19; 26; 33; 40; 48; 41; 34; 27; 20;
   13; 6; 7; 14; 21; 28; 35; 42; 49; 56; 57; 50; 43; 36; 29; 22; 15; 23; 30; 37; 44; 51; 58; 59; 52;
   45; 38; 31; 39; 46; 53; 60; 61; 54; 47; 55; 62; 63]%nat ++ replicate 16 63%nat.

Definition set_quant (q : list (option (list Z))) (d : bool) (c : codec) : codec :=
  Codec (input_height c) (input_width c) (input_mcu_info c) (progressive_mode c) (num_components c)
    (comp_info c) (tbl_map c) (comp_id_map c) (comps_in_scan c) (spectral c) (input_scan_number c)
    (restart c) (dc_huff_tbl c) (ac_huff_tbl c) (huff_tbl_malloced c) (using_default_huff_tab c)
    q d (used_extra_mem c) (extra_mem_size c).

(** The entries at the positions [zz], of one or two bytes each. *)
Fixpoint read_quant (prec : Z) (zz : list nat) (q : list Z) : M (list Z) :=
  match zz with
  | [] => mret q
  | z :: zz =>
      c ← (if prec =? 0 then get_char else (w ← get_short_word; mret (u8 w)));
      q ← store q z c;
      read_quant prec zz q
  end.

(** One table: its precision and its number. *)
Definition quant_one : M (Z * Z) :=
  n ← get_char;
  let prec := n .>> 4 in
  let n := n .& 0x0F in
  if 2 <? n then fail
  else
    _ ← JpegDec_ExtraMemAlloc 64;
    q ← read_quant prec (take 64 jpeg_fw_zigzag_order) (replicate 64 0);
    _ ← codec_set (fun c => set_quant (<[Z.to_nat n := Some q]> (quant_tbl c)) (using_default_quant_tab c) c);
    mret (prec, n).

Fixpoint quant_loop (fuel : nat) (length : Z) (two : bool) : M bool :=
  if 0 <? length then
    match fuel with
    | O => undef UFuel
    | S fuel =>
        '(prec, n) ← quant_one;
        if length <? 64 + 1 + 64 * prec then fail
        else quant_loop fuel (length - (64 + 1 + 64 * prec)) (two || (1 <? n))
    end
  else mret two.

Definition GetQuantTbl : M unit :=
  _ ← codec_set (fun c => set_quant (quant_tbl c) false c);
  length ← get_short_word;
  _ ← guard_m (2 <=? length);
  two ← quant_loop (Z.to_nat length) (length - 2) false;
  if two : bool then
    c ← codec_get;
    match mjoin (quant_tbl c !! 1%nat), mjoin (quant_tbl c !! 2%nat) with
    | Some u, Some v => if decide (u = v) then mret tt else fail
    | _, _ => undef UQuantNull
    end
  else mret tt.

(** ** The header *)

(** Markers in any order, until SOI, EOI or SOS. *)
Fixpoint process_tables (fuel : nat) : M Z :=
  match fuel with
  | O => undef UFuel
  | S fuel =>
      c ← GetNextMarker;
      if (c =? M_SOF0) || (c =? M_SOF1) then _ ← GetSOF false; process_tables fuel
      else if c =? M_SOF2 then _ ← GetSOF true; process_tables fuel
      else if (c =? M_SOI) || (c =? M_EOI) || (c =? M_SOS) then mret c
      else if c =? M_DHT then _ ← GetHuffTbl; process_tables fuel
      else if c =? M_DQT then _ ← GetQuantTbl; process_tables fuel
      else if c =? M_APP0 then _ ← GetAPP0; process_tables fuel
      else if c =? M_DRI then _ ← GetDRI; process_tables fuel
      else if bool_decide (c ∈ unexpected) then fail
      else _ ← SkipVariable; process_tables fuel
  end.

Definition ProcessTables : M Z := with_avail process_tables.

(** An SOI marker is expected first. *)
Fixpoint find_soi (fuel : nat) : M unit :=
  match fuel with
  | O => undef UFuel
  | S fuel =>
      c ← GetNextMarker;
      if c =? M_EOI then fail else if c =? M_SOI then mret tt else find_soi fuel
  end.

Definition ParseHead : M unit :=
  _ ← with_avail find_soi;
  c ← ProcessTables;
  if c =? M_SOS then GetSOS else fail.

(** The header of the resource format: four bytes of identification, size, format,
    quality. *)
Definition ParseHead_Res : M Z :=
  _ ← skip_n_byte 4;
  h ← get_short_word;
  w ← get_short_word;
  _ ← codec_set (set_size h w);
  format ← get_short_word;
  _ ← (if format =? 0 then codec_set (fun c => set_mcu JPEG_FW_YUV420 (set_comps 3 (comp_info c) c))
       else if format =? 1 then codec_set (fun c => set_mcu JPEG_FW_YUV411 (set_comps 3 (comp_info c) c))
       else if format =? 2 then codec_set (fun c => set_mcu JPEG_FW_YUV444 (set_comps 3 (comp_info c) c))
       else if format =? 3 then codec_set (fun c => set_mcu JPEG_FW_YUV422 (set_comps 3 (comp_info c) c))
       else if format =? 4 then codec_set (fun c => set_mcu JPEG_FW_YUV400 (set_comps 1 (comp_info c) c))
       else fail);
  quant_level ← get_short_word;
  if quant_level <=? 4 then mret quant_level else fail.

(** The memory the camera gives the decoder ([_dec_start], oem/src/jpeg_codec.c). *)
Definition JPEG_DECODE_FW_BUF_SIZE : Z := 20 * 1024.

(** The codec at the start of [JPEG_FWParseHead], with [mem] bytes of extra memory. *)
Definition codec_init (mem : Z) : codec :=
  Codec 0 0 0 false 0 [] (replicate 3 (TblMap 0 0 0)) [0; 0; 0] 0 (0, 0, 0, 0) 0 (0x3ffff, 0x3ffff, 0)
    (replicate 4 (HuffTbl [] [])) (replicate 4 (HuffTbl [] [])) false true (replicate 3 None) true 0 mem.

(** [data] is the caller's buffer, or the first answer of the read callback, whose later
    answers are [chunks]; its buffer is then taken from the extra memory and [mem] is
    what is left. *)
Definition st_init (mem : Z) (data : list Z) (chunks : list (list Z)) : st := St data chunks 0 (codec_init mem).
