(* ===== verification/JpegEnc.v ===== *)
(** * JPEG encoder, header writer (libs/libcamera/jpeg/jpeg_fw_8830/src/
    jpegenc_header.c), and its agreement with the decoder's parser

    The writer sends bytes to the bit-stream module of the hardware; its polls of that
    module are taken to succeed and the bytes to reach the stream unchanged.  A writer
    function is the list of the bytes it sends. *)

From S2P Require Import Prelude JpegHead.

(** The fields of the encoder's [JPEG_CODEC_T] the writer reads. *)
Record jenc := Enc {
  e_height : Z;
  e_width : Z;
  ratio : list (Z * Z);
  e_tbl_map : list tbl_map_t;
  e_quant_tbl : list (list Z);
  e_dc_huff_tbl : list huff_tbl_t;
  e_ac_huff_tbl : list huff_tbl_t;
  restart_interval : Z
}.

Definition JPEGFW_PutC (ch : Z) : list Z := [u8 ch].
Definition JPEGFW_PutW (w : Z) : list Z := [u8 (u16 w .>> 8); u8 w].

Definition PutMarker (mark : Z) : list Z := JPEGFW_PutC 0xFF ++ JPEGFW_PutC mark.

(** "JFIF", version 1.1, no unit, density 1 by 1, no thumbnail. *)
Definition PutAPP0 : list Z :=
  PutMarker M_APP0 ++ JPEGFW_PutW (2 + 4 + 1 + 2 + 1 + 2 + 2 + 1 + 1) ++
  JPEGFW_PutC 0x4A ++ JPEGFW_PutC 0x46 ++ JPEGFW_PutC 0x49 ++ JPEGFW_PutC 0x46 ++ JPEGFW_PutC 0 ++
  JPEGFW_PutC 1 ++ JPEGFW_PutC 1 ++ JPEGFW_PutC 0 ++ JPEGFW_PutW 1 ++ JPEGFW_PutW 1 ++
  JPEGFW_PutC 0 ++ JPEGFW_PutC 0.

Definition put_component (e : jenc) (i : nat) : list Z :=
  let r := ratio e !!! i in
  JPEGFW_PutC (Z.of_nat i + 1) ++ JPEGFW_PutC ((fst r .<< 4) .| snd r) ++
  match e_tbl_map e !! i with Some t => JPEGFW_PutC (quant_tbl_id t) | None => [] end.

Definition PutSOF0 (e : jenc) : list Z :=
  PutMarker M_SOF0 ++ JPEGFW_PutW (3 * 3 + 2 + 5 + 1) ++ JPEGFW_PutC 8 ++
  JPEGFW_PutW (e_height e) ++ JPEGFW_PutW (e_width e) ++ JPEGFW_PutC 3 ++
  put_component e 0 ++ put_component e 1 ++ put_component e 2.

Definition put_scan_component (e : jenc) (i : nat) : list Z :=
  JPEGFW_PutC (Z.of_nat i + 1) ++
  match e_tbl_map e !! i with
  | Some t => JPEGFW_PutC ((dc_huff_tbl_id t .<< 4) .| ac_huff_tbl_id t)
  | None => []
  end.

Definition PutSOS (e : jenc) : list Z :=
  PutMarker M_SOS ++ JPEGFW_PutW (2 * 3 + 2 + 1 + 3) ++ JPEGFW_PutC 3 ++
  put_scan_component e 0 ++ put_scan_component e 1 ++ put_scan_component e 2 ++
  JPEGFW_PutC 0 ++ JPEGFW_PutC 63 ++ JPEGFW_PutC 0.

(** The entries of one table in zigzag order. *)
Definition put_quant_one (i : nat) (quant : list Z) : list Z :=
  PutMarker M_DQT ++ JPEGFW_PutW (64 + 1 + 2) ++ JPEGFW_PutC (Z.of_nat i) ++
  ((fun k => u8 (quant !!! k)) <$> take 64 jpeg_fw_zigzag_order).

Definition PutQuantTbl (e : jenc) : list Z :=
  put_quant_one 0 (e_quant_tbl e !!! 0%nat) ++ put_quant_one 1 (e_quant_tbl e !!! 1%nat).

(** [count] is the sum of the lengths; the values follow in groups of 32, which does
    not change their order. *)
Definition huff_count (bits : list Z) : Z := u16 (foldr Z.add 0 (take 16 (drop 1 bits))).

Definition PutOneHuffTbl (index : Z) (t : huff_tbl_t) : list Z :=
  let count := huff_count (bits t) in
  PutMarker M_DHT ++ JPEGFW_PutW (2 + 1 + 16 + count) ++ JPEGFW_PutC index ++
  (u8 <$> take 16 (drop 1 (bits t))) ++ (u8 <$> take (Z.to_nat count) (huffval t)).

#[export] Instance huff_tbl_inhabited : Inhabited huff_tbl_t := populate (HuffTbl [] []).

Definition PutHuffTbl (e : jenc) : list Z :=
  PutOneHuffTbl 0x00 (e_dc_huff_tbl e !!! 0%nat) ++ PutOneHuffTbl 0x10 (e_ac_huff_tbl e !!! 0%nat) ++
  PutOneHuffTbl 0x01 (e_dc_huff_tbl e !!! 1%nat) ++ PutOneHuffTbl 0x11 (e_ac_huff_tbl e !!! 1%nat).

Definition WriteDRI (e : jenc) : list Z :=
  if negb (restart_interval e =? 0)
  then PutMarker M_DRI ++ JPEGFW_PutW 4 ++ JPEGFW_PutW (restart_interval e) else [].

Definition JPEG_HWWriteHeadForThumbnail (e : jenc) : list Z :=
  PutMarker M_SOI ++ PutAPP0 ++ PutQuantTbl e ++ PutSOF0 e ++ PutHuffTbl e ++ WriteDRI e ++ PutSOS e.

Definition JPEG_HWWriteTailForThumbnail : list Z := PutMarker M_EOI.

(** The default tables with 4:2:0 sampling. *)
Definition enc_demo : jenc :=
  Enc 480 640 [(2, 2); (1, 1); (1, 1)] [TblMap 0 0 0; TblMap 1 1 1; TblMap 1 1 1]
    [Z.of_nat <$> seq 1 64; Z.of_nat <$> seq 101 64]
    [HuffTbl jpeg_fw_lum_dc_bits_default jpeg_fw_lum_dc_huffvalue_default;
     HuffTbl jpeg_fw_chr_dc_bits_default jpeg_fw_chr_dc_huffvalue_default]
    [HuffTbl jpeg_fw_lum_ac_bits_default jpeg_fw_lum_ac_huffvalue_default;
     HuffTbl jpeg_fw_chr_ac_bits_default jpeg_fw_chr_ac_huffvalue_default] 0.
