(* ===== verification/JpegSafe.v ===== *)
(** * JPEG header parser: termination, memory safety, and independence of buffering

    A small program logic for the parser monad of [JpegHead.v]: a judgement that a
    parser started in a state whose codec satisfies an invariant consumes at least so
    many bytes, ends with a value and a codec that satisfy a postcondition, fails, or
    is undefined for one of the admitted reasons.  The second part relates a parser
    run on a buffered stream with the same parser run on the whole stream. *)

From S2P Require Import Prelude JpegHead.

(** ** The judgement *)

(** The undefined results that do occur; the theorem below excludes the others. *)
Definition admitted (u : ub) : Prop :=
  match u with UTable | UFuel => False | _ => True end.

Definition sbytes (s : st) : Prop := bytes (strm s) /\ Forall (fun l => bytes l) (more s).

Definition post {A} (n : nat) (Q : A -> codec -> Prop) (s : st) (r : jres (A * st)) : Prop :=
  match r with
  | POk (a, s') => sbytes s' /\ (avail s' + n <= avail s)%nat /\ Q a (cdc s')
  | PFail => True
  | PUndef u => admitted u
  end.

Definition spec {A} (I : codec -> Prop) (n : nat) (m : M A) (Q : A -> codec -> Prop) : Prop :=
  forall s, sbytes s -> I (cdc s) -> post n Q s (m s).

(** Consequence, and the rules of the logic. *)
Lemma spec_weaken {A} (I I' : codec -> Prop) n n' (m : M A) (Q Q' : A -> codec -> Prop) :
  spec I n m Q -> (forall c, I' c -> I c) -> (n' <= n)%nat -> (forall a c, Q a c -> Q' a c) -> spec I' n' m Q'.
Proof.
  intros Hm HI Hn HQ s Hs Hc. specialize (Hm s Hs (HI _ Hc)). unfold post in *.
  destruct (m s) as [[a s']| |]; [|done|done]. destruct Hm as (? & ? & ?). split_and!; auto; lia.
Qed.

Lemma spec_bind {A B} I n n' (m : M A) (f : A -> M B) Q R :
  spec I n m Q -> (forall a, spec (Q a) n' (f a) R) -> spec I (n + n') (m ≫= f) R.
Proof.
  intros Hm Hf s Hs Hc. specialize (Hm s Hs Hc). unfold mbind, M_bind, post in *.
  destruct (m s) as [[a s']| |]; [|done|done]. destruct Hm as (Hs' & Hn & HQ).
  specialize (Hf a s' Hs' HQ). unfold post in Hf.
  destruct (f a s') as [[b s'']| |]; [|done|done]. destruct Hf as (? & ? & ?). split_and!; auto; lia.
Qed.

(** The common case: the first part need not be counted. *)
Lemma spec_seq {A B} I n n' (m : M A) (f : A -> M B) Q R :
  spec I n m Q -> (forall a, spec (Q a) n' (f a) R) -> spec I n' (m ≫= f) R.
Proof.
  intros Hm Hf. eapply spec_weaken; [by eapply spec_bind| |lia|]; done.
Qed.

Lemma spec_ret {A} I (a : A) (Q : A -> codec -> Prop) : (forall c, I c -> Q a c) -> spec I 0 (mret a) Q.
Proof. intros H s Hs Hc. unfold post, mret, M_ret. split_and!; auto; lia. Qed.

Lemma spec_fail {A} I n (Q : A -> codec -> Prop) : spec I n fail Q.
Proof. by intros s Hs Hc. Qed.

Lemma spec_undef {A} I n u (Q : A -> codec -> Prop) : admitted u -> spec I n (undef u) Q.
Proof. intros Hu s Hs Hc. done. Qed.

Lemma spec_false {A} (I : codec -> Prop) n (m : M A) (Q : A -> codec -> Prop) :
  (forall c, I c -> False) -> spec I n m Q.
Proof. intros H s Hs Hc. by destruct (H (cdc s)). Qed.

(** What holds of the codec for sure may be used. *)
Lemma spec_pure {A} (P : Prop) I n (m : M A) (Q : A -> codec -> Prop) :
  (P -> spec I n m Q) -> spec (fun c => P /\ I c) n m Q.
Proof. intros H s Hs [HP Hc]. by apply H. Qed.

Lemma spec_guard I b : spec I 0 (guard_m b) (fun _ c => b = true /\ I c).
Proof. unfold guard_m. destruct b; [by apply spec_ret|apply spec_fail]. Qed.

Lemma spec_codec_get I : spec I 0 codec_get (fun d c => d = c /\ I c).
Proof. intros s Hs Hc. unfold post, codec_get. split_and!; auto; lia. Qed.

Lemma spec_codec_set I f (Q : unit -> codec -> Prop) :
  (forall c, I c -> Q tt (f c)) -> spec I 0 (codec_set f) Q.
Proof. intros H s Hs Hc. unfold post, codec_set, avail. cbn -[Nat.add]. split_and!; [done|lia|by apply H]. Qed.

Lemma spec_get_char I : spec I 1 get_char (fun b c => is_byte b /\ I c).
Proof.
  intros s [Hb Hm] Hc. unfold get_char, post.
  destruct (strm s) as [|b l] eqn:El; simpl.
  - destruct (more s) as [|ch rest] eqn:Em; simpl; [done|]. inversion_clear Hm as [|? ? Hch Hrest].
    destruct ch as [|b l]; [done|]. inversion_clear Hch as [|? ? Hbb Hl].
    split; [by split|]. split; [|by split]. unfold avail. rewrite El, Em. simpl. lia.
  - inversion_clear Hb as [|? ? Hbb Hl]. split; [by split|]. split; [|by split].
    unfold avail. rewrite El. simpl. lia.
Qed.

Lemma word_range a b : is_byte a -> is_byte b -> 0 <= (a .<< 8) .| b < 65536.
Proof.
  intros Ha Hb. rewrite Z.lor_comm, word16_arith by done. simpl in *. lia.
Qed.

Lemma spec_get_short_word I : spec I 2 get_short_word (fun w c => 0 <= w < 65536 /\ I c).
Proof.
  eapply (spec_bind _ 1 1); [apply spec_get_char|]. intros a.
  eapply (spec_bind _ 1 0); [apply spec_get_char|]. intros b.
  apply spec_ret. intros c (Hb & Ha & Hc). split; [by apply word_range|done].
Qed.

Lemma spec_skip_chars I n : spec I 0 (skip_chars n) (fun _ c => I c).
Proof.
  induction n as [|n IH]; [by apply spec_ret|].
  eapply spec_seq; [apply spec_get_char|]. intros b. by apply spec_pure.
Qed.

Lemma spec_store l i v I (Q : list Z -> codec -> Prop) :
  (i < length l)%nat -> (forall c, I c -> Q (<[i := v]> l) c) -> spec I 0 (store l i v) Q.
Proof. intros Hi H. unfold store. rewrite decide_True by done. by apply spec_ret. Qed.

Lemma spec_if {A} (b : bool) I n (m m' : M A) Q :
  (b = true -> spec I n m Q) -> (b = false -> spec I n m' Q) -> spec I n (if b then m else m') Q.
Proof. destruct b; auto. Qed.

(** Loops bounded by the bytes that are left. *)
Lemma spec_with_avail {A} I n (f : nat -> M A) Q :
  (forall fuel s, (avail s < fuel)%nat -> sbytes s -> I (cdc s) -> post n Q s (f fuel s)) ->
  spec I n (with_avail f) Q.
Proof. intros H s Hs Hc. unfold with_avail. apply H; [lia|done|done]. Qed.

(** A step of such a loop: the bytes consumed go into the bound. *)
Lemma post_bind {A B} n n' (m : M A) (f : A -> M B) s (Q : A -> codec -> Prop) (R : B -> codec -> Prop) :
  post n Q s (m s) ->
  (forall a s', m s = POk (a, s') -> sbytes s' -> (avail s' + n <= avail s)%nat -> Q a (cdc s') ->
     post n' R s' (f a s')) ->
  post (n + n') R s ((m ≫= f) s).
Proof.
  intros Hm Hf. unfold mbind, M_bind. destruct (m s) as [[a s']| |] eqn:E; [|done|done].
  destruct Hm as (Hs' & Hn & HQ). specialize (Hf a s' eq_refl Hs' Hn HQ). unfold post in *.
  destruct (f a s') as [[b s'']| |]; [|done|done]. destruct Hf as (? & ? & ?). split_and!; auto; lia.
Qed.

Lemma post_weaken {A} n n' (Q Q' : A -> codec -> Prop) s r :
  post n Q s r -> (n' <= n)%nat -> (forall a c, Q a c -> Q' a c) -> post n' Q' s r.
Proof.
  intros Hp Hn HQ. unfold post in *. destruct r as [[a s']| |]; [|done|done].
  destruct Hp as (? & ? & ?). split_and!; auto; lia.
Qed.

Lemma post_ret {A} (a : A) (Q : A -> codec -> Prop) s : sbytes s -> Q a (cdc s) -> post 0 Q s ((mret a : M A) s).
Proof. intros Hs HQ. unfold post, mret, M_ret. split_and!; auto; lia. Qed.

(** ** The invariant of the codec *)

Definition tbl_ok (t : huff_tbl_t) : Prop := length (bits t) = 17%nat /\ length (huffval t) = 257%nat.

(** The arrays have their declared sizes, the tables once taken their allocated ones, and
    the memory taken lies inside the decoder's buffer. *)
Definition cwf (c : codec) : Prop :=
  length (tbl_map c) = 3%nat /\ length (comp_id_map c) = 3%nat /\
  length (dc_huff_tbl c) = 4%nat /\ length (ac_huff_tbl c) = 4%nat /\
  (huff_tbl_malloced c = true -> Forall tbl_ok (dc_huff_tbl c) /\ Forall tbl_ok (ac_huff_tbl c)) /\
  length (quant_tbl c) = 3%nat /\ Forall (fun q => forall l, q = Some l -> length l = 64%nat) (quant_tbl c) /\
  0 <= used_extra_mem c <= extra_mem_size c /\ num_components c = Z.of_nat (length (comp_info c)).

(** The parser of a piece keeps the invariant and consumes at least [n] bytes. *)
Abbreviation keeps n m := (spec cwf n m (fun _ => cwf)).

Create HintDb jpeg.
Create HintDb resp.

Ltac sbind r := eapply spec_seq; [r|let a := fresh "v" in intros a; try apply spec_pure].

Lemma cwf_set_mode p c : cwf c -> cwf (set_mode p c).
Proof. done. Qed.
Lemma cwf_set_size h w c : cwf c -> cwf (set_size h w c).
Proof. done. Qed.
Lemma cwf_set_mcu m c : cwf c -> cwf (set_mcu m c).
Proof. done. Qed.
Lemma cwf_set_scan n c : cwf c -> cwf (set_scan n c).
Proof. done. Qed.
Lemma cwf_set_spectral s c : cwf c -> cwf (set_spectral s c).
Proof. done. Qed.
Lemma cwf_set_restart r c : cwf c -> cwf (set_restart r c).
Proof. done. Qed.
Lemma cwf_set_comps n l c : n = Z.of_nat (length l) -> cwf c -> cwf (set_comps n l c).
Proof. unfold cwf. intros -> H. cbn. naive_solver. Qed.
Lemma cwf_set_tbl_map i t c : cwf c -> cwf (set_tbl_map (<[i := t]> (tbl_map c)) c).
Proof. unfold cwf. cbn. rewrite length_insert. done. Qed.
Lemma cwf_set_comp_id_map i t c : cwf c -> cwf (set_comp_id_map (<[i := t]> (comp_id_map c)) c).
Proof. unfold cwf. cbn. rewrite length_insert. done. Qed.
#[export] Hint Resolve cwf_set_mode cwf_set_size cwf_set_mcu cwf_set_scan cwf_set_spectral cwf_set_restart
  cwf_set_comps cwf_set_tbl_map cwf_set_comp_id_map : jpeg.

Lemma cwf_set_quant i q d c :
  length q = 64%nat -> cwf c -> cwf (set_quant (<[i := Some q]> (quant_tbl c)) d c).
Proof.
  unfold cwf. cbn. intros Hq (? & ? & ? & ? & ? & ? & HF & ?). rewrite length_insert.
  split_and!; try tauto. apply Forall_insert; [done|]. naive_solver.
Qed.

Lemma cwf_flag d c : cwf c -> cwf (set_quant (quant_tbl c) d c).
Proof. done. Qed.

Lemma cwf_used n c : 0 <= n <= extra_mem_size c - used_extra_mem c -> cwf c -> cwf (set_used (used_extra_mem c + n) c).
Proof. unfold cwf. cbn. intros Hn H. split_and!; try tauto; lia. Qed.
#[export] Hint Resolve cwf_set_quant cwf_flag : jpeg.

Lemma keeps_set (f : codec -> codec) : (forall c, cwf c -> cwf (f c)) -> keeps 0 (codec_set f).
Proof. intros H. by apply spec_codec_set. Qed.

(** Rounding up to words. *)
Lemma round4 n : 0 <= n -> 0 <= (n + 3) .& Z.lnot 3.
Proof. intros H. apply Z.land_nonneg. lia. Qed.

Lemma keeps_alloc n : 0 <= n -> keeps 0 (JpegDec_ExtraMemAlloc n).
Proof.
  intros Hn. unfold JpegDec_ExtraMemAlloc.
  intros s Hs Hc. unfold mbind, M_bind, codec_get. cbv zeta.
  destruct (Z.ltb_spec (extra_mem_size (cdc s) - used_extra_mem (cdc s)) ((n + 3) .& Z.lnot 3)); [done|].
  unfold codec_set, post, avail. cbn -[Nat.add]. split_and!; [by destruct Hs|lia|].
  apply cwf_used; [|done]. pose proof (round4 n Hn). lia.
Qed.

(** ** Markers *)

Lemma skip_nonff_ok fuel s : (avail s < fuel)%nat -> sbytes s -> cwf (cdc s) ->
  post 1 (fun _ => cwf) s (skip_nonff fuel s).
Proof.
  revert s. induction fuel as [|fuel IH]; intros s Hf Hs Hc; [lia|]. cbn [skip_nonff].
  apply (post_bind 1 0) with (Q := fun b c => is_byte b /\ cwf c); [by apply spec_get_char|].
  intros b s' _ Hs' Hn [_ Hc']. destruct (b =? 0xFF); [by apply post_ret|].
  eapply post_weaken; [apply IH; [lia|done|done]|lia|done].
Qed.

Lemma skip_ff_ok fuel s : (avail s < fuel)%nat -> sbytes s -> cwf (cdc s) ->
  post 1 (fun b c => is_byte b /\ cwf c) s (skip_ff fuel s).
Proof.
  revert s. induction fuel as [|fuel IH]; intros s Hf Hs Hc; [lia|]. cbn [skip_ff].
  apply (post_bind 1 0) with (Q := fun b c => is_byte b /\ cwf c); [by apply spec_get_char|].
  intros b s' _ Hs' Hn [Hb Hc']. destruct (b =? 0xFF); [|by apply post_ret].
  eapply post_weaken; [apply IH; [lia|done|done]|lia|done].
Qed.

Lemma next_marker_ok fuel s : (avail s < fuel)%nat -> sbytes s -> cwf (cdc s) ->
  post 2 (fun b c => is_byte b /\ cwf c) s (next_marker fuel s).
Proof.
  revert s. induction fuel as [|fuel IH]; intros s Hf Hs Hc; [lia|]. cbn [next_marker].
  apply (post_bind 1 1) with (Q := fun _ => cwf).
  { apply (spec_with_avail cwf); [|done|done]. intros. by apply skip_nonff_ok. }
  intros [] s' _ Hs' Hn Hc'.
  apply (post_bind 1 0) with (Q := fun b c => is_byte b /\ cwf c).
  { apply (spec_with_avail cwf); [|done|done]. intros. by apply skip_ff_ok. }
  intros b s'' _ Hs'' Hn' [Hb Hc'']. destruct (b =? 0); [|by apply post_ret].
  eapply post_weaken; [apply IH; [lia|done|done]|lia|done].
Qed.

Lemma GetNextMarker_ok : spec cwf 2 GetNextMarker (fun b c => is_byte b /\ cwf c).
Proof. apply spec_with_avail. intros. by apply next_marker_ok. Qed.

(** ** Segments *)

Ltac rd := eapply spec_seq; [first [apply spec_get_char|apply spec_get_short_word|apply spec_guard]|
  intros ?; cbv beta; apply spec_pure; let H := fresh in intros H; cbv beta in H].
Ltac st := eapply spec_seq; [apply keeps_set; eauto with jpeg|intros []; cbv beta].

Lemma post_set (f : codec -> codec) (Q : unit -> codec -> Prop) s :
  sbytes s -> Q tt (f (cdc s)) -> post 0 Q s (codec_set f s).
Proof. intros Hs HQ. unfold post, codec_set, avail. cbn -[Nat.add]. split_and!; [by destruct Hs|lia|done]. Qed.

Lemma keeps_tbl_map_update i f : keeps 0 (tbl_map_update i f).
Proof.
  unfold tbl_map_update. intros s Hs Hc. unfold mbind, M_bind, codec_get.
  destruct (tbl_map (cdc s) !! i) as [t|]; [|done]. apply post_set; eauto with jpeg.
Qed.

Lemma sof_components_ok n ci : spec cwf 0 (sof_components n ci) (fun l c => length l = n /\ cwf c).
Proof.
  revert ci. induction n as [|n IH]; intros ci; cbn [sof_components]; [by apply spec_ret|]. rd.
  apply spec_if; [intros _; apply spec_fail|intros _]. rd. rd.
  apply spec_if; [intros _; apply spec_fail|intros _].
  eapply spec_seq; [apply keeps_tbl_map_update|intros []].
  eapply spec_seq; [apply IH|intros l; cbv beta; apply spec_pure; intros Hl].
  apply spec_ret. intros c Hc. split; [|done]. simpl. by rewrite Hl.
Qed.

Lemma keeps_samp_ratio l i : keeps 0 (samp_ratio l i).
Proof. unfold samp_ratio. destruct (l !! i); [by apply spec_ret|by apply spec_undef]. Qed.

Lemma GetSOF_ok p : keeps 0 (GetSOF p).
Proof.
  unfold GetSOF. st. rd. rd. rd. rd. rd. rd. st. rd. rd.
  eapply spec_seq; [apply keeps_alloc; unfold sizeof_component_info; lia|intros []].
  eapply spec_seq; [apply sof_components_ok|intros l; cbv beta; apply spec_pure; intros Hl].
  eapply spec_seq; [apply keeps_set; intros; apply cwf_set_comps; [rewrite Hl; lia|done]|intros []].
  eapply spec_seq; [apply keeps_samp_ratio|intros r].
  apply spec_if; intros _; [apply keeps_set; eauto with jpeg|].
  destruct (mcu_format r); [|apply spec_fail]. st.
  eapply spec_seq; [apply keeps_samp_ratio|intros r']. rd.
  apply spec_if; intros _; [|by apply spec_ret].
  eapply spec_seq; [apply keeps_samp_ratio|intros r''].
  eapply spec_weaken; [apply spec_guard|done|done|naive_solver].
Qed.

Lemma keeps_comp_id_store i id : keeps 0 (comp_id_store i id).
Proof.
  unfold comp_id_store. intros s Hs Hc. unfold mbind, M_bind, codec_get.
  case_decide; [|done]. apply post_set; eauto with jpeg.
Qed.

Lemma sos_components_ok n i : keeps 0 (sos_components n i).
Proof.
  revert i. induction n as [|n IH]; intros i; cbn [sos_components]; [by apply spec_ret|]. rd. rd.
  apply spec_if; [intros _; apply spec_fail|intros _].
  eapply spec_seq; [apply keeps_tbl_map_update|intros []].
  eapply spec_seq; [apply spec_codec_get|intros d; cbv beta].
  eapply spec_seq with (Q := fun _ => cwf); [|intros []; apply IH].
  apply (spec_weaken cwf _ 0 0 _ (fun _ => cwf)); [|by intros ? []|lia|done].
  apply spec_if; intros _; [apply keeps_comp_id_store|by apply spec_ret].
Qed.

Lemma GetSOS_ok : keeps 0 GetSOS.
Proof.
  unfold GetSOS. rd. rd. rd. rd. st.
  eapply spec_seq; [apply sos_components_ok|intros []]. rd. rd. rd. apply keeps_set; eauto with jpeg.
Qed.

Lemma SkipVariable_ok : keeps 0 SkipVariable.
Proof. unfold SkipVariable. rd. rd. apply spec_skip_chars. Qed.

Lemma GetDRI_ok : keeps 0 GetDRI.
Proof. unfold GetDRI. rd. rd. rd. apply keeps_set; eauto with jpeg. Qed.

Lemma GetAPP0_ok : keeps 0 GetAPP0.
Proof.
  unfold GetAPP0. rd. rd. apply spec_if; intros _; [|by apply spec_ret].
  eapply spec_seq; [apply spec_skip_chars|intros []]. apply spec_skip_chars.
Qed.

(** ** Huffman tables *)

Definition hwf (c : codec) : Prop := huff_tbl_malloced c = true /\ cwf c.

Lemma keeps_alloc_huff_tbls n : keeps 0 (alloc_huff_tbls n).
Proof.
  induction n as [|n IH]; cbn [alloc_huff_tbls]; [by apply spec_ret|].
  do 4 (eapply spec_seq; [apply keeps_alloc; lia|intros []]). done.
Qed.

Lemma read_bits_ok n i def b count same I : (n + i <= length b)%nat -> 0 <= count < 65536 ->
  spec I 0 (read_bits n i def b count same)
    (fun r c => (length (fst (fst r)) = length b /\ 0 <= snd (fst r) < 65536) /\ I c).
Proof.
  revert i b count same. induction n as [|n IH]; intros i b count same Hi Hc; cbn [read_bits];
    [by apply spec_ret|]. rd.
  eapply spec_seq; [apply (spec_store _ _ _ _ (fun l c => length l = length b /\ I c));
    [lia|intros; by rewrite length_insert]|intros b'; cbv beta; apply spec_pure; intros Hb'].
  destruct (def !! i); [|by apply spec_undef]. rewrite <- Hb'.
  apply IH; [lia|apply u16_range].
Qed.

Lemma read_huffval_ok n i def v same I : (n + i <= length v)%nat ->
  spec I 0 (read_huffval n i def v same) (fun r c => length (fst r) = length v /\ I c).
Proof.
  revert i v same. induction n as [|n IH]; intros i v same Hi; cbn [read_huffval];
    [by apply spec_ret|]. rd.
  eapply spec_seq; [apply (spec_store _ _ _ _ (fun l c => length l = length v /\ I c));
    [lia|intros; by rewrite length_insert]|intros v'; cbv beta; apply spec_pure; intros Hv'].
  destruct (def !! i); [|by apply spec_undef]. rewrite <- Hv'. apply IH; lia.
Qed.

(** The index of a table is below 4. *)
Lemma huff_index_range c : is_byte c ->
  let index := c .& 0x13 in
  0 <= (if negb (index .& 0x10 =? 0) then index - 0x10 else index) < 4.
Proof.
  intros Hc index.
  pose proof (byte_cases (fun c => let index := c .& 0x13 in
    let i := if negb (index .& 0x10 =? 0) then index - 0x10 else index in (0 <=? i) && (i <? 4)) c) as H.
  cbv zeta in H. rewrite andb_true_iff, Z.leb_le, Z.ltb_lt in H. apply H; [vm_compute; reflexivity|done].
Qed.

Lemma cwf_set_huff (ac : bool) i t d c : tbl_ok t -> hwf c ->
  let tbls := <[i := t]> (if ac then ac_huff_tbl c else dc_huff_tbl c) in
  hwf (set_huff (if ac then dc_huff_tbl c else tbls) (if ac then tbls else ac_huff_tbl c)
         (huff_tbl_malloced c) d c).
Proof.
  intros Ht [Hm (? & ? & ? & ? & HF & ?)] tbls. destruct (HF Hm) as [HF1 HF2].
  assert (Forall tbl_ok tbls) by (destruct ac; by apply Forall_insert).
  split; [done|]. unfold cwf, tbls. cbn. destruct ac; rewrite length_insert; split_and!; tauto.
Qed.

Lemma hwf_tbl (ac : bool) i t c : hwf c -> (if ac then ac_huff_tbl c else dc_huff_tbl c) !! i = Some t -> tbl_ok t.
Proof.
  intros [Hm (? & ? & ? & ? & HF & ?)] Ht. destruct (HF Hm) as [HF1 HF2].
  destruct ac; rewrite Forall_lookup in *; eauto.
Qed.

Lemma hwf_tbl_length (ac : bool) c : hwf c -> length (if ac then ac_huff_tbl c else dc_huff_tbl c) = 4%nat.
Proof. intros [_ (? & ? & ? & ? & ?)]. by destruct ac. Qed.

(** The tables read replace one entry of the codec the parser started from. *)
Lemma huff_one_ok : spec hwf 0 huff_one (fun count c => 0 <= count <= 256 /\ hwf c).
Proof.
  unfold huff_one. rd. cbv zeta.
  pose proof (huff_index_range _ H) as Hi. cbv zeta in Hi.
  set (index := if negb _ then _ else _) in *. set (ac := negb _).
  eapply spec_seq; [apply spec_codec_get|intros d; cbv beta].
  eapply (spec_weaken (fun c => hwf d /\ (d = c /\ hwf c)) _ 0 0); [|naive_solver|done|intros ? ? Hq; exact Hq].
  apply spec_pure. intros Hd.
  destruct (_ !! Z.to_nat index) as [t|] eqn:Et.
  2: { apply lookup_ge_None in Et. rewrite hwf_tbl_length in Et by done. lia. }
  destruct (hwf_tbl _ _ _ _ Hd Et) as [Hb Hv].
  eapply spec_seq; [apply (spec_store _ _ _ _ (fun l c => length l = 17%nat /\ (d = c /\ hwf c)));
    [lia|intros; by rewrite length_insert]|intros b; cbv beta; apply spec_pure; intros Hb'].
  eapply spec_seq; [apply read_bits_ok; lia|intros [[b' count] same]; cbn [fst snd]; apply spec_pure; intros [Hb'' Hcount]].
  apply spec_if; [intros _; apply spec_fail|intros Hle%Z.ltb_ge].
  eapply spec_seq; [apply read_huffval_ok; lia|intros [v same']; cbn [fst]; apply spec_pure; intros Hv'].
  eapply spec_seq; [apply (spec_codec_set _ _ (fun _ => hwf))|intros []; apply spec_ret; intros; split; [lia|done]].
  intros c [<- Hc]. apply cwf_set_huff; [|done]. split; simpl; lia.
Qed.

Lemma huff_loop_ok fuel length : length <= Z.of_nat fuel -> spec hwf 0 (huff_loop fuel length) (fun _ => cwf).
Proof.
  revert length. induction fuel as [|fuel IH]; intros length Hf; cbn [huff_loop].
  - rewrite (proj2 (Z.ltb_ge 0 length)) by lia. apply spec_ret. by intros c [].
  - apply spec_if; [intros _|intros _; apply spec_ret; by intros c []].
    eapply spec_seq; [apply huff_one_ok|intros count; cbv beta; apply spec_pure; intros Hc].
    apply spec_if; [intros _; apply spec_fail|intros _]. apply IH. lia.
Qed.

Lemma hwf_malloc d c : cwf c ->
  hwf (set_huff (replicate NUM_HUFF_TBLS new_huff_tbl) (replicate NUM_HUFF_TBLS new_huff_tbl) true d c).
Proof.
  intros (? & ? & ? & ? & ? & ?). split; [done|]. unfold cwf. cbn. split_and!; try tauto.
  intros _. split; repeat constructor.
Qed.

Lemma GetHuffTbl_ok : keeps 0 GetHuffTbl.
Proof.
  unfold GetHuffTbl. eapply spec_seq; [apply spec_codec_get|intros d; cbv beta].
  eapply spec_seq with (Q := fun _ => hwf).
  - destruct (huff_tbl_malloced d) eqn:Em; [apply spec_ret; by intros c [<- Hc]|].
    eapply (spec_weaken cwf _ 0 0 _ (fun _ => hwf)); [|by intros ? []|lia|done].
    eapply spec_seq; [apply keeps_alloc_huff_tbls|intros []]. apply spec_codec_set. intros. by apply hwf_malloc.
  - intros []. rd. rd. apply huff_loop_ok. lia.
Qed.

(** ** Quantisation tables *)

Lemma zigzag_range : Forall (fun z => (z < 64)%nat) (take 64 jpeg_fw_zigzag_order).
Proof. vm_compute. repeat (constructor; [repeat constructor|]). constructor. Qed.

Lemma read_quant_ok prec zz q : Forall (fun z => (z < 64)%nat) zz -> length q = 64%nat ->
  spec cwf 0 (read_quant prec zz q) (fun q c => length q = 64%nat /\ cwf c).
Proof.
  revert q. induction zz as [|z zz IH]; intros q Hz Hq; cbn [read_quant]; [by apply spec_ret|].
  apply Forall_cons in Hz as [Hz Hzz].
  eapply spec_seq with (Q := fun _ => cwf).
  { apply spec_if; intros _; [eapply spec_weaken; [apply spec_get_char|done|apply Nat.le_0_1|by intros ? ? []]|].
    rd. by apply spec_ret. }
  intros v. cbv beta.
  eapply spec_seq; [apply (spec_store _ _ _ _ (fun l c => length l = 64%nat /\ cwf c));
    [lia|intros; by rewrite length_insert]|intros q'; cbv beta; apply spec_pure; intros Hq'].
  by apply IH.
Qed.

Lemma quant_one_ok : spec cwf 0 quant_one (fun r c => 0 <= fst r /\ cwf c).
Proof.
  unfold quant_one. rd. cbv zeta. apply spec_if; [intros _; apply spec_fail|intros _].
  eapply spec_seq; [apply keeps_alloc; lia|intros []].
  eapply spec_seq; [apply read_quant_ok; [apply zigzag_range|done]|intros q; cbv beta; apply spec_pure; intros Hq].
  eapply spec_seq; [apply keeps_set; eauto with jpeg|intros []; cbv beta].
  apply spec_ret. intros c Hc. split; [|done]. simpl. apply Z.shiftr_nonneg. lia.
Qed.

Lemma quant_loop_ok fuel length two : length <= Z.of_nat fuel -> keeps 0 (quant_loop fuel length two).
Proof.
  revert length two. induction fuel as [|fuel IH]; intros length two Hf; cbn [quant_loop].
  - rewrite (proj2 (Z.ltb_ge 0 length)) by lia. by apply spec_ret.
  - apply spec_if; [intros _|intros _; by apply spec_ret].
    eapply spec_seq; [apply quant_one_ok|intros [prec n]; cbn [fst]; apply spec_pure; intros Hc].
    apply spec_if; [intros _; apply spec_fail|intros _]. apply IH. lia.
Qed.

Lemma GetQuantTbl_ok : keeps 0 GetQuantTbl.
Proof.
  unfold GetQuantTbl. st. rd. rd. eapply spec_seq; [apply quant_loop_ok; lia|intros two; cbv beta].
  apply spec_if; intros _; [|by apply spec_ret].
  eapply spec_seq; [apply spec_codec_get|intros d; cbv beta].
  apply (spec_weaken cwf _ 0 0 _ (fun _ => cwf)); [|by intros ? []|lia|done].
  repeat case_match; first [by apply spec_ret|apply spec_fail|by apply spec_undef].
Qed.

(** ** The header *)

Lemma process_tables_ok fuel s : (avail s < fuel)%nat -> sbytes s -> cwf (cdc s) ->
  post 2 (fun _ => cwf) s (process_tables fuel s).
Proof.
  revert s. induction fuel as [|fuel IH]; intros s Hf Hs Hc; [lia|]. cbn [process_tables].
  apply (post_bind 2 0) with (Q := fun b c => is_byte b /\ cwf c); [by apply GetNextMarker_ok|].
  intros b s' _ Hs' Hn [Hb Hc'].
  assert (Hstep : forall m : M unit, keeps 0 m -> post 0 (fun _ => cwf) s' ((_ ← m; process_tables fuel) s')).
  { intros m Hm. apply (post_bind 0 0) with (Q := fun _ => cwf); [by apply Hm|].
    intros [] s2 _ Hs2 Hn2 Hc2. eapply post_weaken; [apply IH; [lia|done|done]|lia|done]. }
  repeat case_match; try (by apply post_ret); try done; apply Hstep;
    auto using GetSOF_ok, GetHuffTbl_ok, GetQuantTbl_ok, GetAPP0_ok, GetDRI_ok, SkipVariable_ok.
Qed.

Lemma find_soi_ok fuel s : (avail s < fuel)%nat -> sbytes s -> cwf (cdc s) ->
  post 2 (fun _ => cwf) s (find_soi fuel s).
Proof.
  revert s. induction fuel as [|fuel IH]; intros s Hf Hs Hc; [lia|]. cbn [find_soi].
  apply (post_bind 2 0) with (Q := fun b c => is_byte b /\ cwf c); [by apply GetNextMarker_ok|].
  intros b s' _ Hs' Hn [Hb Hc']. repeat case_match; [done|by apply post_ret|].
  eapply post_weaken; [apply IH; [lia|done|done]|lia|done].
Qed.

Lemma ParseHead_ok : keeps 4 ParseHead.
Proof.
  unfold ParseHead. apply (spec_bind _ 2 2) with (Q := fun _ => cwf).
  { apply spec_with_avail. intros. by apply find_soi_ok. }
  intros []. apply (spec_bind _ 2 0) with (Q := fun _ => cwf).
  { apply spec_with_avail. intros. by apply process_tables_ok. }
  intros b. apply spec_if; intros _; [apply GetSOS_ok|apply spec_fail].
Qed.

Lemma codec_init_wf mem : 0 <= mem -> cwf (codec_init mem).
Proof. intros H. unfold cwf, codec_init. cbn. split_and!; try done; repeat constructor; by intros. Qed.

(** ** Buffering *)

(** The unread bytes, wherever they are. *)
Definition flat (s : st) : list Z := strm s ++ concat (more s).

(** A callback that delivers nothing has reached the end of the data. *)
Definition chunks_ok (m : list (list Z)) : Prop := Forall (fun l => l <> []) m.

Definition same_stream (s s' : st) : Prop :=
  flat s = flat s' /\ header_len s = header_len s' /\ cdc s = cdc s' /\ chunks_ok (more s) /\ chunks_ok (more s').

Definition same_result {A} (r r' : jres (A * st)) : Prop :=
  match r, r' with
  | POk (a, s), POk (a', s') => a = a' /\ same_stream s s'
  | PFail, PFail => True
  | PUndef u, PUndef u' => u = u'
  | _, _ => False
  end.

(** A parser that does not see how the stream is cut. *)
Definition resp {A} (m : M A) : Prop := forall s s', same_stream s s' -> same_result (m s) (m s').

Lemma resp_ret {A} (a : A) : resp (mret a).
Proof. intros s s' H. by split. Qed.

Lemma resp_bind {A B} (m : M A) (f : A -> M B) : resp m -> (forall a, resp (f a)) -> resp (m ≫= f).
Proof.
  intros Hm Hf s s' H. specialize (Hm s s' H). unfold mbind, M_bind, same_result in *.
  destruct (m s) as [[a t]| |], (m s') as [[a' t']| |]; try done. destruct Hm as [<- Ht]. by apply Hf.
Qed.

Lemma resp_fail {A} : resp (@fail A).
Proof. by intros s s' H. Qed.

Lemma resp_undef {A} u : resp (@undef A u).
Proof. by intros s s' H. Qed.

Lemma resp_codec_get : resp codec_get.
Proof. intros s s' H. split; [apply H|done]. Qed.

Lemma resp_codec_set f : resp (codec_set f).
Proof.
  intros s s' (? & ? & Hc & ? & ?). split; [done|]. unfold same_stream, flat in *. simpl. by rewrite Hc.
Qed.

Lemma avail_flat s : avail s = length (flat s).
Proof.
  unfold avail, flat. rewrite length_app. f_equal. induction (more s) as [|l m IH]; simpl; [done|].
  by rewrite length_app, IH.
Qed.

Lemma resp_with_avail {A} (f : nat -> M A) : (forall n, resp (f n)) -> resp (with_avail f).
Proof.
  intros Hf s s' H. unfold with_avail. rewrite !avail_flat, (proj1 H). by apply Hf.
Qed.

(** The bytes come in the same order; [None] at the end of the data. *)
Lemma get_char_flat s : chunks_ok (more s) ->
  match flat s with
  | [] => get_char s = PFail
  | b :: l => exists buf m, get_char s = POk (b, St buf m (u32 (header_len s + 1)) (cdc s)) /\
                buf ++ concat m = l /\ chunks_ok m
  end.
Proof.
  intros Hm. unfold flat, get_char. destruct (strm s) as [|b l]; simpl; [|by eauto].
  destruct (more s) as [|ch m]; simpl; [done|]. inversion_clear Hm as [|? ? Hne Hrest].
  destruct ch as [|b l]; simpl; [done|]. by eauto.
Qed.

Lemma resp_get_char : resp get_char.
Proof.
  intros s s' (Hf & Hh & Hc & H1 & H2). pose proof (get_char_flat s H1) as G1.
  pose proof (get_char_flat s' H2) as G2. rewrite <- Hf in G2.
  destruct (flat s) as [|b l]; [by rewrite G1, G2|].
  destruct G1 as (b1 & m1 & -> & E1 & O1), G2 as (b2 & m2 & -> & E2 & O2).
  split; [done|]. unfold same_stream, flat. simpl. rewrite Hh, Hc. split_and!; congruence || done.
Qed.

#[export] Hint Resolve resp_ret resp_fail resp_undef resp_codec_get resp_codec_set resp_get_char : resp.

Ltac resp_step := first
  [ solve [auto with resp]
  | apply resp_bind; [|intros ?]
  | apply resp_with_avail; intros ?
  | progress cbv zeta
  | case_match ].
Ltac resp_tac := repeat resp_step.

Lemma resp_get_short_word : resp get_short_word.
Proof. unfold get_short_word. resp_tac. Qed.

Lemma resp_guard b : resp (guard_m b).
Proof. unfold guard_m. resp_tac. Qed.

Lemma resp_skip_chars n : resp (skip_chars n).
Proof. induction n; cbn [skip_chars]; resp_tac. Qed.

Lemma resp_alloc n : resp (JpegDec_ExtraMemAlloc n).
Proof. unfold JpegDec_ExtraMemAlloc. resp_tac. Qed.

Lemma resp_store l i v : resp (store l i v).
Proof. unfold store. resp_tac. Qed.

Lemma resp_tbl_map_update i f : resp (tbl_map_update i f).
Proof. unfold tbl_map_update. resp_tac. Qed.

Lemma resp_comp_id_store i f : resp (comp_id_store i f).
Proof. unfold comp_id_store. resp_tac. Qed.

Lemma resp_samp_ratio l i : resp (samp_ratio l i).
Proof. unfold samp_ratio. resp_tac. Qed.

#[export] Hint Resolve resp_get_short_word resp_guard resp_skip_chars resp_alloc resp_store
  resp_tbl_map_update resp_comp_id_store resp_samp_ratio : resp.

Lemma resp_skip_nonff fuel : resp (skip_nonff fuel).
Proof. induction fuel; cbn [skip_nonff]; resp_tac. Qed.

Lemma resp_skip_ff fuel : resp (skip_ff fuel).
Proof. induction fuel; cbn [skip_ff]; resp_tac. Qed.

#[export] Hint Resolve resp_skip_nonff resp_skip_ff : resp.

Lemma resp_GetNextMarker : resp GetNextMarker.
Proof.
  unfold GetNextMarker. apply resp_with_avail. intros n. induction n; cbn [next_marker]; resp_tac.
Qed.

Lemma resp_sof_components n ci : resp (sof_components n ci).
Proof. revert ci. induction n; intros ci; cbn [sof_components]; resp_tac. Qed.

Lemma resp_sos_components n i : resp (sos_components n i).
Proof. revert i. induction n; intros i; cbn [sos_components]; resp_tac. Qed.

Lemma resp_alloc_huff_tbls n : resp (alloc_huff_tbls n).
Proof. induction n; cbn [alloc_huff_tbls]; resp_tac. Qed.

Lemma resp_read_bits n i def b c d : resp (read_bits n i def b c d).
Proof. revert i b c d. induction n; intros; cbn [read_bits]; resp_tac. Qed.

Lemma resp_read_huffval n i def b d : resp (read_huffval n i def b d).
Proof. revert i b d. induction n; intros; cbn [read_huffval]; resp_tac. Qed.

Lemma resp_read_quant prec zz q : resp (read_quant prec zz q).
Proof. revert q. induction zz; intros; cbn [read_quant]; resp_tac. Qed.

#[export] Hint Resolve resp_GetNextMarker resp_sof_components resp_sos_components
  resp_alloc_huff_tbls resp_read_bits resp_read_huffval resp_read_quant : resp.

Lemma resp_GetSOF p : resp (GetSOF p).
Proof. unfold GetSOF. resp_tac. Qed.

Lemma resp_GetSOS : resp GetSOS.
Proof. unfold GetSOS. resp_tac. Qed.

Lemma resp_huff_one : resp huff_one.
Proof. unfold huff_one. resp_tac. Qed.

Lemma resp_quant_one : resp quant_one.
Proof. unfold quant_one. resp_tac. Qed.

#[export] Hint Resolve resp_GetSOF resp_GetSOS resp_huff_one resp_quant_one : resp.

Lemma resp_huff_loop fuel l : resp (huff_loop fuel l).
Proof. revert l. induction fuel; intros; cbn [huff_loop]; resp_tac. Qed.

Lemma resp_quant_loop fuel l two : resp (quant_loop fuel l two).
Proof. revert l two. induction fuel; intros; cbn [quant_loop]; resp_tac. Qed.

#[export] Hint Resolve resp_huff_loop resp_quant_loop : resp.

Lemma resp_GetHuffTbl : resp GetHuffTbl.
Proof. unfold GetHuffTbl. resp_tac. Qed.

Lemma resp_GetQuantTbl : resp GetQuantTbl.
Proof. unfold GetQuantTbl. resp_tac. Qed.

Lemma resp_process_tables fuel : resp (process_tables fuel).
Proof.
  pose proof resp_GetHuffTbl. pose proof resp_GetQuantTbl.
  induction fuel; cbn [process_tables]; unfold GetAPP0, GetDRI, SkipVariable; resp_tac.
Qed.

Lemma resp_find_soi fuel : resp (find_soi fuel).
Proof. induction fuel; cbn [find_soi]; resp_tac. Qed.

Lemma resp_ParseHead : resp ParseHead.
Proof.
  pose proof resp_process_tables. pose proof resp_find_soi. unfold ParseHead, ProcessTables. resp_tac.
Qed.

(** ** The theorems *)

(** C10: The header parser terminates on every input, however it is cut into buffers, and
    every access it makes to its Huffman and quantisation tables is inside them: no
    loop runs longer than the bytes of the input allow, the tables keep their sizes,
    the memory it takes stays inside the decoder's buffer, and a successful parse has
    consumed at least the two markers.  What C leaves undefined can only be one of the
    five accesses that [ParseHead_undefined] exhibits. *)
Theorem ParseHead_safe mem data chunks :
  0 <= mem -> bytes data -> Forall (fun l => bytes l) chunks ->
  match ParseHead (st_init mem data chunks) with
  | POk (_, s) => cwf (cdc s) /\ (avail s + 4 <= avail (st_init mem data chunks))%nat
  | PFail => True
  | PUndef u => u ∈ [UMem; UComp; UTblMap; UDefault; UQuantNull]
  end.
Proof.
  intros Hm Hd Hc. pose proof (ParseHead_ok (st_init mem data chunks)) as H.
  specialize (H ltac:(by split) (codec_init_wf mem Hm)). unfold post in H.
  destruct (ParseHead _) as [[a s]| |u]; [tauto|done|]. destruct u; try done; set_solver.
Qed.

(** Streams that end in each of the accesses outside an object. *)
Definition soi : list Z := [0xff; 0xd8].

(** A scan of four components. *)
Definition scan4 : list Z := soi ++ [0xff; 0xda; 0; 14; 4; 1; 0; 2; 0x11; 3; 0x11; 4; 0x11; 0; 63; 0].
(** A DC table of 13 values. *)
Definition dc13 : list Z :=
  soi ++ [0xff; 0xc4; 0; 32; 0] ++ [0; 0; 0; 13] ++ replicate 12 0 ++ (Z.of_nat <$> seq 0 13).
(** The third quantisation table without the second. *)
Definition quant2 : list Z := soi ++ [0xff; 0xdb; 0; 67; 2] ++ replicate 64 1.
(** A frame without components. *)
Definition frame0 : list Z := soi ++ [0xff; 0xc0; 0; 8; 8; 0; 16; 0; 16; 0].
(** A segment of 321 quantisation tables. *)
Definition quant_many : list Z :=
  soi ++ [0xff; 0xdb; 0x51; 0x83] ++ concat (replicate 321 (0 :: replicate 64 1)).

(** The parser trusts counts of the input.  With the memory the camera gives it, a
    scan of four components writes behind [tbl_map], a DC table of more than twelve
    values is compared with what lies behind the default values, the third
    quantisation table alone is compared with a table that does not exist, a frame of
    no components is classified by a component that was not read, and 321
    quantisation tables use up the memory, where the allocator's check is an
    assertion that the build leaves empty. *)
Theorem ParseHead_undefined :
  ParseHead (st_init JPEG_DECODE_FW_BUF_SIZE scan4 []) = PUndef UTblMap /\
  ParseHead (st_init JPEG_DECODE_FW_BUF_SIZE dc13 []) = PUndef UDefault /\
  ParseHead (st_init JPEG_DECODE_FW_BUF_SIZE quant2 []) = PUndef UQuantNull /\
  ParseHead (st_init JPEG_DECODE_FW_BUF_SIZE frame0 []) = PUndef UComp /\
  ParseHead (st_init JPEG_DECODE_FW_BUF_SIZE quant_many []) = PUndef UMem.
Proof. vm_compute. done. Qed.

(** C11: The result of the parser does not depend on how the read callback cuts the
    stream: for two ways of delivering the same bytes (no chunk empty, since an empty
    one is the end of the data) the parser succeeds, fails or is undefined alike, and on
    success leaves the same tables, the same header length and the same unread bytes. *)
Theorem ParseHead_buffering mem data chunks data' chunks' :
  data ++ concat chunks = data' ++ concat chunks' ->
  chunks_ok chunks -> chunks_ok chunks' ->
  match ParseHead (st_init mem data chunks), ParseHead (st_init mem data' chunks') with
  | POk (_, s), POk (_, s') =>
      cdc s = cdc s' /\ header_len s = header_len s' /\ flat s = flat s'
  | PFail, PFail => True
  | PUndef u, PUndef u' => u = u'
  | _, _ => False
  end.
Proof.
  intros He H1 H2. pose proof (resp_ParseHead (st_init mem data chunks) (st_init mem data' chunks')) as H.
  specialize (H ltac:(by split_and!)). unfold same_result, same_stream in H.
  repeat case_match; naive_solver.
Qed.

Lemma ParseHead_safe_witness :
  bytes (soi ++ [0xff; 0xda; 0; 6; 0; 0; 63; 0]) /\
  match ParseHead (st_init 64 soi [[0xff; 0xda; 0; 6]; [0; 0; 63; 0; 0xee]]) with
  | POk (_, s) => cwf (cdc s) /\ (avail s + 4 <= 11)%nat
  | PFail => True
  | PUndef u => u ∈ [UMem; UComp; UTblMap; UDefault; UQuantNull]
  end.
Proof.
  split; [repeat constructor; lia|].
  apply (ParseHead_safe 64 soi [[0xff; 0xda; 0; 6]; [0; 0; 63; 0; 0xee]]); [lia|repeat constructor; lia|].
  repeat constructor; lia.
Defined.

Lemma ParseHead_buffering_witness :
  chunks_ok [[0xff; 0xda; 0; 6]; [0; 0; 63; 0; 0xee]] /\
  match ParseHead (st_init 64 soi [[0xff; 0xda; 0; 6]; [0; 0; 63; 0; 0xee]]),
        ParseHead (st_init 64 (soi ++ [0xff; 0xda; 0; 6; 0; 0; 63; 0; 0xee]) []) with
  | POk (_, s), POk (_, s') => cdc s = cdc s' /\ header_len s = header_len s' /\ flat s = flat s'
  | PFail, PFail => True
  | PUndef u, PUndef u' => u = u'
  | _, _ => False
  end.
Proof.
  split; [repeat constructor; discriminate|].
  apply (ParseHead_buffering 64 soi [[0xff; 0xda; 0; 6]; [0; 0; 63; 0; 0xee]]
    (soi ++ [0xff; 0xda; 0; 6; 0; 0; 63; 0; 0xee]) []); [reflexivity|repeat constructor; discriminate|constructor].
Defined.
