(* ===== verification/JpegRt.v ===== *)
(** * JPEG headers: what the encoder writes, the decoder's parser reads back

    Rules for running the parser of [JpegHead.v] on the bytes the writer of
    [JpegEnc.v] sends, one per segment, and their composition. *)

From S2P Require Import Prelude JpegHead JpegEnc JpegSafe.

(** ** Reading a known prefix *)

(** Started with codec [c] on a stream that begins with [bs], the parser reads exactly
    [bs], gives [a] and leaves the codec [c']. *)
Definition reads {A} (m : M A) (bs : list Z) (c : codec) (a : A) (c' : codec) : Prop :=
  forall rest mo h, u32 h = h ->
    m (St (bs ++ rest) mo h c) = POk (a, St rest mo (u32 (h + Z.of_nat (length bs))) c').

Lemma reads_ret {A} (a : A) c : reads (mret a) [] c a c.
Proof. intros rest mo h Hh. simpl. by rewrite Z.add_0_r, Hh. Qed.

Lemma reads_bind {A B} (m : M A) (f : A -> M B) bs bs' c a c1 b c2 :
  reads m bs c a c1 -> reads (f a) bs' c1 b c2 -> reads (m ≫= f) (bs ++ bs') c b c2.
Proof.
  intros Hm Hf rest mo h Hh. unfold mbind, M_bind. rewrite <- app_assoc, Hm by done. cbv iota.
  rewrite Hf by apply u32_small, u32_range.
  rewrite u32_add_l. do 4 f_equal. rewrite length_app. lia.
Qed.

(** A step that reads nothing. *)
Lemma reads_bind0 {A B} (m : M A) (f : A -> M B) bs c a c1 b c2 :
  reads m [] c a c1 -> reads (f a) bs c1 b c2 -> reads (m ≫= f) bs c b c2.
Proof. apply (reads_bind m f [] bs). Qed.

(** A step that reads all of it. *)
Lemma reads_last {A B} (m : M A) (f : A -> M B) bs c a c1 b c2 :
  reads m bs c a c1 -> reads (f a) [] c1 b c2 -> reads (m ≫= f) bs c b c2.
Proof. intros Hm Hf. rewrite <- (app_nil_r bs). by eapply reads_bind. Qed.

Lemma reads_get_char b c : reads get_char [b] c b c.
Proof. intros rest mo h Hh. done. Qed.

Lemma reads_codec_get c : reads codec_get [] c c c.
Proof. apply (reads_ret c). Qed.

Lemma reads_codec_set f c : reads (codec_set f) [] c tt (f c).
Proof. intros rest mo h Hh. unfold codec_set. simpl. by rewrite Z.add_0_r, Hh. Qed.

Lemma reads_guard b c : b = true -> reads (guard_m b) [] c tt c.
Proof. intros ->. apply (reads_ret tt). Qed.

Lemma reads_with_avail {A} (f : nat -> M A) bs c a c' :
  (forall n, (length bs < n)%nat -> reads (f n) bs c a c') -> reads (with_avail f) bs c a c'.
Proof.
  intros H rest mo h Hh. unfold with_avail. apply H; [|done]. unfold avail. simpl. rewrite length_app. lia.
Qed.

Lemma reads_eq {A} (m : M A) bs bs' c a a' c' c'' :
  reads m bs' c a' c'' -> bs = bs' -> a = a' -> c' = c'' -> reads m bs c a c'.
Proof. by intros ? -> -> ->. Qed.

Lemma word_bytes w : 0 <= w < 65536 ->
  exists b b', JPEGFW_PutW w = [b; b'] /\ (b .<< 8) .| b' = w.
Proof.
  intros Hw. unfold JPEGFW_PutW. eexists _, _. split; [done|].
  rewrite Z.lor_comm, word16_arith by apply u8_range. rewrite (u16_small w), shiftr_div by lia.
  change (2 ^ 8) with 256. mint. zlia.
Qed.

Lemma reads_get_short_word w c : 0 <= w < 65536 -> reads get_short_word (JPEGFW_PutW w) c w c.
Proof.
  intros Hw. destruct (word_bytes w Hw) as (b & b' & -> & E). change [b; b'] with ([b] ++ [b'] ++ []).
  eapply reads_bind; [apply reads_get_char|]. eapply reads_bind; [apply reads_get_char|].
  rewrite <- E. apply reads_ret.
Qed.

Lemma reads_skip_chars bs c : reads (skip_chars (length bs)) bs c tt c.
Proof.
  induction bs as [|b bs IH]; [apply reads_ret|]. apply (reads_bind _ _ [b] bs _ b c); [|done].
  apply reads_get_char.
Qed.

(** ** Markers *)

Lemma reads_GetNextMarker mk c : is_byte mk -> mk <> 0xFF -> mk <> 0 ->
  reads GetNextMarker (PutMarker mk) c mk c.
Proof.
  intros Hb Hff H0. unfold PutMarker, JPEGFW_PutC.
  rewrite (u8_small mk) by done. change (u8 0xFF) with 0xFF.
  apply reads_with_avail. intros [|n] Hn; [simpl in Hn; lia|]. cbn [next_marker].
  eapply reads_bind.
  - apply reads_with_avail. intros [|n'] Hn'; [simpl in Hn'; lia|]. cbn [skip_nonff].
    eapply reads_last; [apply reads_get_char|]. apply reads_ret.
  - eapply reads_last.
    + apply reads_with_avail. intros [|n'] Hn'; [simpl in Hn'; lia|]. cbn [skip_ff].
      eapply reads_last; [apply reads_get_char|]. rewrite (proj2 (Z.eqb_neq mk 0xFF)) by done. apply reads_ret.
    + rewrite (proj2 (Z.eqb_neq mk 0)) by done. apply reads_ret.
Qed.

(** ** Segments *)

(** The next step of a parser, when it is one of the primitives. *)
Ltac rstep := first
  [ eapply reads_bind0; [first [apply reads_codec_set|apply reads_codec_get|by apply reads_guard|apply reads_ret]|]
  | eapply reads_bind; [first [by apply reads_get_short_word|apply reads_get_char]|] ].

Lemma reads_alloc n k c : (n + 3) .& Z.lnot 3 = k -> k <= extra_mem_size c - used_extra_mem c ->
  reads (JpegDec_ExtraMemAlloc n) [] c tt (set_used (used_extra_mem c + k) c).
Proof.
  intros <- Hk. unfold JpegDec_ExtraMemAlloc. eapply reads_bind0; [apply reads_codec_get|]. cbv zeta.
  rewrite (proj2 (Z.ltb_ge _ _)) by done. apply reads_codec_set.
Qed.

Lemma reads_APP0 c : reads GetAPP0 (drop 2 PutAPP0) c tt c.
Proof.
  change (drop 2 PutAPP0) with (JPEGFW_PutW 16 ++ (drop 4 PutAPP0 ++ [])). unfold GetAPP0.
  eapply reads_bind; [by apply reads_get_short_word|].
  eapply reads_bind0; [by apply reads_guard|]. cbv zeta.
  change (JFIF_LEN <=? 16 - 2) with true. cbv iota.
  eapply reads_bind; [apply (reads_skip_chars (drop 4 PutAPP0))|]. apply (reads_skip_chars []).
Qed.

(** A list written in the order [zz] and stored at the positions [zz]. *)
Lemma reads_read_quant (f : nat -> Z) zz q c :
  Forall (fun z => (z < length q)%nat) zz ->
  reads (read_quant 0 zz q) (f <$> zz) c (foldl (fun q z => <[z := f z]> q) q zz) c.
Proof.
  revert q. induction zz as [|z zz IH]; intros q Hz; [apply reads_ret|].
  apply Forall_cons in Hz as [Hz Hzz]. cbn [read_quant fmap list_fmap foldl].
  apply (reads_bind _ _ [f z] (f <$> zz) c (f z) c); [apply reads_get_char|].
  eapply reads_bind0; [unfold store; rewrite decide_True by done; apply reads_ret|].
  apply IH. by rewrite length_insert.
Qed.

Lemma lookup_foldl_insert (f : nat -> Z) zz q i : (i < length q)%nat ->
  foldl (fun q z => <[z := f z]> q) q zz !! i = if decide (i ∈ zz) then Some (f i) else q !! i.
Proof.
  revert q. induction zz as [|z zz IH]; intros q Hi; [done|]. cbn [foldl].
  rewrite IH by (by rewrite length_insert). destruct (decide (i = z)) as [<-|Hne].
  - rewrite list_lookup_insert_eq by done. rewrite (decide_True (P := i ∈ i :: zz)) by set_solver.
    by case_decide.
  - rewrite list_lookup_insert_ne by done. repeat case_decide; set_solver.
Qed.

Lemma length_foldl_insert (f : nat -> Z) zz q : length (foldl (fun q z => <[z := f z]> q) q zz) = length q.
Proof. revert q. induction zz as [|z zz IH]; intros q; [done|]. cbn [foldl]. by rewrite IH, length_insert. Qed.

(** The zigzag order visits every position. *)
Lemma zigzag_all i : (i < 64)%nat -> i ∈ take 64 jpeg_fw_zigzag_order.
Proof.
  intros Hi. assert (H : forallb (fun i => bool_decide (i ∈ take 64 jpeg_fw_zigzag_order)) (seq 0 64) = true)
    by (vm_compute; reflexivity).
  pose proof (proj1 (forallb_forall _ _) H i) as Hin. cbv beta in Hin. rewrite bool_decide_eq_true in Hin.
  apply Hin, in_seq. lia.
Qed.

Lemma unzigzag q : length q = 64%nat ->
  foldl (fun l z => <[z := q !!! z]> l) (replicate 64 0) (take 64 jpeg_fw_zigzag_order) = q.
Proof.
  intros Hq. apply list_eq. intros i. destruct (decide (i < 64)%nat) as [Hi|Hi].
  - rewrite (lookup_foldl_insert (fun z => q !!! z)) by (by rewrite length_replicate).
    rewrite decide_True by (by apply zigzag_all). symmetry. apply list_lookup_lookup_total_lt. lia.
  - rewrite !lookup_ge_None_2; [done|lia|].
    rewrite (length_foldl_insert (fun z => q !!! z)), length_replicate. lia.
Qed.

Lemma bytes_fmap_u8 l : bytes l -> u8 <$> l = l.
Proof.
  intros H. induction H as [|b l Hb H IH]; [done|]. cbn [fmap list_fmap]. f_equal; [by apply u8_small|done].
Qed.

Lemma bytes_u8_total q i : bytes q -> u8 (q !!! i) = q !!! i.
Proof.
  intros Hq. apply u8_small. destruct (q !! i) as [b|] eqn:E.
  - rewrite (list_lookup_total_correct _ _ _ E). by eapply (Forall_lookup_1 is_byte).
  - rewrite list_lookup_total_alt, E. simpl. lia.
Qed.

(** One quantisation table; the first two are never compared. *)
Lemma reads_quant i q c : (i < 2)%nat -> length q = 64%nat -> bytes q ->
  64 <= extra_mem_size c - used_extra_mem c ->
  reads GetQuantTbl (drop 2 (put_quant_one i q)) c tt
    (set_quant (<[i := Some q]> (quant_tbl c)) false (set_used (used_extra_mem c + 64) c)).
Proof.
  intros Hi Hq Hb Hm. unfold GetQuantTbl.
  change (drop 2 (put_quant_one i q)) with (JPEGFW_PutW 67 ++
    (([u8 (Z.of_nat i)] ++ ((fun k => u8 (q !!! k)) <$> take 64 jpeg_fw_zigzag_order)) ++ [])).
  rewrite u8_small by lia.
  rewrite (list_fmap_ext _ (fun k => q !!! k)) by (intros; by apply bytes_u8_total).
  eapply reads_bind0; [apply reads_codec_set|]. eapply reads_bind; [by apply reads_get_short_word|].
  eapply reads_bind0; [by apply reads_guard|].
  eapply reads_bind.
  { change (Z.to_nat 67) with (S 66). cbn [quant_loop]. change (0 <? 67 - 2) with true. cbv iota.
    eapply reads_last.
    - unfold quant_one. eapply reads_bind; [apply reads_get_char|]. cbv zeta.
      assert (Z.of_nat i .>> 4 = 0 /\ Z.of_nat i .& 0x0F = Z.of_nat i) as [-> ->]
        by (destruct i as [|[|]]; [done..|lia]).
      rewrite (proj2 (Z.ltb_ge 2 _)) by lia.
      eapply reads_bind0; [by apply (reads_alloc 64 64)|].
      eapply reads_last; [apply reads_read_quant; exact zigzag_range|].
      eapply reads_bind0; [apply reads_codec_set|]. apply reads_ret.
    - cbv iota. change (67 - 2 <? 64 + 1 + 64 * 0) with false. cbv iota.
      change (quant_loop 66 (67 - 2 - (64 + 1 + 64 * 0))) with (fun two : bool => mret two : M bool).
      apply reads_ret. }
  rewrite (proj2 (Z.ltb_ge 1 _)) by lia. cbn [orb]. eapply reads_eq; [apply reads_ret|done|done|].
  rewrite (unzigzag q Hq), Nat2Z.id. done.
Qed.

(** Two halves of a byte. *)
Lemma nibbles a b : 0 <= a < 16 -> 0 <= b < 16 ->
  let c := u8 ((a .<< 4) .| b) in
  c = (a .<< 4) .| b /\ (c .>> 4) .& 0x0F = a /\ c .& 0x0F = b.
Proof.
  intros Ha Hb. cbv zeta. rewrite Z.lor_comm, lor_add by (change (2 ^ 4) with 16; lia). change (2 ^ 4) with 16.
  change 0x0F with (Z.ones 4). rewrite !Z.land_ones by lia. rewrite shiftr_div by lia.
  change (2 ^ 4) with 16. rewrite u8_small by lia. split_and!; zlia.
Qed.

Definition comp_read (i : nat) (h v : Z) : component :=
  Component (Z.of_nat i + 1) (Z.of_nat i) h v (if decide (i = 0%nat) then h else 1) (if decide (i = 0%nat) then v else 1).

Lemma reads_sof_component n i h v t bs c l c' q : (i < 3)%nat -> 0 <= h < 16 -> 0 <= v < 16 -> 0 <= q <= 2 ->
  tbl_map c !! i = Some t ->
  reads (sof_components n (Z.of_nat i + 1)) bs
    (set_tbl_map (<[i := TblMap (dc_huff_tbl_id t) (ac_huff_tbl_id t) q]> (tbl_map c)) c) l c' ->
  reads (sof_components (S n) (Z.of_nat i)) ([u8 (Z.of_nat i + 1)] ++ [u8 ((h .<< 4) .| v)] ++ [u8 q] ++ bs) c
    (comp_read i h v :: l) c'.
Proof.
  intros Hi Hh Hv Hq Ht Hl. cbn [sof_components]. destruct (nibbles h v Hh Hv) as (_ & E1 & E2).
  eapply reads_bind; [apply reads_get_char|]. rewrite (u8_small (Z.of_nat i + 1)) by lia.
  assert (s8 (s8 (Z.of_nat i + 1) - 1) = Z.of_nat i) as -> by (destruct i as [|[|[|]]]; [done..|lia]).
  cbv zeta. rewrite (proj2 (Z.ltb_ge _ 0)), (proj2 (Z.ltb_ge 2 (Z.of_nat i))) by lia. cbn [orb].
  eapply reads_bind; [apply reads_get_char|]. rewrite E1, E2.
  eapply reads_bind; [apply reads_get_char|]. rewrite (u8_small q) by lia.
  rewrite (proj2 (Z.ltb_ge 2 q)) by lia.
  eapply reads_bind0.
  { unfold tbl_map_update. eapply reads_bind0; [apply reads_codec_get|]. cbv beta.
    rewrite Nat2Z.id, Ht. apply reads_codec_set. }
  rewrite (u8_small (Z.of_nat i + 1)) by lia. eapply reads_last; [exact Hl|].
  eapply reads_eq; [apply reads_ret|done| |done]. unfold comp_read.
  destruct i as [|i]; [done|]. rewrite (proj2 (Z.eqb_neq _ 0)) by lia. done.
Qed.

(** The three table entries with the quantisation tables of the frame. *)
Definition frame_map (m t : tbl_map_t) : tbl_map_t := TblMap (dc_huff_tbl_id m) (ac_huff_tbl_id m) (quant_tbl_id t).

Definition nib (z : Z) : Prop := 0 <= z < 16.

Lemma reads_SOF e h v t0 t1 t2 m0 m1 m2 f c :
  0 <= e_height e < 65536 -> 0 <= e_width e < 65536 ->
  ratio e = [(h, v); (1, 1); (1, 1)] -> nib h -> nib v -> mcu_format ((h .<< 4) .| v) = Some f ->
  e_tbl_map e = [t0; t1; t2] -> Forall (fun t => 0 <= quant_tbl_id t <= 2) [t0; t1; t2] ->
  tbl_map c = [m0; m1; m2] -> 48 <= extra_mem_size c - used_extra_mem c ->
  reads (GetSOF false) (drop 2 (PutSOF0 e)) c tt
    (set_mcu f (set_comps 3 [comp_read 0 h v; comp_read 1 1 1; comp_read 2 1 1]
      (set_tbl_map [frame_map m0 t0; frame_map m1 t1; frame_map m2 t2]
        (set_used (used_extra_mem c + 48) (set_size (e_height e) (e_width e) (set_mode false c)))))).
Proof.
  intros Hh Hw Hr Hnh Hnv Hf He Hq Hm Hmem. unfold PutSOF0, put_component. rewrite Hr, He.
  apply Forall_cons in Hq as [Hq0 Hq]. apply Forall_cons in Hq as [Hq1 Hq]. apply Forall_cons in Hq as [Hq2 _].
  unfold GetSOF. cbn [lookup list_lookup lookup_total list_lookup_total fst snd].
  change (drop 2 _) with (JPEGFW_PutW 17 ++ [8] ++ JPEGFW_PutW (e_height e) ++ JPEGFW_PutW (e_width e) ++ [3] ++
    ([u8 (Z.of_nat 0 + 1)] ++ [u8 ((h .<< 4) .| v)] ++ [u8 (quant_tbl_id t0)] ++
     [u8 (Z.of_nat 1 + 1)] ++ [u8 ((1 .<< 4) .| 1)] ++ [u8 (quant_tbl_id t1)] ++
     [u8 (Z.of_nat 2 + 1)] ++ [u8 ((1 .<< 4) .| 1)] ++ [u8 (quant_tbl_id t2)] ++ [])).
  repeat rstep.
  eapply reads_bind0; [by apply (reads_alloc _ 48)|].
  eapply reads_last.
  { change (Z.to_nat 3) with 3%nat.
    apply (reads_sof_component 2 0 h v m0); [lia|done|done|done|by cbn; rewrite Hm|].
    apply (reads_sof_component 1 1 1 1 m1); [lia|lia|lia|done|by cbn; rewrite Hm|].
    apply (reads_sof_component 0 2 1 1 m2); [lia|lia|lia|done|by cbn; rewrite Hm|].
    apply reads_ret. }
  cbn -[Z.land Z.shiftl]. rewrite Hm. cbn -[Z.land Z.shiftl].
  rstep. rstep. destruct (nibbles h v Hnh Hnv) as (-> & _ & _). rewrite Hf.
  rstep. rstep. rstep. change (2 <? 3) with true. cbv iota. rstep.
  eapply reads_eq; [by apply reads_guard|done..].
Qed.

Lemma reads_sos_component n i t m bs c c' p : (i < 3)%nat -> nib (dc_huff_tbl_id t) -> nib (ac_huff_tbl_id t) ->
  tbl_map c !! i = Some m -> (i < length (comp_id_map c))%nat ->
  comp_info c !! i = Some p -> component_id p = Z.of_nat i + 1 ->
  reads (sos_components n (S i)) bs
    (set_comp_id_map (<[i := Z.of_nat i + 1]> (comp_id_map c))
      (set_tbl_map (<[i := TblMap (dc_huff_tbl_id t) (ac_huff_tbl_id t) (quant_tbl_id m)]> (tbl_map c)) c)) tt c' ->
  reads (sos_components (S n) i)
    ([u8 (Z.of_nat i + 1)] ++ [u8 ((dc_huff_tbl_id t .<< 4) .| ac_huff_tbl_id t)] ++ bs) c tt c'.
Proof.
  intros Hi Hd Ha Hm Hid Hp Hcp Hl. cbn [sos_components].
  destruct (nibbles _ _ Hd Ha) as (_ & E1 & E2). rstep. rstep.
  rewrite E1, E2, (u8_small (Z.of_nat i + 1)) by lia. rewrite Z.eqb_refl. cbn [negb].
  eapply reads_bind0.
  { unfold tbl_map_update. rstep. cbv beta. rewrite Hm. apply reads_codec_set. }
  rstep. cbv beta.
  assert (existsb (fun p => Z.of_nat i + 1 =? component_id p) (comp_info c) = true) as Hex.
  { apply existsb_exists. exists p. split; [|by apply Z.eqb_eq]. apply list_elem_of_In. by eapply list_elem_of_lookup_2. }
  eapply reads_bind0; [|exact Hl]. cbn [comp_info set_tbl_map]. rewrite Hex. unfold comp_id_store.
  rstep. cbn [comp_id_map set_tbl_map]. rewrite decide_True by done. apply reads_codec_set.
Qed.

Lemma reads_SOS e t0 t1 t2 m0 m1 m2 i0 i1 i2 h v c :
  e_tbl_map e = [t0; t1; t2] -> Forall (fun t => nib (dc_huff_tbl_id t) /\ nib (ac_huff_tbl_id t)) [t0; t1; t2] ->
  tbl_map c = [m0; m1; m2] -> quant_tbl_id <$> [m0; m1; m2] = quant_tbl_id <$> [t0; t1; t2] ->
  comp_id_map c = [i0; i1; i2] -> comp_info c = [comp_read 0 h v; comp_read 1 1 1; comp_read 2 1 1] ->
  reads GetSOS (drop 2 (PutSOS e)) c tt
    (set_spectral (0, 63, 0, 0) (set_comp_id_map [1; 2; 3] (set_tbl_map [t0; t1; t2] (set_scan 3 c)))).
Proof.
  intros He Ht Hm Hq Hi Hc. unfold PutSOS, put_scan_component. rewrite He. injection Hq as Hq0 Hq1 Hq2.
  apply Forall_cons in Ht as [[? ?] Ht]. apply Forall_cons in Ht as [[? ?] Ht]. apply Forall_cons in Ht as [[? ?] _].
  unfold GetSOS. cbn [lookup list_lookup].
  change (drop 2 _) with (JPEGFW_PutW 12 ++ [3] ++
    ([u8 (Z.of_nat 0 + 1)] ++ [u8 ((dc_huff_tbl_id t0 .<< 4) .| ac_huff_tbl_id t0)] ++
     [u8 (Z.of_nat 1 + 1)] ++ [u8 ((dc_huff_tbl_id t1 .<< 4) .| ac_huff_tbl_id t1)] ++
     [u8 (Z.of_nat 2 + 1)] ++ [u8 ((dc_huff_tbl_id t2 .<< 4) .| ac_huff_tbl_id t2)] ++ []) ++ [0] ++ [63] ++ [0] ++ []).
  repeat rstep. eapply reads_bind.
  { change (Z.to_nat 3) with 3%nat.
    eapply (reads_sos_component 2 0 t0 m0); [lia|done|done|by cbn; rewrite Hm|by cbn; rewrite Hi; simpl; lia|by cbn; rewrite Hc|done|].
    eapply (reads_sos_component 1 1 t1 m1); [lia|done|done|by cbn; rewrite Hm|by cbn; rewrite Hi; simpl; lia|by cbn; rewrite Hc|done|].
    eapply (reads_sos_component 0 2 t2 m2); [lia|done|done|by cbn; rewrite Hm|by cbn; rewrite Hi; simpl; lia|by cbn; rewrite Hc|done|].
    apply reads_ret. }
  repeat rstep. eapply reads_eq; [apply reads_codec_set|done|done|].
  cbn. rewrite Hm, Hi. cbn. rewrite Hq0, Hq1, Hq2. destruct t0, t1, t2. done.
Qed.

Lemma reads_DRI e c : 0 < restart_interval e < 65536 ->
  reads GetDRI (drop 2 (WriteDRI e)) c tt (set_restart (restart_interval e) c).
Proof.
  intros Hr. unfold WriteDRI. rewrite (proj2 (Z.eqb_neq _ 0)) by lia. cbn [negb].
  change (drop 2 _) with (JPEGFW_PutW 4 ++ JPEGFW_PutW (restart_interval e)). unfold GetDRI.
  rstep. rstep. eapply reads_last; [apply reads_get_short_word; lia|]. apply reads_codec_set.
Qed.

(** ** Huffman tables *)

(** Whether the values read are the default ones from position [i] on. *)
Definition match_def (def : list Z) (i : nat) (l : list Z) : bool :=
  forallb (fun p => fst p =? snd p) (zip l (drop i def)).

Lemma match_def_cons def i b l d : def !! i = Some d -> match_def def i (b :: l) = (b =? d) && match_def def (S i) l.
Proof. intros Hd. unfold match_def. by rewrite (drop_S _ _ _ Hd). Qed.

Definition sum (l : list Z) : Z := foldr Z.add 0 l.

Lemma sum_nonneg l : bytes l -> 0 <= sum l.
Proof. induction 1 as [|b l Hb Hl IH]; simpl in *; lia. Qed.

Lemma insert_middle (pre old : list Z) b : (0 < length old)%nat ->
  <[length pre := b]> (pre ++ old) = (pre ++ [b]) ++ drop 1 old.
Proof.
  intros H. destruct old as [|o old]; [simpl in H; lia|].
  rewrite insert_app_r_alt by lia. rewrite Nat.sub_diag. simpl. rewrite drop_0. by rewrite <- app_assoc.
Qed.

Lemma reads_read_bits bs def pre old cnt same c :
  bytes bs -> (length bs <= length old)%nat -> (length pre + length bs <= length def)%nat ->
  0 <= cnt -> cnt + sum bs < 65536 ->
  reads (read_bits (length bs) (length pre) def (pre ++ old) cnt same) bs c
    (pre ++ bs ++ drop (length bs) old, cnt + sum bs, same && match_def def (length pre) bs) c.
Proof.
  intros Hbs. revert pre old cnt same. induction Hbs as [|b bs Hb Hbs IH]; intros pre old cnt same Hl Hd Hc Hs;
    cbn [read_bits length].
  { eapply reads_eq; [apply reads_ret|done| |done]. rewrite drop_0. unfold match_def. simpl.
    by rewrite Z.add_0_r, andb_true_r. }
  cbn [length] in *. unfold sum in Hs. cbn [foldr] in Hs. fold (sum bs) in Hs. pose proof (sum_nonneg bs Hbs).
  change (b :: bs) with ([b] ++ bs). rstep.
  eapply reads_bind0; [unfold store; rewrite decide_True by (rewrite length_app; lia); apply reads_ret|].
  destruct (lookup_lt_is_Some_2 def (length pre)) as [d Hdd]; [lia|]. rewrite Hdd, insert_middle by lia.
  rewrite u16_small by lia.
  specialize (IH (pre ++ [b]) (drop 1 old) (cnt + b) (same && (b =? d))).
  rewrite length_app, length_drop, drop_drop in IH. cbn [length] in IH. rewrite Nat.add_1_r in IH.
  eapply reads_eq; [apply IH; lia|done| |done]. 
  change ([b] ++ bs) with (b :: bs). rewrite (match_def_cons _ _ _ _ _ Hdd), <- app_assoc, andb_assoc. 
  unfold sum. cbn [foldr app]. rewrite Z.add_assoc. done.
Qed.

Lemma reads_read_huffval bs def pre old same c :
  bytes bs -> (length bs <= length old)%nat -> (length pre + length bs <= length def)%nat ->
  reads (read_huffval (length bs) (length pre) def (pre ++ old) same) bs c
    (pre ++ bs ++ drop (length bs) old, same && match_def def (length pre) bs) c.
Proof.
  intros Hbs. revert pre old same. induction Hbs as [|b bs Hb Hbs IH]; intros pre old same Hl Hd;
    cbn [read_huffval length].
  { eapply reads_eq; [apply reads_ret|done| |done]. rewrite drop_0. unfold match_def. simpl. by rewrite andb_true_r. }
  cbn [length] in *. change (b :: bs) with ([b] ++ bs). rstep.
  eapply reads_bind0; [unfold store; rewrite decide_True by (rewrite length_app; lia); apply reads_ret|].
  destruct (lookup_lt_is_Some_2 def (length pre)) as [d Hdd]; [lia|]. rewrite Hdd, insert_middle by lia.
  specialize (IH (pre ++ [b]) (drop 1 old) (same && (b =? d))).
  rewrite length_app, length_drop, drop_drop in IH. cbn [length] in IH. rewrite Nat.add_1_r in IH.
  eapply reads_eq; [apply IH; lia|done| |done].
  change ([b] ++ bs) with (b :: bs). rewrite (match_def_cons _ _ _ _ _ Hdd), <- app_assoc, andb_assoc. done.
Qed.

(** A table the writer can send: 16 counts, and as many values as they say, no more than
    the default table of its class has. *)
Definition huff_ok (max : Z) (t : huff_tbl_t) : Prop :=
  length (bits t) = 17%nat /\ bytes (bits t) /\ bytes (huffval t) /\
  sum (drop 1 (bits t)) <= max /\ sum (drop 1 (bits t)) <= Z.of_nat (length (huffval t)).

Definition max_values (ac : bool) : Z := if ac then 256 else 12.

Definition tbl_values (t : huff_tbl_t) : list Z := take (Z.to_nat (sum (drop 1 (bits t)))) (huffval t).

(** The table the parser makes of it in place of the table [old]. *)
Definition tbl_read (old t : huff_tbl_t) : huff_tbl_t :=
  HuffTbl (0 :: drop 1 (bits t)) (tbl_values t ++ drop (length (tbl_values t)) (huffval old)).

Definition tbl_default (ac : bool) (k : nat) (t : huff_tbl_t) : bool :=
  match_def (bits (default_tbl ac (Z.of_nat k))) 1 (drop 1 (bits t)) &&
  match_def (huffval (default_tbl ac (Z.of_nat k))) 0 (tbl_values t).

Lemma tbl_values_length max t : huff_ok max t -> Z.of_nat (length (tbl_values t)) = sum (drop 1 (bits t)).
Proof.
  intros (Hl & Hb & Hv & Hm & Hs). unfold tbl_values. rewrite length_take.
  pose proof (sum_nonneg (drop 1 (bits t)) ltac:(by apply Forall_drop)). lia.
Qed.

(** The index byte of table [k] of a class. *)
Definition huff_index (ac : bool) (k : nat) : Z := if ac then 16 + Z.of_nat k else Z.of_nat k.

Lemma default_sizes ac k : length (bits (default_tbl ac k)) = 17%nat /\
  Z.of_nat (length (huffval (default_tbl ac k))) = max_values ac.
Proof. unfold default_tbl. destruct ac, (k =? 0); done. Qed.

Lemma store0 l : (0 < length l)%nat -> <[0%nat := 0]> l = [0] ++ drop 1 l.
Proof. destruct l; [simpl; lia|]. intros _. simpl. by rewrite drop_0. Qed.

Definition set_tbl (ac : bool) (k : nat) (t : huff_tbl_t) (d : bool) (c : codec) : codec :=
  set_huff (if ac then dc_huff_tbl c else <[k := t]> (dc_huff_tbl c))
    (if ac then <[k := t]> (ac_huff_tbl c) else ac_huff_tbl c) (huff_tbl_malloced c) d c.

Lemma reads_huff_one ac k t old c : (k < 2)%nat -> huff_ok (max_values ac) t ->
  (if ac then ac_huff_tbl c else dc_huff_tbl c) !! k = Some old -> tbl_ok old ->
  reads huff_one ([huff_index ac k] ++ drop 1 (bits t) ++ tbl_values t) c (sum (drop 1 (bits t)))
    (set_tbl ac k (tbl_read old t) (using_default_huff_tab c && tbl_default ac k t) c).
Proof.
  intros Hk Ht Hold [Hob Hov]. unfold huff_one. rstep. cbv zeta.
  assert (negb (huff_index ac k .& 0x13 .& 0x10 =? 0) = ac) as ->
    by (destruct ac, k as [|[|]]; try lia; reflexivity).
  assert ((if ac then huff_index ac k .& 0x13 - 0x10 else huff_index ac k .& 0x13) = Z.of_nat k) as ->
    by (destruct ac, k as [|[|]]; try lia; reflexivity).
  rstep. rewrite Nat2Z.id, Hold. pose proof (tbl_values_length _ _ Ht) as Hlen.
  destruct Ht as (Hl & Hb & Hv & Hm & Hs). destruct (default_sizes ac (Z.of_nat k)) as [Hdb Hdv].
  pose proof (sum_nonneg (drop 1 (bits t)) ltac:(by apply Forall_drop)).
  assert (max_values ac <= 256) by (destruct ac; done).
  eapply reads_bind0; [unfold store; rewrite decide_True by lia; apply reads_ret|].
  rewrite store0 by lia.
  assert (length (drop 1 (bits t)) = 16%nat) as Hl16 by (rewrite length_drop; lia).
  eapply reads_bind.
  { rewrite <- Hl16 at 1. apply (reads_read_bits _ _ [0]); 
      [by apply Forall_drop|rewrite !length_drop; lia|rewrite Hl16, Hdb; simpl; lia|lia|lia]. }
  cbv iota beta. rewrite Z.add_0_l, (proj2 (Z.ltb_ge 256 _)) by lia.
  eapply reads_last.
  { rewrite <- Hlen at 1. rewrite Nat2Z.id.
    apply (reads_read_huffval _ _ [] (huffval old)); [by apply Forall_take|lia|simpl; lia]. }
  cbv iota beta. rstep. eapply reads_eq; [apply reads_ret|done|done|].
  assert (drop (length (drop 1 (bits t))) (drop 1 (bits old)) = []) as -> by (apply drop_ge; rewrite !length_drop; lia).
  unfold set_tbl, tbl_read, tbl_default. rewrite app_nil_r, andb_assoc. by destruct ac.
Qed.

Lemma reads_huff ac k t old c : (k < 2)%nat -> huff_ok (max_values ac) t ->
  huff_tbl_malloced c = true ->
  (if ac then ac_huff_tbl c else dc_huff_tbl c) !! k = Some old -> tbl_ok old ->
  reads GetHuffTbl (drop 2 (PutOneHuffTbl (huff_index ac k) t)) c tt
    (set_tbl ac k (tbl_read old t) (using_default_huff_tab c && tbl_default ac k t) c).
Proof.
  intros Hk Ht Hmal Hold Hok. pose proof (reads_huff_one ac k t old c Hk Ht Hold Hok) as Hone.
  destruct Ht as (Hl & Hb & Hv & Hm & Hs).
  pose proof (sum_nonneg (drop 1 (bits t)) ltac:(by apply Forall_drop)).
  assert (max_values ac <= 256) by (destruct ac; done).
  assert (take 16 (drop 1 (bits t)) = drop 1 (bits t)) as Htk by (apply take_ge; rewrite length_drop; lia).
  assert (huff_count (bits t) = sum (drop 1 (bits t))) as Hcnt
    by (unfold huff_count; rewrite Htk; apply u16_small; unfold sum in *; lia).
  unfold PutOneHuffTbl. rewrite Hcnt, Htk. cbv zeta.
  change (take (Z.to_nat (sum (drop 1 (bits t)))) (huffval t)) with (tbl_values t).
  rewrite (bytes_fmap_u8 (drop 1 (bits t))) by (by apply Forall_drop).
  rewrite (bytes_fmap_u8 (tbl_values t)) by (by apply Forall_take).
  assert (JPEGFW_PutC (huff_index ac k) = [huff_index ac k]) as ->
    by (unfold JPEGFW_PutC; rewrite u8_small; [done|unfold huff_index; destruct ac; lia]).
  change (drop 2 (PutMarker M_DHT ++ ?l)) with l.
  unfold GetHuffTbl. rstep. rewrite Hmal. rstep.
  eapply reads_bind; [apply reads_get_short_word; lia|].
  eapply reads_bind0; [apply reads_guard; apply Z.leb_le; lia|].
  destruct (Z.to_nat (2 + 1 + 16 + sum (drop 1 (bits t)))) as [|fuel] eqn:Ef; [lia|]. cbn [huff_loop].
  rewrite (proj2 (Z.ltb_lt 0 _)) by lia. eapply reads_last; [exact Hone|].
  rewrite (proj2 (Z.ltb_ge _ (1 + 16 + _))) by lia.
  destruct fuel as [|fuel]; [lia|]. cbn [huff_loop]. rewrite (proj2 (Z.ltb_ge 0 _)) by lia. apply reads_ret.
Qed.

(** The first DHT takes the memory of all the tables. *)
Definition tables_taken (c : codec) : codec :=
  set_huff (replicate NUM_HUFF_TBLS new_huff_tbl) (replicate NUM_HUFF_TBLS new_huff_tbl) true
    (using_default_huff_tab c) (set_used (used_extra_mem c + 2240) c).

Lemma set_used_twice n m c : set_used n (set_used m c) = set_used n c.
Proof. done. Qed.

Lemma used_set n c : used_extra_mem (set_used n c) = n.
Proof. done. Qed.

Lemma size_set n c : extra_mem_size (set_used n c) = extra_mem_size c.
Proof. done. Qed.

Lemma reads_alloc_huff_tbls n c : 560 * Z.of_nat n <= extra_mem_size c - used_extra_mem c ->
  reads (alloc_huff_tbls n) [] c tt (set_used (used_extra_mem c + 560 * Z.of_nat n) c).
Proof.
  revert c. induction n as [|n IH]; intros c Hm; cbn [alloc_huff_tbls].
  { eapply reads_eq; [apply reads_ret|done|done|]. rewrite Z.add_0_r. by destruct c. }
  do 2 (eapply reads_bind0; [apply (reads_alloc 17 20); [done|rewrite ?used_set, ?size_set; lia]|];
    rewrite ?used_set, ?set_used_twice;
    eapply reads_bind0; [apply (reads_alloc 257 260); [done|rewrite ?used_set, ?size_set; lia]|];
    rewrite ?used_set, ?set_used_twice).
  eapply reads_eq; [apply IH; rewrite used_set, size_set; lia|done|done|].
  rewrite used_set, set_used_twice. f_equal. lia.
Qed.

Lemma reads_huff_first bs c c' : huff_tbl_malloced c = false ->
  2240 <= extra_mem_size c - used_extra_mem c ->
  reads GetHuffTbl bs (tables_taken c) tt c' -> reads GetHuffTbl bs c tt c'.
Proof.
  intros Hm Hmem H rest mo h Hh. rewrite <- (H rest mo h Hh).
  pose proof (reads_alloc_huff_tbls NUM_HUFF_TBLS c ltac:(change (Z.of_nat NUM_HUFF_TBLS) with 4; lia) (bs ++ rest) mo h Hh) as Ha.
  change (@nil Z ++ ?l) with l in Ha. rewrite Z.add_0_r, Hh in Ha.
  unfold GetHuffTbl, mbind, M_bind, codec_get. cbn [cdc]. rewrite Hm, Ha. done.
Qed.

(** ** The whole header *)

(** One segment of the tables. *)
Lemma reads_segment mk m seg bs fuel c c1 r c2 :
  In (mk, m) [(M_SOF0, GetSOF false); (M_DHT, GetHuffTbl); (M_DQT, GetQuantTbl); (M_APP0, GetAPP0); (M_DRI, GetDRI)] ->
  take 2 seg = PutMarker mk -> reads m (drop 2 seg) c tt c1 ->
  reads (process_tables fuel) bs c1 r c2 -> reads (process_tables (S fuel)) (seg ++ bs) c r c2.
Proof.
  intros Hin Hseg Hm Hbs. rewrite <- (take_drop 2 seg), Hseg, <- app_assoc. cbn [process_tables].
  eapply reads_bind; [apply reads_GetNextMarker; repeat (destruct Hin as [[= <- <-]|Hin]; [done|]); done|].
  repeat (destruct Hin as [[= <- <-]|Hin]; [exact (reads_bind _ _ _ _ _ _ _ _ _ Hm Hbs)|]). done.
Qed.

(** What the encoder must hold for its header to be a JPEG header: sizes of 16 bits, one
    of the supported samplings, table numbers in range, two complete quantisation and
    four complete Huffman tables. *)
Definition enc_ok (e : jenc) : Prop :=
  0 <= e_height e < 65536 /\ 0 <= e_width e < 65536 /\ 0 <= restart_interval e < 65536 /\
  length (ratio e) = 3%nat /\ drop 1 (ratio e) = [(1, 1); (1, 1)] /\
  nib (fst (ratio e !!! 0%nat)) /\ nib (snd (ratio e !!! 0%nat)) /\
  length (e_tbl_map e) = 3%nat /\
  Forall (fun t => 0 <= quant_tbl_id t <= 2 /\ nib (dc_huff_tbl_id t) /\ nib (ac_huff_tbl_id t)) (e_tbl_map e) /\
  length (e_quant_tbl e) = 2%nat /\ Forall (fun q => length q = 64%nat /\ bytes q) (e_quant_tbl e) /\
  length (e_dc_huff_tbl e) = 2%nat /\ Forall (huff_ok 12) (e_dc_huff_tbl e) /\
  length (e_ac_huff_tbl e) = 2%nat /\ Forall (huff_ok 256) (e_ac_huff_tbl e).

(** The memory the tables take: two quantisation tables, three components, eight
    Huffman tables. *)
Definition tables_mem : Z := 2 * 64 + 3 * 16 + 8 * (20 + 260).

(** The codec after the parser has read the header, [f] the sampling format. *)
Definition codec_read (e : jenc) (f mem : Z) : codec :=
  let r := ratio e !!! 0%nat in
  let tbl l k := tbl_read new_huff_tbl (l !!! k) in
  let dc := e_dc_huff_tbl e in
  let ac := e_ac_huff_tbl e in
  Codec (e_height e) (e_width e) f false 3
    [comp_read 0 (fst r) (snd r); comp_read 1 1 1; comp_read 2 1 1] (e_tbl_map e) [1; 2; 3] 3 (0, 63, 0, 0) 1
    (if restart_interval e =? 0 then (0x3ffff, 0x3ffff, 0) else (restart_interval e, restart_interval e, 0))
    [tbl dc 0%nat; tbl dc 1%nat; new_huff_tbl; new_huff_tbl]
    [tbl ac 0%nat; tbl ac 1%nat; new_huff_tbl; new_huff_tbl] true
    (tbl_default false 0 (dc !!! 0%nat) && tbl_default true 0 (ac !!! 0%nat) &&
     tbl_default false 1 (dc !!! 1%nat) && tbl_default true 1 (ac !!! 1%nat))
    [Some (e_quant_tbl e !!! 0%nat); Some (e_quant_tbl e !!! 1%nat); None] false tables_mem mem.

Lemma tbl_read_ok max t : huff_ok max t -> max <= 256 -> tbl_ok (tbl_read new_huff_tbl t).
Proof.
  intros Ht Hmax. pose proof (tbl_values_length _ _ Ht) as Hl. destruct Ht as (Hb & _ & _ & Hm & _).
  unfold tbl_read. split; cbn [bits huffval length].
  - rewrite length_drop. lia.
  - rewrite length_app, length_drop. change (length (huffval new_huff_tbl)) with 257%nat. lia.
Qed.

Lemma new_tbl_ok : tbl_ok new_huff_tbl.
Proof. done. Qed.

Lemma length2 {A} (l : list A) : length l = 2%nat -> exists x y, l = [x; y].
Proof. destruct l as [|x [|y [|]]]; try done. eauto. Qed.

Lemma length3 {A} (l : list A) : length l = 3%nat -> exists x y z, l = [x; y; z].
Proof. destruct l as [|x [|y [|z [|]]]]; try done. eauto. Qed.

(** The codec before the scan header. *)
Definition codec_tables (e : jenc) (f mem : Z) : codec :=
  let c := codec_read e f mem in
  Codec (input_height c) (input_width c) f false 3 (comp_info c)
    ((fun t => TblMap 0 0 (quant_tbl_id t)) <$> e_tbl_map e) [0; 0; 0] 0 (0, 0, 0, 0) 0 (restart c)
    (dc_huff_tbl c) (ac_huff_tbl c) true (using_default_huff_tab c) (quant_tbl c) false (used_extra_mem c) mem.

(** Everything between SOI and the scan header. *)
Definition put_tables (e : jenc) : list Z := PutAPP0 ++ PutQuantTbl e ++ PutSOF0 e ++ PutHuffTbl e ++ WriteDRI e.

Lemma reads_restart e c n bs r c2 : 0 <= restart_interval e < 65536 ->
  (forall n, reads (process_tables (S n)) bs
     (if restart_interval e =? 0 then c else set_restart (restart_interval e) c) r c2) ->
  reads (process_tables (S (S n))) (WriteDRI e ++ bs) c r c2.
Proof.
  intros Hr H. destruct (Z.eqb_spec (restart_interval e) 0) as [E|E].
  - unfold WriteDRI. rewrite (proj2 (Z.eqb_eq _ 0) E). exact (H _).
  - eapply reads_segment; [right; right; right; right; left; done| |apply reads_DRI; lia|exact (H _)].
    unfold WriteDRI. by rewrite (proj2 (Z.eqb_neq _ 0) E).
Qed.

Lemma reads_process_SOS n c : reads (process_tables (S n)) (PutMarker M_SOS) c M_SOS c.
Proof. cbn [process_tables]. eapply reads_last; [by apply reads_GetNextMarker|]. apply reads_ret. Qed.

Tactic Notation "seg" integer(n) := eapply reads_segment; [do n right; left; reflexivity|reflexivity| |].

Lemma reads_tables e f mem n :
  enc_ok e -> mcu_format ((fst (ratio e !!! 0%nat) .<< 4) .| snd (ratio e !!! 0%nat)) = Some f -> tables_mem <= mem ->
  reads (process_tables (11 + n)) (put_tables e ++ PutMarker M_SOS) (codec_init mem) M_SOS (codec_tables e f mem).
Proof.
  intros (Hh & Hw & Hr & Hrl & Hr1 & Hn1 & Hn2 & Htl & Ht & Hql & Hq & Hdl & Hd & Hal & Ha) Hf Hmem.
  destruct (length3 _ Hrl) as ([h v] & r1 & r2 & Er). rewrite Er in *. injection Hr1 as -> ->.
  destruct (length3 _ Htl) as (t0 & t1 & t2 & Et), (length2 _ Hql) as (q0 & q1 & Eq),
    (length2 _ Hdl) as (d0 & d1 & Ed), (length2 _ Hal) as (a0 & a1 & Ea).
  rewrite Et, Eq, Ed, Ea in *. unfold put_tables, PutQuantTbl, PutHuffTbl. rewrite Eq, Ed, Ea.
  cbn [lookup_total list_lookup_total fst snd] in *. rewrite <- !app_assoc. unfold tables_mem in *.
  apply Forall_cons in Hq as [[? ?] Hq]. apply Forall_cons in Hq as [[? ?] _].
  apply Forall_cons in Hd as [? Hd]. apply Forall_cons in Hd as [? _].
  apply Forall_cons in Ha as [? Ha]. apply Forall_cons in Ha as [? _].
  change (11 + n)%nat with (S (S (S (S (S (S (S (S (S (S (S n))))))))))).
  seg 3; [apply reads_APP0|].
  seg 2; [apply (reads_quant 0); [lia|done|done|cbn; lia]|].
  seg 2; [apply (reads_quant 1); [lia|done|done|cbn; lia]|].
  seg 0; [eapply (reads_SOF e h v t0 t1 t2); try done; [|cbn; lia]; eapply Forall_impl; [exact Ht|naive_solver]|].
  seg 1; [apply reads_huff_first; [done|cbn; lia|]; 
     apply (reads_huff false 0 d0 new_huff_tbl); [lia|done|done|done|done]|].
  seg 1; [apply (reads_huff true 0 a0 new_huff_tbl); [lia|done|done|done|done]|].
  seg 1; [apply (reads_huff false 1 d1 new_huff_tbl); [lia|done|done|done|done]|].
  seg 1; [apply (reads_huff true 1 a1 new_huff_tbl); [lia|done|done|done|done]|].
  apply reads_restart; [done|]. intros k. eapply reads_eq; [apply reads_process_SOS|done|done|].
  unfold codec_tables, codec_read. rewrite Er, Et, Eq, Ed, Ea. destruct (restart_interval e =? 0); reflexivity.
Qed.

Lemma reads_find_soi c : reads (with_avail find_soi) (PutMarker M_SOI) c tt c.
Proof.
  apply reads_with_avail. intros [|n] Hn; [simpl in Hn; lia|]. cbn [find_soi].
  eapply reads_last; [by apply reads_GetNextMarker|]. apply reads_ret.
Qed.

Lemma put_tables_length e : (18 <= length (put_tables e))%nat.
Proof. unfold put_tables. rewrite length_app. change (length PutAPP0) with 18%nat. lia. Qed.

Lemma reads_ParseHead e f mem :
  enc_ok e -> mcu_format ((fst (ratio e !!! 0%nat) .<< 4) .| snd (ratio e !!! 0%nat)) = Some f -> tables_mem <= mem ->
  reads ParseHead (JPEG_HWWriteHeadForThumbnail e) (codec_init mem) tt (codec_read e f mem).
Proof.
  intros He Hf Hmem.
  assert (JPEG_HWWriteHeadForThumbnail e =
    PutMarker M_SOI ++ (put_tables e ++ PutMarker M_SOS) ++ drop 2 (PutSOS e)) as ->.
  { unfold JPEG_HWWriteHeadForThumbnail, put_tables. rewrite <- !app_assoc. reflexivity. }
  unfold ParseHead. eapply reads_bind; [apply reads_find_soi|]. eapply reads_bind.
  { apply reads_with_avail. intros n Hn. rewrite length_app in Hn. pose proof (put_tables_length e).
    destruct (Nat.le_exists_sub 11 n ltac:(lia)) as (k & -> & _). rewrite Nat.add_comm. by apply reads_tables. }
  change (M_SOS =? M_SOS) with true. cbv iota.
  destruct He as (_ & _ & _ & _ & _ & _ & _ & Htl & Ht & _). destruct (length3 _ Htl) as (t0 & t1 & t2 & Et).
  rewrite Et in Ht. eapply reads_eq.
  - eapply (reads_SOS e t0 t1 t2); [done| |unfold codec_tables; rewrite Et; reflexivity|done|done|done].
    eapply Forall_impl; [exact Ht|naive_solver].
  - done.
  - done.
  - unfold codec_tables, codec_read. rewrite Et. by destruct (restart_interval e =? 0).
Qed.

(** C9: What the encoder writes, the decoder reads: for an encoder whose sizes, sampling
    and tables are in range, the header parser accepts [JPEG_HWWriteHeadForThumbnail]'s
    bytes, consumes exactly them, and leaves in the codec the encoder's image size,
    sampling format, restart interval, table numbers, both quantisation tables out of
    zigzag order and all four Huffman tables, with the flag for the default tables set
    exactly when all four are the defaults; 2416 bytes of memory are enough. *)
Theorem header_roundtrip e f mem rest more :
  enc_ok e -> mcu_format ((fst (ratio e !!! 0%nat) .<< 4) .| snd (ratio e !!! 0%nat)) = Some f -> tables_mem <= mem ->
  ParseHead (st_init mem (JPEG_HWWriteHeadForThumbnail e ++ rest) more) =
    POk (tt, St rest more (u32 (Z.of_nat (length (JPEG_HWWriteHeadForThumbnail e)))) (codec_read e f mem)).
Proof. intros He Hf Hmem. exact (reads_ParseHead e f mem He Hf Hmem rest more 0 eq_refl). Qed.

Lemma header_roundtrip_witness :
  enc_ok enc_demo /\ mcu_format 0x22 = Some JPEG_FW_YUV420 /\
  ParseHead (st_init 2416 (JPEG_HWWriteHeadForThumbnail enc_demo ++ [0xab]) []) =
    POk (tt, St [0xab] [] 623 (codec_read enc_demo JPEG_FW_YUV420 2416)).
Proof.
  assert (enc_ok enc_demo) as He.
  { unfold enc_ok, huff_ok, nib. apply (bool_decide_unpack _). vm_compute. exact I. }
  split; [exact He|]. split; [reflexivity|].
  apply (header_roundtrip enc_demo JPEG_FW_YUV420 2416 [0xab] []); [exact He|reflexivity|discriminate].
Defined.
