(* ===== verification/JpegVld.v ===== *)
(** * JPEG decoder, Huffman tables for the hardware (libs/libcamera/jpeg/jpeg_fw_8830/src/
    jpegdec_vld.c)

    The tables the parser has read become register values (the largest code of each
    length, the index of its first symbol, which lengths are used) and a look-up table
    of symbols.  A register write is an entry of a log.  The theorems decode with these
    registers as Annex F of the JPEG standard prescribes. *)

From S2P Require Import Prelude JpegHead JpegEnc JpegSafe JpegRt.

(** ** Data *)

Definition JPEG_FW_LUM_ID : nat := 0.
Definition JPEG_FW_CHR_ID : nat := 1.

(** Where the DC symbols of each length start in the look-up table. *)
Definition g_DC_offset : list nat :=
  [0; 0; 2; 6; 14; 26; 38; 50; 62; 74; 86; 98; 110; 122; 134; 146; 158]%nat.

(** [s_active_base_max], luma DC, luma AC, chroma DC, chroma AC; [g_huffTab]. *)
Record vld := Vld { s_active_base_max : list (list Z); g_huffTab : list Z }.

Definition JPG_VLD_REG_BASE : Z := 0x60b00000 + 0x4800.
Definition DC_VALID_OFFSET : Z := 0x84.
Definition AC_VALID_OFFSET : Z := 0x88.
Definition Luma_DC_LUT_OFFSET : Z := 0x8C.
Definition Chroma_DC_LUT_OFFSET : Z := 0xCC.
Definition Luma_AC_LUT_OFFSET : Z := 0x10C.
Definition Chroma_AC_LUT_OFFSET : Z := 0x14C.

(** Register writes, in order. *)
Definition writes : Type := list (Z * Z).

(** ** Codes *)

(** [huffsize]: the length of each symbol's code, in the order of the symbols. *)
Definition make_sizes (bits : list Z) : list nat :=
  l ← seq 1 16; replicate (Z.to_nat (bits !!! l)) l.

(** [huffcode]: the loop over [sizes], at length [si]; the end of [sizes] is the
    terminating 0. *)
Fixpoint make_codes (fuel : nat) (sizes : list nat) (code : Z) (si : nat) : option (list Z) :=
  match sizes with
  | [] => Some []
  | s :: sizes' =>
      match fuel with
      | O => None
      | S fuel =>
          if decide (s = si) then codes ← make_codes fuel sizes' (u16 (code + 1)) si; Some (code :: codes)
          else make_codes fuel sizes (u16 (code .<< 1)) (S si)
      end
  end.

(** [valptr] and [maxcode] of the lengths [ls], from symbol [p] on. *)
Fixpoint make_maxcode (ls : list nat) (bits huffcode : list Z) (p : Z) : list (Z * Z) :=
  match ls with
  | [] => []
  | l :: ls =>
      if negb (bits !!! l =? 0) then
        let p' := p + bits !!! l in
        (u8 p, huffcode !!! Z.to_nat (p' - 1)) :: make_maxcode ls bits huffcode p'
      else (0, -1) :: make_maxcode ls bits huffcode p
  end.

(** [active_base_max] of the lengths that follow the one with [prev] as [maxcode] and
    [prev_abm] as entry; [None] before the first. *)
Fixpoint make_abm (tbl : list (Z * Z)) (prev : option (Z * Z)) : list Z :=
  match tbl with
  | [] => []
  | (valptr, maxcode) :: tbl =>
      let e :=
        if negb (maxcode =? -1) then u32 ((1 .<< 31) .| (valptr .<< 16) .| maxcode)
        else
          match prev with
          | None => 0
          | Some (prev_max, prev_abm) =>
              if negb (prev_max =? -1) then u32 ((prev_max + 1) * 2) else u32 ((prev_abm .& 0xffff) * 2)
          end in
      e :: make_abm tbl (Some (maxcode, e))
  end.

(** The computation of [JPEGFW_FixHuffTbl]; [huffsize] has room for 256 symbols. *)
Definition fix_table (t : huff_tbl_t) : option (list Z) :=
  let sizes := make_sizes (bits t) in
  if decide (length sizes <= 256)%nat then
    codes ← make_codes (length sizes + 16) sizes 0 (default 0%nat (head sizes));
    let huffcode := codes ++ replicate (257 - length codes) 0xffff in
    Some (0 :: make_abm (make_maxcode (seq 1 16) (bits t) huffcode 0) None)
  else None.

(** The entries 1 to 16 of one row are replaced; entry 0 is never written and is 0. *)
Definition set_row (k : nat) (r : list Z) (v : vld) : vld :=
  Vld (<[k := r]> (s_active_base_max v)) (g_huffTab v).

Definition JPEGFW_FixHuffTbl (htbl : huff_tbl_t) (is_dc is_luma : bool) (v : vld) : M vld :=
  _ ← JpegDec_ExtraMemAlloc (1 * 257);
  _ ← JpegDec_ExtraMemAlloc (2 * 257);
  _ ← JpegDec_ExtraMemAlloc (4 * 17);
  _ ← JpegDec_ExtraMemAlloc (1 * 17);
  match fix_table htbl with
  | None => undef UTable
  | Some r => mret (set_row ((if is_luma then 0 else 2) + (if is_dc then 0 else 1))%nat r v)
  end.

(** A table of the codec; one that was never read is a NULL pointer. *)
Definition htbl_of (l : list huff_tbl_t) (k : nat) : M huff_tbl_t :=
  c ← codec_get;
  match l !! k with
  | Some t => if huff_tbl_malloced c then mret t else undef UTable
  | None => undef UTable
  end.

Definition JPEGFW_InitHuffTbl (v : vld) : M vld :=
  c ← codec_get;
  t ← htbl_of (dc_huff_tbl c) JPEG_FW_LUM_ID; v ← JPEGFW_FixHuffTbl t true true v;
  t ← htbl_of (ac_huff_tbl c) JPEG_FW_LUM_ID; v ← JPEGFW_FixHuffTbl t false true v;
  if negb (num_components c =? 1) then
    t ← htbl_of (dc_huff_tbl c) JPEG_FW_CHR_ID; v ← JPEGFW_FixHuffTbl t true false v;
    t ← htbl_of (ac_huff_tbl c) JPEG_FW_CHR_ID; JPEGFW_FixHuffTbl t false false v
  else mret v.

(** ** The look-up table *)

(** A symbol is or-ed into entry [i] at [shift]; outside the 162 entries it is [None]. *)
Definition put_symbol (tab : list Z) (i : nat) (v shift : Z) : option (list Z) :=
  e ← tab !! i; Some (<[i := u32 ((v .<< shift) .| e)]> tab).

(** The symbols [vals] from entry [i] on. *)
Fixpoint put_symbols (tab : list Z) (i : nat) (vals : list Z) (shift : Z) : option (list Z) :=
  match vals with
  | [] => Some tab
  | v :: vals => tab ← put_symbol tab i v shift; put_symbols tab (S i) vals shift
  end.

(** The loop over the lengths [ls]; [pHuffVal] is what is left of the values. *)
Fixpoint build_dc_loop (ls : list nat) (tab pHuffVal bits : list Z) (shift : Z) : option (list Z) :=
  match ls with
  | [] => Some tab
  | l :: ls =>
      let number := Z.to_nat (bits !!! l) in
      tab ← put_symbols tab (g_DC_offset !!! l) (take number pHuffVal) shift;
      build_dc_loop ls tab (drop number pHuffVal) bits shift
  end.

Definition build_hufftab_DC (tab : list Z) (t : huff_tbl_t) (beChroma : bool) : option (list Z) :=
  build_dc_loop (seq 1 16) tab (huffval t) (bits t) (if beChroma then 24 else 16).

Definition build_hufftab_AC (tab : list Z) (t : huff_tbl_t) (beChroma : bool) : option (list Z) :=
  put_symbols tab 0 (take 162 (huffval t)) (if beChroma then 8 else 0).

Definition lift_tab (r : option (list Z)) (v : vld) : M vld :=
  match r with Some tab => mret (Vld (s_active_base_max v) tab) | None => undef UTable end.

Definition JPEGFW_build_hufftab_jpegDec (v : vld) : M vld :=
  c ← codec_get;
  let v := Vld (s_active_base_max v) (replicate 162 0) in
  t ← htbl_of (dc_huff_tbl c) JPEG_FW_LUM_ID; v ← lift_tab (build_hufftab_DC (g_huffTab v) t false) v;
  t ← htbl_of (ac_huff_tbl c) JPEG_FW_LUM_ID; v ← lift_tab (build_hufftab_AC (g_huffTab v) t false) v;
  if negb (num_components c =? 1) then
    t ← htbl_of (dc_huff_tbl c) JPEG_FW_CHR_ID; v ← lift_tab (build_hufftab_DC (g_huffTab v) t true) v;
    t ← htbl_of (ac_huff_tbl c) JPEG_FW_CHR_ID; lift_tab (build_hufftab_AC (g_huffTab v) t true) v
  else mret v.

(** ** Registers *)

Definition collect_valid_bits (pMax_code_base_act : list Z) : Z :=
  foldl (fun valid i => valid .| ((pMax_code_base_act !!! S i .>> 31) .<< (15 - Z.of_nat i))) 0 (seq 0 16).

Definition row (v : vld) (k : nat) : list Z := s_active_base_max v !!! k.

Definition JPEGFW_configure_validReg (v : vld) : writes :=
  [(JPG_VLD_REG_BASE + DC_VALID_OFFSET, (collect_valid_bits (row v 0) .<< 16) .| collect_valid_bits (row v 2));
   (JPG_VLD_REG_BASE + AC_VALID_OFFSET, (collect_valid_bits (row v 1) .<< 16) .| collect_valid_bits (row v 3))].

Definition configure_maxReg_DC (pMaxcode : list Z) (beChroma : bool) : writes :=
  let offset := if beChroma then Chroma_DC_LUT_OFFSET else Luma_DC_LUT_OFFSET in
  (fun i => (JPG_VLD_REG_BASE + offset + Z.of_nat i * 4, pMaxcode !!! S i .& 0xffff)) <$> seq 0 16.

Definition configure_maxReg_AC (pMaxcode : list Z) (beChroma : bool) : writes :=
  let offset := if beChroma then Chroma_AC_LUT_OFFSET else Luma_AC_LUT_OFFSET in
  (fun i =>
     let baseAddr := (pMaxcode !!! S i .>> 16) .& 0xff in
     let maxCode := pMaxcode !!! S i .& 0xffff in
     (JPG_VLD_REG_BASE + offset + Z.of_nat i * 4, (maxCode .<< 8) .| baseAddr)) <$> seq 0 16.

Definition jpeg_fw_vld_default_max_code : list Z :=
  [0x7f807fe0; 0x7ff37ff7; 0x0; 0x0; 0x6; 0xe; 0x1e; 0x3e;
   0x7e; 0xfe; 0x1fe; 0x3fe; 0x7fc; 0xff8; 0x1ff0; 0x3fe0;
   0x7fc0; 0xff80; 0x0; 0x2; 0x6; 0xe; 0x1e; 0x3e;
   0x7e; 0xfe; 0x1fe; 0x3fe; 0x7fe; 0xffe; 0x1ffc; 0x3ff8;
   0x7ff0; 0xffe0; 0x0; 0x100; 0x402; 0xc03; 0x1c06; 0x3b09;
   0x7b0b; 0xfa0f; 0x1fa12; 0x3fa17; 0x7f91c; 0xff720; 0x1ff000; 0x3fe000;
   0x7fc024; 0xfffe25; 0x0; 0x100; 0x402; 0xb03; 0x1b05; 0x3b09;
   0x7a0d; 0xf910; 0x1fa14; 0x3fa1b; 0x7f920; 0xff724; 0x1ff000; 0x3fe028;
   0x7fc329; 0xfffe2b].

Definition jpeg_fw_vld_default_huffTab : list Z :=
  [0x1; 0x102; 0x203; 0x1000300; 0x2001104; 0x411; 0x3010505; 0x22112; 0x33121; 0x40631;
   0x51241; 0x4106; 0x5113; 0x751; 0x4066161; 0x7107; 0x1322; 0x2271; 0x3214; 0x8132;
   0x881; 0x1491; 0x42a1; 0x9108; 0xa123; 0xb142; 0x507c1b1; 0x9c1; 0x2315; 0x3352;
   0x52d1; 0xf0f0; 0x1524; 0x6233; 0x7262; 0xd172; 0xa82; 0x1609; 0x608240a; 0x3416;
   0xe117; 0x2518; 0xf119; 0x171a; 0x1825; 0x1926; 0x1a27; 0x2628; 0x2729; 0x282a;
   0x7092934; 0x2a35; 0x3536; 0x3637; 0x3738; 0x3839; 0x393a; 0x3a43; 0x4344; 0x4445;
   0x4546; 0x4647; 0x80a4748; 0x4849; 0x494a; 0x4a53; 0x5354; 0x5455; 0x5556; 0x5657;
   0x5758; 0x5859; 0x595a; 0x5a63; 0x90b6364; 0x6465; 0x6566; 0x6667; 0x6768; 0x6869;
   0x696a; 0x6a73; 0x7374; 0x7475; 0x7576; 0x7677; 0xa007778; 0x7879; 0x797a; 0x7a83;
   0x8284; 0x8385; 0x8486; 0x8587; 0x8688; 0x8789; 0x888a; 0x8992; 0xb008a93; 0x9294;
   0x9395; 0x9496; 0x9597; 0x9698; 0x9799; 0x989a; 0x99a2; 0x9aa3; 0xa2a4; 0xa3a5;
   0xa4a6; 0xa5a7; 0xa6a8; 0xa7a9; 0xa8aa; 0xa9b2; 0xaab3; 0xb2b4; 0xb3b5; 0xb4b6;
   0xb5b7; 0xb6b8; 0xb7b9; 0xb8ba; 0xb9c2; 0xbac3; 0xc2c4; 0xc3c5; 0xc4c6; 0xc5c7;
   0xc6c8; 0xc7c9; 0xc8ca; 0xc9d2; 0xcad3; 0xd2d4; 0xd3d5; 0xd4d6; 0xd5d7; 0xd6d8;
   0xd7d9; 0xd8da; 0xd9e1; 0xdae2; 0xe2e3; 0xe3e4; 0xe4e5; 0xe5e6; 0xe6e7; 0xe7e8;
   0xe8e9; 0xe9ea; 0xeaf1; 0xf2f2; 0xf3f3; 0xf4f4; 0xf5f5; 0xf6f6; 0xf7f7; 0xf8f8;
   0xf9f9; 0xfafa].

(** The flag is [using_default_huff_tab]. *)
Definition JPEGFW_configure_vld_reg_jpegDec (using_default : bool) (v : vld) : writes * vld :=
  if negb using_default then
    (JPEGFW_configure_validReg v ++
     configure_maxReg_DC (row v 0) false ++ configure_maxReg_DC (row v 2) true ++
     configure_maxReg_AC (row v 1) false ++ configure_maxReg_AC (row v 3) true, v)
  else
    ([(JPG_VLD_REG_BASE + DC_VALID_OFFSET, jpeg_fw_vld_default_max_code !!! 0%nat);
      (JPG_VLD_REG_BASE + AC_VALID_OFFSET, jpeg_fw_vld_default_max_code !!! 1%nat)] ++
     ((fun i => (JPG_VLD_REG_BASE + DC_VALID_OFFSET + Z.of_nat i * 4, jpeg_fw_vld_default_max_code !!! i)) <$> seq 2 64),
     Vld (s_active_base_max v) jpeg_fw_vld_default_huffTab).

(** The part of [JPEG_HWDecInit] that sets up the tables of a baseline image: the register
    writes and the table that [configure_huff_tab] copies to the hardware. *)
Definition hw_vld_init (bNeedInit : bool) (v : vld) : M (writes * vld) :=
  c ← codec_get;
  v ← (if bNeedInit && negb (using_default_huff_tab c) then v ← JPEGFW_InitHuffTbl v; JPEGFW_build_hufftab_jpegDec v else mret v);
  mret (JPEGFW_configure_vld_reg_jpegDec (using_default_huff_tab c) v).

Definition vld_init : vld := Vld (replicate 4 (replicate 17 0)) jpeg_fw_vld_default_huffTab.

(** ** The canonical code *)

(** The first code of length [l] and the index of its symbol (Annex C of the standard). *)
Fixpoint first_code (bits : list Z) (l : nat) : Z :=
  match l with O => 0 | S l => 2 * (first_code bits l + bits !!! l) end.

Fixpoint first_index (bits : list Z) (l : nat) : Z :=
  match l with O => 0 | S l => first_index bits l + bits !!! l end.

(** A table of at most [max] symbols with a prefix code in which no code is all ones. *)
Record vld_ok (max : Z) (t : huff_tbl_t) : Prop := {
  ok_length : length (bits t) = 17%nat;
  ok_bytes : bytes (bits t);
  ok_zero : bits t !!! 0%nat = 0;
  ok_room : forall l, (1 <= l <= 16)%nat -> first_code (bits t) l + bits t !!! l < 2 ^ Z.of_nat l;
  ok_count : first_index (bits t) 17 <= max;
  ok_max : max <= 256;
  ok_values : first_index (bits t) 17 <= Z.of_nat (length (huffval t));
  ok_vbytes : bytes (huffval t)
}.

Section table.
Context (max : Z) (t : huff_tbl_t) (Ht : vld_ok max t).
Let b (l : nat) : Z := bits t !!! l.
Let fc (l : nat) : Z := first_code (bits t) l.
Let fi (l : nat) : Z := first_index (bits t) l.

Lemma b_byte l : 0 <= b l < 256.
Proof.
  unfold b. destruct (bits t !! l) as [x|] eqn:E.
  - rewrite (list_lookup_total_correct _ _ _ E). by eapply (Forall_lookup_1 is_byte); [apply (ok_bytes _ _ Ht)|].
  - rewrite list_lookup_total_alt, E. simpl. lia.
Qed.

Lemma fc_S l : fc (S l) = 2 * (fc l + b l).
Proof. done. Qed.
Lemma fi_S l : fi (S l) = fi l + b l.
Proof. done. Qed.

Lemma fc_nonneg l : 0 <= fc l.
Proof. induction l as [|l IH]; [done|]. rewrite fc_S. pose proof (b_byte l). lia. Qed.
Lemma fi_nonneg l : 0 <= fi l.
Proof. induction l as [|l IH]; [done|]. rewrite fi_S. pose proof (b_byte l). lia. Qed.

Lemma fi_mono l l' : (l <= l')%nat -> fi l <= fi l'.
Proof. induction 1 as [|l' H IH]; [lia|]. rewrite fi_S. pose proof (b_byte l'). lia. Qed.

Lemma fi_le l : (l <= 16)%nat -> fi l + b l <= max.
Proof.
  intros Hl. pose proof (fi_mono (S l) 17 ltac:(lia)) as H. rewrite fi_S in H.
  pose proof (ok_count _ _ Ht). unfold fi in *. lia.
Qed.

Lemma fc_room l : (1 <= l <= 16)%nat -> fc l + b l < 65536.
Proof.
  intros Hl. pose proof (ok_room _ _ Ht l Hl) as H.
  assert (2 ^ Z.of_nat l <= 2 ^ 16) by (apply Z.pow_le_mono_r; lia). unfold fc, b. lia.
Qed.

(** A longer code does not begin with a shorter one: its prefix is beyond the codes of
    that length. *)
Lemma fc_prefix l d : fc (l + S d) >= (fc l + b l) * 2 ^ Z.of_nat (S d).
Proof.
  induction d as [|d IH].
  - rewrite Nat.add_1_r, fc_S. change (2 ^ Z.of_nat 1) with 2. lia.
  - rewrite Nat.add_succ_r, fc_S. rewrite (Nat2Z.inj_succ (S d)), Z.pow_succ_r by lia.
    pose proof (b_byte (l + S d)). lia.
Qed.

(** The sizes and codes of the lengths from [l] on, [k] of them. *)
Definition sizes_from (l k : nat) : list nat := k' ← seq l k; replicate (Z.to_nat (b k')) k'.
Definition codes_at (l : nat) : list Z := (fun j => fc l + Z.of_nat j) <$> seq 0 (Z.to_nat (b l)).
Definition codes_from (l k : nat) : list Z := k' ← seq l k; codes_at k'.

Lemma sizes_from_S l k : sizes_from l (S k) = replicate (Z.to_nat (b l)) l ++ sizes_from (S l) k.
Proof. done. Qed.
Lemma codes_from_S l k : codes_from l (S k) = codes_at l ++ codes_from (S l) k.
Proof. done. Qed.
Lemma codes_at_length l : length (codes_at l) = Z.to_nat (b l).
Proof. unfold codes_at. by rewrite length_fmap, length_seq. Qed.

Lemma codes_sizes_length l k : length (codes_from l k) = length (sizes_from l k).
Proof.
  revert l. induction k as [|k IH]; intros l; [done|].
  rewrite codes_from_S, sizes_from_S, !length_app, IH, codes_at_length, length_replicate. done.
Qed.

Lemma sizes_length l k : Z.of_nat (length (sizes_from l k)) = fi (l + k) - fi l.
Proof.
  revert l. induction k as [|k IH]; intros l; [rewrite Nat.add_0_r; simpl; lia|].
  rewrite sizes_from_S, length_app, length_replicate, Nat2Z.inj_add, IH.
  rewrite Nat.add_succ_r, (fi_S l), Nat.add_succ_l. pose proof (b_byte l). lia.
Qed.

Lemma sizes_from_ge l k s : s ∈ sizes_from l k -> (l <= s)%nat.
Proof.
  unfold sizes_from. intros (k' & Hk & Hs)%list_elem_of_bind.
  apply elem_of_replicate in Hk as [-> _]. apply elem_of_seq in Hs. lia.
Qed.

(** The inner loop runs through the codes of one length. *)
Lemma make_codes_run n fuel rest code l : 0 <= code -> code + Z.of_nat n < 65536 ->
  make_codes (n + fuel) (replicate n l ++ rest) code l =
    codes ← make_codes fuel rest (code + Z.of_nat n) l;
    Some (((fun j => code + Z.of_nat j) <$> seq 0 n) ++ codes).
Proof.
  revert code. induction n as [|n IH]; intros code H0 Hc; cbn [Nat.add replicate app].
  - rewrite Z.add_0_r. by destruct (make_codes _ _ _ _).
  - cbn [make_codes]. rewrite decide_True by done. rewrite u16_small, IH by lia.
    replace (code + 1 + Z.of_nat n) with (code + Z.of_nat (S n)) by lia.
    destruct (make_codes fuel rest _ l) as [codes|]; [|done]. cbn [mbind option_bind fmap list_fmap seq app].
    rewrite Z.add_0_r. do 3 f_equal. rewrite <- fmap_S_seq, <- list_fmap_compose. apply list_fmap_ext. intros i x _. simpl. lia.
Qed.

Lemma make_codes_from k l fuel : (1 <= l)%nat -> (l + k = 17)%nat -> (length (sizes_from l k) + k <= fuel)%nat ->
  make_codes fuel (sizes_from l k) (fc l) l = Some (codes_from l k).
Proof.
  revert l fuel. induction k as [|k IH]; intros l fuel Hl Hk Hf; [by destruct fuel|].
  rewrite sizes_from_S, codes_from_S in *. rewrite length_app, length_replicate in Hf.
  replace fuel with (Z.to_nat (b l) + (fuel - Z.to_nat (b l)))%nat by lia.
  pose proof (fc_nonneg l). pose proof (b_byte l). pose proof (fc_room l ltac:(lia)).
  rewrite make_codes_run by lia. fold (codes_at l).
  assert (make_codes (fuel - Z.to_nat (b l)) (sizes_from (S l) k) (fc l + Z.of_nat (Z.to_nat (b l))) l =
    Some (codes_from (S l) k)) as ->; [|done].
  destruct (sizes_from (S l) k) as [|s rest] eqn:Es.
  { pose proof (codes_sizes_length (S l) k) as E. rewrite Es in E. destruct (codes_from (S l) k); [|done].
    by destruct (fuel - _)%nat. }
  destruct k as [|k]; [done|]. destruct (fuel - Z.to_nat (b l))%nat as [|f] eqn:Ef; [lia|]. cbn [make_codes].
  assert (S l <= s)%nat by (apply (sizes_from_ge _ (S k)); rewrite Es; left).
  rewrite decide_False by lia. rewrite <- Es.
  pose proof (fc_room (S l) ltac:(lia)). pose proof (b_byte (S l)).
  rewrite Z.shiftl_mul_pow2 by lia. change (2 ^ 1) with 2. rewrite u16_small by (rewrite fc_S in *; lia).
  replace ((fc l + Z.of_nat (Z.to_nat (b l))) * 2) with (fc (S l)) by (rewrite fc_S; lia).
  apply IH; [lia|lia|]. rewrite Es in *. lia.
Qed.

(** The loop starts at the first length that is used. *)
Lemma make_codes_start k l fuel : (1 <= l)%nat -> (l + k = 17)%nat -> (length (sizes_from l k) + k <= fuel)%nat ->
  fc l = 0 -> make_codes fuel (sizes_from l k) 0 (default 0%nat (head (sizes_from l k))) = Some (codes_from l k).
Proof.
  revert l. induction k as [|k IH]; intros l Hl Hk Hf H0; [by destruct fuel|].
  destruct (decide (b l = 0)) as [Hb|Hb].
  - rewrite sizes_from_S, codes_from_S in *. unfold codes_at. rewrite Hb in *. simpl in *.
    apply IH; [lia|lia|lia|]. rewrite fc_S. lia.
  - pose proof (b_byte l).
    assert (default 0%nat (head (sizes_from l (S k))) = l) as ->.
    { rewrite sizes_from_S. destruct (Z.to_nat (b l)) eqn:E; [lia|]. done. }
    rewrite <- H0. by apply make_codes_from.
Qed.

(** [valptr] and [maxcode] in closed form. *)
Definition max_entry (l : nat) : Z * Z := if b l =? 0 then (0, -1) else (fi l, fc l + b l - 1).

Lemma codes_at_last l : b l <> 0 -> codes_at l !! Z.to_nat (b l - 1) = Some (fc l + b l - 1).
Proof.
  intros Hb. pose proof (b_byte l). unfold codes_at. rewrite list_lookup_fmap, lookup_seq_lt by lia.
  simpl. f_equal. lia.
Qed.

Lemma make_maxcode_from k l pre tail : (l + k = 17)%nat -> Z.of_nat (length pre) = fi l ->
  make_maxcode (seq l k) (bits t) (pre ++ codes_from l k ++ tail) (fi l) = max_entry <$> seq l k.
Proof.
  revert l pre. induction k as [|k IH]; intros l pre Hk Hp; [done|].
  pose proof (b_byte l) as Hb. rewrite codes_from_S, <- app_assoc. cbn [seq make_maxcode fmap list_fmap].
  specialize (IH (S l) (pre ++ codes_at l) ltac:(lia)).
  rewrite length_app, codes_at_length, <- app_assoc, fi_S in IH. specialize (IH ltac:(lia)).
  unfold max_entry at 1. fold (b l). destruct (Z.eqb_spec (b l) 0) as [E|E]; cbn [negb].
  - rewrite E, Z.add_0_r in IH. by rewrite IH.
  - rewrite IH. do 2 f_equal.
    + apply u8_small. pose proof (fi_nonneg l). pose proof (fi_le l ltac:(lia)). pose proof (ok_max _ _ Ht). lia.
    + apply list_lookup_total_correct. pose proof (fi_nonneg l).
      rewrite lookup_app_r by lia. rewrite lookup_app_l by (rewrite codes_at_length; lia).
      replace (Z.to_nat (fi l + b l - 1) - length pre)%nat with (Z.to_nat (b l - 1)) by lia. by apply codes_at_last.
Qed.

(** An entry of [active_base_max]. *)
Definition abm_entry (l : nat) : Z :=
  if b l =? 0 then fc l else 2147483648 + fi l * 65536 + (fc l + b l - 1).

Lemma fields_sum a m : 0 <= a < 256 -> 0 <= m < 65536 ->
  u32 ((1 .<< 31) .| (a .<< 16) .| m) = 2147483648 + a * 65536 + m.
Proof using.
  intros Ha Hm. rewrite <- Z.lor_assoc, (Z.lor_comm _ m), Z.lor_comm.
  rewrite (lor_add m a 16) by (change (2 ^ 16) with 65536; lia). change (2 ^ 16) with 65536.
  rewrite lor_add by (change (2 ^ 31) with 2147483648; lia). change (2 ^ 31) with 2147483648.
  rewrite u32_small by lia. lia.
Qed.

(** What the loop knows of the length before [l]. *)
Definition abm_prev (l : nat) : option (Z * Z) :=
  match l with S (S l') => Some (snd (max_entry (S l')), abm_entry (S l')) | _ => None end.

Lemma fi_byte l : (l <= 16)%nat -> b l <> 0 -> 0 <= fi l < 256.
Proof.
  intros Hl Hb. pose proof (fi_nonneg l). pose proof (fi_le l Hl). pose proof (b_byte l). pose proof (ok_max _ _ Ht). lia.
Qed.

Lemma inactive_entry l : (1 <= l <= 16)%nat -> b l = 0 ->
  match abm_prev l with
  | None => 0
  | Some (prev_max, prev_abm) =>
      if negb (prev_max =? -1) then u32 ((prev_max + 1) * 2) else u32 ((prev_abm .& 0xffff) * 2)
  end = fc l.
Proof.
  intros Hl Hb. destruct l as [|[|l]]; [lia| |].
  - unfold fc. cbn [first_code]. pose proof (ok_zero _ _ Ht). unfold abm_prev. lia.
  - unfold abm_prev, max_entry, abm_entry. pose proof (fc_room (S l) ltac:(lia)). pose proof (fc_nonneg (S l)).
    pose proof (b_byte (S l)). rewrite (fc_S (S l)).
    destruct (Z.eqb_spec (b (S l)) 0) as [E|E]; cbn [snd].
    + change (negb (-1 =? -1)) with false. cbv iota. rewrite land_ffff, (u16_small (fc (S l))) by lia.
      rewrite u32_small by lia. lia.
    + rewrite (proj2 (Z.eqb_neq _ (-1))) by lia. cbn [negb]. rewrite u32_small by lia. lia.
Qed.

Lemma make_abm_from k l : (1 <= l)%nat -> (l + k = 17)%nat ->
  make_abm (max_entry <$> seq l k) (abm_prev l) = abm_entry <$> seq l k.
Proof.
  revert l. induction k as [|k IH]; intros l Hl Hk; [done|]. cbn [seq fmap list_fmap].
  pose proof (b_byte l). pose proof (fc_nonneg l). pose proof (fc_room l ltac:(lia)).
  destruct (max_entry l) as [v m] eqn:Em. cbn [make_abm].
  assert (He : (if negb (m =? -1) then u32 ((1 .<< 31) .| (v .<< 16) .| m)
    else match abm_prev l with
         | None => 0
         | Some (prev_max, prev_abm) =>
             if negb (prev_max =? -1) then u32 ((prev_max + 1) * 2) else u32 ((prev_abm .& 0xffff) * 2)
         end) = abm_entry l).
  { unfold abm_entry. unfold max_entry in Em. destruct (Z.eqb_spec (b l) 0) as [E|E]; injection Em as <- <-.
    - change (negb (-1 =? -1)) with false. cbv iota. apply inactive_entry; [lia|done].
    - rewrite (proj2 (Z.eqb_neq _ (-1))) by lia. cbn [negb]. apply fields_sum; [apply fi_byte; [lia|done]|lia]. }
  rewrite He. f_equal. specialize (IH (S l) ltac:(lia) ltac:(lia)).
  destruct l as [|l]; [lia|]. unfold abm_prev in IH at 1. rewrite Em in IH. exact IH.
Qed.

Lemma fix_table_ok : fix_table t = Some (0 :: (abm_entry <$> seq 1 16)).
Proof.
  unfold fix_table. change (make_sizes (bits t)) with (sizes_from 1 16).
  pose proof (sizes_length 1 16) as Hl. change (1 + 16)%nat with 17%nat in Hl.
  assert (fi 1 = 0) as H1 by (unfold fi; cbn [first_index]; pose proof (ok_zero _ _ Ht); lia).
  assert (fc 1 = 0) as H2 by (unfold fc; cbn [first_code]; pose proof (ok_zero _ _ Ht); lia).
  pose proof (ok_count _ _ Ht) as Hc. pose proof (ok_max _ _ Ht) as Hmx. fold (fi 17) in Hc.
  rewrite decide_True by lia. rewrite make_codes_start by (done || lia). cbn [mbind option_bind].
  pose proof (make_maxcode_from 16 1 [] (replicate (257 - length (codes_from 1 16)) 65535) eq_refl) as Hmc.
  rewrite H1 in Hmc. specialize (Hmc eq_refl). cbn [app] in Hmc. rewrite Hmc.
  pose proof (make_abm_from 16 1 ltac:(lia) eq_refl) as Ha. unfold abm_prev in Ha. by rewrite Ha.
Qed.
End table.

(** ** Decoding with the registers *)

(** The value of a register after a log of writes. *)
Definition reg (w : writes) (a : Z) : Z := foldl (fun r p => if fst p =? a then snd p else r) 0 w.

(** What the registers say of one code length: whether it is used, its largest code (or, if
    it is not used, its first one), and where its symbols start in the look-up table. *)
Definition lut_entry : Type := bool * Z * Z.

Definition ac_entry (w : writes) (chroma : bool) (i : nat) : lut_entry :=
  let r := reg w (JPG_VLD_REG_BASE + (if chroma then Chroma_AC_LUT_OFFSET else Luma_AC_LUT_OFFSET) + Z.of_nat i * 4) in
  (Z.testbit (reg w (JPG_VLD_REG_BASE + AC_VALID_OFFSET)) ((if chroma then 15 else 31) - Z.of_nat i), r .>> 8, r .& 0xff).

Definition dc_entry (w : writes) (chroma : bool) (i : nat) : lut_entry :=
  let r := reg w (JPG_VLD_REG_BASE + (if chroma then Chroma_DC_LUT_OFFSET else Luma_DC_LUT_OFFSET) + Z.of_nat i * 4) in
  (Z.testbit (reg w (JPG_VLD_REG_BASE + DC_VALID_OFFSET)) ((if chroma then 15 else 31) - Z.of_nat i), r,
   Z.of_nat (g_DC_offset !!! S i)).

(** The procedure DECODE of Annex F: one bit is added until the code is not beyond the
    largest of its length.  The result is the index of the symbol and the bits left. *)
Fixpoint vld_decode (es : list lut_entry) (first code : Z) (bs : list bool) : option (Z * list bool) :=
  match es, bs with
  | (active, mx, base) :: es, b :: bs =>
      let code := 2 * code + b2z b in
      if active && (code <=? mx) then Some (base + (code - first), bs)
      else vld_decode es (2 * (if active : bool then mx + 1 else mx)) code bs
  | _, _ => None
  end.

(** The [l] bits of a code, the first bit first. *)
Definition code_bits (l : nat) (c : Z) : list bool :=
  (fun i => Z.testbit c (Z.of_nat l - 1 - Z.of_nat i)) <$> seq 0 l.

Section decode.
Context (max : Z) (t : huff_tbl_t) (Ht : vld_ok max t) (base : nat -> Z).

(** The registers of a table, the symbols of length [l] starting at [base l]. *)
Definition table_entry (l : nat) : lut_entry :=
  (negb (bits t !!! l =? 0),
   (if bits t !!! l =? 0 then first_code (bits t) l else first_code (bits t) l + bits t !!! l - 1), base l).

Lemma shiftr_step c n : 0 <= n -> c .>> n = 2 * (c .>> (n + 1)) + b2z (Z.testbit c n).
Proof using.
  intros Hn. rewrite <- Z.shiftr_shiftr by lia. rewrite Z.testbit_odd.
  rewrite (shiftr_div _ 1) by lia. change (2 ^ 1) with 2.
  rewrite (Z.div_mod (c .>> n) 2) at 1 by lia. f_equal. rewrite Zmod_odd. by destruct (Z.odd _).
Qed.

Lemma code_bits_drop l i c : (i < l)%nat ->
  drop i (code_bits l c) = Z.testbit c (Z.of_nat l - 1 - Z.of_nat i) :: drop (S i) (code_bits l c).
Proof using.
  intros Hi. apply drop_S. unfold code_bits. rewrite list_lookup_fmap, lookup_seq_lt by lia. done.
Qed.

Lemma first_code_1 : first_code (bits t) 1 = 0.
Proof. cbn [first_code]. rewrite (ok_zero _ _ Ht). done. Qed.

(** From length [l] on, with the first [l - 1] bits read. *)
Lemma decode_from k l L j rest : (l + k = 17)%nat -> (1 <= l)%nat -> (l <= L <= 16)%nat -> 0 <= j < bits t !!! L ->
  let c := first_code (bits t) L + j in
  vld_decode (table_entry <$> seq l k) (first_code (bits t) l) (c .>> Z.of_nat (L - l + 1))
    (drop (l - 1) (code_bits L c) ++ rest) = Some (base L + j, rest).
Proof.
  intros Hk Hl HL Hj c. revert l Hk Hl HL. induction k as [|k IH]; intros l Hk Hl HL; [lia|].
  rewrite code_bits_drop by lia. cbn [seq fmap list_fmap app].
  unfold table_entry at 1. cbn [vld_decode].
  replace (Z.of_nat L - 1 - Z.of_nat (l - 1)) with (Z.of_nat (L - l)) by lia.
  replace (Z.of_nat (L - l + 1)) with (Z.of_nat (L - l) + 1) by lia.
  rewrite <- shiftr_step by lia. replace (S (l - 1)) with l by lia.
  pose proof (b_byte max t Ht l) as Hb.
  destruct (decide (l = L)) as [->|Hne].
  - rewrite Nat.sub_diag, Z.shiftr_0_r, (proj2 (Z.eqb_neq (bits t !!! L) 0)) by lia. cbn [negb andb].
    rewrite (proj2 (Z.leb_le c _)) by (subst c; lia).
    assert (drop L (code_bits L c) = []) as -> by (apply drop_ge; unfold code_bits; rewrite length_fmap, length_seq; lia).
    cbn [app]. do 2 f_equal. subst c. lia.
  - assert (first_code (bits t) l + bits t !!! l <= c .>> Z.of_nat (L - l)) as Hbig.
    { pose proof (fc_prefix max t Ht l (L - l - 1)) as Hp. replace (S (L - l - 1)) with (L - l)%nat in Hp by lia.
      replace (l + (L - l))%nat with L in Hp by lia. rewrite shiftr_div by lia.
      apply Z.div_le_lower_bound; [lia|]. subst c. lia. }
    specialize (IH (S l) ltac:(lia) ltac:(lia) ltac:(lia)). replace (S l - 1)%nat with l in IH by lia.
    replace (L - S l + 1)%nat with (L - l)%nat in IH by lia. cbn [first_code] in IH.
    destruct (Z.eqb_spec (bits t !!! l) 0) as [E|E]; cbn [negb andb].
    + rewrite E, Z.add_0_r in IH. exact IH.
    + rewrite (proj2 (Z.leb_gt _ _)) by lia.
      replace (first_code (bits t) l + bits t !!! l - 1 + 1) with (first_code (bits t) l + bits t !!! l) by lia. exact IH.
Qed.

Lemma decode_symbol L j rest : (1 <= L <= 16)%nat -> 0 <= j < bits t !!! L ->
  vld_decode (table_entry <$> seq 1 16) 0 0 (code_bits L (first_code (bits t) L + j) ++ rest) = Some (base L + j, rest).
Proof.
  intros HL Hj. pose proof (decode_from 16 1 L j rest eq_refl ltac:(lia) HL Hj) as H. cbv zeta in H.
  rewrite first_code_1 in H. replace (L - 1 + 1)%nat with L in H by lia.
  pose proof (ok_room _ _ Ht L HL). pose proof (fc_nonneg max t Ht L).
  rewrite (Z.shiftr_div_pow2 _ (Z.of_nat L)), Z.div_small in H by lia.
  rewrite Nat.sub_diag, drop_0 in H. exact H.
Qed.
End decode.

(** ** The registers of the tables *)

Lemma reg_foldl (w : writes) (a : Z) r : a ∉ w.*1 -> foldl (fun r p => if fst p =? a then snd p else r) r w = r.
Proof.
  revert r. induction w as [|[a' x'] w IH]; intros r Ha; [done|]. cbn [fmap list_fmap] in Ha.
  apply not_elem_of_cons in Ha as [Hne Ha]. cbn [foldl fst snd].
  simpl in Hne. rewrite (proj2 (Z.eqb_neq a' a)) by congruence. by apply IH.
Qed.

Lemma reg_in (w : writes) a x : NoDup w.*1 -> (a, x) ∈ w -> reg w a = x.
Proof.
  unfold reg. generalize 0. induction w as [|[a' x'] w IH]; intros r Hn Hin; [by apply not_elem_of_nil in Hin|].
  cbn [fmap list_fmap] in Hn. apply NoDup_cons in Hn as [Ha Hn]. cbn [foldl fst snd].
  apply elem_of_cons in Hin as [[= -> ->]|Hin]; [|by apply IH].
  rewrite Z.eqb_refl. by apply reg_foldl.
Qed.

(** The fields of an entry. *)
Lemma abm_fields max t l : vld_ok max t -> (1 <= l <= 16)%nat ->
  let e := abm_entry t l in
  e .>> 31 = b2z (negb (bits t !!! l =? 0)) /\
  e .& 0xffff = (if bits t !!! l =? 0 then first_code (bits t) l else first_code (bits t) l + bits t !!! l - 1) /\
  (e .>> 16) .& 0xff = (if bits t !!! l =? 0 then 0 else first_index (bits t) l).
Proof.
  intros Ht Hl. cbv zeta. unfold abm_entry. pose proof (fc_room max t Ht l Hl). pose proof (fc_nonneg max t Ht l).
  pose proof (b_byte max t Ht l). rewrite land_ffff, land_ff, !shiftr_div by lia.
  change (2 ^ 31) with 2147483648. change (2 ^ 16) with 65536. unfold u16, u8.
  destruct (Z.eqb_spec (bits t !!! l) 0) as [E|E]; cbn [negb b2z].
  - split_and!; [apply Z.div_small; lia|apply Z.mod_small; lia|]. rewrite Z.div_small by lia. done.
  - pose proof (fi_byte max t Ht l ltac:(lia) E). split_and!.
    + symmetry. apply (Z.div_unique _ _ _ (first_index (bits t) l * 65536 + (first_code (bits t) l + bits t !!! l - 1))); lia.
    + symmetry. apply (Z.mod_unique _ _ (32768 + first_index (bits t) l)); lia.
    + rewrite <- (Z.div_unique (2147483648 + first_index (bits t) l * 65536 + (first_code (bits t) l + bits t !!! l - 1))
        65536 (32768 + first_index (bits t) l) (first_code (bits t) l + bits t !!! l - 1)) by lia.
      symmetry. apply (Z.mod_unique _ _ 128); lia.
Qed.

(** The bit of each length in a register of valid lengths. *)
Lemma valid_foldl (a : nat -> bool) (g : nat -> Z) acc n p : (n <= 16)%nat -> 0 <= p ->
  (forall i, (i < n)%nat -> g i = b2z (a i)) ->
  Z.testbit (foldl (fun valid i => valid .| (g i .<< (15 - Z.of_nat i))) acc (seq 0 n)) p =
    Z.testbit acc p || ((15 - Z.of_nat n <? p) && (p <=? 15) && a (Z.to_nat (15 - p))).
Proof.
  intros Hn Hp Hg. induction n as [|n IH].
  - cbn [seq foldl]. destruct (Z.ltb_spec (15 - Z.of_nat 0) p), (Z.leb_spec p 15); simpl; rewrite ?orb_false_r; done || lia.
  - rewrite seq_S, foldl_app. cbn [foldl Nat.add]. rewrite Z.lor_spec, IH by (lia || (intros; apply Hg; lia)).
    rewrite <- orb_assoc. f_equal. rewrite testbit_shiftl by lia. rewrite (Hg n) by lia.
    destruct (Z.eq_dec p (15 - Z.of_nat n)) as [->|Hne].
    + rewrite (proj2 (Z.ltb_ge (15 - Z.of_nat n) _)), (proj2 (Z.ltb_lt (15 - Z.of_nat (S n)) _)),
        (proj2 (Z.leb_le _ 15)), (proj2 (Z.leb_le (15 - Z.of_nat n) _)) by lia. cbn [andb orb].
      replace (Z.to_nat (15 - (15 - Z.of_nat n))) with n by lia. rewrite Z.sub_diag. by destruct (a n).
    + assert ((15 - Z.of_nat n <=? p) && Z.testbit (b2z (a n)) (p - (15 - Z.of_nat n)) = false) as ->.
      { destruct (Z.leb_spec (15 - Z.of_nat n) p); [|done]. simpl. destruct (a n); [|apply Z.testbit_0_l].
        simpl. rewrite (testbit_high 1 1) by lia. done. }
      rewrite orb_false_r. destruct (Z.ltb_spec (15 - Z.of_nat n) p), (Z.ltb_spec (15 - Z.of_nat (S n)) p); done || lia.
Qed.

Lemma row_lookup (f : nat -> Z) i : (i < 16)%nat -> (0 :: (f <$> seq 1 16)) !!! S i = f (S i).
Proof.
  intros Hi. apply list_lookup_total_correct. rewrite lookup_cons_ne_0 by done. simpl pred.
  rewrite list_lookup_fmap, lookup_seq_lt by lia. done.
Qed.

Lemma collect_bits max t p : vld_ok max t -> 0 <= p ->
  Z.testbit (collect_valid_bits (0 :: (abm_entry t <$> seq 1 16))) p =
    (p <=? 15) && negb (bits t !!! Z.to_nat (16 - p) =? 0).
Proof.
  intros Ht Hp. set (r := 0 :: (abm_entry t <$> seq 1 16)).
  assert (Hg : forall i, (i < 16)%nat -> (r !!! S i) .>> 31 = b2z (negb (bits t !!! S i =? 0))).
  { intros i Hi. subst r. rewrite row_lookup by done.
    destruct (abm_fields max t (S i) Ht ltac:(lia)) as (E & _). exact E. }
  pose proof (valid_foldl (fun i => negb (bits t !!! S i =? 0)) (fun i => (r !!! S i) .>> 31) 0 16 p
    ltac:(lia) Hp Hg) as H. unfold collect_valid_bits. rewrite H.
  rewrite Z.testbit_0_l. cbn [orb]. rewrite (proj2 (Z.ltb_lt _ p)) by lia. cbn [andb].
  destruct (Z.leb_spec p 15); [|done]. cbn [andb]. do 3 f_equal. lia.
Qed.

(** The four tables, each in its row. *)
Definition rows_of (d0 a0 d1 a1 : huff_tbl_t) : list (list Z) :=
  (fun t => 0 :: (abm_entry t <$> seq 1 16)) <$> [d0; a0; d1; a1].

Definition log_of (v : vld) : writes := fst (JPEGFW_configure_vld_reg_jpegDec false v).

Lemma log_nodup v : NoDup (log_of v).*1.
Proof.
  assert (H : bool_decide (NoDup (log_of (Vld [] [])).*1) = true) by (vm_compute; reflexivity).
  apply bool_decide_eq_true_1 in H. exact H.
Qed.

(** Two halves of a register of valid lengths. *)
Lemma valid_pair max max' t t' (chroma : bool) i : vld_ok max t -> vld_ok max' t' -> (i < 16)%nat ->
  Z.testbit ((collect_valid_bits (0 :: (abm_entry t <$> seq 1 16)) .<< 16) .|
             collect_valid_bits (0 :: (abm_entry t' <$> seq 1 16))) ((if chroma then 15 else 31) - Z.of_nat i) =
  negb (bits (if chroma then t' else t) !!! S i =? 0).
Proof.
  intros Ht Ht' Hi. rewrite Z.lor_spec, testbit_shiftl by (destruct chroma; lia).
  rewrite (collect_bits max' t' ((if chroma then 15 else 31) - Z.of_nat i)) by (done || destruct chroma; lia).
  destruct chroma.
  - rewrite (proj2 (Z.leb_gt 16 _)), (proj2 (Z.leb_le _ 15)) by lia. cbn [andb orb]. do 3 f_equal. lia.
  - rewrite (proj2 (Z.leb_le 16 _)), (proj2 (Z.leb_gt (31 - Z.of_nat i) 15)) by lia. cbn [andb].
    rewrite orb_false_r, (collect_bits max) by (done || lia). rewrite (proj2 (Z.leb_le _ 15)) by lia.
    cbn [andb]. do 3 f_equal. lia.
Qed.

Section registers.
Context (d0 a0 d1 a1 : huff_tbl_t) (md ma : Z).
Context (Hd0 : vld_ok md d0) (Ha0 : vld_ok ma a0) (Hd1 : vld_ok md d1) (Ha1 : vld_ok ma a1).
Context (v : vld) (Hv : s_active_base_max v = rows_of d0 a0 d1 a1).
Let w := log_of v.

Lemma row_v k : row v k = rows_of d0 a0 d1 a1 !!! k.
Proof. unfold row. by rewrite Hv. Qed.

Lemma in_log a x : (a, x) ∈ w -> reg w a = x.
Proof. apply reg_in, log_nodup. Qed.

Lemma ac_valid (chroma : bool) i : (i < 16)%nat ->
  Z.testbit (reg w (JPG_VLD_REG_BASE + AC_VALID_OFFSET)) ((if chroma then 15 else 31) - Z.of_nat i) =
  negb (bits (if chroma then a1 else a0) !!! S i =? 0).
Proof.
  intros Hi. rewrite (in_log _ ((collect_valid_bits (row v 1) .<< 16) .| collect_valid_bits (row v 3))) by
    (unfold w, log_of, JPEGFW_configure_vld_reg_jpegDec, JPEGFW_configure_validReg; cbn [negb fst app]; right; left).
  rewrite !row_v. by apply (valid_pair ma ma).
Qed.

Lemma dc_valid (chroma : bool) i : (i < 16)%nat ->
  Z.testbit (reg w (JPG_VLD_REG_BASE + DC_VALID_OFFSET)) ((if chroma then 15 else 31) - Z.of_nat i) =
  negb (bits (if chroma then d1 else d0) !!! S i =? 0).
Proof.
  intros Hi. rewrite (in_log _ ((collect_valid_bits (row v 0) .<< 16) .| collect_valid_bits (row v 2))) by
    (unfold w, log_of, JPEGFW_configure_vld_reg_jpegDec, JPEGFW_configure_validReg; cbn [negb fst app]; left).
  rewrite !row_v. by apply (valid_pair md md).
Qed.

(** The symbols of an AC table start at their index; the base of a length that is not used is
    0. *)
Definition ac_base (t : huff_tbl_t) (l : nat) : Z := if bits t !!! l =? 0 then 0 else first_index (bits t) l.

Lemma ac_entry_ok (chroma : bool) i : (i < 16)%nat ->
  let t := if chroma then a1 else a0 in ac_entry w chroma i = table_entry t (ac_base t) (S i).
Proof.
  intros Hi t. assert (Ht : vld_ok ma t) by (subst t; by destruct chroma).
  unfold ac_entry, table_entry. rewrite ac_valid by done. fold t. cbv zeta.
  destruct (abm_fields ma t (S i) Ht ltac:(lia)) as (_ & Em & Eb).
  assert (row v (if chroma then 3 else 1) !!! S i = abm_entry t (S i)) as Er.
  { rewrite row_v. subst t. destruct chroma; apply (row_lookup (abm_entry _)); done. }
  rewrite (in_log _ (((row v (if chroma then 3 else 1) !!! S i .& 0xffff) .<< 8) .|
                     ((row v (if chroma then 3 else 1) !!! S i .>> 16) .& 0xff))).
  - rewrite Er, Em, Eb. unfold ac_base. rewrite land_ff, shiftr_div by lia.
    assert (0 <= ac_base t (S i) < 256) as Hb.
    { unfold ac_base. destruct (Z.eqb_spec (bits t !!! S i) 0); [lia|]. apply (fi_byte ma); [done|lia|done]. }
    unfold ac_base in Hb. rewrite Z.lor_comm, word16_arith by done. change (2 ^ 8) with 256. unfold u8.
    f_equal; [f_equal|].
    + rewrite (Z.mul_comm 256), Z.div_add, Z.div_small by lia. done.
    + rewrite (Z.mul_comm 256), Z.mod_add, Z.mod_small by lia. done.
  - unfold w, log_of, JPEGFW_configure_vld_reg_jpegDec. cbn [negb fst].
    assert (Hin : (fun i => (JPG_VLD_REG_BASE + (if chroma then Chroma_AC_LUT_OFFSET else Luma_AC_LUT_OFFSET) + Z.of_nat i * 4,
      ((row v (if chroma then 3 else 1) !!! S i .& 0xffff) .<< 8) .|
      ((row v (if chroma then 3 else 1) !!! S i .>> 16) .& 0xff))) i ∈
      configure_maxReg_AC (row v (if chroma then 3 else 1)) chroma).
    { apply list_elem_of_fmap. exists i. split; [done|]. apply elem_of_seq. lia. }
    do 3 (apply elem_of_app; right). apply elem_of_app. destruct chroma; [right|left]; exact Hin.
Qed.

Lemma dc_entry_ok (chroma : bool) i : (i < 16)%nat ->
  let t := if chroma then d1 else d0 in dc_entry w chroma i = table_entry t (fun l => Z.of_nat (g_DC_offset !!! l)) (S i).
Proof.
  intros Hi t. assert (Ht : vld_ok md t) by (subst t; by destruct chroma).
  unfold dc_entry, table_entry. rewrite dc_valid by done. fold t. cbv zeta.
  destruct (abm_fields md t (S i) Ht ltac:(lia)) as (_ & Em & _).
  assert (row v (if chroma then 2 else 0) !!! S i = abm_entry t (S i)) as Er.
  { rewrite row_v. subst t. destruct chroma; apply (row_lookup (abm_entry _)); done. }
  rewrite (in_log _ (row v (if chroma then 2 else 0) !!! S i .& 0xffff)).
  - by rewrite Er, Em.
  - unfold w, log_of, JPEGFW_configure_vld_reg_jpegDec. cbn [negb fst].
    assert (Hin : (fun i => (JPG_VLD_REG_BASE + (if chroma then Chroma_DC_LUT_OFFSET else Luma_DC_LUT_OFFSET) + Z.of_nat i * 4,
      row v (if chroma then 2 else 0) !!! S i .& 0xffff)) i ∈ configure_maxReg_DC (row v (if chroma then 2 else 0)) chroma).
    { apply list_elem_of_fmap. exists i. split; [done|]. apply elem_of_seq. lia. }
    apply elem_of_app; right. apply elem_of_app. destruct chroma; [right; apply elem_of_app; left|left]; exact Hin.
Qed.
End registers.

(** ** The look-up table *)

(** The symbol of one table in an entry: luma AC, chroma AC, luma DC, chroma DC from the low
    byte up. *)
Definition lane (k : Z) (e : Z) : Z := u8 (e .>> (8 * k)).

Lemma lane_put k k' v e : 0 <= k <= 3 -> 0 <= k' <= 3 -> 0 <= v < 256 ->
  lane k' (u32 ((v .<< (8 * k)) .| e)) = if k' =? k then v .| lane k' e else lane k' e.
Proof.
  intros Hk Hk' Hv. unfold lane.
  assert (forall i, 0 <= i < 8 -> Z.testbit (u32 ((v .<< (8 * k)) .| e)) (i + 8 * k') =
    (if k' =? k then Z.testbit v i else false) || Z.testbit e (i + 8 * k')) as Hbit.
  { intros i Hi. rewrite testbit_u32, (proj2 (Z.ltb_lt _ 32)) by lia. cbn [andb].
    rewrite Z.lor_spec, testbit_shiftl by lia. f_equal. destruct (Z.eqb_spec k' k) as [->|Hne].
    - rewrite (proj2 (Z.leb_le _ _)) by lia. cbn [andb]. f_equal. lia.
    - destruct (Z.leb_spec (8 * k) (i + 8 * k')); [|done]. cbn [andb]. apply (testbit_high v 8); [change (2 ^ 8) with 256; lia|lia]. }
  destruct (Z.eqb_spec k' k) as [E|E]; apply Z.bits_inj'; intros i Hi;
    rewrite ?Z.lor_spec, !testbit_u8, !testbit_shiftr by lia; destruct (Z.ltb_spec i 8) as [H8|H8]; cbn [andb];
    rewrite ?orb_false_r; try done.
  - by rewrite Hbit.
  - symmetry. apply (testbit_high v 8); [change (2 ^ 8) with 256; lia|lia].
  - by rewrite Hbit.
Qed.

(** One table or-ed in: its lane of the entries from [i] on. *)
Lemma put_symbols_ok k tab i vals : 0 <= k <= 3 -> bytes vals -> (i + length vals <= length tab)%nat ->
  exists tab', put_symbols tab i vals (8 * k) = Some tab' /\ length tab' = length tab /\
    forall k' p, 0 <= k' <= 3 ->
      lane k' (tab' !!! p) =
        if (k' =? k) && (i <=? p)%nat && (p <? i + length vals)%nat then (vals !!! (p - i)%nat) .| lane k' (tab !!! p)
        else lane k' (tab !!! p).
Proof.
  intros Hk Hv. revert tab i. induction Hv as [|x vals Hx Hv IH]; intros tab i Hi; cbn [put_symbols length] in *.
  { exists tab. split_and!; [done|done|]. intros k' p Hk'.
    destruct (Nat.leb_spec i p), (Nat.ltb_spec p (i + 0)), (k' =? k); simpl; done || lia. }
  destruct (lookup_lt_is_Some_2 tab i ltac:(lia)) as [e He]. unfold put_symbol. rewrite He. cbn [mbind option_bind].
  destruct (IH (<[i := u32 ((x .<< (8 * k)) .| e)]> tab) (S i)) as (tab' & Hp & Hl & Hlane);
    [rewrite length_insert; lia|]. rewrite length_insert in Hl.
  exists tab'. split_and!; [done|done|]. intros k' p Hk'. rewrite (Hlane k' p Hk').
  destruct (Nat.eq_dec p i) as [->|Hne].
  - rewrite (proj2 (Nat.leb_gt (S i) i)), (proj2 (Nat.leb_le i i)) by lia.
    rewrite andb_false_r, !andb_true_r, Nat.sub_diag. cbn [andb].
    rewrite list_lookup_total_insert_eq by lia. rewrite lane_put by done.
    rewrite (list_lookup_total_correct tab i e He), (proj2 (Nat.ltb_lt i (i + S (length vals)))), andb_true_r by lia. done.
  - rewrite list_lookup_total_insert_ne by done.
    destruct (Nat.leb_spec (S i) p), (Nat.leb_spec i p); try lia; cbn [andb];
      [|by rewrite !andb_false_r].
    replace (i + S (length vals))%nat with (S i + length vals)%nat by lia.
    replace (p - i)%nat with (S (p - S i)) by lia. done.
Qed.

(** Where the symbols of length [l] start; 17 is the end of the table. *)
Definition dc_start (l : nat) : nat := if decide (l = 17%nat) then 162%nat else g_DC_offset !!! l.

(** The symbols of each length have room before those of the next: a DC table has at most
    twelve symbols; the last length has room for four only. *)
Lemma dc_fits t l : vld_ok 12 t -> bits t !!! 16%nat <= 4 -> (1 <= l <= 16)%nat ->
  (dc_start l + Z.to_nat (bits t !!! l) <= dc_start (S l) <= 162)%nat.
Proof.
  intros Ht H16 Hl. pose proof (fi_le 12 t Ht l ltac:(lia)) as H12. pose proof (fi_nonneg 12 t Ht l).
  pose proof (ok_room _ _ Ht l Hl) as Hr. pose proof (fc_nonneg 12 t Ht l).
  assert (Hall : forallb (fun l =>
    (dc_start l + (if decide (l = 16%nat) then 4 else Nat.min (Z.to_nat (2 ^ Z.of_nat l)) 12) <=? dc_start (S l))%nat &&
    (dc_start (S l) <=? 162)%nat) (seq 1 16) = true) by (vm_compute; reflexivity).
  pose proof (proj1 (forallb_forall _ _) Hall l ltac:(apply in_seq; lia)) as Hc. cbv beta in Hc.
  apply andb_true_iff in Hc as [Hc1%Nat.leb_le Hc2%Nat.leb_le]. split; [|done].
  case_decide as E; [subst l|]; lia.
Qed.

Section dc_table.
Context (t : huff_tbl_t) (Ht : vld_ok 12 t) (H16 : bits t !!! 16%nat <= 4) (k : Z) (Hk : 0 <= k <= 3).

Lemma dc_start_mono l l' : (1 <= l <= l')%nat -> (l' <= 17)%nat -> (dc_start l <= dc_start l')%nat.
Proof.
  intros [Hl Hle] H17. induction Hle as [|l' Hle IH]; [lia|].
  pose proof (dc_fits t l' Ht H16 ltac:(lia)). lia.
Qed.

(** The symbols of one length. *)
Lemma dc_put l (tab : list Z) : (1 <= l <= 16)%nat -> length tab = 162%nat ->
  let vals := take (Z.to_nat (bits t !!! l)) (drop (Z.to_nat (first_index (bits t) l)) (huffval t)) in
  length vals = Z.to_nat (bits t !!! l) /\
  exists tab', put_symbols tab (g_DC_offset !!! l) vals (8 * k) = Some tab' /\ length tab' = 162%nat /\
    forall k' p, 0 <= k' <= 3 ->
      lane k' (tab' !!! p) =
        if (k' =? k) && (dc_start l <=? p)%nat && (p <? dc_start l + length vals)%nat
        then (vals !!! (p - dc_start l)%nat) .| lane k' (tab !!! p) else lane k' (tab !!! p).
Proof.
  intros Hl Hlen vals. pose proof (dc_fits t l Ht H16 Hl) as Hfit.
  pose proof (fi_nonneg 12 t Ht l). pose proof (b_byte 12 t Ht l).
  pose proof (fi_mono 12 t Ht (S l) 17 ltac:(lia)) as Hm. rewrite fi_S in Hm. pose proof (ok_values _ _ Ht) as Hv.
  assert (Hlv : length vals = Z.to_nat (bits t !!! l)) by (subst vals; rewrite length_take, length_drop; lia).
  split; [done|].
  assert (g_DC_offset !!! l = dc_start l) as -> by (unfold dc_start; by rewrite decide_False by lia).
  rewrite <- Hlen. apply (put_symbols_ok k tab (dc_start l) vals Hk); [apply Forall_take, Forall_drop, (ok_vbytes _ _ Ht)|lia].
Qed.

Lemma build_dc_loop_ok n l tab : (l + n = 17)%nat -> (1 <= l)%nat -> length tab = 162%nat ->
  (forall p, (dc_start l <= p)%nat -> lane k (tab !!! p) = 0) ->
  exists tab', build_dc_loop (seq l n) tab (drop (Z.to_nat (first_index (bits t) l)) (huffval t)) (bits t) (8 * k) = Some tab' /\
    length tab' = 162%nat /\
    (forall k' p, 0 <= k' <= 3 -> k' <> k \/ (p < dc_start l)%nat -> lane k' (tab' !!! p) = lane k' (tab !!! p)) /\
    (forall L j, (l <= L <= 16)%nat -> (j < Z.to_nat (bits t !!! L))%nat ->
       lane k (tab' !!! (dc_start L + j)%nat) = huffval t !!! (Z.to_nat (first_index (bits t) L) + j)%nat).
Proof.
  revert l tab. induction n as [|n IH]; intros l tab Hn Hl Hlen Hz; cbn [seq build_dc_loop].
  { exists tab. split_and!; [done|done|done|]. intros; lia. }
  destruct (dc_put l tab ltac:(lia) Hlen) as (Hlv & tab1 & Hp & Hl1 & Hlane). cbv zeta in Hlv, Hlane.
  rewrite Hlv in Hlane. cbv zeta. rewrite Hp. cbn [mbind option_bind].
  pose proof (dc_fits t l Ht H16 ltac:(lia)) as Hfit.
  pose proof (fi_nonneg 12 t Ht l) as Hfi. pose proof (b_byte 12 t Ht l) as Hb.
  rewrite drop_drop. replace (Z.to_nat (first_index (bits t) l) + Z.to_nat (bits t !!! l))%nat
    with (Z.to_nat (first_index (bits t) (S l))) by (cbn [first_index]; lia).
  destruct (IH (S l) tab1) as (tab' & Hb' & Hlen' & Hsame & Hset); [lia|lia|done| |].
  { intros p Hpp. rewrite Hlane by done. rewrite (proj2 (Nat.ltb_ge p _)) by lia. rewrite andb_false_r. apply Hz. lia. }
  exists tab'. split_and!; [done|done| |].
  - intros k' p Hk' Hor. rewrite Hsame; [|done|destruct Hor; [by left|right; lia]]. rewrite Hlane by done.
    destruct (Z.eqb_spec k' k) as [E|E]; [|done]. destruct Hor as [|Hlt]; [done|].
    rewrite (proj2 (Nat.leb_gt _ p)) by lia. done.
  - intros L j HL Hj. destruct (decide (L = l)) as [->|Hne]; [|apply Hset; [lia|done]].
    rewrite Hsame; [|done|right; lia]. rewrite Hlane by done.
    rewrite Z.eqb_refl, (proj2 (Nat.leb_le _ _)), (proj2 (Nat.ltb_lt _ _)) by lia. cbn [andb].
    rewrite Hz, Z.lor_0_r by lia. replace (dc_start l + j - dc_start l)%nat with j by lia.
    rewrite lookup_total_take_lt, lookup_total_drop by lia. done.
Qed.
End dc_table.

(** ** The whole set-up *)

Lemma reads_fix max htbl is_dc is_luma v c : vld_ok max htbl -> 864 <= extra_mem_size c - used_extra_mem c ->
  reads (JPEGFW_FixHuffTbl htbl is_dc is_luma v) [] c
    (set_row ((if is_luma then 0 else 2) + (if is_dc then 0 else 1))%nat (0 :: (abm_entry htbl <$> seq 1 16)) v)
    (set_used (used_extra_mem c + 864) c).
Proof.
  intros Ht Hm. unfold JPEGFW_FixHuffTbl.
  eapply reads_bind0; [apply (reads_alloc _ 260); [done|lia]|].
  eapply reads_bind0; [apply (reads_alloc _ 516); [done|rewrite used_set, size_set; lia]|].
  eapply reads_bind0; [apply (reads_alloc _ 68); [done|rewrite !used_set, !size_set; lia]|].
  eapply reads_bind0; [apply (reads_alloc _ 20); [done|rewrite !used_set, !size_set; lia]|].
  rewrite !used_set, !set_used_twice, (fix_table_ok max htbl Ht).
  eapply reads_eq; [apply reads_ret|done|done|]. f_equal. lia.
Qed.

Lemma reads_htbl_of l k t c : l !! k = Some t -> huff_tbl_malloced c = true -> reads (htbl_of l k) [] c t c.
Proof.
  intros Hl Hm. unfold htbl_of. eapply reads_bind0; [apply reads_codec_get|]. rewrite Hl, Hm. apply reads_ret.
Qed.

(** A codec whose four tables can be given to the hardware. *)
Record hw_ok (d0 a0 d1 a1 : huff_tbl_t) (c : codec) : Prop := {
  hw_flag : using_default_huff_tab c = false;
  hw_malloced : huff_tbl_malloced c = true;
  hw_comps : num_components c <> 1;
  hw_d0 : dc_huff_tbl c !! JPEG_FW_LUM_ID = Some d0;
  hw_a0 : ac_huff_tbl c !! JPEG_FW_LUM_ID = Some a0;
  hw_d1 : dc_huff_tbl c !! JPEG_FW_CHR_ID = Some d1;
  hw_a1 : ac_huff_tbl c !! JPEG_FW_CHR_ID = Some a1;
  hw_d0_ok : vld_ok 12 d0 /\ bits d0 !!! 16%nat <= 4;
  hw_d1_ok : vld_ok 12 d1 /\ bits d1 !!! 16%nat <= 4;
  hw_a0_ok : vld_ok 162 a0 /\ length (huffval a0) = 257%nat;
  hw_a1_ok : vld_ok 162 a1 /\ length (huffval a1) = 257%nat;
  hw_mem : 4 * 864 <= extra_mem_size c - used_extra_mem c
}.

Section set_up.
Context (d0 a0 d1 a1 : huff_tbl_t) (c : codec) (Hc : hw_ok d0 a0 d1 a1 c).

Lemma reads_InitHuffTbl v : length (s_active_base_max v) = 4%nat ->
  reads (JPEGFW_InitHuffTbl v) [] c (Vld (rows_of d0 a0 d1 a1) (g_huffTab v)) (set_used (used_extra_mem c + 4 * 864) c).
Proof.
  intros Hv. pose proof (hw_mem _ _ _ _ _ Hc) as Hmem. unfold JPEGFW_InitHuffTbl.
  eapply reads_bind0; [apply reads_codec_get|].
  eapply reads_bind0; [apply reads_htbl_of; apply Hc|].
  eapply reads_bind0; [apply (reads_fix 12); [apply Hc|lia]|].
  eapply reads_bind0; [apply reads_htbl_of; apply Hc|].
  eapply reads_bind0; [apply (reads_fix 162); [apply Hc|rewrite used_set, size_set; lia]|].
  rewrite (proj2 (Z.eqb_neq _ 1)) by apply Hc. cbn [negb].
  eapply reads_bind0; [apply reads_htbl_of; apply Hc|].
  eapply reads_bind0; [apply (reads_fix 12); [apply Hc|rewrite !used_set, !size_set; lia]|].
  eapply reads_bind0; [apply reads_htbl_of; apply Hc|].
  eapply reads_eq; [apply (reads_fix 162); [apply Hc|rewrite !used_set, !size_set; lia]|done| |].
  - destruct v as [rows tab]. destruct rows as [|r0 [|r1 [|r2 [|r3 [|]]]]]; try done.
  - rewrite !used_set, !set_used_twice. f_equal. lia.
Qed.

(** The contents of the look-up table. *)
Definition tab_ok (tab : list Z) : Prop :=
  length tab = 162%nat /\
  (forall (chroma : bool) L j, (1 <= L <= 16)%nat -> (j < Z.to_nat (bits (if chroma then d1 else d0) !!! L))%nat ->
     lane (if chroma then 3 else 2) (tab !!! (dc_start L + j)%nat) =
     huffval (if chroma then d1 else d0) !!! (Z.to_nat (first_index (bits (if chroma then d1 else d0)) L) + j)%nat) /\
  (forall (chroma : bool) i, (i < 162)%nat ->
     lane (if chroma then 1 else 0) (tab !!! i) = huffval (if chroma then a1 else a0) !!! i).

Lemma lane_zero k p : lane k (replicate 162 0 !!! p) = 0.
Proof using.
  destruct (decide (p < 162)%nat) as [Hp|Hp].
  - rewrite lookup_total_replicate_2 by done. unfold lane. rewrite Z.shiftr_0_l. done.
  - rewrite list_lookup_total_alt, lookup_ge_None_2 by (rewrite length_replicate; lia). unfold lane. simpl.
    rewrite Z.shiftr_0_l. done.
Qed.

Lemma lookup_total_take_Z (l : list Z) n i : (i < n)%nat -> take n l !!! i = l !!! i.
Proof using. intros Hi. by rewrite lookup_total_take_lt. Qed.

Lemma ac_put (t : huff_tbl_t) (chroma : bool) tab : vld_ok 162 t -> length (huffval t) = 257%nat -> length tab = 162%nat ->
  (forall p, lane (if chroma then 1 else 0) (tab !!! p) = 0) ->
  exists tab', build_hufftab_AC tab t chroma = Some tab' /\ length tab' = 162%nat /\
    (forall k' p, 0 <= k' <= 3 -> k' <> (if chroma then 1 else 0) -> lane k' (tab' !!! p) = lane k' (tab !!! p)) /\
    (forall i, (i < 162)%nat -> lane (if chroma then 1 else 0) (tab' !!! i) = huffval t !!! i).
Proof using.
  intros Ht Hl Htab Hz. unfold build_hufftab_AC.
  assert ((if chroma then 8 else 0) = 8 * (if chroma then 1 else 0)) as -> by (by destruct chroma).
  assert (Hlt : length (take 162 (huffval t)) = 162%nat) by (rewrite length_take; lia).
  destruct (put_symbols_ok (if chroma then 1 else 0) tab 0 (take 162 (huffval t))) as (tab' & Hp & Hl' & Hlane);
    [destruct chroma; lia|apply Forall_take, (ok_vbytes _ _ Ht)|rewrite Hlt; lia|].
  rewrite Hlt in Hlane. exists tab'. split_and!; [done|lia| |].
  - intros k' p Hk' Hne. rewrite Hlane by done. by rewrite (proj2 (Z.eqb_neq _ _) Hne).
  - intros i Hi. rewrite Hlane by (destruct chroma; lia). rewrite Z.eqb_refl, (proj2 (Nat.ltb_lt i _)) by lia. simpl.
    rewrite Hz, Z.lor_0_r, Nat.sub_0_r. by apply lookup_total_take_Z.
Qed.

Lemma dc_build (t : huff_tbl_t) (chroma : bool) tab : vld_ok 12 t -> bits t !!! 16%nat <= 4 -> length tab = 162%nat ->
  (forall p, lane (if chroma then 3 else 2) (tab !!! p) = 0) ->
  exists tab', build_hufftab_DC tab t chroma = Some tab' /\ length tab' = 162%nat /\
    (forall k' p, 0 <= k' <= 3 -> k' <> (if chroma then 3 else 2) -> lane k' (tab' !!! p) = lane k' (tab !!! p)) /\
    (forall L j, (1 <= L <= 16)%nat -> (j < Z.to_nat (bits t !!! L))%nat ->
       lane (if chroma then 3 else 2) (tab' !!! (dc_start L + j)%nat) =
       huffval t !!! (Z.to_nat (first_index (bits t) L) + j)%nat).
Proof using.
  intros Ht H16 Htab Hz.
  destruct (build_dc_loop_ok t Ht H16 (if chroma then 3 else 2) ltac:(destruct chroma; lia) 16 1 tab eq_refl
    ltac:(lia) Htab ltac:(auto)) as (tab' & Hb & Hl & Hs & Hset).
  exists tab'. split_and!; [|done|intros; apply Hs; auto|done].
  cbn [first_index] in Hb. rewrite (ok_zero _ _ Ht) in Hb. change (drop (Z.to_nat (0 + 0)) ?l) with (drop 0 l) in Hb.
  rewrite drop_0 in Hb. unfold build_hufftab_DC. by destruct chroma.
Qed.

Lemma reads_lift tab v c1 : reads (lift_tab (Some tab) v) [] c1 (Vld (s_active_base_max v) tab) c1.
Proof using. apply reads_ret. Qed.

(** The table the four tables make. *)
Definition build_all : option (list Z) :=
  tab ← build_hufftab_DC (replicate 162 0) d0 false; tab ← build_hufftab_AC tab a0 false;
  tab ← build_hufftab_DC tab d1 true; build_hufftab_AC tab a1 true.

Lemma reads_build v n : exists tab, build_all = Some tab /\ tab_ok tab /\
  reads (JPEGFW_build_hufftab_jpegDec v) [] (set_used n c) (Vld (s_active_base_max v) tab) (set_used n c).
Proof.
  destruct (hw_d0_ok _ _ _ _ _ Hc) as [Hd0 Hd0'], (hw_d1_ok _ _ _ _ _ Hc) as [Hd1 Hd1'],
    (hw_a0_ok _ _ _ _ _ Hc) as [Ha0 Ha0'], (hw_a1_ok _ _ _ _ _ Hc) as [Ha1 Ha1'].
  destruct (dc_build d0 false (replicate 162 0) Hd0 Hd0' eq_refl ltac:(intros; apply lane_zero)) as (t1 & E1 & L1 & S1 & R1).
  destruct (ac_put a0 false t1 Ha0 Ha0' L1) as (t2 & E2 & L2 & S2 & R2).
  { intros p. rewrite S1 by lia. apply lane_zero. }
  destruct (dc_build d1 true t2 Hd1 Hd1' L2) as (t3 & E3 & L3 & S3 & R3).
  { intros p. rewrite S2, S1 by lia. apply lane_zero. }
  destruct (ac_put a1 true t3 Ha1 Ha1' L3) as (t4 & E4 & L4 & S4 & R4).
  { intros p. rewrite S3, S2, S1 by lia. apply lane_zero. }
  exists t4. split_and!.
  - unfold build_all. rewrite E1. cbn [mbind option_bind]. rewrite E2. cbn [mbind option_bind]. by rewrite E3.
  - split; [done|]. split.
    + intros [|] L j HL Hj; [rewrite S4 by lia; by apply R3|rewrite S4, S3, S2 by lia; by apply R1].
    + intros [|] i Hi; [by apply R4|rewrite S4, S3 by lia; by apply R2].
  - unfold JPEGFW_build_hufftab_jpegDec. eapply reads_bind0; [apply reads_codec_get|]. cbv zeta.
    eapply reads_bind0; [apply reads_htbl_of; apply Hc|]. cbn [g_huffTab s_active_base_max].
    rewrite E1. eapply reads_bind0; [apply reads_lift|]. cbn [g_huffTab s_active_base_max].
    eapply reads_bind0; [apply reads_htbl_of; apply Hc|].
    rewrite E2. eapply reads_bind0; [apply reads_lift|]. cbn [g_huffTab s_active_base_max].
    change (num_components (set_used n c)) with (num_components c). rewrite (proj2 (Z.eqb_neq _ 1)) by apply Hc. cbn [negb].
    eapply reads_bind0; [apply reads_htbl_of; apply Hc|].
    rewrite E3. eapply reads_bind0; [apply reads_lift|]. cbn [g_huffTab s_active_base_max].
    eapply reads_bind0; [apply reads_htbl_of; apply Hc|]. rewrite E4.
    eapply reads_eq; [apply reads_lift|done..].
Qed.

Lemma reads_hw_init v : length (s_active_base_max v) = 4%nat ->
  exists tab, build_all = Some tab /\ tab_ok tab /\
    reads (hw_vld_init true v) [] c (log_of (Vld (rows_of d0 a0 d1 a1) tab), Vld (rows_of d0 a0 d1 a1) tab)
      (set_used (used_extra_mem c + 4 * 864) c).
Proof.
  intros Hv. destruct (reads_build (Vld (rows_of d0 a0 d1 a1) (g_huffTab v)) (used_extra_mem c + 4 * 864)) as (tab & Hbt & Htab & Hb).
  exists tab. split_and!; [done..|]. unfold hw_vld_init. eapply reads_bind0; [apply reads_codec_get|].
  rewrite (hw_flag _ _ _ _ _ Hc). cbn [negb andb].
  eapply reads_bind0; [eapply reads_bind0; [by apply reads_InitHuffTbl|exact Hb]|]. apply reads_ret.
Qed.
End set_up.

(** ** The theorems *)

Lemma entries_seq (f g : nat -> lut_entry) : (forall i, (i < 16)%nat -> f i = g (S i)) -> f <$> seq 0 16 = g <$> seq 1 16.
Proof.
  intros H. rewrite <- (fmap_S_seq 0 16), <- list_fmap_compose. apply list_fmap_ext.
  intros k i Hi. apply lookup_seq in Hi as [-> Hi]. by apply H.
Qed.

(** C12: The register values and the look-up table the driver computes decode every symbol
    of the tables: for a file with its own prefix codes (no more symbols than the
    hardware's tables have room for), the set-up succeeds, and the standard's decoding
    procedure, run with nothing but the register writes, reads from the code of any
    symbol, DC or AC, luma or chroma, followed by any bits, exactly that code and
    finds the symbol's value in its byte of the look-up table. *)
Theorem vld_decodes d0 a0 d1 a1 s v :
  hw_ok d0 a0 d1 a1 (cdc s) -> length (s_active_base_max v) = 4%nat -> 0 <= header_len s < 4294967296 ->
  exists w v' s', hw_vld_init true v s = POk ((w, v'), s') /\
    forall (chroma : bool) L j rest, (1 <= L <= 16)%nat -> 0 <= j ->
      (let t := if chroma then d1 else d0 in j < bits t !!! L ->
       exists i, vld_decode (dc_entry w chroma <$> seq 0 16) 0 0 (code_bits L (first_code (bits t) L + j) ++ rest) = Some (i, rest) /\
         lane (if chroma then 3 else 2) (g_huffTab v' !!! Z.to_nat i) = huffval t !!! Z.to_nat (first_index (bits t) L + j)) /\
      (let t := if chroma then a1 else a0 in j < bits t !!! L ->
       exists i, vld_decode (ac_entry w chroma <$> seq 0 16) 0 0 (code_bits L (first_code (bits t) L + j) ++ rest) = Some (i, rest) /\
         lane (if chroma then 1 else 0) (g_huffTab v' !!! Z.to_nat i) = huffval t !!! Z.to_nat (first_index (bits t) L + j)).
Proof.
  intros Hc Hv Hh. destruct (reads_hw_init d0 a0 d1 a1 (cdc s) Hc v Hv) as (tab & _ & (Htl & Hdc & Hac) & Hr).
  destruct s as [strm more h c]. cbn [cdc header_len] in *. specialize (Hr strm more h (u32_small h Hh)).
  cbn [app] in Hr. eexists _, _, _. split; [exact Hr|]. intros chroma L j rest HL Hj. cbn [g_huffTab].
  set (v' := Vld (rows_of d0 a0 d1 a1) tab).
  destruct (hw_d0_ok _ _ _ _ _ Hc) as [Hd0 Hd0'], (hw_d1_ok _ _ _ _ _ Hc) as [Hd1 Hd1'],
    (hw_a0_ok _ _ _ _ _ Hc) as [Ha0 Ha0'], (hw_a1_ok _ _ _ _ _ Hc) as [Ha1 Ha1'].
  split; intros Hjl.
  - set (t := if chroma then d1 else d0) in *. assert (Ht : vld_ok 12 t) by (subst t; by destruct chroma).
    pose proof (fi_nonneg 12 t Ht L). exists (Z.of_nat (dc_start L) + j). split.
    + rewrite (entries_seq _ (table_entry t (fun l => Z.of_nat (g_DC_offset !!! l))))
        by (intros i Hi; apply (dc_entry_ok d0 a0 d1 a1 12 Hd0 Hd1 v' eq_refl chroma i Hi)).
      rewrite (decode_symbol 12 t Ht) by lia. do 3 f_equal. unfold dc_start. by rewrite decide_False by lia.
    + rewrite <- (Z2Nat.id j Hj), <- Nat2Z.inj_add, Nat2Z.id. rewrite (Hdc chroma) by (done || (fold t; lia)).
      fold t. f_equal. lia.
  - set (t := if chroma then a1 else a0) in *. assert (Ht : vld_ok 162 t) by (subst t; by destruct chroma).
    pose proof (fi_nonneg 162 t Ht L). pose proof (fi_le 162 t Ht L ltac:(lia)).
    exists (first_index (bits t) L + j). split.
    + rewrite (entries_seq _ (table_entry t (ac_base t)))
        by (intros i Hi; apply (ac_entry_ok d0 a0 d1 a1 162 Ha0 Ha1 v' eq_refl chroma i Hi)).
      rewrite (decode_symbol 162 t Ht) by lia. do 3 f_equal. unfold ac_base. by rewrite (proj2 (Z.eqb_neq _ 0)) by lia.
    + apply Hac. lia.
Qed.

(** The values of a table of the standard (K.3), read into the codec. *)
Definition is_default (t : huff_tbl_t) (ac : bool) (index : Z) : Prop :=
  let n := if ac then 162%nat else 12%nat in
  bits t = bits (default_tbl ac index) /\ take n (huffval t) = take n (huffval (default_tbl ac index)).

(** Values beyond the counted ones are not looked at. *)
Lemma build_dc_loop_app ls tab vals x bits shift : (sum_list_with (fun l => Z.to_nat (bits !!! l)) ls <= length vals)%nat ->
  build_dc_loop ls tab (vals ++ x) bits shift = build_dc_loop ls tab vals bits shift.
Proof.
  revert tab vals. induction ls as [|l ls IH]; intros tab vals Hl; [done|]. cbn [build_dc_loop sum_list_with] in *.
  rewrite take_app_le, drop_app_le by lia. destruct (put_symbols _ _ _ _) as [tab'|]; [|done]. cbn [mbind option_bind].
  apply IH. rewrite length_drop. lia.
Qed.

Lemma build_dc_default tab t (chroma : bool) : is_default t false (if chroma then 1 else 0) ->
  build_hufftab_DC tab t chroma = build_hufftab_DC tab (default_tbl false (if chroma then 1 else 0)) chroma.
Proof.
  intros [Hb Hv]. unfold build_hufftab_DC. rewrite <- (take_drop 12 (huffval t)), Hb, Hv.
  destruct chroma; apply build_dc_loop_app; vm_compute; lia.
Qed.

Lemma build_ac_default tab t (chroma : bool) : is_default t true (if chroma then 1 else 0) ->
  build_hufftab_AC tab t chroma = build_hufftab_AC tab (default_tbl true (if chroma then 1 else 0)) chroma.
Proof. intros [_ Hv]. unfold build_hufftab_AC. by rewrite Hv. Qed.

Lemma abm_entry_bits t t' : bits t = bits t' -> abm_entry t = abm_entry t'.
Proof. intros H. unfold abm_entry. by rewrite H. Qed.

(** The codec's tables are those of the standard. *)
Record all_default (d0 a0 d1 a1 : huff_tbl_t) : Prop := {
  def_d0 : is_default d0 false 0;
  def_a0 : is_default a0 true 0;
  def_d1 : is_default d1 false 1;
  def_a1 : is_default a1 true 1
}.

Lemma build_all_default d0 a0 d1 a1 : all_default d0 a0 d1 a1 -> build_all d0 a0 d1 a1 = Some jpeg_fw_vld_default_huffTab.
Proof.
  intros [Dd0 Da0 Dd1 Da1].
  transitivity (build_all (default_tbl false 0) (default_tbl true 0) (default_tbl false 1) (default_tbl true 1));
    [|vm_compute; reflexivity].
  unfold build_all. rewrite (build_dc_default _ d0 false Dd0). apply option_bind_ext_fun; intros t1.
  rewrite (build_ac_default _ a0 false Da0). apply option_bind_ext_fun; intros t2.
  rewrite (build_dc_default _ d1 true Dd1). apply option_bind_ext_fun; intros t3.
  by rewrite (build_ac_default _ a1 true Da1).
Qed.

(** The standard's tables as the parser keeps them, 257 values each. *)
Definition std_tbl (ac : bool) (index : Z) : huff_tbl_t :=
  let t := default_tbl ac index in HuffTbl (bits t) (huffval t ++ replicate (257 - length (huffval t)) 0).

(** A codec of three components with the standard's tables. *)
Definition std_codec (mem : Z) : codec :=
  let c := codec_init mem in
  Codec (input_height c) (input_width c) (input_mcu_info c) (progressive_mode c) 3
    (comp_info c) (tbl_map c) (comp_id_map c) (comps_in_scan c) (spectral c) (input_scan_number c)
    (restart c) [std_tbl false 0; std_tbl false 1] [std_tbl true 0; std_tbl true 1] true false
    (quant_tbl c) (using_default_quant_tab c) (used_extra_mem c) mem.

Lemma vld_ok_check max t :
  length (bits t) = 17%nat -> forallb (fun x => (0 <=? x) && (x <? 256)) (bits t ++ huffval t) = true ->
  bits t !!! 0%nat = 0 -> forallb (fun l => first_code (bits t) l + bits t !!! l <? 2 ^ Z.of_nat l) (seq 1 16) = true ->
  first_index (bits t) 17 <= max -> max <= 256 -> first_index (bits t) 17 <= Z.of_nat (length (huffval t)) -> vld_ok max t.
Proof.
  intros Hl Hb H0 Hr Hc Hm Hv. rewrite forallb_forall in Hb, Hr.
  assert (Hby : bytes (bits t ++ huffval t)).
  { apply Forall_forall. intros x Hx. specialize (Hb x (proj1 (list_elem_of_In _ _) Hx)).
    apply andb_prop in Hb as [?%Z.leb_le ?%Z.ltb_lt]. done. }
  apply Forall_app in Hby as [Hb1 Hb2]. split; try done.
  intros l Hl'. apply Z.ltb_lt, Hr, in_seq. lia.
Qed.

Lemma std_vld_ok (ac : bool) index : index = 0 \/ index = 1 -> vld_ok (if ac then 162 else 12) (std_tbl ac index).
Proof. destruct ac; intros [->| ->]; apply vld_ok_check; vm_compute; (reflexivity || discriminate). Qed.

Lemma std_hw_ok : hw_ok (std_tbl false 0) (std_tbl true 0) (std_tbl false 1) (std_tbl true 1) (std_codec 4096).
Proof.
  split; try reflexivity; try (by vm_compute); (split; [eapply (std_vld_ok true) || eapply (std_vld_ok false); lia|by vm_compute]).
Qed.

Lemma std_default : all_default (std_tbl false 0) (std_tbl true 0) (std_tbl false 1) (std_tbl true 1).
Proof. split; by vm_compute. Qed.

(** C13: The shortcut for the standard's tables is sound: when a file carries them, computing
    the set-up from the tables gives the same register writes, in the same order, and the
    same look-up table as the precomputed constants the driver uses instead when the
    parser has recognised them. *)
Theorem default_tables_agree d0 a0 d1 a1 s v :
  hw_ok d0 a0 d1 a1 (cdc s) -> all_default d0 a0 d1 a1 ->
  length (s_active_base_max v) = 4%nat -> 0 <= header_len s < 4294967296 ->
  exists w v' s', hw_vld_init true v s = POk ((w, v'), s') /\
    w = fst (JPEGFW_configure_vld_reg_jpegDec true v) /\
    g_huffTab v' = g_huffTab (snd (JPEGFW_configure_vld_reg_jpegDec true v)).
Proof.
  intros Hc [Dd0 Da0 Dd1 Da1] Hv Hh. destruct (reads_hw_init d0 a0 d1 a1 (cdc s) Hc v Hv) as (tab & Hb & _ & Hr).
  destruct s as [strm more h c]. cbn [cdc header_len] in *. specialize (Hr strm more h (u32_small h Hh)).
  cbn [app] in Hr. eexists _, _, _. split; [exact Hr|]. split.
  - unfold rows_of. rewrite !fmap_cons, fmap_nil. rewrite (abm_entry_bits d0 _ (proj1 Dd0)), (abm_entry_bits a0 _ (proj1 Da0)),
      (abm_entry_bits d1 _ (proj1 Dd1)), (abm_entry_bits a1 _ (proj1 Da1)). vm_compute. reflexivity.
  - rewrite (build_all_default d0 a0 d1 a1 (Build_all_default _ _ _ _ Dd0 Da0 Dd1 Da1)) in Hb. by injection Hb as <-.
Qed.

Definition std_st : st := St [] [] 0 (std_codec 4096).

Lemma vld_decodes_witness :
  exists w v' s', hw_vld_init true vld_init std_st = POk ((w, v'), s') /\
    exists i, vld_decode (ac_entry w false <$> seq 0 16) 0 0 (code_bits 4 (0xA + 1) ++ [true; false]) = Some (i, [true; false]) /\
      lane 0 (g_huffTab v' !!! Z.to_nat i) = 4.
Proof.
  destruct (vld_decodes (std_tbl false 0) (std_tbl true 0) (std_tbl false 1) (std_tbl true 1) std_st vld_init)
    as (w & v' & s' & Hr & H).
  - exact std_hw_ok.
  - reflexivity.
  - vm_compute; split; [discriminate|reflexivity].
  - exists w, v', s'. split; [exact Hr|].
    exact (proj2 (H false 4%nat 1 [true; false] ltac:(lia) ltac:(lia)) ltac:(reflexivity)).
Defined.

Lemma default_tables_agree_witness :
  exists w v' s', hw_vld_init true vld_init std_st = POk ((w, v'), s') /\
    w = fst (JPEGFW_configure_vld_reg_jpegDec true vld_init) /\ g_huffTab v' = jpeg_fw_vld_default_huffTab.
Proof.
  apply (default_tables_agree (std_tbl false 0) (std_tbl true 0) (std_tbl false 1) (std_tbl true 1) std_st vld_init).
  - exact std_hw_ok.
  - exact std_default.
  - reflexivity.
  - vm_compute; split; [discriminate|reflexivity].
Defined.

(** ** Too many long DC codes *)

Lemma put_symbols_length tab i vals shift tab' : put_symbols tab i vals shift = Some tab' ->
  length tab' = length tab /\ (vals = [] \/ i + length vals <= length tab)%nat.
Proof.
  revert tab i. induction vals as [|x vals IH]; intros tab i H; cbn [put_symbols] in H.
  - injection H as <-. split; [done|by left].
  - unfold put_symbol in H. destruct (tab !! i) as [e|] eqn:E; [|done]. cbn [mbind option_bind] in H.
    apply IH in H as [Hl Hor]. rewrite length_insert in *. split; [done|right]. apply lookup_lt_Some in E.
    destruct Hor as [->|]; cbn [length]; lia.
Qed.

Lemma build_dc_loop_overrun n l tab vals bits shift : (l + n = 16)%nat -> length tab = 162%nat -> 5 <= bits !!! 16%nat ->
  (sum_list_with (fun l => Z.to_nat (bits !!! l)) (seq l (S n)) <= length vals)%nat ->
  build_dc_loop (seq l (S n)) tab vals bits shift = None.
Proof.
  revert l tab vals. induction n as [|n IH]; intros l tab vals Hn Hlen H5 Hv; cbn [seq build_dc_loop].
  all: cbn [seq sum_list_with] in Hv; destruct (put_symbols _ _ _ _) as [tab'|] eqn:E; [|done].
  all: apply put_symbols_length in E as [Hl Hor]; cbn [mbind option_bind].
  - assert (l = 16)%nat as -> by lia. exfalso. rewrite length_take in Hor. change (g_DC_offset !!! 16%nat) with 158%nat in Hor.
    destruct Hor as [Hnil|]; [apply (f_equal length) in Hnil; rewrite length_take in Hnil; simpl in Hnil|]; lia.
  - apply IH; [lia|lia|done|]. cbn [seq sum_list_with]. rewrite length_drop. lia.
Qed.

(** A DC table with more than four codes of sixteen bits does not fit the look-up table: the
    symbols are written past its 162 entries. *)
Theorem build_hufftab_DC_overrun tab t chroma : length tab = 162%nat -> 5 <= bits t !!! 16%nat ->
  (sum_list_with (fun l => Z.to_nat (bits t !!! l)) (seq 1 16) <= length (huffval t))%nat ->
  build_hufftab_DC tab t chroma = None.
Proof. intros. by apply (build_dc_loop_overrun 15 1). Qed.
