(* ===== verification/EngFrame.v ===== *)
(** * Frames of the diagnostic link (apps/engmode)

    The engineering service talks to a test tool on the PC in frames: the flag
    0x7E, a header [MSG_HEAD_T], data, the flag 0x7E, with 0x7D and 0x7E escaped
    in between.  This file holds the codec: [eng_diag_decode7d7e] and
    [eng_diag_encode7d7e] of [eng_diag.c], which work in place,
    [translate_packet] and [untranslate_packet_header] of [adc_calibration.c], the
    header, and the conversions of numbers to text that the messages use
    ([bin2ascii], [ascii2bin], [eng_hex2ascii], the IMEI in its packed and its
    printed form).

    An access outside a buffer is [None].  [memcpy] on overlapping ranges copies
    upwards, as a byte loop does. *)

From S2P Require Import Prelude Checksum Hdlc.

(** ** The header *)

Record MSG_HEAD_T := MsgHead { seq_num : Z; hlen : Z; htype : Z; hsubtype : Z }.

Definition SIZEOF_HEAD : nat := 8.
Definition DIAG_HEADER_LENGTH : Z := 8.

(** The packed struct in memory. *)
Definition put_msg_head (h : MSG_HEAD_T) : list Z :=
  st32 (seq_num h) ++ st16 (hlen h) ++ [u8 (htype h); u8 (hsubtype h)].

(** The header at byte [off] of a buffer; [None] when it does not lie inside. *)
Definition get_msg_head (m : list Z) (off : nat) : option MSG_HEAD_T :=
  if decide (off + SIZEOF_HEAD <= length m)%nat
  then Some (MsgHead (ld32 m off) (ld16 m (off + 4)) (m !!! (off + 6)%nat) (m !!! (off + 7)%nat))
  else None.

(** ** Escapes in place *)

Definition is_mark (b : Z) : bool := (b =? 0x7D) || (b =? 0x7E).

(** The loop of [eng_diag_decode7d7e]: [i] and [len] are its variables, [m]
    counts the removed bytes; [fuel] is at least [len - i]. *)
Fixpoint decode_loop (fuel : nat) (buf : list Z) (i len m : nat) : option (list Z * nat) :=
  match fuel with
  | O => Some (buf, m)
  | S fuel =>
      if (i <? len)%nat then
        c ← buf !! i;
        if is_mark c then
          b ← buf !! S i;
          let buf := <[i := b .^ 0x20]> buf in
          let j := S i in
          d ← mem_read buf (Z.of_nat (S j)) (Z.of_nat (len - j));
          buf ← mem_write buf (Z.of_nat j) d;
          decode_loop fuel buf (S i) (len - 1) (S m)
        else decode_loop fuel buf (S i) len m
      else Some (buf, m)
  end.

Definition eng_diag_decode7d7e (buf : list Z) (len : Z) : option (list Z * nat) :=
  decode_loop (Z.to_nat len) buf 0 (Z.to_nat len) 0.

(** The loop of [eng_diag_encode7d7e]; [fuel] is the number of bytes that are
    still to be looked at (an inserted byte is looked at, too). *)
Fixpoint encode_loop (fuel : nat) (buf : list Z) (i len extra : nat) : option (list Z * nat * nat) :=
  match fuel with
  | O => Some (buf, len, extra)
  | S fuel =>
      if (i <? len)%nat then
        c ← buf !! i;
        if is_mark c then
          let buf := <[i := 0x7D]> buf in
          d ← mem_read buf (Z.of_nat (S i)) (Z.of_nat (len - S i));
          buf ← mem_write buf (Z.of_nat (S (S i))) d;
          buf ← mem_write buf (Z.of_nat (S i)) [c .^ 0x20];
          encode_loop fuel buf (S i) (S len) (S extra)
        else encode_loop fuel buf (S i) len extra
      else Some (buf, len, extra)
  end.

(** Result: the buffer, the new length and [*extra_len]. *)
Definition eng_diag_encode7d7e (buf : list Z) (len extra_len : nat) : option (list Z * nat * nat) :=
  encode_loop (2 * len) buf 0 len extra_len.

(** ** Frames into a second buffer (adc_calibration.c) *)

Definition eng_translate_packet (src : list Z) : list Z := translate_packet src.

(** [untranslate_packet_header]: [out] is [dest] up to [translated_size], last
    byte first; [flag] tells that the last byte was an escape. *)
Fixpoint untr_header_loop (unpackSize : Z) (src : list Z) (status : Z) (flag : bool) (out : list Z) : list Z :=
  match src with
  | [] => rev out
  | b :: src =>
      if status =? 0 then untr_header_loop unpackSize src (if b =? 0x7E then 1 else 0) flag out
      else if status =? 1 then
        if negb (b =? 0x7E) then untr_header_loop unpackSize src 2 flag (b :: out)
        else untr_header_loop unpackSize src 1 flag out
      else if b =? 0x7E then rev out
      else
        match out with
        | last :: out' =>
            let '(flag, out) :=
              if (last =? 0x7D) && negb flag
              then (true, (if b =? 0x5E then 0x7E else if b =? 0x5D then 0x7D else last) :: out')
              else (false, b :: out) in
            if (unpackSize + 1 <=? Z.of_nat (length out)) && negb (unpackSize =? -1)
            then rev out else untr_header_loop unpackSize src 2 flag out
        | [] => rev out
        end
  end.

Definition untranslate_packet_header (src : list Z) (unpackSize : Z) : list Z :=
  untr_header_loop unpackSize src 0 false [].

(** ** Text *)

Definition ASCII_0 : Z := 48.
Definition ASCII_A : Z := 65.

Definition ascii_digit (c : Z) : Z :=
  u8 (if (ASCII_0 <=? c) && (c <=? 57) then c - ASCII_0 else c - ASCII_A + 10).

(** [ascii2bin] looks at two characters per step while [count < size]: an odd
    size reads one character more. *)
Fixpoint ascii2bin (src : list Z) (size : nat) : option (list Z) :=
  match size with
  | O => Some []
  | S size =>
      match src with
      | h :: l :: src =>
          d ← ascii2bin src (pred size);
          Some (u8 (ascii_digit h .<< 4 .| ascii_digit l) :: d)
      | _ => None
      end
  end.

Definition semi_octet_char (semi_octet : Z) : Z :=
  if semi_octet <=? 9 then u8 (semi_octet + ASCII_0) else u8 (semi_octet + ASCII_A - 10).

Fixpoint bin2ascii (src : list Z) (size : nat) : option (list Z) :=
  match size with
  | O => Some []
  | S size =>
      match src with
      | b :: src =>
          d ← bin2ascii src size;
          Some (semi_octet_char ((b .& 0xF0) .>> 4) :: semi_octet_char (b .& 0x0F) :: d)
      | [] => None
      end
  end.

(** [sprintf("%02x")] of a byte. *)
Definition lower_digit (n : Z) : Z := if n <=? 9 then n + 48 else n + 87.
Definition fmt_02x (b : Z) : list Z := [lower_digit (b / 16); lower_digit (b mod 16)].

(** [eng_hex2ascii] appends to the string in [output]; the result is its length. *)
Definition eng_hex2ascii (input output : list Z) (length : nat) : list Z * nat :=
  let out := output ++ mjoin (map fmt_02x (take length input)) in (out, List.length out).

(** ** The IMEI *)

Definition MAX_IMEI_LENGTH : nat := 8.
Definition MAX_IMEI_STR_LENGTH : nat := 15.

Definition MAKE1BYTE2BYTES (high4bit low4bit : Z) : Z := u8 ((high4bit .<< 4) .| low4bit).

(** [szImei] and [nvImei] have their full length at every call. *)
Definition ImeiConvStr2NV (szImei : list Z) : list Z :=
  MAKE1BYTE2BYTES (u8 (szImei !!! 0%nat - ASCII_0)) 0x0A ::
  map (fun i => MAKE1BYTE2BYTES (u8 (szImei !!! (2 * i)%nat - ASCII_0)) (u8 (szImei !!! (2 * i - 1)%nat - ASCII_0)))
      (seq 1 (MAX_IMEI_LENGTH - 1)).

Definition ImeiConvNV2Str (nvImei : list Z) : list Z :=
  mjoin (map (fun i => [u8 ((((nvImei !!! i) .& 0xF0) .>> 4) + ASCII_0); u8 (((nvImei !!! S i) .& 0x0F) + ASCII_0)])
             (seq 0 (MAX_IMEI_LENGTH - 1)))
  ++ [u8 ((((nvImei !!! 7%nat) .& 0xF0) .>> 4) + ASCII_0)].

(** ** The decoder as a function of the bytes it is given

    [l] are the [len] bytes, [x] the byte behind them; the result is what the
    [len + 1] bytes become, and the count. *)

Fixpoint decode_ref (x : Z) (l : list Z) : list Z * nat :=
  match l with
  | [] => ([x], O)
  | c :: l =>
      if is_mark c then
        match l with
        | [] => ([x .^ 0x20; x], 1%nat)
        | b :: l => let '(r, m) := decode_ref x l in ((b .^ 0x20) :: r ++ [x], S m)
        end
      else let '(r, m) := decode_ref x l in (c :: r, m)
  end.

Lemma insert_at (d l : list Z) (a b : Z) : <[length d := b]> (d ++ a :: l) = d ++ b :: l.
Proof. rewrite insert_app_r_alt by done. by rewrite Nat.sub_diag. Qed.

Lemma lookup_at (d l : list Z) (a : Z) : (d ++ a :: l) !! length d = Some a.
Proof. by apply list_lookup_middle. Qed.

Lemma lookup_next (d l : list Z) (a b : Z) : (d ++ a :: b :: l) !! S (length d) = Some b.
Proof.
  rewrite lookup_app_r by lia. replace (S (length d) - length d)%nat with 1%nat by lia. done.
Qed.

(** One shift: the bytes behind [b], and the one after them, move down by one. *)
Lemma shift_down (d r t : list Z) (a b x : Z) (m := d ++ a :: b :: r ++ x :: t) :
  mem_read m (Z.of_nat (S (S (length d)))) (Z.of_nat (S (length r))) = Some (r ++ [x]) /\
  mem_write m (Z.of_nat (S (length d))) (r ++ [x]) = Some (d ++ a :: r ++ x :: x :: t).
Proof.
  subst m. split.
  - rewrite mem_read_nat by (rewrite !length_app; cbn; rewrite length_app; cbn; lia).
    replace (d ++ a :: b :: r ++ x :: t) with ((d ++ [a; b]) ++ (r ++ [x]) ++ t)
      by (rewrite <- !app_assoc; done).
    rewrite (drop_app_exact (d ++ [a; b])) by (rewrite length_app; cbn; lia).
    by rewrite (take_app_exact (r ++ [x]) t) by (rewrite length_app; cbn; lia).
  - rewrite mem_write_nat by (rewrite !length_app; cbn; rewrite !length_app; cbn; lia).
    unfold splice. f_equal.
    replace (d ++ a :: b :: r ++ x :: t) with ((d ++ [a]) ++ (b :: r) ++ x :: t)
      by (rewrite <- !app_assoc; done).
    rewrite (take_app_exact (d ++ [a])) by (rewrite length_app; cbn; lia).
    rewrite <- drop_drop. rewrite (drop_app_exact (d ++ [a])) by (rewrite length_app; cbn; lia).
    rewrite (drop_app_exact (b :: r)) by (rewrite length_app; cbn; lia). by rewrite <- !app_assoc.
Qed.

Lemma decode_loop_ref fuel l x d t m :
  (length l <= fuel)%nat ->
  decode_loop fuel (d ++ l ++ x :: t) (length d) (length d + length l) m =
  Some (d ++ (decode_ref x l).1 ++ t, (m + (decode_ref x l).2)%nat).
Proof.
  revert l d t m. induction fuel as [|fuel IH]; intros l d t m Hf.
  { destruct l; [|cbn in Hf; lia]. cbn. by rewrite Nat.add_0_r. }
  destruct l as [|c l]; cbn [decode_loop decode_ref length app] in *.
  { destruct (Nat.ltb_spec (length d) (length d + 0)); [lia|]. cbn. by rewrite Nat.add_0_r. }
  destruct (Nat.ltb_spec (length d) (length d + S (length l))); [|lia].
  rewrite lookup_at. cbn. destruct (is_mark c).
  - destruct l as [|b l]; cbn [app].
    + rewrite lookup_next. cbn [mbind option_bind length]. rewrite insert_at.
      replace (length d + 1 - S (length d))%nat with 0%nat by lia.
      rewrite mem_read_nat by (rewrite length_app; cbn; lia). rewrite take_0. cbn [mbind option_bind].
      rewrite mem_write_nat by (rewrite length_app; cbn; lia). cbn [mbind option_bind].
      rewrite splice_nil. destruct fuel; cbn [decode_loop].
      * cbn. do 2 f_equal. lia.
      * destruct (Nat.ltb_spec (S (length d)) (length d + 1 - 1)); [lia|].
        cbn. do 2 f_equal. lia.
    + rewrite lookup_next. cbn [mbind option_bind]. rewrite insert_at. cbn [length] in *.
      replace (length d + S (S (length l)) - S (length d))%nat with (S (length l)) by lia.
      destruct (shift_down d l t (b .^ 0x20) b x) as [E1 E2]. rewrite E1. cbn [mbind option_bind].
      rewrite E2. cbn [mbind option_bind].
      replace (d ++ (b .^ 0x20) :: l ++ x :: x :: t) with ((d ++ [b .^ 0x20]) ++ l ++ x :: (x :: t))
        by (rewrite <- app_assoc; done).
      replace (S (length d)) with (length (d ++ [b .^ 0x20])) by (rewrite length_app; cbn; lia).
      replace (length d + S (S (length l)) - 1)%nat with (length (d ++ [b .^ 0x20]) + length l)%nat
        by (rewrite length_app; cbn; lia).
      rewrite IH by lia. destruct (decode_ref x l) as [r k]. cbn. rewrite <- !app_assoc. cbn.
      do 2 f_equal. lia.
  - replace (d ++ c :: l ++ x :: t) with ((d ++ [c]) ++ l ++ x :: t) by (rewrite <- app_assoc; done).
    replace (S (length d)) with (length (d ++ [c])) by (rewrite length_app; cbn; lia).
    replace (length d + S (length l))%nat with (length (d ++ [c]) + length l)%nat
      by (rewrite length_app; cbn; lia).
    rewrite IH by lia. destruct (decode_ref x l) as [r k]. cbn. by rewrite <- app_assoc.
Qed.

Lemma decode_ref_length x l : length (decode_ref x l).1 = S (length l).
Proof.
  induction l as [l IH] using (induction_ltof1 _ (@length Z)). unfold ltof in IH.
  destruct l as [|c l]; [done|]. cbn [decode_ref]. destruct (is_mark c).
  - destruct l as [|b l]; [done|]. specialize (IH l ltac:(cbn; lia)).
    destruct (decode_ref x l) as [r m]. cbn in *. rewrite length_app. cbn. lia.
  - specialize (IH l ltac:(cbn; lia)). destruct (decode_ref x l) as [r m]. cbn in *. lia.
Qed.

Lemma decode_ref_count x l : ((decode_ref x l).2 <= length l)%nat.
Proof.
  induction l as [l IH] using (induction_ltof1 _ (@length Z)). unfold ltof in IH.
  destruct l as [|c l]; [done|]. cbn [decode_ref]. destruct (is_mark c).
  - destruct l as [|b l]; [done|]. specialize (IH l ltac:(cbn; lia)).
    destruct (decode_ref x l) as [r m]. cbn in *. lia.
  - specialize (IH l ltac:(cbn; lia)). destruct (decode_ref x l) as [r m]. cbn in *. lia.
Qed.

(** The escaped form of a payload, and what decoding makes of it. *)
Abbreviation escs p := (concat (map esc p)).

Lemma esc_plain b : is_mark b = false -> esc b = [b].
Proof. unfold is_mark, esc. intros [H1 H2]%orb_false_iff. by rewrite H2, H1. Qed.

Lemma esc_mark b : is_mark b = true -> esc b = [0x7D; b .^ 0x20].
Proof. unfold is_mark, esc. intros [->%Z.eqb_eq| ->%Z.eqb_eq]%orb_true_iff; done. Qed.

Definition escapes (p : list Z) : nat := length (escs p) - length p.

Lemma escapes_cons b p : escapes (b :: p) = ((if is_mark b then 1 else 0) + escapes p)%nat.
Proof.
  unfold escapes. cbn. rewrite length_app. pose proof (escs_length p).
  destruct (is_mark b) eqn:E; [rewrite (esc_mark b E)|rewrite (esc_plain b E)]; cbn; lia.
Qed.

Lemma escs_total p : length (escs p) = (length p + escapes p)%nat.
Proof. unfold escapes. pose proof (escs_length p). lia. Qed.

Lemma replicate_snoc_S {A} n (x : A) : replicate (S n) x = replicate n x ++ [x].
Proof. rewrite replicate_S_end. done. Qed.

Lemma decode_ref_escs x p :
  decode_ref x (escs p) = (p ++ replicate (S (escapes p)) x, escapes p).
Proof.
  induction p as [|b p IH]; [done|]. rewrite escapes_cons. cbn [map concat].
  destruct (is_mark b) eqn:E.
  - rewrite (esc_mark b E). cbn [app decode_ref]. change (is_mark 0x7D) with true. cbn [negb]. cbv iota.
    rewrite IH. cbn [fst snd]. rewrite Z.lxor_assoc, Z.lxor_nilpotent, Z.lxor_0_r.
    rewrite <- app_assoc, <- replicate_snoc_S. done.
  - rewrite (esc_plain b E). cbn [app decode_ref]. rewrite E, IH. done.
Qed.

(** ** The encoder *)

Lemma shift_up (d r q : list Z) (a b y : Z) (m := d ++ a :: r ++ y :: q) :
  mem_read m (Z.of_nat (S (length d))) (Z.of_nat (length r)) = Some r /\
  (m1 ← mem_write m (Z.of_nat (S (S (length d)))) r; mem_write m1 (Z.of_nat (S (length d))) [b])
  = Some (d ++ a :: b :: r ++ q).
Proof.
  subst m. split.
  - rewrite mem_read_nat by (rewrite !length_app; cbn; rewrite length_app; cbn; lia).
    replace (d ++ a :: r ++ y :: q) with ((d ++ [a]) ++ r ++ y :: q) by (rewrite <- app_assoc; done).
    rewrite (drop_app_exact (d ++ [a])) by (rewrite length_app; cbn; lia).
    by rewrite (take_app_exact r) by lia.
  - assert (exists z s, r ++ [y] = z :: s /\ length s = length r) as (z & s & E & Hs).
    { destruct (r ++ [y]) as [|z s] eqn:E; [by destruct r|]. exists z, s. split; [done|].
      apply (f_equal length) in E. rewrite length_app in E. cbn in E. lia. }
    replace (d ++ a :: r ++ y :: q) with ((d ++ [a; z]) ++ s ++ q)
      by (rewrite <- app_assoc; cbn; change (z :: s ++ q) with ((z :: s) ++ q); rewrite <- E, <- app_assoc; done).
    rewrite mem_write_nat by (rewrite !length_app; cbn; lia). cbn [mbind option_bind]. unfold splice at 1.
    rewrite (take_app_exact (d ++ [a; z])) by (rewrite length_app; cbn; lia).
    rewrite <- drop_drop. rewrite (drop_app_exact (d ++ [a; z])) by (rewrite length_app; cbn; lia).
    rewrite (drop_app_exact s) by lia.
    replace ((d ++ [a; z]) ++ r ++ q) with ((d ++ [a]) ++ [z] ++ r ++ q) by (rewrite <- !app_assoc; done).
    rewrite mem_write_nat by (rewrite !length_app; cbn; lia). unfold splice.
    rewrite (take_app_exact (d ++ [a])) by (rewrite length_app; cbn; lia).
    rewrite <- drop_drop. rewrite (drop_app_exact (d ++ [a])) by (rewrite length_app; cbn; lia).
    rewrite (drop_app_exact [z]) by done. by rewrite <- !app_assoc.
Qed.

Lemma encode_loop_plain fuel buf i len extra c :
  (i < len)%nat -> buf !! i = Some c -> is_mark c = false ->
  encode_loop (S fuel) buf i len extra = encode_loop fuel buf (S i) len extra.
Proof.
  intros Hi Hc Hm. cbn [encode_loop]. destruct (Nat.ltb_spec i len); [|lia]. rewrite Hc. cbn. by rewrite Hm.
Qed.

Lemma encode_loop_mark fuel d p c y pad extra :
  is_mark c = true ->
  encode_loop (S fuel) (d ++ c :: p ++ y :: pad) (length d) (length d + S (length p)) extra =
  encode_loop fuel (d ++ 0x7D :: (c .^ 0x20) :: p ++ pad) (S (length d)) (S (length d + S (length p))) (S extra).
Proof.
  intros E. cbn [encode_loop]. destruct (Nat.ltb_spec (length d) (length d + S (length p))); [|lia].
  rewrite lookup_at. cbn [mbind option_bind]. rewrite E, insert_at.
  replace (length d + S (length p) - S (length d))%nat with (length p) by lia.
  destruct (shift_up d p pad 0x7D (c .^ 0x20) y) as [E1 E2]. rewrite E1. cbn [mbind option_bind].
  destruct (mem_write (d ++ 0x7D :: p ++ y :: pad) (Z.of_nat (S (S (length d)))) p) as [m1|]; [|done].
  cbn [mbind option_bind] in *. rewrite E2. done.
Qed.

Lemma unmark c : is_mark c = true -> is_mark (c .^ 0x20) = false.
Proof. unfold is_mark. intros [->%Z.eqb_eq| ->%Z.eqb_eq]%orb_true_iff; done. Qed.

Lemma encode_loop_escs p d pad extra fuel :
  (2 * length p <= fuel)%nat -> (escapes p <= length pad)%nat ->
  encode_loop fuel (d ++ p ++ pad) (length d) (length d + length p) extra =
  Some (d ++ escs p ++ drop (escapes p) pad, (length d + length (escs p))%nat, (extra + escapes p)%nat).
Proof.
  revert d pad extra fuel. induction p as [|c p IH]; intros d pad extra fuel Hf Hp.
  { cbn [map concat app length]. change (escapes []) with 0%nat. rewrite drop_0, !Nat.add_0_r.
    destruct fuel; [done|]. cbn [encode_loop]. by rewrite Nat.ltb_irrefl. }
  destruct fuel as [|fuel]; [cbn in Hf; lia|]. rewrite escapes_cons in *.
  destruct (is_mark c) eqn:E.
  - destruct pad as [|y pad]; [cbn in Hp; lia|]. destruct fuel as [|fuel]; [cbn in Hf; lia|].
    cbn [length app]. rewrite encode_loop_mark by done.
    rewrite (encode_loop_plain _ _ _ _ _ (c .^ 0x20)); [|lia|apply lookup_next|by apply unmark].
    replace (d ++ 0x7D :: (c .^ 0x20) :: p ++ pad) with ((d ++ [0x7D; c .^ 0x20]) ++ p ++ pad)
      by (rewrite <- app_assoc; done).
    replace (S (S (length d))) with (length (d ++ [0x7D; c .^ 0x20])) by (rewrite length_app; cbn; lia).
    replace (S (length d + S (length p))) with (length (d ++ [0x7D; c .^ 0x20]%Z) + length p)%nat
      by (rewrite length_app; cbn; lia).
    rewrite IH by (cbn in *; lia). cbn [map concat].
    rewrite (esc_mark c E), <- app_assoc, !length_app, <- !app_assoc. cbn.
    repeat first [lia | reflexivity | progress f_equal].
  - rewrite (encode_loop_plain _ _ _ _ _ c); [|cbn; lia|cbn; apply lookup_at|done].
    cbn [app length] in *.
    replace (d ++ c :: p ++ pad) with ((d ++ [c]) ++ p ++ pad) by (rewrite <- app_assoc; done).
    replace (S (length d)) with (length (d ++ [c])) by (rewrite length_app; cbn; lia).
    replace (length d + S (length p))%nat with (length (d ++ [c]) + length p)%nat
      by (rewrite length_app; cbn; lia).
    rewrite IH by lia. cbn [map concat].
    rewrite (esc_plain c E), <- app_assoc, !length_app, <- !app_assoc. cbn.
    repeat first [lia | reflexivity | progress f_equal].
Qed.

(** ** The receiver with its own buffer *)

(** After a decoded byte: a last byte 0x7D was an escape. *)
Definition settled (flag : bool) (out : list Z) : Prop :=
  exists l o, out = l :: o /\ ((l =? 0x7D) && negb flag) = false.

Lemma untrh_start k b rest flag :
  b <> 0x7E -> untr_header_loop k (b :: rest) 1 flag [] = untr_header_loop k rest 2 flag [b].
Proof. intros Hb. cbn [untr_header_loop]. change (1 =? 0) with false. cbv iota. by destruct (Z.eqb_spec b 0x7E). Qed.

Lemma untrh_byte k b rest flag out :
  settled flag out -> b <> 0x7E ->
  untr_header_loop k (b :: rest) 2 flag out =
  if (k + 1 <=? Z.of_nat (S (length out))) && negb (k =? -1) then rev (b :: out)
  else untr_header_loop k rest 2 false (b :: out).
Proof.
  intros (l & o & -> & H) Hb. cbn [untr_header_loop]. change (2 =? 0) with false. change (2 =? 1) with false.
  cbv iota. destruct (Z.eqb_spec b 0x7E); [done|]. rewrite H. done.
Qed.

Lemma untrh_escape k c rest out :
  is_mark c = true -> (k + 1 <=? Z.of_nat (S (length out))) && negb (k =? -1) = false ->
  untr_header_loop k ((c .^ 0x20) :: rest) 2 false (0x7D :: out) = untr_header_loop k rest 2 true (c :: out).
Proof.
  unfold is_mark. intros [->%Z.eqb_eq| ->%Z.eqb_eq]%orb_true_iff Hk.
  all: cbn [untr_header_loop]; change (2 =? 0) with false; change (2 =? 1) with false; cbv iota.
  all: change (0x7D .^ 0x20 =? 0x7E) with false || change (0x7E .^ 0x20 =? 0x7E) with false; cbv iota.
  all: cbn [negb andb length]; change (0x7D =? 0x7D) with true; cbn [andb length]; rewrite Hk; done.
Qed.

Lemma untrh_escs k p flag out rest (r := untr_header_loop k (escs p ++ 0x7E :: rest) 2 flag out) :
  settled flag out ->
  (k = -1 -> r = rev out ++ p) /\
  (0 <= k -> Z.of_nat (length out) <= k -> take (Z.to_nat k) r = take (Z.to_nat k) (rev out ++ p)).
Proof.
  subst r. revert flag out. induction p as [|c p IH]; intros flag out Hs.
  { cbn. rewrite app_nil_r. done. }
  assert (forall b, take (Z.to_nat k) (rev (b :: out)) = take (Z.to_nat k) (rev out ++ c :: p) \/
            Z.of_nat (length out) <> k) as Hstop.
  { intros b. destruct (decide (Z.of_nat (length out) = k)) as [<-|]; [|by right]. left. cbn.
    rewrite Nat2Z.id, !take_app_exact by by rewrite length_rev. done. }
  cbn [map concat]. rewrite <- app_assoc. destruct (is_mark c) eqn:E.
  - rewrite (esc_mark c E). cbn [app]. rewrite untrh_byte by done.
    destruct ((k + 1 <=? Z.of_nat (S (length out))) && negb (k =? -1)) eqn:B.
    + apply andb_true_iff in B as [B1%Z.leb_le B2]. split; [intros ->; done|].
      intros. destruct (Hstop 0x7D); [done|lia].
    + rewrite untrh_escape by done. destruct (IH true (c :: out)) as [IH1 IH2].
      { exists c, out. split; [done|]. by rewrite andb_false_r. }
      cbn [rev] in *. rewrite <- app_assoc in IH1, IH2. cbn [app] in *. split; [done|].
      intros. apply IH2; [done|]. apply andb_false_iff in B as [B%Z.leb_gt|B]; cbn; lia.
  - rewrite (esc_plain c E). cbn [app]. assert (c <> 0x7E /\ c <> 0x7D) as [Hc1 Hc2] by (unfold is_mark in E; lia).
    rewrite untrh_byte by done. destruct ((k + 1 <=? Z.of_nat (S (length out))) && negb (k =? -1)) eqn:B.
    + apply andb_true_iff in B as [B1%Z.leb_le B2]. split; [intros ->; done|].
      intros. destruct (Hstop c); [done|lia].
    + destruct (IH false (c :: out)) as [IH1 IH2].
      { exists c, out. split; [done|]. lia. }
      cbn [rev] in *. rewrite <- app_assoc in IH1, IH2. cbn [app] in *. split; [done|].
      intros. apply IH2; [done|]. apply andb_false_iff in B as [B%Z.leb_gt|B]; cbn; lia.
Qed.

(** ** Nibbles *)

Lemma low_nibble x : x .& 0x0F = x mod 16.
Proof. change 0x0F with (Z.ones 4). by rewrite Z.land_ones. Qed.

Lemma high_nibble x : (x .& 0xF0) .>> 4 = (x / 16) mod 16.
Proof.
  rewrite Z.shiftr_land. change (0xF0 .>> 4) with (Z.ones 4). rewrite Z.land_ones by lia.
  by rewrite shiftr_div by lia.
Qed.

Lemma make_byte h l : 0 <= h < 16 -> 0 <= l < 16 -> MAKE1BYTE2BYTES h l = 16 * h + l.
Proof.
  intros. unfold MAKE1BYTE2BYTES. rewrite Z.lor_comm, lor_add by (change (2 ^ 4) with 16; lia).
  change (2 ^ 4) with 16. rewrite u8_small by lia. lia.
Qed.

Lemma make_high h l : 0 <= h < 16 -> 0 <= l < 16 -> (MAKE1BYTE2BYTES h l .& 0xF0) .>> 4 = h.
Proof. intros. rewrite high_nibble, make_byte by done. zlia. Qed.

Lemma make_low h l : 0 <= h < 16 -> 0 <= l < 16 -> MAKE1BYTE2BYTES h l .& 0x0F = l.
Proof. intros. rewrite low_nibble, make_byte by done. zlia. Qed.

Lemma make_split b : 0 <= b < 256 -> MAKE1BYTE2BYTES ((b .& 0xF0) .>> 4) (b .& 0x0F) = b.
Proof. intros. rewrite high_nibble, low_nibble, make_byte by zlia. zlia. Qed.

Abbreviation is_digit := (fun c : Z => 48 <= c <= 57).

Lemma digit_val c : 48 <= c <= 57 -> 0 <= u8 (c - ASCII_0) < 16 /\ u8 (u8 (c - ASCII_0) + ASCII_0) = c.
Proof. intros. unfold ASCII_0. rewrite (u8_small (c - 48)) by lia. rewrite u8_small by lia. lia. Qed.

Lemma imei_str_nv_str s :
  length s = MAX_IMEI_STR_LENGTH -> Forall is_digit s -> ImeiConvNV2Str (ImeiConvStr2NV s) = s.
Proof.
  intros Hl Hd. do 15 (destruct s as [|? s]; [done|]). destruct s; [|done].
  repeat match goal with H : Forall _ (_ :: _) |- _ => apply Forall_cons in H as [? H] end.
  unfold ImeiConvNV2Str, ImeiConvStr2NV. cbn -[MAKE1BYTE2BYTES u8].
  repeat match goal with H : 48 <= _ <= 57 |- _ => apply digit_val in H as [? ?] end.
  rewrite !make_high, !make_low by (done || lia).
  repeat match goal with H : u8 (u8 _ + _) = _ |- _ => rewrite H; clear H end. done.
Qed.

Lemma imei_nibble_str b : 0 <= b < 16 -> u8 (u8 (b + ASCII_0) - ASCII_0) = b.
Proof. intros. unfold ASCII_0. rewrite (u8_small (b + 48)) by lia. rewrite u8_small by lia. lia. Qed.

Lemma imei_nv_str_nv nv :
  length nv = MAX_IMEI_LENGTH -> bytes nv -> (nv !!! 0%nat) .& 0x0F = 0x0A ->
  ImeiConvStr2NV (ImeiConvNV2Str nv) = nv.
Proof.
  intros Hl Hb H0. do 8 (destruct nv as [|? nv]; [done|]). destruct nv; [|done].
  repeat match goal with H : Forall _ (_ :: _) |- _ => apply Forall_cons in H as [? H] end.
  unfold ImeiConvNV2Str, ImeiConvStr2NV. cbn -[MAKE1BYTE2BYTES u8] in *.
  rewrite !imei_nibble_str by (rewrite ?high_nibble, ?low_nibble; zlia).
  rewrite <- H0, !make_split by done. done.
Qed.

Lemma ascii_hex n : 0 <= n < 16 -> ascii_digit (semi_octet_char n) = n.
Proof.
  intros. unfold ascii_digit, semi_octet_char, ASCII_0, ASCII_A. destruct (Z.leb_spec n 9).
  - rewrite (u8_small (n + 48)) by lia. destruct (Z.leb_spec 48 (n + 48)); [|lia].
    destruct (Z.leb_spec (n + 48) 57); [|lia]. cbn [andb]. rewrite u8_small; lia.
  - rewrite (u8_small (n + 65 - 10)) by lia. destruct (Z.leb_spec (n + 65 - 10) 57); [lia|].
    rewrite andb_false_r, u8_small; lia.
Qed.

Lemma bin_ascii_bin d :
  bytes d -> exists t, bin2ascii d (length d) = Some t /\ length t = (2 * length d)%nat /\
  ascii2bin t (2 * length d) = Some d.
Proof.
  induction 1 as [|b d Hb _ (t & IH1 & IH2 & IH3)]; [by exists []|].
  cbn [bin2ascii length]. rewrite IH1. cbn. eexists. split; [done|]. split; [cbn; lia|].
  cbn [ascii2bin]. replace (pred (length d + S (length d + 0))) with (2 * length d)%nat by lia. rewrite IH3. cbn [mbind option_bind].
  rewrite !ascii_hex by (rewrite ?high_nibble, ?low_nibble; zlia).
  do 2 f_equal. rewrite <- (make_split b) at 3 by done. done.
Qed.

Lemma decode_ref_bytes x l : 0 <= x < 256 -> bytes l -> bytes (decode_ref x l).1.
Proof.
  intros Hx. assert (forall b, 0 <= b < 256 -> 0 <= b .^ 0x20 < 256) as Hxor.
  { intros b ?. apply (lxor_bound 8); lia. }
  induction l as [l IH] using (induction_ltof1 _ (@length Z)). unfold ltof in IH. intros Hl.
  destruct l as [|c l]; [by apply Forall_singleton|]. apply Forall_cons in Hl as [Hc Hl]. cbn [decode_ref].
  destruct (is_mark c).
  - destruct l as [|b l]; [cbn; rewrite Forall_cons, Forall_singleton; by auto|]. apply Forall_cons in Hl as [Hb Hl].
    specialize (IH l ltac:(cbn; lia) Hl). destruct (decode_ref x l) as [r m]. cbn in *.
    apply Forall_cons. split; [by auto|]. apply Forall_app_2; [done|by apply Forall_singleton].
  - specialize (IH l ltac:(cbn; lia) Hl). destruct (decode_ref x l) as [r m]. cbn in *. by apply Forall_cons.
Qed.

(** ** Properties *)

(** Decoding a frame in place inverts framing for every payload: after
    [eng_diag_decode7d7e] on the bytes between the flags, the buffer holds the
    payload followed by the closing flag, and the count is the number of bytes
    by which the frame became shorter. *)
Lemma decode_inverts_frame p tail (frame := eng_translate_packet p) :
  eng_diag_decode7d7e (drop 1 (frame ++ tail)) (Z.of_nat (length frame) - 2) =
    Some (p ++ 0x7E :: replicate (escapes p) 0x7E ++ tail, escapes p) /\
  length frame = (2 + length p + escapes p)%nat.
Proof.
  subst frame. unfold eng_translate_packet, translate_packet. cbn [app skipn length].
  rewrite length_app. cbn [length]. rewrite escs_total. split; [|lia].
  unfold eng_diag_decode7d7e.
  replace (Z.to_nat (Z.of_nat (S (length p + escapes p + 1)) - 2)) with (length (escs p))
    by (rewrite escs_total; lia).
  pose proof (decode_loop_ref (length (escs p)) (escs p) 0x7E [] tail 0 (le_n _)) as H.
  rewrite decode_ref_escs in H. cbn [length app fst snd Nat.add] in H.
  rewrite drop_0, <- app_assoc. cbn [app]. rewrite H, <- app_assoc. done.
Qed.

(** The in-place decoder is memory safe on every input: for any bytes and
    any length that leaves one byte of the buffer behind the last one, it
    returns, and the buffer keeps its length and stays a buffer of bytes. *)
Theorem decode_safe_typed buf len :
  bytes buf -> 0 <= len < Z.of_nat (length buf) ->
  exists buf' m, eng_diag_decode7d7e buf len = Some (buf', m) /\
    length buf' = length buf /\ bytes buf' /\ (m <= Z.to_nat len)%nat.
Proof.
  intros Hb Hl. set (n := Z.to_nat len). assert (n < length buf)%nat as Hn by lia.
  destruct (lookup_lt_is_Some_2 buf n Hn) as [x Hx].
  assert (length (take n buf) = n) as Hlt by (rewrite length_take; lia).
  unfold eng_diag_decode7d7e. fold n.
  pose proof (decode_loop_ref n (take n buf) x [] (drop (S n) buf) 0 ltac:(lia)) as H. cbn [length app] in H.
  rewrite take_drop_middle, Nat.add_0_l, Hlt in H by done. rewrite H. eexists _, _. split; [done|]. cbn [app]. split_and!.
  - rewrite length_app, decode_ref_length, Hlt, length_drop. lia.
  - apply Forall_app_2; [|by apply Forall_drop]. apply decode_ref_bytes; [|by apply Forall_take].
    by eapply (Forall_lookup_1 is_byte).
  - pose proof (decode_ref_count x (take n buf)). cbn. lia.
Qed.

Lemma decode_safe_typed_witness :
  exists buf' m, eng_diag_decode7d7e [0x7D; 0x7D; 0x10; 0x7E; 0x7E] 4 = Some (buf', m) /\
    length buf' = 5%nat /\ bytes buf' /\ (m <= 4)%nat.
Proof. apply (decode_safe_typed [0x7D; 0x7D; 0x10; 0x7E; 0x7E] 4); [repeat constructor; lia|cbn; lia]. Defined.

(** The receiver with its own buffer inverts framing, too: a frame behind
    any bytes without a flag gives its payload back, whatever the payload, and
    with a limit [k] at least the first [k] bytes of it. *)
Theorem untranslate_header_inverts pre p post k (r := untranslate_packet_header (pre ++ eng_translate_packet p ++ post) k) :
  Forall (fun b => b <> 0x7E) pre -> p <> [] ->
  (k = -1 -> r = p) /\ (0 < k -> take (Z.to_nat k) r = take (Z.to_nat k) p).
Proof.
  intros Hpre Hp. subst r. unfold untranslate_packet_header, eng_translate_packet, translate_packet.
  assert (forall rest, untr_header_loop k (pre ++ 0x7E :: rest) 0 false [] = untr_header_loop k rest 1 false []) as Hskip.
  { intros rest. induction Hpre as [|b pre Hb _ IH]; [done|]. cbn. by destruct (Z.eqb_spec b 0x7E). }
  cbn [app]. rewrite Hskip. destruct p as [|c p]; [done|]. cbn [map concat]. rewrite <- !app_assoc. cbn [app].
  destruct (is_mark c) eqn:E.
  - rewrite (esc_mark c E). cbn [app]. rewrite untrh_start by lia.
    destruct (decide (0 < k \/ k = -1)) as [Hk|]; [|lia].
    rewrite untrh_escape; [|done|].
    + destruct (untrh_escs k p true [c] post) as [H1 H2].
      { exists c, []. split; [done|]. by rewrite andb_false_r. }
      cbn in H1, H2. split; [done|]. intros. apply H2; lia.
    + cbn. apply andb_false_iff. destruct Hk as [Hk| ->]; [left; apply Z.leb_gt; lia|by right].
  - rewrite (esc_plain c E). assert (c <> 0x7E /\ c <> 0x7D) as [Hc1 Hc2] by (unfold is_mark in E; lia).
    cbn [app]. rewrite untrh_start by done.
    destruct (untrh_escs k p false [c] post) as [H1 H2].
    { exists c, []. split; [done|]. lia. }
    cbn in H1, H2. split; [done|]. intros. apply H2; lia.
Qed.

Lemma untranslate_header_inverts_witness :
  untranslate_packet_header ([1; 2] ++ eng_translate_packet [0x7D; 0x7E; 0x5E] ++ [9]) (-1) = [0x7D; 0x7E; 0x5E].
Proof.
  apply (untranslate_header_inverts [1; 2] [0x7D; 0x7E; 0x5E] [9] (-1)); [repeat constructor; lia|done|done].
Defined.

(** The encoder in place produces the escaped payload, and decoding that
    gives the payload back, as long as the buffer has room for the escapes. *)
Theorem encode_decode_roundtrip p pad :
  (escapes p < length pad)%nat ->
  exists pad', eng_diag_encode7d7e (p ++ pad) (length p) 0 = Some (escs p ++ pad', length (escs p), escapes p) /\
    exists pad'', eng_diag_decode7d7e (escs p ++ pad') (Z.of_nat (length (escs p))) = Some (p ++ pad'', escapes p).
Proof.
  intros Hp. exists (drop (escapes p) pad). split.
  { unfold eng_diag_encode7d7e.
    apply (encode_loop_escs p [] pad 0 (2 * length p)); lia. }
  destruct (drop (escapes p) pad) as [|x t] eqn:E.
  { apply (f_equal length) in E. rewrite length_drop in E. cbn in E. lia. }
  pose proof (decode_loop_ref (length (escs p)) (escs p) x [] t 0 (le_n _)) as H.
  rewrite decode_ref_escs in H. unfold eng_diag_decode7d7e. rewrite Nat2Z.id.
  exists (replicate (S (escapes p)) x ++ t). cbn [length app fst snd Nat.add] in H. rewrite H, <- app_assoc. done.
Qed.

Lemma encode_decode_roundtrip_witness :
  exists pad', eng_diag_encode7d7e ([1; 0x7D; 2] ++ [0; 0]) 3 0 = Some ([1; 0x7D; 0x5D; 2] ++ pad', 4%nat, 1%nat) /\
    exists pad'', eng_diag_decode7d7e ([1; 0x7D; 0x5D; 2] ++ pad') 4 = Some ([1; 0x7D; 2] ++ pad'', 1%nat).
Proof. apply (encode_decode_roundtrip [1; 0x7D; 2] [0; 0]). vm_compute. lia. Defined.

(** The two forms of an IMEI convert into each other without loss: a string
    of 15 digits survives packing and unpacking, and every packed number whose
    first low nibble has its fixed value 0xA survives unpacking and packing. *)
Theorem imei_roundtrip s nv :
  length s = MAX_IMEI_STR_LENGTH -> Forall is_digit s ->
  length nv = MAX_IMEI_LENGTH -> bytes nv -> (nv !!! 0%nat) .& 0x0F = 0x0A ->
  ImeiConvNV2Str (ImeiConvStr2NV s) = s /\ ImeiConvStr2NV (ImeiConvNV2Str nv) = nv.
Proof. auto using imei_str_nv_str, imei_nv_str_nv. Qed.

Lemma imei_roundtrip_witness :
  ImeiConvNV2Str (ImeiConvStr2NV [51;53;57;48;49;49;48;51;51;51;51;51;51;51;57]) =
    [51;53;57;48;49;49;48;51;51;51;51;51;51;51;57] /\
  ImeiConvStr2NV (ImeiConvNV2Str [0x3A; 0x95; 0x10; 0xF1; 0x30; 0x33; 0x33; 0x93]) =
    [0x3A; 0x95; 0x10; 0xF1; 0x30; 0x33; 0x33; 0x93].
Proof.
  apply (imei_roundtrip [51;53;57;48;49;49;48;51;51;51;51;51;51;51;57] [0x3A; 0x95; 0x10; 0xF1; 0x30; 0x33; 0x33; 0x93]);
    done || (repeat constructor; lia).
Defined.
