(* ===== verification/EngText.v ===== *)
(** * Text in buffers (apps/engmode/eng_attok.c and the C library)

    The engineering service handles commands in place in its receive buffer: a
    C string is the part of a buffer up to its terminating NUL, a pointer is an
    offset, and the AT tokenizer of [eng_attok.c] writes NULs over separators.
    A string without a terminator inside its buffer is [None] (the code would
    read on behind it). *)

From S2P Require Import Prelude EngFrame.
From Stdlib Require Import Ascii.

(** ** C strings *)

(** The bytes of a literal. *)
Definition bs (s : string) : list Z := map (fun c => Z.of_N (N_of_ascii c)) (String.list_ascii_of_string s).

Fixpoint cstr (m : list Z) : option (list Z) :=
  match m with
  | [] => None
  | c :: m => if c =? 0 then Some [] else cons c <$> cstr m
  end.

Definition cstr_at (m : list Z) (off : nat) : option (list Z) := cstr (drop off m).

(** First position of [c] in a list. *)
Fixpoint index_of (c : Z) (s : list Z) : option nat :=
  match s with
  | [] => None
  | d :: s => if d =? c then Some 0%nat else S <$> index_of c s
  end.

(** [strchr]: the inner [None] is the null pointer. *)
Definition strchr (m : list Z) (off : nat) (c : Z) : option (option nat) :=
  s ← cstr_at m off; Some (Nat.add off <$> index_of c s).

Fixpoint has_prefix (p s : list Z) : bool :=
  match p, s with
  | [], _ => true
  | a :: p, b :: s => (a =? b) && has_prefix p s
  | _ :: _, [] => false
  end.

(** [strstr(s, needle) != NULL]. *)
Fixpoint contains (needle s : list Z) : bool :=
  has_prefix needle s || match s with [] => false | _ :: s => contains needle s end.

Definition to_lower (c : Z) : Z := if (65 <=? c) && (c <=? 90) then c + 32 else c.
Definition strcasestr (s needle : list Z) : bool := contains (map to_lower needle) (map to_lower s).

Definition isspace (c : Z) : bool := (c =? 32) || ((9 <=? c) && (c <=? 13)).
Definition isdigit (c : Z) : bool := (48 <=? c) && (c <=? 57).
Definition isupper (c : Z) : bool := (65 <=? c) && (c <=? 90).

(** ** Numbers *)

Definition digit_of (c : Z) : Z :=
  if isdigit c then c - 48
  else if (97 <=? c) && (c <=? 122) then c - 87
  else if isupper c then c - 55 else 99.

(** Digits of a base: the value and the number of characters used. *)
Fixpoint digits (base : Z) (s : list Z) (acc : Z) (n : nat) : Z * nat :=
  match s with
  | c :: s' => if digit_of c <? base then digits base s' (acc * base + digit_of c) (S n) else (acc, n)
  | [] => (acc, n)
  end.

Fixpoint skip_spaces (s : list Z) : list Z :=
  match s with c :: s' => if isspace c then skip_spaces s' else s | [] => [] end.

Definition clamp_long (v : Z) : Z := Z.max (-2147483648) (Z.min 2147483647 v).

(** [strtol]: the value (clamped to 32 bits) and whether a number was found.
    Base 0 chooses 16 for the prefix 0x, 8 for 0, and 10. *)
Definition strtol (base : Z) (s : list Z) : Z * bool :=
  let s := skip_spaces s in
  let '(neg, s) := match s with c :: s' => if c =? 45 then (true, s') else if c =? 43 then (false, s') else (false, s) | [] => (false, s) end in
  let hexpre := match s with a :: b :: d :: _ => (a =? 48) && ((b =? 120) || (b =? 88)) && (digit_of d <? 16) | _ => false end in
  let octpre := match s with a :: _ => a =? 48 | [] => false end in
  let base := if base =? 0 then if hexpre then 16 else if octpre then 8 else 10 else base in
  let s := if (base =? 16) && hexpre then drop 2 s else s in
  let '(v, n) := digits base s 0 0 in
  (clamp_long (if (neg : bool) then - v else v), (0 <? n)%nat).

Definition atoi (s : list Z) : Z := fst (strtol 10 s).

(** [strtoul(s, &end, 16)], converted to [int]. *)
Definition strtoul16 (s : list Z) : Z * bool :=
  let s := skip_spaces s in
  let '(neg, s) := match s with c :: s' => if c =? 45 then (true, s') else if c =? 43 then (false, s') else (false, s) | [] => (false, s) end in
  let hexpre := match s with a :: b :: d :: _ => (a =? 48) && ((b =? 120) || (b =? 88)) && (digit_of d <? 16) | _ => false end in
  let s := if hexpre then drop 2 s else s in
  let '(v, n) := digits 16 s 0 0 in
  let v := Z.min 4294967295 v in
  (u32 (if (neg : bool) then - v else v), (0 <? n)%nat).

(** [sprintf("%d")] of an [int]. *)
Fixpoint udec (fuel : nat) (n : Z) (acc : list Z) : list Z :=
  match fuel with
  | O => acc
  | S fuel => let acc := (48 + n mod 10) :: acc in if n <? 10 then acc else udec fuel (n / 10) acc
  end.
Definition fmt_d (z : Z) : list Z := if z <? 0 then 45 :: udec 11 (- z) [] else udec 11 z [].

(** ** AT tokens (eng_attok.c)

    [p_cur] is [None] when the C pointer is null.  Results: the return code, the
    buffer and the new pointer. *)

Definition at_tok_start_at (sep : Z) (m : list Z) (p_cur : option nat) : option (Z * option nat) :=
  match p_cur with
  | None => Some (-1, None)
  | Some off =>
      p ← strchr m off sep;
      Some (match p with None => (-1, None) | Some i => (0, Some (S i)) end)
  end.

Definition at_tok_start := at_tok_start_at 58.

(** [at_tok_equel_start] of [eng_diag.c]. *)
Definition at_tok_equel_start := at_tok_start_at 61.

Definition skipWhiteSpace (m : list Z) (p_cur : option nat) : option (option nat) :=
  match p_cur with
  | None => Some None
  | Some off => s ← cstr_at m off; Some (Some (off + (length s - length (skip_spaces s)))%nat)
  end.

Definition skipNextComma (m : list Z) (p_cur : option nat) : option (option nat) :=
  match p_cur with
  | None => Some None
  | Some off =>
      s ← cstr_at m off;
      Some (Some match index_of 44 s with Some i => (off + S i)%nat | None => (off + length s)%nat end)
  end.

(** [strsep]: the token, the buffer with the separator overwritten, the rest. *)
Definition strsep (m : list Z) (off : nat) (sep : Z) : option (nat * list Z * option nat) :=
  p ← strchr m off sep;
  Some match p with
       | Some i => (off, <[i := 0]> m, Some (S i))
       | None => (off, m, None)
       end.

Definition nextTok (m : list Z) (p_cur : option nat) : option (option nat * list Z * option nat) :=
  cur ← skipWhiteSpace m p_cur;
  match cur with
  | None => Some (None, m, None)
  | Some off =>
      c ← m !! off;
      if c =? 34 then
        '(ret, m, cur) ← strsep m (S off) 34;
        cur ← skipNextComma m cur;
        Some (Some ret, m, cur)
      else
        '(ret, m, cur) ← strsep m off 44;
        Some (Some ret, m, cur)
  end.

(** [p_out] is unchanged ([None]) when the call fails before the conversion. *)
Definition at_tok_nextint_base (conv : list Z -> Z * bool) (m : list Z) (p_cur : option nat)
  : option (Z * option Z * list Z * option nat) :=
  match p_cur with
  | None => Some (-1, None, m, None)
  | Some _ =>
      '(ret, m, cur) ← nextTok m p_cur;
      match ret with
      | None => Some (-1, None, m, cur)
      | Some off =>
          s ← cstr_at m off;
          let '(l, found) := conv s in
          Some (if (found : bool) then 0 else -1, Some (s32 l), m, cur)
      end
  end.

Definition at_tok_nextint := at_tok_nextint_base (strtol 10).
Definition at_tok_nexthexint := at_tok_nextint_base strtoul16.

Definition at_tok_nextbool (m : list Z) (p_cur : option nat) : option (Z * option Z * list Z * option nat) :=
  '(ret, out, m, cur) ← at_tok_nextint m p_cur;
  Some (if ret <? 0 then (-1, None, m, cur)
        else match out with
             | Some r => if (r =? 0) || (r =? 1) then (ret, Some r, m, cur) else (-1, None, m, cur)
             | None => (-1, None, m, cur)
             end).

Definition at_tok_nextstr (m : list Z) (p_cur : option nat) : option (Z * option nat * list Z * option nat) :=
  match p_cur with
  | None => Some (-1, None, m, None)
  | Some _ => '(ret, m, cur) ← nextTok m p_cur; Some (0, ret, m, cur)
  end.

Definition at_tok_hasmore (m : list Z) (p_cur : option nat) : option bool :=
  match p_cur with
  | None => Some false
  | Some off => c ← m !! off; Some (negb (c =? 0))
  end.
