(* ===== verification/EngSys.v ===== *)
(** * The world of the engineering service

    What the handlers of [apps/engmode] act on: files, properties, shell
    commands, the link to the PC, the results of the libraries they call, and
    the globals of [eng_diag.c].  Handlers are functions in the monad [M]: a
    state transformer that is [None] where the C code is undefined (an access
    outside an object) or ends the process.

    The operating system's answers are data of the state: a file may be missing,
    not writable or failing, [system] takes its results from a script, writes to
    the PC from another one. *)

From S2P Require Import Prelude EngFrame EngText.

(** ** Files *)

(** [f_reg]: a regular file keeps what is written; a device file does not.
    [f_wopen]: it can be opened for writing.  [f_ok]: reads and writes succeed
    (otherwise they return -1). *)
Record file := File { f_data : list Z; f_reg : bool; f_wopen : bool; f_ok : bool }.

(** The result of a write to the PC: so many bytes, EBUSY, or another error. *)
Inductive wres := WOk (n : Z) | WBusy | WErr.

(** One row of the table str2int. *)
Record str2int_row := Row { r_groupid : Z; r_value : Z; r_name : list Z }.

(** Results of the eFuse library and of the other libraries called. *)
Record libs := Libs {
  efuse_uid : Z * list Z;         (** [efuse_uid_read]: result and bytes *)
  efuse_hash : Z * list Z;        (** [efuse_hash_read] *)
  efuse_write_rc : Z;             (** [efuse_hash_write] *)
  efuse_enable_rc : Z;            (** [efuse_secure_enable] *)
  efuse_enabled : Z;              (** [efuse_secure_is_enabled] *)
  sql_table : option (list str2int_row); (** [eng_sql_string2int_table_get] *)
  popen_out : list Z -> option (list Z);    (** output of a command run by [popen]; [None] when it cannot be run *)
  audio_modes : Z;                (** [adev_get_audiomodenum4eng] *)
  rand_vals : list Z;             (** the next results of [rand] *)
}.

Record world := World {
  files : gmap string file;
  props : gmap string (list Z);
  props_set : list (string * list Z);    (** properties set, in order *)
  sys_log : list (list Z);               (** shell commands run, in order *)
  sys_rc : list bool;                    (** does the next command succeed *)
  dev_log : list (string * list Z);      (** writes to device files *)
  pc_out : list (list Z);                (** bytes written to the PC, per write *)
  pc_script : list wres;                 (** results of the next writes; then all succeed *)
  sql_log : list (string * Z);           (** [eng_sql_string2int_set] *)
  lib : libs;
  heap : nat -> Z;                       (** contents of fresh memory from [malloc] *)
  (** globals of eng_diag.c, adc_calibration.c *)
  g_reset : Z; g_assert_cmd : Z; g_is_data : Z; g_index : Z;
  cmd_type : Z; eq_or_tun_type : Z; eq_mode_sel_type : Z;
  s_cmd_index : Z; s_cp_ap_proc : Z; s_cur_filepos : Z;
  g_ap_cali_flag : Z; vbus_charger_disconnect : Z;
}.

(** ** The monad *)

Definition M (A : Type) : Type := world -> option (A * world).

#[export] Instance M_ret : MRet M := fun A a w => Some (a, w).
#[export] Instance M_bind : MBind M := fun A B f m w => match m w with Some (a, w) => f a w | None => None end.

Definition undefined {A} : M A := fun _ => None.
Definition gets {A} (f : world -> A) : M A := fun w => Some (f w, w).
Definition modify (f : world -> world) : M unit := fun w => Some (tt, f w).

(** A checked access. *)
Definition lift {A} (o : option A) : M A := fun w => match o with Some a => Some (a, w) | None => None end.

(** ** Updates *)

Definition set_files (f : gmap string file) (w : world) : world :=
  World f (props w) (props_set w) (sys_log w) (sys_rc w) (dev_log w) (pc_out w) (pc_script w) (sql_log w) (lib w) (heap w)
    (g_reset w) (g_assert_cmd w) (g_is_data w) (g_index w) (cmd_type w) (eq_or_tun_type w) (eq_mode_sel_type w)
    (s_cmd_index w) (s_cp_ap_proc w) (s_cur_filepos w) (g_ap_cali_flag w) (vbus_charger_disconnect w).
Definition add_prop (k : string) (v : list Z) (w : world) : world :=
  World (files w) (<[k := v]> (props w)) (props_set w ++ [(k, v)]) (sys_log w) (sys_rc w) (dev_log w) (pc_out w) (pc_script w)
    (sql_log w) (lib w) (heap w)
    (g_reset w) (g_assert_cmd w) (g_is_data w) (g_index w) (cmd_type w) (eq_or_tun_type w) (eq_mode_sel_type w)
    (s_cmd_index w) (s_cp_ap_proc w) (s_cur_filepos w) (g_ap_cali_flag w) (vbus_charger_disconnect w).
Definition set_sys (l : list (list Z)) (rc : list bool) (w : world) : world :=
  World (files w) (props w) (props_set w) l rc (dev_log w) (pc_out w) (pc_script w) (sql_log w) (lib w) (heap w)
    (g_reset w) (g_assert_cmd w) (g_is_data w) (g_index w) (cmd_type w) (eq_or_tun_type w) (eq_mode_sel_type w)
    (s_cmd_index w) (s_cp_ap_proc w) (s_cur_filepos w) (g_ap_cali_flag w) (vbus_charger_disconnect w).
Definition add_dev (p : string) (d : list Z) (w : world) : world :=
  World (files w) (props w) (props_set w) (sys_log w) (sys_rc w) (dev_log w ++ [(p, d)]) (pc_out w) (pc_script w) (sql_log w)
    (lib w) (heap w)
    (g_reset w) (g_assert_cmd w) (g_is_data w) (g_index w) (cmd_type w) (eq_or_tun_type w) (eq_mode_sel_type w)
    (s_cmd_index w) (s_cp_ap_proc w) (s_cur_filepos w) (g_ap_cali_flag w) (vbus_charger_disconnect w).
Definition set_pc (out : list (list Z)) (sc : list wres) (w : world) : world :=
  World (files w) (props w) (props_set w) (sys_log w) (sys_rc w) (dev_log w) out sc (sql_log w) (lib w) (heap w)
    (g_reset w) (g_assert_cmd w) (g_is_data w) (g_index w) (cmd_type w) (eq_or_tun_type w) (eq_mode_sel_type w)
    (s_cmd_index w) (s_cp_ap_proc w) (s_cur_filepos w) (g_ap_cali_flag w) (vbus_charger_disconnect w).
Definition add_sql (k : string) (v : Z) (w : world) : world :=
  World (files w) (props w) (props_set w) (sys_log w) (sys_rc w) (dev_log w) (pc_out w) (pc_script w) (sql_log w ++ [(k, v)])
    (lib w) (heap w)
    (g_reset w) (g_assert_cmd w) (g_is_data w) (g_index w) (cmd_type w) (eq_or_tun_type w) (eq_mode_sel_type w)
    (s_cmd_index w) (s_cp_ap_proc w) (s_cur_filepos w) (g_ap_cali_flag w) (vbus_charger_disconnect w).
Definition set_reset (z : Z) (w : world) : world :=
  World (files w) (props w) (props_set w) (sys_log w) (sys_rc w) (dev_log w) (pc_out w) (pc_script w) (sql_log w) (lib w) (heap w)
    z (g_assert_cmd w) (g_is_data w) (g_index w) (cmd_type w) (eq_or_tun_type w) (eq_mode_sel_type w)
    (s_cmd_index w) (s_cp_ap_proc w) (s_cur_filepos w) (g_ap_cali_flag w) (vbus_charger_disconnect w).
Definition set_assert (z : Z) (w : world) : world :=
  World (files w) (props w) (props_set w) (sys_log w) (sys_rc w) (dev_log w) (pc_out w) (pc_script w) (sql_log w) (lib w) (heap w)
    (g_reset w) z (g_is_data w) (g_index w) (cmd_type w) (eq_or_tun_type w) (eq_mode_sel_type w)
    (s_cmd_index w) (s_cp_ap_proc w) (s_cur_filepos w) (g_ap_cali_flag w) (vbus_charger_disconnect w).
(** The audio globals: index, command, kind, selector. *)
Definition set_audio (i c e s : Z) (w : world) : world :=
  World (files w) (props w) (props_set w) (sys_log w) (sys_rc w) (dev_log w) (pc_out w) (pc_script w) (sql_log w) (lib w) (heap w)
    (g_reset w) (g_assert_cmd w) (g_is_data w) i c e s
    (s_cmd_index w) (s_cp_ap_proc w) (s_cur_filepos w) (g_ap_cali_flag w) (vbus_charger_disconnect w).
Definition set_cmd_index (z : Z) (w : world) : world :=
  World (files w) (props w) (props_set w) (sys_log w) (sys_rc w) (dev_log w) (pc_out w) (pc_script w) (sql_log w) (lib w) (heap w)
    (g_reset w) (g_assert_cmd w) (g_is_data w) (g_index w) (cmd_type w) (eq_or_tun_type w) (eq_mode_sel_type w)
    z (s_cp_ap_proc w) (s_cur_filepos w) (g_ap_cali_flag w) (vbus_charger_disconnect w).
Definition set_cp_ap (z : Z) (w : world) : world :=
  World (files w) (props w) (props_set w) (sys_log w) (sys_rc w) (dev_log w) (pc_out w) (pc_script w) (sql_log w) (lib w) (heap w)
    (g_reset w) (g_assert_cmd w) (g_is_data w) (g_index w) (cmd_type w) (eq_or_tun_type w) (eq_mode_sel_type w)
    (s_cmd_index w) z (s_cur_filepos w) (g_ap_cali_flag w) (vbus_charger_disconnect w).
Definition set_filepos (z : Z) (w : world) : world :=
  World (files w) (props w) (props_set w) (sys_log w) (sys_rc w) (dev_log w) (pc_out w) (pc_script w) (sql_log w) (lib w) (heap w)
    (g_reset w) (g_assert_cmd w) (g_is_data w) (g_index w) (cmd_type w) (eq_or_tun_type w) (eq_mode_sel_type w)
    (s_cmd_index w) (s_cp_ap_proc w) z (g_ap_cali_flag w) (vbus_charger_disconnect w).
Definition set_vbus (z : Z) (w : world) : world :=
  World (files w) (props w) (props_set w) (sys_log w) (sys_rc w) (dev_log w) (pc_out w) (pc_script w) (sql_log w) (lib w) (heap w)
    (g_reset w) (g_assert_cmd w) (g_is_data w) (g_index w) (cmd_type w) (eq_or_tun_type w) (eq_mode_sel_type w)
    (s_cmd_index w) (s_cp_ap_proc w) (s_cur_filepos w) (g_ap_cali_flag w) z.
(** ** System calls *)

(** Open for reading; the contents, and whether reads succeed. *)
Definition open_read (path : string) : M (option file) := gets (fun w => files w !! path).

(** [open] with O_WRONLY or O_RDWR and without O_CREAT. *)
Definition open_write (path : string) : M (option file) :=
  gets (fun w => match files w !! path with Some f => if f_wopen f then Some f else None | None => None end).

(** [read] of at most [n] bytes from the start. *)
Definition read_file (f : file) (n : nat) : Z * list Z :=
  if f_ok f then let d := take n (f_data f) in (Z.of_nat (length d), d) else (-1, []).

(** Contents after [write] of [d] at [pos]. *)
Definition write_at (old : list Z) (pos : nat) (d : list Z) : list Z :=
  take pos old ++ replicate (pos - length old) 0 ++ d ++ drop (pos + length d) old.

(** [write] at [pos] to an open file. *)
Definition write_file (path : string) (pos : nat) (d : list Z) : M Z := fun w =>
  match files w !! path with
  | Some f =>
      if f_ok f then
        Some (Z.of_nat (length d),
              if f_reg f
              then set_files (<[path := File (write_at (f_data f) pos d) true (f_wopen f) true]> (files w)) w
              else add_dev path d w)
      else Some (-1, w)
  | None => Some (-1, w)
  end.

(** [open] with O_CREAT|O_TRUNC: fails for a file that is not writable. *)
Definition creat_trunc (path : string) : M bool := fun w =>
  match files w !! path with
  | Some f => if f_wopen f then Some (true, set_files (<[path := File [] true true (f_ok f)]> (files w)) w) else Some (false, w)
  | None => Some (true, set_files (<[path := File [] true true true]> (files w)) w)
  end.

Definition remove_file (path : string) : M unit := modify (fun w => set_files (delete path (files w)) w).
Definition access_ok (path : string) : M bool := gets (fun w => bool_decide (is_Some (files w !! path))).

(** [property_get] with a default. *)
Definition property_get (k : string) (dflt : list Z) : M (list Z) := gets (fun w => default dflt (props w !! k)).
Definition property_set (k : string) (v : list Z) : M unit := modify (add_prop k v).

(** [system]: does the command exit with status 0? *)
Definition system (cmd : list Z) : M bool := fun w =>
  Some (match sys_rc w with b :: _ => b | [] => true end, set_sys (sys_log w ++ [cmd]) (tail (sys_rc w)) w).

(** [popen] for reading. *)
Definition popen (cmd : list Z) : M (option (list Z)) := fun w =>
  Some (popen_out (lib w) cmd, set_sys (sys_log w ++ [cmd]) (sys_rc w) w).

(** One [write] to the serial device of the PC. *)
Definition pc_write (buf : list Z) : M wres := fun w =>
  match pc_script w with
  | [] => Some (WOk (Z.of_nat (length buf)), set_pc (pc_out w ++ [buf]) [] w)
  | WOk n :: sc => Some (WOk n, set_pc (pc_out w ++ [take (Z.to_nat n) buf]) sc w)
  | r :: sc => Some (r, set_pc (pc_out w) sc w)
  end.

(** [malloc] never fails here; its memory is not initialised. *)
Definition malloc (n : nat) : M (list Z) := gets (fun w => map (heap w) (seq 0 n)).

(** Overwriting part of a buffer. *)
Definition poke (m : list Z) (off : nat) (d : list Z) : M (list Z) := lift (mem_write m (Z.of_nat off) d).
Definition peek (m : list Z) (off len : nat) : M (list Z) := lift (mem_read m (Z.of_nat off) (Z.of_nat len)).

(** Parts of the state that most handlers leave alone. *)
Definition same_env (w w1 : world) : Prop :=
  g_ap_cali_flag w1 = g_ap_cali_flag w /\ s_cp_ap_proc w1 = s_cp_ap_proc w /\
  pc_out w1 = pc_out w /\ pc_script w1 = pc_script w.

#[export] Instance same_env_preorder : PreOrder same_env.
Proof. split; [done|]. unfold same_env. intros w w1 w2 H1 H2. destruct_and!. split_and!; congruence. Qed.

(** Case analysis of a run. *)
Lemma bind_run {A B} (m : M A) (f : A -> M B) w :
  (m ≫= f) w = match m w with Some (a, w') => f a w' | None => None end.
Proof. done. Qed.

(** Reading and overwriting a part of a buffer that is given by its pieces. *)
Lemma poke_at (a x b y : list Z) off w :
  off = length a -> length x = length y -> poke (a ++ x ++ b) off y w = Some (a ++ y ++ b, w).
Proof.
  intros -> Hl. unfold poke, lift. rewrite mem_write_nat by (rewrite !length_app; lia).
  unfold splice. rewrite (take_app_exact a) by done. rewrite <- drop_drop, (drop_app_exact a) by done.
  by rewrite (drop_app_exact x) by done.
Qed.

Lemma peek_at (a x b : list Z) off len w :
  off = length a -> len = length x -> peek (a ++ x ++ b) off len w = Some (x, w).
Proof.
  intros -> ->. unfold peek, lift. rewrite mem_read_nat by (rewrite !length_app; lia).
  by rewrite (drop_app_exact a), (take_app_exact x) by done.
Qed.

Lemma mret_run {A} (a : A) w : (mret a : M A) w = Some (a, w).
Proof. done. Qed.

Lemma ld16_at (a b : list Z) v off : off = length a -> ld16 (a ++ st16 v ++ b) off = u16 v.
Proof.
  intros ->. rewrite <- (ld16_st16 v). unfold ld16. rewrite !(lookup_total_app_r a) by lia.
  rewrite Nat.sub_diag. replace (length a + 1 - length a)%nat with 1%nat by lia.
  by rewrite !(lookup_total_app_l (st16 v)) by (cbn; lia).
Qed.

Lemma ld32_at (a b : list Z) v off : off = length a -> ld32 (a ++ st32 v ++ b) off = u32 v.
Proof.
  intros ->. rewrite <- (ld32_st32 v). rewrite ld32_app_r by lia. rewrite Nat.sub_diag. by rewrite ld32_app_l.
Qed.

(** Steps of a run that are determined. *)
Create Rewrite HintDb run.
#[export] Hint Rewrite @bind_run @mret_run : run.

(** A system with the given files, for examples. *)
Definition demo_libs : libs := Libs (0, []) (0, []) 0 0 0 None (fun _ => None) 4 [].
Definition init_world (fs : gmap string file) : world :=
  World fs ∅ [] [] [] [] [] [] [] demo_libs (fun _ => 0xAA)
    0 0 0 0 0 0 0 (-1) 0 0 1 0.
