(* ===== verification/EngCmd.v ===== *)
(** * AT commands of the engineering service (apps/engmode/eng_cmd4linuxhdlr.c)
    and the address files (apps/engmode/eng_btwifiaddr.c)

    The table of commands that the application processor handles itself, the
    look-up of a command line in it, and the handlers that work on files: the
    Bluetooth and WLAN addresses, key presses, the charger, temperatures.  The
    handlers that need floating point, the database, threads or the engineering
    libraries are a parameter. *)

From S2P Require Import Prelude EngFrame EngText EngSys.

(** ** The table *)

Inductive eng_cmd_type := CMD_INVALID_TYPE | CMD_TO_AP | CMD_TO_APCP.

Record eng_linuxcmd_str := LinuxCmd { l_type : eng_cmd_type; l_name : string }.

Definition eng_linuxcmd : list eng_linuxcmd_str := [
  LinuxCmd CMD_TO_AP "AT+SENDKEY"; LinuxCmd CMD_TO_AP "AT+GETICH?"; LinuxCmd CMD_TO_AP "AT+ETSRESET";
  LinuxCmd CMD_TO_AP "AT+RPOWERON"; LinuxCmd CMD_TO_AP "AT+GETVBAT"; LinuxCmd CMD_TO_AP "AT+STOPCHG";
  LinuxCmd CMD_TO_AP "AT+TESTMMI"; LinuxCmd CMD_TO_AP "AT+BTTESTMODE"; LinuxCmd CMD_TO_AP "AT+GETBTADDR";
  LinuxCmd CMD_TO_AP "AT+SETBTADDR"; LinuxCmd CMD_TO_AP "AT+GSNR"; LinuxCmd CMD_TO_AP "AT+GSNW";
  LinuxCmd CMD_TO_AP "AT+GETWIFIADDR"; LinuxCmd CMD_TO_AP "AT+SETWIFIADDR"; LinuxCmd CMD_TO_AP "AT+ETSCHECKRESET";
  LinuxCmd CMD_TO_AP "AT+SIMCHK"; LinuxCmd CMD_TO_AP "AT+FACTORYMODE"; LinuxCmd CMD_TO_APCP "AT+SYSSLEEP";
  LinuxCmd CMD_TO_AP "AT+CHARGERTEST"; LinuxCmd CMD_TO_AP "AT+SPBTTEST"; LinuxCmd CMD_TO_AP "AT+SPBLETEST";
  LinuxCmd CMD_TO_AP "AT+SPWIFITEST"; LinuxCmd CMD_TO_AP "AT+SPGPSTEST"; LinuxCmd CMD_TO_AP "+SPBTWIFICALI";
  LinuxCmd CMD_TO_AP "AT+BATTTEST"; LinuxCmd CMD_TO_AP "AT+TEMPTEST"; LinuxCmd CMD_TO_AP "AT+RTCCTEST" ].

Fixpoint eng_cmdstartwith (line prefix : list Z) : bool :=
  match line, prefix with
  | _, [] => true
  | [], _ :: _ => false
  | a :: line, b :: prefix => (a =? b) && eng_cmdstartwith line prefix
  end.

(** Temperature requests that are left to the modem. *)
Definition temp_to_cp (buf : list Z) : bool :=
  strcasestr buf (bs "AT+TEMPTEST") &&
  (strcasestr buf (bs "AT+TEMPTEST=1,0,1") || strcasestr buf (bs "AT+TEMPTEST=1,1,1")
   || strcasestr buf (bs "AT+TEMPTEST=1,0,4") || strcasestr buf (bs "AT+TEMPTEST=1,1,4")).

Fixpoint at2linux_loop (tab : list eng_linuxcmd_str) (i : Z) (buf : list Z) : Z :=
  match tab with
  | [] => -1
  | e :: tab =>
      if strcasestr buf (bs (l_name e)) then if temp_to_cp buf then -1 else i
      else at2linux_loop tab (i + 1) buf
  end.

Definition eng_at2linux (buf : list Z) : Z := at2linux_loop eng_linuxcmd 0 buf.

(** [NUM_ELEMS] is unsigned, so a negative [cmd] fails the comparison; [cmd]
    equal to the number of entries passes it and reads behind the table. *)
Definition eng_cmd_get_type (cmd : Z) : option eng_cmd_type :=
  if u32 cmd <=? Z.of_nat (length eng_linuxcmd)
  then l_type <$> eng_linuxcmd !! Z.to_nat cmd else Some CMD_INVALID_TYPE.

(** ** Bluetooth and WLAN addresses *)

Definition MAC_ERROR_EX : list Z := bs ":::::".
Definition MAC_ERROR : list Z := bs "FF:FF:FF:FF:FF:FF".
Definition WIFI_MAC_FILE : string := "/productinfo/wifimac.txt".
Definition WIFI_ROOT_MAC_FILE : string := "/data/misc/wifi/wifimac.txt".
Definition BT_MAC_FILE : string := "/productinfo/btmac.txt".
Definition BT_ROOT_MAC_FILE : string := "/data/misc/bluedroid/btmac.txt".
Definition MAC_RAND_FILE : string := "/productinfo/rand_mac.txt".

Inductive MacType := ENG_BT_MAC | ENG_WIFI_MAC.

(** A string of at most 31 characters fits into the callers' arrays. *)
Definition strcpy32 (s : list Z) : M (list Z) := if (length s <? 32)%nat then mret s else undefined.

Definition mac_bad (mac : list Z) : bool :=
  contains MAC_ERROR mac || contains MAC_ERROR_EX mac || (length mac =? 0)%nat.

(** "00:..." from two random numbers. *)
Definition rand_mac (i j : Z) : list Z :=
  bs "00:" ++ fmt_02x ((i .>> 8) .& 0xFF) ++ bs ":" ++ fmt_02x ((i .>> 16) .& 0xFF) ++ bs ":" ++
  fmt_02x (j .& 0xFF) ++ bs ":" ++ fmt_02x ((j .>> 8) .& 0xFF) ++ bs ":" ++ fmt_02x ((j .>> 16) .& 0xFF).

(** The addresses kept in [MAC_RAND_FILE], "bt;wifi", if it holds any. *)
Definition kept_macs (f : option file) : option (list Z * list Z) :=
  match f with
  | Some f =>
      let '(ret, d) := read_file f 79 in
      if 0 <? ret then
        match cstr (d ++ [0]) with
        | Some s => match index_of 59 s with Some i => Some (take i s, drop (S i) s) | None => None end
        | None => None
        end
      else None
  | None => None
  end.

(** Result: the contents of [btmac] and [wifimac]. *)
Definition mac_rand (btmac wifimac : list Z) : M (list Z * list Z) :=
  f ← open_write MAC_RAND_FILE;
  match kept_macs f with
  | Some (b, wf) =>
      wifimac ← (if mac_bad wifimac then strcpy32 wf else mret wifimac);
      btmac ← (if mac_bad btmac then strcpy32 b else mret btmac);
      mret (btmac, wifimac)
  | None =>
      r ← gets (fun w => rand_vals (lib w));
      mret (rand_mac (r !!! 0%nat) (r !!! 1%nat), rand_mac (r !!! 2%nat) (r !!! 3%nat))
  end.

Definition write_mac2file (wifimac btmac : list Z) : M Z :=
  ok ← creat_trunc WIFI_MAC_FILE;
  if (ok : bool) then
    _ ← write_file WIFI_MAC_FILE 0 wifimac;
    ok ← creat_trunc BT_MAC_FILE;
    if (ok : bool) then
      ret ← write_file BT_MAC_FILE 0 btmac;
      there ← access_ok BT_ROOT_MAC_FILE;
      _ ← (if (there : bool) then remove_file BT_ROOT_MAC_FILE else mret tt);
      mret ret
    else mret (-1)
  else mret (-1).

(** [mac] is the contents of the caller's array; the result is the return
    value and the string in it.  A failing read stores a NUL in front of it. *)
Definition eng_btwifimac_read (mac : list Z) (type : MacType) : M (Z * list Z) :=
  let '(path, root) := match type with
                       | ENG_WIFI_MAC => (WIFI_MAC_FILE, WIFI_ROOT_MAC_FILE)
                       | ENG_BT_MAC => (BT_MAC_FILE, BT_ROOT_MAC_FILE)
                       end in
  there ← access_ok path;
  f ← open_read (if (there : bool) then path else root);
  match f with
  | Some f =>
      let '(rcount, d) := read_file f 31 in
      if rcount <? 0 then undefined
      else s ← lift (cstr (d ++ [0])); mret (if rcount <=? 0 then -1 else 0, s)
  | None => mret (-1, mac)
  end.

Definition eng_btwifimac_write (bt_mac wifi_mac : option (list Z)) : M Z :=
  '(bt, wf) ←
    match bt_mac, wifi_mac with
    | Some b, Some wf => mret (b, wf)
    | _, _ =>
        '(rb, rw) ← mac_rand [] [];
        b ← match bt_mac with Some b => mret b | None => '(_, b) ← eng_btwifimac_read rb ENG_BT_MAC; mret b end;
        wf ← match wifi_mac with Some wf => mret wf | None => '(_, wf) ← eng_btwifimac_read rw ENG_WIFI_MAC; mret wf end;
        mret (b, wf)
    end;
  ret ← write_mac2file wf bt;
  _ ← (if 0 <? ret then
         _ ← property_set "sys.mac.wifi" wf;
         _ ← property_set "sys.mac.bluetooth" bt;
         _ ← property_set "sys.bt.bdaddr_path" (bs BT_MAC_FILE);
         property_set "ctl.start" (bs "set_mac")
       else mret tt);
  mret ret.

(** ** Handlers: result code and the text in [rsp] *)

Definition ENG_STREND : list Z := [13; 10].
Definition OK_END : list Z := bs "OK" ++ ENG_STREND.
Definition ERROR_END : list Z := bs "ERROR" ++ ENG_STREND.

Definition ENG_KEYPAD_PATH : string := "/sys/devices/platform/sprd-keypad/emulate".
Definition ENG_STOPCHG : string := "/sys/class/power_supply/battery/stop_charge".
Definition ENG_CURRENT : string := "/sys/class/power_supply/battery/real_time_current".
Definition ENG_CHARGERTEST_FILE : string := "/productinfo/chargertest.file".
Definition ENG_WPATEMP : string := "/sys/devices/platform/sprd_temprf/temprf_wpa_temp".
Definition ENG_DCXOTEMP : string := "/sys/devices/platform/sprd_temprf/temprf_dcxo_temp".
Definition ENG_BATTTEMP : string := "/sys/class/power_supply/battery/temp".
Definition ENG_BATTTEMP_ADC : string := "/sys/class/power_supply/battery/temp_adc".

Abbreviation reply := (Z * list Z)%type.

Definition eng_linuxcmd_keypad (req : list Z) : M reply :=
  match index_of 61 req with
  | None => mret (-1, ERROR_END)
  | Some i =>
      f ← open_write ENG_KEYPAD_PATH;
      _ ← match f with Some _ => _ ← write_file ENG_KEYPAD_PATH 0 (drop (S i) req); mret tt | None => mret tt end;
      mret (0, OK_END)
  end.

Definition eng_linuxcmd_stopchg (req : list Z) : M reply :=
  f ← open_write ENG_STOPCHG;
  match f with
  | Some _ => ret ← write_file ENG_STOPCHG 0 (bs "1"); mret (0, if ret <? 0 then ERROR_END else OK_END)
  | None => mret (0, ERROR_END)
  end.

Definition eng_linuxcmd_bttest (req : list Z) : M reply :=
  _ ← system (bs "chown system system /dev/ttyS0");
  _ ← system (bs "bccmd -t bcsp -d /dev/ttyS0 psload -r /etc/ps.psr");
  _ ← system (bs "hciattach -s 921600 /dev/ttyS0 bcsp 921600");
  _ ← system (bs "hciconfig hci0 up");
  _ ← system (bs "hcitool cmd 0x03 0x0005 0x02 0x00 0x02");
  _ ← system (bs "hcitool cmd 0x03 0x001A 0x03");
  _ ← system (bs "hcitool cmd 0x06 0x0003");
  mret (0, OK_END).

(** The text between the first two quotes of a request, copied to an array of
    64 bytes; [None] when a quote is missing. *)
Definition quoted (req : list Z) : option (list Z) :=
  i ← index_of 34 req;
  j ← index_of 34 (drop (S i) req);
  Some (take j (drop (S i) req)).

Definition copy64 (s : list Z) : M (list Z) := if (length s <? 64)%nat then mret s else undefined.

Definition eng_linuxcmd_setbtaddr (req : list Z) : M reply :=
  match quoted req with
  | None => mret (-1, [])
  | Some a =>
      address ← copy64 a;
      '(_, wifiaddr) ← eng_btwifimac_read [] ENG_WIFI_MAC;
      _ ← eng_btwifimac_write (Some address) (Some wifiaddr);
      mret (0, OK_END)
  end.

Definition eng_linuxcmd_setwifiaddr (req : list Z) : M reply :=
  match quoted req with
  | None => mret (-1, [])
  | Some a =>
      address ← copy64 a;
      '(_, btaddr) ← eng_btwifimac_read [] ENG_BT_MAC;
      _ ← eng_btwifimac_write (Some btaddr) (Some address);
      mret (0, OK_END)
  end.

Definition get_addr (type : MacType) : M reply :=
  '(ret, a) ← eng_btwifimac_read [] type;
  mret (0, if ret <? 0 then ERROR_END else a ++ ENG_STREND ++ OK_END).
Definition eng_linuxcmd_getbtaddr (req : list Z) : M reply := get_addr ENG_BT_MAC.
Definition eng_linuxcmd_getwifiaddr (req : list Z) : M reply := get_addr ENG_WIFI_MAC.

(** A number in a file, read into an array of 16 bytes. *)
Definition read_number (path : string) : M (option Z) :=
  f ← open_read path;
  match f with
  | Some f =>
      let '(len, d) := read_file f 16 in
      if 0 <? len then s ← lift (cstr (d ++ replicate (16 - length d) 0)); mret (Some (atoi s)) else mret None
  | None => mret None
  end.

Definition eng_linuxcmd_getich (req : list Z) : M reply :=
  r ← read_number ENG_CURRENT;
  mret (0, match r with Some c => fmt_d c ++ bs "mA" ++ ENG_STREND ++ OK_END | None => ERROR_END end).

Definition eng_linuxcmd_chargertest (req : list Z) : M reply :=
  match index_of 61 req with
  | None => mret (0, ERROR_END)
  | Some i =>
      let status := atoi (drop (S i) req) in
      if status =? 1 then _ ← creat_trunc ENG_CHARGERTEST_FILE; mret (0, OK_END)
      else if status =? 0 then
        there ← access_ok ENG_CHARGERTEST_FILE;
        if (there : bool) then _ ← remove_file ENG_CHARGERTEST_FILE; mret (0, OK_END) else mret (0, ERROR_END)
      else mret (0, ERROR_END)
  end.

(** The character behind the next [c]; a missing one is a null pointer plus 1. *)
Definition param_after (c : Z) (req : list Z) : M (Z * list Z) :=
  match index_of c req with
  | Some i => let r := drop (S i) req in mret (default 0 (head r), r)
  | None => undefined
  end.

Definition temp_reply (path : string) : M reply :=
  r ← read_number path;
  mret (0, match r with Some t => bs "+TEMPTEST:1," ++ fmt_d t | None => bs "+CME Error:NG" end).

Definition eng_linuxcmd_temptest (req : list Z) : M reply :=
  '(p1, req) ← param_after 61 req;
  '(p2, req) ← param_after 44 req;
  '(p3, req) ← param_after 44 req;
  if (p1 =? 49) && (p2 =? 48) && (p3 =? 49) then temp_reply ENG_WPATEMP
  else if (p1 =? 49) && (p2 =? 49) && (p3 =? 49) then temp_reply ENG_DCXOTEMP
  else if (p1 =? 49) && (p2 =? 48) then temp_reply ENG_BATTTEMP
  else if (p1 =? 49) && (p2 =? 49) then temp_reply ENG_BATTTEMP_ADC
  else mret (0, []).

(** [eng_ascii2hex] overwrites its input with the values of the digits; an odd
    number of digits takes the next character of the input as it is. *)
Definition hex_value (c : Z) : option Z :=
  if isdigit c then Some (c - 48)
  else if (65 <=? c) && (c <=? 70) then Some (c - 55)
  else if (97 <=? c) && (c <=? 102) then Some (c - 87) else None.

Fixpoint hex_prefix (s : list Z) : list Z :=
  match s with c :: s => match hex_value c with Some v => v :: hex_prefix s | None => [] end | [] => [] end.

Fixpoint pair_up (d : list Z) (next : Z) : list Z :=
  match d with
  | a :: b :: d => u8 ((a .<< 4) .| b) :: pair_up d next
  | [a] => [u8 ((a .<< 4) .| next)]
  | [] => []
  end.

Definition eng_ascii2hex (inputdata : list Z) (inputdatasize : nat) : list Z :=
  let d := hex_prefix (take inputdatasize inputdata) in
  pair_up d (inputdata !!! length d).

(** ** Dispatch *)

Section hdlr.
  (** The handlers that are not modelled, by table index. *)
  Variable other : nat -> list Z -> M reply.

Definition cmd_hdlr (i : nat) : list Z -> M reply :=
  match i with
  | 0%nat => eng_linuxcmd_keypad
  | 1%nat => eng_linuxcmd_getich
  | 5%nat => eng_linuxcmd_stopchg
  | 7%nat => eng_linuxcmd_bttest
  | 8%nat => eng_linuxcmd_getbtaddr
  | 9%nat => eng_linuxcmd_setbtaddr
  | 12%nat => eng_linuxcmd_getwifiaddr
  | 13%nat => eng_linuxcmd_setwifiaddr
  | 18%nat => eng_linuxcmd_chargertest
  | 25%nat => eng_linuxcmd_temptest
  | i => other i
  end.

(** A negative index reads in front of the table. *)
Definition eng_linuxcmd_hdlr (cmd : Z) (req : list Z) : M reply :=
  if Z.of_nat (length eng_linuxcmd) <=? cmd then mret (-1, [])
  else if cmd <? 0 then undefined else cmd_hdlr (Z.to_nat cmd) req.
End hdlr.

(** ** Lemmas *)

(** The four address files, where they exist, can be read and written. *)
Definition addr_files_ok (w : world) : Prop :=
  forall p f, p ∈ [WIFI_MAC_FILE; WIFI_ROOT_MAC_FILE; BT_MAC_FILE; BT_ROOT_MAC_FILE] ->
    files w !! p = Some f -> f_wopen f = true /\ f_ok f = true.

Lemma cstr_at_nul s t : Forall (fun c => c <> 0) s -> cstr (s ++ 0 :: t) = Some s.
Proof.
  induction 1 as [|c s Hc _ IH]; [done|]. cbn. rewrite IH. by destruct (Z.eqb_spec c 0).
Qed.

Lemma cstr_spec m s : cstr m = Some s -> Forall (fun c => c <> 0) s /\ (length s < length m)%nat.
Proof.
  revert s. induction m as [|c m IH]; intros s; cbn; [done|]. destruct (Z.eqb_spec c 0) as [->|Hc].
  - intros [= <-]. split; [constructor|cbn; lia].
  - destruct (cstr m) as [t|]; cbn; [|done]. intros [= <-]. destruct (IH t eq_refl). split; [by constructor|cbn; lia].
Qed.

Lemma cstr_total m : exists s, cstr (m ++ [0]) = Some s.
Proof.
  induction m as [|c m [s IH]]; [by exists []|]. cbn. destruct (c =? 0); [by eexists|]. rewrite IH. by eexists.
Qed.

Lemma creat_spec path w :
  (forall f, files w !! path = Some f -> f_wopen f = true /\ f_ok f = true) ->
  creat_trunc path w = Some (true, set_files (<[path := File [] true true true]> (files w)) w).
Proof.
  unfold creat_trunc. intros H. destruct (files w !! path) as [f|] eqn:E; [|done].
  destruct (H f eq_refl) as [-> ->]. done.
Qed.

Lemma write_fresh path d w b :
  files w !! path = Some (File [] true b true) ->
  write_file path 0 d w =
    Some (Z.of_nat (length d), set_files (<[path := File d true b true]> (files w)) w).
Proof.
  intros E. unfold write_file. rewrite E. cbn [f_ok f_reg f_data f_wopen]. unfold write_at. cbn.
  by rewrite drop_nil, app_nil_r.
Qed.

Lemma write_mac2file_spec wf b w :
  addr_files_ok w ->
  exists w1, write_mac2file wf b w = Some (Z.of_nat (length b), w1) /\
    files w1 !! BT_MAC_FILE = Some (File b true true true) /\
    files w1 !! WIFI_MAC_FILE = Some (File wf true true true) /\
    (forall p, p ∉ [WIFI_MAC_FILE; BT_MAC_FILE; BT_ROOT_MAC_FILE] -> files w1 !! p = files w !! p) /\
    same_env w w1.
Proof.
  intros Hok. unfold write_mac2file.
  rewrite bind_run, creat_spec by (intros f Hf; apply (Hok WIFI_MAC_FILE f); [set_solver|done]).
  cbv iota beta. rewrite bind_run. erewrite write_fresh by (cbn; by rewrite lookup_insert_eq).
  rewrite bind_run, creat_spec.
  2:{ cbn. intros f. rewrite !lookup_insert_ne by done. apply (Hok BT_MAC_FILE f). set_solver. }
  cbv iota beta. rewrite bind_run. erewrite write_fresh by (cbn; by rewrite lookup_insert_eq).
  rewrite bind_run. unfold access_ok, gets. rewrite bind_run.
  case_bool_decide; cbn; (eexists; split; [done|]); cbn; (split_and!; [| | |done]).
  - rewrite lookup_delete_ne, lookup_insert_eq by done. done.
  - rewrite lookup_delete_ne, !lookup_insert_ne by done. by rewrite lookup_insert_eq.
  - intros p Hp. rewrite !not_elem_of_cons in Hp. rewrite lookup_delete_ne, !lookup_insert_ne by naive_solver. done.
  - by rewrite lookup_insert_eq.
  - rewrite !lookup_insert_ne by done. by rewrite lookup_insert_eq.
  - intros p Hp. rewrite !not_elem_of_cons in Hp. rewrite !lookup_insert_ne by naive_solver. done.
Qed.

Lemma btwifimac_write_spec b wf w :
  addr_files_ok w ->
  exists w1, eng_btwifimac_write (Some b) (Some wf) w = Some (Z.of_nat (length b), w1) /\
    files w1 !! BT_MAC_FILE = Some (File b true true true) /\
    files w1 !! WIFI_MAC_FILE = Some (File wf true true true) /\
    (forall p, p ∉ [WIFI_MAC_FILE; BT_MAC_FILE; BT_ROOT_MAC_FILE] -> files w1 !! p = files w !! p) /\
    same_env w w1.
Proof.
  intros Hok. destruct (write_mac2file_spec wf b w Hok) as (w1 & E & H1 & H2 & Hk).
  unfold eng_btwifimac_write. cbn [mret M_ret]. rewrite bind_run. cbn [mret M_ret].
  rewrite bind_run, E. rewrite bind_run. destruct (0 <? Z.of_nat (length b)); cbn.
  - eexists. split; [done|]. cbn. done.
  - eexists. split; [done|]. done.
Qed.

Lemma mac_read_spec mac t path root s w :
  (path, root) = match t with ENG_WIFI_MAC => (WIFI_MAC_FILE, WIFI_ROOT_MAC_FILE) | ENG_BT_MAC => (BT_MAC_FILE, BT_ROOT_MAC_FILE) end ->
  files w !! path = Some (File s true true true) -> s <> [] -> (length s < 32)%nat -> Forall (fun c => c <> 0) s ->
  eng_btwifimac_read mac t w = Some ((0, s), w).
Proof.
  intros Hp Hf Hs Hl Hz. unfold eng_btwifimac_read. rewrite <- Hp.
  rewrite bind_run. unfold access_ok, gets. rewrite bool_decide_true by (rewrite Hf; eauto).
  rewrite bind_run. unfold open_read, gets. rewrite Hf. cbn [read_file f_ok f_data].
  rewrite take_ge by lia. destruct (Z.ltb_spec (Z.of_nat (length s)) 0); [lia|].
  rewrite bind_run. unfold lift. rewrite cstr_at_nul by done.
  destruct (Z.leb_spec (Z.of_nat (length s)) 0); [destruct s; cbn in *; done || lia|]. done.
Qed.

Lemma mac_read_keeps mac t w r s w' :
  eng_btwifimac_read mac t w = Some ((r, s), w') -> w' = w /\ (r = 0 -> (length s < 32)%nat /\ Forall (fun c => c <> 0) s).
Proof.
  unfold eng_btwifimac_read. destruct t; rewrite bind_run; unfold access_ok, gets; rewrite bind_run; unfold open_read, gets.
  all: destruct (files w !! _) as [f|]; [|intros [= <- <- <-]; done].
  all: destruct (read_file f 31) as [n d] eqn:E; destruct (Z.ltb_spec n 0); [done|].
  all: rewrite bind_run; unfold lift; destruct (cstr (d ++ [0])) as [u|] eqn:Ec; [|done].
  all: intros [= <- <- <-]; split; [done|]; intros _; apply cstr_spec in Ec as [Hz Hl].
  all: rewrite length_app in Hl; cbn in Hl; split; [|done].
  all: unfold read_file in E; destruct (f_ok f); injection E as <- <-; [rewrite length_take in Hl|cbn in Hl]; lia.
Qed.

(** ** Properties *)

(** An address set over AT is the address read back: after AT+SETBTADDR
    with a quoted address of 1 to 31 characters AT+GETBTADDR answers it, and the
    WLAN address that was readable before is answered as before. *)
Theorem set_get_btaddr req req' a w :
  addr_files_ok w -> quoted req = Some a -> a <> [] -> (length a < 32)%nat -> Forall (fun c => c <> 0) a ->
  forall wf, eng_btwifimac_read [] ENG_WIFI_MAC w = Some ((0, wf), w) -> wf <> [] ->
  exists w1, eng_linuxcmd_setbtaddr req w = Some ((0, OK_END), w1) /\
    eng_linuxcmd_getbtaddr req' w1 = Some ((0, a ++ ENG_STREND ++ OK_END), w1) /\
    eng_linuxcmd_getwifiaddr req' w1 = Some ((0, wf ++ ENG_STREND ++ OK_END), w1).
Proof.
  intros Hok Hq Ha Hl Hz wf Hwf Hne. unfold eng_linuxcmd_setbtaddr. rewrite Hq, bind_run.
  unfold copy64. destruct (Nat.ltb_spec (length a) 64); [|lia]. cbn [mret M_ret]. rewrite bind_run, Hwf.
  destruct (btwifimac_write_spec a wf w Hok) as (w1 & E & H1 & H2 & _). rewrite bind_run, E.
  exists w1. split; [done|]. destruct (mac_read_keeps _ _ _ _ _ _ Hwf) as [_ Hw]. destruct (Hw eq_refl) as [Hwl Hwz].
  unfold eng_linuxcmd_getbtaddr, eng_linuxcmd_getwifiaddr, get_addr. rewrite !bind_run.
  erewrite (mac_read_spec _ ENG_BT_MAC) by done. erewrite (mac_read_spec _ ENG_WIFI_MAC) by done. done.
Qed.

Definition demo_world : world :=
  init_world {[ WIFI_MAC_FILE := File (bs "40:45:da:01:02:03") true true true ]}.

Lemma set_get_btaddr_witness :
  let req := bs "AT+SETBTADDR=" ++ [34] ++ bs "40:45:da:0a:0b:0c" ++ [34] in
  exists w1, eng_linuxcmd_setbtaddr req demo_world = Some ((0, OK_END), w1) /\
    eng_linuxcmd_getbtaddr [] w1 = Some ((0, bs "40:45:da:0a:0b:0c" ++ ENG_STREND ++ OK_END), w1) /\
    eng_linuxcmd_getwifiaddr [] w1 = Some ((0, bs "40:45:da:01:02:03" ++ ENG_STREND ++ OK_END), w1).
Proof.
  apply (set_get_btaddr _ [] (bs "40:45:da:0a:0b:0c") demo_world); try done.
  - intros p f Hp Hf. unfold demo_world, init_world in Hf. cbn [files] in Hf. apply lookup_singleton_Some in Hf as [_ <-]. done.
  - vm_compute. lia.
  - apply (bool_decide_unpack _). vm_compute. exact I.
Defined.

(** The look-up in the command table is right for the commands themselves:
    the name of every entry selects this entry and no earlier one, and the
    four temperature requests of the modem select none. *)
Theorem at2linux_table :
  (forall i e, eng_linuxcmd !! i = Some e -> eng_at2linux (bs (l_name e)) = Z.of_nat i /\
     eng_cmd_get_type (Z.of_nat i) = Some (l_type e)) /\
  Forall (fun s => eng_at2linux (bs s) = -1)
    ["AT+TEMPTEST=1,0,1"; "at+temptest=1,1,1"; "AT+TEMPTEST=1,0,4"; "AT+TEMPTEST=1,1,4"]%string.
Proof.
  split; [|repeat constructor].
  intros i e H. do 27 (destruct i as [|i]; [injection H as <-; split; vm_compute; reflexivity|]). done.
Qed.
