(* ===== verification/EngAdc.v ===== *)
(** * ADC and battery calibration (apps/engmode/adc_calibration.c)

    Requests of the PC that calibrate the converter of the battery: readings of
    voltage and current, and the calibration file, a struct [CALI_INFO_DATA_T] of
    56 bytes.  The answer is the struct [MSG_AP_ADC_CNF] of 64 bytes: header,
    status and length, and the request with its 12 parameters.  Structs are
    buffers; fields are read and stored at their offsets. *)

From S2P Require Import Prelude EngFrame EngText EngSys.

Definition ADC_CHANNEL_PATH : string := "/sys/class/misc/sprd-adc/adc_channel".
Definition ADC_SCALE_PATH : string := "/sys/class/misc/sprd-adc/adc_scale".
Definition ADC_DATA_RAW_PATH : string := "/sys/class/misc/sprd-adc/adc_data_raw".
Definition BATTERY_VOL_PATH : string := "/sys/class/power_supply/battery/real_time_voltage".
Definition BATTERY_ADC_PATH : string := "/sys/class/power_supply/battery/real_time_vbat_adc".
Definition CALI_CTRL_FILE_PATH : string := "/productinfo/adc.bin".
Definition CHARGER_STOP_PATH : string := "/sys/class/power_supply/battery/stop_charge".
Definition FGU_CURRENT_ADC_FILE_PATH : string := "/sys/class/power_supply/sprdfgu/fgu_current_adc".
Definition FGU_VOL_ADC_FILE_PATH : string := "/sys/class/power_supply/sprdfgu/fgu_vol_adc".
Definition FGU_CURRENT_FILE_PATH : string := "/sys/class/power_supply/sprdfgu/fgu_current".
Definition FGU_VOL_FILE_PATH : string := "/sys/class/power_supply/sprdfgu/fgu_vol".
Definition ADC_CAL_TYPE_FILE : string := "/sys/class/power_supply/sprdfgu/fgu_cal_from_type".

Definition CALI_MAGIC : Z := 0x49424143.
Definition CALI_COMP : Z := 0x504D4F43.
Definition SIZEOF_CALI : nat := 56.
Definition SIZEOF_ADC_PARA : nat := 48.

(** ** The charger *)

(** [value] "1" stops charging, "0" starts it; [from] and [to] are the states of
    the flag. *)
Definition switch_charger (from to : Z) (value : string) : M Z :=
  v ← gets vbus_charger_disconnect;
  if v =? from then
    f ← open_write CHARGER_STOP_PATH;
    match f with
    | Some _ =>
        ret ← write_file CHARGER_STOP_PATH 0 (bs value ++ [0]);
        if ret <? 0 then mret 0 else _ ← modify (set_vbus to); mret 1
    | None => mret 0
    end
  else mret 1.

Definition disconnect_vbus_charger : M Z := switch_charger 0 1 "1".
Definition connect_vbus_charger : M Z := switch_charger 1 0 "0".

(** ** The calibration file *)

(** [read(fd, &cali_info, sizeof)] into a fresh struct. *)
Definition read_cali (f : file) : M (Z * list Z) :=
  old ← malloc SIZEOF_CALI;
  let '(ret, d) := read_file f SIZEOF_CALI in
  mret (ret, d ++ drop (length d) old).

(** Opened for reading and writing, or created for it. *)
Definition create_file (path : string) : M (option file) := fun w =>
  match files w !! path with
  | Some _ => Some (None, w)
  | None => let f := File [] true true true in Some (Some f, set_files (<[path := f]> (files w)) w)
  end.

Definition open_or_create (path : string) : M (option file) :=
  f ← open_write path;
  match f with Some f => mret (Some f) | None => create_file path end.

Definition initialize_ctrl_file : M unit :=
  f ← open_or_create CALI_CTRL_FILE_PATH;
  match f with
  | None => mret tt
  | Some f =>
      '(ret, info) ← read_cali f;
      if ret <? 0 then mret tt
      else
        info ← (if negb (ld32 info 0 =? CALI_MAGIC)
                then i ← poke (replicate SIZEOF_CALI 0xFF) 52 (st32 0); poke i 0 (st32 CALI_MAGIC)
                else mret info);
        info ← poke info 48 (st32 2);
        _ ← write_file CALI_CTRL_FILE_PATH 0 info; mret tt
  end.

(** [magic] and [cali_flag] replaced, as far as the file can be read. *)
Definition set_cali_state (magic cali_flag : Z) : M unit :=
  f ← open_write CALI_CTRL_FILE_PATH;
  match f with
  | None => mret tt
  | Some f =>
      '(ret, info) ← read_cali f;
      if ret <=? 0 then mret tt
      else
        info ← poke info 0 (st32 magic ++ st32 cali_flag);
        _ ← write_file CALI_CTRL_FILE_PATH 0 info; mret tt
  end.

Definition disable_calibration : M unit := set_cali_state CALI_MAGIC CALI_COMP.
Definition enable_calibration : M unit := set_cali_state 0xFFFFFFFF 0xFFFFFFFF.

(** [AccessADCDataFile(1, lpBuff, size)]: a file that had to be created is open
    for writing only, so that reading the old contents fails. *)
Definition AccessADCDataFile_save (lpBuff : list Z) : M Z :=
  f0 ← open_write CALI_CTRL_FILE_PATH;
  f ← open_or_create CALI_CTRL_FILE_PATH;
  match f with
  | None => mret 0
  | Some _ =>
      old ← malloc SIZEOF_CALI;
      info ← match f0 with
             | Some f => '(_, i) ← read_cali f; mret i
             | None => mret old
             end;
      info ← poke info 8 (take SIZEOF_ADC_PARA lpBuff);
      info ← poke info 0 (st32 CALI_MAGIC);
      write_file CALI_CTRL_FILE_PATH 0 info
  end.

(** [AccessADCDataFile(0, lpBuff, size)]: the result of [read] and the bytes
    stored in [lpBuff]. *)
Definition AccessADCDataFile_load (size : nat) : M (Z * option (list Z)) :=
  f ← open_write CALI_CTRL_FILE_PATH;
  match f with
  | None => mret (0, None)
  | Some f => '(ret, info) ← read_cali f; mret (ret, Some (take (min size SIZEOF_ADC_PARA) (drop 8 info)))
  end.

Definition write_adc_calibration_data (data : list Z) : M Z := AccessADCDataFile_save data.

(** The bytes stored and the returned size. *)
Definition read_adc_calibration_data (size : nat) : M (option (list Z) * Z) :=
  let size := min size 48 in
  '(ret, d) ← AccessADCDataFile_load size;
  mret (d, if 0 <? ret then Z.of_nat size else 0).

(** ** Readings *)

(** A file of up to 16 bytes read as a number; the result of [read] with it. *)
Definition read_value (conv : list Z -> Z) (path : string) : M (Z * Z) :=
  f ← open_read path;
  match f with
  | Some f =>
      let '(len, d) := read_file f 16 in
      if 0 <? len then s ← lift (cstr (d ++ replicate (16 - length d) 0)); mret (len, conv s) else mret (len, 0)
  | None => mret (0, 0)
  end.

Definition strtol0 (s : list Z) : Z := fst (strtol 0 s).

Definition get_battery_voltage : M Z := '(_, v) ← read_value atoi BATTERY_VOL_PATH; mret (u32 v).
Definition get_battery_adc_value : M Z := '(_, v) ← read_value strtol0 BATTERY_ADC_PATH; mret (u32 v).
Definition get_fgu_current_adc : M (Z * Z) := read_value strtol0 FGU_CURRENT_ADC_FILE_PATH.
Definition get_fgu_vol_adc : M (Z * Z) := read_value strtol0 FGU_VOL_ADC_FILE_PATH.
Definition get_fgu_current_real : M (Z * Z) := read_value strtol0 FGU_CURRENT_FILE_PATH.
Definition get_fgu_vol_real : M (Z * Z) := read_value strtol0 FGU_VOL_FILE_PATH.

(** Sixteen readings of the raw value; [None] stands for -1. *)
Fixpoint sum_readings (n : nat) (path : string) (acc : Z) : M (option Z) :=
  match n with
  | O => mret (Some acc)
  | S n =>
      f ← open_read path;
      match f with
      | None => mret None
      | Some f =>
          let '(len, d) := read_file f 16 in
          if len <? 0 then mret None
          else s ← lift (cstr (d ++ replicate (16 - length d) 0)); sum_readings n path (u32 (acc + u32 (atoi s)))
      end
  end.

Definition write_number (path : string) (v : Z) : M bool :=
  f ← open_write path;
  match f with
  | None => mret false
  | Some _ => ret ← write_file path 0 (fmt_d v); mret (0 <? ret)
  end.

(** The result is unsigned: -1 is 0xFFFFFFFF. *)
Definition get_other_ch_adc_value (channel scale : Z) : M Z :=
  ok ← write_number ADC_CHANNEL_PATH channel;
  if negb ok then mret (u32 (-1))
  else
    ok ← write_number ADC_SCALE_PATH scale;
    if negb ok then mret (u32 (-1))
    else
      r ← sum_readings 16 ADC_DATA_RAW_PATH 0;
      mret match r with Some v => v .>> 4 | None => u32 (-1) end.

(** ** The requests *)

Definition AP_ADC_CALIB : Z := 1.
Definition AP_ADC_LOAD : Z := 2.
Definition AP_ADC_SAVE : Z := 3.
Definition AP_GET_VOLT : Z := 4.
Definition AP_DIAG_LOOP : Z := 5.
Definition AP_GET_FGU_VOL_ADC : Z := 6.
Definition AP_GET_FGU_CURRENT_ADC : Z := 7.
Definition AP_GET_FGU_TYPE : Z := 8.
Definition AP_GET_FGU_VOL_REAL : Z := 9.
Definition AP_GET_FGU_CURRENT_REAL : Z := 10.

Definition DIAG_CMD_APCALI : Z := 0x62.
Definition DIAG_CMD_GETVOLTAGE : Z := 0x1E.
Definition DIAG_AP_CMD_ADC : Z := 1.
Definition DIAG_AP_CMD_LOOP : Z := 2.

Definition SIZEOF_ADC_CNF : nat := 64.

(** What the request in [dest] asks for ([is_adc_calibration] after its copy). *)
Definition adc_request (dest : list Z) : Z :=
  let type := dest !!! 6%nat in
  if type =? DIAG_CMD_APCALI then
    let cmd := ld16 dest 8 in
    if cmd =? DIAG_AP_CMD_ADC then
      let operate := ld32 dest 12 in
      if operate =? 0 then AP_ADC_CALIB
      else if operate =? 1 then AP_ADC_LOAD
      else if operate =? 2 then AP_ADC_SAVE
      else if operate =? 3 then AP_GET_FGU_VOL_ADC
      else if operate =? 4 then AP_GET_FGU_CURRENT_ADC
      else if operate =? 5 then AP_GET_FGU_TYPE
      else if operate =? 6 then AP_GET_FGU_VOL_REAL
      else if operate =? 7 then AP_GET_FGU_CURRENT_REAL
      else 0
    else if cmd =? DIAG_AP_CMD_LOOP then AP_DIAG_LOOP
    else 0
  else if type =? DIAG_CMD_GETVOLTAGE then AP_GET_VOLT
  else 0.

(** [dest] is the whole output buffer; the frame [src] is copied to it without
    its first flag. *)
Definition is_adc_calibration (destSize : nat) (src : list Z) (srcSize : nat) : M (Z * list Z) :=
  d ← peek src 1 (if (destSize <? srcSize)%nat then destSize else srcSize - 1);
  dest ← poke (replicate destSize 0) 0 d;
  mret (adc_request dest, dest).

Definition put_status (s : Z) (msg : list Z) : M (list Z) := poke msg 8 (st16 s).
Definition put_param (i : nat) (v : Z) (msg : list Z) : M (list Z) := poke msg (16 + 4 * i) (st32 v).

Definition ap_adc_calibration (msg : list Z) : M (list Z) :=
  let channel := s32 (ld32 msg 16 - 1) in
  msg ← put_status 0 msg;
  adc_result ← get_other_ch_adc_value channel 0;
  if 0 <=? adc_result then
    msg ← put_param 0 (adc_result .& 0xFFFF) msg;
    if negb (channel =? 5) then
      adc_result ← get_other_ch_adc_value channel 1;
      if 0 <=? adc_result then put_param 1 (adc_result .& 0xFFFF) msg else put_status 1 msg
    else mret msg
  else put_status 1 msg.

Definition ap_adc_save (params : list Z) (msg : list Z) : M (list Z) :=
  ret ← AccessADCDataFile_save params;
  put_status (if 0 <? ret then 0 else 1) msg.

Definition ap_adc_load (msg : list Z) : M (list Z) :=
  '(ret, d) ← AccessADCDataFile_load 48;
  msg ← match d with Some d => poke msg 16 d | None => mret msg end;
  put_status (if 0 <? ret then 0 else 1) msg.

Definition PRECISION_1MV : Z := 1 .<< 24.
Definition PRECISION_10MV : Z := 0.
Definition MAX_VOLTAGE : Z := 0xFFFFFF.

Fixpoint sum_voltage (n : nat) (acc : Z) : M Z :=
  match n with O => mret acc | S n => v ← get_battery_voltage; sum_voltage n (u32 (acc + v)) end.

(** The answer is the header and one word. *)
Definition ap_get_voltage (msg : list Z) : M (list Z) :=
  voltage ← sum_voltage 16 0;
  let voltage := voltage .>> 4 in
  msg ← poke msg 8 (st32 (if MAX_VOLTAGE <? voltage then PRECISION_10MV .| ((voltage / 10) .& MAX_VOLTAGE)
                          else PRECISION_1MV .| (voltage .& MAX_VOLTAGE)));
  poke msg 4 (st16 12).

(** A reading in the first parameter, or status 1. *)
Definition ap_reading (r : M (Z * Z)) (msg : list Z) : M (list Z) :=
  '(read_len, v) ← r;
  if 0 <? read_len then msg ← put_param 0 v msg; put_status 0 msg else put_status 1 msg.

Definition ap_get_fgu_vol_adc := ap_reading get_fgu_vol_adc.
Definition ap_get_fgu_current_adc := ap_reading get_fgu_current_adc.
Definition ap_get_fgu_vol_real := ap_reading get_fgu_vol_real.
Definition ap_get_fgu_current_real := ap_reading get_fgu_current_real.

(** Two characters, without room for a terminator. *)
Definition ap_get_fgu_type (msg : list Z) : M (list Z) :=
  f ← open_read ADC_CAL_TYPE_FILE;
  match f with
  | Some f =>
      let '(r_cnt, d) := read_file f 2 in
      if 0 <? r_cnt then
        s ← lift (cstr (d ++ replicate (2 - length d) 0));
        msg ← put_param 0 (u32 (atoi s)) msg; put_status 0 msg
      else put_status 1 msg
  | None => put_status 1 msg
  end.

(** The body of the [switch] of [ap_adc_process]. *)
Definition ap_adc_dispatch (adc_cmd : Z) (src msg : list Z) : M (list Z) :=
  if adc_cmd =? AP_ADC_CALIB then ap_adc_calibration msg
  else if adc_cmd =? AP_ADC_LOAD then ap_adc_load msg
  else if adc_cmd =? AP_ADC_SAVE then p ← peek src 16 48; ap_adc_save p msg
  else if adc_cmd =? AP_GET_VOLT then ap_get_voltage msg
  else if adc_cmd =? AP_GET_FGU_VOL_ADC then ap_get_fgu_vol_adc msg
  else if adc_cmd =? AP_GET_FGU_CURRENT_ADC then ap_get_fgu_current_adc msg
  else if adc_cmd =? AP_GET_FGU_TYPE then ap_get_fgu_type msg
  else if adc_cmd =? AP_GET_FGU_VOL_REAL then ap_get_fgu_vol_real msg
  else if adc_cmd =? AP_GET_FGU_CURRENT_REAL then ap_get_fgu_current_real msg
  else mret msg.

Definition ap_adc_process (adc_cmd : Z) (src msg : list Z) : M (list Z) :=
  h ← peek src 0 8;
  msg ← poke msg 0 h;
  msg ← poke msg 4 (st16 64);
  msg ← poke msg 10 (st16 52);
  r ← peek src 12 52;
  msg ← poke msg 12 r;
  ap_adc_dispatch adc_cmd src msg.

(** The bytes of the answer; [out_len] is the size of the output buffer. *)
Definition eng_battery_calibration (data : list Z) (count out_len : nat) : M (list Z) :=
  if (0 <? count)%nat then
    '(adc_cmd, out_msg) ← is_adc_calibration out_len data count;
    if negb (adc_cmd =? 0) then
      _ ← disconnect_vbus_charger;
      if adc_cmd =? AP_DIAG_LOOP then
        d ← peek data 0 out_len;
        mret (take (if (count <? out_len)%nat then count else out_len) d)
      else
        msg ← ap_adc_process adc_cmd out_msg (replicate SIZEOF_ADC_CNF 0);
        p ← peek msg 0 (Z.to_nat (ld16 msg 4));
        mret (eng_translate_packet p)
    else mret []
  else mret [].

(** ** Lemmas *)

(** A frame of the tool, decoded: parameters [p] for the operation [op]. *)
Definition adc_frame (seq op : Z) (p : list Z) : list Z :=
  0x7E :: (st32 seq ++ st16 64 ++ [DIAG_CMD_APCALI; 0]) ++ (st16 DIAG_AP_CMD_ADC ++ st16 52) ++ st32 op ++ p ++ [0x7E].

Definition adc_answer (seq status op : Z) (p : list Z) : list Z :=
  (st32 seq ++ st16 64 ++ [DIAG_CMD_APCALI; 0]) ++ st16 status ++ st16 52 ++ st32 op ++ p.

Lemma adc_frame_length seq op p : length p = 48%nat -> length (adc_frame seq op p) = 66%nat.
Proof. intros H. unfold adc_frame. cbn. rewrite length_app, H. done. Qed.

(** The request as it lies in the output buffer. *)
Lemma is_adc_calibration_frame seq op p pad w :
  length p = 48%nat -> u32 op = op ->
  exists t, is_adc_calibration 8192 (adc_frame seq op p ++ pad) 66 w =
    Some ((adc_request (drop 1 (adc_frame seq op p) ++ t), drop 1 (adc_frame seq op p) ++ t), w).
Proof.
  intros Hp Hop. unfold is_adc_calibration. change (8192 <? 66)%nat with false. cbv iota.
  change (66 - 1)%nat with 65%nat. rewrite bind_run.
  change (adc_frame seq op p ++ pad) with ([0x7E] ++ drop 1 (adc_frame seq op p) ++ pad).
  rewrite peek_at by (rewrite ?length_drop, ?adc_frame_length by done; done). rewrite bind_run.
  assert (replicate 8192 0 = [] ++ replicate 65 0 ++ replicate 8127 0) as ->
    by (rewrite <- replicate_add; done).
  rewrite poke_at by (rewrite ?length_drop, ?adc_frame_length, ?length_replicate by done; done).
  rewrite mret_run. eexists. cbn [app]. done.
Qed.

Lemma adc_request_frame seq op p t :
  length p = 48%nat -> u32 op = op ->
  adc_request (drop 1 (adc_frame seq op p) ++ t) =
    (if op =? 0 then AP_ADC_CALIB else if op =? 1 then AP_ADC_LOAD else if op =? 2 then AP_ADC_SAVE
     else if op =? 3 then AP_GET_FGU_VOL_ADC else if op =? 4 then AP_GET_FGU_CURRENT_ADC
     else if op =? 5 then AP_GET_FGU_TYPE else if op =? 6 then AP_GET_FGU_VOL_REAL
     else if op =? 7 then AP_GET_FGU_CURRENT_REAL else 0).
Proof.
  intros Hp Hop. unfold adc_request, adc_frame.
  assert (ld32 (drop 1 (adc_frame seq op p) ++ t) 12 = op) as E.
  { unfold adc_frame. cbn [skipn]. rewrite drop_0, <- !app_assoc.
    rewrite (app_assoc (st32 seq)), (app_assoc (_ ++ _) [_; _]), (app_assoc (_ ++ _) (st16 _)), (app_assoc (_ ++ _) (st16 52)).
    rewrite ld32_at by done. done. }
  unfold adc_frame in E. rewrite E. done.
Qed.

(** The calibration file is missing or a regular file that can be used. *)
Definition cali_ok (w : world) : Prop :=
  forall f, files w !! CALI_CTRL_FILE_PATH = Some f -> f_reg f = true /\ f_wopen f = true /\ f_ok f = true.

Lemma read_cali_length f w : exists r i, read_cali f w = Some ((r, i), w) /\ length i = SIZEOF_CALI /\
  (f_ok f = true -> (SIZEOF_CALI <= length (f_data f))%nat -> r = Z.of_nat SIZEOF_CALI /\ i = take SIZEOF_CALI (f_data f)).
Proof.
  unfold read_cali. rewrite bind_run. unfold malloc, gets.
  assert (length (map (heap w) (seq 0 SIZEOF_CALI)) = SIZEOF_CALI) as Hm by by rewrite length_map, length_seq.
  unfold read_file. destruct (f_ok f).
  - rewrite mret_run. eexists _, _. split; [done|]. rewrite length_app, length_drop, length_take, Hm. split; [lia|].
    intros _ Hl. rewrite Nat.min_l by lia. split; [done|]. rewrite drop_ge by lia. apply app_nil_r.
  - rewrite mret_run. eexists _, _. split; [done|]. cbn [app length]. rewrite drop_0. split; [done|]. done.
Qed.

Lemma poke_tail (i p : list Z) n w :
  (n + length p = length i)%nat -> poke i n p w = Some (take n i ++ p, w).
Proof.
  intros H. rewrite <- (take_drop n i) at 1. rewrite <- (app_nil_r (drop n i)).
  rewrite poke_at; [by rewrite app_nil_r| |]; [rewrite length_take|rewrite length_drop]; lia.
Qed.

Lemma poke_head (i p : list Z) w :
  (length p <= length i)%nat -> poke i 0 p w = Some (p ++ drop (length p) i, w).
Proof.
  intros H. rewrite <- (take_drop (length p) i) at 1.
  change (take (length p) i ++ drop (length p) i) with ([] ++ take (length p) i ++ drop (length p) i).
  rewrite poke_at; [done|done|]. rewrite length_take. lia.
Qed.

Lemma save_spec p w :
  length p = 48%nat -> cali_ok w ->
  exists c t w1, AccessADCDataFile_save p w = Some (56, w1) /\ length c = 4%nat /\
    files w1 !! CALI_CTRL_FILE_PATH = Some (File ((st32 CALI_MAGIC ++ c ++ p) ++ t) true true true) /\
    (forall q, q <> CALI_CTRL_FILE_PATH -> files w1 !! q = files w !! q) /\
    vbus_charger_disconnect w1 = vbus_charger_disconnect w.
Proof.
  intros Hp Hok. unfold AccessADCDataFile_save, open_or_create, open_write, create_file, gets.
  assert (forall i w', length i = SIZEOF_CALI -> (i1 ← poke i 8 (take SIZEOF_ADC_PARA p); poke i1 0 (st32 CALI_MAGIC)) w' =
            Some (st32 CALI_MAGIC ++ drop 4 (take 8 i) ++ p, w')) as Hinfo.
  { intros i w' Hi. unfold SIZEOF_ADC_PARA, SIZEOF_CALI in *. rewrite take_ge by lia. rewrite bind_run, poke_tail by lia.
    rewrite poke_head; change (length (st32 CALI_MAGIC)) with 4%nat; [|rewrite length_app, length_take; lia].
    rewrite (drop_app_le (take 8 i)) by (rewrite length_take; lia). done. }
  assert (forall i : list Z, length i = SIZEOF_CALI -> length (drop 4 (take 8 i)) = 4%nat) as Hc.
  { intros i Hi. unfold SIZEOF_CALI in *. rewrite length_drop, length_take. lia. }
  assert (forall i : list Z, length i = SIZEOF_CALI -> length (st32 CALI_MAGIC ++ drop 4 (take 8 i) ++ p) = 56%nat) as Hlen.
  { intros i Hi. rewrite !length_app, Hc, Hp by done. done. }
  rewrite !bind_run. destruct (files w !! CALI_CTRL_FILE_PATH) as [f|] eqn:E.
  - destruct (Hok f E) as (Hr & Hw & Hf). rewrite Hw. rewrite ?mret_run. unfold malloc, gets. rewrite ?bind_run.
    destruct (read_cali_length f w) as (r & i & -> & Hi & _). rewrite ?mret_run, ?bind_run.
    specialize (Hinfo i w Hi). rewrite bind_run in Hinfo. destruct (poke i 8 _ w) as [[i1 w1]|]; [|done].
    rewrite ?bind_run, Hinfo. unfold write_file. rewrite E, Hf, Hr, Hw. rewrite Hlen by done.
    exists (drop 4 (take 8 i)), (drop 56 (f_data f)). eexists. split; [done|]. split; [by apply Hc|].
    cbn [files set_files]. rewrite lookup_insert_eq. split; [|split; [|done]].
    + unfold write_at. cbn [take app replicate Nat.add]. rewrite Nat.sub_0_l || idtac. rewrite Hlen by done. done.
    + intros q Hq. by rewrite lookup_insert_ne.
  - rewrite ?bind_run, ?E. unfold malloc, gets. cbn [heap set_files]. rewrite ?bind_run, ?mret_run, ?bind_run.
    set (w2 := set_files _ w). set (old := map (heap w2) (seq 0 SIZEOF_CALI)).
    assert (length old = SIZEOF_CALI) as Hi by (unfold old; by rewrite length_map, length_seq).
    specialize (Hinfo old w2 Hi). rewrite bind_run in Hinfo. destruct (poke old 8 _ w2) as [[i1 w1]|]; [|done].
    rewrite ?bind_run, Hinfo. unfold write_file. unfold w2. cbn [files set_files]. rewrite lookup_insert_eq.
    cbn [f_ok f_reg f_data f_wopen]. rewrite Hlen by done.
    exists (drop 4 (take 8 old)), []. eexists. split; [done|]. split; [by apply Hc|].
    cbn [files set_files]. rewrite lookup_insert_eq. split; [|split; [|done]].
    + unfold write_at. cbn [take drop app replicate Nat.sub length]. rewrite drop_nil. done.
    + intros q Hq. by rewrite !lookup_insert_ne.
Qed.

Lemma load_spec c p t w :
  length c = 4%nat -> length p = 48%nat ->
  files w !! CALI_CTRL_FILE_PATH = Some (File ((st32 CALI_MAGIC ++ c ++ p) ++ t) true true true) ->
  AccessADCDataFile_load 48 w = Some ((56, Some p), w).
Proof.
  intros Hc Hp E. unfold AccessADCDataFile_load, open_write, gets. rewrite bind_run, E. cbn [f_wopen].
  assert (length (st32 CALI_MAGIC ++ c ++ p) = SIZEOF_CALI) as Hl by (rewrite !length_app, Hc, Hp; done).
  destruct (read_cali_length (File ((st32 CALI_MAGIC ++ c ++ p) ++ t) true true true) w) as (r & i & Er & Hi & H).
  rewrite bind_run, Er. destruct H as [-> ->]; [done|cbn [f_data]; rewrite length_app, Hl; lia|].
  rewrite mret_run. cbn [f_data]. rewrite <- Hl, (take_app_length (st32 CALI_MAGIC ++ c ++ p)), Hl.
  unfold SIZEOF_ADC_PARA. change (min 48 48) with 48%nat.
  rewrite (app_assoc (st32 CALI_MAGIC)), (drop_app_exact (st32 CALI_MAGIC ++ c)) by (rewrite length_app, Hc; done).
  rewrite take_ge by lia. done.
Qed.

(** The header of the answer, before the operation itself. *)
Lemma ap_adc_process_frame cmd seq op p t w :
  length p = 48%nat ->
  ap_adc_process cmd (drop 1 (adc_frame seq op p) ++ t) (replicate SIZEOF_ADC_CNF 0) w =
  ap_adc_dispatch cmd (drop 1 (adc_frame seq op p) ++ t) (adc_answer seq 0 op p) w.
Proof.
  intros Hp. unfold ap_adc_process. unfold SIZEOF_ADC_CNF. set (src := drop 1 (adc_frame seq op p) ++ t).
  set (h := st32 seq ++ st16 64 ++ [DIAG_CMD_APCALI; 0]).
  assert (src = [] ++ h ++ (st16 DIAG_AP_CMD_ADC ++ st16 52) ++ st32 op ++ p ++ [0x7E] ++ t) as E1.
  { unfold src, adc_frame. cbn [skipn]. rewrite drop_0. cbn [app]. by rewrite <- !app_assoc. }
  assert (src = (h ++ st16 DIAG_AP_CMD_ADC ++ st16 52) ++ (st32 op ++ p) ++ [0x7E] ++ t) as E2
    by (rewrite E1; cbn [app]; by rewrite <- !app_assoc).
  rewrite bind_run. rewrite E1 at 1. rewrite peek_at by done. rewrite bind_run, poke_head by (cbn; lia).
  change (drop (length h) (replicate 64 0)) with ([0; 0] ++ [0; 0] ++ replicate 52 0).
  unfold h at 1. rewrite <- !app_assoc. rewrite bind_run, (poke_at (st32 seq) (st16 64)) by done.
  rewrite bind_run. rewrite (app_assoc (st16 64)), (app_assoc (st32 seq)). change (st32 seq ++ st16 64 ++ [DIAG_CMD_APCALI; 0]) with h.
  rewrite (app_assoc h [0; 0]), poke_at by done. rewrite bind_run. rewrite E2 at 1. rewrite peek_at by (rewrite ?length_app, ?Hp; done).
  rewrite bind_run, (app_assoc _ (st16 52)), poke_tail by (rewrite !length_app, Hp; done).
  rewrite take_app_exact by done. unfold adc_answer. rewrite <- !app_assoc. done.
Qed.

Lemma disconnect_keeps w :
  exists r w1, disconnect_vbus_charger w = Some (r, w1) /\
    forall p, p <> CHARGER_STOP_PATH -> files w1 !! p = files w !! p.
Proof.
  unfold disconnect_vbus_charger, switch_charger, gets. rewrite bind_run.
  destruct (vbus_charger_disconnect w =? 0); [|by eexists _, _].
  rewrite bind_run. unfold open_write, gets. destruct (files w !! CHARGER_STOP_PATH) as [f|] eqn:E; [|by eexists _, _].
  destruct (f_wopen f); [|by eexists _, _]. rewrite bind_run. unfold write_file. rewrite E.
  destruct (f_ok f); [|by eexists _, _]. destruct (f_reg f); (eexists _, _; split; [done|]); intros p Hp; cbn; [|done].
  by rewrite lookup_insert_ne.
Qed.

(** What remains of a request after its header has been handled. *)
Lemma eng_battery_calibration_frame seq op p pad w cmd :
  length p = 48%nat -> u32 op = op -> (forall t, adc_request (drop 1 (adc_frame seq op p) ++ t) = cmd) ->
  cmd <> 0 -> cmd <> AP_DIAG_LOOP ->
  exists t r w1, disconnect_vbus_charger w = Some (r, w1) /\
  eng_battery_calibration (adc_frame seq op p ++ pad) 66 8192 w =
    (msg ← ap_adc_dispatch cmd (drop 1 (adc_frame seq op p) ++ t) (adc_answer seq 0 op p);
     q ← peek msg 0 (Z.to_nat (ld16 msg 4)); mret (eng_translate_packet q)) w1.
Proof.
  intros Hp Hop Hcmd H0 Hl. destruct (is_adc_calibration_frame seq op p pad w Hp Hop) as (t & E).
  destruct (disconnect_keeps w) as (r & w1 & Ed & _). exists t, r, w1. split; [done|].
  unfold eng_battery_calibration. change (0 <? 66)%nat with true. cbv iota. rewrite bind_run, E, Hcmd.
  cbv iota beta. destruct (Z.eqb_spec cmd 0); [done|]. cbn [negb]. rewrite bind_run, Ed.
  destruct (Z.eqb_spec cmd AP_DIAG_LOOP); [done|]. rewrite !bind_run, ap_adc_process_frame by done. done.
Qed.

(** The answer is the frame of the struct. *)
Lemma answer_sent seq status op p w :
  length p = 48%nat ->
  (q ← peek (adc_answer seq status op p) 0 (Z.to_nat (ld16 (adc_answer seq status op p) 4));
   mret (eng_translate_packet q) : M (list Z)) w = Some (eng_translate_packet (adc_answer seq status op p), w).
Proof.
  intros Hp. assert (length (adc_answer seq status op p) = 64%nat) as Hl.
  { unfold adc_answer. rewrite !length_app, Hp. done. }
  assert (ld16 (adc_answer seq status op p) 4 = 64) as ->.
  { unfold adc_answer. rewrite <- !app_assoc. by rewrite ld16_at. }
  rewrite bind_run. rewrite <- (app_nil_r (adc_answer _ _ _ _)) at 1. change (adc_answer seq status op p ++ [])
    with ([] ++ adc_answer seq status op p ++ []). rewrite peek_at by (rewrite ?Hl; done). done.
Qed.

Lemma put_status_answer s seq status op p w :
  put_status s (adc_answer seq status op p) w = Some (adc_answer seq s op p, w).
Proof. unfold put_status, adc_answer. by rewrite poke_at. Qed.

Lemma put_params_answer seq status op p q w :
  length p = length q -> poke (adc_answer seq status op p) 16 q w = Some (adc_answer seq status op q, w).
Proof.
  intros H. unfold adc_answer. rewrite !app_assoc. rewrite <- (app_nil_r p), <- (app_nil_r (_ ++ q)).
  rewrite <- !(app_assoc _ _ []). by rewrite poke_at.
Qed.

Lemma put_param0_answer seq status op x q v w :
  length x = 4%nat -> put_param 0 v (adc_answer seq status op (x ++ q)) w = Some (adc_answer seq status op (st32 v ++ q), w).
Proof. intros H. unfold put_param, adc_answer. rewrite !app_assoc, <- !(app_assoc _ _ q). by rewrite poke_at. Qed.

Lemma put_param1_answer seq status op u x q v w :
  length u = 4%nat -> length x = 4%nat ->
  put_param 1 v (adc_answer seq status op (u ++ x ++ q)) w = Some (adc_answer seq status op (u ++ st32 v ++ q), w).
Proof.
  intros Hu H. unfold put_param, adc_answer. rewrite !app_assoc, <- !(app_assoc _ _ q). rewrite poke_at; [done| |done].
  rewrite !length_app, Hu. done.
Qed.

(** C22: Calibration data saved by the PC are the data loaded: in a system whose
    calibration file is missing or usable, the request that saves the 48 bytes
    [p] is answered with status 0, and the next request to load, whatever its
    parameters, with status 0 and the same 48 bytes. *)
Theorem adc_save_load seq seq' p q pad pad' w :
  length p = 48%nat -> length q = 48%nat -> cali_ok w ->
  exists w1 w2,
    eng_battery_calibration (adc_frame seq 2 p ++ pad) 66 8192 w =
      Some (eng_translate_packet (adc_answer seq 0 2 p), w1) /\
    eng_battery_calibration (adc_frame seq' 1 q ++ pad') 66 8192 w1 =
      Some (eng_translate_packet (adc_answer seq' 0 1 p), w2).
Proof.
  intros Hp Hq Hok.
  destruct (eng_battery_calibration_frame seq 2 p pad w AP_ADC_SAVE) as (t & r & w' & Ed & E);
    [done|done|intros t; by rewrite adc_request_frame|done|done|].
  destruct (disconnect_keeps w) as (r' & w'' & Ed' & Hk). rewrite Ed in Ed'. injection Ed' as <- <-.
  assert (cali_ok w') as Hok' by (intros f Hf; apply Hok; by rewrite <- Hk).
  destruct (save_spec p w' Hp Hok') as (c & tl & w1 & Es & Hc & Hf & _).
  exists w1.
  destruct (eng_battery_calibration_frame seq' 1 q pad' w1 AP_ADC_LOAD) as (t2 & r2 & w2 & Ed2 & E2);
    [done|done|intros t2; by rewrite adc_request_frame|done|done|].
  exists w2. rewrite E, E2. destruct (disconnect_keeps w1) as (r'' & w'' & Ed' & Hk2). rewrite Ed2 in Ed'. injection Ed' as <- <-.
  split; rewrite bind_run.
  - change (ap_adc_dispatch AP_ADC_SAVE) with (fun src msg => p ← peek src 16 48; ap_adc_save p msg : M (list Z)).
    cbv beta. rewrite bind_run.
    assert (drop 1 (adc_frame seq 2 p) ++ t =
      (st32 seq ++ st16 64 ++ [DIAG_CMD_APCALI; 0] ++ st16 DIAG_AP_CMD_ADC ++ st16 52 ++ st32 2) ++ p ++ [0x7E] ++ t) as ->.
    { unfold adc_frame. cbn [skipn]. rewrite drop_0. cbn [app]. by rewrite <- !app_assoc. }
    rewrite peek_at by done. unfold ap_adc_save. rewrite bind_run, Es. change (0 <? 56) with true. cbv iota.
    rewrite put_status_answer. by apply answer_sent.
  - change (ap_adc_dispatch AP_ADC_LOAD) with (fun _ : list Z => ap_adc_load). cbv beta. unfold ap_adc_load. rewrite bind_run.
    erewrite (load_spec c p tl); [|done|done|by rewrite Hk2]. cbv iota beta. rewrite bind_run, put_params_answer by lia.
    change (0 <? 56) with true. rewrite put_status_answer. by apply answer_sent.
Qed.

Lemma adc_save_load_witness :
  let p := map Z.of_nat (seq 100 48) in
  exists w1 w2,
    eng_battery_calibration (adc_frame 1 2 p ++ replicate 20 0) 66 8192 (init_world ∅) =
      Some (eng_translate_packet (adc_answer 1 0 2 p), w1) /\
    eng_battery_calibration (adc_frame 2 1 (replicate 48 0) ++ []) 66 8192 w1 =
      Some (eng_translate_packet (adc_answer 2 0 1 p), w2).
Proof. apply (adc_save_load 1 2 (map Z.of_nat (seq 100 48)) (replicate 48 0) (replicate 20 0) [] (init_world ∅)); done. Defined.

(** A failing converter is answered as a reading: when the channel file of
    the converter cannot be opened, the calibration request is answered with
    status 0 (success) and 0xFFFF as the value of the first parameter, because
    the error code -1 is compared as an unsigned number. *)
Theorem adc_failure_hidden seq p pad w :
  length p = 48%nat -> files w !! ADC_CHANNEL_PATH = None ->
  exists w1 q, length q = 44%nat /\
    eng_battery_calibration (adc_frame seq 0 p ++ pad) 66 8192 w =
      Some (eng_translate_packet (adc_answer seq 0 0 (st32 0xFFFF ++ q)), w1).
Proof.
  intros Hp Hc.
  destruct (eng_battery_calibration_frame seq 0 p pad w AP_ADC_CALIB) as (t & r & w' & Ed & ->);
    [done|done|intros t; by rewrite adc_request_frame|done|done|].
  destruct (disconnect_keeps w) as (r' & w'' & Ed' & Hk). rewrite Ed in Ed'. injection Ed' as <- <-.
  assert (forall ch sc, get_other_ch_adc_value ch sc w' = Some (0xFFFFFFFF, w')) as Hg.
  { intros ch sc. unfold get_other_ch_adc_value, write_number, open_write, gets. rewrite !bind_run, Hk, Hc by done. done. }
  change (ap_adc_dispatch AP_ADC_CALIB) with (fun _ : list Z => ap_adc_calibration). cbv beta.
  rewrite bind_run. unfold ap_adc_calibration. rewrite bind_run, put_status_answer, bind_run, Hg.
  change (0 <=? 0xFFFFFFFF) with true. cbv iota. change (4294967295 .& 65535) with 0xFFFF.
  rewrite <- (take_drop 4 p). set (p0 := take 4 p). set (q := drop 4 p).
  assert (length p0 = 4%nat /\ length q = 44%nat) as [H0 Hq] by (unfold p0, q; rewrite length_take, length_drop; lia).
  rewrite bind_run, put_param0_answer by done.
  destruct (s32 _ =? 5); cbn [negb]; rewrite ?bind_run.
  - rewrite mret_run. exists w', q. split; [done|]. apply answer_sent. rewrite length_app, Hq. done.
  - rewrite Hg. change (0 <=? 0xFFFFFFFF) with true. cbv iota. change (4294967295 .& 65535) with 0xFFFF.
    rewrite <- (take_drop 4 q). rewrite put_param1_answer by (rewrite ?length_take, ?Hq; done).
    eexists w', _. split; [|apply answer_sent]; rewrite !length_app, length_drop, ?Hq; done.
Qed.

Lemma adc_failure_hidden_witness :
  exists w1 q, length q = 44%nat /\
    eng_battery_calibration (adc_frame 9 0 (st32 1 ++ replicate 44 0) ++ []) 66 8192 (init_world ∅) =
      Some (eng_translate_packet (adc_answer 9 0 0 (st32 0xFFFF ++ q)), w1).
Proof. apply (adc_failure_hidden 9 (st32 1 ++ replicate 44 0) [] (init_world ∅)); done. Defined.
