(* ===== verification/EngReply.v ===== *)
(** * Requests that are answered with one frame (apps/engmode/eng_diag.c)

    The handlers of [eng_diag.c] that build an answer in a fresh struct: the
    header of the request with a new length, then a status or data, framed by
    [translate_packet].  Charger, currents, modem mode, backlight, WLAN settings and
    registers, eFuse and public key.

    [buf] is the receive buffer with the decoded request: flag, header (from byte
    1), data (from byte 9).  Offsets are written out; accesses behind a buffer and
    answers that do not fit into the caller's buffer are undefined. *)

From S2P Require Import Prelude Checksum Hdlc EngFrame EngText EngSys EngAdc.
From Stdlib Require Import Ascii.

(** ** Answers *)

Definition rd16 (m : list Z) (off : nat) : M Z := d ← peek m off 2; mret (ld16 d 0).
Definition rd32 (m : list Z) (off : nat) : M Z := d ← peek m off 4; mret (ld32 d 0).

(** [translate_packet] into a buffer of [size] bytes. *)
Definition translate_to (size : nat) (p : list Z) : M (list Z) :=
  let f := eng_translate_packet p in if (length f <=? size)%nat then mret f else undefined.

(** A fresh struct of [rsplen] bytes with the header of the request and its own
    length. *)
Definition rsp_begin (buf : list Z) (rsplen : nat) : M (list Z) :=
  m ← malloc rsplen;
  h ← peek buf 1 SIZEOF_HEAD;
  m ← poke m 0 h;
  poke m 4 (st16 (Z.of_nat rsplen)).

Definition put_length (n : Z) (m : list Z) : M (list Z) := poke m 10 (st16 n).

(** [translate_packet(rsp, rsp_ptr, ((MSG_HEAD_T* )rsp_ptr)->len)]. *)
Definition answer (size : nat) (m : list Z) : M (list Z) :=
  p ← peek m 0 (Z.to_nat (ld16 m 4)); translate_to size p.

(** ** Charger and currents *)

Definition eng_diag_enable_charge (buf : list Z) : M (list Z) :=
  m ← rsp_begin buf 12;
  m ← put_status 1 m;
  m ← put_length 0 m;
  on_off ← rd32 buf 13;
  m ← (if on_off =? 1 then ret ← connect_vbus_charger; put_status (if 0 <? ret then 0 else 1) m
       else if on_off =? 0 then ret ← disconnect_vbus_charger; put_status (if 0 <? ret then 0 else 1) m
       else mret m);
  answer 512 m.

Definition CHARGING_CURRENT_FILE_PATH : string := "sys/class/power_supply/battery/real_time_current".
Definition BATTERY_CURRENT_FILE_PATH : string := "sys/class/power_supply/sprdfgu/fgu_current".

Definition get_charging_current : M (Z * Z) := read_value strtol0 CHARGING_CURRENT_FILE_PATH.
Definition get_battery_current : M (Z * Z) := read_value strtol0 BATTERY_CURRENT_FILE_PATH.

Definition eng_diag_get_charge_current (buf : list Z) : M (list Z) :=
  m ← rsp_begin buf 20;
  m ← put_status 1 m;
  m ← put_length 8 m;
  '(charging_read_len, charging_current) ← get_charging_current;
  if charging_read_len <=? 0 then answer 512 m
  else
    '(battery_read_len, battery_current) ← get_battery_current;
    if battery_read_len <=? 0 then answer 512 m
    else
      m ← poke m 12 (st32 charging_current);
      m ← poke m 16 (st32 battery_current);
      m ← put_status 0 m;
      answer 512 m.

(** The length field is set on success only. *)
Definition eng_diag_get_modem_mode (buf : list Z) : M (list Z) :=
  m ← rsp_begin buf 76;
  m ← put_status 1 m;
  property_info ← property_get "ro.product.modem.mode" (bs "not_find");
  if bool_decide (property_info = bs "not_find") then answer 512 m
  else
    m ← put_length (Z.of_nat (length property_info)) m;
    m ← poke m 12 property_info;
    m ← put_status 0 m;
    answer 512 m.

(** ** Backlight *)

Definition ENG_SET_BACKLIGHT : string := "/sys/class/backlight/sprd_backlight/brightness".

Definition eng_diag_set_backlight (buf : list Z) : M (list Z) :=
  backlight_time ← rd16 buf 13;
  m ← rsp_begin buf 14;
  m ← put_status 1 m;
  m ← put_length 2 m;
  m ← poke m 12 (st16 backlight_time);
  ok ← write_number ENG_SET_BACKLIGHT backlight_time;
  m ← (if (ok : bool) then put_status 0 m else mret m);
  answer 8192 m.

(** ** Switch of the modem: the process exits after the answer *)

Definition eng_diag_cft_switch_hdlr (buf : list Z) : M (list Z) :=
  m ← rsp_begin buf 12;
  m ← put_status 1 m;
  type ← rd16 buf 13;
  m ← (if type =? 0 then _ ← property_set "sys.cfg.type" (bs "0"); put_status 0 m
       else if type =? 1 then _ ← property_set "sys.cfg.type" (bs "1"); put_status 0 m
       else mret m);
  answer 8192 m.

(** ** WLAN *)

(** A command in an array of [size] bytes. *)
Definition cmd_in (size : nat) (cmd : list Z) : M (list Z) :=
  if (length cmd <? size)%nat then mret cmd else undefined.

(** Position of a substring ([strstr]). *)
Fixpoint find_sub (needle s : list Z) : option nat :=
  if has_prefix needle s then Some 0%nat
  else match s with [] => None | _ :: s => S <$> find_sub needle s end.

(** [read(fd, cmdline, sizeof(cmdline))] into a zeroed array of 1024 bytes. *)
Definition ENG_CMDLINE_LEN : nat := 1024.
Definition read_cmdline (path : string) : M (option (list Z)) :=
  f ← open_read path;
  mret match f with
       | Some f => let '(ret, d) := read_file f ENG_CMDLINE_LEN in
                   if ret <? 0 then None else Some (d ++ replicate (ENG_CMDLINE_LEN - length d) 0)
       | None => None
       end.

(** [fgets] of at most 511 characters: up to the first newline. *)
Definition first_line (s : list Z) : list Z :=
  take 511 match index_of 10 s with Some i => take (S i) s | None => s end.

Definition eng_detect_process (process_name : list Z) : M Z :=
  ps ← cmd_in 128 (bs "ps |grep -c " ++ process_name);
  out ← popen ps;
  match out with
  | Some ((_ :: _) as o) => s ← lift (cstr (first_line o ++ [0])); mret (atoi s)
  | _ => mret (-1)
  end.

Section wlan.
  (** The driver of the board, set in its build files. *)
  Context (WIFI_DRIVER_MODULE_NAME WIFI_DRIVER_MODULE_PATH : list Z).

(** [eng_open_wifi_switch] of the ENGMODE_EUT_SPRD build: the list of modules is
    searched as a string, also when it fills the whole array. *)
Definition eng_open_wifi_switch : M Z :=
  c ← read_cmdline "/proc/modules";
  match c with
  | None => mret 0
  | Some cmdline =>
      s ← lift (cstr cmdline);
      ok ← (if contains WIFI_DRIVER_MODULE_NAME s then mret true
            else cmd ← cmd_in ENG_CMDLINE_LEN (bs "insmod " ++ WIFI_DRIVER_MODULE_PATH); system cmd);
      if negb ok then mret 0
      else
        count ← eng_detect_process (bs "wpa_supplicant");
        ok ← (if count =? 0 then system (bs "start wpa_supplicant") else mret true);
        mret (b2z ok)
  end.

Definition eng_diag_set_powermode (buf : list Z) : M (list Z) :=
  powermode ← rd16 buf 13;
  m ← rsp_begin buf 14;
  m ← put_status 1 m;
  m ← put_length 2 m;
  m ← poke m 12 (st16 powermode);
  _ ← eng_open_wifi_switch;
  ok ← system (bs "ifconfig wlan0 up");
  if negb ok then answer 8192 m
  else
    ok ← (if powermode =? 1 then system (bs "iwnpi wlan0 lna_on")
          else if powermode =? 0 then system (bs "iwnpi wlan0 lna_off") else mret true);
    m ← (if (ok : bool) then put_status 0 m else mret m);
    answer 8192 m.

(** Offsets of the fields of [WIFI_CONFIGURE_IP_T] in the request. *)
Definition ip_ssid : nat := 9.
Definition ip_address : nat := 57.
Definition ip_gateway : nat := 73.
Definition ip_dns : nat := 89.
Definition ip_subnet : nat := 105.

Fixpoint run_all (cmds : list (list Z)) : M bool :=
  match cmds with
  | [] => mret true
  | c :: cmds => ok ← system c; if (ok : bool) then run_all cmds else mret false
  end.

(** The route: deleted and added again when it cannot be added. *)
Definition add_route (cmd : list Z) : M bool :=
  ok ← system cmd;
  if (ok : bool) then mret true else run_all [bs "ip route del"; cmd].

(** The shell commands of the configuration, as far as they succeed. *)
Definition ip_commands (buf : list Z) : M bool :=
  ok ← run_all [bs "wpa_cli -iwlan0 IFNAME=wlan0 remove_network all"; bs "wpa_cli -iwlan0 IFNAME=wlan0 add_network"];
  if negb ok then mret false
  else
    ssid ← lift (cstr_at buf ip_ssid);
    cmd ← cmd_in ENG_CMDLINE_LEN (bs "wpa_cli -iwlan0 IFNAME=wlan0 set_network 0 ssid /" ++ ssid ++ bs "/");
    ok ← run_all [cmd; bs "wpa_cli -iwlan0 IFNAME=wlan0 set_network 0 key_mgmt NONE";
                  bs "wpa_cli -iwlan0 IFNAME=wlan0 select_network 0"];
    if negb ok then mret false
    else
      ip ← lift (cstr_at buf ip_address);
      mask ← lift (cstr_at buf ip_subnet);
      cmd ← cmd_in ENG_CMDLINE_LEN (bs "ifconfig wlan0 " ++ ip ++ bs " netmask " ++ mask ++ bs " ");
      ok ← system cmd;
      if negb ok then mret false
      else
        gw ← lift (cstr_at buf ip_gateway);
        cmd ← cmd_in ENG_CMDLINE_LEN (bs "ip route add default via " ++ gw ++ bs " ");
        ok ← add_route cmd;
        if negb ok then mret false
        else
          ok ← system (bs "ndc resolver setdefaultif wlan0");
          if negb ok then mret false
          else
            dns ← lift (cstr_at buf ip_dns);
            cmd ← cmd_in ENG_CMDLINE_LEN (bs "ndc resolver setifdns wlan0  " ++ dns ++ bs " ");
            _ ← system cmd;
            mret true.

Definition eng_diag_set_ipconfigure (buf : list Z) : M (list Z) :=
  m ← rsp_begin buf 9;
  m ← poke m 8 [0];
  r ← eng_open_wifi_switch;
  ok ← (if r =? 0 then mret false else ip_commands buf);
  m ← (if (ok : bool) then poke m 8 [1] else mret m);
  answer 8192 m.
End wlan.

(** ** Registers of the WLAN chip *)

(** [sprintf("%x")]. *)
Fixpoint uhex (fuel : nat) (n : Z) (acc : list Z) : list Z :=
  match fuel with
  | O => acc
  | S fuel =>
      let d := n mod 16 in
      let acc := (if d <? 10 then 48 + d else 87 + d) :: acc in
      if n <? 16 then acc else uhex fuel (n / 16) acc
  end.
Definition fmt_x (z : Z) : list Z := uhex 8 (u32 z) [].

Definition SIZEOF_REG_REQ : nat := 20.

(** The loop that looks for [n] values "0x........" from [value] on. *)
Fixpoint scan_regs (fuel : nat) (regvalue : list Z) (value : nat) (m n : nat) (pdata : list Z) : M (list Z) :=
  if (m <? n)%nat then
    match fuel with
    | O => undefined
    | S fuel =>
        c ← lift (regvalue !! value);
        x ← (if c =? 48 then lift (regvalue !! S value) else mret 0);
        if (c =? 48) && (x =? 120) then
          stemp ← peek regvalue (value + 2) 8;
          s ← lift (cstr (stemp ++ [0]));
          scan_regs fuel regvalue (value + 10) (S m) n (pdata ++ st32 (fst (strtoul16 s)))
        else scan_regs fuel regvalue (S value) m n pdata
    end
  else mret pdata.

(** A failing answer has uninitialised bytes between its header and its status. *)
Definition eng_diag_read_register (buf : list Z) : M (list Z) :=
  m ← rsp_begin buf 29;
  m ← poke m 28 [0];
  szType ← lift (cstr_at buf 9);
  nRegAddr ← rd32 buf 17;
  nCount ← rd32 buf 21;
  cmd ← cmd_in ENG_CMDLINE_LEN (bs "iwnpi wlan0 get_reg " ++ szType ++ bs " " ++ fmt_x nRegAddr ++ bs " " ++ fmt_d (s32 nCount));
  out ← popen cmd;
  match out with
  | Some ((_ :: _) as o) =>
      let regvalue := take 4096 o ++ replicate (4096 - length (take 4096 o)) 0 in
      if 64 <? nCount then undefined
      else
        let n := Z.to_nat nCount in (* [pdata] has room for 64 values *)
        m ← rsp_begin buf (28 + 4 * n);
        r ← peek buf 9 SIZEOF_REG_REQ;
        m ← poke m 8 r;
        pdata ← scan_regs 4096 regvalue 0 0 n [];
        m ← poke m 28 pdata;
        answer 8192 m
  | _ => answer 8192 m
  end.

(** Register writes [i], [i + 1], ...: [k] of them left, values from [value] on. *)
Fixpoint set_regs (k : nat) (buf : list Z) (nRegAddr nUit i : Z) (value : nat) : M bool :=
  match k with
  | O => mret true
  | S k =>
      szType ← lift (cstr_at buf 9);
      v ← peek buf value (Z.to_nat nUit);
      cmd ← cmd_in 1024 (bs "iwnpi wlan0 set_reg " ++ szType ++ bs " " ++ fmt_x (nRegAddr + i * nUit) ++ bs " "
                         ++ concat (map fmt_02x v));
      ok ← system cmd;
      if (ok : bool) then set_regs k buf nRegAddr nUit (i + 1) (value + Z.to_nat nUit) else mret false
  end.

Definition eng_diag_write_register (buf : list Z) : M (list Z) :=
  m ← rsp_begin buf 29;
  r ← peek buf 9 SIZEOF_REG_REQ;
  m ← poke m 8 r;
  m ← poke m 28 [0];
  nRegAddr ← rd32 buf 17;
  nCount ← rd32 buf 21;
  nUit ← rd32 buf 25;
  ok ← set_regs (Z.to_nat nCount) buf nRegAddr nUit 0 29;
  m ← (if (ok : bool) then poke m 28 [1] else mret m);
  answer 8192 m.

(** ** eFuse and public key *)

Definition pad_to (n : nat) (d : list Z) : list Z := take n d ++ replicate (n - length d) 0.

(** A block of 8 hexadecimal digits of the UID (blocks 0 and 1) or of the hash
    (from block 2 on); blocks behind the hash are read behind the array. *)
Definition eng_diag_read_efuse (buf : list Z) : M (list Z) :=
  block ← rd16 buf 9;
  m ← rsp_begin buf 11;
  b ← peek buf 9 2;
  m ← poke m 8 b;
  m ← poke m 10 [0];
  l ← gets lib;
  let '(ret, str, off) :=
    if (block =? 0) || (block =? 1)
    then (fst (efuse_uid l), pad_to 17 (snd (efuse_uid l)), block * 8)
    else (fst (efuse_hash l), pad_to 41 (snd (efuse_hash l)), (block - 2) * 8) in
  if ret <? 0 then answer 8192 m
  else
    d ← peek str (Z.to_nat off) 8;
    s ← lift (cstr (d ++ [0]));
    m ← rsp_begin buf 14;
    m ← poke m 8 b;
    m ← poke m 10 (st32 (fst (strtoul16 s)));
    answer 8192 m.

Definition HASH_LEN : nat := 40.
Definition CMD_SECURESTRING : list Z := bs "securesha1=".
Definition CMD_PUBLICKEYPATH : list Z := bs "primpukpath=".
Definition CMD_PUBLICKEYSTART : list Z := bs "primpukstart=".
Definition CMD_PUBLICKEYLEN : list Z := bs "primpuklen=".

(** The 40 bytes behind the key word; [None] stands for the result 0. *)
Definition eng_parse_hash_cmdline : M (option (list Z)) :=
  c ← read_cmdline "/proc/cmdline";
  match c with
  | None => mret None
  | Some cmdline =>
      s ← lift (cstr cmdline);
      match find_sub CMD_SECURESTRING s with
      | Some i => h ← peek cmdline (i + length CMD_SECURESTRING) HASH_LEN; mret (Some h)
      | None => mret None
      end
  end.

(** One byte of result behind the header. *)
Definition flag_begin (buf : list Z) : M (list Z) := m ← rsp_begin buf 9; poke m 8 [0].

Definition eng_diag_write_efuse (buf : list Z) : M (list Z) :=
  m ← flag_begin buf;
  h ← eng_parse_hash_cmdline;
  ret ← gets (fun w => efuse_write_rc (lib w));
  m ← match h with
      | Some _ => if ret <=? 0 then mret m else poke m 8 [1]
      | None => mret m
      end;
  answer 8192 m.

Definition eng_diag_enable_secure (buf : list Z) : M (list Z) :=
  m ← flag_begin buf;
  ret ← gets (fun w => efuse_enable_rc (lib w));
  m ← (if 0 <=? ret then poke m 8 [1] else mret m);
  answer 8192 m.

Definition eng_diag_read_enable_secure_bit (buf : list Z) : M (list Z) :=
  m ← flag_begin buf;
  ret ← gets (fun w => efuse_enabled (lib w));
  m ← (if negb (ret =? 0) then poke m 8 [1] else mret m);
  answer 8192 m.

(** The text from behind [key] to the next blank. *)
Definition cmdline_word (key s : list Z) : option (list Z) :=
  i ← find_sub key s;
  let r := drop (i + length key) s in
  j ← index_of 32 r;
  Some (take j r).

(** [strncpy(str, buf, strlength)] over the old contents of [str], 10 bytes. *)
Definition copy_number (word str : list Z) : M (list Z) :=
  if (length word <=? 10)%nat then mret (word ++ drop (length word) str) else undefined.

(** [path] is the contents of the caller's fresh block of 1024 bytes.  The array
    [str] is used for both numbers without being cleared in between. *)
Definition eng_parse_publickey_cmdline (path : list Z) : M (list Z * Z * Z) :=
  c ← read_cmdline "/proc/cmdline";
  match c with
  | None => mret (path, 0, 0)
  | Some cmdline =>
      s ← lift (cstr cmdline);
      path ← match cmdline_word CMD_PUBLICKEYPATH s with Some p => poke path 0 p | None => mret path end;
      '(str, pos) ← match cmdline_word CMD_PUBLICKEYSTART s with
                    | Some d => str ← copy_number d (replicate 10 0); n ← lift (cstr str); mret (str, atoi n)
                    | None => mret (replicate 10 0, 0)
                    end;
      len ← match cmdline_word CMD_PUBLICKEYLEN s with
            | Some d => str ← copy_number d str; n ← lift (cstr str); mret (atoi n)
            | None => mret 0
            end;
      mret (path, pos, len)
  end.

Definition to_str (s : list Z) : string := String.string_of_list_ascii (map (fun c => ascii_of_N (Z.to_N c)) s).

Definition eng_diag_read_publickey (buf : list Z) : M (list Z) :=
  m ← flag_begin buf;
  path ← malloc 1024;
  '(path, pos, len) ← eng_parse_publickey_cmdline path;
  path ← lift (cstr path);
  f ← open_read (to_str path);
  match f with
  | None => answer 8192 m
  | Some f =>
      if (pos <? 0) || (len <? 0) then answer 8192 m
      else
        let '(ret, d) := read_file (File (drop (Z.to_nat pos) (f_data f)) (f_reg f) (f_wopen f) (f_ok f)) (Z.to_nat len) in
        if ret <=? 0 then answer 8192 m
        else if 1024 <? len then undefined
        else
          m ← rsp_begin buf (8 + Z.to_nat len);
          m ← poke m 8 (pad_to (Z.to_nat len) d);
          answer 8192 m
  end.

(** ** What every run of a handler satisfies *)

Definition post {A} (m : M A) (Q : A -> Prop) : Prop := forall w a w', m w = Some (a, w') -> Q a.

Lemma post_mret {A} (a : A) (Q : A -> Prop) : Q a -> post (mret a) Q.
Proof. intros H w b w'. rewrite mret_run. by intros [= <- _]. Qed.

Lemma post_mbind {A B} (m : M A) (f : A -> M B) (P : A -> Prop) (Q : B -> Prop) :
  post m P -> (forall a, P a -> post (f a) Q) -> post (m ≫= f) Q.
Proof.
  intros Hm Hf w b w'. rewrite bind_run. destruct (m w) as [[a w1]|] eqn:E; [|done].
  intros Hb. by eapply (Hf a (Hm _ _ _ E)).
Qed.

(** Nothing is known of the result of [m]. *)
Lemma post_any {A B} (m : M A) (f : A -> M B) (Q : B -> Prop) :
  (forall a, post (f a) Q) -> post (m ≫= f) Q.
Proof. intros Hf. apply (post_mbind m f (fun _ => True)); [by intros ????|intros a _; apply Hf]. Qed.

Lemma post_undefined {A} (Q : A -> Prop) : post undefined Q.
Proof. by intros ???. Qed.

(** A message with the sequence number and the type of the request [buf] and
    with its own length in the header. *)
Definition reply_msg (buf m : list Z) : Prop :=
  exists sub body, m = take 4 (drop 1 buf) ++ st16 (8 + Z.of_nat (length body)) ++ [buf !!! 7%nat; sub] ++ body /\
    (length (take 4 (drop 1 buf)) = 4)%nat /\ 8 + Z.of_nat (length body) < 65536.

(** The frame of such a message. *)
Definition typed_frame (buf out : list Z) : Prop := exists m, reply_msg buf m /\ out = eng_translate_packet m.

Lemma poke_Some m off d w m' w' :
  poke m off d w = Some (m', w') -> m' = splice m off d /\ (off + length d <= length m)%nat.
Proof.
  unfold poke, lift. destruct (mem_write m (Z.of_nat off) d) as [x|] eqn:E; [|done]. intros [= <- _].
  apply mem_write_Some in E as (H1 & H2 & ->). rewrite Nat2Z.id. split; [done|lia].
Qed.

Lemma peek_Some m off len w d w' :
  peek m off len w = Some (d, w') -> d = take len (drop off m) /\ (off + len <= length m)%nat.
Proof.
  unfold peek, lift. destruct (mem_read m (Z.of_nat off) (Z.of_nat len)) as [x|] eqn:E; [|done]. intros [= <- _].
  destruct (decide (off + len <= length m)%nat) as [Hl|Hl]; [|exfalso].
  - rewrite mem_read_nat in E by done. by injection E as <-.
  - apply Hl. unfold mem_read in E. case_decide; [|done]. lia.
Qed.

Lemma rsp_begin_post buf n :
  (8 <= n)%nat -> Z.of_nat n < 65536 -> post (rsp_begin buf n) (reply_msg buf).
Proof.
  intros H8 Hn w m w'. unfold rsp_begin, malloc, gets. rewrite bind_run. set (m0 := map _ _).
  assert (length m0 = n) as H0 by (unfold m0; by rewrite length_map, length_seq).
  rewrite bind_run. destruct (peek buf 1 SIZEOF_HEAD w) as [[h w1]|] eqn:E; [|done].
  apply peek_Some in E as [-> Hb]. unfold SIZEOF_HEAD in *.
  set (h := take 8 (drop 1 buf)). assert (length h = 8%nat) as Hh by (unfold h; rewrite length_take, length_drop; lia).
  rewrite bind_run. destruct (poke m0 0 h w1) as [[m1 w2]|] eqn:E; [|done]. apply poke_Some in E as [-> _].
  intros E. apply poke_Some in E as [-> _].
  exists (buf !!! 8%nat), (drop 8 m0). rewrite length_drop, H0. split; [|split; [rewrite length_take, length_drop|]; lia].
  assert (h = take 4 (drop 1 buf) ++ take 2 (drop 4 h) ++ [buf !!! 7%nat; buf !!! 8%nat]) as Eh.
  { rewrite <- (take_drop 4 h) at 1. f_equal; [unfold h; by rewrite take_take|].
    rewrite <- (take_drop 2 (drop 4 h)) at 1. f_equal. rewrite drop_drop.
    apply list_eq_same_length with 2%nat; [done|rewrite length_drop; lia|]. intros i x y Hi Hx Hy.
    assert (drop 6 h !! i = buf !! (7 + i)%nat) as Ei.
    { unfold h. rewrite lookup_drop, lookup_take_lt, lookup_drop by lia. f_equal. }
    change (drop (4 + 2) h) with (drop 6 h) in Hx. rewrite Ei in Hx. apply list_lookup_total_correct in Hx. subst x.
    destruct i as [|[|i]]; cbn in Hy; [by injection Hy|by injection Hy|lia]. }
  unfold splice. cbn [take app]. rewrite Nat.add_0_l, Hh. rewrite Eh at 1 2. rewrite <- !app_assoc.
  set (a := take 4 (drop 1 buf)). assert (length a = 4%nat) as Ha by (unfold a; rewrite length_take, length_drop; lia).
  set (x := take 2 (drop 4 h)). assert (length x = 2%nat) as Hx by (unfold x; rewrite length_take, length_drop; lia).
  change (take 0 m0) with (@nil Z). rewrite !app_nil_l. rewrite (take_app_exact a) by done. cbn [Nat.add length st16]. rewrite (app_assoc a x), (drop_app_exact (a ++ x)) by (rewrite length_app; lia).
  repeat f_equal. lia.
Qed.

Lemma poke_post buf m off d :
  (8 <= off)%nat -> reply_msg buf m -> post (poke m off d) (reply_msg buf).
Proof.
  intros Ho (sub & body & -> & Ha & Hl) w m' w' E. apply poke_Some in E as [-> Hlen]. rewrite !length_app, Ha in Hlen. cbn in Hlen.
  exists sub, (splice body (off - 8) d). rewrite splice_length by lia. split; [|done].
  set (p := take 4 (drop 1 buf)) in *. rewrite !app_assoc.
  set (q := (p ++ st16 _) ++ [_; _]). assert (length q = 8%nat) as Hq by (unfold q; rewrite !length_app, Ha; done).
  unfold splice. rewrite take_app_ge, drop_app_ge, Hq by lia. rewrite <- app_assoc. repeat f_equal. lia.
Qed.

Lemma answer_post buf size m : reply_msg buf m -> post (answer size m) (typed_frame buf).
Proof.
  intros Hm w out w'. destruct Hm as (sub & body & E & Ha & Hl).
  assert (ld16 m 4 = Z.of_nat (length m)) as El.
  { rewrite E, ld16_at by done. rewrite !length_app, Ha. cbn [length st16]. rewrite u16_small by lia. lia. }
  unfold answer. rewrite El, Nat2Z.id, bind_run. destruct (peek m 0 (length m) w) as [[p w1]|] eqn:Ep; [|done].
  apply peek_Some in Ep as [-> _]. rewrite drop_0, take_ge by lia. unfold translate_to.
  destruct (_ <=? size)%nat; [|done]. rewrite mret_run. intros [= <- _]. exists m. split; [|done]. by exists sub, body.
Qed.

Lemma put_status_post buf s m : reply_msg buf m -> post (put_status s m) (reply_msg buf).
Proof. apply poke_post. lia. Qed.

Lemma put_length_post buf n m : reply_msg buf m -> post (put_length n m) (reply_msg buf).
Proof. apply poke_post. lia. Qed.

Lemma flag_begin_post buf : post (flag_begin buf) (reply_msg buf).
Proof.
  unfold flag_begin. eapply post_mbind; [apply rsp_begin_post; lia|]. intros m Hm. by apply poke_post; [lia|].
Qed.

(** Steps that make or change the message, and all other steps. *)
Ltac msg_step :=
  lazymatch goal with
  | |- reply_msg _ _ => eassumption
  | |- post (put_status _ _) _ => apply put_status_post
  | |- post (put_length _ _) _ => apply put_length_post
  | |- post (poke _ _ _) _ => apply poke_post; [lia|]
  | |- post (flag_begin _) _ => apply flag_begin_post
  | |- post (rsp_begin _ _) _ => apply rsp_begin_post; lia
  | |- post (mret _) _ => apply post_mret
  | |- post (match ?x with _ => _ end) _ => destruct x
  | |- post (_ ≫= _) _ => apply post_any; intros ?
  end.
Ltac reply_step buf :=
  lazymatch goal with
  | |- reply_msg _ _ => eassumption
  | |- post (answer _ _) _ => apply answer_post
  | |- post undefined _ => apply post_undefined
  | |- post (let _ := _ in _) _ => cbv zeta
  | |- post (match ?x with _ => _ end) _ => destruct x eqn:?
  | |- post (_ ≫= _) _ =>
      first [ eapply (post_mbind _ _ (reply_msg buf)); [solve [repeat msg_step]|intros ? ?] | apply post_any; intros ? ]
  end.

(** Every handler that returns answers with one frame. *)
Lemma handlers_typed buf name path :
  Forall (fun h => post (h buf) (typed_frame buf))
    [eng_diag_enable_charge; eng_diag_get_charge_current; eng_diag_get_modem_mode; eng_diag_set_backlight;
     eng_diag_cft_switch_hdlr; eng_diag_set_powermode name path; eng_diag_set_ipconfigure name path;
     eng_diag_read_register; eng_diag_write_register; eng_diag_read_efuse; eng_diag_write_efuse;
     eng_diag_enable_secure; eng_diag_read_enable_secure_bit; eng_diag_read_publickey].
Proof.
  repeat apply Forall_cons_2; try apply Forall_nil_2.
  - unfold eng_diag_enable_charge. repeat reply_step buf.
  - unfold eng_diag_get_charge_current. repeat reply_step buf.
  - unfold eng_diag_get_modem_mode. repeat reply_step buf.
  - unfold eng_diag_set_backlight. repeat reply_step buf.
  - unfold eng_diag_cft_switch_hdlr. repeat reply_step buf.
  - unfold eng_diag_set_powermode. repeat reply_step buf.
  - unfold eng_diag_set_ipconfigure. repeat reply_step buf.
  - unfold eng_diag_read_register. repeat reply_step buf.
  - unfold eng_diag_write_register. repeat reply_step buf.
  - unfold eng_diag_read_efuse. repeat reply_step buf.
  - unfold eng_diag_write_efuse. repeat reply_step buf.
  - unfold eng_diag_enable_secure. repeat reply_step buf.
  - unfold eng_diag_read_enable_secure_bit. repeat reply_step buf.
  - unfold eng_diag_read_publickey. repeat reply_step buf.
Qed.

(** ** Requests that are always answered *)

Definition runs {A} (m : M A) (Q : A -> Prop) : Prop := forall w, exists a w', m w = Some (a, w') /\ Q a.

Lemma runs_bind {A B} (m : M A) (f : A -> M B) (P : A -> Prop) (Q : B -> Prop) :
  runs m P -> (forall a, P a -> runs (f a) Q) -> runs (m ≫= f) Q.
Proof.
  intros Hm Hf w. destruct (Hm w) as (a & w1 & E & Ha). rewrite bind_run, E. by apply Hf.
Qed.

Lemma runs_ret {A} (a : A) (Q : A -> Prop) : Q a -> runs (mret a) Q.
Proof. intros H w. by exists a, w. Qed.

Lemma runs_post {A} (m : M A) (P Q : A -> Prop) : runs m P -> post m Q -> runs m (fun a => P a /\ Q a).
Proof. intros Hr Hp w. destruct (Hr w) as (a & w1 & E & Ha). exists a, w1. split; [done|]. split; [done|]. by eapply Hp. Qed.

Lemma peek_runs m off len : (off + len <= length m)%nat -> runs (peek m off len) (fun _ => True).
Proof. intros H w. unfold peek, lift. rewrite mem_read_nat by done. eauto. Qed.

Lemma poke_runs m off d : (off + length d <= length m)%nat -> runs (poke m off d) (fun m' => length m' = length m).
Proof. intros H w. unfold poke, lift. rewrite mem_write_nat by done. eexists _, w. split; [done|]. by apply splice_length. Qed.

(** A reply message of [n] bytes. *)
Definition msg_of (buf : list Z) (n : nat) (m : list Z) : Prop := length m = n /\ reply_msg buf m.

Lemma rsp_begin_runs buf n :
  (9 <= length buf)%nat -> (8 <= n)%nat -> Z.of_nat n < 65536 -> runs (rsp_begin buf n) (msg_of buf n).
Proof.
  intros Hb Hn Hn'. apply runs_post; [|by apply rsp_begin_post].
  intros w. unfold rsp_begin, malloc, gets. rewrite bind_run, bind_run. unfold peek, lift.
  rewrite mem_read_nat by (unfold SIZEOF_HEAD; lia). rewrite bind_run. set (m0 := map _ _).
  assert (length m0 = n) as H0 by (unfold m0; by rewrite length_map, length_seq).
  destruct (poke_runs m0 0 (take SIZEOF_HEAD (drop 1 buf))) with (w := w) as (m1 & w1 & -> & H1);
    [rewrite length_take; unfold SIZEOF_HEAD; lia|].
  destruct (poke_runs m1 4 (st16 (Z.of_nat n))) with (w := w1) as (m2 & w2 & -> & H2); [cbn; lia|].
  exists m2, w2. split; [done|lia].
Qed.

Lemma poke_msg buf n m off d :
  (8 <= off)%nat -> (off + length d <= n)%nat -> msg_of buf n m -> runs (poke m off d) (msg_of buf n).
Proof.
  intros Ho Hd [Hl Hm] w. destruct (runs_post _ _ _ (poke_runs m off d ltac:(lia)) (poke_post buf m off d Ho Hm) w)
    as (m' & w' & E & H1 & H2). exists m', w'. split; [done|]. split; [lia|done].
Qed.

Lemma answer_runs buf n size m : (2 * n + 2 <= size)%nat -> msg_of buf n m -> runs (answer size m) (fun _ => True).
Proof.
  intros Hs [Hn (sub & body & E & Ha & Hl)] w.
  assert (ld16 m 4 = Z.of_nat (length m)) as El.
  { rewrite E, ld16_at by done. rewrite !length_app, Ha. cbn [length st16]. rewrite u16_small by lia. lia. }
  unfold answer. rewrite El, Nat2Z.id, bind_run. unfold peek, lift. rewrite mem_read_nat by lia.
  rewrite drop_0, take_ge by lia. unfold translate_to.
  assert (length (eng_translate_packet m) <= size)%nat as Hf.
  { unfold eng_translate_packet, translate_packet. cbn [length]. rewrite length_app. cbn [length].
    pose proof (escs_length m). lia. }
  destruct (Nat.leb_spec (length (eng_translate_packet m)) size); [|lia]. eauto.
Qed.

Lemma rd16_runs m off : (off + 2 <= length m)%nat -> runs (rd16 m off) (fun _ => True).
Proof. intros H. eapply runs_bind; [by apply peek_runs|]. intros. by apply runs_ret. Qed.

Lemma rd32_runs m off : (off + 4 <= length m)%nat -> runs (rd32 m off) (fun _ => True).
Proof. intros H. eapply runs_bind; [by apply peek_runs|]. intros. by apply runs_ret. Qed.

Lemma gets_runs {A} (f : world -> A) : runs (gets f) (fun _ => True).
Proof. intros w. by exists (f w), w. Qed.

Lemma switch_runs a b v : runs (switch_charger a b v) (fun _ => True).
Proof.
  intros w. unfold switch_charger, gets. rewrite bind_run. destruct (_ =? a); [|by eexists _, _].
  rewrite bind_run. unfold open_write, gets. destruct (files w !! CHARGER_STOP_PATH) as [f|] eqn:E; [|by eexists _, _].
  destruct (f_wopen f); [|by eexists _, _]. rewrite bind_run. unfold write_file. rewrite E.
  destruct (f_ok f); [|by eexists _, _]. by destruct (_ <? 0); eexists _, _.
Qed.

Lemma write_number_runs p v : runs (write_number p v) (fun _ => True).
Proof.
  intros w. unfold write_number. rewrite bind_run. unfold open_write, gets.
  destruct (files w !! p) as [f|] eqn:E; [|by eexists _, _]. destruct (f_wopen f); [|by eexists _, _].
  rewrite bind_run. unfold write_file. rewrite E. destruct (f_ok f); by eexists _, _.
Qed.

Lemma property_set_runs k v : runs (property_set k v) (fun _ => True).
Proof. intros w. by eexists _, _. Qed.

Lemma runs_weaken {A} (m : M A) (P : A -> Prop) : runs m P -> runs m (fun _ => True).
Proof. intros H w. destruct (H w) as (a & w' & E & _). eauto. Qed.

(** One step of a handler that builds a message of [n] bytes from [buf]. *)
Ltac runs_leaf buf n :=
  lazymatch goal with
  | |- runs (rsp_begin _ _) _ => apply rsp_begin_runs; lia
  | |- runs (flag_begin _) _ =>
      eapply runs_bind; [apply rsp_begin_runs; lia|intros ? ?; apply poke_msg; [lia|cbn; lia|assumption]]
  | |- runs (put_status _ _) _ => apply poke_msg; [lia|cbn; lia|assumption]
  | |- runs (put_length _ _) _ => apply poke_msg; [lia|cbn; lia|assumption]
  | |- runs (poke _ _ _) _ => apply poke_msg; [lia|cbn; lia|assumption]
  | |- runs (mret _) _ => apply runs_ret; assumption
  | |- runs (rd16 _ _) _ => apply rd16_runs; lia
  | |- runs (rd32 _ _) _ => apply rd32_runs; lia
  | |- runs (gets _) _ => apply gets_runs
  | |- runs (property_set _ _) _ => apply property_set_runs
  | |- runs connect_vbus_charger _ => apply switch_runs
  | |- runs disconnect_vbus_charger _ => apply switch_runs
  | |- runs (write_number _ _) _ => apply write_number_runs
  | |- runs (answer _ _) _ => apply (answer_runs buf n); [apply Nat.leb_le; vm_compute; reflexivity|assumption]
  end.
Ltac runs_steps buf n :=
  repeat lazymatch goal with
    | |- runs (if ?b then _ else _) _ => destruct b
    | |- runs (_ ≫= _) _ =>
        first [ eapply (runs_bind _ _ (msg_of buf n)); [solve [runs_steps buf n]|intros ? ?]
              | eapply (runs_bind _ _ (fun _ => True)); [runs_leaf buf n|intros ? _] ]
    | |- _ => runs_leaf buf n
    end.

Lemma handlers_answer buf :
  (17 <= length buf)%nat ->
  Forall (fun h => runs (h buf) (fun _ => True))
    [eng_diag_enable_charge; eng_diag_set_backlight; eng_diag_cft_switch_hdlr; eng_diag_enable_secure;
     eng_diag_read_enable_secure_bit].
Proof.
  intros Hb. repeat apply Forall_cons_2; try apply Forall_nil_2.
  - unfold eng_diag_enable_charge. runs_steps buf 12%nat.
  - unfold eng_diag_set_backlight. runs_steps buf 14%nat.
  - unfold eng_diag_cft_switch_hdlr. runs_steps buf 12%nat.
  - unfold eng_diag_enable_secure. runs_steps buf 9%nat.
  - unfold eng_diag_read_enable_secure_bit. runs_steps buf 9%nat.
Qed.

(** ** Properties *)

(** C18: Whatever the state of the system and the request, each of these handlers
    that comes back answers with exactly one frame of a message that carries the
    sequence number and the type of the request and whose length field is the
    length of the message; and the handlers that use no text of the request or of
    a file always come back with such an answer. *)
Theorem replies_typed buf name path :
  (17 <= length buf)%nat ->
  Forall (fun h => post (h buf) (typed_frame buf))
    [eng_diag_get_charge_current; eng_diag_get_modem_mode; eng_diag_set_powermode name path;
     eng_diag_set_ipconfigure name path; eng_diag_read_register; eng_diag_write_register;
     eng_diag_read_efuse; eng_diag_write_efuse; eng_diag_read_publickey] /\
  Forall (fun h => runs (h buf) (typed_frame buf))
    [eng_diag_enable_charge; eng_diag_set_backlight; eng_diag_cft_switch_hdlr; eng_diag_enable_secure;
     eng_diag_read_enable_secure_bit].
Proof.
  intros Hb. pose proof (handlers_typed buf name path) as Ht. pose proof (handlers_answer buf Hb) as Ha.
  rewrite Forall_forall in Ht. split; apply Forall_forall; intros h Hh.
  - apply Ht. rewrite !elem_of_cons in *. tauto.
  - rewrite Forall_forall in Ha. intros w. destruct (Ha h Hh w) as (out & w' & E & _). exists out, w'. split; [done|].
    eapply (Ht h); [|done]. rewrite !elem_of_cons in *. tauto.
Qed.

Lemma replies_typed_witness :
  runs (eng_diag_enable_charge (replicate 20 0)) (typed_frame (replicate 20 0)).
Proof.
  assert (17 <= length (replicate 20 0))%nat as H by (cbn; lia).
  exact (proj1 (proj1 (Forall_cons _ _ _) (proj2 (replies_typed (replicate 20 0) [] [] H)))).
Defined.
