(* ===== verification/EngProd.v ===== *)
(** * Production data: IMEI, addresses, product area (apps/engmode/eng_diag.c,
    eng_productdata.c)

    Requests of the production tools: [eng_diag_btwifiimei] stores and reports
    IMEIs and the Bluetooth and WLAN addresses, protected by a CRC;
    [eng_diag_product_ctrl] and [eng_diag_direct_phschk] read and write the
    product area, where the stations of the production line leave their results;
    [eng_diag_mmicit_read] reports the results of the factory test. *)

From S2P Require Import Prelude Checksum Hdlc EngFrame EngText EngSys EngCmd EngAdc EngReply.

Definition crc16 (crc : Z) (buffer : list Z) : Z := calculate_crc crc buffer.

Definition rd8 (m : list Z) (off : nat) : M Z := lift (m !! off).

(** ** IMEI files *)

Definition SIZEOF_DIRECT : nat := 106.

(** The file of an IMEI and its place in [REF_NVWriteDirect_T]. *)
Definition imei_item (num : Z) : option (string * nat) :=
  if num =? 1 then Some ("/productinfo/imei1.txt", 0%nat)
  else if num =? 2 then Some ("/productinfo/imei2.txt", 8%nat)
  else if num =? 3 then Some ("/productinfo/imei3.txt", 74%nat)
  else if num =? 4 then Some ("/productinfo/imei4.txt", 82%nat)
  else None.

Definition eng_diag_write_imei (direct : list Z) (num : Z) : M Z :=
  match imei_item num with
  | None => mret 0
  | Some (path, off) =>
      imeinv ← peek direct off MAX_IMEI_LENGTH;
      f ← open_write path;
      match f with
      | None => mret 0
      | Some _ => ret ← write_file path 0 (ImeiConvNV2Str imeinv); mret (if 0 <? ret then 1 else 0)
      end
  end.

(** Result and the struct with the IMEI in it. *)
Definition eng_diag_read_imei (direct : list Z) (num : Z) : M (Z * list Z) :=
  match imei_item num with
  | None => mret (0, direct)
  | Some (path, off) =>
      f ← open_read path;
      match f with
      | None => mret (0, direct)
      | Some f =>
          let '(ret, d) := read_file f MAX_IMEI_STR_LENGTH in
          if 0 <? ret
          then direct ← poke direct off (ImeiConvStr2NV (d ++ replicate (MAX_IMEI_STR_LENGTH - length d) 0)); mret (1, direct)
          else mret (0, direct)
      end
  end.

(** ** Addresses as text *)

(** [eng_diag_char2hex]: the numbers between colons; two digits of each but the
    last are looked at. *)
Fixpoint char2hex_loop (fuel : nat) (chardata : list Z) : list Z :=
  match fuel with
  | O => []
  | S fuel =>
      match index_of 58 chardata with
      | Some i => u8 (fst (strtol 16 (take 2 chardata))) :: char2hex_loop fuel (drop (S i) chardata)
      | None => [u8 (fst (strtol 16 chardata))]
      end
  end.
Definition eng_diag_char2hex (chardata : list Z) : list Z := char2hex_loop (S (length chardata)) chardata.

Definition mac_text (a : list Z) : list Z :=
  fmt_02x (a !!! 0%nat) ++ [58] ++ fmt_02x (a !!! 1%nat) ++ [58] ++ fmt_02x (a !!! 2%nat) ++ [58] ++
  fmt_02x (a !!! 3%nat) ++ [58] ++ fmt_02x (a !!! 4%nat) ++ [58] ++ fmt_02x (a !!! 5%nat).

(** ** IMEI, Bluetooth and WLAN request *)

Definition DIAG_CMD_IMEI1BIT : Z := 0x01.
Definition DIAG_CMD_IMEI2BIT : Z := 0x02.
Definition DIAG_CMD_IMEI3BIT : Z := 0x10.
Definition DIAG_CMD_IMEI4BIT : Z := 0x20.
Definition DIAG_CMD_BTBIT : Z := 0x04.
Definition DIAG_CMD_WIFIBIT : Z := 0x40.
Definition DIAG_CMD_READ : Z := 0x80.

Definition has (mask bit : Z) : bool := negb (mask .& bit =? 0).
Definition any_imei (mask : Z) : bool :=
  has mask DIAG_CMD_IMEI1BIT || has mask DIAG_CMD_IMEI2BIT || has mask DIAG_CMD_IMEI3BIT || has mask DIAG_CMD_IMEI4BIT.
Definition imei_bits : list (Z * Z) :=
  [(DIAG_CMD_IMEI1BIT, 1); (DIAG_CMD_IMEI2BIT, 2); (DIAG_CMD_IMEI3BIT, 3); (DIAG_CMD_IMEI4BIT, 4)].

(** The loops over the four IMEIs stop at the first failure. *)
Fixpoint write_imeis (bits : list (Z * Z)) (mask : Z) (direct : list Z) (ret : Z) : M Z :=
  match bits with
  | [] => mret ret
  | (bit, num) :: bits =>
      if has mask bit
      then ret ← eng_diag_write_imei direct num; if ret <=? 0 then mret ret else write_imeis bits mask direct ret
      else write_imeis bits mask direct ret
  end.

Fixpoint read_imeis (bits : list (Z * Z)) (mask : Z) (direct : list Z) : M (list Z) :=
  match bits with
  | [] => mret direct
  | (bit, num) :: bits =>
      if has mask bit
      then '(ret, direct) ← eng_diag_read_imei direct num;
           if ret <=? 0 then mret direct else read_imeis bits mask direct
      else read_imeis bits mask direct
  end.

(** The message with the header of the request, [len] and [subtype] replaced. *)
Definition reply_to (buf : list Z) (len subtype : Z) (body : list Z) : M (list Z) :=
  h ← peek buf 1 SIZEOF_HEAD; mret (take 4 h ++ st16 len ++ [h !!! 6%nat; subtype] ++ body).

(** The addresses a write request carries. *)
Definition req_bt (sub : Z) (direct : list Z) : option (list Z) :=
  if has sub DIAG_CMD_BTBIT then Some (mac_text (rev (take 6 (drop 16 direct)))) else None.
Definition req_wifi (sub : Z) (direct : list Z) : option (list Z) :=
  if has sub DIAG_CMD_WIFIBIT then Some (mac_text (take 6 (drop 66 direct))) else None.

Definition btwifiimei_store (sub : Z) (direct : list Z) : M Z :=
  let cmd_mask := sub .& 0x7F in
  ret ← (if has cmd_mask DIAG_CMD_BTBIT || has cmd_mask DIAG_CMD_WIFIBIT
         then eng_btwifimac_write (req_bt sub direct) (req_wifi sub direct) else mret (-1));
  cali ← gets g_ap_cali_flag;
  if negb (cali =? 0) && any_imei cmd_mask then write_imeis imei_bits cmd_mask direct ret else mret ret.

(** An address file put into the struct at [off]; the Bluetooth address is
    turned around. *)
Definition load_addr (type : MacType) (turn : bool) (off : nat) (direct : list Z) : M (list Z) :=
  '(ret, a) ← eng_btwifimac_read [] type;
  if ret =? 0 then
    direct ← poke direct off (eng_diag_char2hex a);
    if turn then x ← peek direct off 6; poke direct off (rev x) else mret direct
  else mret direct.

(** The struct is the first part of an array of 504 bytes. *)
Definition btwifiimei_load (sub : Z) : M (list Z) :=
  let cmd_mask := sub .& 0x7F in
  direct ← mret (replicate 504 0);
  direct ← (if has sub DIAG_CMD_BTBIT then load_addr ENG_BT_MAC true 16 direct else mret direct);
  direct ← (if has sub DIAG_CMD_WIFIBIT then load_addr ENG_WIFI_MAC false 66 direct else mret direct);
  cali ← gets g_ap_cali_flag;
  direct ← (if negb (cali =? 0) && any_imei cmd_mask then read_imeis imei_bits cmd_mask direct else mret direct);
  peek direct 0 SIZEOF_DIRECT.

(** The bytes of the answer; none for a write request that the modem answers, too. *)
Definition eng_diag_btwifiimei (buf : list Z) : M (list Z) :=
  sub ← rd8 buf 8;
  if sub .& DIAG_CMD_READ =? 0 then
    direct ← peek buf 9 SIZEOF_DIRECT;
    crc1 ← rd8 buf 115;
    crc2 ← rd8 buf 116;
    let crc := crc16 0 direct in
    ret ← (if (crc1 =? crc .& 0xFF) && (crc2 =? (crc .>> 8) .& 0xFF) then btwifiimei_store sub direct else mret (-1));
    cp ← gets s_cp_ap_proc;
    if cp =? 0 then m ← reply_to buf 10 (if ret <=? 0 then 0 else 1) [0; 0]; translate_to 512 m
    else mret []
  else
    direct ← btwifiimei_load sub;
    m ← reply_to buf 116 1 (direct ++ st16 (crc16 0 direct));
    translate_to 512 m.

(** ** The product area (eng_productdata.c) *)

Definition PRODUCTINFO_FILE : string := "/dev/block/platform/sprd-sdhci.3/by-name/miscdata".
Definition PRODUCTINFO_FILE0 : string := "/productinfo/productinfo.bin".

(** Error code and the bytes read. *)
Definition eng_read_productnvdata (data_len : nat) : M (Z * list Z) :=
  f ← open_read PRODUCTINFO_FILE;
  mret match f with
       | Some f => let '(len, d) := read_file f data_len in if len <=? 0 then (1, d) else (0, d)
       | None => (1, [])
       end.

Definition write_copy (path : string) (d : list Z) : M unit :=
  f ← open_write path;
  match f with Some _ => _ ← write_file path 0 d; mret tt | None => mret tt end.

(** The copy in the file system is written after the area itself; its failure
    is not reported. *)
Definition eng_write_productnvdata (databuf : list Z) : M Z :=
  f ← open_write PRODUCTINFO_FILE;
  ret ← match f with
        | Some _ => len ← write_file PRODUCTINFO_FILE 0 databuf; mret (if len <=? 0 then 1 else 0)
        | None => mret 1
        end;
  _ ← (if ret =? 0 then write_copy PRODUCTINFO_FILE0 databuf else mret tt);
  mret ret.

(** ** Access by offset

    [head_len] is 12: header, offset, length.  A write reads [data_len] bytes from
    the start of the area, changes them at [offset] and writes [data_len] bytes
    back to the start. *)

Definition product_read (buf : list Z) (data_len : nat) : M (list Z) :=
  nvdata ← malloc (data_len + 12);
  h ← peek buf 1 12;
  nvdata ← poke nvdata 0 h;
  '(nverr, d) ← eng_read_productnvdata data_len;
  nvdata ← poke nvdata 12 d;
  let n := if nverr =? 0 then data_len else 0%nat in
  nvdata ← poke nvdata 7 [nverr];
  nvdata ← poke nvdata 4 (st16 (Z.of_nat (12 + n)));
  p ← peek nvdata 0 (12 + n);
  translate_to 8192 p.

Definition product_write (buf : list Z) (offset data_len : nat) : M (list Z) :=
  nvdata ← malloc 8192;
  '(nverr, d) ← eng_read_productnvdata data_len;
  nverr ← (if nverr =? 0 then
             nvdata ← poke nvdata 0 d;
             x ← peek buf 13 data_len;
             nvdata ← poke nvdata offset x;
             y ← peek nvdata 0 data_len;
             eng_write_productnvdata y
           else mret nverr);
  m ← reply_to buf 8 nverr [];
  translate_to 8192 m.

Definition eng_diag_product_ctrl (buf : list Z) : M (list Z) :=
  offset ← rd16 buf 9;
  data_len ← rd16 buf 11;
  if 8192 <? 12 + data_len + 2 then mret []
  else
    sub ← rd8 buf 8;
    if sub =? 2 then product_read buf (Z.to_nat data_len)
    else if sub =? 3 then product_write buf (Z.to_nat offset) (Z.to_nat data_len)
    else mret [].

(** ** Phase check *)

Definition IMEI_CMD_ERR : Z := 2.
Definition IMEI_SAVE_ERR : Z := 3.
Definition SIZEOF_TEST_DATA : nat := 256.

Definition phschk_write (buf data : list Z) (sub : Z) : M (list Z) :=
  error ← (if negb (sub .& 0x7F =? 0)
           then nverr ← eng_write_productnvdata data; mret (if nverr =? 0 then 0 else IMEI_SAVE_ERR)
           else mret IMEI_CMD_ERR);
  m ← (if error =? 0 then reply_to buf 10 1 (st16 0) else reply_to buf 12 0 (st16 error ++ st16 0));
  translate_to 8192 m.

Definition phschk_read (buf : list Z) : M (list Z) :=
  nvdata ← malloc (8192 + 10);
  '(nverr, d) ← eng_read_productnvdata 8192;
  nvdata ← poke nvdata 8 d;
  m ← (if nverr =? 0 then info ← peek nvdata 8 SIZEOF_TEST_DATA; reply_to buf 266 1 (info ++ st16 (crc16 0 info))
       else reply_to buf 10 0 (st16 0));
  translate_to 8192 m.

(** The length field of the request is used as it comes: below 10 the number of
    bytes of the check is negative.  A wrong CRC is not answered. *)
Definition eng_diag_direct_phschk (buf : list Z) : M (list Z) :=
  len ← rd16 buf 5;
  if len <? 10 then undefined
  else
    recv_crc ← rd16 buf (Z.to_nat len - 1);
    data ← peek buf 9 (Z.to_nat len - 10);
    if negb (recv_crc =? crc16 0 data) then mret []
    else
      sub ← rd8 buf 8;
      if sub .& 0x80 =? 0 then phschk_write buf data sub else phschk_read buf.

(** ** Results of the factory test *)

Definition row_bytes (r : str2int_row) : list Z :=
  [u8 (Z.of_nat (length (r_name r)) + 2); u8 (r_groupid r); u8 (r_value r)] ++ r_name r.

(** Without a table the request itself is sent back. *)
Definition eng_diag_mmicit_read (buf : list Z) (len : nat) : M (list Z) :=
  t ← gets (fun w => sql_table (lib w));
  match t with
  | None => peek buf 0 len
  | Some rows =>
      let data := mjoin (map row_bytes rows) in
      if (8190 <? 8 + length data + 1)%nat then undefined
      else sub ← rd8 buf 8; m ← reply_to buf (Z.of_nat (8 + length data)) sub data; translate_to 8192 m
  end.

(** ** Lemmas *)

Lemma open_write_regular p d w :
  files w !! p = Some (File d true true true) -> open_write p w = Some (Some (File d true true true), w).
Proof. intros E. unfold open_write, gets. by rewrite E. Qed.

Lemma write_regular p d x w :
  files w !! p = Some (File d true true true) ->
  write_file p 0 x w =
    Some (Z.of_nat (length x), set_files (<[p := File (x ++ drop (length x) d) true true true]> (files w)) w).
Proof. intros E. unfold write_file. rewrite E. cbn [f_ok f_reg f_data f_wopen]. unfold write_at. by rewrite take_0. Qed.

(** The length of a request and its header. *)
Lemma reply_to_run buf len sub body w :
  (9 <= length buf)%nat ->
  reply_to buf len sub body w =
    Some (take 4 (drop 1 buf) ++ st16 len ++ [buf !!! 7%nat; sub] ++ body, w).
Proof.
  intros Hb. unfold reply_to. rewrite bind_run. unfold peek, lift. rewrite mem_read_nat by (unfold SIZEOF_HEAD; lia).
  rewrite mret_run. unfold SIZEOF_HEAD. rewrite take_take. cbn [Nat.min].
  assert (take 8 (drop 1 buf) !!! 6%nat = buf !!! 7%nat) as ->.
  { rewrite !list_lookup_total_alt, lookup_take_lt, lookup_drop by lia. done. }
  done.
Qed.

Lemma translate_to_run size p w :
  (2 * length p + 2 <= size)%nat -> translate_to size p w = Some (eng_translate_packet p, w).
Proof.
  intros H. unfold translate_to. assert (length (eng_translate_packet p) <= size)%nat.
  { unfold eng_translate_packet, translate_packet. cbn [length]. rewrite length_app. cbn [length].
    pose proof (escs_length p). lia. }
  by destruct (Nat.leb_spec (length (eng_translate_packet p)) size); [|lia].
Qed.

(** The area after a write of [n] bytes [x] at [o]. *)
Definition area_after (o : nat) (x A : list Z) : list Z :=
  take (length x) (take o A ++ x) ++ drop (length x) A.

Lemma area_after_start x A : area_after 0 x A = x ++ drop (length x) A.
Proof. unfold area_after. by rewrite take_0, app_nil_l, take_ge. Qed.

Lemma area_after_behind o x A : (length x <= o)%nat -> (length x <= length A)%nat -> area_after o x A = A.
Proof.
  intros H1 H2. unfold area_after. rewrite take_app_le by (rewrite length_take; lia).
  rewrite take_take, Nat.min_l by lia. apply take_drop.
Qed.

Lemma write_productnvdata_ok d A w :
  files w !! PRODUCTINFO_FILE = Some (File A true true true) -> d <> [] ->
  exists w1, eng_write_productnvdata d w = Some (0, w1) /\
    files w1 !! PRODUCTINFO_FILE = Some (File (d ++ drop (length d) A) true true true).
Proof.
  intros E Hd. unfold eng_write_productnvdata. rewrite bind_run, (open_write_regular _ A) by done.
  rewrite bind_run. rewrite bind_run, (write_regular _ A) by done. rewrite mret_run.
  destruct (Z.leb_spec (Z.of_nat (length d)) 0); [destruct d; cbn in *; done || lia|]. change (0 =? 0) with true. cbv iota.
  set (w1 := set_files _ w). rewrite bind_run. unfold write_copy. rewrite bind_run. unfold open_write, gets.
  assert (files w1 !! PRODUCTINFO_FILE = Some (File (d ++ drop (length d) A) true true true)) as E1
    by (unfold w1; cbn [files set_files]; by rewrite lookup_insert_eq).
  destruct (files w1 !! PRODUCTINFO_FILE0) as [f|] eqn:E0; [|by exists w1].
  destruct (f_wopen f); [|by exists w1]. rewrite bind_run. unfold write_file. rewrite E0.
  destruct (f_ok f); [|by exists w1]. destruct (f_reg f); (eexists; split; [done|]); cbn [files set_files add_dev]; [|done].
  by rewrite lookup_insert_ne.
Qed.

Lemma product_write_run buf o x A w :
  let n := length x in
  (9 <= length buf)%nat -> (13 + n <= length buf)%nat -> take n (drop 13 buf) = x ->
  x <> [] -> (n <= length A)%nat -> (o + n <= 8192)%nat -> files w !! PRODUCTINFO_FILE = Some (File A true true true) ->
  exists w1, product_write buf o n w =
      Some (eng_translate_packet (take 4 (drop 1 buf) ++ st16 8 ++ [buf !!! 7%nat; 0]), w1) /\
    files w1 !! PRODUCTINFO_FILE = Some (File (area_after o x A) true true true).
Proof.
  intros n Hb Hb' Hx Hne HA Ho E. unfold product_write. rewrite bind_run. unfold malloc, gets.
  remember 8192%nat as big eqn:Ebig. assert (50 <= big)%nat as H50 by (rewrite Ebig; apply Nat.leb_le; by vm_compute).
  set (nv := map _ _).
  assert (length nv = big) as Hnv by (unfold nv; by rewrite length_map, length_seq).
  rewrite bind_run. unfold eng_read_productnvdata at 1. rewrite bind_run. unfold open_read, gets. rewrite E, mret_run.
  cbn [read_file f_ok f_data]. rewrite length_take, Nat.min_l by lia.
  assert (0 < n)%nat as Hn by (destruct x; cbn in *; [done|lia]).
  destruct (Z.leb_spec (Z.of_nat n) 0); [lia|]. cbv iota beta. change (0 =? 0) with true. cbv iota.
  rewrite bind_run. rewrite bind_run, poke_head by (rewrite length_take; lia).
  set (nv1 := take n A ++ _). assert (length nv1 = big) as Hnv1.
  { unfold nv1. rewrite length_app, length_drop, !length_take. lia. }
  rewrite bind_run. unfold peek at 1, lift. rewrite mem_read_nat, Hx by lia.
  rewrite bind_run. unfold poke, lift. rewrite mem_write_nat by (fold n; lia). rewrite bind_run.
  unfold peek at 1, lift. rewrite mem_read_nat by (rewrite splice_length; fold n; lia). rewrite drop_0.
  assert (take n (splice nv1 o x) = take n (take o A ++ x)) as ->.
  { unfold splice. destruct (decide (o <= n)%nat) as [Hon|Hon].
    - assert (take o nv1 = take o A) as ->.
      { unfold nv1. rewrite take_app_le by (rewrite length_take; lia). rewrite take_take. f_equal. lia. }
      rewrite app_assoc. rewrite take_app_le; [done|]. rewrite length_app, length_take. fold n. lia.
    - rewrite !(take_app_le (take o _)) by (rewrite length_take; lia). rewrite !take_take, Nat.min_l by lia.
      unfold nv1. rewrite take_app_le by (rewrite length_take; lia). rewrite take_take. f_equal. lia. }
  set (y := take n (take o A ++ x)). assert (length y = n) as Hy by (unfold y; rewrite length_take, length_app; fold n; lia).
  destruct (write_productnvdata_ok y A w E) as (w1 & Ew & Hw1); [intros Hy0; rewrite Hy0 in Hy; cbn in Hy; lia|].
  rewrite Ew, bind_run, reply_to_run by done. rewrite translate_to_run.
  2:{ rewrite !length_app, length_take. cbn [length st16]. lia. }
  exists w1. split; [done|]. rewrite Hw1. unfold area_after. fold n y. by rewrite Hy.
Qed.

(** A decoded request to the product area in its buffer. *)
Definition product_req (seq sub o n : Z) (x pad : list Z) : list Z :=
  0x7E :: (st32 seq ++ st16 (12 + Z.of_nat (length x)) ++ [0x0D; sub]) ++ (st16 o ++ st16 n) ++ x ++ pad.

(** The same request as the pieces that its handlers look at. *)
Lemma product_req_fields seq sub o n x pad (m := product_req seq sub o n x pad) :
  0 <= o < 65536 -> 0 <= n < 65536 ->
  (length m = 13 + length x + length pad)%nat /\ take 4 (drop 1 m) = st32 seq /\ m !!! 7%nat = 0x0D /\ m !! 8%nat = Some sub /\
  m !! 8%nat = Some sub /\ take 12 (drop 1 m) = st32 seq ++ st16 (12 + Z.of_nat (length x)) ++ [0x0D; sub] ++ st16 o ++ st16 n /\
  (forall w, rd16 m 9 w = Some (o, w) /\ rd16 m 11 w = Some (n, w)) /\ drop 13 m = x ++ pad.
Proof.
  intros Ho Hn. subst m. unfold product_req. cbn [length app]. split_and!; try done.
  - cbn [st32 st16 app length]. rewrite !length_app. lia.
  - intros w. unfold rd16, peek, lift. rewrite !bind_run.
    rewrite !mem_read_nat by (cbn [st32 st16 app length]; lia). cbn [st32 st16 app]. cbn [drop take app]. rewrite !mret_run.
    rewrite ?take_0. change [u8 o; u8 (o .>> 8)] with (st16 o). change [u8 n; u8 (n .>> 8)] with (st16 n).
    rewrite !ld16_st16, !u16_small by lia. done.
Qed.

Lemma product_read_run buf n A w :
  (13 <= length buf)%nat -> (0 < n <= length A)%nat -> (n <= 4083)%nat ->
  files w !! PRODUCTINFO_FILE = Some (File A true true true) ->
  product_read buf n w =
    Some (eng_translate_packet (take 4 (drop 1 buf) ++ st16 (Z.of_nat (12 + n)) ++ [buf !!! 7%nat; 0] ++
      take 4 (drop 9 buf) ++ take n A), w).
Proof.
  intros Hb Hn Hn' E. unfold product_read. rewrite bind_run. unfold malloc, gets. set (nv := map _ _).
  assert (length nv = (n + 12)%nat) as Hnv by (unfold nv; by rewrite length_map, length_seq).
  rewrite bind_run. unfold peek at 1, lift. rewrite mem_read_nat by lia.
  set (h := take 12 (drop 1 buf)). assert (length h = 12%nat) as Hh by (unfold h; rewrite length_take, length_drop; lia).
  rewrite bind_run, poke_head, Hh by lia. rewrite bind_run. unfold eng_read_productnvdata. rewrite bind_run.
  unfold open_read, gets. rewrite E, mret_run. cbn [read_file f_ok f_data]. rewrite length_take, Nat.min_l by lia.
  destruct (Z.leb_spec (Z.of_nat n) 0); [lia|]. cbv iota beta. change (0 =? 0) with true. cbv iota.
  rewrite bind_run, poke_tail by (rewrite length_app, length_drop, length_take; lia).
  rewrite take_app_exact by lia.
  assert (h = take 4 (drop 1 buf) ++ take 2 (drop 4 h) ++ [buf !!! 7%nat] ++ [buf !!! 8%nat] ++ take 4 (drop 9 buf)) as Eh.
  { unfold h. do 13 (destruct buf as [|? buf]; [cbn in Hb; lia|]). done. }
  rewrite Eh. set (a := take 4 (drop 1 buf)). set (x := take 2 (drop 4 h)). set (c := take 4 (drop 9 buf)).
  assert (length a = 4%nat) as La by (unfold a; rewrite length_take, length_drop; lia).
  assert (length x = 2%nat) as Lx by (unfold x; rewrite length_take, length_drop; lia).
  rewrite <- !app_assoc. rewrite (app_assoc a), (app_assoc (a ++ x)).
  rewrite bind_run, (poke_at ((a ++ x) ++ [_]) [_]) by (rewrite ?length_app, ?La, ?Lx; done).
  rewrite <- !app_assoc. rewrite bind_run, (poke_at a x) by done.
  rewrite bind_run. set (m := a ++ _). assert (length m = (12 + n)%nat) as Lm.
  { unfold m, c. rewrite !length_app, !length_take, length_drop, La. cbn [length st16]. lia. }
  unfold peek, lift. rewrite mem_read_nat, drop_0, take_ge by lia. rewrite translate_to_run; [done|].
  rewrite Lm. transitivity 8192%nat; [|done]. transitivity (2 * (12 + 4083) + 2)%nat; [lia|]. apply Nat.leb_le. by vm_compute.
Qed.

(** Writes to the product area are as the code orders them: a request to
    write [x] at [o] is answered with success, and afterwards the area differs from
    what it was only in its first [length x] bytes, which are cut from the old area
    with [x] laid over it at [o].  Written at 0, the data are stored and a read
    request returns them; written at an offset of their length or more, nothing is
    stored although the answer is success. *)
Theorem product_area_write seq seq' o x pad pad' A w :
  x <> [] -> (length x <= length A)%nat -> (length x <= 4083)%nat -> 0 <= o -> o + Z.of_nat (length x) <= 8192 ->
  files w !! PRODUCTINFO_FILE = Some (File A true true true) ->
  exists w1,
    eng_diag_product_ctrl (product_req seq 3 o (Z.of_nat (length x)) x pad) w =
      Some (eng_translate_packet (st32 seq ++ st16 8 ++ [0x0D; 0]), w1) /\
    files w1 !! PRODUCTINFO_FILE = Some (File (area_after (Z.to_nat o) x A) true true true) /\
    (o = 0 ->
       eng_diag_product_ctrl (product_req seq' 2 0 (Z.of_nat (length x)) [] pad') w1 =
         Some (eng_translate_packet (st32 seq' ++ st16 (12 + Z.of_nat (length x)) ++ [0x0D; 0] ++
           st16 0 ++ st16 (Z.of_nat (length x)) ++ x), w1)) /\
    (Z.of_nat (length x) <= o -> area_after (Z.to_nat o) x A = A).
Proof.
  intros Hx HA Hn Ho Ho' E. assert (0 < length x)%nat as H0 by (destruct x; cbn in *; [done|lia]).
  destruct (product_req_fields seq 3 o (Z.of_nat (length x)) x pad) as (Hl & H4 & H7 & H8 & _ & _ & Hrd & H13); [lia..|].
  set (buf := product_req seq 3 o _ x pad) in *.
  destruct (product_write_run buf (Z.to_nat o) x A w) as (w1 & Ew & Hw1); try done; try lia.
  { by rewrite H13, take_app_length. }
  { apply Nat2Z.inj_le. rewrite Nat2Z.inj_add, Z2Nat.id by lia. transitivity 8192; [lia|by vm_compute]. }
  exists w1. unfold eng_diag_product_ctrl. split_and!.
  - rewrite bind_run, (proj1 (Hrd w)), bind_run, (proj2 (Hrd w)).
    destruct (Z.ltb_spec 8192 (12 + Z.of_nat (length x) + 2)); [lia|]. rewrite bind_run. unfold rd8, lift. rewrite H8.
    change (3 =? 2) with false. change (3 =? 3) with true. cbv iota. by rewrite Nat2Z.id, Ew, H4, H7.
  - done.
  - intros ->. destruct (product_req_fields seq' 2 0 (Z.of_nat (length x)) [] pad') as (Hl' & H4' & H7' & H8' & _ & H12 & Hrd' & _); [lia..|].
    set (buf' := product_req seq' 2 0 _ [] pad') in *.
    rewrite bind_run, (proj1 (Hrd' w1)), bind_run, (proj2 (Hrd' w1)).
    destruct (Z.ltb_spec 8192 (12 + Z.of_nat (length x) + 2)); [lia|]. rewrite bind_run. unfold rd8, lift. rewrite H8'.
    change (2 =? 2) with true. cbv iota. rewrite Nat2Z.id. rewrite (product_read_run _ _ (area_after 0 x A)); [|rewrite Hl'; cbn [length]; lia| |done|done].
    + rewrite H4', H7', area_after_start, take_app_length.
      assert (take 4 (drop 9 buf') = st16 0 ++ st16 (Z.of_nat (length x))) as -> by done.
      rewrite Nat2Z.inj_add. done.
    + rewrite area_after_start, length_app. lia.
  - intros Hb. apply area_after_behind; lia.
Qed.

Lemma product_area_write_witness :
  exists w1, eng_diag_product_ctrl (product_req 7 3 4 3 [1; 2; 3] []) (init_world {[ PRODUCTINFO_FILE := File (replicate 16 0xEE) true true true ]}) =
      Some (eng_translate_packet (st32 7 ++ st16 8 ++ [0x0D; 0]), w1) /\
    files w1 !! PRODUCTINFO_FILE = Some (File (replicate 16 0xEE) true true true).
Proof.
  destruct (product_area_write 7 8 4 [1; 2; 3] [] [] (replicate 16 0xEE)
    (init_world {[ PRODUCTINFO_FILE := File (replicate 16 0xEE) true true true ]})) as (w1 & H1 & H2 & _); try done.
  - cbn; lia.
  - apply Nat.leb_le. by vm_compute.
  - exists w1. split; [exact H1|]. rewrite H2. reflexivity.
Defined.

(** ** Addresses and IMEIs, stored and loaded *)

Lemma fmt_02x_facts b :
  0 <= b < 256 ->
  u8 (fst (strtol 16 (fmt_02x b))) = b /\ index_of 58 (fmt_02x b) = None /\ Forall (fun c => c <> 0) (fmt_02x b).
Proof.
  intros Hb.
  pose proof (byte_cases (fun b => (u8 (fst (strtol 16 (fmt_02x b))) =? b) &&
    bool_decide (index_of 58 (fmt_02x b) = None) && forallb (fun c => negb (c =? 0)) (fmt_02x b)) b ltac:(by vm_compute) Hb) as H.
  apply andb_true_iff in H as [H H3]. apply andb_true_iff in H as [H1 H2].
  apply Z.eqb_eq in H1. apply bool_decide_eq_true in H2. split_and!; [done..|].
  unfold fmt_02x in *. cbn [forallb] in H3. rewrite !andb_true_iff, !negb_true_iff, !Z.eqb_neq in H3.
  repeat constructor; naive_solver.
Qed.

Lemma index_of_app c s r : index_of c s = None -> index_of c (s ++ c :: r) = Some (length s).
Proof.
  induction s as [|d s IH]; cbn.
  - by rewrite Z.eqb_refl.
  - destruct (d =? c); [done|]. destruct (index_of c s); [done|]. intros _. by rewrite IH.
Qed.

Lemma char2hex_step fuel b r :
  0 <= b < 256 -> char2hex_loop (S fuel) (fmt_02x b ++ 58 :: r) = b :: char2hex_loop fuel r.
Proof.
  intros Hb. destruct (fmt_02x_facts b Hb) as (H1 & H2 & _). cbn [char2hex_loop].
  rewrite index_of_app by done. change (length (fmt_02x b)) with 2%nat. f_equal. by rewrite take_app_exact.
Qed.

Lemma char2hex_last fuel b : 0 <= b < 256 -> char2hex_loop (S fuel) (fmt_02x b) = [b].
Proof. intros Hb. destruct (fmt_02x_facts b Hb) as (H1 & H2 & _). cbn [char2hex_loop]. by rewrite H2, H1. Qed.

(** An address survives its text. *)
Lemma char2hex_mac a : length a = 6%nat -> bytes a -> eng_diag_char2hex (mac_text a) = a.
Proof.
  intros Hl Hb. do 6 (destruct a as [|? a]; [done|]). destruct a; [|done].
  rewrite !Forall_cons in Hb. destruct Hb as (H0 & H1 & H2 & H3 & H4 & H5 & _).
  unfold eng_diag_char2hex, mac_text. change (length _) with 17%nat. cbn [lookup_total list_lookup_total app].
  by rewrite !char2hex_step, char2hex_last by done.
Qed.

Lemma mac_text_facts a :
  length a = 6%nat -> bytes a -> mac_text a <> [] /\ length (mac_text a) = 17%nat /\ Forall (fun c => c <> 0) (mac_text a).
Proof.
  intros Hl Hb. do 6 (destruct a as [|? a]; [done|]). destruct a; [|done].
  rewrite !Forall_cons in Hb. destruct Hb as (H0 & H1 & H2 & H3 & H4 & H5 & _). split_and!; [done..|].
  unfold mac_text. cbn [lookup_total list_lookup_total].
  repeat (apply Forall_app_2; [by apply fmt_02x_facts|]; apply Forall_app_2; [by apply Forall_singleton|]). by apply fmt_02x_facts.
Qed.

Lemma write_imei_run direct num path off nv old w :
  imei_item num = Some (path, off) -> (off + 8 <= length direct)%nat -> take 8 (drop off direct) = nv -> length nv = 8%nat ->
  files w !! path = Some (File old true true true) ->
  eng_diag_write_imei direct num w =
    Some (1, set_files (<[path := File (ImeiConvNV2Str nv ++ drop 15 old) true true true]> (files w)) w).
Proof.
  intros Hi Hd Hnv Hl E. unfold eng_diag_write_imei. rewrite Hi, bind_run. unfold peek, lift, MAX_IMEI_LENGTH.
  rewrite mem_read_nat, Hnv by done. rewrite bind_run, (open_write_regular _ old), bind_run, (write_regular _ old) by done. done.
Qed.

Lemma read_imei_run num path off a x b nv t w :
  imei_item num = Some (path, off) -> length a = off -> length x = 8%nat -> length nv = 8%nat -> bytes nv ->
  (nv !!! 0%nat) .& 0x0F = 0x0A -> files w !! path = Some (File (ImeiConvNV2Str nv ++ t) true true true) ->
  eng_diag_read_imei (a ++ x ++ b) num w = Some ((1, a ++ nv ++ b), w).
Proof.
  intros Hi Ha Hx Hl Hb Hnib E. unfold eng_diag_read_imei. rewrite Hi, bind_run. unfold open_read, gets. rewrite E.
  cbn [read_file f_ok f_data]. rewrite (take_app_exact (ImeiConvNV2Str nv)) by done.
  change (length (ImeiConvNV2Str nv)) with 15%nat. change (0 <? Z.of_nat 15) with true. cbv iota.
  change (replicate (MAX_IMEI_STR_LENGTH - 15) 0) with (@nil Z). rewrite app_nil_r, imei_nv_str_nv by done.
  rewrite bind_run, poke_at by (rewrite ?Ha, ?Hl; done). done.
Qed.

(** The struct of a request from its parts. *)
Definition direct_of (i1 i2 bt gps wf r1 i3 i4 r2 : list Z) : list Z :=
  i1 ++ i2 ++ bt ++ gps ++ wf ++ r1 ++ i3 ++ i4 ++ r2.

(** The file of IMEI [num] holds the digits of [nv]. *)
Definition imei_stored (w : world) (num : Z) (nv : list Z) : Prop :=
  exists path off t, imei_item num = Some (path, off) /\
    files w !! path = Some (File (ImeiConvNV2Str nv ++ t) true true true).

(** The files of the four IMEIs exist and can be used. *)
Definition imei_files_ok (w : world) : Prop :=
  forall num path off, imei_item num = Some (path, off) -> exists old, files w !! path = Some (File old true true true).

Definition good_imei (nv : list Z) : Prop := length nv = 8%nat /\ bytes nv /\ (nv !!! 0%nat) .& 0x0F = 0x0A.

Lemma imei_item_cases num path off :
  imei_item num = Some (path, off) -> num ∈ [1; 2; 3; 4] /\ path ∉ [WIFI_MAC_FILE; BT_MAC_FILE; BT_ROOT_MAC_FILE].
Proof.
  unfold imei_item. repeat case_match; intros [= <- <-]; rewrite ?Z.eqb_eq in *; subst; (split; [set_solver|]);
    apply (bool_decide_unpack _); by vm_compute.
Qed.

Lemma imei_item_inj num num' path off off' :
  imei_item num = Some (path, off) -> imei_item num' = Some (path, off') -> num = num'.
Proof.
  unfold imei_item. repeat case_match; intros [= <- <-] [=]; rewrite ?Z.eqb_eq in *; congruence.
Qed.

(** One IMEI written: the others stay. *)
Lemma write_imei_keeps direct num path off nv w :
  imei_item num = Some (path, off) -> imei_files_ok w ->
  (off + 8 <= length direct)%nat -> take 8 (drop off direct) = nv -> length nv = 8%nat ->
  exists w1, eng_diag_write_imei direct num w = Some (1, w1) /\ imei_files_ok w1 /\ imei_stored w1 num nv /\
    (forall num' nv', num' <> num -> imei_stored w num' nv' -> imei_stored w1 num' nv') /\
    (forall p, (forall n q o, imei_item n = Some (q, o) -> p <> q) -> files w1 !! p = files w !! p) /\
    same_env w w1.
Proof.
  intros Hi Hok Hd Hnv Hl. destruct (Hok num path off Hi) as (old & E).
  rewrite (write_imei_run direct num path off nv old) by done. eexists. split; [done|]. cbn [files set_files].
  split_and!; try done.
  - intros n q o Hn. cbn [files set_files]. destruct (decide (q = path)) as [->|Hq].
    + rewrite lookup_insert_eq. by eexists.
    + rewrite lookup_insert_ne by done. by eapply Hok.
  - exists path, off, (drop 15 old). split; [done|]. cbn [files set_files]. by rewrite lookup_insert_eq.
  - intros n' nv' Hn (q & o & t & Hq & Ef). exists q, o, t. split; [done|]. cbn [files set_files].
    rewrite lookup_insert_ne; [done|]. intros <-. apply Hn. by eapply imei_item_inj.
  - intros p Hp. rewrite lookup_insert_ne; [done|]. intros ->. by eapply Hp.
Qed.

Lemma write_imeis_step bit num bits mask direct ret w w1 :
  has mask bit = true -> eng_diag_write_imei direct num w = Some (1, w1) ->
  write_imeis ((bit, num) :: bits) mask direct ret w = write_imeis bits mask direct 1 w1.
Proof. intros Hb E. cbn [write_imeis]. by rewrite Hb, bind_run, E. Qed.

Lemma read_imeis_step bit num bits mask direct direct' w :
  has mask bit = true -> eng_diag_read_imei direct num w = Some ((1, direct'), w) ->
  read_imeis ((bit, num) :: bits) mask direct w = read_imeis bits mask direct' w.
Proof. intros Hb E. cbn [read_imeis]. by rewrite Hb, bind_run, E. Qed.

Lemma load_addr_run type path root (turn : bool) a x b v w :
  (path, root) = match type with ENG_WIFI_MAC => (WIFI_MAC_FILE, WIFI_ROOT_MAC_FILE) | ENG_BT_MAC => (BT_MAC_FILE, BT_ROOT_MAC_FILE) end ->
  length v = 6%nat -> bytes v -> length x = 6%nat -> files w !! path = Some (File (mac_text v) true true true) ->
  load_addr type turn (length a) (a ++ x ++ b) w = Some (a ++ (if turn then rev v else v) ++ b, w).
Proof.
  intros Hp Hl Hb Hx E. destruct (mac_text_facts v Hl Hb) as (T1 & T2 & T3). unfold load_addr.
  rewrite bind_run, (mac_read_spec _ type path root (mac_text v)) by (done || lia).
  change (0 =? 0) with true. cbv iota beta. rewrite bind_run, char2hex_mac, poke_at by (done || lia).
  destruct turn; [|done]. rewrite bind_run, peek_at by (done || lia). by rewrite poke_at by (rewrite ?length_rev; done || lia).
Qed.

Section production.
  Context (i1 i2 bt gps wf r1 i3 i4 r2 : list Z).
  Context (H1 : good_imei i1) (H2 : good_imei i2) (H3 : good_imei i3) (H4 : good_imei i4).
  Context (Hbt : length bt = 6%nat /\ bytes bt) (Hwf : length wf = 6%nat /\ bytes wf).
  Context (Hgps : length gps = 44%nat) (Hr1 : length r1 = 2%nat) (Hr2 : length r2 = 16%nat).

Let D : list Z := direct_of i1 i2 bt gps wf r1 i3 i4 r2.

(** Everything the request carries is in its file. *)
Definition all_stored (w : world) : Prop :=
  files w !! BT_MAC_FILE = Some (File (mac_text (rev bt)) true true true) /\
  files w !! WIFI_MAC_FILE = Some (File (mac_text wf) true true true) /\
  imei_stored w 1 i1 /\ imei_stored w 2 i2 /\ imei_stored w 3 i3 /\ imei_stored w 4 i4.

Lemma direct_fields :
  length D = 106%nat /\ take 6 (drop 16 D) = bt /\ take 6 (drop 66 D) = wf /\
  take 8 (drop 0 D) = i1 /\ take 8 (drop 8 D) = i2 /\ take 8 (drop 74 D) = i3 /\ take 8 (drop 82 D) = i4.
Proof.
  destruct H1 as (L1 & _), H2 as (L2 & _), H3 as (L3 & _), H4 as (L4 & _), Hbt as (Lb & _), Hwf as (Lw & _).
  assert (forall (a x b : list Z) off n, length a = off -> length x = n -> take n (drop off (a ++ x ++ b)) = x) as Hf.
  { intros a x b off n <- <-. by rewrite drop_app_length, take_app_length. }
  unfold D, direct_of. split_and!.
  - rewrite !length_app. lia.
  - rewrite (app_assoc i1). apply Hf; [rewrite length_app; lia|done].
  - rewrite (app_assoc i1), (app_assoc (i1 ++ i2)), (app_assoc _ gps). apply Hf; [rewrite !length_app; lia|done].
  - by apply (Hf []).
  - by apply Hf.
  - rewrite (app_assoc i1), (app_assoc _ bt), (app_assoc _ gps), (app_assoc _ wf), (app_assoc _ r1).
    apply Hf; [rewrite !length_app; lia|done].
  - rewrite (app_assoc i1), (app_assoc _ bt), (app_assoc _ gps), (app_assoc _ wf), (app_assoc _ r1), (app_assoc _ i3).
    apply Hf; [rewrite !length_app; lia|done].
Qed.

Lemma addr_not_imei p : p ∈ [BT_MAC_FILE; WIFI_MAC_FILE] -> forall n q o, imei_item n = Some (q, o) -> p <> q.
Proof.
  intros Hp n q o Hi ->. destruct (imei_item_cases _ _ _ Hi) as [_ Hq]. set_solver.
Qed.

Lemma store_run w :
  addr_files_ok w -> imei_files_ok w -> g_ap_cali_flag w <> 0 ->
  exists w', btwifiimei_store 0x77 D w = Some (1, w') /\ all_stored w' /\
    same_env w w'.
Proof.
  intros Hok Hio Hc. destruct direct_fields as (HD & Fb & Fw & F1 & F2 & F3 & F4).
  unfold btwifiimei_store. change (0x77 .& 0x7F) with 0x77. rewrite bind_run.
  change (has 0x77 DIAG_CMD_BTBIT || has 0x77 DIAG_CMD_WIFIBIT) with true. cbv iota.
  unfold req_bt, req_wifi. change (has 0x77 DIAG_CMD_BTBIT) with true. change (has 0x77 DIAG_CMD_WIFIBIT) with true. cbv iota.
  rewrite Fb, Fw. destruct (btwifimac_write_spec (mac_text (rev bt)) (mac_text wf) w Hok) as (w0 & -> & B0 & W0 & K0 & C0).
  rewrite bind_run. unfold gets. rewrite (proj1 C0). destruct (Z.eqb_spec (g_ap_cali_flag w) 0); [done|].
  change (negb false && any_imei 0x77) with true. cbv iota.
  assert (imei_files_ok w0) as O0.
  { intros num p o Hn. destruct (imei_item_cases _ _ _ Hn) as [_ Hp]. rewrite K0 by done. by eapply Hio. }
  destruct H1 as (L1 & _), H2 as (L2 & _), H3 as (L3 & _), H4 as (L4 & _).
  destruct (write_imei_keeps D 1 _ _ i1 w0 eq_refl O0 ltac:(lia) F1 L1) as (w1 & E1 & O1 & S1 & _ & A1 & C1).
  destruct (write_imei_keeps D 2 _ _ i2 w1 eq_refl O1 ltac:(lia) F2 L2) as (w2 & E2 & O2 & S2 & K2 & A2 & C2).
  destruct (write_imei_keeps D 3 _ _ i3 w2 eq_refl O2 ltac:(lia) F3 L3) as (w3 & E3 & O3 & S3 & K3 & A3 & C3).
  destruct (write_imei_keeps D 4 _ _ i4 w3 eq_refl O3 ltac:(lia) F4 L4) as (w4 & E4 & O4 & S4 & K4 & A4 & C4).
  exists w4. unfold imei_bits.
  erewrite write_imeis_step by done. erewrite write_imeis_step by done. erewrite write_imeis_step by done.
  erewrite write_imeis_step by done.
  split; [done|]. split; [|by rewrite C0, C1, C2, C3].
  pose proof (addr_not_imei BT_MAC_FILE ltac:(set_solver)) as Nb. pose proof (addr_not_imei WIFI_MAC_FILE ltac:(set_solver)) as Nw.
  split_and!; [by rewrite (A4 _ Nb), (A3 _ Nb), (A2 _ Nb), (A1 _ Nb)|by rewrite (A4 _ Nw), (A3 _ Nw), (A2 _ Nw), (A1 _ Nw)|..].
  - by apply K4, K3, K2.
  - by apply K4, K3.
  - by apply K4.
  - done.
Qed.

Definition Zs (n : nat) : list Z := replicate n 0.

Lemma load_run w :
  all_stored w -> g_ap_cali_flag w <> 0 ->
  btwifiimei_load 0xF7 w = Some (direct_of i1 i2 bt (Zs 44) wf (Zs 2) i3 i4 (Zs 16), w).
Proof.
  intros (Eb & Ew & S1 & S2 & S3 & S4) Hc. destruct Hbt as (Lb & Bb), Hwf as (Lw & Bw).
  unfold btwifiimei_load. change (0xF7 .& 0x7F) with 0x77.
  change (has 0xF7 DIAG_CMD_BTBIT) with true. change (has 0xF7 DIAG_CMD_WIFIBIT) with true. cbv iota.
  rewrite bind_run, mret_run, bind_run.
  change (replicate 504 0) with ((Zs 8 ++ Zs 8) ++ Zs 6 ++ Zs 44 ++ Zs 6 ++ Zs 2 ++ Zs 8 ++ Zs 8 ++ Zs 16 ++ Zs 398).
  change 16%nat with (length (Zs 8 ++ Zs 8)) at 1.
  rewrite (load_addr_run ENG_BT_MAC BT_MAC_FILE BT_ROOT_MAC_FILE true _ _ _ (rev bt)); try done;
    [|by rewrite length_rev|by apply Forall_rev]. rewrite rev_involutive.
  rewrite bind_run, (app_assoc _ bt), (app_assoc _ (Zs 44)).
  replace 66%nat with (length (((Zs 8 ++ Zs 8) ++ bt) ++ Zs 44)) by (rewrite !length_app, Lb; done).
  rewrite (load_addr_run ENG_WIFI_MAC WIFI_MAC_FILE WIFI_ROOT_MAC_FILE false _ _ _ wf) by done.
  rewrite bind_run. unfold gets. destruct (Z.eqb_spec (g_ap_cali_flag w) 0); [done|].
  change (negb false && any_imei 0x77) with true. cbv iota. rewrite bind_run. unfold imei_bits.
  destruct H1 as (L1 & B1 & N1), H2 as (L2 & B2 & N2), H3 as (L3 & B3 & N3), H4 as (L4 & B4 & N4).
  destruct S1 as (p1 & o1 & t1 & I1 & E1), S2 as (p2 & o2 & t2 & I2 & E2), S3 as (p3 & o3 & t3 & I3 & E3), S4 as (p4 & o4 & t4 & I4 & E4).
  rewrite <- !app_assoc.
  erewrite read_imeis_step; [|done|apply (read_imei_run 1 p1 o1 [] (Zs 8) _ i1 t1); try done; by injection I1 as _ <-].
  erewrite read_imeis_step; [|done|apply (read_imei_run 2 p2 o2 i1 (Zs 8) _ i2 t2); try done; injection I2 as _ <-; by rewrite L1].
  cbn [app]. rewrite (app_assoc i1), (app_assoc (i1 ++ i2)), (app_assoc _ (Zs 44)), (app_assoc _ wf), (app_assoc _ (Zs 2)).
  erewrite read_imeis_step; [|done|apply (read_imei_run 3 p3 o3 _ (Zs 8) _ i3 t3); try done].
  2:{ injection I3 as _ <-. rewrite !length_app, L1, L2, Lb, Lw. done. }
  rewrite (app_assoc _ i3).
  erewrite read_imeis_step; [|done|apply (read_imei_run 4 p4 o4 _ (Zs 8) _ i4 t4); try done].
  2:{ injection I4 as _ <-. rewrite !length_app, L1, L2, L3, Lb, Lw. done. }
  cbn [read_imeis]. rewrite mret_run. rewrite (app_assoc _ i4), (app_assoc _ (Zs 16)).
  unfold peek, lift. rewrite mem_read_nat
    by (unfold Zs, SIZEOF_DIRECT; rewrite !length_app, !length_replicate, L1, L2, L3, L4, Lb, Lw; lia).
  rewrite drop_0, take_app_exact by (rewrite !length_app, L1, L2, L3, L4, Lb, Lw; done).
  unfold direct_of. by rewrite <- !app_assoc.
Qed.
End production.

(** A decoded request in its buffer: header, struct, CRC. *)
Definition imei_req (seq sub : Z) (direct pad : list Z) : list Z :=
  0x7E :: (st32 seq ++ st16 116 ++ [0x5E; sub]) ++ direct ++ st16 (crc16 0 direct) ++ pad.

Lemma imei_req_fields seq sub direct pad (m := imei_req seq sub direct pad) :
  length direct = 106%nat ->
  (117 <= length m)%nat /\ take 4 (drop 1 m) = st32 seq /\ m !!! 7%nat = 0x5E /\ m !! 8%nat = Some sub /\
  take 106 (drop 9 m) = direct /\ m !! 115%nat = Some (u8 (crc16 0 direct)) /\ m !! 116%nat = Some (u8 (crc16 0 direct .>> 8)).
Proof.
  intros Hd. subst m. unfold imei_req. set (h := 0x7E :: (st32 seq ++ st16 116 ++ [0x5E; sub])).
  change (0x7E :: (st32 seq ++ st16 116 ++ [0x5E; sub]) ++ direct ++ st16 (crc16 0 direct) ++ pad)
    with (h ++ direct ++ st16 (crc16 0 direct) ++ pad).
  assert (length h = 9%nat) as Hh by done. split_and!; try done.
  - rewrite !length_app, Hh, Hd. cbn [length st16]. lia.
  - by rewrite (drop_app_exact h), take_app_exact.
  - rewrite app_assoc, lookup_app_r by (rewrite length_app; lia). by rewrite length_app, Hh, Hd.
  - rewrite app_assoc, lookup_app_r by (rewrite length_app; lia). by rewrite length_app, Hh, Hd.
Qed.

(** The contents of a production request, and the state in which it is served. *)
Record production := Production { p_i1 : list Z; p_i2 : list Z; p_bt : list Z; p_gps : list Z; p_wf : list Z; p_r1 : list Z;
                                  p_i3 : list Z; p_i4 : list Z; p_r2 : list Z }.

Definition prod_direct (x : production) : list Z :=
  direct_of (p_i1 x) (p_i2 x) (p_bt x) (p_gps x) (p_wf x) (p_r1 x) (p_i3 x) (p_i4 x) (p_r2 x).

(** What of it is kept. *)
Definition prod_kept (x : production) : production :=
  Production (p_i1 x) (p_i2 x) (p_bt x) (Zs 44) (p_wf x) (Zs 2) (p_i3 x) (p_i4 x) (Zs 16).

Definition prod_ok (x : production) : Prop :=
  Forall good_imei [p_i1 x; p_i2 x; p_i3 x; p_i4 x] /\ Forall (fun a => length a = 6%nat /\ bytes a) [p_bt x; p_wf x] /\
  length (p_gps x) = 44%nat /\ length (p_r1 x) = 2%nat /\ length (p_r2 x) = 16%nat.

Definition prod_stored (x : production) (w : world) : Prop :=
  all_stored (p_i1 x) (p_i2 x) (p_bt x) (p_wf x) (p_i3 x) (p_i4 x) w.

Definition prod_env (w : world) : Prop :=
  addr_files_ok w /\ imei_files_ok w /\ g_ap_cali_flag w <> 0 /\ s_cp_ap_proc w = 0.

Lemma prod_direct_length x : prod_ok x -> length (prod_direct x) = 106%nat.
Proof.
  destruct x. intros (Hi & Ha & Hg & Hr1 & Hr2). cbn in *.
  apply Forall_cons in Ha as [Ab Ha]. apply Forall_cons in Ha as [Aw _]. rewrite !Forall_cons in Hi. destruct Hi as (G1 & G2 & G3 & G4 & _).
  by apply direct_fields.
Qed.

Lemma prod_kept_ok x : prod_ok x -> prod_ok (prod_kept x).
Proof. intros (Hi & Ha & _). by split_and!. Qed.

(** The write request in calibration mode stores everything. *)
Lemma production_write x seq pad w :
  prod_ok x -> prod_env w ->
  exists w1,
    eng_diag_btwifiimei (imei_req seq 0x77 (prod_direct x) pad) w =
      Some (eng_translate_packet (st32 seq ++ st16 10 ++ [0x5E; 1] ++ [0; 0]), w1) /\
    same_env w w1 /\ prod_stored x w1.
Proof.
  intros Hx (Hok & Hio & Hc & Hs). pose proof (prod_direct_length x Hx) as HD. destruct Hx as (Hi & Ha & Hg & Hr1 & Hr2).
  apply Forall_cons in Ha as [Ab Ha]. apply Forall_cons in Ha as [Aw _]. rewrite !Forall_cons in Hi.
  destruct Hi as (G1 & G2 & G3 & G4 & _).
  destruct (store_run _ _ _ _ _ _ _ _ _ G1 G2 G3 G4 Ab Aw Hg Hr1 Hr2 w Hok Hio Hc) as (w1 & E1 & St & C1).
  exists w1. split; [|done]. unfold eng_diag_btwifiimei.
  destruct (imei_req_fields seq 0x77 (prod_direct x) pad HD) as (Hl & F4 & F7 & F8 & F9 & Fa & Fb). set (m := imei_req _ _ _ _) in *.
  rewrite bind_run. unfold rd8 at 1, lift. rewrite F8. change (0x77 .& DIAG_CMD_READ =? 0) with true. cbv iota.
  rewrite bind_run. unfold peek, lift at 1, SIZEOF_DIRECT. rewrite mem_read_nat, F9 by lia.
  rewrite bind_run. unfold rd8 at 1, lift at 1. rewrite Fa. rewrite bind_run. unfold rd8, lift. rewrite Fb. cbv zeta.
  rewrite !land_ff, !Z.eqb_refl. cbn [andb]. rewrite bind_run. unfold prod_direct. rewrite E1. rewrite bind_run. unfold gets.
  rewrite (proj1 (proj2 C1)), Hs. change (0 =? 0) with true. change (1 <=? 0) with false. cbv iota.
  rewrite bind_run, reply_to_run by lia. rewrite F4, F7. by rewrite translate_to_run by (cbn; lia).
Qed.

(** The read request reports what is stored under its CRC. *)
Lemma production_read x seq d pad w :
  prod_ok x -> length d = 106%nat -> prod_stored x w -> g_ap_cali_flag w <> 0 ->
  eng_diag_btwifiimei (imei_req seq 0xF7 d pad) w =
    Some (eng_translate_packet (st32 seq ++ st16 116 ++ [0x5E; 1] ++ prod_direct (prod_kept x) ++
                                st16 (crc16 0 (prod_direct (prod_kept x)))), w).
Proof.
  intros Hx Hd St Hc. pose proof (prod_direct_length _ (prod_kept_ok x Hx)) as HD0. destruct Hx as (Hi & Ha & Hg & Hr1 & Hr2).
  apply Forall_cons in Ha as [Ab Ha]. apply Forall_cons in Ha as [Aw _]. rewrite !Forall_cons in Hi.
  destruct Hi as (G1 & G2 & G3 & G4 & _). unfold eng_diag_btwifiimei.
  destruct (imei_req_fields seq 0xF7 d pad Hd) as (Hl & F4 & F7 & F8 & _). set (m := imei_req _ _ _ _) in *.
  rewrite bind_run. unfold rd8, lift. rewrite F8. change (0xF7 .& DIAG_CMD_READ =? 0) with false. cbv iota.
  rewrite bind_run, (load_run _ _ _ _ _ _ _ _ _ G1 G2 G3 G4 Ab Aw Hg Hr1 Hr2 w St Hc).
  change (direct_of _ _ _ _ _ _ _ _ _) with (prod_direct (prod_kept x)).
  rewrite bind_run, reply_to_run by lia. rewrite F4, F7. rewrite translate_to_run; [done|].
  rewrite !length_app, HD0. cbn [length st16 st32]. lia.
Qed.
