(* ===== verification/EngDiag.v ===== *)
(** * Dispatch of diagnostic requests (apps/engmode/eng_diag.c)

    [eng_diag] takes a frame from the PC: [eng_diag_parse] decodes it in place and
    decides whether the application processor handles it, [eng_diag_user_handle]
    calls the handler and sends its answer.  The result tells the link whether
    the frame must also go to the modem.

    [buf] is the whole receive buffer.  The handlers for audio, FM radio, GPS and
    the automatic tests and those of the AT commands that are left out in
    [EngCmd] are parameters. *)

From S2P Require Import Prelude Checksum Hdlc EngFrame EngText EngSys EngCmd EngAdc EngReply EngProd.

Inductive DIAG_CMD_TYPE :=
| CMD_COMMON | CMD_USER_VER | CMD_USER_BTWIFIIMEI | CMD_USER_FACTORYMODE | CMD_USER_AUDIO | CMD_USER_RESET
| CMD_USER_GETVOLTAGE | CMD_USER_APCALI | CMD_USER_APCMD | CMD_USER_ADC | CMD_USER_FM | CMD_USER_PRODUCT_CTRL
| CMD_USER_DIRECT_PHSCHK | CMD_USER_MMICIT_READ | CMD_USER_DEEP_SLEEP | CMD_USER_FILE_OPER | CMD_USER_CFT_SWITCH
| CMD_USER_BKLIGHT | CMD_USER_PWMODE | CMD_USER_SET_CONFIGURE_IP | CMD_USER_READ_REGISTER | CMD_USER_WRITE_REGISTER
| CMD_USER_SHUT_DOWN | CMD_USER_GPS_AUTO_TEST | CMD_USER_AUTOTEST | CMD_USER_AUTOTEST_PATH_CONFIRM
| CMD_USER_ENABLE_CHARGE_ONOFF | CMD_USER_GET_CHARGE_CURRENT | CMD_USER_GET_MODEM_MODE | CMD_USER_READ_EFUSE
| CMD_USER_WRITE_EFUSE | CMD_USER_READ_PUBLICKEY | CMD_USER_ENABLE_SECURE | CMD_USER_READ_ENABLE_SECURE_BIT.

#[export] Instance DIAG_CMD_TYPE_eq_dec : EqDecision DIAG_CMD_TYPE.
Proof. solve_decision. Defined.

(** How a request ends: the function returns, or the process or the system ends. *)
Inductive outcome := Ret (z : Z) | ProcessExit | PowerOff | Rebooted (name : string).

(** ** Sending *)

(** The loop of [eng_diag_write2pc]: at most [n] more tries while the device is
    busy. *)
Fixpoint write2pc_loop (n : nat) (buf : list Z) : M Z :=
  r ← pc_write buf;
  match r with
  | WOk k => mret k
  | WErr => mret (-1)
  | WBusy => match n with O => mret (-1) | S n => write2pc_loop n buf end
  end.
Definition eng_diag_write2pc (buf : list Z) : M Z := write2pc_loop 24 buf.

(** ** Which requests are handled *)

Definition ptr_at : nat := 9.
Definition at_prefix (lit : string) (buf : list Z) : bool := has_prefix (bs lit) (drop ptr_at buf).

(** [is_ap_at_cmd_need_to_handle]. *)
Definition is_ap_at_cmd_need_to_handle (buf : list Z) : M bool :=
  s ← lift (cstr_at buf ptr_at);
  let i := eng_at2linux s in
  _ ← modify (set_cmd_index i);
  mret (negb (i =? -1)).

(** A number token stored in a global; [None]: it stays as it is. *)
Definition tok_int (m : list Z) (p : option nat) (old : Z) : M (Z * list Z * option nat) :=
  '(_, out, m, p) ← lift (at_tok_nextint m p);
  mret (default old out, m, p).

Definition GET_ARM_VOLUME_MODE_COUNT : Z := 7.
Definition GET_AUDIO_ENHA_MODE_COUNT : Z := 0.
Definition SET_AUDIO_ENHA_DATA_TO_MEMORY : Z := 2.
Definition at_sadm_cmd_to_handle : list Z := [7; 8; 9; 10; 11; 12].
Definition at_spenha_cmd_to_handle : list Z := [0; 1; 2; 3; 4].
Definition in_list (z : Z) (l : list Z) : bool := existsb (Z.eqb z) l.

(** AT+SADM4AP=command,index.  The index is read from a null pointer when there
    is no comma. *)
Definition audio_sadm (buf : list Z) : M (bool * list Z) :=
  '(_, p) ← lift (at_tok_equel_start buf (Some ptr_at));
  c0 ← gets cmd_type;
  '(c, buf, p) ← tok_int buf p c0;
  w ← gets id;
  _ ← modify (set_audio (g_index w) c (eq_or_tun_type w) (eq_mode_sel_type w));
  if negb (in_list c at_sadm_cmd_to_handle) then mret (false, buf)
  else if c =? GET_ARM_VOLUME_MODE_COUNT then mret (true, buf)
  else
    match p with
    | None => undefined
    | Some off =>
        s ← lift (cstr_at buf off);
        let i := atoi s in
        _ ← modify (set_audio i c (eq_or_tun_type w) (eq_mode_sel_type w));
        modes ← gets (fun w => audio_modes (lib w));
        mret (negb (modes <=? i), buf)
    end.

(** AT+SPENHA=kind,command,index,selector. *)
Definition audio_spenha (buf : list Z) : M (bool * list Z) :=
  '(_, p) ← lift (at_tok_equel_start buf (Some ptr_at));
  w ← gets id;
  '(e, buf, p) ← tok_int buf p (eq_or_tun_type w);
  '(c, buf, p) ← tok_int buf p (cmd_type w);
  _ ← modify (set_audio (g_index w) c e (eq_mode_sel_type w));
  if negb (in_list c at_spenha_cmd_to_handle) then mret (false, buf)
  else if c =? GET_AUDIO_ENHA_MODE_COUNT then mret (true, buf)
  else
    '(i, buf, p) ← tok_int buf p (g_index w);
    _ ← modify (set_audio i c e (eq_mode_sel_type w));
    modes ← gets (fun w => audio_modes (lib w));
    if (modes <? i) || (i <=? 0) then mret (false, buf)
    else
      _ ← modify (set_audio (i - 1) c e (eq_mode_sel_type w));
      if c =? SET_AUDIO_ENHA_DATA_TO_MEMORY then
        match p with
        | None => undefined
        | Some off =>
            x ← lift (buf !! off);
            _ ← modify (set_audio (i - 1) c e (x - 48));
            mret (true, buf)
        end
      else mret (true, buf).

(** AT+CALIBR=command. *)
Definition audio_calibr (buf : list Z) : M (bool * list Z) :=
  '(_, p) ← lift (at_tok_equel_start buf (Some ptr_at));
  w ← gets id;
  '(c, buf, _) ← tok_int buf p (cmd_type w);
  _ ← modify (set_audio (g_index w) c (eq_or_tun_type w) (eq_mode_sel_type w));
  mret (true, buf).

(** [is_audio_at_cmd_need_to_handle]; the tokenizer writes into the buffer. *)
Definition is_audio_at_cmd_need_to_handle (buf : list Z) : M (bool * list Z) :=
  data ← gets g_is_data;
  c ← lift (buf !! ptr_at);
  if negb (data =? 0) && negb (at_prefix "AT" buf) && (isdigit c || isupper c) then mret (true, buf)
  else if at_prefix "AT+SADM4AP" buf then audio_sadm buf
  else if at_prefix "AT+SPENHA" buf then audio_spenha buf
  else if at_prefix "AT+CALIBR" buf then audio_calibr buf
  else mret (at_prefix "AT+PEINFO" buf, buf).

(** [is_rm_cali_nv_need_to_handle]: 0 for the modem, 1 for this processor, 2 for
    both.  The length field is used as it comes. *)
Definition is_rm_cali_nv_need_to_handle (buf : list Z) : M Z :=
  len ← rd16 buf 5;
  if len <? 10 then undefined
  else
    recv_crc ← rd16 buf (Z.to_nat len - 1);
    data ← peek buf 9 (Z.to_nat len - 10);
    if negb (recv_crc =? crc16 0 data) then mret 0
    else
      sub ← rd8 buf 8;
      cali ← gets g_ap_cali_flag;
      let mask := sub .& 0x7F in
      if mask =? 0 then mret 0
      else if has mask DIAG_CMD_BTBIT || has mask DIAG_CMD_WIFIBIT || (negb (cali =? 0) && any_imei mask) then
        let rest := mask .& Z.lnot (DIAG_CMD_BTBIT .| DIAG_CMD_WIFIBIT) in
        mret (if rest =? 0 then 1
              else if negb (cali =? 0)
                   then if rest .& Z.lnot (DIAG_CMD_IMEI1BIT .| DIAG_CMD_IMEI2BIT .| DIAG_CMD_IMEI3BIT .| DIAG_CMD_IMEI4BIT) =? 0
                        then 1 else 2
                   else 2)
      else mret 0.

(** [eng_diag_ap_req]. *)
Definition eng_diag_ap_req (buf : list Z) : M DIAG_CMD_TYPE :=
  cmd ← rd16 buf 9;
  mret (if cmd =? 3 then CMD_USER_FILE_OPER
        else if cmd =? 4 then CMD_USER_CFT_SWITCH
        else if cmd =? 0x10 then CMD_USER_ENABLE_CHARGE_ONOFF
        else if cmd =? 0x11 then CMD_USER_GET_CHARGE_CURRENT
        else if cmd =? 0x12 then CMD_USER_GET_MODEM_MODE
        else if cmd =? 5 then CMD_USER_BKLIGHT
        else if cmd =? 7 then CMD_USER_PWMODE
        else CMD_USER_APCALI).

(** The body of the [switch] of [eng_diag_parse], on the decoded buffer. *)
Definition diag_type (buf : list Z) (type subtype : Z) : M (DIAG_CMD_TYPE * list Z) :=
  let ret t : M (DIAG_CMD_TYPE * list Z) := mret (t, buf) in
  if type =? 0x0C then ret (if subtype =? 8 then CMD_USER_RESET else CMD_COMMON)
  else if type =? 0x0D then
    ret (if subtype =? 7 then CMD_USER_FACTORYMODE
         else if (2 <=? subtype) && (subtype <=? 4) then CMD_USER_PRODUCT_CTRL
         else if subtype =? 0x1A then CMD_USER_MMICIT_READ else CMD_COMMON)
  else if type =? 0x5F then ret CMD_USER_DIRECT_PHSCHK
  else if type =? 0x41 then ret CMD_USER_FM
  else if type =? 0x68 then
    '(audio, buf) ← is_audio_at_cmd_need_to_handle buf;
    if (audio : bool) then mret (CMD_USER_AUDIO, buf)
    else
      ap ← is_ap_at_cmd_need_to_handle buf;
      if (ap : bool) then
        i ← gets s_cmd_index;
        t ← lift (eng_cmd_get_type i);
        _ ← match t with CMD_TO_APCP => modify (set_cp_ap 1) | _ => mret tt end;
        mret (CMD_USER_APCMD, buf)
      else mret (CMD_COMMON, buf)
  else if type =? 0x1E then ret CMD_USER_GETVOLTAGE
  else if type =? 0x62 then t ← eng_diag_ap_req buf; ret t
  else if type =? 0x38 then ret (if subtype =? 0x1C then CMD_USER_AUTOTEST_PATH_CONFIRM else CMD_USER_AUTOTEST)
  else if type =? 0x00 then ret (if subtype =? 2 then CMD_USER_VER else CMD_COMMON)
  else if type =? 0x5E then
    r ← is_rm_cali_nv_need_to_handle buf;
    if r =? 0 then ret CMD_COMMON
    else _ ← (if r =? 2 then modify (set_cp_ap 1) else mret tt); ret CMD_USER_BTWIFIIMEI
  else if type =? 0x11 then
    ret (if subtype =? 2 then CMD_USER_DEEP_SLEEP else if subtype =? 0x0E then CMD_USER_SHUT_DOWN else CMD_COMMON)
  else if type =? 0x3A then ret CMD_USER_GPS_AUTO_TEST
  else if type =? 0x36 then
    ret (if subtype =? 0x10 then CMD_USER_SET_CONFIGURE_IP else if subtype =? 0x0E then CMD_USER_READ_REGISTER
         else if subtype =? 0x0F then CMD_USER_WRITE_REGISTER else CMD_COMMON)
  else if type =? 0x05 then
    if subtype =? 4 then _ ← modify (set_assert 1); ret CMD_COMMON
    else ret (if subtype =? 0x20 then CMD_USER_READ_EFUSE else if subtype =? 0x21 then CMD_USER_WRITE_EFUSE
              else if subtype =? 0x22 then CMD_USER_ENABLE_SECURE else if subtype =? 0x23 then CMD_USER_READ_PUBLICKEY
              else if subtype =? 0x24 then CMD_USER_READ_ENABLE_SECURE_BIT else CMD_COMMON)
  else ret CMD_COMMON.

(** The kind of request, the decoded buffer and [*num]. *)
Definition eng_diag_parse (buf : list Z) (len : Z) : M (DIAG_CMD_TYPE * list Z * nat) :=
  '(d, num) ← lift (eng_diag_decode7d7e (drop 1 buf) (len - 2));
  let buf := take 1 buf ++ d in
  type ← rd8 buf 7;
  subtype ← rd8 buf 8;
  '(t, buf) ← diag_type buf type subtype;
  mret (t, buf, num).

(** ** Files on the telephone *)

Definition MAX_DIAG_TRANSMIT_FILE_LEN : nat := 8192.

(** [st_size] converted to the [int] of the result. *)
Definition eng_get_filesize (path : string) : M Z :=
  gets (fun w => match files w !! path with Some f => s32 (Z.of_nat (length (f_data f))) | None => 0 end).

(** The message that answers a file request. *)
Definition file_msg (buf : list Z) (status length : Z) (body : list Z) : M (list Z) :=
  sub ← rd8 buf 8;
  reply_to buf (Z.of_nat (12 + List.length body)) sub (st16 status ++ st16 length ++ body).

Definition file_query (buf : list Z) (path : string) : M (list Z) :=
  size ← eng_get_filesize path;
  m ← file_msg buf (if size =? 0 then 1 else 0) 4 (st32 size);
  translate_to 512 m.

(** The loop that sends a file in pieces of 8192 bytes; [data] is the array of the
    struct, whose rest keeps the bytes of the piece before; [total_size] and
    [file_size] are [int]s.  A file that cannot be read is asked for its next piece
    for ever. *)
Fixpoint file_read_loop (fuel : nat) (buf : list Z) (f : file) (file_size : Z) (pos : nat) (total : Z) (data : list Z) : M unit :=
  match fuel with
  | O => undefined
  | S fuel =>
      let '(n, d) := read_file (File (drop pos (f_data f)) (f_reg f) (f_wopen f) (f_ok f)) MAX_DIAG_TRANSMIT_FILE_LEN in
      let total := s32 (total + n) in
      let data := d ++ drop (length d) data in
      m ← file_msg buf 0 8200 (st32 (if total =? file_size then 0 else 1) ++ st32 n ++ data);
      _ ← eng_diag_write2pc (eng_translate_packet m);
      if total =? file_size then mret tt else file_read_loop fuel buf f file_size (pos + length d) total data
  end.

(** The result is the number of bytes of an answer that stays in another buffer
    when the file is missing; 0 after a file has been sent. *)
Definition file_read (buf : list Z) (path : string) : M Z :=
  size ← eng_get_filesize path;
  f ← open_read path;
  match f with
  | Some f =>
      if size =? 0 then m ← file_msg buf 1 8200 (replicate 8200 0); mret (Z.of_nat (length (eng_translate_packet m)))
      else _ ← file_read_loop (S (length (f_data f))) buf f size 0 0 (replicate MAX_DIAG_TRANSMIT_FILE_LEN 0); mret 0
  | None => m ← file_msg buf 1 8200 (replicate 8200 0); mret (Z.of_nat (length (eng_translate_packet m)))
  end.

(** Pieces arrive in order; [s_cur_filepos], an [int], is where the next one goes. *)
Definition file_write (buf : list Z) (path : string) : M (list Z) :=
  more ← rd32 buf 277;
  data_len ← rd32 buf 281;
  f ← open_write path;
  status ← match f with
           | None => mret 1
           | Some _ =>
               pos ← gets s_cur_filepos;
               d ← peek buf 285 (Z.to_nat data_len);
               n ← write_file path (if pos <? 0 then 0 else Z.to_nat pos) d;
               let write_size := s32 n in
               _ ← modify (set_filepos (if more =? 0 then 0 else s32 (pos + write_size)));
               mret (if (pos <? 0) || (write_size <? 0) then 1 else 0)
           end;
  m ← file_msg buf status 0 [];
  translate_to 512 m.

(** The result [ret] and the bytes in [rsp]. *)
Definition eng_diag_fileoper_hdlr (buf : list Z) : M (Z * list Z) :=
  file_cmd ← rd32 buf 13;
  name ← lift (cstr_at buf 17);
  let path := to_str name in
  if file_cmd =? 0 then r ← file_query buf path; mret (Z.of_nat (length r), r)
  else if file_cmd =? 1 then n ← file_read buf path; mret (n, [])
  else if file_cmd =? 2 then r ← file_write buf path; mret (Z.of_nat (length r), r)
  else mret (0, []).

(** ** Small handlers *)

Definition ENG_TESTMODE : string := "engtestmode".
Definition ENG_FACOTRYSYNC_FILE : string := "/factorysync.file".

(** The text of the version, at most 248 characters. *)
Definition eng_diag_getver : M (list Z) :=
  sprdver ← property_get "ro.build.description" [];
  mret (take 248 sprdver).

Definition eng_diag_bootreset : M (list Z) := mret (bs "OK").

(** [eng_check_factorymode] of the build without USE_BOOT_AT_DIAG. *)
Definition eng_check_factorymode : M unit := _ ← creat_trunc ENG_FACOTRYSYNC_FILE; mret tt.

(** The result goes to the subtype of the request, which heads the answer. *)
Definition eng_diag_factorymode (buf : list Z) : M (list Z) :=
  pdata ← rd8 buf 9;
  if (pdata =? 0) || (pdata =? 1)
  then _ ← modify (add_sql ENG_TESTMODE pdata); _ ← eng_check_factorymode; poke buf 8 [0]
  else poke buf 8 [1].

Definition eng_diag_deep_sleep : M unit := _ ← system (bs "echo mem > /sys/power/state"); mret tt.

Section handle.
  (** The handlers that are not modelled: the answers of the AT commands, of the
      audio, FM radio, GPS, ADC and automatic test requests. *)
  Context (linux_other : nat -> list Z -> M reply) (audio adc : list Z -> M (list Z))
          (fm attest gps : list Z -> Z -> M (list Z)).
  Context (WIFI_NAME WIFI_PATH : list Z).

(** The text between the header and the byte before the next flag. *)
Definition eng_diag_apcmd_hdlr (buf : list Z) : M (list Z) :=
  i ← lift (index_of 0x7E (drop ptr_at buf));
  buf ← poke buf (ptr_at + i - 1) [0];
  s ← lift (cstr_at buf ptr_at);
  c ← gets s_cmd_index;
  '(_, rsp) ← eng_linuxcmd_hdlr linux_other c s;
  if (length rsp <? 512)%nat then mret rsp else undefined.

Definition emptyDiag : list Z := [0x7E; 0; 0; 0; 0; 8; 0; 0xD5; 0; 0x7E].

Definition direct_reply (h : M (list Z)) : M outcome := r ← h; _ ← eng_diag_write2pc r; mret (Ret 0).

Definition eng_diag_reboot (reset : Z) : option string :=
  if reset =? 1 then Some "cftreboot"%string else if reset =? 2 then Some "recovery"%string else None.

(** The end of [eng_diag_user_handle]: header, data and flags are put together
    without escapes, in a buffer of 8192 bytes. *)
Definition generic_frame (type : DIAG_CMD_TYPE) (buf rsp : list Z) (rlen : Z) : M (list Z) :=
  h ← peek buf 1 SIZEOF_HEAD;
  let len := u16 (8 + rlen) in
  let at_cmd := bool_decide (type = CMD_USER_AUDIO) || bool_decide (type = CMD_USER_APCMD) in
  let head := if at_cmd then st32 0 ++ st16 len ++ [0x9C; 0]
              else take 4 h ++ st16 len ++ [h !!! 6%nat; if bool_decide (type = CMD_USER_ADC) then 0 else h !!! 7%nat] in
  if 8192 <? len + 2 then undefined
  else
    d ← peek rsp 0 (Z.to_nat len - 8);
    mret (0x7E :: head ++ d ++ [0x7E]).

Definition generic_reply (type : DIAG_CMD_TYPE) (buf rsp : list Z) (rlen : Z) : M outcome :=
  f ← generic_frame type buf rsp rlen;
  _ ← eng_diag_write2pc f;
  reset ← gets g_reset;
  mret match eng_diag_reboot reset with
       | Some name => Rebooted name
       | None => Ret (if bool_decide (type = CMD_USER_AUDIO) || bool_decide (type = CMD_USER_APCMD) then 1 else 0)
       end.

(** A text in the zeroed array [rsp] of 512 bytes. *)
Definition text_reply (type : DIAG_CMD_TYPE) (buf : list Z) (h : M (list Z)) : M outcome :=
  r ← h; generic_reply type buf (pad_to 512 r) (Z.of_nat (length r)).

Definition eng_diag_user_handle (type : DIAG_CMD_TYPE) (buf : list Z) (len : Z) : M outcome :=
  match type with
  | CMD_USER_VER => text_reply type buf eng_diag_getver
  | CMD_USER_RESET => text_reply type buf (r ← eng_diag_bootreset; _ ← modify (set_reset 1); mret r)
  | CMD_USER_BTWIFIIMEI => direct_reply (eng_diag_btwifiimei buf)
  | CMD_USER_FACTORYMODE => buf ← eng_diag_factorymode buf; text_reply type buf (mret [])
  | CMD_USER_ADC => r ← adc buf; generic_reply type buf r (Z.of_nat (length r))
  | CMD_USER_FM => direct_reply (fm buf len)
  | CMD_USER_AUTOTEST =>
      r ← attest buf len;
      _ ← (if (0 <? length r)%nat then _ ← eng_diag_write2pc r; mret tt else mret tt); mret (Ret 0)
  | CMD_USER_AUTOTEST_PATH_CONFIRM => text_reply type buf (mret [])
  | CMD_USER_AUDIO => r ← audio buf; generic_reply type buf r (Z.of_nat (length r))
  | CMD_USER_GETVOLTAGE | CMD_USER_APCALI => direct_reply (eng_battery_calibration buf (Z.to_nat len) 8192)
  | CMD_USER_APCMD => _ ← pc_write emptyDiag; text_reply type buf (eng_diag_apcmd_hdlr buf)
  | CMD_USER_PRODUCT_CTRL => direct_reply (eng_diag_product_ctrl buf)
  | CMD_USER_DIRECT_PHSCHK => direct_reply (eng_diag_direct_phschk buf)
  | CMD_USER_MMICIT_READ => direct_reply (eng_diag_mmicit_read buf (Z.to_nat len))
  | CMD_USER_DEEP_SLEEP => _ ← eng_diag_deep_sleep; _ ← modify (set_cp_ap 1); mret (Ret 0)
  | CMD_USER_FILE_OPER => '(n, r) ← eng_diag_fileoper_hdlr buf; generic_reply type buf (pad_to 512 r) n
  | CMD_USER_SHUT_DOWN => mret PowerOff
  | CMD_USER_CFT_SWITCH => r ← eng_diag_cft_switch_hdlr buf; _ ← eng_diag_write2pc r; mret ProcessExit
  | CMD_USER_GPS_AUTO_TEST => direct_reply (gps buf len)
  | CMD_USER_ENABLE_CHARGE_ONOFF => direct_reply (eng_diag_enable_charge buf)
  | CMD_USER_GET_CHARGE_CURRENT => direct_reply (eng_diag_get_charge_current buf)
  | CMD_USER_GET_MODEM_MODE => direct_reply (eng_diag_get_modem_mode buf)
  | CMD_USER_BKLIGHT => direct_reply (eng_diag_set_backlight buf)
  | CMD_USER_PWMODE => direct_reply (eng_diag_set_powermode WIFI_NAME WIFI_PATH buf)
  | CMD_USER_SET_CONFIGURE_IP => direct_reply (eng_diag_set_ipconfigure WIFI_NAME WIFI_PATH buf)
  | CMD_USER_READ_REGISTER => direct_reply (eng_diag_read_register buf)
  | CMD_USER_WRITE_REGISTER => direct_reply (eng_diag_write_register buf)
  | CMD_USER_READ_EFUSE => direct_reply (eng_diag_read_efuse buf)
  | CMD_USER_WRITE_EFUSE => direct_reply (eng_diag_write_efuse buf)
  | CMD_USER_READ_PUBLICKEY => direct_reply (eng_diag_read_publickey buf)
  | CMD_USER_ENABLE_SECURE => direct_reply (eng_diag_enable_secure buf)
  | CMD_USER_READ_ENABLE_SECURE_BIT => direct_reply (eng_diag_read_enable_secure_bit buf)
  | CMD_COMMON => text_reply type buf (mret [])
  end.

(** ** The whole request *)

Definition OK_TEXT : list Z := [13; 10; 79; 75; 13; 10].
Definition ok_frame : list Z := 0x7E :: (st32 0 ++ st16 14 ++ [0x9C; 0]) ++ OK_TEXT ++ [0x7E].

(** [write_again]: [n] more tries. *)
Fixpoint send_ok (n : nat) : M unit :=
  r ← eng_diag_write2pc ok_frame;
  if r <=? 0 then match n with O => mret tt | S n => send_ok n end else mret tt.

(** [Ret 1]: handled; [Ret 0]: the frame goes to the modem. *)
Definition eng_diag (buf : list Z) (len : Z) : M outcome :=
  '(type, buf, num) ← eng_diag_parse buf len;
  if bool_decide (type = CMD_COMMON) then mret (Ret 0)
  else
    o ← eng_diag_user_handle type buf (len - Z.of_nat num);
    match o with
    | Ret ret_val =>
        _ ← (if ret_val =? 0 then mret tt else send_ok 10);
        cp ← gets s_cp_ap_proc;
        if cp =? 0 then mret (Ret 1) else _ ← modify (set_cp_ap 0); mret (Ret 0)
    | _ => mret o
    end.
End handle.

(** ** Lemmas *)

Lemma write2pc_ok b w :
  pc_script w = [] ->
  eng_diag_write2pc b w = Some (Z.of_nat (length b), set_pc (pc_out w ++ [b]) [] w).
Proof. intros E. unfold eng_diag_write2pc. cbn [write2pc_loop]. rewrite bind_run. unfold pc_write. by rewrite E. Qed.

(** The buffer after a frame of [p] has been decoded. *)
Definition decoded (p pad : list Z) : list Z := 0x7E :: p ++ 0x7E :: replicate (escapes p) 0x7E ++ pad.

Lemma parse_frame p pad w (frame := eng_translate_packet p) (buf := decoded p pad) :
  eng_diag_parse (frame ++ pad) (Z.of_nat (length frame)) w =
    (type ← rd8 buf 7; subtype ← rd8 buf 8; '(t, buf) ← diag_type buf type subtype; mret (t, buf, escapes p)) w.
Proof.
  unfold eng_diag_parse, frame, buf. rewrite bind_run. unfold lift at 1.
  rewrite (proj1 (decode_inverts_frame p pad)). done.
Qed.

Lemma imei_req_decoded seq sub D pad (p := (st32 seq ++ st16 116 ++ [0x5E; sub]) ++ D ++ st16 (crc16 0 D)) :
  decoded p pad = imei_req seq sub D (0x7E :: replicate (escapes p) 0x7E ++ pad).
Proof. unfold decoded, imei_req, p. rewrite <- !app_assoc. done. Qed.

Lemma crc16_table_bound i : 0 <= i < 256 -> 0 <= crc16_table !!! Z.to_nat i < 65536.
Proof.
  intros Hi. assert ((0 <=? crc16_table !!! Z.to_nat i) && (crc16_table !!! Z.to_nat i <? 65536) = true) as H.
  { apply (byte_cases (fun i => (0 <=? crc16_table !!! Z.to_nat i) && (crc16_table !!! Z.to_nat i <? 65536))); [vm_compute|]; done. }
  rewrite andb_true_iff, Z.leb_le, Z.ltb_lt in H. exact H.
Qed.

Lemma crc16_range d : 0 <= crc16 0 d < 65536.
Proof.
  assert (forall c, 0 <= c < 65536 -> 0 <= crc16 c d < 65536) as H; [|by apply H]. unfold crc16, calculate_crc.
  induction d as [|b d IH]; intros c Hc; [done|]. cbn [foldl]. apply IH. apply (lxor_bound 16); [lia|rewrite shiftr_div by lia; zlia|].
  rewrite land_ff. apply crc16_table_bound, u8_range.
Qed.

Lemma rd16_at a v b off w : off = length a -> 0 <= v < 65536 -> rd16 (a ++ st16 v ++ b) off w = Some (v, w).
Proof. intros Ho Hv. unfold rd16. rewrite bind_run, (peek_at a (st16 v)) by done. rewrite mret_run. by rewrite ld16_st16, u16_small. Qed.

Lemma diag_type_imei buf sub :
  diag_type buf 0x5E sub =
    (r ← is_rm_cali_nv_need_to_handle buf;
     if r =? 0 then mret (CMD_COMMON, buf)
     else _ ← (if r =? 2 then modify (set_cp_ap 1) else mret tt); mret (CMD_USER_BTWIFIIMEI, buf)).
Proof. reflexivity. Qed.

(** A production request is recognised and left to this processor. *)
Lemma parse_imei seq sub D pad w (p := (st32 seq ++ st16 116 ++ [0x5E; sub]) ++ D ++ st16 (crc16 0 D)) (f := eng_translate_packet p) :
  length D = 106%nat -> sub = 0x77 \/ sub = 0xF7 -> g_ap_cali_flag w <> 0 ->
  eng_diag_parse (f ++ pad) (Z.of_nat (length f)) w =
    Some ((CMD_USER_BTWIFIIMEI, imei_req seq sub D (0x7E :: replicate (escapes p) 0x7E ++ pad), escapes p), w).
Proof.
  intros HD Hsub Hc. unfold f. rewrite parse_frame. unfold p at 1 2 3 4. rewrite imei_req_decoded. fold p. set (pad' := 0x7E :: _).
  destruct (imei_req_fields seq sub D pad' HD) as (Hl & F4 & F7 & F8 & F9 & _).
  assert (imei_req seq sub D pad' !! 7%nat = Some 0x5E) as F7' by done.
  rewrite bind_run. unfold rd8 at 1, lift. rewrite F7'. rewrite bind_run. unfold rd8 at 1, lift. rewrite F8.
  rewrite bind_run, diag_type_imei, bind_run. unfold is_rm_cali_nv_need_to_handle.
  assert (imei_req seq sub D pad' = (0x7E :: st32 seq) ++ st16 116 ++ [0x5E; sub] ++ D ++ st16 (crc16 0 D) ++ pad') as E5
    by (unfold imei_req; by rewrite <- !app_assoc).
  assert (imei_req seq sub D pad' = (0x7E :: (st32 seq ++ st16 116 ++ [0x5E; sub]) ++ D) ++ st16 (crc16 0 D) ++ pad') as E115
    by (unfold imei_req; cbn [app]; by rewrite <- !app_assoc).
  rewrite bind_run. rewrite E5 at 1. rewrite rd16_at by done. change (116 <? 10) with false. cbv iota.
  change (Z.to_nat 116 - 1)%nat with 115%nat. change (Z.to_nat 116 - 10)%nat with 106%nat.
  rewrite bind_run. rewrite E115 at 1. rewrite rd16_at by (apply crc16_range || (cbn [app length]; rewrite length_app, HD; done)).
  rewrite bind_run. unfold peek, lift. rewrite mem_read_nat, F9 by lia. rewrite Z.eqb_refl. cbn [negb].
  rewrite bind_run. unfold rd8, lift. rewrite F8, bind_run. unfold gets.
  destruct (Z.eqb_spec (g_ap_cali_flag w) 0); [done|]. by destruct Hsub as [-> | ->].
Qed.

(** ** Properties *)

Section wire.
  Context (linux_other : nat -> list Z -> M reply) (audio adc : list Z -> M (list Z))
          (fm attest gps : list Z -> Z -> M (list Z)) (WIFI_NAME WIFI_PATH : list Z).
Let diag := eng_diag linux_other audio adc fm attest gps WIFI_NAME WIFI_PATH.

(** The message of a production request. *)
Definition prod_msg (seq sub : Z) (D : list Z) : list Z := (st32 seq ++ st16 116 ++ [0x5E; sub]) ++ D ++ st16 (crc16 0 D).

(** A request that its handler answers directly. *)
Lemma diag_direct p pad w t buf num r a w1 (f := eng_translate_packet p) :
  eng_diag_parse (f ++ pad) (Z.of_nat (length f)) w = Some ((t, buf, num), w) -> t <> CMD_COMMON ->
  (forall n, eng_diag_user_handle linux_other audio adc fm attest gps WIFI_NAME WIFI_PATH t buf n = direct_reply r) ->
  r w = Some (a, w1) -> pc_script w1 = [] -> s_cp_ap_proc w1 = 0 ->
  diag (f ++ pad) (Z.of_nat (length f)) w = Some (Ret 1, set_pc (pc_out w1 ++ [a]) [] w1).
Proof.
  intros Hp Ht Hh Ea Hs Hc. unfold diag, eng_diag. rewrite bind_run, Hp, bool_decide_false by done.
  rewrite bind_run, Hh. unfold direct_reply. rewrite bind_run, Ea, bind_run, write2pc_ok by done. rewrite mret_run.
  change (0 =? 0) with true. cbv iota. rewrite bind_run, mret_run, bind_run. unfold gets. cbn [s_cp_ap_proc set_pc].
  by rewrite Hc.
Qed.

(** C16: Production data survive on the wire: with usable files, in calibration mode
    and with a PC that takes the answers, the frame that writes four well-formed
    IMEI records ([good_imei], each with the type nibble 0xA) and both addresses is
    handled here and answered with one frame that reports success; the frame that
    asks for them is then answered with one frame that holds the same IMEIs and
    addresses under a correct CRC. All bytes may need escapes. *)
Theorem production_roundtrip x d seq seq' pad pad' w :
  prod_ok x -> length d = 106%nat -> prod_env w -> pc_script w = [] ->
  let f := eng_translate_packet (prod_msg seq 0x77 (prod_direct x)) in
  let f' := eng_translate_packet (prod_msg seq' 0xF7 d) in
  let kept := prod_direct (prod_kept x) in
  exists w1 w2,
    diag (f ++ pad) (Z.of_nat (length f)) w = Some (Ret 1, w1) /\
    diag (f' ++ pad') (Z.of_nat (length f')) w1 = Some (Ret 1, w2) /\
    pc_out w1 = pc_out w ++ [eng_translate_packet (st32 seq ++ st16 10 ++ [0x5E; 1] ++ [0; 0])] /\
    pc_out w2 = pc_out w1 ++
      [eng_translate_packet (st32 seq' ++ st16 116 ++ [0x5E; 1] ++ kept ++ st16 (crc16 0 kept))].
Proof.
  intros Hx Hd He Hs f f' kept. pose proof He as (_ & _ & Hc & Hcp).
  pose proof (parse_imei seq 0x77 (prod_direct x) pad w (prod_direct_length x Hx) (or_introl eq_refl) Hc) as P1.
  set (pad1 := 0x7E :: _) in P1.
  destruct (production_write x seq pad1 w Hx He) as (w0 & E0 & (C0 & S0 & O0 & T0) & St).
  pose proof (diag_direct _ pad w _ _ _ _ _ w0 P1 ltac:(done) ltac:(done) E0 ltac:(congruence) ltac:(congruence)) as Ed.
  eexists. eexists. split; [exact Ed|]. set (w1 := set_pc _ [] w0) in *.
  assert (g_ap_cali_flag w1 <> 0) as Hc1 by (cbn; congruence).
  pose proof (parse_imei seq' 0xF7 d pad' w1 Hd (or_intror eq_refl) Hc1) as P2. set (pad2 := 0x7E :: _) in P2.
  pose proof (production_read x seq' d pad2 w1 Hx Hd St Hc1) as E1.
  pose proof (diag_direct _ pad' w1 _ _ _ _ _ w1 P2 ltac:(done) ltac:(done) E1 ltac:(done) ltac:(cbn; congruence)) as Ed2.
  split; [exact Ed2|]. split; [cbn; by rewrite O0|done].
Qed.

(** The answer to a version request as it is built. *)
Definition version_reply (seq : Z) (v : list Z) : list Z :=
  0x7E :: (st32 seq ++ st16 (8 + Z.of_nat (length v)) ++ [0; 2]) ++ v ++ [0x7E].

Lemma plain_frame m : Forall (fun b => is_mark b = false) m -> 0x7E :: m ++ [0x7E] = eng_translate_packet m.
Proof.
  intros H. unfold eng_translate_packet, translate_packet. f_equal. f_equal.
  induction H as [|b m Hb _ IH]; [done|]. cbn. rewrite esc_plain by done. cbn. by rewrite <- IH.
Qed.

(** The version request is answered with the version, and how: header, text
    and flags are sent as they are.  When no byte needs an escape this is the
    frame of the answer; but a version text of 118 characters puts the flag 0x7E
    into the length field, so that the answer is cut into two on the wire. *)
Theorem version_request seq pad v w :
  pc_script w = [] -> g_reset w = 0 -> s_cp_ap_proc w = 0 ->
  props w !! "ro.build.description"%string = Some v -> (length v <= 248)%nat ->
  let f := eng_translate_packet (st32 seq ++ st16 8 ++ [0; 2]) in
  diag (f ++ pad) (Z.of_nat (length f)) w = Some (Ret 1, set_pc (pc_out w ++ [version_reply seq v]) [] w) /\
  (Forall (fun b => is_mark b = false) ((st32 seq ++ st16 (8 + Z.of_nat (length v)) ++ [0; 2]) ++ v) ->
     version_reply seq v = eng_translate_packet ((st32 seq ++ st16 (8 + Z.of_nat (length v)) ++ [0; 2]) ++ v)) /\
  (length v = 118%nat -> version_reply seq v !! 5%nat = Some 0x7E /\ length (version_reply seq v) = 128%nat).
Proof.
  intros Hs Hr Hc Hp Hv f. split_and!.
  - unfold diag, eng_diag, f. rewrite bind_run, parse_frame. set (p := st32 seq ++ st16 8 ++ [0; 2]).
    assert (decoded p pad !! 7%nat = Some 0) as F7 by done. assert (decoded p pad !! 8%nat = Some 2) as F8 by done.
    rewrite bind_run. unfold rd8 at 1, lift. rewrite F7, bind_run. unfold rd8 at 1, lift. rewrite F8.
    rewrite bind_run. change (diag_type (decoded p pad) 0 2) with (mret (CMD_USER_VER, decoded p pad) : M (DIAG_CMD_TYPE * list Z)).
    rewrite !mret_run. rewrite bool_decide_false by done. rewrite bind_run. unfold eng_diag_user_handle, text_reply.
    rewrite bind_run. unfold eng_diag_getver. rewrite bind_run. unfold property_get, gets. rewrite Hp. cbn [default]. rewrite mret_run.
    rewrite (take_ge v) by lia. unfold generic_reply. rewrite bind_run. unfold generic_frame.
    rewrite bind_run. unfold peek at 1, lift, SIZEOF_HEAD. rewrite mem_read_nat by (cbn; lia).
    change (take 8 (drop 1 (decoded p pad))) with p. rewrite u16_small by lia.
    destruct (Z.ltb_spec 8192 (8 + Z.of_nat (length v) + 2)); [lia|].
    rewrite bind_run. unfold peek, lift. rewrite mem_read_nat.
    2:{ unfold pad_to. rewrite length_app, length_replicate, length_take. lia. }
    rewrite drop_0. replace (Z.to_nat (8 + Z.of_nat (length v)) - 8)%nat with (length v) by lia.
    unfold pad_to. rewrite take_app_le by (rewrite length_take; lia). rewrite (take_take v), (take_ge v) by lia.
    rewrite mret_run. rewrite bind_run, write2pc_ok by done. rewrite bind_run. unfold gets. cbn [g_reset set_pc]. rewrite Hr.
    change (eng_diag_reboot 0) with (@None string). rewrite !bool_decide_false by done. rewrite mret_run.
    cbn [orb]. change (0 =? 0) with true. cbv iota. rewrite bind_run, mret_run, bind_run. cbn [s_cp_ap_proc set_pc]. rewrite Hc. done.
  - intros Hm. by rewrite <- plain_frame, <- app_assoc.
  - intros Hl. unfold version_reply. rewrite Hl. split; [done|]. cbn [length app st32 st16]. rewrite length_app, Hl. done.
Qed.
End wire.

(** Parameters for examples: the requests do not reach them. *)
Definition no_cmd (i : nat) (s : list Z) : M reply := undefined.
Definition no_hdlr (b : list Z) : M (list Z) := undefined.
Definition no_hdlr2 (b : list Z) (n : Z) : M (list Z) := undefined.

Definition imei_demo : list Z := [0x3A; 0x95; 0x10; 0xF1; 0x30; 0x33; 0x33; 0x93].
Definition prod_world : world :=
  init_world (list_to_map (map (fun p => (p, File [] true true true))
    ["/productinfo/imei1.txt"; "/productinfo/imei2.txt"; "/productinfo/imei3.txt"; "/productinfo/imei4.txt"]%string)).

Lemma prod_world_files p f : files prod_world !! p = Some f -> f = File [] true true true.
Proof.
  intros H. apply (elem_of_list_to_map_2 (M := gmap string)) in H. cbn in H.
  rewrite !elem_of_cons, elem_of_nil in H. naive_solver.
Qed.

Definition prod_demo : production :=
  Production imei_demo imei_demo [1; 0x7D; 3; 4; 0x7E; 6] (Zs 44) [7; 8; 9; 10; 11; 12] (Zs 2) imei_demo imei_demo (Zs 16).

Lemma prod_demo_ok : prod_ok prod_demo /\ prod_env prod_world.
Proof.
  split; split_and!; try done.
  - assert (good_imei imei_demo) by (split_and!; [done|apply (bool_decide_unpack _); by vm_compute|done]).
    repeat (apply Forall_cons_2; [done|]). apply Forall_nil_2.
  - repeat (apply Forall_cons_2; [split; [done|apply (bool_decide_unpack _); by vm_compute]|]). apply Forall_nil_2.
  - intros p f _ Hf. apply prod_world_files in Hf as ->. done.
  - intros num path off Hi. exists []. unfold imei_item in Hi. repeat case_match; first [discriminate Hi|injection Hi as <- <-; reflexivity].
Qed.

Lemma production_roundtrip_witness :
  let diag := eng_diag no_cmd no_hdlr no_hdlr no_hdlr2 no_hdlr2 no_hdlr2 [] [] in
  let f := eng_translate_packet (prod_msg 1 0x77 (prod_direct prod_demo)) in
  let f' := eng_translate_packet (prod_msg 2 0xF7 (Zs 106)) in
  exists w1 w2,
    diag (f ++ []) (Z.of_nat (length f)) prod_world = Some (Ret 1, w1) /\
    diag (f' ++ []) (Z.of_nat (length f')) w1 = Some (Ret 1, w2) /\
    pc_out w1 = pc_out prod_world ++ [eng_translate_packet (st32 1 ++ st16 10 ++ [0x5E; 1] ++ [0; 0])] /\
    pc_out w2 = pc_out w1 ++ [eng_translate_packet (prod_msg 2 1 (prod_direct prod_demo))].
Proof.
  apply (production_roundtrip no_cmd no_hdlr no_hdlr no_hdlr2 no_hdlr2 no_hdlr2 [] [] prod_demo (Zs 106) 1 2 [] [] prod_world);
    [apply prod_demo_ok|done|apply prod_demo_ok|done].
Defined.

Lemma version_request_witness :
  let diag := eng_diag no_cmd no_hdlr no_hdlr no_hdlr2 no_hdlr2 no_hdlr2 [] [] in
  let w := add_prop "ro.build.description" (replicate 118 65) (init_world ∅) in
  let f := eng_translate_packet (st32 5 ++ st16 8 ++ [0; 2]) in
  diag (f ++ []) (Z.of_nat (length f)) w = Some (Ret 1, set_pc [version_reply 5 (replicate 118 65)] [] w) /\
  version_reply 5 (replicate 118 65) !! 5%nat = Some 0x7E.
Proof.
  destruct (version_request no_cmd no_hdlr no_hdlr no_hdlr2 no_hdlr2 no_hdlr2 [] [] 5 [] (replicate 118 65)
    (add_prop "ro.build.description" (replicate 118 65) (init_world ∅))) as (H1 & _ & H3);
    [done|done|done|done|cbn; lia|].
  split; [exact H1|]. exact (proj1 (H3 eq_refl)).
Defined.
