(* ===== verification/EngFile.v ===== *)
(** * File transfer between PC and telephone (the requests of
    [eng_diag_fileoper_hdlr])

    A file is sent to the PC in pieces of at most 8192 bytes, each in a frame of
    its own; a file comes from the PC in pieces, each a request.  The theorems say
    that the pieces put together are the file. *)

From S2P Require Import Prelude Checksum Hdlc EngFrame EngText EngSys EngCmd EngAdc EngReply EngProd EngDiag.

(** ** To the PC *)

(** One frame of a file: is it the last one, its bytes, and what the rest of the
    array holds. *)
Record piece := Piece { pc_last : bool; pc_data : list Z; pc_rest : list Z }.

Definition piece_frame (buf : list Z) (p : piece) : list Z :=
  eng_translate_packet
    (take 4 (drop 1 buf) ++ st16 (Z.of_nat (12 + (8 + MAX_DIAG_TRANSMIT_FILE_LEN))) ++ [buf !!! 7%nat; buf !!! 8%nat] ++
     st16 0 ++ st16 8200 ++ st32 (if pc_last p then 0 else 1) ++ st32 (Z.of_nat (length (pc_data p))) ++
     pc_data p ++ pc_rest p).

(** Pieces of the right size of which only the last one says so. *)
Fixpoint pieces_ok (l : list piece) : Prop :=
  match l with
  | [] => False
  | p :: l =>
      (0 < length (pc_data p))%nat /\ (length (pc_data p) + length (pc_rest p) = MAX_DIAG_TRANSMIT_FILE_LEN)%nat /\
      match l with [] => pc_last p = true | _ :: _ => pc_last p = false /\ pieces_ok l end
  end.

Lemma max_file_pos : (0 < MAX_DIAG_TRANSMIT_FILE_LEN)%nat.
Proof. apply Nat.ltb_lt. by vm_compute. Qed.

Lemma file_msg_run buf status length body w :
  (9 <= List.length buf)%nat ->
  file_msg buf status length body w =
    Some (take 4 (drop 1 buf) ++ st16 (Z.of_nat (12 + List.length body)) ++ [buf !!! 7%nat; buf !!! 8%nat] ++
          st16 status ++ st16 length ++ body, w).
Proof.
  intros Hb. unfold file_msg. rewrite bind_run. unfold rd8, lift.
  destruct (lookup_lt_is_Some_2 buf 8 ltac:(lia)) as [x Hx]. rewrite Hx. apply list_lookup_total_correct in Hx. subst x.
  by rewrite reply_to_run.
Qed.

(** What the loop sends from position [pos] on. *)
Lemma file_read_loop_run fuel buf f pos data w :
  f_ok f = true -> (9 <= length buf)%nat -> (pos < length (f_data f))%nat -> length data = MAX_DIAG_TRANSMIT_FILE_LEN ->
  (length (f_data f) - pos <= fuel)%nat -> pc_script w = [] -> Z.of_nat (length (f_data f)) < 2147483648 ->
  exists l w1, file_read_loop fuel buf f (Z.of_nat (length (f_data f))) pos (Z.of_nat pos) data w = Some (tt, w1) /\
    w1 = set_pc (pc_out w ++ map (piece_frame buf) l) [] w /\ mjoin (map pc_data l) = drop pos (f_data f) /\ pieces_ok l.
Proof.
  intros Hok Hb. revert pos data w. induction fuel as [|fuel IH]; intros pos data w Hpos Hd Hf Hs Hmax; [lia|].
  pose proof max_file_pos as H0. cbn [file_read_loop]. unfold read_file. cbn [f_ok f_data]. rewrite Hok.
  set (d := take MAX_DIAG_TRANSMIT_FILE_LEN (drop pos (f_data f))).
  assert (length d = min MAX_DIAG_TRANSMIT_FILE_LEN (length (f_data f) - pos)) as Ld by (unfold d; by rewrite length_take, length_drop).
  rewrite bind_run, file_msg_run by done. cbv zeta.
  rewrite (s32_small (Z.of_nat pos + _)) by lia.
  set (lst := Z.of_nat pos + Z.of_nat (length d) =? Z.of_nat (length (f_data f))).
  set (p := Piece lst d (drop (length d) data)).
  assert (length (d ++ drop (length d) data) = MAX_DIAG_TRANSMIT_FILE_LEN) as Ld' by (rewrite length_app, length_drop; lia).
  match goal with |- context [eng_diag_write2pc ?X] => assert (X = piece_frame buf p) as -> end.
  { unfold piece_frame, p. cbn [pc_last pc_data pc_rest].
    match goal with |- context [st16 (Z.of_nat (12 + length ?L))] =>
      replace (length L) with (8 + MAX_DIAG_TRANSMIT_FILE_LEN)%nat; [done|] end.
    rewrite !(length_app (st32 _)), Ld'. done. }
  rewrite bind_run, write2pc_ok by done.
  assert (drop pos (f_data f) = d ++ drop (pos + length d) (f_data f)) as Erest.
  { rewrite <- drop_drop. unfold d. rewrite <- (take_drop MAX_DIAG_TRANSMIT_FILE_LEN (drop pos (f_data f))) at 1. f_equal.
    rewrite length_take, length_drop. destruct (decide (MAX_DIAG_TRANSMIT_FILE_LEN <= length (f_data f) - pos)%nat).
    - by rewrite Nat.min_l.
    - rewrite Nat.min_r by lia. rewrite !drop_ge; rewrite ?length_drop; lia || done. }
  destruct lst eqn:El; unfold lst in El.
  - apply Z.eqb_eq in El. exists [p]. eexists. split; [reflexivity|]. split; [reflexivity|]. split.
    + unfold p. cbn [map mjoin list_join pc_data]. rewrite app_nil_r. rewrite Erest. assert (drop (pos + length d) (f_data f) = []) as -> by (apply drop_ge; lia). by rewrite app_nil_r.
    + unfold p. cbn [pieces_ok pc_data pc_rest pc_last]. rewrite length_drop. split_and!; [lia|lia|done].
  - apply Z.eqb_neq in El. rewrite <- Nat2Z.inj_add.
    destruct (IH (pos + length d)%nat (d ++ drop (length d) data) (set_pc (pc_out w ++ [piece_frame buf p]) [] w))
      as (l & w1 & E & -> & Hj & Hl); [lia|done|lia|done|done|].
    exists (p :: l). eexists. split; [exact E|]. cbn [pc_out set_pc map]. split; [by rewrite <- app_assoc|].
    split; [by rewrite Erest, <- Hj|].
    unfold p. cbn [pieces_ok pc_data pc_rest pc_last]. rewrite length_drop. split_and!; [lia|lia|]. by destruct l.
Qed.

(** C19: A file is sent completely: for a request to read a file that can be read,
    is not empty and has fewer than 2^31 bytes (its size is kept in an int), if
    every write to the PC succeeds, the handler returns, and the frames it has sent
    carry the contents of the file in order, in pieces of 1 to 8192 bytes, of which
    exactly the last one is marked as such. (The results of the writes are not
    looked at: a frame whose write fails is lost and the handler returns as if all
    had been sent.) *)
Theorem file_download buf name f w :
  (9 <= length buf)%nat -> rd32 buf 13 w = Some (1, w) -> cstr_at buf 17 = Some name ->
  files w !! to_str name = Some f -> f_ok f = true -> f_data f <> [] -> Z.of_nat (length (f_data f)) < 2147483648 ->
  pc_script w = [] ->
  exists l, eng_diag_fileoper_hdlr buf w =
      Some ((0, []), set_pc (pc_out w ++ map (piece_frame buf) l) [] w) /\
    mjoin (map pc_data l) = f_data f /\ pieces_ok l.
Proof.
  intros Hb Hc Hn Hf Hok Hne Hmax Hs. assert (0 < length (f_data f))%nat as H0 by (destruct (f_data f); cbn; [done|lia]).
  unfold eng_diag_fileoper_hdlr. rewrite bind_run, Hc, bind_run. unfold lift. rewrite Hn.
  change (1 =? 0) with false. change (1 =? 1) with true. cbv iota zeta. rewrite bind_run. unfold file_read.
  rewrite bind_run. unfold eng_get_filesize, gets. rewrite Hf, bind_run. unfold open_read, gets. rewrite Hf, (s32_small (Z.of_nat _)) by lia.
  destruct (Z.eqb_spec (Z.of_nat (length (f_data f))) 0); [lia|]. rewrite bind_run.
  destruct (file_read_loop_run (S (length (f_data f))) buf f 0 (replicate MAX_DIAG_TRANSMIT_FILE_LEN 0) w Hok Hb H0
    (length_replicate _ _) ltac:(lia) Hs Hmax) as (l & w1 & E & -> & Hj & Hl).
  change (Z.of_nat 0) with 0 in E. rewrite E. exists l. split; [done|]. by rewrite Hj, drop_0.
Qed.

Definition file_req (cmd more : Z) (name : string) (d : list Z) : list Z :=
  0x7E :: (st32 3 ++ st16 0 ++ [0x62; 0]) ++ (st16 3 ++ st16 0) ++ st32 cmd ++ pad_to 260 (bs name) ++
  st32 more ++ st32 (Z.of_nat (length d)) ++ d ++ [0x7E].

Lemma file_download_witness :
  exists l, eng_diag_fileoper_hdlr (file_req 1 0 "/a" []) (init_world {["/a"%string := File [1; 2; 3] true true true]}) =
      Some ((0, []), set_pc (map (piece_frame (file_req 1 0 "/a" [])) l) [] (init_world {["/a"%string := File [1; 2; 3] true true true]})) /\
    mjoin (map pc_data l) = [1; 2; 3] /\ pieces_ok l.
Proof.
  apply (file_download (file_req 1 0 "/a" []) (bs "/a") (File [1; 2; 3] true true true)
           (init_world {["/a"%string := File [1; 2; 3] true true true]})); try done; cbn; lia.
Defined.

(** ** From the PC *)

(** A decoded request to write [d], the last piece of a file or not. *)
Definition write_req (path : string) (buf : list Z) (last : bool) (d : list Z) : Prop :=
  (9 <= length buf)%nat /\ (exists name, cstr_at buf 17 = Some name /\ to_str name = path) /\
  forall w, rd32 buf 13 w = Some (2, w) /\ rd32 buf 277 w = Some (b2z (negb last), w) /\
    rd32 buf 281 w = Some (Z.of_nat (length d), w) /\ peek buf 285 (length d) w = Some (d, w).

(** Requests that bring a file in pieces. *)
Inductive upload_reqs (path : string) : list (list Z) -> list (list Z) -> Prop :=
| upload_last buf d : write_req path buf true d -> upload_reqs path [buf] [d]
| upload_more buf d bufs ds :
    write_req path buf false d -> upload_reqs path bufs ds -> upload_reqs path (buf :: bufs) (d :: ds).

(** The answers to requests in a row. *)
Fixpoint serve_all (bufs : list (list Z)) : M (list (Z * list Z)) :=
  match bufs with
  | [] => mret []
  | b :: bufs => r ← eng_diag_fileoper_hdlr b; rs ← serve_all bufs; mret (r :: rs)
  end.

(** The answer that reports success. *)
Definition write_ok (buf : list Z) : Z * list Z :=
  let r := eng_translate_packet (take 4 (drop 1 buf) ++ st16 12 ++ [buf !!! 7%nat; buf !!! 8%nat] ++ st16 0 ++ st16 0) in
  (Z.of_nat (length r), r).

Lemma write_step path buf last d pre t w :
  write_req path buf last d -> files w !! path = Some (File (pre ++ t) true true true) -> s_cur_filepos w = Z.of_nat (length pre) ->
  Z.of_nat (length (pre ++ d)) < 2147483648 ->
  exists w1, eng_diag_fileoper_hdlr buf w = Some (write_ok buf, w1) /\
    files w1 !! path = Some (File ((pre ++ d) ++ drop (length d) t) true true true) /\
    (forall p, p <> path -> files w1 !! p = files w !! p) /\
    s_cur_filepos w1 = (if last then 0 else Z.of_nat (length (pre ++ d))).
Proof.
  intros (Hb & (name & Hn & Hp) & Hreq) Hf Hpos Hmax. rewrite length_app in Hmax. destruct (Hreq w) as (H13 & H277 & H281 & Hd).
  unfold eng_diag_fileoper_hdlr. rewrite bind_run, H13, bind_run. unfold lift at 1. rewrite Hn.
  change (2 =? 0) with false. change (2 =? 1) with false. change (2 =? 2) with true. cbv iota zeta. rewrite Hp.
  rewrite bind_run. unfold file_write. rewrite bind_run, H277, bind_run, H281, bind_run, (open_write_regular _ (pre ++ t)) by done.
  rewrite bind_run, bind_run. unfold gets at 1. rewrite Hpos. rewrite !Nat2Z.id.
  destruct (Z.ltb_spec (Z.of_nat (length pre)) 0); [lia|]. rewrite bind_run, Hd, bind_run.
  unfold write_file. rewrite Hf. cbn [f_ok f_reg f_data f_wopen].
  assert (write_at (pre ++ t) (length pre) d = (pre ++ d) ++ drop (length d) t) as ->.
  { unfold write_at. rewrite take_app_length. rewrite length_app.
    replace (length pre - (length pre + length t))%nat with 0%nat by lia. cbn [replicate app].
    rewrite <- drop_drop, drop_app_length. by rewrite <- app_assoc. }
  rewrite bind_run. unfold modify at 1. rewrite mret_run. rewrite (s32_small (Z.of_nat (length d))) by lia.
  rewrite s32_small by lia.
  destruct (Z.ltb_spec (Z.of_nat (length d)) 0); [lia|]. cbn [orb]. rewrite bind_run, file_msg_run by done.
  rewrite translate_to_run by (rewrite !length_app, length_take; cbn [length st16]; lia). rewrite mret_run. eexists. split; [done|].
  cbn [files set_filepos set_files s_cur_filepos]. rewrite lookup_insert_eq. split_and!; [done| |].
  - intros p Hne. by rewrite lookup_insert_ne.
  - destruct last; [done|]. change (b2z (negb false) =? 0) with false. cbv iota. rewrite length_app. lia.
Qed.

(** C20: A file is received completely: from a state in which no transfer is
    unfinished ([s_cur_filepos] is 0), the requests that bring the pieces [ds],
    together fewer than 2^31 bytes, to an existing writable regular file are all
    answered with success, and afterwards the file holds the pieces in order, in
    front of what it held behind them; the next transfer starts at the beginning
    again, and no other file has changed. (After an unfinished transfer the first
    piece of the next file is written at the position that one had reached.) *)
Theorem file_upload path bufs ds old w :
  upload_reqs path bufs ds -> files w !! path = Some (File old true true true) -> s_cur_filepos w = 0 -> Z.of_nat (length (mjoin ds)) < 2147483648 ->
  exists w1, serve_all bufs w = Some (map write_ok bufs, w1) /\
    files w1 !! path = Some (File (mjoin ds ++ drop (length (mjoin ds)) old) true true true) /\
    (forall p, p <> path -> files w1 !! p = files w !! p) /\ s_cur_filepos w1 = 0.
Proof.
  intros Hu Hf Hpos Hmax.
  assert (forall pre t w, files w !! path = Some (File (pre ++ t) true true true) -> s_cur_filepos w = Z.of_nat (length pre) ->
    Z.of_nat (length (pre ++ mjoin ds)) < 2147483648 ->
    exists w1, serve_all bufs w = Some (map write_ok bufs, w1) /\
      files w1 !! path = Some (File ((pre ++ mjoin ds) ++ drop (length (mjoin ds)) t) true true true) /\
      (forall p, p <> path -> files w1 !! p = files w !! p) /\ s_cur_filepos w1 = 0) as H; [|by apply (H [] old w)].
  clear w Hf Hpos Hmax old. induction Hu as [buf d Hr|buf d bufs ds Hr _ IH]; intros pre t w Hf Hpos Hmax; cbn [mjoin list_join] in Hmax.
  - rewrite app_nil_r in Hmax. destruct (write_step _ _ _ _ _ _ _ Hr Hf Hpos Hmax) as (w1 & E & H1 & H2 & H3).
    exists w1. cbn [serve_all map]. rewrite bind_run, E. cbn [mjoin list_join]. rewrite app_nil_r. by split_and!.
  - rewrite app_assoc in Hmax. destruct (write_step _ _ _ _ _ _ _ Hr Hf Hpos) as (w1 & E & H1 & H2 & H3);
      [rewrite length_app in Hmax; lia|].
    destruct (IH _ _ _ H1 H3 Hmax) as (w2 & E2 & H21 & H22 & H23).
    exists w2. cbn [serve_all map]. rewrite bind_run, E, bind_run, E2. split; [done|]. split_and!; [|intros p Hp; by rewrite H22, H2|done].
    rewrite H21, drop_drop. cbn [mjoin list_join]. rewrite length_app, <- !app_assoc. done.
Qed.

Lemma file_upload_witness :
  exists w1, serve_all [file_req 2 1 "/a" [7; 8]; file_req 2 0 "/a" [9]] (init_world {["/a"%string := File [1; 2; 3; 4] true true true]}) =
      Some (map write_ok [file_req 2 1 "/a" [7; 8]; file_req 2 0 "/a" [9]], w1) /\
    files w1 !! "/a"%string = Some (File [7; 8; 9; 4] true true true).
Proof.
  destruct (file_upload "/a" [file_req 2 1 "/a" [7; 8]; file_req 2 0 "/a" [9]] [[7; 8]; [9]] [1; 2; 3; 4]
    (init_world {["/a"%string := File [1; 2; 3; 4] true true true]})) as (w1 & H1 & H2 & _); [|done|done|done|].
  - repeat constructor; try (cbn; lia); try (exists (bs "/a")); done.
  - exists w1. split; [exact H1|exact H2].
Defined.
