(* ===== verification/EngLink.v ===== *)
(** * The diagnostic link (apps/engmode/vdiag.c)

    The thread that reads from the PC: it collects frames, has [eng_diag] handle
    those that are for this processor and passes everything else on to the modem.
    A frame that does not fit into half of the buffer is classified by its first
    20 bytes and, if it is for the modem, passed through. *)

From S2P Require Import Prelude Checksum Hdlc EngFrame EngText EngSys EngCmd EngAdc EngReply EngProd EngDiag.

Definition DATA_EXT_DIAG_SIZE : nat := 16384.
Definition DIAG_BUF_SIZE : nat := 20.

Inductive diag_status := ENG_DIAG_RECV_TO_AP | ENG_DIAG_RECV_TO_CP.

(** [ext] are the [ext_buf_len] bytes in [ext_data_buf]; [modem] the bytes
    written to the modem. *)
Record link := Link { ext : list Z; g_diag_status : diag_status; modem : list Z; g_ass_start : bool }.

(** [get_user_diag_buf]: bytes outside a frame and bytes behind the end of a
    frame are skipped. *)
Fixpoint get_user_diag_buf (buf ext : list Z) : bool * list Z :=
  match buf with
  | [] => (false, ext)
  | b :: buf =>
      if (b =? 0x7E) && (length ext =? 0)%nat then get_user_diag_buf buf [b]
      else if (0 <? length ext)%nat && (length ext <? DATA_EXT_DIAG_SIZE)%nat then
        if b =? 0x7E then (true, ext ++ [b]) else get_user_diag_buf buf (ext ++ [b])
      else get_user_diag_buf buf ext
  end.

Definition last_byte (l : list Z) : Z := default 0 (last l).

Section link.
  Context (linux_other : nat -> list Z -> M reply) (audio adc : list Z -> M (list Z))
          (fm attest gps : list Z -> Z -> M (list Z)) (WIFI_NAME WIFI_PATH : list Z).
Let diag := eng_diag linux_other audio adc fm attest gps WIFI_NAME WIFI_PATH.

(** What one read decides: the new collection state, the bytes for the modem
    ([backup_data_buf]) and [has_processed]; or the end of the process. *)
Inductive routed := Routed (e : list Z) (s : diag_status) (backup : list Z) (has_processed : Z) | Ended (o : outcome).

Definition route (log_data : list Z) (l : link) : M routed :=
  match g_diag_status l with
  | ENG_DIAG_RECV_TO_CP =>
      mret (Routed (ext l) (if last_byte log_data =? 0x7E then ENG_DIAG_RECV_TO_AP else ENG_DIAG_RECV_TO_CP) log_data 0)
  | ENG_DIAG_RECV_TO_AP =>
      let '(found, e) := get_user_diag_buf log_data (ext l) in
      if found then
        o ← diag (pad_to DATA_EXT_DIAG_SIZE e) (Z.of_nat (length e));
        mret match o with Ret r => Routed [] ENG_DIAG_RECV_TO_AP e r | o => Ended o end
      else if (length e =? 0)%nat then mret (Routed e ENG_DIAG_RECV_TO_AP log_data 0)
      else if (DATA_EXT_DIAG_SIZE / 2 <=? length e)%nat then
        '(type, _, _) ← eng_diag_parse (take DIAG_BUF_SIZE e) (Z.of_nat DIAG_BUF_SIZE);
        mret (if bool_decide (type = CMD_COMMON) then Routed [] ENG_DIAG_RECV_TO_CP e 0
              else Routed e ENG_DIAG_RECV_TO_AP [] 1)
      else mret (Routed e ENG_DIAG_RECV_TO_AP [] 1)
  end.

(** One pass of the loop of [eng_vdiag_wthread] for a read that returned
    [log_data], not empty.  The write to the modem is repeated until all bytes
    are out. *)
Definition vdiag_step (log_data : list Z) (l : link) : M (link + outcome) :=
  r ← route log_data l;
  match r with
  | Ended o => mret (inr o)
  | Routed e s backup has_processed =>
      cali ← gets g_ap_cali_flag;
      mret (inl (if (has_processed =? 1) || (cali =? 1) then Link e s (modem l) (g_ass_start l)
                 else Link e s (modem l ++ backup)
                        (g_ass_start l || ((length log_data =? 2)%nat && (log_data !!! 1%nat =? 10)))))
  end.

(** Reads in a row. *)
Fixpoint vdiag_run (reads : list (list Z)) (l : link) : M (link + outcome) :=
  match reads with
  | [] => mret (inl l)
  | r :: reads => x ← vdiag_step r l; match x with inl l => vdiag_run reads l | inr o => mret (inr o) end
  end.

(** ** Lemmas *)

Lemma get_user_nil buf : Forall (fun b => b <> 0x7E) buf -> get_user_diag_buf buf [] = (false, []).
Proof.
  induction 1 as [|b buf Hb _ IH]; [done|]. cbn [get_user_diag_buf]. destruct (Z.eqb_spec b 0x7E); [done|]. exact IH.
Qed.

(** Bytes without a flag are added to a frame that has begun, as far as it has
    room. *)
Lemma get_user_more buf e :
  Forall (fun b => b <> 0x7E) buf -> (0 < length e)%nat -> (length e + length buf <= DATA_EXT_DIAG_SIZE)%nat ->
  get_user_diag_buf buf e = (false, e ++ buf).
Proof.
  intros H. revert e. induction H as [|b buf Hb _ IH]; intros e He Hl; cbn [get_user_diag_buf]; [by rewrite app_nil_r|].
  cbn [length] in Hl. destruct (Z.eqb_spec b 0x7E); [done|]. cbn [andb].
  destruct (Nat.ltb_spec 0 (length e)); [|lia]. destruct (Nat.ltb_spec (length e) DATA_EXT_DIAG_SIZE); [|lia]. cbn [andb].
  rewrite IH by (rewrite ?length_app; cbn [length]; lia). by rewrite <- app_assoc.
Qed.

(** The flag ends the frame, and what follows it is dropped. *)
Lemma get_user_end buf rest e :
  Forall (fun b => b <> 0x7E) buf -> (0 < length e)%nat -> (length e + length buf < DATA_EXT_DIAG_SIZE)%nat ->
  get_user_diag_buf (buf ++ 0x7E :: rest) e = (true, e ++ buf ++ [0x7E]).
Proof.
  intros H. revert e. induction H as [|b buf Hb _ IH]; intros e He Hl; cbn [get_user_diag_buf app]; cbn [length] in Hl.
  - change (0x7E =? 0x7E) with true. destruct (Nat.eqb_spec (length e) 0); [lia|]. cbn [andb].
    destruct (Nat.ltb_spec 0 (length e)); [|lia]. by destruct (Nat.ltb_spec (length e) DATA_EXT_DIAG_SIZE); [|lia].
  - destruct (Z.eqb_spec b 0x7E); [done|]. cbn [andb].
    destruct (Nat.ltb_spec 0 (length e)); [|lia]. destruct (Nat.ltb_spec (length e) DATA_EXT_DIAG_SIZE); [|lia]. cbn [andb].
    rewrite IH by (rewrite ?length_app; cbn [length]; lia). by rewrite <- app_assoc.
Qed.

(** A full buffer stays as it is. *)
Lemma get_user_full buf e : length e = DATA_EXT_DIAG_SIZE -> get_user_diag_buf buf e = (false, e).
Proof.
  intros He. assert (0 < DATA_EXT_DIAG_SIZE)%nat as H0 by (apply Nat.ltb_lt; by vm_compute).
  induction buf as [|b buf IH]; [done|]. cbn [get_user_diag_buf]. destruct (Nat.eqb_spec (length e) 0); [lia|].
  rewrite andb_false_r. destruct (Nat.ltb_spec (length e) DATA_EXT_DIAG_SIZE); [lia|]. rewrite andb_false_r. exact IH.
Qed.

(** Where a piece [p] of the frame of [body] lies: behind the first flag there is
    no flag but at its end. *)
Lemma piece_cases (e p rest body : list Z) :
  e ++ p ++ rest = 0x7E :: body ++ [0x7E] -> p <> [] -> Forall (fun b => b <> 0x7E) body -> e <> [] ->
  (rest <> [] /\ Forall (fun b => b <> 0x7E) p) \/ (rest = [] /\ exists q, p = q ++ [0x7E] /\ Forall (fun b => b <> 0x7E) q).
Proof.
  intros E Hp Hb He. destruct e as [|x e]; [done|]. injection E as _ E.
  destruct (decide (rest = [])) as [->|Hr]; [right|left]; (split; [done|]).
  - rewrite app_nil_r in E. destruct (exists_last Hp) as (q & y & ->). rewrite app_assoc in E. apply app_inj_tail in E as [E ->].
    exists q. split; [done|]. rewrite <- E in Hb. by apply Forall_app in Hb as [_ Hb].
  - destruct (exists_last Hr) as (r & y & ->). rewrite !app_assoc in E. apply app_inj_tail in E as [E _].
    rewrite <- E in Hb. apply Forall_app in Hb as [Hb _]. by apply Forall_app in Hb as [_ Hb].
Qed.

Lemma collect_piece e p rest body :
  e ++ p ++ rest = 0x7E :: body ++ [0x7E] -> p <> [] -> Forall (fun b => b <> 0x7E) body ->
  (length e + length p <= DATA_EXT_DIAG_SIZE)%nat ->
  get_user_diag_buf p e = (bool_decide (rest = []), e ++ p).
Proof.
  intros E Hp Hb Hl. assert (1 < DATA_EXT_DIAG_SIZE)%nat as H0 by (apply Nat.ltb_lt; by vm_compute).
  assert (forall e p, e ++ p ++ rest = 0x7E :: body ++ [0x7E] -> p <> [] -> e <> [] -> (length e + length p <= DATA_EXT_DIAG_SIZE)%nat ->
    get_user_diag_buf p e = (bool_decide (rest = []), e ++ p)) as H.
  { clear e p E Hp Hl. intros e p E Hp He Hl. assert (0 < length e)%nat by (destruct e; cbn; [done|lia]).
    destruct (piece_cases e p rest body E Hp Hb He) as [[Hr Hq]|[-> (q & -> & Hq)]].
    - rewrite bool_decide_false by done. by apply get_user_more.
    - rewrite bool_decide_true by done. rewrite length_app in Hl. cbn [length] in Hl. apply get_user_end; [done|done|lia]. }
  destruct e as [|x e]; [|by apply H].
  destruct p as [|y p]; [done|]. cbn [app] in E. injection E as -> E. cbn [get_user_diag_buf length].
  change (0x7E =? 0x7E) with true. change (0 =? 0)%nat with true. cbn [andb].
  destruct p as [|z p].
  - cbn [get_user_diag_buf]. rewrite bool_decide_false; [done|]. intros ->. by destruct body.
  - apply (H [0x7E] (z :: p)); [cbn [app]; by rewrite <- E|done|done|cbn [length] in *; lia].
Qed.

Lemma last_byte_piece e p rest body :
  e ++ p ++ rest = 0x7E :: body ++ [0x7E] -> p <> [] -> Forall (fun b => b <> 0x7E) body -> e <> [] ->
  (last_byte p =? 0x7E) = bool_decide (rest = []).
Proof.
  intros E Hp Hb He. unfold last_byte. destruct (piece_cases e p rest body E Hp Hb He) as [[Hr Hq]|[-> (q & -> & Hq)]].
  - rewrite bool_decide_false by done. apply Z.eqb_neq. destruct (exists_last Hp) as (q & y & ->). rewrite last_snoc. cbn.
    apply Forall_app in Hq as [_ Hq]. by inversion Hq.
  - rewrite bool_decide_true by done. by rewrite last_snoc.
Qed.

(** A frame that nobody here handles: the parser is shown the whole frame when it
    ends inside the buffer, and its first 20 bytes when half the buffer is full. *)
Definition for_modem (F : list Z) (w : world) : Prop :=
  ((length F < DATA_EXT_DIAG_SIZE)%nat ->
   exists b n, eng_diag_parse (pad_to DATA_EXT_DIAG_SIZE F) (Z.of_nat (length F)) w = Some ((CMD_COMMON, b, n), w)) /\
  ((DATA_EXT_DIAG_SIZE / 2 <= length F)%nat ->
   exists b n, eng_diag_parse (take DIAG_BUF_SIZE F) (Z.of_nat DIAG_BUF_SIZE) w = Some ((CMD_COMMON, b, n), w)).

Lemma step_collect p e rest body m a w F (l := Link e ENG_DIAG_RECV_TO_AP m a) :
  F = 0x7E :: body ++ [0x7E] -> e ++ p ++ rest = F -> p <> [] -> Forall (fun b => b <> 0x7E) body ->
  (length e < DATA_EXT_DIAG_SIZE / 2)%nat -> (length p <= DATA_EXT_DIAG_SIZE / 2)%nat ->
  for_modem F w -> g_ap_cali_flag w = 0 ->
  exists a', vdiag_step p l w = Some (inl
    (if bool_decide (rest = []) then Link [] ENG_DIAG_RECV_TO_AP (m ++ F) a'
     else if (DATA_EXT_DIAG_SIZE / 2 <=? length (e ++ p))%nat then Link [] ENG_DIAG_RECV_TO_CP (m ++ e ++ p) a'
     else Link (e ++ p) ENG_DIAG_RECV_TO_AP m a), w).
Proof.
  intros HF E Hp Hb He Hl [HP1 HP2] Hc.
  assert (DATA_EXT_DIAG_SIZE / 2 + DATA_EXT_DIAG_SIZE / 2 = DATA_EXT_DIAG_SIZE /\ DIAG_BUF_SIZE < DATA_EXT_DIAG_SIZE / 2)%nat as [Hhalf Hd]
    by (split; [by vm_compute|apply Nat.ltb_lt; by vm_compute]).
  unfold vdiag_step, route. cbn [g_diag_status ext l]. rewrite bind_run.
  assert (0 < length (e ++ p))%nat as H0 by (rewrite length_app; destruct p; [exfalso; apply Hp; reflexivity|cbn [length]; clear; lia]).
  rewrite (collect_piece e p rest body); [|by rewrite E|done|done|clear - Hhalf He Hl; lia].
  case_bool_decide as Hr.
  - subst rest. rewrite app_nil_r in E.
    destruct HP1 as (b1 & n1 & P1); [rewrite <- E, length_app; clear - Hhalf He Hl; lia|]. rewrite E. rewrite bind_run. unfold diag, eng_diag. rewrite bind_run, P1, bool_decide_true by done.
    rewrite !mret_run. rewrite bind_run. unfold gets. rewrite Hc. eexists. cbn [modem g_ass_start l]. done.
  - destruct (Nat.eqb_spec (length (e ++ p)) 0); [clear - H0 e0; lia|].
    destruct (Nat.leb_spec (DATA_EXT_DIAG_SIZE / 2) (length (e ++ p))) as [Hge|Hlt].
    + destruct HP2 as (b2 & n2 & P2); [rewrite <- E, app_assoc, length_app; lia|]. rewrite bind_run.
      assert (take DIAG_BUF_SIZE (e ++ p) = take DIAG_BUF_SIZE F) as ->
        by (rewrite <- E, app_assoc, (take_app_le (e ++ p)); [done|lia]).
      rewrite P2, mret_run. rewrite bool_decide_true by done. rewrite bind_run. unfold gets. rewrite Hc. eexists. done.
    + rewrite mret_run, bind_run. unfold gets. rewrite Hc. exists a. done.
Qed.

Lemma step_pass p e rest body m a w F (l := Link [] ENG_DIAG_RECV_TO_CP m a) :
  F = 0x7E :: body ++ [0x7E] -> e ++ p ++ rest = F -> p <> [] -> Forall (fun b => b <> 0x7E) body -> e <> [] -> g_ap_cali_flag w = 0 ->
  exists a', vdiag_step p l w = Some (inl
    (Link [] (if bool_decide (rest = []) then ENG_DIAG_RECV_TO_AP else ENG_DIAG_RECV_TO_CP) (m ++ p) a'), w).
Proof.
  intros HF E Hp Hb He Hc. unfold vdiag_step, route. cbn [g_diag_status ext l]. rewrite bind_run, mret_run, bind_run.
  unfold gets. rewrite Hc, (last_byte_piece e p rest body) by (congruence || done). eexists. by case_bool_decide.
Qed.

Lemma run_pass ps e body m a w F :
  F = 0x7E :: body ++ [0x7E] -> e ++ mjoin ps = F -> Forall (fun p => p <> []) ps -> ps <> [] ->
  Forall (fun b => b <> 0x7E) body -> e <> [] -> g_ap_cali_flag w = 0 ->
  exists a', vdiag_run ps (Link [] ENG_DIAG_RECV_TO_CP m a) w = Some (inl (Link [] ENG_DIAG_RECV_TO_AP (m ++ mjoin ps) a'), w).
Proof.
  intros HF E Hps Hne Hb He Hc. revert e m a E He Hne. induction Hps as [|p ps Hp Hps IH]; intros e m a E He Hne; [done|].
  cbn [mjoin list_join] in E. cbn [vdiag_run]. rewrite bind_run.
  destruct (step_pass p e (mjoin ps) body m a w F HF E Hp Hb He Hc) as (a' & ->). case_bool_decide as Hr.
  - assert (ps = []) as -> by (destruct Hps as [|q ps Hq _]; [done|]; cbn in Hr; by apply app_eq_nil in Hr as [-> _]).
    exists a'. cbn. by rewrite app_nil_r.
  - destruct (IH (e ++ p) (m ++ p) a') as (a2 & ->); [by rewrite <- app_assoc|by destruct e|by intros ->|].
    exists a2. cbn. by rewrite <- app_assoc.
Qed.

Lemma run_collect ps e body m a w F :
  F = 0x7E :: body ++ [0x7E] -> e ++ mjoin ps = F -> Forall (fun p => p <> [] /\ (length p <= DATA_EXT_DIAG_SIZE / 2)%nat) ps -> ps <> [] ->
  Forall (fun b => b <> 0x7E) body -> (length e < DATA_EXT_DIAG_SIZE / 2)%nat -> for_modem F w -> g_ap_cali_flag w = 0 ->
  exists a', vdiag_run ps (Link e ENG_DIAG_RECV_TO_AP m a) w = Some (inl (Link [] ENG_DIAG_RECV_TO_AP (m ++ F) a'), w).
Proof.
  intros HF E Hps Hne Hb He Hm Hc. revert e m a E He Hne. induction Hps as [|p ps [Hp Hl] Hps IH]; intros e m a E He Hne; [done|].
  cbn [mjoin list_join] in E. cbn [vdiag_run]. rewrite bind_run.
  destruct (step_collect p e (mjoin ps) body m a w F HF E Hp Hb He Hl Hm Hc) as (a' & ->). case_bool_decide as Hr.
  - assert (ps = []) as -> by (destruct Hps as [|q ps [Hq _] _]; [done|]; cbn in Hr; by apply app_eq_nil in Hr as [-> _]).
    by exists a'.
  - assert (ps <> []) as Hne' by (by intros ->). destruct (Nat.leb_spec (DATA_EXT_DIAG_SIZE / 2) (length (e ++ p))) as [Hge|Hlt].
    + destruct (run_pass ps (e ++ p) body (m ++ e ++ p) a' w F) as (a2 & ->); try done.
      * by rewrite <- app_assoc.
      * eapply Forall_impl; [done|]. naive_solver.
      * destruct e; [by destruct p|done].
      * exists a2. by rewrite <- E, <- !app_assoc.
    + destruct (IH (e ++ p) m a) as (a2 & ->); [by rewrite <- app_assoc|done|done|]. by exists a2.
Qed.

(** C17: Frames for the modem pass through unchanged, however the reads cut them:
    when no ADC calibration is running ([g_ap_cali_flag] is 0) and a frame that the
    parser leaves to the modem (looking at the whole frame when it is shorter than
    the buffer of 16384 bytes, and at its first 20 bytes when it has at least 8192)
    arrives in non-empty pieces of at most 8192 bytes, the modem has received
    exactly its bytes at the end, and the receiver is back in its initial state.
    This covers frames that fit into the buffer and frames of any length that are
    passed on while they arrive: the witness is a short one and one of 20010 bytes.
    *)
Theorem modem_frames_pass ps body m a w (F := 0x7E :: body ++ [0x7E]) :
  mjoin ps = F -> Forall (fun p => p <> [] /\ (length p <= DATA_EXT_DIAG_SIZE / 2)%nat) ps ->
  Forall (fun b => b <> 0x7E) body -> for_modem F w -> g_ap_cali_flag w = 0 ->
  exists a', vdiag_run ps (Link [] ENG_DIAG_RECV_TO_AP m a) w = Some (inl (Link [] ENG_DIAG_RECV_TO_AP (m ++ F) a'), w).
Proof.
  intros E Hps Hb Hm Hc. apply (run_collect ps [] body m a w F); try done.
  - intros ->. done.
  - apply Nat.ltb_lt. by vm_compute.
Qed.

(** What follows a frame in the same read is lost: of a read that holds the
    frame [F] and then anything else, only [F] is looked at; a second frame [G]
    behind it is neither handled nor passed to the modem. *)
Theorem second_frame_lost body G m a w (F := 0x7E :: body ++ [0x7E]) :
  Forall (fun b => b <> 0x7E) body -> (length F < DATA_EXT_DIAG_SIZE)%nat -> for_modem F w -> g_ap_cali_flag w = 0 ->
  exists a', vdiag_step (F ++ G) (Link [] ENG_DIAG_RECV_TO_AP m a) w = Some (inl (Link [] ENG_DIAG_RECV_TO_AP (m ++ F) a'), w).
Proof.
  intros Hb Hl [HP _] Hc. destruct (HP Hl) as (b1 & n1 & P1). unfold vdiag_step, route. cbn [g_diag_status ext]. rewrite bind_run.
  assert (get_user_diag_buf (F ++ G) [] = (true, F)) as ->.
  { unfold F. rewrite <- app_comm_cons, <- app_assoc. cbn [get_user_diag_buf length app]. change (0x7E =? 0x7E) with true. change (0 =? 0)%nat with true. cbn [andb].
    unfold F in Hl. cbn [length] in Hl. rewrite length_app in Hl. cbn [length] in Hl.
    rewrite get_user_end; [done|done|cbn; lia|cbn [length]; lia]. }
  rewrite bind_run. unfold diag, eng_diag. rewrite bind_run, P1, bool_decide_true by done. rewrite !mret_run, bind_run.
  unfold gets. rewrite Hc. eexists. done.
Qed.

(** C40: A request for this processor that is too long blocks the link for ever:
    once its first 16384 bytes fill the buffer without an end, every later read,
    whatever it brings, changes nothing and goes nowhere. *)
Theorem long_request_blocks reads e t b n m a w :
  length e = DATA_EXT_DIAG_SIZE ->
  eng_diag_parse (take DIAG_BUF_SIZE e) (Z.of_nat DIAG_BUF_SIZE) w = Some ((t, b, n), w) -> t <> CMD_COMMON ->
  vdiag_run reads (Link e ENG_DIAG_RECV_TO_AP m a) w = Some (inl (Link e ENG_DIAG_RECV_TO_AP m a), w).
Proof.
  intros He Hp Ht. induction reads as [|r reads IH]; [done|]. cbn [vdiag_run]. rewrite bind_run. unfold vdiag_step, route.
  cbn [g_diag_status ext]. rewrite bind_run, get_user_full by done.
  assert (0 < DATA_EXT_DIAG_SIZE)%nat as H0 by (apply Nat.ltb_lt; by vm_compute).
  destruct (Nat.eqb_spec (length e) 0); [lia|].
  assert (DATA_EXT_DIAG_SIZE / 2 <= length e)%nat as Hh by (rewrite He; apply Nat.leb_le; by vm_compute).
  destruct (Nat.leb_spec (DATA_EXT_DIAG_SIZE / 2) (length e)); [|lia].
  rewrite bind_run, Hp, mret_run, bool_decide_false, bind_run by done. unfold gets. change (1 =? 1) with true. cbn [orb].
  rewrite mret_run. exact IH.
Qed.
End link.

(** ** Examples *)

Definition modem_body : list Z := st32 1 ++ st16 12 ++ [0x40; 1; 10; 20; 30; 40].
Definition ap_request : list Z := 0x7E :: st32 1 ++ st16 12 ++ [0; 2] ++ replicate 16375 0.
Definition link_world : world := World ∅ ∅ [] [] [] [] [] [] [] demo_libs (fun _ => 0) 0 0 0 0 0 0 0 (-1) 0 0 0 0.

Lemma modem_body_for_modem : for_modem (0x7E :: modem_body ++ [0x7E]) link_world.
Proof.
  split; [intros _; eexists _, _; vm_compute; reflexivity|]. intros H. exfalso. apply Nat.leb_le in H. vm_compute in H. done.
Qed.

(** A frame that does not fit into the buffer, in reads of 8192 bytes. *)
Definition long_body : list Z := st32 1 ++ st16 12 ++ [0x40; 1] ++ replicate (Z.to_nat 20000) 5.
Definition long_frame : list Z := 0x7E :: long_body ++ [0x7E].
Definition long_reads : list (list Z) := 
  [take (Z.to_nat 8192) long_frame; take (Z.to_nat 8192) (drop (Z.to_nat 8192) long_frame); drop (Z.to_nat 8192 + Z.to_nat 8192) long_frame].

Lemma long_frame_length : length long_frame = Z.to_nat 20010.
Proof. unfold long_frame, long_body. cbn [length]. rewrite !length_app, length_replicate. cbn [length st32 st16]. lia. Qed.

Lemma long_frame_for_modem : for_modem long_frame link_world.
Proof.
  split; [|intros _; eexists _, _; vm_compute; reflexivity]. rewrite long_frame_length.
  change DATA_EXT_DIAG_SIZE with (Z.to_nat 16384). lia.
Qed.

Lemma long_reads_ok :
  mjoin long_reads = long_frame /\ Forall (fun p => p <> [] /\ (length p <= DATA_EXT_DIAG_SIZE / 2)%nat) long_reads /\
  Forall (fun b => b <> 0x7E) long_body.
Proof.
  assert (forall k, k < length long_frame -> drop k long_frame <> [])%nat as Hne.
  { intros k Hk E. apply (f_equal length) in E. rewrite length_drop in E. cbn [length] in E. lia. }
  pose proof long_frame_length as Hl. change (DATA_EXT_DIAG_SIZE / 2)%nat with (Z.to_nat 8192). split_and!.
  - unfold long_reads. cbn [mjoin list_join]. rewrite app_nil_r, <- drop_drop, !take_drop. done.
  - repeat apply Forall_cons_2; try apply Forall_nil_2; split; rewrite ?length_take, ?length_drop; try lia.
    + unfold long_frame. discriminate.
    + intros E. apply (f_equal length) in E. rewrite length_take, length_drop in E. cbn [length] in E. lia.
    + apply Hne. lia.
  - unfold long_body. repeat apply Forall_app_2; try (apply Forall_replicate; lia); repeat constructor; vm_compute; discriminate.
Qed.

Lemma modem_frames_pass_witness :
  (exists a', vdiag_run no_cmd no_hdlr no_hdlr no_hdlr2 no_hdlr2 no_hdlr2 [] []
      [take 5 (0x7E :: modem_body ++ [0x7E]); drop 5 (0x7E :: modem_body ++ [0x7E])] (Link [] ENG_DIAG_RECV_TO_AP [] false) link_world =
    Some (inl (Link [] ENG_DIAG_RECV_TO_AP ([] ++ 0x7E :: modem_body ++ [0x7E]) a'), link_world)) /\
  (exists a', vdiag_run no_cmd no_hdlr no_hdlr no_hdlr2 no_hdlr2 no_hdlr2 [] []
      long_reads (Link [] ENG_DIAG_RECV_TO_AP [] false) link_world =
    Some (inl (Link [] ENG_DIAG_RECV_TO_AP ([] ++ long_frame) a'), link_world)).
Proof.
  split.
  - apply (modem_frames_pass no_cmd no_hdlr no_hdlr no_hdlr2 no_hdlr2 no_hdlr2 [] []
             [take 5 (0x7E :: modem_body ++ [0x7E]); drop 5 (0x7E :: modem_body ++ [0x7E])] modem_body [] false link_world).
    + done.
    + repeat (apply Forall_cons_2; [split; [done|apply Nat.leb_le; by vm_compute]|]). apply Forall_nil_2.
    + apply (bool_decide_unpack _). by vm_compute.
    + exact modem_body_for_modem.
    + done.
  - apply (modem_frames_pass no_cmd no_hdlr no_hdlr no_hdlr2 no_hdlr2 no_hdlr2 [] [] long_reads long_body [] false link_world).
    + exact (proj1 long_reads_ok).
    + exact (proj1 (proj2 long_reads_ok)).
    + exact (proj2 (proj2 long_reads_ok)).
    + exact long_frame_for_modem.
    + done.
Defined.

Lemma second_frame_lost_witness :
  exists a', vdiag_step no_cmd no_hdlr no_hdlr no_hdlr2 no_hdlr2 no_hdlr2 [] []
      ((0x7E :: modem_body ++ [0x7E]) ++ (0x7E :: modem_body ++ [0x7E])) (Link [] ENG_DIAG_RECV_TO_AP [] false) link_world =
    Some (inl (Link [] ENG_DIAG_RECV_TO_AP ([] ++ 0x7E :: modem_body ++ [0x7E]) a'), link_world).
Proof.
  apply (second_frame_lost no_cmd no_hdlr no_hdlr no_hdlr2 no_hdlr2 no_hdlr2 [] [] modem_body (0x7E :: modem_body ++ [0x7E]) [] false link_world).
  - apply (bool_decide_unpack _). by vm_compute.
  - apply Nat.ltb_lt. by vm_compute.
  - exact modem_body_for_modem.
  - done.
Defined.

Lemma long_request_blocks_witness :
  vdiag_run no_cmd no_hdlr no_hdlr no_hdlr2 no_hdlr2 no_hdlr2 [] [] [[0x7E; 1; 0x7E]; [5]] (Link ap_request ENG_DIAG_RECV_TO_AP [] false) link_world =
    Some (inl (Link ap_request ENG_DIAG_RECV_TO_AP [] false), link_world).
Proof.
  eapply (long_request_blocks no_cmd no_hdlr no_hdlr no_hdlr2 no_hdlr2 no_hdlr2 [] [] [[0x7E; 1; 0x7E]; [5]] ap_request CMD_USER_VER).
  - vm_compute. reflexivity.
  - vm_compute. reflexivity.
  - done.
Defined.
