(* ===== verification/ModemBoot.v ===== *)
(** * Booting the modem (apps/modem_control/modem_boot.c)

    The service reads the list of the modem's images, checks each image against
    its checksum and falls back to the backup copy, wakes the boot ROM over the
    UART, loads the first-stage loader (FDL) in frames of 256 bytes, switches to
    SPI and sends the images in packets of 32 KB or 256 bytes, over the packet
    layer of [Hdlc].

    Operations are functions in the monad [B]: a state transformer on [boot] that
    is [None] where the C code is undefined, would loop for ever, or waits for an
    answer that does not come.  The operating system's answers are data: the
    results of writes and reads of the channel ([io] of [Hdlc], the UART and then
    the SPI device), of opens and of the clock, the contents of files. *)

From S2P Require Import Prelude Checksum Hdlc EngFrame EngText.

(** ** The table of images *)

Definition MODE_SVLTE : Z := 1.
Definition MODE_TCSFB : Z := 2.
Definition MODE_FCSFB : Z := 4.
Definition MODE_ALL : Z := 0xFF.

(** [None] is the null pointer. *)
Record image_info := Image {
  image_path : option (list Z);
  image_path_bak : option (list Z);
  image_size : Z;
  address : Z;
  mask : Z;
}.

Definition PARM_BASE_ADDR : Z := 0x80000000.
Definition PARM_TOTAL_SIZE : Z := 0x1600000.
Definition PARM_FIX_NV_OFFSET : Z := PARM_BASE_ADDR + 0xA90000.
Definition PARM_FIX_NV_SIZE : Z := 0x20000.
Definition CA5_BASE_ADDR : Z := PARM_BASE_ADDR + PARM_TOTAL_SIZE.
Definition CA5_FIX_NV_OFFSET : Z := CA5_BASE_ADDR + 0xD10000.
Definition CA5_FIX_NV_SIZE : Z := 0x40000.

Definition by_name (s : string) : option (list Z) := Some (bs "/dev/block/platform/sprd-sdhci.3/by-name/" ++ bs s).
Definition image_entry (s : string) (size addr mask : Z) : image_info := Image (by_name s) (by_name s) size addr mask.
Definition PROC_CMDLINE : list Z := bs "/proc/cmdline".
Definition cmdline_entry (addr mask : Z) : image_info := Image (Some PROC_CMDLINE) (Some PROC_CMDLINE) 0x10000 addr mask.
Definition no_image : image_info := Image None None 0 0 0.

Definition download_image_info : list image_info := [
  image_entry "fdl" 0x4000 0x20000000 MODE_ALL;
  image_entry "tddsp" 0x3E0000 (PARM_BASE_ADDR + 0x20000) MODE_SVLTE;
  image_entry "tdmodem" 0x670000 (PARM_BASE_ADDR + 0x400000) MODE_SVLTE;
  image_entry "tdfixnv1" PARM_FIX_NV_SIZE PARM_FIX_NV_OFFSET MODE_SVLTE;
  image_entry "tdruntimenv1" 0x40000 (PARM_FIX_NV_OFFSET + PARM_FIX_NV_SIZE) MODE_SVLTE;
  cmdline_entry (PARM_BASE_ADDR + 0xAF0000) MODE_SVLTE;
  image_entry "l_modem" 0x8F0000 (CA5_BASE_ADDR + 0x400000) MODE_SVLTE;
  image_entry "l_fixnv1" CA5_FIX_NV_SIZE CA5_FIX_NV_OFFSET MODE_SVLTE;
  image_entry "l_runtimenv1" 0x60000 (CA5_FIX_NV_OFFSET + CA5_FIX_NV_SIZE) MODE_SVLTE;
  image_entry "tl_tdsp" 0x3E0000 (CA5_BASE_ADDR + 0x20000) MODE_TCSFB;
  image_entry "tl_modem" 0x8F0000 (CA5_BASE_ADDR + 0x400000) MODE_TCSFB;
  image_entry "tl_fixnv1" CA5_FIX_NV_SIZE CA5_FIX_NV_OFFSET MODE_TCSFB;
  image_entry "tl_runtimenv1" 0x60000 (CA5_FIX_NV_OFFSET + CA5_FIX_NV_SIZE) MODE_TCSFB;
  cmdline_entry (CA5_BASE_ADDR + 0xD70000) MODE_ALL;
  image_entry "l_ldsp" 0x200000 (CA5_BASE_ADDR + 0xD80000) MODE_SVLTE;
  image_entry "tl_ldsp" 0x200000 (CA5_BASE_ADDR + 0xD80000) MODE_TCSFB;
  image_entry "dfs" 0xf00 0x2000C000 MODE_ALL;
  no_image ].

Definition UART_DEVICE_NAME : list Z := bs "/dev/ttyS2".
Definition FDL_CP_PWRON_DLY : Z := 160 * 1000.
Definition FDL_CP_UART_TIMEOUT : Z := 3000.
Definition FDL_PACKET_SIZE : Z := 256.
Definition LS_PACKET_SIZE : Z := 256.
Definition HS_PACKET_SIZE : Z := 32 * 1024.
Definition NV_HEAD_MAGIC : Z := 0x00004e56.
Definition DL_FAILURE : Z := -1.
Definition DL_SUCCESS : Z := 0.

(** ** State *)

(** [clock]: the results of the next [clock_gettime] calls (seconds, nanoseconds),
    [None] a failure.  [opens]: the results of the next opens of the UART and of
    the download device.  [sysfs]: the writes to the control files. *)
Record boot := Boot {
  bio : io;
  clock : list (option (Z * Z));
  opens : list Z;
  sysfs : list (string * list Z);
  images : list image_info;
  modem_images_count : nat;
  uart_dev : option (list Z);
  fdl_cp_poweron_delay : Z;
  modem_power_status : Z;
  capabilities_flag : Z;
  test_buffer : list Z;
}.

Definition B (A : Type) : Type := boot -> option (A * boot).
#[export] Instance B_ret : MRet B := fun A a b => Some (a, b).
#[export] Instance B_bind : MBind B := fun A A' f m b => match m b with Some (a, b) => f a b | None => None end.

Definition bad {A} : B A := fun _ => None.
Definition get {A} (f : boot -> A) : B A := fun b => Some (f b, b).
Definition upd (f : boot -> boot) : B unit := fun b => Some (tt, f b).
Definition opt {A} (o : option A) : B A := fun b => (fun a => (a, b)) <$> o.

Definition set_bio (s : io) (b : boot) : boot :=
  Boot s (clock b) (opens b) (sysfs b) (images b) (modem_images_count b) (uart_dev b) (fdl_cp_poweron_delay b)
    (modem_power_status b) (capabilities_flag b) (test_buffer b).
Definition set_clock (c : list (option (Z * Z))) (b : boot) : boot :=
  Boot (bio b) c (opens b) (sysfs b) (images b) (modem_images_count b) (uart_dev b) (fdl_cp_poweron_delay b)
    (modem_power_status b) (capabilities_flag b) (test_buffer b).
Definition set_opens (o : list Z) (b : boot) : boot :=
  Boot (bio b) (clock b) o (sysfs b) (images b) (modem_images_count b) (uart_dev b) (fdl_cp_poweron_delay b)
    (modem_power_status b) (capabilities_flag b) (test_buffer b).
Definition add_sysfs (p : string) (d : list Z) (b : boot) : boot :=
  Boot (bio b) (clock b) (opens b) (sysfs b ++ [(p, d)]) (images b) (modem_images_count b) (uart_dev b)
    (fdl_cp_poweron_delay b) (modem_power_status b) (capabilities_flag b) (test_buffer b).
Definition set_images (l : list image_info) (n : nat) (b : boot) : boot :=
  Boot (bio b) (clock b) (opens b) (sysfs b) l n (uart_dev b) (fdl_cp_poweron_delay b)
    (modem_power_status b) (capabilities_flag b) (test_buffer b).
Definition set_uart (u : option (list Z)) (d : Z) (b : boot) : boot :=
  Boot (bio b) (clock b) (opens b) (sysfs b) (images b) (modem_images_count b) u d
    (modem_power_status b) (capabilities_flag b) (test_buffer b).
Definition set_power (v : Z) (b : boot) : boot :=
  Boot (bio b) (clock b) (opens b) (sysfs b) (images b) (modem_images_count b) (uart_dev b) (fdl_cp_poweron_delay b)
    v (capabilities_flag b) (test_buffer b).
Definition set_caps (v : Z) (b : boot) : boot :=
  Boot (bio b) (clock b) (opens b) (sysfs b) (images b) (modem_images_count b) (uart_dev b) (fdl_cp_poweron_delay b)
    (modem_power_status b) v (test_buffer b).
Definition set_tb (t : list Z) (b : boot) : boot :=
  Boot (bio b) (clock b) (opens b) (sysfs b) (images b) (modem_images_count b) (uart_dev b) (fdl_cp_poweron_delay b)
    (modem_power_status b) (capabilities_flag b) t.

(** A call of the packet layer. *)
Definition chan {A} (f : io -> option (A * io)) : B A := fun b =>
  match f (bio b) with Some (a, s) => Some (a, set_bio s b) | None => None end.

Definition open_dev : B Z := fun b =>
  match opens b with [] => None | r :: o => Some (r, set_opens o b) end.

Definition clock_gettime : B (option (Z * Z)) := fun b =>
  match clock b with [] => None | t :: c => Some (t, set_clock c b) end.

(** ** Text of the configuration file *)

Fixpoint span_word (s : list Z) : list Z * list Z :=
  match s with
  | [] => ([], [])
  | c :: r => if isspace c then ([], s) else let '(w, r) := span_word r in (c :: w, r)
  end.

(** The conversion %s of [sscanf]. *)
Definition scan_word (s : list Z) : option (list Z * list Z) :=
  let '(w, r) := span_word (skip_spaces s) in
  match w with [] => None | _ => Some (w, r) end.

(** The conversion %x: optional sign and prefix, value saturated at 32 bits. *)
Definition scan_hex (s : list Z) : option (Z * list Z) :=
  let s := skip_spaces s in
  let '(neg, s) := match s with
                   | c :: r => if c =? 45 then (true, r) else if c =? 43 then (false, r) else (false, s)
                   | [] => (false, [])
                   end in
  let s := match s with
           | z :: x :: d :: r => if (z =? 48) && (to_lower x =? 120) && (digit_of d <? 16) then d :: r else s
           | _ => s
           end in
  let '(v, n) := digits 16 s 0 0 in
  if (n =? 0)%nat then None
  else Some (if 0xFFFFFFFF <? v then 0xFFFFFFFF else u32 (if neg then - v else v), drop n s).

(** [sscanf(line, "%s %s %x %x", ...)]: [None] is the result -1, otherwise the
    values assigned. *)
Definition scan_line (s : list Z) : option (list Z * option (list Z) * option Z * option Z) :=
  '(o, r) ← scan_word s;
  Some match scan_word r with
       | None => (o, None, None, None)
       | Some (b, r) =>
           match scan_hex r with
           | None => (o, Some b, None, None)
           | Some (size, r) => (o, Some b, Some size, fst <$> scan_hex r)
           end
       end.

(** [fgets(line, 512, fp)] until the end of the file. *)
Fixpoint fgets (n : nat) (s : list Z) : list Z * list Z :=
  match n, s with
  | S n, c :: s => if c =? 10 then ([c], s) else let '(l, r) := fgets n s in (c :: l, r)
  | _, _ => ([], s)
  end.

Fixpoint text_lines (fuel : nat) (s : list Z) : list (list Z) :=
  match fuel, s with
  | S fuel, _ :: _ => let '(l, r) := fgets 511 s in l :: text_lines fuel r
  | _, _ => []
  end.

(** A line as a C string. *)
Fixpoint to_nul (s : list Z) : list Z :=
  match s with [] => [] | c :: s => if c =? 0 then [] else c :: to_nul s end.

Section env.
  (** The contents of the files that can be opened, whether a file can be opened
      for writing, how many of [k] available bytes a read at a position returns,
      which control files can be opened, the property service. *)
  Context (files : gmap (list Z) (list Z)) (rdwr : list Z -> bool) (got : nat -> nat -> nat)
          (ctl_ok : string -> bool) (prop : string -> option (list Z)).

(** [read] of [n] bytes at [pos]: empty at the end of the file. *)
Definition read_at (data : list Z) (pos n : nat) : list Z :=
  let k := min n (length data - pos) in take (min k (got pos k)) (drop pos data).

(** ** The list of images *)

Record conf := Conf {
  c_tab : list image_info; c_cnt : nat; c_uart : option (list Z); c_delay : Z;
  c_bak : option (list Z)   (** the array [bakPath], [None] before its first use *)
}.

Definition MAX_ITEM : nat := 17.

(** One line; the result tells whether the loop is left. *)
Definition parse_line (l : list Z) (c : conf) : option (conf * bool) :=
  match to_nul l with
  | [] => None
  | x :: l' =>
      let line := removelast (x :: l') in
      if (hd 0 line =? 35) || (length line =? 0)%nat then Some (c, false)
      else
        match scan_line line with
        | None => Some (c, false)
        | Some (o, b, size, addr) =>
            if (100 <=? length o)%nat || (100 <=? length (default [] b))%nat then None
            else
              bak ← match b with Some b => Some b | None => c_bak c end;
              old ← c_tab c !! c_cnt c;
              let e := Image (Some o) (Some bak) (default (image_size old) size) (default (address old) addr) (mask old) in
              let tab := <[c_cnt c := e]> (c_tab c) in
              let c' :=
                if (address e =? 0) || (image_size e =? 0)
                then Conf tab (c_cnt c) (Some o) (if image_size e =? 0 then c_delay c else image_size e) (Some bak)
                else Conf tab (S (c_cnt c)) (c_uart c) (c_delay c) (Some bak) in
              Some (c', (MAX_ITEM <=? c_cnt c')%nat)
        end
  end.

Fixpoint parse_lines (ls : list (list Z)) (c : conf) : option conf :=
  match ls with
  | [] => Some c
  | l :: ls => '(c, stop) ← parse_line l c; if (stop : bool) then Some c else parse_lines ls c
  end.

(** [_chkEcc]: the sum of all but the last four bytes against the next two.
    A negative length makes the loop run through all memory. *)
Definition _chkEcc (buf : list Z) : option bool :=
  let n := length buf in
  if (n <? 4)%nat then None
  else
    let crcOri := u16 (((buf !!! (n - 3)%nat) .<< 8) .| (buf !!! (n - 4)%nat)) in
    Some (calc_checksum (take (n - 4) buf) =? crcOri).

Definition _chkImg (fileName : list Z) (size : Z) : option bool :=
  if 0x80000000 <=? size then None
  else
    match files !! fileName with
    | Some data =>
        if rdwr fileName then
          let buf := read_at data 0 (Z.to_nat size) in
          if (Z.of_nat (length buf) =? size) then _chkEcc buf else Some false
        else Some false
    | None => Some false
    end.

(** The path is overwritten by the backup's path in the block [strdup] made for
    it. *)
Definition check_image (e : image_info) : option image_info :=
  path ← image_path e;
  bak ← image_path_bak e;
  if decide (path = bak) then Some e
  else
    ok ← _chkImg path (image_size e);
    if (ok : bool) then Some e
    else
      okb ← _chkImg bak (image_size e);
      if negb okb then Some e
      else if (length bak <=? length path)%nat
           then Some (Image (Some bak) (Some bak) (image_size e) (address e) (mask e)) else None.

Definition MODEM_IMAGES_INFO : list Z := bs "/modem_images.info".

Definition get_modem_images_info : B Z :=
  match files !! MODEM_IMAGES_INFO with
  | None => _ ← upd (fun b => set_images (images b) MAX_ITEM b); mret 0
  | Some text =>
      b ← get id;
      c ← opt (parse_lines (text_lines (length text) text)
                 (Conf (replicate 18 no_image) 0 (uart_dev b) (fdl_cp_poweron_delay b) None));
      old ← opt (c_tab c !! c_cnt c);
      let tab := <[c_cnt c := Image None None 0 0 (mask old)]> (c_tab c) in
      l ← opt (mapM check_image (take (c_cnt c) tab));
      _ ← upd (set_images (l ++ drop (c_cnt c) tab) (c_cnt c));
      _ ← upd (set_uart (c_uart c) (c_delay c));
      mret (Z.of_nat (c_cnt c))
  end.

(** ** Control files *)

Definition MODEM_POWER_PATH : string := "/sys/devices/platform/modem_interface/modempower".
Definition MODEM_RESET_PATH : string := "/sys/devices/platform/modem_interface/modemreset".
Definition MODEM_STATE_PATH : string := "/sys/devices/platform/modem_interface/state".
Definition CP_AVDD18_EN_PATH : string := "/sys/cp_ldo/cp_ldo".

(** Two bytes, the digit and its terminator. *)
Definition put_ctl (path : string) (v : string) : B bool :=
  if ctl_ok path then _ ← upd (add_sysfs path (bs v ++ [0])); mret true else mret false.

Definition poweron_modem : B unit :=
  s ← get modem_power_status;
  if negb (s =? 0) then mret tt
  else ok ← put_ctl MODEM_POWER_PATH "1"; if (ok : bool) then upd (set_power 1) else mret tt.

Definition poweroff_modem : B unit :=
  _ ← upd (set_power 0); _ ← put_ctl MODEM_POWER_PATH "0"; mret tt.

Definition MODEM_SOFT_RESET : Z := 1.
Definition MODEM_HARD_RESET : Z := 2.

Definition reset_modem (type : Z) : B unit :=
  s ← get modem_power_status;
  if s =? 0 then mret tt
  else if type =? MODEM_HARD_RESET then _ ← put_ctl MODEM_RESET_PATH "2"; mret tt
  else if type =? MODEM_SOFT_RESET then _ ← put_ctl MODEM_RESET_PATH "1"; mret tt
  else mret tt.

Definition set_modem_state (buf : string) : B unit := _ ← put_ctl MODEM_STATE_PATH buf; mret tt.
Definition set_avdd18_en (buf : string) : B unit := _ ← put_ctl CP_AVDD18_EN_PATH buf; mret tt.

Definition get_modem_capabilities : B Z :=
  let p := default [] (prop "persist.radio.ssda.mode") in
  let f := if has_prefix (bs "csfb") p then MODE_TCSFB else MODE_SVLTE in
  _ ← upd (set_caps f); mret f.

Definition set_modem_capabilities (flag : Z) : B unit := upd (set_caps flag).

(** ** Waking the boot ROM *)

(** Division of the signed nanoseconds truncates; the result is unsigned. *)
Definition delta_miliseconds (t0 t1 : Z * Z) : Z :=
  let ms := u32 ((fst t1 - fst t0) * 1000 + Z.quot (snd t1 - snd t0) 1000000) in
  if ms =? 0 then 1 else ms.

(** [read(fd, p, 1)]: -1, 0, or 1 with the byte. *)
Definition read1 : B (Z * Z) := fun b =>
  match rd (bio b) with
  | [] => None
  | r :: rs =>
      let b := set_bio (Io (wr (bio b)) rs (img (bio b)) (sent (bio b)) (send_buffer (bio b))) b in
      Some (match r with None => (-1, 0) | Some [] => (0, 0) | Some (c :: _) => (1, c) end, b)
  end.

Definition hand_shake : list Z := [0x7E; 0x7E; 0x7E].

(** The bytes of a version string behind its flag: [n] are in the buffer of 64.
    The result tells whether the closing flag has come; [None] inside is a failed
    clock. *)
Fixpoint version_loop (fuel n : nat) (t0 t1 : Z * Z) : B (option (bool * (Z * Z))) :=
  match fuel with
  | O => bad
  | S fuel =>
      '(ret, c) ← read1;
      if ret =? 1 then
        if c =? 0x7E then mret (Some (true, t1))
        else if (64 <=? S n)%nat then mret (Some (false, t1))
        else if delta_miliseconds t0 t1 <? FDL_CP_UART_TIMEOUT then version_loop fuel (S n) t0 t1
        else mret (Some (false, t1))
      else
        t ← clock_gettime;
        match t with
        | None => mret None
        | Some t1 =>
            if delta_miliseconds t0 t1 <? FDL_CP_UART_TIMEOUT then version_loop fuel n t0 t1
            else mret (Some (false, t1))
        end
  end.

Fixpoint connect_loop (fuel : nat) (uart_fd loopcount : Z) (t0 : Z * Z) : B Z :=
  match fuel with
  | O => bad
  | S fuel =>
      t ← clock_gettime;
      match t with
      | None => mret (-1)
      | Some t1 =>
          let late := FDL_CP_UART_TIMEOUT <? delta_miliseconds t0 t1 in
          let loopcount := if late then loopcount + 1 else loopcount in
          if late && (loopcount =? 5) then mret (-1)
          else
            t0' ← (if late then _ ← reset_modem MODEM_SOFT_RESET; clock_gettime else mret (Some t0));
            match t0' with
            | None => mret (-1)
            | Some t0 =>
                ret ← chan (os_write hand_shake 3);
                if ret <? 0 then fd ← open_dev; connect_loop fuel fd loopcount t0
                else
                  _ ← chan (os_write hand_shake 3);
                  '(r, c) ← read1;
                  if (r =? 1) && (c =? 0x7E) then
                    f ← get (fun b => length (rd (bio b)));
                    v ← version_loop f 1 t0 t1;
                    match v with
                    | None => mret (-1)
                    | Some (true, _) => mret uart_fd
                    | Some (false, _) => connect_loop fuel uart_fd loopcount t0
                    end
                  else connect_loop fuel uart_fd loopcount t0
            end
      end
  end.

Definition try_to_connect_modem (uart_fd : Z) : B Z :=
  _ ← poweron_modem;
  t ← clock_gettime;
  match t with
  | None => mret (-1)
  | Some t0 => f ← get (fun b => length (clock b)); connect_loop f uart_fd 0 t0
  end.

(** The version string of the loader; an error of a read ends it. *)
Fixpoint fdl_version_loop (fuel n : nat) : B bool :=
  match fuel with
  | O => bad
  | S fuel =>
      '(ret, c) ← read1;
      if ret =? 1 then
        if c =? 0x7E then mret true
        else if (64 <=? S n)%nat then mret false else fdl_version_loop fuel (S n)
      else mret false
  end.

Fixpoint fdl_rounds (n : nat) : B bool :=
  match n with
  | O => mret false
  | S n =>
      _ ← chan (os_write hand_shake 3);
      '(r, c) ← read1;
      ok ← (if (r =? 1) && (c =? 0x7E) then fdl_version_loop 64 1 else mret false);
      if (ok : bool) then mret true else fdl_rounds n
  end.

Definition try_to_connect_fdl : B bool := fdl_rounds 1000.

(** ** Sending the images *)

Definition CMDLINE_LTE_MODE_PREFIX : list Z := bs "ltemode=".
Definition CMDLINE_TEST_MODE_PREFIX : list Z := bs "testmode=".

Definition append_lte_mode (flag : Z) : list Z :=
  if flag =? MODE_SVLTE then CMDLINE_LTE_MODE_PREFIX ++ bs "svlte"
  else if flag =? MODE_TCSFB then CMDLINE_LTE_MODE_PREFIX ++ bs "tcsfb"
  else if flag =? MODE_FCSFB then CMDLINE_LTE_MODE_PREFIX ++ bs "fcsfb"
  else [].

(** The text for the array [prop] of 100 bytes. *)
Definition append_test_mode : option (list Z) :=
  let s := CMDLINE_TEST_MODE_PREFIX ++ default [] (prop "persist.radio.ssda.testmode") in
  if (length s <? 100)%nat then Some s else None.

(** [do { read } while (packet_size > 0)] into [test_buffer] at [off]: the new
    position in the file.  Behind the command line the modes are appended, with a
    terminator. *)
Fixpoint fill_packet (fuel : nat) (path data : list Z) (pos off packet_size : nat) : B nat :=
  match fuel with
  | O => bad
  | S fuel =>
      let d := read_at data pos packet_size in
      tb ← get test_buffer;
      match d with
      | _ :: _ =>
          tb ← opt (mem_write tb (Z.of_nat off) d);
          _ ← upd (set_tb tb);
          if (packet_size - length d =? 0)%nat then mret (pos + length d)%nat
          else fill_packet fuel path data (pos + length d) (off + length d) (packet_size - length d)
      | [] =>
          if decide (path = PROC_CMDLINE) then
            t ← opt append_test_mode;
            caps ← get capabilities_flag;
            tb ← opt (mem_write tb (Z.of_nat off) (t ++ append_lte_mode caps ++ [0]));
            _ ← upd (set_tb tb); mret pos
          else mret pos
      end
  end.

(** [for (i = 0; i < count; i++)]; the loop that pads the last packet uses the
    same counter. *)
Fixpoint packet_loop (fuel : nat) (path data : list Z) (i count trans_size image_size : Z) (pos : nat) : B Z :=
  if i <? count then
    match fuel with
    | O => bad
    | S fuel =>
        pos ← fill_packet (S (Z.to_nat trans_size)) path data pos 8 (Z.to_nat trans_size);
        tb ← get test_buffer;
        '(tb, i, image_size) ←
          (if image_size <? trans_size then
             tb ← opt (mem_write tb (image_size + 8) (replicate (Z.to_nat (trans_size - image_size)) 0xFF));
             mret (tb, trans_size, 0)
           else mret (tb, i, image_size - trans_size));
        ret ← chan (send_data_message tb trans_size 1 trans_size);
        '(tb, _) ← opt (setup_packet BSL_CMD_MIDST_DATA tb 8 trans_size 1 trans_size);
        _ ← upd (set_tb tb);
        if negb (ret =? DL_SUCCESS) then mret DL_FAILURE
        else packet_loop fuel path data (i + 1) count trans_size image_size pos
    end
  else chan (send_end_message 1).

(** A file that cannot be opened is skipped.  A file of less than four bytes
    would leave the header word uninitialised.  Behind an NV header the data
    start at 512. *)
Definition download_image (e : image_info) : B Z :=
  match image_path e with
  | None => mret DL_SUCCESS
  | Some path =>
      let trans_size := if image_size e <? HS_PACKET_SIZE then LS_PACKET_SIZE else HS_PACKET_SIZE in
      match files !! path with
      | None => mret DL_SUCCESS
      | Some data =>
          let nvbuf := read_at data 0 512 in
          if (length nvbuf <? 4)%nat then bad
          else if 0x7FFF0000 <=? image_size e then bad
          else
            let pos := if ld32 nvbuf 0 =? NV_HEAD_MAGIC then length nvbuf else 0%nat in
            let count := Z.quot (image_size e + trans_size - 1) trans_size in
            ret ← chan (send_start_message (count * trans_size) (address e) 1);
            if negb (ret =? DL_SUCCESS) then mret DL_FAILURE
            else packet_loop (Z.to_nat count) path data 0 count trans_size (image_size e) pos
      end
  end.

(** The images behind the first one whose mask fits; [ret] is uninitialised when
    there is none. *)
Fixpoint download_loop (l : list image_info) (cap_mask ret : Z) : B Z :=
  match l with
  | [] => mret ret
  | e :: l =>
      if negb (mask e .& cap_mask =? 0) then
        ret ← download_image e;
        if negb (ret =? DL_SUCCESS) then mret ret else download_loop l cap_mask ret
      else download_loop l cap_mask ret
  end.

Definition download_images (ret0 : Z) : B Z :=
  cap_mask ← get_modem_capabilities;
  b ← get id;
  ret ← download_loop (take (modem_images_count b - 1) (drop 1 (images b))) cap_mask ret0;
  _ ← chan (send_exec_message (if negb (cap_mask .& 1 =? 0) then 0x80400000 else 0x80400001) 1);
  mret ret.

(** ** The loader *)

(** [do { read } while (size > 0)]: at the end of the file the loop does not end. *)
Fixpoint load_loop (fuel : nat) (data : list Z) (pos size : nat) : option (list Z) :=
  match fuel with
  | O => None
  | S fuel =>
      let d := read_at data pos size in
      if (size - length d =? 0)%nat then Some d
      else app d <$> load_loop fuel data (pos + length d) (size - length d)
  end.

(** The inner [None] is the null pointer.  The block has four bytes more than the
    image. *)
Definition load_fdl2memory : B (option (list Z * Z)) :=
  b ← get id;
  e ← opt (images b !! 0%nat);
  path ← opt (image_path e);
  match files !! path with
  | None => mret None
  | Some data =>
      d ← opt (load_loop (S (Z.to_nat (image_size e))) data 0 (Z.to_nat (image_size e)));
      mret (Some (d ++ replicate 4 0, image_size e))
  end.

(** [while (size)] over packets of [packet_size] (256) that [send] sends: a size
    that is no multiple runs past the block. *)
Fixpoint fdl_loop (send : list Z -> io -> option (Z * io)) (packet_size : Z) (fuel : nat) (buffer : list Z) (size : Z) : B Z :=
  if size =? 0 then mret 0
  else
    match fuel with
    | O => bad
    | S fuel =>
        ret ← chan (send buffer);
        if ret =? DL_FAILURE then mret ret
        else fdl_loop send packet_size fuel (drop (Z.to_nat packet_size) buffer) (size - packet_size)
    end.

Definition send_fdl_packet (buffer : list Z) : io -> option (Z * io) := send_data_message buffer FDL_PACKET_SIZE 0 0.

Definition download_fdl : B Z :=
  r ← load_fdl2memory;
  match r with
  | None => mret DL_FAILURE
  | Some (buffer, size) =>
      b ← get id;
      e ← opt (images b !! 0%nat);
      ret ← chan (send_start_message size (address e) 0);
      if ret =? DL_FAILURE then mret ret
      else
        ret ← fdl_loop send_fdl_packet FDL_PACKET_SIZE (length buffer) buffer size;
        if ret =? DL_FAILURE then mret ret
        else
          ret ← chan (send_end_message 0);
          if ret =? DL_FAILURE then mret ret else chan (send_exec_message (address e) 0)
  end.

(** ** The whole boot *)

Fixpoint open_dloader (fuel : nat) : B unit :=
  match fuel with
  | O => bad
  | S fuel => fd ← open_dev; if 0 <=? fd then mret tt else open_dloader fuel
  end.

Definition open_uart_device : B Z := open_dev.

(** From [reboot_modem] on; [again] is the jump back with the new [hard_reset]. *)
Fixpoint reboot_loop (fuel : nat) (hard_reset : bool) (ret0 : Z) : B Z :=
  match fuel with
  | O => bad
  | S fuel =>
      _ ← reset_modem (if hard_reset then MODEM_HARD_RESET else MODEM_SOFT_RESET);
      uart_fd ← open_uart_device;
      if uart_fd <? 0 then mret (-1)
      else
        ret ← try_to_connect_modem uart_fd;
        if ret <? 0 then reboot_loop fuel true ret0
        else
          _ ← chan (send_connect_message 0);
          ret ← download_fdl;
          if ret =? DL_FAILURE then reboot_loop fuel true ret0
          else
            ok ← try_to_connect_fdl;
            if negb ok then reboot_loop fuel false ret0
            else
              uart_fd ← open_uart_device;
              if uart_fd <? 0 then mret (-1)
              else
                _ ← set_modem_state "0";
                _ ← chan (uart_send_change_spi_mode_message (32 * 1024));
                _ ← set_avdd18_en "1";
                f ← get (fun b => length (opens b));
                _ ← open_dloader f;
                ret ← download_images ret0;
                if ret =? DL_FAILURE
                then _ ← reset_modem MODEM_SOFT_RESET; reboot_loop fuel true ret0
                else mret 0
  end.

Definition modem_boot (ret0 : Z) : B Z := f ← get (fun b => length (opens b)); reboot_loop f false ret0.
End env.

(** ** Lemmas *)

Lemma bbind_run {A A'} (m : B A) (f : A -> B A') b :
  (m ≫= f) b = match m b with Some (a, b) => f a b | None => None end.
Proof. done. Qed.
Lemma bret_run {A} (a : A) b : (mret a : B A) b = Some (a, b).
Proof. done. Qed.

(** *** Messages over SPI *)

Definition spi_header (len type sum : Z) : list Z :=
  let h := st16 len ++ st16 type ++ st16 sum in h ++ st16 (boot_checksum h).

Definition spi_start (size addr : Z) : list Z :=
  let body := be32 addr ++ be32 size in spi_header 8 BSL_CMD_START_DATA (boot_checksum body) ++ body.
Definition spi_data (p : list Z) : list Z := spi_header (Z.of_nat (length p)) BSL_CMD_MIDST_DATA 0 ++ p.
Definition spi_end : list Z := spi_header 4 BSL_CMD_END_DATA (boot_checksum []) ++ [0; 0; 0; 0].
Definition spi_exec (addr : Z) : list Z := spi_header 4 BSL_CMD_EXEC_DATA (boot_checksum (be32 addr)) ++ be32 addr.

(** A turn of the conversation: the result of the write and the pieces in which
    the answer of six bytes arrives. *)
Definition answer_type (q : list Z) : Z := u16 (((q !!! 0%nat) .<< 8) .| (q !!! 1%nat)).
Definition turn_ok (t : Z * list (list Z)) : Prop :=
  32776 <= fst t /\ Forall (fun c => c <> []) (snd t) /\ length (concat (snd t)) = 6%nat /\
  ack_or_zero (answer_type (concat (snd t))) = true.

(** The channel is about to give these turns. *)
Definition ready (ts : list (Z * list (list Z))) (ws : list Z) (rs : list (option (list Z))) (s : io) : Prop :=
  wr s = map fst ts ++ ws /\ rd s = map Some (concat (map snd ts)) ++ rs.

Lemma spi_await t ts ws rs raw n s :
  ready (t :: ts) ws rs s -> turn_ok t -> 0 < n <= 32776 -> n <= Z.of_nat (length raw) ->
  exists s', (forall raw', length raw' = 32%nat -> ('(retval, s) ← os_write raw n s; await ack_or_zero 1 raw' retval s) = Some (0, s')) /\
    ready ts ws rs s' /\ sent s' = sent s ++ take (Z.to_nat n) raw /\ send_buffer s' = send_buffer s.
Proof.
  intros [Hw Hr] (Ht & Hc & Hl & Ha) Hn Hraw. cbn [map concat app] in Hw, Hr.
  exists (Io (map fst ts ++ ws) (map Some (concat (map snd ts)) ++ rs) (img s) (sent s ++ take (Z.to_nat n) raw) (send_buffer s)).
  split; [|done]. intros raw' Hl'.
  rewrite (os_write_all raw n s (fst t) (map fst ts ++ ws)) by (done || lia). cbn [mbind option_bind].
  unfold await, answer_size. destruct (Z.leb_spec n 0); [lia|]. change (1 =? 0) with false. cbn iota. cbn [rd wr img sent send_buffer].
  rewrite Hr, map_app, <- app_assoc.
  destruct (read_loop_pieces (snd t) (map Some (concat (map snd ts)) ++ rs) raw' 0 6 (concat (snd t))) as (r & Hr0 & E);
    try done; try lia.
  { intros E. rewrite E in Hl. done. }
  rewrite E. cbn [mbind option_bind]. destruct (Z.leb_spec r 0); [lia|].
  assert (forall k, (k < 2)%nat -> splice raw' (Z.to_nat 0) (concat (snd t)) !!! k = concat (snd t) !!! k) as Hk.
  { intros k Hk. unfold splice. rewrite take_0, app_nil_l. apply lookup_total_app_l. lia. }
  rewrite !Hk by lia. unfold answer_type in Ha. by rewrite Ha.
Qed.

Lemma send_start_spi t ts ws rs size addr s :
  ready (t :: ts) ws rs s -> turn_ok t -> 0 <= addr < 4294967296 -> 0 <= size < 4294967296 ->
  exists s', send_start_message size addr 1 s = Some (0, s') /\ ready ts ws rs s' /\
    sent s' = sent s ++ spi_start size addr.
Proof.
  intros Hr Ht Ha Hs. unfold send_start_message.
  change raw32 with (replicate 8 0 ++ replicate 4 0 ++ replicate 20 0).
  rewrite (store32_at (replicate 8 0) (replicate 4 0)) by done. cbn [mbind option_bind]. rewrite st32_cpu2be32 by done.
  change (replicate 8 0 ++ be32 addr ++ replicate 20 0) with ((replicate 8 0 ++ be32 addr) ++ replicate 4 0 ++ replicate 16 0).
  rewrite (store32_at (replicate 8 0 ++ be32 addr) (replicate 4 0)) by done. cbn [mbind option_bind]. rewrite st32_cpu2be32 by done.
  change (setup_packet BSL_CMD_START_DATA ?r 8 8 1 0) with (spi_plain BSL_CMD_START_DATA r 8 8).
  change ((replicate 8 0 ++ be32 addr) ++ be32 size ++ replicate 16 0)
    with ([0; 0] ++ [0; 0] ++ [0; 0] ++ [0; 0] ++ (be32 addr ++ be32 size) ++ replicate 16 0).
  rewrite spi_plain_ok by done. cbv zeta. cbn [mbind option_bind].
  set (raw := _ ++ _). destruct (spi_await t ts ws rs raw (8 + 8) s Hr Ht) as (s' & E & Hr' & Hs' & _); [lia|unfold raw; cbn; lia|].
  exists s'. unfold send_raw. change (1 =? 0) with false. cbn iota. rewrite (E raw) by done. split_and!; [done|done|].
  by rewrite Hs'.
Qed.

Lemma send_exec_spi t ts ws rs addr s :
  ready (t :: ts) ws rs s -> turn_ok t -> 0 <= addr < 4294967296 ->
  exists s', send_exec_message addr 1 s = Some (0, s') /\ ready ts ws rs s' /\ sent s' = sent s ++ spi_exec addr.
Proof.
  intros Hr Ht Ha. unfold send_exec_message.
  change raw32 with (replicate 8 0 ++ replicate 4 0 ++ replicate 20 0).
  rewrite (store32_at (replicate 8 0) (replicate 4 0)) by done. cbn [mbind option_bind]. rewrite st32_cpu2be32 by done.
  change (setup_packet BSL_CMD_EXEC_DATA ?r 8 4 1 0) with (spi_plain BSL_CMD_EXEC_DATA r 8 4).
  change (replicate 8 0 ++ be32 addr ++ replicate 20 0)
    with ([0; 0] ++ [0; 0] ++ [0; 0] ++ [0; 0] ++ be32 addr ++ replicate 20 0).
  rewrite spi_plain_ok by done. cbv zeta. cbn [mbind option_bind].
  set (raw := _ ++ _). destruct (spi_await t ts ws rs raw (4 + 8) s Hr Ht) as (s' & E & Hr' & Hs' & _); [lia|unfold raw; cbn; lia|].
  exists s'. unfold send_raw. change (1 =? 0) with false. cbn iota. rewrite (E raw) by done. split_and!; [done|done|].
  by rewrite Hs'.
Qed.

Lemma send_end_spi t ts ws rs s :
  ready (t :: ts) ws rs s -> turn_ok t ->
  exists s', send_end_message 1 s = Some (0, s') /\ ready ts ws rs s' /\ sent s' = sent s ++ spi_end.
Proof.
  intros Hr Ht. unfold send_end_message.
  assert (setup_packet BSL_CMD_END_DATA raw32 8 0 1 0 = Some (spi_end ++ replicate 20 0, 12)) as -> by (by vm_compute).
  cbn [mbind option_bind]. set (raw := _ ++ _).
  destruct (spi_await t ts ws rs raw 12 s Hr Ht) as (s' & E & Hr' & Hs' & _); [lia|unfold raw; cbn; lia|].
  exists s'. unfold send_raw. change (1 =? 0) with false. cbn iota. rewrite (E raw) by done. split_and!; [done|done|].
  by rewrite Hs'.
Qed.

(** The header of a data packet, in place. *)
Lemma setup_midst h rest ts :
  length h = 8%nat -> ts = LS_PACKET_SIZE \/ ts = HS_PACKET_SIZE ->
  setup_packet BSL_CMD_MIDST_DATA (h ++ rest) 8 ts 1 ts = Some (spi_header ts BSL_CMD_MIDST_DATA 0 ++ rest, ts + 8).
Proof.
  intros Hh Hts. do 8 (destruct h as [|? h]; [done|]). destruct h; [|done]. clear Hh.
  assert (forall ts', (buffer ← store16 ([z; z0; z1; z2; z3; z4; z5; z6] ++ rest) 0 ts';
           buffer ← store16 buffer 2 2; buffer ← store16 buffer 4 0;
           h ← mem_read buffer 0 6; buffer ← store16 buffer 6 (boot_checksum h); Some (buffer, ts + 8)) =
         Some (spi_header ts' BSL_CMD_MIDST_DATA 0 ++ rest, ts + 8)) as H.
  { intros ts'.
    pose proof (store16_at [] [z; z0] ([z1; z2; z3; z4; z5; z6] ++ rest) 0 ts' eq_refl eq_refl) as E0. cbn [app] in E0 |- *.
    rewrite E0. cbn [mbind option_bind].
    rewrite (store16_at (st16 ts') [z1; z2] ([z3; z4; z5; z6] ++ rest)) by done. cbn [mbind option_bind].
    rewrite (app_assoc (st16 ts')).
    rewrite (store16_at (st16 ts' ++ st16 2) [z3; z4] ([z5; z6] ++ rest)) by done. cbn [mbind option_bind].
    rewrite app_assoc. set (hd := (_ ++ _) ++ st16 0).
    assert (mem_read (hd ++ [z5; z6] ++ rest) 0 6 = Some hd) as -> by (apply (mem_read_at [] hd ([z5; z6] ++ rest)); done).
    cbn [mbind option_bind]. rewrite (store16_at hd [z5; z6] rest) by done. done. }
  destruct Hts as [-> | ->].
  - exact (H 256).
  - exact (H 32768).
Qed.

Lemma send_data_spi t ts ws rs tb tsz s :
  ready (t :: ts) ws rs s -> turn_ok t -> tsz = LS_PACKET_SIZE \/ tsz = HS_PACKET_SIZE ->
  tsz + 8 <= Z.of_nat (length tb) ->
  exists s', send_data_message tb tsz 1 tsz s = Some (0, s') /\ ready ts ws rs s' /\
    sent s' = sent s ++ spi_data (take (Z.to_nat tsz) (drop 8 tb)).
Proof.
  intros Hr Ht Hts Hl. assert (0 < tsz <= 32768) as Hb by (destruct Hts as [-> | ->]; unfold LS_PACKET_SIZE, HS_PACKET_SIZE; lia).
  unfold send_data_message, send_data. change (1 =? 0) with false. cbn iota.
  pose proof (setup_midst (take 8 tb) (drop 8 tb) tsz ltac:(rewrite length_take; lia) Hts) as Es.
  rewrite take_drop in Es. rewrite Es. cbn [mbind option_bind]. set (raw := _ ++ _).
  assert (length raw = length tb) as Hlr by (unfold raw; rewrite length_app, length_drop; cbn [length spi_header st16 app]; lia).
  destruct (spi_await t ts ws rs raw (tsz + 8) s Hr Ht) as (s' & E & Hr' & Hs' & _); [lia|lia|].
  exists s'. split_and!; [|done|].
  - specialize (E raw32 eq_refl). destruct (os_write raw (tsz + 8) s) as [[r s1]|]; [|done]. cbn [mbind option_bind] in E |- *.
    destruct (Z.eqb_spec tsz 0); [lia|]. rewrite Z.quot_same by lia. change (Z.to_nat (1 - 1)) with 0%nat. cbn [stream_image mbind option_bind].
    exact E.
  - rewrite Hs'. f_equal. unfold raw, spi_data.
    assert (length (spi_header tsz BSL_CMD_MIDST_DATA 0) = 8%nat) as Lh by done.
    replace (Z.to_nat (tsz + 8)) with (8 + Z.to_nat tsz)%nat by lia. rewrite take_app_ge by lia. rewrite Lh.
    replace (8 + Z.to_nat tsz - 8)%nat with (Z.to_nat tsz) by lia.
    assert (Z.of_nat (length (take (Z.to_nat tsz) (drop 8 tb))) = tsz) as -> by (rewrite length_take, length_drop; lia). done.
Qed.

(** *** Messages over the UART *)

Definition uart_packet (msg : Z) (d : list Z) : list Z :=
  let body := be16 msg ++ be16 (Z.of_nat (length d)) ++ d in body ++ be16 (crc_16_l_calc body).
Definition connect_packet : list Z := be16 BSL_CMD_CONNECT ++ be16 0 ++ [0; 0].
Definition switch_packet : list Z :=
  let body := be16 BSL_CMD_SWITCH_MODE ++ be16 0 in body ++ st16 (frm_chk body).

(** A turn whose answer is the framed acknowledgement. *)
Definition uturn_ok (t : Z * list (list Z)) : Prop :=
  600 <= fst t /\ Forall (fun c => c <> []) (snd t) /\ concat (snd t) = translate_packet ack_packet.

Definition uart_sent (p : list Z) (ts : list (Z * list (list Z))) ws rs (s s' : io) : Prop :=
  ready ts ws rs s' /\ sent s' = sent s ++ translate_packet p /\ length (send_buffer s') = length (send_buffer s).

Lemma frame_length p : (length (translate_packet p) <= 2 * length p + 2)%nat.
Proof. unfold translate_packet. cbn. rewrite length_app. pose proof (escs_length p). cbn. lia. Qed.

Lemma uart_turn ack raw pkt t ts ws rs s :
  ack BSL_REP_ACK = true -> ready (t :: ts) ws rs s -> uturn_ok t -> (8 <= length raw)%nat ->
  (length pkt <= 299)%nat -> (600 <= length (send_buffer s))%nat ->
  exists s', ('(retval, s) ← uart_send pkt s; await ack 0 raw retval s) = Some (0, s') /\ uart_sent pkt ts ws rs s s'.
Proof.
  intros Ha [Hw Hr] (Ht & Hc & Hq) Hl Hp Hsb. cbn [map concat app] in Hw, Hr. rewrite map_app, <- app_assoc in Hr.
  pose proof (frame_length pkt) as Hf.
  destruct (uart_talk ack raw pkt ack_packet s (fst t) (map fst ts ++ ws) (snd t) (map Some (concat (map snd ts)) ++ rs))
    as (s' & E & Hs & Hrd & Hwr & Hb); try done; try lia.
  - cbn. lia.
  - vm_compute. repeat constructor; discriminate.
  - exists s'. split; [|done]. rewrite E. change (u16 _) with BSL_REP_ACK. by rewrite Ha.
Qed.

Lemma uart_raw ack raw size pkt t ts ws rs s :
  ack BSL_REP_ACK = true -> ready (t :: ts) ws rs s -> uturn_ok t -> mem_read raw 4 size = Some pkt -> (8 <= length raw)%nat ->
  (length pkt <= 299)%nat -> (600 <= length (send_buffer s))%nat ->
  exists s', send_raw ack 0 raw size s = Some (0, s') /\ uart_sent pkt ts ws rs s s'.
Proof.
  intros Ha Hr Ht Hm Hl Hp Hsb. unfold send_raw. change (0 =? 0) with true. cbn iota. rewrite Hm. cbn [mbind option_bind].
  by apply (uart_turn ack raw pkt t ts).
Qed.

Lemma send_connect_uart t ts ws rs s :
  ready (t :: ts) ws rs s -> uturn_ok t -> (600 <= length (send_buffer s))%nat ->
  exists s', send_connect_message 0 s = Some (0, s') /\ uart_sent connect_packet ts ws rs s s'.
Proof.
  intros Hr Ht Hsb. unfold send_connect_message.
  assert (setup_packet BSL_CMD_CONNECT raw32 8 0 0 0 = Some (raw32, 6)) as -> by done. cbn [mbind option_bind].
  apply (uart_raw ack_only raw32 6 connect_packet t ts); try done; cbn; lia.
Qed.

Lemma send_switch_uart sz t ts ws rs s :
  ready (t :: ts) ws rs s -> uturn_ok t -> (600 <= length (send_buffer s))%nat ->
  exists s', uart_send_change_spi_mode_message sz s = Some (0, s') /\ uart_sent switch_packet ts ws rs s s'.
Proof.
  intros Hr Ht Hsb. unfold uart_send_change_spi_mode_message.
  change raw32 with (replicate 8 0 ++ replicate 4 0 ++ replicate 20 0).
  rewrite (store32_at (replicate 8 0) (replicate 4 0)) by done. cbn [mbind option_bind].
  set (u := st32 _). assert (exists a b c d, u = [a; b; c; d]) as (a & b & c & d & ->) by (unfold u, st32; eauto).
  assert (setup_packet BSL_CMD_SWITCH_MODE (replicate 8 0 ++ [a; b; c; d] ++ replicate 20 0) 8 0 BSL_UART_PACKET 0 =
    Some (replicate 4 0 ++ switch_packet ++ [c; d] ++ replicate 20 0, 6)) as -> by (by vm_compute).
  cbn [mbind option_bind]. apply (uart_raw ack_only _ 6 switch_packet t ts); try done; cbn; lia.
Qed.

(** The commands with a CRC. *)
Lemma uart_packet_in msg d h t c2 rest :
  has_crc msg = true -> length h = 4%nat -> length t = 4%nat -> length c2 = 2%nat -> bytes d -> Z.of_nat (length d) < 65536 ->
  0 <= msg < 65536 ->
  exists raw, setup_packet msg (h ++ t ++ d ++ c2 ++ rest) 8 (Z.of_nat (length d)) 0 0 = Some (raw, Z.of_nat (length d) + 6) /\
    mem_read raw 4 (Z.of_nat (length d) + 6) = Some (uart_packet msg d) /\ length raw = (10 + length d + length rest)%nat.
Proof.
  intros Hm Hh Ht Hc Hb Hd H0. rewrite setup_uart_crc by done. rewrite uart_crc_ok by done. cbv zeta.
  rewrite (u16_small msg), (u16_small (Z.of_nat (length d))) by lia. fold (uart_packet msg d).
  assert (length (uart_packet msg d) = (length d + 6)%nat) as L by (unfold uart_packet; rewrite !length_app; cbn; lia).
  eexists. split; [done|]. split; [apply mem_read_at; rewrite ?Hh, ?L; lia|]. rewrite !length_app, Hh, L. lia.
Qed.

Lemma send_start_uart size addr t ts ws rs s :
  ready (t :: ts) ws rs s -> uturn_ok t -> (600 <= length (send_buffer s))%nat ->
  0 <= addr < 4294967296 -> 0 <= size < 4294967296 ->
  exists s', send_start_message size addr 0 s = Some (0, s') /\
    uart_sent (uart_packet BSL_CMD_START_DATA (be32 addr ++ be32 size)) ts ws rs s s'.
Proof.
  intros Hr Ht Hsb Ha Hs. destruct (start_raw size addr Ha Hs) as (raw & E & Hm & Hl). unfold send_start_message.
  destruct (store32 raw32 8 _) as [r1|]; [|done]. cbn [mbind option_bind] in *.
  destruct (store32 r1 12 _) as [r2|]; [|done]. cbn [mbind option_bind] in *. rewrite E. cbn [mbind option_bind].
  apply (uart_raw ack_or_zero raw 14 _ t ts); try done; [lia|cbn; lia].
Qed.

Lemma send_exec_uart addr t ts ws rs s :
  ready (t :: ts) ws rs s -> uturn_ok t -> (600 <= length (send_buffer s))%nat -> 0 <= addr < 4294967296 ->
  exists s', send_exec_message addr 0 s = Some (0, s') /\ uart_sent (uart_packet BSL_CMD_EXEC_DATA (be32 addr)) ts ws rs s s'.
Proof.
  intros Hr Ht Hsb Ha. unfold send_exec_message.
  change raw32 with (replicate 8 0 ++ replicate 4 0 ++ replicate 20 0).
  rewrite (store32_at (replicate 8 0) (replicate 4 0)) by done. cbn [mbind option_bind]. rewrite st32_cpu2be32 by done.
  destruct (uart_packet_in BSL_CMD_EXEC_DATA (be32 addr) [0; 0; 0; 0] [0; 0; 0; 0] [0; 0] (replicate 18 0)) as (raw & E & Hm & Hl);
    [done|done|done|done|unfold be32; repeat constructor; apply u8_range|cbn; lia|unfold BSL_CMD_EXEC_DATA; lia|].
  change (setup_packet BSL_CMD_EXEC_DATA _ 8 4 0 0) with
    (setup_packet BSL_CMD_EXEC_DATA ([0; 0; 0; 0] ++ [0; 0; 0; 0] ++ be32 addr ++ [0; 0] ++ replicate 18 0) 8 (Z.of_nat (length (be32 addr))) 0 0).
  rewrite E. cbn [mbind option_bind]. apply (uart_raw ack_or_zero raw _ _ t ts); try done; [lia|cbn; lia].
Qed.

Lemma send_end_uart t ts ws rs s :
  ready (t :: ts) ws rs s -> uturn_ok t -> (600 <= length (send_buffer s))%nat ->
  exists s', send_end_message 0 s = Some (0, s') /\ uart_sent (uart_packet BSL_CMD_END_DATA []) ts ws rs s s'.
Proof.
  intros Hr Ht Hsb. unfold send_end_message.
  destruct (uart_packet_in BSL_CMD_END_DATA [] [0; 0; 0; 0] [0; 0; 0; 0] [0; 0] (replicate 22 0)) as (raw & E & Hm & Hl);
    [done|done|done|done|constructor|cbn; lia|unfold BSL_CMD_END_DATA; lia|].
  change (setup_packet BSL_CMD_END_DATA raw32 8 0 0 0) with
    (setup_packet BSL_CMD_END_DATA ([0; 0; 0; 0] ++ [0; 0; 0; 0] ++ [] ++ [0; 0] ++ replicate 22 0) 8 (Z.of_nat (length (@nil Z))) 0 0).
  rewrite E. cbn [mbind option_bind]. apply (uart_raw ack_or_zero raw _ _ t ts); try done; [lia|cbn; lia].
Qed.

Lemma send_data_uart buf t ts ws rs s (d := take 256 buf) :
  ready (t :: ts) ws rs s -> uturn_ok t -> (600 <= length (send_buffer s))%nat -> bytes d -> (256 <= length buf)%nat ->
  exists s', send_fdl_packet buf s = Some (0, s') /\
    uart_sent (uart_packet BSL_CMD_MIDST_DATA d) ts ws rs s s'.
Proof.
  intros Hr Ht Hsb Hb Hl. unfold send_fdl_packet, send_data_message, send_data. change (0 =? 0) with true. cbn iota.
  rewrite mem_read_prefix by (unfold FDL_PACKET_SIZE; lia). change (Z.to_nat FDL_PACKET_SIZE) with 256%nat. fold d.
  assert (length d = 256%nat) as Ld by (unfold d; rewrite length_take; lia). cbn [mbind option_bind].
  rewrite mem_write_ok by (rewrite ?length_replicate, ?Ld; lia). cbn [mbind option_bind].
  assert (splice (replicate 300 0) (Z.to_nat 8) d = replicate 4 0 ++ replicate 4 0 ++ d ++ [0; 0] ++ replicate 34 0) as ->.
  { unfold splice. rewrite Ld. change (drop (Z.to_nat 8 + 256) (replicate 300 0)) with (replicate 36 0).
    change (take (Z.to_nat 8) (replicate 300 0)) with (replicate 4 0 ++ replicate 4 0). by rewrite <- app_assoc. }
  destruct (uart_packet_in BSL_CMD_MIDST_DATA d (replicate 4 0) (replicate 4 0) [0; 0] (replicate 34 0)) as (raw & E & Hm & Hl');
    [done|done|done|done|done|lia|unfold BSL_CMD_MIDST_DATA; lia|].
  rewrite Ld in E, Hm. change (Z.of_nat 256) with FDL_PACKET_SIZE in E, Hm. rewrite E. cbn [mbind option_bind]. rewrite Hm. cbn [mbind option_bind].
  apply (uart_turn ack_or_zero raw32 _ t ts); try done; [cbn; lia|].
  unfold uart_packet. rewrite !length_app, Ld. cbn. lia.
Qed.

(** *** The packets of an image *)

Section reads.
  Context (files : gmap (list Z) (list Z)) (rdwr : list Z -> bool) (got : nat -> nat -> nat)
          (ctl_ok : string -> bool) (prop : string -> option (list Z)).
  (** A read of available bytes returns at least one. *)
  Context (Hgot : forall pos k, (0 < k)%nat -> (0 < got pos k)%nat).

Lemma read_at_spec data pos n :
  exists j, read_at got data pos n = take j (drop pos data) /\
    (j <= min n (length data - pos))%nat /\ ((0 < min n (length data - pos))%nat -> (0 < j)%nat).
Proof.
  unfold read_at. set (k := min n (length data - pos)). exists (min k (got pos k)).
  split; [done|]. split; [lia|]. intros Hk. pose proof (Hgot pos k Hk). lia.
Qed.

(** What is written behind the end of the file. *)
Definition tail_of (path : list Z) (caps : Z) : option (list Z) :=
  if decide (path = PROC_CMDLINE) then t ← append_test_mode prop; Some (t ++ append_lte_mode caps ++ [0]) else Some [].

Lemma fill_packet_ok fuel path data pos off n b tl :
  tail_of path (capabilities_flag b) = Some tl -> (n < fuel)%nat -> (0 < n)%nat ->
  (off + n + length tl <= length (test_buffer b))%nat ->
  let m := min n (length data - pos) in
  fill_packet got prop fuel path data pos off n b =
    Some ((pos + m)%nat, set_tb (splice (splice (test_buffer b) off (take m (drop pos data))) (off + m)
                                   (if (m =? n)%nat then [] else tl)) b).
Proof.
  intros Htl. revert pos off n b Htl. induction fuel as [|fuel IH]; intros pos off n b Htl Hf Hn Hl m; [lia|].
  cbn [fill_packet]. destruct (read_at_spec data pos n) as (j & -> & Hj & Hj0). fold m in Hj, Hj0.
  rewrite bbind_run. unfold get.
  assert (length (take j (drop pos data)) = j) as Lj by (rewrite length_take, length_drop; lia).
  destruct (take j (drop pos data)) as [|x d] eqn:Ed.
  - assert (m = 0%nat) as -> by (cbn in Lj; lia). rewrite take_0, splice_nil, !Nat.add_0_r.
    destruct (Nat.eqb_spec 0 n); [lia|]. unfold tail_of in Htl. case_decide.
    + destruct (append_test_mode prop) as [t|] eqn:Et; [|done]. cbn [mbind option_bind] in Htl. injection Htl as <-.
      rewrite bbind_run. unfold opt at 1. cbn [fmap option_fmap option_map]. rewrite bbind_run. unfold get.
      rewrite bbind_run. unfold opt. rewrite mem_write_nat by lia. done.
    + injection Htl as <-. rewrite bret_run, splice_nil. by destruct b.
  - rewrite <- Ed in Lj |- *. rewrite Lj. rewrite bbind_run. unfold opt at 1.
    rewrite mem_write_nat by (rewrite Lj; lia). cbn [fmap option_fmap option_map]. rewrite bbind_run. unfold upd.
    assert (0 < j)%nat by (destruct j; [done|lia]).
    destruct (Nat.eqb_spec (n - j) 0) as [E0|E0].
    + rewrite bret_run. assert (j = n) by lia. assert (m = j) as -> by lia. destruct (Nat.eqb_spec j n); [|lia]. by rewrite splice_nil.
    + rewrite IH by (try done; try lia; cbn [test_buffer set_tb]; rewrite ?splice_length; lia). cbn [test_buffer set_tb].
      set (m' := min (n - j) (length data - (pos + j))). assert (m = (j + m')%nat) as Em by (unfold m, m'; lia).
      assert ((m =? n)%nat = (m' =? n - j)%nat) as Eb by (destruct (Nat.eqb_spec m n), (Nat.eqb_spec m' (n - j)); lia || done).
      rewrite Eb, Em. do 2 f_equal; [lia|]. unfold set_tb at 1 2. cbn. unfold set_tb. f_equal. rewrite Nat.add_assoc. f_equal.
      rewrite <- Lj at 2. rewrite splice_splice.
      * f_equal. rewrite <- drop_drop. rewrite <- (take_drop j (drop pos data)) at 3. rewrite take_app_ge by lia.
        rewrite Lj. do 2 f_equal. lia.
      * rewrite Lj. lia.
Qed.

(** What lies in the packet behind the header after filling and padding. *)
Lemma filled_full tb (A : list Z) n :
  length A = n -> (8 + n <= length tb)%nat -> take n (drop 8 (splice tb 8 A)) = A.
Proof.
  intros HA Hl. unfold splice. rewrite drop_app_ge by (rewrite length_take; lia).
  rewrite length_take, Nat.min_l, Nat.sub_diag, drop_0 by lia. by rewrite <- HA, take_app_length.
Qed.

Lemma filled_padded tb (A R : list Z) i n :
  (i <= length A)%nat -> (length A <= n)%nat -> length R = (n - i)%nat -> (8 + n <= length tb)%nat ->
  take n (drop 8 (splice (splice tb 8 A) (i + 8) R)) = take i A ++ R.
Proof.
  intros Hi HA HR Hl. unfold splice at 1.
  assert (take (i + 8) (splice tb 8 A) = take 8 tb ++ take i A) as ->.
  { unfold splice. rewrite take_app_ge by (rewrite length_take; lia). rewrite length_take. f_equal.
    replace (i + 8 - 8 `min` length tb)%nat with i by lia. by rewrite take_app_le by lia. }
  rewrite <- app_assoc, drop_app_ge by (rewrite length_take; lia).
  rewrite length_take, Nat.min_l, Nat.sub_diag, drop_0 by lia. rewrite app_assoc.
  apply take_app_exact. rewrite length_app, length_take. lia.
Qed.

(** One data packet and what follows. *)
Lemma packet_send {A} (k k0 : B A) tb tsz b t ts ws rs :
  ready (t :: ts) ws rs (bio b) -> turn_ok t -> tsz = LS_PACKET_SIZE \/ tsz = HS_PACKET_SIZE ->
  tsz + 8 <= Z.of_nat (length tb) ->
  exists s1 tb1,
    (ret ← chan (send_data_message tb tsz 1 tsz);
     '(tb, _) ← opt (setup_packet BSL_CMD_MIDST_DATA tb 8 tsz 1 tsz);
     _ ← upd (set_tb tb);
     if negb (ret =? DL_SUCCESS) then k0 else k) b = k (set_tb tb1 (set_bio s1 b)) /\
    ready ts ws rs s1 /\ sent s1 = sent (bio b) ++ spi_data (take (Z.to_nat tsz) (drop 8 tb)) /\
    length tb1 = length tb.
Proof.
  intros Hr Ht Hts Hl. destruct (send_data_spi t ts ws rs tb tsz (bio b) Hr Ht Hts Hl) as (s1 & E1 & Hr1 & Hs1).
  assert (8 <= length tb)%nat by (destruct Hts as [-> | ->]; unfold LS_PACKET_SIZE, HS_PACKET_SIZE in *; lia).
  pose proof (setup_midst (take 8 tb) (drop 8 tb) tsz ltac:(rewrite length_take; lia) Hts) as Es. rewrite take_drop in Es.
  exists s1, (spi_header tsz BSL_CMD_MIDST_DATA 0 ++ drop 8 tb).
  rewrite bbind_run. unfold chan at 1. rewrite E1, bbind_run. unfold opt at 1. rewrite Es.
  cbn [fmap option_fmap option_map]. rewrite bbind_run. unfold upd. change (negb (0 =? DL_SUCCESS)) with false. cbv iota.
  split_and!; [done|done|done|]. rewrite length_app, length_drop. cbn [length spi_header st16 app]. lia.
Qed.

Lemma packet_loop_ok r fuel path data i count tsz isz pos b tl ts ws rs :
  tail_of path (capabilities_flag b) = Some tl -> (length tl <= 120)%nat -> tsz = LS_PACKET_SIZE \/ tsz = HS_PACKET_SIZE ->
  (r <= fuel)%nat -> Z.of_nat r = Z.max 0 (count - i) -> count <= tsz + 1 ->
  0 <= isz <= Z.of_nat r * tsz -> (Z.of_nat r - 1) * tsz < isz ->
  (path <> PROC_CMDLINE -> (pos + Z.to_nat isz <= length data)%nat) -> Z.of_nat (length (test_buffer b)) = 32896 ->
  length ts = S r -> Forall turn_ok ts -> ready ts ws rs (bio b) ->
  exists s' tb' pkts,
    packet_loop got prop fuel path data i count tsz isz pos b = Some (DL_SUCCESS, set_tb tb' (set_bio s' b)) /\
    Z.of_nat (length tb') = 32896 /\ length pkts = r /\ Forall (fun p => length p = Z.to_nat tsz) pkts /\
    sent s' = sent (bio b) ++ mjoin (map spi_data pkts) ++ spi_end /\ ready [] ws rs s' /\
    (path <> PROC_CMDLINE ->
       mjoin pkts = take (Z.to_nat isz) (drop pos data) ++ replicate (Z.to_nat (Z.of_nat r * tsz - isz)) 0xFF) /\
    (path = PROC_CMDLINE -> tsz <= isz -> (length data - pos + length tl <= Z.to_nat tsz)%nat ->
       exists rest, mjoin pkts = drop pos data ++ tl ++ rest).
Proof.
  intros Htl Hl20 Hts. assert (0 < tsz <= 32768) as Hb by (destruct Hts as [-> | ->]; unfold LS_PACKET_SIZE, HS_PACKET_SIZE; lia).
  revert fuel i isz pos b Htl ts.
  induction r as [|r IH]; intros fuel i isz pos b Htl ts Hf Hi Hc Hz1 Hz2 Hpos Htb Hlt Hok Hrd.
  - destruct ts as [|t [|]]; try done. apply Forall_cons in Hok as [Ht _].
    destruct (send_end_spi t [] ws rs (bio b) Hrd Ht) as (s' & E & Hr' & Hs').
    exists s', (test_buffer b), []. assert (isz = 0) as -> by lia.
    split_and!; try done; [|intros; lia]. destruct b.
    destruct fuel; cbn [packet_loop]; destruct (Z.ltb_spec i count); try lia; unfold chan; cbn [bio] in *; by rewrite E.
  - destruct fuel as [|fuel]; [lia|]. cbn [packet_loop]. destruct (Z.ltb_spec i count); [|lia].
    destruct ts as [|t ts]; [done|]. apply Forall_cons in Hok as [Ht Hok]. cbn in Hlt.
    rewrite bbind_run, (fill_packet_ok _ _ _ _ _ _ _ tl) by (done || lia). rewrite bbind_run. unfold get at 1. cbn [test_buffer set_tb].
    set (m := min (Z.to_nat tsz) (length data - pos)). set (A := take m (drop pos data)).
    assert (length A = m) as LA by (unfold A; rewrite length_take, length_drop; lia).
    set (tl' := if (m =? Z.to_nat tsz)%nat then [] else tl). assert (length tl' <= length tl)%nat as Ltl by (unfold tl'; case_match; cbn; lia).
    assert (path <> PROC_CMDLINE -> tl' = []) as Htl'.
    { intros Hne. unfold tail_of in Htl. rewrite decide_False in Htl by done. injection Htl as <-. unfold tl'. by case_match. }
    set (tb1 := splice (splice _ 8 A) _ tl').
    assert (length tb1 = length (test_buffer b)) as Ltb1 by (unfold tb1; rewrite !splice_length; rewrite ?splice_length; lia).
    destruct (Z.ltb_spec isz tsz) as [Hlast|Hfull].
    + assert (r = 0%nat) as -> by nia. rewrite bbind_run, bbind_run. unfold opt at 1.
      set (R := replicate _ 0xFF). assert (length R = (Z.to_nat tsz - Z.to_nat isz)%nat) as LR by (unfold R; rewrite length_replicate; lia).
      rewrite mem_write_ok by lia. cbn [fmap option_fmap option_map]. rewrite bret_run.
      replace (Z.to_nat (isz + 8)) with (Z.to_nat isz + 8)%nat by lia. set (tb := splice tb1 _ R).
      assert (length tb = length (test_buffer b)) as Ltb by (unfold tb; rewrite splice_length; lia).
      match goal with |- context [packet_loop _ _ fuel path data ?i' count tsz 0 ?p] =>
        destruct (packet_send (packet_loop got prop fuel path data i' count tsz 0 p) (mret DL_FAILURE) tb tsz
          (set_tb tb1 b) t ts ws rs Hrd Ht Hts) as (s1 & tb2 & -> & Hr1 & Hs1 & Hl1); [lia|];
        destruct (IH fuel i' 0 p (set_tb tb2 (set_bio s1 (set_tb tb1 b))) Htl ts) as (s' & tb' & pk & E & Hl' & Hpk & _ & Hs & Hrr & _); try done; try lia end.
      { intros Hne. specialize (Hpos Hne). lia. }
      { cbn [test_buffer set_tb]. lia. }
      destruct pk; [|done]. exists s', tb', [take (Z.to_nat tsz) (drop 8 tb)].
      split_and!; try done; [| | |intros; lia].
      * constructor; [|done]. rewrite length_take, length_drop. lia.
      * rewrite Hs. cbn [bio set_bio set_tb]. rewrite Hs1. cbn [map mjoin list_join bio set_tb]. by rewrite <- !app_assoc.
      * intros Hne. specialize (Hpos Hne). unfold tb, tb1. rewrite (Htl' Hne), splice_nil, filled_padded by lia.
        unfold A. rewrite take_take, Nat.min_l by lia. cbn [mjoin list_join]. rewrite app_nil_r. unfold R. do 2 f_equal. lia.
    + rewrite bbind_run, bret_run.
      match goal with |- context [packet_loop _ _ fuel path data ?i' count tsz ?z ?p] =>
        destruct (packet_send (packet_loop got prop fuel path data i' count tsz z p) (mret DL_FAILURE) tb1 tsz
          (set_tb tb1 b) t ts ws rs Hrd Ht Hts) as (s1 & tb2 & -> & Hr1 & Hs1 & Hl1); [lia|];
        destruct (IH fuel i' z p (set_tb tb2 (set_bio s1 (set_tb tb1 b))) Htl ts) as (s' & tb' & pk & E & Hl' & Hpk & Hpl & Hs & Hrr & Hpj & _); try done; try lia end.
      { intros Hne. specialize (Hpos Hne). lia. }
      { cbn [test_buffer set_tb]. lia. }
      exists s', tb', (take (Z.to_nat tsz) (drop 8 tb1) :: pk).
      split_and!; try done.
      * cbn. by rewrite Hpk.
      * constructor; [|done]. rewrite length_take, length_drop. lia.
      * rewrite Hs. cbn [bio set_bio set_tb]. rewrite Hs1. cbn [map bio set_tb]. change (mjoin (?x :: ?l)) with (x ++ mjoin l). by rewrite <- !app_assoc.
      * intros Hne. specialize (Hpos Hne). unfold tb1. rewrite (Htl' Hne), splice_nil, filled_full by (unfold m in LA |- *; lia).
        change (mjoin (?x :: pk)) with (x ++ mjoin pk). rewrite (Hpj Hne), app_assoc. f_equal; [|f_equal; lia].
        assert (m = Z.to_nat tsz) as Hm by (unfold m; lia). unfold A. rewrite Hm, <- drop_drop.
        replace (Z.to_nat (isz - tsz)) with (Z.to_nat isz - Z.to_nat tsz)%nat by lia.
        rewrite <- (take_drop (Z.to_nat tsz) (drop pos data)) at 3.
        rewrite take_app_ge by (rewrite length_take; lia). rewrite length_take, length_drop. do 2 f_equal. lia.
      * intros He _ Hfit. assert (0 < length tl)%nat as H0.
        { unfold tail_of in Htl. rewrite decide_True in Htl by done. destruct (append_test_mode prop); [|done].
          injection Htl as <-. rewrite !length_app. cbn. lia. }
        assert (m = length data - pos)%nat as Hm by (unfold m; lia). assert (tl' = tl) as Et by (unfold tl'; destruct (Nat.eqb_spec m (Z.to_nat tsz)); [lia|done]).
        assert (A = drop pos data) as HA by (unfold A; rewrite take_ge; [done|rewrite length_drop; lia]).
        change (mjoin (?x :: pk)) with (x ++ mjoin pk). unfold tb1. rewrite Et, <- LA, splice_splice by lia. unfold splice.
        rewrite drop_app_ge by (rewrite length_take; lia). rewrite length_take, Nat.min_l, Nat.sub_diag, drop_0 by lia.
        rewrite take_app_ge by (rewrite length_app; lia). rewrite HA. eexists. by rewrite <- !app_assoc.
Qed.

(** *** Whole images *)

(** Where the data of an image start: behind an NV header, as far as the first
    read went. *)
Definition data_start (data : list Z) : nat :=
  let nvbuf := read_at got data 0 512 in if ld32 nvbuf 0 =? NV_HEAD_MAGIC then length nvbuf else 0%nat.

Definition trans_of (size : Z) : Z := if size <? HS_PACKET_SIZE then LS_PACKET_SIZE else HS_PACKET_SIZE.
Definition count_of (size : Z) : Z := (size + trans_of size - 1) / trans_of size.

(** An image that can be sent: its file, where there is one, holds the image; the
    command line fits into the first packet with what is appended to it. *)
Definition sendable (caps : Z) (e : image_info) : Prop :=
  0 < image_size e <= 0x40000000 /\ 0 <= address e < 4294967296 /\
  exists path tl, image_path e = Some path /\ tail_of path caps = Some tl /\ (length tl <= 120)%nat /\
    forall data, files !! path = Some data ->
      (4 <= length (read_at got data 0 512))%nat /\
      (path <> PROC_CMDLINE -> (data_start data + Z.to_nat (image_size e) <= length data)%nat) /\
      (path = PROC_CMDLINE -> data_start data = 0%nat /\ trans_of (image_size e) <= image_size e /\
         (length data + length tl <= Z.to_nat (trans_of (image_size e)))%nat).

(** The messages of an image: none without a file; otherwise a start message with
    the padded size and the address, data packets of equal length whose contents
    in order are the image padded with 0xFF (or begin with the command line and
    the modes), an end message. *)
Definition image_msgs (caps : Z) (e : image_info) (msgs : list Z) : Prop :=
  exists path, image_path e = Some path /\
    match files !! path with
    | None => msgs = []
    | Some data =>
        let size := image_size e in let tsz := trans_of size in let n := count_of size in
        exists pkts, msgs = spi_start (n * tsz) (address e) ++ mjoin (map spi_data pkts) ++ spi_end /\
          Forall (fun p => length p = Z.to_nat tsz) pkts /\
          (path <> PROC_CMDLINE ->
             mjoin pkts = take (Z.to_nat size) (drop (data_start data) data) ++ replicate (Z.to_nat (n * tsz - size)) 0xFF) /\
          (path = PROC_CMDLINE -> exists tl rest, tail_of path caps = Some tl /\ mjoin pkts = data ++ tl ++ rest)
    end.

Definition turns_of (e : image_info) : nat :=
  match image_path e ≫= (files !!.) with None => 0 | Some _ => S (S (Z.to_nat (count_of (image_size e)))) end.

Lemma count_bounds size (tsz := trans_of size) (n := count_of size) :
  0 < size <= 0x40000000 ->
  (tsz = LS_PACKET_SIZE \/ tsz = HS_PACKET_SIZE) /\ 0 < n /\ n <= tsz + 1 /\ size <= n * tsz /\ (n - 1) * tsz < size.
Proof.
  intros Hz. assert (tsz = LS_PACKET_SIZE \/ tsz = HS_PACKET_SIZE) as Hts by (unfold tsz, trans_of; case_match; auto).
  split; [done|].
  assert (0 < tsz <= 32768) as Hb by (destruct Hts as [-> | ->]; unfold LS_PACKET_SIZE, HS_PACKET_SIZE; lia).
  unfold n, count_of. fold tsz. pose proof (Z.div_mod (size + tsz - 1) tsz ltac:(lia)) as E.
  pose proof (Z.mod_pos_bound (size + tsz - 1) tsz ltac:(lia)) as M.
  assert (size <= tsz * tsz + tsz) as Hq.
  { unfold tsz, trans_of in *. destruct (Z.ltb_spec size HS_PACKET_SIZE); unfold LS_PACKET_SIZE, HS_PACKET_SIZE in *; lia. }
  nia.
Qed.

Lemma download_image_ok e b ts ws rs :
  sendable (capabilities_flag b) e -> Z.of_nat (length (test_buffer b)) = 32896 ->
  length ts = turns_of e -> Forall turn_ok ts -> ready ts ws rs (bio b) ->
  exists s' tb' msgs, download_image files got prop e b = Some (DL_SUCCESS, set_tb tb' (set_bio s' b)) /\
    Z.of_nat (length tb') = 32896 /\ image_msgs (capabilities_flag b) e msgs /\
    sent s' = sent (bio b) ++ msgs /\ ready [] ws rs s'.
Proof.
  intros (Hz & Ha & path & tl & Hp & Htl & Hl & Hd) Htb Hlt Hok Hr. unfold download_image, image_msgs, turns_of in *.
  rewrite Hp in *. cbn [mbind option_bind] in Hlt. destruct (files !! path) as [data|] eqn:Ef.
  2: { destruct ts; [|done]. exists (bio b), (test_buffer b), []. split_and!; try done; [by destruct b|exists path; by rewrite Ef|by rewrite app_nil_r]. }
  destruct (Hd data eq_refl) as (Hnv & Hpos & Hcmd).
  set (size := image_size e) in *. destruct (count_bounds size Hz) as (Hts & Hn0 & Hn1 & Hn2 & Hn3).
  fold (trans_of size). set (tsz := trans_of size) in *. set (n := count_of size) in *.
  assert (0 < tsz <= 32768) as Hb by (destruct Hts as [-> | ->]; unfold LS_PACKET_SIZE, HS_PACKET_SIZE; lia).
  destruct ts as [|t ts]; [done|]. apply Forall_cons in Hok as [Ht Hok]. cbn in Hlt.
  destruct (Nat.ltb_spec (length (read_at got data 0 512)) 4); [lia|].
  destruct (Z.leb_spec 0x7FFF0000 size); [lia|]. cbv zeta. fold (data_start data).
  rewrite Z.quot_div_nonneg by lia. change ((size + tsz - 1) / tsz) with n.
  destruct (send_start_spi t ts ws rs (n * tsz) (address e) (bio b) Hr Ht Ha) as (s1 & E1 & Hr1 & Hs1); [nia|].
  rewrite bbind_run. unfold chan at 1. rewrite E1. change (negb (0 =? DL_SUCCESS)) with false. cbv iota.
  destruct (packet_loop_ok (Z.to_nat n) (Z.to_nat n) path data 0 n tsz size (data_start data) (set_bio s1 b) tl ts ws rs)
    as (s' & tb' & pkts & E & Hl' & _ & Hpf & Hs & Hrr & Hc1 & Hc2); try done; try lia.
  rewrite E. exists s', tb', (spi_start (n * tsz) (address e) ++ mjoin (map spi_data pkts) ++ spi_end). split_and!; try done.
  - exists path. split; [done|]. rewrite Ef. exists pkts. rewrite Z2Nat.id in Hc1 by lia. split_and!; try done.
    intros He. destruct (Hcmd He) as (Hds & Hle & Hfit). rewrite Hds in Hc2. destruct Hc2 as [rest Hrest]; [done|done|lia|].
    exists tl, rest. by rewrite Hrest, drop_0.
  - rewrite Hs. cbn [bio set_bio]. rewrite Hs1. by rewrite <- !app_assoc.
Qed.

Lemma ready_app ts ts' ws rs s :
  ready (ts ++ ts') ws rs s <-> ready ts (map fst ts' ++ ws) (map Some (concat (map snd ts')) ++ rs) s.
Proof. unfold ready. rewrite !map_app, concat_app, map_app, <- !app_assoc. done. Qed.

Definition wanted (cap : Z) (l : list image_info) : list image_info :=
  filter (fun e => negb (mask e .& cap =? 0) = true) l.

Lemma download_loop_ok l cap ret b ts ws rs :
  Forall (sendable (capabilities_flag b)) (wanted cap l) -> Z.of_nat (length (test_buffer b)) = 32896 ->
  length ts = sum_list (map turns_of (wanted cap l)) -> Forall turn_ok ts -> ready ts ws rs (bio b) ->
  exists s' tb' msgs,
    download_loop files got prop l cap ret b = Some (if decide (wanted cap l = []) then ret else DL_SUCCESS, set_tb tb' (set_bio s' b)) /\
    Z.of_nat (length tb') = 32896 /\ Forall2 (image_msgs (capabilities_flag b)) (wanted cap l) msgs /\
    sent s' = sent (bio b) ++ mjoin msgs /\ ready [] ws rs s'.
Proof.
  revert ret b ts. induction l as [|e l IH]; intros ret b ts Hsend Htb Hlt Hok Hr.
  - destruct ts; [|done]. exists (bio b), (test_buffer b), []. split_and!; try done; [by destruct b|by rewrite app_nil_r].
  - cbn [download_loop]. unfold wanted in *. rewrite filter_cons in *. destruct (negb (mask e .& cap =? 0)) eqn:Em.
    + rewrite decide_True in * by done. apply Forall_cons in Hsend as [He Hsend]. change (sum_list (map turns_of (e :: ?l))) with (turns_of e + sum_list (map turns_of l))%nat in Hlt.
      rewrite <- (take_drop (turns_of e) ts) in Hr, Hok. apply ready_app in Hr. apply Forall_app in Hok as [Hok1 Hok2].
      destruct (download_image_ok e b (take (turns_of e) ts) _ _ He Htb ltac:(rewrite length_take; lia) Hok1 Hr) as (s1 & tb1 & m1 & E1 & Hl1 & Hm1 & Hs1 & Hr1).
      rewrite bbind_run, E1. change (negb (DL_SUCCESS =? DL_SUCCESS)) with false. cbv iota.
      destruct (IH DL_SUCCESS (set_tb tb1 (set_bio s1 b)) (drop (turns_of e) ts) Hsend Hl1) as (s' & tb' & ms & E & Hl' & Hms & Hs & Hrr).
      { rewrite length_drop. lia. }
      { done. }
      { done. }
      exists s', tb', (m1 :: ms). split_and!; try done.
      * rewrite E. by repeat case_decide.
      * by constructor.
      * rewrite Hs. cbn [bio set_tb set_bio]. rewrite Hs1, <- app_assoc. done.
    + rewrite decide_False in * by done. by apply (IH ret b ts).
Qed.

(** *** The loader *)

Lemma load_loop_ok fuel data pos size :
  (size < fuel)%nat -> (pos + size <= length data)%nat -> load_loop got fuel data pos size = Some (take size (drop pos data)).
Proof.
  revert pos size. induction fuel as [|fuel IH]; intros pos size Hf Hl; [lia|]. cbn [load_loop].
  destruct (read_at_spec data pos size) as (j & -> & Hj & Hj0).
  assert (length (take j (drop pos data)) = j) as Lj by (rewrite length_take, length_drop; lia). rewrite Lj.
  destruct (Nat.eqb_spec (size - j) 0) as [E|E]; [by replace size with j by lia|].
  rewrite IH by lia. cbn. f_equal. rewrite <- drop_drop.
  rewrite <- (take_drop j (drop pos data)) at 3. rewrite take_app_ge by lia. by rewrite Lj.
Qed.

Definition fdl_frame (d : list Z) : list Z := translate_packet (uart_packet BSL_CMD_MIDST_DATA d).

(** For any way to send packets of [k] bytes that works in turns [tok] with a
    send buffer of [cap] bytes. *)
Lemma fdl_loop_ok send k (tok : Z * list (list Z) -> Prop) cap n fuel buf b ts ws rs :
  (forall buf t ts ws rs s, ready (t :: ts) ws rs s -> tok t -> (cap <= length (send_buffer s))%nat -> bytes (take k buf) ->
     (k <= length buf)%nat -> exists s', send buf s = Some (0, s') /\ uart_sent (uart_packet BSL_CMD_MIDST_DATA (take k buf)) ts ws rs s s') ->
  (0 < k)%nat -> (n <= fuel)%nat -> (k * n <= length buf)%nat -> bytes buf ->
  length ts = n -> Forall tok ts -> ready ts ws rs (bio b) -> (cap <= length (send_buffer (bio b)))%nat ->
  exists s' ch, fdl_loop send (Z.of_nat k) fuel buf (Z.of_nat k * Z.of_nat n) b = Some (0, set_bio s' b) /\
    Forall (fun d => length d = k) ch /\ mjoin ch = take (k * n) buf /\
    ready [] ws rs s' /\ sent s' = sent (bio b) ++ mjoin (map fdl_frame ch) /\
    length (send_buffer s') = length (send_buffer (bio b)).
Proof.
  intros Hsend Hk. revert fuel buf b ts. induction n as [|n IH]; intros fuel buf b ts Hf Hl Hb Hlt Hok Hr Hsb.
  - destruct ts; [|done]. exists (bio b), []. split_and!; try done; [|by rewrite Nat.mul_0_r|by rewrite app_nil_r].
    destruct b. rewrite Z.mul_0_r. by destruct fuel.
  - destruct fuel as [|fuel]; [lia|]. destruct ts as [|t ts]; [done|]. apply Forall_cons in Hok as [Ht Hok]. cbn in Hlt.
    cbn [fdl_loop]. destruct (Z.eqb_spec (Z.of_nat k * Z.of_nat (S n)) 0); [lia|].
    destruct (Hsend buf t ts ws rs (bio b) Hr Ht Hsb) as (s1 & E1 & Hr1 & Hs1 & Hb1); [by apply Forall_take|lia|].
    rewrite bbind_run. unfold chan at 1. rewrite E1. change (0 =? DL_FAILURE) with false. cbv iota. rewrite Nat2Z.id.
    replace (Z.of_nat k * Z.of_nat (S n) - Z.of_nat k) with (Z.of_nat k * Z.of_nat n) by lia.
    destruct (IH fuel (drop k buf) (set_bio s1 b) ts) as (s' & ch & E & Hch & Hj & Hrr & Hs & Hbb); try done; try lia.
    + rewrite length_drop. lia.
    + by apply Forall_drop.
    + cbn [bio set_bio]. lia.
    + exists s', (take k buf :: ch). rewrite E. cbn [bio set_bio] in *. split_and!; try done; try lia.
      * constructor; [rewrite length_take; lia|done].
      * change (mjoin (?x :: ch)) with (x ++ mjoin ch). rewrite Hj.
        rewrite <- (take_drop k buf) at 3. rewrite take_app_ge by (rewrite length_take; lia).
        rewrite length_take, Nat.min_l by lia. do 2 f_equal. lia.
      * rewrite Hs, Hs1. cbn [map]. change (mjoin (?x :: ?l)) with (x ++ mjoin l). by rewrite <- app_assoc.
Qed.

(** The loader can be sent: its file holds it, in whole packets. *)
Definition fdl_ok (l : list image_info) (e : image_info) (data : list Z) (n : nat) : Prop :=
  l !! 0%nat = Some e /\ (exists path, image_path e = Some path /\ files !! path = Some data) /\
  image_size e = 256 * Z.of_nat n /\ (256 * n <= length data)%nat /\ bytes data /\ 0 <= address e < 4294967296 /\
  image_size e < 4294967296.

Definition fdl_msgs (e : image_info) (data msgs : list Z) : Prop :=
  exists ch, Forall (fun d => length d = 256%nat) ch /\ mjoin ch = take (Z.to_nat (image_size e)) data /\
    msgs = translate_packet (uart_packet BSL_CMD_START_DATA (be32 (address e) ++ be32 (image_size e))) ++
           mjoin (map fdl_frame ch) ++ translate_packet (uart_packet BSL_CMD_END_DATA []) ++
           translate_packet (uart_packet BSL_CMD_EXEC_DATA (be32 (address e))).

Lemma download_fdl_ok e data n b ts ws rs :
  fdl_ok (images b) e data n -> length ts = (n + 3)%nat -> Forall uturn_ok ts -> ready ts ws rs (bio b) ->
  (600 <= length (send_buffer (bio b)))%nat ->
  exists s' msgs, download_fdl files got b = Some (0, set_bio s' b) /\ fdl_msgs e data msgs /\
    ready [] ws rs s' /\ sent s' = sent (bio b) ++ msgs /\ length (send_buffer s') = length (send_buffer (bio b)).
Proof.
  intros (He & (path & Hp & Hf) & Hsz & Hl & Hb & Ha & Hu) Hlt Hok Hr Hsb.
  assert (load_fdl2memory files got b = Some (Some (take (256 * n) data ++ replicate 4 0, image_size e), b)) as El.
  { unfold load_fdl2memory. rewrite bbind_run. unfold get. rewrite bbind_run. unfold opt at 1. cbn [id]. rewrite He. cbn [fmap option_fmap option_map].
    rewrite bbind_run. unfold opt at 1. rewrite Hp. cbn [fmap option_fmap option_map]. rewrite Hf, bbind_run. unfold opt at 1.
    replace (Z.to_nat (image_size e)) with (256 * n)%nat by lia. rewrite load_loop_ok, drop_0 by lia. done. }
  set (buf := take (256 * n) data ++ replicate 4 0) in El.
  assert (length buf = (256 * n + 4)%nat) as Lb by (unfold buf; rewrite length_app, length_take, length_replicate; lia).
  destruct ts as [|t ts]; [cbn in Hlt; lia|]. cbn in Hlt. apply Forall_cons in Hok as [Ht Hok].
  unfold download_fdl. rewrite bbind_run, El, bbind_run. unfold get. rewrite bbind_run. unfold opt at 1. cbn [id]. rewrite He. cbn [fmap option_fmap option_map].
  destruct (send_start_uart (image_size e) (address e) t ts ws rs (bio b) Hr Ht Hsb Ha) as (s1 & E1 & Hr1 & Hs1 & Hb1); [lia|].
  rewrite bbind_run. unfold chan at 1. rewrite E1. change (0 =? DL_FAILURE) with false. cbv iota.
  rewrite <- (take_drop n ts) in Hr1, Hok. apply ready_app in Hr1. apply Forall_app in Hok as [Hok1 Hok2].
  destruct (fdl_loop_ok send_fdl_packet 256 uturn_ok 600 n (length buf) buf (set_bio s1 b) (take n ts) (map fst (drop n ts) ++ ws)
    (map Some (concat (map snd (drop n ts))) ++ rs) send_data_uart ltac:(lia) ltac:(lia) ltac:(lia)) as (s2 & ch & E2 & Hch & Hj & Hr2 & Hs2 & Hb2);
    [unfold buf; apply Forall_app_2; [by apply Forall_take|repeat constructor; lia]|rewrite length_take; lia|done|exact Hr1|cbn [bio set_bio]; lia|].
  change (Z.of_nat 256) with FDL_PACKET_SIZE in E2. rewrite bbind_run, Hsz. change 256 with FDL_PACKET_SIZE. rewrite E2. change (0 =? DL_FAILURE) with false. cbv iota. cbn [bio set_bio] in *.
  assert (ready (drop n ts) ws rs s2) as Hr2' by exact Hr2.
  assert (length (drop n ts) = 2%nat) as Ld by (rewrite length_drop; lia).
  destruct (drop n ts) as [|t2 [|t3 [|]]]; try done. apply Forall_cons in Hok2 as [Ht2 Hok2]. apply Forall_cons in Hok2 as [Ht3 _].
  destruct (send_end_uart t2 [t3] ws rs s2 Hr2' Ht2 ltac:(lia)) as (s3 & E3 & Hr3 & Hs3 & Hb3).
  rewrite bbind_run. unfold chan at 1. cbn [bio set_bio]. rewrite E3. change (0 =? DL_FAILURE) with false. cbv iota.
  destruct (send_exec_uart (address e) t3 [] ws rs s3 Hr3 Ht3 ltac:(lia) Ha) as (s4 & E4 & Hr4 & Hs4 & Hb4).
  unfold chan. cbn [bio set_bio]. rewrite E4. eexists s4, _. split; [done|]. split.
  { exists ch. split; [done|]. split; [|reflexivity]. rewrite Hj. unfold buf. rewrite take_app_length'; [|rewrite length_take; lia].
    f_equal. lia. }
  split_and!; [done| |lia]. rewrite Hs4, Hs3, Hs2, Hs1. by rewrite <- !app_assoc.
Qed.

(** *** Waking the modem *)

(** A control file was written; nothing else but the power status changed. *)
Definition ctl_step (b b' : boot) : Prop :=
  bio b' = bio b /\ clock b' = clock b /\ opens b' = opens b /\ images b' = images b /\
  modem_images_count b' = modem_images_count b /\ capabilities_flag b' = capabilities_flag b /\ test_buffer b' = test_buffer b.

Lemma put_ctl_step path v b : exists r b', put_ctl ctl_ok path v b = Some (r, b') /\ ctl_step b b' /\ modem_power_status b' = modem_power_status b.
Proof. unfold put_ctl. destruct (ctl_ok path); eexists _, _; (split; [done|]); by split_and!. Qed.

Lemma poweron_step b : exists b', poweron_modem ctl_ok b = Some (tt, b') /\ ctl_step b b'.
Proof.
  unfold poweron_modem. rewrite bbind_run. unfold get. destruct (negb _); [exists b; by split_and!|].
  rewrite bbind_run. destruct (put_ctl_step MODEM_POWER_PATH "1" b) as (r & b1 & -> & H & _).
  destruct r; [|by exists b1]. eexists. split; [done|]. done.
Qed.

Lemma reset_step type b : exists b', reset_modem ctl_ok type b = Some (tt, b') /\ ctl_step b b'.
Proof.
  unfold reset_modem. rewrite bbind_run. unfold get. destruct (_ =? _); [exists b; by split_and!|].
  destruct (put_ctl_step MODEM_RESET_PATH "2" b) as (r1 & b1 & E1 & H1 & _).
  destruct (put_ctl_step MODEM_RESET_PATH "1" b) as (r2 & b2 & E2 & H2 & _).
  destruct (type =? MODEM_HARD_RESET); [exists b1; rewrite bbind_run, E1; by split|].
  destruct (type =? MODEM_SOFT_RESET); [exists b2; rewrite bbind_run, E2; by split|exists b; by split_and!].
Qed.

Lemma state_step v b : exists b', set_modem_state ctl_ok v b = Some (tt, b') /\ ctl_step b b'.
Proof. unfold set_modem_state. rewrite bbind_run. destruct (put_ctl_step MODEM_STATE_PATH v b) as (r & b1 & -> & H & _). by exists b1. Qed.

Lemma avdd_step v b : exists b', set_avdd18_en ctl_ok v b = Some (tt, b') /\ ctl_step b b'.
Proof. unfold set_avdd18_en. rewrite bbind_run. destruct (put_ctl_step CP_AVDD18_EN_PATH v b) as (r & b1 & -> & H & _). by exists b1. Qed.

Definition with_rd (rs : list (option (list Z))) (s : io) : io := Io (wr s) rs (img s) (sent s) (send_buffer s).

(** The reads that give a version string: a flag, its bytes one by one, a flag. *)
Definition version_reads (v : list Z) : list (option (list Z)) := Some [0x7E] :: map (fun c => Some [c]) v ++ [Some [0x7E]].
Definition version_ok (v : list Z) : Prop := Forall (fun c => c <> 0x7E) v /\ (length v <= 62)%nat.

Lemma version_loop_ok fuel n v rs t0 t1 b :
  Forall (fun c => c <> 0x7E) v -> (n + length v < 64)%nat -> (length v < fuel)%nat ->
  delta_miliseconds t0 t1 < FDL_CP_UART_TIMEOUT -> rd (bio b) = map (fun c => Some [c]) v ++ Some [0x7E] :: rs ->
  version_loop fuel n t0 t1 b = Some (Some (true, t1), set_bio (with_rd rs (bio b)) b).
Proof.
  intros Hv. revert fuel n b. induction Hv as [|c v Hc Hv IH]; intros fuel n b Hn Hf Hd Hr; (destruct fuel as [|fuel]; [lia|]);
    cbn [version_loop]; rewrite bbind_run; unfold read1; rewrite Hr; cbn [map app].
  - done.
  - change (1 =? 1) with true. cbv iota. destruct (Z.eqb_spec c 0x7E); [done|]. cbn [length] in *.
    destruct (Nat.leb_spec 64 (S n)); [lia|]. destruct (Z.ltb_spec (delta_miliseconds t0 t1) FDL_CP_UART_TIMEOUT); [|lia].
    rewrite IH by (done || lia). done.
Qed.

Lemma fdl_version_ok fuel n v rs b :
  Forall (fun c => c <> 0x7E) v -> (n + length v < 64)%nat -> (length v < fuel)%nat ->
  rd (bio b) = map (fun c => Some [c]) v ++ Some [0x7E] :: rs ->
  fdl_version_loop fuel n b = Some (true, set_bio (with_rd rs (bio b)) b).
Proof.
  intros Hv. revert fuel n b. induction Hv as [|c v Hc Hv IH]; intros fuel n b Hn Hf Hr; (destruct fuel as [|fuel]; [lia|]);
    cbn [fdl_version_loop]; rewrite bbind_run; unfold read1; rewrite Hr; cbn [map app].
  - done.
  - change (1 =? 1) with true. cbv iota. destruct (Z.eqb_spec c 0x7E); [done|]. cbn [length] in *.
    destruct (Nat.leb_spec 64 (S n)); [lia|]. rewrite IH by (done || lia). done.
Qed.

Lemma shake_ok w ws b :
  wr (bio b) = w :: ws -> 3 <= w ->
  chan (os_write hand_shake 3) b =
    Some (3, set_bio (Io ws (rd (bio b)) (img (bio b)) (sent (bio b) ++ hand_shake) (send_buffer (bio b))) b).
Proof. intros Hw H3. unfold chan. rewrite (os_write_all hand_shake 3 (bio b) w ws) by (done || cbn; lia). done. Qed.

Lemma connect_ok fd v t0 t1 ck ws rs b :
  version_ok v -> clock b = Some t0 :: Some t1 :: ck -> delta_miliseconds t0 t1 < FDL_CP_UART_TIMEOUT ->
  wr (bio b) = 3 :: 3 :: ws -> rd (bio b) = version_reads v ++ rs ->
  exists b', try_to_connect_modem ctl_ok fd b = Some (fd, b') /\
    bio b' = Io ws rs (img (bio b)) (sent (bio b) ++ hand_shake ++ hand_shake) (send_buffer (bio b)) /\ opens b' = opens b /\
    images b' = images b /\ modem_images_count b' = modem_images_count b /\ test_buffer b' = test_buffer b.
Proof.
  intros [Hv Hl] Hc Hd Hw Hr. unfold try_to_connect_modem. rewrite bbind_run.
  destruct (poweron_step b) as (b0 & -> & H1 & H2 & H3 & H4 & H5 & H6 & H7). rewrite bbind_run. unfold clock_gettime at 1.
  rewrite H2, Hc, bbind_run. unfold get at 1. cbn [clock set_clock length connect_loop]. rewrite bbind_run. unfold clock_gettime at 1.
  cbn [clock set_clock]. destruct (Z.ltb_spec FDL_CP_UART_TIMEOUT (delta_miliseconds t0 t1)); [lia|]. cbn [andb].
  rewrite bbind_run, bret_run, bbind_run.
  rewrite (shake_ok 3 (3 :: ws)) by (cbn [bio set_clock]; rewrite ?H1, ?Hw; done). cbn [bio set_clock].
  change (3 <? 0) with false. cbv iota. rewrite bbind_run, (shake_ok 3 ws) by done. cbn [bio set_bio rd img sent send_buffer].
  rewrite bbind_run. unfold read1 at 1. cbn [bio set_bio rd wr img sent send_buffer]. rewrite H1, Hr. unfold version_reads. cbn [app].
  change ((1 =? 1) && (0x7E =? 0x7E)) with true. cbv iota. rewrite bbind_run. unfold get at 1. cbn [bio set_bio rd].
  rewrite <- app_assoc. cbn [app].
  rewrite bbind_run, (version_loop_ok _ 1 v rs) by (done || rewrite ?length_app, ?length_map; cbn [length]; lia || done).
  rewrite bret_run. eexists. split; [done|]. cbn [bio set_bio with_rd wr rd img sent send_buffer opens images modem_images_count test_buffer set_clock].
  split_and!; try done. by rewrite <- app_assoc.
Qed.

Lemma connect_fdl_ok v ws rs b :
  version_ok v -> wr (bio b) = 3 :: ws -> rd (bio b) = version_reads v ++ rs ->
  try_to_connect_fdl b =
    Some (true, set_bio (Io ws rs (img (bio b)) (sent (bio b) ++ hand_shake) (send_buffer (bio b))) b).
Proof.
  intros [Hv Hl] Hw Hr. unfold try_to_connect_fdl. change 1000%nat with (S 999). cbn [fdl_rounds].
  rewrite bbind_run, (shake_ok 3 ws) by done. rewrite bbind_run. unfold read1 at 1. cbn [bio set_bio rd wr img sent send_buffer].
  rewrite Hr. unfold version_reads. cbn [app]. change ((1 =? 1) && (0x7E =? 0x7E)) with true. cbv iota.
  rewrite bbind_run, (fdl_version_ok 64 1 v rs) by (done || cbn [bio set_bio rd]; rewrite <- ?app_assoc; lia || done). done.
Qed.

(** *** The whole boot *)

Definition boot_mode : Z :=
  if has_prefix (bs "csfb") (default [] (prop "persist.radio.ssda.mode")) then MODE_TCSFB else MODE_SVLTE.

Lemma download_images_ok b te ret0 (l := wanted boot_mode (take (modem_images_count b - 1) (drop 1 (images b)))) :
  Forall (sendable boot_mode) l -> l <> [] -> Z.of_nat (length (test_buffer b)) = 32896 ->
  length te = S (sum_list (map turns_of l)) -> Forall turn_ok te -> ready te [] [] (bio b) ->
  exists b' imgs, download_images files got prop ret0 b = Some (DL_SUCCESS, b') /\ Forall2 (image_msgs boot_mode) l imgs /\
    sent (bio b') = sent (bio b) ++ mjoin imgs ++ spi_exec (if negb (boot_mode .& 1 =? 0) then 0x80400000 else 0x80400001).
Proof.
  intros Hsend Hne Htb Hle Hoke Hr. unfold download_images, get_modem_capabilities. fold boot_mode. rewrite bbind_run, bbind_run.
  unfold upd at 1. rewrite bret_run, bbind_run. unfold get at 1. cbn [id set_caps images modem_images_count].
  set (b10 := set_caps boot_mode b). destruct te as [|tx te _] using rev_ind; [done|]. rewrite length_app in Hle. cbn in Hle.
  apply Forall_app in Hoke as [Hoke Htx]. apply Forall_cons in Htx as [Htx _]. apply ready_app in Hr.
  destruct (download_loop_ok (take (modem_images_count b - 1) (drop 1 (images b))) boot_mode ret0 b10 te _ _ Hsend Htb ltac:(fold l; lia) Hoke Hr)
    as (s11 & tb11 & imgs & E11 & _ & Himgs & Hs11 & Hr11).
  rewrite bbind_run, E11, decide_False by done. rewrite bbind_run. unfold chan at 1. cbn [bio set_tb set_bio].
  set (addr := if negb (boot_mode .& 1 =? 0) then _ else _).
  assert (0 <= addr < 4294967296) as Ha by (unfold addr; destruct (negb _); lia).
  destruct (send_exec_spi tx [] [] [] addr s11 Hr11 Htx Ha) as (s12 & E12 & _ & Hs12).
  rewrite E12, bret_run. eexists _, imgs. split_and!; [done|done|]. cbn [bio set_bio]. rewrite Hs12, Hs11. by rewrite <- app_assoc.
Qed.

Definition answers (ts : list (Z * list (list Z))) : list (option (list Z)) := map Some (concat (map snd ts)).

(** A modem that cooperates: the devices open, the boot ROM and then the loader
    identify themselves in time with the version strings [v] and [v'], every
    message is taken and acknowledged ([tb]: connect and loader, [td]: switch to
    SPI, [te]: images and start). *)
Definition cooperates (b : boot) (n : nat) (l : list image_info) (v v' : list Z) (tb : list (Z * list (list Z)))
    (td : Z * list (list Z)) (te : list (Z * list (list Z))) : Prop :=
  (exists f0 f1 f2, opens b = [f0; f1; f2] /\ 0 <= f0 /\ 0 <= f1 /\ 0 <= f2) /\
  (exists t0 t1, clock b = [Some t0; Some t1] /\ delta_miliseconds t0 t1 < FDL_CP_UART_TIMEOUT) /\
  version_ok v /\ version_ok v' /\
  (length tb = n + 4)%nat /\ Forall uturn_ok tb /\ uturn_ok td /\
  length te = S (sum_list (map turns_of l)) /\ Forall turn_ok te /\
  wr (bio b) = 3 :: 3 :: map fst tb ++ 3 :: fst td :: map fst te /\
  rd (bio b) = version_reads v ++ answers tb ++ version_reads v' ++ answers [td] ++ answers te.

(** C26: A cooperating modem is booted. Conditions: the file of the loader holds the
    whole packets of 256 bytes that its table entry counts, and the packet buffers
    have their sizes; at least one image is asked for by the mode of the modem, and
    all that are can be sent ([sendable]: their files, where there are any, hold
    them, and the command line fits into the first packet); the devices open and the
    modem cooperates ([cooperates]). Then [modem_boot] returns 0, and has sent the
    handshake, the connect message, the loader in frames of 256 bytes with start,
    end and exec messages, the handshake for the loader, the switch to SPI, the
    messages of every image of the table that the mode of the modem asks for, in the
    order of the table, and the message that starts the modem. *)
Theorem modem_boot_delivers b e data n v v' tb td te ret0
    (l := wanted boot_mode (take (modem_images_count b - 1) (drop 1 (images b)))) :
  fdl_ok (images b) e data n -> Forall (sendable boot_mode) l -> l <> [] ->
  Z.of_nat (length (test_buffer b)) = 32896 -> (600 <= length (send_buffer (bio b)))%nat ->
  cooperates b n l v v' tb td te ->
  exists b' fdl imgs, modem_boot files got ctl_ok prop ret0 b = Some (0, b') /\
    fdl_msgs e data fdl /\ Forall2 (image_msgs boot_mode) l imgs /\
    sent (bio b') = sent (bio b) ++ hand_shake ++ hand_shake ++ translate_packet connect_packet ++ fdl ++
      hand_shake ++ translate_packet switch_packet ++ mjoin imgs ++
      spi_exec (if negb (boot_mode .& 1 =? 0) then 0x80400000 else 0x80400001).
Proof.
  intros Hf Hsend Hne Htb Hsb ((f0 & f1 & f2 & Ho & H0 & H1 & H2) & (t0 & t1 & Hc & Hd) & Hv & Hv' & Hlb & Hokb & Hokd & Hle & Hoke & Hw & Hr).
  unfold modem_boot. rewrite bbind_run. unfold get at 1. rewrite Ho. cbn [length reboot_loop].
  rewrite bbind_run. destruct (reset_step MODEM_SOFT_RESET b) as (b1 & -> & A1 & A2 & A3 & A4 & A5 & A6 & A7).
  rewrite bbind_run. unfold open_uart_device at 1, open_dev at 1. rewrite A3, Ho. destruct (Z.ltb_spec f0 0); [lia|].
  rewrite bbind_run.
  destruct (connect_ok f0 v t0 t1 [] (map fst tb ++ 3 :: fst td :: map fst te)
    (answers tb ++ version_reads v' ++ answers [td] ++ answers te) (set_opens [f1; f2] b1)) as (b2 & -> & B1 & B3 & B4 & B5 & B7);
    [done|cbn; by rewrite A2|done|cbn; by rewrite A1|cbn; by rewrite A1|].
  cbn [bio set_opens opens images modem_images_count test_buffer] in B1, B3, B4, B5, B7. rewrite A1 in B1.
  destruct (Z.ltb_spec f0 0); [lia|]. destruct tb as [|t tb]; [cbn in Hlb; lia|]. cbn in Hlb. apply Forall_cons in Hokb as [Ht Hokb].
  assert (ready (t :: tb) (3 :: fst td :: map fst te) (version_reads v' ++ answers [td] ++ answers te) (bio b2)) as Hrb by (by rewrite B1).
  destruct (send_connect_uart t tb _ _ (bio b2) Hrb Ht) as (s3 & E3 & Hr3 & Hs3 & Hb3); [rewrite B1; cbn; lia|].
  rewrite bbind_run. unfold chan at 1. rewrite E3, bbind_run.
  destruct (download_fdl_ok e data n (set_bio s3 b2) tb (3 :: fst td :: map fst te) (version_reads v' ++ answers [td] ++ answers te))
    as (s4 & fdl & -> & Hfdl & Hr4 & Hs4 & Hb4); [cbn; by rewrite B4, A4|lia|done|done|cbn; rewrite Hb3, B1; cbn; lia|].
  change (0 =? DL_FAILURE) with false. cbv iota. cbn [bio set_bio] in Hs4, Hb4. destruct Hr4 as [Hw4 Hr4]. cbn [map app concat] in Hw4, Hr4.
  rewrite bbind_run, (connect_fdl_ok v' (fst td :: map fst te) (answers [td] ++ answers te)) by done. cbn [negb]. cbn [bio set_bio].
  set (s5 := Io _ _ _ _ _). rewrite bbind_run. unfold open_uart_device, open_dev at 1. cbn [opens set_bio]. rewrite B3.
  destruct (Z.ltb_spec f1 0); [lia|]. rewrite bbind_run. set (b5 := set_opens [f2] _).
  destruct (state_step "0" b5) as (b6 & -> & C1 & C2 & C3 & C4 & C5 & C6 & C7). rewrite bbind_run.
  assert (ready (td :: []) (map fst te) (answers te) (bio b6)) as Hr6 by (rewrite C1; done).
  destruct (send_switch_uart (32 * 1024) td [] _ _ (bio b6) Hr6 Hokd) as (s7 & E7 & Hr7 & Hs7 & Hb7).
  { rewrite C1. cbn. rewrite Hb4, Hb3, B1. cbn. lia. }
  unfold chan at 1. rewrite E7, bbind_run. destruct (avdd_step "1" (set_bio s7 b6)) as (b8 & -> & D1 & D2 & D3 & D4 & D5 & D6 & D7).
  rewrite bbind_run. unfold get at 1. cbn [opens set_bio] in D3. rewrite D3, C3. cbn [opens set_opens b5 length open_dloader].
  rewrite bbind_run, bbind_run. unfold open_dev at 1. rewrite D3, C3. cbn [opens set_opens b5]. destruct (Z.leb_spec 0 f2); [|lia]. rewrite bret_run.
  set (b9 := set_opens [] b8).
  assert (images b9 = images b /\ modem_images_count b9 = modem_images_count b /\ test_buffer b9 = test_buffer b /\ bio b9 = s7) as (F1 & F2 & F3 & F4).
  { unfold b9. cbn. cbn in D1, D4, D5, D7. rewrite D1, D4, D5, D7, C4, C5, C7. cbn. by rewrite B4, B5, B7, A4, A5, A7. }
  unfold l in *. rewrite <- F1, <- F2 in Hsend, Hne, Hle |- *.
  destruct (download_images_ok b9 te ret0 Hsend Hne) as (b10 & imgs & E10 & Himgs & Hs10); [by rewrite F3|done|done| |].
  { rewrite F4. destruct Hr7 as [Hx Hy]. split; [by rewrite Hx, app_nil_r|]. rewrite Hy. by rewrite app_nil_r. }
  rewrite bbind_run, E10. change (DL_SUCCESS =? DL_FAILURE) with false. cbv iota.
  exists b10, fdl, imgs. split_and!; try done.
  rewrite Hs10, F4, Hs7, C1. cbn [bio b5 set_opens set_bio s5 sent]. rewrite Hs4, Hs3, B1. cbn [sent]. by rewrite <- !app_assoc.
Qed.

(** *** The masks of a configured table *)

Lemma insert_masks l i e :
  Forall (fun e => mask e = 0) l -> (forall old, l !! i = Some old -> mask e = mask old) ->
  Forall (fun e => mask e = 0) (<[i := e]> l).
Proof.
  intros H He. destruct (l !! i) as [old|] eqn:E; [|by rewrite list_insert_ge by (by apply lookup_ge_None)].
  apply Forall_insert; [done|]. rewrite (He old eq_refl). by eapply (Forall_lookup_1 _ _ _ _ H).
Qed.

Lemma parse_line_masks l c c' stop :
  Forall (fun e => mask e = 0) (c_tab c) -> parse_line l c = Some (c', stop) -> Forall (fun e => mask e = 0) (c_tab c').
Proof.
  intros H. unfold parse_line. destruct (to_nul l) as [|x l']; [done|].
  destruct (_ || _); [by intros [= <- <-]|]. destruct (scan_line _) as [[[[o bk] sz] ad]|]; [|by intros [= <- <-]].
  destruct (_ || _); [done|]. destruct (match bk with Some b => Some b | None => c_bak c end) as [bak|]; [|done].
  cbn [mbind option_bind]. destruct (c_tab c !! c_cnt c) as [old|] eqn:E; [|done]. cbn [mbind option_bind].
  intros [= <- _]. case_match; cbn [c_tab]; apply insert_masks; try done; intros old' E'; rewrite E in E'; by injection E' as <-.
Qed.

Lemma parse_lines_masks ls c c' :
  Forall (fun e => mask e = 0) (c_tab c) -> parse_lines ls c = Some c' -> Forall (fun e => mask e = 0) (c_tab c').
Proof.
  revert c. induction ls as [|l ls IH]; intros c H; cbn [parse_lines]; [by intros [= <-]|].
  destruct (parse_line l c) as [[c1 stop]|] eqn:E; [|done]. cbn [mbind option_bind].
  pose proof (parse_line_masks l c c1 stop H E). destruct stop; [by intros [= <-]|]. by apply IH.
Qed.

Lemma check_image_mask e e' : check_image files rdwr got e = Some e' -> mask e' = mask e.
Proof.
  unfold check_image. destruct (image_path e) as [p|]; [|done]. destruct (image_path_bak e) as [q|]; [|done]. cbn [mbind option_bind].
  case_decide; [congruence|]. destruct (_chkImg files rdwr got p _) as [[]|]; cbn [mbind option_bind]; [congruence| |done].
  destruct (_chkImg files rdwr got q _) as [[]|]; cbn [mbind option_bind negb]; [|congruence|done].
  destruct (_ <=? _)%nat; [|done]. intros E. by injection E as <-.
Qed.

Lemma configured_masks text b n b1 :
  files !! MODEM_IMAGES_INFO = Some text -> get_modem_images_info files rdwr got b = Some (n, b1) ->
  Forall (fun e => mask e = 0) (images b1) /\ bio b1 = bio b.
Proof.
  intros Ht. unfold get_modem_images_info. rewrite Ht, bbind_run. unfold get. rewrite bbind_run. unfold opt at 1.
  destruct (parse_lines _ _) as [c|] eqn:E; [|done]. cbn [fmap option_fmap option_map].
  apply parse_lines_masks in E; [|apply Forall_replicate; done].
  rewrite bbind_run. unfold opt at 1. destruct (c_tab c !! c_cnt c) as [old|] eqn:Eo; [|done]. cbn [fmap option_fmap option_map].
  set (tab := <[_ := _]> (c_tab c)).
  assert (Forall (fun e => mask e = 0) tab) as Htab.
  { apply insert_masks; [done|]. intros old' E'. rewrite Eo in E'. by injection E' as <-. }
  rewrite bbind_run. unfold opt at 1. destruct (mapM _ _) as [l|] eqn:El; [|done]. cbn [fmap option_fmap option_map].
  intros [= <- <-]. cbn [images bio set_uart set_images]. split; [|done].
  apply Forall_app_2; [|by apply Forall_drop]. apply mapM_Some in El. apply (Forall_take _ (c_cnt c)) in Htab.
  induction El as [|e e' l1 l2 He _ IH]; [done|]. apply Forall_cons in Htab as [Hm Htab]. constructor; [|by apply IH].
  rewrite (check_image_mask _ _ He). done.
Qed.

Lemma download_loop_none l cap ret b :
  Forall (fun e => mask e = 0) l -> download_loop files got prop l cap ret b = Some (ret, b).
Proof.
  induction 1 as [|e l He _ IH]; [done|]. cbn [download_loop]. rewrite He, Z.land_0_l. exact IH.
Qed.

(** A configuration file leaves the modem without its images: reading it
    clears the masks of the table, so that afterwards [download_images] sends
    nothing but the message that starts the modem, and returns whatever its
    uninitialised result holds. *)
Theorem configured_images_skipped text b n b1 ret0 t ts ws rs :
  files !! MODEM_IMAGES_INFO = Some text -> get_modem_images_info files rdwr got b = Some (n, b1) ->
  turn_ok t -> ready (t :: ts) ws rs (bio b1) ->
  exists b2 addr, download_images files got prop ret0 b1 = Some (ret0, b2) /\
    (addr = 0x80400000 \/ addr = 0x80400001) /\ sent (bio b2) = sent (bio b1) ++ spi_exec addr.
Proof.
  intros Ht Hg Hok Hr. destruct (configured_masks text b n b1 Ht Hg) as [Hm _].
  unfold download_images. rewrite bbind_run. unfold get_modem_capabilities. set (f := if has_prefix _ _ then _ else _).
  rewrite bbind_run. unfold upd. rewrite bret_run, bbind_run. unfold get. rewrite bbind_run.
  rewrite download_loop_none by (apply Forall_take, Forall_drop; done). rewrite bbind_run. unfold chan.
  set (addr := if negb _ then _ else _).
  assert (addr = 0x80400000 \/ addr = 0x80400001) as Ha by (unfold addr; case_match; auto).
  destruct (send_exec_spi t ts ws rs addr (bio b1) Hr Hok) as (s & E & _ & Hs); [destruct Ha as [-> | ->]; lia|].
  cbn [bio set_caps id]. rewrite E. eexists _, addr. split_and!; [done|done|done].
Qed.
End reads.

(** *** Examples *)

Definition demo_fdl : image_info := Image (Some (bs "/fdl")) (Some (bs "/fdl")) 256 0x20000000 MODE_ALL.
Definition demo_image : image_info := Image (Some (bs "/img")) (Some (bs "/img")) 300 0x80020000 MODE_ALL.
Definition demo_text : list Z := bs "/a /b 0x100 0x80000000" ++ [10] ++ bs "/c /c 200 2000C000" ++ [10].
Definition demo_files : gmap (list Z) (list Z) :=
  <[bs "/img" := replicate 310 5]> (<[bs "/fdl" := replicate 256 6]> (<[MODEM_IMAGES_INFO := demo_text]> ∅)).
Definition demo_turn : Z * list (list Z) := (32776, [[0; 0x80; 0]; [0; 0; 0]]).
Definition demo_uturn : Z * list (list Z) := (600, [translate_packet ack_packet]).
Definition demo_boot (s : io) : boot :=
  Boot s [Some (0, 0); Some (0, 1000000)] [3; 4; 5] [] [demo_fdl; demo_image; no_image] 2 (Some UART_DEVICE_NAME)
    FDL_CP_PWRON_DLY 0 0 (replicate (Z.to_nat 32896) 0).
Definition demo_channel : io :=
  Io (3 :: 3 :: replicate 5 600 ++ 3 :: 600 :: replicate 5 32776)
     (version_reads [1; 2] ++ answers (replicate 5 demo_uturn) ++ version_reads [7] ++ answers [demo_uturn] ++ answers (replicate 5 demo_turn))
     [] [] (replicate 600 0).
Definition configured : boot :=
  set_uart (Some UART_DEVICE_NAME) FDL_CP_PWRON_DLY
    (set_images (Image (Some (bs "/a")) (Some (bs "/b")) 0x100 0x80000000 0 ::
                 Image (Some (bs "/c")) (Some (bs "/c")) 0x200 0x2000C000 0 :: replicate 16 no_image) 2
       (demo_boot (Io [32776] (answers [demo_turn]) [] [] []))).

Lemma demo_turn_ok : turn_ok demo_turn.
Proof. split_and!; [cbn; lia| repeat constructor; done | done | done]. Qed.
Lemma demo_uturn_ok : uturn_ok demo_uturn.
Proof. split_and!; [cbn; lia| repeat constructor; done | done]. Qed.

Lemma modem_boot_delivers_witness : exists b' fdl imgs,
  modem_boot demo_files (fun _ k => k) (fun _ => true) (fun _ => None) 7 (demo_boot demo_channel) = Some (0, b') /\
  fdl_msgs demo_fdl (replicate 256 6) fdl /\
  Forall2 (image_msgs demo_files (fun _ k => k) (fun _ => None) MODE_SVLTE) [demo_image] imgs /\
  sent (bio b') = hand_shake ++ hand_shake ++ translate_packet connect_packet ++ fdl ++
      hand_shake ++ translate_packet switch_packet ++ mjoin imgs ++ spi_exec 0x80400000.
Proof.
  apply (modem_boot_delivers demo_files (fun _ k => k) (fun _ => true) (fun _ => None) (fun _ k H => H) (demo_boot demo_channel)
    demo_fdl (replicate 256 6) 1 [1; 2] [7] (replicate 5 demo_uturn) demo_uturn (replicate 5 demo_turn) 7); try done.
  - split_and!; try done; [by exists (bs "/fdl")|apply Forall_replicate; lia].
  - constructor; [|constructor]. split; [cbn; lia|]. split; [cbn; lia|]. exists (bs "/img"), []. split_and!; [done|done|cbn; lia|].
    intros data Hd. assert (data = replicate 310 5) as -> by (vm_compute in Hd; vm_compute; congruence).
    split_and!; [apply Nat.leb_le; by vm_compute|intros _; apply Nat.leb_le; by vm_compute|done].
  - split; [by exists 3, 4, 5|]. split; [by exists (0, 0), (0, 1000000)|]. split; [by repeat constructor|]. split; [by repeat constructor|].
    split; [done|]. split; [apply Forall_replicate, demo_uturn_ok|]. split; [apply demo_uturn_ok|]. split; [done|].
    split; [apply Forall_replicate, demo_turn_ok|done].
Defined.

Lemma configured_images_skipped_witness : exists b2 addr,
  download_images demo_files (fun _ k => k) (fun _ => None) 7 configured = Some (7, b2) /\
  (addr = 0x80400000 \/ addr = 0x80400001) /\ sent (bio b2) = sent (bio configured) ++ spi_exec addr.
Proof.
  apply (configured_images_skipped demo_files (fun _ => true) (fun _ k => k) (fun _ => None) demo_text
    (demo_boot (Io [32776] (answers [demo_turn]) [] [] [])) 2 configured 7 demo_turn [] [] []); try done. apply demo_turn_ok.
Defined.
