(* ===== verification/ModemCtl.v ===== *)
(** * The modem control service (apps/modem_control/main.c)

    Two threads share the client tables: the IPC thread accepts clients and reads
    their requests, the main thread follows the state of the modem, boots it
    ([ModemBoot]) and tells the clients.  A client is kept twice: in the table of
    watched descriptors, with [select]'s set and limit, and in [client_fd], to
    which states are broadcast.
    The passes of the threads ([serve_round], [main_step]) are modelled as running
    while the other thread leaves the tables alone; the section on the two threads
    cuts an add and a close of a client into their statements, because the add
    changes the watch table outside the mutex, and interleaves them.

    The operating system's answers are data: the results of writes to clients,
    the state file, the UART, the pid of the monitor. *)

From S2P Require Import Prelude Checksum Hdlc EngFrame EngText ModemBoot.

Definition MAX_CLIENT_NUM : nat := 10.
Definition IPC_EVT_MAX_WATCH : nat := MAX_CLIENT_NUM + 1.

Inductive evt_type := IPC_EVT_TYPE_NONE | IPC_EVT_TYPE_LISTEN | IPC_EVT_TYPE_CLIENT.
#[export] Instance evt_type_eq : EqDecision evt_type.
Proof. solve_decision. Defined.

(** An entry of [s_ipc_evt_watch_table]. *)
Record modem_ctrl_ipc_evt_t := Evt { ev_fd : Z; ev_type : evt_type; ev_valid : bool }.

Inductive MODEM_STA_E :=
  MODEM_STA_SHUTDOWN | MODEM_STA_BOOT | MODEM_STA_INIT | MODEM_STA_ALIVE | MODEM_STA_ASSERT | MODEM_STA_BOOTCOMP.
#[export] Instance modem_sta_eq : EqDecision MODEM_STA_E.
Proof. solve_decision. Defined.

(** A write to a client: so many bytes, EINTR or EAGAIN, another error. *)
Inductive wres := WGot (n : nat) | WAgain | WFail.

(** [out]: what was written to which client; [closed]: the descriptors closed;
    [kills]: signals sent to the monitor (1 for SIGUSR1). *)
Record ctl := Ctl {
  client_fd : list Z;
  watch : list modem_ctrl_ipc_evt_t;
  s_maxfd : Z;
  s_rdyFds : gset Z;
  modem_state : MODEM_STA_E;
  flash_less_flag : Z;
  bt : boot;
  writes : list wres;
  out : list (Z * list Z);
  closed : list Z;
  kills : list Z;
}.

Definition set_clients (l : list Z) (c : ctl) : ctl :=
  Ctl l (watch c) (s_maxfd c) (s_rdyFds c) (modem_state c) (flash_less_flag c) (bt c) (writes c) (out c) (closed c) (kills c).
Definition set_watch (l : list modem_ctrl_ipc_evt_t) (m : Z) (r : gset Z) (c : ctl) : ctl :=
  Ctl (client_fd c) l m r (modem_state c) (flash_less_flag c) (bt c) (writes c) (out c) (closed c) (kills c).
Definition set_state (s : MODEM_STA_E) (c : ctl) : ctl :=
  Ctl (client_fd c) (watch c) (s_maxfd c) (s_rdyFds c) s (flash_less_flag c) (bt c) (writes c) (out c) (closed c) (kills c).
Definition set_flash (f : Z) (c : ctl) : ctl :=
  Ctl (client_fd c) (watch c) (s_maxfd c) (s_rdyFds c) (modem_state c) f (bt c) (writes c) (out c) (closed c) (kills c).
Definition set_bt (b : boot) (c : ctl) : ctl :=
  Ctl (client_fd c) (watch c) (s_maxfd c) (s_rdyFds c) (modem_state c) (flash_less_flag c) b (writes c) (out c) (closed c) (kills c).
Definition put_out (ws : list wres) (o : Z * list Z) (c : ctl) : ctl :=
  Ctl (client_fd c) (watch c) (s_maxfd c) (s_rdyFds c) (modem_state c) (flash_less_flag c) (bt c) ws (out c ++ [o]) (closed c) (kills c).
Definition set_writes (ws : list wres) (c : ctl) : ctl :=
  Ctl (client_fd c) (watch c) (s_maxfd c) (s_rdyFds c) (modem_state c) (flash_less_flag c) (bt c) ws (out c) (closed c) (kills c).
Definition close_fd (fd : Z) (c : ctl) : ctl :=
  Ctl (client_fd c) (watch c) (s_maxfd c) (s_rdyFds c) (modem_state c) (flash_less_flag c) (bt c) (writes c) (out c) (closed c ++ [fd]) (kills c).
Definition kill (s : Z) (c : ctl) : ctl :=
  Ctl (client_fd c) (watch c) (s_maxfd c) (s_rdyFds c) (modem_state c) (flash_less_flag c) (bt c) (writes c) (out c) (closed c) (kills c ++ [s]).

(** ** The client tables *)

(** [memset] gives the entries the descriptor 0. *)
Definition modem_ctrl_ipc_init (c : ctl) : ctl :=
  set_watch (replicate IPC_EVT_MAX_WATCH (Evt 0 IPC_EVT_TYPE_NONE false)) (s_maxfd c) ∅
    (set_clients (replicate MAX_CLIENT_NUM (-1)) c).

(** The first index whose element satisfies [p]. *)
Fixpoint find_index {A} (p : A -> bool) (l : list A) : option nat :=
  match l with [] => None | x :: l => if p x then Some 0%nat else S <$> find_index p l end.

Definition ipc_watch_fd_add (fd : Z) (type : evt_type) (c : ctl) : ctl :=
  match find_index (fun e => negb (ev_valid e)) (watch c) with
  | None => close_fd fd c
  | Some i =>
      let c := set_watch (<[i := Evt fd type true]> (watch c)) (if s_maxfd c <=? fd then fd + 1 else s_maxfd c)
                 ({[fd]} ∪ s_rdyFds c) c in
      if decide (type = IPC_EVT_TYPE_CLIENT) then
        match find_index (fun f => f =? -1) (client_fd c) with
        | Some k => set_clients (<[k := fd]> (client_fd c)) c
        | None => c
        end
      else c
  end.

Definition max_fd (l : list modem_ctrl_ipc_evt_t) : Z :=
  foldl (fun n e => if ev_valid e && (n <? ev_fd e) then ev_fd e else n) 0 l.

Definition ipc_watch_fd_remove (fd : Z) (c : ctl) : ctl :=
  match find_index (fun e => ev_valid e && (ev_fd e =? fd)) (watch c) with
  | None => c
  | Some i =>
      let w := <[i := Evt (-1) IPC_EVT_TYPE_NONE false]> (watch c) in
      set_watch w (if fd + 1 =? s_maxfd c then max_fd w + 1 else s_maxfd c) (s_rdyFds c ∖ {[fd]}) c
  end.

Definition ipc_client_fd_close (fd : Z) (c : ctl) : ctl :=
  let c := ipc_watch_fd_remove fd c in
  let c := match find_index (fun f => f =? fd) (client_fd c) with
           | Some k => set_clients (<[k := -1]> (client_fd c)) c
           | None => c
           end in
  close_fd fd c.

(** [accept] returned [n]. *)
Definition process_listen (n : Z) (c : ctl) : ctl :=
  if n <? 0 then c else ipc_watch_fd_add n IPC_EVT_TYPE_CLIENT c.

Definition LTE_RELOAD_SVLTE_STR : list Z := bs "LTE Modem Reload,SVLTE".
Definition LTE_RELOAD_CSFB_STR : list Z := bs "LTE Modem Reload,_CSFB".

(** [ipc_blocking_write] from [off] on: whether it succeeded, how many bytes are
    out, the results left. *)
Fixpoint ipc_blocking_write (ws : list wres) (off len : nat) : option (bool * nat * list wres) :=
  if (off <? len)%nat then
    match ws with
    | [] => None
    | WAgain :: ws => ipc_blocking_write ws off len
    | WGot n :: ws => ipc_blocking_write ws (off + min n (len - off)) len
    | WFail :: ws => Some (false, off, ws)
    end
  else Some (true, off, ws).

(** One slot of the loop of [broadcast_modem_state]. *)
Definition send_client (msg : list Z) (fd : Z) (c : ctl) : option ctl :=
  if 0 <? fd then
    '(ok, n, ws) ← ipc_blocking_write (writes c) 0 (length msg);
    let c := put_out ws (fd, take n msg) c in
    Some (if (ok : bool) then c else ipc_client_fd_close fd c)
  else Some c.

Fixpoint broadcast_loop (idx : list nat) (msg : list Z) (c : ctl) : option ctl :=
  match idx with
  | [] => Some c
  | i :: idx => fd ← client_fd c !! i; c ← send_client msg fd c; broadcast_loop idx msg c
  end.

Definition broadcast_modem_state (msg : list Z) (c : ctl) : option ctl :=
  broadcast_loop (seq 0 MAX_CLIENT_NUM) msg c.

Section env.
  Context (files : gmap (list Z) (list Z)) (got : nat -> nat -> nat)
          (ctl_ok : string -> bool) (prop : string -> option (list Z)).
  (** [get_task_pid(MONITOR_APP)] and the value an unscanned [int] holds. *)
  Context (monitor_pid : Z) (junk : Z).

(** A call of a function of [modem_boot.c]. *)
Definition on_boot {A} (m : B A) (c : ctl) : option (A * ctl) :=
  match m (bt c) with Some (a, b) => Some (a, set_bt b c) | None => None end.

(** [read] returned the bytes [d], or failed. *)
Definition process_read (fd : Z) (d : option (list Z)) (c : ctl) : option ctl :=
  match d with
  | Some (x :: d') =>
      let p := take 256 (x :: d') in
      if has_prefix LTE_RELOAD_SVLTE_STR p
      then '(_, c) ← on_boot (set_modem_capabilities 1) c; snd <$> on_boot (set_modem_state ctl_ok "8") c
      else if has_prefix LTE_RELOAD_CSFB_STR p
      then '(_, c) ← on_boot (set_modem_capabilities 2) c; snd <$> on_boot (set_modem_state ctl_ok "8") c
      else Some c
  | _ => Some (ipc_client_fd_close fd c)
  end.

(** The loop over the table after [select] has returned the [n] descriptors
    [rfds], while the main thread does not touch the tables.  [accepted] and [recv] give the results of [accept] and [read]. *)
Fixpoint serve_loop (idx : list nat) (rfds : gset Z) (n : nat) (accepted : Z) (recv : Z -> option (list Z)) (c : ctl)
    : option ctl :=
  match idx, n with
  | i :: idx', S n' =>
      e ← watch c !! i;
      if ev_valid e && bool_decide (ev_fd e ∈ rfds) then
        c ← (if decide (ev_type e = IPC_EVT_TYPE_LISTEN) then Some (process_listen accepted c)
             else process_read (ev_fd e) (recv (ev_fd e)) c);
        serve_loop idx' rfds n' accepted recv c
      else serve_loop idx' rfds n accepted recv c
  | _, _ => Some c
  end.

Definition serve_round (rfds : gset Z) (accepted : Z) (recv : Z -> option (list Z)) (c : ctl) : option ctl :=
  serve_loop (seq 0 IPC_EVT_MAX_WATCH) rfds (size rfds) accepted recv c.

(** ** The state of the modem *)

Definition MODEM_ALIVE_STR : list Z := bs "Modem Alive".
Definition LTE_MODEM_ASSERT_STR : list Z := bs "LTE Modem Assert".
Definition TD_MODEM_ASSERT_STR : list Z := bs "_TD Modem Assert".
Definition MODEM_ASSERT_STR : list Z := bs "Modem Assert".
Definition LTE_MODEM_RESET_STR : list Z := bs "LTE Modem _Reset".
Definition WTD_MODEM_RESET_STR : list Z := bs "WDG Modem _Reset".
Definition MODEM_RESET_STR : list Z := bs "Modem Reset".

Definition MODEM_INTF_EVENT_ASSERT : Z := 0.
Definition MODEM_INTF_EVENT_ALIVE : Z := 1.
Definition MODEM_INTF_EVENT_CP_REQ_RESET : Z := 2.
Definition MODEM_INTF_EVENT_SHUTDOWN : Z := 4.
Definition MODEM_INTF_EVENT_FORCE_RESET : Z := 8.
Definition MODEM_INTF_EVENT_WDG_RESET : Z := 16.

(** [do { read } while (size > 0)] on the UART, at most 100001 times: the bytes
    read in front of [acc]. *)
Fixpoint assert_reads (rs : list (option (list Z))) (size timeout : Z) (acc : list Z)
    : option (list Z * list (option (list Z))) :=
  match rs with
  | [] => None
  | r :: rs =>
      let d := take (Z.to_nat size) (default [] r) in
      let size := size - Z.of_nat (length d) in
      let timeout := timeout + 1 in
      if (100000 <? timeout) || (size <=? 0) then Some (acc ++ d, rs) else assert_reads rs size timeout (acc ++ d)
  end.

Definition get_modem_assert_information (size : Z) : B (list Z) :=
  fd ← open_dev;
  if fd <? 0 then mret []
  else
    _ ← chan (os_write (bs "P") 1);
    d ← (fun b => match assert_reads (rd (bio b)) size 0 [] with
                  | Some (d, rs) => Some (d, set_bio (Io (wr (bio b)) rs (img (bio b)) (sent (bio b)) (send_buffer (bio b))) b)
                  | None => None
                  end : option (list Z * boot));
    _ ← chan (os_write (bs "O") 1);
    mret d.

(** [memcmp] with the beginning of the buffer of 300 bytes. *)
Definition chk_assert_info_string (info : list Z) : bool :=
  existsb (fun p => has_prefix p info)
    [LTE_MODEM_ASSERT_STR; TD_MODEM_ASSERT_STR; MODEM_ASSERT_STR; LTE_MODEM_RESET_STR; MODEM_RESET_STR].

(** [sscanf(message, "%d", ...)]. *)
Definition translate_modem_state_message (message : list Z) : Z :=
  match strtol 10 message with (v, true) => v | (_, false) => junk end.

Definition tell_monitor (c : ctl) : ctl := if 0 <? monitor_pid then kill 2 c else c.

Definition SYSRQ : string := "/proc/sysrq-trigger".
Definition poweron_by_charger : bool := has_prefix (bs "charge") (default [] (prop "ro.bootmode")).

(** The case MODEM_STA_ALIVE. *)
Definition alive_event (evt : Z) (c : ctl) : option ctl :=
  if evt =? MODEM_INTF_EVENT_ASSERT then
    let c := set_state MODEM_STA_ASSERT c in
    '(d, c) ← on_boot (get_modem_assert_information 256) c;
    let info := to_nul d in
    c ← broadcast_modem_state (if chk_assert_info_string (d ++ replicate (300 - length d) 0) then info else MODEM_ASSERT_STR) c;
    if poweron_by_charger then snd <$> on_boot (put_ctl ctl_ok SYSRQ "c") c else Some c
  else if evt =? MODEM_INTF_EVENT_CP_REQ_RESET then broadcast_modem_state MODEM_RESET_STR c
  else if evt =? MODEM_INTF_EVENT_WDG_RESET then broadcast_modem_state WTD_MODEM_RESET_STR c
  else Some c.

Definition flash_step (alive : bool) (f : Z) : Z * bool :=
  if f =? 0xff then if alive then (0, true) else (1, false)
  else if f =? 1 then if alive then (2, true) else (1, false)
  else (f, false).

Definition process_modem_state_message (message : list Z) (c : ctl) : option ctl :=
  let evt := translate_modem_state_message message in
  if evt <? 0 then Some c
  else
    let '(f, first_alive) := flash_step (evt .& 1 =? 1) (flash_less_flag c) in
    let c := set_flash f c in
    if evt =? MODEM_INTF_EVENT_FORCE_RESET then
      Some (set_state MODEM_STA_BOOT (if 0 <? monitor_pid then kill 1 c else c))
    else
      match modem_state c with
      | MODEM_STA_INIT =>
          Some (if evt =? MODEM_INTF_EVENT_ALIVE
                then let c := set_state MODEM_STA_ALIVE c in if first_alive then c else tell_monitor c
                else if evt =? MODEM_INTF_EVENT_SHUTDOWN then set_state MODEM_STA_BOOT c else c)
      | MODEM_STA_ASSERT =>
          if evt =? MODEM_INTF_EVENT_CP_REQ_RESET then broadcast_modem_state MODEM_RESET_STR c else Some c
      | MODEM_STA_BOOTCOMP =>
          if evt =? MODEM_INTF_EVENT_ALIVE then
            c ← broadcast_modem_state MODEM_ALIVE_STR (set_state MODEM_STA_ALIVE c);
            Some (if first_alive then c else tell_monitor c)
          else if evt =? MODEM_INTF_EVENT_CP_REQ_RESET then broadcast_modem_state MODEM_RESET_STR c else Some c
      | MODEM_STA_ALIVE => alive_event evt c
      | MODEM_STA_SHUTDOWN | MODEM_STA_BOOT => Some c
      end.

(** One pass of the loop of [main], while the IPC thread does not touch the
    tables: [buf] is what [get_modem_state] has read, if anything. *)
Definition main_step (ret0 : Z) (buf : option (list Z)) (c : ctl) : option ctl :=
  c ← match buf with Some m => process_modem_state_message (to_nul m) c | None => Some c end;
  if decide (modem_state c = MODEM_STA_BOOT)
  then '(_, c) ← on_boot (modem_boot files got ctl_ok prop ret0) c; Some (set_state MODEM_STA_BOOTCOMP c)
  else Some c.
End env.

(** ** Lemmas on the tables *)

Lemma find_index_Some {A} (p : A -> bool) l i :
  find_index p l = Some i ->
  exists l1 x l2, l = l1 ++ x :: l2 /\ length l1 = i /\ p x = true /\ Forall (fun y => p y = false) l1.
Proof.
  revert i. induction l as [|x l IH]; intros i; cbn [find_index]; [done|]. destruct (p x) eqn:E.
  - intros H. injection H as <-. by exists [], x, l.
  - destruct (find_index p l) as [j|]; [|done]. intros H. injection H as <-.
    destruct (IH j eq_refl) as (l1 & y & l2 & -> & <- & Hy & Hf). exists (x :: l1), y, l2. split_and!; try done. by constructor.
Qed.

Lemma find_index_None {A} (p : A -> bool) l : find_index p l = None <-> Forall (fun y => p y = false) l.
Proof.
  induction l as [|x l IH]; cbn [find_index]; [done|]. rewrite Forall_cons. destruct (p x); [naive_solver|].
  destruct (find_index p l); [|naive_solver]. split; [done|]. intros [_ H]. by apply IH in H.
Qed.

Definition is_client (e : modem_ctrl_ipc_evt_t) : bool := ev_valid e && bool_decide (ev_type e = IPC_EVT_TYPE_CLIENT).
(** The descriptors of the valid entries, and of the clients among them. *)
Definition watched (w : list modem_ctrl_ipc_evt_t) : list Z := map ev_fd (filter (fun e => ev_valid e = true) w).
Definition watched_clients (w : list modem_ctrl_ipc_evt_t) : list Z := map ev_fd (filter (fun e => is_client e = true) w).
Definition kept_clients (l : list Z) : list Z := filter (fun f => f <> -1) l.

(** The tables agree: entry 0 is the listener, the other valid entries are
    clients, with different descriptors, and these are the ones in [client_fd],
    each once; [select]'s set is that of the valid entries and its limit is above
    all of them. *)
Record tables_ok (lfd : Z) (c : ctl) : Prop := TablesOk {
  to_clients : length (client_fd c) = MAX_CLIENT_NUM;
  to_watch : exists w, watch c = Evt lfd IPC_EVT_TYPE_LISTEN true :: w /\ length w = MAX_CLIENT_NUM /\
               Forall (fun e => ev_valid e = true -> ev_type e = IPC_EVT_TYPE_CLIENT) w;
  to_nodup : NoDup (watched (watch c));
  to_nonneg : Forall (fun f => 0 <= f < s_maxfd c) (watched (watch c));
  to_set : s_rdyFds c = list_to_set (watched (watch c));
  to_perm : kept_clients (client_fd c) ≡ₚ watched_clients (watch c);
}.

Lemma watched_split lfd w :
  Forall (fun e => ev_valid e = true -> ev_type e = IPC_EVT_TYPE_CLIENT) w ->
  watched (Evt lfd IPC_EVT_TYPE_LISTEN true :: w) = lfd :: watched_clients (Evt lfd IPC_EVT_TYPE_LISTEN true :: w).
Proof.
  intros H. assert (filter (fun e => ev_valid e = true) w = filter (fun e => is_client e = true) w) as E.
  { induction H as [|e w He _ IH]; [done|]. rewrite !filter_cons, IH. unfold is_client.
    destruct (ev_valid e) eqn:E; cbn [andb]; [|done]. by rewrite He, bool_decide_true. }
  unfold watched, watched_clients. rewrite !filter_cons, E. done.
Qed.

Lemma watched_middle w1 e w2 :
  watched (w1 ++ e :: w2) = watched w1 ++ (if ev_valid e then [ev_fd e] else []) ++ watched w2.
Proof. unfold watched. rewrite filter_app, filter_cons, map_app. by destruct (ev_valid e). Qed.

Lemma watched_clients_middle w1 e w2 :
  watched_clients (w1 ++ e :: w2) = watched_clients w1 ++ (if is_client e then [ev_fd e] else []) ++ watched_clients w2.
Proof. unfold watched_clients. rewrite filter_app, filter_cons, map_app. by destruct (is_client e). Qed.

Lemma kept_middle l1 f l2 : kept_clients (l1 ++ f :: l2) = kept_clients l1 ++ (if f =? -1 then [] else [f]) ++ kept_clients l2.
Proof.
  unfold kept_clients. rewrite filter_app, filter_cons. destruct (Z.eqb_spec f (-1)) as [->|H]; [done|]. by rewrite decide_True.
Qed.

Lemma insert_mid {A} (l1 : list A) x y l2 : <[length l1 := y]> (l1 ++ x :: l2) = l1 ++ y :: l2.
Proof.
  rewrite insert_app_r_alt, Nat.sub_diag by lia. done.
Qed.

Lemma tables_ok_fields lfd c c' :
  tables_ok lfd c -> client_fd c' = client_fd c -> watch c' = watch c -> s_maxfd c' = s_maxfd c -> s_rdyFds c' = s_rdyFds c ->
  tables_ok lfd c'.
Proof. intros [] E1 E2 E3 E4. split; by rewrite ?E1, ?E2, ?E3, ?E4. Qed.

Lemma client_not_listener lfd c fd : tables_ok lfd c -> fd ∈ watched_clients (watch c) -> fd <> lfd.
Proof.
  intros [_ (w & Ew & _ & Hw) Hn _ _ _] Hi ->. rewrite Ew in *. rewrite watched_split in Hn by done. by apply NoDup_cons in Hn as [? _].
Qed.

Lemma add_client_ok lfd c fd :
  tables_ok lfd c -> 0 <= fd -> fd ∉ watched (watch c) -> tables_ok lfd (ipc_watch_fd_add fd IPC_EVT_TYPE_CLIENT c).
Proof.
  intros Hok H0 Hnew. unfold ipc_watch_fd_add. destruct (find_index _ (watch c)) as [i|] eqn:Ei; [|by eapply tables_ok_fields].
  apply find_index_Some in Ei as (w1 & x & w2 & Ew & <- & Hx & _). apply negb_true_iff in Hx.
  pose proof Hok as [Hlc (w & Ew0 & Hlw & Hty) Hnd Hnn Hset Hperm].
  destruct w1 as [|y w1]; [rewrite Ew in Ew0; injection Ew0 as -> _; done|].
  assert (y = Evt lfd IPC_EVT_TYPE_LISTEN true /\ w = w1 ++ x :: w2) as [-> ->] by (rewrite Ew in Ew0; by injection Ew0 as -> ->).
  rewrite Ew in *. rewrite insert_mid. cbn [watch client_fd set_watch]. rewrite decide_True by done.
  set (w1' := Evt lfd IPC_EVT_TYPE_LISTEN true :: w1) in *.
  rewrite watched_middle, Hx in Hnd, Hnn, Hset, Hnew. cbn [app] in Hnd, Hnn, Hset, Hnew.
  rewrite watched_clients_middle in Hperm. unfold is_client in Hperm. rewrite Hx in Hperm. cbn [andb app] in Hperm.
  destruct (find_index _ (client_fd c)) as [k|] eqn:Ek.
  - apply find_index_Some in Ek as (l1 & m & l2 & El & <- & Hm & _). apply Z.eqb_eq in Hm as ->. rewrite El, insert_mid in *.
    split; cbn [client_fd watch s_maxfd s_rdyFds set_clients set_watch].
    + rewrite length_app in *. done.
    + exists (w1 ++ Evt fd IPC_EVT_TYPE_CLIENT true :: w2). split; [done|]. rewrite length_app in *. split; [done|].
      apply Forall_app in Hty as [Ht1 Ht2]. apply Forall_cons in Ht2 as [_ Ht2]. apply Forall_app. split; [done|]. by constructor.
    + rewrite watched_middle. cbn [ev_valid ev_fd app]. rewrite NoDup_app in Hnd |- *. rewrite NoDup_cons. set_solver.
    + rewrite watched_middle. cbn [ev_valid ev_fd app]. rewrite Forall_app, Forall_cons.
      rewrite Forall_app in Hnn. destruct Hnn as [Hn1 Hn2].
      assert (forall l, Forall (fun f => 0 <= f < s_maxfd c) l ->
        Forall (fun f => 0 <= f < (if s_maxfd c <=? fd then fd + 1 else s_maxfd c)) l) as Hm.
      { intros l Hl. eapply Forall_impl; [done|]. intros f Hf. cbn in Hf. destruct (Z.leb_spec (s_maxfd c) fd); lia. }
      split_and!; auto; destruct (Z.leb_spec (s_maxfd c) fd); lia.
    + rewrite watched_middle, Hset. cbn [ev_valid ev_fd app]. set_solver.
    + rewrite watched_clients_middle. change (is_client _) with true. rewrite kept_middle in Hperm |- *. cbn [app ev_fd].
      destruct (Z.eqb_spec fd (-1)); [lia|]. change (-1 =? -1) with true in Hperm. cbn [app] in *.
      rewrite <- !Permutation_middle. by f_equiv.
  - exfalso. apply find_index_None in Ek. apply Permutation_length in Hperm. rewrite length_app in Hperm.
    assert (kept_clients (client_fd c) = client_fd c) as Ec.
    { clear -Ek. unfold kept_clients. induction Ek as [|f l Hf _ IH]; [done|]. rewrite filter_cons, decide_True by (cbn in Hf; lia). by rewrite IH. }
    assert (forall l, length (watched_clients l) <= length l)%nat as Hle by (intros l; unfold watched_clients; rewrite length_map; apply length_filter).
    rewrite Ec, Hlc in Hperm. change (watched_clients w1') with (watched_clients w1) in Hperm.
    pose proof (Hle w1). pose proof (Hle w2). rewrite length_app in Hlw. cbn [length] in Hlw. lia.
Qed.

Lemma max_fd_above w n : Forall (fun f => f <= foldl (fun n e => if ev_valid e && (n <? ev_fd e) then ev_fd e else n) n w) (n :: watched w).
Proof.
  revert n. induction w as [|e w IH]; intros n; [by repeat constructor|]. cbn [foldl].
  set (n' := if ev_valid e && (n <? ev_fd e) then ev_fd e else n). pose proof (IH n') as H. apply Forall_cons in H as [Hn H].
  unfold watched. rewrite filter_cons. constructor; [unfold n' in *; destruct (Z.ltb_spec n (ev_fd e)), (ev_valid e); cbn in *; lia|].
  case_decide as Ev; [|done]. cbn [map]. constructor; [|done]. unfold n' in Hn at 1. rewrite Ev in Hn. cbn [andb] in Hn.
  destruct (Z.ltb_spec n (ev_fd e)); lia.
Qed.

Lemma max_fd_bound w : Forall (fun f => f <= max_fd w) (watched w).
Proof. by pose proof (max_fd_above w 0) as [_ H]%Forall_cons. Qed.

Lemma close_client_ok lfd c fd :
  tables_ok lfd c -> fd ∈ kept_clients (client_fd c) -> tables_ok lfd (ipc_client_fd_close fd c).
Proof.
  intros Hok Hin. pose proof Hok as [Hlc (w & Ew0 & Hlw & Hty) Hnd Hnn Hset Hperm].
  assert (fd ∈ watched_clients (watch c)) as Hwc by (by rewrite <- Hperm). pose proof (client_not_listener lfd c fd Hok Hwc) as Hne.
  unfold ipc_client_fd_close, ipc_watch_fd_remove. destruct (find_index _ (watch c)) as [i|] eqn:Ei.
  2: { exfalso. apply find_index_None in Ei. unfold watched_clients in Hwc. apply list_elem_of_fmap in Hwc as (e & -> & He).
       apply list_elem_of_filter in He as [He1 He2]. rewrite Forall_forall in Ei. specialize (Ei e He2). cbn in Ei.
       unfold is_client in He1. apply andb_true_iff in He1 as [He1 _]. rewrite He1, Z.eqb_refl in Ei. done. }
  apply find_index_Some in Ei as (w1 & x & w2 & Ew & <- & Hx & _). apply andb_true_iff in Hx as [Hx1 Hx2]. apply Z.eqb_eq in Hx2.
  destruct w1 as [|y w1]; [rewrite Ew in Ew0; injection Ew0 as -> _; cbn in Hx2; done|].
  assert (y = Evt lfd IPC_EVT_TYPE_LISTEN true /\ w = w1 ++ x :: w2) as [-> ->] by (rewrite Ew in Ew0; by injection Ew0 as -> ->).
  rewrite Ew in *. rewrite insert_mid. cbn [client_fd set_watch].
  destruct (find_index _ (client_fd c)) as [k|] eqn:Ek.
  2: { exfalso. apply find_index_None in Ek. apply list_elem_of_filter in Hin as [_ Hin]. rewrite Forall_forall in Ek. specialize (Ek fd Hin). cbn in Ek. lia. }
  apply find_index_Some in Ek as (l1 & m & l2 & El & <- & Hm & _). apply Z.eqb_eq in Hm as ->. rewrite El, insert_mid in *.
  set (w1' := Evt lfd IPC_EVT_TYPE_LISTEN true :: w1) in *.
  apply Forall_app in Hty as [Ht1 Ht2]. apply Forall_cons in Ht2 as [Htx Ht2].
  rewrite watched_middle, Hx1, Hx2 in Hnd, Hnn, Hset. cbn [app] in Hnd, Hnn, Hset.
  rewrite watched_clients_middle in Hperm. unfold is_client in Hperm. rewrite Hx1, Htx, bool_decide_true, Hx2 in Hperm by done. cbn [andb app] in Hperm.
  assert (0 <= fd) as Hfd0 by (rewrite Forall_app, Forall_cons in Hnn; lia).
  split; cbn [client_fd watch s_maxfd s_rdyFds set_clients set_watch close_fd].
  - rewrite length_app in *. done.
  - exists (w1 ++ Evt (-1) IPC_EVT_TYPE_NONE false :: w2). split; [done|]. rewrite length_app in *. split; [done|].
    apply Forall_app. split; [done|]. by constructor.
  - rewrite watched_middle. cbn [ev_valid app]. rewrite NoDup_app in *. rewrite NoDup_cons in Hnd. set_solver.
  - set (w' := w1' ++ Evt (-1) IPC_EVT_TYPE_NONE false :: w2). pose proof (max_fd_bound w') as Hmx.
    apply Forall_forall. intros f Hf. rewrite Forall_forall in Hmx, Hnn. specialize (Hmx f Hf). cbv beta in Hmx.
    unfold w' in Hf at 1. rewrite watched_middle in Hf. cbn [ev_valid app] in Hf.
    assert (0 <= f < s_maxfd c) by (apply Hnn; set_solver). destruct (fd + 1 =? s_maxfd c); lia.
  - rewrite watched_middle, Hset. cbn [ev_valid app]. rewrite NoDup_app, NoDup_cons in Hnd. set_solver.
  - rewrite watched_clients_middle. change (is_client (Evt (-1) _ false)) with false. rewrite kept_middle in Hperm |- *. cbn [app].
    change (-1 =? -1) with true. cbn [app]. destruct (Z.eqb_spec fd (-1)); [lia|]. cbn [app] in Hperm.
    rewrite <- !Permutation_middle in Hperm. by apply Permutation_cons_inv in Hperm.
Qed.

(** ** Broadcasts *)

Lemma blocking_write_done ws off len ok n ws' :
  (off <= len)%nat -> ipc_blocking_write ws off len = Some (ok, n, ws') -> (n <= len)%nat /\ (ok = true -> n = len).
Proof.
  revert off. induction ws as [|r ws IH]; intros off Ho; cbn [ipc_blocking_write]; destruct (Nat.ltb_spec off len); try done.
  - intros H'. injection H' as <- <- <-. lia.
  - destruct r as [k| |]; [apply IH; lia|by apply IH|]. intros H'. injection H' as <- <- <-. split; [lia|done].
  - intros H'. injection H' as <- <- <-. lia.
Qed.

(** The results that bring a write forward or end it: neither EINTR or EAGAIN nor
    nothing written. *)
Definition progress (r : wres) : bool := match r with WGot n => (0 <? n)%nat | WAgain => false | WFail => true end.
Definition progs (ws : list wres) : nat := length (filter (fun r => progress r = true) ws).

Lemma progs_cons r ws : progs (r :: ws) = ((if progress r then 1 else 0) + progs ws)%nat.
Proof. unfold progs. rewrite filter_cons. by destruct (progress r). Qed.

Lemma blocking_write_returns ws off len :
  (len - off <= progs ws)%nat ->
  exists ok n ws', ipc_blocking_write ws off len = Some (ok, n, ws') /\ (progs ws <= progs ws' + (len - off))%nat.
Proof.
  revert off. induction ws as [|r ws IH]; intros off Hl; cbn [ipc_blocking_write]; destruct (Nat.ltb_spec off len).
  - cbn in Hl. lia.
  - eexists _, _, _. split; [done|]. lia.
  - rewrite progs_cons in *. destruct r as [k| |]; cbn [progress] in *.
    + destruct (Nat.ltb_spec 0 k); destruct (IH (off + min k (len - off))%nat) as (ok & n & ws' & -> & Hle); try lia;
        exists ok, n, ws'; (split; [done|lia]).
    + apply IH. lia.
    + eexists _, _, _. split; [done|]. lia.
  - eexists _, _, _. split; [done|]. lia.
Qed.

(** The failed writes among the results. *)
Definition fails (ws : list wres) : nat := length (filter (fun r => match r with WFail => true | _ => false end = true) ws).

Lemma fails_app a b : fails (a ++ b) = (fails a + fails b)%nat.
Proof. unfold fails. by rewrite filter_app, length_app. Qed.

(** A write that fails has used one failed result, one that succeeds none. *)
Lemma blocking_write_used ws off len ok n ws' :
  ipc_blocking_write ws off len = Some (ok, n, ws') ->
  exists used, ws = used ++ ws' /\ fails used = if ok then 0%nat else 1%nat.
Proof.
  revert off. induction ws as [|r ws IH]; intros off; cbn [ipc_blocking_write]; destruct (off <? len)%nat; try done.
  - intros H'. injection H' as <- <- <-. by exists [].
  - destruct r as [k| |]; [intros (used & -> & Hf)%IH; by exists (WGot k :: used)|intros (used & -> & Hf)%IH; by exists (WAgain :: used)|].
    intros H'. injection H' as <- <- <-. by exists [WFail].
  - intros H'. injection H' as <- <- <-. by exists [].
Qed.

Lemma send_client_ok lfd msg fd c c' :
  tables_ok lfd c -> fd ∈ client_fd c -> send_client msg fd c = Some c' -> tables_ok lfd c'.
Proof.
  intros Hok Hin. unfold send_client. destruct (Z.ltb_spec 0 fd); [|by intros H'; injection H' as <-].
  destruct (ipc_blocking_write _ _ _) as [[[ok n] ws]|]; [|done]. cbn [mbind option_bind]. intros H'. injection H' as <-.
  destruct ok; [by eapply tables_ok_fields|]. apply close_client_ok; [by eapply tables_ok_fields|].
  apply list_elem_of_filter. split; [lia|done].
Qed.

(** What a client got: the number of bytes written and whether the write
    succeeded. *)
Record delivery := Delivery { d_fd : Z; d_n : nat; d_ok : bool }.
Definition failed (rs : list delivery) : list Z := map d_fd (filter (fun r => d_ok r = false) rs).
Definition delivered (msg : list Z) (rs : list delivery) : list (Z * list Z) := map (fun r => (d_fd r, take (d_n r) msg)) rs.

Lemma failed_cons f n ok rs : failed (Delivery f n ok :: rs) = if ok then failed rs else f :: failed rs.
Proof. unfold failed. rewrite filter_cons. by destruct ok. Qed.

Lemma close_client_fds pre fd rest c :
  client_fd c = pre ++ fd :: rest -> fd ∉ pre -> client_fd (ipc_client_fd_close fd c) = pre ++ -1 :: rest.
Proof.
  intros E Hn. unfold ipc_client_fd_close. assert (client_fd (ipc_watch_fd_remove fd c) = client_fd c) as E' by (unfold ipc_watch_fd_remove; by case_match).
  destruct (find_index _ (client_fd _)) as [k|] eqn:Ek.
  - apply find_index_Some in Ek as (l1 & m & l2 & El & <- & Hm & Hf). apply Z.eqb_eq in Hm as ->. cbn [client_fd close_fd set_clients].
    rewrite El, insert_mid. rewrite E', E in El.
    assert (l1 = pre /\ l2 = rest) as [-> ->]; [|done].
    assert (fd ∉ l1) as Hn1 by (intros Hi; rewrite Forall_forall in Hf; specialize (Hf fd Hi); cbn in Hf; lia).
    clear -El Hn Hn1. revert l1 El Hn1. induction pre as [|x pre IH]; intros [|y l1] El Hn1.
    + by injection El.
    + cbn in El. injection El as -> _. set_solver.
    + cbn in El. injection El as -> _. set_solver.
    + cbn in El. injection El as -> E2. destruct (IH ltac:(set_solver) l1 E2 ltac:(set_solver)) as [-> ->]. done.
  - exfalso. apply find_index_None in Ek. rewrite E', E in Ek. rewrite Forall_forall in Ek. specialize (Ek fd ltac:(set_solver)). cbn in Ek. lia.
Qed.

Lemma close_client_out fd c : out (ipc_client_fd_close fd c) = out c /\ writes (ipc_client_fd_close fd c) = writes c.
Proof. unfold ipc_client_fd_close, ipc_watch_fd_remove. destruct (find_index _ (watch c)); cbn [client_fd set_watch]; by destruct (find_index _ (client_fd c)). Qed.

Lemma broadcast_loop_ok lfd msg rest : forall pre c,
  tables_ok lfd c -> client_fd c = pre ++ rest -> NoDup (kept_clients (pre ++ rest)) ->
  (length rest * length msg <= progs (writes c))%nat ->
  exists c' rs, broadcast_loop (seq (length pre) (length rest)) msg c = Some c' /\ tables_ok lfd c' /\
    map d_fd rs = filter (fun f => 0 < f) rest /\ out c' = out c ++ delivered msg rs /\
    Forall (fun r => d_ok r = true -> d_n r = length msg) rs /\
    client_fd c' = pre ++ map (fun f => if decide (f ∈ failed rs) then -1 else f) rest /\
    exists used, writes c = used ++ writes c' /\ fails used = length (failed rs).
Proof.
  induction rest as [|f rest IH]; intros pre c Hok Hc Hnd Hl; cbn [length seq broadcast_loop].
  { exists c, []. split_and!; try done; [by rewrite ?app_nil_r..|by exists []]. }
  assert (client_fd c !! length pre = Some f) as Hf by (rewrite Hc; by apply list_lookup_middle). rewrite Hf. cbn [mbind option_bind].
  cbn [length] in Hl. assert (f ∈ client_fd c) as Hfi by (by eapply list_elem_of_lookup_2).
  assert (0 < f -> f ∉ pre /\ f ∉ rest) as Hnew.
  { intros H0. rewrite kept_middle in Hnd. destruct (Z.eqb_spec f (-1)); [lia|]. cbn [app] in Hnd. apply NoDup_app in Hnd as (_ & Hd & Hr).
    apply NoDup_cons in Hr as [Hr _]. unfold kept_clients in *. split; intros Hi.
    - apply (Hd f); [apply list_elem_of_filter; split; [lia|done]|set_solver].
    - apply Hr. apply list_elem_of_filter. split; [lia|done]. }
  destruct (Z.ltb_spec 0 f) as [H0|H0].
  - destruct (Hnew H0) as [Hp Hr]. destruct (blocking_write_returns (writes c) 0 (length msg) ltac:(lia)) as (ok & n & ws & Eb & Hlw).
    pose proof (blocking_write_done _ 0 _ _ _ _ (Nat.le_0_l _) Eb) as [_ Hd]. destruct (blocking_write_used _ _ _ _ _ _ Eb) as (u1 & Hu1 & Hf1).
    assert (exists c1, send_client msg f c = Some c1 /\ tables_ok lfd c1 /\ client_fd c1 = (pre ++ [if ok then f else -1]) ++ rest /\
      out c1 = out c ++ [(f, take n msg)] /\ writes c1 = ws) as (c1 & Es & Hok1 & Hc1 & Ho1 & Hw1).
    { destruct (send_client msg f c) as [c1|] eqn:Es; [|unfold send_client in Es; rewrite (proj2 (Z.ltb_lt 0 f) H0), Eb in Es; done].
      exists c1. split; [done|]. split; [by eapply send_client_ok|]. unfold send_client in Es. rewrite (proj2 (Z.ltb_lt 0 f) H0), Eb in Es.
      cbn [mbind option_bind] in Es. injection Es as <-. rewrite <- app_assoc. destruct ok; [by cbn; rewrite Hc|].
      rewrite (close_client_fds pre f rest) by done. by destruct (close_client_out f (put_out ws (f, take n msg) c)) as [-> ->]. }
    rewrite Es. cbn [mbind option_bind].
    destruct (IH (pre ++ [if ok then f else -1]) c1 Hok1 Hc1) as (c' & rs & E & Hok' & Hfd & Ho & Hn & Hcl & u2 & Hu2 & Hf2).
    + rewrite <- app_assoc. cbn [app]. rewrite kept_middle in Hnd |- *. destruct (Z.eqb_spec f (-1)); [lia|]. cbn [app] in *.
      destruct ok; [by destruct (Z.eqb_spec f (-1))|]. change (-1 =? -1) with true. cbn [app]. rewrite NoDup_app, NoDup_cons in Hnd. rewrite NoDup_app. set_solver.
    + rewrite Hw1. lia.
    + rewrite length_app in E. cbn [length] in E. rewrite Nat.add_1_r in E. exists c', (Delivery f n ok :: rs).
      assert (forall g, g ∈ failed rs -> g ∈ rest) as Hfr.
      { intros g Hg. unfold failed in Hg. apply list_elem_of_fmap in Hg as (r & -> & Hr'). apply list_elem_of_filter in Hr' as [_ Hr'].
        assert (d_fd r ∈ map d_fd rs) as Hi by (by apply list_elem_of_fmap_2). rewrite Hfd in Hi. by apply list_elem_of_filter in Hi as [_ ?]. }
      split_and!; try done.
      * cbn [map d_fd]. rewrite filter_cons, decide_True by done. by rewrite Hfd.
      * rewrite Ho, Ho1, <- app_assoc. done.
      * by constructor.
      * rewrite Hcl, <- app_assoc. cbn [app map]. f_equal. rewrite failed_cons. f_equal.
        -- destruct ok; case_decide; set_solver.
        -- apply map_ext_in. intros g Hg%list_elem_of_In. destruct ok; [done|]. repeat case_decide; set_solver.
      * exists (u1 ++ u2). rewrite <- app_assoc, <- Hu2, Hw1. split; [done|]. rewrite fails_app, Hf1, Hf2, failed_cons. by destruct ok.
  - assert (send_client msg f c = Some c) as ->.
    { unfold send_client. destruct (Z.ltb_spec 0 f); [lia|done]. }
    cbn [mbind option_bind]. destruct (IH (pre ++ [f]) c) as (c' & rs & E & Hok' & Hfd & Ho & Hn & Hcl & Hu); try done; [by rewrite <- app_assoc..|lia|].
    rewrite length_app in E. cbn [length] in E. rewrite Nat.add_1_r in E. exists c', rs. split_and!; try done.
    + by rewrite filter_cons, decide_False by lia.
    + rewrite Hcl, <- app_assoc. cbn [app map]. do 2 f_equal. rewrite decide_False; [done|]. intros Hg. unfold failed in Hg.
      apply list_elem_of_fmap in Hg as (r & -> & Hr'). apply list_elem_of_filter in Hr' as [_ Hr'].
      assert (d_fd r ∈ map d_fd rs) as Hi by (by apply list_elem_of_fmap_2). rewrite Hfd in Hi. apply list_elem_of_filter in Hi as [? _]. lia.
Qed.

Ltac same := let H := fresh in intros H; injection H as <-.

Lemma kept_nodup lfd c : tables_ok lfd c -> NoDup (kept_clients (client_fd c)).
Proof.
  intros [_ (w & Ew & _ & Hw) Hn _ _ Hp]. rewrite Hp. rewrite Ew in *. rewrite watched_split in Hn by done. by apply NoDup_cons in Hn as [_ ?].
Qed.

(** A broadcast returns as soon as the system answers its writes, and every
    client of the table with a positive descriptor, in its order, gets the
    message: in full when its write succeeds, and when it fails the client is
    closed, its slot is free again, and the other clients and their slots are
    untouched.  There are as many failed clients as writes that failed. *)
Theorem broadcast_delivers lfd msg c :
  tables_ok lfd c -> (MAX_CLIENT_NUM * length msg <= progs (writes c))%nat ->
  exists c' rs, broadcast_modem_state msg c = Some c' /\ tables_ok lfd c' /\
    map d_fd rs = filter (fun f => 0 < f) (client_fd c) /\ out c' = out c ++ delivered msg rs /\
    Forall (fun r => d_ok r = true -> d_n r = length msg) rs /\
    client_fd c' = map (fun f => if decide (f ∈ failed rs) then -1 else f) (client_fd c) /\
    exists used, writes c = used ++ writes c' /\ fails used = length (failed rs).
Proof.
  intros Hok Hl. pose proof (to_clients _ _ Hok) as Hlen. unfold broadcast_modem_state. rewrite <- Hlen in *.
  apply (broadcast_loop_ok lfd msg (client_fd c) []); try done. by eapply kept_nodup.
Qed.

(** ** The invariant of the tables *)

Lemma broadcast_ok lfd msg idx : forall c c', tables_ok lfd c -> broadcast_loop idx msg c = Some c' -> tables_ok lfd c'.
Proof.
  induction idx as [|i idx IH]; intros c c' Hok; cbn [broadcast_loop]; [by same|].
  destruct (client_fd c !! i) as [fd|] eqn:Ef; [|done]. cbn [mbind option_bind].
  destruct (send_client msg fd c) as [c1|] eqn:Es; [|done]. cbn [mbind option_bind]. apply IH.
  eapply send_client_ok; [done| |done]. by eapply list_elem_of_lookup_2.
Qed.

Lemma on_boot_ok {A} lfd (m : B A) c a c' : tables_ok lfd c -> on_boot m c = Some (a, c') -> tables_ok lfd c'.
Proof. intros Hok. unfold on_boot. destruct (m (bt c)) as [[x b]|]; [|done]. intros H. injection H as _ <-. by eapply tables_ok_fields. Qed.

Lemma on_boot_snd_ok {A} lfd (m : B A) c c' : tables_ok lfd c -> snd <$> on_boot m c = Some c' -> tables_ok lfd c'.
Proof. intros Hok. destruct (on_boot m c) as [[a c1]|] eqn:E; [|done]. intros H. injection H as <-. by eapply on_boot_ok. Qed.

Section inv.
  Context (files : gmap (list Z) (list Z)) (got : nat -> nat -> nat)
          (ctl_ok : string -> bool) (prop : string -> option (list Z)) (monitor_pid junk : Z).

Lemma process_read_ok lfd fd d c c' :
  tables_ok lfd c -> fd ∈ kept_clients (client_fd c) -> process_read ctl_ok fd d c = Some c' -> tables_ok lfd c'.
Proof.
  intros Hok Hin. unfold process_read. destruct d as [[|x d]|]; [same; by apply close_client_ok| |same; by apply close_client_ok].
  repeat case_match; [| |by same];
    (destruct (on_boot _ c) as [[a c1]|] eqn:E; [|done]; cbn [mbind option_bind]; intros H2;
     eapply on_boot_snd_ok; [|done]; by eapply on_boot_ok).
Qed.

Lemma serve_loop_ok lfd rfds accepted recv idx : forall n c c',
  tables_ok lfd c -> Forall (fun i => i <> 0%nat) idx -> serve_loop ctl_ok idx rfds n accepted recv c = Some c' -> tables_ok lfd c'.
Proof.
  induction idx as [|i idx IH]; intros n c c' Hok Hi; cbn [serve_loop]; [by same|].
  apply Forall_cons in Hi as [Hi0 Hi]. destruct n as [|n]; [by same|].
  destruct (watch c !! i) as [e|] eqn:Ee; [|done]. cbn [mbind option_bind].
  destruct (ev_valid e && bool_decide (ev_fd e ∈ rfds)) eqn:Ev; [|by apply IH]. apply andb_true_iff in Ev as [Ev _].
  pose proof Hok as [_ (w & Ew & _ & Hw) _ _ _ Hp]. rewrite Ew in Ee. destruct i as [|i]; [done|]. cbn in Ee.
  pose proof (Forall_lookup_1 _ _ _ _ Hw Ee Ev) as Et. rewrite Et, decide_False by done.
  destruct (process_read ctl_ok (ev_fd e) (recv (ev_fd e)) c) as [c1|] eqn:Er; [|done]. cbn [mbind option_bind]. apply IH; [|done].
  eapply process_read_ok; [done| |done]. rewrite Hp, Ew. unfold watched_clients. apply list_elem_of_fmap_2, list_elem_of_filter.
  split; [unfold is_client; by rewrite Ev, Et, bool_decide_true|]. apply list_elem_of_further. by eapply list_elem_of_lookup_2.
Qed.

Lemma serve_round_ok lfd rfds accepted recv c c' :
  tables_ok lfd c -> accepted ∉ watched (watch c) -> serve_round ctl_ok rfds accepted recv c = Some c' -> tables_ok lfd c'.
Proof.
  intros Hok Hnew. unfold serve_round. change (seq 0 IPC_EVT_MAX_WATCH) with (0%nat :: seq 1 MAX_CLIENT_NUM). cbn [serve_loop].
  assert (Forall (fun i => i <> 0%nat) (seq 1 MAX_CLIENT_NUM)) as Hs by (by repeat constructor).
  destruct (size rfds) as [|n]; [by same|].
  destruct (watch c !! 0%nat) as [e|] eqn:Ee; [|done]. cbn [mbind option_bind].
  destruct (ev_valid e && bool_decide (ev_fd e ∈ rfds)); [|by apply serve_loop_ok].
  pose proof Hok as [_ (w & Ew & _) _ _ _ _]. rewrite Ew in Ee. cbn in Ee. injection Ee as <-. cbn [ev_type]. rewrite decide_True by done.
  cbn [mbind option_bind]. apply serve_loop_ok; [|done]. unfold process_listen. destruct (Z.ltb_spec accepted 0); [done|]. by apply add_client_ok.
Qed.

Lemma alive_event_ok lfd evt c c' : tables_ok lfd c -> alive_event ctl_ok prop evt c = Some c' -> tables_ok lfd c'.
Proof.
  intros Hok. unfold alive_event, broadcast_modem_state. destruct (evt =? MODEM_INTF_EVENT_ASSERT).
  - destruct (on_boot _ _) as [[d c1]|] eqn:E1; [|done]. cbn [mbind option_bind].
    assert (tables_ok lfd c1) as Hok1 by (eapply on_boot_ok; [|done]; by eapply tables_ok_fields).
    destruct (broadcast_loop _ _ c1) as [c2|] eqn:E2; [|done]. cbn [mbind option_bind]. apply broadcast_ok with (lfd := lfd) in E2; [|done].
    destruct (poweron_by_charger prop); [by apply on_boot_snd_ok|by same].
  - repeat case_match; [by apply broadcast_ok..|by same].
Qed.

Lemma process_message_ok lfd msg c c' :
  tables_ok lfd c -> process_modem_state_message ctl_ok prop monitor_pid junk msg c = Some c' -> tables_ok lfd c'.
Proof.
  intros Hok. unfold process_modem_state_message. destruct (_ <? 0); [by same|].
  destruct (flash_step _ _) as [f first]. assert (tables_ok lfd (set_flash f c)) as Hok1 by (by eapply tables_ok_fields).
  set (c1 := set_flash f c) in *. set (evt := translate_modem_state_message junk msg).
  destruct (evt =? MODEM_INTF_EVENT_FORCE_RESET).
  { intros H. injection H as <-. eapply tables_ok_fields; [exact Hok1|by destruct (0 <? monitor_pid)..]. }
  unfold broadcast_modem_state, tell_monitor. destruct (modem_state c1); [by same..| | | |].
  - intros H. injection H as <-. eapply tables_ok_fields; [exact Hok1|by repeat case_match..].
  - by apply alive_event_ok.
  - destruct (_ =? _); [by apply broadcast_ok|by same].
  - destruct (evt =? _); [|destruct (evt =? _); [by apply broadcast_ok|by same]].
    destruct (broadcast_loop _ _ _) as [c2|] eqn:E; [|done]. cbn [mbind option_bind]. intros H. injection H as <-.
    apply broadcast_ok with (lfd := lfd) in E; [|by eapply tables_ok_fields]. eapply tables_ok_fields; [exact E|by repeat case_match..].
Qed.

Lemma main_step_ok lfd ret0 buf c c' :
  tables_ok lfd c -> main_step files got ctl_ok prop monitor_pid junk ret0 buf c = Some c' -> tables_ok lfd c'.
Proof.
  intros Hok. unfold main_step. destruct (match buf with Some m => _ | None => Some c end) as [c1|] eqn:E; [|done]. cbn [mbind option_bind].
  assert (tables_ok lfd c1) as Hok1 by (destruct buf; [by eapply process_message_ok|by injection E as <-]).
  case_decide; [|by same]. destruct (on_boot _ c1) as [[a c2]|] eqn:E2; [|done]. cbn [mbind option_bind].
  intros H'. injection H' as <-. eapply tables_ok_fields; [by eapply on_boot_ok|done..].
Qed.

Lemma init_ok lfd c0 :
  0 <= lfd -> s_maxfd c0 = 0 -> tables_ok lfd (ipc_watch_fd_add lfd IPC_EVT_TYPE_LISTEN (modem_ctrl_ipc_init c0)).
Proof.
  intros H0 Hm. set (w := replicate MAX_CLIENT_NUM (Evt 0 IPC_EVT_TYPE_NONE false)).
  assert (watched (Evt lfd IPC_EVT_TYPE_LISTEN true :: w) = [lfd]) as Ew by done.
  assert (watched_clients (Evt lfd IPC_EVT_TYPE_LISTEN true :: w) = []) as Ec by done.
  assert (ipc_watch_fd_add lfd IPC_EVT_TYPE_LISTEN (modem_ctrl_ipc_init c0) =
    set_watch (Evt lfd IPC_EVT_TYPE_LISTEN true :: w) (if s_maxfd c0 <=? lfd then lfd + 1 else s_maxfd c0) ({[lfd]} ∪ ∅)
      (set_clients (replicate MAX_CLIENT_NUM (-1)) c0)) as -> by done.
  rewrite Hm. destruct (Z.leb_spec 0 lfd); [|lia]. split; cbn [client_fd watch s_maxfd s_rdyFds set_watch set_clients]; rewrite ?Ew, ?Ec.
  - done.
  - exists w. split_and!; try done. by apply Forall_replicate.
  - apply NoDup_singleton.
  - repeat constructor; lia.
  - done.
  - done.
Qed.

End inv.

(** ** The two threads

    The main thread closes a client whose write has failed
    ([ipc_client_fd_close], inside the mutex) while the IPC thread may be adding a
    new one: [ipc_watch_fd_add] takes the mutex for [client_fd] only, after it has
    filled an entry of the watch table.  Here the statements of the two calls are
    steps of their own.  (A test of an entry, [FD_SET], [FD_CLR], the computation of
    the new limit, and the part of the add inside the mutex are one step each.) *)

(** The next statement of [ipc_watch_fd_add(fd, IPC_EVT_TYPE_CLIENT)]. *)
Inductive add_pc :=
| AddTest (i : nat) | AddFd (i : nat) | AddType (i : nat) | AddValid (i : nat) | AddSet | AddMax | AddClient | AddDone.
(** The next statement of [ipc_client_fd_close(fd)]. *)
Inductive close_pc :=
| CloseLock | CloseTest (i : nat) | CloseClr (i : nat) | CloseValid (i : nat) | CloseFd (i : nat) | CloseType (i : nat)
| CloseMax | CloseClient | CloseDone.

Definition set_entry (i : nat) (g : modem_ctrl_ipc_evt_t -> modem_ctrl_ipc_evt_t) (c : ctl) : ctl :=
  set_watch (alter g i (watch c)) (s_maxfd c) (s_rdyFds c) c.

Definition add_step (locked : bool) (fd : Z) (pc : add_pc) (c : ctl) : option (add_pc * ctl) :=
  match pc with
  | AddTest i =>
      if decide (i = IPC_EVT_MAX_WATCH) then Some (AddDone, close_fd fd c)
      else e ← watch c !! i; Some (if ev_valid e then AddTest (S i) else AddFd i, c)
  | AddFd i => Some (AddType i, set_entry i (fun e => Evt fd (ev_type e) (ev_valid e)) c)
  | AddType i => Some (AddValid i, set_entry i (fun e => Evt (ev_fd e) IPC_EVT_TYPE_CLIENT (ev_valid e)) c)
  | AddValid i => Some (AddSet, set_entry i (fun e => Evt (ev_fd e) (ev_type e) true) c)
  | AddSet => Some (AddMax, set_watch (watch c) (s_maxfd c) ({[fd]} ∪ s_rdyFds c) c)
  | AddMax => Some (AddClient, set_watch (watch c) (if s_maxfd c <=? fd then fd + 1 else s_maxfd c) (s_rdyFds c) c)
  | AddClient =>
      if locked then None
      else Some (AddDone, match find_index (fun f => f =? -1) (client_fd c) with
                          | Some k => set_clients (<[k := fd]> (client_fd c)) c
                          | None => c
                          end)
  | AddDone => None
  end.

Definition close_step (fd : Z) (pc : close_pc) (c : ctl) : option (close_pc * ctl) :=
  match pc with
  | CloseLock => Some (CloseTest 0, c)
  | CloseTest i =>
      if decide (i = IPC_EVT_MAX_WATCH) then Some (CloseClient, c)
      else e ← watch c !! i; Some (if ev_valid e && (ev_fd e =? fd) then CloseClr i else CloseTest (S i), c)
  | CloseClr i => Some (CloseValid i, set_watch (watch c) (s_maxfd c) (s_rdyFds c ∖ {[fd]}) c)
  | CloseValid i => Some (CloseFd i, set_entry i (fun e => Evt (ev_fd e) (ev_type e) false) c)
  | CloseFd i => Some (CloseType i, set_entry i (fun e => Evt (-1) (ev_type e) (ev_valid e)) c)
  | CloseType i => Some (CloseMax, set_entry i (fun e => Evt (ev_fd e) IPC_EVT_TYPE_NONE (ev_valid e)) c)
  | CloseMax => Some (CloseClient, set_watch (watch c) (if fd + 1 =? s_maxfd c then max_fd (watch c) + 1 else s_maxfd c) (s_rdyFds c) c)
  | CloseClient =>
      Some (CloseDone, close_fd fd (match find_index (fun f => f =? fd) (client_fd c) with
                                    | Some k => set_clients (<[k := -1]> (client_fd c)) c
                                    | None => c
                                    end))
  | CloseDone => None
  end.

Definition holds_mutex (pc : close_pc) : bool := match pc with CloseLock | CloseDone => false | _ => true end.

(** An add of [n] by the IPC thread and a close of [fd] by the main thread. *)
Inductive overlap (n fd : Z) : add_pc * close_pc * ctl -> add_pc * close_pc * ctl -> Prop :=
| overlap_add a b c a' c' : add_step (holds_mutex b) n a c = Some (a', c') -> overlap n fd (a, b, c) (a', b, c')
| overlap_close a b c b' c' : close_step fd b c = Some (b', c') -> overlap n fd (a, b, c) (a, b', c').

Section overlap.
  Context (n fd : Z).

Lemma set_entry_mid w1 e w2 g c :
  watch c = w1 ++ e :: w2 -> set_entry (length w1) g c = set_watch (w1 ++ g e :: w2) (s_maxfd c) (s_rdyFds c) c.
Proof using. intros E. unfold set_entry. rewrite E. f_equal. rewrite alter_app_r_alt, Nat.sub_diag by lia. done. Qed.

Lemma set_entry_watch W1 e W2 M R c g :
  set_entry (length W1) g (set_watch (W1 ++ e :: W2) M R c) = set_watch (W1 ++ g e :: W2) M R c.
Proof using. by rewrite (set_entry_mid W1 e W2). Qed.

(** Tests of entries that do not stop the scan. *)
Lemma add_scan b c w1 w2 :
  watch c = w1 ++ w2 -> length (watch c) = IPC_EVT_MAX_WATCH -> Forall (fun e => ev_valid e = true) w1 ->
  rtc (overlap n fd) (AddTest 0, b, c) (AddTest (length w1), b, c).
Proof using.
  revert w2. induction w1 as [|e w1 IH] using rev_ind; intros w2 Hw Hl Hv; [done|].
  apply Forall_app in Hv as [Hv He]. apply Forall_cons in He as [He _]. rewrite <- app_assoc in Hw. cbn [app] in Hw.
  eapply rtc_r; [by eapply IH|]. rewrite length_app, Nat.add_1_r. apply overlap_add. cbn [add_step].
  rewrite decide_False by (rewrite <- Hl, Hw, length_app; cbn [length]; lia).
  rewrite Hw, list_lookup_middle by done. cbn [mbind option_bind]. by rewrite He.
Qed.

Lemma close_scan a c w1 w2 :
  watch c = w1 ++ w2 -> length (watch c) = IPC_EVT_MAX_WATCH -> Forall (fun e => ev_valid e && (ev_fd e =? fd) = false) w1 ->
  rtc (overlap n fd) (a, CloseTest 0, c) (a, CloseTest (length w1), c).
Proof using.
  revert w2. induction w1 as [|e w1 IH] using rev_ind; intros w2 Hw Hl Hv; [done|].
  apply Forall_app in Hv as [Hv He]. apply Forall_cons in He as [He _]. rewrite <- app_assoc in Hw. cbn [app] in Hw.
  eapply rtc_r; [by eapply IH|]. rewrite length_app, Nat.add_1_r. apply overlap_close. cbn [close_step].
  rewrite decide_False by (rewrite <- Hl, Hw, length_app; cbn [length]; lia).
  rewrite Hw, list_lookup_middle by done. cbn [mbind option_bind]. by rewrite He.
Qed.

Ltac go_add := eapply rtc_l; [apply overlap_add; reflexivity|].
Ltac go_close := eapply rtc_l; [apply overlap_close; reflexivity|].

(** Run alone, the statements do what [ipc_watch_fd_add] and
    [ipc_client_fd_close] do. *)
Lemma add_alone b c :
  holds_mutex b = false -> length (watch c) = IPC_EVT_MAX_WATCH ->
  rtc (overlap n fd) (AddTest 0, b, c) (AddDone, b, ipc_watch_fd_add n IPC_EVT_TYPE_CLIENT c).
Proof using.
  intros Hb Hl. unfold ipc_watch_fd_add. destruct (find_index _ (watch c)) as [i|] eqn:Ei.
  - apply find_index_Some in Ei as (w1 & e & w2 & Ew & <- & He & Hv). apply negb_true_iff in He.
    etrans; [apply (add_scan b c w1 (e :: w2) Ew Hl); eapply Forall_impl; [exact Hv|]; intros x Hx; by apply negb_false_iff in Hx|].
    eapply rtc_l.
    { apply overlap_add. cbn [add_step]. rewrite decide_False by (rewrite <- Hl, Ew, length_app; cbn [length]; lia).
      rewrite Ew, list_lookup_middle by done. cbn [mbind option_bind]. by rewrite He. }
    eapply rtc_l; [apply overlap_add; cbn [add_step]; by rewrite (set_entry_mid w1 e w2)|].
    do 2 (eapply rtc_l; [apply overlap_add; cbn [add_step]; by rewrite set_entry_watch|]). do 2 go_add.
    apply rtc_once, overlap_add. cbn [add_step]. rewrite Hb, Ew, insert_mid. done.
  - apply find_index_None in Ei. etrans; [apply (add_scan b c (watch c) []); [by rewrite app_nil_r|done|]|].
    + eapply Forall_impl; [exact Ei|]. intros x Hx. by apply negb_false_iff in Hx.
    + apply rtc_once, overlap_add. cbn [add_step]. by rewrite Hl, decide_True.
Qed.

Lemma close_alone a c :
  length (watch c) = IPC_EVT_MAX_WATCH ->
  rtc (overlap n fd) (a, CloseLock, c) (a, CloseDone, ipc_client_fd_close fd c).
Proof using.
  intros Hl. go_close. unfold ipc_client_fd_close, ipc_watch_fd_remove. destruct (find_index _ (watch c)) as [i|] eqn:Ei.
  - apply find_index_Some in Ei as (w1 & e & w2 & Ew & <- & He & Hv).
    etrans; [by apply (close_scan a c w1 (e :: w2))|]. eapply rtc_l.
    { apply overlap_close. cbn [close_step]. rewrite decide_False by (rewrite <- Hl, Ew, length_app; cbn [length]; lia).
      rewrite Ew, list_lookup_middle by done. cbn [mbind option_bind]. by rewrite He. }
    go_close. rewrite Ew. do 3 (eapply rtc_l; [apply overlap_close; cbn [close_step]; by rewrite set_entry_watch|]).
    go_close. apply rtc_once, overlap_close. rewrite insert_mid. done.
  - apply find_index_None in Ei. etrans; [apply (close_scan a c (watch c) []); [by rewrite app_nil_r|done|done]|].
    eapply rtc_l; [apply overlap_close; cbn [close_step]; by rewrite Hl, decide_True|]. go_close. done.
Qed.
End overlap.

(** A round does nothing for a descriptor that no valid entry has. *)
Lemma serve_round_unwatched ctl_ok n accepted recv c :
  length (watch c) = IPC_EVT_MAX_WATCH -> n ∉ watched (watch c) -> serve_round ctl_ok {[n]} accepted recv c = Some c.
Proof.
  intros Hl Hn. unfold serve_round. rewrite size_singleton.
  assert (forall idx, Forall (fun i => i < length (watch c))%nat idx -> serve_loop ctl_ok idx {[n]} 1 accepted recv c = Some c) as H.
  { induction 1 as [|i idx Hi _ IH]; [done|]. cbn [serve_loop]. destruct (lookup_lt_is_Some_2 _ _ Hi) as [e He]. rewrite He. cbn [mbind option_bind].
    destruct (ev_valid e) eqn:Ev; cbn [andb]; [|done]. rewrite bool_decide_false; [done|]. rewrite elem_of_singleton. intros <-. apply Hn.
    unfold watched. apply list_elem_of_fmap_2, list_elem_of_filter. split; [done|by eapply list_elem_of_lookup_2]. }
  apply H. apply Forall_forall. intros i Hi%elem_of_seq. lia.
Qed.

Lemma find_index_mid {A} (p : A -> bool) l1 x l2 :
  Forall (fun y => p y = false) l1 -> p x = true -> find_index p (l1 ++ x :: l2) = Some (length l1).
Proof. intros H Hx. induction H as [|y l1 Hy _ IH]; cbn [app find_index length]; [by rewrite Hx|]. by rewrite Hy, IH. Qed.

(** Adding a client where an entry is free. *)
Lemma add_watched n c e :
  e ∈ watch c -> ev_valid e = false -> n ∈ watched_clients (watch (ipc_watch_fd_add n IPC_EVT_TYPE_CLIENT c)).
Proof.
  intros Hi He. unfold ipc_watch_fd_add. destruct (find_index _ (watch c)) as [i|] eqn:Ei.
  - apply find_index_Some in Ei as (w1 & x & w2 & Ew & <- & _). rewrite Ew, insert_mid. rewrite decide_True by done.
    assert (n ∈ watched_clients (w1 ++ Evt n IPC_EVT_TYPE_CLIENT true :: w2)) as H by (rewrite watched_clients_middle; set_solver).
    by destruct (find_index _ (client_fd _)).
  - apply find_index_None in Ei. rewrite Forall_forall in Ei. specialize (Ei e Hi). cbn in Ei. by rewrite He in Ei.
Qed.

Section race.
  Context (lfd : Z) (c : ctl) (fd : Z) (w1 w2 : list modem_ctrl_ipc_evt_t).
  Context (Hok : tables_ok lfd c) (Ew : watch c = w1 ++ Evt fd IPC_EVT_TYPE_CLIENT true :: w2).

Lemma race_length : length (watch c) = IPC_EVT_MAX_WATCH.
Proof using Hok. destruct (to_watch _ _ Hok) as (w & -> & Hl & _). cbn [length]. by rewrite Hl. Qed.

Lemma race_first : Forall (fun e => ev_valid e && (ev_fd e =? fd) = false) w1.
Proof using Hok Ew.
  pose proof (to_nodup _ _ Hok) as Hnd. rewrite Ew, watched_middle in Hnd. cbn [ev_valid ev_fd app] in Hnd.
  apply NoDup_app in Hnd as (_ & Hd & _). apply Forall_forall. intros e He. destruct (ev_valid e) eqn:Ev; [|done]. cbn [andb].
  apply Z.eqb_neq. intros Hf. apply (Hd fd); [|set_solver]. rewrite <- Hf. unfold watched. apply list_elem_of_fmap_2, list_elem_of_filter. done.
Qed.

Lemma race_client : fd ∈ kept_clients (client_fd c) /\ fd ∈ client_fd c.
Proof using Hok Ew.
  assert (fd ∈ kept_clients (client_fd c)) as H.
  { rewrite (to_perm _ _ Hok), Ew, watched_clients_middle. set_solver. }
  split; [done|]. by apply list_elem_of_filter in H as [_ ?].
Qed.

Lemma close_watch : watch (ipc_client_fd_close fd c) = w1 ++ Evt (-1) IPC_EVT_TYPE_NONE false :: w2.
Proof using Hok Ew.
  unfold ipc_client_fd_close, ipc_watch_fd_remove. rewrite Ew, find_index_mid; [|apply race_first|cbn; by rewrite Z.eqb_refl].
  rewrite insert_mid. by destruct (find_index _ (client_fd _)).
Qed.

Lemma close_closed : closed (ipc_client_fd_close fd c) = closed c ++ [fd].
Proof using.
  unfold ipc_client_fd_close, ipc_watch_fd_remove. destruct (find_index _ (watch c)); cbn [client_fd set_watch]; by destruct (find_index _ (client_fd c)).
Qed.

Lemma race_sequential n : 0 <= n -> n ∉ watched (watch c) -> exists c1,
  rtc (overlap n fd) (AddTest 0, CloseLock, c) (AddDone, CloseDone, c1) /\ tables_ok lfd c1 /\
  n ∈ watched (watch c1) /\ n ∈ client_fd c1 /\ closed c1 = closed c ++ [fd].
Proof using Hok Ew.
  intros H0 Hn. destruct race_client as [Hk _]. pose proof (close_client_ok _ _ _ Hok Hk) as Hok1. pose proof race_length as Hl.
  set (c0 := ipc_client_fd_close fd c) in *. assert (length (watch c0) = IPC_EVT_MAX_WATCH) as Hl0.
  { unfold c0. rewrite close_watch, <- Hl, Ew, !length_app. done. }
  assert (n ∉ watched (watch c0)) as Hn0.
  { unfold c0. rewrite close_watch. rewrite Ew in Hn. rewrite watched_middle in Hn |- *. cbn [ev_valid ev_fd app] in *. set_solver. }
  pose proof (add_client_ok _ _ _ Hok1 H0 Hn0) as Hok2.
  assert (Evt (-1) IPC_EVT_TYPE_NONE false ∈ watch c0) as Hfree by (unfold c0; rewrite close_watch; set_solver).
  pose proof (add_watched n c0 _ Hfree eq_refl) as Hw. set (c1 := ipc_watch_fd_add n IPC_EVT_TYPE_CLIENT c0) in *.
  exists c1. split; [etrans; [by apply close_alone|by apply add_alone]|]. split; [done|]. split; [|split].
  - destruct (to_watch _ _ Hok2) as (w & E & _ & Hty). rewrite E in Hw |- *. rewrite watched_split by done. by right.
  - rewrite <- (to_perm _ _ Hok2) in Hw. by apply list_elem_of_filter in Hw as [_ ?].
  - transitivity (closed c0); [|apply close_closed]. unfold c1, ipc_watch_fd_add.
    destruct (find_index _ (watch c0)) as [i|] eqn:Ei; [|by apply find_index_None in Ei; rewrite Forall_forall in Ei; specialize (Ei _ Hfree)].
    rewrite decide_True by done. by destruct (find_index _ (client_fd _)).
Qed.

(** The interleaving: the add finds the entry free and fills it before the close
    has overwritten its descriptor and type. *)
Lemma race_interleaved n (W := w1 ++ Evt (-1) IPC_EVT_TYPE_NONE true :: w2) :
  Forall (fun e => ev_valid e = true) w1 -> exists m r k k',
  client_fd c !! k = Some fd /\ <[k := -1]> (client_fd c) !! k' = Some (-1) /\ n ∈ r /\
  rtc (overlap n fd) (AddTest 0, CloseLock, c)
    (AddDone, CloseDone, set_clients (<[k' := n]> (<[k := -1]> (client_fd c))) (close_fd fd (set_watch W m r c))).
Proof using Hok Ew.
  intros Hv. pose proof race_length as Hl. pose proof race_first as Hf. destruct race_client as [_ Hin].
  assert (length w1 <> IPC_EVT_MAX_WATCH) as Hne by (rewrite <- Hl, Ew, length_app; cbn [length]; lia).
  destruct (find_index (fun f => f =? fd) (client_fd c)) as [k|] eqn:Ek.
  2: { exfalso. apply find_index_None in Ek. rewrite Forall_forall in Ek. specialize (Ek fd Hin). cbn in Ek. lia. }
  pose proof Ek as (l1 & x & l2 & El & Hk & Hx & _)%find_index_Some. apply Z.eqb_eq in Hx as ->. subst k.
  destruct (find_index (fun f => f =? -1) (<[length l1 := -1]> (client_fd c))) as [k'|] eqn:Ek'.
  2: { exfalso. apply find_index_None in Ek'. rewrite El, insert_mid, Forall_forall in Ek'. by specialize (Ek' (-1) ltac:(set_solver)). }
  pose proof Ek' as (l1' & x' & l2' & El' & Hk' & Hx' & _)%find_index_Some. apply Z.eqb_eq in Hx' as ->. subst k'.
  eexists _, ({[n]} ∪ s_rdyFds c ∖ {[fd]}), (length l1), (length l1'). split; [rewrite El; by apply list_lookup_middle|].
  split; [rewrite El'; by apply list_lookup_middle|]. split; cycle 1.
  - eapply rtc_l; [by apply overlap_close|]. etrans; [by apply (close_scan n fd _ c w1 (Evt fd IPC_EVT_TYPE_CLIENT true :: w2))|].
    eapply rtc_l. { apply overlap_close. cbn [close_step]. rewrite decide_False, Ew, list_lookup_middle by done. cbn. by rewrite Z.eqb_refl. }
    eapply rtc_l; [by apply overlap_close|]. rewrite Ew.
    eapply rtc_l. { apply overlap_close. cbn [close_step]. by rewrite set_entry_watch. } cbn [ev_fd ev_type].
    etrans; [apply (add_scan n fd _ _ w1 (Evt fd IPC_EVT_TYPE_CLIENT false :: w2)); [done| |done]|].
    { cbn [watch set_watch]. rewrite <- Hl, Ew, !length_app. done. }
    eapply rtc_l. { apply overlap_add. cbn [add_step watch set_watch]. by rewrite decide_False, list_lookup_middle. }
    cbn [ev_valid]. do 3 (eapply rtc_l; [apply overlap_add; cbn [add_step]; by rewrite set_entry_watch|]). cbn [ev_fd ev_type ev_valid].
    do 2 (eapply rtc_l; [apply overlap_close; cbn [close_step]; by rewrite set_entry_watch|]). cbn [ev_fd ev_type ev_valid].
    do 2 (eapply rtc_l; [by apply overlap_add|]). do 2 (eapply rtc_l; [by apply overlap_close|]).
    cbn [client_fd set_watch]. rewrite Ek. apply rtc_once, overlap_add. cbn [add_step holds_mutex client_fd close_fd set_clients]. by rewrite Ek'.
  - set_solver.
Qed.
End race.


(** ** Examples *)

Definition demo_start : ctl :=
  Ctl [] [] 0 ∅ MODEM_STA_BOOTCOMP 1 (Boot (Io [] [] [] [] []) [] [] [] [] 0 None 0 0 0 [])
    [WGot 4; WAgain; WGot 7; WGot 0; WFail] [] [] [].
Definition demo_listening : ctl := ipc_watch_fd_add 4 IPC_EVT_TYPE_LISTEN (modem_ctrl_ipc_init demo_start).
Definition demo_accept (n : Z) (c : ctl) : option ctl := serve_round (fun _ => true) {[4]} n (fun _ => None) c.
Definition demo_one : ctl := default demo_start (demo_accept 6 demo_listening).
Definition demo_two : ctl := default demo_start (demo_accept 7 demo_one).
(** The modem is alive: client 6 is told, client 7 is gone. *)
Definition demo_alive : ctl :=
  default demo_start (main_step ∅ (fun _ k => k) (fun _ => true) (fun _ => None) 9 0 0 (Some (bs "1")) demo_two).

Lemma demo_alive_ok : tables_ok 4 demo_alive.
Proof.
  assert (tables_ok 4 demo_one) as H1.
  { apply (serve_round_ok (fun _ => true) 4 {[4]} 6 (fun _ => None) demo_listening);
      [by apply init_ok|apply (bool_decide_unpack _); by vm_compute|by vm_compute]. }
  assert (tables_ok 4 demo_two) as H2.
  { apply (serve_round_ok (fun _ => true) 4 {[4]} 7 (fun _ => None) demo_one);
      [done|apply (bool_decide_unpack _); by vm_compute|by vm_compute]. }
  apply (main_step_ok ∅ (fun _ k => k) (fun _ => true) (fun _ => None) 9 0 4 0 (Some (bs "1")) demo_two); [done|by vm_compute].
Qed.


Lemma broadcast_delivers_witness : exists c' rs,
  broadcast_modem_state MODEM_RESET_STR (set_writes (replicate 110 (WGot 1)) demo_alive) = Some c' /\ tables_ok 4 c' /\
  map d_fd rs = [6] /\ out c' = out demo_alive ++ delivered MODEM_RESET_STR rs /\
  Forall (fun r => d_ok r = true -> d_n r = 11%nat) rs /\
  client_fd c' = map (fun f => if decide (f ∈ failed rs) then -1 else f) (6 :: replicate 9 (-1)) /\ failed rs = [].
Proof.
  assert (client_fd demo_alive = 6 :: replicate 9 (-1)) as E by (by vm_compute).
  destruct (broadcast_delivers 4 MODEM_RESET_STR (set_writes (replicate 110 (WGot 1)) demo_alive)) as (c' & rs & H1 & H2 & H3 & H4 & H5 & H6 & used & H7 & H8).
  - eapply tables_ok_fields; [|done..]. apply demo_alive_ok.
  - apply Nat.leb_le. by vm_compute.
  - exists c', rs. change (client_fd (set_writes _ demo_alive)) with (client_fd demo_alive) in H3, H6. rewrite E in H3, H6.
    split_and!; try done. apply length_zero_iff_nil. rewrite <- H8. assert (fails (replicate 110 (WGot 1)) = 0%nat) as Hz by (by vm_compute).
    change (writes (set_writes (replicate 110 (WGot 1)) demo_alive)) with (replicate 110 (WGot 1)) in H7. rewrite H7, fails_app in Hz. lia.
Defined.
