(* ===== verification/WcnDl.v ===== *)
(** * The download service of the connectivity chip (apps/download/download.c)

    The service that starts the chip behind [wcnd]: over the packet layer of
    apps/download it loads a loader through the UART and the firmware through the
    download device, sends calibration data, and answers the commands of [wcnd]
    ([wcnd_download.c], modelled in [WcndCmd]).

    The download itself is in the monad [B] of [ModemBoot], of whose record the
    channel, the clock, the opens and [test_buffer] are used; the service around
    it is in the monad [P] on the record [pmanager].  What the service does
    besides is a log.  Code that the two programs share word for word is the
    definition of [ModemBoot] under a name with the prefix [dl_]; the prefix also
    marks [store_client_fd], which is not the function of [wcnd]. *)

From S2P Require Import WcndCmd Prelude Checksum Hdlc EngFrame EngText ModemBoot.

Definition WCN_MAX_CLIENT_NUM : nat := 10.
Definition WCN_SOCKET_TYPE_SLOG : Z := 1.
Definition WCN_SOCKET_TYPE_WCND : Z := 2.
Definition WCN_CMD_START_DUMP_WCN : string := "WCN-EXTERNAL-DUMP".
Definition WCN_DUMP_LOG_COMPLETE : string := "persist.sys.sprd.wcnlog.result".
Definition WCN_CMD_REBOOT_WCN : string := "rebootwcn".
Definition WCN_CMD_DUMP_WCN : string := "dumpwcn".
Definition WCN_CMD_START_WCN : string := "startwcn".
Definition WCN_CMD_STOP_WCN : string := "stopwcn".
Definition WCN_RESP_REBOOT_WCN : string := "rebootwcn-ok".
Definition WCN_RESP_DUMP_WCN : string := "dumpwcn-ok".
Definition WCN_RESP_START_WCN : string := "startwcn-ok".
Definition WCN_RESP_STOP_WCN : string := "stopwcn-ok".
Definition SOCKET_BUFFER_SIZE : nat := 128.
Definition WCN_FDL_PACKET_SIZE : Z := 1 * 1024.

Record WcnClient := Client { sockfd : Z; ctype : Z }.

Inductive ioctl := DOWNLOAD_POWER_ON | DOWNLOAD_POWER_OFF | DOWNLOAD_POWER_RST.

(** What the service does to the outside: commands to the power device, texts to
    the debug device, bytes written to a client, descriptors closed, calibration
    data saved, properties set. *)
Inductive effect :=
| Ioctl (c : ioctl)
| Mdbg (s : string)
| Told (fd : Z) (d : list Z)
| Closed (fd : Z)
| Saved (d : list Z)
| PropSet (k v : string).

(** [notes]: the results of the next writes to clients, [None] an error;
    [results]: what the next reads of the property of the dump find. *)
Record pmanager := Pm {
  client_fds : list WcnClient;
  flag_connect : bool;
  flag_reboot : bool;
  flag_start : bool;
  flag_stop : bool;
  flag_dump : bool;
  db : boot;
  wifi_cali_cp : list Z;
  notes : list (option nat);
  results : list (option string);
  log : list effect;
}.

Definition set_client_fds (l : list WcnClient) (p : pmanager) : pmanager :=
  Pm l (flag_connect p) (flag_reboot p) (flag_start p) (flag_stop p) (flag_dump p) (db p) (wifi_cali_cp p) (notes p) (results p) (log p).
Definition set_connect (p : pmanager) : pmanager :=
  Pm (client_fds p) true (flag_reboot p) (flag_start p) (flag_stop p) (flag_dump p) (db p) (wifi_cali_cp p) (notes p) (results p) (log p).
Definition set_reboot (v : bool) (p : pmanager) : pmanager :=
  Pm (client_fds p) (flag_connect p) v (flag_start p) (flag_stop p) (flag_dump p) (db p) (wifi_cali_cp p) (notes p) (results p) (log p).
Definition set_start (v : bool) (p : pmanager) : pmanager :=
  Pm (client_fds p) (flag_connect p) (flag_reboot p) v (flag_stop p) (flag_dump p) (db p) (wifi_cali_cp p) (notes p) (results p) (log p).
Definition set_stop (v : bool) (p : pmanager) : pmanager :=
  Pm (client_fds p) (flag_connect p) (flag_reboot p) (flag_start p) v (flag_dump p) (db p) (wifi_cali_cp p) (notes p) (results p) (log p).
Definition set_dump (v : bool) (p : pmanager) : pmanager :=
  Pm (client_fds p) (flag_connect p) (flag_reboot p) (flag_start p) (flag_stop p) v (db p) (wifi_cali_cp p) (notes p) (results p) (log p).
Definition set_db (b : boot) (p : pmanager) : pmanager :=
  Pm (client_fds p) (flag_connect p) (flag_reboot p) (flag_start p) (flag_stop p) (flag_dump p) b (wifi_cali_cp p) (notes p) (results p) (log p).
Definition set_cali_cp (d : list Z) (p : pmanager) : pmanager :=
  Pm (client_fds p) (flag_connect p) (flag_reboot p) (flag_start p) (flag_stop p) (flag_dump p) (db p) d (notes p) (results p) (log p).
Definition set_notes (l : list (option nat)) (p : pmanager) : pmanager :=
  Pm (client_fds p) (flag_connect p) (flag_reboot p) (flag_start p) (flag_stop p) (flag_dump p) (db p) (wifi_cali_cp p) l (results p) (log p).
Definition set_results (l : list (option string)) (p : pmanager) : pmanager :=
  Pm (client_fds p) (flag_connect p) (flag_reboot p) (flag_start p) (flag_stop p) (flag_dump p) (db p) (wifi_cali_cp p) (notes p) l (log p).
Definition add_log (e : effect) (p : pmanager) : pmanager :=
  Pm (client_fds p) (flag_connect p) (flag_reboot p) (flag_start p) (flag_stop p) (flag_dump p) (db p) (wifi_cali_cp p) (notes p) (results p)
    (log p ++ [e]).

(** [None]: undefined, or waiting for something that does not come. *)
Definition P (A : Type) : Type := pmanager -> option (A * pmanager).
#[export] Instance P_ret : MRet P := fun A a p => Some (a, p).
#[export] Instance P_bind : MBind P := fun A A' f m p => match m p with Some (a, p) => f a p | None => None end.

Definition stuck {A} : P A := fun _ => None.
Definition look {A} (f : pmanager -> A) : P A := fun p => Some (f p, p).
Definition put (f : pmanager -> pmanager) : P unit := fun p => Some (tt, f p).
Definition emit (e : effect) : P unit := put (add_log e).
Definition dev {A} (m : B A) : P A := fun p => match m (db p) with Some (a, b) => Some (a, set_db b p) | None => None end.

(** ** Clients *)

Definition next_note : P (option nat) := fun p =>
  match notes p with [] => None | r :: l => Some (r, set_notes l p) end.

(** One client of the loop of [send_notify_to_client]: a [wcnd] client is closed
    after the message, a client that could not be written to as well. *)
Definition notify_one (s : string) (type : Z) (c : WcnClient) : P WcnClient :=
  if (ctype c =? type) && (0 <=? sockfd c) then
    r ← next_note;
    c ← (match r with
         | Some n => _ ← emit (Told (sockfd c) (take n (bs s ++ [0]))); mret c
         | None => _ ← emit (Closed (sockfd c)); mret (Client (-1) (ctype c))
         end);
    if ctype c =? WCN_SOCKET_TYPE_WCND then _ ← emit (Closed (sockfd c)); mret (Client (-1) (ctype c)) else mret c
  else mret c.

Fixpoint notify_clients (s : string) (type : Z) (l : list WcnClient) : P (list WcnClient) :=
  match l with
  | [] => mret []
  | c :: l => c ← notify_one s type c; l ← notify_clients s type l; mret (c :: l)
  end.

Definition send_notify_to_client (s : string) (type : Z) : P unit :=
  l ← look client_fds; l ← notify_clients s type l; put (set_client_fds l).

Definition send_msg_to_mdbg (s : string) : P unit := emit (Mdbg s).

(** The index at which [store_client_fd] returns, and whether it stores. *)
Fixpoint store_at (connected : bool) (fd type : Z) (l : list WcnClient) : option (nat * bool) :=
  match l with
  | [] => None
  | c :: l =>
      let go := (fun '(i, b) => (S i, b)) <$> store_at connected fd type l in
      if connected && (type =? WCN_SOCKET_TYPE_SLOG) then
        if ctype c =? WCN_SOCKET_TYPE_SLOG then Some (0%nat, true) else go
      else if sockfd c =? -1 then Some (0%nat, true)
      else if sockfd c =? fd then Some (0%nat, false)
      else go
  end.

(** [store_client_fd]: a full table loses its last client. *)
Definition dl_store_client_fd (fd type : Z) (p : pmanager) : pmanager :=
  match store_at (flag_connect p) fd type (client_fds p) with
  | Some (_, false) => p
  | Some (i, true) => set_client_fds (<[i := Client fd type]> (client_fds p)) p
  | None => set_client_fds (<[(WCN_MAX_CLIENT_NUM - 1)%nat := Client fd type]> (client_fds p)) p
  end.

(** A round of [client_listen_thread]: [accept] on the log socket or on the
    command socket has returned [c]. *)
Definition client_listen_step (slog : bool) (c : Z) (p : pmanager) : pmanager :=
  if c <? 0 then p
  else if slog then set_connect (dl_store_client_fd c WCN_SOCKET_TYPE_SLOG p)
  else dl_store_client_fd c WCN_SOCKET_TYPE_WCND p.

(** ** The download *)

Record wcn_image := WcnImage { w_path : list Z; w_size : Z; w_address : Z }.
Definition wcn_fdl : wcn_image := WcnImage (bs "/dev/block/platform/sprd-sdhci.3/by-name/wcnfdl") 0x2800 0x80000000.
Definition wcn_img : wcn_image := WcnImage (bs "/dev/block/platform/sprd-sdhci.3/by-name/wcnmodem") 0x80000 0x100000.

Definition dl_version_loop := version_loop.
Definition dl_open_uart_device : B Z := open_dev.
Definition dl_delta_miliseconds := delta_miliseconds.

Section env.
  (** [got]: how many bytes a read of a file gives; [rf_param]: the bytes of
      [wifi_rf_cali] as [get_connectivity_rf_param] fills it; [is_calibrated]:
      its field of that name. *)
  Context (files : gmap (list Z) (list Z)) (got : nat -> nat -> nat) (rf_param : list Z) (is_calibrated : bool).

Fixpoint device_loop (fuel : nat) (uart_fd : Z) (t0 : Z * Z) : B Z :=
  match fuel with
  | O => bad
  | S fuel =>
      t ← clock_gettime;
      match t with
      | None => mret (-1)
      | Some t1 =>
          ret ← chan (os_write hand_shake 3);
          if ret <? 0 then mret (-1)
          else
            _ ← chan (os_write hand_shake 3);
            '(r, c) ← read1;
            if (r =? 1) && (c =? 0x7E) then
              f ← get (fun b => length (rd (bio b)));
              v ← dl_version_loop f 1 t0 t1;
              match v with
              | None => mret (-1)
              | Some (true, _) => mret uart_fd
              | Some (false, _) => device_loop fuel uart_fd t0
              end
            else device_loop fuel uart_fd t0
      end
  end.

Definition try_to_connect_device (uart_fd : Z) : B Z :=
  t ← clock_gettime;
  match t with
  | None => mret (-1)
  | Some t0 => f ← get (fun b => length (clock b)); device_loop f uart_fd t0
  end.

Fixpoint dl_fill_packet (fuel : nat) (data : list Z) (pos off packet_size : nat) : B nat :=
  match fuel with
  | O => bad
  | S fuel =>
      let d := read_at got data pos packet_size in
      tb ← get test_buffer;
      match d with
      | _ :: _ =>
          tb ← opt (mem_write tb (Z.of_nat off) d);
          _ ← upd (set_tb tb);
          if (packet_size - length d =? 0)%nat then mret (pos + length d)%nat
          else dl_fill_packet fuel data (pos + length d) (off + length d) (packet_size - length d)
      | [] => mret pos
      end
  end.

Fixpoint dl_packet_loop (fuel : nat) (data : list Z) (i count trans_size image_size : Z) (pos : nat) : B Z :=
  if i <? count then
    match fuel with
    | O => bad
    | S fuel =>
        pos ← dl_fill_packet (S (Z.to_nat trans_size)) data pos 8 (Z.to_nat trans_size);
        tb ← get test_buffer;
        '(tb, i, image_size) ←
          (if image_size <? trans_size then
             tb ← opt (mem_write tb (image_size + 8) (replicate (Z.to_nat (trans_size - image_size)) 0xFF));
             mret (tb, trans_size, 0)
           else mret (tb, i, image_size - trans_size));
        ret ← chan (dl_send_data_message tb trans_size 1 trans_size);
        '(tb, _) ← opt (dl_setup_packet BSL_CMD_MIDST_DATA tb 8 trans_size 1 trans_size);
        _ ← upd (set_tb tb);
        if negb (ret =? DL_SUCCESS) then mret DL_FAILURE
        else dl_packet_loop fuel data (i + 1) count trans_size image_size pos
    end
  else chan (dl_send_end_message 1).

(** The result of the start message is not looked at. *)
Definition dl_download_image (e : wcn_image) : B Z :=
  let trans_size := if w_size e <? HS_PACKET_SIZE then LS_PACKET_SIZE else HS_PACKET_SIZE in
  match files !! w_path e with
  | None => mret DL_SUCCESS
  | Some data =>
      let count := Z.quot (w_size e + trans_size - 1) trans_size in
      _ ← chan (dl_send_start_message (count * trans_size) (w_address e) 1);
      dl_packet_loop (Z.to_nat count) data 0 count trans_size (w_size e) 0
  end.

(** The table has one image behind the loader. *)
Definition dl_download_images : B Z :=
  ret ← dl_download_image wcn_img;
  _ ← chan (dl_send_exec_message (w_address wcn_img) 1);
  mret ret.

Definition dl_load_loop := load_loop got.

(** Behind an NV header the loader starts at 512. *)
Definition dl_load_fdl2memory : B (option (list Z * Z)) :=
  match files !! w_path wcn_fdl with
  | None => mret None
  | Some data =>
      let nvbuf := read_at got data 0 512 in
      if (length nvbuf <? 4)%nat then bad
      else
        let pos := if ld32 nvbuf 0 =? NV_HEAD_MAGIC then length nvbuf else 0%nat in
        let size := Z.to_nat (w_size wcn_fdl) in
        d ← opt (dl_load_loop (S size) data pos size);
        mret (Some (d ++ replicate 4 0, w_size wcn_fdl))
  end.

Definition dl_send_fdl_packet (buffer : list Z) : io -> option (Z * io) := dl_send_data_message buffer WCN_FDL_PACKET_SIZE 0 0.
Definition dl_fdl_loop := fdl_loop dl_send_fdl_packet WCN_FDL_PACKET_SIZE.

Definition dl_download_fdl : B Z :=
  r ← dl_load_fdl2memory;
  match r with
  | None => mret DL_FAILURE
  | Some (buffer, size) =>
      ret ← chan (dl_send_start_message size (w_address wcn_fdl) 0);
      if ret =? DL_FAILURE then mret ret
      else
        ret ← dl_fdl_loop (length buffer) buffer size;
        if ret =? DL_FAILURE then mret ret
        else
          ret ← chan (dl_send_end_message 0);
          if ret =? DL_FAILURE then mret ret else chan (dl_send_exec_message (w_address wcn_fdl) 0)
  end.

Definition download_power_on (enable : bool) : P unit :=
  emit (Ioctl (if enable then DOWNLOAD_POWER_ON else DOWNLOAD_POWER_OFF)).
Definition download_hw_rst : P unit := emit (Ioctl DOWNLOAD_POWER_RST).

(** [do { read } while ((ret <= 0) && (retry_cnt <= 2000))] into the struct. *)
Fixpoint cali_reads (n : nat) : P unit :=
  match n with
  | O => mret tt
  | S n =>
      r ← dev (fun b => match rd (bio b) with
                        | [] => None
                        | r :: rs => Some (r, set_bio (Io (wr (bio b)) rs (img (bio b)) (sent (bio b)) (send_buffer (bio b))) b)
                        end);
      match r with
      | Some (x :: d) => put (fun p => set_cali_cp (splice (wifi_cali_cp p) 0 (take (length (wifi_cali_cp p)) (x :: d))) p)
      | _ => cali_reads n
      end
  end.

Definition cali_start : P Z := dev (chan (os_write (bs "start_calibration") 17)).

Definition cali_exchange : P unit :=
  _ ← dev (chan (os_write rf_param (Z.of_nat (length rf_param))));
  cali_reads (Z.to_nat 2001).

Definition cali_end : P unit :=
  _ ← dev (chan (os_write (bs "end_calibration") 15));
  mret tt.

Definition download_wifi_calibration : P unit :=
  _ ← cali_start;
  _ ← cali_exchange;
  d ← look wifi_cali_cp;
  _ ← (if is_calibrated then mret tt else emit (Saved d));
  cali_end.

(** [while (1)] until the property is 1. *)
Fixpoint wait_dump (rs : list (option string)) : P unit :=
  match rs with
  | [] => stuck
  | r :: rs => _ ← put (set_results rs); if decide (r = Some "1") then mret tt else wait_dump rs
  end.

Definition answer_flag (flag : pmanager -> bool) (clear : bool -> pmanager -> pmanager) (s : string) : P unit :=
  f ← look flag;
  if (f : bool) then _ ← send_notify_to_client s WCN_SOCKET_TYPE_WCND; put (clear false) else mret tt.

(** From [reboot_device] on. *)
Fixpoint reboot_device (fuel : nat) : P Z :=
  match fuel with
  | O => stuck
  | S fuel =>
      _ ← download_power_on true;
      _ ← download_hw_rst;
      uart_fd ← dev dl_open_uart_device;
      if uart_fd <? 0 then mret (-1)
      else
        ret ← dev (try_to_connect_device uart_fd);
        if ret <? 0 then reboot_device fuel
        else
          _ ← dev (chan (dl_send_connect_message 0));
          ret ← dev dl_download_fdl;
          if ret =? DL_FAILURE then reboot_device fuel
          else
            _ ← dev open_dev;
            dump ← look flag_dump;
            again ← (if (dump : bool) then
              _ ← send_msg_to_mdbg WCN_CMD_DUMP_WCN;
              _ ← emit (PropSet WCN_DUMP_LOG_COMPLETE "0");
              _ ← send_notify_to_client WCN_CMD_START_DUMP_WCN WCN_SOCKET_TYPE_SLOG;
              _ ← dev (chan (send_dump_mem_message 0 0 1));
              rs ← look results;
              _ ← wait_dump rs; mret false
            else
              ret ← dev dl_download_images;
              _ ← download_wifi_calibration;
              mret (ret =? DL_FAILURE));
            if (again : bool) then reboot_device fuel
            else
              _ ← answer_flag flag_dump set_dump WCN_RESP_DUMP_WCN;
              _ ← answer_flag flag_reboot set_reboot WCN_RESP_REBOOT_WCN;
              _ ← answer_flag flag_start set_start WCN_RESP_START_WCN;
              mret 0
  end.

Definition download_entry : P Z :=
  p ← look id;
  if flag_stop p then
    _ ← send_notify_to_client WCN_RESP_STOP_WCN WCN_SOCKET_TYPE_WCND; _ ← put (set_stop false); mret 0
  else if flag_start p then
    _ ← send_msg_to_mdbg WCN_CMD_START_WCN;
    _ ← send_notify_to_client WCN_RESP_START_WCN WCN_SOCKET_TYPE_WCND; _ ← put (set_start false); mret 0
  else
    _ ← (if flag_reboot p then download_power_on false else mret tt);
    f ← look (fun p => length (opens (db p)));
    reboot_device f.

(** ** Commands *)

(** The command in [buffer]; without a terminator [strcmp] reads behind it. *)
Definition run_command (buffer : list Z) : P unit :=
  if forallb (fun c => negb (c =? 0)) buffer then stuck
  else
    let s := to_nul buffer in
    if decide (s = bs WCN_CMD_REBOOT_WCN) then _ ← put (set_reboot true); _ ← download_entry; mret tt
    else if decide (s = bs WCN_CMD_DUMP_WCN) then _ ← put (set_dump true); _ ← download_entry; mret tt
    else if decide (s = bs WCN_CMD_START_WCN) then _ ← put (set_start true); _ ← download_entry; mret tt
    else if decide (s = bs WCN_CMD_STOP_WCN) then _ ← put (set_stop true); _ ← download_entry; mret tt
    else mret tt.

(** The loop over the clients after [select]; the buffer is cleared once for all
    of them.  [recv]: what a read of a client gives. *)
Fixpoint command_clients (idx : list nat) (readset : gset Z) (recv : Z -> option (list Z)) (buffer : list Z) : P unit :=
  match idx with
  | [] => mret tt
  | i :: idx =>
      p ← look id;
      match client_fds p !! i with
      | None => stuck
      | Some c =>
          if (0 <=? sockfd c) && bool_decide (sockfd c ∈ readset) && (ctype c =? WCN_SOCKET_TYPE_WCND) then
            let buffer := splice buffer 0 (take SOCKET_BUFFER_SIZE (default [] (recv (sockfd c)))) in
            _ ← run_command buffer; command_clients idx readset recv buffer
          else command_clients idx readset recv buffer
      end
  end.

(** A round of [wcn_exception_listen] in which the clients of [readset] are
    readable. *)
Definition wcn_exception_listen (readset : gset Z) (recv : Z -> option (list Z)) : P unit :=
  command_clients (seq 0 WCN_MAX_CLIENT_NUM) readset recv (replicate SOCKET_BUFFER_SIZE 0).
End env.

Definition socket_init (p : pmanager) : pmanager :=
  Pm (replicate WCN_MAX_CLIENT_NUM (Client (-1) 0)) false false false false false (db p) (wifi_cali_cp p) (notes p) (results p) (log p).

(** ** Lemmas *)

Lemma pbind_run {A A'} (m : P A) (f : A -> P A') p :
  (m ≫= f) p = match m p with Some (a, p) => f a p | None => None end.
Proof. done. Qed.
Lemma pret_run {A} (a : A) p : (mret a : P A) p = Some (a, p).
Proof. done. Qed.

(** *** Clients *)

Definition addressed (type : Z) (c : WcnClient) : bool := (ctype c =? type) && (0 <=? sockfd c).
Definition hang_up (c : WcnClient) : WcnClient :=
  if addressed WCN_SOCKET_TYPE_WCND c then Client (-1) (ctype c) else c.
(** What an answer to the [wcnd] clients [l] leaves in the log. *)
Definition told_all (s : string) (l : list WcnClient) : list effect :=
  concat (map (fun c => [Told (sockfd c) (bs s ++ [0]); Closed (sockfd c)]) (filter (fun c => addressed WCN_SOCKET_TYPE_WCND c = true) l)).
(** Writes that take a whole message. *)
Definition takes (s : string) (l : list WcnClient) (ns : list (option nat)) : Prop :=
  length ns = length (filter (fun c => addressed WCN_SOCKET_TYPE_WCND c = true) l) /\
  Forall (fun r => match r with Some n => (S (length (bs s)) <= n)%nat | None => False end) ns.

Definition with_log (l : list effect) (rest : list (option nat)) (p : pmanager) : pmanager :=
  Pm (client_fds p) (flag_connect p) (flag_reboot p) (flag_start p) (flag_stop p) (flag_dump p) (db p) (wifi_cali_cp p) rest (results p) (log p ++ l).

Lemma notify_clients_ok s l ns rest p :
  takes s l ns -> notes p = ns ++ rest ->
  notify_clients s WCN_SOCKET_TYPE_WCND l p = Some (map hang_up l, with_log (told_all s l) rest p).
Proof.
  revert ns p. induction l as [|c l IH]; intros ns p [Hl Hf] Hn.
  - destruct ns; [|done]. unfold with_log. cbn. rewrite app_nil_r. cbn in Hn. rewrite <- Hn. by destruct p.
  - cbn [notify_clients]. rewrite pbind_run. unfold notify_one, told_all, hang_up, takes in *. rewrite filter_cons in *.
    cbn [map]. fold (addressed WCN_SOCKET_TYPE_WCND c) in *. destruct (addressed WCN_SOCKET_TYPE_WCND c) eqn:Ea.
    + rewrite decide_True in * by done. destruct ns as [|r ns]; [done|]. apply Forall_cons in Hf as [Hr Hf]. destruct r as [n|]; [|done].
      rewrite pbind_run. unfold next_note. rewrite Hn. cbn [app]. rewrite pbind_run, pbind_run. unfold emit, put at 1. rewrite pret_run.
      unfold addressed in Ea. apply andb_true_iff in Ea as [Et _]. rewrite Et, pbind_run. unfold put at 1. rewrite pret_run.
      rewrite pbind_run, (IH ns) by (split; [by injection Hl|done] || done). rewrite pret_run.
      rewrite take_ge by (rewrite length_app; cbn; lia). cbn [map concat]. unfold with_log. cbn. by rewrite <- !app_assoc.
    + rewrite decide_False in * by done. rewrite pret_run, pbind_run, (IH ns) by done. by rewrite pret_run.
Qed.

Lemma send_notify_ok s ns rest p :
  takes s (client_fds p) ns -> notes p = ns ++ rest ->
  send_notify_to_client s WCN_SOCKET_TYPE_WCND p =
    Some (tt, set_client_fds (map hang_up (client_fds p)) (with_log (told_all s (client_fds p)) rest p)).
Proof.
  intros Ht Hn. unfold send_notify_to_client. rewrite pbind_run. unfold look. rewrite pbind_run, (notify_clients_ok s _ ns rest) by done. done.
Qed.

(** *** The download *)

Definition wturn_ok (t : Z * list (list Z)) : Prop :=
  2064 <= fst t /\ Forall (fun c => c <> []) (snd t) /\ concat (snd t) = translate_packet ack_packet.

Lemma wturn_uturn t : wturn_ok t -> uturn_ok t.
Proof. intros (H & ? & ?). split_and!; [lia|done|done]. Qed.

Lemma dl_send_data_uart buf t ts ws rs s (d := take 1024 buf) :
  ready (t :: ts) ws rs s -> wturn_ok t -> (2064 <= length (send_buffer s))%nat -> bytes d -> (1024 <= length buf)%nat ->
  exists s', dl_send_fdl_packet buf s = Some (0, s') /\
    uart_sent (uart_packet BSL_CMD_MIDST_DATA d) ts ws rs s s'.
Proof.
  intros [Hw Hr] (Ht & Hc & Hq) Hsb Hb Hl. unfold dl_send_fdl_packet, dl_send_data_message, send_data. change (0 =? 0) with true. cbn iota.
  rewrite mem_read_prefix by (unfold WCN_FDL_PACKET_SIZE; lia). change (Z.to_nat WCN_FDL_PACKET_SIZE) with 1024%nat. fold d.
  assert (length d = 1024%nat) as Ld by (unfold d; rewrite length_take; lia). cbn [mbind option_bind].
  rewrite mem_write_ok by (rewrite ?length_replicate, ?Ld; lia). cbn [mbind option_bind].
  assert (splice (replicate 1500 0) (Z.to_nat 8) d = replicate 4 0 ++ replicate 4 0 ++ d ++ [0; 0] ++ replicate 466 0) as ->.
  { unfold splice. rewrite Ld, drop_replicate. change (1500 - (Z.to_nat 8 + 1024))%nat with (2 + 466)%nat.
    change (take (Z.to_nat 8) (replicate 1500 0)) with (replicate 4 0 ++ replicate 4 0). by rewrite <- app_assoc. }
  destruct (uart_packet_in BSL_CMD_MIDST_DATA d (replicate 4 0) (replicate 4 0) [0; 0] (replicate 466 0)) as (raw & E & Hm & Hl');
    [done|done|done|done|done|lia|unfold BSL_CMD_MIDST_DATA; lia|].
  rewrite Ld in E, Hm. change (Z.of_nat 1024) with WCN_FDL_PACKET_SIZE in E, Hm. rewrite E. cbn [mbind option_bind]. rewrite Hm. cbn [mbind option_bind].
  set (pkt := uart_packet BSL_CMD_MIDST_DATA d). assert (length pkt = 1030%nat) as Lp by (unfold pkt, uart_packet; rewrite !length_app, Ld; done).
  pose proof (frame_length pkt) as Hf. cbn [map concat app] in Hw, Hr. rewrite map_app, <- app_assoc in Hr.
  destruct (uart_talk ack_or_zero raw32 pkt ack_packet s (fst t) (map fst ts ++ ws) (snd t) (map Some (concat (map snd ts)) ++ rs))
    as (s' & E' & Hs & Hrd & Hwr & Hb'); try done; try lia.
  - cbn. lia.
  - cbn. lia.
  - vm_compute. repeat constructor; discriminate.
  - exists s'. split; [|done]. rewrite E'. done.
Qed.

Section reads.
  Context (files : gmap (list Z) (list Z)) (got : nat -> nat -> nat) (rf_param : list Z) (is_calibrated : bool).
  (** A read of available bytes returns at least one. *)
  Context (Hgot : forall pos k, (0 < k)%nat -> (0 < got pos k)%nat).

Definition fdl_start (data : list Z) : nat :=
  let nvbuf := read_at got data 0 512 in if ld32 nvbuf 0 =? NV_HEAD_MAGIC then length nvbuf else 0%nat.

(** The loader's file holds it. *)
Definition wcn_fdl_ok (data : list Z) : Prop :=
  files !! w_path wcn_fdl = Some data /\ (4 <= length (read_at got data 0 512))%nat /\
  Z.of_nat (fdl_start data) + w_size wcn_fdl <= Z.of_nat (length data) /\ bytes data.

(** The messages of the loader: start, ten frames of 1024 bytes, end, exec. *)
Definition wcn_fdl_msgs (data msgs : list Z) : Prop :=
  exists ch, Forall (fun d => length d = 1024%nat) ch /\ mjoin ch = take (Z.to_nat (w_size wcn_fdl)) (drop (fdl_start data) data) /\
    msgs = translate_packet (uart_packet BSL_CMD_START_DATA (be32 (w_address wcn_fdl) ++ be32 (w_size wcn_fdl))) ++
           mjoin (map fdl_frame ch) ++ translate_packet (uart_packet BSL_CMD_END_DATA []) ++
           translate_packet (uart_packet BSL_CMD_EXEC_DATA (be32 (w_address wcn_fdl))).

Lemma load_fdl_ok data b :
  wcn_fdl_ok data ->
  dl_load_fdl2memory files got b =
    Some (Some (take (Z.to_nat (w_size wcn_fdl)) (drop (fdl_start data) data) ++ replicate 4 0, w_size wcn_fdl), b).
Proof.
  intros (Hf & Hn & Hl & _). unfold dl_load_fdl2memory. rewrite Hf. destruct (Nat.ltb_spec (length (read_at got data 0 512)) 4); [lia|].
  cbv zeta. fold (fdl_start data). assert (0 <= w_size wcn_fdl) by done. rewrite bbind_run. unfold opt at 1, dl_load_loop. rewrite load_loop_ok by (done || lia). done.
Qed.

Lemma dl_download_fdl_ok data b ts ws rs :
  wcn_fdl_ok data -> length ts = 13%nat -> Forall wturn_ok ts -> ready ts ws rs (bio b) -> (2064 <= length (send_buffer (bio b)))%nat ->
  exists s' msgs, dl_download_fdl files got b = Some (0, set_bio s' b) /\ wcn_fdl_msgs data msgs /\
    ready [] ws rs s' /\ sent s' = sent (bio b) ++ msgs /\ length (send_buffer s') = length (send_buffer (bio b)).
Proof.
  intros Hok Hlt Htok Hr Hsb. pose proof Hok as (_ & _ & Hl & Hb). unfold dl_download_fdl. rewrite bbind_run, (load_fdl_ok data) by done.
  set (d := take _ _). set (buf := d ++ replicate 4 0).
  assert (Z.of_nat (length d) = w_size wcn_fdl) as Ld by (unfold d; rewrite length_take, length_drop; cbn [w_size wcn_fdl] in *; lia).
  change (w_size wcn_fdl) with (Z.of_nat 1024 * Z.of_nat 10) in Ld.
  assert (length buf = (length d + 4)%nat) as Lb by (unfold buf; by rewrite length_app).
  assert (forall t, wturn_ok t -> uturn_ok t) as Hu by apply wturn_uturn. assert (forall s, (2064 <= length (send_buffer s) -> 600 <= length (send_buffer s))%nat) as H6 by (intros; lia).
  destruct ts as [|t ts]; [done|]. cbn in Hlt. apply Forall_cons in Htok as [Ht Htok].
  destruct (send_start_uart (w_size wcn_fdl) (w_address wcn_fdl) t ts ws rs (bio b) Hr (Hu _ Ht) (H6 _ Hsb)) as (s1 & E1 & Hr1 & Hs1 & Hb1); [cbn; lia|cbn; lia|].
  rewrite bbind_run. unfold chan at 1, dl_send_start_message. rewrite E1. change (0 =? DL_FAILURE) with false. cbv iota.
  rewrite <- (take_drop 10 ts) in Hr1, Htok. apply ready_app in Hr1. apply Forall_app in Htok as [Hok1 Hok2].
  destruct (fdl_loop_ok dl_send_fdl_packet 1024 wturn_ok 2064 10 (length buf) buf (set_bio s1 b) (take 10 ts) (map fst (drop 10 ts) ++ ws)
    (map Some (concat (map snd (drop 10 ts))) ++ rs) dl_send_data_uart ltac:(lia) ltac:(lia) ltac:(lia)) as (s2 & ch & E2 & Hch & Hj & Hr2 & Hs2 & Hb2);
    [unfold buf, d; apply Forall_app_2; [by apply Forall_take, Forall_drop|repeat constructor; lia]|rewrite length_take; lia|done|exact Hr1|cbn [bio set_bio]; lia|].
  change (Z.of_nat 1024) with WCN_FDL_PACKET_SIZE in E2. rewrite bbind_run. unfold dl_fdl_loop.
  change (WCN_FDL_PACKET_SIZE * Z.of_nat 10) with (w_size wcn_fdl) in E2. rewrite E2. change (0 =? DL_FAILURE) with false. cbv iota. cbn [bio set_bio] in *.
  assert (ready (drop 10 ts) ws rs s2) as Hr2' by exact Hr2.
  assert (length (drop 10 ts) = 2%nat) as Lt by (rewrite length_drop; lia).
  destruct (drop 10 ts) as [|t2 [|t3 [|]]]; try done. apply Forall_cons in Hok2 as [Ht2 Hok2]. apply Forall_cons in Hok2 as [Ht3 _].
  destruct (send_end_uart t2 [t3] ws rs s2 Hr2' (Hu _ Ht2) ltac:(lia)) as (s3 & E3 & Hr3 & Hs3 & Hb3).
  rewrite bbind_run. unfold chan at 1, dl_send_end_message. cbn [bio set_bio]. rewrite E3. change (0 =? DL_FAILURE) with false. cbv iota.
  destruct (send_exec_uart (w_address wcn_fdl) t3 [] ws rs s3 Hr3 (Hu _ Ht3) ltac:(lia)) as (s4 & E4 & Hr4 & Hs4 & Hb4); [cbn; lia|].
  unfold chan, dl_send_exec_message. cbn [bio set_bio]. rewrite E4. eexists s4, _. split; [done|]. split.
  { exists ch. split; [done|]. split; [|reflexivity]. rewrite Hj. unfold buf. rewrite take_app_length' by lia. done. }
  split_and!; [done| |lia]. rewrite Hs4, Hs3, Hs2, Hs1. by rewrite <- !app_assoc.
Qed.

(** The loop over the packets is that of [ModemBoot] for a file that is not the
    command line. *)
Lemma dl_fill_eq prop path fuel data pos off n b :
  path <> PROC_CMDLINE -> dl_fill_packet got fuel data pos off n b = fill_packet got prop fuel path data pos off n b.
Proof.
  intros Hp. revert pos off n b. induction fuel as [|fuel IH]; intros pos off n b; [done|]. cbn [dl_fill_packet fill_packet].
  rewrite !bbind_run. unfold get. destruct (read_at got data pos n) as [|x d]; [by rewrite decide_False|].
  rewrite !bbind_run. destruct (opt _ b) as [[tb b1]|]; [|done]. rewrite !bbind_run. unfold upd. destruct (_ =? 0)%nat; [done|]. apply IH.
Qed.

Lemma dl_packet_eq prop path fuel data i count tsz isz pos b :
  path <> PROC_CMDLINE -> dl_packet_loop got fuel data i count tsz isz pos b = packet_loop got prop fuel path data i count tsz isz pos b.
Proof.
  intros Hp. revert i isz pos b. induction fuel as [|fuel IH]; intros i isz pos b; cbn [dl_packet_loop packet_loop]; [done|].
  destruct (i <? count); [|done]. rewrite !bbind_run, (dl_fill_eq prop path) by done.
  destruct (fill_packet _ _ _ _ _ _ _ _ _) as [[pos' b1]|]; [|done]. rewrite !bbind_run. unfold get. rewrite !bbind_run.
  set (pad := if isz <? tsz then _ else _). destruct (pad b1) as [[[[tb i'] isz'] b2]|]; [|done]. rewrite !bbind_run.
  change (chan (dl_send_data_message tb tsz 1 tsz) b2) with (chan (send_data_message tb tsz 1 tsz) b2).
  destruct (chan _ b2) as [[r b3]|]; [|done]. rewrite !bbind_run. change (dl_setup_packet BSL_CMD_MIDST_DATA tb 8 tsz 1 tsz) with (setup_packet BSL_CMD_MIDST_DATA tb 8 tsz 1 tsz).
  destruct (opt _ b3) as [[[tb' x] b4]|]; [|done]. rewrite !bbind_run. unfold upd. destruct (negb _); [done|]. apply IH.
Qed.
Lemma device_ok fd v t0 t1 ck ws rs b :
  version_ok v -> clock b = Some t0 :: Some t1 :: ck -> delta_miliseconds t0 t1 < FDL_CP_UART_TIMEOUT ->
  wr (bio b) = 3 :: 3 :: ws -> rd (bio b) = version_reads v ++ rs ->
  exists b', try_to_connect_device fd b = Some (fd, b') /\
    bio b' = Io ws rs (img (bio b)) (sent (bio b) ++ hand_shake ++ hand_shake) (send_buffer (bio b)) /\ opens b' = opens b /\
    test_buffer b' = test_buffer b.
Proof.
  intros [Hv Hl] Hc Hd Hw Hr. unfold try_to_connect_device. rewrite bbind_run. unfold clock_gettime at 1.
  rewrite Hc, bbind_run. unfold get at 1. cbn [clock set_clock length device_loop]. rewrite bbind_run. unfold clock_gettime at 1.
  cbn [clock set_clock]. rewrite bbind_run, (shake_ok 3 (3 :: ws)) by done. cbn [bio set_clock].
  change (3 <? 0) with false. cbv iota. rewrite bbind_run, (shake_ok 3 ws) by done. cbn [bio set_bio rd img sent send_buffer].
  rewrite bbind_run. unfold read1 at 1. cbn [bio set_bio rd wr img sent send_buffer]. rewrite Hr. unfold version_reads. cbn [app].
  change ((1 =? 1) && (0x7E =? 0x7E)) with true. cbv iota. rewrite bbind_run. unfold get at 1. cbn [bio set_bio rd].
  rewrite <- app_assoc. cbn [app]. unfold dl_version_loop.
  rewrite bbind_run, (version_loop_ok _ 1 v rs) by (done || rewrite ?length_app, ?length_map; cbn [length]; lia || done).
  rewrite bret_run. eexists. split; [done|]. cbn [bio set_bio with_rd wr rd img sent send_buffer opens test_buffer set_clock].
  split_and!; try done. by rewrite <- app_assoc.
Qed.

(** The messages of the firmware, sixteen packets of 32 KB, and its start. *)
Definition wcn_img_msgs (data msgs : list Z) : Prop :=
  exists pkts, Forall (fun p => length p = Z.to_nat HS_PACKET_SIZE) pkts /\ mjoin pkts = take (Z.to_nat (w_size wcn_img)) data /\
    msgs = spi_start (w_size wcn_img) (w_address wcn_img) ++ mjoin (map spi_data pkts) ++ spi_end ++ spi_exec (w_address wcn_img).

Lemma dl_images_ok data b ts ws rs :
  files !! w_path wcn_img = Some data -> w_size wcn_img <= Z.of_nat (length data) -> Z.of_nat (length (test_buffer b)) = 32896 ->
  length ts = 19%nat -> Forall turn_ok ts -> ready ts ws rs (bio b) ->
  exists s' tb' msgs, dl_download_images files got b = Some (DL_SUCCESS, set_bio s' (set_tb tb' b)) /\
    wcn_img_msgs data msgs /\ sent s' = sent (bio b) ++ msgs /\ ready [] ws rs s'.
Proof.
  intros Hf Hl Htb Hlt Hok Hr. unfold dl_download_images. rewrite bbind_run. unfold dl_download_image. rewrite Hf.
  change (if w_size wcn_img <? HS_PACKET_SIZE then LS_PACKET_SIZE else HS_PACKET_SIZE) with HS_PACKET_SIZE. cbv zeta.
  change (Z.quot (w_size wcn_img + HS_PACKET_SIZE - 1) HS_PACKET_SIZE) with 16. change (16 * HS_PACKET_SIZE) with (w_size wcn_img).
  destruct ts as [|t ts]; [done|]. apply Forall_cons in Hok as [Ht Hok]. cbn in Hlt.
  destruct (send_start_spi t ts ws rs (w_size wcn_img) (w_address wcn_img) (bio b) Hr Ht) as (s1 & E1 & Hr1 & Hs1); [cbn; lia|cbn; lia|].
  rewrite bbind_run. unfold chan at 1, dl_send_start_message. rewrite E1.
  rewrite <- (take_drop 17 ts) in Hr1, Hok. apply ready_app in Hr1. apply Forall_app in Hok as [Hok1 Hok2].
  assert (w_path wcn_img <> PROC_CMDLINE) as Hp by done.
  rewrite (dl_packet_eq (fun _ => None) (w_path wcn_img)) by done. assert (0 <= w_size wcn_img) as H0 by done.
  destruct (packet_loop_ok got (fun _ => None) Hgot 16 (Z.to_nat 16) (w_path wcn_img) data 0 16 HS_PACKET_SIZE (w_size wcn_img) 0
    (set_bio s1 b) [] (take 17 ts) (map fst (drop 17 ts) ++ ws) (map Some (concat (map snd (drop 17 ts))) ++ rs)) as (s2 & tb' & pkts & E2 & _ & _ & Hpl & Hs2 & Hr2 & Hj & _);
    [done|cbn; lia|by right|lia|done|done|done|done|intros _; lia|done|rewrite length_take; lia|done|exact Hr1|].
  rewrite E2. cbn [bio set_bio] in *. specialize (Hj Hp). change (Z.of_nat 16 * HS_PACKET_SIZE - w_size wcn_img) with 0 in Hj.
  rewrite drop_0, app_nil_r in Hj.
  assert (length (drop 17 ts) = 1%nat) as Lt by (rewrite length_drop; lia).
  destruct (drop 17 ts) as [|tx [|]]; try done. apply Forall_cons in Hok2 as [Htx _].
  destruct (send_exec_spi tx [] ws rs (w_address wcn_img) s2 Hr2 Htx) as (s3 & E3 & Hr3 & Hs3); [cbn; lia|].
  rewrite bbind_run. unfold chan, dl_send_exec_message. cbn [bio set_bio set_tb]. rewrite E3, bret_run.
  exists s3, tb', (spi_start (w_size wcn_img) (w_address wcn_img) ++ mjoin (map spi_data pkts) ++ spi_end ++ spi_exec (w_address wcn_img)).
  split_and!; [by destruct b|by exists pkts| |done]. rewrite Hs3, Hs2, Hs1. by rewrite <- !app_assoc.
Qed.

(** The calibration struct after a read of [d]. *)
Definition cali_after (d : list Z) (p : pmanager) : list Z := splice (wifi_cali_cp p) 0 (take (length (wifi_cali_cp p)) d).
Definition cali_saved (d : list Z) (p : pmanager) : list effect := if is_calibrated then [] else [Saved (cali_after d p)].

Lemma cali_first n d rs p :
  d <> [] -> rd (bio (db p)) = Some d :: rs ->
  cali_reads (S n) p = Some (tt, set_cali_cp (cali_after d p) (set_db (set_bio (with_rd rs (bio (db p))) (db p)) p)).
Proof. intros Hd Hr. cbn [cali_reads]. rewrite pbind_run. unfold dev. rewrite Hr. by destruct d. Qed.

Lemma calibration_ok w1 w2 w3 ws d rs p s :
  bio (db p) = s -> wr s = w1 :: w2 :: w3 :: ws -> rd s = Some d :: rs -> d <> [] -> rf_param <> [] ->
  17 <= w1 -> Z.of_nat (length rf_param) <= w2 -> 15 <= w3 ->
  exists s', download_wifi_calibration rf_param is_calibrated p =
      Some (tt, with_log (cali_saved d p) (notes p) (set_cali_cp (cali_after d p) (set_db (set_bio s' (db p)) p))) /\
    sent s' = sent s ++ bs "start_calibration" ++ rf_param ++ bs "end_calibration" /\ ready [] ws rs s'.
Proof.
  intros Hs Hw Hr Hd Hrf H1 H2 H3. unfold download_wifi_calibration, cali_start, cali_exchange, cali_end. rewrite pbind_run. unfold dev at 1, chan at 1. rewrite Hs.
  rewrite (os_write_all (bs "start_calibration") 17 s w1 (w2 :: w3 :: ws)) by (done || cbn; lia).
  rewrite !pbind_run. unfold dev at 1, chan at 1. cbn [db set_db bio set_bio].
  assert (0 < length rf_param)%nat by (destruct rf_param; [done|cbn; lia]).
  rewrite (os_write_all rf_param (Z.of_nat (length rf_param)) _ w2 (w3 :: ws)) by (done || lia).
  cbn [rd img sent send_buffer]. replace (Z.to_nat 2001) with (S (Z.to_nat 2000)) by lia.
  rewrite (cali_first _ d rs) by done. unfold with_rd. cbn [db set_db bio set_bio wr rd img sent send_buffer].
  rewrite pbind_run. unfold look at 1. rewrite pbind_run. cbn [wifi_cali_cp set_cali_cp set_db].
  change (cali_after d (set_db _ _)) with (cali_after d p).
  assert (forall q, (if is_calibrated then mret tt else emit (Saved (cali_after d p))) q = Some (tt, with_log (cali_saved d p) (notes q) q)) as Hsave.
  { intros q. unfold cali_saved. destruct is_calibrated; [|by destruct q]. rewrite pret_run. unfold with_log. rewrite app_nil_r. by destruct q. }
  rewrite Hsave, pbind_run. unfold dev, chan. cbn [db with_log set_cali_cp set_db bio set_bio wr rd img sent send_buffer].
  rewrite (os_write_all (bs "end_calibration") 15 _ w3 ws) by (done || cbn; lia). rewrite pret_run.
  eexists. split; [by destruct p as [????????????]|]. cbn [sent rd wr]. split; [|done].
  rewrite Nat2Z.id, (take_ge rf_param) by lia.
  rewrite (take_ge (bs "start_calibration")), (take_ge (bs "end_calibration")) by (cbn; lia). by rewrite <- !app_assoc.
Qed.
(** *** A command *)

(** The chip cooperates: the devices open, its boot ROM identifies itself with
    [v], every message is taken and acknowledged ([tb]: connect and loader, [te]:
    firmware and start), and calibration data [d] come back. *)
Definition chip_cooperates (b : boot) (v : list Z) (tb te : list (Z * list (list Z))) (d : list Z) : Prop :=
  (exists f0 f1, opens b = [f0; f1] /\ 0 <= f0) /\
  (exists t0 t1, clock b = [Some t0; Some t1] /\ delta_miliseconds t0 t1 < FDL_CP_UART_TIMEOUT) /\
  version_ok v /\ length tb = 14%nat /\ Forall wturn_ok tb /\ length te = 19%nat /\ Forall turn_ok te /\
  (exists w1 w2 w3, 17 <= w1 /\ Z.of_nat (length rf_param) <= w2 /\ 15 <= w3 /\
     wr (bio b) = 3 :: 3 :: map fst tb ++ map fst te ++ [w1; w2; w3]) /\
  d <> [] /\ rd (bio b) = version_reads v ++ answers tb ++ answers te ++ [Some d].

(** The files and buffers are in place. *)
Definition wcn_ready (b : boot) (fdata idata : list Z) : Prop :=
  wcn_fdl_ok fdata /\ files !! w_path wcn_img = Some idata /\ w_size wcn_img <= Z.of_nat (length idata) /\
  Z.of_nat (length (test_buffer b)) = 32896 /\ (2064 <= length (send_buffer (bio b)))%nat /\ rf_param <> [].

(** Everything that is sent to the chip. *)
Definition chip_msgs (fdata idata msgs : list Z) : Prop :=
  exists fdl fw, wcn_fdl_msgs fdata fdl /\ wcn_img_msgs idata fw /\
    msgs = hand_shake ++ hand_shake ++ translate_packet connect_packet ++ fdl ++ fw ++
           bs "start_calibration" ++ rf_param ++ bs "end_calibration".

Lemma download_round_ok n p fdata idata v tb te d ns rest :
  flag_dump p = false -> flag_start p = false -> flag_reboot p = true ->
  wcn_ready (db p) fdata idata -> chip_cooperates (db p) v tb te d ->
  takes WCN_RESP_REBOOT_WCN (client_fds p) ns -> notes p = ns ++ rest ->
  exists p' msgs, reboot_device files got rf_param is_calibrated (S n) p = Some (0, p') /\
    chip_msgs fdata idata msgs /\ sent (bio (db p')) = sent (bio (db p)) ++ msgs /\
    log p' = log p ++ [Ioctl DOWNLOAD_POWER_ON; Ioctl DOWNLOAD_POWER_RST] ++ cali_saved d p ++ told_all WCN_RESP_REBOOT_WCN (client_fds p) /\
    client_fds p' = map hang_up (client_fds p) /\ flag_reboot p' = false /\ flag_stop p' = flag_stop p.
Proof.
  intros Hdump Hstart Hreb (Hfdl & Hif & Hil & Htb & Hsb & Hrf)
    ((f0 & f1 & Ho & H0) & (t0 & t1 & Hc & Hd) & Hv & Hlb & Hokb & Hle & Hoke & (w1 & w2 & w3 & Hw1 & Hw2 & Hw3 & Hw) & Hdn & Hr) Htk Hn.
  cbn [reboot_device]. rewrite pbind_run. unfold download_power_on, emit, put at 1. rewrite pbind_run. unfold download_hw_rst, emit, put at 1.
  rewrite pbind_run. unfold dev at 1, dl_open_uart_device, open_dev at 1. cbn [db add_log]. rewrite Ho. destruct (Z.ltb_spec f0 0); [lia|].
  rewrite pbind_run. unfold dev at 1. cbn [db set_db].
  destruct (device_ok f0 v t0 t1 [] (map fst tb ++ map fst te ++ [w1; w2; w3]) (answers tb ++ answers te ++ [Some d]) (set_opens [f1] (db p)))
    as (b2 & -> & B1 & B2 & B3); [done..|]. cbn [bio set_opens opens test_buffer] in B1, B2, B3. destruct (Z.ltb_spec f0 0); [lia|].
  destruct tb as [|t tb]; [done|]. cbn in Hlb. apply Forall_cons in Hokb as [Ht Hokb].
  assert (ready (t :: tb) (map fst te ++ [w1; w2; w3]) (answers te ++ [Some d]) (bio b2)) as Hrb by (by rewrite B1).
  destruct (send_connect_uart t tb _ _ (bio b2) Hrb (wturn_uturn _ Ht)) as (s3 & E3 & Hr3 & Hs3 & Hb3); [rewrite B1; cbn; lia|].
  rewrite pbind_run. unfold dev at 1, chan at 1, dl_send_connect_message. cbn [db set_db]. rewrite E3, pbind_run. unfold dev at 1. cbn [db set_db].
  destruct (dl_download_fdl_ok fdata (set_bio s3 b2) tb (map fst te ++ [w1; w2; w3]) (answers te ++ [Some d]))
    as (s4 & fdl & -> & Hfm & Hr4 & Hs4 & Hb4); [done|lia|done|done|cbn [bio set_bio]; rewrite Hb3, B1; cbn; lia|].
  change (0 =? DL_FAILURE) with false. cbv iota. cbn [bio set_bio] in Hs4, Hb4.
  rewrite pbind_run. unfold dev at 1, open_dev. cbn [db set_db opens set_bio]. rewrite B2, pbind_run. unfold look at 1.
  cbn [flag_dump set_db add_log]. rewrite Hdump, pbind_run, pbind_run. unfold dev at 1. cbn [db set_db].
  assert (ready te [w1; w2; w3] [Some d] s4) as Hr4' by exact Hr4.
  destruct (dl_images_ok idata (set_opens [] (set_bio s4 (set_bio s3 b2))) te [w1; w2; w3] [Some d])
    as (s5 & tb5 & fw & -> & Him & Hs5 & Hr5); [done|done|cbn [test_buffer set_opens set_bio]; by rewrite B3|done|done|done|].
  rewrite pbind_run.
  match goal with |- context [download_wifi_calibration _ _ ?q] =>
    destruct (calibration_ok w1 w2 w3 [] d [] q s5) as (s6 & -> & Hs6 & _); [done|by destruct Hr5|by destruct Hr5|done|done|lia|lia|lia|] end.
  rewrite pret_run. change (DL_SUCCESS =? DL_FAILURE) with false. cbv iota. rewrite pbind_run. unfold answer_flag at 1. rewrite pbind_run.
  unfold look at 1. cbn [flag_dump with_log set_cali_cp set_db add_log]. rewrite Hdump, pret_run, pbind_run. unfold answer_flag at 1.
  rewrite pbind_run. unfold look at 1. cbn [flag_reboot with_log set_cali_cp set_db add_log]. rewrite Hreb, pbind_run.
  rewrite (send_notify_ok _ ns rest) by done. unfold put at 1. rewrite pbind_run. unfold answer_flag. rewrite pbind_run. unfold look at 1.
  cbn [flag_start set_client_fds with_log set_cali_cp set_db add_log set_reboot]. rewrite Hstart, !pret_run.
  eexists _, (hand_shake ++ hand_shake ++ translate_packet connect_packet ++ fdl ++ fw ++ bs "start_calibration" ++ rf_param ++ bs "end_calibration").
  split; [done|]. cbn [db log client_fds flag_reboot flag_stop set_reboot set_client_fds with_log set_cali_cp set_db add_log bio set_bio].
  split_and!; [by exists fdl, fw| | |done|done|done].
  - rewrite Hs6, Hs5. cbn [bio set_opens set_bio]. rewrite Hs4, Hs3, B1. cbn [sent]. by rewrite <- !app_assoc.
  - by rewrite <- !app_assoc.
Qed.
(** *** A round of the command thread *)

Definition readable (readset : gset Z) (c : WcnClient) : bool :=
  (0 <=? sockfd c) && bool_decide (sockfd c ∈ readset) && (ctype c =? WCN_SOCKET_TYPE_WCND).

Lemma command_clients_skip idx idx' readset recv buffer p :
  Forall (fun i => exists c, client_fds p !! i = Some c /\ readable readset c = false) idx ->
  command_clients files got rf_param is_calibrated (idx ++ idx') readset recv buffer p =
  command_clients files got rf_param is_calibrated idx' readset recv buffer p.
Proof.
  induction 1 as [|i idx (c & Hc & Hr) _ IH]; [done|]. cbn [app command_clients]. rewrite pbind_run. unfold look. cbn [id]. rewrite Hc.
  unfold readable in Hr. by rewrite Hr.
Qed.

(** The clients: [fd] is that of one [wcnd] client only. *)
Definition one_client (fd : Z) (l : list WcnClient) : Prop :=
  length l = WCN_MAX_CLIENT_NUM /\ 0 <= fd /\
  exists l1 l2, l = l1 ++ Client fd WCN_SOCKET_TYPE_WCND :: l2 /\ Forall (fun c => sockfd c <> fd) (l1 ++ l2).

Lemma hang_up_quiet rs l : Forall (fun c => readable rs c = false) (map hang_up l).
Proof.
  apply Forall_map, Forall_forall. intros c _. cbn. unfold hang_up, readable, addressed. destruct (ctype c =? WCN_SOCKET_TYPE_WCND) eqn:E, (0 <=? sockfd c) eqn:E0; cbn [andb sockfd ctype]; rewrite ?E, ?E0; cbn; by rewrite ?andb_false_r.
Qed.

Lemma round_ok fd recv cmd p q :
  one_client fd (client_fds p) -> recv fd = Some cmd ->
  run_command files got rf_param is_calibrated (splice (replicate SOCKET_BUFFER_SIZE 0) 0 (take SOCKET_BUFFER_SIZE cmd)) p = Some (tt, q) ->
  client_fds q = map hang_up (client_fds p) ->
  wcn_exception_listen files got rf_param is_calibrated {[fd]} recv p = Some (tt, q).
Proof.
  intros (Hl & H0 & l1 & l2 & El & Hne) Hrecv Hrun Hq. unfold wcn_exception_listen.
  assert (length l1 + S (length l2) = WCN_MAX_CLIENT_NUM)%nat as Hlen by (rewrite El, length_app in Hl; exact Hl).
  rewrite <- Hlen, seq_app. cbn [seq]. rewrite Nat.add_0_l. apply Forall_app in Hne as [Hn1 Hn2].
  rewrite command_clients_skip.
  2: { apply Forall_forall. intros i Hi. apply elem_of_seq in Hi. destruct (lookup_lt_is_Some_2 l1 i) as [c Hc]; [lia|].
       exists c. split; [rewrite El; by apply lookup_app_l_Some|]. pose proof (Forall_lookup_1 _ _ _ _ Hn1 Hc) as Hx. cbn in Hx.
       unfold readable. rewrite bool_decide_false by set_solver. by rewrite andb_false_r. }
  cbn [command_clients]. rewrite pbind_run. unfold look. cbn [id].
  assert (client_fds p !! length l1 = Some (Client fd WCN_SOCKET_TYPE_WCND)) as -> by (rewrite El; by apply list_lookup_middle).
  cbn [sockfd ctype]. rewrite bool_decide_true by set_solver. destruct (Z.leb_spec 0 fd); [|lia].
  change (true && true && (WCN_SOCKET_TYPE_WCND =? WCN_SOCKET_TYPE_WCND)) with true. cbv iota zeta.
  rewrite Hrecv. cbn [default]. unfold default, id. rewrite pbind_run, Hrun.
  rewrite <- (app_nil_r (seq _ _)), command_clients_skip; [done|].
  apply Forall_forall. intros i Hi. apply elem_of_seq in Hi. destruct (lookup_lt_is_Some_2 (client_fds q) i) as [c Hc].
  { rewrite Hq, length_map, Hl. lia. }
  exists c. split; [done|]. rewrite Hq in Hc. by apply (Forall_lookup_1 _ _ _ _ (hang_up_quiet {[fd]} (client_fds p)) Hc).
Qed.

Lemma told_client s fd l : one_client fd l -> Told fd (bs s ++ [0]) ∈ told_all s l.
Proof.
  intros (_ & H0 & l1 & l2 & -> & _). unfold told_all. rewrite filter_app, filter_cons.
  assert (addressed WCN_SOCKET_TYPE_WCND (Client fd WCN_SOCKET_TYPE_WCND) = true) as E by (unfold addressed; cbn [ctype sockfd]; destruct (Z.leb_spec 0 fd); [done|lia]).
  rewrite decide_True by done. rewrite map_app, concat_app. cbn [map concat sockfd]. set_solver.
Qed.

(** The buffer after a read of a command into the cleared buffer. *)
Definition command_buffer (cmd : string) : list Z := splice (replicate SOCKET_BUFFER_SIZE 0) 0 (take SOCKET_BUFFER_SIZE (bs cmd)).

Lemma start_command_ok p ns rest :
  flag_stop p = false -> takes WCN_RESP_START_WCN (client_fds p) ns -> notes p = ns ++ rest ->
  run_command files got rf_param is_calibrated (command_buffer WCN_CMD_START_WCN) p =
    Some (tt, set_start false (set_client_fds (map hang_up (client_fds p))
      (with_log (Mdbg WCN_CMD_START_WCN :: told_all WCN_RESP_START_WCN (client_fds p)) rest p))).
Proof.
  intros Hs Ht Hn. unfold run_command.
  assert (forallb (fun c => negb (c =? 0)) (command_buffer WCN_CMD_START_WCN) = false) as -> by done.
  assert (to_nul (command_buffer WCN_CMD_START_WCN) = bs WCN_CMD_START_WCN) as -> by done.
  rewrite !decide_False, decide_True by done. rewrite pbind_run. unfold put at 1. rewrite pbind_run. unfold download_entry. rewrite pbind_run.
  unfold look at 1. cbn [id flag_stop flag_start set_start]. rewrite Hs, pbind_run. unfold send_msg_to_mdbg, emit, put at 1.
  rewrite pbind_run, (send_notify_ok _ ns rest) by done. rewrite pbind_run. unfold put at 1. rewrite !pret_run.
  cbn [client_fds add_log set_start]. unfold with_log, set_start, set_client_fds. cbn. by rewrite <- app_assoc.
Qed.

Lemma stop_command_ok p ns rest :
  takes WCN_RESP_STOP_WCN (client_fds p) ns -> notes p = ns ++ rest ->
  run_command files got rf_param is_calibrated (command_buffer WCN_CMD_STOP_WCN) p =
    Some (tt, set_stop false (set_client_fds (map hang_up (client_fds p)) (with_log (told_all WCN_RESP_STOP_WCN (client_fds p)) rest p))).
Proof.
  intros Ht Hn. unfold run_command.
  assert (forallb (fun c => negb (c =? 0)) (command_buffer WCN_CMD_STOP_WCN) = false) as -> by done.
  assert (to_nul (command_buffer WCN_CMD_STOP_WCN) = bs WCN_CMD_STOP_WCN) as -> by done.
  rewrite !decide_False, decide_True by done. rewrite pbind_run. unfold put at 1. rewrite pbind_run. unfold download_entry. rewrite pbind_run.
  unfold look at 1. cbn [id flag_stop set_stop]. rewrite pbind_run, (send_notify_ok _ ns rest) by done. rewrite pbind_run. unfold put at 1. by rewrite !pret_run.
Qed.

(** Requests to start and to stop the chip are answered at once, without a
    message to the chip: it is left to the debug device, which is told of a start
    only; and [wcnd] takes the answers for success. *)
Theorem power_requests_answered p fd recv (start : bool) ns rest
    (cmd := if start then WCN_CMD_START_WCN else WCN_CMD_STOP_WCN) (resp := if start then WCN_RESP_START_WCN else WCN_RESP_STOP_WCN) :
  one_client fd (client_fds p) -> recv fd = Some (bs cmd) -> flag_stop p = false ->
  takes resp (client_fds p) ns -> notes p = ns ++ rest ->
  exists p', wcn_exception_listen files got rf_param is_calibrated {[fd]} recv p = Some (tt, p') /\ db p' = db p /\
    log p' = log p ++ (if start then [Mdbg cmd] else []) ++ told_all resp (client_fds p) /\ Told fd (bs resp ++ [0]) ∈ log p' /\
    client_fds p' = map hang_up (client_fds p) /\
    forall w l, downloads (WcndCmd.io w) = Some resp :: l -> fst ((if start then wcnd_start_cp2 else wcnd_stop_cp2) w) = true.
Proof.
  intros Hone Hrecv Hs Ht Hn. pose proof (told_client resp fd _ Hone) as Hin.
  assert (forall w l, downloads (WcndCmd.io w) = Some resp :: l -> fst ((if start then wcnd_start_cp2 else wcnd_stop_cp2) w) = true) as Hw.
  { intros w l Hw. unfold wcnd_start_cp2, wcnd_stop_cp2, do_download_cmd, next_download. destruct start; by rewrite Hw. }
  destruct start; unfold cmd, resp in *; eexists; (split; [apply (round_ok fd recv _ p _ Hone Hrecv); [by apply start_command_ok with (ns := ns) (rest := rest) || by apply stop_command_ok with (ns := ns) (rest := rest)|done]|]);
    (split_and!; [done|done|cbn; set_solver|done|exact Hw]).
Qed.

(** When two [wcnd] connections have requests in the same round, the answer to
    the first goes to both and closes both: the request of the second is never
    read, and the answer it gets is not the one it waits for. *)
Theorem second_request_lost p a b l recv n m rest :
  client_fds p = Client a WCN_SOCKET_TYPE_WCND :: Client b WCN_SOCKET_TYPE_WCND :: l -> length l = 8%nat ->
  Forall (fun c => sockfd c = -1) l -> 0 <= a -> 0 <= b ->
  recv a = Some (bs WCN_CMD_START_WCN) -> recv b = Some (bs WCN_CMD_STOP_WCN) ->
  flag_stop p = false -> (12 <= n)%nat -> (12 <= m)%nat -> notes p = Some n :: Some m :: rest ->
  exists p', wcn_exception_listen files got rf_param is_calibrated {[a; b]} recv p = Some (tt, p') /\
    log p' = log p ++ [Mdbg WCN_CMD_START_WCN; Told a (bs WCN_RESP_START_WCN ++ [0]); Closed a; Told b (bs WCN_RESP_START_WCN ++ [0]); Closed b] /\
    flag_stop p' = false /\ Forall (fun c => sockfd c = -1) (client_fds p') /\
    forall w l, downloads (WcndCmd.io w) = Some WCN_RESP_START_WCN :: l -> fst (wcnd_stop_cp2 w) = false.
Proof.
  intros Hc Hl Hf Ha Hb Hra Hrb Hs Hn Hm Hnotes.
  assert (filter (fun c => addressed WCN_SOCKET_TYPE_WCND c = true) l = []) as Hfl.
  { clear -Hf. induction Hf as [|c l Hc _ IH]; [done|]. rewrite filter_cons, IH. unfold addressed. rewrite Hc, andb_false_r. done. }
  assert (forall fd, 0 <= fd -> addressed WCN_SOCKET_TYPE_WCND (Client fd WCN_SOCKET_TYPE_WCND) = true) as Hadd.
  { intros fd Hfd. unfold addressed. cbn [ctype sockfd]. destruct (Z.leb_spec 0 fd); [done|lia]. }
  assert (filter (fun c => addressed WCN_SOCKET_TYPE_WCND c = true) (client_fds p) = [Client a WCN_SOCKET_TYPE_WCND; Client b WCN_SOCKET_TYPE_WCND]) as Hfp.
  { rewrite Hc, !filter_cons, !decide_True, Hfl by auto. done. }
  pose proof (start_command_ok p [Some n; Some m] rest Hs) as Hrun.
  eexists. split; [unfold wcn_exception_listen; change (seq 0 WCN_MAX_CLIENT_NUM) with (0%nat :: seq 1 9); cbn [command_clients]|].
  - rewrite pbind_run. unfold look at 1. cbn [id]. rewrite Hc. cbn [lookup list_lookup sockfd ctype]. rewrite bool_decide_true by set_solver.
    destruct (Z.leb_spec 0 a); [|lia]. change (true && true && (WCN_SOCKET_TYPE_WCND =? WCN_SOCKET_TYPE_WCND)) with true. cbv iota zeta.
    rewrite Hra. cbn [default]. unfold default, id. fold (command_buffer WCN_CMD_START_WCN). rewrite pbind_run, Hrun; [|split; [by rewrite Hfp|repeat constructor; cbn; lia]|done].
    rewrite <- (app_nil_r (seq 1 9)), command_clients_skip; [done|]. apply Forall_forall. intros i Hi. apply elem_of_seq in Hi.
    cbn [client_fds set_start set_client_fds]. destruct (lookup_lt_is_Some_2 (map hang_up (client_fds p)) i) as [c Hci].
    { rewrite length_map, Hc. cbn [length]. lia. }
    exists c. split; [done|]. by apply (Forall_lookup_1 _ _ _ _ (hang_up_quiet {[a; b]} (client_fds p)) Hci).
  - cbn [log flag_stop client_fds set_start set_client_fds with_log]. split_and!; [|done| |].
    + unfold told_all. by rewrite Hfp.
    + rewrite Hc. cbn [map]. unfold hang_up at 1 2. rewrite !Hadd by done. constructor; [done|]. constructor; [done|].
      apply Forall_map. eapply Forall_impl; [exact Hf|]. intros c Hcc. cbn in Hcc |- *. unfold hang_up. by case_match.
    + intros w l' Hw. unfold wcnd_stop_cp2, do_download_cmd, next_download. by rewrite Hw.
Qed.

(** A dump request whose UART can not be opened leaves its flag behind. *)
Lemma left_dump_flag p r os :
  opens (db p) = r :: os -> r < 0 -> flag_stop p = false -> flag_start p = false ->
  exists p', run_command files got rf_param is_calibrated (command_buffer WCN_CMD_DUMP_WCN) p = Some (tt, p') /\
    flag_dump p' = true /\ client_fds p' = client_fds p.
Proof.
  intros Ho Hr Hs Hst. unfold run_command. set (b := command_buffer _).
  assert (forallb (fun c => negb (c =? 0)) b = false) as -> by done. assert (to_nul b = bs WCN_CMD_DUMP_WCN) as -> by done.
  rewrite decide_False, decide_True by done. rewrite pbind_run. unfold put at 1. rewrite pbind_run. unfold download_entry.
  rewrite pbind_run. unfold look at 1. cbn [id flag_stop flag_start flag_reboot set_dump]. rewrite Hs, Hst, pbind_run.
  assert (forall b q, opens (db q) = r :: os -> exists q', flag_dump q' = flag_dump q /\ client_fds q' = client_fds q /\ opens (db q') = r :: os /\
    (if (b : bool) then download_power_on false else mret tt) q = Some (tt, q')) as Hoff.
  { intros [|] q Hq; eexists; (split_and!; [..|reflexivity]; [done..|]; exact Hq). }
  destruct (Hoff (flag_reboot p) (set_dump true p) Ho) as (q & Hq1 & Hq2 & Hq3 & ->). rewrite pbind_run. unfold look at 1. rewrite Hq3.
  cbn [length reboot_device]. rewrite pbind_run. unfold download_power_on, emit, put at 1. rewrite pbind_run. unfold download_hw_rst, emit, put at 1.
  rewrite pbind_run. unfold dev at 1, dl_open_uart_device, open_dev at 1. cbn [db add_log]. rewrite Hq3.
  destruct (Z.ltb_spec r 0); [|lia]. rewrite !pret_run. eexists. split; [reflexivity|]. split; [exact Hq1|exact Hq2].
Qed.

(** C38: [wcnd]'s request to restart the chip is served end to end. Conditions: in
    this round this client's descriptor is the only one that can be read, and no
    other of the ten entries has it; no dump, start or stop request is outstanding
    (their flags are clear; a dump flag that a failed opening of the UART has left
    turns the restart into a dump, see [left_dump_flag]); the loader and the
    firmware have the sizes of the table and the chip cooperates (the devices open,
    the boot ROM answers, every message is taken and acknowledged, calibration data
    come back); and the sockets of the clients take the answer. Then the round of
    the command thread that reads the request switches the chip off and on and
    resets it, sends handshake, loader, firmware, start and calibration in full, and
    then tells every [wcnd] client with an open descriptor that it is done and
    closes its connection; and that answer is the one with which [wcnd_reboot_cp2]
    reports success. *)
Theorem reboot_served p fd recv fdata idata v tb te d ns rest :
  one_client fd (client_fds p) -> recv fd = Some (bs WCN_CMD_REBOOT_WCN) ->
  flag_dump p = false -> flag_start p = false -> flag_stop p = false ->
  wcn_ready (db p) fdata idata -> chip_cooperates (db p) v tb te d ->
  takes WCN_RESP_REBOOT_WCN (client_fds p) ns -> notes p = ns ++ rest ->
  exists p' msgs, wcn_exception_listen files got rf_param is_calibrated {[fd]} recv p = Some (tt, p') /\
    chip_msgs fdata idata msgs /\ sent (bio (db p')) = sent (bio (db p)) ++ msgs /\
    log p' = log p ++ [Ioctl DOWNLOAD_POWER_OFF; Ioctl DOWNLOAD_POWER_ON; Ioctl DOWNLOAD_POWER_RST] ++ cali_saved d p ++
             told_all WCN_RESP_REBOOT_WCN (client_fds p) /\
    Told fd (bs WCN_RESP_REBOOT_WCN ++ [0]) ∈ log p' /\
    client_fds p' = map hang_up (client_fds p) /\ flag_reboot p' = false /\
    forall w l, downloads (WcndCmd.io w) = Some WCN_RESP_REBOOT_WCN :: l -> fst (wcnd_reboot_cp2 w) = true.
Proof.
  intros Hone Hrecv Hdump Hstart Hstop Hready Hco Htk Hn.
  pose proof Hco as ((f0 & f1 & Ho & _) & _).
  set (q := add_log (Ioctl DOWNLOAD_POWER_OFF) (set_reboot true p)).
  destruct (download_round_ok 1 q fdata idata v tb te d ns rest) as (p' & msgs & E & Hm & Hs & Hlog & Hcl & Hf & _); try done.
  exists p', msgs.
  assert (log p' = log p ++ [Ioctl DOWNLOAD_POWER_OFF; Ioctl DOWNLOAD_POWER_ON; Ioctl DOWNLOAD_POWER_RST] ++ cali_saved d p ++
             told_all WCN_RESP_REBOOT_WCN (client_fds p)) as Hlog' by (rewrite Hlog; unfold q; cbn [log add_log set_reboot]; by rewrite <- app_assoc).
  split_and!; try done.
  - apply (round_ok fd recv (bs WCN_CMD_REBOOT_WCN)); try done. unfold run_command.
    set (buf := splice _ _ _). assert (forallb (fun c => negb (c =? 0)) buf = false) as -> by done.
    assert (to_nul buf = bs WCN_CMD_REBOOT_WCN) as -> by done. rewrite decide_True by done.
    rewrite pbind_run. unfold put at 1. rewrite pbind_run. unfold download_entry. rewrite pbind_run. unfold look at 1. cbn [id flag_stop flag_start flag_reboot set_reboot].
    rewrite Hstop, Hstart, pbind_run. unfold download_power_on, emit, put at 1. rewrite pbind_run. unfold look at 1.
    cbn [db add_log set_reboot]. rewrite Ho. cbn [length]. fold q. by rewrite E, pret_run.
  - rewrite Hlog'. pose proof (told_client WCN_RESP_REBOOT_WCN fd _ Hone). set_solver.
  - intros w l Hw. unfold wcnd_reboot_cp2, do_download_cmd, next_download. by rewrite Hw.
Qed.
End reads.

(** ** Examples *)

Definition wcn_fdl_data : list Z := replicate (Z.to_nat 0x2800) 6.
Definition wcn_img_data : list Z := replicate (Z.to_nat 0x80000) 5.
Definition two_files (f i : list Z) : gmap (list Z) (list Z) := <[w_path wcn_fdl := f]> (<[w_path wcn_img := i]> ∅).
Definition wcn_files : gmap (list Z) (list Z) := two_files wcn_fdl_data wcn_img_data.
Definition wcn_turn : Z * list (list Z) := (2064, [translate_packet ack_packet]).
Definition wcn_clients : list WcnClient :=
  Client 5 WCN_SOCKET_TYPE_SLOG :: Client 6 WCN_SOCKET_TYPE_WCND :: replicate 8 (Client (-1) 0).
Definition wcn_boot : boot :=
  Boot (Io (3 :: 3 :: replicate 14 2064 ++ replicate 19 32776 ++ [17; 4096; 15])
          (version_reads [1; 2] ++ answers (replicate 14 wcn_turn) ++ answers (replicate 19 demo_turn) ++ [Some [9; 8]]) [] []
          (replicate (Z.to_nat 4000) 0))
       [Some (0, 0); Some (0, 1000000)] [3; 4] [] [] 0 None 0 0 0 (replicate (Z.to_nat 32896) 0).
Definition wcn_pm : pmanager := Pm wcn_clients true false false false false wcn_boot [0; 0; 0] [Some 13%nat] [] [].

Lemma two_files_lookup f i : two_files f i !! w_path wcn_fdl = Some f /\ two_files f i !! w_path wcn_img = Some i.
Proof.
  unfold two_files. split; [apply lookup_insert_eq|]. rewrite lookup_insert_ne by done. apply lookup_insert_eq.
Qed.

Lemma wcn_demo_ready : wcn_ready wcn_files (fun _ k => k) [1; 2; 3] wcn_boot wcn_fdl_data wcn_img_data.
Proof.
  destruct (two_files_lookup wcn_fdl_data wcn_img_data) as [Ef Ei]. split; [|split; [exact Ei|split_and!; [| | |done]]].
  - split_and!; [exact Ef|apply Nat.leb_le; by vm_compute| |apply Forall_replicate; lia].
    assert (fdl_start (fun _ k => k) wcn_fdl_data = 0%nat) as -> by (by vm_compute). unfold wcn_fdl_data.
    rewrite length_replicate, Z2Nat.id by done. done.
  - unfold wcn_img_data. rewrite length_replicate, Z2Nat.id by done. done.
  - cbn [test_buffer wcn_boot]. rewrite length_replicate, Z2Nat.id by done. done.
  - cbn [send_buffer bio wcn_boot]. rewrite length_replicate. lia.
Qed.

Lemma wcn_demo_chip : chip_cooperates [1; 2; 3] wcn_boot [1; 2] (replicate 14 wcn_turn) (replicate 19 demo_turn) [9; 8].
Proof.
  assert (wturn_ok wcn_turn) as Ht by (split_and!; [done|by repeat constructor|by vm_compute]).
  split; [by exists 3, 4|]. split; [by exists (0, 0), (0, 1000000)|]. split; [split; [by repeat constructor|cbn; lia]|].
  split; [done|]. split; [by apply Forall_replicate|]. split; [done|]. split; [apply Forall_replicate, demo_turn_ok|]. split; [|done].
  exists 17, 4096, 15. split_and!; try done.
Qed.

Lemma reboot_served_witness : exists p' msgs,
  wcn_exception_listen wcn_files (fun _ k => k) [1; 2; 3] false {[6]} (fun _ => Some (bs WCN_CMD_REBOOT_WCN)) wcn_pm = Some (tt, p') /\
  chip_msgs (fun _ k => k) [1; 2; 3] wcn_fdl_data wcn_img_data msgs /\ sent (bio (db p')) = msgs /\
  log p' = [Ioctl DOWNLOAD_POWER_OFF; Ioctl DOWNLOAD_POWER_ON; Ioctl DOWNLOAD_POWER_RST; Saved [9; 8; 0];
            Told 6 (bs WCN_RESP_REBOOT_WCN ++ [0]); Closed 6].
Proof.
  destruct (reboot_served wcn_files (fun _ k => k) [1; 2; 3] false (fun _ _ H => H) wcn_pm 6 (fun _ => Some (bs WCN_CMD_REBOOT_WCN))
    wcn_fdl_data wcn_img_data [1; 2] (replicate 14 wcn_turn) (replicate 19 demo_turn) [9; 8] [Some 13%nat] [])
    as (p' & msgs & E & Hm & Hs & Hl & _);
    [|reflexivity|reflexivity|reflexivity|reflexivity|apply wcn_demo_ready|apply wcn_demo_chip| |reflexivity|].
  - split; [done|]. split; [lia|]. exists [Client 5 WCN_SOCKET_TYPE_SLOG], (replicate 8 (Client (-1) 0)). split; [done|]. repeat constructor; done.
  - split; [done|]. repeat constructor; cbn; lia.
  - exists p', msgs. split; [exact E|]. split; [exact Hm|]. split; [exact Hs|exact Hl].
Defined.
