(* ===== verification/RfParam.v ===== *)
(** * RF parameters of the connectivity chip (apps/download/connectivity_rf_parameters.c)

    The download service of [WcnDl] sends the chip a struct of RF parameters that
    it reads from two text files, and writes the calibration data that come back
    to a third.  The parser stores numbers at byte offsets of a struct that it
    takes from a table of names, so a struct is its bytes here, laid out by the C
    rules for the 32-bit ARM targets; [offsetof] gives the offsets of the tables
    and of the fields that the writer prints.  Plain [char] is unsigned and [long]
    32 bits wide on these targets.

    Files and properties are those of [EngSys].  A write outside the fixed
    buffers of the parser ([itm], [par], [tmp]) or outside the struct is [None]. *)

From stdpp Require Import pretty.
From S2P Require Import Prelude EngFrame EngText EngSys.

(** ** Structs *)

(** An integer or an array of integers of [w] bytes, or a struct. *)
Inductive ctype := Int (w : nat) | Arr (w n : nat) | Struct (fs : list (string * ctype)).

Definition align_up (off a : nat) : nat := (off + (a - 1)) / a * a.

Fixpoint alignof (t : ctype) : nat :=
  match t with
  | Int w | Arr w _ => w
  | Struct fs => (fix go fs := match fs with [] => 1 | (_, t) :: fs => alignof t `max` go fs end)%nat fs
  end.

Fixpoint sizeof (t : ctype) : nat :=
  match t with
  | Int w => w
  | Arr w n => w * n
  | Struct fs =>
      align_up ((fix go off fs := match fs with [] => off | (_, t) :: fs => go (align_up off (alignof t) + sizeof t)%nat fs end) 0%nat fs)
        (alignof t)
  end.

(** The integers of a struct: name (with the path to it), offset, width, number. *)
Fixpoint leaves (pre : string) (base : nat) (t : ctype) : list (string * (nat * nat * nat)) :=
  match t with
  | Int w => [(pre, (base, w, 1%nat))]
  | Arr w n => [(pre, (base, w, n))]
  | Struct fs =>
      (fix go off fs := match fs with
                        | [] => []
                        | (x, t) :: fs =>
                            let off := align_up off (alignof t) in
                            leaves (if decide (pre = "") then x else pre +:+ "." +:+ x) (base + off) t ++ go (off + sizeof t)%nat fs
                        end) 0%nat fs
  end.

Definition offsetof (t : ctype) (path : string) : nat :=
  match List.find (fun l => String.eqb (fst l) path) (leaves "" 0 t) with Some (_, (off, _, _)) => off | None => 0%nat end.

(** The bytes of a struct that are not padding. *)
Definition data_bytes (t : ctype) : list nat :=
  flat_map (fun l => let '(_, (off, w, n)) := l in seq off (w * n)) (leaves "" 0 t).

Definition tx_power_control_t : ctype := Struct [
  ("data_rate_power", Int 1); ("channel_num", Int 1); ("channel_range", Arr 1 6); ("b_tx_power_dr0", Arr 1 3);
  ("b_tx_power_dr1", Arr 1 3); ("g_tx_power_dr0", Arr 1 3); ("g_tx_power_dr1", Arr 1 3); ("g_tx_power_dr2", Arr 1 3);
  ("g_tx_power_dr3", Arr 1 3); ("n_tx_power_dr0", Arr 1 3); ("n_tx_power_dr1", Arr 1 3); ("n_tx_power_dr2", Arr 1 3);
  ("n_tx_power_dr3", Arr 1 3); ("power_reserved", Arr 1 10)].

Definition init_register_t : ctype := Struct [
  ("phy0_init_num", Int 1); ("init_phy0_regs", Arr 2 16); ("phy1_init_num", Int 1); ("init_phy1_regs", Arr 2 6);
  ("rf_init_num", Int 1); ("init_rf_regs", Arr 4 16); ("reserved_w16_num", Int 1); ("reserved_w16_regs", Arr 2 10);
  ("reserved_w32_num", Int 1); ("reserved_w32_regs", Arr 2 10)].

Definition enhance_config_t : ctype := Struct [
  ("tpc_enable", Int 1); ("power_save_key", Int 1); ("enhance_reserved", Arr 1 4)].

Definition coex_config_t : ctype := Struct [
  ("CoexExcutionMode", Int 1); ("CoexWifiScanCntPerChannel", Int 1); ("CoexWifiScanDurationOneTime", Int 1);
  ("CoexScoPeriodsToBlockDuringDhcp", Int 1); ("CoexA2dpDhcpProtectLevel", Int 1); ("CoexScoperiodsToBlockDuringEap", Int 1);
  ("CoexA2dpEapProtectLevel", Int 1); ("CoexScoPeriodsToBlockDuringWifiJoin", Int 1); ("CoexA2dpWifiJoinProtectLevel", Int 1);
  ("CoexEnterPMStateTime", Int 2); ("CoexAclA2dpBtWorkTime", Int 2); ("CoexAclA2dpWifiWorkTime", Int 2);
  ("CoexAclNoA2dpBtWorkTime", Int 2); ("CoexAclNoA2dpWifiWorkTime", Int 2); ("CoexAclMixBtWorkTime", Int 2);
  ("CoexAclMixWifiWorkTime", Int 2); ("CoexPageInqBtWorkTime", Int 2); ("CoexPageInqWifiWorkTime", Int 2);
  ("CoexScoSchema", Int 2); ("CoexDynamicScoSchemaEnable", Int 2); ("CoexScoPeriodsBtTakeAll", Int 2);
  ("CoexLteTxAdvancedTime", Int 2); ("CoexLteOneSubFrameLen", Int 2); ("CoexLteTxTimerLen", Int 2);
  ("CoexLteTxTimerFrameHeadLen", Int 2); ("CoexLteStrategyFlag", Int 2); ("CoexWifiDegradePowerValue", Int 2);
  ("CoexBtDegradePowerValue", Int 2); ("CoexWifi2300TxSpur2Lte", Arr 2 7); ("CoexWifi2310TxSpur2Lte", Arr 2 7);
  ("CoexWifi2320TxSpur2Lte", Arr 2 7); ("CoexWifi2330TxSpur2Lte", Arr 2 7); ("CoexWifi2340TxSpur2Lte", Arr 2 7);
  ("CoexWifi2350TxSpur2Lte", Arr 2 7); ("CoexWifi2360TxSpur2Lte", Arr 2 7); ("CoexWifi2370TxSpur2Lte", Arr 2 7);
  ("CoexWifi2380TxSpur2Lte", Arr 2 7); ("CoexWifi2390TxSpur2Lte", Arr 2 7); ("CoexWifi2400TxSpur2Lte", Arr 2 7);
  ("CoexLteTxSpur2Wifi2300", Arr 2 7); ("CoexLteTxSpur2Wifi2310", Arr 2 7); ("CoexLteTxSpur2Wifi2320", Arr 2 7);
  ("CoexLteTxSpur2Wifi2330", Arr 2 7); ("CoexLteTxSpur2Wifi2340", Arr 2 7); ("CoexLteTxSpur2Wifi2350", Arr 2 7);
  ("CoexLteTxSpur2Wifi2360", Arr 2 7); ("CoexLteTxSpur2Wifi2370", Arr 2 7); ("CoexLteTxSpur2Wifi2380", Arr 2 7);
  ("CoexLteTxSpur2Wifi2390", Arr 2 7); ("CoexLteTxSpur2Wifi2400", Arr 2 7); ("CoexReserved", Arr 2 16)].

Definition public_config_t : ctype := Struct [
  ("public_reserved", Arr 1 10)].

Definition cali_config_t : ctype := Struct [
  ("is_calibrated", Int 1); ("rc_cali_en", Int 1); ("dcoc_cali_en", Int 1); ("txiq_cali_en", Int 1); ("rxiq_cali_en", Int 1);
  ("txpower_cali_en", Int 1); ("dpd_cali_en", Int 1); ("config_reserved", Arr 1 4)].

Definition rctune_cali_t : ctype := Struct [
  ("rctune_value", Int 1); ("rctune_reserved", Arr 1 2)].

Definition dcoc_cali_t : ctype := Struct [
  ("dcoc_cali_code", Arr 2 18); ("dcoc_reserved", Arr 4 4)].

Definition txiq_cali_t : ctype := Struct [
  ("rf_txiq_c11", Int 4); ("rf_txiq_c12", Int 4); ("rf_txiq_c22", Int 4); ("rf_txiq_dc", Int 4); ("txiq_reserved", Arr 4 4)].

Definition rxiq_cali_t : ctype := Struct [
  ("rf_rxiq_coef21_22", Int 4); ("rf_rxiq_coef11_12", Int 4); ("rxiq_reserved", Arr 4 2)].

Definition txpower_cali_t : ctype := Struct [
  ("txpower_psat_temperature", Int 4); ("txpower_psat_gainindex", Int 1); ("txpower_psat_power", Int 2);
  ("txpower_psat_backoff", Int 1); ("txpower_psat_upper_limit", Int 1); ("txpower_psat_lower_limit", Int 1);
  ("txpower_freq_delta_gainindex", Arr 1 14); ("txpower_temperature_delta_gm_channel1", Arr 1 32);
  ("txpower_temperature_delta_gm_channel2", Arr 1 32); ("txpower_temperature_delta_gm_channel3", Arr 1 32);
  ("txpower_temperature_delta_gm_channel4", Arr 1 32); ("txpower_temperature_delta_gm_channel5", Arr 1 32);
  ("txpower_temperature_delta_gm_channel6", Arr 1 32); ("txpower_temperature_delta_gm_channel7", Arr 1 32);
  ("txpower_temperature_delta_gm_channel8", Arr 1 32); ("txpower_temperature_delta_gm_channel9", Arr 1 32);
  ("txpower_temperature_delta_gm_channel10", Arr 1 32); ("txpower_temperature_delta_gm_channel11", Arr 1 32);
  ("txpower_temperature_delta_gm_channel12", Arr 1 32); ("txpower_temperature_delta_gm_channel13", Arr 1 32);
  ("txpower_temperature_delta_gm_channel14", Arr 1 32); ("txpower_reserved", Arr 4 4)].

Definition rf_para_t : ctype := Struct [
  ("rf_ctune", Arr 1 14); ("rf_reserved", Arr 4 4)].

Definition tpc_cfg_t : ctype := Struct [
  ("tpc_cfg", Arr 4 37); ("tpc_reserved", Arr 4 4)].

Definition dpd_cali_t : ctype := Struct [
  ("dpd_cali_channel_num", Int 1); ("dpd_cali_channel", Arr 1 3); ("channel1_dpd_cali_table", Arr 4 182);
  ("channel2_dpd_cali_table", Arr 4 182); ("channel3_dpd_cali_table", Arr 4 182); ("dpd_reserved", Arr 4 4)].

Definition wifi_config_t : ctype := Struct [
  ("config_version", Int 1); ("tx_power_control", tx_power_control_t); ("init_register", init_register_t);
  ("enhance_config", enhance_config_t); ("coex_config", coex_config_t); ("public_config", public_config_t)].

Definition wifi_cali_t : ctype := Struct [
  ("cali_version", Int 1); ("cali_config", cali_config_t); ("rctune_cali", rctune_cali_t); ("dcoc_cali", dcoc_cali_t);
  ("txiq_cali", txiq_cali_t); ("rxiq_cali", rxiq_cali_t); ("txpower_cali", txpower_cali_t); ("dpd_cali", dpd_cali_t);
  ("rf_para", rf_para_t); ("tpc_cfg", tpc_cfg_t)].

Definition wifi_cali_cp_t : ctype := Struct [
  ("wifi_cali", wifi_cali_t); ("filler", Arr 1 1088)].

Definition wifi_rf_t : ctype := Struct [
  ("wifi_config", wifi_config_t); ("wifi_cali", wifi_cali_t); ("filler", Arr 1 472)].
(** ** Tables of names *)

Record nvm_name_table := Tab { t_itm : list Z; mem_offset : nat; t_type : Z }.

Definition WIFI_CONFIG_TABLE (name path : string) (type : Z) : nvm_name_table := Tab (bs name) (offsetof wifi_config_t path) type.
Definition WIFI_CALI_TABLE (name path : string) (type : Z) : nvm_name_table := Tab (bs name) (offsetof wifi_cali_t path) type.

Definition g_config_table : list nvm_name_table := [
  WIFI_CONFIG_TABLE "conf_version" "config_version" 1;
  WIFI_CONFIG_TABLE "data_rate_power" "tx_power_control.data_rate_power" 1;
  WIFI_CONFIG_TABLE "channel_num" "tx_power_control.channel_num" 1;
  WIFI_CONFIG_TABLE "channel_range" "tx_power_control.channel_range" 1;
  WIFI_CONFIG_TABLE "b_tx_power_dr0" "tx_power_control.b_tx_power_dr0" 1;
  WIFI_CONFIG_TABLE "b_tx_power_dr1" "tx_power_control.b_tx_power_dr1" 1;
  WIFI_CONFIG_TABLE "g_tx_power_dr0" "tx_power_control.g_tx_power_dr0" 1;
  WIFI_CONFIG_TABLE "g_tx_power_dr1" "tx_power_control.g_tx_power_dr1" 1;
  WIFI_CONFIG_TABLE "g_tx_power_dr2" "tx_power_control.g_tx_power_dr2" 1;
  WIFI_CONFIG_TABLE "g_tx_power_dr3" "tx_power_control.g_tx_power_dr3" 1;
  WIFI_CONFIG_TABLE "n_tx_power_dr0" "tx_power_control.n_tx_power_dr0" 1;
  WIFI_CONFIG_TABLE "n_tx_power_dr1" "tx_power_control.n_tx_power_dr1" 1;
  WIFI_CONFIG_TABLE "n_tx_power_dr2" "tx_power_control.n_tx_power_dr2" 1;
  WIFI_CONFIG_TABLE "n_tx_power_dr3" "tx_power_control.n_tx_power_dr3" 1;
  WIFI_CONFIG_TABLE "power_reserved" "tx_power_control.power_reserved" 1;
  WIFI_CONFIG_TABLE "phy0_init_num" "init_register.phy0_init_num" 1;
  WIFI_CONFIG_TABLE "init_phy0_regs" "init_register.init_phy0_regs" 2;
  WIFI_CONFIG_TABLE "phy1_init_num" "init_register.phy1_init_num" 1;
  WIFI_CONFIG_TABLE "init_phy1_regs" "init_register.init_phy1_regs" 2;
  WIFI_CONFIG_TABLE "rf_init_num" "init_register.rf_init_num" 1;
  WIFI_CONFIG_TABLE "init_rf_regs" "init_register.init_rf_regs" 4;
  WIFI_CONFIG_TABLE "reserved_w16_num" "init_register.reserved_w16_num" 1;
  WIFI_CONFIG_TABLE "reserved_w16_regs" "init_register.reserved_w16_regs" 2;
  WIFI_CONFIG_TABLE "reserved_w32_num" "init_register.reserved_w32_num" 1;
  WIFI_CONFIG_TABLE "reserved_w16_regs" "init_register.reserved_w32_regs" 2;
  WIFI_CONFIG_TABLE "tpc_enable" "enhance_config.tpc_enable" 1;
  WIFI_CONFIG_TABLE "power_save_key" "enhance_config.power_save_key" 1;
  WIFI_CONFIG_TABLE "enhance_reserved" "enhance_config.enhance_reserved" 1;
  WIFI_CONFIG_TABLE "CoexExcutionMode" "coex_config.CoexExcutionMode" 1;
  WIFI_CONFIG_TABLE "CoexWifiScanCntPerChannel" "coex_config.CoexWifiScanCntPerChannel" 1;
  WIFI_CONFIG_TABLE "CoexWifiScanDurationOneTime" "coex_config.CoexWifiScanDurationOneTime" 1;
  WIFI_CONFIG_TABLE "CoexScoPeriodsToBlockDuringDhcp" "coex_config.CoexScoPeriodsToBlockDuringDhcp" 1;
  WIFI_CONFIG_TABLE "CoexA2dpDhcpProtectLevel" "coex_config.CoexA2dpDhcpProtectLevel" 1;
  WIFI_CONFIG_TABLE "CoexScoperiodsToBlockDuringEap" "coex_config.CoexScoperiodsToBlockDuringEap" 1;
  WIFI_CONFIG_TABLE "CoexA2dpEapProtectLevel" "coex_config.CoexA2dpEapProtectLevel" 1;
  WIFI_CONFIG_TABLE "CoexScoPeriodsToBlockDuringWifiJoin" "coex_config.CoexScoPeriodsToBlockDuringWifiJoin" 1;
  WIFI_CONFIG_TABLE "CoexA2dpWifiJoinProtectLevel" "coex_config.CoexA2dpWifiJoinProtectLevel" 1;
  WIFI_CONFIG_TABLE "CoexEnterPMStateTime" "coex_config.CoexEnterPMStateTime" 2;
  WIFI_CONFIG_TABLE "CoexAclA2dpBtWorkTime" "coex_config.CoexAclA2dpBtWorkTime" 2;
  WIFI_CONFIG_TABLE "CoexAclA2dpWifiWorkTime" "coex_config.CoexAclA2dpWifiWorkTime" 2;
  WIFI_CONFIG_TABLE "CoexAclNoA2dpBtWorkTime" "coex_config.CoexAclNoA2dpBtWorkTime" 2;
  WIFI_CONFIG_TABLE "CoexAclNoA2dpWifiWorkTime" "coex_config.CoexAclNoA2dpWifiWorkTime" 2;
  WIFI_CONFIG_TABLE "CoexAclMixBtWorkTime" "coex_config.CoexAclMixBtWorkTime" 2;
  WIFI_CONFIG_TABLE "CoexAclMixWifiWorkTime" "coex_config.CoexAclMixWifiWorkTime" 2;
  WIFI_CONFIG_TABLE "CoexPageInqBtWorkTime" "coex_config.CoexPageInqBtWorkTime" 2;
  WIFI_CONFIG_TABLE "CoexPageInqWifiWorkTime" "coex_config.CoexPageInqWifiWorkTime" 2;
  WIFI_CONFIG_TABLE "CoexScoSchema" "coex_config.CoexScoSchema" 2;
  WIFI_CONFIG_TABLE "CoexDynamicScoSchemaEnable" "coex_config.CoexDynamicScoSchemaEnable" 2;
  WIFI_CONFIG_TABLE "CoexScoPeriodsBtTakeAll" "coex_config.CoexScoPeriodsBtTakeAll" 2;
  WIFI_CONFIG_TABLE "CoexLteTxAdvancedTime" "coex_config.CoexLteTxAdvancedTime" 2;
  WIFI_CONFIG_TABLE "CoexLteOneSubFrameLen" "coex_config.CoexLteOneSubFrameLen" 2;
  WIFI_CONFIG_TABLE "CoexLteTxTimerLen" "coex_config.CoexLteTxTimerLen" 2;
  WIFI_CONFIG_TABLE "CoexLteTxTimerFrameHeadLen" "coex_config.CoexLteTxTimerFrameHeadLen" 2;
  WIFI_CONFIG_TABLE "CoexLteStrategyFlag" "coex_config.CoexLteStrategyFlag" 2;
  WIFI_CONFIG_TABLE "CoexWifiDegradePowerValue" "coex_config.CoexWifiDegradePowerValue" 2;
  WIFI_CONFIG_TABLE "CoexBtDegradePowerValue" "coex_config.CoexBtDegradePowerValue" 2;
  WIFI_CONFIG_TABLE "CoexWifi2300TxSpur2Lte" "coex_config.CoexWifi2300TxSpur2Lte" 2;
  WIFI_CONFIG_TABLE "CoexWifi2310TxSpur2Lte" "coex_config.CoexWifi2310TxSpur2Lte" 2;
  WIFI_CONFIG_TABLE "CoexWifi2320TxSpur2Lte" "coex_config.CoexWifi2320TxSpur2Lte" 2;
  WIFI_CONFIG_TABLE "CoexWifi2330TxSpur2Lte" "coex_config.CoexWifi2330TxSpur2Lte" 2;
  WIFI_CONFIG_TABLE "CoexWifi2340TxSpur2Lte" "coex_config.CoexWifi2340TxSpur2Lte" 2;
  WIFI_CONFIG_TABLE "CoexWifi2350TxSpur2Lte" "coex_config.CoexWifi2350TxSpur2Lte" 2;
  WIFI_CONFIG_TABLE "CoexWifi2360TxSpur2Lte" "coex_config.CoexWifi2360TxSpur2Lte" 2;
  WIFI_CONFIG_TABLE "CoexWifi2370TxSpur2Lte" "coex_config.CoexWifi2370TxSpur2Lte" 2;
  WIFI_CONFIG_TABLE "CoexWifi2380TxSpur2Lte" "coex_config.CoexWifi2380TxSpur2Lte" 2;
  WIFI_CONFIG_TABLE "CoexWifi2390TxSpur2Lte" "coex_config.CoexWifi2390TxSpur2Lte" 2;
  WIFI_CONFIG_TABLE "CoexWifi2400TxSpur2Lte" "coex_config.CoexWifi2400TxSpur2Lte" 2;
  WIFI_CONFIG_TABLE "CoexLteTxSpur2Wifi2300" "coex_config.CoexLteTxSpur2Wifi2300" 2;
  WIFI_CONFIG_TABLE "CoexLteTxSpur2Wifi2310" "coex_config.CoexLteTxSpur2Wifi2310" 2;
  WIFI_CONFIG_TABLE "CoexLteTxSpur2Wifi2320" "coex_config.CoexLteTxSpur2Wifi2320" 2;
  WIFI_CONFIG_TABLE "CoexLteTxSpur2Wifi2330" "coex_config.CoexLteTxSpur2Wifi2330" 2;
  WIFI_CONFIG_TABLE "CoexLteTxSpur2Wifi2340" "coex_config.CoexLteTxSpur2Wifi2340" 2;
  WIFI_CONFIG_TABLE "CoexLteTxSpur2Wifi2350" "coex_config.CoexLteTxSpur2Wifi2350" 2;
  WIFI_CONFIG_TABLE "CoexLteTxSpur2Wifi2360" "coex_config.CoexLteTxSpur2Wifi2360" 2;
  WIFI_CONFIG_TABLE "CoexLteTxSpur2Wifi2370" "coex_config.CoexLteTxSpur2Wifi2370" 2;
  WIFI_CONFIG_TABLE "CoexLteTxSpur2Wifi2380" "coex_config.CoexLteTxSpur2Wifi2380" 2;
  WIFI_CONFIG_TABLE "CoexLteTxSpur2Wifi2390" "coex_config.CoexLteTxSpur2Wifi2390" 2;
  WIFI_CONFIG_TABLE "CoexLteTxSpur2Wifi2400" "coex_config.CoexLteTxSpur2Wifi2400" 2;
  WIFI_CONFIG_TABLE "CoexReserved" "coex_config.CoexReserved" 2;
  WIFI_CONFIG_TABLE "public_reserved" "public_config.public_reserved" 1].

Definition g_cali_table : list nvm_name_table := [
  WIFI_CALI_TABLE "cali_version" "cali_version" 1;
  WIFI_CALI_TABLE "is_calibrated" "cali_config.is_calibrated" 1;
  WIFI_CALI_TABLE "rc_cali_en" "cali_config.rc_cali_en" 1;
  WIFI_CALI_TABLE "dcoc_cali_en" "cali_config.dcoc_cali_en" 1;
  WIFI_CALI_TABLE "txiq_cali_en" "cali_config.txiq_cali_en" 1;
  WIFI_CALI_TABLE "rxiq_cali_en" "cali_config.rxiq_cali_en" 1;
  WIFI_CALI_TABLE "txpower_cali_en" "cali_config.txpower_cali_en" 1;
  WIFI_CALI_TABLE "dpd_cali_en" "cali_config.dpd_cali_en" 1;
  WIFI_CALI_TABLE "config_reserved" "cali_config.config_reserved" 1;
  WIFI_CALI_TABLE "rctune_value" "rctune_cali.rctune_value" 1;
  WIFI_CALI_TABLE "rc_cali_reserved" "rctune_cali.rctune_reserved" 1;
  WIFI_CALI_TABLE "dcoc_cali_code" "dcoc_cali.dcoc_cali_code" 2;
  WIFI_CALI_TABLE "dcoc_reserved" "dcoc_cali.dcoc_reserved" 4;
  WIFI_CALI_TABLE "rf_txiq_c11" "txiq_cali.rf_txiq_c11" 4;
  WIFI_CALI_TABLE "rf_txiq_c12" "txiq_cali.rf_txiq_c12" 4;
  WIFI_CALI_TABLE "rf_txiq_c22" "txiq_cali.rf_txiq_c22" 4;
  WIFI_CALI_TABLE "rf_txiq_dc" "txiq_cali.rf_txiq_dc" 4;
  WIFI_CALI_TABLE "txiq_reserved" "txiq_cali.txiq_reserved" 4;
  WIFI_CALI_TABLE "rf_rxiq_coef21_22" "rxiq_cali.rf_rxiq_coef21_22" 4;
  WIFI_CALI_TABLE "rf_rxiq_coef11_12" "rxiq_cali.rf_rxiq_coef11_12" 4;
  WIFI_CALI_TABLE "rxiq_reserved" "rxiq_cali.rxiq_reserved" 4;
  WIFI_CALI_TABLE "txpower_psat_temperature" "txpower_cali.txpower_psat_temperature" 4;
  WIFI_CALI_TABLE "txpower_psat_gainindex" "txpower_cali.txpower_psat_gainindex" 1;
  WIFI_CALI_TABLE "txpower_psat_power" "txpower_cali.txpower_psat_power" 2;
  WIFI_CALI_TABLE "txpower_psat_backoff" "txpower_cali.txpower_psat_backoff" 1;
  WIFI_CALI_TABLE "txpower_psat_upper_limit" "txpower_cali.txpower_psat_upper_limit" 1;
  WIFI_CALI_TABLE "txpower_psat_lower_limit" "txpower_cali.txpower_psat_lower_limit" 1;
  WIFI_CALI_TABLE "txpower_freq_delta_gainindex" "txpower_cali.txpower_freq_delta_gainindex" 1;
  WIFI_CALI_TABLE "txpower_temperature_delta_gm_channel1" "txpower_cali.txpower_temperature_delta_gm_channel1" 1;
  WIFI_CALI_TABLE "txpower_temperature_delta_gm_channel2" "txpower_cali.txpower_temperature_delta_gm_channel2" 1;
  WIFI_CALI_TABLE "txpower_temperature_delta_gm_channel3" "txpower_cali.txpower_temperature_delta_gm_channel3" 1;
  WIFI_CALI_TABLE "txpower_temperature_delta_gm_channel4" "txpower_cali.txpower_temperature_delta_gm_channel4" 1;
  WIFI_CALI_TABLE "txpower_temperature_delta_gm_channel5" "txpower_cali.txpower_temperature_delta_gm_channel5" 1;
  WIFI_CALI_TABLE "txpower_temperature_delta_gm_channel6" "txpower_cali.txpower_temperature_delta_gm_channel6" 1;
  WIFI_CALI_TABLE "txpower_temperature_delta_gm_channel7" "txpower_cali.txpower_temperature_delta_gm_channel7" 1;
  WIFI_CALI_TABLE "txpower_temperature_delta_gm_channel8" "txpower_cali.txpower_temperature_delta_gm_channel8" 1;
  WIFI_CALI_TABLE "txpower_temperature_delta_gm_channel9" "txpower_cali.txpower_temperature_delta_gm_channel9" 1;
  WIFI_CALI_TABLE "txpower_temperature_delta_gm_channel10" "txpower_cali.txpower_temperature_delta_gm_channel10" 1;
  WIFI_CALI_TABLE "txpower_temperature_delta_gm_channel11" "txpower_cali.txpower_temperature_delta_gm_channel11" 1;
  WIFI_CALI_TABLE "txpower_temperature_delta_gm_channel12" "txpower_cali.txpower_temperature_delta_gm_channel12" 1;
  WIFI_CALI_TABLE "txpower_temperature_delta_gm_channel13" "txpower_cali.txpower_temperature_delta_gm_channel13" 1;
  WIFI_CALI_TABLE "txpower_temperature_delta_gm_channel14" "txpower_cali.txpower_temperature_delta_gm_channel14" 1;
  WIFI_CALI_TABLE "txpower_reserved" "txpower_cali.txpower_reserved" 4;
  WIFI_CALI_TABLE "dpd_cali_channel_num" "dpd_cali.dpd_cali_channel_num" 1;
  WIFI_CALI_TABLE "dpd_cali_channel" "dpd_cali.dpd_cali_channel" 1;
  WIFI_CALI_TABLE "channel1_dpd_cali_table" "dpd_cali.channel1_dpd_cali_table" 4;
  WIFI_CALI_TABLE "channel2_dpd_cali_table" "dpd_cali.channel2_dpd_cali_table" 4;
  WIFI_CALI_TABLE "channel3_dpd_cali_table" "dpd_cali.channel3_dpd_cali_table" 4;
  WIFI_CALI_TABLE "dpd_reserved" "dpd_cali.dpd_reserved" 4;
  WIFI_CALI_TABLE "rf_ctune" "rf_para.rf_ctune" 1;
  WIFI_CALI_TABLE "rf_reserved" "rf_para.rf_reserved" 4;
  WIFI_CALI_TABLE "tpc_cfg" "tpc_cfg.tpc_cfg" 4;
  WIFI_CALI_TABLE "tpc_reserved" "tpc_cfg.tpc_reserved" 4].
(** ** The parser *)

Definition CONFIG_MAX_SIZE : nat := Z.to_nat (16 * 1024).
Definition CALI_MAX_SIZE : nat := Z.to_nat (16 * 1024).
Definition WIFI_CONFIG_FILE : string := "/system/etc/connectivity_configure.ini".
Definition WIFI_CALI_FILE : string := "/system/etc/connectivity_calibration.ini".
Definition WIFI_CALI_FILE_WRITE_BACK : string := "/productinfo/connectivity_calibration.back.ini".

(** [num] is the length of [par]. *)
Record nvm_cali_cmd := Cmd { itm : list Z; par : list Z }.

Definition find_type (key : Z) : Z :=
  if ((97 <=? key) && (key <=? 119)) || ((121 <=? key) && (key <=? 122)) || ((65 <=? key) && (key <=? 87))
     || ((89 <=? key) && (key <=? 90)) || (95 =? key) then 1
  else if ((48 <=? key) && (key <=? 57)) || (45 =? key) then 2
  else if (120 =? key) || (88 =? key) || (46 =? key) then 3
  else if (key =? 0) || (13 =? key) || (10 =? key) || (35 =? key) then 4
  else 0.

Definition next_type (bufType cType : Z) : Z :=
  if bufType =? -1 then if cType =? 2 then 2 else 1
  else if bufType =? 2 then if cType =? 1 then 1 else bufType
  else bufType.

(** The end of a word [tmp]: the first name is the item, everything else a
    number. *)
Definition end_word (tmp : list Z) (bufType : Z) (flag : bool) (cmd : nvm_cali_cmd) : option (bool * nvm_cali_cmd) :=
  if bufType =? -1 then Some (flag, cmd)
  else if (length tmp <? 128)%nat then
    if (bufType =? 1) && negb flag then
      if (length tmp <? 64)%nat then Some (true, Cmd tmp (par cmd)) else None
    else if (length (par cmd) <? 256)%nat then Some (flag, Cmd (itm cmd) (par cmd ++ [fst (strtol 0 tmp)])) else None
  else None.

Fixpoint get_cmd_loop (str tmp : list Z) (bufType : Z) (flag : bool) (cmd : nvm_cali_cmd) : option nvm_cali_cmd :=
  match str with
  | [] => None
  | c :: str =>
      let cType := find_type c in
      if (1 =? cType) || (2 =? cType) || (3 =? cType) then
        if (length tmp <? 128)%nat then get_cmd_loop str (tmp ++ [c]) (next_type bufType cType) flag cmd else None
      else
        '(flag, cmd) ← end_word tmp bufType flag cmd;
        if cType =? 4 then Some cmd else get_cmd_loop str [] (-1) flag cmd
  end.

Definition get_cmd_par (str : list Z) : option nvm_cali_cmd := get_cmd_loop str [] (-1) false (Cmd [] []).

(** An integer of [type] bytes in memory. *)
Definition store_int (type v : Z) : list Z := if type =? 1 then [u8 v] else if type =? 2 then st16 v else st32 v.

Fixpoint set_loop (p : Z) (type : Z) (pars p_data : list Z) : option (list Z) :=
  match pars with
  | [] => Some p_data
  | v :: pars => d ← mem_write p_data p (store_int type v); set_loop (p + type) type pars d
  end.

Definition wifi_nvm_set_cmd (pTable : nvm_name_table) (cmd : nvm_cali_cmd) (p_data : list Z) : option (Z * list Z) :=
  if negb (1 =? t_type pTable) && negb (2 =? t_type pTable) && negb (4 =? t_type pTable) then Some (-1, p_data)
  else d ← set_loop (Z.of_nat (mem_offset pTable)) (t_type pTable) (par cmd) p_data; Some (0, d).

Definition table_match (table : list nvm_name_table) (cmd : nvm_cali_cmd) : option nvm_name_table :=
  List.find (fun e => bool_decide (t_itm e = itm cmd)) table.
Definition wifi_nvm_config_table_match := table_match g_config_table.
Definition wifi_nvm_cali_table_match := table_match g_cali_table.

(** [rest] are the bytes from [i] on; the line starts at [p]. *)
Fixpoint operate_loop (rest pBuf : list Z) (i p : nat) (type : Z) (p_data : list Z) : option (Z * list Z) :=
  match rest with
  | [] => Some (0, p_data)
  | c :: rest =>
      if (c =? 10) || (c =? 13) || (c =? 0) then
        if (5 <=? i - p)%nat then
          cmd ← get_cmd_par (drop p pBuf);
          if type =? 1 then
            '(_, d) ← (match wifi_nvm_config_table_match cmd with Some e => wifi_nvm_set_cmd e cmd p_data | None => Some (0, p_data) end);
            operate_loop rest pBuf (S i) (S i) type d
          else if type =? 2 then
            '(_, d) ← (match wifi_nvm_cali_table_match cmd with Some e => wifi_nvm_set_cmd e cmd p_data | None => Some (0, p_data) end);
            operate_loop rest pBuf (S i) (S i) type d
          else Some (-1, p_data)
        else operate_loop rest pBuf (S i) (S i) type p_data
      else operate_loop rest pBuf (S i) p type p_data
  end.

(** [pBuf] here is the part of the buffer up to [file_len]. *)
Definition wifi_nvm_buf_operate (pBuf : list Z) (type : Z) (p_data : list Z) : option (Z * list Z) :=
  if (length pBuf =? 0)%nat then Some (-1, p_data) else operate_loop pBuf pBuf 0 0 type p_data.

Definition wifi_nvm_parse (path : string) (type : Z) (p_data : list Z) : M (Z * list Z) :=
  f ← open_read path;
  match f with
  | None => mret (-1, p_data)
  | Some f =>
      let '(len, pBuf) := read_file f CONFIG_MAX_SIZE in
      if len <? 0 then mret (-2, p_data)
      else
        '(ret, d) ← lift (wifi_nvm_buf_operate pBuf type p_data);
        mret (if ret <? 0 then -2 else 0, d)
  end.

Definition get_connectivity_config_param (p : list Z) : M (Z * list Z) :=
  '(ret, d) ← wifi_nvm_parse WIFI_CONFIG_FILE 1 p;
  mret (if negb (0 =? ret) then -1 else 0, d).

Definition get_connectivity_cali_param (p : list Z) : M (Z * list Z) :=
  '(ret, d) ← wifi_nvm_parse WIFI_CALI_FILE 2 p;
  mret (if negb (0 =? ret) then -1 else 0, d).

(** [wifi_rf_t]: the two structs and a filler. *)
Definition get_connectivity_rf_param (p : list Z) : M (Z * list Z) :=
  '(ret, c) ← get_connectivity_config_param (take (sizeof wifi_config_t) p);
  let p := splice p 0 c in
  if ret <? 0 then mret (-1, p)
  else
    '(ret, d) ← get_connectivity_cali_param (take (sizeof wifi_cali_t) (drop (sizeof wifi_config_t) p));
    let p := splice p (sizeof wifi_config_t) d in
    if ret <? 0 then mret (-2, p) else mret (0, p).

(** ** The writer *)

(** Digits of [n] in base [b], in front of [acc]. *)
Fixpoint udigits (b : Z) (dig : Z -> Z) (fuel : nat) (n : Z) (acc : list Z) : list Z :=
  match fuel with
  | O => acc
  | S fuel => let acc := dig (n mod b) :: acc in if n <? b then acc else udigits b dig fuel (n / b) acc
  end.

(** [sprintf("%x")] of a 32-bit value. *)
Definition fmt_x (n : Z) : list Z := udigits 16 lower_digit 8 n [].

(** The conversions %d and 0x%x of an integer of [w] bytes: %d shows a 32-bit
    pattern as a signed number. *)
Inductive conv := D | X.
Definition sprint (f : conv) (w : nat) (v : Z) : list Z :=
  match f with
  | D => fmt_d (if (w =? 4)%nat then s32 v else v)
  | X => bs "0x" ++ fmt_x v
  end.

(** Integers of [w] bytes in memory. *)
Definition load (w : nat) (m : list Z) (off : nat) : Z :=
  if (w =? 1)%nat then m !!! off else if (w =? 2)%nat then ld16 m off else ld32 m off.
Definition values (w : nat) (m : list Z) (off n : nat) : list Z := map (fun i => load w m (off + w * i)%nat) (seq 0 n).

(** A line of the file: a fixed text, a label with a number, or a label with [n]
    integers of [w] bytes from offset [off] of the struct, separated by commas. *)
Inductive line :=
| Text (s : list Z)
| Value (label : list Z) (z : Z)
| Fields (label : list Z) (f : conv) (w off n : nat).

Fixpoint commas (l : list (list Z)) : list Z :=
  match l with
  | [] => []
  | [x] => x
  | x :: l => x ++ bs ", " ++ commas l
  end.

Definition sprint_line (m : list Z) (l : line) : list Z :=
  match l with
  | Text s => s
  | Value label z => label ++ fmt_d z
  | Fields label f w off n => label ++ commas (map (sprint f w) (values w m off n))
  end.

(** A field of [wifi_cali_t] by its name. *)
Definition field (label : list Z) (f : conv) (w : nat) (path : string) (n : nat) : line :=
  Fields label f w (offsetof wifi_cali_t path) n.

Definition rule : line := Text (bs "#-----------------------------------------------------------------").
Definition setction (i : Z) (title : string) : list line :=
  [Text (bs "[SETCTION " ++ fmt_d i ++ bs "]"); rule; Text (bs "# " ++ bs title); rule].

(** The lines that [wlan_save_cali_data_to_file] prints. *)
Definition cali_lines (calibrating : bool) : list line :=
  setction 0 "Marlin cali Version info" ++
  [ field (bs "cali_version = ") D 1 "cali_version" 1; Text [] ] ++
  setction 1 "Calibration Config" ++
  [ (if calibrating then Value (bs "is_calibrated   = ") 0
     else field (bs "is_calibrated   = ") D 1 "cali_config.is_calibrated" 1);
    field (bs "rc_cali_en      = ") D 1 "cali_config.rc_cali_en" 1;
    field (bs "dcoc_cali_en    = ") D 1 "cali_config.dcoc_cali_en" 1;
    field (bs "txiq_cali_en    = ") D 1 "cali_config.txiq_cali_en" 1;
    field (bs "rxiq_cali_en    = ") D 1 "cali_config.rxiq_cali_en" 1;
    field (bs "txpower_cali_en = ") D 1 "cali_config.txpower_cali_en" 1;
    field (bs "dpd_cali_en     = ") D 1 "cali_config.dpd_cali_en" 1;
    field (bs "config_reserved = ") D 1 "cali_config.config_reserved" 4; Text [] ] ++
  setction 2 "rc calibration data" ++
  [ field (bs "rctune_value    = ") X 1 "rctune_cali.rctune_value" 1;
    field (bs "rc_cali_reserved= ") X 1 "rctune_cali.rctune_reserved" 3; Text [] ] ++
  setction 3 "doco calibration data" ++
  [ field (bs "dcoc_cali_code    = ") X 2 "dcoc_cali.dcoc_cali_code" 18;
    field (bs "dcoc_reserved   = ") X 4 "dcoc_cali.dcoc_reserved" 4; Text [] ] ++
  setction 4 "txiq calibration data" ++
  [ field (bs "rf_txiq_c11     = ") X 4 "txiq_cali.rf_txiq_c11" 1;
    field (bs "rf_txiq_c12     = ") X 4 "txiq_cali.rf_txiq_c12" 1;
    field (bs "rf_txiq_c22     = ") X 4 "txiq_cali.rf_txiq_c22" 1;
    field (bs "rf_txiq_dc      = ") X 4 "txiq_cali.rf_txiq_dc" 1;
    field (bs "txiq_reserved   = ") X 4 "txiq_cali.txiq_reserved" 4; Text [] ] ++
  setction 5 "rxiq calibration data" ++
  [ field (bs "rf_rxiq_coef21_22   = ") X 4 "rxiq_cali.rf_rxiq_coef21_22" 1;
    field (bs "rf_rxiq_coef11_12   = ") X 4 "rxiq_cali.rf_rxiq_coef11_12" 1;
    field (bs "rxiq_reserved       = ") X 4 "rxiq_cali.rxiq_reserved" 2; Text [] ] ++
  setction 6 "txpower calibration data" ++
  [ field (bs "txpower_psat_temperature   = ") D 4 "txpower_cali.txpower_psat_temperature" 1;
    field (bs "txpower_psat_gainindex   = ") D 1 "txpower_cali.txpower_psat_gainindex" 1;
    field (bs "txpower_psat_power   = ") D 2 "txpower_cali.txpower_psat_power" 1;
    field (bs "txpower_psat_backoff   = ") D 1 "txpower_cali.txpower_psat_backoff" 1;
    field (bs "txpower_psat_upper_limit   = ") D 1 "txpower_cali.txpower_psat_upper_limit" 1;
    field (bs "txpower_psat_lower_limit   = ") D 1 "txpower_cali.txpower_psat_lower_limit" 1;
    field (bs "txpower_freq_delta_gainindex = ") D 1 "txpower_cali.txpower_freq_delta_gainindex" 14 ] ++
  map (fun i => field (bs "txpower_temperature_delta_gm_channel" ++ fmt_d (Z.of_nat i) ++ bs " = ") D 1
                  ("txpower_cali.txpower_temperature_delta_gm_channel" +:+ pretty i) 32) (seq 1 14) ++
  [ field (bs "txpower_reserved   = ") D 4 "txpower_cali.txpower_reserved" 4 ] ++
  setction 7 "DPD calibration data" ++
  [ field (bs "dpd_cali_channel_num   = ") D 1 "dpd_cali.dpd_cali_channel_num" 1;
    field (bs "dpd_cali_channel   = ") D 1 "dpd_cali.dpd_cali_channel" 3 ] ++
  map (fun i => field (bs "channel" ++ fmt_d (Z.of_nat i) ++ bs "_dpd_cali_table = ") X 4
                  ("dpd_cali.channel" +:+ pretty i +:+ "_dpd_cali_table") 182) (seq 1 3) ++
  [ field (bs "dpd_reserved   = ") X 4 "dpd_cali.dpd_reserved" 4 ] ++
  setction 8 "RF parameters data" ++
  [ field (bs "rf_ctune = ") D 1 "rf_para.rf_ctune" 14;
    field (bs "rf_reserved = ") D 4 "rf_para.rf_reserved" 4; Text [] ] ++
  setction 9 "TPC Configuration data" ++
  [ field (bs "tpc_cfg = ") X 4 "tpc_cfg.tpc_cfg" 37;
    field (bs "tpc_reserved = ") X 4 "tpc_cfg.tpc_reserved" 4; Text [] ] ++
  replicate 30 (Text []).

(** All lines, each with its newline. *)
Definition cali_text (calibrating : bool) (data : list Z) : list Z :=
  mjoin (map (fun l => sprint_line data l ++ [10]) (cali_lines calibrating)).

Definition add_to_file (buf : list Z) : M Z :=
  ok ← creat_trunc WIFI_CALI_FILE_WRITE_BACK;
  if ok : bool then
    ret ← write_file WIFI_CALI_FILE_WRITE_BACK 0 buf;
    mret (if ret <? 0 then -1 else 0)
  else mret (-1).

(** [data]: the bytes of [wifi_cali_cp_t], which starts with [wifi_cali_t]. *)
Definition wlan_save_cali_data_to_file (data : list Z) : M Z :=
  calibrating ← property_get "debug.connectivity.calibrating" (bs "false");
  let buf := cali_text (has_prefix (bs "true") calibrating) data in
  if (length buf <? CALI_MAX_SIZE)%nat then
    ret ← add_to_file buf;
    mret (if ret <? 0 then -1 else 0)
  else undefined.

(** ** Numbers survive printing and parsing *)

Section numerals.
  Context (b : Z) (dig : Z -> Z) (Hb : 1 < b).
  Context (Hdig : forall d, 0 <= d < b -> digit_of (dig d) = d).

(** The value of a numeral. *)
Definition numeral (ds : list Z) : Z := foldl (fun a c => a * b + digit_of c) 0 ds.

Lemma digits_all ds a k :
  Forall (fun c => digit_of c < b) ds ->
  digits b ds a k = (foldl (fun a c => a * b + digit_of c) a ds, (k + length ds)%nat).
Proof.
  intros H. revert a k. induction H as [|c ds Hc _ IH]; intros a k; cbn; [by rewrite Nat.add_0_r|].
  destruct (Z.ltb_spec (digit_of c) b); [|lia]. rewrite IH. f_equal. lia.
Qed.

Lemma udigits_spec k fuel n acc :
  (1 <= k <= fuel)%nat -> 0 <= n < b ^ Z.of_nat k ->
  exists ds, udigits b dig fuel n acc = ds ++ acc /\ (1 <= length ds <= k)%nat /\
    Forall (fun c => exists d, 0 <= d < b /\ c = dig d) ds /\ numeral ds = n /\
    (0 < n -> exists d t, ds = dig d :: t /\ 0 < d < b).
Proof.
  revert fuel n acc. induction k as [|k IH]; intros fuel n acc Hk Hn; [lia|].
  destruct fuel as [|fuel]; [lia|]. cbn [udigits]. destruct (Z.ltb_spec n b) as [Hlt|Hge].
  - exists [dig n]. rewrite Z.mod_small by lia. unfold numeral. cbn. rewrite Hdig by lia. split_and!; [done|lia|lia| |lia|by exists n, []].
    apply Forall_singleton. exists n. split; [lia|done].
  - rewrite Nat2Z.inj_succ, Z.pow_succ_r in Hn by lia.
    assert (1 <= n / b < b ^ Z.of_nat k) as Hq.
    { split; [apply Z.div_le_lower_bound; lia|apply Z.div_lt_upper_bound; lia]. }
    destruct k as [|k]; [cbn in Hq; lia|].
    assert (0 <= n mod b < b) as Hr by (apply Z.mod_pos_bound; lia).
    destruct (IH fuel (n / b) (dig (n mod b) :: acc)) as (ds & -> & Hl & Hds & Hv & Hh); [lia|lia|].
    exists (ds ++ [dig (n mod b)]). rewrite <- app_assoc, length_app. cbn [length app]. split_and!; [done|lia|lia| | |].
    + apply Forall_app; split; [done|]. apply Forall_singleton. by exists (n mod b).
    + unfold numeral in *. rewrite foldl_app. cbn. rewrite Hv, Hdig by lia. pose proof (Z.div_mod n b). lia.
    + intros _. destruct Hh as (d & t & -> & Hd); [lia|]. by exists d, (t ++ [dig (n mod b)]).
Qed.

Lemma digits_numeral ds :
  Forall (fun c => exists d, 0 <= d < b /\ c = dig d) ds -> fst (digits b ds 0 0) = numeral ds.
Proof.
  intros H. rewrite digits_all; [done|]. eapply Forall_impl; [exact H|]. cbn. intros c (d & Hd & ->). rewrite Hdig; lia.
Qed.

End numerals.

Definition dec_digit (d : Z) : Z := 48 + d.

Lemma dec_digit_ok d : 0 <= d < 10 -> digit_of (dec_digit d) = d.
Proof. intros. unfold digit_of, isdigit, dec_digit. destruct (Z.leb_spec 48 (48 + d)), (Z.leb_spec (48 + d) 57); cbn; lia. Qed.

(** A property of the first [n] numbers by evaluation. *)
Lemma upto_cases (n : Z) (P : Z -> bool) d : forallb P (seqZ 0 n) = true -> 0 <= d < n -> P d = true.
Proof. intros H Hd. rewrite forallb_forall in H. apply H, list_elem_of_In, elem_of_seqZ. lia. Qed.

Lemma hex_digit_ok d : 0 <= d < 16 -> digit_of (lower_digit d) = d.
Proof. intros Hd. apply Z.eqb_eq. by apply (upto_cases 16 (fun d => digit_of (lower_digit d) =? d)). Qed.

Lemma udec_udigits fuel n acc : udec fuel n acc = udigits 10 dec_digit fuel n acc.
Proof. revert n acc. induction fuel as [|fuel IH]; intros; [done|]. cbn. by rewrite IH. Qed.

(** The word characters of the parser. *)
Definition word (c : Z) : bool := (1 =? find_type c) || (2 =? find_type c) || (3 =? find_type c).

Lemma dec_word d : 0 <= d < 10 -> word (dec_digit d) = true.
Proof. by apply (upto_cases 10 (fun d => word (dec_digit d))). Qed.
Lemma hex_word d : 0 <= d < 16 -> word (lower_digit d) = true.
Proof. by apply (upto_cases 16 (fun d => word (lower_digit d))). Qed.

(** A word of at most [k] characters that [strtol] reads as [v]. *)
Definition reads_as (v : Z) (k : nat) (w : list Z) : Prop :=
  fst (strtol 0 w) = v /\ forallb word w = true /\ (1 <= length w <= k)%nat.

Lemma reads_as_mono v k k' w : (k <= k')%nat -> reads_as v k w -> reads_as v k' w.
Proof. intros ? (? & ? & ?). repeat split; try done; lia. Qed.

(** Decimal numerals without a leading zero. *)
Lemma strtol_dec (neg : bool) d t (ds := dec_digit d :: t) :
  Forall (fun c => exists d, 0 <= d < 10 /\ c = dec_digit d) ds -> 0 < d < 10 ->
  fst (strtol 0 (if neg then 45 :: ds else ds)) = clamp_long (if neg then - numeral 10 ds else numeral 10 ds).
Proof.
  intros Hds Hd.
  assert (skip_spaces (if neg then 45 :: ds else ds) = if neg then 45 :: ds else ds) as Hsp.
  { destruct neg; [done|]. cbn. unfold isspace, dec_digit. by repeat (case_match; try lia). }
  unfold strtol. rewrite Hsp. assert (dec_digit d =? 48 = false) as Hd48 by (unfold dec_digit; lia).
  assert (dec_digit d =? 45 = false) as Hd45 by (unfold dec_digit; lia). assert (dec_digit d =? 43 = false) as Hd43 by (unfold dec_digit; lia).
  assert (match ds with a :: b :: d :: _ => (a =? 48) && ((b =? 120) || (b =? 88)) && (digit_of d <? 16) | _ => false end = false) as Hpre.
  { unfold ds. rewrite Hd48. by destruct t as [|? [|? ?]]. }
  assert (match ds with a :: _ => a =? 48 | [] => false end = false) as Hoct by done.
  rewrite <- (digits_numeral 10 dec_digit dec_digit_ok ds Hds).
  assert ((if neg then true else false, ds) = match (if neg then 45 :: ds else ds) with
    | c :: s' => if c =? 45 then (true, s') else if c =? 43 then (false, s') else (false, if neg then 45 :: ds else ds) | [] => (false, if neg then 45 :: ds else ds) end) as Hsg.
  { destruct neg; [done|]. unfold ds. by rewrite Hd45, Hd43. }
  destruct neg; rewrite <- Hsg, Hpre, Hoct; change (0 =? 0) with true; cbv iota; change (10 =? 16) with false; cbn [andb]; cbv iota; by destruct (digits 10 ds 0 0).
Qed.

Lemma numeral_word b dig ds :
  (forall d, 0 <= d < b -> word (dig d) = true) -> Forall (fun c => exists d, 0 <= d < b /\ c = dig d) ds -> forallb word ds = true.
Proof. intros Hw. induction 1 as [|c ds (d & Hd & ->) _ IH]; [done|]. cbn. by rewrite Hw, IH. Qed.

Lemma udec_reads k (neg : bool) z :
  (1 <= k <= 10)%nat -> 0 < z < 10 ^ Z.of_nat k ->
  reads_as (clamp_long (if neg then - z else z)) (if neg then S k else k) (if neg then 45 :: udec 11 z [] else udec 11 z []).
Proof.
  intros Hk Hz. rewrite udec_udigits.
  destruct (udigits_spec 10 dec_digit ltac:(lia) dec_digit_ok k 11 z []) as (ds & -> & Hl & Hds & Hv & Hh); [lia|lia|].
  rewrite app_nil_r. destruct Hh as (d & t & -> & Hd); [lia|]. unfold reads_as. rewrite strtol_dec, Hv by done.
  apply (numeral_word 10 dec_digit) in Hds; [|apply dec_word]. split_and!; [done|by destruct neg|by destruct neg; cbn in *; lia..].
Qed.

Lemma fmt_d_nat k z : (1 <= k <= 10)%nat -> 0 <= z < 10 ^ Z.of_nat k -> reads_as (clamp_long z) k (fmt_d z).
Proof.
  intros Hk Hz. destruct (decide (z = 0)) as [->|]; [split; [done|split; [done|change (length (fmt_d 0)) with 1%nat; lia]]|].
  unfold fmt_d. destruct (Z.ltb_spec z 0); [lia|]. apply (udec_reads k false); lia.
Qed.

Lemma fmt_d_int z : -2147483648 <= z < 2147483648 -> reads_as z 11 (fmt_d z).
Proof.
  intros Hz. assert (clamp_long z = z) as Hc by (unfold clamp_long; lia). destruct (Z.ltb_spec z 0).
  - unfold fmt_d. destruct (Z.ltb_spec z 0); [|lia]. pose proof (udec_reads 10 true (- z)) as H1. rewrite Z.opp_involutive, Hc in H1.
    apply H1; [lia|]. change (10 ^ Z.of_nat 10) with 10000000000. lia.
  - rewrite <- Hc at 1. eapply (reads_as_mono _ 10), fmt_d_nat; [lia|lia|]. change (10 ^ Z.of_nat 10) with 10000000000. lia.
Qed.

Lemma hex_reads k v : (1 <= k <= 8)%nat -> 0 <= v < 16 ^ Z.of_nat k -> reads_as (Z.min v 2147483647) (2 + k) (bs "0x" ++ fmt_x v).
Proof.
  intros Hk Hv. unfold fmt_x.
  destruct (udigits_spec 16 lower_digit ltac:(lia) hex_digit_ok k 8 v []) as (ds & -> & Hl & Hds & Hval & _); [lia|lia|].
  rewrite app_nil_r. destruct ds as [|c ds]; [cbn in Hl; lia|].
  pose proof (digits_numeral 16 lower_digit hex_digit_ok _ Hds) as Hn. rewrite Hval in Hn.
  assert (digit_of c <? 16 = true) as Hc.
  { apply Forall_cons in Hds as [(d & Hd & ->) _]. rewrite hex_digit_ok by done. lia. }
  apply (numeral_word 16 lower_digit) in Hds; [|apply hex_word].
  split_and!; [|by rewrite forallb_app, Hds|rewrite length_app; cbn in *; lia..].
  change (bs "0x") with [48; 120]. unfold strtol. cbn [app]. change (skip_spaces (48 :: ?s)) with (48 :: s). cbv beta iota zeta.
  change (48 =? 45) with false. change (48 =? 43) with false. cbv beta iota zeta. rewrite Hc.
  change (digits _ _ 0 0) with (digits 16 (c :: ds) 0 0).
  destruct (digits 16 (c :: ds) 0 0) as [x n]. cbn in *. unfold clamp_long. lia.
Qed.

(** ** Lines *)

Definition gap (c : Z) : bool := find_type c =? 0.
Definition run_type (t : Z) (w : list Z) : Z := foldl (fun t c => next_type t (find_type c)) t w.

Lemma next_type_set t c : next_type t c <> -1.
Proof. unfold next_type. repeat case_match; lia. Qed.

Lemma run_type_set w : w <> [] -> run_type (-1) w <> -1.
Proof.
  destruct w as [|c w] using rev_ind; [done|]. intros _. unfold run_type. rewrite foldl_app. apply next_type_set.
Qed.

Lemma loop_word w s tmp t flag cmd :
  forallb word w = true -> (length tmp + length w <= 128)%nat ->
  get_cmd_loop (w ++ s) tmp t flag cmd = get_cmd_loop s (tmp ++ w) (run_type t w) flag cmd.
Proof.
  revert tmp t. induction w as [|c w IH]; intros tmp t Hw Hl; [by rewrite app_nil_r|].
  cbn in Hw, Hl. apply andb_true_iff in Hw as [Hc Hw]. cbn [get_cmd_loop app]. unfold word in Hc. rewrite Hc.
  destruct (Nat.ltb_spec (length tmp) 128); [|lia]. rewrite IH; [|done|rewrite length_app; cbn; lia]. by rewrite <- app_assoc.
Qed.

Lemma loop_stop c s tmp t flag cmd :
  word c = false ->
  get_cmd_loop (c :: s) tmp t flag cmd =
    '(flag, cmd) ← end_word tmp t flag cmd; if find_type c =? 4 then Some cmd else get_cmd_loop s [] (-1) flag cmd.
Proof. intros Hc. cbn [get_cmd_loop]. unfold word in Hc. by rewrite Hc. Qed.

Lemma gap_not_word c : gap c = true -> word c = false /\ (find_type c =? 4) = false.
Proof. unfold gap, word. intros E%Z.eqb_eq. by rewrite E. Qed.

Lemma loop_gap sep s flag cmd :
  forallb gap sep = true -> get_cmd_loop (sep ++ s) [] (-1) flag cmd = get_cmd_loop s [] (-1) flag cmd.
Proof.
  induction sep as [|c sep IH]; intros H; [done|]. cbn in H. apply andb_true_iff in H as [[Hw H4]%gap_not_word H].
  cbn [app]. rewrite loop_stop by done. cbn [end_word]. change (-1 =? -1) with true. cbv iota. cbn. rewrite H4. by apply IH.
Qed.

(** A number after the name. *)
Lemma end_number w cmd :
  forallb word w = true -> (1 <= length w < 128)%nat -> (length (par cmd) < 256)%nat ->
  end_word w (run_type (-1) w) true cmd = Some (true, Cmd (itm cmd) (par cmd ++ [fst (strtol 0 w)])).
Proof.
  intros Hw Hl Hp. unfold end_word. destruct (Z.eqb_spec (run_type (-1) w) (-1)) as [E|_].
  { exfalso. eapply run_type_set, E. by destruct w; [cbn in Hl; lia|]. }
  destruct (Nat.ltb_spec (length w) 128); [|lia]. rewrite andb_false_r. by destruct (Nat.ltb_spec (length (par cmd)) 256); [|lia].
Qed.

Definition token (w : list Z) : Prop := forallb word w = true /\ (1 <= length w < 128)%nat.

Lemma loop_numbers toks s cmd :
  Forall token toks -> toks <> [] -> (length (par cmd) + length toks <= 256)%nat ->
  get_cmd_loop (commas toks ++ 10 :: s) [] (-1) true cmd = Some (Cmd (itm cmd) (par cmd ++ map (fun w => fst (strtol 0 w)) toks)).
Proof.
  intros H. revert cmd. induction H as [|w toks [Hw Hl] Ht IH]; intros cmd Hne Hn; [done|]. cbn [length] in Hn.
  destruct toks as [|w' toks].
  - cbn [commas]. rewrite loop_word by (done || cbn; lia). rewrite loop_stop by done. by rewrite end_number by (done || lia).
  - change (commas (w :: w' :: toks)) with (w ++ bs ", " ++ commas (w' :: toks)). rewrite <- !app_assoc.
    rewrite loop_word by (done || cbn; lia). change (bs ", ") with ([44] ++ [32]). rewrite <- !app_assoc. cbn [app].
    rewrite loop_stop by done. cbn [app]. rewrite end_number by (done || lia). cbn [mbind option_bind]. change (find_type 44 =? 4) with false. cbv iota.
    change (32 :: ?s) with ([32] ++ s). rewrite loop_gap by done. rewrite IH; [|done|cbn [par]; rewrite length_app; cbn in *; lia].
    cbn [itm par map]. by rewrite <- app_assoc.
Qed.

Definition name_ok (name : list Z) : bool :=
  forallb word name && (run_type (-1) name =? 1) && (length name <? 64)%nat.

Lemma get_cmd_line name sep toks s :
  name_ok name = true -> sep <> [] -> forallb gap sep = true -> Forall token toks -> toks <> [] -> (length toks <= 256)%nat ->
  get_cmd_par ((name ++ sep) ++ commas toks ++ 10 :: s) = Some (Cmd name (map (fun w => fst (strtol 0 w)) toks)).
Proof.
  unfold name_ok. intros [[Hw Ht%Z.eqb_eq]%andb_true_iff Hl%Nat.ltb_lt]%andb_true_iff Hsep Hg Htok Hne Hn.
  destruct sep as [|c sep]; [done|]. cbn in Hg. apply andb_true_iff in Hg as [[Hc H4]%gap_not_word Hg].
  unfold get_cmd_par. rewrite <- !app_assoc. rewrite loop_word by (done || cbn; lia). cbn [app]. rewrite loop_stop by done. rewrite Ht.
  unfold end_word. change (1 =? -1) with false. change (1 =? 1) with true. cbn [andb negb]. cbv iota.
  destruct (Nat.ltb_spec (length name) 128); [|lia]. destruct (Nat.ltb_spec (length name) 64); [|lia]. cbn [mbind option_bind]. rewrite H4.
  rewrite loop_gap by done. by rewrite loop_numbers by (done || cbn; lia).
Qed.

(** What follows the end of a line does not matter. *)
Lemma loop_more s t tmp ty flag c0 cmd : get_cmd_loop s tmp ty flag c0 = Some cmd -> get_cmd_loop (s ++ t) tmp ty flag c0 = Some cmd.
Proof.
  revert tmp ty flag c0. induction s as [|c s IH]; intros tmp ty flag c0; [done|]. cbn [get_cmd_loop app].
  case_match; [case_match; [apply IH|done]|].
  destruct (end_word tmp ty flag c0) as [[? ?]|]; [|done]. cbn [mbind option_bind]. case_match; [done|apply IH].
Qed.

(** ** Storing a line *)

Lemma enc_length type v : type = 1 \/ type = 2 \/ type = 4 -> length (store_int type v) = Z.to_nat type.
Proof. by intros [-> | [-> | ->]]. Qed.

Lemma set_loop_ok type pars off m :
  type = 1 \/ type = 2 \/ type = 4 -> (off + Z.to_nat type * length pars <= length m)%nat ->
  set_loop (Z.of_nat off) type pars m = Some (splice m off (flat_map (store_int type) pars)).
Proof.
  intros Ht. revert off m. induction pars as [|v pars IH]; intros off m Hl; [by rewrite splice_nil|].
  pose proof (enc_length type v Ht) as He. cbn [set_loop length flat_map] in *. rewrite mem_write_nat by (rewrite He; lia). cbn [mbind option_bind].
  replace (Z.of_nat off + type) with (Z.of_nat (off + length (store_int type v))) by (rewrite He; lia).
  rewrite IH by (rewrite splice_length; rewrite ?He; lia). by rewrite splice_splice by (rewrite He; lia).
Qed.

(** A line of the calibration file, without its newline. *)
Definition take_line (l m : list Z) : option (list Z) :=
  if (5 <=? length l)%nat then
    cmd ← get_cmd_par (l ++ [10]);
    match wifi_nvm_cali_table_match cmd with Some e => snd <$> wifi_nvm_set_cmd e cmd m | None => Some m end
  else Some m.

Definition noeol (c : Z) : bool := negb ((c =? 10) || (c =? 13) || (c =? 0)).

Lemma operate_skip l s pBuf i p m :
  forallb noeol l = true -> operate_loop (l ++ s) pBuf i p 2 m = operate_loop s pBuf (i + length l) p 2 m.
Proof.
  revert i. induction l as [|c l IH]; intros i H; [by rewrite Nat.add_0_r|]. cbn in H. apply andb_true_iff in H as [Hc H].
  cbn [operate_loop app length]. unfold noeol in Hc. apply negb_true_iff in Hc. rewrite Hc, IH by done. f_equal. lia.
Qed.

Lemma operate_line l s pre m m' :
  forallb noeol l = true -> take_line l m = Some m' ->
  operate_loop (l ++ 10 :: s) (pre ++ l ++ 10 :: s) (length pre) (length pre) 2 m =
  operate_loop s ((pre ++ l ++ [10]) ++ s) (length (pre ++ l ++ [10])) (length (pre ++ l ++ [10])) 2 m'.
Proof.
  intros Hl Ht. rewrite operate_skip by done. cbn [operate_loop]. change ((10 =? 10) || _ || _) with true. cbv iota.
  replace (S (length pre + length l)) with (length (pre ++ l ++ [10])) by (rewrite !length_app; cbn; lia).
  replace (length pre + length l - length pre)%nat with (length l) by lia.
  replace ((pre ++ l ++ [10]) ++ s) with (pre ++ l ++ 10 :: s) by (by rewrite <- !app_assoc).
  unfold take_line in Ht. destruct (5 <=? length l)%nat; [|by simplify_eq].
  rewrite drop_app_length. destruct (get_cmd_par (l ++ [10])) as [cmd|] eqn:Ec; [|done]. cbn [mbind option_bind] in Ht.
  replace (l ++ 10 :: s) with ((l ++ [10]) ++ s) by (by rewrite <- app_assoc). unfold get_cmd_par in *. rewrite (loop_more _ _ _ _ _ _ _ Ec).
  cbn [mbind option_bind]. change (2 =? 1) with false. change (2 =? 2) with true. cbv iota.
  destruct (wifi_nvm_cali_table_match cmd) as [e|]; [|by simplify_eq].
  destruct (wifi_nvm_set_cmd e cmd m) as [[r d]|]; [|done]. by simplify_eq/=.
Qed.

(** The lines take the struct from [m] to [m']. *)
Inductive takes_lines : list (list Z) -> list Z -> list Z -> Prop :=
| tl_nil m : takes_lines [] m m
| tl_cons l ls m m1 m2 : forallb noeol l = true -> take_line l m = Some m1 -> takes_lines ls m1 m2 -> takes_lines (l :: ls) m m2.

Lemma operate_lines ls m m' pre :
  takes_lines ls m m' ->
  let text := mjoin (map (fun l => l ++ [10]) ls) in
  operate_loop text (pre ++ text) (length pre) (length pre) 2 m = Some (0, m').
Proof.
  intros H. revert pre. induction H as [m|l ls m m1 m2 Hl Ht _ IH]; intros pre; cbn [map mjoin list_join]; [done|].
  cbn zeta. rewrite <- (app_assoc l [10]). cbn [app]. rewrite (operate_line _ _ _ _ m1) by done. apply IH.
Qed.

(** ** Lines that are read back

    [line_ok] holds of a line when a fixed text names no item, and when the label
    of a field is the name of that field in the table. *)

Fixpoint word_prefix (l : list Z) : nat := match l with c :: l => if word c then S (word_prefix l) else 0 | [] => 0 end%nat.

Definition line_ok (size : nat) (l : line) : bool :=
  match l with
  | Text s =>
      forallb noeol s &&
      ((length s <? 5)%nat || match get_cmd_par (s ++ [10]) with
                              | Some cmd => match wifi_nvm_cali_table_match cmd with Some _ => false | None => true end
                              | None => false
                              end)
  | Value _ _ => false
  | Fields label f w off n =>
      let name := take (word_prefix label) label in
      let sep := drop (word_prefix label) label in
      name_ok name && negb (length sep =? 0)%nat && forallb gap sep && (5 <=? length label)%nat &&
      match wifi_nvm_cali_table_match (Cmd name []) with
      | Some e => (mem_offset e =? off)%nat && (t_type e =? Z.of_nat w)
      | None => false
      end && ((w =? 1) || (w =? 2) || (w =? 4))%nat && (1 <=? n)%nat && (n <=? 256)%nat && (off + w * n <=? size)%nat
  end.

Lemma cali_lines_ok : forallb (line_ok (sizeof wifi_cali_t)) (cali_lines false) = true.
Proof. vm_compute. reflexivity. Qed.

(** ** Fields that are read back *)

Lemma bytes_at m i : bytes m -> 0 <= m !!! i < 256.
Proof.
  intros Hm. destruct (m !! i) as [b|] eqn:E.
  - rewrite (list_lookup_total_correct _ _ _ E). by eapply (Forall_lookup_1 is_byte).
  - rewrite list_lookup_total_alt, E. cbn. lia.
Qed.

Definition width (w : nat) : Prop := w = 1%nat \/ w = 2%nat \/ w = 4%nat.

Lemma load_range w m off : width w -> bytes m -> 0 <= load w m off < 256 ^ Z.of_nat w.
Proof.
  intros Hw Hm. pose proof (bytes_at m off Hm). pose proof (bytes_at m (off + 1) Hm). destruct Hw as [-> | [-> | ->]]; cbn.
  - lia.
  - unfold ld16. rewrite word16_arith by lia. lia.
  - by apply ld32_range.
Qed.

Lemma drop_bytes4 (m : list Z) off a b c d :
  m !! off = Some a -> m !! (off + 1)%nat = Some b -> m !! (off + 2)%nat = Some c -> m !! (off + 3)%nat = Some d ->
  take 4 (drop off m) = [a; b; c; d].
Proof.
  intros Ha Hb Hc Hd. rewrite (drop_S _ _ _ Ha). rewrite Nat.add_1_r in Hb. rewrite (drop_S _ _ _ Hb).
  replace (off + 2)%nat with (S (S off)) in Hc by lia. rewrite (drop_S _ _ _ Hc).
  replace (off + 3)%nat with (S (S (S off))) in Hd by lia. by rewrite (drop_S _ _ _ Hd).
Qed.

Lemma store_load w m off :
  width w -> bytes m -> (off + w <= length m)%nat -> store_int (Z.of_nat w) (load w m off) = take w (drop off m).
Proof.
  intros Hw Hm Hl. destruct (lookup_lt_is_Some_2 m off) as [a Ha]; [destruct Hw as [-> | [-> | ->]]; lia|].
  pose proof (Forall_lookup_1 _ _ _ _ Hm Ha) as Ba. cbn in Ba. apply list_lookup_total_correct in Ha as Ta.
  destruct Hw as [-> | [-> | ->]].
  - rewrite (drop_S _ _ _ Ha). cbn. unfold store_int, load. cbn. rewrite Ta, u8_small by lia. by rewrite take_0.
  - destruct (lookup_lt_is_Some_2 m (off + 1)) as [b Hb]; [lia|]. pose proof (Forall_lookup_1 _ _ _ _ Hm Hb) as Bb. cbn in Bb.
    apply list_lookup_total_correct in Hb as Tb. rewrite (drop_S _ _ _ Ha). rewrite Nat.add_1_r in Hb. rewrite (drop_S _ _ _ Hb). cbn.
    unfold store_int, load. cbn. unfold ld16, st16. rewrite Ta, Tb, word16_arith, shiftr_div by lia. change (2 ^ 8) with 256. rewrite take_0.
    repeat f_equal; mint; zlia.
  - destruct (lookup_lt_is_Some_2 m (off + 1)) as [b Hb]; [lia|]. destruct (lookup_lt_is_Some_2 m (off + 2)) as [c Hc]; [lia|].
    destruct (lookup_lt_is_Some_2 m (off + 3)) as [d Hd]; [lia|]. rewrite (drop_bytes4 _ _ a b c d) by done.
    pose proof (Forall_lookup_1 _ _ _ _ Hm Hb) as Bb. pose proof (Forall_lookup_1 _ _ _ _ Hm Hc) as Bc. pose proof (Forall_lookup_1 _ _ _ _ Hm Hd) as Bd.
    cbn in Bb, Bc, Bd. apply list_lookup_total_correct in Hb as Tb, Hc as Tc, Hd as Td. unfold store_int, load. cbn. unfold ld32, st32.
    rewrite Ta, Tb, Tc, Td, word32_arith by lia. rewrite !shiftr_div by lia. change (2 ^ 8) with 256. change (2 ^ 16) with 65536. change (2 ^ 24) with 16777216.
    repeat f_equal; mint; zlia.
Qed.

Lemma values_S w m off n : values w m off (S n) = load w m off :: values w m (off + w) n.
Proof.
  unfold values. cbn. rewrite Nat.mul_0_r, Nat.add_0_r. f_equal. rewrite <- seq_shift, map_map.
  apply map_ext. intros i. f_equal. lia.
Qed.

Lemma enc_values w m off n :
  width w -> bytes m -> (off + w * n <= length m)%nat ->
  flat_map (store_int (Z.of_nat w)) (values w m off n) = take (w * n) (drop off m).
Proof.
  intros Hw Hm. revert off. induction n as [|n IH]; intros off Hl; [by rewrite Nat.mul_0_r, take_0|].
  rewrite values_S. cbn [flat_map]. rewrite store_load, IH by (done || lia). rewrite <- drop_drop, take_take_drop. f_equal. lia.
Qed.

Lemma st32_s32 v : 0 <= v < 4294967296 -> st32 (s32 v) = st32 v.
Proof.
  intros Hv. unfold s32. rewrite u32_small by lia. destruct (Z.ltb_spec v 2147483648); [done|]. unfold st32. rewrite !shiftr_div by lia.
  change (2 ^ 8) with 256. change (2 ^ 16) with 65536. change (2 ^ 24) with 16777216.
  assert (forall q r, v - 4294967296 = v + q * r -> 0 < r -> (v - 4294967296) / r = v / r + q) as Hd by (intros q r -> ?; by rewrite Z.div_add by lia).
  rewrite (Hd (-16777216) 256), (Hd (-65536) 65536), (Hd (-256) 16777216) by lia.
  assert (forall x k, u8 (x + 256 * k) = u8 x) as Hu by (intros; mint; zlia).
  by rewrite <- (Hu v (-16777216)), <- (Hu (v / 256) (-65536)), <- (Hu (v / 65536) (-256)), <- (Hu (v / 16777216) (-1)).
Qed.

(** The longest text of a number. *)
Definition conv_len (f : conv) (w : nat) : nat :=
  match f with D => if (w =? 1)%nat then 3 else if (w =? 2)%nat then 5 else 11 | X => 2 + 2 * w end.

(** Does the value survive?  Only 32-bit words in hexadecimal can be too large
    for [strtol]. *)
Definition survives (f : conv) (w : nat) (v : Z) : Prop := f = X -> w = 4%nat -> v < 2147483648.

Lemma sprint_back f w v :
  width w -> 0 <= v < 256 ^ Z.of_nat w ->
  token (sprint f w v) /\ (length (sprint f w v) <= conv_len f w)%nat /\
  (survives f w v -> store_int (Z.of_nat w) (fst (strtol 0 (sprint f w v))) = store_int (Z.of_nat w) v).
Proof.
  intros Hw Hv. assert (exists x, reads_as x (conv_len f w) (sprint f w v) /\ (survives f w v -> store_int (Z.of_nat w) x = store_int (Z.of_nat w) v))
    as (x & (E & Hword & Hl) & Hx).
  { destruct f; cbn [sprint].
    - destruct Hw as [-> | [-> | ->]]; cbn [Nat.eqb conv_len] in *.
      + exists v. split; [|done]. replace v with (clamp_long v) at 1 by (unfold clamp_long; lia). apply fmt_d_nat; [lia|cbn in *; lia].
      + exists v. split; [|done]. replace v with (clamp_long v) at 1 by (unfold clamp_long; lia). apply fmt_d_nat; [lia|cbn in *; lia].
      + exists (s32 v). split; [|intros _; by apply st32_s32]. apply fmt_d_int. change (256 ^ Z.of_nat 4) with 4294967296 in Hv.
        unfold s32. rewrite u32_small by lia. case_match; lia.
    - exists (Z.min v 2147483647). split.
      + apply (hex_reads (2 * w)); [destruct Hw as [-> | [-> | ->]]; lia|].
        replace (16 ^ Z.of_nat (2 * w)) with (256 ^ Z.of_nat w) by (destruct Hw as [-> | [-> | ->]]; done). done.
      + intros Hs. destruct Hw as [-> | [-> | ->]]; cbn in Hv; [rewrite Z.min_l by lia; done..|]. rewrite Z.min_l; [done|].
        pose proof (Hs eq_refl eq_refl). lia. }
  rewrite E. split_and!; [|lia|done]. split; [done|]. destruct f, Hw as [-> | [-> | ->]]; cbn in *; lia.
Qed.

(** ** The file is read back *)

Lemma word_noeol c : word c = true -> noeol c = true.
Proof. unfold noeol. intros Hw. destruct (Z.eqb_spec c 10), (Z.eqb_spec c 13), (Z.eqb_spec c 0); by subst. Qed.
Lemma gap_noeol c : gap c = true -> noeol c = true.
Proof. unfold noeol. intros Hw. destruct (Z.eqb_spec c 10), (Z.eqb_spec c 13), (Z.eqb_spec c 0); by subst. Qed.

Lemma forallb_impl {A} (P Q : A -> bool) l : (forall x, P x = true -> Q x = true) -> forallb P l = true -> forallb Q l = true.
Proof. intros H. rewrite !forallb_forall. auto. Qed.

Lemma commas_noeol toks : Forall token toks -> forallb noeol (commas toks) = true.
Proof.
  induction 1 as [|w toks [Hw _] H IH]; [done|]. pose proof (forallb_impl _ _ _ word_noeol Hw) as H0. destruct toks as [|w' toks]; [done|].
  change (commas (w :: w' :: toks)) with (w ++ bs ", " ++ commas (w' :: toks)). rewrite !forallb_app, IH, H0. done.
Qed.

Definition line_survives (m : list Z) (l : line) : Prop :=
  match l with Fields _ f w off n => Forall (survives f w) (values w m off n) | _ => True end.

(** What reading back a line does to the struct. *)
Definition stored (m m1 : list Z) (l : line) : list Z :=
  match l with Fields _ _ w off n => splice m1 off (take (w * n) (drop off m)) | _ => m1 end.

Lemma values_range w m off n : width w -> bytes m -> Forall (fun v => 0 <= v < 256 ^ Z.of_nat w) (values w m off n).
Proof. intros. apply Forall_forall. intros v [i [-> _]]%list_elem_of_fmap. by apply load_range. Qed.

Lemma values_length w m off n : length (values w m off n) = n.
Proof. unfold values. by rewrite length_map, length_seq. Qed.

Lemma sprints_back f w vs :
  width w -> Forall (fun v => 0 <= v < 256 ^ Z.of_nat w) vs ->
  Forall token (map (sprint f w) vs) /\ (length (commas (map (sprint f w) vs)) <= length vs * (2 + conv_len f w))%nat /\
  (Forall (survives f w) vs ->
   flat_map (store_int (Z.of_nat w)) (map (fun s => fst (strtol 0 s)) (map (sprint f w) vs)) = flat_map (store_int (Z.of_nat w)) vs).
Proof.
  intros Hw. induction 1 as [|v vs Hv _ (IH1 & IH2 & IH3)]; [done|]. destruct (sprint_back f w v Hw Hv) as (H1 & H2 & H3).
  split_and!; [by constructor| |].
  - cbn [map length]. destruct vs as [|v' vs]; [cbn in *; lia|].
    change (commas (?a :: map (sprint f w) (v' :: vs))) with (a ++ bs ", " ++ commas (map (sprint f w) (v' :: vs))).
    rewrite !length_app. change (length (bs ", ")) with 2%nat. lia.
  - intros [Hs Hss]%Forall_cons. cbn [map flat_map]. by rewrite H3, IH3.
Qed.

Lemma fields_ok_inv size label f w off n :
  line_ok size (Fields label f w off n) = true ->
  exists name sep e, label = name ++ sep /\ name_ok name = true /\ sep <> [] /\ forallb gap sep = true /\ (5 <= length label)%nat /\
    (forall pars, wifi_nvm_cali_table_match (Cmd name pars) = Some e) /\ mem_offset e = off /\ t_type e = Z.of_nat w /\
    width w /\ (1 <= n <= 256)%nat /\ (off + w * n <= size)%nat.
Proof.
  cbn [line_ok]. intros H. repeat (apply andb_true_iff in H as [H ?]).
  destruct (wifi_nvm_cali_table_match _) as [e|] eqn:E; [|done].
  repeat match goal with
         | H : _ && _ = true |- _ => apply andb_true_iff in H as [? ?]
         | H : (_ <=? _)%nat = true |- _ => apply Nat.leb_le in H
         | H : (_ =? _)%nat = true |- _ => apply Nat.eqb_eq in H
         | H : (_ =? _) = true |- _ => apply Z.eqb_eq in H
         end.
  exists (take (word_prefix label) label), (drop (word_prefix label) label), e. rewrite take_drop. split_and!; try done; try lia.
  - unfold name_ok. repeat (apply andb_true_iff; split); try done. by apply Z.eqb_eq.
  - intros Hs. by rewrite Hs in *.
  - unfold width. destruct (Nat.eqb_spec w 1), (Nat.eqb_spec w 2), (Nat.eqb_spec w 4); try done; lia.
Qed.

Lemma line_back size m m1 l :
  line_ok size l = true -> bytes m -> (size <= length m)%nat -> length m1 = size -> line_survives m l ->
  forallb noeol (sprint_line m l) = true /\ take_line (sprint_line m l) m1 = Some (stored m m1 l).
Proof.
  intros Hok Hm Hsz H1 Hs. destruct l as [s|label z|label f w off n]; [|done|].
  - cbn [sprint_line stored line_ok] in *. apply andb_true_iff in Hok as [Hn Hok]. split; [done|]. unfold take_line. destruct (Nat.leb_spec 5 (length s)); [|done].
    destruct (Nat.ltb_spec (length s) 5); [lia|]. cbn [orb] in Hok. destruct (get_cmd_par (s ++ [10])) as [cmd|]; [|done]. cbn [mbind option_bind].
    by destruct (wifi_nvm_cali_table_match cmd).
  - destruct (fields_ok_inv _ _ _ _ _ _ Hok) as (name & sep & e & -> & Hname & Hsep & Hgap & Hlen & Htab & He & Ht & Hw & Hn & Hsize).
    pose proof (values_range w m off n Hw Hm) as Hr. destruct (sprints_back f w _ Hw Hr) as (Htok & _ & Hback). specialize (Hback Hs).
    cbn [sprint_line]. split.
    + unfold name_ok in Hname. apply andb_true_iff in Hname as [[Hword _]%andb_true_iff _]. rewrite !forallb_app, commas_noeol by done.
      by rewrite (forallb_impl _ _ _ word_noeol Hword), (forallb_impl _ _ _ gap_noeol Hgap).
    + unfold take_line. destruct (Nat.leb_spec 5 (length ((name ++ sep) ++ commas (map (sprint f w) (values w m off n))))) as [_|H5];
        [|rewrite length_app in H5; lia].
      assert (map (sprint f w) (values w m off n) <> []) as Hne.
      { intros E%(f_equal length). rewrite length_map, values_length in E. cbn in E. lia. }
      rewrite <- app_assoc, get_cmd_line by (done || rewrite length_map, values_length; lia). cbn [mbind option_bind].
      rewrite Htab. unfold wifi_nvm_set_cmd. rewrite Ht, He. cbn [par].
      assert (negb (1 =? Z.of_nat w) && negb (2 =? Z.of_nat w) && negb (4 =? Z.of_nat w) = false) as -> by (by destruct Hw as [-> | [-> | ->]]).
      rewrite set_loop_ok; [|destruct Hw as [-> | [-> | ->]]; lia|rewrite !length_map, values_length, Nat2Z.id; lia].
      cbn [mbind option_bind fmap option_fmap option_map snd stored]. by rewrite Hback, enc_values by (done || lia).
Qed.

Lemma stored_length size m m1 l :
  line_ok size l = true -> (size <= length m)%nat -> length m1 = size -> length (stored m m1 l) = size.
Proof.
  intros Hok Hm H1. destruct l as [s|label z|label f w off n]; [done|done|].
  destruct (fields_ok_inv _ _ _ _ _ _ Hok) as (_ & _ & _ & _ & _ & _ & _ & _ & _ & _ & _ & _ & _ & Hsize).
  cbn [stored]. rewrite splice_length; [done|]. rewrite length_take, length_drop. lia.
Qed.

Lemma lines_back size m ls m1 :
  forallb (line_ok size) ls = true -> bytes m -> (size <= length m)%nat -> length m1 = size -> Forall (line_survives m) ls ->
  takes_lines (map (sprint_line m) ls) m1 (foldl (stored m) m1 ls).
Proof.
  intros Hok Hm Hsz H1 Hs. revert m1 H1. induction Hs as [|l ls Hl _ IH]; intros m1 H1; cbn [map foldl]; [constructor|].
  cbn in Hok. apply andb_true_iff in Hok as [Hlo Hok]. destruct (line_back size m m1 l Hlo Hm Hsz H1 Hl) as [Hn Ht].
  econstructor; [done|done|]. by apply IH, stored_length.
Qed.

Definition covers (k : nat) (l : line) : Prop :=
  match l with Fields _ _ w off n => (off <= k < off + w * n)%nat | _ => False end.

Lemma stored_agrees size m m1 l k :
  line_ok size l = true -> (size <= length m)%nat -> length m1 = size ->
  m1 !! k = m !! k \/ covers k l -> stored m m1 l !! k = m !! k.
Proof.
  intros Hok Hm H1 Hk. destruct l as [s|label z|label f w off n]; [by destruct Hk|done|].
  destruct (fields_ok_inv _ _ _ _ _ _ Hok) as (_ & _ & _ & _ & _ & _ & _ & _ & _ & _ & _ & _ & _ & Hsize).
  cbn [stored covers] in *. rewrite splice_lookup by (rewrite length_take, length_drop; lia).
  rewrite length_take, length_drop, Nat.min_l by lia. case_decide as Hd; [|destruct Hk; [done|lia]].
  rewrite lookup_take_lt, lookup_drop by lia. f_equal. lia.
Qed.

Lemma lines_agree size m ls m1 k :
  forallb (line_ok size) ls = true -> (size <= length m)%nat -> length m1 = size ->
  m1 !! k = m !! k \/ Exists (covers k) ls -> foldl (stored m) m1 ls !! k = m !! k.
Proof.
  revert m1. induction ls as [|l ls IH]; intros m1 Hok Hm H1 Hk; cbn [foldl].
  { destruct Hk as [Hk|Hk%Exists_nil]; [done|done]. }
  cbn in Hok. apply andb_true_iff in Hok as [Hlo Hok]. apply IH; [done|done|by apply stored_length|].
  rewrite Exists_cons in Hk. destruct Hk as [Hk|[Hk|Hk]]; [left|left|by right]; eapply stored_agrees; eauto.
Qed.

(** Every field of the struct is in a line of the file. *)
Lemma leaves_covered :
  forallb (fun x => let '(_, (off, w, n)) := x in
    existsb (fun l => match l with Fields _ _ w' off' n' => (off' =? off)%nat && (w * n <=? w' * n')%nat | _ => false end) (cali_lines false))
    (leaves "" 0 wifi_cali_t) = true.
Proof. vm_compute. reflexivity. Qed.

Lemma data_covered k : k ∈ data_bytes wifi_cali_t -> Exists (covers k) (cali_lines false).
Proof.
  unfold data_bytes. intros ([x [[off w] n]] & Hx & Hk)%list_elem_of_In%in_flat_map.
  pose proof leaves_covered as H. rewrite forallb_forall in H. specialize (H _ Hx). cbv beta iota in H. apply existsb_exists in H as (l & Hl & H).
  apply Exists_exists. exists l. split; [by apply list_elem_of_In|]. destruct l as [| |label f w' off' n']; [done|done|].
  apply andb_true_iff in H as [->%Nat.eqb_eq H%Nat.leb_le]. apply in_seq in Hk. cbn. lia.
Qed.

(** ** The text fits *)

Definition line_max (l : line) : nat :=
  match l with Text s => length s | Value label z => length label + length (fmt_d z) | Fields label f w _ n => length label + n * (2 + conv_len f w) end.

Lemma line_fits m l : (match l with Fields _ _ w _ _ => width w | _ => True end) -> bytes m -> (length (sprint_line m l) <= line_max l)%nat.
Proof.
  destruct l as [s|label z|label f w off n]; cbn [sprint_line line_max]; intros Hw Hm; rewrite ?length_app; [done|done|].
  destruct (sprints_back f w _ Hw (values_range w m off n Hw Hm)) as (_ & H & _). rewrite values_length in H. lia.
Qed.

Lemma join_fits m ls :
  forallb (fun l => match l with Fields _ _ w _ _ => (w =? 1)%nat || (w =? 2)%nat || (w =? 4)%nat | _ => true end) ls = true -> bytes m ->
  (length (mjoin (map (fun l => sprint_line m l ++ [10%Z]) ls)) <= foldr (fun l n => S (line_max l) + n) 0 ls)%nat.
Proof.
  intros H Hm. induction ls as [|l ls IH]; [done|]. cbn in H. apply andb_true_iff in H as [Hl H]. specialize (IH H).
  cbn [map foldr]. change (mjoin (?a :: ?b)) with (a ++ mjoin b). rewrite !length_app. cbn [length].
  assert (length (sprint_line m l) <= line_max l)%nat; [|lia].
  apply line_fits; [|done]. destruct l; try done. unfold width. destruct (Nat.eqb_spec w 1), (Nat.eqb_spec w 2), (Nat.eqb_spec w 4); try done; lia.
Qed.

(** Whatever the struct holds, the text and its NUL fit in the 16 KB buffer. *)
Lemma cali_text_fits calibrating data : bytes data -> (length (cali_text calibrating data) < CALI_MAX_SIZE)%nat.
Proof.
  intros Hd. unfold cali_text. eapply Nat.le_lt_trans; [apply join_fits; [|done]|].
  - destruct calibrating; vm_compute; reflexivity.
  - apply Nat.ltb_lt. destruct calibrating; vm_compute; reflexivity.
Qed.

(** ** A calibration in progress

    While the property says "true" the file says that the chip is not calibrated:
    the text is that of the struct with the field cleared. *)

Definition is_calibrated_at : nat := offsetof wifi_cali_t "cali_config.is_calibrated".

Definition as_saved (calibrating : bool) (data : list Z) : list Z := if calibrating then <[is_calibrated_at := 0]> data else data.

Definition avoids (k : nat) (l : line) : bool :=
  match l with Fields _ _ w off n => ((w =? 1) || (w =? 2) || (w =? 4))%nat && ((k <? off) || (off + w * n <=? k))%nat | _ => true end.

Lemma load_insert w m k v off : width w -> (k < off \/ off + w <= k)%nat -> load w (<[k := v]> m) off = load w m off.
Proof.
  intros [-> | [-> | ->]] Hk; unfold load, ld16, ld32; cbn; by rewrite !list_lookup_total_insert_ne by lia.
Qed.

Lemma values_avoids m k v label f w off n :
  avoids k (Fields label f w off n) = true -> values w (<[k := v]> m) off n = values w m off n.
Proof.
  cbn [avoids]. intros [Hw Hk]%andb_true_iff.
  assert (width w) as Hw' by (unfold width; destruct (Nat.eqb_spec w 1), (Nat.eqb_spec w 2), (Nat.eqb_spec w 4); try done; lia).
  unfold values. apply map_ext_in. intros i Hi%in_seq. apply load_insert; [done|].
  apply orb_true_iff in Hk as [?%Nat.ltb_lt|Hk%Nat.leb_le]; [left; lia|right]. assert (w * S i <= w * n)%nat by (apply Nat.mul_le_mono_l; lia). lia.
Qed.

Lemma sprint_line_avoids m k v l : avoids k l = true -> sprint_line (<[k := v]> m) l = sprint_line m l.
Proof. destruct l; [done|done|]. cbn [sprint_line]. intros Ha. by rewrite (values_avoids _ _ _ _ _ _ _ _ Ha). Qed.

Lemma cali_lines_split c :
  cali_lines c = take 10 (cali_lines false) ++
    (if c then Value (bs "is_calibrated   = ") 0 else Fields (bs "is_calibrated   = ") D 1 is_calibrated_at 1) :: drop 11 (cali_lines false).
Proof. destruct c; reflexivity. Qed.

Lemma others_avoid : Forall (fun l => avoids is_calibrated_at l = true) (take 10 (cali_lines false) ++ drop 11 (cali_lines false)).
Proof. apply Forall_forall. intros l Hl%list_elem_of_In. revert l Hl. apply forallb_forall. vm_compute. reflexivity. Qed.

Lemma cali_text_as_saved c data :
  (is_calibrated_at < length data)%nat -> cali_text c data = cali_text false (as_saved c data).
Proof.
  intros Hl. destruct c; [|done]. unfold cali_text, as_saved. rewrite (cali_lines_split true), (cali_lines_split false), !map_app. cbn [map].
  destruct (proj1 (Forall_app _ _ _) others_avoid) as [Ha Hb]. f_equal. f_equal; [|f_equal].
  - apply map_ext_in. intros l Hi%list_elem_of_In. rewrite Forall_forall in Ha. by rewrite sprint_line_avoids by auto.
  - cbn [sprint_line]. do 2 f_equal. change (values 1 ?m is_calibrated_at 1) with [m !!! (is_calibrated_at + 1 * 0)%nat].
    rewrite Nat.add_0_r. by rewrite list_lookup_total_insert_eq by done.
  - apply map_ext_in. intros l Hi%list_elem_of_In. rewrite Forall_forall in Hb. by rewrite sprint_line_avoids by auto.
Qed.

(** ** Saving and reading *)

Definition calibrating (w : world) : bool := has_prefix (bs "true") (default (bs "false") (props w !! "debug.connectivity.calibrating")).

(** The file can be created or opened and written. *)
Definition writable (path : string) (w : world) : Prop :=
  match files w !! path with Some f => f_wopen f = true /\ f_ok f = true | None => True end.

Lemma write_at_nil d : write_at [] 0 d = d.
Proof. unfold write_at. cbn. by rewrite drop_nil, app_nil_r. Qed.

Lemma save_ok data w :
  bytes data -> writable WIFI_CALI_FILE_WRITE_BACK w ->
  exists w1, wlan_save_cali_data_to_file data w = Some (0, w1) /\
    files w1 = <[WIFI_CALI_FILE_WRITE_BACK := File (cali_text (calibrating w) data) true true true]> (files w).
Proof.
  intros Hd Hw. unfold wlan_save_cali_data_to_file. rewrite bind_run. unfold property_get, gets. cbv zeta. fold (calibrating w).
  pose proof (cali_text_fits (calibrating w) data Hd) as Hf. destruct (Nat.ltb_spec (length (cali_text (calibrating w) data)) CALI_MAX_SIZE); [|lia].
  rewrite bind_run. unfold add_to_file. rewrite bind_run.
  assert (exists w0, creat_trunc WIFI_CALI_FILE_WRITE_BACK w = Some (true, w0) /\
            files w0 = <[WIFI_CALI_FILE_WRITE_BACK := File [] true true true]> (files w)) as (w0 & -> & Hw0).
  { unfold creat_trunc. unfold writable in Hw. destruct (files w !! WIFI_CALI_FILE_WRITE_BACK) as [f|]; [|by eexists].
    destruct Hw as [-> ->]. by eexists. }
  rewrite bind_run. unfold write_file. rewrite Hw0, lookup_insert_eq. cbn [f_ok f_reg f_data f_wopen].
  rewrite mret_run. eexists. split.
  - rewrite mret_run. by destruct (Z.ltb_spec (Z.of_nat (length (cali_text (calibrating w) data))) 0); [lia|].
  - cbn [files set_files]. rewrite insert_insert_eq. f_equal. f_equal. apply write_at_nil.
Qed.

(** No 32-bit word that is printed in hexadecimal is 2^31 or more. *)
Definition hex_words_small (data : list Z) : Prop := Forall (line_survives data) (cali_lines false).

Lemma hex_words_as_saved c data : hex_words_small data -> hex_words_small (as_saved c data).
Proof.
  destruct c; [|done]. unfold hex_words_small, as_saved. pose proof others_avoid as Ha. rewrite (cali_lines_split false).
  rewrite !Forall_app, !Forall_cons. intros (H1 & _ & H2). apply Forall_app in Ha as [Ha1 Ha2].
  assert (forall l, avoids is_calibrated_at l = true -> line_survives data l -> line_survives (<[is_calibrated_at := 0]> data) l) as Hl.
  { intros [s|label z|label f w off n] Hl; [done|done|]. cbn [line_survives]. by rewrite (values_avoids _ _ _ _ _ _ _ _ Hl). }
  rewrite !Forall_forall in *. split_and!; [auto| |auto]. cbn [line_survives]. apply Forall_forall. by intros v _.
Qed.

Lemma cali_text_back data m0 :
  bytes data -> (sizeof wifi_cali_t <= length data)%nat -> length m0 = sizeof wifi_cali_t -> hex_words_small data ->
  exists m1, wifi_nvm_buf_operate (cali_text false data) 2 m0 = Some (0, m1) /\
    forall k, k ∈ data_bytes wifi_cali_t -> m1 !! k = data !! k.
Proof.
  intros Hd Hl H0 Hs. exists (foldl (stored data) m0 (cali_lines false)). split.
  - unfold wifi_nvm_buf_operate. destruct (Nat.eqb_spec (length (cali_text false data)) 0) as [E|_].
    { apply length_zero_iff_nil in E. destruct (cali_lines false) as [|l ls] eqn:El; [apply (f_equal length) in El; vm_compute in El; discriminate El|].
      unfold cali_text in E. rewrite El in E. cbn [map] in E. change (mjoin (?a :: ?b)) with (a ++ mjoin b) in E.
      apply app_eq_nil in E as [E _]. by destruct (sprint_line data l). }
    pose proof (operate_lines _ _ _ [] (lines_back _ data (cali_lines false) m0 cali_lines_ok Hd Hl H0 Hs)) as H. cbn zeta in H.
    rewrite map_map in H. exact H.
  - intros k Hk. eapply lines_agree; [apply cali_lines_ok|done|done|]. right. by apply data_covered.
Qed.

(** What is saved is read back from the file, apart from padding. *)
Lemma save_read data m0 w :
  bytes data -> length data = sizeof wifi_cali_cp_t -> length m0 = sizeof wifi_cali_t -> hex_words_small data ->
  writable WIFI_CALI_FILE_WRITE_BACK w ->
  exists w1 m1, wlan_save_cali_data_to_file data w = Some (0, w1) /\
    wifi_nvm_parse WIFI_CALI_FILE_WRITE_BACK 2 m0 w1 = Some ((0, m1), w1) /\
    (forall k, k ∈ data_bytes wifi_cali_t -> m1 !! k = as_saved (calibrating w) data !! k) /\
    (forall path, path <> WIFI_CALI_FILE_WRITE_BACK -> files w1 !! path = files w !! path).
Proof.
  intros Hd Hl H0 Hs Hw. destruct (save_ok data w Hd Hw) as (w1 & Hsave & Hf).
  assert (length data = 4096%nat) as Hl' by (rewrite Hl; vm_compute; reflexivity).
  assert (sizeof wifi_cali_t = 3008%nat) as Hsz by (vm_compute; reflexivity).
  assert (is_calibrated_at = 1%nat) as Hat by (vm_compute; reflexivity).
  destruct (cali_text_back (as_saved (calibrating w) data) m0) as (m1 & Hop & Hm1); [| |done|by apply hex_words_as_saved|].
  { unfold as_saved. destruct (calibrating w); [|done]. by apply Forall_insert. }
  { unfold as_saved. destruct (calibrating w); rewrite ?length_insert; lia. }
  exists w1, m1. split_and!; [done| |done|].
  - unfold wifi_nvm_parse. rewrite bind_run. unfold open_read, gets. rewrite Hf, lookup_insert_eq. unfold read_file. cbn [f_ok f_data].
    pose proof (cali_text_fits (calibrating w) data Hd) as Hfit. unfold CALI_MAX_SIZE in Hfit. rewrite take_ge by (unfold CONFIG_MAX_SIZE; lia).
    destruct (Z.ltb_spec (Z.of_nat (length (cali_text (calibrating w) data))) 0); [lia|]. rewrite bind_run. unfold lift.
    rewrite cali_text_as_saved by (rewrite Hat; lia). by rewrite Hop.
  - intros path Hp. by rewrite Hf, lookup_insert_ne by done.
Qed.

(** ** Defects *)

(** The file that is written is not the one that is read: the parameters of the
    next start are what they were. *)
Theorem saved_file_not_read data p w w1 :
  bytes data -> writable WIFI_CALI_FILE_WRITE_BACK w -> wlan_save_cali_data_to_file data w = Some (0, w1) ->
  fst <$> get_connectivity_rf_param p w1 = fst <$> get_connectivity_rf_param p w.
Proof.
  intros Hd Hw Hs. destruct (save_ok data w Hd Hw) as (w2 & Hs2 & Hf). rewrite Hs in Hs2. simplify_eq.
  assert (forall path type q, path <> WIFI_CALI_FILE_WRITE_BACK ->
    exists r, wifi_nvm_parse path type q w = (fun r => (r, w)) <$> r /\ wifi_nvm_parse path type q w2 = (fun r => (r, w2)) <$> r) as H.
  { intros path type q Hp. unfold wifi_nvm_parse. rewrite !bind_run. unfold open_read, gets. rewrite Hf, lookup_insert_ne by done.
    destruct (files w !! path) as [f|]; [|by exists (Some (-1, q))]. destruct (read_file f CONFIG_MAX_SIZE) as [len pBuf].
    destruct (len <? 0); [by exists (Some (-2, q))|]. rewrite !bind_run. unfold lift.
    destruct (wifi_nvm_buf_operate pBuf type q) as [[ret d]|]; [by exists (Some (if ret <? 0 then -2 else 0, d))|by exists None]. }
  unfold get_connectivity_rf_param, get_connectivity_config_param, get_connectivity_cali_param. rewrite !bind_run.
  destruct (H WIFI_CONFIG_FILE 1 (take (sizeof wifi_config_t) p)) as ([[r1 d1]|] & -> & ->); [done| |done]. cbn [fmap option_fmap option_map].
  rewrite !mret_run. destruct (negb (0 =? r1)); [done|]. change (0 <? 0) with false. cbv iota. rewrite !bind_run.
  destruct (H WIFI_CALI_FILE 2 (take (sizeof wifi_cali_t) (drop (sizeof wifi_config_t) (splice p 0 d1)))) as ([[r2 d2]|] & -> & ->); [done| |done].
  cbn [fmap option_fmap option_map]. rewrite !mret_run. by destruct (negb (0 =? r2)).
Qed.

(** A word of 2^31 or more in hexadecimal comes back as 2^31 - 1. *)
Theorem hex_word_clamped v : 2147483648 <= v < 4294967296 -> fst (strtol 0 (sprint X 4 v)) = 2147483647.
Proof.
  intros Hv. destruct (hex_reads 8 v) as [E _]; [lia|change (16 ^ Z.of_nat 8) with 4294967296; lia|]. cbn [sprint]. rewrite E. lia.
Qed.

(** The name of the field [reserved_w32_regs] is not in the table. *)
Theorem reserved_w32_unreachable pars : wifi_nvm_config_table_match (Cmd (bs "reserved_w32_regs") pars) = None.
Proof. vm_compute. reflexivity. Qed.

(** Seven numbers for the six of [channel_range] change the next field. *)
Theorem long_list_overwrites :
  snd <$> wifi_nvm_buf_operate (bs "channel_range = 1,2,3,4,5,6,7" ++ [10]) 1 (replicate 616 0) =
  Some (splice (splice (replicate 616 0) (offsetof wifi_config_t "tx_power_control.channel_range") [1; 2; 3; 4; 5; 6])
          (offsetof wifi_config_t "tx_power_control.b_tx_power_dr0") [7]).
Proof. vm_compute. reflexivity. Qed.

(** A name of 64 characters overruns [itm]. *)
Theorem long_name_undefined : wifi_nvm_buf_operate (replicate 64 97 ++ [10]) 2 (replicate 3008 0) = None.
Proof. vm_compute. reflexivity. Qed.
