(* ===== verification/RfCali.v ===== *)
(** * A calibration of the connectivity chip, with its files

    [WcnDl] takes the RF parameters as a parameter and logs the calibration data
    that [download_wifi_calibration] saves; [RfParam] models the text files.  Here
    they are put together: the parameters are those of the files, and what is
    saved goes to the file it is saved in. *)

From S2P Require Import Prelude EngFrame EngText EngSys Hdlc ModemBoot WcnDl RfParam.

(** [wifi_rf_cali.wifi_cali.cali_config.is_calibrated]. *)
Definition rf_is_calibrated (rf : list Z) : bool := negb (rf !!! (sizeof wifi_config_t + is_calibrated_at)%nat =? 0).

(** [download_wifi_calibration] on the service [p] and the file system [w], in the
    order of its body; [rf0] is the struct [wifi_rf_cali] before.  The result of
    reading the parameter files is not looked at. *)
Definition calibration_session (rf0 : list Z) (w : world) (p : pmanager) : option (list Z * world * pmanager) :=
  '(_, p) ← cali_start p;
  '((_, rf), w) ← get_connectivity_rf_param rf0 w;
  '(_, p) ← cali_exchange rf p;
  '(w, p) ← (if rf_is_calibrated rf then Some (w, p)
             else '(_, w) ← wlan_save_cali_data_to_file (wifi_cali_cp p) w;
                  '(_, p) ← emit (Saved (wifi_cali_cp p)) p; Some (w, p));
  '(_, p) ← cali_end p;
  Some (rf, w, p).

(** A session is [WcnDl]'s [download_wifi_calibration] with the parameters of the
    files, followed on the file system by the save it logs. *)
Lemma session_eq rf0 w w1 p p' ret rf :
  get_connectivity_rf_param rf0 w = Some ((ret, rf), w1) -> rf_is_calibrated rf = false ->
  download_wifi_calibration rf false p = Some (tt, p') ->
  calibration_session rf0 w p =
    ('(_, w2) ← wlan_save_cali_data_to_file (wifi_cali_cp p') w1; Some (rf, w2, p')).
Proof.
  intros Hget Hc Hrun. unfold download_wifi_calibration in Hrun. rewrite pbind_run in Hrun. unfold calibration_session.
  destruct (cali_start p) as [[n p1]|]; [|done]. rewrite pbind_run in Hrun. cbn [mbind option_bind]. rewrite Hget. cbn [mbind option_bind].
  destruct (cali_exchange rf p1) as [[[] p2]|]; [|done]. rewrite Hc. rewrite pbind_run in Hrun. unfold look in Hrun.
  rewrite pbind_run in Hrun. cbn [mbind option_bind]. unfold emit, put in *.
  assert (forall q q', cali_end q = Some (tt, q') -> wifi_cali_cp q' = wifi_cali_cp q) as Hend.
  { intros q q'. unfold cali_end, dev. rewrite pbind_run. destruct (chan _ _) as [[m b]|]; [|done]. rewrite pret_run. by intros [= <-]. }
  rewrite (Hend _ _ Hrun). change (wifi_cali_cp (add_log _ p2)) with (wifi_cali_cp p2).
  destruct (wlan_save_cali_data_to_file _ w1) as [[r w2]|]; [|done]. cbn [mbind option_bind]. by rewrite Hrun.
Qed.

(** Decidable form of [hex_words_small]. *)
Definition hex_words_smallb (data : list Z) : bool :=
  forallb (fun l => match l with Fields _ X 4 off n => forallb (fun v => v <? 2147483648) (values 4 data off n) | _ => true end) (cali_lines false).

Lemma hex_words_smallb_ok data : hex_words_smallb data = true -> hex_words_small data.
Proof.
  unfold hex_words_smallb, hex_words_small. intros H. rewrite forallb_forall in H. apply Forall_forall. intros l Hl%list_elem_of_In.
  specialize (H _ Hl). destruct l as [s|label z|label f w off n]; [done|done|]. cbn [line_survives]. apply Forall_forall. intros v Hv -> ->.
  cbn in H. rewrite forallb_forall in H. apply list_elem_of_In, H in Hv. lia.
Qed.

(** A file of 4096 bytes replaces the struct. *)
Lemma cali_after_all d p : length d = length (wifi_cali_cp p) -> cali_after d p = d.
Proof.
  intros Hl. unfold cali_after, splice. rewrite take_0, <- Hl, take_ge by done. cbn [app]. by rewrite drop_ge, app_nil_r by (cbn; lia).
Qed.

(** C32: What a calibration session saves, and where.  Conditions: the parameter files can
    be read and say that the chip is not calibrated; the chip's port takes the three
    writes in full and its first answer is a calibration struct [d] of full size, in
    which no word that is printed in hexadecimal is 2^31 or more (see
    [hex_word_clamped]); and the write-back file can be written.  Then the session
    returns; the chip was sent the parameters of the files between the two marks; and
    the service's own parser, run on the write-back file into any struct, gives a
    struct that agrees with [d] in every byte that is not padding, except that it
    says "not calibrated" while the property of a calibration in progress is "true".
    No other file has changed: neither connectivity_calibration.ini, which the
    comment in the header names as the place of the data, nor any file the service
    reads, so that every later start reads the same parameters as before this
    session. *)
Theorem calibration_saved rf0 rf w p w1 w2 w3 ws d rs :
  get_connectivity_rf_param rf0 w = Some ((0, rf), w) -> rf <> [] -> rf_is_calibrated rf = false ->
  wr (bio (db p)) = w1 :: w2 :: w3 :: ws -> 17 <= w1 -> Z.of_nat (length rf) <= w2 -> 15 <= w3 ->
  rd (bio (db p)) = Some d :: rs -> length d = sizeof wifi_cali_cp_t -> length (wifi_cali_cp p) = sizeof wifi_cali_cp_t ->
  bytes d -> hex_words_small d -> writable WIFI_CALI_FILE_WRITE_BACK w ->
  exists w' p', calibration_session rf0 w p = Some (rf, w', p') /\
    sent (bio (db p')) = sent (bio (db p)) ++ bs "start_calibration" ++ rf ++ bs "end_calibration" /\
    (forall m0, length m0 = sizeof wifi_cali_t -> exists m1,
      wifi_nvm_parse WIFI_CALI_FILE_WRITE_BACK 2 m0 w' = Some ((0, m1), w') /\
      forall k, k ∈ data_bytes wifi_cali_t -> m1 !! k = as_saved (calibrating w) d !! k) /\
    (forall path, path <> WIFI_CALI_FILE_WRITE_BACK -> files w' !! path = files w !! path) /\
    (forall rf1, fst <$> get_connectivity_rf_param rf1 w' = fst <$> get_connectivity_rf_param rf1 w).
Proof.
  intros Hget Hrf Hcal Hwr H1 H2 H3 Hrd Hd Hcp Hb Hs Hw.
  assert (d <> []) as Hne by (intros ->; vm_compute in Hd; discriminate Hd).
  destruct (calibration_ok rf false w1 w2 w3 ws d rs p _ eq_refl Hwr Hrd Hne Hrf H1 H2 H3) as (s' & Hrun & Hsent & _).
  assert (length (replicate (sizeof wifi_cali_t) 0) = sizeof wifi_cali_t) as Hz by apply length_replicate.
  destruct (save_read d _ w Hb Hd Hz Hs Hw) as (w' & _ & Hsave & _ & _ & Hframe).
  eexists w', _. rewrite (session_eq _ _ _ _ _ _ _ Hget Hcal Hrun). cbn [wifi_cali_cp with_log set_cali_cp set_db].
  rewrite cali_after_all by congruence. rewrite Hsave. split; [reflexivity|].
  cbn [db bio with_log set_cali_cp set_db set_bio]. split_and!; [done| |done|].
  - intros m0 H0. destruct (save_read d m0 w Hb Hd H0 Hs Hw) as (w'' & m1 & Hsave' & Hparse & Hm1 & _).
    rewrite Hsave in Hsave'. injection Hsave' as <-. by exists m1.
  - intros rf1. by apply (saved_file_not_read d).
Qed.

(** A chip with two short parameter files, which answers with the bytes 0, 1, 2, ... *)
Definition cali_world : world :=
  init_world (<[WIFI_CONFIG_FILE := File (bs "conf_version = 2" ++ [10] ++ bs "channel_range = 1, 2, 3, 4, 5, 0x0d" ++ [10]) true false true]>
             (<[WIFI_CALI_FILE := File (bs "cali_version = 1" ++ [10] ++ bs "is_calibrated = 0 # not yet" ++ [10]) true false true]> ∅)).
Definition cali_rf : list Z :=
  match get_connectivity_rf_param (replicate 4096 0) cali_world with Some ((_, rf), _) => rf | None => [] end.
Definition cali_answer : list Z := map (fun i => i mod 128) (seqZ 0 4096).
Definition cali_pm : pmanager :=
  Pm [] false false false false false
    (Boot (Io [17; 4096; 15] [Some cali_answer] [] [] []) [] [] [] [] 0 None 0 0 0 []) (replicate 4096 0) [] [] [].

Lemma calibration_saved_witness : exists w' p' m1,
  calibration_session (replicate 4096 0) cali_world cali_pm = Some (cali_rf, w', p') /\
  sent (bio (db p')) = bs "start_calibration" ++ cali_rf ++ bs "end_calibration" /\
  wifi_nvm_parse WIFI_CALI_FILE_WRITE_BACK 2 (replicate 3008 0) w' = Some ((0, m1), w') /\ m1 !! 100%nat = Some 100 /\
  fst <$> get_connectivity_rf_param (replicate 4096 0) w' = Some (0, cali_rf).
Proof.
  destruct (calibration_saved (replicate 4096 0) cali_rf cali_world cali_pm 17 4096 15 [] cali_answer [])
    as (w' & p' & E & Hs & Hm & _ & Hn).
  - vm_compute. reflexivity.
  - intros H%(f_equal length). vm_compute in H. discriminate H.
  - vm_compute. reflexivity.
  - reflexivity.
  - lia.
  - apply Z.leb_le. vm_compute. reflexivity.
  - lia.
  - reflexivity.
  - vm_compute. reflexivity.
  - vm_compute. reflexivity.
  - apply Forall_map, Forall_forall. intros x _. cbn. pose proof (Z.mod_pos_bound x 128). lia.
  - apply hex_words_smallb_ok. vm_compute. reflexivity.
  - vm_compute. exact I.
  - destruct (Hm (replicate 3008 0)) as (m1 & Hp & Hk); [vm_compute; reflexivity|]. exists w', p', m1.
    split; [exact E|]. split; [exact Hs|]. split; [exact Hp|]. split; [|rewrite Hn; vm_compute; reflexivity]. rewrite Hk; [vm_compute; reflexivity|].
    apply list_elem_of_In. assert (existsb (Nat.eqb 100) (data_bytes wifi_cali_t) = true) as (x & Hx & ->%Nat.eqb_eq)%existsb_exists; [vm_compute; reflexivity|done].
Defined.
