(* ===== verification/Modemd.v ===== *)
(** * The modem supervisor: services and AT commands (apps/modemd/modemd.c)

    The supervisor starts and stops the services of each modem by asking [init]
    (properties [ctl.start] and [ctl.stop]), after it has brought the modem into
    multiplexed mode with AT commands on its tty and told it its IMEIs.

    Everything outside the process is data: the properties, [/proc], the IMEI
    files and the partitions in an [env], the results of opens, writes and selects
    in scripts consumed in order.  What the supervisor does is recorded in the
    order it is done in [log].  [exit_modemd] ends the run ([Exited]); [Stuck] is
    a call that does not return, [Undef] a read behind the end of a buffer. *)

From S2P Require Import Prelude EngFrame EngText ModemBoot.

Definition TD_MODEM : Z := 0x3434.
Definition W_MODEM : Z := 0x5656.
Definition LTE_MODEM : Z := 0x7878.
Definition LF_MODEM : Z := 0x6868.
Definition TL_MODEM : Z := 0x9898.

Definition MODEM_READY : Z := 0.
Definition MODEM_ASSERT : Z := 1.
Definition MODEM_RESET : Z := 2.

Definition TD_MODEM_ENABLE_PROP : string := "persist.modem.t.enable".
Definition W_MODEM_ENABLE_PROP : string := "persist.modem.w.enable".
Definition LTE_MODEM_ENABLE_PROP : string := "persist.modem.l.enable".
Definition LF_MODEM_ENABLE_PROP : string := "persist.modem.lf.enable".
Definition TL_MODEM_ENABLE_PROP : string := "persist.modem.tl.enable".
Definition MODEM_EXTERNAL_PROP : string := "ro.modem.external.enable".
Definition TD_SIM_NUM_PROP : string := "ro.modem.t.count".
Definition W_SIM_NUM_PROP : string := "ro.modem.w.count".
Definition LF_SIM_NUM_PROP : string := "ro.modem.lf.count".
Definition TL_SIM_NUM_PROP : string := "ro.modem.tl.count".
Definition LTE_SIM_NUM_PROP : string := "ro.modem.l.count".
Definition TD_TTY_DEV_PROP : string := "ro.modem.t.tty".
Definition W_TTY_DEV_PROP : string := "ro.modem.w.tty".
Definition LTE_TTY_DEV_PROP : string := "ro.modem.l.tty".
Definition TL_TTY_DEV_PROP : string := "ro.modem.tl.tty".
Definition LF_TTY_DEV_PROP : string := "ro.modem.lf.tty".
Definition TTY_DEV_PROP : string := "persist.ttydev".
Definition PHONE_APP_PROP : string := "sys.phone.app".
Definition MODEM_RESET_PROP : string := "persist.sys.sprd.modemreset".
Definition SSDA_MODE_PROP : string := "persist.radio.ssda.mode".
Definition SSDA_TESTMODE_PROP : string := "persist.radio.ssda.testmode".
Definition SVLTE_MODE : string := "svlte".
Definition PHONE_APP : string := "com.android.phone".
Definition MODEM_ENGCTRL_PRO : string := "persist.sys.engpc.disable".
Definition SSDA_TEST_MODE_SVLTE : Z := 0.
Definition MD_MAX_IMEI_STR_LENGTH : nat := 15.
Definition IMEI_NUM : nat := 4.

(** What the supervisor does: a property set, a device opened, bytes written to a descriptor, a
    descriptor closed, a shell command, a thread started for a modem, a file of
    [/proc] written, a bank of modem memory written at an offset, the bus monitor and
    the wake lock of the process switched. *)
Inductive effect :=
| PropSet (k : string) (v : list Z)
| Opened (path : list Z) (fd : Z)
| Wrote (fd : Z) (d : list Z)
| Closed (fd : Z)
| System (cmd : list Z)
| Thread (f : string) (modem : Z)
| ProcFile (path d : list Z)
| Bank (path : list Z) (off : Z) (d : list Z)
| BusMonitor (on : bool)
| WakeLock (on : bool).

(** [open]: a descriptor, EINTR or EAGAIN, another error. *)
Inductive ores := OpenFd (fd : Z) | OpenAgain | OpenFail.
(** [select] on one descriptor and the [read] after it: an error (EINTR or EAGAIN
    or another one), the timeout, or the bytes [read] returns ([None]: it fails). *)
Inductive sel := SelErr (again : bool) | SelTimeout | SelRead (d : option (list Z)).

(** [procs]: the entries of [/proc] and what [read] gives of their [cmdline] when
    it can be opened; [texts]: the small files; [parts]: the partitions; [banks]
    tells which file of [/proc] can be opened, [bank_w] how many bytes a write to a
    bank at an offset takes; [timer_ok] whether the alarm timer can be set up. *)
Record env := Env {
  props : string -> option (list Z);
  procs : list (list Z * option (list Z));
  texts : string -> option (list Z);
  parts : list Z -> option (list Z);
  banks : list Z -> bool;
  bank_w : list Z -> Z -> Z -> Z;
  timer_ok : bool;
}.

(** [select] on the clients: an error, the timeout, or the readable descriptors
    and what [read] gives of one. *)
Inductive dsel := DErr (eintr : bool) | DTimeout | DReady (r : gset Z) (rd : Z -> option (list Z)).

(** The state of [modemd_ext.c]: [sStartLteThread], [sSSDAMode], [sTestMode],
    [sFdModemCtl]. *)
Record ext_modem := Ext { sStartLteThread : bool; sSSDAMode : bool; sTestMode : Z; sFdModemCtl : Z }.

(** [md_clients] and [engpc] are the tables [client_fd] and [engpc_client_fd];
    [mstate] the states of the five modems; [locking] is [g_b_wake_locking].
    Scripts: [opens], [wrs] (results of writes to devices), [sels], [cws] (whether a
    write to a socket succeeds), [dsels]. *)
Record md := Md {
  en : env;
  opens : list ores;
  wrs : list Z;
  sels : list sel;
  cws : list bool;
  dsels : list dsel;
  ttydev_fd : Z;
  md_clients : list Z;
  engpc : list Z;
  tdblk : bool;
  lteblk : bool;
  mstate : Z -> Z;
  locking : bool;
  ext : ext_modem;
  log : list effect;
}.

Definition set_en (e : env) (s : md) : md :=
  Md e (opens s) (wrs s) (sels s) (cws s) (dsels s) (ttydev_fd s) (md_clients s) (engpc s) (tdblk s) (lteblk s) (mstate s) (locking s) (ext s) (log s).
Definition set_opens (l : list ores) (s : md) : md :=
  Md (en s) l (wrs s) (sels s) (cws s) (dsels s) (ttydev_fd s) (md_clients s) (engpc s) (tdblk s) (lteblk s) (mstate s) (locking s) (ext s) (log s).
Definition set_wrs (l : list Z) (s : md) : md :=
  Md (en s) (opens s) l (sels s) (cws s) (dsels s) (ttydev_fd s) (md_clients s) (engpc s) (tdblk s) (lteblk s) (mstate s) (locking s) (ext s) (log s).
Definition set_sels (l : list sel) (s : md) : md :=
  Md (en s) (opens s) (wrs s) l (cws s) (dsels s) (ttydev_fd s) (md_clients s) (engpc s) (tdblk s) (lteblk s) (mstate s) (locking s) (ext s) (log s).
Definition set_cws (l : list bool) (s : md) : md :=
  Md (en s) (opens s) (wrs s) (sels s) l (dsels s) (ttydev_fd s) (md_clients s) (engpc s) (tdblk s) (lteblk s) (mstate s) (locking s) (ext s) (log s).
Definition set_dsels (l : list dsel) (s : md) : md :=
  Md (en s) (opens s) (wrs s) (sels s) (cws s) l (ttydev_fd s) (md_clients s) (engpc s) (tdblk s) (lteblk s) (mstate s) (locking s) (ext s) (log s).
Definition set_ttydev (fd : Z) (s : md) : md :=
  Md (en s) (opens s) (wrs s) (sels s) (cws s) (dsels s) fd (md_clients s) (engpc s) (tdblk s) (lteblk s) (mstate s) (locking s) (ext s) (log s).
Definition set_md_clients (l : list Z) (s : md) : md :=
  Md (en s) (opens s) (wrs s) (sels s) (cws s) (dsels s) (ttydev_fd s) l (engpc s) (tdblk s) (lteblk s) (mstate s) (locking s) (ext s) (log s).
Definition set_engpc (l : list Z) (s : md) : md :=
  Md (en s) (opens s) (wrs s) (sels s) (cws s) (dsels s) (ttydev_fd s) (md_clients s) l (tdblk s) (lteblk s) (mstate s) (locking s) (ext s) (log s).
Definition set_blk (t l : bool) (s : md) : md :=
  Md (en s) (opens s) (wrs s) (sels s) (cws s) (dsels s) (ttydev_fd s) (md_clients s) (engpc s) t l (mstate s) (locking s) (ext s) (log s).
Definition set_mstate (modem v : Z) (s : md) : md :=
  Md (en s) (opens s) (wrs s) (sels s) (cws s) (dsels s) (ttydev_fd s) (md_clients s) (engpc s) (tdblk s) (lteblk s) (fun m => if m =? modem then v else mstate s m) (locking s) (ext s) (log s).
Definition set_locking (b : bool) (s : md) : md :=
  Md (en s) (opens s) (wrs s) (sels s) (cws s) (dsels s) (ttydev_fd s) (md_clients s) (engpc s) (tdblk s) (lteblk s) (mstate s) b (ext s) (log s).
Definition set_ext (x : ext_modem) (s : md) : md :=
  Md (en s) (opens s) (wrs s) (sels s) (cws s) (dsels s) (ttydev_fd s) (md_clients s) (engpc s) (tdblk s) (lteblk s) (mstate s) (locking s) x (log s).
Definition add_log (l : list effect) (s : md) : md :=
  Md (en s) (opens s) (wrs s) (sels s) (cws s) (dsels s) (ttydev_fd s) (md_clients s) (engpc s) (tdblk s) (lteblk s) (mstate s) (locking s) (ext s) (log s ++ l).

(** ** The monad *)

Inductive res (A : Type) := Ret (a : A) (s : md) | Exited (s : md) | Stuck | Undef.
Arguments Ret {A}. Arguments Exited {A}. Arguments Stuck {A}. Arguments Undef {A}.

Definition Sv (A : Type) : Type := md -> res A.
#[export] Instance Sv_ret : MRet Sv := fun A a s => Ret a s.
#[export] Instance Sv_bind : MBind Sv := fun A A' f m s =>
  match m s with Ret a s => f a s | Exited s => Exited s | Stuck => Stuck | Undef => Undef end.

Definition look {A} (f : md -> A) : Sv A := fun s => Ret (f s) s.
Definition put (f : md -> md) : Sv unit := fun s => Ret tt (f s).
Definition emit (e : effect) : Sv unit := put (add_log [e]).
Definition stuck {A} : Sv A := fun _ => Stuck.
Definition undef {A} : Sv A := fun _ => Undef.
Definition next {A} (get : md -> list A) (set : list A -> md -> md) : Sv A := fun s =>
  match get s with [] => Stuck | x :: l => Ret x (set l s) end.
Definition close (fd : Z) : Sv unit := emit (Closed fd).

(** [property_get]: an unset or empty property has the default value. *)
Definition pget (e : env) (k : string) (dflt : list Z) : list Z :=
  match props e k with Some (x :: l) => x :: l | _ => dflt end.
Definition property_get (k : string) (dflt : list Z) : Sv (list Z) := look (fun s => pget (en s) k dflt).
Definition property_set (k : string) (v : list Z) : Sv unit := emit (PropSet k v).
Definition ctl_start (name : string) : Sv unit := property_set "ctl.start" (bs name).
Definition ctl_stop (name : string) : Sv unit := property_set "ctl.stop" (bs name).
Definition str_is (v : list Z) (lit : string) : bool := bool_decide (v = bs lit).

Definition wake_lock : list Z := bs "echo load_modem_img >/sys/power/wake_lock".
Definition wake_unlock : list Z := bs "echo load_modem_img >/sys/power/wake_unlock".

Definition ended {A} : Sv A := fun s => Exited s.
Definition exit_modemd {A} : Sv A :=
  l ← look locking;
  _ ← (if (l : bool) then _ ← emit (System wake_unlock); put (set_locking false) else mret tt);
  ended.

(** A buffer of [n] zero bytes that [read] has filled with [d], as a C string:
    undefined when [read] fills it without a NUL. *)
Definition text (n : nat) (d : list Z) : Sv (list Z) :=
  if decide (length (take n d) < n)%nat then mret (to_nul (take n d))
  else match cstr (take n d) with Some t => mret t | None => undef end.

(** ** [/proc] *)

(** [get_task_pid]: [isdigit] of the first character, [atoi], the first 1023
    bytes of [cmdline]. *)
Fixpoint task_pid (name : list Z) (l : list (list Z * option (list Z))) : Z :=
  match l with
  | [] => -1
  | (d, c) :: l =>
      if match d with x :: _ => isdigit x | [] => false end then
        match c with
        | None => task_pid name l
        | Some c => if bool_decide (name = to_nul (take 1023 c)) then atoi d else task_pid name l
        end
      else task_pid name l
  end.
Definition get_task_pid (name : string) : Sv Z := look (fun s => task_pid (bs name) (procs (en s))).

(** ** Services *)

Definition stop_nvitemd (modem : Z) : Sv unit :=
  if modem =? W_MODEM then ctl_stop "cp_diskserver_w"
  else if modem =? LTE_MODEM then ctl_stop "cp_diskserver_l"
  else if modem =? TL_MODEM then ctl_stop "cp_diskserver_tl"
  else if modem =? LF_MODEM then ctl_stop "cp_diskserver_lf"
  else ctl_stop "cp_diskserver_td".

Definition start_nvitemd (modem : Z) : Sv unit :=
  if modem =? W_MODEM then ctl_start "cp_diskserver_w"
  else if modem =? LTE_MODEM then ctl_start "cp_diskserver_l"
  else if modem =? TL_MODEM then ctl_start "cp_diskserver_tl"
  else if modem =? LF_MODEM then ctl_start "cp_diskserver_lf"
  else ctl_start "cp_diskserver_td".

Definition stop_engservice (modem : Z) : Sv unit :=
  if modem =? TD_MODEM then ctl_stop "engpcclientt"
  else if modem =? W_MODEM then ctl_stop "engpcclientw"
  else if modem =? LTE_MODEM then ctl_stop "engpcclientlte"
  else if modem =? TL_MODEM then ctl_stop "engpcclienttl"
  else if modem =? LF_MODEM then ctl_stop "engpcclientlf"
  else ctl_stop "engpcclientt".

Definition start_engservice (modem : Z) : Sv unit :=
  v ← property_get MODEM_ENGCTRL_PRO (bs "0");
  if str_is v "1" then mret tt
  else if modem =? TD_MODEM then ctl_start "engpcclientt"
  else if modem =? W_MODEM then ctl_start "engpcclientw"
  else if modem =? LTE_MODEM then ctl_start "engpcclientlte"
  else if modem =? TL_MODEM then ctl_start "engpcclienttl"
  else if modem =? LF_MODEM then ctl_start "engpcclientlf"
  else ctl_start "engpcclientt".

Definition stop_phser (modem : Z) : Sv unit :=
  if modem =? W_MODEM then ctl_stop "phoneserver_w"
  else if modem =? LTE_MODEM then ctl_stop "phoneserver_l"
  else if modem =? TL_MODEM then ctl_stop "phoneserver_tl"
  else if modem =? LF_MODEM then ctl_stop "phoneserver_lf"
  else ctl_stop "phoneserver_t".

Definition start_phser (modem : Z) : Sv unit :=
  if modem =? W_MODEM then ctl_start "phoneserver_w"
  else if modem =? LTE_MODEM then ctl_start "phoneserver_l"
  else if modem =? TL_MODEM then ctl_start "phoneserver_tl"
  else if modem =? LF_MODEM then ctl_start "phoneserver_lf"
  else ctl_start "phoneserver_t".

(** The branch of one modem in [stop_rild]: [n] is its property, [d] its daemon. *)
Definition stop_daemons (n d d1 : string) : Sv unit :=
  phoneCount ← property_get n [];
  if str_is phoneCount "2" then _ ← ctl_stop d; ctl_stop d1 else ctl_stop d.

Definition stop_rild (modem : Z) : Sv unit :=
  if modem =? TD_MODEM then stop_daemons TD_SIM_NUM_PROP "tril-daemon" "tril-daemon1"
  else if modem =? W_MODEM then stop_daemons W_SIM_NUM_PROP "wril-daemon" "wril-daemon1"
  else if modem =? LTE_MODEM then stop_daemons LTE_SIM_NUM_PROP "lril-daemon" "lril-daemon1"
  else if modem =? TL_MODEM then stop_daemons TL_SIM_NUM_PROP "tlril-daemon" "tlril-daemon1"
  else if modem =? LF_MODEM then stop_daemons LF_SIM_NUM_PROP "lfril-daemon" "lfril-daemon1"
  else mret tt.

(** The branches of LTE, TL and LF in [start_rild]: one daemon is stopped first. *)
Definition start_daemons (n d d1 : string) : Sv unit :=
  phoneCount ← property_get n [];
  if str_is phoneCount "2" then _ ← ctl_start d; ctl_start d1 else _ ← ctl_stop d; ctl_start d.

Definition start_rild (modem : Z) : Sv unit :=
  if modem =? TD_MODEM then
    phoneCount ← property_get TD_SIM_NUM_PROP [];
    if str_is phoneCount "2" then _ ← ctl_start "tril-daemon"; ctl_start "tril-daemon1"
    else if str_is phoneCount "3" then _ ← ctl_start "tril-daemon"; _ ← ctl_start "tril-daemon1"; ctl_start "tril-daemon2"
    else _ ← ctl_stop "tril-daemon"; ctl_start "tril-daemon"
  else if modem =? W_MODEM then
    phoneCount ← property_get W_SIM_NUM_PROP [];
    if str_is phoneCount "2" then _ ← ctl_start "wril-daemon"; ctl_start "wril-daemon1"
    else if str_is phoneCount "3" then _ ← ctl_start "wril-daemon"; _ ← ctl_start "wril-daemon1"; ctl_start "wril-daemon2"
    else ctl_start "wril-daemon"
  else if modem =? LTE_MODEM then start_daemons LTE_SIM_NUM_PROP "lril-daemon" "lril-daemon1"
  else if modem =? TL_MODEM then start_daemons TL_SIM_NUM_PROP "tlril-daemon" "tlril-daemon1"
  else if modem =? LF_MODEM then start_daemons LF_SIM_NUM_PROP "lfril-daemon" "lfril-daemon1"
  else mret tt.

Definition stop_rilproxy (modem : Z) : Sv unit :=
  if modem =? TD_MODEM then
    v ← property_get SSDA_MODE_PROP (bs "0");
    if str_is v SVLTE_MODE then ctl_stop "rilproxy-daemon" else mret tt
  else mret tt.

Definition start_rilproxy (modem : Z) : Sv unit :=
  if modem =? TD_MODEM then
    v ← property_get SSDA_MODE_PROP (bs "0");
    if str_is v SVLTE_MODE then
      t ← property_get SSDA_TESTMODE_PROP (bs "0");
      if atoi t =? SSDA_TEST_MODE_SVLTE then ctl_start "rilproxy-daemon" else mret tt
    else mret tt
  else mret tt.

(** The service that kills the telephone process of a modem. *)
Definition kill_phone (modem : Z) : Sv unit :=
  if modem =? TD_MODEM then ctl_start "kill_td_phone"
  else if modem =? W_MODEM then ctl_start "kill_w_phone"
  else if modem =? LTE_MODEM then ctl_start "kill_l_phone"
  else if modem =? TL_MODEM then ctl_start "kill_tl_phone"
  else if modem =? LF_MODEM then ctl_start "kill_lf_phone"
  else mret tt.

Definition stop_service (modem : Z) (is_vlx : bool) : Sv unit :=
  v ← property_get MODEM_RESET_PROP (bs "0");
  _ ← (if negb (atoi v =? 0) then stop_engservice modem else mret tt);
  _ ← stop_phser modem;
  _ ← (if is_vlx then fd ← look ttydev_fd; if 0 <=? fd then close fd else mret tt else mret tt);
  _ ← stop_rild modem;
  _ ← stop_nvitemd modem;
  _ ← stop_rilproxy modem;
  pid ← get_task_pid PHONE_APP;
  _ ← (if 0 <? pid then property_set PHONE_APP_PROP (fmt_d pid) else mret tt);
  kill_phone modem.

(** ** AT commands *)

(** The loop of [send_atcmd] from the write on ([again]) or from
    WAIT_RESPOSE_DATA; [l] is what is left of the script of selects. *)
Fixpoint atcmd_loop (l : list sel) (again : bool) (fd : Z) (at_str : list Z) : Sv Z :=
  _ ← (if again then
         r ← next wrs set_wrs;
         if r =? Z.of_nat (length at_str) then emit (Wrote fd at_str) else _ ← close fd; exit_modemd
       else mret tt);
  match l with
  | [] => stuck
  | SelErr true :: l | SelTimeout :: l | SelRead None :: l | SelRead (Some []) :: l => atcmd_loop l true fd at_str
  | SelErr false :: l => _ ← put (set_sels l); _ ← close fd; exit_modemd
  | SelRead (Some d) :: l =>
      buffer ← text 256 d;
      if contains (bs "OK") buffer then _ ← put (set_sels l); mret 1
      else if contains (bs "ERROR") buffer then _ ← put (set_sels l); _ ← close fd; exit_modemd
      else atcmd_loop l false fd at_str
  end.

Definition send_atcmd (fd : Z) (at_str : list Z) : Sv Z := l ← look sels; atcmd_loop l true fd at_str.

(** What the callers do with a result other than 1. *)
Definition send_or_exit (fd : Z) (at_str : list Z) : Sv unit :=
  r ← send_atcmd fd at_str; if r =? 1 then mret tt else _ ← close fd; exit_modemd.

Definition IMEI_CONFIG_FILE (index : nat) : option string :=
  match index with
  | 1%nat => Some "/productinfo/imei1.txt" | 2%nat => Some "/productinfo/imei2.txt"
  | 3%nat => Some "/productinfo/imei3.txt" | 4%nat => Some "/productinfo/imei4.txt"
  | _ => None
  end.

(** The result and the buffer [imeiPtr] afterwards.  The file is read, at most 15
    bytes, to the beginning of the buffer; a failed open leaves [ret] 0. *)
Definition read_imei (index : nat) (imeiPtr : list Z) : Sv (Z * list Z) :=
  match IMEI_CONFIG_FILE index with
  | None => mret (0, imeiPtr)
  | Some path =>
      t ← look (fun s => texts (en s) path);
      match t with
      | Some (x :: t) => mret (1, splice imeiPtr 0 (take MD_MAX_IMEI_STR_LENGTH (x :: t)))
      | _ => mret (0, imeiPtr)
      end
  end.

Definition imei_cmd (i : nat) (imeistr : list Z) : list Z :=
  bs "AT+SPIMEI=" ++ fmt_d (Z.of_nat i - 1) ++ [44; 34] ++ to_nul imeistr ++ [34; 13].

Fixpoint imei_loop (idx : list nat) (fd : Z) (imeistr : list Z) : Sv unit :=
  match idx with
  | [] => mret tt
  | i :: idx =>
      '(ret, imeistr) ← read_imei i imeistr;
      if ret <=? 0 then imei_loop idx fd imeistr
      else _ ← send_or_exit fd (imei_cmd i imeistr); imei_loop idx fd imeistr
  end.

Definition send_imei (fd : Z) : Sv unit := imei_loop (seq 1 IMEI_NUM) fd (replicate (MD_MAX_IMEI_STR_LENGTH + 1) 0).

Fixpoint open_retry (l : list ores) (path : list Z) : Sv Z :=
  match l with
  | [] => stuck
  | OpenFd fd :: l => _ ← put (set_opens l); _ ← emit (Opened path fd); mret fd
  | OpenAgain :: l => open_retry l path
  | OpenFail :: l => _ ← put (set_opens l); mret (-1)
  end.
Definition open_modem_dev (path : list Z) : Sv Z := l ← look opens; open_retry l path.

(** ** Starting *)

Definition open_device (path : list Z) : Sv Z :=
  r ← next opens set_opens; match r with OpenFd fd => _ ← emit (Opened path fd); mret fd | _ => mret (-1) end.

(** The properties a modem's tty and number of SIMs are read from (for another
    number the C code goes on with an uninitialized name). *)
Definition tty_sim_props (modem : Z) : option (string * string) :=
  if modem =? TD_MODEM then Some (TD_TTY_DEV_PROP, TD_SIM_NUM_PROP)
  else if modem =? W_MODEM then Some (W_TTY_DEV_PROP, W_SIM_NUM_PROP)
  else if modem =? LTE_MODEM then Some (LTE_TTY_DEV_PROP, LTE_SIM_NUM_PROP)
  else if modem =? TL_MODEM then Some (TL_TTY_DEV_PROP, TL_SIM_NUM_PROP)
  else if modem =? LF_MODEM then Some (LF_TTY_DEV_PROP, LF_SIM_NUM_PROP)
  else None.

(** The AT commands of a start: the SIM swap, the multiplexer, the IMEIs. *)
Definition swap_cmd (phoneCount : list Z) : list Z :=
  if str_is phoneCount "2" then bs "AT+SMMSWAP=0" ++ [13] else if str_is phoneCount "3" then bs "AT+SMMSWAP=1" ++ [13] else bs "AT" ++ [13].
Definition CMUX : list Z := bs "AT+CMUX=0" ++ [13].

Definition start_service (modem : Z) (is_vlx restart : bool) : Sv Z :=
  let services : Sv Z :=
    _ ← start_phser modem;
    _ ← start_engservice modem;
    _ ← start_rild modem;
    _ ← start_nvitemd modem;
    _ ← start_rilproxy modem;
    mret 0 in
  if is_vlx then
    ttydev ← property_get TTY_DEV_PROP (bs "ttyNK3");
    fd ← open_device (bs "/dev/" ++ ttydev);
    _ ← put (set_ttydev fd);
    phoneCount ← (if modem =? TD_MODEM then property_get TD_SIM_NUM_PROP [] else property_get W_SIM_NUM_PROP []);
    _ ← (if str_is phoneCount "2" then emit (System (bs "echo 1 > /proc/mux_mode"))
         else if str_is phoneCount "3" then emit (System (bs "echo 2 > /proc/mux_mode")) else mret tt);
    services
  else match tty_sim_props modem with
  | None => undef
  | Some (tty, sim) =>
    modem_dev ← property_get tty [];
    phoneCount ← property_get sim [];
    if (modem =? LTE_MODEM) && str_is phoneCount "1" then
      fd ← open_modem_dev (modem_dev ++ bs "0");
      if fd <? 0 then mret (-1)
      else
        _ ← send_imei fd;
        _ ← close fd;
        _ ← start_phser modem;
        _ ← start_rild modem;
        _ ← start_engservice modem;
        _ ← start_nvitemd modem;
        mret 0
    else
      fd ← open_modem_dev (modem_dev ++ bs "0");
      if fd <? 0 then mret (-1)
      else
        _ ← send_or_exit fd (swap_cmd phoneCount);
        _ ← send_or_exit fd CMUX;
        _ ← send_imei fd;
        _ ← close fd;
        services
  end.

Definition is_external_modem : Sv bool := v ← property_get MODEM_EXTERNAL_PROP (bs "0"); mret (negb (atoi v =? 0)).

Definition enable_prop (modem : Z) : option string :=
  if modem =? TD_MODEM then Some TD_MODEM_ENABLE_PROP else if modem =? W_MODEM then Some W_MODEM_ENABLE_PROP
  else if modem =? LTE_MODEM then Some LTE_MODEM_ENABLE_PROP else if modem =? LF_MODEM then Some LF_MODEM_ENABLE_PROP
  else if modem =? TL_MODEM then Some TL_MODEM_ENABLE_PROP else None.

(** [pthread_create] does not return a negative number, so the flags [tdblk] and
    [lteblk] are always set; the last branch (vlx) is for a modem that the first
    test has refused. *)
Definition start_modem (modem : Z) : Sv unit :=
  match enable_prop modem with
  | None => mret tt
  | Some p =>
      modem_enable ← property_get p [];
      if str_is modem_enable "1" then
        _ ← start_service modem false false;
        if modem =? TD_MODEM then
          e ← is_external_modem;
          _ ← (if (e : bool) then mret tt else emit (Thread "detect_sipc_modem" modem));
          b ← look tdblk;
          if (b : bool) then mret tt else _ ← emit (Thread "detect_modem_blocked" modem); put (fun s => set_blk true (lteblk s) s)
        else if modem =? W_MODEM then
          _ ← emit (Thread "detect_sipc_modem" modem); emit (Thread "detect_modem_blocked" modem)
        else if modem =? LTE_MODEM then
          e ← is_external_modem;
          _ ← (if (e : bool) then mret tt else emit (Thread "detect_sipc_modem" modem));
          b ← look lteblk;
          if (b : bool) then mret tt else _ ← emit (Thread "detect_modem_blocked" modem); put (fun s => set_blk (tdblk s) true s)
        else
          e ← is_external_modem;
          _ ← (if (e : bool) then mret tt else emit (Thread "detect_sipc_modem" modem));
          emit (Thread "detect_modem_blocked" modem)
      else mret tt
  end.

(** [main] from the test of the external modem on. *)
Definition main_start : Sv unit :=
  e ← is_external_modem;
  if (e : bool) then emit (Thread "detect_modem_control" 0)
  else
    _ ← start_modem TD_MODEM;
    _ ← start_modem W_MODEM;
    _ ← start_modem LTE_MODEM;
    _ ← start_modem LF_MODEM;
    start_modem TL_MODEM.

(** ** What stopping and starting do *)

Lemma sbind_run {A A'} (m : Sv A) (f : A -> Sv A') s :
  (m ≫= f) s = match m s with Ret a s => f a s | Exited s => Exited s | Stuck => Stuck | Undef => Undef end.
Proof. done. Qed.
Lemma sret_run {A} (a : A) s : (mret a : Sv A) s = Ret a s.
Proof. done. Qed.

(** The names that belong to a modem. *)
Record names := Names { n_eng : string; n_phs : string; n_ril : string; n_ril1 : string; n_nv : string; n_kill : string; n_sim : string; n_tty : string }.
Definition names_of (modem : Z) : names :=
  if modem =? TD_MODEM then Names "engpcclientt" "phoneserver_t" "tril-daemon" "tril-daemon1" "cp_diskserver_td" "kill_td_phone" TD_SIM_NUM_PROP TD_TTY_DEV_PROP
  else if modem =? W_MODEM then Names "engpcclientw" "phoneserver_w" "wril-daemon" "wril-daemon1" "cp_diskserver_w" "kill_w_phone" W_SIM_NUM_PROP W_TTY_DEV_PROP
  else if modem =? LTE_MODEM then Names "engpcclientlte" "phoneserver_l" "lril-daemon" "lril-daemon1" "cp_diskserver_l" "kill_l_phone" LTE_SIM_NUM_PROP LTE_TTY_DEV_PROP
  else if modem =? TL_MODEM then Names "engpcclienttl" "phoneserver_tl" "tlril-daemon" "tlril-daemon1" "cp_diskserver_tl" "kill_tl_phone" TL_SIM_NUM_PROP TL_TTY_DEV_PROP
  else Names "engpcclientlf" "phoneserver_lf" "lfril-daemon" "lfril-daemon1" "cp_diskserver_lf" "kill_lf_phone" LF_SIM_NUM_PROP LF_TTY_DEV_PROP.
Definition modems : list Z := [TD_MODEM; W_MODEM; LTE_MODEM; LF_MODEM; TL_MODEM].

Definition resets (e : env) : bool := negb (atoi (pget e MODEM_RESET_PROP (bs "0")) =? 0).
Definition count (e : env) (modem : Z) : list Z := pget e (n_sim (names_of modem)) [].
Definition svlte (e : env) (modem : Z) : bool := (modem =? TD_MODEM) && str_is (pget e SSDA_MODE_PROP (bs "0")) SVLTE_MODE.

Definition Start (n : string) : effect := PropSet "ctl.start" (bs n).
Definition Stop (n : string) : effect := PropSet "ctl.stop" (bs n).

(** The services of a modem that a start may bring up. *)
Definition own (e : env) (modem : Z) : list string :=
  let n := names_of modem in
  [n_eng n; n_phs n; n_ril n] ++ (if str_is (count e modem) "2" then [n_ril1 n] else []) ++ [n_nv n] ++
  (if svlte e modem then ["rilproxy-daemon"] else []).

Definition stop_effects (e : env) (modem : Z) : list effect :=
  let n := names_of modem in let pid := task_pid (bs PHONE_APP) (procs e) in
  (if resets e then [Stop (n_eng n)] else []) ++ [Stop (n_phs n)] ++
  (if str_is (count e modem) "2" then [Stop (n_ril n); Stop (n_ril1 n)] else [Stop (n_ril n)]) ++ [Stop (n_nv n)] ++
  (if svlte e modem then [Stop "rilproxy-daemon"] else []) ++
  (if 0 <? pid then [PropSet PHONE_APP_PROP (fmt_d pid)] else []) ++ [Start (n_kill n)].

Lemma add_log_app l l' s : add_log l' (add_log l s) = add_log (l ++ l') s.
Proof. unfold add_log. cbn. by rewrite app_assoc. Qed.
Lemma add_log_nil s : add_log [] s = s.
Proof. destruct s. unfold add_log. cbn. by rewrite app_nil_r. Qed.

Lemma property_get_run k d s : property_get k d s = Ret (pget (en s) k d) s.
Proof. done. Qed.
Lemma ctl_stop_run d s : ctl_stop d s = Ret tt (add_log [Stop d] s).
Proof. done. Qed.
Lemma ctl_start_run d s : ctl_start d s = Ret tt (add_log [Start d] s).
Proof. done. Qed.
Lemma look_run {A} (f : md -> A) s : look f s = Ret (f s) s.
Proof. done. Qed.
Lemma put_run f s : put f s = Ret tt (f s).
Proof. done. Qed.
Lemma emit_run e s : emit e s = Ret tt (add_log [e] s).
Proof. done. Qed.

(** The five modems, with the tests on their number evaluated. *)
Ltac eqb_eval :=
  repeat match goal with
         | |- context [?a =? ?b] =>
             let v := eval vm_compute in (a =? b) in
             match v with true => change (a =? b) with true | false => change (a =? b) with false end
         end; cbv iota; cbn [andb].
Ltac modem_cases H :=
  unfold modems in H; repeat (apply elem_of_cons in H as [->|H]); [..|by apply not_elem_of_nil in H]; eqb_eval.

Section parts.
  Context (modem : Z) (Hm : modem ∈ modems) (s : md).

Lemma stop_eng_run : stop_engservice modem s = Ret tt (add_log [Stop (n_eng (names_of modem))] s).
Proof. unfold stop_engservice, names_of. by modem_cases Hm. Qed.
Lemma stop_phs_run : stop_phser modem s = Ret tt (add_log [Stop (n_phs (names_of modem))] s).
Proof. unfold stop_phser, names_of. by modem_cases Hm. Qed.
Lemma start_phs_run : start_phser modem s = Ret tt (add_log [Start (n_phs (names_of modem))] s).
Proof. unfold start_phser, names_of. by modem_cases Hm. Qed.
Lemma stop_nv_run : stop_nvitemd modem s = Ret tt (add_log [Stop (n_nv (names_of modem))] s).
Proof. unfold stop_nvitemd, names_of. by modem_cases Hm. Qed.
Lemma start_nv_run : start_nvitemd modem s = Ret tt (add_log [Start (n_nv (names_of modem))] s).
Proof. unfold start_nvitemd, names_of. by modem_cases Hm. Qed.
Lemma kill_run : kill_phone modem s = Ret tt (add_log [Start (n_kill (names_of modem))] s).
Proof. unfold kill_phone, names_of. by modem_cases Hm. Qed.

Lemma start_eng_run :
  start_engservice modem s =
    Ret tt (add_log (if str_is (pget (en s) MODEM_ENGCTRL_PRO (bs "0")) "1" then [] else [Start (n_eng (names_of modem))]) s).
Proof.
  unfold start_engservice. rewrite sbind_run, property_get_run.
  destruct (str_is _ _); [by rewrite add_log_nil|]. unfold names_of. by modem_cases Hm.
Qed.

Lemma stop_daemons_run n d d1 :
  stop_daemons n d d1 s = Ret tt (add_log (if str_is (pget (en s) n []) "2" then [Stop d; Stop d1] else [Stop d]) s).
Proof.
  unfold stop_daemons. rewrite sbind_run, property_get_run.
  destruct (str_is _ _); [|done]. by rewrite sbind_run, !ctl_stop_run, add_log_app.
Qed.

Lemma stop_rild_run :
  stop_rild modem s = Ret tt (add_log (if str_is (count (en s) modem) "2" then [Stop (n_ril (names_of modem)); Stop (n_ril1 (names_of modem))]
                                       else [Stop (n_ril (names_of modem))]) s).
Proof. unfold stop_rild, count, names_of. by modem_cases Hm; rewrite stop_daemons_run. Qed.

Lemma stop_rilproxy_run :
  stop_rilproxy modem s = Ret tt (add_log (if svlte (en s) modem then [Stop "rilproxy-daemon"] else []) s).
Proof.
  unfold stop_rilproxy, svlte. modem_cases Hm; try by rewrite add_log_nil. rewrite sbind_run, property_get_run.
  destruct (str_is _ _); [done|by rewrite add_log_nil].
Qed.
End parts.

Lemma stop_service_run modem s :
  modem ∈ modems -> stop_service modem false s = Ret tt (add_log (stop_effects (en s) modem) s).
Proof.
  intros Hm. unfold stop_service. rewrite sbind_run, property_get_run.
  fold (resets (en s)). set (E0 := if resets (en s) then [Stop (n_eng (names_of modem))] else []).
  rewrite sbind_run. replace ((if resets (en s) then stop_engservice modem else mret tt) s) with (Ret tt (add_log E0 s)).
  2: { unfold E0. destruct (resets _); [by rewrite stop_eng_run|by rewrite add_log_nil]. }
  rewrite sbind_run, stop_phs_run, add_log_app by done. rewrite sbind_run, sret_run.
  rewrite sbind_run, stop_rild_run, add_log_app by done.
  rewrite sbind_run, stop_nv_run, add_log_app by done.
  rewrite sbind_run, stop_rilproxy_run, add_log_app by done. cbn [en add_log].
  rewrite sbind_run. cbn [get_task_pid look]. cbn [en add_log].
  set (pid := task_pid _ _). rewrite sbind_run.
  set (E1 := if 0 <? pid then [PropSet PHONE_APP_PROP (fmt_d pid)] else []).
  match goal with |- context [add_log ?l s] => replace ((if 0 <? pid then property_set PHONE_APP_PROP (fmt_d pid) else mret tt) (add_log l s)) with (Ret tt (add_log (l ++ E1) s)) end.
  2: { unfold E1. destruct (0 <? pid); [by rewrite <- add_log_app|by rewrite app_nil_r]. }
  rewrite kill_run, add_log_app by done. do 2 f_equal. unfold stop_effects. fold E0 pid E1. by rewrite <- !app_assoc.
Qed.

(** ** Conversations on the tty *)

(** After [resends] the command is written again; a [quiet] answer is neither OK
    nor ERROR and is waited out. *)
Definition resends (x : sel) : bool :=
  match x with SelErr true | SelTimeout | SelRead None | SelRead (Some []) => true | _ => false end.
Definition answer (d : list Z) : list Z := to_nul (take 256 d).
Definition quiet (x : sel) : bool :=
  match x with
  | SelRead (Some d) => (0 <? length d)%nat && (length d <? 256)%nat && negb (contains (bs "OK") (answer d)) && negb (contains (bs "ERROR") (answer d))
  | _ => false
  end.
Definition noise (x : sel) : bool := resends x || quiet x.

(** What the modem does about one command: noise, then an answer with OK. *)
Record turn := Turn { t_noise : list sel; t_ok : list Z }.
Definition turn_ok (t : turn) : Prop :=
  forallb noise (t_noise t) = true /\ (0 < length (t_ok t) < 256)%nat /\ contains (bs "OK") (answer (t_ok t)) = true.
Definition turn_sels (t : turn) : list sel := t_noise t ++ [SelRead (Some (t_ok t))].
Definition times (t : turn) : nat := S (length (filter (fun x => resends x = true) (t_noise t))).

Lemma text_short n d s : (length d < n)%nat -> text n d s = Ret (to_nul (take n d)) s.
Proof. intros H. unfold text. rewrite decide_True by (rewrite length_take; lia). done. Qed.

Lemma next_run {A} (get : md -> list A) set x l s : get s = x :: l -> next get set s = Ret x (set l s).
Proof. intros E. unfold next. by rewrite E. Qed.

(** One command: it is written once, and again after each [resends]. *)
Definition said (fd : Z) (c : list Z) (n : nat) : list effect := replicate n (Wrote fd c).

Lemma atcmd_loop_ok fd c l t rest (again : bool) ws s :
  turn_ok t -> l = turn_sels t ++ rest ->
  wrs s = replicate (if again then times t else pred (times t)) (Z.of_nat (length c)) ++ ws ->
  atcmd_loop l again fd c s =
    Ret 1 (set_sels rest (set_wrs ws (add_log (said fd c (if again then times t else pred (times t))) s))).
Proof.
  destruct t as [nz d]. intros (Hn & Hl & Hok). cbn [t_noise t_ok] in *. revert l again s. unfold turn_sels, times. cbn [t_noise t_ok].
  assert (forall l again s k,
    wrs s = replicate (if (again : bool) then S k else k) (Z.of_nat (length c)) ++ ws ->
    exists s1, (if again then r ← next wrs set_wrs; if r =? Z.of_nat (length c) then emit (Wrote fd c) else _ ← close fd; exit_modemd
           else mret tt) s = Ret tt s1 /\ wrs s1 = replicate k (Z.of_nat (length c)) ++ ws /\
      forall k', set_sels l (set_wrs ws (add_log (said fd c k') s1)) =
                 set_sels l (set_wrs ws (add_log (said fd c (if again then S k' else k')) s))) as Hw.
  { intros l [] s k Hk.
    - exists (add_log [Wrote fd c] (set_wrs (replicate k (Z.of_nat (length c)) ++ ws) s)). split_and!.
      + rewrite sbind_run, (next_run _ _ (Z.of_nat (length c)) (replicate k (Z.of_nat (length c)) ++ ws)) by done.
        by rewrite Z.eqb_refl.
      + done.
      + intros k'. unfold set_sels, set_wrs, add_log. cbn. by rewrite <- app_assoc.
    - exists s. done. }
  induction nz as [|x nz IH]; intros l again s -> Hwr; cbn [app atcmd_loop filter list_filter length] in *.
  - destruct (Hw rest again s 0%nat) as (s1 & E1 & W1 & L1); [by destruct again|]. rewrite sbind_run, E1.
    destruct d as [|b d]; [cbn in Hl; lia|]. rewrite sbind_run, text_short by lia. fold (answer (b :: d)). rewrite Hok.
    rewrite sbind_run, put_run, sret_run. f_equal. specialize (L1 0%nat). destruct again.
    all: cbn [pred] in *; rewrite <- L1; unfold set_sels, set_wrs, add_log, said; cbn in *; by rewrite ?app_nil_r, <- ?W1.
  - apply andb_true_iff in Hn as [Hx Hn]. specialize (IH Hn). unfold noise in Hx.
    destruct (resends x) eqn:Er.
    + rewrite decide_True in Hwr |- * by done. cbn [length] in Hwr |- *. set (k := length (filter (fun x => resends x = true) nz)) in *.
      destruct (Hw rest again s (S k)) as (s1 & E1 & W1 & L1); [by destruct again|].
      rewrite sbind_run, E1. specialize (IH _ true s1 eq_refl W1). specialize (L1 (S k)).
      destruct again; cbn [pred]; rewrite <- L1, <- IH; by destruct x as [[]| |[[]|]].
    + rewrite decide_False in Hwr |- * by done. set (k := length (filter (fun x => resends x = true) nz)) in *.
      destruct (Hw rest again s k) as (s1 & E1 & W1 & L1); [by destruct again|].
      rewrite sbind_run, E1. specialize (IH _ false s1 eq_refl W1). specialize (L1 k).
      destruct x as [| |[dd|]]; try done. cbn [orb] in Hx. unfold quiet in Hx. rewrite !andb_true_iff, !negb_true_iff, !Nat.ltb_lt in Hx.
      destruct Hx as [[[H0 H1] H2] H3]. destruct dd as [|b dd]; [cbn in H0; lia|].
      rewrite sbind_run, text_short by done. fold (answer (b :: dd)). rewrite H2, H3, IH. by destruct again; cbn [pred]; rewrite <- L1.
Qed.

(** Commands with the modem's turns: the script they need and what they leave in
    the log. *)
Definition conv := list (list Z * turn).
Definition conv_ok (l : conv) : Prop := Forall (fun p => turn_ok p.2) l.
Definition conv_sels (l : conv) : list sel := mjoin (map (fun p => turn_sels p.2) l).
Definition conv_wrs (l : conv) : list Z := mjoin (map (fun p => replicate (times p.2) (Z.of_nat (length p.1))) l).
Definition conv_said (fd : Z) (l : conv) : list effect := mjoin (map (fun p => said fd p.1 (times p.2)) l).
Definition talked (fd : Z) (l : conv) (rest : list sel) (ws : list Z) (s : md) : md :=
  set_sels rest (set_wrs ws (add_log (conv_said fd l) s)).
Definition ready (l : conv) (rest : list sel) (ws : list Z) (s : md) : Prop :=
  sels s = conv_sels l ++ rest /\ wrs s = conv_wrs l ++ ws.

Lemma talked_nil fd rest ws s : ready [] rest ws s -> talked fd [] rest ws s = s.
Proof.
  intros [E1 E2]. destruct s. cbn in E1, E2. subst. unfold talked, set_sels, set_wrs, add_log. cbn. by rewrite app_nil_r.
Qed.

Lemma add_log_sels L r w s : add_log L (set_sels r (set_wrs w s)) = set_sels r (set_wrs w (add_log L s)).
Proof. done. Qed.
Lemma set_sels_twice r w r' w' s : set_sels r (set_wrs w (set_sels r' (set_wrs w' s))) = set_sels r (set_wrs w s).
Proof. done. Qed.

Lemma talked_talked fd l l' rest rest' ws ws' s :
  talked fd l' rest' ws' (talked fd l rest ws s) = talked fd (l ++ l') rest' ws' s.
Proof.
  unfold talked. rewrite add_log_sels, add_log_app, set_sels_twice. unfold conv_said. by rewrite map_app, join_app.
Qed.

Lemma conv_app l l' : conv_sels (l ++ l') = conv_sels l ++ conv_sels l' /\ conv_wrs (l ++ l') = conv_wrs l ++ conv_wrs l'.
Proof.
  unfold conv_sels, conv_wrs. by rewrite !map_app, !join_app.
Qed.

Lemma conv_ready_app l l' rest ws s : ready (l ++ l') rest ws s -> ready l (conv_sels l' ++ rest) (conv_wrs l' ++ ws) s.
Proof. unfold ready. destruct (conv_app l l') as [-> ->]. by rewrite !app_assoc. Qed.

Lemma ready_talked fd l l' rest ws s : ready l' rest ws (talked fd l (conv_sels l' ++ rest) (conv_wrs l' ++ ws) s).
Proof. done. Qed.

Lemma send_or_exit_ok fd c t rest ws s :
  turn_ok t -> ready [(c, t)] rest ws s -> send_or_exit fd c s = Ret tt (talked fd [(c, t)] rest ws s).
Proof.
  intros Ht [E1 E2]. unfold conv_sels, conv_wrs in E1, E2. cbn in E1, E2. rewrite app_nil_r in E1, E2.
  unfold send_or_exit, send_atcmd. rewrite sbind_run, sbind_run, look_run, (atcmd_loop_ok fd c (sels s) t rest true ws s) by done.
  rewrite Z.eqb_refl. unfold talked, conv_said. cbn [map mjoin list_join fst snd]. by rewrite app_nil_r.
Qed.

(** The IMEI commands: the buffer keeps what a shorter file does not overwrite. *)
Fixpoint imei_cmds (tx : string -> option (list Z)) (idx : list nat) (buf : list Z) : list (list Z) :=
  match idx with
  | [] => []
  | i :: idx =>
      match IMEI_CONFIG_FILE i ≫= tx with
      | Some (x :: t) => let buf := splice buf 0 (take MD_MAX_IMEI_STR_LENGTH (x :: t)) in imei_cmd i buf :: imei_cmds tx idx buf
      | _ => imei_cmds tx idx buf
      end
  end.

Lemma md_read_imei_run i buf s :
  read_imei i buf s = Ret (match IMEI_CONFIG_FILE i ≫= texts (en s) with
                           | Some (x :: t) => (1, splice buf 0 (take MD_MAX_IMEI_STR_LENGTH (x :: t)))
                           | _ => (0, buf)
                           end) s.
Proof.
  unfold read_imei. destruct (IMEI_CONFIG_FILE i) as [p|]; [|done]. rewrite sbind_run, look_run. cbn [mbind option_bind].
  by destruct (texts (en s) p) as [[]|].
Qed.

Lemma imei_loop_ok fd idx : forall buf l rest ws s,
  conv_ok l -> map fst l = imei_cmds (texts (en s)) idx buf -> ready l rest ws s ->
  imei_loop idx fd buf s = Ret tt (talked fd l rest ws s).
Proof.
  induction idx as [|i idx IH]; intros buf l rest ws s Hok Hl Hr; cbn [imei_loop imei_cmds] in *.
  - destruct l; [|done]. by rewrite talked_nil.
  - rewrite sbind_run, md_read_imei_run. destruct (IMEI_CONFIG_FILE i ≫= texts (en s)) as [[|x t]|]; [by apply IH| |by apply IH].
    change (1 <=? 0) with false. cbv iota. destruct l as [|[c t'] l]; [done|]. injection Hl as -> Hl.
    apply Forall_cons in Hok as [Ht Hok]. change ((?x, ?y) :: l) with ([(x, y)] ++ l) in Hr |- *.
    rewrite sbind_run, (send_or_exit_ok fd _ t' (conv_sels l ++ rest) (conv_wrs l ++ ws)) by (done || by apply conv_ready_app).
    rewrite (IH _ l rest ws); [by rewrite talked_talked|done..].
Qed.

(** ** Starting a modem *)

Definition ril_effects (e : env) (modem : Z) : list effect :=
  let n := names_of modem in
  if str_is (count e modem) "2" then [Start (n_ril n); Start (n_ril1 n)]
  else if ((modem =? TD_MODEM) || (modem =? W_MODEM)) && str_is (count e modem) "3"
  then [Start (n_ril n); Start (n_ril1 n); Start (n_ril n +:+ "2")]
  else if modem =? W_MODEM then [Start (n_ril n)] else [Stop (n_ril n); Start (n_ril n)].
Definition eng_effects (e : env) (modem : Z) : list effect :=
  if str_is (pget e MODEM_ENGCTRL_PRO (bs "0")) "1" then [] else [Start (n_eng (names_of modem))].
Definition proxy_effects (e : env) (modem : Z) : list effect :=
  if svlte e modem && (atoi (pget e SSDA_TESTMODE_PROP (bs "0")) =? SSDA_TEST_MODE_SVLTE) then [Start "rilproxy-daemon"] else [].
Definition single_lte (e : env) (modem : Z) : bool := (modem =? LTE_MODEM) && str_is (count e modem) "1".
Definition start_effects (e : env) (modem : Z) : list effect :=
  let n := names_of modem in
  if single_lte e modem then [Start (n_phs n)] ++ ril_effects e modem ++ eng_effects e modem ++ [Start (n_nv n)]
  else [Start (n_phs n)] ++ eng_effects e modem ++ ril_effects e modem ++ [Start (n_nv n)] ++ proxy_effects e modem.
Definition start_cmds (e : env) (modem : Z) : list (list Z) :=
  (if single_lte e modem then [] else [swap_cmd (count e modem); CMUX]) ++
  imei_cmds (texts e) (seq 1 IMEI_NUM) (replicate (MD_MAX_IMEI_STR_LENGTH + 1) 0).

Lemma str_is_both v a b : bs a <> bs b -> str_is v a = true -> str_is v b = false.
Proof. unfold str_is. intros Hn ->%bool_decide_eq_true_1. by apply bool_decide_eq_false_2. Qed.

Lemma start_daemons_run n d d1 s :
  start_daemons n d d1 s = Ret tt (add_log (if str_is (pget (en s) n []) "2" then [Start d; Start d1] else [Stop d; Start d]) s).
Proof.
  unfold start_daemons. rewrite sbind_run, property_get_run. destruct (str_is _ _); rewrite sbind_run, ?ctl_stop_run, ?ctl_start_run, ?add_log_app; done.
Qed.

Lemma start_rild_run modem s : modem ∈ modems -> start_rild modem s = Ret tt (add_log (ril_effects (en s) modem) s).
Proof.
  intros Hm. unfold start_rild, ril_effects, count, names_of. modem_cases Hm; cbn [orb andb]; try by rewrite start_daemons_run.
  all: rewrite sbind_run, property_get_run; cbn [n_sim n_ril n_ril1]; destruct (str_is _ "2"); [|destruct (str_is _ "3")];
       rewrite ?sbind_run, ?ctl_stop_run, ?ctl_start_run, ?sbind_run, ?ctl_start_run, ?add_log_app; done.
Qed.

Lemma start_rilproxy_run modem s : modem ∈ modems -> start_rilproxy modem s = Ret tt (add_log (proxy_effects (en s) modem) s).
Proof.
  intros Hm. unfold start_rilproxy, proxy_effects, svlte. modem_cases Hm; try by rewrite add_log_nil.
  rewrite sbind_run, property_get_run. destruct (str_is _ _); [|by rewrite add_log_nil].
  rewrite sbind_run, property_get_run. cbn [andb]. destruct (_ =? _); [done|by rewrite add_log_nil].
Qed.

Lemma tty_sim_names modem : modem ∈ modems -> tty_sim_props modem = Some (n_tty (names_of modem), n_sim (names_of modem)).
Proof. intros Hm. unfold tty_sim_props, names_of. by modem_cases Hm. Qed.

(** [open] is retried until it gives a descriptor. *)
Lemma open_modem_dev_ok k fd l path s :
  opens s = replicate k OpenAgain ++ OpenFd fd :: l -> open_modem_dev path s = Ret fd (add_log [Opened path fd] (set_opens l s)).
Proof.
  intros E. unfold open_modem_dev. rewrite sbind_run, look_run, E. clear E. by induction k.
Qed.

Lemma start_all_run modem s :
  modem ∈ modems ->
  (_ ← start_phser modem; _ ← start_engservice modem; _ ← start_rild modem; _ ← start_nvitemd modem; _ ← start_rilproxy modem; mret 0 : Sv Z) s =
    Ret 0 (add_log ([Start (n_phs (names_of modem))] ++ eng_effects (en s) modem ++ ril_effects (en s) modem ++
                    [Start (n_nv (names_of modem))] ++ proxy_effects (en s) modem) s).
Proof.
  intros Hm. rewrite sbind_run, start_phs_run by done. rewrite sbind_run, start_eng_run, add_log_app by done.
  rewrite sbind_run, start_rild_run, add_log_app by done. rewrite sbind_run, start_nv_run, add_log_app by done.
  rewrite sbind_run, start_rilproxy_run, add_log_app, sret_run by done. by rewrite <- !app_assoc.
Qed.

Lemma start_single_run modem s :
  modem ∈ modems ->
  (_ ← start_phser modem; _ ← start_rild modem; _ ← start_engservice modem; _ ← start_nvitemd modem; mret 0 : Sv Z) s =
    Ret 0 (add_log ([Start (n_phs (names_of modem))] ++ ril_effects (en s) modem ++ eng_effects (en s) modem ++ [Start (n_nv (names_of modem))]) s).
Proof.
  intros Hm. rewrite sbind_run, start_phs_run by done. rewrite sbind_run, start_rild_run, add_log_app by done.
  rewrite sbind_run, start_eng_run, add_log_app by done. rewrite sbind_run, start_nv_run, add_log_app, sret_run by done. by rewrite <- !app_assoc.
Qed.

Lemma add_log_opens L o s : add_log L (set_opens o s) = set_opens o (add_log L s).
Proof. done. Qed.

Section start.
  Context (modem fd : Z) (Hm : modem ∈ modems) (Hfd : 0 <= fd) (s : md) (k : nat) (os : list ores)
          (l : conv) (rest : list sel) (ws : list Z).
  Context (Ho : opens s = replicate k OpenAgain ++ OpenFd fd :: os) (Hok : conv_ok l)
          (Hc : map fst l = start_cmds (en s) modem) (Hr : ready l rest ws s).

Definition tty_path : list Z := pget (en s) (n_tty (names_of modem)) [] ++ bs "0".
Definition started : md :=
  add_log (Opened tty_path fd :: conv_said fd l ++ Closed fd :: start_effects (en s) modem)
    (set_sels rest (set_wrs ws (set_opens os s))).

Lemma started_eq L :
  add_log L (add_log [Closed fd] (talked fd l rest ws (add_log [Opened tty_path fd] (set_opens os s)))) =
  add_log (Opened tty_path fd :: conv_said fd l ++ Closed fd :: L) (set_sels rest (set_wrs ws (set_opens os s))).
Proof using. unfold talked. by rewrite !add_log_sels, !add_log_opens, !add_log_app. Qed.

Lemma start_service_run restart : start_service modem false restart s = Ret 0 started.
Proof using Hm Hfd Ho Hok Hc Hr.
  unfold start_service. rewrite (tty_sim_names modem Hm). cbv beta iota zeta. rewrite sbind_run, property_get_run, sbind_run, property_get_run.
  fold (count (en s) modem). fold (single_lte (en s) modem).
  set (s1 := add_log [Opened tty_path fd] (set_opens os s)). assert (ready l rest ws s1) as Hr1 by done.
  unfold start_cmds in Hc. unfold started, start_effects. destruct (single_lte (en s) modem).
  - rewrite sbind_run. fold tty_path. rewrite (open_modem_dev_ok k fd os tty_path s Ho). fold s1. destruct (Z.ltb_spec fd 0); [lia|].
    rewrite sbind_run. unfold send_imei. rewrite (imei_loop_ok fd _ _ l rest ws s1) by done.
    rewrite sbind_run. unfold close. rewrite emit_run. rewrite start_single_run by done. by rewrite started_eq.
  - rewrite sbind_run. fold tty_path. rewrite (open_modem_dev_ok k fd os tty_path s Ho). fold s1. destruct (Z.ltb_spec fd 0); [lia|].
    destruct l as [|[c1 t1] [|[c2 t2] l']] eqn:El; [discriminate..|]. cbn [app map fst] in Hc. injection Hc as -> -> Hc'.
    apply Forall_cons in Hok as [H1 Hok']. apply Forall_cons in Hok' as [H2 Hok'].
    change (?p :: ?q :: l') with ([p] ++ ([q] ++ l')) in Hr1 |- *.
    rewrite sbind_run, (send_or_exit_ok fd _ t1 (conv_sels ([(CMUX, t2)] ++ l') ++ rest) (conv_wrs ([(CMUX, t2)] ++ l') ++ ws)) by (done || by apply conv_ready_app).
    rewrite sbind_run, (send_or_exit_ok fd _ t2 (conv_sels l' ++ rest) (conv_wrs l' ++ ws)) by (done || by apply conv_ready_app).
    rewrite sbind_run. unfold send_imei. rewrite (imei_loop_ok fd _ _ l' rest ws) by done. rewrite !talked_talked.
    rewrite sbind_run. unfold close. rewrite emit_run. rewrite start_all_run by done. cbn [app]. rewrite <- El. by rewrite started_eq.
Qed.
End start.

(** ** The running services

    What [init] does: a service is running after [ctl.start] and not after
    [ctl.stop]. *)
Definition run1 (r : gset (list Z)) (x : effect) : gset (list Z) :=
  match x with
  | PropSet k v => if decide (k = "ctl.start") then r ∪ {[v]} else if decide (k = "ctl.stop") then r ∖ {[v]} else r
  | _ => r
  end.
Definition running (l : list effect) : gset (list Z) := foldl run1 ∅ l.
Definition names_set (l : list string) : gset (list Z) := list_to_set (map bs l).

Lemma run1_start n r : run1 r (Start n) = r ∪ {[bs n]}.
Proof. done. Qed.
Lemma run1_stop n r : run1 r (Stop n) = r ∖ {[bs n]}.
Proof. done. Qed.
Lemma running_app l l' : running (l ++ l') = foldl run1 (running l) l'.
Proof. apply foldl_app. Qed.
Lemma run_said fd l r : foldl run1 r (conv_said fd l) = r.
Proof.
  unfold conv_said. induction l as [|[c t] l IH]; [done|]. cbn [map]. change (mjoin (?x :: ?y)) with (x ++ mjoin y).
  rewrite foldl_app. replace (foldl run1 r (said fd (c, t).1 (times (c, t).2))) with r; [done|].
  unfold said. by induction (times _).
Qed.

(** The services a start brings up. *)
Definition three_sims (e : env) (modem : Z) : bool :=
  ((modem =? TD_MODEM) || (modem =? W_MODEM)) && str_is (count e modem) "3".
Definition up (e : env) (modem : Z) : list string :=
  let n := names_of modem in
  [n_phs n; n_ril n; n_nv n] ++ (if str_is (count e modem) "2" then [n_ril1 n] else if three_sims e modem then [n_ril1 n; n_ril n +:+ "2"] else []) ++
  (if str_is (pget e MODEM_ENGCTRL_PRO (bs "0")) "1" then [] else [n_eng n]) ++
  (if svlte e modem && (atoi (pget e SSDA_TESTMODE_PROP (bs "0")) =? SSDA_TEST_MODE_SVLTE) then ["rilproxy-daemon"] else []).

Lemma single_no_proxy e modem : single_lte e modem = true -> svlte e modem = false.
Proof. unfold single_lte, svlte. intros [H _]%andb_true_iff. apply Z.eqb_eq in H as ->. done. Qed.

Lemma run_ril e modem r :
  foldl run1 r (ril_effects e modem) =
    r ∪ names_set (n_ril (names_of modem) :: (if str_is (count e modem) "2" then [n_ril1 (names_of modem)]
                   else if three_sims e modem then [n_ril1 (names_of modem); n_ril (names_of modem) +:+ "2"] else [])).
Proof.
  unfold ril_effects. fold (three_sims e modem). destruct (str_is (count e modem) "2"); [|destruct (three_sims e modem); [|destruct (modem =? W_MODEM)]];
    cbn [foldl]; rewrite ?run1_start, ?run1_stop; unfold names_set; cbn [map list_to_set]; rewrite ?difference_union_L; set_solver.
Qed.

Lemma run_start e modem r : foldl run1 r (start_effects e modem) = r ∪ names_set (up e modem).
Proof.
  unfold start_effects, up, eng_effects, proxy_effects. set (n := names_of modem).
  destruct (single_lte e modem) eqn:Es; [rewrite (single_no_proxy _ _ Es)|]; rewrite ?foldl_app, run_ril; fold n; cbn [andb foldl];
    destruct (str_is (pget e MODEM_ENGCTRL_PRO (bs "0")) "1"), (str_is (count e modem) "2"), (three_sims e modem);
    try destruct (svlte e modem && _); cbn [foldl app]; rewrite ?run1_start; unfold names_set; cbn [map list_to_set]; set_solver.
Qed.

Lemma run_stop e modem r :
  resets e = true -> foldl run1 r (stop_effects e modem) = r ∖ names_set (own e modem) ∪ {[bs (n_kill (names_of modem))]}.
Proof.
  intros Hr. unfold stop_effects, own. rewrite Hr. set (n := names_of modem).
  assert (forall r', foldl run1 r' (if 0 <? task_pid (bs PHONE_APP) (procs e) then [PropSet PHONE_APP_PROP (fmt_d (task_pid (bs PHONE_APP) (procs e)))] else []) = r') as Hp
    by (intros r'; by destruct (0 <? _)).
  rewrite !foldl_app, Hp. destruct (str_is (count e modem) "2"), (svlte e modem); cbn [foldl app]; rewrite ?run1_start, ?run1_stop;
    unfold names_set; cbn [map list_to_set]; set_solver.
Qed.

Lemma up_own e modem : three_sims e modem = false -> names_set (up e modem) ⊆ names_set (own e modem).
Proof.
  unfold up, own, names_set. intros ->. destruct (str_is (count e modem) "2"), (str_is _ "1"), (svlte e modem); cbn [andb]; try destruct (_ =? _); cbn [map list_to_set app]; set_solver.
Qed.

(** C39: A modem other than a TD or W modem with three SIMs ([third_sim_left]),
    whose tty opens and which answers every command with OK, in time or after
    timeouts, interrupted calls, empty reads and other lines, is started: the
    commands are sent on its own tty in order, each written again after every
    timeout, then exactly its services are brought up; and when it is stopped (with
    the reset property set) exactly the services that belong to it are down, all
    others are as before, and its telephone process is killed. *)
Theorem service_lifecycle modem fd s k os l rest ws restart :
  modem ∈ modems -> 0 <= fd -> opens s = replicate k OpenAgain ++ OpenFd fd :: os -> conv_ok l ->
  map fst l = start_cmds (en s) modem -> ready l rest ws s ->
  resets (en s) = true -> three_sims (en s) modem = false ->
  exists s1 s2, start_service modem false restart s = Ret 0 s1 /\
    log s1 = log s ++ Opened (tty_path modem s) fd :: conv_said fd l ++ Closed fd :: start_effects (en s) modem /\
    running (log s1) = running (log s) ∪ names_set (up (en s) modem) /\
    stop_service modem false s1 = Ret tt s2 /\
    running (log s2) = running (log s) ∖ names_set (own (en s) modem) ∪ {[bs (n_kill (names_of modem))]}.
Proof.
  intros Hm Hfd Ho Hok Hc Hr He H3. set (s1 := started modem fd s os l rest ws).
  assert (log s1 = log s ++ Opened (tty_path modem s) fd :: conv_said fd l ++ Closed fd :: start_effects (en s) modem) as Hl by done.
  assert (running (log s1) = running (log s) ∪ names_set (up (en s) modem)) as Hu.
  { rewrite Hl, running_app. cbn [foldl run1]. rewrite foldl_app, run_said. apply run_start. }
  exists s1, (add_log (stop_effects (en s) modem) s1). split_and!.
  - by apply (start_service_run modem fd Hm Hfd s k os l rest ws).
  - done.
  - done.
  - exact (stop_service_run modem s1 Hm).
  - change (log (add_log (stop_effects (en s) modem) s1)) with (log s1 ++ stop_effects (en s) modem).
    rewrite running_app, run_stop, Hu by done. pose proof (up_own _ _ H3) as Hs. revert Hs. clear.
    generalize (names_set (up (en s) modem)) (names_set (own (en s) modem)) (running (log s)) (bs (n_kill (names_of modem))). set_solver.
Qed.

(** With three SIMs a start brings up three telephony daemons, and a stop takes
    down the first only. *)
Theorem third_sim_left modem fd s k os l rest ws restart :
  modem ∈ modems -> 0 <= fd -> opens s = replicate k OpenAgain ++ OpenFd fd :: os -> conv_ok l ->
  map fst l = start_cmds (en s) modem -> ready l rest ws s -> resets (en s) = true -> three_sims (en s) modem = true ->
  exists s1 s2, start_service modem false restart s = Ret 0 s1 /\ stop_service modem false s1 = Ret tt s2 /\
    bs (n_ril1 (names_of modem)) ∈ running (log s2) /\ bs (n_ril (names_of modem) +:+ "2") ∈ running (log s2).
Proof.
  intros Hm Hfd Ho Hok Hc Hr He H3. set (s1 := started modem fd s os l rest ws).
  exists s1, (add_log (stop_effects (en s) modem) s1). split; [by apply (start_service_run modem fd Hm Hfd s k os l rest ws)|].
  split; [exact (stop_service_run modem s1 Hm)|].
  change (log (add_log (stop_effects (en s) modem) s1))
    with ((log s ++ Opened (tty_path modem s) fd :: conv_said fd l ++ Closed fd :: start_effects (en s) modem) ++ stop_effects (en s) modem).
  rewrite running_app, run_stop by done. rewrite running_app. cbn [foldl run1]. rewrite foldl_app, run_said. cbn [foldl run1]. rewrite run_start.
  pose proof H3 as H2. unfold three_sims in H2. apply andb_true_iff in H2 as [Hw H2]. apply (str_is_both _ "3" "2") in H2; [|by vm_compute].
  assert (forall n, n ∈ [n_ril1 (names_of modem); n_ril (names_of modem) +:+ "2"] ->
    bs n ∈ names_set (up (en s) modem) /\ bs n ∉ names_set (own (en s) modem)) as Hin.
  { intros n Hn. unfold up, own. rewrite H2, H3. split.
    - unfold names_set. rewrite elem_of_list_to_set. apply list_elem_of_fmap_2. set_solver.
    - clear -Hw Hn. apply orb_true_iff in Hw as [Hw|Hw]; apply Z.eqb_eq in Hw as ->;
        apply elem_of_cons in Hn as [->|Hn]; [|apply list_elem_of_singleton in Hn as ->| |apply list_elem_of_singleton in Hn as ->];
        destruct (svlte _ _); apply (bool_decide_unpack _); by vm_compute. }
  destruct (Hin (n_ril1 (names_of modem))) as [? ?]; [set_solver|].
  destruct (Hin (n_ril (names_of modem) +:+ "2")) as [? ?]; [set_solver|].
  split; apply elem_of_union_l, elem_of_difference; (split; [by apply elem_of_union_r|done]).
Qed.

Lemma to_nul_nonzero u m : Forall (fun c => c <> 0) u -> to_nul (u ++ m) = u ++ to_nul m.
Proof. induction 1 as [|c u Hc _ IH]; [done|]. cbn. destruct (Z.eqb_spec c 0); [done|]. by rewrite IH. Qed.

(** With files of at least fifteen characters every IMEI is sent as it is. *)
Lemma imei_cmds_full tx idx buf :
  length buf = 16%nat -> drop 15 buf = [0] ->
  (forall i t, i ∈ idx -> IMEI_CONFIG_FILE i ≫= tx = Some t -> t = [] \/ ((15 <= length t)%nat /\ Forall (fun c => c <> 0) (take 15 t))) ->
  imei_cmds tx idx buf =
    omap (fun i => match IMEI_CONFIG_FILE i ≫= tx with Some (x :: t) => Some (imei_cmd i (take 15 (x :: t))) | _ => None end) idx.
Proof.
  revert buf. induction idx as [|i idx IH]; intros buf Hb Hz Ht; [done|]. cbn [imei_cmds omap list_omap].
  destruct (IMEI_CONFIG_FILE i ≫= tx) as [[|x t]|] eqn:E; try (apply IH; [done..|]; intros j t' Hj; apply Ht; by right).
  destruct (Ht i (x :: t)) as [?|[Hl Hn]]; [by left|done|done|]. unfold MD_MAX_IMEI_STR_LENGTH. set (u := take 15 (x :: t)) in *.
  assert (length u = 15%nat) as Hu by (unfold u; rewrite length_take; lia).
  assert (splice buf 0 u = u ++ [0]) as Es by (unfold splice; rewrite Hu, Nat.add_0_l, Hz; done).
  rewrite Es, IH; [|by rewrite length_app, Hu|by rewrite drop_app_length'|intros j t' Hj; apply Ht; by right].
  f_equal. unfold imei_cmd. rewrite to_nul_nonzero by done. pose proof (to_nul_nonzero u [] Hn) as E0. rewrite app_nil_r in E0. by rewrite E0.
Qed.

(** ** Examples *)

Definition demo_props (k : string) : option (list Z) :=
  if decide (k = TD_TTY_DEV_PROP) then Some (bs "/dev/stty_td")
  else if decide (k = TD_SIM_NUM_PROP) then Some (bs "2")
  else if decide (k = MODEM_RESET_PROP) then Some (bs "1") else None.
Definition demo_texts (k : string) : option (list Z) :=
  if decide (k = "/productinfo/imei1.txt") then Some (bs "866104020000012")
  else if decide (k = "/productinfo/imei3.txt") then Some (bs "35") else None.
Definition demo_env : env :=
  Env demo_props [(bs "1", Some (bs "/init")); (bs "812", Some (bs "com.android.phone"))] demo_texts (fun _ => None) (fun _ => true) (fun _ _ n => n) true.
(** The second file is short: the end of the first IMEI is sent with it. *)
Definition demo_conv : conv :=
  [(bs "AT+SMMSWAP=0" ++ [13], Turn [SelTimeout; SelRead (Some (bs "+CREG: 1"))] (bs "OK"));
   (bs "AT+CMUX=0" ++ [13], Turn [] (bs "OK"));
   (bs "AT+SPIMEI=0," ++ [34] ++ bs "866104020000012" ++ [34; 13], Turn [SelErr true] (bs "OK"));
   (bs "AT+SPIMEI=2," ++ [34] ++ bs "356104020000012" ++ [34; 13], Turn [] (bs "OK"))].
Definition demo_md : md :=
  Md demo_env [OpenAgain; OpenFd 5] (conv_wrs demo_conv) (conv_sels demo_conv) [] [] (-1) [] [] false false (fun _ => MODEM_READY) false (Ext false false 0 (-1)) [].

Lemma demo_conv_ok : conv_ok demo_conv.
Proof. unfold conv_ok, demo_conv. repeat constructor; by vm_compute. Qed.

Lemma service_lifecycle_witness : exists s1 s2,
  start_service TD_MODEM false false demo_md = Ret 0 s1 /\
  log s1 = Opened (bs "/dev/stty_td0") 5 :: conv_said 5 demo_conv ++
    [Closed 5; Start "phoneserver_t"; Start "engpcclientt"; Start "tril-daemon"; Start "tril-daemon1"; Start "cp_diskserver_td"] /\
  running (log s1) = ∅ ∪ names_set ["phoneserver_t"; "tril-daemon"; "cp_diskserver_td"; "tril-daemon1"; "engpcclientt"] /\
  stop_service TD_MODEM false s1 = Ret tt s2 /\
  running (log s2) = ∅ ∖ names_set ["engpcclientt"; "phoneserver_t"; "tril-daemon"; "tril-daemon1"; "cp_diskserver_td"] ∪ {[bs "kill_td_phone"]}.
Proof.
  apply (service_lifecycle TD_MODEM 5 demo_md 1 [] demo_conv [] [] false).
  - by left.
  - lia.
  - done.
  - apply demo_conv_ok.
  - by vm_compute.
  - split; by vm_compute.
  - by vm_compute.
  - by vm_compute.
Defined.
