(* ===== verification/ModemdDet.v ===== *)
(** * The modem supervisor: clients, image loading, detection
      (apps/modemd: modemd.c, modemd_sipc.c, modemd_ext.c, modemd_vlx.c)

    Three kinds of threads watch a modem.  For an internal modem, one reads its
    assert and watchdog devices ([sipc_step]) and one the socket of the phone
    server, which tells that the modem does not answer ([blocked_step]); for an
    external modem, one reads what the modem control service ([ModemCtl])
    broadcasts ([ctl_step]).  They tell the clients of the supervisor, stop the
    services of the modem, load its images again or ask modem control to, and start
    the services.

    A step is one pass of the loop of its thread, run without interruption.  What
    [read] returned is its argument; [None] stands for an error. *)

From S2P Require Import Prelude EngFrame EngText EngCmd ModemBoot ModemCtl Modemd.

Definition MD_MAX_CLIENT_NUM : nat := 10.

(** ** Clients *)

(** The loop of the accept thread from slot [i] on: the first free slot, and the
    last one if none is free. *)
Fixpoint fill_from (i : nat) (n : Z) (l : list Z) : list Z :=
  match l with
  | [] => []
  | x :: l => if x =? -1 then n :: l else if (i =? MD_MAX_CLIENT_NUM - 1)%nat then n :: l else x :: fill_from (i + 1) n l
  end.

Definition listen_init : Sv unit := put (set_md_clients (replicate MD_MAX_CLIENT_NUM (-1))).
(** [accept] returned [n]. *)
Definition listenaccept_step (n : Z) : Sv unit :=
  if n =? -1 then mret tt else put (fun s => set_md_clients (fill_from 0 n (md_clients s)) s).

(** The loop of [loop_info_sockclients]: the table afterwards. *)
Fixpoint info_loop (buf : list Z) (l : list Z) : Sv (list Z) :=
  match l with
  | [] => mret []
  | fd :: l =>
      fd ← (if 0 <=? fd then
              ok ← next cws set_cws;
              if (ok : bool) then _ ← emit (Wrote fd buf); mret fd else _ ← close fd; mret (-1)
            else mret fd);
      l ← info_loop buf l; mret (fd :: l)
  end.
Definition loop_info_sockclients (buf : list Z) (len : nat) : Sv unit :=
  l ← look md_clients; l ← info_loop (take len buf) l; put (set_md_clients l).

(** ** The switch of the engineering services *)

Definition engpc_init : Sv unit := put (set_engpc (replicate MD_MAX_CLIENT_NUM (-1))).
(** [accept] returned [n]; [pipe_w] is [notifypipe[1]], on which the listening
    thread is woken. *)
Definition engcontrol_accept (pipe_w n : Z) : Sv unit :=
  if n =? -1 then mret tt
  else _ ← put (fun s => set_engpc (fill_from 0 n (engpc s)) s); emit (Wrote pipe_w (bs "0" ++ [0])).

Definition control_one (f : Z -> Sv unit) (modem : Z) (p : string) : Sv unit :=
  v ← property_get p []; if str_is v "1" then f modem else mret tt.
Definition control_engservice (open : bool) : Sv unit :=
  let f := if open then start_engservice else stop_engservice in
  _ ← control_one f TD_MODEM TD_MODEM_ENABLE_PROP;
  _ ← control_one f W_MODEM W_MODEM_ENABLE_PROP;
  _ ← control_one f TL_MODEM TL_MODEM_ENABLE_PROP;
  _ ← control_one f LF_MODEM LF_MODEM_ENABLE_PROP;
  control_one f LTE_MODEM LTE_MODEM_ENABLE_PROP.

Definition controlinfolen : Z := Z.of_nat (String.length MODEM_ENGCTRL_PRO) + 1.
(** The reads from one client, [rs] their results: the last one. *)
Fixpoint control_reads (rs : list Z) (countRead : Z) : option Z :=
  match rs with
  | [] => None
  | r :: rs =>
      let countRead := if 0 <? r then countRead + r else countRead in
      if (countRead =? controlinfolen) || (r <=? 0) then Some r else control_reads rs countRead
  end.
(** Slot [i] of the loop of [modemd_engcontrol_listen]. *)
Definition engcontrol_client (i : nat) (nfd : Z) (rs : list Z) : Sv unit :=
  match control_reads rs 0 with
  | None => stuck
  | Some r =>
      _ ← (if r <=? 0 then _ ← close nfd; put (fun s => set_engpc (<[i := -1]> (engpc s)) s) else mret tt);
      v ← property_get MODEM_ENGCTRL_PRO [];
      if str_is v "1" then control_engservice false else if str_is v "0" then control_engservice true else mret tt
  end.
Fixpoint engcontrol_loop (idx : list nat) (n : nat) (ready : gset Z) (rs : Z -> list Z) : Sv unit :=
  match idx, n with
  | i :: idx', S n' =>
      l ← look engpc;
      match l !! i with
      | Some nfd =>
          if negb (nfd =? -1) && bool_decide (nfd ∈ ready)
          then _ ← engcontrol_client i nfd (rs nfd); engcontrol_loop idx' n' ready rs
          else engcontrol_loop idx' n ready rs
      | None => mret tt
      end
  | _, _ => mret tt
  end.
(** [ready] is what [select] returned, the pipe included, which is read empty. *)
Definition engcontrol_round (ready : gset Z) (rs : Z -> list Z) : Sv unit :=
  engcontrol_loop (seq 0 MD_MAX_CLIENT_NUM) (size ready) ready rs.

(** ** Loading the images *)

Definition BM_DEV : string := "/dev/sprd_bm".
Definition modemd_enable_busmonitor (on : bool) : Sv unit :=
  b ← look (fun s => banks (en s) (bs BM_DEV)); if (b : bool) then emit (BusMonitor on) else mret tt.

(** [action] is always the same. *)
Definition MODEM_STAT_CHANGE : string := "com.android.modemassert.MODEM_STAT_CHANGE".
Definition sendBroadcast (action : string) (stat : string) (info : list Z) : Sv unit :=
  emit (System (bs "am broadcast -a " ++ bs action ++ bs " --es " ++ [34] ++ bs "modem_stat" ++ [34; 32; 34] ++ bs stat ++
                [34] ++ bs " --es " ++ [34] ++ bs "modem_info" ++ [34; 32; 34] ++ info ++ [34])).

(** [write_proc_file] at offset 0; the callers ignore its result. *)
Definition write_proc_file (file d : list Z) : Sv unit :=
  b ← look (fun s => banks (en s) file);
  if (b : bool) then
    w ← look (fun s => bank_w (en s) file 0 (Z.of_nat (length d)));
    emit (ProcFile file (take (Z.to_nat w) d))
  else mret tt.

Definition SIPC_BUF : Z := 8192.
(** The copy loop from offset [i] on with [size] bytes to go. *)
Fixpoint copy_loop (fuel : nat) (data : list Z) (fout : list Z) (i size : Z) : Sv Z :=
  match fuel with
  | O => stuck
  | S fuel =>
      if size <=? 0 then mret 0
      else
        let rsize := Z.min size SIPC_BUF in
        let chunk := take (Z.to_nat rsize) (drop (Z.to_nat i) data) in
        if negb (Z.of_nat (length chunk) =? rsize) then mret (-1)
        else
          wsize ← look (fun s => bank_w (en s) fout i rsize);
          _ ← emit (Bank fout i (take (Z.to_nat wsize) chunk));
          if negb (wsize =? rsize) then mret (-1) else copy_loop fuel data fout (i + rsize) (size - rsize)
  end.

(** The offsets are 0 in every call. *)
Definition load_sipc_image (fin fout : list Z) (size : Z) : Sv Z :=
  _ ← modemd_enable_busmonitor false;
  fdin ← look (fun s => parts (en s) fin);
  fdout ← look (fun s => banks (en s) fout);
  match fdin, fdout with
  | Some data, true =>
      res ← copy_loop (Z.to_nat size + 1) data fout 0 size;
      _ ← modemd_enable_busmonitor true;
      mret res
  | _, _ => _ ← modemd_enable_busmonitor true; mret (-1)
  end.

Definition TD_MODEM_SIZE : Z := 10 * 1024 * 1024.
Definition TD_DSP_SIZE : Z := 5 * 1024 * 1024.
Definition W_MODEM_SIZE : Z := 10 * 1024 * 1024.
Definition W_DSP_SIZE : Z := 5 * 1024 * 1024.
Definition LF_MODEM_SIZE : Z := 0x9b0000.
Definition LF_TGDSP_SIZE : Z := 0x2e0000.
Definition LF_LDSP_SIZE : Z := 0x1c0000.
Definition LF_WARM_SIZE : Z := 0x280000.
Definition TL_MODEM_SIZE : Z := 0x8b0000.
Definition TL_TGDSP_SIZE : Z := 0x2e0000.
Definition TL_LDSP_SIZE : Z := 0x1c0000.
Definition L_MODEM_SIZE : Z := 0xbb0000.
Definition L_TGDSP_SIZE : Z := 0x2e0000.
Definition L_LDSP_SIZE : Z := 0x1c0000.
Definition L_WARM_SIZE : Z := 0x280000.

(** What the branch of a modem in [load_sipc_modem_img] uses: the suffix of its
    property, the property of its directory in [/proc], its images (partition, bank,
    size) in order, and the text of [alive_info]. *)
Record sipc := Sipc { nvp : string; proc : string; images : list (string * string * Z); alive_info : string }.
Definition sipc_of (modem : Z) : option sipc :=
  if modem =? TD_MODEM then
    Some (Sipc "t.nvp" "ro.modem.t.dev" [("modem", "modem", TD_MODEM_SIZE); ("dsp", "dsp", TD_DSP_SIZE)] "TD Modem Alive")
  else if modem =? W_MODEM then
    Some (Sipc "w.nvp" "ro.modem.w.dev" [("modem", "modem", W_MODEM_SIZE); ("dsp", "dsp", W_DSP_SIZE)] "W Modem Alive")
  else if modem =? LF_MODEM then
    Some (Sipc "lf.nvp" "ro.modem.lf.dev"
      [("modem", "modem", LF_MODEM_SIZE); ("gdsp", "tgdsp", LF_TGDSP_SIZE); ("ldsp", "ldsp", LF_LDSP_SIZE); ("warm", "warm", LF_WARM_SIZE)] "LF Modem Alive")
  else if modem =? LTE_MODEM then
    Some (Sipc "l.nvp" "ro.modem.l.dev"
      [("modem", "modem", L_MODEM_SIZE); ("gdsp", "tgdsp", L_TGDSP_SIZE); ("ldsp", "ldsp", L_LDSP_SIZE); ("warm", "warm", L_WARM_SIZE)] "L Modem Alive")
  else if modem =? TL_MODEM then
    Some (Sipc "tl.nvp" "ro.modem.tl.dev"
      [("modem", "modem", TL_MODEM_SIZE); ("tgdsp", "tgdsp", TL_TGDSP_SIZE); ("ldsp", "ldsp", TL_LDSP_SIZE)] "TL Modem Alive")
  else None.

Fixpoint load_all (path proc_prop : list Z) (l : list (string * string * Z)) : Sv unit :=
  match l with
  | [] => mret tt
  | (part, bank, size) :: l => _ ← load_sipc_image (path ++ bs part) (proc_prop ++ bs bank) size; load_all path proc_prop l
  end.

(** The loop of [wait_for_modem_alive]; [buf] is not cleared between reads. *)
Fixpoint alive_loop (l : list sel) (buf : list Z) : Sv Z :=
  match l with
  | [] => stuck
  | SelErr _ :: l | SelRead None :: l | SelRead (Some []) :: l => alive_loop l buf
  | SelTimeout :: l =>
      _ ← put (set_sels l); _ ← emit (System (bs "echo " ++ [34] ++ bs "c" ++ [34] ++ bs " > /proc/sysrq-trigger")); mret 0
  | SelRead (Some d) :: l =>
      let buf := splice buf 0 (take 256 d) in
      match cstr buf with
      | None => undef
      | Some t => if contains (bs "Alive") t then _ ← put (set_sels l); mret 1 else alive_loop l buf
      end
  end.
Definition wait_for_modem_alive (modem : Z) : Sv Z :=
  match tty_sim_props modem with
  | None => mret 0
  | Some (tty, _) =>
      tty_dev ← property_get tty [];
      fd ← open_modem_dev (tty_dev ++ bs "0");
      if fd <=? 0 then mret 0
      else
        l ← look sels;
        r ← alive_loop l (replicate 256 0);
        _ ← close fd;
        mret r
  end.

(** [property_get] does not return -1; without the property [nvp] the modem has
    been stopped and is not started again. *)
Definition load_sipc_modem_img (modem : Z) (is_modem_assert : bool) : Sv Z :=
  match sipc_of modem with
  | None => undef
  | Some p =>
      path ← property_get "ro.product.partitionpath" [];
      proc_prop ← property_get (proc p) [];
      _ ← write_proc_file (proc_prop ++ bs "stop") (bs "1");
      path_char ← property_get ("persist.modem." +:+ nvp p) [];
      if bool_decide (path_char = []) then mret 0
      else
        _ ← load_all (path ++ path_char) proc_prop (images p);
        _ ← write_proc_file (proc_prop ++ bs "start") (bs "1");
        alive ← wait_for_modem_alive modem;
        t ← look (fun s => timer_ok (en s));
        if (alive =? 0) && negb t then mret (-1)
        else
          _ ← (if is_modem_assert then
                 _ ← sendBroadcast MODEM_STAT_CHANGE "modem_alive" (bs (alive_info p));
                 loop_info_sockclients (bs (alive_info p) ++ [0]) (String.length (alive_info p) + 1)
               else mret tt);
          _ ← start_service modem false true;
          _ ← put (set_mstate modem MODEM_READY);
          mret 0
  end.

(** ** Clients that dump the modem's memory *)

(** The scan for a readable client: [FD_ISSET] of a free slot is undefined. *)
Fixpoint first_ready (i : nat) (r : gset Z) (l : list Z) : Sv (nat * Z) :=
  match l with
  | [] => undef
  | fd :: l => if fd <? 0 then undef else if decide (fd ∈ r) then mret (i, fd) else first_ready (i + 1) r l
  end.

(** [detect_clients_dispose_state(MINIDUMP)]; [tries] is [retry_times]. *)
Fixpoint dispose_loop (l : list dsel) (tries : nat) : Sv Z :=
  match tries with
  | O => _ ← put (set_dsels l); mret 0
  | S tries' =>
      cl ← look md_clients;
      if forallb (fun fd => fd <? 0) cl then _ ← put (set_dsels l); mret 0
      else match l with
      | [] => stuck
      | DErr true :: l => dispose_loop l tries
      | DErr false :: l => dispose_loop l tries'
      | DTimeout :: l => _ ← put (set_dsels l); mret 0
      | DReady r rd :: l =>
          '(i, fd) ← first_ready 0 r cl;
          match rd fd with
          | Some (x :: d) =>
              _ ← put (set_dsels l);
              mret (if contains (bs "MINIDUMP") (to_nul (take 255 (x :: d))) then 1 else 0)
          | _ =>
              _ ← close fd;
              _ ← put (fun s => set_md_clients (<[i := -1]> (md_clients s)) s);
              dispose_loop l tries'
          end
      end
  end.
Definition detect_clients_dispose_state : Sv Z :=
  l ← look dsels; dispose_loop l 3.

(** ** The external modem (modemd_ext.c) *)

Definition EXT_TD_MODEM_ALIVE_STR : string := "_TD Modem _Alive".
Definition EXT_LTE_MODEM_ALIVE_STR : string := "LTE Modem _Alive".
Definition GEN_MODEM_ALIVE_STR : string := "Modem Alive".
Definition EXT_LTE_MODEM_ASSERT_STR : string := "LTE Modem Assert".
Definition EXT_TD_MODEM_ASSERT_STR : string := "_TD Modem Assert".
Definition GEN_MODEM_ASSERT_STR : string := "Modem Assert".
Definition EXT_LTE_MODEM_RESET_STR : string := "LTE Modem _Reset".
Definition EXT_WTD_MODEM_RESET_STR : string := "WDG Modem _Reset".
Definition GEN_MODEM_RESET_STR : string := "Modem Reset".
Definition EXT_LTE_RELOAD_SVLTE_STR : string := "LTE Modem Reload,SVLTE".
Definition EXT_LTE_RELOAD_CSFB_STR : string := "LTE Modem Reload,_CSFB".
Definition LTE_MODEM_START_PROP : string := "ril.service.l.enable".
Definition LTE_MODEM_DEFAULT : Z := -1.
Definition LTE_MODEM_OFF : Z := 0.
Definition LTE_MODEM_ON : Z := 1.

Definition is_modem_reset : Sv bool := v ← property_get MODEM_RESET_PROP (bs "0"); mret (negb (atoi v =? 0)).
Definition is_svlte_mode : Sv bool := v ← property_get SSDA_MODE_PROP (bs SVLTE_MODE); mret (str_is v SVLTE_MODE).
(** With no default value an unset property leaves the empty string. *)
Definition get_test_mode : Sv Z := v ← property_get SSDA_TESTMODE_PROP []; mret (atoi v).
Definition is_test_mode_changed : Sv bool := t ← get_test_mode; x ← look ext; mret (negb (sTestMode x =? t)).

Definition set_thread (b : bool) (s : md) : md := let x := ext s in set_ext (Ext b (sSSDAMode x) (sTestMode x) (sFdModemCtl x)) s.
Definition set_ssda (b : bool) (s : md) : md := let x := ext s in set_ext (Ext (sStartLteThread x) b (sTestMode x) (sFdModemCtl x)) s.
Definition set_test (t : Z) (s : md) : md := let x := ext s in set_ext (Ext (sStartLteThread x) (sSSDAMode x) t (sFdModemCtl x)) s.
Definition set_ctl_fd (fd : Z) (s : md) : md := let x := ext s in set_ext (Ext (sStartLteThread x) (sSSDAMode x) (sTestMode x) fd) s.

Definition reload_cmd (x : ext_modem) : list Z := bs (if sSSDAMode x then EXT_LTE_RELOAD_CSFB_STR else EXT_LTE_RELOAD_SVLTE_STR).
Definition send_reload_modemd_message : Sv Z :=
  x ← look ext;
  if sFdModemCtl x =? -1 then mret (-1)
  else
    ok ← next cws set_cws;
    if (ok : bool) then _ ← emit (Wrote (sFdModemCtl x) (reload_cmd x ++ [0])); mret 0 else mret (-1).

(** One pass of the loop of the thread [start_svlte_service], with the value of
    its property; whether it goes on. *)
Definition svlte_service_step : Sv bool :=
  x ← look ext;
  if sStartLteThread x then
    ltes ← property_get LTE_MODEM_START_PROP (bs "-1");
    let lteStart := atoi ltes in
    if lteStart =? LTE_MODEM_DEFAULT then mret true
    else if lteStart =? LTE_MODEM_ON then _ ← start_modem LTE_MODEM; _ ← put (set_thread false); mret false
    else if lteStart =? LTE_MODEM_OFF then mret false
    else mret true
  else _ ← put (set_thread false); mret false.

Definition start_svlte_mode : Sv unit :=
  x ← look ext;
  if sStartLteThread x then mret tt
  else _ ← put (set_thread true); emit (Thread "start_svlte_service" LTE_MODEM).
(** [pthread_join] waits for the thread, which sees the flag. *)
Definition stop_svlte_service : Sv unit :=
  x ← look ext;
  _ ← (if sStartLteThread x then put (set_thread false) else mret tt);
  stop_service LTE_MODEM false.

Definition start_external_modem : Sv unit :=
  m ← is_svlte_mode;
  if (m : bool) then
    _ ← put (set_ssda false);
    _ ← emit (WakeLock true);
    _ ← start_modem TD_MODEM;
    _ ← emit (WakeLock false);
    _ ← put (set_mstate TD_MODEM MODEM_READY);
    t ← get_test_mode;
    _ ← put (set_test t);
    if t =? SSDA_TEST_MODE_SVLTE then _ ← start_svlte_mode; put (set_mstate LTE_MODEM MODEM_READY) else mret tt
  else
    _ ← emit (WakeLock true);
    _ ← start_modem LTE_MODEM;
    _ ← emit (WakeLock false);
    _ ← put (set_ssda true);
    t ← get_test_mode;
    _ ← put (set_test t);
    put (set_mstate LTE_MODEM MODEM_READY).

Definition stop_external_modem : Sv unit :=
  x ← look ext;
  if sSSDAMode x then
    _ ← put (set_mstate LTE_MODEM MODEM_ASSERT);
    _ ← emit (WakeLock true);
    _ ← stop_service LTE_MODEM false;
    emit (WakeLock false)
  else
    _ ← (if sTestMode x =? SSDA_TEST_MODE_SVLTE
         then _ ← put (set_mstate LTE_MODEM MODEM_ASSERT); stop_svlte_service else mret tt);
    _ ← put (set_mstate TD_MODEM MODEM_ASSERT);
    _ ← emit (WakeLock true);
    _ ← stop_service TD_MODEM false;
    emit (WakeLock false).

(** The texts of a class of messages. *)
Definition has_any (l : list string) (buf : list Z) : bool := existsb (fun x => contains (bs x) buf) l.
Definition is_alive := has_any [EXT_TD_MODEM_ALIVE_STR; EXT_LTE_MODEM_ALIVE_STR; GEN_MODEM_ALIVE_STR].
Definition is_assert := has_any [EXT_TD_MODEM_ASSERT_STR; EXT_LTE_MODEM_ASSERT_STR; GEN_MODEM_ASSERT_STR].
Definition is_reset := has_any [EXT_LTE_MODEM_RESET_STR; EXT_WTD_MODEM_RESET_STR; GEN_MODEM_RESET_STR].

(** The connection to modem control is given up: [true] for [goto reconnect]. *)
Definition lost (sfd : Z) : Sv bool := _ ← close sfd; _ ← put (set_ctl_fd (-1)); mret true.
Definition reload_or_lost (sfd : Z) : Sv bool := r ← send_reload_modemd_message; if r <? 0 then lost sfd else mret false.

Definition ctl_connect (sfd : Z) : Sv unit := put (set_ctl_fd sfd).
(** One pass of the loop of [detect_modem_control] on the connection [sfd]. *)
Definition control_step (sfd : Z) (d : option (list Z)) : Sv bool :=
  match d with
  | None | Some [] => lost sfd
  | Some d =>
      let numRead := length (take 128 d) in
      buf ← text 128 d;
      if is_alive buf then
        _ ← start_external_modem;
        _ ← loop_info_sockclients (take 128 d) numRead;
        mret false
      else if is_assert buf then
        _ ← stop_external_modem;
        c ← is_test_mode_changed;
        _ ← (if (c : bool) then mret tt else loop_info_sockclients (take 128 d) numRead);
        r ← is_modem_reset;
        c ← is_test_mode_changed;
        if r || c then reload_or_lost sfd else mret false
      else if is_reset buf then
        _ ← loop_info_sockclients (take 128 d) numRead;
        _ ← stop_external_modem;
        reload_or_lost sfd
      else mret false
  end.

(** ** The phone server's socket *)

(** Whose state a message is about, in the order of the tests. *)
Definition blocked_modem (buf : list Z) : option Z :=
  if contains (bs "TD Modem Blocked") buf then Some TD_MODEM
  else if contains (bs "W Modem Blocked") buf then Some W_MODEM
  else if contains (bs "L Modem Blocked") buf then Some LTE_MODEM
  else if contains (bs "TL Modem Blocked") buf then Some TL_MODEM
  else if contains (bs "LF Modem Blocked") buf then Some LF_MODEM
  else None.

Definition loop_dev (modem : Z) : option (string * string) :=
  if modem =? TD_MODEM then Some ("ro.modem.t.loop", "/dev/spipe_td0")
  else if modem =? W_MODEM then Some ("ro.modem.w.loop", "/dev/spipe_w0")
  else if modem =? TL_MODEM then Some ("ro.modem.tl.loop", "/dev/spipe_lte0")
  else if modem =? LF_MODEM then Some ("ro.modem.lf.loop", "/dev/spipe_lte0")
  else if modem =? LTE_MODEM then Some ("ro.modem.l.loop", "/dev/spipe_l0")
  else None.

Fixpoint read_retry (l : list sel) : Sv unit :=
  match l with
  | [] => stuck
  | SelErr true :: l => read_retry l
  | _ :: l => put (set_sels l)
  end.
(** The test of the loop device, of which nothing depends. *)
Definition loop_test (dev : list Z) : Sv unit :=
  fd ← open_device dev;
  if fd <? 0 then mret tt
  else
    w ← next wrs set_wrs;
    if w <? 0 then close fd
    else _ ← emit (Wrote fd (bs "AT" ++ [0])); l ← look sels; _ ← read_retry l; close fd.

Definition lock : Sv unit := _ ← emit (System wake_lock); put (set_locking true).
Definition unlock : Sv unit := _ ← emit (System wake_unlock); put (set_locking false).

(** From [raw_reset] on. *)
Definition raw_reset (modem : Z) (d buf : list Z) : Sv unit :=
  _ ← lock;
  _ ← sendBroadcast MODEM_STAT_CHANGE "modem_block" buf;
  _ ← loop_info_sockclients d (length d);
  v ← property_get MODEM_RESET_PROP (bs "0");
  _ ← stop_service modem false;
  _ ← (if negb (atoi v =? 0) then
         e ← is_external_modem;
         if (e : bool) then _ ← send_reload_modemd_message; mret tt else _ ← load_sipc_modem_img modem true; mret tt
       else mret tt);
  unlock.

(** One pass of the loop of [detect_modem_blocked] on the connection [soc_fd];
    [true] for [goto reconnect].  A lost connection waits for the modem to be
    ready. *)
Definition blocked_step (modem soc_fd : Z) (d : option (list Z)) : Sv bool :=
  match d with
  | None | Some [] =>
      st ← look mstate;
      if st modem =? MODEM_READY then _ ← close soc_fd; mret true else stuck
  | Some d =>
      buf ← text 256 d;
      match blocked_modem buf with
      | None => mret false
      | Some k =>
          st ← look mstate;
          if negb (st k =? MODEM_READY) then mret false
          else
            _ ← put (set_mstate k MODEM_ASSERT);
            e ← is_external_modem;
            _ ← (if negb (k =? W_MODEM) && e then mret tt
                 else match loop_dev modem with
                      | Some (p, dflt) => dev ← property_get p (bs dflt); loop_test dev
                      | None => undef
                      end);
            _ ← raw_reset modem (take 256 d) buf;
            mret false
      end
  end.

(** ** The assert and watchdog devices *)

Definition s_reset_cmd : list Z := [0x7a; 0x0a].

Record sipc_dev := SipcDev { assert_prop : string; assert_default : string; watchdog_dev : string; diag_prop : string; log_prop : string; hang_text : string }.
Definition sipc_dev_of (modem : Z) : option sipc_dev :=
  if modem =? TD_MODEM then Some (SipcDev "ro.modem.t.assert" "/dev/spipe_td2" "/proc/cpt/wdtirq" "ro.modem.t.diag" "ro.modem.t.log" "TD Modem Hang")
  else if modem =? W_MODEM then Some (SipcDev "ro.modem.w.assert" "/dev/spipe_w2" "/proc/cpw/wdtirq" "ro.modem.w.diag" "ro.modem.w.log" "W Modem Hang")
  else if modem =? TL_MODEM then Some (SipcDev "ro.modem.tl.assert" "/dev/spipe_lte2" "/proc/cptl/wdtirq" "ro.modem.tl.diag" "ro.modem.tl.log" "TL Modem Hang")
  else if modem =? LF_MODEM then Some (SipcDev "ro.modem.lf.assert" "/dev/spipe_lte2" "/proc/cptl/wdtirq" "ro.modem.lf.diag" "ro.modem.lf.log" "LF Modem Hang")
  else if modem =? LTE_MODEM then Some (SipcDev "ro.modem.l.assert" "/dev/spipe_lte2" "/proc/cptl/wdtirq" "ro.modem.l.diag" "ro.modem.l.log" "LTE Modem Hang")
  else None.

(** What the thread keeps: the two descriptors, [select]'s set, [fd], and the two
    channels. *)
Record det := Det { d_assert : Z; d_watchdog : Z; d_rfds : gset Z; d_cur : Z; diag_chan : list Z; log_chan : list Z }.
Definition set_rfds (r : gset Z) (cur : Z) (t : det) : det := Det (d_assert t) (d_watchdog t) r cur (diag_chan t) (log_chan t).

(** [detect_sipc_modem] up to its loop; [None]: the thread ends. *)
Definition sipc_start (modem : Z) : Sv (option det) :=
  match sipc_dev_of modem with
  | None => mret None
  | Some p =>
      assert_dev ← property_get (assert_prop p) (bs (assert_default p));
      diag ← property_get (diag_prop p) (bs "not_find");
      lg ← property_get (log_prop p) (bs "not_find");
      a ← open_device assert_dev;
      if a <? 0 then mret None
      else
        w ← open_device (bs (watchdog_dev p));
        if w <? 0 then _ ← close a; mret None
        else mret (Some (Det a w {[a; w]} (-1) diag lg))
  end.

Fixpoint drain (l : list sel) : Sv unit :=
  match l with
  | [] => stuck
  | SelRead (Some (_ :: _)) :: l => drain l
  | _ :: l => put (set_sels l)
  end.

(** The silent reset: the log is read empty, the reset command is written to the
    diagnostic channel.  The pass of the loop ends without [unlock]. *)
Definition silent_reset (t : det) : Sv unit :=
  log_fd ← open_device (log_chan t);
  if log_fd <? 0 then mret tt
  else
    l ← look sels;
    _ ← drain l;
    _ ← close log_fd;
    diag_fd ← open_device (diag_chan t);
    if diag_fd <? 0 then mret tt
    else _ ← emit (Wrote diag_fd s_reset_cmd); close diag_fd.

(** One pass of the loop of [detect_sipc_modem]: [ready] are the descriptors that
    have something to read, [d] is what [read] gives. *)
Definition sipc_step (modem : Z) (ready : gset Z) (d : option (list Z)) (t : det) : Sv det :=
  let rfds := d_rfds t ∩ ready in
  if decide (rfds = ∅) then stuck
  else
    let fd := if decide (d_assert t ∈ rfds) then d_assert t else if decide (d_watchdog t ∈ rfds) then d_watchdog t else d_cur t in
    let t := set_rfds rfds fd t in
    if fd <=? 0 then mret t
    else
      _ ← lock;
      match d with
      | None | Some [] => mret t
      | Some d =>
          let d := take 256 d in
          buf ← text 256 d;
          if contains (bs "Modem Reset") buf then
            _ ← put (set_mstate modem MODEM_RESET);
            _ ← sendBroadcast MODEM_STAT_CHANGE "modem_reset" buf;
            _ ← loop_info_sockclients d (length d);
            _ ← stop_service modem false;
            _ ← load_sipc_modem_img modem true;
            _ ← unlock;
            mret t
          else if contains (bs "Modem Assert") buf || contains (bs "wdtirq") buf then
            _ ← put (set_mstate modem MODEM_ASSERT);
            _ ← (if contains (bs "wdtirq") buf then
                   match sipc_dev_of modem with
                   | Some p => loop_info_sockclients (bs (hang_text p) ++ [0]) (String.length (hang_text p) + 1)
                   | None => loop_info_sockclients d (length d)
                   end
                 else
                   _ ← sendBroadcast MODEM_STAT_CHANGE "modem_assert" buf;
                   loop_info_sockclients d (length d));
            _ ← stop_service modem false;
            _ ← detect_clients_dispose_state;
            v ← property_get MODEM_RESET_PROP (bs "0");
            if negb (atoi v =? 0) then _ ← silent_reset t; mret t
            else _ ← unlock; mret t
          else _ ← unlock; mret t
      end.

(** ** Telling the clients *)

Lemma add_log_cws L c s : add_log L (set_cws c s) = set_cws c (add_log L s).
Proof. done. Qed.
Lemma add_log_clients L c s : add_log L (set_md_clients c s) = set_md_clients c (add_log L s).
Proof. done. Qed.
Lemma set_cws_twice c c' s : set_cws c (set_cws c' s) = set_cws c s.
Proof. done. Qed.
Lemma set_clients_same s : set_md_clients (md_clients s) s = s.
Proof. by destruct s. Qed.

(** The clients of a table, in order. *)
Definition present (l : list Z) : list Z := filter (fun fd => 0 <= fd) l.
(** What each of them gets, or that it is closed; [rs] are the results of the
    writes. *)
Definition told (buf : list Z) (l : list Z) (rs : list bool) : list effect :=
  zip_with (fun fd ok => if (ok : bool) then Wrote fd buf else Closed fd) (present l) rs.
(** The table afterwards. *)
Fixpoint dropped (l : list Z) (rs : list bool) : list Z :=
  match l with
  | [] => []
  | fd :: l =>
      if 0 <=? fd then match rs with ok :: rs => (if (ok : bool) then fd else -1) :: dropped l rs | [] => fd :: l end
      else fd :: dropped l rs
  end.

Lemma present_cons fd l : present (fd :: l) = if 0 <=? fd then fd :: present l else present l.
Proof. unfold present. rewrite filter_cons. destruct (Z.leb_spec 0 fd); case_decide; try done; lia. Qed.

Lemma info_loop_run buf l : forall rs rest s,
  length rs = length (present l) -> cws s = rs ++ rest ->
  info_loop buf l s = Ret (dropped l rs) (set_cws rest (add_log (told buf l rs) s)).
Proof.
  induction l as [|fd l IH]; intros rs rest s Hl Hc; cbn [info_loop dropped].
  - destruct rs; [|done]. unfold told. cbn. rewrite sret_run, add_log_nil. f_equal. destruct s. cbn in *. by subst.
  - unfold told. rewrite present_cons in Hl |- *. rewrite sbind_run. destruct (0 <=? fd).
    + destruct rs as [|ok rs]; [done|]. cbn [length] in Hl. injection Hl as Hl. cbn [app] in Hc.
      rewrite sbind_run, (next_run _ _ ok (rs ++ rest)) by done. unfold close.
      destruct ok; rewrite sbind_run, emit_run, sret_run, sbind_run, (IH rs rest) by done; rewrite sret_run, !add_log_cws, set_cws_twice, add_log_app; done.
    + rewrite sret_run, sbind_run, (IH rs rest) by done. done.
Qed.

Lemma loop_info_run buf n rs rest s :
  length rs = length (present (md_clients s)) -> cws s = rs ++ rest ->
  loop_info_sockclients buf n s =
    Ret tt (set_md_clients (dropped (md_clients s) rs) (set_cws rest (add_log (told (take n buf) (md_clients s) rs) s))).
Proof.
  intros Hl Hc. unfold loop_info_sockclients. rewrite sbind_run, look_run, sbind_run, (info_loop_run _ _ rs rest) by done. done.
Qed.

Lemma dropped_none l n : n = length (present l) -> dropped l (replicate n true) = l.
Proof.
  intros ->. induction l as [|fd l IH]; [done|]. rewrite present_cons. cbn [dropped]. destruct (0 <=? fd); cbn [length replicate]; by rewrite IH.
Qed.

Definition all_told (buf : list Z) (l : list Z) : list effect := map (fun fd => Wrote fd buf) (present l).
Lemma told_everyone buf l : told buf l (replicate (length (present l)) true) = all_told buf l.
Proof. unfold told, all_told. induction (present l) as [|fd p IH]; [done|]. cbn. by rewrite IH. Qed.

(** When every write succeeds, every client gets the message and stays. *)
Lemma loop_info_all buf n rest s :
  cws s = replicate (length (present (md_clients s))) true ++ rest ->
  loop_info_sockclients buf n s = Ret tt (set_cws rest (add_log (all_told (take n buf) (md_clients s)) s)).
Proof.
  intros Hc. rewrite (loop_info_run buf n (replicate (length (present (md_clients s))) true) rest) by (done || apply length_replicate).
  rewrite dropped_none, told_everyone by done. by destruct s.
Qed.

(** ** Copying an image *)

(** The contents of a bank of modem memory after what has been done. *)
Definition mem1 (path : list Z) (m : list Z) (x : effect) : list Z :=
  match x with Bank p off d => if decide (p = path) then splice m (Z.to_nat off) d else m | _ => m end.
Definition mem (path : list Z) (l : list effect) : list Z := foldl (mem1 path) [] l.

(** Effects that leave the services and the banks but [P] alone. *)
Definition inert (P : list Z -> Prop) (L : list effect) : Prop :=
  (forall r, foldl run1 r L = r) /\ (forall p m, ~ P p -> foldl (mem1 p) m L = m).
Lemma inert_nil P : inert P [].
Proof. done. Qed.
Lemma inert_app P L L' : inert P L -> inert P L' -> inert P (L ++ L').
Proof.
  intros [H1 H2] [H3 H4]. split; [intros r; by rewrite foldl_app, H1, H3|]. intros p m Hp. by rewrite foldl_app, H2, H4.
Qed.
Lemma inert_weaken (P Q : list Z -> Prop) L : (forall p, P p -> Q p) -> inert P L -> inert Q L.
Proof. intros H [H1 H2]. split; [done|]. intros p m Hp. apply H2. naive_solver. Qed.

Lemma mem1_splice path m i d :
  (i <= length m)%nat -> mem1 path m (Bank path (Z.of_nat i) d) = take i m ++ d ++ drop (i + length d) m.
Proof. intros H. cbn [mem1]. rewrite decide_True, Nat2Z.id by done. done. Qed.

Lemma copy_loop_ok data fout fuel : forall (i size : nat) s m,
  (i + size <= length data)%nat -> (size < fuel)%nat -> (i <= length m)%nat -> take i m = take i data ->
  (forall o n, bank_w (en s) fout o n = n) ->
  exists L, copy_loop fuel data fout (Z.of_nat i) (Z.of_nat size) s = Ret 0 (add_log L s) /\ inert (eq fout) L /\
    foldl (mem1 fout) m L = take (i + size) data ++ drop (i + size) m.
Proof.
  induction fuel as [|fuel IH]; intros i size s m Hd Hf Hm Hp Hw; [lia|]. cbn [copy_loop].
  destruct (Z.leb_spec (Z.of_nat size) 0).
  - exists []. assert (size = 0)%nat as -> by lia. rewrite Nat.add_0_r, add_log_nil. split; [done|]. split; [apply inert_nil|].
    cbn. by rewrite <- Hp, take_drop.
  - set (rs := min size (Z.to_nat 8192)). assert (Z.min (Z.of_nat size) SIPC_BUF = Z.of_nat rs) as -> by (unfold rs, SIPC_BUF; lia).
    assert (0 < rs <= size)%nat as Hrs by (unfold rs; lia).
    rewrite !Nat2Z.id. set (chunk := take rs (drop i data)).
    assert (length chunk = rs) as Hc by (unfold chunk; rewrite length_take, length_drop; lia).
    rewrite Hc, Z.eqb_refl. cbn [negb]. rewrite sbind_run, look_run, Hw, sbind_run, emit_run, Z.eqb_refl, Nat2Z.id. cbn [negb].
    rewrite take_ge by lia. set (e := Bank fout (Z.of_nat i) chunk).
    replace (Z.of_nat i + Z.of_nat rs) with (Z.of_nat (i + rs)) by lia. replace (Z.of_nat size - Z.of_nat rs) with (Z.of_nat (size - rs)) by lia.
    assert (take (i + rs) data = take i data ++ chunk) as Et by (unfold chunk; by rewrite <- take_take_drop).
    assert (length (take i data) = i) as Hti by (rewrite length_take; lia).
    set (m1 := take i data ++ chunk ++ drop (i + rs) m).
    assert (mem1 fout m e = m1) as Em by (unfold e, m1; by rewrite mem1_splice, Hp, Hc).
    destruct (IH (i + rs)%nat (size - rs)%nat (add_log [e] s) m1) as (L & E & Hi & Hl).
    + lia.
    + lia.
    + unfold m1. rewrite !length_app. lia.
    + rewrite Et. unfold m1. rewrite app_assoc, take_app_length'; [done|]. rewrite length_app. lia.
    + done.
    + exists (e :: L). split; [rewrite E; by rewrite add_log_app|]. split.
      * apply (inert_app _ [e] L); [|done]. split; [done|]. intros p m' Hn. cbn. by rewrite decide_False by congruence.
      * cbn [foldl]. rewrite Em, Hl. replace (i + rs + (size - rs))%nat with (i + size)%nat by lia. f_equal.
        unfold m1. rewrite app_assoc, drop_app_ge by (rewrite length_app; lia). rewrite drop_drop, length_app. f_equal. lia.
Qed.

Lemma busmonitor_run on s : exists L, modemd_enable_busmonitor on s = Ret tt (add_log L s) /\ inert (fun _ => False) L.
Proof.
  unfold modemd_enable_busmonitor. rewrite sbind_run, look_run. destruct (banks _ _).
  - exists [BusMonitor on]. by rewrite emit_run.
  - exists []. by rewrite add_log_nil.
Qed.

(** An image can be loaded: the partition is there and long enough, the bank can
    be opened and takes what is written. *)
Definition loadable (e : env) (fin fout : list Z) (size : Z) (data : list Z) : Prop :=
  parts e fin = Some data /\ 0 <= size <= Z.of_nat (length data) /\ banks e fout = true /\ forall o n, bank_w e fout o n = n.
(** A bank holds the beginning of a partition, followed by what was behind it. *)
Definition loaded (size : Z) (data m m' : list Z) : Prop := m' = take (Z.to_nat size) data ++ drop (Z.to_nat size) m.

Lemma load_sipc_image_ok fin fout size data s :
  loadable (en s) fin fout size data ->
  exists L, load_sipc_image fin fout size s = Ret 0 (add_log L s) /\ inert (eq fout) L /\
    forall m, loaded size data m (foldl (mem1 fout) m L).
Proof.
  intros (Hp & Hs & Hb & Hw). unfold load_sipc_image. destruct (busmonitor_run false s) as (L1 & E1 & I1).
  rewrite sbind_run, E1, sbind_run, look_run, sbind_run, look_run. cbn [en add_log]. rewrite Hp, Hb, sbind_run.
  assert (forall L, inert (fun _ => False) L -> inert (eq fout) L /\ forall m, foldl (mem1 fout) m L = m) as Hf.
  { intros L [H1 H2]. split; [split; [done|intros p m _; apply H2; tauto]|intros m; apply H2; tauto]. }
  assert (exists L, copy_loop (Z.to_nat size + 1) data fout 0 size (add_log L1 s) = Ret 0 (add_log L (add_log L1 s)) /\ inert (eq fout) L /\
    forall m, loaded size data m (foldl (mem1 fout) m L)) as (L2 & E2 & I2 & M2).
  { assert (forall m, exists L, copy_loop (Z.to_nat size + 1) data fout 0 size (add_log L1 s) = Ret 0 (add_log L (add_log L1 s)) /\ inert (eq fout) L /\
      loaded size data m (foldl (mem1 fout) m L)) as Hm.
    { intros m. destruct (copy_loop_ok data fout (Z.to_nat size + 1) 0 (Z.to_nat size) (add_log L1 s) m) as (L & E & I & M); [lia|lia|lia|done|done|].
      change (Z.of_nat 0) with 0 in E. rewrite Z2Nat.id in E by lia. by exists L. }
    destruct (Hm []) as (L & E & I & _). exists L. split; [done|]. split; [done|]. intros m. destruct (Hm m) as (L' & E' & _ & M).
    rewrite E in E'. apply (f_equal (fun r => match r with Ret _ s => log s | _ => [] end)) in E'. cbn in E'.
    apply app_inv_head in E'. by subst. }
  rewrite E2. destruct (busmonitor_run true (add_log L2 (add_log L1 s))) as (L3 & E3 & I3).
  rewrite sbind_run, E3, sret_run, !add_log_app. exists (L1 ++ L2 ++ L3). split; [done|].
  destruct (Hf _ I1) as [I1' M1], (Hf _ I3) as [I3' M3]. split; [by apply inert_app; [|apply inert_app]|].
  intros m. by rewrite !foldl_app, M1, M3.
Qed.

Definition bank_paths (proc_prop : list Z) (l : list (string * string * Z)) : list (list Z) := map (fun x => proc_prop ++ bs x.1.2) l.

Lemma load_all_ok path proc_prop l : forall s,
  NoDup (bank_paths proc_prop l) ->
  Forall (fun x => exists data, loadable (en s) (path ++ bs x.1.1) (proc_prop ++ bs x.1.2) x.2 data) l ->
  exists L, load_all path proc_prop l s = Ret tt (add_log L s) /\ inert (fun p => p ∈ bank_paths proc_prop l) L /\
    Forall (fun x => forall data m, parts (en s) (path ++ bs x.1.1) = Some data ->
              loaded x.2 data m (foldl (mem1 (proc_prop ++ bs x.1.2)) m L)) l.
Proof.
  induction l as [|[[part bank] size] l IH]; intros s Hn Hl; cbn [load_all].
  - exists []. rewrite add_log_nil. split; [done|]. split; [apply inert_nil|done].
  - apply Forall_cons in Hl as [(data & Hd) Hl]. cbn [bank_paths map fst snd] in Hn. apply NoDup_cons in Hn as [Hn0 Hn].
    cbn [fst snd] in Hd. destruct (load_sipc_image_ok _ _ _ _ s Hd) as (L1 & E1 & I1 & M1). rewrite sbind_run, E1.
    destruct (IH (add_log L1 s) Hn Hl) as (L2 & E2 & I2 & M2). rewrite E2, add_log_app. exists (L1 ++ L2). split; [done|]. split.
    + apply inert_app; [eapply inert_weaken; [|exact I1]|eapply inert_weaken; [|exact I2]]; cbn.
      * intros p <-. apply list_elem_of_here.
      * intros p Hp. by apply list_elem_of_further.
    + constructor.
      * cbn [fst snd]. intros data' m Hd'. destruct Hd as (Hd & _). rewrite Hd in Hd'. injection Hd' as <-. rewrite foldl_app.
        destruct I2 as [_ I2]. rewrite I2 by done. apply M1.
      * rewrite Forall_forall in M2 |- *. intros x Hx data' m Hd'. rewrite foldl_app. destruct I1 as [_ I1]. rewrite I1; [by apply M2|].
        intros He. apply Hn0. rewrite He. by apply (list_elem_of_fmap_2 (fun x => proc_prop ++ bs x.1.2)).
Qed.

(** ** Recovery of an internal modem *)

Lemma write_proc_run file d s :
  banks (en s) file = true -> bank_w (en s) file 0 (Z.of_nat (length d)) = Z.of_nat (length d) ->
  write_proc_file file d s = Ret tt (add_log [ProcFile file d] s).
Proof.
  intros H1 H2. unfold write_proc_file. rewrite sbind_run, look_run, H1, sbind_run, look_run, H2, Nat2Z.id, take_ge by lia. by rewrite emit_run.
Qed.

(** The modem's tty is silent, then tells that it is alive. *)
Definition alive_skip (x : sel) : bool := match x with SelErr _ | SelRead None | SelRead (Some []) => true | _ => false end.
Definition says_alive (d : list Z) : Prop := (0 < length d < 256)%nat /\ Forall (fun c => c <> 0) d /\ contains (bs "Alive") d = true.

Lemma alive_loop_ok nz d l s :
  forallb alive_skip nz = true -> says_alive d -> alive_loop (nz ++ SelRead (Some d) :: l) (replicate 256 0) s = Ret 1 (set_sels l s).
Proof.
  intros Hn (Hl & Hz & Hc). induction nz as [|x nz IH]; cbn [app].
  - destruct d as [|c d]; [cbn in Hl; lia|]. cbn [alive_loop]. rewrite take_ge by lia.
    assert (splice (replicate 256 0) 0 (c :: d) = (c :: d) ++ 0 :: replicate (255 - length (c :: d)) 0) as ->.
    { unfold splice. cbn [take]. rewrite Nat.add_0_l, drop_replicate. replace (256 - length (c :: d))%nat with (S (255 - length (c :: d))) by lia. done. }
    rewrite EngCmd.cstr_at_nul by done. by rewrite Hc.
  - cbn [forallb] in Hn. apply andb_true_iff in Hn as [Hx Hn]. destruct x as [|  |[[]|]]; try done; by apply IH.
Qed.

Lemma wait_alive_run modem k fa os nz d l s :
  modem ∈ modems -> 0 < fa -> opens s = replicate k OpenAgain ++ OpenFd fa :: os ->
  sels s = nz ++ SelRead (Some d) :: l -> forallb alive_skip nz = true -> says_alive d ->
  wait_for_modem_alive modem s =
    Ret 1 (add_log [Opened (tty_path modem s) fa; Closed fa] (set_sels l (set_opens os s))).
Proof.
  intros Hm Hf Ho Hs Hn Hd. unfold wait_for_modem_alive. rewrite tty_sim_names by done. rewrite sbind_run, property_get_run.
  fold (tty_path modem s). rewrite sbind_run, (open_modem_dev_ok k fa os _ s Ho). destruct (Z.leb_spec fa 0); [lia|].
  rewrite sbind_run, look_run, sbind_run. change (sels (add_log _ (set_opens os s))) with (sels s). rewrite Hs, alive_loop_ok by done.
  unfold close. rewrite sbind_run, emit_run, sret_run. f_equal.
  change (set_sels l (add_log [Opened (tty_path modem s) fa] (set_opens os s))) with (add_log [Opened (tty_path modem s) fa] (set_sels l (set_opens os s))).
  by rewrite add_log_app.
Qed.

Definition img_path (e : env) (p : sipc) : list Z :=
  pget e "ro.product.partitionpath" [] ++ pget e ("persist.modem." +:+ nvp p) [].
Definition proc_path (e : env) (p : sipc) : list Z := pget e (proc p) [].
Definition bcast (stat : string) (info : list Z) : effect :=
  System (bs "am broadcast -a " ++ bs MODEM_STAT_CHANGE ++ bs " --es " ++ [34] ++ bs "modem_stat" ++ [34; 32; 34] ++ bs stat ++
          [34] ++ bs " --es " ++ [34] ++ bs "modem_info" ++ [34; 32; 34] ++ info ++ [34]).
Lemma sendBroadcast_run stat info s : sendBroadcast MODEM_STAT_CHANGE stat info s = Ret tt (add_log [bcast stat info] s).
Proof. done. Qed.

(** The environment lets a modem come back: its images can be loaded, its files in
    [/proc] written. *)
Record env_ok (e : env) (p : sipc) : Prop := EnvOk {
  eo_nvp : pget e ("persist.modem." +:+ nvp p) [] <> [];
  eo_images : Forall (fun x => exists data, loadable e (img_path e p ++ bs x.1.1) (proc_path e p ++ bs x.1.2) x.2 data) (images p);
  eo_files : Forall (fun f => banks e (proc_path e p ++ bs f) = true /\ bank_w e (proc_path e p ++ bs f) 0 1 = 1) ["stop"; "start"];
}.

(** The scripts of a recovery: the tty opens (as [fa]), tells that the modem is
    alive, opens again (as [fb]) and answers the commands; every write to a client
    succeeds [n] times. *)
Record script_ok (modem : Z) (n : nat) (s : md) (fa fb : Z) (l : conv) : Prop := ScriptOk {
  so_opens : exists k k' os, opens s = replicate k OpenAgain ++ OpenFd fa :: replicate k' OpenAgain ++ OpenFd fb :: os;
  so_fds : 0 < fa /\ 0 <= fb;
  so_sels : exists nz d rest, sels s = nz ++ SelRead (Some d) :: conv_sels l ++ rest /\ forallb alive_skip nz = true /\ says_alive d;
  so_wrs : exists ws, wrs s = conv_wrs l ++ ws;
  so_conv : conv_ok l;
  so_cmds : map fst l = start_cmds (en s) modem;
  so_cws : exists cr, cws s = replicate (n * length (present (md_clients s))) true ++ cr;
}.

Lemma sipc_banks modem p : modem ∈ modems -> sipc_of modem = Some p -> NoDup (map (fun x : string * string * Z => x.1.2) (images p)).
Proof.
  intros Hm. unfold sipc_of. modem_cases Hm; intros Hp; injection Hp as <-; apply (bool_decide_unpack _); by vm_compute.
Qed.

Lemma bs_inj a b : bs a = bs b -> a = b.
Proof.
  unfold bs. intros H.
  assert (Inj eq eq (fun c => Z.of_N (Ascii.N_of_ascii c))) as Hi.
  { intros x y E. apply (f_equal (fun z => Ascii.ascii_of_N (Z.to_N z))) in E. by rewrite !N2Z.id, !Ascii.ascii_N_embedding in E. }
  apply (inj (fmap (fun c => Z.of_N (Ascii.N_of_ascii c)))) in H. rewrite <- (String.string_of_list_ascii_of_string a), <- (String.string_of_list_ascii_of_string b). by rewrite H.
Qed.

Lemma bank_paths_nodup modem p proc_prop : modem ∈ modems -> sipc_of modem = Some p -> NoDup (bank_paths proc_prop (images p)).
Proof.
  intros Hm Hp. pose proof (sipc_banks modem p Hm Hp) as H. unfold bank_paths.
  replace (map (fun x : string * string * Z => proc_prop ++ bs x.1.2) (images p))
    with ((fun b => proc_prop ++ bs b) <$> map (fun x : string * string * Z => x.1.2) (images p)) by (by rewrite <- list_fmap_compose || by rewrite (map_map _ (fun b => proc_prop ++ bs b))).
  apply NoDup_fmap_2; [|done]. intros a b E. by apply app_inv_head, bs_inj in E.
Qed.

Lemma length_bs x : length (bs x) = String.length x.
Proof. unfold bs. rewrite length_map. by induction x as [|c x IH]; cbn; [|rewrite IH]. Qed.

(** What [load_sipc_modem_img] does around the writes to the banks [L]. *)
Definition reload_log (modem : Z) (p : sipc) (s : md) (fa fb : Z) (l : conv) (L : list effect) : list effect :=
  ProcFile (proc_path (en s) p ++ bs "stop") (bs "1") :: L ++
  [ProcFile (proc_path (en s) p ++ bs "start") (bs "1"); Opened (tty_path modem s) fa; Closed fa; bcast "modem_alive" (bs (alive_info p))] ++
  all_told (bs (alive_info p) ++ [0]) (md_clients s) ++
  Opened (tty_path modem s) fb :: conv_said fb l ++ Closed fb :: start_effects (en s) modem.

(** The banks hold the images. *)
Definition images_in (p : sipc) (e : env) (before after : list effect) : Prop :=
  Forall (fun x => forall data, parts e (img_path e p ++ bs x.1.1) = Some data ->
            loaded x.2 data (mem (proc_path e p ++ bs x.1.2) before) (mem (proc_path e p ++ bs x.1.2) after)) (images p).

Lemma load_img_ok modem p s fa fb l :
  modem ∈ modems -> sipc_of modem = Some p -> env_ok (en s) p -> script_ok modem 1 s fa fb l ->
  exists L s', load_sipc_modem_img modem true s = Ret 0 s' /\
    log s' = log s ++ reload_log modem p s fa fb l L /\ inert (fun x => x ∈ bank_paths (proc_path (en s) p) (images p)) L /\
    Forall (fun x => forall data m, parts (en s) (img_path (en s) p ++ bs x.1.1) = Some data ->
              loaded x.2 data m (foldl (mem1 (proc_path (en s) p ++ bs x.1.2)) m L)) (images p) /\
    mstate s' modem = MODEM_READY /\ md_clients s' = md_clients s /\ en s' = en s.
Proof.
  intros Hm Hp [Hnvp Him Hfi] [(k & k' & os & Ho) [Hfa Hfb] (nz & d & rest & Hs & Hnz & Hd) (ws & Hw) Hcv Hcm (cr & Hcw)].
  rewrite Nat.mul_1_l in Hcw. apply Forall_cons in Hfi as [[Hf1 Hf2] Hfi]. apply Forall_cons in Hfi as [[Hf3 Hf4] _].
  set (e1 := ProcFile (proc_path (en s) p ++ bs "stop") (bs "1")). set (e2 := ProcFile (proc_path (en s) p ++ bs "start") (bs "1")).
  destruct (load_all_ok (img_path (en s) p) (proc_path (en s) p) (images p) (add_log [e1] s)) as (L & EL & IL & ML);
    [by eapply bank_paths_nodup|done|].
  set (s1 := add_log [e2] (add_log L (add_log [e1] s))). set (s2 := add_log [Opened (tty_path modem s) fa; Closed fa]
    (set_sels (conv_sels l ++ rest) (set_opens (replicate k' OpenAgain ++ OpenFd fb :: os) s1))).
  set (s3 := set_cws cr (add_log (all_told (bs (alive_info p) ++ [0]) (md_clients s)) (add_log [bcast "modem_alive" (bs (alive_info p))] s2))).
  exists L, (set_mstate modem MODEM_READY (started modem fb s3 os l rest ws)). split.
  - unfold load_sipc_modem_img. rewrite Hp. rewrite sbind_run, property_get_run, sbind_run, property_get_run. fold (proc_path (en s) p).
    rewrite sbind_run, write_proc_run by done. fold e1. rewrite sbind_run, property_get_run. cbn [en add_log]. rewrite bool_decide_false by done.
    fold (img_path (en s) p). rewrite sbind_run, EL, sbind_run, write_proc_run by done. fold e2 s1.
    rewrite sbind_run, (wait_alive_run modem k fa (replicate k' OpenAgain ++ OpenFd fb :: os) nz d (conv_sels l ++ rest) s1) by done.
    change (tty_path modem s1) with (tty_path modem s). fold s2. rewrite sbind_run, look_run. change (1 =? 0) with false. cbn [andb].
    rewrite sbind_run, sbind_run, sendBroadcast_run, (loop_info_all _ _ cr) by done.
    rewrite take_ge by (rewrite length_app, length_bs; cbn; lia).
    change (md_clients (add_log _ s2)) with (md_clients s). fold s3.
    rewrite sbind_run, (start_service_run modem fb Hm Hfb s3 k' os l rest ws) by done. by rewrite sbind_run, put_run, sret_run.
  - split; [|split; [done|split; [done|split; [|done]]]].
    + change (log (set_mstate _ _ _)) with (((((((log s ++ [e1]) ++ L) ++ [e2]) ++ [Opened (tty_path modem s) fa; Closed fa]) ++
        [bcast "modem_alive" (bs (alive_info p))]) ++ all_told (bs (alive_info p) ++ [0]) (md_clients s)) ++
        Opened (tty_path modem s) fb :: conv_said fb l ++ Closed fb :: start_effects (en s) modem).
      unfold reload_log. fold e1 e2. rewrite <- !app_assoc. done.
    + cbn. by rewrite Z.eqb_refl.
Qed.

Definition is_bank (x : effect) : bool := match x with Bank _ _ _ => true | _ => false end.
Lemma mem_unchanged path m L : Forall (fun x => is_bank x = false) L -> foldl (mem1 path) m L = m.
Proof. intros H. revert m. induction H as [|x L Hx _ IH]; intros m; [done|]. cbn. destruct x; try done; apply IH. Qed.

Lemma told_inert buf l : inert (fun _ => False) (all_told buf l).
Proof.
  unfold all_told. split.
  - induction (present l) as [|fd p IH]; [done|]. intros r. apply IH.
  - intros p m _. apply mem_unchanged. apply Forall_forall. intros x Hx. apply list_elem_of_fmap in Hx as (fd & -> & _). done.
Qed.
Lemma said_banks fd l : Forall (fun x => is_bank x = false) (conv_said fd l).
Proof.
  unfold conv_said. apply Forall_forall. intros x Hx. apply list_elem_of_join in Hx as (y & Hx & Hy).
  apply list_elem_of_fmap in Hy as (q & -> & _). apply elem_of_replicate in Hx as [-> _]. done.
Qed.
Lemma stop_banks e modem : Forall (fun x => is_bank x = false) (stop_effects e modem).
Proof.
  unfold stop_effects. repeat (apply Forall_app; split); repeat case_match; repeat constructor.
Qed.
Lemma start_banks e modem : Forall (fun x => is_bank x = false) (start_effects e modem).
Proof.
  unfold start_effects, ril_effects, eng_effects, proxy_effects. repeat case_match; cbn [app]; repeat constructor.
Qed.

Section reload.
  Context (modem : Z) (p : sipc) (s : md) (fa fb : Z) (l : conv) (L : list effect)
          (IL : inert (fun x => x ∈ bank_paths (proc_path (en s) p) (images p)) L).

Lemma reload_running r : foldl run1 r (reload_log modem p s fa fb l L) = r ∪ names_set (up (en s) modem).
Proof using IL.
  unfold reload_log. cbn [foldl run1]. rewrite !foldl_app. destruct IL as [-> _]. cbn [foldl run1]. destruct (told_inert (bs (alive_info p) ++ [0]) (md_clients s)) as [-> _].
  cbn [foldl run1]. rewrite foldl_app, run_said. cbn [foldl run1]. apply run_start.
Qed.

Lemma reload_mem path m : foldl (mem1 path) m (reload_log modem p s fa fb l L) = foldl (mem1 path) m L.
Proof using.
  unfold reload_log. cbn [foldl mem1]. rewrite !foldl_app. rewrite (mem_unchanged _ _ [_; _; _; _]) by repeat constructor.
  destruct (told_inert (bs (alive_info p) ++ [0]) (md_clients s)) as [_ ->]; [|tauto]. cbn [foldl mem1]. rewrite foldl_app.
  rewrite (mem_unchanged _ _ (conv_said fb l)) by apply said_banks. cbn [foldl mem1]. by rewrite mem_unchanged by apply start_banks.
Qed.
End reload.

(** What a reset does, with [L] the writes to the banks. *)
Definition reset_log (modem : Z) (p : sipc) (d : list Z) (s : md) (fa fb : Z) (l : conv) (L : list effect) : list effect :=
  [System wake_lock; bcast "modem_reset" (to_nul d)] ++ all_told d (md_clients s) ++ stop_effects (en s) modem ++
  reload_log modem p s fa fb l L ++ [System wake_unlock].


(** ** Recovery of an external modem *)

(** What stopping the external modem does. *)
Definition ext_stop_log (x : ext_modem) (e : env) : list effect :=
  if sSSDAMode x then WakeLock true :: stop_effects e LTE_MODEM ++ [WakeLock false]
  else (if sTestMode x =? SSDA_TEST_MODE_SVLTE then stop_effects e LTE_MODEM else []) ++
       WakeLock true :: stop_effects e TD_MODEM ++ [WakeLock false].

Lemma lte_in : LTE_MODEM ∈ modems.
Proof. unfold modems. set_solver. Qed.
Lemma td_in : TD_MODEM ∈ modems.
Proof. unfold modems. set_solver. Qed.

Lemma stop_external_run s :
  exists s', stop_external_modem s = Ret tt s' /\ log s' = log s ++ ext_stop_log (ext s) (en s) /\ en s' = en s /\ cws s' = cws s /\
    sSSDAMode (ext s') = sSSDAMode (ext s) /\ sTestMode (ext s') = sTestMode (ext s) /\ sFdModemCtl (ext s') = sFdModemCtl (ext s) /\
    md_clients s' = md_clients s.
Proof.
  pose proof lte_in as H1. pose proof td_in as H2. unfold stop_external_modem, ext_stop_log. rewrite sbind_run, look_run.
  destruct (sSSDAMode (ext s)) eqn:Ex.
  - rewrite sbind_run, put_run, sbind_run, emit_run, sbind_run, stop_service_run, emit_run by done.
    eexists. split; [done|]. split; [|done]. cbn. by rewrite <- !app_assoc.
  - destruct (sTestMode (ext s) =? SSDA_TEST_MODE_SVLTE) eqn:Et.
    + rewrite sbind_run, sbind_run, put_run. unfold stop_svlte_service. rewrite sbind_run, look_run, sbind_run.
      cbn [ext set_mstate]. destruct (sStartLteThread (ext s)) eqn:El.
      all: rewrite ?put_run, ?sret_run, stop_service_run by done; rewrite sbind_run, put_run, sbind_run, emit_run, sbind_run, stop_service_run, emit_run by done.
      all: eexists; (split; [done|]); (split; [cbn; by rewrite <- !app_assoc|done]).
    + rewrite sbind_run, sret_run, sbind_run, put_run, sbind_run, emit_run, sbind_run, stop_service_run, emit_run by done.
      eexists. split; [done|]. split; [cbn; by rewrite <- !app_assoc|done].
Qed.

(** A message about a reset: the clients are told, the modem is stopped and modem
    control is asked to load it again. *)
Lemma control_reset_run sfd d s rs rest :
  (0 < length d < 128)%nat -> is_alive (to_nul d) = false -> is_assert (to_nul d) = false -> is_reset (to_nul d) = true ->
  sFdModemCtl (ext s) = sfd -> sfd <> -1 ->
  length rs = length (present (md_clients s)) -> cws s = rs ++ true :: rest ->
  exists s', control_step sfd (Some d) s = Ret false s' /\
    log s' = log s ++ told d (md_clients s) rs ++ ext_stop_log (ext s) (en s) ++ [Wrote sfd (reload_cmd (ext s) ++ [0])] /\
    md_clients s' = dropped (md_clients s) rs.
Proof.
  intros Hd H1 H2 H3 Hfd Hn Hrs Hc. unfold control_step. destruct d as [|c d]; [cbn in Hd; lia|]. set (b := c :: d) in *.
  assert (take 128 b = b) as Ht by (apply take_ge; lia). rewrite Ht, sbind_run, text_short, Ht, H1, H2, H3 by lia.
  rewrite sbind_run, (loop_info_run b (length b) rs (true :: rest)), firstn_all by done.
  set (s1 := set_md_clients _ _). destruct (stop_external_run s1) as (s2 & E2 & L2 & En2 & C2 & X1 & X2 & X3 & M2).
  rewrite sbind_run, E2. unfold reload_or_lost, send_reload_modemd_message. rewrite sbind_run, sbind_run, look_run.
  rewrite X3. change (sFdModemCtl (ext s1)) with (sFdModemCtl (ext s)). rewrite Hfd. destruct (Z.eqb_spec sfd (-1)); [done|].
  rewrite sbind_run, (next_run _ _ true rest) by (by rewrite C2). rewrite sbind_run, emit_run, sret_run. change (0 <? 0) with false. cbv iota.
  eexists. split; [by rewrite sret_run|]. split; [|done]. cbn [log add_log set_cws]. rewrite L2.
  assert (reload_cmd (ext s2) = reload_cmd (ext s)) as -> by (unfold reload_cmd; by rewrite X1).
  change (log s1) with (log s ++ told b (md_clients s) rs). by rewrite <- !app_assoc.
Qed.

(** What modem control makes of the request. *)
Lemma reload_accepted ctl_ok fd x c :
  ctl_ok MODEM_STATE_PATH = true ->
  exists c', process_read ctl_ok fd (Some (reload_cmd x ++ [0])) c = Some c' /\
    capabilities_flag (bt c') = (if sSSDAMode x then MODE_TCSFB else MODE_SVLTE) /\
    sysfs (bt c') = sysfs (bt c) ++ [(MODEM_STATE_PATH, bs "8" ++ [0])].
Proof.
  intros Hok.
  assert (process_read ctl_ok fd (Some (reload_cmd x ++ [0])) c =
    '(_, c) ← on_boot (set_modem_capabilities (if sSSDAMode x then MODE_TCSFB else MODE_SVLTE)) c; snd <$> on_boot (set_modem_state ctl_ok "8") c) as ->
    by (unfold reload_cmd; by destruct (sSSDAMode x)).
  unfold on_boot, set_modem_state, put_ctl, set_modem_capabilities. rewrite Hok. eexists. by split.
Qed.

(** The events of modem control that ask for a reload, in the states in which it
    broadcasts them. *)
Definition reset_event (evt msg : list Z) (st : MODEM_STA_E) : Prop :=
  (evt = bs "2" /\ msg = MODEM_RESET_STR /\ st ∈ [MODEM_STA_ALIVE; MODEM_STA_ASSERT; MODEM_STA_BOOTCOMP]) \/
  (evt = bs "16" /\ msg = WTD_MODEM_RESET_STR /\ st = MODEM_STA_ALIVE).

Lemma reset_event_broadcast ctl_ok prop pid junk evt msg c :
  reset_event evt msg (modem_state c) ->
  exists f, process_modem_state_message ctl_ok prop pid junk evt c = broadcast_modem_state msg (set_flash f c).
Proof.
  intros H. unfold process_modem_state_message, translate_modem_state_message.
  assert (exists z, strtol 10 evt = (z, true) /\ ((z = 2 /\ msg = MODEM_RESET_STR /\ modem_state c ∈ [MODEM_STA_ALIVE; MODEM_STA_ASSERT; MODEM_STA_BOOTCOMP]) \/
    (z = 16 /\ msg = WTD_MODEM_RESET_STR /\ modem_state c = MODEM_STA_ALIVE))) as (z & -> & Hz).
  { destruct H as [(-> & H)|(-> & H)]; eexists; (split; [by vm_compute|]); auto. }
  destruct Hz as [(-> & -> & Hs)|(-> & -> & Hs)]; cbn [Z.ltb Z.compare]; destruct (flash_step _ _) as [f fa]; exists f.
  - change (modem_state (set_flash f c)) with (modem_state c). rewrite !elem_of_cons in Hs. destruct Hs as [E|[E|[E|E]]]; [rewrite E; done..|by apply not_elem_of_nil in E].
  - change (modem_state (set_flash f c)) with (modem_state c). by rewrite Hs.
Qed.

Lemma reset_texts msg : msg ∈ [MODEM_RESET_STR; WTD_MODEM_RESET_STR] ->
  (0 < length msg < 128)%nat /\ is_alive (to_nul msg) = false /\ is_assert (to_nul msg) = false /\ is_reset (to_nul msg) = true.
Proof.
  intros H. rewrite !elem_of_cons in H. destruct H as [->|[->|H]]; [split; [vm_compute; lia|by vm_compute]..|by apply not_elem_of_nil in H].
Qed.

(** When no write fails everybody is told and kept. *)
Lemma all_delivered msg ds used o l (c c1 : ctl) :
  writes c = used ++ writes c1 -> fails used = length (failed ds) -> Forall (fun r => d_ok r = true -> d_n r = length msg) ds ->
  map d_fd ds = l -> out c1 = o ++ delivered msg ds ->
  ModemCtl.client_fd c1 = map (fun f => if decide (f ∈ failed ds) then -1 else f) (ModemCtl.client_fd c) ->
  fails (writes c) = 0%nat -> ModemCtl.client_fd c1 = ModemCtl.client_fd c /\ out c1 = o ++ map (fun f => (f, msg)) l.
Proof.
  intros Hu Hf Hall <- -> -> H0. rewrite Hu, fails_app in H0. assert (failed ds = []) as E by (apply length_zero_iff_nil; lia).
  rewrite E. split.
  - rewrite <- (map_id (ModemCtl.client_fd c)) at 2. apply map_ext. intros f. by rewrite decide_False by (apply not_elem_of_nil).
  - f_equal. clear -Hall E. induction Hall as [|[f n ok] ds Hr _ IH]; [done|]. rewrite failed_cons in E. destruct ok; [|done].
    cbn [delivered map d_fd d_n]. f_equal; [|by apply IH]. cbn in Hr. by rewrite Hr, firstn_all.
Qed.


(** Modem control forwards up to 256 bytes about an assert; the supervisor reads
    them into a buffer of 128 bytes that it searches as a string: a text that fills
    the buffer has no end. *)
Lemma long_assert_undefined sfd d s : (128 <= length d)%nat -> Forall (fun c => c <> 0) d -> control_step sfd (Some d) s = Undef.
Proof.
  intros Hl Hz. unfold control_step. destruct d as [|c d]; [cbn in Hl; lia|]. set (b := c :: d) in *. rewrite sbind_run. unfold text.
  assert (length (take 128 b) = 128)%nat as Ht by (rewrite length_take; lia). rewrite decide_False by lia.
  assert (cstr (take 128 b) = None) as ->; [|done].
  assert (forall m, Forall (fun c => c <> 0) m -> cstr m = None) as Hcs.
  { induction 1 as [|x m Hx _ IH]; [done|]. cbn. destruct (Z.eqb_spec x 0); [done|]. by rewrite IH. }
  by apply Hcs, Forall_take.
Qed.

(** ** Frames

    What a call leaves alone. *)
Definition keeps {A X} (f : md -> X) (m : Sv A) : Prop := forall s a s', m s = Ret a s' -> f s' = f s.

Create HintDb keeps.

Section keeps.
  Context {X : Type} (f : md -> X).

Lemma keeps_ret {A} (a : A) : keeps f (mret a).
Proof. intros s b s' H. by injection H as _ <-. Qed.
Lemma keeps_look {A} (g : md -> A) : keeps f (look g).
Proof. intros s b s' H. by injection H as _ <-. Qed.
Lemma keeps_bind {A A'} (m : Sv A) (g : A -> Sv A') : keeps f m -> (forall a, keeps f (g a)) -> keeps f (m ≫= g).
Proof.
  intros Hm Hg s b s'. rewrite sbind_run. destruct (m s) as [a s1|s1| |] eqn:E; try done. intros H. apply Hg in H. rewrite H. by eapply Hm.
Qed.
Lemma keeps_put g : (forall s, f (g s) = f s) -> keeps f (put g).
Proof. intros H s b s' E. injection E as _ <-. apply H. Qed.
Lemma keeps_if {A} (b : bool) (m m' : Sv A) : keeps f m -> keeps f m' -> keeps f (if b then m else m').
Proof. by destruct b. Qed.
Lemma keeps_stuck {A} : keeps f (stuck : Sv A).
Proof. done. Qed.
Lemma keeps_undef {A} : keeps f (undef : Sv A).
Proof. done. Qed.
Lemma keeps_exit {A} : keeps f (exit_modemd : Sv A).
Proof. intros s a s' H. unfold exit_modemd in H. rewrite sbind_run, look_run, sbind_run in H. by destruct (locking s). Qed.
Lemma keeps_next {A} (get : md -> list A) set : (forall l s, f (set l s) = f s) -> keeps f (next get set).
Proof. intros H s a s' E. unfold next in E. destruct (get s); [done|]. injection E as _ <-. apply H. Qed.
End keeps.
#[export] Hint Resolve keeps_ret keeps_look keeps_stuck keeps_undef keeps_exit : keeps.
#[export] Hint Extern 1 (keeps _ (put _)) => apply keeps_put; done : keeps.
#[export] Hint Extern 1 (keeps _ (emit _)) => apply keeps_put; done : keeps.
#[export] Hint Extern 1 (keeps _ (next _ _)) => apply keeps_next; done : keeps.
#[export] Hint Extern 2 (keeps _ (_ ≫= _)) => apply keeps_bind; [|intros ?] : keeps.
#[export] Hint Extern 3 (keeps _ (if _ then _ else _)) => case_match : keeps.
#[export] Hint Extern 3 (keeps _ (match _ with _ => _ end)) => case_match : keeps.

(** Only [set_mstate] changes the states of the modems. *)
Section mstate.
Local Ltac kept := repeat first [progress auto with keeps | apply keeps_bind; [|intros ?] | case_match].

Lemma k_close fd : keeps mstate (close fd).
Proof. by apply keeps_put. Qed.
Lemma k_prop k v : keeps mstate (property_set k v).
Proof. by apply keeps_put. Qed.
Lemma k_get k v : keeps mstate (property_get k v).
Proof. apply keeps_look. Qed.
Lemma k_start n : keeps mstate (ctl_start n).
Proof. by apply keeps_put. Qed.
Lemma k_stop n : keeps mstate (ctl_stop n).
Proof. by apply keeps_put. Qed.
Local Hint Resolve k_close k_prop k_get k_start k_stop : keeps.

Lemma k_stop_service modem v : keeps mstate (stop_service modem v).
Proof.
  unfold stop_service, stop_engservice, stop_phser, stop_rild, stop_daemons, stop_nvitemd, stop_rilproxy, get_task_pid, kill_phone. kept.
Qed.

Lemma k_atcmd l again fd c : keeps mstate (atcmd_loop l again fd c).
Proof.
  revert again. induction l as [|x l IH]; intros again; cbn [atcmd_loop]; [kept|].
  apply keeps_bind; [kept|]. intros _. unfold text. destruct x as [[]| |[[|b d]|]]; kept.
Qed.
Lemma k_send fd c : keeps mstate (send_or_exit fd c).
Proof. pose proof k_atcmd. unfold send_or_exit, send_atcmd. kept. Qed.
Lemma k_read_imei i b : keeps mstate (read_imei i b).
Proof. unfold read_imei. kept. Qed.
Lemma k_imei idx fd buf : keeps mstate (imei_loop idx fd buf).
Proof.
  pose proof k_send. pose proof k_read_imei. revert buf. induction idx as [|i idx IH]; intros buf; cbn [imei_loop]; kept.
Qed.
Lemma k_open l path : keeps mstate (open_retry l path).
Proof. induction l as [|x l IH]; cbn [open_retry]; kept. Qed.
Lemma k_open_modem path : keeps mstate (open_modem_dev path).
Proof. pose proof k_open. unfold open_modem_dev. kept. Qed.
Lemma k_open_device path : keeps mstate (open_device path).
Proof. unfold open_device. kept. Qed.

Lemma k_start_service modem v r : keeps mstate (start_service modem v r).
Proof.
  pose proof k_send. pose proof k_imei. pose proof k_open_modem. pose proof k_open_device.
  unfold start_service, start_phser, start_engservice, start_rild, start_daemons, start_nvitemd, start_rilproxy, send_imei. kept.
Qed.

Lemma k_info buf l : keeps mstate (info_loop buf l).
Proof. induction l as [|fd l IH]; cbn [info_loop]; kept. Qed.
Lemma k_loop_info buf n : keeps mstate (loop_info_sockclients buf n).
Proof. pose proof k_info. unfold loop_info_sockclients. kept. Qed.
Lemma k_copy fuel data fout : forall i size, keeps mstate (copy_loop fuel data fout i size).
Proof. induction fuel as [|fuel IH]; intros i size; cbn [copy_loop]; kept. Qed.
Lemma k_bus on : keeps mstate (modemd_enable_busmonitor on).
Proof. unfold modemd_enable_busmonitor. kept. Qed.
Lemma k_load_all path pp l : keeps mstate (load_all path pp l).
Proof.
  pose proof k_copy. pose proof k_bus. induction l as [|[[part bank] size] l IH]; cbn [load_all]; unfold load_sipc_image; kept.
Qed.
Lemma k_alive l : forall buf, keeps mstate (alive_loop l buf).
Proof. induction l as [|x l IH]; intros buf; cbn [alive_loop]; kept. Qed.
Lemma k_wait modem : keeps mstate (wait_for_modem_alive modem).
Proof. pose proof k_open_modem. pose proof k_alive. unfold wait_for_modem_alive. kept. Qed.
Lemma k_proc f d : keeps mstate (write_proc_file f d).
Proof. unfold write_proc_file. kept. Qed.
Lemma k_bcast a st info : keeps mstate (sendBroadcast a st info).
Proof. by apply keeps_put. Qed.
Lemma k_reload : keeps mstate send_reload_modemd_message.
Proof. unfold send_reload_modemd_message. kept. Qed.
Lemma k_read l : keeps mstate (read_retry l).
Proof. induction l as [|x l IH]; cbn [read_retry]; kept. Qed.
Lemma k_loop_test dev : keeps mstate (loop_test dev).
Proof. pose proof k_open_device. pose proof k_read. unfold loop_test. kept. Qed.
Lemma k_ext : keeps mstate is_external_modem.
Proof. unfold is_external_modem. kept. Qed.
End mstate.
#[export] Hint Resolve k_close k_prop k_get k_start k_stop k_stop_service k_start_service k_loop_info k_load_all k_wait k_proc k_bcast k_reload k_loop_test k_ext : keeps.

Lemma keeps_comp {A X Y} (f : md -> X) (g : X -> Y) (m : Sv A) : keeps f m -> keeps (fun s => g (f s)) m.
Proof. intros H s a s' E. f_equal. by eapply H. Qed.

(** Loading a modem changes the state of that modem only. *)
Lemma k_load_img modem a m : m <> modem -> keeps (fun s => mstate s m) (load_sipc_modem_img modem a).
Proof.
  intros Hm. unfold load_sipc_modem_img. case_match; [|done].
  repeat first [apply (keeps_comp mstate (fun g => g m)); solve [auto with keeps] | apply keeps_bind; [|intros ?] | case_match
               | apply keeps_put; intros ?; cbn; destruct (Z.eqb_spec m modem); done | apply keeps_ret].
Qed.

Lemma k_raw_reset modem d buf m : m <> modem -> keeps (fun s => mstate s m) (raw_reset modem d buf).
Proof.
  intros Hm. pose proof (k_load_img modem true m Hm). unfold raw_reset, lock, unlock.
  repeat first [done | apply (keeps_comp mstate (fun g => g m)); solve [auto with keeps] | apply keeps_bind; [|intros ?] | case_match | by apply keeps_put | apply keeps_ret].
Qed.

Definition TL_BLOCKED : list Z := bs "TL Modem Blocked".

(** The text for a blocked TL modem contains the one for the LTE modem, which is
    tested before: its handling marks the LTE modem, and since loading the TL modem
    makes only the TL modem ready again, the next such message does nothing. *)
Theorem tl_blocked_once soc s b s1 :
  mstate s LTE_MODEM = MODEM_READY -> blocked_step TL_MODEM soc (Some TL_BLOCKED) s = Ret b s1 ->
  mstate s1 LTE_MODEM = MODEM_ASSERT /\ forall soc', blocked_step TL_MODEM soc' (Some TL_BLOCKED) s1 = Ret false s1.
Proof.
  intros Hr. assert (forall soc s, blocked_step TL_MODEM soc (Some TL_BLOCKED) s =
    (if negb (mstate s LTE_MODEM =? MODEM_READY) then mret false
     else _ ← put (set_mstate LTE_MODEM MODEM_ASSERT); e ← is_external_modem;
          _ ← (if (e : bool) then mret tt else dev ← property_get "ro.modem.tl.loop" (bs "/dev/spipe_lte0"); loop_test dev);
          _ ← raw_reset TL_MODEM TL_BLOCKED TL_BLOCKED; mret false : Sv bool) s) as Hstep by done.
  rewrite Hstep, Hr. change (negb (MODEM_READY =? MODEM_READY)) with false. cbv iota. rewrite sbind_run, put_run.
  set (s0 := set_mstate LTE_MODEM MODEM_ASSERT s). intros E.
  assert (mstate s1 LTE_MODEM = mstate s0 LTE_MODEM) as E1.
  { revert E. apply (keeps_bind (fun s => mstate s LTE_MODEM)); [apply (keeps_comp mstate (fun g => g LTE_MODEM)); auto with keeps|]. intros e.
    apply keeps_bind; [|intros _; apply keeps_bind; [by apply k_raw_reset|intros _; apply keeps_ret]].
    destruct e; [apply keeps_ret|]. apply keeps_bind; [apply keeps_look|intros dev]. apply (keeps_comp mstate (fun g => g LTE_MODEM)). auto with keeps. }
  change (mstate s0 LTE_MODEM) with MODEM_ASSERT in E1. split; [done|]. intros soc'. rewrite Hstep, E1. done.
Qed.

(** ** The descriptors that are watched *)

Definition rfds_of (m : res det) : option (gset Z) := match m with Ret t _ => Some (d_rfds t) | _ => None end.

(** A pass that returns leaves in [select]'s set only what was readable. *)
Lemma sipc_step_rfds modem ready d t s t' s' :
  sipc_step modem ready d t s = Ret t' s' -> d_rfds t' = d_rfds t ∩ ready /\ d_assert t' = d_assert t /\ d_watchdog t' = d_watchdog t.
Proof.
  unfold sipc_step. case_decide; [done|]. set (fd := if decide _ then _ else _). set (t1 := set_rfds _ fd t).
  assert (forall (m : Sv det) s, (forall s a s', m s = Ret a s' -> a = t1) -> m s = Ret t' s' ->
    d_rfds t' = d_rfds t ∩ ready /\ d_assert t' = d_assert t /\ d_watchdog t' = d_watchdog t) as Hr.
  { intros m s0 Hm E. by rewrite (Hm _ _ _ E). }
  assert (forall A (m : Sv A) (g : A -> Sv det), (forall a s x s', g a s = Ret x s' -> x = t1) -> forall s x s', (m ≫= g) s = Ret x s' -> x = t1) as Hb.
  { intros A m g Hg s0 x s0'. rewrite sbind_run. destruct (m s0); try done. apply Hg. }
  assert (forall s x s', (mret t1 : Sv det) s = Ret x s' -> x = t1) as Ht by (intros ? ? ? E; by injection E).
  apply Hr. intros s0 a s0'. destruct (fd <=? 0); [apply Ht|]. apply Hb. intros _.
  destruct d as [[|c d]|]; [exact Ht| |exact Ht]. apply Hb. intros buf. case_match; [do 6 (apply Hb; intros ?); exact Ht|].
  case_match; [|apply Hb; intros ?; exact Ht]. do 4 (apply Hb; intros ?). apply Hb. intros v.
  case_match; apply Hb; intros ?; exact Ht.
Qed.

(** [select]'s set is filled before the loop only: after a message of the modem the
    watchdog is not watched any more, and when it fires [select] does not return. *)
Theorem watchdog_deaf modem d t s t' s' :
  d_assert t <> d_watchdog t -> sipc_step modem {[d_assert t]} d t s = Ret t' s' ->
  forall d' s'', sipc_step modem {[d_watchdog t]} d' t' s'' = Stuck.
Proof.
  intros Hn E d' s''. apply sipc_step_rfds in E as (E & _ & _). unfold sipc_step. rewrite decide_True; [done|]. rewrite E. set_solver.
Qed.

(** ** Examples *)

Definition demo_img : list Z := replicate (Z.to_nat 0xbb0000) 7.
Definition det_props (k : string) : option (list Z) :=
  if decide (k = TD_TTY_DEV_PROP) then Some (bs "/dev/stty_td")
  else if decide (k = "ro.product.partitionpath") then Some (bs "/dev/mmc/")
  else if decide (k = "persist.modem.t.nvp") then Some (bs "td")
  else if decide (k = "ro.modem.t.dev") then Some (bs "/proc/cpt/")
  else if decide (k = MODEM_RESET_PROP) then Some (bs "1") else None.
Definition det_env : env := Env det_props [] (fun _ => None) (fun _ => Some demo_img) (fun _ => true) (fun _ _ n => n) true.
Definition det_conv : conv :=
  [(bs "AT" ++ [13], Turn [] (bs "OK")); (bs "AT+CMUX=0" ++ [13], Turn [SelTimeout] (bs "OK"))].
Definition det_md : md :=
  Md det_env [OpenFd 5; OpenAgain; OpenFd 6] (conv_wrs det_conv) (SelErr true :: SelRead (Some (bs "Modem Alive")) :: conv_sels det_conv)
    (replicate 4 true) [] (-1) [8; -1; 9] [] false false (fun _ => MODEM_READY) false (Ext false false 0 (-1)) [].
Definition td_sipc : sipc :=
  Sipc "t.nvp" "ro.modem.t.dev" [("modem", "modem", TD_MODEM_SIZE); ("dsp", "dsp", TD_DSP_SIZE)] "TD Modem Alive".
Definition demo_det : det := Det 3 4 {[3; 4]} (-1) [] [].

Lemma demo_loadable fin fout size : 0 <= size <= 0xbb0000 -> loadable det_env fin fout size demo_img.
Proof.
  intros Hs. split; [reflexivity|]. split; [|split; [reflexivity|intros o n; reflexivity]]. unfold demo_img. rewrite length_replicate, Z2Nat.id by lia. done.
Qed.

Lemma det_env_ok : env_ok det_env td_sipc.
Proof.
  split.
  - by vm_compute.
  - apply Forall_cons. split; [exists demo_img; apply demo_loadable; cbn [snd]; unfold TD_MODEM_SIZE; lia|].
    apply Forall_cons. split; [exists demo_img; apply demo_loadable; cbn [snd]; unfold TD_DSP_SIZE; lia|]. apply Forall_nil. exact I.
  - apply Forall_cons. split; [split; reflexivity|]. apply Forall_cons. split; [split; reflexivity|]. apply Forall_nil. exact I.
Qed.

Lemma det_script_ok : script_ok TD_MODEM 2 det_md 5 6 det_conv.
Proof.
  split.
  - by exists 0%nat, 1%nat, [].
  - lia.
  - exists [SelErr true], (bs "Modem Alive"), []. split; [reflexivity|]. split; [reflexivity|]. split; [vm_compute; lia|].
    split; [|by vm_compute]. apply Forall_forall. intros c Hc ->. revert Hc. apply (bool_decide_unpack _). by vm_compute.
  - by exists [].
  - unfold conv_ok, det_conv. repeat constructor; by vm_compute.
  - by vm_compute.
  - by exists [].
Qed.


(** The supervisor is client 6 of modem control, and its connection is 11. *)
Definition ext_md : md :=
  Md det_env [] [] [] [true; false; true] [] (-1) [8; -1; 9] [] false false (fun _ => MODEM_READY) false (Ext false true 0 11) [].
Definition ext_ctl : ctl := set_writes (replicate 160 (WGot 1)) demo_alive.

Lemma ext_ctl_ok : tables_ok 4 ext_ctl.
Proof.
  apply (tables_ok_fields 4 demo_alive); [|reflexivity..]. apply demo_alive_ok.
Qed.


(** A client that comes when the table is full takes the last slot. *)
Example full_table : fill_from 0 42 (seqZ 1 10) = seqZ 1 9 ++ [42].
Proof. done. Qed.

(** A client that has left a hole in front of the one that answers makes the scan
    undefined. *)
Example hole_undefined :
  detect_clients_dispose_state (set_dsels [DReady {[9]} (fun _ => Some (bs "MINIDUMP"))] (set_md_clients [-1; 9] det_md)) = Undef.
Proof. done. Qed.

(** What modem control broadcasts is recognized for what it is. *)
Example control_texts :
  is_alive MODEM_ALIVE_STR = true /\ (is_alive MODEM_ASSERT_STR, is_assert MODEM_ASSERT_STR) = (false, true) /\
  (is_alive LTE_MODEM_RESET_STR, is_assert LTE_MODEM_RESET_STR, is_reset LTE_MODEM_RESET_STR) = (false, false, true).
Proof. by vm_compute. Qed.

(** A first message about the TL modem, with resets switched off. *)
Definition blocked_md : md :=
  Md (Env (fun _ => None) [] (fun _ => None) (fun _ => None) (fun _ => false) (fun _ _ n => n) true) [OpenFail] [] [] [true] [] (-1) [8] []
    false false (fun _ => MODEM_READY) false (Ext false false 0 (-1)) [].
Example tl_blocked_runs : exists s1, blocked_step TL_MODEM 5 (Some TL_BLOCKED) blocked_md = Ret false s1 /\ mstate s1 TL_MODEM = MODEM_READY.
Proof. eexists. split; [by vm_compute|done]. Qed.
